(* ===== verification/_CoqProject ===== *)
-Q . S2P
Prelude.v
JsValue.v
JsDate.v
Types.v
Utils.v
Nanostores.v
Live.v
SystemsManager.v
Toast.v
Alerts.v
Api.v
Charts.v
ChartView.v
SystemsTable.v
QuietHours.v
QuickLinks.v
Containers.v
Smart.v
Tokens.v
AlertHistory.v
PackageUpdates.v
AlertsSheet.v
Systemd.v
Settings.v
Login.v
AddSystem.v
InfoBar.v
ChartParts.v
Palette.v
Boot.v
ContainerSheet.v
Observer.v
Controls.v
SystemdSheet.v
GeneralForm.v
JsonText.v
Dom.v
TableLib.v
QuickLinksUi.v
ExternalLinksUi.v
QuietHoursUi.v
NotificationsUi.v
ActionsUi.v
TokensUi.v
AddSystemUi.v
HistoryUi.v
SmartUi.v
PackageUpdatesUi.v
AlertsUi.v
GeneralUi.v
ShellUi.v
Preferences.v
VirtualRows.v
ContainersUi.v
SystemdUi.v
SystemUi.v
ChartsUi.v
LoginUi.v
FleetUi.v
HomeUi.v
SystemsUi.v
Account.v
