(* ===== verification/Prelude.v ===== *)
(** * Beszel dashboard: verification library

    The repository is a fork of Beszel, a monitor of servers.  Agents report to a hub (Go, built on
    PocketBase); the dashboard is a React application in TypeScript, [src/internal/site/src], that
    shows the systems, their charts, containers, disks, services, package updates and alerts, and
    edits their settings.  This library models the dashboard, whose code holds the state: the hub
    is a server that answers requests and sends realtime messages.  File names below are relative
    to [src/internal/site/src].

    ** How the program is put together

    The state lives in map stores and atoms of the [nanostores] package ([lib/stores.ts]).  [main.tsx]
    shows the login page or the application, and starts the chain systems, subscription, alerts,
    subscription.  [lib/systemsManager.ts] and [lib/alerts.ts] write the stores from requests and
    realtime messages; pages read the stores, keep state of their own, send requests whose answers
    come at any time, and write settings through [lib/api.ts].  In the model a component's state is a
    record, a handler a function on it, an answer an event with a value that says what the server
    said ([None] or a constructor for a failure), and a component's life a fold of its step function
    over events, or an inductive relation where the environment has to behave in a certain way.

    ** Files

    Foundations.  [Prelude]: insertion-ordered dictionaries ([jsmap]), truthiness, shared lemmas, hint
    databases.  [JsValue]: strings, [Number], [toFixed], the stable sort.  [JsDate]: UTC calendar and
    the local-time interface.  [Types]: [lib/enums.ts] and [types.d.ts].  [Nanostores]: the interface of
    the map stores with its laws and a reference instance.  [Live]: lists kept in step with a
    collection by realtime messages, proved once for the class [LiveTable]; its module [Feed] is the list and its
    subscription as the server answers them, in any order and with losses, for the pages that set up both.

    Shared code.  [Utils]: [lib/utils.ts].  [SystemsManager]: [lib/systemsManager.ts].  [Alerts]:
    [lib/alerts.ts], [components/active-alerts.tsx].  [Api], [Account]: [lib/api.ts].  [Toast]: [components/ui/use-toast.ts].
    [Observer]: [lib/use-intersection-observer.ts].  [Boot]: the effect of [App] in [main.tsx], composed of
    the managers and the session.

    Signing in and moving around.  [GeneralForm]: [routes/settings/general.tsx].  [Login]: [components/login/], the gate in [main.tsx].  [Palette]:
    [components/command-palette.tsx], [components/navbar.tsx].  [Settings]: [components/routes/settings/],
    [lib/i18n.ts], [components/router.tsx].  [Controls]: small components.
    [Preferences], over [JsonText]: every value that [useBrowserStorage] of [lib/utils.ts] keeps.

    The list of systems.  [SystemsTable]: [components/systems-table/], [update-agents-button.tsx].
    [VirtualRows]: the long lists of the three tables.
    [AddSystem]: [components/add-system.tsx], [install-dropdowns.tsx].  [AlertsSheet]:
    [components/alerts/alerts-sheet.tsx].  [QuickLinks]: [components/quick-links.tsx], [external-links.tsx].

    The page of a system.  [Charts]: records, cache, fetches and realtime measurements of
    [components/routes/system.tsx].  [ChartView]: which charts are shown and what they read.  [ChartParts]:
    [components/charts/], the sheets of processor and network, [components/ui/chart.tsx].  [InfoBar]:
    [routes/system/info-bar.tsx].  [Containers], [ContainerSheet]: [components/containers-table/].  [Smart]:
    [routes/system/smart-table.tsx].  [Systemd], [SystemdSheet]: [components/systemd-table/].
    [PackageUpdates]: [components/package-updates-table/].

    Settings with lists of their own.  [QuietHours], [Tokens], [AlertHistory]: the pages of the same name.

    ** Pages as the user meets them

    [Dom] is the screen: a page draws a list of widgets (texts, buttons, links, inputs, selects, checkboxes,
    sliders, open dialogs), each with the event its handler stands for.  [Dom.offered] says which events a drawn
    page lets the user cause, [Dom.reachable] collects the states a page comes to when only such events happen and
    what the server or another part does ([outside] in each file).  So a theorem about a page is about what can
    really be clicked, and a guard that is only drawn (a disabled button, a row that is hidden) counts.  [TableLib]
    is what the pages with tables rely on in the table library: sorting, filters, pages, selection, and the
    cells it remembers.

    Each of these files draws a component of above, keeps its requests in flight, and answers them in any order:
    [LoginUi] (signing in), [ShellUi] (the frame: routes, bar, palette, navigation of the settings), [SystemsUi] and [ActionsUi]
    (the list of systems and its menus), [FleetUi] (the actions on several systems, the configuration file), [HomeUi] (the cards of active alerts, the bells), [AddSystemUi], [AlertsUi] (the sheet of alerts), [SystemUi] (the
    page of a system with its effects), [ChartsUi] (the charts with their tooltips and axes), [ContainersUi], [SystemdUi], [SmartUi], [PackageUpdatesUi] (its
    tables and sheets), [QuickLinksUi], [ExternalLinksUi], [QuietHoursUi], [NotificationsUi], [GeneralUi], [TokensUi],
    [HistoryUi] (the settings and lists of links).  The theorem of a file has the name of its page; most say that the
    page goes through states of the underlying machine only, that every control that is drawn does what its
    label says and what its component allows, which requests leave the page and about which record, and that what has to
    be possible is offered.  Where a page is right only if the server keeps an order, nothing is lost, or nothing changes
    while two requests are set up, the theorem has that as a condition ([calm], [in_turn], [turn]), says what holds without
    it, and an [Example] shows that it is needed ([token_not_shown], [list_and_messages], [earlier_system], [late_write_wins]).
    What a component holds on to although its inputs have changed is part of its state: the bells of [SystemsUi], the
    devices of the system left in [SmartUi], the host of the closed dialog in [AddSystemUi], the records as the
    filter last read them in [SystemdUi].
    [Example]s after a theorem play a script of clicks and show behaviour that is not what one would want.

    Class names, icons, placeholders and hover texts are left out; menus are drawn open; a dialog is modal;
    a key the page listens to is drawn as a button; a link leaves for the address it names.

    ** What is proved

    Stores: [reachable_invariant] (the stores by status mirror the store by id in every reachable
    state), the exact effect of [update], [remove] and [refresh], termination of the listener's queue
    ([drain_empties]), refinement of the batched alerts to one-by-one handling, and for the whole start
    [boot_follows_server]: the page shows the server's systems, with the one window in which it does not
    ([deletion_in_the_gap]).  [filteredData_by_status] carries the invariant to the table's filters.

    Lists and realtime: [live_history] and its four instances.  Charts: gaps are added exactly where
    records are too far apart, the cache is extended without overlap, which answer is shown last.

    Requests in any order: machines with pending requests for the container sheet, the service sheet,
    package updates, alerts, the user's settings ([Account], also from one sign-in to the next), adding a system.  Each has a theorem for the order in which
    the page is right and, where there is one, a theorem for the order in which it is not.

    What the browser keeps: [preferences_remembered] refines the texts in the storages of any number of
    tabs, whatever readable texts they hold at first, to what was chosen last; values are read back as they were written
    ([parse_stringify]).  A choice of what is drawn already stores nothing ([choice_not_kept]), a text that cannot be read
    takes the page down ([broken_text]).

    Pages: for each page above, reachability by what is drawn, refinement of its machine, the requests it can
    send and what it must offer; [charts_tooltip] says what the tooltip of any chart shows.

    Pure code: versions, formatting, durations, colours, keys of charts, report groups, windows of
    quiet hours against the hub's rule in every time zone, compose files read back, YAML, CSV.

    The theorems that are properties of the manifest carry its number ([C1] ...); the others that stand
    for themselves are called facts.

    ** Abstractions

    Numbers are exact rationals or integers where the code has floating point, with [NaN] and the
    infinities where the code can produce them; rounding is modelled where the code rounds ([toFixed],
    [Math.ceil]).  Strings are ASCII, one character per UTF-16 unit.  Object keys are kept in insertion
    order (the reordering of integer-like keys is left out: identifiers, names and labels are not such
    keys, and where they might be, no theorem depends on the order).  Messages are the English ones.
    An event handler runs to its next [await] without interruption, as the language does.  Objects
    that are shared and mutated are kept in a store with references ([Systemd], the tooltip in
    [ChartParts], rows in [ContainerSheet]).

    Interfaces: what is not in the repository, or depends on the machine, is a class.  With laws, which
    state documented behaviour and have a reference instance in which the witnesses compute: [MapStore]
    (Nanostores), [D3Time] and [Timed], [SettingsServer], [Client] (what the client library gives up), [Valibot], [Collator] (the order of names),
    [RowModel] (the selected rows of the table library), the classes of [TableLib], [Engine] (the drawing library: the items of
    a tooltip); between parts of the development [LiveTable].
    Without laws: [LocalTime] and [LocalDates] (the local side of [Date]), [Intl], [DateParse].

    Recursion that is not structural uses fuel with a proof that it is enough: [drain_fuel] counts the
    queued calls and the stored systems, each turn of the loop takes one of them away ([drain_empties]);
    the reader of stored texts has the length of the text, each turn takes a character;
    the calendar and number readers are structural.

    ** Not modelled, and why

    Styles, icons ([components/ui/icons.tsx], [components/logo.tsx]) and the primitives in [components/ui/] that only
    wrap a library (button, select, sheet, dialog, command, table and the like: the widgets of [Dom] stand for
    what the pages use of them); the libraries themselves (router, table, virtual list, the curves of the charts,
    highlighter, schema library beyond its interface, PocketBase client); [lib/shiki.ts], [locales/] and other glue that
    calls one function; the search of the command palette; keyboard focus and scrolling beyond the rows that
    are drawn.  The hub, the agents and their protocols (Go) are outside; the rules of the hub a theorem
    compares with are quoted in the file that uses them. *)
From Stdlib Require Import QArith Qround Lqa Lia ZArith Sorting.Permutation.
From stdpp Require Export base option list strings pretty sets gmap.

(** ** Notations, hint databases *)

Declare Scope js_scope.
Delimit Scope js_scope with js.

Create HintDb js_map.
Create HintDb js_list.
Create Rewrite HintDb js_map.
Create Rewrite HintDb js_list.

(** equality of the representation of a rational, used only to decide equality of records *)
#[export] Instance Q_rep_eq_dec : EqDecision Q.
Proof. solve_decision. Defined.

(** ** Truthiness, [??] and [||]

    [option] stands for a value that may be [undefined] or [null].  [a ?? b] looks at
    absence only; [a || b] also replaces the falsy values of the type ([0], [""]). *)

Class Truthy (A : Type) := truthy : A → bool.

#[export] Instance truthy_bool : Truthy bool := λ b, b.
#[export] Instance truthy_string : Truthy string := λ s, negb (String.eqb s "").
Lemma truthy_nonempty (s : string) : truthy s = true ↔ s ≠ ""%string.
Proof. unfold truthy, truthy_string. by rewrite negb_true_iff, String.eqb_neq. Qed.
#[export] Instance truthy_Z : Truthy Z := λ z, negb (Z.eqb z 0).
#[export] Instance truthy_Q : Truthy Q := λ q, negb (Qeq_bool q 0).
#[export] Instance truthy_list {A} : Truthy (list A) := λ _, true.
#[export] Instance truthy_option {A} `{Truthy A} : Truthy (option A) :=
  λ o, match o with Some x => truthy x | None => false end.

(** [a || b] on a possibly absent left operand *)
Definition js_or {A} `{Truthy A} (a : option A) (b : A) : A :=
  match a with Some x => if truthy x then x else b | None => b end.

(** [a || undefined] *)
Definition js_or_undef {A} `{Truthy A} (a : option A) : option A :=
  match a with Some x => if truthy x then Some x else None | None => None end.

Notation "a ?? b" := (default b a) (at level 55, right associativity) : js_scope.
Notation "a |? b" := (js_or a b) (at level 55, right associativity) : js_scope.

(** ** Insertion-ordered dictionaries

    A JavaScript [Map], or an object used as a dictionary, iterates over its keys in
    insertion order: writing an existing key keeps its place, writing a new one appends it. *)

Abbreviation jsmap A := (list (string * A)).

Section JsMap.
Context {A : Type}.
Implicit Types (m : jsmap A) (k : string) (v : A).

(** [m.get(k)], [m[k]] *)
Fixpoint jget k m : option A :=
  match m with
  | [] => None
  | (k', v) :: m' => if String.eqb k k' then Some v else jget k m'
  end.

(** [m.set(k, v)], [{ ...m, [k]: v }] *)
Fixpoint jset k v m : jsmap A :=
  match m with
  | [] => [(k, v)]
  | (k', v') :: m' => if String.eqb k k' then (k', v) :: m' else (k', v') :: jset k v m'
  end.

(** [m.delete(k)], [delete m[k]] *)
Definition jdel k m : jsmap A :=
  List.filter (λ p, negb (String.eqb k p.1)) m.

(** [m.has(k)], [k in m] *)
Definition jhas k m : bool := match jget k m with Some _ => true | None => false end.

(** [Object.keys], [Object.values] *)
Definition jkeys m : list string := m.*1.
Definition jvalues m : list A := m.*2.

(** every key occurs once *)
Definition jwf m : Prop := NoDup (jkeys m).

(** two dictionaries that answer every lookup alike (the order of the keys may differ) *)
Definition jequiv m1 m2 : Prop := ∀ k, jget k m1 = jget k m2.

#[global] Instance jequiv_equivalence : Equivalence jequiv.
Proof.
  split; unfold jequiv.
  - intros m k; reflexivity.
  - intros m1 m2 H k; symmetry; apply H.
  - intros m1 m2 m3 H1 H2 k; rewrite H1; apply H2.
Qed.

Lemma jget_jset_eq k v m : jget k (jset k v m) = Some v.
Proof.
  induction m as [|[k' v'] m IH]; simpl.
  - by rewrite String.eqb_refl.
  - destruct (String.eqb k k') eqn:E; simpl; rewrite E; [done | apply IH].
Qed.

Lemma jget_jset_ne k k' v m : k ≠ k' → jget k' (jset k v m) = jget k' m.
Proof.
  intros Hne. induction m as [|[k0 v0] m IH]; simpl.
  - destruct (String.eqb_spec k' k); congruence.
  - destruct (String.eqb_spec k k0) as [->|]; simpl.
    + destruct (String.eqb_spec k' k0); [congruence | done].
    + destruct (String.eqb k' k0); [done | apply IH].
Qed.

Lemma jget_jset k k' v m :
  jget k' (jset k v m) = if String.eqb k k' then Some v else jget k' m.
Proof.
  destruct (String.eqb_spec k k') as [->|Hne];
    [apply jget_jset_eq | by apply jget_jset_ne].
Qed.

Lemma jget_jdel k k' m :
  jget k' (jdel k m) = if String.eqb k k' then None else jget k' m.
Proof.
  unfold jdel. induction m as [|[k0 v0] m IH]; simpl.
  - by destruct (String.eqb k k').
  - destruct (String.eqb_spec k k0) as [->|Hk]; simpl; rewrite ?IH.
    + destruct (String.eqb_spec k0 k') as [->|]; [done|].
      destruct (String.eqb_spec k' k0); [congruence | done].
    + destruct (String.eqb_spec k' k0) as [->|]; [|done].
      destruct (String.eqb_spec k k0); [congruence | done].
Qed.

Lemma jget_jdel_eq k m : jget k (jdel k m) = None.
Proof. by rewrite jget_jdel, String.eqb_refl. Qed.

Lemma jget_jdel_ne k k' m : k ≠ k' → jget k' (jdel k m) = jget k' m.
Proof. intros. rewrite jget_jdel. by destruct (String.eqb_spec k k'). Qed.

Lemma jget_Some_elem k v m : jget k m = Some v → (k, v) ∈ m.
Proof.
  induction m as [|[k' v'] m IH]; simpl; [done|].
  destruct (String.eqb_spec k k') as [->|]; intros H; simplify_eq; set_solver.
Qed.

Lemma jkeys_cons k v m : jkeys ((k, v) :: m) = k :: jkeys m.
Proof. done. Qed.

Lemma jget_None k m : jget k m = None ↔ k ∉ jkeys m.
Proof.
  induction m as [|[k' v'] m IH]; [by split; [intros _ H; inversion H|]|].
  rewrite jkeys_cons, not_elem_of_cons, <-IH. simpl.
  destruct (String.eqb_spec k k') as [->|Hne].
  - split; [done | by intros [? _]].
  - by split; [intros | intros [_ ?]].
Qed.

Lemma jget_is_Some k m : is_Some (jget k m) ↔ k ∈ jkeys m.
Proof.
  destruct (jget k m) eqn:E.
  - apply jget_Some_elem in E. split; [|by eauto].
    intros _. unfold jkeys. apply list_elem_of_fmap. by exists (k, a).
  - apply jget_None in E. split; [by intros [? ?] | done].
Qed.

Lemma elem_jget k v m : jwf m → (k, v) ∈ m → jget k m = Some v.
Proof.
  unfold jwf, jkeys. induction m as [|[k' v'] m IH]; simpl; intros Hnd Hin.
  - inversion Hin.
  - apply NoDup_cons in Hnd as [Hni Hnd].
    apply elem_of_cons in Hin as [[= -> ->]|Hin]; [by rewrite String.eqb_refl|].
    destruct (String.eqb_spec k k') as [->|]; [|by apply IH].
    destruct Hni. apply list_elem_of_fmap. by exists (k', v).
Qed.

Lemma jkeys_jset k v m :
  jkeys (jset k v m) = if jhas k m then jkeys m else jkeys m ++ [k].
Proof.
  unfold jhas. induction m as [|[k' v'] m IH]; [done|].
  cbn -[jkeys]. destruct (String.eqb k k') eqn:E; [done|].
  rewrite !jkeys_cons, IH. by destruct (jget k m).
Qed.

Lemma jkeys_jdel k m : jkeys (jdel k m) = List.filter (λ k', negb (String.eqb k k')) (jkeys m).
Proof.
  unfold jdel. induction m as [|[k' v'] m IH]; [done|].
  rewrite jkeys_cons. cbn -[jkeys].
  destruct (String.eqb k k'); cbn -[jkeys]; [done | by rewrite jkeys_cons, IH].
Qed.

Lemma jwf_nil : jwf [].
Proof. constructor. Qed.

Lemma jwf_jset k v m : jwf m → jwf (jset k v m).
Proof.
  unfold jwf. intros H. rewrite jkeys_jset. unfold jhas.
  destruct (jget k m) eqn:E; [done|]. apply jget_None in E.
  apply NoDup_app. split; [done|]. split; [|apply NoDup_singleton].
  intros x Hx Hk. apply list_elem_of_singleton in Hk as ->. done.
Qed.

Lemma elem_of_filter_bool {B} (f : B → bool) (x : B) (l : list B) : x ∈ List.filter f l ↔ x ∈ l ∧ f x = true.
Proof. by rewrite list_elem_of_In, filter_In, <-list_elem_of_In. Qed.
Lemma NoDup_fmap_filter {B C} (g : B → C) (f : B → bool) (l : list B) :
  NoDup (g <$> l) → NoDup (g <$> List.filter f l).
Proof.
  induction l as [|x l IH]; [done|]. rewrite fmap_cons. intros [Hx Hnd]%NoDup_cons. cbn.
  destruct (f x); [|by apply IH]. cbn. apply NoDup_cons. split; [|by apply IH].
  intros (y & E & Hy)%list_elem_of_fmap. apply Hx. apply elem_of_filter_bool in Hy as [Hy _].
  rewrite E. by apply list_elem_of_fmap_2.
Qed.
Lemma NoDup_list_filter {B} (f : B → bool) (l : list B) : NoDup l → NoDup (List.filter f l).
Proof.
  induction 1 as [|x l Hx Hl IH]; simpl; [constructor|].
  destruct (f x); [|done]. constructor; [|done].
  intros Hin. apply Hx. apply list_elem_of_In in Hin. apply filter_In in Hin.
  by apply list_elem_of_In, Hin.
Qed.

Lemma jwf_jdel k m : jwf m → jwf (jdel k m).
Proof. unfold jwf. rewrite jkeys_jdel. apply NoDup_list_filter. Qed.

Lemma jdel_absent k m : jget k m = None → jdel k m = m.
Proof.
  unfold jdel. induction m as [|[k' v'] m IH]; simpl; [done|].
  destruct (String.eqb k k'); simpl; [done | intros H; by rewrite IH].
Qed.

Lemma jset_present k v m : jget k m = Some v → jset k v m = m.
Proof.
  induction m as [|[k' v'] m IH]; simpl; [done|].
  destruct (String.eqb_spec k k') as [->|]; intros H; simplify_eq; [done | by rewrite IH].
Qed.

(** a dictionary that holds the part of another that satisfies [P] holds the same values *)
Lemma jvalues_filter_perm (P : A → bool) (m1 m2 : jsmap A) :
  jwf m1 → jwf m2 →
  (∀ k v, jget k m1 = Some v ↔ jget k m2 = Some v ∧ P v = true) →
  jvalues m1 ≡ₚ List.filter P (jvalues m2).
Proof.
  intros H1 H2 H.
  assert (∀ m, jwf m → NoDup m) as Hnd by (intros m; apply NoDup_fmap_1).
  assert (m1 ≡ₚ List.filter (λ p, P p.2) m2) as Hp.
  { apply NoDup_Permutation; [by apply Hnd | by apply NoDup_list_filter, Hnd |].
    intros [k v]. rewrite (list_elem_of_In (List.filter _ _)), filter_In, <-list_elem_of_In. cbn. split.
    - intros Hin%(elem_jget _ _ _ H1). apply H in Hin as [Hin HP].
      split; [by apply jget_Some_elem | done].
    - intros [Hin HP]. apply (elem_jget _ _ _ H2) in Hin. apply jget_Some_elem, H. done. }
  unfold jvalues. rewrite Hp. clear. induction m2 as [|[k v] m2 IH]; [done|]. cbn.
  destruct (P v); cbn; by rewrite IH.
Qed.

#[global] Instance jset_proper k v : Proper (jequiv ==> jequiv) (jset k v).
Proof. intros m1 m2 H k'. rewrite !jget_jset. by destruct (String.eqb k k'); [|apply H]. Qed.

#[global] Instance jdel_proper k : Proper (jequiv ==> jequiv) (jdel k).
Proof. intros m1 m2 H k'. rewrite !jget_jdel. by destruct (String.eqb k k'); [|apply H]. Qed.

End JsMap.

#[export] Hint Rewrite @jget_jset_eq @jget_jdel_eq @jget_jset @jget_jdel : js_map.
#[export] Hint Resolve jwf_nil jwf_jset jwf_jdel : js_map.

(** [array.flat()] *)
Lemma elem_of_concat {A} (x : A) (ls : list (list A)) : x ∈ concat ls ↔ ∃ l, x ∈ l ∧ l ∈ ls.
Proof.
  rewrite list_elem_of_In, in_concat. split; intros (l & H1 & H2); exists l;
    revert H1 H2; rewrite !list_elem_of_In; tauto.
Qed.

(** filtering loses nothing but what it leaves out, in whatever order *)
Lemma filter_perm {A} (f : A → bool) (l l' : list A) : l ≡ₚ l' → List.filter f l ≡ₚ List.filter f l'.
Proof.
  induction 1 as [|x l l' _ IH|x y l|l1 l2 l3 _ IH1 _ IH2]; cbn; [done|..].
  - destruct (f x); [by rewrite IH|done].
  - destruct (f x), (f y); try done. apply Permutation_swap.
  - by rewrite IH1.
Qed.

(** [condition && <Part />]; also [...(condition ? parts : [])] *)
Definition when {A} (b : bool) (l : list A) : list A := if b then l else [].
Lemma elem_of_when {A} (x : A) b l : x ∈ when b l ↔ b = true ∧ x ∈ l.
Proof. unfold when. destruct b; set_solver. Qed.

(** [jsimpl] pushes every lookup through the writes and decides the key comparisons *)
Ltac jsimpl :=
  repeat first
    [ progress simpl in *
    | rewrite jget_jset in *
    | rewrite jget_jdel in *
    | rewrite String.eqb_refl in *
    | match goal with
      | |- context [String.eqb ?a ?b] => destruct (String.eqb_spec a b); try congruence; subst
      end ].

(** destruct the scrutinee of a [match] or [if] of the goal *)
Ltac case_match_goal :=
  match goal with
  | |- context [match ?x with _ => _ end] => destruct x eqn:?
  end.
