(* ===== verification/JsValue.v ===== *)
(** * JavaScript strings and numbers

    The part of the language's standard library that the dashboard uses: string
    searching, splitting and joining, [Number(string)] with its [NaN], [toFixed], and
    the sort of [Array.prototype.sort].  A string is a [String.string] of ASCII
    characters, one per UTF-16 unit; a number is an exact rational, or one of [NaN]
    and the infinities where the code can produce them. *)
From Stdlib Require Import Ascii QArith Qround Qpower Qabs Lqa Lia ZArith Sorting.Permutation Sorting.Sorted.
From S2P Require Import Prelude.
Open Scope Z_scope.

(** ** Strings *)

(** [s.startsWith(t)], [s.includes(t)], [s.indexOf(t)] *)
Definition starts_with (s t : string) : bool := String.prefix t s.
Definition index_of (s t : string) : option nat := String.index 0 t s.
Definition str_includes (s t : string) : bool :=
  match index_of s t with Some _ => true | None => false end.

(** [s.slice(0, n)] and [s.slice(n)] for [n] at least 0 *)
Definition slice_to (s : string) (n : nat) : string := String.substring 0 n s.
Fixpoint slice_from (s : string) (n : nat) {struct n} : string :=
  match n, s with
  | O, _ => s
  | S n', String _ s' => slice_from s' n'
  | S _, EmptyString => EmptyString
  end.

(** [s.lastIndexOf(c)] of a one-character string; [-1] when it does not occur *)
Fixpoint last_index_of (c : Ascii.ascii) (s : string) : Z :=
  match s with
  | EmptyString => -1
  | String a s' =>
      let r := last_index_of c s' in
      if 0 <=? r then r + 1 else if Ascii.eqb a c then 0 else -1
  end.

(** [s.split(c)] on a one-character separator *)
Fixpoint str_split (c : Ascii.ascii) (s : string) : list string :=
  match s with
  | EmptyString => [""%string]
  | String a s' =>
      if Ascii.eqb a c then ""%string :: str_split c s'
      else match str_split c s' with
           | [] => [String a EmptyString]
           | w :: ws => String a w :: ws
           end
  end.

(** [l.join(sep)] *)
Definition str_join (sep : string) (l : list string) : string := String.concat sep l.

(** [s.padStart(n, c)] *)
Definition pad_start (s : string) (n : nat) (c : Ascii.ascii) : string :=
  (String.concat "" (repeat (String c EmptyString) (n - String.length s)) +:+ s)%string.

(** [s.toLowerCase()] on ASCII *)
Definition lower_ascii (c : Ascii.ascii) : Ascii.ascii :=
  let n := Ascii.N_of_ascii c in
  if ((65 <=? n)%N && (n <=? 90)%N)%bool then Ascii.ascii_of_N (n + 32) else c.
Fixpoint str_lower (s : string) : string :=
  match s with
  | EmptyString => EmptyString
  | String a s' => String (lower_ascii a) (str_lower s')
  end.

(** white space removed by [trim] *)
Definition is_space (c : Ascii.ascii) : bool :=
  let n := Ascii.N_of_ascii c in
  ((n =? 32) || ((9 <=? n) && (n <=? 13)) || (n =? 160))%N%bool.
Fixpoint trim_start (s : string) : string :=
  match s with
  | String a s' => if is_space a then trim_start s' else s
  | EmptyString => EmptyString
  end.
Fixpoint trim_end (s : string) : string :=
  match s with
  | EmptyString => EmptyString
  | String a s' =>
      match trim_end s' with
      | EmptyString => if is_space a then EmptyString else String a EmptyString
      | t => String a t
      end
  end.
Definition str_trim (s : string) : string := trim_end (trim_start s).

(** [text.split(" ").every(term => searchString.includes(term))], the search boxes' idiom *)
Definition every_term (searchString text : string) : bool :=
  forallb (str_includes searchString) (str_split " " text).

(** ** Numbers *)

Inductive jsnum :=
| NaN
| Inf (neg : bool)
| Fin (q : Q).

(** [a === b] on numbers: [NaN] differs from itself *)
Definition num_eqb (a b : jsnum) : bool :=
  match a, b with
  | Fin p, Fin q => Qeq_bool p q
  | Inf s, Inf t => Bool.eqb s t
  | _, _ => false
  end.

(** [a - b] *)
Definition num_sub (a b : jsnum) : jsnum :=
  match a, b with
  | Fin p, Fin q => Fin (p - q)
  | NaN, _ | _, NaN => NaN
  | Inf s, Inf t => if Bool.eqb s t then NaN else Inf s
  | Inf s, Fin _ => Inf s
  | Fin _, Inf t => Inf (negb t)
  end.

(** [a < b]: false as soon as one side is [NaN] *)
Definition num_ltb (a b : jsnum) : bool :=
  match a, b with
  | Fin p, Fin q => Qle_bool p q && negb (Qeq_bool p q)
  | NaN, _ | _, NaN => false
  | Inf s, Inf t => s && negb t
  | Inf s, Fin _ => s
  | Fin _, Inf t => negb t
  end.

(** [a <= b] and [a >= b] *)
Definition num_leb (a b : jsnum) : bool := num_ltb a b || num_eqb a b.
Definition num_geb (a b : jsnum) : bool := num_leb b a.

(** rational comparison as the code writes it *)
Definition Qltb (a b : Q) : bool := negb (Qle_bool b a).

(** [Math.max(a, b)]: [NaN] wins *)
Definition num_max (a b : jsnum) : jsnum :=
  match a, b with
  | NaN, _ | _, NaN => NaN
  | _, _ => if num_ltb a b then b else a
  end.

(** *** [Number(s)] *)

Definition digit_value (c : Ascii.ascii) : option Z :=
  let n := Z.of_N (Ascii.N_of_ascii c) in
  if (48 <=? n) && (n <=? 57) then Some (n - 48)
  else if (97 <=? n) && (n <=? 102) then Some (n - 87)
  else if (65 <=? n) && (n <=? 70) then Some (n - 55) else None.

(** reads digits of the base; returns the accumulated value, how many were read, the rest *)
Fixpoint take_digits (base : Z) (s : string) (acc : Z) (n : nat) : Z * nat * string :=
  match s with
  | String a s' =>
      match digit_value a with
      | Some d => if d <? base then take_digits base s' (acc * base + d) (S n) else (acc, n, s)
      | None => (acc, n, s)
      end
  | EmptyString => (acc, n, s)
  end.

(** the exponent part of a decimal literal: [e], an optional sign, digits, end of input *)
Definition parse_exponent (s : string) : option Z :=
  match s with
  | EmptyString => Some 0
  | String a r =>
      if (Ascii.eqb a "e"%char || Ascii.eqb a "E"%char)%bool then
        let '(neg, r) := match r with
                         | String b r' => if Ascii.eqb b "-"%char then (true, r')
                                          else if Ascii.eqb b "+"%char then (false, r') else (false, r)
                         | EmptyString => (false, r)
                         end in
        match take_digits 10 r 0 0 with
        | (e, S _, EmptyString) => Some (if neg : bool then - e else e)
        | _ => None
        end
      else None
  end.

(** an unsigned decimal literal *)
Definition parse_decimal (s : string) : option Q :=
  let '(ip, ni, r) := take_digits 10 s 0 0 in
  let '(m, nf, r) := match r with
                     | String a r' => if Ascii.eqb a "."%char then take_digits 10 r' ip 0 else (ip, 0%nat, r)
                     | EmptyString => (ip, 0%nat, r)
                     end in
  if Nat.eqb (ni + nf) 0 then None
  else match parse_exponent r with
       | Some e => Some (inject_Z m * Qpower 10 (e - Z.of_nat nf))%Q
       | None => None
       end.

Definition parse_unsigned (s : string) (neg : bool) : jsnum :=
  if String.eqb s "Infinity" then Inf neg
  else match parse_decimal s with
       | Some q => Fin (if neg then - q else q)%Q
       | None => NaN
       end.

Definition parse_radix (base : Z) (s : string) : jsnum :=
  match take_digits base s 0 0 with
  | (v, S _, EmptyString) => Fin (inject_Z v)
  | _ => NaN
  end.

(** [Number(s)]: trimmed; the empty string is 0; hexadecimal, octal and binary literals
    have no sign; everything that is not a literal is [NaN] *)
Definition Number (s : string) : jsnum :=
  match str_trim s with
  | EmptyString => Fin 0
  | String "0" (String b r) as t =>
      if (Ascii.eqb b "x"%char || Ascii.eqb b "X"%char)%bool then parse_radix 16 r
      else if (Ascii.eqb b "o"%char || Ascii.eqb b "O"%char)%bool then parse_radix 8 r
      else if (Ascii.eqb b "b"%char || Ascii.eqb b "B"%char)%bool then parse_radix 2 r
      else parse_unsigned t false
  | String "-" r => parse_unsigned r true
  | String "+" r => parse_unsigned r false
  | t => parse_unsigned t false
  end.

(** *** [toFixed] and [Math.ceil]

    [x.toFixed(f)] picks the integer [n] for which [n / 10^f] is closest to [x], the
    larger one on a tie, after dropping the sign of [x]. *)
Definition round_half_up (q : Q) : Z := Qfloor (q + (1 # 2))%Q.
Definition toFixed_units (x : Q) (digits : nat) : Z :=
  let scaled := (Qabs x * inject_Z (10 ^ Z.of_nat digits)%Z)%Q in
  if Qltb x 0 then - round_half_up scaled else round_half_up scaled.

(** *** Sorting *)

(** [Array.prototype.sort] with a comparator is stable; the comparator answers a number of
    which only the sign matters *)
Section Sort.
Context {A : Type} (cmp : A → A → bool).

(** [cmp a b] says that [a] must come strictly after [b] *)
Fixpoint sort_insert (x : A) (l : list A) : list A :=
  match l with
  | [] => [x]
  | y :: l' => if cmp x y then y :: sort_insert x l' else x :: l
  end.
Definition js_sort (l : list A) : list A := foldr sort_insert [] l.

Lemma sort_insert_perm x l : sort_insert x l ≡ₚ x :: l.
Proof.
  induction l as [|y l IH]; simpl; [done|].
  destruct (cmp x y); [|done]. rewrite IH. apply Permutation_swap.
Qed.

Lemma sort_perm l : js_sort l ≡ₚ l.
Proof.
  induction l as [|x l IH]; simpl; [done|]. rewrite sort_insert_perm. by rewrite IH.
Qed.

Context (cmp_asym : ∀ a b, cmp a b = true → cmp b a = false).
Context (cmp_trans : ∀ a b c, cmp b a = false → cmp c b = false → cmp c a = false).

(** in the result nothing stands before an element it must come after *)
Definition in_order (l : list A) : Prop := StronglySorted (λ a b, cmp a b = false) l.

Lemma sort_insert_order x l : in_order l → in_order (sort_insert x l).
Proof.
  unfold in_order. induction 1 as [|y l Hl IH Hy]; simpl.
  - repeat constructor.
  - destruct (cmp x y) eqn:E.
    + constructor; [done|]. rewrite Forall_forall in *. intros z.
      rewrite sort_insert_perm, elem_of_cons. intros [->|Hz]; [by apply cmp_asym | by apply Hy].
    + constructor; [by constructor|]. constructor; [done|].
      rewrite Forall_forall in *. intros z Hz. eapply cmp_trans; [|exact E]. by apply Hy.
Qed.

Lemma sort_order l : in_order (js_sort l).
Proof. induction l; simpl; [constructor | by apply sort_insert_order]. Qed.

End Sort.

(** ** Facts about decimal numerals *)

(** every character satisfies [p] *)
Fixpoint str_all (p : Ascii.ascii → bool) (s : string) : bool :=
  match s with EmptyString => true | String a s' => p a && str_all p s' end.
Definition is_digit (c : Ascii.ascii) : bool :=
  let n := Ascii.N_of_ascii c in ((48 <=? n)%N && (n <=? 57)%N)%bool.

Lemma str_length_app (a b : string) : String.length (a +:+ b) = (String.length a + String.length b)%nat.
Proof. induction a as [|c a IH]; [done|]. change (String c a +:+ b) with (String c (a +:+ b)). cbn. by rewrite IH. Qed.
Lemma str_all_app p a b : str_all p (a +:+ b) = str_all p a && str_all p b.
Proof. induction a as [|x a IH]; simpl; [done|]. by rewrite IH, andb_assoc. Qed.

Lemma str_all_impl p q s : (∀ c, p c = true → q c = true) → str_all p s = true → str_all q s = true.
Proof.
  intros H. induction s as [|a s IH]; simpl; [done|].
  intros [H1 H2]%andb_prop. by rewrite (H _ H1), IH.
Qed.

Lemma digit_cases c : is_digit c = true →
  c ∈ ["0"; "1"; "2"; "3"; "4"; "5"; "6"; "7"; "8"; "9"]%char.
Proof.
  destruct c as [[] [] [] [] [] [] [] []]; intros H; vm_compute in H; try discriminate;
    apply list_elem_of_In; simpl; tauto.
Qed.

(** case analysis of a hypothesis [is_digit c = true] *)
Ltac digit_cases H :=
  apply digit_cases in H;
  repeat (apply elem_of_cons in H as [->|H]); [..|by inversion H].

Lemma str_split_none c s : str_all (λ a, negb (Ascii.eqb a c)) s = true → str_split c s = [s].
Proof.
  induction s as [|a s IH]; simpl; [done|].
  intros [H1 H2]%andb_prop. apply negb_true_iff in H1. by rewrite H1, IH.
Qed.

Lemma index_of_app (p r : string) c :
  str_all (λ a, negb (Ascii.eqb a c)) p = true →
  index_of (p +:+ String c r) (String c "") = Some (String.length p).
Proof.
  unfold index_of. induction p as [|a p IH]; simpl.
  - intros _. destruct (ascii_dec c c); [|done]. by destruct r.
  - intros [H1 H2]%andb_prop. apply negb_true_iff, Ascii.eqb_neq in H1.
    destruct (ascii_dec c a); [congruence|]. by rewrite IH.
Qed.

Lemma index_of_none (p : string) c :
  str_all (λ a, negb (Ascii.eqb a c)) p = true → index_of p (String c "") = None.
Proof.
  unfold index_of. induction p as [|a p IH]; simpl; [done|].
  intros [H1 H2]%andb_prop. apply negb_true_iff, Ascii.eqb_neq in H1.
  destruct (ascii_dec c a); [congruence|]. by rewrite IH.
Qed.

Lemma slice_to_app (p r : string) : slice_to (p +:+ r) (String.length p) = p.
Proof.
  unfold slice_to. induction p as [|a p IH]; simpl; [by destruct r | by rewrite IH].
Qed.

Lemma trim_end_idem s : trim_end (trim_end s) = trim_end s.
Proof.
  induction s as [|a s IH]; [done|]. cbn [trim_end]. destruct (trim_end s) as [|b t] eqn:E.
  - destruct (is_space a) eqn:Ha; [done|]. cbn. by rewrite Ha.
  - change (trim_end (String a (String b t))) with
      (match trim_end (String b t) with EmptyString => if is_space a then EmptyString else String a EmptyString | u => String a u end).
    by rewrite IH.
Qed.
Lemma trim_start_end s : trim_start (trim_end (trim_start s)) = trim_end (trim_start s).
Proof.
  induction s as [|a s IH]; [done|]. cbn [trim_start]. destruct (is_space a) eqn:Ha; [exact IH|].
  cbn [trim_end]. rewrite Ha. destruct (trim_end s); cbn [trim_start]; by rewrite Ha.
Qed.
Lemma str_trim_idem s : str_trim (str_trim s) = str_trim s.
Proof. unfold str_trim. by rewrite trim_start_end, trim_end_idem. Qed.
Lemma trim_digits s : str_all is_digit s = true → str_trim s = s.
Proof.
  intros H. unfold str_trim.
  assert (trim_start s = s) as ->.
  { destruct s as [|a s]; [done|]. simpl in *. apply andb_prop in H as [H _].
    by digit_cases H. }
  induction s as [|a s IH]; [done|]. simpl in *. apply andb_prop in H as [H1 H2].
  rewrite IH by done. destruct s; [by digit_cases H1 | done].
Qed.

Lemma Number_digits s v n :
  str_all is_digit s = true → take_digits 10 s 0 0 = (v, S n, ""%string) →
  Number s = Fin (inject_Z v).
Proof.
  intros Hd Ht. unfold Number. rewrite trim_digits by done.
  destruct s as [|a s]; [discriminate|].
  assert (parse_unsigned (String a s) false = Fin (inject_Z v)) as Hp.
  { unfold parse_unsigned.
    replace (String.eqb (String a s) "Infinity") with false.
    2: { symmetry. apply String.eqb_neq. intros [= -> ->]. simpl in Hd. discriminate. }
    unfold parse_decimal. rewrite Ht. simpl parse_exponent. cbv beta iota.
    replace (Nat.eqb (S n + 0) 0) with false by done.
    unfold inject_Z, Qmult. simpl. by rewrite Z.mul_1_r. }
  simpl in Hd. apply andb_prop in Hd as [H1 H2]. clear Ht.
  digit_cases H1; try exact Hp.
  destruct s as [|b s]; [exact Hp|]. simpl in H2. apply andb_prop in H2 as [H2 _].
  digit_cases H2; exact Hp.
Qed.

Lemma pretty_N_char_digit x : (x < 10)%N → is_digit (pretty_N_char x) = true
  ∧ digit_value (pretty_N_char x) = Some (Z.of_N x).
Proof.
  intros H. assert (x = 0 ∨ x = 1 ∨ x = 2 ∨ x = 3 ∨ x = 4 ∨ x = 5 ∨ x = 6 ∨ x = 7 ∨ x = 8 ∨ x = 9)%N
    as Hx by lia. clear H. repeat (destruct Hx as [->|Hx]; [done|]). by subst x.
Qed.

Lemma pretty_go_digits x s : str_all is_digit s = true →
  str_all is_digit (pretty_N_go x s) = true.
Proof.
  revert s. induction (N.lt_wf_0 x) as [x _ IH]. intros s Hs.
  destruct (decide (0 < x)%N) as [Hx|Hx].
  - rewrite pretty_N_go_step by done. apply IH; [apply N.div_lt; lia|]. simpl.
    rewrite Hs. by rewrite (proj1 (pretty_N_char_digit _ (N.mod_lt x 10 ltac:(lia)))).
  - by replace x with 0%N by lia.
Qed.

Lemma take_pretty_go x s : ∃ n, take_digits 10 (pretty_N_go x s) 0 0 = take_digits 10 s (Z.of_N x) n
  ∧ ((0 < x)%N → (0 < n)%nat).
Proof.
  revert s. induction (N.lt_wf_0 x) as [x _ IH]. intros s.
  destruct (decide (0 < x)%N) as [Hx|Hx].
  - rewrite pretty_N_go_step by done.
    destruct (IH (x `div` 10)%N ltac:(apply N.div_lt; lia)
                (String (pretty_N_char (x `mod` 10)) s)) as (n & -> & _).
    exists (S n). split; [|lia]. cbn [take_digits].
    pose proof (N.mod_lt x 10 ltac:(lia)) as Hm.
    rewrite (proj2 (pretty_N_char_digit _ Hm)).
    rewrite (proj2 (Z.ltb_lt _ _)) by lia.
    f_equal. rewrite N2Z.inj_div, N2Z.inj_mod. pose proof (Z.div_mod (Z.of_N x) 10 ltac:(lia)). lia.
  - replace x with 0%N by lia. exists 0%nat. split; [done | lia].
Qed.

Lemma pretty_N_digits (x : N) : str_all is_digit (pretty x) = true.
Proof.
  unfold pretty, pretty_N. destruct (decide (x = 0%N)); [done|]. by apply pretty_go_digits.
Qed.

Lemma Number_pretty (x : N) : Number (pretty x) = Fin (inject_Z (Z.of_N x)).
Proof.
  unfold pretty, pretty_N. destruct (decide (x = 0%N)) as [->|Hx]; [done|].
  destruct (take_pretty_go x "") as (n & Ht & Hn).
  destruct n as [|n]; [lia|]. apply (Number_digits _ _ n); [by apply pretty_go_digits | done].
Qed.
