(* ===== verification/JsDate.v ===== *)
(** * Dates: UTC fields of an instant and back

    A [Date] is its time value, an integer number of milliseconds since the epoch.  The
    UTC getters are computed on the proleptic Gregorian calendar; [days_of_civil] is the
    calendar read the other way, and the round trip [days_of_civil_of_days] pins the
    getters down.  The local-time side of [Date] is in the interface [LocalTime]. *)
From Stdlib Require Import Ascii ZArith Lia.
From S2P Require Import Prelude JsValue.
Open Scope Z_scope.

(** ** Calendar *)

(** year, month (1 to 12) and day of the month of a day number counted from 1970-01-01 *)
Definition civil_of_days (day : Z) : Z * Z * Z :=
  let z := day + 719468 in
  let era := z / 146097 in
  let doe := z mod 146097 in
  let yoe := (doe - doe / 1460 + doe / 36524 - doe / 146096) / 365 in
  let doy := doe - (365 * yoe + yoe / 4 - yoe / 100) in
  let mp := (5 * doy + 2) / 153 in
  let d := doy - (153 * mp + 2) / 5 + 1 in
  let m := if mp <? 10 then mp + 3 else mp - 9 in
  let y := yoe + era * 400 in
  (if m <=? 2 then y + 1 else y, m, d).

Definition days_of_civil (y m d : Z) : Z :=
  let y' := if m <=? 2 then y - 1 else y in
  let era := y' / 400 in
  let yoe := y' mod 400 in
  let doy := (153 * (if 2 <? m then m - 3 else m + 9) + 2) / 5 + d - 1 in
  let doe := yoe * 365 + yoe / 4 - yoe / 100 + doy in
  era * 146097 + doe - 719468.

Definition ms_per_day : Z := 86400000.

Definition getUTCFullYear (t : Z) : Z := (civil_of_days (t / ms_per_day)).1.1.
Definition getUTCMonth (t : Z) : Z := (civil_of_days (t / ms_per_day)).1.2 - 1.
Definition getUTCDate (t : Z) : Z := (civil_of_days (t / ms_per_day)).2.
Definition getUTCHours (t : Z) : Z := t mod ms_per_day / 3600000.
Definition getUTCMinutes (t : Z) : Z := t mod 3600000 / 60000.
Definition getUTCSeconds (t : Z) : Z := t mod 60000 / 1000.

(** ** Local time

    [getTimezoneOffset] of an instant, in minutes, positive west of Greenwich.  What the code
    relies on is the range that the time zones in use have. *)
Class LocalTime := {
  tz_offset : Z → Z;
  tz_offset_range : ∀ t, -840 ≤ tz_offset t ≤ 720 }.

(** the time value whose UTC fields are the local fields of [t] *)
Definition local_of `{LocalTime} (t : Z) : Z := t - tz_offset t * 60000.
Definition getHours `{LocalTime} (t : Z) : Z := getUTCHours (local_of t).
Definition getMinutes `{LocalTime} (t : Z) : Z := getUTCMinutes (local_of t).
Definition getFullYear `{LocalTime} (t : Z) : Z := getUTCFullYear (local_of t).
Definition getMonth `{LocalTime} (t : Z) : Z := getUTCMonth (local_of t).
Definition getDate `{LocalTime} (t : Z) : Z := getUTCDate (local_of t).

(** a zone with a fixed offset *)
Definition fixed_zone (o : Z) (H : -840 ≤ o ≤ 720) : LocalTime :=
  {| tz_offset := λ _, o; tz_offset_range := λ _, H |}.

(** ** Decimal rendering *)

Definition z_str (z : Z) : string := pretty z.
Definition pad2 (z : Z) : string := pad_start (z_str z) 2 "0"%char.

(** the reader used to state round trips: a non-empty run of decimal digits *)
Definition read_decimal (s : string) : option Z :=
  match take_digits 10 s 0 0 with (v, S _, EmptyString) => Some v | _ => None end.

(** ** Finite checks *)

(** [f] holds of [i], [i + 1], ..., [i + n - 1] *)
Fixpoint range_all (f : Z → bool) (n : nat) (i : Z) : bool :=
  match n with O => true | S n' => f i && range_all f n' (i + 1) end.

Lemma range_all_spec f n i x : range_all f n i = true → i ≤ x < i + Z.of_nat n → f x = true.
Proof.
  revert i. induction n as [|n IH]; intros i H Hx; [lia|].
  simpl in H. apply andb_prop in H as [H1 H2].
  destruct (decide (x = i)) as [->|]; [done|]. apply (IH (i + 1)); [done | lia].
Qed.

Lemma forallb_range (f : Z → bool) (k : Z) :
  range_all f (Z.to_nat k) 0 = true → ∀ n, 0 ≤ n < k → f n = true.
Proof. intros H n Hn. eapply range_all_spec; [exact H | lia]. Qed.

(** day of the (March-based) year, and the month and day in it *)
Lemma doy_month doy : 0 ≤ doy ≤ 365 →
  let mp := (5 * doy + 2) / 153 in
  0 ≤ mp ≤ 11 ∧ 1 ≤ doy - (153 * mp + 2) / 5 + 1 ≤ 31.
Proof. intros H. simpl. Z.to_euclidean_division_equations; lia. Qed.

Lemma year_of_era doe : 0 ≤ doe < 146097 →
  let yoe := (doe - doe / 1460 + doe / 36524 - doe / 146096) / 365 in
  0 ≤ yoe < 400 ∧ 0 ≤ doe - (365 * yoe + yoe / 4 - yoe / 100) ≤ 365.
Proof. intros H. simpl. Z.to_euclidean_division_equations; lia. Qed.

Lemma days_of_march_year yoe era m d :
  0 ≤ yoe < 400 →
  days_of_civil (if m <=? 2 then yoe + era * 400 + 1 else yoe + era * 400) m d =
  era * 146097 + (yoe * 365 + yoe / 4 - yoe / 100 +
    ((153 * (if 2 <? m then m - 3 else m + 9) + 2) / 5 + d - 1)) - 719468.
Proof.
  intros Hy. unfold days_of_civil. destruct (m <=? 2).
  - replace (yoe + era * 400 + 1 - 1) with (yoe + era * 400) by ring.
    rewrite Z.div_add, Z.mod_add, (Z.div_small yoe), (Z.mod_small yoe) by lia. lia.
  - rewrite Z.div_add, Z.mod_add, (Z.div_small yoe), (Z.mod_small yoe) by lia. lia.
Qed.

Lemma civil_of_days_spec day :
  let '(y, m, d) := civil_of_days day in
  days_of_civil y m d = day ∧ 1 ≤ m ≤ 12 ∧ 1 ≤ d ≤ 31.
Proof.
  unfold civil_of_days.
  pose proof (Z.div_mod (day + 719468) 146097 ltac:(lia)) as Hday.
  pose proof (year_of_era _ (Z.mod_pos_bound (day + 719468) 146097 ltac:(lia))) as [Hy Hdoy].
  cbv zeta in *.
  revert Hday Hy Hdoy. generalize ((day + 719468) mod 146097) as doe.
  intros doe. generalize ((doe - doe / 1460 + doe / 36524 - doe / 146096) / 365) as yoe.
  generalize ((day + 719468) / 146097) as era. intros era yoe Hday Hy Hdoy.
  rewrite days_of_march_year by done.
  pose proof (doy_month _ Hdoy) as Hm. cbv zeta in Hm. revert Hdoy Hm.
  remember (doe - (365 * yoe + yoe / 4 - yoe / 100)) as doy eqn:Edoy.
  generalize ((5 * doy + 2) / 153). intros mp Hdoy Hm.
  destruct (Z.ltb_spec mp 10).
  - rewrite (proj2 (Z.ltb_lt 2 (mp + 3))) by lia. replace (mp + 3 - 3) with mp by ring. lia.
  - rewrite (proj2 (Z.ltb_ge 2 (mp - 9))) by lia. replace (mp - 9 + 9) with mp by ring. lia.
Qed.

Lemma days_of_civil_of_days day :
  let '(y, m, d) := civil_of_days day in days_of_civil y m d = day.
Proof. pose proof (civil_of_days_spec day). destruct (civil_of_days day) as [[y m] d]. tauto. Qed.

Lemma pad2_digits n : 0 ≤ n < 100 →
  read_decimal (pad2 n) = Some n ∧ String.length (pad2 n) = 2%nat.
Proof.
  intros Hn.
  assert ((bool_decide (read_decimal (pad2 n) = Some n) &&
           Nat.eqb (String.length (pad2 n)) 2)%bool = true) as H.
  { revert n Hn. apply forallb_range. vm_compute. reflexivity. }
  apply andb_prop in H as [H1 H2]. apply bool_decide_eq_true in H1. apply Nat.eqb_eq in H2. done.
Qed.

Lemma year_digits n : 0 ≤ n < 10000 → read_decimal (z_str n) = Some n.
Proof.
  intros Hn. assert (bool_decide (read_decimal (z_str n) = Some n) = true) as H.
  { revert n Hn. apply forallb_range. vm_compute. reflexivity. }
  by apply bool_decide_eq_true in H.
Qed.

Lemma year4_length n : 1000 ≤ n < 10000 → String.length (z_str n) = 4%nat.
Proof.
  intros Hn. assert (((n <? 1000) || Nat.eqb (String.length (z_str n)) 4)%bool = true) as H.
  { assert (0 ≤ n < 10000) as Hn' by lia. revert n Hn' Hn.
    intros n Hn' _. revert n Hn'. apply forallb_range. vm_compute. reflexivity. }
  rewrite (proj2 (Z.ltb_ge n 1000)) in H by lia. by apply Nat.eqb_eq in H.
Qed.

(** no decimal rendering contains a separator *)
Definition separators : list ascii := ["-"; ":"; " "; "T"; "/"; "."]%char.
Definition no_separator (s : string) : bool :=
  forallb (λ c, bool_decide (str_split c s = [s])) separators.

Lemma no_separator_split s c : no_separator s = true → c ∈ separators → str_split c s = [s].
Proof.
  unfold no_separator. rewrite forallb_forall. intros H Hc.
  apply list_elem_of_In, H, bool_decide_eq_true in Hc. done.
Qed.

Lemma pad2_no_separator n : 0 ≤ n < 100 → no_separator (pad2 n) = true.
Proof. revert n. apply forallb_range. vm_compute. reflexivity. Qed.

Lemma year_no_separator n : 0 ≤ n < 10000 → no_separator (z_str n) = true.
Proof. revert n. apply forallb_range. vm_compute. reflexivity. Qed.

(** splitting after a first field that does not hold the separator *)
Lemma str_split_cons c s : ∃ w ws, str_split c s = w :: ws.
Proof.
  induction s as [|x s (w & ws & IH)]; simpl; [eauto|].
  rewrite IH. destruct (Ascii.eqb x c); eauto.
Qed.

Lemma str_split_app c a b :
  str_split c a = [a] → str_split c (a +:+ String c b) = a :: str_split c b.
Proof.
  induction a as [|x a IH]; simpl; intros H.
  - by rewrite Ascii.eqb_refl.
  - destruct (Ascii.eqb x c); [simplify_eq|].
    destruct (str_split_cons c a) as (w & ws & E). rewrite E in H. simplify_eq.
    by rewrite (IH E).
Qed.

Lemma split_fields c a b d :
  no_separator a = true → no_separator b = true → no_separator d = true → c ∈ separators →
  str_split c (a +:+ String c (b +:+ String c d)) = [a; b; d].
Proof.
  intros Ha Hb Hd Hc. rewrite !str_split_app by (by apply no_separator_split).
  by rewrite (no_separator_split d).
Qed.

Lemma str_split_plain c a b x :
  c ≠ x → str_split c a = [a] → str_split c b = [b] →
  str_split c (a +:+ String x b) = [a +:+ String x b].
Proof.
  intros Hx Ha Hb. induction a as [|y a IH]; simpl.
  - rewrite (proj2 (Ascii.eqb_neq x c)) by done. by rewrite Hb.
  - simpl in Ha. destruct (Ascii.eqb y c); [discriminate|].
    destruct (str_split_cons c a) as (w & ws & E). rewrite E in Ha.
    injection Ha as -> ->. by rewrite (IH E).
Qed.

Lemma dash_separator : "-"%char ∈ separators. Proof. repeat constructor. Qed.
Lemma colon_separator : ":"%char ∈ separators. Proof. repeat constructor. Qed.
Lemma T_separator : "T"%char ∈ separators. Proof. repeat constructor. Qed.
Lemma space_separator : " "%char ∈ separators. Proof. repeat constructor. Qed.

(** a date or a time of day does not hold another separator *)
Lemma fields_no c x a b d : c ∈ separators →
  no_separator a = true → no_separator b = true → no_separator d = true → c ≠ x →
  str_split c (a +:+ String x (b +:+ String x d)) = [a +:+ String x (b +:+ String x d)].
Proof.
  intros Hc Ha Hb Hd Hx.
  apply str_split_plain; [done | by apply no_separator_split |].
  by apply str_split_plain; [done | |]; apply no_separator_split.
Qed.

Lemma utc_field_bounds t :
  0 ≤ getUTCHours t < 24 ∧ 0 ≤ getUTCMinutes t < 60 ∧ 0 ≤ getUTCSeconds t < 60 ∧
  1 ≤ getUTCMonth t + 1 ≤ 12 ∧ 1 ≤ getUTCDate t ≤ 31.
Proof.
  unfold getUTCHours, getUTCMinutes, getUTCSeconds, getUTCMonth, getUTCDate, ms_per_day.
  pose proof (civil_of_days_spec (t / 86400000)) as H.
  destruct (civil_of_days (t / 86400000)) as [[y m] d]. simpl.
  repeat split; try lia; Z.to_euclidean_division_equations; lia.
Qed.

(** the instant, to the second, from its UTC fields *)
Lemma utc_fields_value t :
  (days_of_civil (getUTCFullYear t) (getUTCMonth t + 1) (getUTCDate t) * 86400
   + getUTCHours t * 3600 + getUTCMinutes t * 60 + getUTCSeconds t) = t / 1000.
Proof.
  unfold getUTCFullYear, getUTCMonth, getUTCDate.
  pose proof (days_of_civil_of_days (t / ms_per_day)) as H.
  destruct (civil_of_days (t / ms_per_day)) as [[y m] d]. simpl.
  replace (m - 1 + 1) with m by ring. rewrite H.
  unfold getUTCHours, getUTCMinutes, getUTCSeconds, ms_per_day.
  Z.to_euclidean_division_equations; lia.
Qed.
