(* ===== verification/Types.v ===== *)
(** * The data model: [lib/enums.ts] and [types.d.ts]

    One inductive type per enumeration, with the number or string the code gives each
    member, and one record per interface of the modelled components.  Optional
    properties are [option]s; measured values are rationals ([Q]), counts, identifiers of
    enumeration members and times in milliseconds are integers ([Z]).  A property that the
    server fills with the number of an enumeration member is kept as that number, because
    the code has to cope with numbers that name no member. *)
From Stdlib Require Import QArith ZArith.
From S2P Require Import Prelude.
Open Scope Z_scope.

(** ** Enumerations *)

Inductive Os := Os_Linux | Os_Darwin | Os_Windows | Os_FreeBSD.

Inductive ChartType := ChartType_Memory | ChartType_Disk | ChartType_Network | ChartType_CPU.

Inductive Unit := Unit_Bytes | Unit_Bits | Unit_Celsius | Unit_Fahrenheit.

Inductive MeterState := MeterState_Good | MeterState_Warn | MeterState_Crit.

Inductive SystemStatus := Status_Up | Status_Down | Status_Pending | Status_Paused.

Inductive BatteryState :=
| Battery_Unknown | Battery_Empty | Battery_Full | Battery_Charging | Battery_Discharging
| Battery_Idle.

Inductive HourFormat := Hour_12h | Hour_24h.

Inductive ContainerHealth := Health_None | Health_Starting | Health_Healthy | Health_Unhealthy.

Inductive ConnectionType := Connection_SSH | Connection_WebSocket.

Inductive ServiceStatus :=
| Service_Active | Service_Inactive | Service_Failed | Service_Activating
| Service_Deactivating | Service_Reloading.

Inductive ServiceSubState := Sub_Dead | Sub_Running | Sub_Exited | Sub_Failed | Sub_Unknown.

#[export] Instance Os_eq_dec : EqDecision Os. Proof. solve_decision. Defined.
#[export] Instance ChartType_eq_dec : EqDecision ChartType. Proof. solve_decision. Defined.
#[export] Instance Unit_eq_dec : EqDecision Unit. Proof. solve_decision. Defined.
#[export] Instance MeterState_eq_dec : EqDecision MeterState. Proof. solve_decision. Defined.
#[export] Instance SystemStatus_eq_dec : EqDecision SystemStatus. Proof. solve_decision. Defined.
#[export] Instance BatteryState_eq_dec : EqDecision BatteryState. Proof. solve_decision. Defined.
#[export] Instance HourFormat_eq_dec : EqDecision HourFormat. Proof. solve_decision. Defined.
#[export] Instance ContainerHealth_eq_dec : EqDecision ContainerHealth.
Proof. solve_decision. Defined.
#[export] Instance ConnectionType_eq_dec : EqDecision ConnectionType.
Proof. solve_decision. Defined.
#[export] Instance ServiceStatus_eq_dec : EqDecision ServiceStatus.
Proof. solve_decision. Defined.
#[export] Instance ServiceSubState_eq_dec : EqDecision ServiceSubState.
Proof. solve_decision. Defined.

(** the number TypeScript gives each member *)
Definition Os_num (o : Os) : Z :=
  match o with Os_Linux => 0 | Os_Darwin => 1 | Os_Windows => 2 | Os_FreeBSD => 3 end.
Definition Unit_num (u : Unit) : Z :=
  match u with Unit_Bytes => 0 | Unit_Bits => 1 | Unit_Celsius => 2 | Unit_Fahrenheit => 3 end.
Definition MeterState_num (m : MeterState) : Z :=
  match m with MeterState_Good => 0 | MeterState_Warn => 1 | MeterState_Crit => 2 end.
Definition BatteryState_num (b : BatteryState) : Z :=
  match b with
  | Battery_Unknown => 0 | Battery_Empty => 1 | Battery_Full => 2 | Battery_Charging => 3
  | Battery_Discharging => 4 | Battery_Idle => 5
  end.
Definition ContainerHealth_num (h : ContainerHealth) : Z :=
  match h with
  | Health_None => 0 | Health_Starting => 1 | Health_Healthy => 2 | Health_Unhealthy => 3
  end.
Definition ConnectionType_num (c : ConnectionType) : Z :=
  match c with Connection_SSH => 1 | Connection_WebSocket => 2 end.
Definition ServiceStatus_num (s : ServiceStatus) : Z :=
  match s with
  | Service_Active => 0 | Service_Inactive => 1 | Service_Failed => 2 | Service_Activating => 3
  | Service_Deactivating => 4 | Service_Reloading => 5
  end.
Definition ServiceSubState_num (s : ServiceSubState) : Z :=
  match s with
  | Sub_Dead => 0 | Sub_Running => 1 | Sub_Exited => 2 | Sub_Failed => 3 | Sub_Unknown => 4
  end.

(** the string of a string enumeration *)
Definition SystemStatus_str (s : SystemStatus) : string :=
  match s with
  | Status_Up => "up" | Status_Down => "down" | Status_Pending => "pending"
  | Status_Paused => "paused"
  end.
Definition HourFormat_str (h : HourFormat) : string :=
  match h with Hour_12h => "12h" | Hour_24h => "24h" end.

Definition ContainerHealthLabels : list string := ["None"; "Starting"; "Healthy"; "Unhealthy"].
Definition connectionTypeLabels : list string := [""; "SSH"; "WebSocket"].
Definition ServiceStatusLabels : list string :=
  ["Active"; "Inactive"; "Failed"; "Activating"; "Deactivating"; "Reloading"].
Definition ServiceSubStateLabels : list string :=
  ["Dead"; "Running"; "Exited"; "Failed"; "Unknown"].

(** [labels[n]] on a JavaScript array: [undefined] outside of it *)
Definition label_at (labels : list string) (n : Z) : option string :=
  if n <? 0 then None else labels !! Z.to_nat n.

(** ** Records *)

Record SystemInfo := {
  si_h : string; si_k : option string; si_cpu : option Q; si_t : option Z; si_c : Z;
  si_m : option string; si_l1 : option Q; si_l5 : option Q; si_l15 : option Q;
  si_la : option (Q * Q * Q); si_o : option string; si_u : Z; si_mp : Q; si_dp : Q;
  si_bat : option (Z * Z); si_b : option Q; si_bb : option Q; si_v : string;
  si_p : option bool; si_g : option Q; si_dt : option Q; si_os : option Z; si_ct : option Z;
  si_efs : option (jsmap Q); si_sv : option (Z * Z); si_pu : option Z; si_pus : option Z;
  si_rb : option bool }.

Record SystemRecord := {
  sys_id : string; sys_name : string; sys_host : string; sys_status : SystemStatus;
  sys_port : string; sys_info : SystemInfo }.

Record GPUData := {
  gpu_n : string; gpu_mu : option Q; gpu_mt : option Q; gpu_u : Q; gpu_p : option Q;
  gpu_pp : option Q; gpu_e : option (jsmap Q) }.

Record ExtraFsStats := {
  fs_d : Q; fs_du : Q; fs_r : option Q; fs_w : option Q; fs_rm : option Q; fs_wm : option Q;
  fs_rb : option Q; fs_wb : option Q; fs_rbm : option Q; fs_wbm : option Q }.

Record SystemStats := {
  st_cpu : Q; st_cpum : option Q; st_cpub : option (list Z); st_cpus : option (list Z);
  st_l1 : option Q; st_l5 : option Q; st_l15 : option Q; st_la : option (Q * Q * Q);
  st_m : Q; st_mu : Q; st_mp : Q; st_mb : Q; st_mm : option Q; st_mz : option Q;
  st_s : Q; st_su : option Q; st_d : option Q; st_du : Q; st_dp : Q;
  st_dr : option Q; st_dw : option Q; st_drm : option Q; st_dwm : option Q;
  st_dio : option (Q * Q); st_diom : option (Q * Q);
  st_ns : Q; st_nr : Q; st_b : option (Q * Q); st_nsm : option Q; st_nrm : option Q;
  st_bm : option (Q * Q); st_t : option (jsmap Q); st_efs : option (jsmap ExtraFsStats);
  st_g : option (jsmap GPUData); st_bat : option (Z * Z);
  st_ni : option (jsmap (Q * Q * Q * Q)) }.

Record ContainerStats := {
  cs_n : string; cs_c : option Q; cs_m : option Q; cs_ns : option Q; cs_nr : option Q;
  cs_b : option (Q * Q) }.

Record AlertRecord := {
  al_id : string; al_system : string; al_name : string; al_triggered : bool;
  al_value : Q; al_min : Z }.

Inductive QuietHoursType := OneTime | Daily.
#[export] Instance QuietHoursType_eq_dec : EqDecision QuietHoursType.
Proof. solve_decision. Defined.

(** [start] and [end] are kept as the instants they denote; [end] may be missing *)
Record QuietHoursRecord := {
  qh_id : string; qh_user : string; qh_system : string; qh_type : QuietHoursType;
  qh_start : Z; qh_end : option Z; qh_system_name : option string }.

Record ContainerRecord := {
  co_id : string; co_system : string; co_name : string; co_image : string; co_cpu : Q;
  co_memory : Q; co_net : Q; co_health : Z; co_status : string; co_updated : Z }.

Record FingerprintRecord := {
  fp_id : string; fp_system : string; fp_fingerprint : string; fp_token : string;
  fp_system_name : string }.

(** [created] and [resolved] are the texts the server sends; [ah_system_name] is the expanded
    system's name *)
Record AlertsHistoryRecord := {
  ah_id : string; ah_system : string; ah_name : string; ah_value : Q; ah_created : string;
  ah_resolved : option string; ah_system_name : option string }.

Record SmartAttribute := {
  sa_id : option Z; sa_n : string; sa_v : option Q; sa_w : option Q; sa_t : option Q;
  sa_rv : option Z; sa_rs : option string; sa_wf : option string }.

(** the lists ask for the fields without serial, firmware and attributes *)
Record SmartDeviceRecord := {
  sd_id : string; sd_system : string; sd_name : string; sd_model : string; sd_state : string;
  sd_capacity : Q; sd_temp : Q; sd_firmware : option string; sd_serial : option string;
  sd_type : string; sd_hours : option Z; sd_cycles : option Z;
  sd_attributes : option (list SmartAttribute); sd_updated : string }.

Record PackageUpdate := {
  pu_n : string; pu_cv : option string; pu_av : option string; pu_hd : option bool;
  pu_sec : option bool }.

(** a list fetched from the server leaves [system] out *)
Record SystemdRecord := {
  sv_system : option string; sv_name : string; sv_state : Z; sv_sub : Z; sv_cpu : Q;
  sv_cpuPeak : option Q; sv_memory : Q; sv_memPeak : Q; sv_updated : Z }.

Inductive ChartTimes := T1m | T1h | T12h | T24h | T1w | T30d.
#[export] Instance ChartTimes_eq_dec : EqDecision ChartTimes. Proof. solve_decision. Defined.
Definition ChartTimes_str (c : ChartTimes) : string :=
  match c with
  | T1m => "1m" | T1h => "1h" | T12h => "12h" | T24h => "24h" | T1w => "1w" | T30d => "30d"
  end.

Record QuickLink := {
  ql_id : string; ql_name : string; ql_localUrl : string; ql_domainUrl : string;
  ql_category : option string }.

Record ExternalLink := {
  el_id : string; el_label : string; el_url : string; el_icon : string;
  el_category : option string }.

Record UserSettings := {
  us_chartTime : option ChartTimes; us_emails : option (list string);
  us_webhooks : option (list string); us_unitTemp : option Unit; us_unitNet : option Unit;
  us_unitDisk : option Unit; us_colorWarn : option Q; us_colorCrit : option Q;
  us_hourFormat : option HourFormat; us_layoutWidth : option Z;
  us_quickLinks : option (list QuickLink); us_externalLinks : option (list ExternalLink) }.

Abbreviation AlertMap := (jsmap (jsmap AlertRecord)).

#[export] Instance AlertRecord_eq_dec : EqDecision AlertRecord. Proof. solve_decision. Defined.
#[export] Instance QuickLink_eq_dec : EqDecision QuickLink. Proof. solve_decision. Defined.
#[export] Instance ExternalLink_eq_dec : EqDecision ExternalLink. Proof. solve_decision. Defined.

(** the settings object with no property, [{}] *)
Definition no_settings : UserSettings := {|
  us_chartTime := None; us_emails := None; us_webhooks := None; us_unitTemp := None;
  us_unitNet := None; us_unitDisk := None; us_colorWarn := None; us_colorCrit := None;
  us_hourFormat := None; us_layoutWidth := None; us_quickLinks := None;
  us_externalLinks := None |}.

(** a system record whose information is the minimum the code accepts; used by examples *)
Definition empty_info : SystemInfo := {|
  si_h := ""; si_k := None; si_cpu := None; si_t := None; si_c := 0; si_m := None;
  si_l1 := None; si_l5 := None; si_l15 := None; si_la := None; si_o := None; si_u := 0;
  si_mp := 0; si_dp := 0; si_bat := None; si_b := None; si_bb := None; si_v := "";
  si_p := None; si_g := None; si_dt := None; si_os := None; si_ct := None; si_efs := None;
  si_sv := None; si_pu := None; si_pus := None; si_rb := None |}.
Definition example_info (cpu : Q) : SystemInfo := {|
  si_h := "host"; si_k := None; si_cpu := Some cpu; si_t := Some 4; si_c := 2; si_m := None;
  si_l1 := None; si_l5 := None; si_l15 := None; si_la := None; si_o := None; si_u := 0;
  si_mp := 0; si_dp := 0; si_bat := None; si_b := None; si_bb := None; si_v := "0.16.0";
  si_p := None; si_g := None; si_dt := None; si_os := None; si_ct := None; si_efs := None;
  si_sv := None; si_pu := None; si_pus := None; si_rb := None |}.
Definition example_system (id name : string) (st : SystemStatus) : SystemRecord := {|
  sys_id := id; sys_name := name; sys_host := "10.0.0.1"; sys_status := st;
  sys_port := "45876"; sys_info := example_info 3 |}.

(** measurements with nothing optional in them; used by examples *)
Definition example_stats : SystemStats := {|
  st_cpu := 3; st_cpum := None; st_cpub := None; st_cpus := None; st_l1 := None; st_l5 := None;
  st_l15 := None; st_la := None; st_m := 8; st_mu := 2; st_mp := 25; st_mb := 1; st_mm := None;
  st_mz := None; st_s := 0; st_su := None; st_d := None; st_du := 10; st_dp := 5; st_dr := None;
  st_dw := None; st_drm := None; st_dwm := None; st_dio := None; st_diom := None; st_ns := 0;
  st_nr := 0; st_b := None; st_nsm := None; st_nrm := None; st_bm := None; st_t := None;
  st_efs := None; st_g := None; st_bat := None; st_ni := None |}.
