(* ===== verification/Utils.v ===== *)
(** * Formatting and comparison helpers: [lib/utils.ts]

    The pure helpers every page uses, the memo of number formatters, the browser-storage
    hook, [debounce] as a timer state, [runOnce] as a cache of results and the favicon's
    remembered count.  [Intl], [d3-time] and [Date.parse] are interfaces. *)
From Stdlib Require Import Ascii QArith Qround Qabs Lqa Lia ZArith.
From S2P Require Import Prelude JsValue JsDate Types.
Open Scope Z_scope.

(** ** Interfaces of code outside the repository *)

(** [Intl]: a number given in units of [10^-digits] as the locale writes it, an integer as
    [toLocaleString] writes it, and the plural category *)
Inductive plural_form := One | Few | Many | Other.
Class Intl := {
  format_fixed : Z → nat → string;
  to_locale_string : Z → string;
  plural_category : Z → plural_form }.

(** [d3-time]: stepping an instant by whole minutes, hours and local days, and tick marks *)
Class D3Time := {
  timeMinute_offset : Z → Z → Z;
  timeHour_offset : Z → Z → Z;
  timeDay_offset : Z → Z → Z;
  timeTicks : Z → Z → Z → list Z }.

(** what the code relies on: minutes and hours are fixed spans, a step back goes back, tick
    marks stay within the interval asked for *)
Class D3TimeLaws `(D3Time) : Prop := {
  minute_step t n : timeMinute_offset t n = t + n * 60000;
  hour_step t n : timeHour_offset t n = t + n * 3600000;
  day_step_back t n : n < 0 → timeDay_offset t n < t;
  ticks_within a b n x : x ∈ timeTicks a b n → a ≤ x ≤ b }.

(** days of a zone without daylight saving; only examples use it *)
Definition utc_d3 : D3Time := {|
  timeMinute_offset := λ t n, t + n * 60000;
  timeHour_offset := λ t n, t + n * 3600000;
  timeDay_offset := λ t n, t + n * 86400000;
  timeTicks := λ a b _, if a <=? b then [a; b] else [] |}.
Lemma utc_d3_laws : D3TimeLaws utc_d3.
Proof.
  split; simpl; intros; try lia. destruct (Z.leb_spec a b).
  - apply elem_of_cons in H as [->|H]; [lia|]. apply list_elem_of_singleton in H as ->. lia.
  - by apply elem_of_nil in H.
Qed.

(** [new Date(string).getTime()]: [None] is the invalid date's [NaN] *)
Class DateParse := date_parse : string → option Z.

(** ** Rounding *)

(** [toFixedFloat]: with no digits the value is first rounded up *)
Definition toFixedFloat (num : Q) (digits : nat) : Q :=
  let x := match digits with O => inject_Z (Qceiling num) | _ => num end in
  (inject_Z (toFixed_units x digits) / inject_Z (10 ^ Z.of_nat digits))%Q.

(** [decimalString] with the cache [decimalFormatters] of the digit counts already seen *)
Definition decimalString `{Intl} (cache : list nat) (num : Q) (digits : nat) : string * list nat :=
  match digits with
  | O => (z_str (Qceiling num), cache)
  | _ =>
      let cache' := if decide (digits ∈ cache) then cache else digits :: cache in
      (format_fixed (toFixed_units num digits) digits, cache')
  end.

(** ** Browser storage *)

Section Storage.
Context {T : Type} (parse : string → option T) (stringify : T → string).

(** [getStorageValue]: an absent or empty item gives the default; text that is not JSON
    throws ([None]) *)
Definition getStorageValue (storage : jsmap string) (key : string) (defaultValue : T) : option T :=
  match jget key storage with
  | Some saved => if truthy saved then parse saved else Some defaultValue
  | None => Some defaultValue
  end.

(** the first render of [useBrowserStorage], and its effect *)
Definition storage_key (key : string) : string := "besz-" +:+ key.
Definition useBrowserStorage_init (storage : jsmap string) (key : string) (d : T) : option T :=
  getStorageValue storage (storage_key key) d.
Definition useBrowserStorage_effect (storage : jsmap string) (key : string) (value : T) :
    jsmap string :=
  jset (storage_key key) (stringify value) storage.
End Storage.

(** ** Units *)

Definition formatTemperature (unitTemp : option Unit) (celsius : Q) (unit : option Unit) : Q * string :=
  let falsy u := match u with None | Some Unit_Bytes => true | _ => false end in
  let unit := if falsy unit then (if falsy unitTemp then Some Unit_Celsius else unitTemp) else unit in
  match unit with
  | Some Unit_Fahrenheit => ((celsius * (18 # 10) + 32)%Q, "°F")
  | _ => (celsius, "°C")
  end.

Definition Kb : Q := 1024.
Definition formatBytes (size : Q) (perSecond : bool) (unit : Unit) (isMegabytes : bool) : Q * string :=
  let size := (if isMegabytes then size * (1024 * 1024) else size)%Q in
  if decide (unit = Unit_Bits) then
    let bits := (size * 8)%Q in
    let suffix := if perSecond then "ps" else "" in
    if Qltb bits 1000 then (bits, "b" +:+ suffix)
    else if Qltb bits 1000000 then ((bits / 1000)%Q, "Kb" +:+ suffix)
    else if Qltb bits 1000000000 then ((bits / 1000000)%Q, "Mb" +:+ suffix)
    else if Qltb bits 1000000000000 then ((bits / 1000000000)%Q, "Gb" +:+ suffix)
    else ((bits / 1000000000000)%Q, "Tb" +:+ suffix)
  else
    let suffix := if perSecond then "/s" else "" in
    if Qltb size 100 then (size, "B" +:+ suffix)
    else if Qltb size (1000 * 1024) then ((size / 1024)%Q, "KB" +:+ suffix)
    else if Qltb size (1000 * 1024 ^ 2) then ((size / 1024 ^ 2)%Q, "MB" +:+ suffix)
    else if Qltb size (1000 * 1024 ^ 3) then ((size / 1024 ^ 3)%Q, "GB" +:+ suffix)
    else ((size / 1024 ^ 4)%Q, "TB" +:+ suffix).

(** ** Hosts and durations *)

Definition getHostDisplayValue (system : SystemRecord) : string :=
  slice_from (sys_host system) (Z.to_nat (last_index_of "/" (sys_host system) + 1)).

(** the parts that are non-zero, joined by blanks *)
Definition duration_part (n : Z) (u : string) : list string :=
  if truthy n then [(z_str n +:+ u)] else [].

(** hours, minutes and seconds shown for a duration, after the rounding of the last seconds *)
Definition duration_fields (diffMs : Z) : Z * Z * Z :=
  let totalSeconds := diffMs / 1000 in
  let hours := totalSeconds / 3600 in
  let minutes := totalSeconds mod 3600 / 60 in
  let seconds := totalSeconds mod 60 in
  let '(minutes, seconds) := if 58 <=? seconds then (minutes + 1, 0) else (minutes, seconds) in
  let '(hours, minutes) := if 60 <=? minutes then (hours + 1, 0) else (hours, minutes) in
  (hours, minutes, seconds).

Definition formatDuration `{DateParse} (createdDate resolvedDate : option string) : string :=
  match createdDate, resolvedDate with
  | Some c, Some r =>
      if truthy c && truthy r then
        match date_parse c, date_parse r with
        | Some created, Some resolved =>
            let diffMs := resolved - created in
            if diffMs <? 0 then ""
            else
              let '(hours, minutes, seconds) := duration_fields diffMs in
              if 0 <? hours then str_join " " (duration_part hours "h" ++ duration_part minutes "m")
              else str_join " " (duration_part hours "h" ++ duration_part minutes "m"
                             ++ duration_part seconds "s")
        | _, _ => ""  (* NaN makes every part falsy *)
        end
      else ""
  | _, _ => ""
  end.

(** ** Semantic versions *)

Record SemVer := { major : jsnum; minor : jsnum; patch : jsnum }.

Definition parseSemVer (semVer : option string) : SemVer :=
  let s := default "" semVer in
  let s := match index_of s "-" with Some i => slice_to s i | None => s end in
  let parts := Number <$> str_split "." s in
  {| major := default (Fin 0) (parts !! 0%nat);
     minor := default (Fin 0) (parts !! 1%nat);
     patch := default (Fin 0) (parts !! 2%nat) |}.

Definition compareSemVer (a b : SemVer) : jsnum :=
  if negb (num_eqb (major a) (major b)) then num_sub (major a) (major b)
  else if negb (num_eqb (minor a) (minor b)) then num_sub (minor a) (minor b)
  else num_sub (patch a) (patch b).

(** ** Meters *)

Definition getMeterState (settings : UserSettings) (value : Q) : MeterState :=
  let colorWarn := default 65%Q (us_colorWarn settings) in
  let colorCrit := default 90%Q (us_colorCrit settings) in
  if Qle_bool colorCrit value then MeterState_Crit
  else if Qle_bool colorWarn value then MeterState_Warn else MeterState_Good.

(** ** [debounce]: the pending call, its timer, and the calls made when timers fire *)

Record debounced (A : Type) := { timeout : option (A * Z) }.
Arguments timeout {A}.
Arguments Build_debounced {A}.

(** the wrapper is called at time [now] *)
Definition debounce_call {A} (wait now : Z) (args : A) (_ : debounced A) : debounced A :=
  Build_debounced (Some (args, now + wait)).
(** the clock reaches [now]: a due timer runs the function *)
Definition debounce_tick {A} (now : Z) (st : debounced A) : option A * debounced A :=
  match timeout st with
  | Some (args, due) => if due <=? now then (Some args, Build_debounced None) else (None, st)
  | None => (None, st)
  end.
(** calls at increasing times; before each one the timers that are due run *)
Fixpoint debounce_run {A} (wait : Z) (calls : list (Z * A)) (st : debounced A) : list A :=
  match calls with
  | [] => match timeout st with Some (args, _) => [args] | None => [] end
  | (now, args) :: rest =>
      let '(ran, st) := debounce_tick now st in
      option_list ran ++ debounce_run wait rest (debounce_call wait now args st)
  end.

(** ** [runOnce]: the cache is keyed by the wrapped function's identity *)

Section RunOnce.
Context {R : Type}.
Record once_state := { once_done : bool; once_result : option R }.

(** [outcome] is what calling [fn] would do now: [None] when it throws.  The answer is the
    result ([None] when [fn] threw), whether [fn] was called, and the cache. *)
Definition runOnce (cache : jsmap once_state) (fn : string) (outcome : option R) :
    option (option R) * bool * jsmap once_state :=
  let state := default {| once_done := false; once_result := None |} (jget fn cache) in
  if once_done state then (Some (once_result state), false, cache)
  else
    match outcome with
    | Some r =>
        (Some (Some r), true, jset fn {| once_done := true; once_result := Some r |} cache)
    | None => (None, true, jset fn state cache)
    end.
End RunOnce.
Arguments once_state : clear implicits.

(** ** Visual width of a string, over its code points *)

Definition code_width (code : Z) : Q :=
  if ((4352 <=? code) && (code <=? 4447)) || ((44032 <=? code) && (code <=? 55215)) then 18 # 10
  else if ((11904 <=? code) && (code <=? 40959)) || ((63744 <=? code) && (code <=? 64255))
          || ((65072 <=? code) && (code <=? 65135)) || ((65280 <=? code) && (code <=? 65376))
          || ((65504 <=? code) && (code <=? 65510)) || (65535 <? code) then 2
  else 1.
Definition getVisualStringWidth (str : list Z) : Q :=
  foldl (λ width code, width + code_width code)%Q 0%Q str.

(** ** Spans of time in words *)

Inductive span_unit := Hour | Minute | Day.
Definition secondsToString `{Intl} (seconds : Z) (unit : span_unit) : string :=
  let count := seconds / match unit with Hour => 3600 | Minute => 60 | Day => 86400 end in
  let countString := to_locale_string count in
  match unit with
  | Minute => match plural_category count with
              | One => countString +:+ " minute" | _ => countString +:+ " minutes" end
  | Hour => match plural_category count with
            | One => countString +:+ " hour" | _ => countString +:+ " hours" end
  | Day => match plural_category count with
           | One => countString +:+ " day" | _ => countString +:+ " days" end
  end.

(** ** Favicon *)

(** what the template puts after the logo: the red badge with the count, or the text of the
    value [false] *)
Inductive favicon_badge := Badge (count : Z) | LiteralFalse.
(** [updateFavicon]: the remembered count, and the icon drawn when it changed *)
Definition updateFavicon (prevDownCount downCount : Z) : Z * option favicon_badge :=
  if downCount =? prevDownCount then (prevDownCount, None)
  else (downCount, Some (if 0 <? downCount then Badge downCount else LiteralFalse)).

(** ** Clock format *)

(** the listener on [hourFormat]: the formatters' [hour12] after a change of the setting *)
Definition hourFormat_listener (hour12 : bool) (hourFormat : option HourFormat) : bool :=
  match hourFormat with
  | None => hour12
  | Some f =>
      let newHour12 := bool_decide (f = Hour_12h) in
      if bool_decide (hour12 ≠ newHour12) then newHour12 else hour12
  end.

(** ** Chart periods *)

Inductive stats_type := Type1m | Type10m | Type20m | Type120m | Type480m.
Definition stats_type_str (s : stats_type) : string :=
  match s with
  | Type1m => "1m" | Type10m => "10m" | Type20m => "20m" | Type120m => "120m" | Type480m => "480m"
  end.
Inductive tick_format := hourWithSeconds | hourWithMinutes | formatDay.
Record ChartPeriod := {
  cp_type : stats_type; expectedInterval : Z; cp_label : string; cp_format : tick_format;
  cp_ticks : option Z; getOffset : Z → Z; minVersion : option string }.

Definition chartTimeData `{D3Time} (c : ChartTimes) : ChartPeriod :=
  match c with
  | T1m => {| cp_type := Type1m; expectedInterval := 2000; cp_label := "1 minute";
              cp_format := hourWithSeconds; cp_ticks := Some 3;
              getOffset := λ endTime, timeMinute_offset endTime (-1);
              minVersion := Some "0.13.0"%string |}
  | T1h => {| cp_type := Type1m; expectedInterval := 60000; cp_label := "1 hour";
              cp_format := hourWithMinutes; cp_ticks := None;
              getOffset := λ endTime, timeHour_offset endTime (-1); minVersion := None |}
  | T12h => {| cp_type := Type10m; expectedInterval := 60000 * 10; cp_label := "12 hours";
              cp_format := hourWithMinutes; cp_ticks := Some 12;
               getOffset := λ endTime, timeHour_offset endTime (-12); minVersion := None |}
  | T24h => {| cp_type := Type20m; expectedInterval := 60000 * 20; cp_label := "24 hours";
              cp_format := hourWithMinutes; cp_ticks := None;
               getOffset := λ endTime, timeHour_offset endTime (-24); minVersion := None |}
  | T1w => {| cp_type := Type120m; expectedInterval := 60000 * 120; cp_label := "1 week";
              cp_format := formatDay; cp_ticks := Some 7;
              getOffset := λ endTime, timeDay_offset endTime (-7); minVersion := None |}
  | T30d => {| cp_type := Type480m; expectedInterval := 60000 * 480; cp_label := "30 days";
              cp_format := formatDay; cp_ticks := Some 30;
               getOffset := λ endTime, timeDay_offset endTime (-30); minVersion := None |}
  end.

(** ** Lemmas: comparisons of rationals as booleans *)

Lemma Qltb_true a b : Qltb a b = true ↔ (a < b)%Q.
Proof.
  unfold Qltb. rewrite negb_true_iff. split; intros H.
  - apply Qnot_le_lt. intros Hle. apply Qle_bool_iff in Hle. congruence.
  - apply not_true_iff_false. rewrite Qle_bool_iff. lra.
Qed.
Lemma Qltb_false a b : Qltb a b = false ↔ (b <= a)%Q.
Proof. unfold Qltb. rewrite negb_false_iff. apply Qle_bool_iff. Qed.
Lemma Qle_bool_false a b : Qle_bool a b = false ↔ (b < a)%Q.
Proof. rewrite <-not_true_iff_false, Qle_bool_iff. split; intros; lra. Qed.

(** case analysis on the rational tests of the goal, leaving the inequalities *)
Ltac Qcases :=
  repeat match goal with
  | |- context [Qltb ?a ?b] =>
      let E := fresh "E" in destruct (Qltb a b) eqn:E; [apply Qltb_true in E | apply Qltb_false in E]
  | |- context [Qle_bool ?a ?b] =>
      let E := fresh "E" in
      destruct (Qle_bool a b) eqn:E; [apply Qle_bool_iff in E | apply Qle_bool_false in E]
  end.

(** ** Units *)

(** the size of one unit of the text [formatBytes] returns, in bytes or bits *)
Definition unit_scale (u : string) : option Q :=
  match str_split "/" u with
  | "B" :: _ => Some 1%Q | "KB" :: _ => Some 1024%Q | "MB" :: _ => Some (1024 * 1024)%Q
  | "GB" :: _ => Some (1024 * 1024 * 1024)%Q | "TB" :: _ => Some (1024 * 1024 * 1024 * 1024)%Q
  | "b" :: _ | "bps" :: _ => Some 1%Q | "Kb" :: _ | "Kbps" :: _ => Some 1000%Q
  | "Mb" :: _ | "Mbps" :: _ => Some 1000000%Q | "Gb" :: _ | "Gbps" :: _ => Some 1000000000%Q
  | "Tb" :: _ | "Tbps" :: _ => Some 1000000000000%Q
  | _ => None
  end%string.

(** the quantity [formatBytes] is asked to show *)
Definition shown_quantity (size : Q) (unit : Unit) (isMegabytes : bool) : Q :=
  let bytes := (if isMegabytes then size * (1024 * 1024) else size)%Q in
  if decide (unit = Unit_Bits) then (bytes * 8)%Q else bytes.

(** the largest unit *)
Definition top_unit (u : string) : bool := starts_with u "T".

(** Fact [formatBytes_exact]: [formatBytes] loses nothing and picks a readable unit: the value it
    returns times the size of the returned unit is the quantity given, and unless the unit is the
    largest one the value stays below 1000. *)
Theorem formatBytes_exact size perSecond unit isMegabytes :
  let '(value, u) := formatBytes size perSecond unit isMegabytes in
  ∃ scale, unit_scale u = Some scale
    ∧ (value * scale == shown_quantity size unit isMegabytes)%Q
    ∧ (top_unit u = false → value < 1000)%Q.
Proof.
  unfold formatBytes, shown_quantity.
  generalize ((if isMegabytes then size * (1024 * 1024) else size)%Q). intros bytes.
  destruct (decide (unit = Unit_Bits)); Qcases; destruct perSecond;
    (eexists; split; [vm_compute; reflexivity|]; split;
     [try field; lra | vm_compute (top_unit _); intros; try discriminate]);
    try (apply Qlt_shift_div_r; [reflexivity|]); lra.
Qed.

(** ** Durations *)

(** Fact [duration_fields_spec]: the hours, minutes and seconds shown for a non-negative duration are
    in range, and together they are the duration in whole seconds, rounded up by at most two
    seconds, to a full minute, when 58 or 59 seconds are left over. *)
Theorem duration_fields_spec diffMs : 0 ≤ diffMs →
  let '(h, m, s) := duration_fields diffMs in
  0 ≤ h ∧ 0 ≤ m < 60 ∧ 0 ≤ s < 58
  ∧ diffMs / 1000 ≤ h * 3600 + m * 60 + s ≤ diffMs / 1000 + 2
  ∧ (h * 3600 + m * 60 + s ≠ diffMs / 1000 → s = 0).
Proof.
  intros H. unfold duration_fields. generalize (Z.div_pos diffMs 1000 H ltac:(lia)).
  generalize (diffMs / 1000). intros n Hn.
  destruct (Z.leb_spec 58 (n mod 60)); [destruct (Z.leb_spec 60 (n mod 3600 / 60 + 1))
                                       | destruct (Z.leb_spec 60 (n mod 3600 / 60))];
    repeat split; try lia; Z.to_euclidean_division_equations; lia.
Qed.
Lemma duration_fields_spec_witness :
  0 ≤ 3599000 ∧ 3599000 / 1000 ≤ 1 * 3600 + 0 * 60 + 0 ≤ 3599000 / 1000 + 2.
Proof.
  split; [lia|].
  exact (proj1 (proj2 (proj2 (proj2 (duration_fields_spec 3599000 ltac:(lia)))))).
Defined.

(** ** Hosts *)

Lemma last_index_of_range c s : -1 ≤ last_index_of c s < Z.of_nat (String.length s).
Proof.
  induction s as [|a s IH]; simpl; [lia|].
  destruct (Z.leb_spec 0 (last_index_of c s)); [|destruct (Ascii.eqb a c)]; lia.
Qed.

Lemma last_index_of_none c s : last_index_of c s < 0 → str_split c s = [s].
Proof.
  induction s as [|a s IH]; simpl; [done|].
  destruct (Z.leb_spec 0 (last_index_of c s)); [lia|].
  destruct (Ascii.eqb a c); [lia|]. intros _. by rewrite IH by lia.
Qed.

Lemma last_index_of_split c s w : 0 ≤ last_index_of c s → str_split c s ≠ [w].
Proof.
  revert w. induction s as [|b s IH]; simpl; [lia|].
  intros w Hle. destruct (str_split_cons c s) as (w' & ws' & E). rewrite E.
  destruct (Z.leb_spec 0 (last_index_of c s)) as [Hle'|]; destruct (Ascii.eqb b c); try congruence.
  - intros [= _ ->]. by apply (IH w').
  - lia.
Qed.

Lemma str_split_last_index c s :
  last (str_split c s) = Some (slice_from s (Z.to_nat (last_index_of c s + 1))).
Proof.
  induction s as [|a s IH]; [done|]. simpl str_split. simpl last_index_of.
  destruct (Z.leb_spec 0 (last_index_of c s)) as [Hle|Hlt].
  - rewrite (Z2Nat.inj_add (_ + 1)), Nat.add_1_r by lia. simpl slice_from. rewrite <-IH.
    destruct (str_split_cons c s) as (w & ws & E). pose proof (last_index_of_split c s w Hle).
    rewrite E in *. destruct (Ascii.eqb a c); [done|]. destruct ws; [congruence | done].
  - rewrite (last_index_of_none c s) by done. by destruct (Ascii.eqb a c).
Qed.

(** Fact [getHostDisplayValue_last_segment]: [getHostDisplayValue] is the last [/]-separated segment of
    the host, so a socket path is cut to its file name and a host name without a slash is
    unchanged. *)
Theorem getHostDisplayValue_last_segment system :
  last (str_split "/" (sys_host system)) = Some (getHostDisplayValue system)
  ∧ (str_split "/" (sys_host system) = [sys_host system] →
     getHostDisplayValue system = sys_host system).
Proof.
  unfold getHostDisplayValue. rewrite str_split_last_index. split; [done|].
  intros H. pose proof (str_split_last_index "/" (sys_host system)) as Hl.
  rewrite H in Hl. simpl in Hl. congruence.
Qed.
Lemma getHostDisplayValue_last_segment_witness :
  str_split "/" (sys_host (example_system "a" "n" Status_Up)) =
    [sys_host (example_system "a" "n" Status_Up)]
  ∧ getHostDisplayValue (example_system "a" "n" Status_Up) = "10.0.0.1"%string.
Proof.
  split; [reflexivity|].
  apply (proj2 (getHostDisplayValue_last_segment (example_system "a" "n" Status_Up))).
  reflexivity.
Defined.

(** ** Meters *)

(** Fact [getMeterState_monotone]: a higher value never gets a milder colour, whatever thresholds the
    user has set, and the colour is critical exactly from the critical threshold on. *)
Theorem getMeterState_monotone settings v w : (v <= w)%Q →
  MeterState_num (getMeterState settings v) ≤ MeterState_num (getMeterState settings w)
  ∧ (getMeterState settings w = MeterState_Crit ↔ (default 90 (us_colorCrit settings) <= w)%Q).
Proof.
  intros Hvw. unfold getMeterState. generalize (default 65%Q (us_colorWarn settings)).
  generalize (default 90%Q (us_colorCrit settings)). intros crit warn.
  Qcases; simpl; split; try lia; try lra; split; try done; try (intros; lra).
Qed.

Lemma getMeterState_monotone_witness : (70 <= 91)%Q ∧
  MeterState_num (getMeterState no_settings 70) ≤ MeterState_num (getMeterState no_settings 91).
Proof.
  split; [by apply Qle_bool_iff|].
  apply (proj1 (getMeterState_monotone no_settings 70 91 ltac:(by apply Qle_bool_iff))).
Defined.

(** ** Debouncing *)

(** the calls that no other call follows within the waiting time *)
Fixpoint settled_calls {A} (wait : Z) (calls : list (Z * A)) : list A :=
  match calls with
  | [] => []
  | [(_, a)] => [a]
  | (t, a) :: (((t', _) :: _) as rest) =>
      if t + wait <=? t' then a :: settled_calls wait rest else settled_calls wait rest
  end.

Lemma debounce_run_pending {A} wait t (a : A) rest :
  debounce_run wait rest (debounce_call wait t a (Build_debounced None)) =
  settled_calls wait ((t, a) :: rest).
Proof.
  revert t a. induction rest as [|[t' a'] rest IH]; intros t a; [done|].
  simpl debounce_run. unfold debounce_tick at 1. simpl timeout.
  change (settled_calls wait ((t, a) :: (t', a') :: rest)) with
    (if t + wait <=? t' then a :: settled_calls wait ((t', a') :: rest)
     else settled_calls wait ((t', a') :: rest)).
  rewrite <-IH. unfold debounce_call. by destruct (t + wait <=? t').
Qed.

(** Fact [debounce_run_settled]: a debounced function runs for exactly the calls that are not followed
    by another call within the waiting time, in order: every burst collapses to its last call. *)
Theorem debounce_run_settled {A} wait (calls : list (Z * A)) :
  debounce_run wait calls (Build_debounced None) = settled_calls wait calls.
Proof. destruct calls as [|[t a] rest]; [done|]. apply debounce_run_pending. Qed.

(** ** Semantic versions *)

Definition release (a b c : N) : SemVer := {|
  major := Fin (inject_Z (Z.of_N a)); minor := Fin (inject_Z (Z.of_N b));
  patch := Fin (inject_Z (Z.of_N c)) |}.
Definition print_release (a b c : N) : string :=
  pretty a +:+ String "." (pretty b +:+ String "." (pretty c)).

Lemma digits_no_char (x : N) (c : Ascii.ascii) :
  is_digit c = false → str_all (λ a, negb (Ascii.eqb a c)) (pretty x) = true.
Proof.
  intros Hc. apply (str_all_impl is_digit); [|apply pretty_N_digits].
  intros d Hd. apply negb_true_iff, Ascii.eqb_neq. congruence.
Qed.

Lemma print_release_no_dash a b c :
  str_all (λ x, negb (Ascii.eqb x "-"%char)) (print_release a b c) = true.
Proof.
  unfold print_release. rewrite str_all_app. simpl. rewrite str_all_app. simpl.
  by rewrite !digits_no_char.
Qed.

Lemma split_print_release a b c :
  str_split "." (print_release a b c) = [pretty a; pretty b; pretty c].
Proof.
  unfold print_release.
  rewrite !str_split_app; rewrite ?str_split_none; try done; by apply digits_no_char.
Qed.

Lemma parse_release a b c suffix :
  parseSemVer (Some (print_release a b c)) = release a b c
  ∧ parseSemVer (Some (print_release a b c +:+ String "-" suffix)) = release a b c.
Proof.
  assert (∀ s, s = print_release a b c → (let parts := Number <$> str_split "." s in
    {| major := default (Fin 0) (parts !! 0%nat); minor := default (Fin 0) (parts !! 1%nat);
       patch := default (Fin 0) (parts !! 2%nat) |}) = release a b c) as H.
  { intros s ->. rewrite split_print_release. simpl. by rewrite !Number_pretty. }
  unfold parseSemVer. simpl default. split.
  - rewrite index_of_none by apply print_release_no_dash. by apply H.
  - rewrite index_of_app by apply print_release_no_dash. rewrite slice_to_app. by apply H.
Qed.

(** Fact [parseSemVer_print]: [parseSemVer] reads back every release it is given as text, with or
    without a pre-release suffix. *)
Theorem parseSemVer_print a b c suffix :
  parseSemVer (Some (print_release a b c)) = release a b c
  ∧ parseSemVer (Some (print_release a b c +:+ String "-" suffix)) = release a b c.
Proof. apply parse_release. Qed.

(** lexicographic order of versions whose components are numbers *)
Definition components (v : SemVer) : option (Q * Q * Q) :=
  match major v, minor v, patch v with Fin a, Fin b, Fin c => Some (a, b, c) | _, _, _ => None end.
Definition older (v w : Q * Q * Q) : Prop :=
  let '(a, b, c) := v in let '(a', b', c') := w in
  (a < a' ∨ (a == a' ∧ (b < b' ∨ (b == b' ∧ c < c'))))%Q.

Lemma num_geb_sub p q : num_geb (num_sub (Fin p) (Fin q)) (Fin 0) = Qle_bool q p.
Proof.
  unfold num_geb, num_leb. simpl.
  destruct (Qle_bool q p) eqn:E.
  - apply Qle_bool_iff in E. destruct (Qeq_bool 0 (p - q)) eqn:E0; [by rewrite orb_true_r|].
    apply Qeq_bool_neq in E0.
    replace (Qle_bool 0 (p - q)) with true; [done|]. symmetry. apply Qle_bool_iff. lra.
  - apply Qle_bool_false in E.
    replace (Qle_bool 0 (p - q)) with false by (symmetry; apply Qle_bool_false; lra).
    destruct (Qeq_bool 0 (p - q)) eqn:E0; [|done]. apply Qeq_bool_iff in E0. lra.
Qed.

(** Fact [compareSemVer_order]: on versions that parse, [compareSemVer(a, b) >= 0] holds exactly when
    [a] is not older than [b] in the lexicographic order; when a component that decides is [NaN]
    the test fails both ways. *)
Theorem compareSemVer_order a b :
  (∀ p q, components a = Some p → components b = Some q →
     num_geb (compareSemVer a b) (Fin 0) = true ↔ ¬ older p q)
  ∧ (major a = NaN → num_geb (compareSemVer a b) (Fin 0) = false
                     ∧ num_geb (compareSemVer b a) (Fin 0) = false).
Proof.
  destruct a as [a1 a2 a3], b as [b1 b2 b3]. unfold components, compareSemVer. simpl. split.
  - intros p q Hp Hq. destruct a1, a2, a3, b1, b2, b3; simplify_eq. simpl.
    destruct (Qeq_bool q0 q3) eqn:E1; [apply Qeq_bool_iff in E1 | apply Qeq_bool_neq in E1];
      [destruct (Qeq_bool q1 q4) eqn:E2; [apply Qeq_bool_iff in E2 | apply Qeq_bool_neq in E2]|];
      simpl negb; cbv iota;
      match goal with |- context [Fin (?x - ?y)] => change (Fin (x - y)) with (num_sub (Fin x) (Fin y)) end;
      rewrite num_geb_sub, Qle_bool_iff; split; intros; lra.
  - intros ->. by destruct b1.
Qed.
Lemma compareSemVer_order_witness :
  components (release 0 15 0) = Some (0, 15, 0)%Q
  ∧ (num_geb (compareSemVer (release 0 16 0) (release 0 15 0)) (Fin 0) = true).
Proof.
  split; [reflexivity|].
  apply (proj1 (compareSemVer_order (release 0 16 0) (release 0 15 0))
           (inject_Z 0, inject_Z 16, inject_Z 0) (inject_Z 0, inject_Z 15, inject_Z 0));
    [reflexivity | reflexivity | unfold older, inject_Z; lra].
Defined.

(** ** Rounding *)

Lemma round_half_up_spec q : (inject_Z (round_half_up q) - (1 # 2) <= q)%Q
  ∧ (q < inject_Z (round_half_up q) + (1 # 2))%Q.
Proof.
  unfold round_half_up. pose proof (Qfloor_le (q + (1 # 2))) as H1.
  pose proof (Qlt_floor (q + (1 # 2))) as H2. rewrite inject_Z_plus in H2.
  change (inject_Z 1) with 1%Q in H2. split; lra.
Qed.

Lemma toFixed_units_spec x d :
  (Qabs (inject_Z (toFixed_units x d) - x * inject_Z (10 ^ Z.of_nat d)) <= 1 # 2)%Q.
Proof.
  unfold toFixed_units. set (k := inject_Z (10 ^ Z.of_nat d)).
  pose proof (round_half_up_spec (Qabs x * k)) as H. revert H.
  generalize (round_half_up (Qabs x * k)). intros r [H1 H2].
  apply Qabs_Qle_condition. destruct (Qltb x 0) eqn:E.
  - apply Qltb_true in E. rewrite (Qabs_neg x) in H1, H2 by lra.
    rewrite inject_Z_opp. split; lra.
  - apply Qltb_false in E. rewrite (Qabs_pos x) in H1, H2 by lra. split; lra.
Qed.

(** Fact [toFixedFloat_error]: with at least one digit [toFixedFloat] is within half a unit of the last
    digit of its argument; with no digits it is the ceiling. *)
Theorem toFixedFloat_error x d :
  (Qabs ((toFixedFloat x (S d) - x) * inject_Z (10 ^ Z.of_nat (S d))) <= 1 # 2)%Q
  ∧ (toFixedFloat x 0 == inject_Z (Qceiling x))%Q.
Proof.
  split.
  - unfold toFixedFloat. pose proof (toFixed_units_spec x (S d)) as H.
    assert (~ inject_Z (10 ^ Z.of_nat (S d)) == 0)%Q as Hne.
    { change 0%Q with (inject_Z 0). rewrite inject_Z_injective.
      pose proof (Z.pow_pos_nonneg 10 (Z.of_nat (S d))). lia. }
    revert H Hne. generalize (inject_Z (10 ^ Z.of_nat (S d))). intros k H Hne.
    assert ((inject_Z (toFixed_units x (S d)) / k - x) * k ==
            inject_Z (toFixed_units x (S d)) - x * k)%Q as E by (field; done).
    by rewrite E.
  - unfold toFixedFloat. change (inject_Z (10 ^ Z.of_nat 0)) with 1%Q.
    generalize (Qceiling x). intros z. pose proof (toFixed_units_spec (inject_Z z) 0) as H.
    change (inject_Z (10 ^ Z.of_nat 0)) with 1%Q in H. apply Qabs_Qle_condition in H.
    assert (toFixed_units (inject_Z z) 0 = z) as ->; [|field].
    destruct H as [H1 H2]. rewrite Qmult_1_r in H1, H2.
    assert (inject_Z (toFixed_units (inject_Z z) 0) < inject_Z (z + 1))%Q as Hu
      by (rewrite inject_Z_plus; change (inject_Z 1) with 1%Q; lra).
    assert (inject_Z (z + -1) < inject_Z (toFixed_units (inject_Z z) 0))%Q as Hl
      by (rewrite inject_Z_plus; change (inject_Z (-1)) with (-1)%Q; lra).
    rewrite <-Zlt_Qlt in Hu, Hl. lia.
Qed.

(** ** Running a function once *)

(** a sequence of calls of wrappers of the same function, each with what calling the function
    would do at that moment *)
Fixpoint once_calls {R} (fn : string) (outcomes : list (option R)) (cache : jsmap (once_state R)) :
    list (option (option R) * bool) :=
  match outcomes with
  | [] => []
  | o :: rest => let '(answer, called, cache') := runOnce cache fn o in
                 (answer, called) :: once_calls fn rest cache'
  end.

Lemma once_calls_done {R} fn r (outcomes : list (option R)) cache :
  jget fn cache = Some {| once_done := true; once_result := Some r |} →
  once_calls fn outcomes cache = repeat (Some (Some r), false) (length outcomes).
Proof.
  intros H. induction outcomes as [|o rest IH]; [done|].
  cbn [once_calls]. unfold runOnce at 1. rewrite H. cbn. by rewrite IH.
Qed.

(** Fact [runOnce_once]: a wrapped function that throws is tried again, and after its first success
    every later call answers that first result without calling the function. *)
Theorem runOnce_once {R} fn (failures : nat) (r : R) (rest : list (option R)) :
  once_calls fn (repeat None failures ++ Some r :: rest) [] =
  repeat (None, true) failures ++ (Some (Some r), true) :: repeat (Some (Some r), false) (length rest).
Proof.
  assert (∀ cache, default {| once_done := false; once_result := None |} (jget fn cache)
                   = {| once_done := false; once_result := @None R |} →
    once_calls fn (repeat None failures ++ Some r :: rest) cache =
    repeat (None, true) failures ++ (Some (Some r), true) :: repeat (Some (Some r), false) (length rest))
    as H; [|by apply H].
  induction failures as [|n IH]; intros cache Hc; cbn [repeat app once_calls];
    unfold runOnce at 1; rewrite Hc; cbn.
  - rewrite (once_calls_done fn r); [done | apply jget_jset_eq].
  - rewrite IH; [done|]. by rewrite jget_jset_eq.
Qed.
