(* ===== verification/Nanostores.v ===== *)
(** * The interface of the map stores

    The dashboard keeps its state in map stores of the [nanostores] package.  [MapStore] is
    what the package offers on a store's value, [MapStoreLaws] the documented behaviour the
    code relies on: [setKey] writes a key, [setKey] of [undefined] removes it, and listeners
    are called when the store changes, so not when an absent key is removed.  The values
    written are always objects freshly decoded from a server message, so a write is a change.
    [reference_store] shows that the laws can hold. *)
From S2P Require Import Prelude.

Class MapStore := {
  setKey : ∀ {A : Type}, jsmap A → string → option A → jsmap A;
  notifies : ∀ {A : Type}, jsmap A → string → option A → bool }.

Class MapStoreLaws `(MapStore) : Prop := {
  setKey_value {A} (m : jsmap A) k v : setKey m k (Some v) = jset k v m;
  setKey_undefined {A} (m : jsmap A) k : setKey m k None = jdel k m;
  notifies_value {A} (m : jsmap A) k v : notifies m k (Some v) = true;
  notifies_undefined {A} (m : jsmap A) k : notifies m k None = jhas k m }.

(** not an instance: only examples use it *)
Definition reference_store : MapStore := {|
  setKey := λ A m k v, match v with Some x => jset k x m | None => jdel k m end;
  notifies := λ A m k v, match v with Some _ => true | None => jhas k m end |}.

Lemma reference_store_laws : MapStoreLaws reference_store.
Proof. by split. Qed.

Section Lemmas.
Context `{Laws : MapStoreLaws} {A : Type}.
Implicit Types (m : jsmap A) (k : string).

Lemma jget_setKey m k k' v :
  jget k' (setKey m k v) = if String.eqb k k' then v else jget k' m.
Proof.
  destruct v as [v|]; rewrite ?setKey_value, ?setKey_undefined, ?jget_jset, ?jget_jdel; done.
Qed.

Lemma jwf_setKey m k v : jwf m → jwf (setKey m k v).
Proof.
  intros. destruct v; rewrite ?setKey_value, ?setKey_undefined; auto with js_map.
Qed.

Lemma setKey_absent m k : jget k m = None → setKey m k None = m.
Proof. intros. rewrite setKey_undefined. by apply jdel_absent. Qed.
End Lemmas.
