(* ===== verification/Live.v ===== *)
(** * Lists kept in step with a collection by realtime messages

    Several pages fetch a list once and then apply the messages of a realtime subscription:
    quiet hours, fingerprints, S.M.A.R.T. devices and the alert history.  [LiveTable] is what
    such a page gives, its reducer; [LiveTableLaws] what it promises: a list that shows the
    collection keeps showing it.  [live_history] carries the promise over any sequence of
    messages, once for all pages. *)
From S2P Require Import Prelude.

Inductive action := Create | Update | Delete.
#[export] Instance action_eq_dec : EqDecision action. Proof. solve_decision. Defined.

(** [live_scope] says which records the page is for *)
Class LiveTable (R : Type) := {
  live_key : R → string;
  live_scope : R → bool;
  live_event : action → R → list R → list R }.

Section Live.
Context `{LiveTable R}.
Implicit Types (r x : R) (l : list R) (m : jsmap R).

(** the record of an identifier: the first one in the list *)
Fixpoint record_of (id : string) l : option R :=
  match l with
  | [] => None
  | r :: l => if String.eqb (live_key r) id then Some r else record_of id l
  end.
(** [current.map(...)] that puts a record in the place of the one with its identifier *)
Definition replace_record r l : list R :=
  (λ x, if String.eqb (live_key x) (live_key r) then r else x) <$> l.
(** [current.filter(...)] that leaves an identifier out *)
Definition remove_record (id : string) l : list R :=
  List.filter (λ x, negb (String.eqb (live_key x) id)) l.

(** the same event on the server's collection, and what can happen there *)
Definition server_event (a : action) r m : jsmap R :=
  match a with Create | Update => jset (live_key r) r m | Delete => jdel (live_key r) m end.
Definition possible (a : action) r m : Prop :=
  match a with
  | Create => jget (live_key r) m = None | Update => jget (live_key r) m ≠ None | Delete => True
  end.
Fixpoint history (events : list (action * R)) m : Prop :=
  match events with
  | [] => True
  | (a, r) :: rest => possible a r m ∧ history rest (server_event a r m)
  end.
(** the event is part of what the collection holds already *)
Definition reflected (a : action) r m : Prop :=
  jget (live_key r) m = match a with Delete => None | _ => Some r end.

Definition in_scope (o : option R) : option R :=
  match o with Some r => if live_scope r then Some r else None | None => None end.
(** the list holds the collection's records in scope, each once *)
Definition shows l m : Prop :=
  NoDup (live_key <$> l) ∧ ∀ id, record_of id l = in_scope (jget id m).

Definition live_run (events : list (action * R)) l : list R :=
  foldl (λ l e, live_event e.1 e.2 l) l events.
Definition server_run (events : list (action * R)) m : jsmap R :=
  foldl (λ m e, server_event e.1 e.2 m) m events.

(** ** Lemmas *)

Lemma record_of_None id l : record_of id l = None ↔ id ∉ live_key <$> l.
Proof.
  induction l as [|r l IH]; cbn; [split; [intros _; apply not_elem_of_nil | done]|].
  rewrite not_elem_of_cons. destruct (String.eqb_spec (live_key r) id) as [->|Hne].
  - split; [done | by intros []].
  - rewrite IH. split; [intros; split; [congruence | done] | by intros []].
Qed.

Lemma record_of_Some id l r : record_of id l = Some r → r ∈ l ∧ live_key r = id.
Proof.
  induction l as [|x l IH]; cbn; [done|]. destruct (String.eqb_spec (live_key x) id) as [E|E].
  - intros [= ->]. split; [left | done].
  - intros [Hin Hk]%IH. split; [by right | done].
Qed.

Lemma elem_record_of l r : NoDup (live_key <$> l) → r ∈ l → record_of (live_key r) l = Some r.
Proof.
  induction l as [|x l IH]; [intros _ Hin; by apply elem_of_nil in Hin|].
  rewrite fmap_cons. intros [Hx Hnd]%NoDup_cons Hin. cbn.
  apply elem_of_cons in Hin as [->|Hin]; [by rewrite String.eqb_refl|].
  destruct (String.eqb_spec (live_key x) (live_key r)) as [E|_]; [|by apply IH].
  destruct Hx. rewrite E. by apply list_elem_of_fmap_2.
Qed.

Lemma replace_record_cons r x l :
  replace_record r (x :: l) = (if String.eqb (live_key x) (live_key r) then r else x) :: replace_record r l.
Proof. done. Qed.

Lemma replace_record_ids r l : live_key <$> replace_record r l = live_key <$> l.
Proof.
  unfold replace_record. induction l as [|x l IH]; cbn; [done|]. rewrite IH.
  by destruct (String.eqb_spec (live_key x) (live_key r)) as [->|].
Qed.

Lemma replace_record_absent r l : live_key r ∉ live_key <$> l → replace_record r l = l.
Proof.
  unfold replace_record. induction l as [|x l IH]; cbn; [done|].
  intros [Hx Hl]%not_elem_of_cons. rewrite IH by done.
  by destruct (String.eqb_spec (live_key x) (live_key r)) as [E|].
Qed.

Lemma record_of_replace r l id :
  record_of id (replace_record r l) =
  if String.eqb (live_key r) id then (match record_of id l with Some _ => Some r | None => None end) else record_of id l.
Proof.
  unfold replace_record. induction l as [|x l IH]; cbn; [by destruct (String.eqb _ _)|].
  destruct (String.eqb_spec (live_key x) (live_key r)) as [Ex|Ex]; cbn; rewrite ?Ex, IH.
  - by destruct (String.eqb (live_key r) id).
  - destruct (String.eqb_spec (live_key x) id) as [<-|]; [|done].
    by destruct (String.eqb_spec (live_key r) (live_key x)).
Qed.

Lemma record_of_remove k l id :
  record_of id (remove_record k l) = if String.eqb k id then None else record_of id l.
Proof.
  unfold remove_record. induction l as [|x l IH]; cbn; [by destruct (String.eqb k id)|].
  destruct (String.eqb_spec (live_key x) k) as [<-|Hx]; cbn; rewrite IH.
  - by destruct (String.eqb_spec (live_key x) id).
  - destruct (String.eqb_spec (live_key x) id) as [<-|]; [|done].
    by destruct (String.eqb_spec k (live_key x)).
Qed.

Lemma NoDup_remove_record k l : NoDup (live_key <$> l) → NoDup (live_key <$> remove_record k l).
Proof.
  unfold remove_record. induction l as [|x l IH]; [done|]. rewrite fmap_cons. intros [Hx Hnd]%NoDup_cons. cbn.
  destruct (negb _); [|by apply IH]. rewrite fmap_cons. apply NoDup_cons. split; [|by apply IH].
  intros (y & E & Hy)%list_elem_of_fmap. apply Hx. rewrite E. apply list_elem_of_fmap_2.
  apply list_elem_of_In in Hy. apply filter_In in Hy. by apply list_elem_of_In, Hy.
Qed.

(** the three steps every reducer is made of *)
Lemma shows_prepend r l m :
  shows l m → record_of (live_key r) l = None → live_scope r = true →
  shows (r :: l) (jset (live_key r) r m).
Proof.
  intros [Hnd Hl] Hn Hs. split.
  - rewrite fmap_cons. apply NoDup_cons. split; [by apply record_of_None | done].
  - intros id. cbn. rewrite jget_jset, Hl. destruct (String.eqb_spec (live_key r) id); [|done].
    cbn. by rewrite Hs.
Qed.
Lemma shows_replace r l m :
  shows l m → record_of (live_key r) l ≠ None → live_scope r = true →
  shows (replace_record r l) (jset (live_key r) r m).
Proof.
  intros [Hnd Hl] Hn Hs. split; [by rewrite replace_record_ids|]. intros id.
  rewrite record_of_replace, jget_jset. destruct (String.eqb_spec (live_key r) id) as [<-|]; [|apply Hl].
  cbn. rewrite Hs. by destruct (record_of (live_key r) l).
Qed.
Lemma shows_remove r l m m' :
  shows l m → in_scope (jget (live_key r) m') = None →
  (∀ id, id ≠ live_key r → jget id m' = jget id m) →
  shows (remove_record (live_key r) l) m'.
Proof.
  intros [Hnd Hl] Hr Ho. split; [by apply NoDup_remove_record|]. intros id.
  rewrite record_of_remove. destruct (String.eqb_spec (live_key r) id) as [<-|Hne]; [done|].
  by rewrite Hl, Ho.
Qed.

Lemma shows_equiv l m m' : shows l m → jequiv m m' → shows l m'.
Proof. intros [Hnd Hl] He. split; [done|]. intros id. by rewrite Hl, He. Qed.
End Live.
Arguments record_of {R H}. Arguments shows {R H}.

(** what a page promises *)
Class LiveTableLaws (R : Type) `{LiveTable R} : Prop :=
  live_shows : ∀ (a : action) (r : R) l m,
    shows l m → possible a r m → shows (live_event a r l) (server_event a r m).

Lemma live_history `{LiveTableLaws R} (events : list (action * R)) l m :
  shows l m → history events m → shows (live_run events l) (server_run events m).
Proof.
  revert l m. induction events as [|[a r] events IH]; intros l m Hs Hh; [done|].
  destruct Hh as [Hp Hh]. cbn [live_run server_run foldl fst snd].
  apply IH; [by apply live_shows | done].
Qed.

(** ** Where the messages come from

    A page asks for the list and for the subscription at one time; the server serves the two in any order while its records
    change, and the messages of the subscription are on their way for a while.  [feed_step] are the steps of the server and
    of the connection, with what the page hears of each. *)
Module Feed.
Section Feed.
Context `{LiveTable R}.
Implicit Types (r x : R) (l : list R) (m : jsmap R).

(** the list: asked for, read by the server and on its way, arrived, or failed *)
Inductive listing := Asked | Read (items : list R) | Arrived | Failed.
(** [had] is every record the server has or has had *)
Record feed := { listed : listing; subscribed : bool; messages : list (action * R); collection : jsmap R; had : list R }.
Definition with_listing (x : listing) (f : feed) : feed :=
  {| listed := x; subscribed := subscribed f; messages := messages f; collection := collection f; had := had f |}.
Definition with_messages (l : list (action * R)) (f : feed) : feed :=
  {| listed := listed f; subscribed := subscribed f; messages := l; collection := collection f; had := had f |}.
Definition subscribe (f : feed) : feed :=
  {| listed := listed f; subscribed := true; messages := messages f; collection := collection f; had := had f |}.
(** a record changes on the server; a subscriber is sent a message *)
Definition change (a : action) r (f : feed) : feed := {|
  listed := listed f; subscribed := subscribed f; messages := messages f ++ (if subscribed f then [(a, r)] else []);
  collection := server_event a r (collection f); had := r :: had f |}.
(** both are asked for, also again *)
Definition restart (f : feed) : feed :=
  {| listed := Asked; subscribed := false; messages := []; collection := collection f; had := had f |}.
Definition opened (m : jsmap R) : feed :=
  {| listed := Asked; subscribed := false; messages := []; collection := m; had := snd <$> m |}.

Inductive heard := Silent | ListAnswer (items : list R) | ListFailed | Message (a : action) (r : R).
(** [answers] is what the list has of the records there are.  With [calm] no record changes from the time the first of the two is
    served until the list has arrived and the subscription is taken, and no message is lost *)
Inductive feed_step (calm : bool) (answers : list R → jsmap R → Prop) (f : feed) : heard → feed → Prop :=
| list_read items : listed f = Asked → answers items (collection f) → feed_step calm answers f Silent (with_listing (Read items) f)
| list_arrives items : listed f = Read items → feed_step calm answers f (ListAnswer items) (with_listing Arrived f)
| list_fails : listed f ≠ Arrived → feed_step calm answers f ListFailed (with_listing Failed f)
| subscribes : feed_step calm answers f Silent (subscribe f)
| changes a r : possible a r (collection f) →
    (calm = true → listed f = Asked ∧ subscribed f = false ∨ listed f = Arrived ∧ subscribed f = true ∨ listed f = Failed) →
    feed_step calm answers f Silent (change a r f)
| message_arrives a r rest : messages f = (a, r) :: rest → feed_step calm answers f (Message a r) (with_messages rest f)
| message_lost e rest : calm = false → messages f = e :: rest → feed_step calm answers f Silent (with_messages rest f).

(** what a page makes of what it hears, with [post] of the list *)
Definition hears (post : list R → list R) (o : heard) (data : list R) : list R :=
  match o with
  | Silent => data | ListAnswer items => post items | ListFailed => data | Message a r => live_event a r data
  end.

(** *** With [calm] the page is up to date but for the messages under way *)

Definition in_sync (ok : list R → jsmap R → Prop) (f : feed) (data : list R) : Prop :=
  match listed f with
  | Asked => messages f = []
  | Read items => messages f = [] ∧ ok items (collection f)
  | Arrived => ok (live_run (messages f) data) (collection f)
  | Failed => True
  end.
Lemma feed_in_sync (answers ok : list R → jsmap R → Prop) post f o f' data :
  (∀ l m, answers l m → ok l m) → (∀ l m, ok l m → ok (post l) m) →
  (∀ a r l m, ok l m → possible a r m → ok (live_event a r l) (server_event a r m)) →
  in_sync ok f data → feed_step true answers f o f' → in_sync ok f' (hears post o data).
Proof.
  intros Ha Hp Hev Hs Hf. destruct Hf as [items E Hi|items E|_| |a r Hr Hc|a r rest E|e rest ? E]; unfold in_sync in *; cbn.
  - rewrite E in Hs. split; [done|by apply Ha].
  - rewrite E in Hs. destruct Hs as [-> Hs]. by apply Hp.
  - done.
  - by destruct (listed f).
  - destruct (Hc eq_refl) as [[E Es]|[[E Es]|E]]; rewrite E in *; [| |done]; rewrite Es; [by rewrite app_nil_r|].
    unfold live_run. rewrite foldl_app. by apply Hev.
  - destruct (listed f); rewrite ?E in Hs; [done|by destruct Hs|done|done].
  - done.
Qed.

(** *** Without it every record shown is one the server has or has had *)

Definition all_had (f : feed) (data : list R) : Prop :=
  (∀ r, r ∈ data → r ∈ had f) ∧ (∀ e, e ∈ messages f → e.2 ∈ had f)
  ∧ (∀ items r, listed f = Read items → r ∈ items → r ∈ had f) ∧ (∀ id r, jget id (collection f) = Some r → r ∈ had f).
Lemma feed_all_had calm (answers : list R → jsmap R → Prop) f o f' data :
  (∀ l m r, answers l m → r ∈ l → jget (live_key r) m = Some r) →
  (∀ a r l x, x ∈ live_event a r l → x = r ∨ x ∈ l) →
  all_had f data → feed_step calm answers f o f' → all_had f' (hears (λ l, l) o data).
Proof.
  intros Ha He (Hd & Hm & Hi & Hc) Hf.
  destruct Hf as [items _ Hp|items E|_| |a r _ _|a r rest E|e rest _ E]; unfold all_had; cbn.
  - split_and!; try done. intros ? r [= <-] Hr. by eapply Hc, Ha.
  - split_and!; try done. intros r Hr. by eapply Hi.
  - by split_and!.
  - by split_and!.
  - split_and!.
    + intros x Hx. right. by apply Hd.
    + intros e [Hx|Hx]%elem_of_app; [by right; apply Hm|]. destruct (subscribed f); [|by apply elem_of_nil in Hx].
      apply list_elem_of_singleton in Hx as ->. by left.
    + intros items x E Hx. right. by eapply Hi.
    + intros id x Hx. destruct a; cbn in Hx; rewrite ?jget_jset, ?jget_jdel in Hx; destruct (String.eqb _ _); try done;
        try (by injection Hx as <-; left); right; by eapply Hc.
  - rewrite E in Hm. split_and!; [|intros e Hx; apply Hm; by right|done|done].
    intros x [->|Hx]%He; [|by apply Hd]. apply (Hm (a, r)). by left.
  - rewrite E in Hm. split_and!; [done|intros e' Hx; apply Hm; by right|done|done].
Qed.
Lemma opened_had m : all_had (opened m) [].
Proof.
  split_and!; cbn; try (by intros ? ?%elem_of_nil); [done|]. intros id r Hr. apply jget_Some_elem in Hr.
  by apply (list_elem_of_fmap_2 snd _ (id, r)).
Qed.
End Feed.
Arguments listing : clear implicits.
Arguments feed : clear implicits.
Arguments heard : clear implicits.
End Feed.
