(* ===== verification/SystemsManager.v ===== *)
(** * The systems manager: [lib/systemsManager.ts]

    Five map stores over system records: all systems by name and by id, and the systems that
    are up, down and paused.  [add], [update] and [remove] (the handlers of the realtime
    subscription) write the first two; a listener on the by-id store keeps the three status
    stores, the favicon's count and the longest name in step.  A [setKey] made inside the
    listener is queued by the store library and handled after the listener returns: [drain]
    runs that queue. *)
From Stdlib Require Import QArith Qminmax Lqa Lia ZArith.
From S2P Require Import Prelude JsValue Types Utils Nanostores.
Open Scope Z_scope.

(** ** State *)

Inductive store_id := ByName | ById | UpSystems | DownSystems | PausedSystems.
#[export] Instance store_id_eq_dec : EqDecision store_id. Proof. solve_decision. Defined.

(** a call of the listener that is due: new value, old value, changed key *)
Record notification := {
  n_new : jsmap SystemRecord; n_old : jsmap SystemRecord; n_key : string }.

Record state := {
  stores : store_id → jsmap SystemRecord;
  longestSystemNameLen : Q;
  prevDownCount : Z;
  initialized : bool;
  queue : list notification }.

Definition initial_state : state := {|
  stores := λ _, []; longestSystemNameLen := 8; prevDownCount := 0; initialized := false;
  queue := [] |}.

(** [$systems]: the values of the by-id store *)
Definition systems (st : state) : list SystemRecord := jvalues (stores st ById).

Definition with_store (w : store_id) (m : jsmap SystemRecord) (st : state) : state := {|
  stores := λ w', if decide (w' = w) then m else stores st w';
  longestSystemNameLen := longestSystemNameLen st; prevDownCount := prevDownCount st;
  initialized := initialized st; queue := queue st |}.
Definition with_queue (q : list notification) (st : state) : state := {|
  stores := stores st; longestSystemNameLen := longestSystemNameLen st;
  prevDownCount := prevDownCount st; initialized := initialized st; queue := q |}.

(** [initialized = true] and registration of the listener, once *)
Definition init (st : state) : state :=
  if initialized st then st
  else {|
    stores := stores st; longestSystemNameLen := longestSystemNameLen st;
    prevDownCount := prevDownCount st; initialized := true; queue := queue st |}.

(** the variable [unsub]: nothing, the function that ends a subscription (named by a number), or a
    value that is neither *)
Inductive handle := NoHandle | Handle (n : nat) | Answer.

Definition MAX_SYSTEM_NAME_LENGTH : Q := 22.

(** code points of an ASCII string *)
Fixpoint code_points (s : string) : list Z :=
  match s with EmptyString => [] | String a s' => Z.of_N (Ascii.N_of_ascii a) :: code_points s' end.

Section Manager.
Context `{MapStore}.

(** [store.setKey(key, value)]: only the by-id store has a listener *)
Definition store_setKey (w : store_id) (k : string) (v : option SystemRecord) (st : state) : state :=
  let old := stores st w in
  let st' := with_store w (setKey old k v) st in
  if decide (w = ById) then
    if initialized st && notifies old k v
    then with_queue (queue st' ++ [{| n_new := setKey old k v; n_old := old; n_key := k |}]) st'
    else st'
  else st'.

Definition removeFromStore (system : SystemRecord) (w : store_id) (st : state) : state :=
  let key := if decide (w = ByName) then sys_name system else sys_id system in
  store_setKey w key None st.

(** name length and favicon; the icon that is drawn is [updateFavicon]'s *)
Definition onSystemsChanged (changedSystem : option SystemRecord) (st : state) : state :=
  let downSystems := jvalues (stores st DownSystems) in
  let longestName := longestSystemNameLen st in
  let name := match changedSystem with Some s => sys_name s | None => ""%string end in
  let nameLen := Qmin MAX_SYSTEM_NAME_LENGTH (getVisualStringWidth (code_points name)) in
  {| stores := stores st;
     longestSystemNameLen := if Qltb longestName nameLen then nameLen else longestName;
     prevDownCount := (updateFavicon (prevDownCount st) (Z.of_nat (length downSystems))).1;
     initialized := initialized st; queue := queue st |}.

(** the listener that [init] registers *)
Definition listener (n : notification) (st : state) : state :=
  let oldSystem := jget (n_key n) (n_old n) in
  let newSystem := jget (n_key n) (n_new n) in
  let no_id := match newSystem with Some s => negb (truthy (sys_id s)) | None => true end in
  let st :=
    match oldSystem with
    | Some old =>
        if no_id then
          removeFromStore old ById
            (removeFromStore old PausedSystems
               (removeFromStore old DownSystems (removeFromStore old UpSystems st)))
        else st
    | None => st
    end in
  match newSystem with
  | None => onSystemsChanged None st
  | Some new =>
      let st :=
        match sys_status new with
        | Status_Up =>
            removeFromStore new PausedSystems
              (removeFromStore new DownSystems
                 (store_setKey UpSystems (sys_id new) (Some new) st))
        | Status_Down =>
            removeFromStore new PausedSystems
              (removeFromStore new UpSystems
                 (store_setKey DownSystems (sys_id new) (Some new) st))
        | Status_Paused =>
            removeFromStore new DownSystems
              (removeFromStore new UpSystems
                 (store_setKey PausedSystems (sys_id new) (Some new) st))
        | Status_Pending =>
            removeFromStore new PausedSystems
              (removeFromStore new DownSystems (removeFromStore new UpSystems st))
        end in
      onSystemsChanged (Some new) st
  end.

(** the library's loop over the queued calls *)
Fixpoint drain (fuel : nat) (st : state) : state :=
  match fuel with
  | O => st
  | S fuel =>
      match queue st with
      | [] => st
      | n :: q => drain fuel (listener n (with_queue q st))
      end
  end.

(** enough turns for any queue: see [drain_empties] *)
Definition drain_fuel (st : state) : nat := S (length (queue st) + length (stores st ById)).
Definition set_and_notify (w : store_id) (k : string) (v : option SystemRecord) (st : state) : state :=
  let st' := store_setKey w k v st in drain (drain_fuel st') st'.

(** ** Operations *)

(** [None] is the exception of [validateSystemInfo] *)
Definition validateSystemInfo (system : SystemRecord) : option unit :=
  match si_cpu (sys_info system) with Some _ => Some () | None => None end.

Definition add (system : SystemRecord) (st : state) : state :=
  match validateSystemInfo system with
  | Some _ => set_and_notify ById (sys_id system) (Some system)
                (set_and_notify ByName (sys_name system) (Some system) st)
  | None => st  (* logged *)
  end.

Definition update (system : SystemRecord) (st : state) : state :=
  match validateSystemInfo system with
  | Some _ =>
      let oldName := sys_name <$> jget (sys_id system) (stores st ById) in
      let st :=
        if decide (oldName = Some (sys_name system)) then st
        else set_and_notify ByName (default "undefined"%string oldName) None st in
      add system st
  | None => st
  end.

Definition remove_from (system : SystemRecord) (w : store_id) (st : state) : state :=
  let key := if decide (w = ByName) then sys_name system else sys_id system in
  set_and_notify w key None st.
Definition remove (system : SystemRecord) (st : state) : state :=
  remove_from system PausedSystems
    (remove_from system DownSystems
       (remove_from system UpSystems
          (remove_from system ById (remove_from system ByName st)))).

(** the realtime subscription's dispatch; an action without a handler is ignored *)
Definition actionFns (action : string) : option (SystemRecord → state → state) :=
  if String.eqb action "create" then Some add
  else if String.eqb action "update" then Some update
  else if String.eqb action "delete" then Some remove
  else None.
Definition on_event (action : string) (record : SystemRecord) (st : state) : state :=
  match actionFns action with Some f => f record st | None => st end.

(** [fetchSystems] gives the empty list when the request fails; [refresh] then verifies the
    authentication (the boolean) instead of touching the stores *)
Definition fetchSystems (response : option (list SystemRecord)) : list SystemRecord :=
  default [] response.
Definition refresh (response : option (list SystemRecord)) (st : state) : state * bool :=
  let records := fetchSystems response in
  if Nat.eqb (length records) 0 then (st, true)
  else (foldl (λ st record, add record st) st records, false).

(** [unsub = unsub?.()]: the subscription that is ended, if any, and what the variable holds then,
    which is whatever the client library's function returned; [None] is the exception of calling
    what is not a function *)
Definition unsubscribe (returned : handle) (unsub : handle) : option (option nat * handle) :=
  match unsub with
  | NoHandle => Some (None, NoHandle)
  | Handle n => Some (Some n, returned)
  | Answer => None
  end.

End Manager.

(** ** Invariant *)

(** the status whose systems a store holds *)
Definition status_of (w : store_id) : option SystemStatus :=
  match w with
  | UpSystems => Some Status_Up | DownSystems => Some Status_Down
  | PausedSystems => Some Status_Paused | ByName | ById => None
  end.

(** what a status store must hold for a system of the by-id store *)
Definition if_status (status : SystemStatus) (s : option SystemRecord) : option SystemRecord :=
  match s with Some x => if decide (sys_status x = status) then Some x else None | None => None end.

(** the status stores mirror the by-id store, at every key that satisfies [P] *)
Definition mirrors (P : string → Prop) (st : state) : Prop :=
  ∀ w status k, status_of w = Some status → P k →
    jget k (stores st w) = if_status status (jget k (stores st ById)).

(** a server record: a non-empty identifier *)
Definition has_id (s : SystemRecord) : Prop := sys_id s ≠ ""%string.
Definition keyed (m : jsmap SystemRecord) : Prop :=
  ∀ k s, jget k m = Some s → sys_id s = k ∧ has_id s.

Record invariant (st : state) : Prop := {
  inv_init : initialized st = true;
  inv_queue : queue st = [];
  inv_wf : ∀ w, jwf (stores st w);
  inv_keyed : keyed (stores st ById);
  inv_mirrors : mirrors (λ _, True) st;
  inv_favicon : prevDownCount st = Z.of_nat (length (jvalues (stores st DownSystems)));
  inv_name : (8 <= longestSystemNameLen st <= MAX_SYSTEM_NAME_LENGTH)%Q }.

(** ** Lemmas on single writes *)

Section ManagerLemmas.
Context `{Laws : MapStoreLaws}.
Implicit Types (st : state) (w : store_id) (k : string) (s : SystemRecord).

Lemma stores_store_setKey w w' k v st :
  stores (store_setKey w k v st) w' =
  if decide (w' = w) then setKey (stores st w) k v else stores st w'.
Proof.
  unfold store_setKey. destruct (decide (w = ById)); [|done].
  by destruct (initialized st && notifies _ _ _).
Qed.

Lemma jget_store_setKey w w' k k' v st :
  jget k' (stores (store_setKey w k v st) w') =
  if decide (w' = w) then (if String.eqb k k' then v else jget k' (stores st w))
  else jget k' (stores st w').
Proof.
  rewrite stores_store_setKey. destruct (decide (w' = w)) as [->|]; [apply jget_setKey | done].
Qed.

Lemma queue_store_setKey w k v st : w ≠ ById → queue (store_setKey w k v st) = queue st.
Proof. intros. unfold store_setKey. by rewrite decide_False. Qed.

Lemma queue_store_setKey_absent k st :
  jget k (stores st ById) = None → queue (store_setKey ById k None st) = queue st.
Proof.
  intros H'. unfold store_setKey. simpl. rewrite notifies_undefined. unfold jhas. rewrite H'.
  by rewrite andb_false_r.
Qed.

Lemma rest_store_setKey w k v st :
  initialized (store_setKey w k v st) = initialized st
  ∧ prevDownCount (store_setKey w k v st) = prevDownCount st
  ∧ longestSystemNameLen (store_setKey w k v st) = longestSystemNameLen st.
Proof.
  unfold store_setKey. destruct (decide (w = ById)); [|done].
  by destruct (initialized st && notifies _ _ _).
Qed.

Lemma wf_store_setKey w k v st :
  (∀ w', jwf (stores st w')) → ∀ w', jwf (stores (store_setKey w k v st) w').
Proof.
  intros Hwf w'. rewrite stores_store_setKey. destruct (decide (w' = w)); [by apply jwf_setKey | done].
Qed.

Lemma name_bound (o x : Q) :
  (8 <= o <= MAX_SYSTEM_NAME_LENGTH →
   8 <= (let l := Qmin MAX_SYSTEM_NAME_LENGTH x in if Qltb o l then l else o) <= MAX_SYSTEM_NAME_LENGTH)%Q.
Proof.
  intros Ho. cbv zeta. destruct (Qltb _ _) eqn:E; [|done]. apply Qltb_true in E.
  split; [lra | apply Q.le_min_l].
Qed.

Lemma updateFavicon_count p c : (updateFavicon p c).1 = c.
Proof. unfold updateFavicon. destruct (Z.eqb_spec c p); done. Qed.

(** *** The listener *)

(** the stores after the listener: the changed key is put where its status belongs *)
Lemma listener_mirrors n st :
  n_new n = stores st ById → keyed (n_old n) → keyed (n_new n) →
  mirrors (λ k, k ≠ n_key n) st →
  (jget (n_key n) (n_old n) = None → mirrors (λ _, True) st ∨ jget (n_key n) (n_new n) ≠ None) →
  mirrors (λ _, True) (listener n st)
  ∧ stores (listener n st) ById = stores st ById
  ∧ stores (listener n st) ByName = stores st ByName
  ∧ queue (listener n st) = queue st.
Proof.
  destruct n as [new old k]. simpl. intros -> Hko Hkn Hm Hold.
  unfold listener. simpl n_key. simpl n_old. simpl n_new.
  destruct (jget k (stores st ById)) as [s|] eqn:Es.
  - destruct (Hkn _ _ Es) as [Hid Hne].
    replace (negb (truthy (sys_id s))) with false
      by (unfold truthy, truthy_string; symmetry; rewrite negb_false_iff, negb_true_iff;
          by apply String.eqb_neq).
    replace (match jget k old with Some _ => st | None => st end) with st by (by destruct (jget k old)).
    split; [|by destruct (sys_status s)].
    intros w status k' Hw _. unfold onSystemsChanged. simpl stores.
    destruct (sys_status s) eqn:Hs; destruct w; try discriminate Hw; injection Hw as <-;
      unfold removeFromStore; simpl decide; cbv iota;
      rewrite ?Hid, ?jget_store_setKey; simpl;
      (destruct (String.eqb_spec k k') as [<-|Hk];
       [rewrite Es; simpl; rewrite Hs; done | by apply Hm; [|congruence]]).
  - destruct (jget k old) as [o|] eqn:Eo.
    + destruct (Hko _ _ Eo) as [Hid Hne].
      assert (stores (removeFromStore o ById (removeFromStore o PausedSystems
        (removeFromStore o DownSystems (removeFromStore o UpSystems st)))) ById = stores st ById) as Hby.
      { unfold removeFromStore; simpl decide; cbv iota. rewrite !stores_store_setKey. simpl.
        rewrite Hid. by apply setKey_absent. }
      unfold onSystemsChanged. simpl stores. simpl queue. split; [|split; [done|split]].
      * intros w status k' Hw _. simpl stores. rewrite Hby.
        unfold removeFromStore; simpl decide; cbv iota.
        destruct w; try discriminate Hw; injection Hw as <-; rewrite ?Hid, ?jget_store_setKey; simpl;
          (destruct (String.eqb_spec k k') as [<-|Hk];
           [by rewrite Es | by apply Hm; [|congruence]]).
      * unfold removeFromStore; simpl decide; cbv iota. by rewrite !stores_store_setKey.
      * unfold removeFromStore; simpl decide; cbv iota.
        rewrite queue_store_setKey_absent; [by rewrite !queue_store_setKey|].
        rewrite !jget_store_setKey. simpl. by rewrite Hid.
    + destruct (Hold eq_refl) as [Hall|]; [|done]. done.
Qed.
(** the parts of the state that every write inside the listener keeps *)
Definition side_ok st : Prop :=
  initialized st = true ∧ (∀ w, jwf (stores st w))
  ∧ (8 <= longestSystemNameLen st <= MAX_SYSTEM_NAME_LENGTH)%Q.

Lemma side_ok_store_setKey w k v st : side_ok st → side_ok (store_setKey w k v st).
Proof.
  intros (Hi & Hwf & Hn). destruct (rest_store_setKey w k v st) as (E1 & _ & E3).
  unfold side_ok. rewrite E1, E3. split; [done|]. split; [|done]. by apply wf_store_setKey.
Qed.

Lemma side_ok_onSystemsChanged c st : side_ok st →
  side_ok (onSystemsChanged c st)
  ∧ prevDownCount (onSystemsChanged c st) =
    Z.of_nat (length (jvalues (stores (onSystemsChanged c st) DownSystems))).
Proof.
  intros (Hi & Hwf & Hn). split; [|apply updateFavicon_count].
  split; [done|]. split; [done|]. by apply name_bound.
Qed.

Lemma listener_side n st : side_ok st →
  side_ok (listener n st)
  ∧ prevDownCount (listener n st) =
    Z.of_nat (length (jvalues (stores (listener n st) DownSystems))).
Proof.
  intros Hs. unfold listener.
  assert (∀ st', side_ok st' → ∀ o w, side_ok (removeFromStore o w st')) as Hr
    by (intros; by apply side_ok_store_setKey).
  assert (side_ok match jget (n_key n) (n_old n) with
    | Some old => if match jget (n_key n) (n_new n) with
                     | Some s => negb (truthy (sys_id s)) | None => true end
                  then removeFromStore old ById (removeFromStore old PausedSystems
                         (removeFromStore old DownSystems (removeFromStore old UpSystems st)))
                  else st
    | None => st end) as H'.
  { destruct (jget (n_key n) (n_old n)); [|done].
    destruct (match _ with Some _ => _ | None => _ end); [by repeat apply Hr | done]. }
  destruct (jget (n_key n) (n_new n)); [|by apply side_ok_onSystemsChanged].
  apply side_ok_onSystemsChanged.
  destruct (sys_status s); repeat apply Hr; try apply side_ok_store_setKey; done.
Qed.

(** *** Writes of the by-id store followed by the listener *)

Lemma drain_nil fuel st : queue st = [] → drain fuel st = st.
Proof. intros Hq. destruct fuel; [done|]. simpl. by rewrite Hq. Qed.

Lemma drain_one n fuel st :
  queue st = [n] → queue (listener n (with_queue [] st)) = [] →
  drain (S fuel) st = listener n (with_queue [] st).
Proof. intros Hq Hq'. simpl. rewrite Hq. by apply drain_nil. Qed.

Lemma set_and_notify_other w k v st :
  w ≠ ById → queue st = [] → set_and_notify w k v st = store_setKey w k v st.
Proof. intros Hw Hq. apply drain_nil. by rewrite queue_store_setKey. Qed.

(** a write that keeps the by-id store keyed by identifiers keeps the invariant *)
Lemma set_and_notify_ById k v st :
  invariant st → (∀ s, v = Some s → sys_id s = k ∧ has_id s) →
  invariant (set_and_notify ById k v st)
  ∧ stores (set_and_notify ById k v st) ById = setKey (stores st ById) k v
  ∧ stores (set_and_notify ById k v st) ByName = stores st ByName.
Proof.
  intros [Hi Hq Hwf Hk Hm Hf Hn] Hv. unfold set_and_notify.
  assert (keyed (setKey (stores st ById) k v)) as Hk'.
  { intros k' s. rewrite jget_setKey. destruct (String.eqb_spec k k') as [<-|]; [apply Hv | apply Hk]. }
  destruct (notifies (stores st ById) k v) eqn:En.
  - set (n := {| n_new := setKey (stores st ById) k v; n_old := stores st ById; n_key := k |}).
    assert (store_setKey ById k v st =
            with_queue [n] (with_store ById (setKey (stores st ById) k v) st)) as E.
    { unfold store_setKey. simpl. rewrite Hi, En. simpl. by rewrite Hq. }
    rewrite E. unfold drain_fuel.
    set (st1 := with_queue [] (with_queue [n] (with_store ById (setKey (stores st ById) k v) st))).
    assert (side_ok st1) as Hs1.
    { split; [done|]. split; [|done]. intros w. simpl. destruct (decide (w = ById));
        [by apply jwf_setKey | done]. }
    assert (queue (listener n st1) = [] ∧ invariant (listener n st1)
      ∧ stores (listener n st1) ById = setKey (stores st ById) k v
      ∧ stores (listener n st1) ByName = stores st ByName) as (Hq' & H' & Hst).
    { destruct (listener_mirrors n st1) as (Hm' & Hb & Hbn & Hq'); try done.
      - intros w status k' Hw Hne. simpl. rewrite decide_False by (by intros ->).
        rewrite jget_setKey. destruct (String.eqb_spec k k'); [done|]. by apply Hm.
      - simpl. intros Ho. destruct v as [s|]; [right; by rewrite jget_setKey, String.eqb_refl|].
        exfalso. rewrite notifies_undefined in En. unfold jhas in En. by rewrite Ho in En.
      - destruct (listener_side n st1 Hs1) as [(Hi' & Hwf' & Hn') Hf'].
        rewrite Hq', Hb, Hbn. split; [done|]. split; [|done].
        split; try done. by rewrite Hb. }
    by rewrite (drain_one n).
  - assert (v = None ∧ jget k (stores st ById) = None) as [-> Hab].
    { destruct v; [by rewrite notifies_value in En|]. split; [done|].
      rewrite notifies_undefined in En. unfold jhas in En. by destruct (jget k _). }
    assert (store_setKey ById k None st = with_store ById (stores st ById) st) as E.
    { unfold store_setKey. simpl. rewrite En, andb_false_r. by rewrite setKey_absent. }
    rewrite E, setKey_absent by done.
    rewrite drain_nil by done. split; [|done].
    assert (∀ w, stores (with_store ById (stores st ById) st) w = stores st w) as Est
      by (intros w; simpl; by destruct (decide (w = ById)) as [->|]).
    split; [done | done | | | | | done].
    + intros w. by rewrite Est.
    + by rewrite Est.
    + intros w status k' Hw _. rewrite !Est. by apply Hm.
    + by rewrite Est.
Qed.
(** *** Writes of the other stores *)

Lemma invariant_ext st st' :
  (∀ w, w ≠ ByName → stores st' w = stores st w) → jwf (stores st' ByName) →
  queue st' = queue st → initialized st' = initialized st →
  prevDownCount st' = prevDownCount st → longestSystemNameLen st' = longestSystemNameLen st →
  invariant st → invariant st'.
Proof.
  intros Hs Hbn Hq Hi Hp Hl [Ii Iq Iwf Ik Im If In].
  split; rewrite ?Hq, ?Hi, ?Hp, ?Hl, ?Hs by done; try done.
  - intros w. destruct (decide (w = ByName)) as [->|]; [done|]. by rewrite Hs.
  - intros w status k Hw _. rewrite !Hs; [by apply Im | done | by intros ->].
Qed.

Lemma set_ByName k v st : invariant st →
  invariant (set_and_notify ByName k v st)
  ∧ (∀ w, stores (set_and_notify ByName k v st) w =
          if decide (w = ByName) then setKey (stores st ByName) k v else stores st w).
Proof.
  intros Hinv. rewrite set_and_notify_other by (done || by apply inv_queue).
  destruct (rest_store_setKey ByName k v st) as (E1 & E2 & E3).
  split; [|intros w; apply stores_store_setKey].
  apply (invariant_ext st); rewrite ?E1, ?E2, ?E3, ?stores_store_setKey; try done.
  - intros w Hw. rewrite stores_store_setKey. by rewrite decide_False.
  - simpl. by apply jwf_setKey, inv_wf.
Qed.

Lemma set_status_absent w k st :
  invariant st → w ≠ ById → jget k (stores st w) = None →
  invariant (set_and_notify w k None st)
  ∧ (∀ w', stores (set_and_notify w k None st) w' = stores st w').
Proof.
  intros Hinv Hw Hab. rewrite set_and_notify_other by (done || by apply inv_queue).
  destruct (rest_store_setKey w k None st) as (E1 & E2 & E3).
  assert (∀ w', stores (store_setKey w k None st) w' = stores st w') as Est.
  { intros w'. rewrite stores_store_setKey.
    destruct (decide (w' = w)) as [->|]; [by apply setKey_absent | done]. }
  split; [|done].
  apply (invariant_ext st); rewrite ?E1, ?E2, ?E3, ?Est; try done.
  - by apply inv_wf.
  - by rewrite queue_store_setKey.
Qed.

(** *** Operations *)

Definition valid (s : SystemRecord) : Prop := validateSystemInfo s = Some ().

Lemma add_spec s st : invariant st → has_id s → valid s →
  invariant (add s st)
  ∧ stores (add s st) ById = jset (sys_id s) s (stores st ById)
  ∧ stores (add s st) ByName = jset (sys_name s) s (stores st ByName).
Proof.
  intros Hinv Hid Hv. unfold add. rewrite Hv.
  destruct (set_ByName (sys_name s) (Some s) st Hinv) as [Hinv1 Hst1].
  destruct (set_and_notify_ById (sys_id s) (Some s) _ Hinv1) as (Hinv2 & Hb & Hbn);
    [by intros ? [= <-]|].
  rewrite Hb, Hbn, !Hst1. simpl. by rewrite !setKey_value.
Qed.

Lemma add_invalid s st : ¬ valid s → add s st = st.
Proof.
  unfold valid, add. destruct (validateSystemInfo s) as [[]|]; [intros []|]; done.
Qed.

Lemma valid_dec s : valid s ∨ ¬ valid s.
Proof. unfold valid. destruct (validateSystemInfo s) as [[]|]; [by left | by right]. Qed.

Lemma add_invariant s st : invariant st → has_id s → invariant (add s st).
Proof.
  intros. destruct (valid_dec s); [by apply add_spec | by rewrite add_invalid].
Qed.

(** the by-name key [update] clears *)
Definition stale_name s st : option string :=
  let oldName := sys_name <$> jget (sys_id s) (stores st ById) in
  if decide (oldName = Some (sys_name s)) then None else Some (default "undefined"%string oldName).

Lemma update_spec s st : invariant st → has_id s → valid s →
  invariant (update s st)
  ∧ stores (update s st) ById = jset (sys_id s) s (stores st ById)
  ∧ stores (update s st) ByName =
    jset (sys_name s) s (match stale_name s st with
                         | Some o => jdel o (stores st ByName) | None => stores st ByName end).
Proof.
  intros Hinv Hid Hv. unfold update, stale_name. rewrite Hv.
  destruct (decide (sys_name <$> _ = _)); [by apply add_spec|].
  destruct (set_ByName (default "undefined"%string (sys_name <$> jget (sys_id s) (stores st ById)))
              None st Hinv) as [Hinv1 Hst1].
  destruct (add_spec s _ Hinv1 Hid Hv) as (Hinv2 & -> & ->).
  split; [done|]. rewrite !Hst1. simpl. by rewrite setKey_undefined.
Qed.

Lemma update_invariant s st : invariant st → has_id s → invariant (update s st).
Proof.
  intros. destruct (valid_dec s) as [|Hv]; [by apply update_spec|].
  unfold update, valid in *. destruct (validateSystemInfo s) as [[]|]; done.
Qed.

Lemma remove_invariant s st : invariant st → invariant (remove s st)
  ∧ (∀ w, stores (remove s st) w =
       match w with
       | ByName => jdel (sys_name s) (stores st ByName)
       | ById => jdel (sys_id s) (stores st ById)
       | _ => stores (set_and_notify ById (sys_id s) None
                 (set_and_notify ByName (sys_name s) None st)) w
       end)
  ∧ ∀ w status, status_of w = Some status → jget (sys_id s) (stores (remove s st) w) = None.
Proof.
  intros Hinv. unfold remove, remove_from. simpl decide. cbv iota.
  destruct (set_ByName (sys_name s) None st Hinv) as [Hinv1 Hst1].
  destruct (set_and_notify_ById (sys_id s) None _ Hinv1) as (Hinv2 & Hb & Hbn); [done|].
  set (st2 := set_and_notify ById (sys_id s) None _) in *.
  assert (∀ w status, status_of w = Some status → jget (sys_id s) (stores st2 w) = None) as Hgone.
  { intros w status Hw. rewrite (inv_mirrors _ Hinv2 _ _ _ Hw I), Hb, jget_setKey.
    by rewrite String.eqb_refl. }
  destruct (set_status_absent UpSystems (sys_id s) st2) as [Hinv3 Hst3];
    [done | done | by eapply Hgone |].
  destruct (set_status_absent DownSystems (sys_id s) _ Hinv3) as [Hinv4 Hst4];
    [done | rewrite Hst3; by eapply Hgone |].
  destruct (set_status_absent PausedSystems (sys_id s) _ Hinv4) as [Hinv5 Hst5];
    [done | rewrite Hst4, Hst3; by eapply Hgone |].
  split; [done|].
  split; intros w; rewrite Hst5, Hst4, Hst3.
  - destruct w; try done; rewrite ?Hb, ?Hbn, !Hst1; simpl; by rewrite setKey_undefined.
  - apply Hgone.
Qed.

Lemma refresh_fold l st : invariant st → Forall has_id l →
  invariant (foldl (λ st record, add record st) st l).
Proof.
  revert st. induction l as [|r l IH]; intros st Hinv Hl; [done|].
  apply Forall_cons in Hl as [Hr Hl]. simpl. apply IH; [|done]. by apply add_invariant.
Qed.

End ManagerLemmas.

(** ** The manager as a state machine *)

Section Reachable.
Context `{Laws : MapStoreLaws}.

(** one event: a realtime message, or the answer to a refresh ([None]: the request failed) *)
Inductive step : state → state → Prop :=
| step_event action record st :
    has_id record → step st (on_event action record st)
| step_refresh response st :
    Forall has_id (fetchSystems response) → step st (refresh response st).1.

Definition reachable (st : state) : Prop := rtc step (init initial_state) st.

Lemma init_invariant : invariant (init initial_state).
Proof.
  split; [done | done | intros w; apply jwf_nil | done | by intros w status k Hw _ | done |].
  simpl. unfold MAX_SYSTEM_NAME_LENGTH. split; lra.
Qed.

Lemma step_invariant st st' : step st st' → invariant st → invariant st'.
Proof.
  intros [action record s Hid | response s Hl] Hinv.
  - unfold on_event, actionFns.
    destruct (String.eqb action "create"); [by apply add_invariant|].
    destruct (String.eqb action "update"); [by apply update_invariant|].
    destruct (String.eqb action "delete"); [by apply remove_invariant | done].
  - unfold refresh. destruct (Nat.eqb _ _); [done|]. by apply refresh_fold.
Qed.

Lemma reachable_inv st : reachable st → invariant st.
Proof.
  apply (rtc_ind_r (λ s, invariant s)); [apply init_invariant|].
  intros y z _ Hs Hy. by eapply step_invariant.
Qed.

(** C1: in every state the manager can reach, the up, down and paused stores
    hold exactly the systems of the by-id store with that status, each system sits under its own
    identifier, the favicon's count is the number of systems that are down, no listener call is
    left waiting, and the longest-name width stays between 8 and its cap of 22. *)
Theorem reachable_invariant st : reachable st →
  (∀ w status k, status_of w = Some status →
     jget k (stores st w) = if_status status (jget k (stores st ById)))
  ∧ (∀ k s, jget k (stores st ById) = Some s → sys_id s = k)
  ∧ prevDownCount st = Z.of_nat (length (jvalues (stores st DownSystems)))
  ∧ queue st = []
  ∧ (8 <= longestSystemNameLen st <= MAX_SYSTEM_NAME_LENGTH)%Q.
Proof.
  intros Hr. destruct (reachable_inv _ Hr) as [Hi Hq Hwf Hk Hm Hf Hn].
  split; [intros; by apply Hm|]. split; [|done]. intros k s Hs. by destruct (Hk _ _ Hs).
Qed.

(** C13: a valid update leaves the record under its identifier and its current
    name, clears the name it had before a rename, and touches no other entry of either store. *)
Theorem update_store_spec st s : reachable st → has_id s → valid s →
  let st' := update s st in
  jget (sys_id s) (stores st' ById) = Some s
  ∧ jget (sys_name s) (stores st' ByName) = Some s
  ∧ (∀ old, jget (sys_id s) (stores st ById) = Some old → sys_name old ≠ sys_name s →
       jget (sys_name old) (stores st' ByName) = None)
  ∧ (∀ k, k ≠ sys_id s → jget k (stores st' ById) = jget k (stores st ById))
  ∧ (∀ n, n ≠ sys_name s → Some n ≠ stale_name s st →
       jget n (stores st' ByName) = jget n (stores st ByName)).
Proof.
  intros Hr Hid Hv. pose proof (reachable_inv _ Hr) as Hinv.
  cbv zeta. destruct (update_spec s st Hinv Hid Hv) as (_ & Hb & Hn).
  rewrite Hb, Hn, !jget_jset_eq. do 2 (split; [done|]). split; [|split].
  - intros old Ho Hne. rewrite jget_jset_ne by done. unfold stale_name. rewrite Ho. simpl.
    rewrite decide_False by congruence. apply jget_jdel_eq.
  - intros k Hk. by rewrite jget_jset_ne.
  - intros n Hne Hst. rewrite jget_jset_ne by done.
    destruct (stale_name s st) as [o|]; [|done]. rewrite jget_jdel_ne; congruence.
Qed.

(** C14: removing a system clears its identifier from the by-id store and all three
    status stores and its name from the by-name store, and every other system keeps its entries. *)
Theorem remove_store_spec st s : reachable st →
  let st' := remove s st in
  (∀ w, w ≠ ByName → jget (sys_id s) (stores st' w) = None)
  ∧ jget (sys_name s) (stores st' ByName) = None
  ∧ (∀ w k, w ≠ ByName → k ≠ sys_id s → jget k (stores st' w) = jget k (stores st w))
  ∧ (∀ n, n ≠ sys_name s → jget n (stores st' ByName) = jget n (stores st ByName)).
Proof.
  intros Hr. pose proof (reachable_inv _ Hr) as Hinv.
  cbv zeta. destruct (remove_invariant s st Hinv) as (Hinv' & Hst & Hgone).
  assert (jget (sys_id s) (stores (remove s st) ById) = None) as Hid
    by (rewrite (Hst ById); apply jget_jdel_eq).
  split; [|split; [|split]].
  - intros [] Hw; try done; by eapply Hgone.
  - rewrite Hst. apply jget_jdel_eq.
  - intros w k Hw Hk. destruct (status_of w) as [status|] eqn:Es.
    + rewrite (inv_mirrors _ Hinv' _ _ _ Es I), (inv_mirrors _ Hinv _ _ _ Es I).
      by rewrite (Hst ById), jget_jdel_ne.
    + destruct w; try done. by rewrite Hst, jget_jdel_ne.
  - intros n Hn. by rewrite Hst, jget_jdel_ne.
Qed.

(** the record a refresh leaves under an identifier: the last valid one of the answer *)
Definition refreshed (k : string) (l : list SystemRecord) (before : option SystemRecord) :=
  foldl (λ o r, match validateSystemInfo r with
                | Some _ => if String.eqb (sys_id r) k then Some r else o | None => o end) before l.

Lemma refresh_fold_lookup l st k : invariant st → Forall has_id l →
  jget k (stores (foldl (λ st record, add record st) st l) ById) =
  refreshed k l (jget k (stores st ById)).
Proof.
  revert st. induction l as [|r l IH]; intros st Hinv Hl; [done|].
  apply Forall_cons in Hl as [Hr Hl]. simpl.
  rewrite IH by (done || by apply add_invariant). f_equal.
  destruct (valid_dec r) as [Hv|Hv].
  - destruct (add_spec r st Hinv Hr Hv) as (_ & -> & _). rewrite Hv. apply jget_jset.
  - rewrite add_invalid by done. unfold valid in Hv.
    by destruct (validateSystemInfo r) as [[]|].
Qed.

(** C15: a refresh asks for re-authentication, and changes nothing, exactly when the
    server answered with no systems or not at all; otherwise every identifier holds the last valid
    record the answer has for it, and a system the answer does not mention keeps its old record. *)
Theorem refresh_spec st response : reachable st → Forall has_id (fetchSystems response) →
  (refresh response st).2 = bool_decide (fetchSystems response = [])
  ∧ (fetchSystems response = [] → (refresh response st).1 = st)
  ∧ ∀ k, jget k (stores (refresh response st).1 ById) =
         refreshed k (fetchSystems response) (jget k (stores st ById)).
Proof.
  intros Hr Hl. pose proof (reachable_inv _ Hr) as Hinv.
  unfold refresh. destruct (fetchSystems response) as [|r l] eqn:E; [done|]. simpl Nat.eqb.
  cbv iota. split; [done|]. split; [done|]. intros k. by apply refresh_fold_lookup.
Qed.

(** *** Termination of the listener loop *)

Lemma length_jdel {A} (m : jsmap A) k : (length (jdel k m) ≤ length m)%nat ∧
  (jhas k m = true → (length (jdel k m) < length m)%nat).
Proof.
  unfold jdel, jhas. induction m as [|[k' v] m [IH1 IH2]]; simpl; [done|].
  destruct (String.eqb k k') eqn:E; simpl; split; try lia.
  intros Hh. specialize (IH2 Hh). lia.
Qed.

(** queued calls plus stored systems *)
Definition load (st : state) : nat := (length (queue st) + length (stores st ById))%nat.

Lemma load_store_setKey_other w k v st : w ≠ ById → load (store_setKey w k v st) = load st.
Proof.
  intros. unfold load. rewrite queue_store_setKey, stores_store_setKey by done.
  by rewrite decide_False.
Qed.

Lemma load_remove_ById k st : (load (store_setKey ById k None st) ≤ load st)%nat.
Proof.
  unfold load. rewrite stores_store_setKey. simpl. rewrite setKey_undefined.
  unfold store_setKey. simpl. rewrite notifies_undefined.
  destruct (length_jdel (stores st ById) k) as [H1 H2].
  destruct (initialized st && jhas k (stores st ById)) eqn:E; simpl.
  - apply andb_prop in E as [_ E]. rewrite length_app. simpl. specialize (H2 E). lia.
  - lia.
Qed.

Lemma load_listener n st : (load (listener n st) ≤ load st)%nat.
Proof.
  unfold listener. set (st1 := match jget (n_key n) (n_old n) with Some _ => _ | None => st end).
  assert (load st1 ≤ load st)%nat as H1.
  { subst st1. destruct (jget (n_key n) (n_old n)) as [o|]; [|done].
    destruct (match _ with Some _ => _ | None => _ end); [|done].
    unfold removeFromStore. simpl decide. cbv iota.
    etransitivity; [apply load_remove_ById|]. by rewrite !load_store_setKey_other. }
  destruct (jget (n_key n) (n_new n)) as [s|]; [|done].
  etransitivity; [|exact H1]. change (load (onSystemsChanged ?c ?x)) with (load x).
  unfold removeFromStore. simpl decide. cbv iota.
  destruct (sys_status s); by rewrite !load_store_setKey_other.
Qed.

(** C32: the listener loop always finishes: a listener call queues another call only
    when it deletes a system, so as many turns as there are queued calls and stored systems, plus
    one, empty the queue, from any state whatever. *)
Theorem drain_empties st fuel : (load st < fuel)%nat → queue (drain fuel st) = [].
Proof.
  revert st. induction fuel as [|fuel IH]; intros st Hf; [lia|]. simpl.
  destruct (queue st) as [|n q] eqn:Eq; [done|]. apply IH.
  pose proof (load_listener n (with_queue q st)) as H1.
  unfold load in *. simpl in *. rewrite Eq in Hf. simpl in Hf. lia.
Qed.

End Reachable.

(** ** The theorems at work on one system *)

Definition ex_web : SystemRecord := example_system "a1" "web" Status_Up.
Definition ex_web_down : SystemRecord := example_system "a1" "web2" Status_Down.
Definition ex_state : state := on_event (H := reference_store) "create" ex_web (init initial_state).

Lemma ex_has_id : has_id ex_web.
Proof. discriminate. Qed.

Lemma ex_reachable : reachable (H := reference_store) ex_state.
Proof. apply rtc_once. apply (step_event (H := reference_store)), ex_has_id. Qed.

Lemma reachable_invariant_witness :
  reachable (H := reference_store) ex_state ∧ jget "a1" (stores ex_state UpSystems) = Some ex_web.
Proof.
  split; [exact ex_reachable|].
  rewrite (proj1 (reachable_invariant (Laws := reference_store_laws) ex_state ex_reachable)
             UpSystems Status_Up "a1" eq_refl).
  vm_compute. reflexivity.
Defined.

Lemma update_store_spec_witness :
  jget "web" (stores ex_state ByName) = Some ex_web
  ∧ jget "web" (stores (update (H := reference_store) ex_web_down ex_state) ByName) = None.
Proof.
  split; [vm_compute; reflexivity|].
  refine (proj1 (proj2 (proj2 (update_store_spec (Laws := reference_store_laws) ex_state ex_web_down
                           ex_reachable _ _))) ex_web _ _); [discriminate | reflexivity | | discriminate].
  vm_compute. reflexivity.
Defined.

Lemma remove_store_spec_witness :
  jget "a1" (stores ex_state UpSystems) = Some ex_web
  ∧ jget "a1" (stores (remove (H := reference_store) ex_web ex_state) UpSystems) = None.
Proof.
  split; [vm_compute; reflexivity|].
  apply (proj1 (remove_store_spec (Laws := reference_store_laws) ex_state ex_web ex_reachable)
           UpSystems). discriminate.
Defined.

Lemma refresh_spec_witness :
  jget "a1" (stores (refresh (H := reference_store) (Some [ex_web_down]) ex_state).1 ById)
    = Some ex_web_down
  ∧ (refresh (H := reference_store) None ex_state).2 = true.
Proof.
  split.
  - rewrite (proj2 (proj2 (refresh_spec (Laws := reference_store_laws) ex_state (Some [ex_web_down])
      ex_reachable ltac:(by repeat constructor))) "a1").
    vm_compute. reflexivity.
  - vm_compute. reflexivity.
Defined.

Lemma drain_empties_witness :
  load ex_state = 1%nat
  ∧ queue (drain (H := reference_store) 2 ex_state) = [].
Proof.
  split; [vm_compute; reflexivity|].
  apply (drain_empties (Laws := reference_store_laws) ex_state 2). vm_compute. lia.
Defined.
