(* ===== verification/Toast.v ===== *)
(** * Toasts: [components/ui/use-toast.ts]

    The reducer with its side effect (the removal timers), the module-level memory state, the
    identifiers, the listeners and the hook that subscribes to them.  Times are milliseconds;
    a timer is kept with the time it is due. *)
From Stdlib Require Import ZArith Lia.
From S2P Require Import Prelude JsValue JsDate.
Open Scope Z_scope.

(** ** Data *)

Definition TOAST_LIMIT : nat := 1.
Definition TOAST_REMOVE_DELAY : Z := 1000000.
Definition MAX_SAFE_INTEGER : Z := 2 ^ 53 - 1.

Record ToasterToast := {
  t_id : string; t_title : option string; t_description : option string;
  t_variant : option string; t_duration : option Z; t_open : option bool }.

(** the properties of a partial toast; an absent one leaves the toast's own *)
Record ToastProps := {
  p_title : option string; p_description : option string; p_variant : option string;
  p_duration : option Z; p_open : option bool }.

Inductive Action :=
| ADD_TOAST (toast : ToasterToast)
| UPDATE_TOAST (id : string) (toast : ToastProps)
| DISMISS_TOAST (toastId : option string)
| REMOVE_TOAST (toastId : option string).

(** [subscribers] are the hook instances in the order of [listeners]; [views] is the state each
    of them last set *)
Record state := {
  toasts : list ToasterToast;
  toastTimeouts : jsmap Z;
  count : Z;
  listeners : list string;
  views : jsmap (list ToasterToast) }.

Definition initial_state : state :=
  {| toasts := []; toastTimeouts := []; count := 0; listeners := []; views := [] |}.

(** ** Operations *)

(** [genId]: the new counter and the identifier *)
Definition next_count (count : Z) : Z := (count + 1) mod MAX_SAFE_INTEGER.
Definition genId (count : Z) : Z * string := let c := next_count count in (c, z_str c).

(** [addToRemoveQueue] at time [now] *)
Definition addToRemoveQueue (now : Z) (toastId : string) (timeouts : jsmap Z) : jsmap Z :=
  if jhas toastId timeouts then timeouts else jset toastId (now + TOAST_REMOVE_DELAY) timeouts.

(** [{ ...t, ...props }] and [{ ...t, open }] *)
Definition merge (t : ToasterToast) (p : ToastProps) : ToasterToast := {|
  t_id := t_id t;
  t_title := match p_title p with Some x => Some x | None => t_title t end;
  t_description := match p_description p with Some x => Some x | None => t_description t end;
  t_variant := match p_variant p with Some x => Some x | None => t_variant t end;
  t_duration := match p_duration p with Some x => Some x | None => t_duration t end;
  t_open := match p_open p with Some x => Some x | None => t_open t end |}.
Definition with_open (o : bool) (t : ToasterToast) : ToasterToast := {|
  t_id := t_id t; t_title := t_title t; t_description := t_description t;
  t_variant := t_variant t; t_duration := t_duration t; t_open := Some o |}.

(** the toasts and the timers after an action *)
Definition reducer (now : Z) (ts : list ToasterToast) (timeouts : jsmap Z) (action : Action) :
    list ToasterToast * jsmap Z :=
  match action with
  | ADD_TOAST t => (take TOAST_LIMIT (t :: ts), timeouts)
  | UPDATE_TOAST id p => ((λ t, if String.eqb (t_id t) id then merge t p else t) <$> ts, timeouts)
  | DISMISS_TOAST toastId =>
      let timeouts' :=
        match toastId with
        | Some id => if truthy id then addToRemoveQueue now id timeouts
                     else foldl (λ q t, addToRemoveQueue now (t_id t) q) timeouts ts
        | None => foldl (λ q t, addToRemoveQueue now (t_id t) q) timeouts ts
        end in
      let hit t := match toastId with Some id => String.eqb (t_id t) id | None => true end in
      ((λ t, if hit t then with_open false t else t) <$> ts, timeouts')
  | REMOVE_TOAST None => ([], timeouts)
  | REMOVE_TOAST (Some id) => (List.filter (λ t, negb (String.eqb (t_id t) id)) ts, timeouts)
  end.

(** [dispatch]: the reducer, then every listener is called with the new state *)
Definition dispatch (now : Z) (action : Action) (st : state) : state :=
  let '(ts, q) := reducer now (toasts st) (toastTimeouts st) action in
  {| toasts := ts; toastTimeouts := q; count := count st; listeners := listeners st;
     views := foldl (λ v l, jset l ts v) (views st) (listeners st) |}.

(** [toast(props)]: the new state and the identifier whose [dismiss] and [update] it returns *)
Definition toast (now : Z) (props : ToastProps) (st : state) : state * string :=
  let '(c, id) := genId (count st) in
  let st := {| toasts := toasts st; toastTimeouts := toastTimeouts st; count := c;
               listeners := listeners st; views := views st |} in
  (dispatch now (ADD_TOAST {| t_id := id; t_title := p_title props;
     t_description := p_description props; t_variant := p_variant props;
     t_duration := p_duration props; t_open := Some true |}) st, id).
Definition update (now : Z) (id : string) (props : ToastProps) (st : state) : state :=
  dispatch now (UPDATE_TOAST id props) st.
Definition dismiss (now : Z) (toastId : option string) (st : state) : state :=
  dispatch now (DISMISS_TOAST toastId) st.
(** [onOpenChange] of a toast *)
Definition onOpenChange (now : Z) (id : string) (open : bool) (st : state) : state :=
  if open then st else dismiss now (Some id) st.

(** a removal timer that is due runs *)
Definition fire (now : Z) (id : string) (st : state) : state :=
  match jget id (toastTimeouts st) with
  | Some due =>
      if due <=? now then
        dispatch now (REMOVE_TOAST (Some id))
          {| toasts := toasts st; toastTimeouts := jdel id (toastTimeouts st); count := count st;
             listeners := listeners st; views := views st |}
      else st
  | None => st
  end.

(** [useToast]: the first render reads the memory state, the effect pushes the listener, its
    clean-up removes the first occurrence *)
Fixpoint remove_first (l : string) (ls : list string) : list string :=
  match ls with [] => [] | x :: ls' => if String.eqb x l then ls' else x :: remove_first l ls' end.
Definition render (l : string) (st : state) : state := {|
  toasts := toasts st; toastTimeouts := toastTimeouts st; count := count st;
  listeners := listeners st;
  views := if jhas l (views st) then views st else jset l (toasts st) (views st) |}.
Definition mount (l : string) (st : state) : state := {|
  toasts := toasts st; toastTimeouts := toastTimeouts st; count := count st;
  listeners := listeners st ++ [l]; views := views st |}.
Definition unmount (l : string) (st : state) : state := {|
  toasts := toasts st; toastTimeouts := toastTimeouts st; count := count st;
  listeners := remove_first l (listeners st); views := views st |}.

(** ** The module as a state machine *)

(** what the rest of the program can do to it, each at a time *)
Inductive step : state → state → Prop :=
| step_toast now props st : step st (toast now props st).1
| step_update now id props st : p_open props = None → step st (update now id props st)
| step_dismiss now o st : o ≠ Some ""%string → step st (dismiss now o st)
| step_open_change now id open st : id ≠ ""%string → step st (onOpenChange now id open st)
| step_fire now id st : step st (fire now id st)
| step_render l st : step st (render l st)
| step_mount l st : step st (mount l st)
| step_unmount l st : step st (unmount l st).
Definition reachable (st : state) : Prop := rtc step initial_state st.

(** a toast that was closed has a removal timer *)
Definition closed_have_timers (ts : list ToasterToast) (q : jsmap Z) : Prop :=
  ∀ t, t ∈ ts → t_open t = Some false → jhas (t_id t) q = true.

(** ** Lemmas *)

Lemma jhas_jset {A} k k' (v : A) m : jhas k' (jset k v m) = String.eqb k k' || jhas k' m.
Proof. unfold jhas. rewrite jget_jset. by destruct (String.eqb k k'). Qed.

Lemma jhas_jdel {A} k k' (m : jsmap A) : jhas k' (jdel k m) = negb (String.eqb k k') && jhas k' m.
Proof. unfold jhas. rewrite jget_jdel. by destruct (String.eqb k k'). Qed.

Lemma jhas_addToRemoveQueue now k k' q :
  jhas k' (addToRemoveQueue now k q) = String.eqb k k' || jhas k' q.
Proof.
  unfold addToRemoveQueue. destruct (jhas k q) eqn:E; [|apply jhas_jset].
  by destruct (String.eqb_spec k k') as [<-|].
Qed.

Lemma jget_addToRemoveQueue now k k' q d :
  jget k' q = Some d → jget k' (addToRemoveQueue now k q) = Some d.
Proof.
  intros H. unfold addToRemoveQueue, jhas. destruct (jget k q) eqn:E; [done|].
  rewrite jget_jset_ne; [done | intros ->; congruence].
Qed.

Lemma jhas_add_all now ts q k :
  jhas k (foldl (λ q t, addToRemoveQueue now (t_id t) q) q ts) =
  jhas k q || bool_decide (k ∈ t_id <$> ts).
Proof.
  revert q. induction ts as [|t ts IH]; intros q; simpl; [by rewrite orb_false_r|].
  rewrite IH, jhas_addToRemoveQueue. destruct (String.eqb_spec (t_id t) k) as [->|Hne]; simpl.
  - rewrite (bool_decide_eq_true_2 (k ∈ k :: _)) by (by left).
    by rewrite orb_true_r.
  - f_equal. apply bool_decide_ext. rewrite elem_of_cons.
    split; [by right | by intros [->|]].
Qed.

Lemma jwf_addToRemoveQueue now k q : jwf q → jwf (addToRemoveQueue now k q).
Proof. unfold addToRemoveQueue. destruct (jhas k q); auto with js_map. Qed.

Lemma jwf_add_all now ts q : jwf q → jwf (foldl (λ q t, addToRemoveQueue now (t_id t) q) q ts).
Proof. revert q. induction ts; simpl; auto using jwf_addToRemoveQueue. Qed.

Lemma filter_take_limit (f : ToasterToast → bool) ts :
  (length ts ≤ TOAST_LIMIT)%nat → (length (List.filter f ts) ≤ TOAST_LIMIT)%nat.
Proof. intros. pose proof (List.filter_length_le f ts). lia. Qed.

(** the reducer keeps the limit, the uniqueness of timers and the timers of closed toasts *)
Definition data_ok (ts : list ToasterToast) (q : jsmap Z) : Prop :=
  (length ts ≤ TOAST_LIMIT)%nat ∧ jwf q ∧ closed_have_timers ts q.

Lemma reducer_ok now ts q action :
  data_ok ts q →
  match action with
  | ADD_TOAST t => t_open t = Some true
  | UPDATE_TOAST _ p => p_open p = None
  | DISMISS_TOAST o => o ≠ Some ""%string
  | REMOVE_TOAST _ => True
  end →
  data_ok (reducer now ts q action).1 (reducer now ts q action).2.
Proof.
  intros (Hl & Hw & Hc) Ha. unfold data_ok. destruct action as [t|id p|o|[id|]]; simpl.
  - split; [unfold TOAST_LIMIT; simpl; lia|]. split; [done|].
    intros x Hx Ho. apply list_elem_of_singleton in Hx as ->. congruence.
  - rewrite length_fmap. split; [done|]. split; [done|].
    intros x Hx Ho. apply list_elem_of_fmap in Hx as (t & -> & Ht).
    destruct (String.eqb (t_id t) id); [|by apply Hc].
    simpl in Ho |- *. rewrite Ha in Ho. by apply Hc.
  - rewrite length_fmap. split; [done|]. split.
    { destruct o as [id|]; [destruct (truthy id)|];
        auto using jwf_addToRemoveQueue, jwf_add_all. }
    intros x Hx Ho. apply list_elem_of_fmap in Hx as (t & -> & Ht).
    assert (t_id (if match o with Some id => String.eqb (t_id t) id | None => true end
                  then with_open false t else t) = t_id t) as ->
      by (by destruct (match o with Some _ => _ | None => _ end)).
    destruct o as [id|].
    + replace (truthy id) with true
        by (unfold truthy, truthy_string; symmetry; apply negb_true_iff, String.eqb_neq; congruence).
      rewrite jhas_addToRemoveQueue. destruct (String.eqb_spec (t_id t) id) as [->|Hne].
      * by rewrite String.eqb_refl.
      * rewrite (Hc t Ht Ho). by rewrite orb_true_r.
    + rewrite jhas_add_all. rewrite bool_decide_eq_true_2; [by rewrite orb_true_r|].
      apply list_elem_of_fmap. eauto.
  - split; [by apply filter_take_limit|]. split; [done|].
    intros x Hx Ho. apply Hc; [|done]. apply list_elem_of_In, filter_In in Hx as [Hx _].
    by apply list_elem_of_In.
  - split; [unfold TOAST_LIMIT; lia|]. split; [done|]. intros x Hx. inversion Hx.
Qed.

Lemma views_dispatch ls ts l (v : jsmap (list ToasterToast)) :
  jget l (foldl (λ v l, jset l ts v) v ls) = if bool_decide (l ∈ ls) then Some ts else jget l v.
Proof.
  revert v. induction ls as [|x ls IH]; intros v; simpl; [done|].
  rewrite IH, jget_jset. destruct (String.eqb_spec x l) as [->|Hne].
  - rewrite (bool_decide_eq_true_2 (l ∈ l :: ls)) by (by left). by destruct (bool_decide _).
  - rewrite (bool_decide_ext (l ∈ x :: ls) (l ∈ ls)); [done|].
    rewrite elem_of_cons. split; [by intros [->|] | by right].
Qed.

Definition ok (st : state) : Prop := data_ok (toasts st) (toastTimeouts st).

Lemma dispatch_data now a st :
  toasts (dispatch now a st) = (reducer now (toasts st) (toastTimeouts st) a).1
  ∧ toastTimeouts (dispatch now a st) = (reducer now (toasts st) (toastTimeouts st) a).2
  ∧ count (dispatch now a st) = count st ∧ listeners (dispatch now a st) = listeners st.
Proof. unfold dispatch. by destruct (reducer _ _ _ a). Qed.

Lemma dispatch_ok now a st : ok st →
  match a with
  | ADD_TOAST t => t_open t = Some true
  | UPDATE_TOAST _ p => p_open p = None
  | DISMISS_TOAST o => o ≠ Some ""%string
  | REMOVE_TOAST _ => True
  end → ok (dispatch now a st).
Proof.
  intros. unfold ok. destruct (dispatch_data now a st) as (-> & -> & _). by apply reducer_ok.
Qed.

Lemma fire_data now id st due :
  jget id (toastTimeouts st) = Some due → due ≤ now →
  toasts (fire now id st) = List.filter (λ t, negb (String.eqb (t_id t) id)) (toasts st)
  ∧ toastTimeouts (fire now id st) = jdel id (toastTimeouts st).
Proof. intros H Hd. unfold fire. rewrite H, (proj2 (Z.leb_le _ _)) by done. done. Qed.

Lemma fire_ok now id st : ok st → ok (fire now id st).
Proof.
  intros (Hl & Hw & Hc). destruct (jget id (toastTimeouts st)) as [due|] eqn:E;
    [destruct (Z.leb_spec due now) as [Hd|Hd]|].
  - unfold ok. destruct (fire_data now id st due E Hd) as [-> ->].
    split; [by apply filter_take_limit|]. split; [by apply jwf_jdel|].
    intros t Ht Ho. apply list_elem_of_In, filter_In in Ht as [Ht Hne].
    rewrite jhas_jdel, (Hc t) by (done || by apply list_elem_of_In).
    rewrite andb_true_r. by rewrite String.eqb_sym.
  - unfold fire. rewrite E, (proj2 (Z.leb_gt _ _)) by done. done.
  - unfold fire. by rewrite E.
Qed.

Lemma step_ok st st' : step st st' → ok st → ok st'.
Proof.
  intros [now props s|now id props s Hp|now o s Ho|now id open s Hid|now id s| | |] H; try exact H.
  - unfold toast, genId. by apply dispatch_ok.
  - by apply dispatch_ok.
  - by apply dispatch_ok.
  - unfold onOpenChange. destruct open; [done|]. apply dispatch_ok; [done | congruence].
  - by apply fire_ok.
Qed.

Lemma dismiss_data now id st : id ≠ ""%string →
  toastTimeouts (dismiss now (Some id) st) = addToRemoveQueue now id (toastTimeouts st)
  ∧ toasts (dismiss now (Some id) st) =
    ((λ t, if String.eqb (t_id t) id then with_open false t else t) <$> toasts st).
Proof.
  intros Hid. unfold dismiss.
  destruct (dispatch_data now (DISMISS_TOAST (Some id)) st) as (-> & -> & _). simpl.
  replace (truthy id) with true; [done|].
  symmetry. unfold truthy, truthy_string. by apply negb_true_iff, String.eqb_neq.
Qed.

(** ** Theorems *)

(** Fact [toasts_invariant]: whatever sequence of toasts, updates, dismissals, timers, mounts and
    unmounts happened, at most one toast is kept, no identifier has two removal timers, and every
    toast that has been closed has a timer that will remove it. *)
Theorem toasts_invariant st : reachable st →
  (length (toasts st) ≤ TOAST_LIMIT)%nat ∧ jwf (toastTimeouts st)
  ∧ closed_have_timers (toasts st) (toastTimeouts st).
Proof.
  apply (rtc_ind_r (λ s, ok s)); [|intros; by eapply step_ok].
  split; [simpl; unfold TOAST_LIMIT; lia|]. split; [apply jwf_nil|]. intros t Ht. inversion Ht.
Qed.

Definition ex_props : ToastProps := {|
  p_title := Some "Error"%string; p_description := None; p_variant := None; p_duration := None;
  p_open := None |}.

Lemma toasts_invariant_witness :
  reachable (dismiss 5 None (toast 0 ex_props initial_state).1)
  ∧ closed_have_timers (toasts (dismiss 5 None (toast 0 ex_props initial_state).1))
      (toastTimeouts (dismiss 5 None (toast 0 ex_props initial_state).1)).
Proof.
  assert (reachable (dismiss 5 None (toast 0 ex_props initial_state).1)) as H.
  { eapply rtc_l; [apply (step_toast 0 ex_props)|]. apply rtc_once. by apply step_dismiss. }
  split; [exact H | exact (proj2 (proj2 (toasts_invariant _ H)))].
Defined.

(** Fact [dispatch_broadcast]: after any dispatch every mounted hook shows the new toasts, and hooks
    that are not mounted keep what they showed. *)
Theorem dispatch_broadcast now action st l :
  jget l (views (dispatch now action st)) =
  if bool_decide (l ∈ listeners st) then Some (toasts (dispatch now action st))
  else jget l (views st).
Proof.
  unfold dispatch. destruct (reducer now (toasts st) (toastTimeouts st) action) as [ts q]. simpl.
  apply views_dispatch.
Qed.

(** Fact [dismiss_then_timer]: a dismissed toast stays, closed, until its timer runs; the timer is due
    the removal delay after the first dismissal, a second dismissal does not postpone it, and when
    it runs it removes that toast and no other. *)
Theorem dismiss_then_timer t now now' st id :
  id ≠ ""%string → jget id (toastTimeouts st) = None → now ≤ now' →
  let st1 := dismiss now (Some id) st in
  let st2 := dismiss now' (Some id) st1 in
  jget id (toastTimeouts st2) = Some (now + TOAST_REMOVE_DELAY)
  ∧ (t ∈ toasts st → t_id t = id → with_open false t ∈ toasts st2)
  ∧ (∀ later, now + TOAST_REMOVE_DELAY ≤ later →
       toasts (fire later id st2) = List.filter (λ t, negb (String.eqb (t_id t) id)) (toasts st2)
       ∧ jget id (toastTimeouts (fire later id st2)) = None).
Proof.
  intros Hid Hnone Hnow. cbv zeta.
  destruct (dismiss_data now id st Hid) as [Eq1 Et1].
  destruct (dismiss_data now' id (dismiss now (Some id) st) Hid) as [Eq2 Et2].
  assert (jget id (toastTimeouts (dismiss now' (Some id) (dismiss now (Some id) st))) =
          Some (now + TOAST_REMOVE_DELAY)) as Hq.
  { rewrite Eq2, Eq1. apply jget_addToRemoveQueue.
    unfold addToRemoveQueue, jhas. rewrite Hnone. apply jget_jset_eq. }
  split; [done|]. split.
  - intros Hin <-. rewrite Et2, Et1.
    apply list_elem_of_fmap. exists (with_open false t). simpl. rewrite String.eqb_refl.
    split; [done|]. apply list_elem_of_fmap. exists t. by rewrite String.eqb_refl.
  - intros later Hl. destruct (fire_data later id _ _ Hq Hl) as [-> ->].
    split; [done | apply jget_jdel_eq].
Qed.

Lemma dismiss_then_timer_witness :
  let st := (toast 0 ex_props initial_state).1 in
  jget "1" (toastTimeouts st) = None
  ∧ toasts (fire 1000007 "1" (dismiss 9 (Some "1"%string) (dismiss 5 (Some "1"%string) st))) = [].
Proof.
  split; [vm_compute; reflexivity|].
  rewrite (proj1 (proj2 (proj2 (dismiss_then_timer
     {| t_id := ""; t_title := None; t_description := None; t_variant := None;
        t_duration := None; t_open := None |} 5 9 (toast 0 ex_props initial_state).1 "1"
     ltac:(discriminate) eq_refl ltac:(lia))) 1000007 ltac:(vm_compute; discriminate))).
  vm_compute. reflexivity.
Defined.

(** the identifiers of the next [n] toasts *)
Fixpoint ids_from (count : Z) (n : nat) : list string :=
  match n with O => [] | S n' => (genId count).2 :: ids_from (genId count).1 n' end.

Lemma ids_from_lookup count n i : 0 ≤ count < MAX_SAFE_INTEGER → (i < n)%nat →
  ids_from count n !! i = Some (z_str ((count + 1 + Z.of_nat i) mod MAX_SAFE_INTEGER)).
Proof.
  revert count i. induction n as [|n IH]; intros count i Hc Hi; [lia|].
  destruct i as [|i]; simpl; [by rewrite Z.add_0_r|].
  rewrite IH; [|by apply Z.mod_pos_bound|lia]. do 2 f_equal.
  unfold next_count. rewrite <-Z.add_assoc, Z.add_mod_idemp_l by done. f_equal. lia.
Qed.

Lemma ids_from_length count n : length (ids_from count n) = n.
Proof. revert count. induction n; intros; simpl; auto. Qed.

(** Fact [toast_ids_distinct]: the identifiers of any run of consecutive toasts shorter than the range
    of exact integers are pairwise different, also across the wrap-around of the counter. *)
Theorem toast_ids_distinct count n :
  0 ≤ count < MAX_SAFE_INTEGER → Z.of_nat n ≤ MAX_SAFE_INTEGER → NoDup (ids_from count n).
Proof.
  intros Hc Hn. apply NoDup_alt. intros i j x Hi Hj.
  pose proof (lookup_lt_Some _ _ _ Hi) as Hil. pose proof (lookup_lt_Some _ _ _ Hj) as Hjl.
  rewrite ids_from_length in Hil, Hjl. rewrite ids_from_lookup in Hi, Hj by done.
  assert (∀ a b, z_str a = z_str b → a = b) as Hinj by (intros a b; apply (inj pretty)).
  rewrite <-Hi in Hj. injection Hj as Hj. apply Hinj in Hj. revert Hc Hn Hj.
  change MAX_SAFE_INTEGER with 9007199254740991. intros.
  Z.to_euclidean_division_equations; lia.
Qed.

Lemma toast_ids_distinct_witness :
  (0 ≤ 9007199254740989 < MAX_SAFE_INTEGER)
  ∧ NoDup (ids_from 9007199254740989 3).
Proof.
  assert (0 ≤ 9007199254740989 < MAX_SAFE_INTEGER) as H
    by (change MAX_SAFE_INTEGER with 9007199254740991; lia).
  split; [exact H|]. apply (toast_ids_distinct _ 3 H).
  change MAX_SAFE_INTEGER with 9007199254740991. lia.
Defined.
