(* ===== verification/Alerts.v ===== *)
(** * Alerts: [lib/alerts.ts] and [components/active-alerts.tsx]

    The table of alert kinds, the alert store (system id to alert name to record) with its
    [add] and [remove], the batching of realtime messages, and the list of active alerts.
    [batch_refines_sequential] relates the batch to handling the messages one by one. *)
From Stdlib Require Import QArith ZArith Lia Sorting.Permutation.
From S2P Require Import Prelude JsValue JsDate Types Nanostores Live.
Open Scope Z_scope.

(** ** Alert kinds *)

Record AlertInfo := {
  ai_name : string; ai_unit : string; ai_desc : string; ai_max : option Q; ai_min : option Q;
  ai_step : option Q; ai_start : option Q; ai_singleDesc : option string;
  ai_invert : option bool }.

Definition plain_info (name unit desc : string) (max : option Q) : AlertInfo := {|
  ai_name := name; ai_unit := unit; ai_desc := desc; ai_max := max; ai_min := None;
  ai_step := None; ai_start := None; ai_singleDesc := None; ai_invert := None |}.
Definition load_info (name desc : string) : AlertInfo := {|
  ai_name := name; ai_unit := ""; ai_desc := desc; ai_max := Some 100%Q; ai_min := Some (1 # 10)%Q;
  ai_step := Some (1 # 10)%Q; ai_start := Some 10%Q; ai_singleDesc := None; ai_invert := None |}.

(** messages stand for their translations *)
Definition alertInfo : jsmap AlertInfo := [
  ("Status", {| ai_name := "Status"; ai_unit := "";
     ai_desc := "Triggers when status switches between up and down";
     ai_max := None; ai_min := None; ai_step := None; ai_start := None;
     ai_singleDesc := Some "System Down"; ai_invert := None |});
  ("CPU", plain_info "CPU Usage" "%" "Triggers when CPU usage exceeds a threshold" None);
  ("Memory", plain_info "Memory Usage" "%" "Triggers when memory usage exceeds a threshold" None);
  ("Disk", plain_info "Disk Usage" "%" "Triggers when usage of any disk exceeds a threshold" None);
  ("Bandwidth", plain_info "Bandwidth" " MB/s"
     "Triggers when combined up/down exceeds a threshold" (Some 125%Q));
  ("GPU", plain_info "GPU Usage" "%" "Triggers when GPU usage exceeds a threshold" None);
  ("Temperature", plain_info "Temperature" "°C" "Triggers when any sensor exceeds a threshold" None);
  ("LoadAvg1", load_info "Load Average 1m"
     "Triggers when 1 minute load average exceeds a threshold");
  ("LoadAvg5", load_info "Load Average 5m"
     "Triggers when 5 minute load average exceeds a threshold");
  ("LoadAvg15", load_info "Load Average 15m"
     "Triggers when 15 minute load average exceeds a threshold");
  ("Battery", {| ai_name := "Battery"; ai_unit := "%";
     ai_desc := "Triggers when battery charge drops below a threshold";
     ai_max := None; ai_min := None; ai_step := None; ai_start := Some 20%Q;
     ai_singleDesc := None; ai_invert := Some true |}) ]%string.

(** ** Realtime messages *)

Record event := { ev_action : action; ev_record : AlertRecord }.

(** ** The store *)

Section Manager.
Context `{MapStore}.

Definition add_one (alerts : AlertMap) (alert : AlertRecord) : AlertMap :=
  let systemAlerts := default [] (jget (al_system alert) alerts) in
  setKey alerts (al_system alert) (Some (jset (al_name alert) alert systemAlerts)).
Definition add (records : list AlertRecord) (alerts : AlertMap) : AlertMap :=
  foldl add_one alerts records.

(** [new Map(undefined)] is the empty map *)
Definition remove_one (alerts : AlertMap) (alert : AlertRecord) : AlertMap :=
  let systemAlerts := default [] (jget (al_system alert) alerts) in
  setKey alerts (al_system alert) (Some (jdel (al_name alert) systemAlerts)).
Definition remove (records : list AlertRecord) (alerts : AlertMap) : AlertMap :=
  foldl remove_one alerts records.

(** [refresh]: a failed request ([None]) throws before the store is touched *)
Definition refresh (fetched : option (list AlertRecord)) (alerts : AlertMap) : option AlertMap :=
  (λ records, add records alerts) <$> fetched.

(** ** Batched realtime messages *)


Definition batchDelay : Z := 50.
Definition batch_key (r : AlertRecord) : string := al_system r +:+ al_name r.

(** the batch and the time its timer is due *)
Record batch_state := { batch : jsmap event; batch_timeout : option Z }.
Definition empty_batch : batch_state := {| batch := []; batch_timeout := None |}.

(** a message arrives at [now] *)
Definition batchUpdate (now : Z) (data : event) (st : batch_state) : batch_state := {|
  batch := jset (batch_key (ev_record data)) data (batch st);
  batch_timeout := Some (now + batchDelay) |}.

(** the records of one kind of action, in the order of the batch *)
Definition group (a : action) (evs : list event) : list AlertRecord :=
  ev_record <$> List.filter (λ e, bool_decide (ev_action e = a)) evs.

(** the timer runs: creations, then updates, then deletions *)
Definition run_group (a : action) (records : list AlertRecord) (alerts : AlertMap) : AlertMap :=
  match records with
  | [] => alerts
  | _ => match a with Delete => remove records alerts | _ => add records alerts end
  end.
Definition flush (st : batch_state) (alerts : AlertMap) : batch_state * AlertMap :=
  let evs := jvalues (batch st) in
  (empty_batch,
   run_group Delete (group Delete evs)
     (run_group Update (group Update evs) (run_group Create (group Create evs) alerts))).

(** handling one message at once *)
Definition apply_event (alerts : AlertMap) (e : event) : AlertMap :=
  match ev_action e with
  | Create | Update => add [ev_record e] alerts
  | Delete => remove [ev_record e] alerts
  end.

End Manager.

(** the alert of a system with a name *)
Definition alert_of (alerts : AlertMap) (system name : string) : option AlertRecord :=
  match jget system alerts with Some m => jget name m | None => None end.

(** ** Active alerts *)

Definition is_active (alert : AlertRecord) : bool := al_triggered alert && jhas (al_name alert) alertInfo.
Definition activeAlerts (alerts : AlertMap) : list AlertRecord :=
  List.filter is_active (jvalues alerts ≫= jvalues).

Section AlertsKey.
(** how a number is written in a template string *)
Context (num_str : Q → string).
Definition alertsKey (alerts : AlertMap) : string :=
  str_join "" ((λ a, al_system a +:+ num_str (al_value a) +:+ z_str (al_min a)) <$> activeAlerts alerts).
(** [useMemo] on the joined key: the rendered list changes only when the key does *)
Definition rendered (shown : list AlertRecord) (shown_key : string) (alerts : AlertMap) :
    list AlertRecord * string :=
  if String.eqb shown_key (alertsKey alerts) then (shown, shown_key)
  else (activeAlerts alerts, alertsKey alerts).
End AlertsKey.

Inductive alert_text := ConnectionDown | Below (v : Q) (unit : string) (min : Z) | Exceeds (v : Q) (unit : string) (min : Z).
(** the description of one active alert *)
Definition describe (alert : AlertRecord) : option alert_text :=
  info ← jget (al_name alert) alertInfo;
  Some (if String.eqb (al_name alert) "Status" then ConnectionDown
        else if default false (ai_invert info) then Below (al_value alert) (ai_unit info) (al_min alert)
        else Exceeds (al_value alert) (ai_unit info) (al_min alert)).

(** ** Lemmas *)

Section Facts.
Context `{Laws : MapStoreLaws}.

(** what an event leaves at its own place *)
Definition effect (e : event) : option AlertRecord :=
  match ev_action e with Delete => None | _ => Some (ev_record e) end.
Definition targets (system name : string) (e : event) : bool :=
  String.eqb (al_system (ev_record e)) system && String.eqb (al_name (ev_record e)) name.

Lemma alert_of_apply alerts e system name :
  alert_of (apply_event alerts e) system name =
  if targets system name e then effect e else alert_of alerts system name.
Proof.
  unfold alert_of, apply_event, effect, targets, add, remove, add_one, remove_one.
  destruct (ev_action e); simpl; rewrite jget_setKey;
    (destruct (String.eqb_spec (al_system (ev_record e)) system) as [<-|]; [|done]);
    simpl; rewrite ?jget_jset, ?jget_jdel; destruct (String.eqb (al_name _) name); try done;
    by destruct (jget (al_system _) alerts).
Qed.

(** the last event of a list that satisfies a test *)
Definition last_such {A} (f : A → bool) (l : list A) : option A := last (List.filter f l).

Lemma last_such_cons {A} (f : A → bool) x l :
  last_such f (x :: l) =
  match last_such f l with Some y => Some y | None => if f x then Some x else None end.
Proof.
  unfold last_such. simpl. destruct (f x); [|by destruct (last _)].
  destruct (List.filter f l) as [|y k]; [done|]. rewrite last_cons.
  by destruct (last (y :: k)).
Qed.

Lemma alert_of_sequence evs alerts system name :
  alert_of (foldl apply_event alerts evs) system name =
  match last_such (targets system name) evs with
  | Some e => effect e | None => alert_of alerts system name end.
Proof.
  revert alerts. induction evs as [|e evs IH]; intros alerts; [done|].
  simpl foldl. rewrite IH, last_such_cons, alert_of_apply.
  destruct (last_such _ evs); [done|]. by destruct (targets system name e).
Qed.

Lemma run_group_events a evs alerts :
  run_group a (group a evs) alerts =
  foldl apply_event alerts (List.filter (λ e, bool_decide (ev_action e = a)) evs).
Proof.
  assert (∀ l al, Forall (λ e, ev_action e = a) l →
    (match a with Delete => remove (ev_record <$> l) al | _ => add (ev_record <$> l) al end)
    = foldl apply_event al l) as Haux.
  { induction l as [|e l IH]; intros al Hl; [by destruct a|].
    apply Forall_cons in Hl as [He Hl]. simpl. rewrite <-IH by done.
    unfold apply_event, add, remove. rewrite He. by destruct a. }
  unfold run_group, group. rewrite <-Haux.
  - by destruct (List.filter _ evs), a.
  - rewrite Forall_forall. intros e He. apply list_elem_of_In, filter_In in He as [_ He].
    by apply bool_decide_eq_true in He.
Qed.

(** the batch as the flush applies it *)
Definition flush_order (evs : list event) : list event :=
  List.filter (λ e, bool_decide (ev_action e = Create)) evs
  ++ List.filter (λ e, bool_decide (ev_action e = Update)) evs
  ++ List.filter (λ e, bool_decide (ev_action e = Delete)) evs.

Lemma flush_events st alerts :
  (flush st alerts).2 = foldl apply_event alerts (flush_order (jvalues (batch st))).
Proof. unfold flush, flush_order. simpl. by rewrite !run_group_events, !foldl_app. Qed.

Lemma flush_order_perm evs : flush_order evs ≡ₚ evs.
Proof.
  unfold flush_order. induction evs as [|e evs IH]; [done|]. simpl. revert IH.
  generalize (List.filter (λ e, bool_decide (ev_action e = Create)) evs).
  generalize (List.filter (λ e, bool_decide (ev_action e = Update)) evs).
  generalize (List.filter (λ e, bool_decide (ev_action e = Delete)) evs).
  intros d u c IH. destruct (ev_action e); simpl.
  - by constructor.
  - rewrite <-Permutation_middle. by constructor.
  - rewrite (app_assoc c u), <-Permutation_middle, <-(app_assoc c u). by constructor.
Qed.

(** in a permutation of a list with at most one match, the match is the last *)
Lemma last_such_unique {A} (f : A → bool) l x :
  x ∈ l → f x = true → (∀ y, y ∈ l → f y = true → y = x) → last_such f l = Some x.
Proof.
  induction l as [|z l IH]; intros Hx Hf Hu; [inversion Hx|]. rewrite last_such_cons.
  destruct (last_such f l) as [y|] eqn:E.
  - f_equal. apply Hu.
    + right. apply last_Some_elem_of in E. apply list_elem_of_In, filter_In in E as [E _].
      by apply list_elem_of_In.
    + apply last_Some_elem_of in E. by apply list_elem_of_In, filter_In in E as [_ E].
  - apply elem_of_cons in Hx as [->|Hx]; [by rewrite Hf|].
    enough (None = Some x) by done. apply IH; [done | done |]. intros y Hy. apply Hu. by right.
Qed.

Lemma last_such_none {A} (f : A → bool) l : (∀ y, y ∈ l → f y = false) → last_such f l = None.
Proof.
  induction l as [|z l IH]; intros Hu; [done|]. rewrite last_such_cons.
  rewrite IH; [by rewrite Hu by (by left) | intros y Hy; apply Hu; by right].
Qed.

(** the batch that a run of messages builds *)
Definition batched (evs : list (Z * event)) : batch_state :=
  foldl (λ st '(now, e), batchUpdate now e st) empty_batch evs.

Definition same_key (k : string) (e : event) : bool := String.eqb (batch_key (ev_record e)) k.

Lemma batched_fold evs b : jwf (batch b) →
  jwf (batch (foldl (λ st '(now, e), batchUpdate now e st) b evs))
  ∧ ∀ k, jget k (batch (foldl (λ st '(now, e), batchUpdate now e st) b evs)) =
         match last_such (same_key k) evs.*2 with Some e => Some e | None => jget k (batch b) end.
Proof.
  revert b. induction evs as [|[now e] evs IH]; intros b Hw; [done|]. simpl foldl.
  destruct (IH (batchUpdate now e b)) as [H1 H2]; [by apply jwf_jset|]. split; [done|].
  intros k. rewrite H2. rewrite fmap_cons, last_such_cons.
  destruct (last_such (same_key k) evs.*2); [done|]. unfold batchUpdate. simpl.
  rewrite jget_jset. unfold same_key. by destruct (String.eqb _ k).
Qed.

Lemma batched_values evs e :
  e ∈ jvalues (batch (batched evs)) →
  last_such (same_key (batch_key (ev_record e))) evs.*2 = Some e.
Proof.
  destruct (batched_fold evs empty_batch jwf_nil) as [Hw Hg]. fold (batched evs) in *.
  intros He. unfold jvalues in He. apply list_elem_of_fmap in He as ([k x] & -> & Hin).
  apply (elem_jget _ _ _ Hw) in Hin. simpl. pose proof Hin as Hk. rewrite Hg in Hin, Hk.
  destruct (last_such (same_key k) evs.*2) as [y|] eqn:E; [|done]. simplify_eq.
  assert (same_key k x = true) as Hs.
  { apply last_Some_elem_of, list_elem_of_In, filter_In in E. by destruct E. }
  unfold same_key in Hs. apply String.eqb_eq in Hs. by rewrite Hs.
Qed.

Lemma app_inj_length (a b c d : string) :
  String.length a = String.length c → a +:+ b = c +:+ d → a = c ∧ b = d.
Proof.
  revert c. induction a as [|x a IH]; intros [|y c] Hl H'; try discriminate Hl; [done|].
  simpl in *. injection Hl as Hl. injection H' as -> H'. by destruct (IH c Hl H') as [-> ->].
Qed.

Lemma same_key_targets L system name e :
  String.length (al_system (ev_record e)) = L → String.length system = L →
  same_key (system +:+ name) e = targets system name e.
Proof.
  intros He Hs. unfold same_key, targets, batch_key. apply eq_true_iff_eq.
  rewrite andb_true_iff, !String.eqb_eq. split.
  - intros H'. by apply app_inj_length in H'; [|congruence].
  - by intros [-> ->].
Qed.

(** C17: as long as all system identifiers have the same length, collecting
    realtime messages in a batch and flushing it leaves every alert exactly as handling each
    message when it arrived would, although the batch forgets all but the last message per alert
    and runs creations before updates before deletions. *)
Theorem batch_refines_sequential L (evs : list (Z * event)) alerts system name :
  Forall (λ e, String.length (al_system (ev_record e)) = L) evs.*2 → String.length system = L →
  alert_of (flush (batched evs) alerts).2 system name =
  alert_of (foldl apply_event alerts evs.*2) system name.
Proof.
  intros HL Hs. rewrite flush_events, !alert_of_sequence.
  assert (∀ e, e ∈ jvalues (batch (batched evs)) → e ∈ evs.*2) as Hsub.
  { intros e He. apply batched_values, last_Some_elem_of, list_elem_of_In, filter_In in He as [He _].
    by apply list_elem_of_In. }
  assert (∀ l : list event, (∀ e, e ∈ l → e ∈ evs.*2) →
    ∀ e, e ∈ l → targets system name e = same_key (system +:+ name) e) as Htk.
  { intros l Hl e He. symmetry. apply (same_key_targets L); [|done].
    rewrite Forall_forall in HL. by apply HL, Hl. }
  assert (last_such (targets system name) evs.*2 = last_such (same_key (system +:+ name)) evs.*2) as ->.
  { unfold last_such. f_equal. apply filter_ext_in. intros e He. apply (Htk evs.*2); [done|].
    by apply list_elem_of_In. }
  destruct (batched_fold evs empty_batch jwf_nil) as [Hw Hg]. fold (batched evs) in Hw, Hg.
  specialize (Hg (system +:+ name)). simpl in Hg.
  destruct (last_such (same_key (system +:+ name)) evs.*2) as [e|] eqn:E.
  - rewrite (last_such_unique _ _ e); [done | | |].
    + rewrite flush_order_perm. unfold jvalues. apply list_elem_of_fmap.
      exists (system +:+ name, e). split; [done|]. by apply jget_Some_elem.
    + apply last_Some_elem_of, list_elem_of_In, filter_In in E as [Ein E].
      rewrite (Htk evs.*2); [done | done | by apply list_elem_of_In].
    + intros y Hy Ht. rewrite flush_order_perm in Hy.
      rewrite (Htk _ Hsub y Hy) in Ht. apply batched_values in Hy.
      unfold same_key in Ht. apply String.eqb_eq in Ht. rewrite Ht in Hy. congruence.
  - rewrite last_such_none; [done|]. intros y Hy. rewrite flush_order_perm in Hy.
    rewrite (Htk _ Hsub y Hy). destruct (same_key (system +:+ name) y) eqn:Ht; [|done].
    apply batched_values in Hy. unfold same_key in Ht. apply String.eqb_eq in Ht.
    rewrite Ht in Hy. congruence.
Qed.
End Facts.

Definition ex_alert (sys name : string) (v : Q) : AlertRecord := {|
  al_id := "r1"; al_system := sys; al_name := name; al_triggered := true; al_value := v;
  al_min := 10 |}.
Definition ex_events : list (Z * event) := [
  (0, {| ev_action := Create; ev_record := ex_alert "s1" "CPU" 80 |});
  (10, {| ev_action := Delete; ev_record := ex_alert "s2" "CPU" 80 |});
  (20, {| ev_action := Delete; ev_record := ex_alert "s1" "CPU" 80 |}) ].

Lemma batch_refines_sequential_witness :
  Forall (λ e, String.length (al_system (ev_record e)) = 2%nat) ex_events.*2
  ∧ alert_of (flush (H := reference_store) (batched ex_events) []).2 "s1" "CPU" = None.
Proof.
  assert (Forall (λ e, String.length (al_system (ev_record e)) = 2%nat) ex_events.*2) as HL
    by (repeat constructor).
  split; [exact HL|].
  rewrite (batch_refines_sequential (Laws := reference_store_laws) 2 ex_events [] "s1" "CPU" HL eq_refl).
  vm_compute. reflexivity.
Defined.

(** Fact [alert_kinds_described]: every alert shown as active has a kind in the table and a description:
    the status alert says that the connection is down, the battery alert says below, and every
    other kind says exceeds, with the alert's own value and minutes and the kind's unit. *)
Theorem alert_kinds_described alerts a : a ∈ activeAlerts alerts →
  al_triggered a = true
  ∧ ∃ info, jget (al_name a) alertInfo = Some info
    ∧ describe a = Some (if String.eqb (al_name a) "Status" then ConnectionDown
                         else if String.eqb (al_name a) "Battery"
                              then Below (al_value a) (ai_unit info) (al_min a)
                              else Exceeds (al_value a) (ai_unit info) (al_min a)).
Proof.
  unfold activeAlerts. intros Ha. apply list_elem_of_In, filter_In in Ha as [_ Ha].
  unfold is_active, jhas in Ha. apply andb_prop in Ha as [Ht Hk]. split; [done|].
  unfold describe. destruct (jget (al_name a) alertInfo) as [info|] eqn:E; [|done].
  exists info. split; [done|]. simpl. f_equal.
  destruct (String.eqb (al_name a) "Status"); [done|].
  apply jget_Some_elem in E. revert E. generalize (al_name a). intros n E.
  unfold alertInfo in E. repeat (apply elem_of_cons in E as [[= -> ->]|E]; [done|]). inversion E.
Qed.
Definition ex_active : AlertMap := [("s1", [("CPU", ex_alert "s1" "CPU" 80)])]%string.
Lemma alert_kinds_described_witness :
  ex_alert "s1" "CPU" 80 ∈ activeAlerts ex_active ∧ al_triggered (ex_alert "s1" "CPU" 80) = true.
Proof.
  assert (ex_alert "s1" "CPU" 80 ∈ activeAlerts ex_active) as H by (vm_compute; left).
  split; [exact H | exact (proj1 (alert_kinds_described _ _ H))].
Defined.

(** Fact [rendered_can_be_stale]: the rendered list is refreshed only when the joined key changes, and
    the key leaves out the alert's name: when the active alert of a system is replaced by one of
    another kind with the same value and minutes, the page keeps showing the old kind. *)
Theorem rendered_can_be_stale num_str system v :
  let before : AlertMap := [(system, [("CPU", ex_alert system "CPU" v)])]%string in
  let after : AlertMap := [(system, [("Memory", ex_alert system "Memory" v)])]%string in
  (rendered num_str (activeAlerts before) (alertsKey num_str before) after).1 = activeAlerts before
  ∧ activeAlerts before ≠ activeAlerts after.
Proof.
  cbv zeta. split.
  - unfold rendered.
    replace (alertsKey num_str [(system, [("Memory", ex_alert system "Memory" v)])])
      with (alertsKey num_str [(system, [("CPU", ex_alert system "CPU" v)])]) by done.
    by rewrite String.eqb_refl.
  - intros H. apply (f_equal (fmap al_name)) in H. vm_compute in H. discriminate.
Qed.
