(* ===== verification/Api.v ===== *)
(** * Server access: [lib/api.ts]

    User settings with the one-time migration of quick links from local storage, the two
    read-modify-write savers as separate request steps, log-out, and the timestamps sent in
    filters.  The [user_settings] collection is the interface [SettingsServer]. *)
From Stdlib Require Import Ascii ZArith Lia.
From S2P Require Import Prelude JsValue JsDate Types Utils Nanostores SystemsManager.
Open Scope Z_scope.

(** ** The collection *)

(** [None] is a rejected request; the settings of a record may be missing *)
Class SettingsServer (S : Type) := {
  getFirst : S → option (string * option UserSettings);
  put : S → string → UserSettings → option S;
  create : S → option string → option (S * option UserSettings) }.

(** an accepted update is what the next read returns *)
Class SettingsServerLaws (S : Type) `{SettingsServer S} : Prop :=
  get_put : ∀ s id x y s', getFirst s = Some (id, x) → put s id y = Some s' →
    getFirst s' = Some (id, Some y).

(** [{ ...settings, quickLinks }] and [{ ...settings, externalLinks }] *)
Definition with_quickLinks (links : list QuickLink) (s : option UserSettings) : UserSettings :=
  let s := default no_settings s in {|
  us_chartTime := us_chartTime s; us_emails := us_emails s; us_webhooks := us_webhooks s;
  us_unitTemp := us_unitTemp s; us_unitNet := us_unitNet s; us_unitDisk := us_unitDisk s;
  us_colorWarn := us_colorWarn s; us_colorCrit := us_colorCrit s;
  us_hourFormat := us_hourFormat s; us_layoutWidth := us_layoutWidth s;
  us_quickLinks := Some links; us_externalLinks := us_externalLinks s |}.
Definition with_externalLinks (links : list ExternalLink) (s : option UserSettings) : UserSettings :=
  let s := default no_settings s in {|
  us_chartTime := us_chartTime s; us_emails := us_emails s; us_webhooks := us_webhooks s;
  us_unitTemp := us_unitTemp s; us_unitNet := us_unitNet s; us_unitDisk := us_unitDisk s;
  us_colorWarn := us_colorWarn s; us_colorCrit := us_colorCrit s;
  us_hourFormat := us_hourFormat s; us_layoutWidth := us_layoutWidth s;
  us_quickLinks := us_quickLinks s; us_externalLinks := Some links |}.

(** ** Client state *)

Record client := {
  userSettings : option UserSettings;
  quickLinks : list QuickLink;
  externalLinks : list ExternalLink;
  localStorage : jsmap string }.

Definition quick_links_key : string := "besz-quick-links".

Section Settings.
Context {S : Type} `{SettingsServer S}.
(** [JSON.parse] of the stored links; [None] when it throws or the value has no [length] *)
Context (parse_links : string → option (list QuickLink)).

(** the links of local storage that the server does not have *)
Definition new_links (serverLinks localLinks : list QuickLink) : list QuickLink :=
  List.filter (λ l, negb (bool_decide (ql_id l ∈ ql_id <$> serverLinks))) localLinks.

(** the [try] block of the migration: the quick links and the server afterwards; a rejected
    update is caught and leaves the server's links *)
Definition migrate (server : S) (id : string) (settings : option UserSettings)
    (serverLinks : list QuickLink) (localRaw : string) : list QuickLink * S :=
  match parse_links localRaw with
  | None => (serverLinks, server)
  | Some localLinks =>
      if (0 <? length localLinks)%nat then
        let newLinks := new_links serverLinks localLinks in
        if (0 <? length newLinks)%nat then
          let merged := serverLinks ++ newLinks in
          match put server id (with_quickLinks merged settings) with
          | Some server' => (merged, server')
          | None => (serverLinks, server)
          end
        else (serverLinks, server)
      else (serverLinks, server)
  end.

Definition updateUserSettings (user : option string) (server : S) (c : client) : S * client :=
  match getFirst server with
  | Some (id, settings) =>
      let serverLinks := default [] (s ← settings; us_quickLinks s) in
      let external := default [] (s ← settings; us_externalLinks s) in
      match jget quick_links_key (localStorage c) with
      | Some localRaw =>
          if truthy localRaw then
            let '(links, server') := migrate server id settings serverLinks localRaw in
            (server', {| userSettings := settings; quickLinks := links; externalLinks := external;
                         localStorage := jdel quick_links_key (localStorage c) |})
          else (server, {| userSettings := settings; quickLinks := serverLinks;
                           externalLinks := external; localStorage := localStorage c |})
      | None => (server, {| userSettings := settings; quickLinks := serverLinks;
                            externalLinks := external; localStorage := localStorage c |})
      end
  | None =>
      match create server user with
      | Some (server', settings) =>
          (server', {| userSettings := settings; quickLinks := []; externalLinks := [];
                       localStorage := localStorage c |})
      | None => (server, c)
      end
  end.

(** ** The savers, one request at a time *)

Inductive save_kind := SaveQuick (links : list QuickLink) | SaveExternal (links : list ExternalLink).
(** where a call of [saveQuickLinks] or [saveExternalLinks] is *)
Inductive saver :=
| Started (k : save_kind)
| Fetched (k : save_kind) (id : string) (settings : option UserSettings)
| Finished (ok : bool).

Definition patch_settings (k : save_kind) (s : option UserSettings) : UserSettings :=
  match k with SaveQuick l => with_quickLinks l s | SaveExternal l => with_externalLinks l s end.

(** the store is set before the first request *)
Definition save_begin (k : save_kind) (c : client) : client * saver :=
  (match k with
   | SaveQuick l => {| userSettings := userSettings c; quickLinks := l;
                       externalLinks := externalLinks c; localStorage := localStorage c |}
   | SaveExternal l => {| userSettings := userSettings c; quickLinks := quickLinks c;
                          externalLinks := l; localStorage := localStorage c |}
   end, Started k).
(** the answer to the pending request arrives *)
Definition save_step (server : S) (p : saver) : S * saver :=
  match p with
  | Started k => match getFirst server with
                 | Some (id, settings) => (server, Fetched k id settings)
                 | None => (server, Finished false)
                 end
  | Fetched k id settings => match put server id (patch_settings k settings) with
                             | Some server' => (server', Finished true)
                             | None => (server, Finished false)
                             end
  | Finished _ => (server, p)
  end.
(** two calls in flight, answered in the order of the schedule *)
Fixpoint save_run (schedule : list bool) (server : S) (p q : saver) : S * saver * saver :=
  match schedule with
  | [] => (server, p, q)
  | true :: rest => let '(server', p') := save_step server p in save_run rest server' p' q
  | false :: rest => let '(server', q') := save_step server q in save_run rest server' p q'
  end.
End Settings.

(** ** Authentication *)

Definition isAdmin (role : option string) : bool := bool_decide (role = Some "admin"%string).
Definition isReadOnlyUser (role : option string) : bool := bool_decide (role = Some "readonly"%string).

Section LogOut.
Context `{MapStore}.
(** [$store.set({})] of a map store: listeners are called without a changed key, which the
    listener then looks up as the property ["undefined"] *)
Definition clear_store (w : store_id) (st : state) : state :=
  let old := stores st w in
  let st' := with_store w [] st in
  if decide (w = ById) then
    if initialized st then
      let st'' := with_queue (queue st' ++ [{| n_new := []; n_old := old; n_key := "undefined" |}]) st' in
      drain (drain_fuel st'') st''
    else st'
  else st'.

(** what the rest of the session keeps of the alerts, the settings and the tokens *)
Record session := {
  systems_state : state; alerts : AlertMap; client_state : client;
  sessionStorage : jsmap string; authenticated : bool; subscribed : bool }.

Definition logOut (s : session) : session := {|
  systems_state := clear_store ById (clear_store ByName (systems_state s));
  alerts := [];
  client_state := {| userSettings := Some no_settings; quickLinks := []; externalLinks := [];
                     localStorage := localStorage (client_state s) |};
  sessionStorage := jset "lo" "t" (sessionStorage s);
  authenticated := false; subscribed := false |}.

(** [verifyAuth]: a failed refresh logs out (and shows a toast) *)
Definition verifyAuth (refreshed : bool) (s : session) : session * bool :=
  if refreshed then (s, false) else (logOut s, true).
End LogOut.

(** ** Timestamps in filters *)

Definition pb_format (d : Z) : string :=
  let year := z_str (getUTCFullYear d) in
  let month := pad2 (getUTCMonth d + 1) in
  let day := pad2 (getUTCDate d) in
  let hours := pad2 (getUTCHours d) in
  let minutes := pad2 (getUTCMinutes d) in
  let seconds := pad2 (getUTCSeconds d) in
  (year +:+ String "-" (month +:+ String "-" day)) +:+
  String " " (hours +:+ String ":" (minutes +:+ String ":" seconds)).
Definition getPbTimestamp `{D3Time} (now : Z) (timeString : ChartTimes) (d : option Z) : string :=
  pb_format (default (getOffset (chartTimeData timeString) now) d).

(** ** Lemmas and theorems: timestamps *)

(** the reader of such a timestamp: seconds since the epoch *)
Definition read_pb (s : string) : option Z :=
  match str_split " " s with
  | [date; time] =>
      match read_decimal <$> str_split "-" date, read_decimal <$> str_split ":" time with
      | [Some y; Some m; Some d], [Some h; Some mi; Some sec] =>
          Some (days_of_civil y m d * 86400 + h * 3600 + mi * 60 + sec)
      | _, _ => None
      end
  | _ => None
  end.

Lemma read_pb_format d : 0 ≤ getUTCFullYear d < 10000 → read_pb (pb_format d) = Some (d / 1000).
Proof.
  intros Hy. unfold pb_format, read_pb. cbv zeta.
  destruct (utc_field_bounds d) as (Hh & Hm & Hs & Hmo & Hd).
  pose proof (year_no_separator _ Hy) as Ny.
  assert (∀ x, 0 ≤ x < 60 → no_separator (pad2 x) = true) as Np
    by (intros; apply pad2_no_separator; lia).
  rewrite str_split_app by (apply fields_no; [apply space_separator | apply Ny | apply Np; lia | apply Np; lia | done]).
  rewrite fields_no by (done || apply space_separator || (apply Np; lia)).
  rewrite (split_fields "-") by (apply dash_separator || apply Ny || (apply Np; lia)).
  rewrite (split_fields ":") by (apply colon_separator || (apply Np; lia)).
  cbn [fmap list_fmap]. rewrite year_digits by done.
  rewrite !(λ x H, proj1 (pad2_digits x H)) by lia.
  f_equal. apply utc_fields_value.
Qed.

(** Fact [pb_timestamp_roundtrip]: the timestamp put in a filter, read back, is the instant it was made
    from, cut to whole seconds, for every instant in the years 0 to 9999. *)
Theorem pb_timestamp_roundtrip `{D3Time} now chartTime d :
  0 ≤ getUTCFullYear d < 10000 →
  read_pb (getPbTimestamp now chartTime (Some d)) = Some (d / 1000).
Proof. intros Hy. by apply read_pb_format. Qed.
Lemma pb_timestamp_roundtrip_witness :
  getPbTimestamp (H := utc_d3) 0 T1h (Some 1767225600000) = "2026-01-01 00:00:00"%string
  ∧ read_pb (getPbTimestamp (H := utc_d3) 0 T1h (Some 1767225600000)) = Some 1767225600.
Proof.
  split; [by vm_compute|].
  apply (pb_timestamp_roundtrip (H := utc_d3) 0 T1h 1767225600000). vm_compute. split; congruence.
Defined.

(** ** Lemmas and theorems: migration *)

Lemma new_links_ids server local x :
  x ∈ ql_id <$> local → x ∈ ql_id <$> (server ++ new_links server local).
Proof.
  intros (l & -> & Hl)%list_elem_of_fmap. rewrite fmap_app, elem_of_app.
  destruct (decide (ql_id l ∈ ql_id <$> server)) as [|Hn]; [by left | right].
  apply list_elem_of_fmap. exists l. split; [done|]. apply list_elem_of_In, filter_In.
  split; [by apply list_elem_of_In | by rewrite bool_decide_eq_false_2].
Qed.

(** the local links are the stored ones when nothing is migrated *)
Definition has_local_links (parse_links : string → option (list QuickLink)) (c : client)
    (links : list QuickLink) : Prop :=
  ∃ raw, jget quick_links_key (localStorage c) = Some raw ∧ truthy raw = true
         ∧ parse_links raw = Some links.

Section SettingsLemmas.
Context {S : Type} `{Laws : SettingsServerLaws S}.
Context (parse_links : string → option (list QuickLink)).

Lemma migrate_accepted server server' id settings links raw local :
  parse_links raw = Some local → new_links links local ≠ [] →
  put server id (with_quickLinks (links ++ new_links links local) settings) = Some server' →
  migrate parse_links server id settings links raw = (links ++ new_links links local, server').
Proof.
  intros Hp Hn Hput. unfold migrate. rewrite Hp. unfold new_links in *.
  destruct local as [|l local]; [done|]. cbv zeta. cbn [length Nat.ltb Nat.leb].
  destruct (List.filter _ _) eqn:E; [done|]. cbn [length Nat.ltb Nat.leb]. by rewrite Hput.
Qed.

Lemma migrate_rejected server id settings links raw local :
  parse_links raw = Some local →
  put server id (with_quickLinks (links ++ new_links links local) settings) = None →
  migrate parse_links server id settings links raw = (links, server).
Proof.
  intros Hp Hput. unfold migrate. rewrite Hp. cbv zeta.
  destruct (0 <? length local)%nat; [|done]. destruct (0 <? length _)%nat; [|done]. by rewrite Hput.
Qed.

Lemma updateUserSettings_migrates user server c id settings raw :
  getFirst server = Some (id, settings) →
  jget quick_links_key (localStorage c) = Some raw → truthy raw = true →
  updateUserSettings parse_links user server c =
  let '(links, server') := migrate parse_links server id settings
                             (default [] (s ← settings; us_quickLinks s)) raw in
  (server', {| userSettings := settings; quickLinks := links;
               externalLinks := default [] (s ← settings; us_externalLinks s);
               localStorage := jdel quick_links_key (localStorage c) |}).
Proof. intros Hg Hr Ht. unfold updateUserSettings. by rewrite Hg, Hr, Ht. Qed.

Lemma updateUserSettings_plain user server c id settings :
  getFirst server = Some (id, settings) → jget quick_links_key (localStorage c) = None →
  updateUserSettings parse_links user server c =
  (server, {| userSettings := settings;
              quickLinks := default [] (s ← settings; us_quickLinks s);
              externalLinks := default [] (s ← settings; us_externalLinks s);
              localStorage := localStorage c |}).
Proof. intros Hg Hr. unfold updateUserSettings. by rewrite Hg, Hr. Qed.

(** C33: when the server takes the update, the migration shows the server's links
    followed by the local ones it did not have, so every local link survives; the server stores
    the same list, the local copy is gone, and loading the settings again changes neither the
    server nor the links. *)
Theorem migration_success user server server' c id settings local :
  let links := default [] (s ← settings; us_quickLinks s) in
  getFirst server = Some (id, settings) → has_local_links parse_links c local →
  new_links links local ≠ [] →
  put server id (with_quickLinks (links ++ new_links links local) settings) = Some server' →
  ∃ c', updateUserSettings parse_links user server c = (server', c')
    ∧ quickLinks c' = links ++ new_links links local
    ∧ (∀ x, x ∈ ql_id <$> local → x ∈ ql_id <$> quickLinks c')
    ∧ jget quick_links_key (localStorage c') = None
    ∧ (∃ c'', updateUserSettings parse_links user server' c' = (server', c'')
        ∧ quickLinks c'' = quickLinks c' ∧ externalLinks c'' = externalLinks c').
Proof.
  intros links Hg (raw & Hr & Ht & Hp) Hn Hput.
  rewrite (updateUserSettings_migrates _ _ _ _ _ _ Hg Hr Ht).
  erewrite migrate_accepted by done. eexists. split; [done|]. cbn [quickLinks localStorage externalLinks].
  split; [done|]. split; [apply new_links_ids|]. split; [apply jget_jdel_eq|].
  erewrite updateUserSettings_plain; [| eapply get_put; eauto | apply jget_jdel_eq].
  eexists. split; [done|]. cbn. by destruct settings.
Qed.

(** Fact [migration_rejected_loses_links]: when the server rejects the update, the local copy is
    deleted all the same: the local-only links are then neither shown, nor on the server, nor in
    local storage, and no later load brings them back. *)
Theorem migration_rejected_loses_links user server c id settings local l :
  let links := default [] (s ← settings; us_quickLinks s) in
  getFirst server = Some (id, settings) → has_local_links parse_links c local →
  put server id (with_quickLinks (links ++ new_links links local) settings) = None →
  l ∈ new_links links local →
  ∃ c', updateUserSettings parse_links user server c = (server, c')
    ∧ (l ∉ quickLinks c') ∧ jget quick_links_key (localStorage c') = None
    ∧ (∃ c'', updateUserSettings parse_links user server c' = (server, c'') ∧ l ∉ quickLinks c'').
Proof.
  intros links Hg (raw & Hr & Ht & Hp) Hput Hl.
  rewrite (updateUserSettings_migrates _ _ _ _ _ _ Hg Hr Ht).
  erewrite migrate_rejected by done. eexists. split; [done|]. cbn [quickLinks localStorage].
  assert (l ∉ links) as Hnl.
  { apply list_elem_of_In, filter_In in Hl as [_ Hl]. apply negb_true_iff, bool_decide_eq_false in Hl.
    intros Hin. apply Hl. apply list_elem_of_fmap. eauto. }
  split; [done|]. split; [apply jget_jdel_eq|].
  erewrite updateUserSettings_plain; [| exact Hg | apply jget_jdel_eq]. eexists. done.
Qed.
End SettingsLemmas.

(** *** A server with one record *)

(** the settings of the record, on a server that accepts updates or rejects them; only examples
    use it *)
Definition one_record (accept : bool) : SettingsServer (option UserSettings) := {|
  getFirst := λ s, Some ("r1"%string, s);
  put := λ _ _ x, if accept then Some (Some x) else None;
  create := λ _ _, None |}.
Lemma one_record_laws accept : @SettingsServerLaws _ (one_record accept).
Proof.
  red. cbn. intros s id x y s' [= <- <-]. destruct accept; [|done]. by intros [= <-].
Qed.

Definition ex_link (id : string) : QuickLink := {|
  ql_id := id; ql_name := id; ql_localUrl := "http://10.0.0.1"; ql_domainUrl := "";
  ql_category := None |}.
Definition ex_parse (raw : string) : option (list QuickLink) :=
  if String.eqb raw "links" then Some [ex_link "a"; ex_link "b"] else None.
Definition ex_client : client := {|
  userSettings := None; quickLinks := []; externalLinks := [];
  localStorage := [(quick_links_key, "links"%string)] |}.
Definition ex_settings : UserSettings := with_quickLinks [ex_link "a"] None.

Lemma ex_has_local_links : has_local_links ex_parse ex_client [ex_link "a"; ex_link "b"].
Proof. by exists "links"%string. Qed.

Lemma migration_success_witness : ∃ server' c',
  updateUserSettings (H := one_record true) ex_parse None (Some ex_settings) ex_client = (server', c')
  ∧ quickLinks c' = [ex_link "a"; ex_link "b"].
Proof.
  destruct (migration_success (Laws := one_record_laws true) ex_parse None (Some ex_settings) _
    ex_client "r1" (Some ex_settings) _ eq_refl ex_has_local_links ltac:(by vm_compute) eq_refl)
    as (c' & Hrun & Hlinks & _).
  eexists _, c'. split; [exact Hrun|]. rewrite Hlinks. by vm_compute.
Defined.

Lemma migration_rejected_loses_links_witness : ∃ c',
  updateUserSettings (H := one_record false) ex_parse None (Some ex_settings) ex_client =
    (Some ex_settings, c')
  ∧ ex_link "b" ∉ quickLinks c'.
Proof.
  destruct (migration_rejected_loses_links (H := one_record false) ex_parse None (Some ex_settings)
    ex_client "r1" (Some ex_settings) _ (ex_link "b") eq_refl ex_has_local_links eq_refl
    ltac:(by vm_compute; repeat constructor)) as (c' & Hrun & Hl & _).
  by exists c'.
Defined.

(** ** Lemmas and theorems: concurrent saves *)

(** the interleavings of two calls of two requests each *)
Definition schedules : list (list bool) :=
  [[true; true; false; false]; [true; false; true; false]; [true; false; false; true];
   [false; true; true; false]; [false; true; false; true]; [false; false; true; true]].
(** one call ends before the other begins *)
Definition one_after_the_other (s : list bool) : bool :=
  bool_decide (s = [true; true; false; false]) || bool_decide (s = [false; false; true; true]).

Definition links_of {S} `{SettingsServer S} (server : S) :
    option (option (list QuickLink) * option (list ExternalLink)) :=
  match getFirst server with
  | Some (_, Some s) => Some (us_quickLinks s, us_externalLinks s)
  | _ => None
  end.

Section SaverLemmas.
Context {S : Type} `{Laws : SettingsServerLaws S}.

Lemma save_get (server : S) k id settings :
  getFirst server = Some (id, settings) → save_step server (Started k) = (server, Fetched k id settings).
Proof. intros H'. simpl. by rewrite H'. Qed.

Lemma save_put (server : S) k id x settings :
  (∀ s i y, put s i y ≠ None) → getFirst server = Some (id, x) →
  ∃ server', save_step server (Fetched k id settings) = (server', Finished true)
             ∧ getFirst server' = Some (id, Some (patch_settings k settings)).
Proof.
  intros Hacc Hg. simpl. destruct (put server id _) as [server'|] eqn:E.
  - exists server'. split; [done|]. by eapply get_put.
  - by destruct (Hacc _ _ _ E).
Qed.

(** Fact [concurrent_saves]: [saveQuickLinks] and [saveExternalLinks] in flight together, on a server
    that accepts every request, and when the client library gives up none (what its giving up changes is
    [Account]): both calls report success under every interleaving of their
    requests, but both lists are stored only when one call ends before the other begins;
    otherwise the call that writes last puts back what it had read for the other list. *)
Theorem concurrent_saves (server : S) id settings ls es schedule :
  (∀ s i y, put s i y ≠ None) →
  getFirst server = Some (id, Some settings) →
  us_quickLinks settings ≠ Some ls → us_externalLinks settings ≠ Some es →
  schedule ∈ schedules →
  let '(server', p, q) := save_run schedule server (Started (SaveQuick ls)) (Started (SaveExternal es)) in
  p = Finished true ∧ q = Finished true
  ∧ (links_of server' = Some (Some ls, Some es) ↔ one_after_the_other schedule = true).
Proof.
  intros Hacc Hg Hq He Hs.
  assert (∀ (s : S) k set x, getFirst s = Some (id, x) →
    ∃ server', save_step s (Fetched k id set) = (server', Finished true)
               ∧ getFirst server' = Some (id, Some (patch_settings k set))) as Hput
    by (intros; by eapply save_put).
  unfold links_of, schedules in *.
  repeat (apply elem_of_cons in Hs as [->|Hs]); [..|by apply elem_of_nil in Hs];
    cbn [save_run]; rewrite (save_get _ _ _ _ Hg);
    repeat first
      [ rewrite (save_get _ _ _ _ Hg)
      | match goal with
        | |- context [save_step ?s (Fetched ?k id ?set)] =>
            let s' := fresh "server" in let E := fresh "E" in let G := fresh "G" in
            match goal with G0 : getFirst s = _ |- _ =>
              destruct (Hput s k set _ G0) as (s' & E & G); rewrite E end
        | G0 : getFirst ?s = _ |- context [save_step ?s (Started ?k)] =>
            rewrite (save_get s k _ _ G0)
        end ];
    (split; [done|]; split; [done|]);
    match goal with |- context [getFirst ?s] => match goal with G0 : getFirst s = _ |- _ => rewrite G0 end end;
    split; cbn; intros; try done; congruence.
Qed.
End SaverLemmas.

Lemma concurrent_saves_witness :
  [true; false; true; false] ∈ schedules
  ∧ let '(server', _, _) := save_run (H := one_record true) [true; false; true; false]
        (Some ex_settings) (Started (SaveQuick [])) (Started (SaveExternal [])) in
    @links_of _ (one_record true) server' ≠ Some (Some [], Some []).
Proof.
  split; [right; left|].
  pose proof (concurrent_saves (Laws := one_record_laws true) (Some ex_settings) "r1" ex_settings
    [] [] [true; false; true; false] ltac:(done) eq_refl ltac:(done) ltac:(done)
    ltac:(right; left)) as Hc.
  revert Hc. destruct (save_run _ _ _ _) as [[s p] q]. intros (_ & _ & Hc) E.
  apply Hc in E. discriminate E.
Defined.

(** ** Lemmas and theorems: logging out *)

Section LogOutLemmas.
Context `{Laws : MapStoreLaws}.

Lemma clear_ById st : invariant st → jget "undefined" (stores st ById) = None →
  clear_store ById st = onSystemsChanged None (with_store ById [] st).
Proof.
  intros Hinv Hu. pose proof (inv_init _ Hinv) as Hi. pose proof (inv_queue _ Hinv) as Hq.
  unfold clear_store. rewrite decide_True, Hi by done. cbv zeta.
  cbn [queue with_store]. rewrite Hq. cbn [app].
  unfold drain_fuel. cbn [queue with_queue length Nat.add].
  rewrite drain_one with (n := {| n_new := []; n_old := stores st ById; n_key := "undefined" |});
    [|done|]; unfold listener; cbn [n_key n_old n_new jget]; rewrite Hu; [|done].
  unfold onSystemsChanged, with_queue, with_store. cbn. by rewrite Hq.
Qed.

(** Fact [logOut_clears_only_main_stores]: logging out empties the stores by name and by id, the alerts,
    settings and links, but the up, down and paused stores keep every system they held, and the
    favicon keeps its count: the up systems of the session that ended are still listed after it. *)
Theorem logOut_clears_only_main_stores s :
  let st := systems_state s in
  invariant st → jget "undefined" (stores st ById) = None →
  let s' := logOut s in
  let st' := systems_state s' in
  stores st' ByName = [] ∧ stores st' ById = [] ∧ alerts s' = []
  ∧ quickLinks (client_state s') = [] ∧ externalLinks (client_state s') = []
  ∧ authenticated s' = false
  ∧ (∀ w, w ≠ ByName → w ≠ ById → stores st' w = stores st w)
  ∧ prevDownCount st' = prevDownCount st
  ∧ ((∃ k x, jget k (stores st UpSystems) = Some x) → ¬ invariant st').
Proof.
  intros st Hinv Hu s' st'.
  assert (clear_store ByName st = with_store ByName [] st) as En by done.
  assert (invariant (with_store ByName [] st)) as Hinv'.
  { apply (invariant_ext st); try done; [|apply jwf_nil]. intros w Hw. cbn. by rewrite decide_False. }
  assert (st' = onSystemsChanged None (with_store ById [] (with_store ByName [] st))) as ->.
  { subst st' s'. unfold logOut. cbn [systems_state]. fold st. rewrite En. by apply clear_ById. }
  cbn. do 6 (split; [done|]). split; [by intros [] |].
  split; [rewrite updateFavicon_count; symmetry; apply inv_favicon, Hinv|].
  intros (k & x & Hx) [_ _ _ _ Hm _ _]. specialize (Hm UpSystems Status_Up k eq_refl I).
  discriminate (eq_trans (eq_sym Hx) Hm).
Qed.
End LogOutLemmas.

Lemma ex_invariant : invariant ex_state.
Proof. exact (reachable_inv (Laws := reference_store_laws) _ ex_reachable). Qed.

Lemma logOut_clears_only_main_stores_witness :
  let s := {| systems_state := ex_state; alerts := []; client_state := ex_client;
              sessionStorage := []; authenticated := true; subscribed := true |} in
  jget "a1" (stores (systems_state (logOut (H := reference_store) s)) UpSystems) = Some ex_web.
Proof.
  intros s.
  rewrite (proj1 (proj2 (proj2 (proj2 (proj2 (proj2 (proj2
    (logOut_clears_only_main_stores (H := reference_store) s ex_invariant
       ltac:(by vm_compute)))))))) UpSystems ltac:(done) ltac:(done)).
  by vm_compute.
Defined.
