(* ===== verification/Charts.v ===== *)
(** * The system page: [components/routes/system.tsx] and [components/charts/hooks.ts]

    Records of measurements with the gaps put between them, the module's cache, a fetch as a
    request whose answer may come late, the realtime subscription, which charts are shown and
    what they read, keyboard navigation, and the colours of containers and interfaces. *)
From Stdlib Require Import QArith Qround Lqa Lia ZArith Sorting.Sorted Sorting.Permutation.
From S2P Require Import Prelude JsValue JsDate Types Utils Api.
Open Scope Z_scope.

(** ** Records with a time *)

(** [created]: [null] for a gap, the server's text, or a number ([NotATime] is [NaN]) *)
Inductive created := Null | Text (s : string) | Time (t : Z) | NotATime.
#[export] Instance created_eq_dec : EqDecision created. Proof. solve_decision. Defined.

(** [gap]: the empty record of the same shape *)
Class Timed (T : Type) := {
  created_of : T → created;
  set_created : created → T → T;
  gap : T → T }.
Class TimedLaws (T : Type) `{Timed T} : Prop := {
  created_set c (r : T) : created_of (set_created c r) = c;
  set_same (r : T) : set_created (created_of r) r = r;
  created_gap (r : T) : created_of (gap r) = Null }.

(** [SystemStatsRecord] and [ContainerStatsRecord] *)
Record stats_record (A : Type) := { sr_created : created; sr_stats : option A }.
Arguments sr_created {A} _.
Arguments sr_stats {A} _.
Arguments Build_stats_record {A} _ _.
Abbreviation SystemStatsRecord := (stats_record SystemStats).
Abbreviation ContainerStatsRecord := (stats_record (list ContainerStats)).
#[export] Instance stats_record_timed {A} : Timed (stats_record A) := {
  created_of := sr_created;
  set_created := λ c r, {| sr_created := c; sr_stats := sr_stats r |};
  gap := λ _, {| sr_created := Null; sr_stats := None |} }.
#[export] Instance stats_record_laws {A} : TimedLaws (stats_record A).
Proof. split; [done | by intros [] | done]. Qed.

(** an element of [ChartData.containerData]: the time, and a property per container *)
Record container_point := { pt_created : created; pt_stats : jsmap ContainerStats }.
#[export] Instance container_point_timed : Timed container_point := {
  created_of := pt_created;
  set_created := λ c r, {| pt_created := c; pt_stats := pt_stats r |};
  gap := λ _, {| pt_created := Null; pt_stats := [] |} }.
#[export] Instance container_point_laws : TimedLaws container_point.
Proof. split; [done | by intros [] | done]. Qed.

(** [array.slice(-n)] *)
Definition slice_last {A} (n : nat) (l : list A) : list A := drop (length l - n) l.

(** ** Time axis *)

Record time_data := { td_time : Z; td_ticks : list Z; td_domain : Z * Z; td_chartTime : ChartTimes }.

(** the ticks and domain, and the cache afterwards *)
Definition getTimeData `{D3Time} (td : option time_data) (now : Z) (chartTime : ChartTimes)
    (lastCreated : Z) : list Z * (Z * Z) * option time_data :=
  let usable cached :=
    bool_decide (td_chartTime cached = chartTime) &&
    (negb (truthy lastCreated) || (lastCreated <=? td_time cached)) in
  match td with
  | Some cached =>
      if usable cached then (td_ticks cached, td_domain cached, td)
      else
        let startTime := getOffset (chartTimeData chartTime) now in
        let ticks := timeTicks startTime now (default 12 (cp_ticks (chartTimeData chartTime))) in
        let domain := (getOffset (chartTimeData chartTime) now, now) in
        (ticks, domain, Some {| td_time := now; td_ticks := ticks; td_domain := domain;
                                td_chartTime := chartTime |})
  | None =>
      let startTime := getOffset (chartTimeData chartTime) now in
      let ticks := timeTicks startTime now (default 12 (cp_ticks (chartTimeData chartTime))) in
      let domain := (getOffset (chartTimeData chartTime) now, now) in
      (ticks, domain, Some {| td_time := now; td_ticks := ticks; td_domain := domain;
                              td_chartTime := chartTime |})
  end.

(** ** Gaps *)

Section Gaps.
Context `{DateParse} {T : Type} `{Timed T}.

Definition to_time (c : created) : created :=
  match c with
  | Text s => match date_parse s with Some t => Time t | None => NotATime end
  | c => c
  end.

(** a previous time, and an interval above [expectedInterval / 2 + expectedInterval] *)
Definition too_far (prevTime cur : created) (expectedInterval : Z) : bool :=
  match prevTime, cur with
  | Time p, Time c => truthy p && (expectedInterval + 2 * expectedInterval <? 2 * (c - p))
  | _, _ => false
  end.

(** the loop, from the record at hand *)
Fixpoint fill_gaps (prevTime : created) (newRecords : list T) (expectedInterval : Z) : list T :=
  match newRecords with
  | [] => []
  | record :: rest =>
      let record := set_created (to_time (created_of record)) record in
      let prevTime' := if decide (created_of record = Null) then prevTime else created_of record in
      let rest' := record :: fill_gaps prevTime' rest expectedInterval in
      if too_far prevTime (created_of record) expectedInterval then gap record :: rest' else rest'
  end.

(** [prevRecords.at(-1)?.created ?? 0] *)
Definition last_created (records : list T) : created :=
  match last records with
  | Some r => match created_of r with Null => Time 0 | c => c end
  | None => Time 0
  end.

Definition addEmptyValues (prevRecords newRecords : list T) (expectedInterval : Z) : list T :=
  fill_gaps (last_created prevRecords) newRecords expectedInterval.

(** the merge of an answer into a cache entry: what is shown, and the cache afterwards *)
Definition merge_stats (key : string) (expectedInterval : Z) (cache : jsmap (list T))
    (answer : option (list T)) : list T * jsmap (list T) :=
  let data := default [] (jget key cache) in
  match answer with
  | Some ((_ :: _) as value) =>
      let data := data ++ addEmptyValues data value expectedInterval in
      let data := if (120 <? length data)%nat then slice_last 100 data else data in
      (data, jset key data cache)
  | _ => (data, cache)
  end.
End Gaps.

(** ** Fetching *)

Definition cache_key (id : string) (chartTime : ChartTimes) (collection : string) : string :=
  id +:+ "_" +:+ ChartTimes_str chartTime +:+ "_" +:+ collection.

(** the values put in the filter [system={:id} && created > {:created} && type={:type}] *)
Record stats_filter := { f_system : string; f_created : string; f_type : string }.

Definition getStats_filter `{D3Time} {A} (now : Z) (cachedStats : option (list (stats_record A)))
    (id : string) (chartTime : ChartTimes) : stats_filter :=
  let lastCached := match cachedStats with Some l => last_created l | None => Time 0 end in
  {| f_system := id;
     f_created := getPbTimestamp now chartTime
       (match lastCached with Time t => if truthy t then Some (t + 1000) else None | _ => None end);
     f_type := stats_type_str (cp_type (chartTimeData chartTime)) |}.

Section MakeContainerData.
Context `{DateParse}.
(** a record whose [created] is falsy is a gap *)
Definition makeContainerData (containers : list ContainerStatsRecord) : list container_point :=
  (λ r : ContainerStatsRecord,
     match sr_created r with
     | Null | Time 0 | NotATime | Text EmptyString => {| pt_created := Null; pt_stats := [] |}
     | c => {| pt_created := to_time c;
               pt_stats := foldl (λ m container, jset (cs_n container) container m) []
                             (default [] (sr_stats r)) |}
     end) <$> containers.
End MakeContainerData.

(** what the page keeps; the two caches are the entries of the module's [Map] *)
Record page := {
  cache_system : jsmap (list SystemStatsRecord);
  cache_container : jsmap (list ContainerStatsRecord);
  system : option SystemRecord;
  chartTime : ChartTimes;
  systemStats : list SystemStatsRecord;
  containerData : list container_point;
  chartLoading : bool }.

(** a request in flight remembers the system and the period it was made for *)
Record fetch := {
  fe_system : string; fe_chartTime : ChartTimes;
  fe_system_filter : stats_filter; fe_container_filter : stats_filter }.

Definition start_fetch `{D3Time} (now : Z) (p : page) : option fetch * page :=
  match system p with
  | Some s =>
      if truthy (sys_id s) && negb (bool_decide (chartTime p = T1m)) then
        let id := sys_id s in
        (Some {| fe_system := id; fe_chartTime := chartTime p;
                 fe_system_filter := getStats_filter now
                   (jget (cache_key id (chartTime p) "system_stats") (cache_system p)) id (chartTime p);
                 fe_container_filter := getStats_filter now
                   (jget (cache_key id (chartTime p) "container_stats") (cache_container p)) id
                   (chartTime p) |},
         {| cache_system := cache_system p; cache_container := cache_container p;
            system := system p; chartTime := chartTime p; systemStats := systemStats p;
            containerData := containerData p; chartLoading := true |})
      else (None, p)
  | None => (None, p)
  end.

(** the answers of the two requests; [None] is a rejection *)
Definition finish_fetch `{D3Time} `{DateParse} (fe : fetch)
    (system_answer : option (list SystemStatsRecord))
    (container_answer : option (list ContainerStatsRecord)) (p : page) : page :=
  let expected := expectedInterval (chartTimeData (fe_chartTime fe)) in
  let '(systemData, cs) :=
    merge_stats (cache_key (fe_system fe) (fe_chartTime fe) "system_stats") expected
      (cache_system p) system_answer in
  let '(containers, cc) :=
    merge_stats (cache_key (fe_system fe) (fe_chartTime fe) "container_stats") expected
      (cache_container p) container_answer in
  {| cache_system := cs; cache_container := cc; system := system p; chartTime := chartTime p;
     systemStats := systemData; containerData := makeContainerData containers;
     chartLoading := false |}.

(** ** Realtime *)

(** what the subscription's effect does: nothing, go back to the 1h period, or subscribe *)
Inductive realtime_decision := NotRealtime | BackTo1h | Subscribe (system_id : string).
Definition realtime_effect (p : page) : realtime_decision :=
  match system p with
  | Some s =>
      if negb (truthy (sys_id s)) || negb (bool_decide (chartTime p = T1m)) then NotRealtime
      else if negb (bool_decide (sys_status s = Status_Up)) ||
              num_ltb (minor (parseSemVer (Some (si_v (sys_info s))))) (Fin 13) then BackTo1h
      else Subscribe (sys_id s)
  | None => NotRealtime
  end.

(** [parseSemVer(v) < parseSemVer("0.13.0")]: the operands are objects, so the comparison is of
    their texts *)
Definition object_text : string := "[object Object]".
Definition hide_1m_effect (v : string) (c : ChartTimes) : ChartTimes :=
  if String.ltb object_text object_text then T1h else c.

Definition push_realtime `{DateParse} {T} `{Timed T} (prev : list T) (new : list T) : list T :=
  addEmptyValues prev (slice_last 59 prev ++ new) 1000.

(** a message of the subscription *)
Definition on_realtime `{DateParse} (now : Z) (container : list ContainerStats) (stats : SystemStats)
    (p : page) : page := {|
  cache_system := cache_system p; cache_container := cache_container p;
  system := system p; chartTime := chartTime p;
  systemStats := push_realtime (systemStats p) [{| sr_created := Time now; sr_stats := Some stats |}];
  containerData :=
    if (0 <? length container)%nat
    then push_realtime (containerData p)
           (makeContainerData [{| sr_created := Time now; sr_stats := Some container |}])
    else containerData p;
  chartLoading := chartLoading p |}.

(** leaving the page of a system *)
Definition leave_page (settingsChartTime : ChartTimes) (persistChartTime : bool) (p : page) : page := {|
  cache_system := cache_system p; cache_container := cache_container p; system := system p;
  chartTime := if persistChartTime then chartTime p else settingsChartTime;
  systemStats := []; containerData := []; chartLoading := chartLoading p |}.

(** ** Lemmas on gaps *)

(** the times of the records that are not gaps *)
Definition times {A} (l : list (stats_record A)) : list Z :=
  omap (λ r, match sr_created r with Time t => Some t | _ => None end) l.
Definition normalised `{DateParse} {A} (l : list (stats_record A)) : list (stats_record A) :=
  (λ r, {| sr_created := to_time (sr_created r); sr_stats := sr_stats r |}) <$> l.
Definition is_gap {A} (r : stats_record A) : bool := bool_decide (sr_created r = Null).
Definition gap_record {A} : stats_record A := {| sr_created := Null; sr_stats := None |}.

(** no interval of the list, from the time before it on, calls for a gap *)
Fixpoint regular (prev : created) (expected : Z) (l : list created) : bool :=
  match l with
  | [] => true
  | c :: rest =>
      negb (too_far prev c expected) &&
      regular (if decide (c = Null) then prev else c) expected rest
  end.

Section GapLemmas.
Context `{DateParse} {A : Type}.
Implicit Types (l : list (stats_record A)) (prev : created).

Lemma normalised_cons (r : stats_record A) l :
  normalised (r :: l) =
  {| sr_created := to_time (sr_created r); sr_stats := sr_stats r |} :: normalised l.
Proof. done. Qed.

Lemma fill_gaps_cons prev r l e :
  fill_gaps prev (r :: l) e =
  let r' := {| sr_created := to_time (sr_created r); sr_stats := sr_stats r |} in
  let rest := r' :: fill_gaps (if decide (sr_created r' = Null) then prev else sr_created r') l e in
  if too_far prev (sr_created r') e then gap_record :: rest else rest.
Proof. done. Qed.

Lemma fill_gaps_content prev l e :
  filter (λ r, is_gap r = false) (fill_gaps prev l e) =
  filter (λ r, is_gap r = false) (normalised l).
Proof.
  revert prev. induction l as [|r l IH]; intros prev; [done|].
  rewrite fill_gaps_cons. cbv zeta. cbn [normalised fmap list_fmap].
  destruct (too_far _ _ _); [rewrite filter_cons_False by done|];
    (destruct (is_gap {| sr_created := to_time (sr_created r); sr_stats := sr_stats r |}) eqn:E;
     [rewrite !filter_cons_False by congruence | rewrite !filter_cons_True by done; f_equal]; apply IH).
Qed.

Lemma fill_gaps_regular prev l e :
  regular prev e (sr_created <$> normalised l) = true → fill_gaps prev l e = normalised l.
Proof.
  revert prev. induction l as [|r l IH]; intros prev; [done|].
  rewrite fill_gaps_cons. cbn [normalised fmap list_fmap regular sr_created]. cbv zeta.
  intros [H1 H2]%andb_prop. apply negb_true_iff in H1. rewrite H1. f_equal. by apply IH.
Qed.

(** two records side by side that no gap separates are close *)
Definition close_to prev e (r : stats_record A) : Prop := too_far prev (sr_created r) e = false.
Lemma fill_gaps_head prev l e r : head (fill_gaps prev l e) = Some r → close_to prev e r.
Proof.
  destruct l as [|x l]; [done|]. rewrite fill_gaps_cons. cbv zeta.
  destruct (too_far _ _ _) eqn:E; intros [= <-]; [by destruct prev | done].
Qed.

Lemma fill_gaps_adjacent prev l e i a b :
  fill_gaps prev l e !! i = Some a → fill_gaps prev l e !! S i = Some b →
  is_gap a = false → close_to (sr_created a) e b.
Proof.
  revert prev i. induction l as [|r l IH]; intros prev i; [done|].
  rewrite fill_gaps_cons. cbv zeta.
  set (r' := Build_stats_record _ _). set (prev' := if decide _ then _ else _).
  assert (∀ i, (r' :: fill_gaps prev' l e) !! i = Some a →
    (r' :: fill_gaps prev' l e) !! S i = Some b → is_gap a = false → close_to (sr_created a) e b) as Hr.
  { intros [|j]; [|apply IH]. intros [= <-] Hb Hg.
    assert (head (fill_gaps prev' l e) = Some b) as Hh by (by rewrite head_lookup).
    apply fill_gaps_head in Hh as Hc. clear Hb Hh. revert Hc. subst prev'.
    rewrite decide_False; [done|]. intros Hn. unfold is_gap in Hg. by rewrite Hn in Hg. }
  destruct (too_far _ _ _); [|apply Hr]. destruct i as [|i]; [|apply Hr].
  by intros [= <-].
Qed.

Lemma fill_gaps_length prev l e :
  (length l ≤ length (fill_gaps prev l e) ≤ 2 * length l)%nat.
Proof.
  revert prev. induction l as [|r l IH]; intros prev; [done|].
  rewrite fill_gaps_cons. cbv zeta.
  match goal with |- context [fill_gaps ?p l e] => specialize (IH p) end.
  destruct (too_far _ _ _); cbn [length]; lia.
Qed.

Lemma fill_gaps_gaps prev n l e :
  fill_gaps prev (repeat gap_record n ++ l) e = repeat gap_record n ++ fill_gaps prev l e.
Proof.
  induction n as [|n IH]; [done|]. cbn [repeat app]. rewrite fill_gaps_cons. cbv zeta.
  cbn [to_time sr_created gap_record sr_stats]. rewrite decide_True by done.
  replace (too_far prev Null e) with false by (by destruct prev). by rewrite IH.
Qed.

Lemma times_app l1 l2 : times (l1 ++ l2) = times l1 ++ times l2.
Proof. apply omap_app. Qed.

Lemma times_fill_gaps prev l e : times (fill_gaps prev l e) = times (normalised l).
Proof.
  revert prev. induction l as [|r l IH]; intros prev; [done|].
  rewrite fill_gaps_cons. cbv zeta. cbn [normalised fmap list_fmap].
  destruct (too_far _ _ _); unfold times in *; cbn; destruct (to_time _); cbn; by rewrite IH.
Qed.

Lemma last_fill_gaps prev l e : last (fill_gaps prev l e) = last (normalised l).
Proof.
  revert prev. induction l as [|r l IH]; intros prev; [done|].
  rewrite fill_gaps_cons. cbv zeta. rewrite normalised_cons.
  assert (∀ (x : stats_record A) p, last (x :: fill_gaps p l e) = last (x :: normalised l)) as Hl.
  { intros x p. rewrite !last_cons. by rewrite IH. }
  destruct (too_far _ _ _); [|by apply Hl]. rewrite (last_cons gap_record), Hl, last_cons.
  by destruct (last (normalised l)).
Qed.

(** *** Where the gaps are *)

(** two times between which more than one and a half intervals have passed *)
Definition apart (a b : created) e : Prop := ∃ p c, a = Time p ∧ b = Time c ∧ p ≠ 0 ∧ 3 * e < 2 * (c - p).
Lemma too_far_apart a b e : too_far a b e = true ↔ apart a b e.
Proof.
  unfold too_far, apart. split.
  - destruct a as [ | |p| ], b as [ | |c| ]; try done. intros [Hp Hc%Z.ltb_lt]%andb_prop. exists p, c.
    split_and!; [done|done|intros ->; done|lia].
  - intros (p & c & -> & -> & Hp & Hc). apply andb_true_intro. split; [|apply Z.ltb_lt; lia].
    unfold truthy, truthy_Z. by rewrite (proj2 (Z.eqb_neq p 0) Hp).
Qed.
(** the time of the last record with one, or [first] when there is none *)
Definition last_time (first : created) l : created :=
  match last (filter (λ r, sr_created r ≠ Null) l) with Some r => sr_created r | None => first end.
(** the time before the [i]th new record: that of the last new record before it that has one, else that of the last
    of the previous records *)
Definition time_before (prevRecords newRecords : list (stats_record A)) (i : nat) : created :=
  last_time (default Null (sr_created <$> last prevRecords)) (take i (normalised newRecords)).
(** the records, each with a gap before it or without *)
Definition woven (gaps : list bool) l : list (stats_record A) :=
  concat (zip_with (λ (g : bool) r, if g then [gap_record; r] else [r]) gaps l).

Lemma last_time_cons prev r l :
  last_time prev (r :: l) = last_time (if decide (sr_created r = Null) then prev else sr_created r) l.
Proof.
  unfold last_time. destruct (decide (sr_created r = Null)) as [E|E].
  - by rewrite filter_cons_False by (intros Hn; by apply Hn).
  - rewrite filter_cons_True by done. rewrite last_cons. by destruct (last _).
Qed.
Lemma fill_gaps_exact prev l e : ∃ gaps, length gaps = length l ∧ fill_gaps prev l e = woven gaps (normalised l)
  ∧ ∀ i r, normalised l !! i = Some r → (gaps !! i = Some true ↔ apart (last_time prev (take i (normalised l))) (sr_created r) e).
Proof.
  revert prev. induction l as [|r l IH]; intros prev; [by exists []|].
  rewrite fill_gaps_cons, normalised_cons. cbv zeta.
  set (r' := Build_stats_record _ _). set (prev' := if decide _ then _ else _).
  destruct (IH prev') as (gaps & Hl & Hf & Hg). exists (too_far prev (sr_created r') e :: gaps). split_and!.
  - cbn. by rewrite Hl.
  - unfold woven. cbn [zip_with concat]. fold (woven gaps (normalised l)). rewrite <- Hf. by destruct (too_far _ _ _).
  - intros [|i] x; cbn [lookup list_lookup take].
    + intros [= <-]. change (last_time prev []) with prev. rewrite <- too_far_apart. split; [by intros [= ?]|by intros ->].
    + intros Hx. rewrite last_time_cons. by apply Hg.
Qed.
Lemma first_time prevRecords newRecords i c e :
  apart (last_time (last_created prevRecords) (take i (normalised newRecords))) c e ↔ apart (time_before prevRecords newRecords i) c e.
Proof.
  unfold time_before, last_time. destruct (last (filter _ _)) as [r|]; [done|]. unfold last_created, created_of, stats_record_timed.
  destruct (last prevRecords) as [r|]; cbn; [destruct (sr_created r); try done|]; split; by intros (p & d & [= <-] & _ & Hp & _).
Qed.

(** C18: adding gaps keeps the records, in order, with their times as numbers, and a gap stands before a record exactly
    when more than one and a half expected intervals have passed since the time before it, that of the last new record before it
    that has one or else that of the last of the previous records.  So in the result two neighbouring records are never further apart
    unless a gap separates them; records that are close enough get no gap; and at most one gap per record is added. *)
Theorem addEmptyValues_spec (prevRecords newRecords : list (stats_record A)) e :
  let result := addEmptyValues prevRecords newRecords e in
  (∃ gaps, length gaps = length newRecords ∧ result = woven gaps (normalised newRecords)
     ∧ ∀ i r, normalised newRecords !! i = Some r →
         (gaps !! i = Some true ↔ apart (time_before prevRecords newRecords i) (sr_created r) e))
  ∧ filter (λ r, is_gap r = false) result = filter (λ r, is_gap r = false) (normalised newRecords)
  ∧ (∀ i a b p c, result !! i = Some a → result !! S i = Some b →
       sr_created a = Time p → sr_created b = Time c → p ≠ 0 → 2 * (c - p) <= 3 * e)
  ∧ (regular (last_created prevRecords) e (sr_created <$> normalised newRecords) = true →
     result = normalised newRecords)
  ∧ (length newRecords ≤ length result ≤ 2 * length newRecords)%nat.
Proof.
  split.
  { destruct (fill_gaps_exact (last_created prevRecords) newRecords e) as (gaps & Hl & Hf & Hg). exists gaps.
    split_and!; [done|done|]. intros i r Hr. rewrite (Hg i r Hr). apply first_time. }
  split; [apply fill_gaps_content|]. split; [|split; [apply fill_gaps_regular | apply fill_gaps_length]].
  intros i a b p c Ha Hb Hp Hc Hne.
  assert (close_to (sr_created a) e b) as Hclose.
  { eapply fill_gaps_adjacent; [exact Ha | exact Hb |]. unfold is_gap. by rewrite Hp. }
  revert Hclose. unfold close_to, too_far. rewrite Hp, Hc. unfold truthy, truthy_Z.
  rewrite (proj2 (Z.eqb_neq p 0) Hne). cbn. rewrite Z.ltb_ge. lia.
Qed.
End GapLemmas.

(** ** Realtime *)

Section Realtime.
Context `{DateParse}.
Implicit Types (a b : Z) (s : SystemStats).

Definition measured {A} (s : A) (t : Z) : stats_record A := {| sr_created := Time t; sr_stats := Some s |}.

(** [n] messages, one a second, after a measurement at [b] *)
Fixpoint realtime_ticks s b (n : nat) (prev : list SystemStatsRecord) : list SystemStatsRecord :=
  match n with
  | O => prev
  | S n => push_realtime (realtime_ticks s b n prev) [measured s (b + 1000 * Z.of_nat (S n))]
  end.

(** [n] measurements, one a second, from [b] on *)
Fixpoint run_of s b (n : nat) : list SystemStatsRecord :=
  match n with O => [] | S n => measured s b :: run_of s (b + 1000) n end.

Lemma run_of_snoc s b n : run_of s b (S n) = run_of s b n ++ [measured s (b + 1000 * Z.of_nat n)].
Proof.
  revert b. induction n as [|n IH]; intros b; [cbn; by rewrite Z.add_0_r|].
  change (run_of s b (S (S n))) with (measured s b :: run_of s (b + 1000) (S n)).
  rewrite IH. cbn [run_of app]. do 4 f_equal. lia.
Qed.

Lemma length_run s b n : length (run_of s b n) = n.
Proof. revert b. induction n as [|n IH]; intros b; [done|]. cbn [run_of length]. by rewrite IH. Qed.

Lemma last_run s b n : last (run_of s b (S n)) = Some (measured s (b + 1000 * Z.of_nat n)).
Proof. by rewrite run_of_snoc, last_snoc. Qed.

Lemma fill_run p s b n : b - p ≤ 1500 → fill_gaps (Time p) (run_of s b n) 1000 = run_of s b n.
Proof.
  revert p b. induction n as [|n IH]; intros p b Hb; [done|].
  cbn [run_of]. rewrite fill_gaps_cons. cbv zeta.
  cbn [measured sr_created sr_stats to_time].
  replace (too_far (Time p) (Time b) 1000) with false
    by (symmetry; unfold too_far; apply andb_false_intro2, Z.ltb_ge; lia).
  rewrite decide_False by done. rewrite IH by lia. done.
Qed.

Lemma slice_last_short {A} n (l : list A) : (length l ≤ n)%nat → slice_last n l = l.
Proof. intros Hl. unfold slice_last. by replace (length l - n)%nat with 0%nat by lia. Qed.

(** Fact [realtime_gaps_multiply]: one missed interval in the realtime chart becomes one more gap record
    at every message: after [n] further messages the single gap is [n + 1] gaps, as long as they
    fit in the window, so gaps push measurements out of a chart meant to hold the last minute. *)
Theorem realtime_gaps_multiply s a b (n : nat) : 0 < a → a + 1500 < b → (n ≤ 29)%nat →
  realtime_ticks s b n [measured s a; gap_record; measured s b] =
  measured s a :: repeat gap_record (S n) ++ run_of s b (S n).
Proof.
  intros Ha Hab. induction n as [|n IH]; intros Hn; [done|].
  cbn [realtime_ticks]. rewrite IH by lia. unfold push_realtime, addEmptyValues.
  rewrite slice_last_short
    by (cbn [length]; rewrite length_app, repeat_length, length_run; lia).
  replace (last_created _) with (Time (b + 1000 * Z.of_nat n)).
  2:{ unfold last_created. by rewrite app_comm_cons, last_app, last_run. }
  cbn [app]. rewrite <-app_assoc, <-run_of_snoc.
  rewrite fill_gaps_cons. cbv zeta. cbn [measured sr_created sr_stats to_time].
  replace (too_far _ (Time a) 1000) with false
    by (symmetry; unfold too_far; apply andb_false_intro2, Z.ltb_ge; lia).
  rewrite decide_False by done. f_equal. rewrite fill_gaps_gaps.
  change (run_of s b (S (S n))) with (measured s b :: run_of s (b + 1000) (S n)).
  rewrite fill_gaps_cons. cbv zeta. cbn [measured sr_created sr_stats to_time].
  replace (too_far _ (Time b) 1000) with true
    by (symmetry; unfold too_far, truthy, truthy_Z; apply andb_true_intro; split;
        [apply negb_true_iff, Z.eqb_neq; lia | apply Z.ltb_lt; lia]).
  rewrite decide_False by done. rewrite (fill_run b s (b + 1000) (S n)) by lia.
  change (gap_record :: ?x) with ([gap_record] ++ x).
  by rewrite app_assoc, <-repeat_cons.
Qed.
End Realtime.

(** dates written as filter timestamps; only examples use it *)
Definition pb_dates : DateParse := λ s, (λ t, t * 1000) <$> read_pb s.

Lemma realtime_gaps_multiply_witness :
  realtime_ticks (H := pb_dates) example_stats 9000 2
    [measured example_stats 1000; gap_record; measured example_stats 9000] =
  measured example_stats 1000 :: repeat gap_record 3 ++ run_of example_stats 9000 3.
Proof. apply (realtime_gaps_multiply (H := pb_dates)); lia. Defined.

(** ** The cache and the answers *)

(** a cache entry: times that increase, a measurement at the end *)
Record history {A} (l : list (stats_record A)) : Prop := {
  hist_clean : Forall (λ r, sr_created r = Null ∨ ∃ t, sr_created r = Time t ∧ 0 < t) l;
  hist_sorted : StronglySorted Z.lt (times l);
  hist_last : last_created l = match last (times l) with Some t => Time t | None => Time 0 end }.

Section Fetching.
Context `{DateParse} `{D3Time} {A : Type}.
Implicit Types (l answer cached : list (stats_record A)).

Lemma times_drop l n : ∃ dropped, times l = dropped ++ times (drop n l).
Proof. exists (times (take n l)). by rewrite <-times_app, take_drop. Qed.

Lemma sorted_app_inv (l1 l2 : list Z) : StronglySorted Z.lt (l1 ++ l2) → StronglySorted Z.lt l2.
Proof. induction l1 as [|x l1 IH]; [done|]. cbn. by inversion 1; auto. Qed.

Lemma sorted_app (l1 l2 : list Z) m :
  StronglySorted Z.lt l1 → StronglySorted Z.lt l2 →
  Forall (λ x, x ≤ m) l1 → Forall (λ x, m < x) l2 → StronglySorted Z.lt (l1 ++ l2).
Proof.
  induction 1 as [|x l1 Hl IH Hx]; intros H2 Hm Hg; [done|]. inversion_clear Hm as [| ? ? Hxm Hlm].
  cbn. constructor; [by apply IH|]. apply Forall_app. split; [done|].
  eapply Forall_impl; [exact Hg|]. intros y Hy. cbn in *. lia.
Qed.

Lemma sorted_last_max (l : list Z) m :
  StronglySorted Z.lt l → last l = Some m → Forall (λ x, x ≤ m) l.
Proof.
  induction 1 as [|x l Hl IH Hx]; [done|]. rewrite last_cons. destruct (last l) as [y|] eqn:E.
  - intros [= ->]. constructor; [|by apply IH].
    apply last_Some_elem_of in E. rewrite Forall_forall in Hx. specialize (Hx _ E). lia.
  - intros [= ->]. apply last_None in E as ->. by repeat constructor.
Qed.

Lemma times_measured l ts :
  (to_time ∘ sr_created) <$> l = Time <$> ts → times (normalised l) = ts.
Proof.
  revert ts. induction l as [|r l IH]; intros [|t ts] E; try discriminate; [done|].
  injection E as E1 E2. rewrite normalised_cons. unfold times in *. cbn in *. rewrite E1.
  cbn. f_equal. by apply IH.
Qed.

Lemma clean_fill prev l ts e : (to_time ∘ sr_created) <$> l = Time <$> ts → Forall (λ t, 0 < t) ts →
  Forall (λ r, sr_created r = Null ∨ ∃ t, sr_created r = Time t ∧ 0 < t) (fill_gaps prev l e).
Proof.
  revert prev ts. induction l as [|r l IH]; intros prev [|t ts] E Hp; try discriminate; [constructor|].
  injection E as E1 E2. inversion_clear Hp as [| ? ? Ht Hts].
  rewrite fill_gaps_cons. cbv zeta. cbn in E1. rewrite E1. cbn [sr_created].
  destruct (too_far _ _ _); repeat first [apply Forall_cons; split]; try (by left); try (right; by exists t);
    by eapply IH.
Qed.

(** a non-empty list that ends in a measurement *)
Lemma last_created_measured l r t :
  last l = Some r → sr_created r = Time t → last_created l = Time t.
Proof. intros Hl Hr. unfold last_created. rewrite Hl. cbn. by rewrite Hr. Qed.

Lemma last_times l r t : last l = Some r → sr_created r = Time t → last (times l) = Some t.
Proof.
  intros (l' & ->)%last_Some Hr. rewrite times_app, last_app. unfold times at 1. cbn.
  by rewrite Hr.
Qed.

Lemma last_drop_some l n r : last l = Some r → (n < length l)%nat → last (drop n l) = Some r.
Proof.
  intros Hl Hn. rewrite <-(take_drop n l), last_app in Hl.
  destruct (last (drop n l)) eqn:E; [done|]. apply last_None in E.
  assert (length (drop n l) = 0%nat) as Hd by (by rewrite E). rewrite length_drop in Hd. lia.
Qed.

Lemma history_nil : history (@nil (stats_record A)).
Proof. split; [constructor | constructor | done]. Qed.

Lemma history_drop l n r t :
  history l → last l = Some r → sr_created r = Time t → (n < length l)%nat → history (drop n l).
Proof.
  intros [Hc Hs _] Hl Hr Hn. pose proof (last_drop_some l n r Hl Hn) as Hl'. split.
  - by apply Forall_drop.
  - destruct (times_drop l n) as [d E]. rewrite E in Hs. by apply sorted_app_inv in Hs.
  - by rewrite (last_times _ _ _ Hl' Hr), (last_created_measured _ _ _ Hl' Hr).
Qed.

Lemma history_merge cached answer ts e :
  history cached → answer ≠ [] → (to_time ∘ sr_created) <$> answer = Time <$> ts →
  StronglySorted Z.lt ts → Forall (λ t, 0 < t) ts →
  (∀ m, last (times cached) = Some m → Forall (λ t, m < t) ts) →
  let data := cached ++ addEmptyValues cached answer e in
  history data ∧ times data = times cached ++ ts
  ∧ ∃ r t, last data = Some r ∧ sr_created r = Time t.
Proof.
  intros [Hc Hs Hl] Hne E Hts Hpos Hafter data.
  assert (times data = times cached ++ ts) as Ht.
  { subst data. unfold addEmptyValues. by rewrite times_app, times_fill_gaps, (times_measured _ _ E). }
  assert (∃ r t, last data = Some r ∧ sr_created r = Time t) as (r & t & Hlast & Hr).
  { subst data. unfold addEmptyValues. rewrite last_app, last_fill_gaps.
    destruct (exists_last Hne) as (l' & x & ->). destruct ts as [|t0 ts] using rev_ind.
    - by destruct l'.
    - rewrite !fmap_app in E. apply app_inj_2 in E as [_ E]; [|done]. injection E as E.
      unfold normalised. rewrite fmap_app, last_app. cbn. by eexists _, t0. }
  split; [|split; [done | by exists r, t]]. split.
  - apply Forall_app. split; [done | by eapply clean_fill].
  - rewrite Ht. destruct (last (times cached)) as [m|] eqn:Em.
    + apply (sorted_app _ _ m); [done | done | by apply sorted_last_max | by apply Hafter].
    + by apply last_None in Em as ->.
  - by rewrite (last_times _ _ _ Hlast Hr), (last_created_measured _ _ _ Hlast Hr).
Qed.

(** what a server that honours the filter answers: measurements after the filter's instant, oldest
    first, at the times [ts] *)
Definition honours (f : stats_filter) answer (ts : list Z) : Prop :=
  (to_time ∘ sr_created) <$> answer = Time <$> ts ∧ StronglySorted Z.lt ts
  ∧ Forall (λ t, 0 < t) ts
  ∧ ∀ b, read_pb (f_created f) = Some b → Forall (λ t, b * 1000 < t) ts.

Lemma filter_after_cached now cached id c m :
  history cached → last (times cached) = Some m →
  0 ≤ getUTCFullYear (m + 1000) < 10000 →
  read_pb (f_created (getStats_filter now (Some cached) id c)) = Some ((m + 1000) / 1000).
Proof.
  intros [Hc Hs Hl] Hm Hy. unfold getStats_filter. cbn [f_created]. rewrite Hl, Hm.
  replace (truthy m) with true; [by apply read_pb_format|].
  symmetry. unfold truthy, truthy_Z. apply negb_true_iff, Z.eqb_neq.
  assert (∃ r, r ∈ cached ∧ sr_created r = Time m) as (r & Hin & Hr).
  { apply last_Some_elem_of in Hm. unfold times in Hm. apply list_elem_of_omap in Hm as (r & Hin & E).
    exists r. split; [done|]. by destruct (sr_created r); simplify_eq. }
  rewrite Forall_forall in Hc. destruct (Hc _ Hin) as [|(t & ? & ?)]; [congruence|].
  assert (t = m) by congruence. lia.
Qed.

(** C19: when a server honours the filter computed from the cached records, the
    answer is merged without overlap: the entry's times still increase, with a measurement at
    the end, they are the old times followed by the new ones up to a prefix that is trimmed
    away, and the entry never holds more than 120 records. *)
Theorem fetch_extends_history now key e id c (cache : jsmap (list (stats_record A))) answer ts :
  let cached := default [] (jget key cache) in
  let f := getStats_filter now (jget key cache) id c in
  history cached → answer ≠ [] → honours f answer ts →
  (∀ m, last (times cached) = Some m → 0 ≤ getUTCFullYear (m + 1000) < 10000) →
  let '(data, cache') := merge_stats key e cache (Some answer) in
  history data ∧ (length data ≤ 120)%nat ∧ jget key cache' = Some data
  ∧ ∃ dropped, times cached ++ ts = dropped ++ times data.
Proof.
  intros cached f Hh Hne (Hts & Hsort & Hpos & Hf) Hy.
  assert (∀ m, last (times cached) = Some m → Forall (λ t, m < t) ts) as Hafter.
  { intros m Hm. destruct (jget key cache) as [l|] eqn:E; [|done].
    pose proof (filter_after_cached now l id c m Hh Hm (Hy _ Hm)) as Hb.
    eapply Forall_impl; [exact (Hf _ Hb)|]. intros t Ht. cbn in Ht.
    Z.to_euclidean_division_equations. lia. }
  destruct (history_merge cached answer ts e Hh Hne Hts Hsort Hpos Hafter) as (Hd & Ht & r & t & Hl & Hr).
  unfold merge_stats. fold cached. destruct answer as [|x answer]; [done|]. cbv zeta.
  destruct (Nat.ltb_spec 120 (length (cached ++ addEmptyValues cached (x :: answer) e))) as [Hlen|Hlen].
  - split; [by eapply history_drop; [| | |lia]|].
    split; [unfold slice_last; rewrite length_drop; lia|]. split; [apply jget_jset_eq|].
    rewrite <-Ht. apply times_drop.
  - split; [done|]. split; [done|]. split; [apply jget_jset_eq|]. exists []. by rewrite Ht.
Qed.

(** Fact [overlapping_fetches_duplicate]: two fetches in flight together do not see each other's answers:
    made for the same system and period and answered alike on an empty cache, they leave every
    measurement twice in the cache and in the chart. *)
Theorem overlapping_fetches_duplicate key e answer ts (cache : jsmap (list (stats_record A))) :
  jget key cache = None → answer ≠ [] → (to_time ∘ sr_created) <$> answer = Time <$> ts →
  (length answer ≤ 30)%nat →
  let '(_, cache1) := merge_stats key e cache (Some answer) in
  let '(data, cache2) := merge_stats key e cache1 (Some answer) in
  times data = ts ++ ts ∧ jget key cache2 = Some data ∧ ¬ history data.
Proof.
  intros Hk Hne Hts Hlen. unfold merge_stats. rewrite Hk. cbn [default].
  destruct answer as [|x answer]; [done|]. cbv zeta. cbn [app].
  assert (∀ prev, (length (addEmptyValues prev (x :: answer) e) ≤ 60)%nat) as Hl.
  { intros prev. pose proof (fill_gaps_length (last_created prev) (x :: answer) e).
    unfold addEmptyValues. lia. }
  pose proof (Hl []) as Hd1. set (d1 := addEmptyValues [] (x :: answer) e) in *.
  replace (120 <? length d1)%nat with false by (symmetry; apply Nat.ltb_ge; lia).
  rewrite jget_jset_eq. cbn [default from_option id].
  replace (120 <? length (d1 ++ addEmptyValues d1 (x :: answer) e))%nat with false
    by (symmetry; apply Nat.ltb_ge; rewrite length_app; specialize (Hl d1); lia).
  assert (times (d1 ++ addEmptyValues d1 (x :: answer) e) = ts ++ ts) as Ht
    by (subst d1; unfold addEmptyValues;
        by rewrite times_app, !times_fill_gaps, (times_measured _ _ Hts)).
  split; [exact Ht|]. split; [apply jget_jset_eq|].
  intros [_ Hs _]. rewrite Ht in Hs. destruct ts as [|t ts]; [discriminate|].
  apply StronglySorted_inv in Hs as [_ Hs]. apply Forall_app in Hs as [_ Hs].
  inversion Hs. lia.
Qed.
End Fetching.

(** an answer of two measurements, one minute apart *)
Definition ex_answer : list SystemStatsRecord :=
  [{| sr_created := Text "2026-01-01 00:01:00"; sr_stats := Some example_stats |};
   {| sr_created := Text "2026-01-01 00:02:00"; sr_stats := Some example_stats |}].
Definition ex_times : list Z := [1767225660000; 1767225720000].
Lemma ex_answer_times :
  (@to_time pb_dates ∘ sr_created) <$> ex_answer = Time <$> ex_times.
Proof. by vm_compute. Qed.
Lemma ex_times_sorted : StronglySorted Z.lt ex_times.
Proof. repeat constructor; lia. Qed.

Lemma fetch_extends_history_witness :
  let '(data, cache') := merge_stats (H := pb_dates) "k" 60000 [] (Some ex_answer) in
  history data ∧ (length data ≤ 120)%nat.
Proof.
  pose proof (fetch_extends_history (H := pb_dates) (H0 := utc_d3) 1767225600000 "k" 60000 "a1" T1h []
    ex_answer ex_times history_nil ltac:(done)) as Hf.
  assert (honours (H := pb_dates) (getStats_filter (H := utc_d3) (A := SystemStats) 1767225600000 None "a1" T1h)
    ex_answer ex_times) as Hh.
  { split; [exact ex_answer_times|]. split; [exact ex_times_sorted|].
    split; [repeat constructor; lia|]. intros b. vm_compute. intros [= <-]. repeat constructor; lia. }
  specialize (Hf Hh ltac:(done)). revert Hf.
  destruct (merge_stats _ _ _ _) as [data cache']. intros (Hd & Hl & _). by split.
Defined.

Lemma overlapping_fetches_duplicate_witness :
  let '(_, cache1) := merge_stats (H := pb_dates) "k" 60000 [] (Some ex_answer) in
  let '(data, _) := merge_stats (H := pb_dates) "k" 60000 cache1 (Some ex_answer) in
  times data = ex_times ++ ex_times.
Proof.
  pose proof (overlapping_fetches_duplicate (H := pb_dates) "k" 60000 ex_answer ex_times []
    eq_refl ltac:(done) ex_answer_times ltac:(by vm_compute; lia)) as Hd. revert Hd.
  destruct (merge_stats _ _ [] _) as [? cache1]. destruct (merge_stats _ _ cache1 _) as [data ?].
  by intros [Ht _].
Defined.

(** ** The page *)

Section Page.
Context `{DateParse} `{D3Time}.

Lemma cache_key_chartTime id c1 c2 x : cache_key id c1 x = cache_key id c2 x → c1 = c2.
Proof.
  unfold cache_key. intros E. apply (inj (String.append id)) in E. cbn in E. injection E as E.
  by destruct c1, c2; cbn in E.
Qed.

(** the chart's records after an answer depend only on the entry of that answer *)
Lemma merge_other {T} `{Timed T} k k' e e' (cache : jsmap (list T)) a a' : k ≠ k' →
  (merge_stats k e (merge_stats k' e' cache a').2 a).1 = (merge_stats k e cache a).1.
Proof.
  intros Hk. assert (jget k (merge_stats k' e' cache a').2 = jget k cache) as E.
  { unfold merge_stats. destruct a' as [[|x a']|]; [done| |done]. cbv zeta. cbn [snd].
    rewrite jget_jset_ne; [done|congruence]. }
  unfold merge_stats at 1 3. rewrite E. by destruct a as [[|x a]|].
Qed.

(** Fact [last_answer_is_shown]: with fetches for two periods of one system in flight, the page shows the
    records of whichever is answered last, and stops showing itself as loading at the first: when
    the answer for the period the user has left comes last, its records are shown under the
    period now selected. *)
Theorem last_answer_is_shown p fe fe' a ca a' ca' :
  fe_system fe = fe_system fe' → fe_chartTime fe ≠ fe_chartTime fe' → chartTime p = fe_chartTime fe' →
  let q := finish_fetch fe a ca (finish_fetch fe' a' ca' p) in
  systemStats q = systemStats (finish_fetch fe a ca p)
  ∧ containerData q = containerData (finish_fetch fe a ca p)
  ∧ chartTime q = fe_chartTime fe'
  ∧ chartLoading (finish_fetch fe' a' ca' p) = false.
Proof.
  intros Hs Hc Hp q. subst q. unfold finish_fetch.
  pose proof (merge_other (cache_key (fe_system fe) (fe_chartTime fe) "system_stats")
    (cache_key (fe_system fe') (fe_chartTime fe') "system_stats")
    (expectedInterval (chartTimeData (fe_chartTime fe))) (expectedInterval (chartTimeData (fe_chartTime fe')))
    (cache_system p) a a' ltac:(rewrite Hs; by intros E%cache_key_chartTime)) as E1.
  pose proof (merge_other (cache_key (fe_system fe) (fe_chartTime fe) "container_stats")
    (cache_key (fe_system fe') (fe_chartTime fe') "container_stats")
    (expectedInterval (chartTimeData (fe_chartTime fe))) (expectedInterval (chartTimeData (fe_chartTime fe')))
    (cache_container p) ca ca' ltac:(rewrite Hs; by intros E%cache_key_chartTime)) as E2.
  revert E1 E2.
  destruct (merge_stats _ _ (cache_system p) a') as [sd' cs'].
  destruct (merge_stats _ _ (cache_container p) ca') as [cd' cc'].
  cbn [cache_system cache_container fst snd].
  destruct (merge_stats _ _ cs' a), (merge_stats _ _ cc' ca),
    (merge_stats _ _ (cache_system p) a), (merge_stats _ _ (cache_container p) ca).
  cbn. intros -> ->. done.
Qed.

(** an axis as [getTimeData] makes it: one period back from the instant it was made *)
Definition axis_ok (td : time_data) : Prop :=
  (∃ n, td_domain td = (getOffset (chartTimeData (td_chartTime td)) n, n) ∧ td_time td = n)
  ∧ ∀ t, t ∈ td_ticks td → (td_domain td).1 ≤ t ≤ (td_domain td).2.

(** Fact [time_data_fresh]: the time axis returned is the one of the asked period; whether it is computed
    or taken from the cache it reaches as far as the newest record, its ticks lie in its domain,
    and the cache keeps exactly the axis that was returned. *)
Theorem time_data_fresh (Laws : D3TimeLaws _) td now c lastCreated :
  lastCreated ≤ now → (∀ x, td = Some x → axis_ok x) →
  let '(ticks, domain, td') := getTimeData td now c lastCreated in
  (∀ t, t ∈ ticks → domain.1 ≤ t ≤ domain.2)
  ∧ (lastCreated ≠ 0 → lastCreated ≤ domain.2)
  ∧ ∃ x, td' = Some x ∧ axis_ok x ∧ td_chartTime x = c ∧ td_ticks x = ticks ∧ td_domain x = domain.
Proof.
  intros Hnow Htd.
  assert (∀ t, t ∈ timeTicks (getOffset (chartTimeData c) now) now (default 12 (cp_ticks (chartTimeData c))) →
    getOffset (chartTimeData c) now ≤ t ≤ now) as Hticks
    by (intros t Ht; by eapply ticks_within).
  assert (axis_ok {| td_time := now;
    td_ticks := timeTicks (getOffset (chartTimeData c) now) now (default 12 (cp_ticks (chartTimeData c)));
    td_domain := (getOffset (chartTimeData c) now, now); td_chartTime := c |}) as Hnew
    by (split; [by exists now | exact Hticks]).
  unfold getTimeData. destruct td as [x|].
  - specialize (Htd x eq_refl). destruct (bool_decide (td_chartTime x = c)) eqn:Ec; cbn [andb].
    + apply bool_decide_eq_true in Ec. destruct (negb (truthy lastCreated) || _) eqn:El.
      * pose proof Htd as [(n & Hd & Ht) Hin]. split; [exact Hin|]. split; [|exists x; by split].
        intros Hne. apply orb_prop in El as [El|El].
        -- unfold truthy, truthy_Z in El. rewrite negb_involutive in El. apply Z.eqb_eq in El. lia.
        -- apply Z.leb_le in El. rewrite Hd. cbn. lia.
      * split; [exact Hticks|]. split; [done|]. eexists. by split; [|split; [exact Hnew|]].
    + split; [exact Hticks|]. split; [done|]. eexists. by split; [|split; [exact Hnew|]].
  - split; [exact Hticks|]. split; [done|]. eexists. by split; [|split; [exact Hnew|]].
Qed.
End Page.

Definition ex_page (c : ChartTimes) : page := {|
  cache_system := []; cache_container := []; system := Some (example_system "a1" "web" Status_Up);
  chartTime := c; systemStats := []; containerData := []; chartLoading := false |}.
Definition ex_fetch (c : ChartTimes) : fetch := {|
  fe_system := "a1"; fe_chartTime := c;
  fe_system_filter := {| f_system := "a1"; f_created := ""; f_type := "" |};
  fe_container_filter := {| f_system := "a1"; f_created := ""; f_type := "" |} |}.

Definition ex_finish := finish_fetch (H := utc_d3) (H0 := pb_dates).
Definition ex_week : page := ex_finish (ex_fetch T1w) (Some []) None (ex_page T1w).
Lemma last_answer_is_shown_witness :
  times (systemStats (ex_finish (ex_fetch T1h) (Some ex_answer) None (ex_page T1w))) = ex_times
  ∧ systemStats (ex_finish (ex_fetch T1h) (Some ex_answer) None ex_week) =
    systemStats (ex_finish (ex_fetch T1h) (Some ex_answer) None (ex_page T1w)).
Proof.
  split; [by vm_compute|].
  exact (proj1 (last_answer_is_shown (H := pb_dates) (H0 := utc_d3) (ex_page T1w) (ex_fetch T1h)
    (ex_fetch T1w) (Some ex_answer) None (Some []) None eq_refl ltac:(done) eq_refl)).
Defined.

Lemma time_data_fresh_witness :
  let '(ticks, domain, _) := getTimeData (H := utc_d3) None 7200000 T1h 7000000 in
  7000000 ≤ domain.2 ∧ ∀ t, t ∈ ticks → domain.1 ≤ t ≤ domain.2.
Proof.
  pose proof (time_data_fresh (H0 := utc_d3) utc_d3_laws None 7200000 T1h 7000000 ltac:(lia)
    ltac:(done)) as Hf. revert Hf.
  destruct (getTimeData _ _ _ _) as [[ticks domain] td']. intros (Ht & Hl & _).
  split; [by apply Hl | exact Ht].
Defined.
