(* ===== verification/ChartView.v ===== *)
(** * What the system page draws: [routes/system.tsx], [charts/hooks.ts], [charts/container-chart.tsx]

    The list of charts and tables for the records at hand, what each chart reads from a record,
    the colours and order of containers and network interfaces, the container filter and its
    input, and moving between systems with the keyboard. *)
From Stdlib Require Import Ascii QArith Qround Lqa Lia ZArith Sorting.Sorted Sorting.Permutation.
From S2P Require Import Prelude JsValue Types Utils Charts.
Open Scope Z_scope.

(** ** Which charts are shown *)

Inductive chart :=
| CpuChart | DockerCpu | MemoryChart | DockerMemory | DiskUsage | DiskIO | Bandwidth
| DockerNetwork | SwapChart | LoadAverageChart | TemperatureChart | BatteryChart (label : string)
| GpuPowerChart | GpuEnginesChart | GpuUsage (id : string) | GpuVram (id : string)
| ExtraFsUsage (name : string) | ExtraFsIO (name : string)
| SmartTable | ContainersTable | SystemdTable | PackageUpdatesTable.

(** the fields of [SystemDetailsRecord] the page reads; the record may not be loaded *)
Record details := { dt_os : option Z; dt_podman : option bool }.

(** [batteryStateTranslations] *)
Definition battery_labels : list string :=
  ["Unknown"; "Empty"; "Full"; "Charging"; "Discharging"; "Idle"].

(** the search for GPUs with engines and with power readings, which stops as soon as both are
    found *)
Fixpoint scan_ids (gpus : jsmap GPUData) (engines power : bool) : bool * bool :=
  match gpus with
  | [] => (engines, power)
  | (_, g) :: rest =>
      let engines := if negb engines && bool_decide (is_Some (gpu_e g)) then true else engines in
      let power := if negb power && (bool_decide (is_Some (gpu_p g)) || bool_decide (is_Some (gpu_pp g)))
                   then true else power in
      if engines && power then (engines, power) else scan_ids rest engines power
  end.
Fixpoint scan_gpus (records : list SystemStatsRecord) (engines power : bool) : bool * bool :=
  match records with
  | [] => (engines, power)
  | r :: rest =>
      if negb engines || negb power then
        match s ← sr_stats r; st_g s with
        | None => scan_gpus rest engines power
        | Some gpus => let '(engines, power) := scan_ids gpus engines power in
                       scan_gpus rest engines power
        end
      else (engines, power)
  end.

(** the tables under the charts *)
Definition tables (isLinux : bool) (containers : bool) (agentVersion : SemVer) : list chart :=
  let since v := num_geb (compareSemVer agentVersion (parseSemVer (Some v))) (Fin 0) in
  when (since "0.15.0") [SmartTable] ++
  when (containers && since "0.14.0") [ContainersTable] ++
  when (isLinux && since "0.16.0") [SystemdTable] ++
  when isLinux [PackageUpdatesTable].

(** the charts in the order of the page, for the measurements of the last record, if any; [None]
    is the exception of a last record without measurements, or of an unknown battery state *)
Definition gpu_charts (lastGpus : option (jsmap GPUData)) (hasEngines : bool) : list chart :=
  match lastGpus with
  | Some gpus =>
      when (0 <? length (jkeys gpus))%nat
        (when hasEngines [GpuEnginesChart] ++
         concat ((λ p : string * GPUData,
                    GpuUsage p.1 :: when (Qltb 0 (default 0%Q (gpu_mt p.2))) [GpuVram p.1]) <$> gpus))
  | None => []
  end.
Definition battery_charts (bat : option (Z * Z)) : option (list chart) :=
  match bat with
  | Some (_, state) => (λ label, [BatteryChart label]) <$> label_at battery_labels state
  | None => Some []
  end.

Definition charts (systemStats : list SystemStatsRecord) (containers : bool) (dt : details)
    (info : SystemInfo) : option (list chart) :=
  let agentVersion := parseSemVer (Some (si_v info)) in
  let isLinux := negb (truthy (match dt_os dt with Some o => Some o | None => si_os info end)) in
  match sr_stats <$> last systemStats with
  | Some None => None
  | lastStats =>
      let stats := s ← lastStats; s in
      let lastGpus := s ← stats; st_g s in
      let '(hasEngines, hasPower) :=
        match lastGpus with Some _ => scan_gpus systemStats false false | None => (false, false) end in
      let efs := jkeys (default [] (s ← stats; st_efs s)) in
      battery ← battery_charts (s ← stats; st_bat s);
      Some ([CpuChart] ++ when containers [DockerCpu] ++ [MemoryChart] ++ when containers [DockerMemory] ++
            [DiskUsage; DiskIO; Bandwidth] ++ when containers [DockerNetwork] ++
            when (Qltb 0 (default 0%Q (s ← stats; st_su s))) [SwapChart] ++
            when (num_geb (minor agentVersion) (Fin 12)) [LoadAverageChart] ++
            when (bool_decide (is_Some (s ← stats; st_t s))) [TemperatureChart] ++
            battery ++ when hasPower [GpuPowerChart] ++
            gpu_charts lastGpus hasEngines ++
            concat ((λ name, [ExtraFsUsage name; ExtraFsIO name]) <$> efs) ++
            tables isLinux containers agentVersion)
  end.

Definition isPodman (dt : details) (info : SystemInfo) : bool :=
  default (default false (si_p info)) (dt_podman dt).

(** [str.replace(a, b)]: the first occurrence *)
Definition str_replace (a b s : string) : string :=
  match index_of s a with
  | Some n => slice_to s n +:+ b +:+ slice_from s (n + String.length a)
  | None => s
  end.
Definition dockerOrPodman (s : string) (podman : bool) : string :=
  if podman then str_replace "Docker" "Podman" (str_replace "docker" "podman" s) else s.

(** ** What a chart reads from a record

    [None] draws nothing; a record that is a gap has no measurements. *)

Definition mb : Q := 1024 * 1024.
Section DataKeys.
Variable showMax : bool.
Implicit Type stats : option SystemStats.

(** a property of a record that may be a gap *)
Definition prop {A} (f : SystemStats → option A) stats : option A := s ← stats; f s.

Definition cpu_key stats : option Q := if showMax then prop st_cpum stats else st_cpu <$> stats.
Definition disk_write stats : Q :=
  if showMax then default (default 0 (prop st_dwm stats) * mb)%Q (snd <$> prop st_dio stats)
  else default (default 0 (prop st_dw stats) * mb)%Q (snd <$> prop st_dio stats).
Definition disk_read stats : Q :=
  if showMax then default (default 0 (prop st_drm stats) * mb)%Q (fst <$> prop st_diom stats)
  else default (default 0 (prop st_dr stats) * mb)%Q (fst <$> prop st_dio stats).
(** [undefined * 1024] is [NaN] *)
Definition times_mb (x : option Q) : jsnum := match x with Some x => Fin (x * mb) | None => NaN end.
Definition bandwidth_sent stats : jsnum :=
  if showMax then default (Fin (default 0%Q (prop st_nsm stats) * mb)%Q) (Fin ∘ fst <$> prop st_bm stats)
  else default (times_mb (st_ns <$> stats)) (Fin ∘ fst <$> prop st_b stats).
Definition bandwidth_received stats : jsnum :=
  if showMax then default (Fin (default 0%Q (prop st_nrm stats) * mb)%Q) (Fin ∘ snd <$> prop st_bm stats)
  else default (times_mb (st_nr <$> stats)) (Fin ∘ snd <$> prop st_b stats).
Definition battery_key stats : option Z := fst <$> prop st_bat stats.
Definition gpu_of (id : string) stats : option GPUData := g ← prop st_g stats; jget id g.
Definition gpu_usage id stats : Q := default 0%Q (gpu_u <$> gpu_of id stats).
Definition gpu_vram id stats : Q := default 0%Q (g ← gpu_of id stats; gpu_mu g).
Definition gpu_engine id engine stats : Q :=
  default 0%Q (e ← (g ← gpu_of id stats; gpu_e g); jget engine e).
Definition fs_of (name : string) stats : option ExtraFsStats := m ← prop st_efs stats; jget name m.
Definition fs_usage name stats : option Q := fs_du <$> fs_of name stats.
(** [||] for writing, [??] for reading *)
Definition fs_write name stats : Q :=
  let fs := fs_of name stats in
  if showMax then js_or (f ← fs; fs_wbm f) (default 0 (f ← fs; fs_wm f) * mb)%Q
  else js_or (f ← fs; fs_wb f) (default 0 (f ← fs; fs_w f) * mb)%Q.
Definition fs_read name stats : Q :=
  let fs := fs_of name stats in
  if showMax then default (default 0 (f ← fs; fs_rm f) * mb)%Q (f ← fs; fs_rbm f)
  else default (default 0 (f ← fs; fs_r f) * mb)%Q (f ← fs; fs_rb f).
End DataKeys.

(** the amount and unit on an axis, and in a tooltip *)
Definition tick_bytes (val : Q) (unit : Unit) (perSecond megabytes : bool) : Q * string :=
  let '(value, u) := formatBytes val perSecond unit megabytes in
  (toFixedFloat value (if Qle_bool 10 value then 0 else 1), u).
Definition content_bytes `{Intl} (cache : list nat) (val : Q) (unit : Unit) : string :=
  let '(value, u) := formatBytes val true unit false in
  (decimalString cache value (if Qle_bool 100 value then 1 else 2)).1 +:+ " " +:+ u.
Definition tick_percent (val : Q) : Q * string := (toFixedFloat val 2, "%"%string).

(** [pinnedAxisDomain]: the upper end *)
Definition pinnedAxisDomain (dataMax : Q) : Q :=
  if Qltb 10 dataMax then inject_Z (round_half_up dataMax)
  else if Qltb 1 dataMax then (inject_Z (round_half_up (dataMax / (1 # 10))) * (1 # 10))%Q
  else dataMax.

(** the GPU whose engines are drawn: the newest record that has some *)
Fixpoint first_with_engines (gpus : jsmap GPUData) : option (string * list string) :=
  match gpus with
  | [] => None
  | (id, g) :: rest =>
      match gpu_e g with
      | Some e => Some (id, js_sort (λ a b, String.ltb b a) (jkeys e))
      | None => first_with_engines rest
      end
  end.
Fixpoint newest_engines (reversed : list SystemStatsRecord) : option (string * list string) :=
  match reversed with
  | [] => None
  | r :: rest =>
      match s ← sr_stats r; st_g s with
      | Some gpus => match first_with_engines gpus with
                     | Some found => Some found
                     | None => newest_engines rest
                     end
      | None => newest_engines rest
      end
  end.
Definition gpu_engines (systemStats : list SystemStatsRecord) : option (string * list string) :=
  newest_engines (rev systemStats).

(** ** Colours *)

(** [((i * 360) / count) % 360] *)
Definition hue (i count : nat) : Q :=
  let x := (inject_Z (Z.of_nat i) * 360 / inject_Z (Z.of_nat count))%Q in
  (x - 360 * inject_Z (Qfloor (x / 360)))%Q.

(** *** [useContainerChartConfigs] *)

Inductive metric := Cpu | Memory | Network.

Definition sent_bytes (c : ContainerStats) : Q := default (default 0 (cs_ns c) * mb)%Q (fst <$> cs_b c).
Definition recv_bytes (c : ContainerStats) : Q := default (default 0 (cs_nr c) * mb)%Q (snd <$> cs_b c).
Definition metric_of (k : metric) (c : ContainerStats) : Q :=
  match k with
  | Cpu => default 0%Q (cs_c c) | Memory => default 0%Q (cs_m c)
  | Network => (sent_bytes c + recv_bytes c)%Q
  end.

Definition add_usage (k : metric) (totals : jsmap Q) (entry : string * ContainerStats) : jsmap Q :=
  jset entry.1 (default 0 (jget entry.1 totals) + metric_of k entry.2)%Q totals.
Definition totalUsage (k : metric) (containerData : list container_point) : jsmap Q :=
  foldl (λ totals p, foldl (add_usage k) totals (pt_stats p)) [] containerData.

(** the containers of a chart, largest total first, each with its hue *)
Definition sortedContainers (totals : jsmap Q) : list (string * Q) :=
  js_sort (λ a b : string * Q, Qltb a.2 b.2) totals.
Definition chartConfig (k : metric) (containerData : list container_point) : jsmap Q :=
  let sorted := sortedContainers (totalUsage k containerData) in
  imap (λ i p, (p.1, hue i (length sorted))) sorted.

(** *** [useNetworkInterfaces] *)

Abbreviation interfaces := (jsmap (Q * Q * Q * Q)).
(** the element of an interface's four numbers *)
Definition ni_at (index : nat) (x : Q * Q * Q * Q) : option Q :=
  let '(a, b, c, d) := x in [a; b; c; d] !! index.
Definition total_of (ni : interfaces) (key : string) : Q := default 0%Q (x ← jget key ni; ni_at 3 x).
Definition sortedKeys (ni : option interfaces) : list string :=
  js_sort (λ a b, Qltb (total_of (default [] ni) a) (total_of (default [] ni) b))
          (jkeys (default [] ni)).
(** label and hue of each line *)
Definition useNetworkInterfaces (ni : option interfaces) : list (string * Q) :=
  let keys := sortedKeys ni in
  imap (λ i key, (key, (220 + hue i (length keys))%Q)) keys.
Definition interface_key (key : string) (index : nat) (stats : option SystemStats) : option Q :=
  x ← (m ← prop st_ni stats; jget key m); ni_at index x.

(** ** The container filter *)

(** the keys that are dimmed *)
Definition filteredKeys (filter : string) (keys : list string) : list string :=
  if truthy filter then
    let filterTerms := List.filter (λ term, (0 <? String.length term)%nat)
                         (str_split " " (str_lower filter)) in
    List.filter (λ key, negb (existsb (str_includes (str_lower key)) filterTerms)) keys
  else [].

Definition container_value (k : metric) (key : string) (p : container_point) : option Q :=
  match k with
  | Network => (λ c, (sent_bytes c + recv_bytes c)%Q) <$> jget key (pt_stats p)
  | Cpu => c ← jget key (pt_stats p); cs_c c
  | Memory => c ← jget key (pt_stats p); cs_m c
  end.

(** the received and sent totals of a tooltip, over the containers that are not dimmed *)
Definition tooltip_total (dimmed : list string) (p : container_point) : Q * Q :=
  foldl (λ acc entry,
           if bool_decide (entry.1 ∈ dimmed) then acc
           else (acc.1 + recv_bytes entry.2, acc.2 + sent_bytes entry.2)%Q)
        (0, 0)%Q (pt_stats p).

(** what a line of the network tooltip reads: the received and the sent bytes of a container, or of all *)
Definition network_tooltip (dimmed : list string) (key : string) (p : container_point) : Q * Q :=
  if String.eqb key "__total__" then tooltip_total dimmed p
  else match jget key (pt_stats p) with Some c => (recv_bytes c, sent_bytes c) | None => (0, 0)%Q end.

(** the filter's input: what is typed reaches the store after 80 ms without a change *)
Record filter_bar := { fb_store : string; fb_input : string; fb_timer : option (Z * string) }.
(** the effect that runs after a render in which the input or the store changed *)
Definition fb_effect (now : Z) (b : filter_bar) : filter_bar := {|
  fb_store := fb_store b; fb_input := fb_input b;
  fb_timer := if String.eqb (fb_input b) (fb_store b) then None else Some (now + 80, fb_input b) |}.
Definition handleChange (now : Z) (value : string) (b : filter_bar) : filter_bar :=
  if String.eqb value (fb_input b) then b
  else fb_effect now {| fb_store := fb_store b; fb_input := value; fb_timer := None |}.
(** the store is set from here or from elsewhere; the input follows *)
Definition store_set (value : string) (b : filter_bar) : filter_bar :=
  if String.eqb value (fb_store b) then b
  else {| fb_store := value; fb_input := value; fb_timer := None |}.
Definition handleClear (now : Z) (b : filter_bar) : filter_bar :=
  store_set "" (handleChange now "" b).
Definition fb_tick (now : Z) (b : filter_bar) : filter_bar :=
  match fb_timer b with
  | Some (t, v) => if t <=? now
                   then store_set v {| fb_store := fb_store b; fb_input := fb_input b; fb_timer := None |}
                   else b
  | None => b
  end.

(** ** Keyboard navigation *)

Record key_event := { in_field : bool; modifier : bool; key : string }.

Fixpoint find_index {A} (f : A → bool) (l : list A) : option nat :=
  match l with [] => None | x :: l => if f x then Some 0%nat else S <$> find_index f l end.

(** the identifier of the system that is opened *)
Definition handleKeyUp (systems : list SystemRecord) (id : string) (e : key_event) : option string :=
  if in_field e || modifier e then None
  else
    match find_index (λ s, String.eqb (sys_id s) id) systems with
    | None => None
    | Some i =>
        if (length systems <=? 1)%nat then None
        else if String.eqb (key e) "ArrowLeft" || String.eqb (key e) "h" then
          sys_id <$> systems !! ((i + length systems - 1) mod length systems)%nat
        else if String.eqb (key e) "ArrowRight" || String.eqb (key e) "l" then
          sys_id <$> systems !! ((i + 1) mod length systems)%nat
        else None
    end.

(** ** Lemmas and theorems: charts *)

Definition gpus_of (r : SystemStatsRecord) : jsmap GPUData := default [] (s ← sr_stats r; st_g s).
Definition has_engines (p : string * GPUData) : bool := bool_decide (is_Some (gpu_e p.2)).
Definition has_power (p : string * GPUData) : bool :=
  bool_decide (is_Some (gpu_p p.2)) || bool_decide (is_Some (gpu_pp p.2)).

Lemma scan_ids_spec gpus e p :
  scan_ids gpus e p = (e || existsb has_engines gpus, p || existsb has_power gpus).
Proof.
  revert e p. induction gpus as [|[id g] gpus IH]; intros e p; cbn; [by rewrite !orb_false_r|].
  unfold has_engines, has_power in *. cbn. rewrite IH.
  destruct e, p, (bool_decide (is_Some (gpu_e g))), (bool_decide (is_Some (gpu_p g))),
    (bool_decide (is_Some (gpu_pp g))); cbn; reflexivity.
Qed.

Lemma scan_gpus_spec records e p :
  scan_gpus records e p =
  (e || existsb (λ r, existsb has_engines (gpus_of r)) records,
   p || existsb (λ r, existsb has_power (gpus_of r)) records).
Proof.
  revert e p. induction records as [|r records IH]; intros e p; cbn; [by rewrite !orb_false_r|].
  unfold gpus_of at 1 3. destruct (s ← sr_stats r; st_g s) as [gpus|]; cbn.
  - rewrite scan_ids_spec, IH. destruct e, p; cbn; try done; by rewrite ?orb_assoc.
  - rewrite IH. by destruct e, p.
Qed.

(** the version [0.m.0] or a later one *)
Lemma compare_release a b c m :
  num_geb (compareSemVer (release a b c) (release 0 m 0)) (Fin 0) = true ↔ (0 < a ∨ m ≤ b)%N.
Proof.
  unfold compareSemVer, release. cbn [major minor patch num_eqb].
  change (inject_Z (Z.of_N 0)) with (inject_Z 0).
  destruct (Qeq_bool (inject_Z (Z.of_N a)) (inject_Z 0)) eqn:E1; cbn [negb];
    [apply Qeq_bool_iff in E1 | apply Qeq_bool_neq in E1];
    rewrite ?inject_Z_injective in E1.
  - destruct (Qeq_bool (inject_Z (Z.of_N b)) (inject_Z (Z.of_N m))) eqn:E2; cbn [negb];
      [apply Qeq_bool_iff in E2 | apply Qeq_bool_neq in E2]; rewrite ?inject_Z_injective in E2;
      rewrite num_geb_sub, Qle_bool_iff, <-Zle_Qle; lia.
  - rewrite num_geb_sub, Qle_bool_iff, <-Zle_Qle. lia.
Qed.

Lemma num_geb_Fin p q : num_geb (Fin p) (Fin q) = Qle_bool q p.
Proof.
  unfold num_geb, num_leb, num_ltb, num_eqb. destruct (Qle_bool q p) eqn:E, (Qeq_bool q p) eqn:E'; try done.
  apply Qeq_bool_iff in E'. apply not_true_iff_false in E. rewrite Qle_bool_iff in E. lra.
Qed.

Lemma tables_elem x isLinux containers v :
  x ∈ tables isLinux containers v ↔
  let since m := num_geb (compareSemVer v (parseSemVer (Some m))) (Fin 0) = true in
  (x = SmartTable ∧ since "0.15.0"%string)
  ∨ (x = ContainersTable ∧ containers = true ∧ since "0.14.0"%string)
  ∨ (x = SystemdTable ∧ isLinux = true ∧ since "0.16.0"%string)
  ∨ (x = PackageUpdatesTable ∧ isLinux = true).
Proof.
  unfold tables. cbv zeta. rewrite !elem_of_app, !elem_of_when, !list_elem_of_singleton, !andb_true_iff.
  tauto.
Qed.

(** a chart of which there may be several *)
Definition several (x : chart) : bool :=
  match x with
  | BatteryChart _ | GpuUsage _ | GpuVram _ | ExtraFsUsage _ | ExtraFsIO _ => true
  | _ => false
  end.

Lemma battery_elem bat l x : several x = false → battery_charts bat = Some l → x ∉ l.
Proof.
  intros Hx. unfold battery_charts. destruct bat as [[charge state]|].
  - destruct (label_at battery_labels state) as [label|]; intros [= <-].
    intros ->%list_elem_of_singleton. discriminate.
  - intros [= <-]. apply not_elem_of_nil.
Qed.

Lemma gpu_charts_elem gpus e x : several x = false →
  x ∈ gpu_charts gpus e ↔ x = GpuEnginesChart ∧ e = true ∧ ∃ g, gpus = Some g ∧ g ≠ [].
Proof.
  intros Hx. destruct gpus as [g|]; cbn [gpu_charts].
  - rewrite elem_of_when, elem_of_app, elem_of_when, list_elem_of_singleton.
    assert (x ∉ concat ((λ p : string * GPUData,
      GpuUsage p.1 :: when (Qltb 0 (default 0%Q (gpu_mt p.2))) [GpuVram p.1]) <$> g)) as Hn.
    { rewrite elem_of_concat. intros (l & Hxl & (p & -> & _)%list_elem_of_fmap).
      apply elem_of_cons in Hxl as [->|(_ & ->%list_elem_of_singleton)%elem_of_when]; discriminate. }
    assert ((0 <? length (jkeys g))%nat = true ↔ g ≠ []) as Hg by (by destruct g).
    rewrite Hg. split.
    + intros (Hne & [[-> ->]|]); [eauto | done].
    + intros (-> & -> & g' & [= <-] & Hne). auto.
  - split; [by intros ?%elem_of_nil | by intros (_ & _ & g & ? & _)].
Qed.

Lemma efs_elem efs x : several x = false →
  x ∉ concat ((λ name, [ExtraFsUsage name; ExtraFsIO name]) <$> efs).
Proof.
  intros Hx. rewrite elem_of_concat. intros (l & Hxl & (p & -> & _)%list_elem_of_fmap).
  apply elem_of_cons in Hxl as [->|Hxl]; [discriminate|].
  apply list_elem_of_singleton in Hxl as ->. discriminate.
Qed.

(** membership of a chart of which there is at most one *)
Lemma charts_elem stats containers dt info l x :
  charts stats containers dt info = Some l → several x = false →
  let isLinux := negb (truthy (match dt_os dt with Some o => Some o | None => si_os info end)) in
  let version := parseSemVer (Some (si_v info)) in
  let gpus := s ← (r ← last stats; sr_stats r); st_g s in
  x ∈ l ↔
  x ∈ [CpuChart; MemoryChart; DiskUsage; DiskIO; Bandwidth]
  ∨ (x ∈ [DockerCpu; DockerMemory; DockerNetwork] ∧ containers = true)
  ∨ (x = SwapChart ∧ Qltb 0 (default 0%Q (s ← (r ← last stats; sr_stats r); st_su s)) = true)
  ∨ (x = LoadAverageChart ∧ num_geb (minor version) (Fin 12) = true)
  ∨ (x = TemperatureChart ∧ is_Some (s ← (r ← last stats; sr_stats r); st_t s))
  ∨ (x = GpuPowerChart ∧ is_Some gpus ∧ existsb (λ r, existsb has_power (gpus_of r)) stats = true)
  ∨ (x = GpuEnginesChart ∧ existsb (λ r, existsb has_engines (gpus_of r)) stats = true
     ∧ ∃ g, gpus = Some g ∧ g ≠ [])
  ∨ x ∈ tables isLinux containers version.
Proof.
  intros Hc Hx isLinux version gpus. unfold charts in Hc. fold isLinux version in Hc. revert Hc.
  assert ((s ← (sr_stats <$> last stats); s) = (r ← last stats; sr_stats r)) as E by (by destruct (last stats)).
  destruct (sr_stats <$> last stats) as [[s|]|] eqn:El; [..|]; try done.
  all: cbv zeta; rewrite E; fold gpus; rewrite scan_gpus_spec, !orb_false_l.
  all: destruct gpus as [g|]; (destruct (battery_charts _) as [bl|] eqn:Eb; [|discriminate]).
  all: cbn [mbind option_bind].
  all: pose proof (battery_elem _ _ _ Hx Eb) as Hnb.
  all: match goal with |- context [concat ((λ name, _) <$> ?e)] => pose proof (efs_elem e x Hx) as Hne end.
  all: intros Hl; apply (inj Some) in Hl as <-; rewrite !elem_of_app, gpu_charts_elem by done.
  all: rewrite !elem_of_when, !elem_of_cons, ?elem_of_nil, ?bool_decide_eq_true.
  all: pose proof (is_Some_None (A := jsmap GPUData)).
  all: try (assert (is_Some (Some g)) by by eexists).
  all: try tauto.
  all: assert (¬ ∃ g : jsmap GPUData, None = Some g ∧ g ≠ []) by (by intros (? & ? & _)).
  all: pose proof diff_false_true; tauto.
Qed.

(** Fact [charts_shown]: what the page shows for the records at hand.  Container charts appear exactly
    when there is container data; the GPU power and engine charts when the newest record lists
    GPUs and some record has such readings; the tables by the release of the agent: S.M.A.R.T. from
    0.15.0, containers from 0.14.0, services from 0.16.0 and only on Linux.  The load average
    chart looks at the minor number alone, so a release 1.0.0 does not get it. *)
Theorem charts_shown stats containers dt info l a b c :
  charts stats containers dt info = Some l → si_v info = print_release a b c →
  let isLinux := negb (truthy (match dt_os dt with Some o => Some o | None => si_os info end)) in
  let gpus := s ← (r ← last stats; sr_stats r); st_g s in
  (DockerCpu ∈ l ↔ containers = true)
  ∧ (GpuPowerChart ∈ l ↔ is_Some gpus ∧ existsb (λ r, existsb has_power (gpus_of r)) stats = true)
  ∧ (GpuEnginesChart ∈ l ↔ (∃ g, gpus = Some g ∧ g ≠ [])
       ∧ existsb (λ r, existsb has_engines (gpus_of r)) stats = true)
  ∧ (SmartTable ∈ l ↔ (0 < a ∨ 15 ≤ b)%N)
  ∧ (ContainersTable ∈ l ↔ containers = true ∧ (0 < a ∨ 14 ≤ b)%N)
  ∧ (SystemdTable ∈ l ↔ isLinux = true ∧ (0 < a ∨ 16 ≤ b)%N)
  ∧ (LoadAverageChart ∈ l ↔ (12 ≤ b)%N).
Proof.
  intros Hc Hv isLinux gpus.
  assert (∀ m, num_geb (compareSemVer (release a b c) (release 0 m 0)) (Fin 0) = true ↔ (0 < a ∨ m ≤ b)%N)
    as Hrel by (intros; apply compare_release).
  assert (∀ x, several x = false → _) as He by (intros x Hx; exact (charts_elem _ _ _ _ _ x Hc Hx)).
  cbv zeta in He. fold isLinux gpus in He. rewrite Hv, (proj1 (parse_release a b c "")) in He.
  setoid_rewrite tables_elem in He. cbv beta zeta in He.
  change (parseSemVer (Some "0.15.0"%string)) with (release 0 15 0) in He.
  change (parseSemVer (Some "0.14.0"%string)) with (release 0 14 0) in He.
  change (parseSemVer (Some "0.16.0"%string)) with (release 0 16 0) in He.
  setoid_rewrite Hrel in He.
  assert (num_geb (minor (release a b c)) (Fin 12) = true ↔ (12 ≤ b)%N) as Hm.
  { unfold release. cbn [minor]. change 12%Q with (inject_Z 12).
    rewrite num_geb_Fin, Qle_bool_iff, <-Zle_Qle. lia. }
  setoid_rewrite Hm in He.
  repeat match goal with |- _ ∧ _ => split end; rewrite He by done; rewrite !elem_of_cons, !elem_of_nil; intuition discriminate.
Qed.

Definition ex_record : SystemStatsRecord := measured example_stats 1767225600000.
Lemma charts_shown_witness :
  match charts [ex_record] true {| dt_os := None; dt_podman := None |} (example_info 3) with
  | Some l => (SystemdTable ∈ l) ∧ (SmartTable ∈ l)
  | None => False
  end.
Proof.
  destruct (charts _ _ _ _) as [l|] eqn:E; [|vm_compute in E; discriminate].
  pose proof (charts_shown _ _ _ _ l 0 16 0 E eq_refl) as (_ & _ & _ & Hs & _ & Hd & _).
  split; [apply Hd | apply Hs]; [split; [done|]|]; lia.
Defined.

(** ** Theorems: what is drawn *)

(** Fact [disk_write_max_uses_average]: asked for maxima, the disk chart reads the maximum of the read
    side, but for the write side it reads the average whenever the agent reports bytes: the
    maximum write rate is never drawn. *)
Theorem disk_write_max_uses_average s r w r' w' :
  st_dio s = Some (r, w) → st_diom s = Some (r', w') →
  disk_read true (Some s) = r' ∧ disk_write true (Some s) = w
  ∧ disk_write true (Some s) = disk_write false (Some s).
Proof. intros H1 H2. unfold disk_read, disk_write, prop. cbn. by rewrite H1, H2. Qed.

Definition ex_io_stats : SystemStats := {|
  st_cpu := 3; st_cpum := None; st_cpub := None; st_cpus := None; st_l1 := None; st_l5 := None;
  st_l15 := None; st_la := None; st_m := 8; st_mu := 2; st_mp := 25; st_mb := 1; st_mm := None;
  st_mz := None; st_s := 0; st_su := None; st_d := None; st_du := 10; st_dp := 5; st_dr := None;
  st_dw := None; st_drm := None; st_dwm := None; st_dio := Some (10, 20)%Q;
  st_diom := Some (100, 200)%Q; st_ns := 0;
  st_nr := 0; st_b := None; st_nsm := None; st_nrm := None; st_bm := None; st_t := None;
  st_efs := None; st_g := None; st_bat := None; st_ni := None |}.
Lemma disk_write_max_uses_average_witness :
  st_diom ex_io_stats = Some (100, 200)%Q ∧ disk_write true (Some ex_io_stats) = 20%Q.
Proof.
  split; [done|]. exact (proj1 (proj2 (disk_write_max_uses_average ex_io_stats 10 20 100 200 eq_refl eq_refl))).
Defined.

(** Fact [gaps_drawn_as_zero]: a gap draws nothing in the CPU, battery, interface and filesystem-usage
    charts and in the average bandwidth, but the disk, filesystem and GPU throughput, and the
    bandwidth maxima, draw the value 0 there. *)
Theorem gaps_drawn_as_zero showMax id name iface n :
  cpu_key showMax None = None ∧ battery_key None = None ∧ interface_key iface n None = None
  ∧ fs_usage name None = None
  ∧ bandwidth_sent false None = NaN ∧ bandwidth_received false None = NaN
  ∧ bandwidth_sent true None = Fin (0 * mb) ∧ bandwidth_received true None = Fin (0 * mb)
  ∧ (disk_write showMax None == 0)%Q ∧ (disk_read showMax None == 0)%Q
  ∧ (fs_write showMax name None == 0)%Q ∧ (fs_read showMax name None == 0)%Q
  ∧ gpu_usage id None = 0%Q.
Proof. by destruct showMax. Qed.

(** ** Lemmas and theorems: colours *)

Lemma js_sort_desc {A} (f : A → Q) (l : list A) :
  js_sort (λ a b, Qltb (f a) (f b)) l ≡ₚ l
  ∧ StronglySorted (λ a b, f b <= f a)%Q (js_sort (λ a b, Qltb (f a) (f b)) l).
Proof.
  split; [apply sort_perm|].
  assert (StronglySorted (λ a b, Qltb (f a) (f b) = false) (js_sort (λ a b, Qltb (f a) (f b)) l)) as Hs.
  { apply sort_order.
    - intros a b. rewrite Qltb_true, Qltb_false. lra.
    - intros a b c. rewrite !Qltb_false. lra. }
  induction Hs as [|x xs Hs IH Hx]; constructor; [done|].
  eapply Forall_impl; [exact Hx|]. intros y Hy. by apply Qltb_false in Hy.
Qed.

Lemma hue_small i n : (i < n)%nat →
  (hue i n == inject_Z (Z.of_nat i) * 360 / inject_Z (Z.of_nat n))%Q ∧ (0 <= hue i n < 360)%Q.
Proof.
  intros Hi. unfold hue. set (x := (inject_Z (Z.of_nat i) * 360 / inject_Z (Z.of_nat n))%Q).
  assert (0 < inject_Z (Z.of_nat n))%Q as Hn by (change 0%Q with (inject_Z 0); rewrite <-Zlt_Qlt; lia).
  assert (0 <= inject_Z (Z.of_nat i))%Q as Hi0 by (change 0%Q with (inject_Z 0); rewrite <-Zle_Qle; lia).
  assert (inject_Z (Z.of_nat i) < inject_Z (Z.of_nat n))%Q as Hin by (rewrite <-Zlt_Qlt; lia).
  assert (0 <= x < 360)%Q as [Hx0 Hx1].
  { subst x. split; [apply Qle_shift_div_l | apply Qlt_shift_div_r]; lra. }
  assert (Qfloor (x / 360) = 0) as ->.
  { assert (0 <= x / 360)%Q as H1 by (apply Qle_shift_div_l; lra).
    assert (x / 360 < 1)%Q as H2 by (apply Qlt_shift_div_r; lra).
    pose proof (Qfloor_le (x / 360)) as H3. pose proof (Qlt_floor (x / 360)) as H4.
    assert (inject_Z (Qfloor (x / 360)) < inject_Z 1)%Q as H5 by (change (inject_Z 1) with 1%Q; lra).
    assert (inject_Z 0 < inject_Z (Qfloor (x / 360) + 1))%Q as H6 by (change (inject_Z 0) with 0%Q; lra).
    rewrite <-Zlt_Qlt in H5, H6. lia. }
  change (inject_Z 0) with 0%Q. split; [ring | split; lra].
Qed.

Lemma hue_increasing i j n : (i < j < n)%nat → (hue i n < hue j n)%Q.
Proof.
  intros [Hij Hj]. destruct (hue_small i n) as [-> _]; [lia|]. destruct (hue_small j n) as [-> _]; [lia|].
  assert (0 < inject_Z (Z.of_nat n))%Q as Hn by (change 0%Q with (inject_Z 0); rewrite <-Zlt_Qlt; lia).
  assert (inject_Z (Z.of_nat i) < inject_Z (Z.of_nat j))%Q as Hd by (rewrite <-Zlt_Qlt; lia).
  unfold Qdiv. apply Qmult_lt_compat_r; [by apply Qinv_lt_0_compat | lra].
Qed.

(** the readings of a container, oldest first, and their total *)
Definition entries (containerData : list container_point) : list (string * ContainerStats) :=
  concat (pt_stats <$> containerData).
Definition readings (name : string) (es : list (string * ContainerStats)) : list ContainerStats :=
  snd <$> List.filter (λ e, String.eqb name e.1) es.
Definition total (k : metric) (l : list ContainerStats) : Q :=
  foldl (λ acc c, acc + metric_of k c)%Q 0%Q l.

Lemma totalUsage_entries k containerData :
  totalUsage k containerData = foldl (add_usage k) [] (entries containerData).
Proof.
  unfold totalUsage, entries. generalize (@nil (string * Q)) as m.
  induction containerData as [|p l IH]; intros m; cbn; [done|]. by rewrite IH, foldl_app.
Qed.

Lemma total_snoc k l c : total k (l ++ [c]) = (total k l + metric_of k c)%Q.
Proof. unfold total. by rewrite foldl_app. Qed.

Lemma readings_snoc name es e :
  readings name (es ++ [e]) =
  readings name es ++ (if String.eqb name e.1 then [e.2] else []).
Proof. unfold readings. rewrite List.filter_app, fmap_app. cbn. by destruct (String.eqb name e.1). Qed.

Lemma totals_lookup k name es :
  jget name (foldl (add_usage k) [] es) =
  match readings name es with [] => None | l => Some (total k l) end.
Proof.
  induction es as [|e es IH] using rev_ind; [done|].
  rewrite foldl_app, readings_snoc. cbn [foldl]. unfold add_usage at 1. rewrite jget_jset.
  rewrite (String.eqb_sym e.1 name). destruct (String.eqb_spec name e.1) as [->|]; [|by rewrite app_nil_r, IH].
  rewrite IH. destruct (readings e.1 es) as [|c l]; [done|].
  cbn [app default from_option id]. by rewrite app_comm_cons, total_snoc.
Qed.

Lemma totals_wf k es : jwf (foldl (add_usage k) [] es).
Proof.
  induction es as [|e es IH] using rev_ind; [constructor|].
  rewrite foldl_app. by apply jwf_jset.
Qed.

Lemma lookup_chartConfig k data i :
  chartConfig k data !! i =
  (λ p, (p.1, hue i (length (totalUsage k data)))) <$> sortedContainers (totalUsage k data) !! i.
Proof.
  unfold chartConfig. rewrite list_lookup_imap. unfold sortedContainers.
  by rewrite (Permutation_length (sort_perm _ (totalUsage k data))).
Qed.

Lemma StronglySorted_lookup {A} (R : A → A → Prop) l i j a b :
  StronglySorted R l → l !! i = Some a → l !! j = Some b → (i < j)%nat → R a b.
Proof.
  intros Hs. revert i j. induction Hs as [|x l Hs IH Hx]; intros i j Ha Hb Hij; [done|].
  destruct j as [|j]; [lia|]. destruct i as [|i]; [|apply (IH i j); [done | done | lia]].
  injection Ha as ->. rewrite Forall_forall in Hx. by apply Hx, list_elem_of_lookup_2 with j.
Qed.

(** Fact [container_colors]: a chart's containers are those that occur in the data, each once, by
    decreasing total of the chart's metric over all records, and the hues run up from 0 and stay
    below 360, so no two containers share one. *)
Theorem container_colors k data :
  let config := chartConfig k data in
  (∀ name, name ∈ jkeys config ↔ readings name (entries data) ≠ []) ∧ jwf config
  ∧ (∀ i j a b ha hb, (i < j)%nat → config !! i = Some (a, ha) → config !! j = Some (b, hb) →
       (total k (readings b (entries data)) <= total k (readings a (entries data)))%Q
       ∧ (0 <= ha)%Q ∧ (ha < hb)%Q ∧ (hb < 360)%Q).
Proof.
  intros config.
  assert (jkeys config ≡ₚ jkeys (totalUsage k data)) as Hp.
  { subst config. unfold chartConfig, jkeys. rewrite fmap_imap.
    replace (imap _ _) with (sortedContainers (totalUsage k data)).*1.
    - apply fmap_Permutation, sort_perm.
    - generalize (sortedContainers (totalUsage k data)) at 1 3. intros l.
      apply list_eq. intros i. rewrite list_lookup_fmap, list_lookup_imap. by destruct (l !! i). }
  assert (∀ name, jget name (totalUsage k data) =
    match readings name (entries data) with [] => None | l => Some (total k l) end) as Hget
    by (intros; rewrite totalUsage_entries; apply totals_lookup).
  assert (jwf (totalUsage k data)) as Hwf by (rewrite totalUsage_entries; apply totals_wf).
  split; [|split].
  - intros name. rewrite Hp, <-jget_is_Some, Hget.
    destruct (readings name (entries data)); [|by split]. split; [by intros [] | done].
  - unfold jwf. rewrite Hp. exact Hwf.
  - intros i j a b ha hb Hij Ha Hb. subst config. rewrite lookup_chartConfig in Ha, Hb.
    destruct (js_sort_desc snd (totalUsage k data)) as [Hperm Hsort].
    fold (sortedContainers (totalUsage k data)) in Hperm, Hsort.
    destruct (sortedContainers (totalUsage k data) !! i) as [[a' qa]|] eqn:Ea; [|done].
    destruct (sortedContainers (totalUsage k data) !! j) as [[b' qb]|] eqn:Eb; [|done].
    cbn in Ha, Hb. injection Ha as -> <-. injection Hb as -> <-.
    pose proof (lookup_lt_Some _ _ _ Eb) as Hj. rewrite (Permutation_length Hperm) in Hj.
    assert (∀ n q i, sortedContainers (totalUsage k data) !! i = Some (n, q) →
      q = total k (readings n (entries data))) as Hq.
    { intros n q i' Hi. apply list_elem_of_lookup_2 in Hi. rewrite Hperm in Hi.
      apply (elem_jget _ _ _ Hwf) in Hi. rewrite Hget in Hi. by destruct (readings _ _); simplify_eq. }
    split; [rewrite <-(Hq _ _ _ Ea), <-(Hq _ _ _ Eb); exact (StronglySorted_lookup _ _ _ _ _ _ Hsort Ea Eb Hij)|].
    split; [apply hue_small; lia|]. split; [by apply hue_increasing | apply hue_small; lia].
Qed.

Definition ex_container (name : string) (cpu : Q) : ContainerStats := {|
  cs_n := name; cs_c := Some cpu; cs_m := None; cs_ns := None; cs_nr := None; cs_b := None |}.
Lemma container_colors_witness :
  let data := [{| pt_created := Time 1; pt_stats := [("a"%string, ex_container "a" 1);
                                                    ("b"%string, ex_container "b" 2)] |}] in
  jkeys (chartConfig Cpu data) = ["b"; "a"]%string ∧ (hue 0 2 < hue 1 2)%Q.
Proof.
  intros data. split; [by vm_compute|].
  refine (proj1 (proj2 (proj2 (proj2 (proj2 (container_colors Cpu data)) 0%nat 1%nat "b"%string "a"%string
    (hue 0 2) (hue 1 2) _ _ _)))); [lia | by vm_compute | by vm_compute].
Defined.

(** ** Theorems: the container filter *)

Fixpoint blanks (n : nat) : string :=
  match n with O => EmptyString | S n => String " " (blanks n) end.

Lemma split_blanks n : str_split " " (str_lower (blanks n)) = repeat ""%string (S n).
Proof. induction n as [|n IH]; [done|]. cbn [blanks str_lower str_split]. by cbn; rewrite IH. Qed.

(** Fact [filter_terms]: with a filter, a container stays lit exactly when one of the filter's
    blank-separated words occurs in its name, whatever the case; without a filter all are lit.  A
    filter of blanks alone has no words, so it dims every container. *)
Theorem filter_terms filter keys name :
  name ∈ keys →
  (name ∉ filteredKeys filter keys ↔
   filter = ""%string
   ∨ ∃ term, term ∈ str_split " " (str_lower filter) ∧ term ≠ ""%string
             ∧ str_includes (str_lower name) term = true)
  ∧ ∀ n, (0 < n)%nat → filteredKeys (blanks n) keys = keys.
Proof.
  intros Hin. split.
  - unfold filteredKeys, truthy, truthy_string.
    destruct (String.eqb_spec filter "") as [->|Hne]; cbn [negb].
    { split; [by left | intros _; apply not_elem_of_nil]. }
    rewrite list_elem_of_In, filter_In, negb_true_iff, <-not_true_iff_false, existsb_exists.
    split.
    + intros Hn. right.
      destruct (existsb (str_includes (str_lower name))
        (List.filter (λ term, (0 <? String.length term)%nat) (str_split " " (str_lower filter)))) eqn:E.
      * apply existsb_exists in E as (t & [Ht Hl]%filter_In & Hi). exists t.
        split; [by apply list_elem_of_In|]. split; [|done]. by intros ->.
      * destruct Hn. split; [by apply list_elem_of_In|]. rewrite <-existsb_exists. congruence.
    + intros [?|(t & Ht & Hne' & Hi)] [_ Hno]; [done|]. apply Hno. exists t. split; [|done].
      apply filter_In. split; [by apply list_elem_of_In|]. by destruct t.
  - intros n Hn. unfold filteredKeys. destruct n as [|n]; [lia|].
    rewrite split_blanks. change (truthy (blanks (S n))) with true. cbv iota zeta.
    replace (List.filter (λ term, (0 <? String.length term)%nat) (repeat ""%string (S (S n)))) with (@nil string).
    + induction keys as [|k keys IH]; [done|]. cbn. f_equal.
      clear. induction keys as [|k keys IH]; [done|]. cbn. by rewrite IH.
    + generalize (S (S n)) as m. by induction m.
Qed.
Lemma filter_terms_witness :
  "web"%string ∈ ["web"; "db"]%string
  ∧ filteredKeys (blanks 2) ["web"; "db"]%string = ["web"; "db"]%string
  ∧ ("web"%string ∉ filteredKeys "WE" ["web"; "db"]%string).
Proof.
  split; [left|]. split.
  - apply (proj2 (filter_terms "" ["web"; "db"]%string "web" ltac:(left))). lia.
  - apply (proj1 (filter_terms "WE" ["web"; "db"]%string "web" ltac:(left))). right.
    exists "we"%string. vm_compute. split; [left | done].
Defined.

(** *** The network tooltip *)

Definition height (key : string) (p : container_point) : Q := default 0%Q (container_value Network key p).
Definition lit (dimmed : list string) (p : container_point) : list string :=
  List.filter (λ key, negb (bool_decide (key ∈ dimmed))) (jkeys (pt_stats p)).
Lemma tooltip_total_from (dimmed : list string) (l : jsmap ContainerStats) acc :
  let r := foldl (λ acc entry, if bool_decide (entry.1 ∈ dimmed) then acc
                    else (acc.1 + recv_bytes entry.2, acc.2 + sent_bytes entry.2)%Q) acc l in
  (r.1 + r.2 == acc.1 + acc.2 +
   foldr (λ e : string * ContainerStats, Qplus (sent_bytes e.2 + recv_bytes e.2)) 0
     (List.filter (λ e, negb (bool_decide (e.1 ∈ dimmed))) l))%Q.
Proof.
  revert acc. induction l as [|[key c] l IH]; intros acc; cbn; [ring|]. cbn in IH.
  destruct (bool_decide (key ∈ dimmed)); cbn; rewrite IH; cbn; ring.
Qed.

Lemma lit_sum (dimmed : list string) p (l : jsmap ContainerStats) :
  (∀ e, e ∈ l → jget e.1 (pt_stats p) = Some e.2) →
  (foldr (λ e : string * ContainerStats, Qplus (sent_bytes e.2 + recv_bytes e.2)) 0
     (List.filter (λ e, negb (bool_decide (e.1 ∈ dimmed))) l) ==
   foldr (λ key, Qplus (height key p)) 0 (List.filter (λ key, negb (bool_decide (key ∈ dimmed))) (jkeys l)))%Q.
Proof.
  induction l as [|[key c] l IH]; intros Hg; [done|]. rewrite jkeys_cons. cbn [List.filter fst].
  specialize (IH ltac:(intros; apply Hg; by right)). pose proof (Hg (key, c) ltac:(left)) as E. cbn in E.
  destruct (bool_decide (key ∈ dimmed)); cbn [negb foldr]; rewrite IH; [done|].
  unfold height at 2. cbn [container_value]. by rewrite E.
Qed.
(** Fact [tooltip_agrees]: what the tooltip says of a container, received and sent together, is the height of
    its area, and the total it says is that of the areas that are lit. *)
Theorem tooltip_agrees dimmed p :
  jwf (pt_stats p) →
  (∀ key, key ≠ "__total__"%string →
     ((network_tooltip dimmed key p).1 + (network_tooltip dimmed key p).2 == height key p)%Q)
  ∧ ((network_tooltip dimmed "__total__" p).1 + (network_tooltip dimmed "__total__" p).2 ==
     foldr (λ key, Qplus (height key p)) 0 (lit dimmed p))%Q.
Proof.
  intros Hwf. split.
  - intros key Hk. unfold network_tooltip, height, container_value. apply String.eqb_neq in Hk. rewrite Hk.
    destruct (jget key (pt_stats p)); cbn; ring.
  - unfold network_tooltip, tooltip_total. rewrite String.eqb_refl.
    etransitivity; [exact (tooltip_total_from dimmed (pt_stats p) (0, 0)%Q)|]. cbn [fst snd]. rewrite !Qplus_0_l.
    apply lit_sum. intros [k c]. by apply elem_jget.
Qed.

Definition ex_traffic : container_point := {|
  pt_created := Null;
  pt_stats := [("web", {| cs_n := "web"; cs_c := None; cs_m := None; cs_ns := None; cs_nr := None; cs_b := Some (10, 5)%Q |});
               ("db", {| cs_n := "db"; cs_c := None; cs_m := None; cs_ns := None; cs_nr := None; cs_b := Some (1, 2)%Q |})]%string |}.
Lemma tooltip_agrees_witness :
  network_tooltip ["db"]%string "__total__" ex_traffic = (5, 10)%Q
  ∧ (5 + 10 == foldr (λ key, Qplus (height key ex_traffic)) 0 (lit ["db"]%string ex_traffic))%Q.
Proof.
  split; [reflexivity|].
  exact (proj2 (tooltip_agrees ["db"]%string ex_traffic ltac:(apply (bool_decide_unpack _); by vm_compute))).
Defined.

(** ** Theorems: keyboard *)

Lemma find_index_unique (l : list SystemRecord) i s :
  NoDup (sys_id <$> l) → l !! i = Some s → find_index (λ x, String.eqb (sys_id x) (sys_id s)) l = Some i.
Proof.
  revert i. induction l as [|x l IH]; intros i; [done|].
  rewrite fmap_cons. intros [Hx Hnd]%NoDup_cons Hi. cbn [find_index].
  destruct i as [|i]; [injection Hi as ->; by rewrite String.eqb_refl|].
  destruct (String.eqb_spec (sys_id x) (sys_id s)) as [E|_].
  - destruct Hx. rewrite E. apply list_elem_of_fmap. exists s. split; [done|].
    by apply list_elem_of_lookup_2 with i.
  - by rewrite (IH i).
Qed.

Lemma find_index_found (l : list SystemRecord) id i :
  find_index (λ x, String.eqb (sys_id x) id) l = Some i → ∃ s, l !! i = Some s ∧ sys_id s = id.
Proof.
  revert i. induction l as [|x l IH]; intros i; [done|]. cbn [find_index].
  destruct (String.eqb_spec (sys_id x) id) as [E|_]; [intros [= <-]; by exists x|].
  destruct (find_index _ l) as [j|]; [|done]. intros [= <-]. by apply IH.
Qed.

(** stepping around a ring of [n] and back *)
Lemma ring_step i n : (i < n)%nat → (1 < n)%nat →
  let j := ((i + 1) mod n)%nat in let k := ((i + n - 1) mod n)%nat in
  (j < n)%nat ∧ j ≠ i ∧ ((j + n - 1) mod n = i)%nat ∧ (k < n)%nat ∧ ((k + 1) mod n = i)%nat.
Proof.
  intros Hi Hn j k.
  assert (∀ x, (x < n)%nat → ((x + n) mod n = x)%nat) as Hwrap.
  { intros x Hx. replace (x + n)%nat with (x + 1 * n)%nat by lia.
    rewrite Nat.Div0.mod_add. by apply Nat.mod_small. }
  assert (j = if decide (i + 1 = n)%nat then 0%nat else (i + 1)%nat) as Hj.
  { subst j. destruct (decide (i + 1 = n)%nat) as [E|]; [rewrite E; apply Nat.Div0.mod_same|].
    apply Nat.mod_small. lia. }
  assert (k = if decide (i = 0)%nat then (n - 1)%nat else (i - 1)%nat) as Hk.
  { subst k. destruct (decide (i = 0)%nat) as [E|]; [rewrite E; apply Nat.mod_small; lia|].
    replace (i + n - 1)%nat with ((i - 1) + n)%nat by lia. apply Hwrap. lia. }
  destruct (decide (i + 1 = n)%nat), (decide (i = 0)%nat); rewrite Hj, Hk; (split; [lia|]; split; [lia|]);
    (split; [|split; [lia|]]); try lia;
    repeat match goal with
    | |- ((0 + n - 1) mod n)%nat = _ => rewrite Nat.mod_small; lia
    | |- ((i + 1 + n - 1) mod n)%nat = _ => replace (i + 1 + n - 1)%nat with (i + n)%nat by lia; by apply Hwrap
    | |- ((n - 1 + 1) mod n)%nat = _ => replace (n - 1 + 1)%nat with n by lia; rewrite Nat.Div0.mod_same; lia
    | |- ((i - 1 + 1) mod n)%nat = _ => rewrite Nat.mod_small; lia
    end.
Qed.

Definition press (k : string) : key_event := {| in_field := false; modifier := false; key := k |}.

(** Fact [navigate_back]: among systems with distinct identifiers, the right key opens one of them and
    the left key then leads back, and the other way round; the keys do nothing in a text field,
    with a modifier, on an unknown system, or when there is only one. *)
Theorem navigate_back systems id :
  NoDup (sys_id <$> systems) → id ∈ sys_id <$> systems → (1 < length systems)%nat →
  (∃ next, handleKeyUp systems id (press "ArrowRight") = Some next
     ∧ next ∈ sys_id <$> systems ∧ next ≠ id
     ∧ handleKeyUp systems next (press "ArrowLeft") = Some id)
  ∧ (∃ prev, handleKeyUp systems id (press "h") = Some prev
     ∧ handleKeyUp systems prev (press "l") = Some id)
  ∧ ∀ e other, in_field e = true ∨ modifier e = true ∨ other ∉ sys_id <$> systems →
      handleKeyUp systems other e = None.
Proof.
  intros Hnd Hid Hlen.
  assert (∀ j s, systems !! j = Some s →
    handleKeyUp systems (sys_id s) (press "ArrowRight") = sys_id <$> systems !! ((j + 1) mod length systems)%nat
    ∧ handleKeyUp systems (sys_id s) (press "ArrowLeft") =
      sys_id <$> systems !! ((j + length systems - 1) mod length systems)%nat
    ∧ handleKeyUp systems (sys_id s) (press "l") = sys_id <$> systems !! ((j + 1) mod length systems)%nat
    ∧ handleKeyUp systems (sys_id s) (press "h") =
      sys_id <$> systems !! ((j + length systems - 1) mod length systems)%nat) as Hpress.
  { intros j s Hj. unfold handleKeyUp. rewrite (find_index_unique _ _ _ Hnd Hj).
    rewrite (proj2 (Nat.leb_gt (length systems) 1)) by lia. done. }
  apply list_elem_of_fmap in Hid as (s & -> & (i & Hi)%list_elem_of_lookup_1).
  destruct (ring_step i (length systems) (lookup_lt_Some _ _ _ Hi) Hlen) as (Hj & Hji & Hjb & Hk & Hkb).
  destruct (lookup_lt_is_Some_2 _ _ Hj) as [t Ht]. destruct (lookup_lt_is_Some_2 _ _ Hk) as [u Hu].
  destruct (Hpress _ _ Hi) as (-> & _ & _ & ->). rewrite Ht, Hu.
  split; [|split].
  - exists (sys_id t). split; [done|]. split; [apply list_elem_of_fmap; exists t; split; [done|];
      by eapply list_elem_of_lookup_2|]. split.
    + intros E. apply Hji. eapply NoDup_lookup; [exact Hnd | |]; rewrite list_lookup_fmap, ?Ht, ?Hi; cbn;
        [reflexivity | by rewrite E].
    + destruct (Hpress _ _ Ht) as (_ & -> & _ & _). by rewrite Hjb, Hi.
  - exists (sys_id u). split; [done|]. destruct (Hpress _ _ Hu) as (_ & _ & -> & _). by rewrite Hkb, Hi.
  - intros e other He. unfold handleKeyUp. destruct He as [->|[->|Hno]]; [done | by rewrite orb_true_r |].
    destruct (in_field e || modifier e); [done|].
    destruct (find_index _ systems) as [j|] eqn:Ej; [|done].
    apply find_index_found in Ej as (x & Hx & <-). destruct Hno. apply list_elem_of_fmap.
    exists x. split; [done | by eapply list_elem_of_lookup_2].
Qed.

Lemma navigate_back_witness :
  let systems := [example_system "a" "a" Status_Up; example_system "b" "b" Status_Up] in
  ∃ next, handleKeyUp systems "b" (press "ArrowRight") = Some next
          ∧ handleKeyUp systems next (press "ArrowLeft") = Some "b"%string.
Proof.
  intros systems.
  destruct (proj1 (navigate_back systems "b" ltac:(by repeat constructor; set_solver)
    ltac:(right; left) ltac:(cbn; lia))) as (next & H1 & _ & _ & H2).
  by exists next.
Defined.

(** ** Theorems: the filter's input *)

Inductive fb_event := Type_ (value : string) | Clear | Outside (value : string).
Definition fb_handle (now : Z) (e : fb_event) (b : filter_bar) : filter_bar :=
  match e with
  | Type_ v => handleChange now v b | Clear => handleClear now b | Outside v => store_set v b
  end.
(** events with their times; a timer that is due fires before the next event *)
Definition fb_run (events : list (Z * fb_event)) (b : filter_bar) : filter_bar :=
  foldl (λ b te, fb_handle te.1 te.2 (fb_tick te.1 b)) b events.

(** a timer is pending exactly when the input differs from the store, for the input's text *)
Definition fb_ok (b : filter_bar) : Prop :=
  match fb_timer b with
  | None => fb_input b = fb_store b
  | Some (_, v) => v = fb_input b ∧ fb_input b ≠ fb_store b
  end.

Lemma fb_effect_ok now b : fb_ok (fb_effect now b).
Proof. unfold fb_ok, fb_effect. cbn. by destruct (String.eqb_spec (fb_input b) (fb_store b)). Qed.

Lemma store_set_ok v b : fb_ok b → fb_ok (store_set v b).
Proof. intros Hb. unfold store_set. by destruct (String.eqb v (fb_store b)). Qed.

Lemma handleChange_ok now v b : fb_ok b → fb_ok (handleChange now v b).
Proof. intros Hb. unfold handleChange. destruct (String.eqb v _); [done | apply fb_effect_ok]. Qed.

Lemma fb_tick_ok now b : fb_ok b → fb_ok (fb_tick now b).
Proof.
  unfold fb_tick. destruct (fb_timer b) as [[t v]|] eqn:E; [|done].
  destruct (t <=? now); [|done]. intros Hb. unfold fb_ok in Hb. rewrite E in Hb. destruct Hb as [-> Hne].
  unfold store_set. cbn. by rewrite (proj2 (String.eqb_neq _ _) Hne).
Qed.

(** Fact [filter_bar_settles]: whatever is typed, cleared or set from outside, and whenever, the filter's
    input and the store agree as soon as the pending timer has fired, and the store then holds
    what the input shows; clearing takes effect at once. *)
Theorem filter_bar_settles events b : fb_ok b →
  let b' := fb_run events b in
  (∀ now, (∀ t v, fb_timer b' = Some (t, v) → t ≤ now) →
     fb_store (fb_tick now b') = fb_input b' ∧ fb_input (fb_tick now b') = fb_input b')
  ∧ ∀ now, fb_store (handleClear now b') = ""%string ∧ fb_input (handleClear now b') = ""%string
           ∧ fb_timer (handleClear now b') = None.
Proof.
  intros Hb b'. assert (fb_ok b') as Hok.
  { subst b'. unfold fb_run. revert b Hb. induction events as [|[t e] events IH]; intros b Hb; [done|].
    cbn [foldl]. apply IH. apply (fb_tick_ok t) in Hb. cbn [fst snd].
    destruct e; unfold fb_handle, handleClear; auto using handleChange_ok, store_set_ok. }
  generalize dependent b'. clear. intros b' Hok. split.
  - intros now Ht. unfold fb_tick. unfold fb_ok in Hok.
    destruct (fb_timer b') as [[t v]|] eqn:E; [|done]. destruct Hok as [-> Hne].
    rewrite (proj2 (Z.leb_le t now)) by (by eapply Ht). unfold store_set. cbn.
    by rewrite (proj2 (String.eqb_neq _ _) Hne).
  - intros now. pose proof (handleChange_ok now ""%string b' Hok) as Hc.
    assert (fb_input (handleChange now "" b') = ""%string) as Hi.
    { unfold handleChange. destruct (String.eqb_spec "" (fb_input b')); done. }
    unfold handleClear, store_set. revert Hc Hi. generalize (handleChange now "" b'). intros c Hc Hi.
    destruct (String.eqb_spec "" (fb_store c)) as [E|]; [|done].
    unfold fb_ok in Hc. destruct (fb_timer c) as [[t v]|]; [|done]. destruct Hc. congruence.
Qed.
Lemma filter_bar_settles_witness :
  let b := {| fb_store := ""; fb_input := ""; fb_timer := None |} in
  fb_store (fb_tick 100 (fb_run [(0, Type_ "we"); (20, Type_ "web")] b)) = "web"%string.
Proof.
  intros b.
  rewrite (proj1 (proj1 (filter_bar_settles [(0, Type_ "we"); (20, Type_ "web")] b eq_refl) 100
    ltac:(intros t v; vm_compute; intros [= <- <-]; done))).
  by vm_compute.
Defined.
