(* ===== verification/SystemsTable.v ===== *)
(** * The systems table: [components/systems-table/] and [components/update-agents-button.tsx]

    The rows a status filter leaves, the name filter with its caches, the value and the cell of
    every column, the disk cell with its indicators, the menu of a row with the requests it
    sends, and the report of the fleet-wide actions. *)
From Stdlib Require Import Ascii QArith Qminmax Lqa Lia ZArith Sorting.Permutation Sorting.Sorted.
From S2P Require Import Prelude JsValue JsDate Types Utils Nanostores SystemsManager.
Open Scope Z_scope.

(** ** Rows *)

Inductive StatusFilter := All | OfStatus (s : SystemStatus).

(** [filteredData]: any filter that is not all, up or down gives the paused systems *)
Definition filteredData (filter : StatusFilter) (st : state) : list SystemRecord :=
  match filter with
  | All => systems st
  | OfStatus Status_Up => jvalues (stores st UpSystems)
  | OfStatus Status_Down => jvalues (stores st DownSystems)
  | OfStatus _ => jvalues (stores st PausedSystems)
  end.

(** the numbers next to the status filters *)
Definition counts (st : state) : nat * nat * nat :=
  (length (jvalues (stores st UpSystems)), length (jvalues (stores st DownSystems)),
   length (jvalues (stores st PausedSystems))).

Inductive ViewMode := Table | Grid.
Definition default_view (innerWidth : Z) (rows : nat) : ViewMode :=
  if (innerWidth <? 1024) && (rows <? 200)%nat then Grid else Table.

(** the sort menu: the column clicked, descending on a second click *)
Definition toggle_sort (sorting : option (string * bool)) (column : string) : string * bool :=
  (column, match sorting with
           | Some (id, desc) => String.eqb id column && negb desc
           | None => false
           end).

(** *** The name filter *)

Record filter_cache := { filterInput : string; filterInputLower : string; nameCache : jsmap string }.
Definition empty_cache : filter_cache :=
  {| filterInput := ""; filterInputLower := ""; nameCache := [] |}.

(** [t`Up`.toLowerCase()] and so on, in English; a pending system has no such text *)
Definition statusTranslations (s : SystemStatus) : option string :=
  match s with
  | Status_Up => Some (str_lower "Up") | Status_Down => Some (str_lower "Down")
  | Status_Paused => Some (str_lower "Paused") | Status_Pending => None
  end.

Definition filterFn (newFilterInput : string) (row : SystemRecord) (c : filter_cache) :
    bool * filter_cache :=
  let c := if String.eqb newFilterInput (filterInput c) then c
           else {| filterInput := newFilterInput; filterInputLower := str_lower newFilterInput;
                   nameCache := nameCache c |} in
  let '(nameLower, c) :=
    match jget (sys_name row) (nameCache c) with
    | Some l => (l, c)
    | None => let l := str_lower (sys_name row) in
              (l, {| filterInput := filterInput c; filterInputLower := filterInputLower c;
                     nameCache := jset (sys_name row) l (nameCache c) |})
    end in
  if str_includes nameLower (filterInputLower c) then (true, c)
  else (match statusTranslations (sys_status row) with
        | Some statusLower => str_includes statusLower (filterInputLower c)
        | None => false
        end, c).

(** ** Columns: the value a column sorts by *)

Definition cpu_value (i : SystemInfo) : option Q := js_or_undef (si_cpu i).
Definition memory_value (i : SystemInfo) : option Q := js_or_undef (Some (si_mp i)).
Definition disk_value (i : SystemInfo) : option Q := js_or_undef (Some (si_dp i)).
Definition gpu_value (i : SystemInfo) : option Q := js_or_undef (si_g i).
Definition loadAverage_value (i : SystemInfo) : option Q :=
  let sum := (λ la : Q * Q * Q, let '(a, b, c) := la in (0 + a + b + c)%Q) <$> si_la i in
  if truthy sum then sum
  else js_or_undef (Some (default 0%Q (si_l1 i) + default 0%Q (si_l5 i) + default 0%Q (si_l15 i))%Q).
Definition net_value (i : SystemInfo) : option Q :=
  match js_or_undef (si_bb i) with
  | Some bb => Some bb
  | None => js_or_undef (Some (js_or (si_b i) 0%Q * 1024 * 1024)%Q)
  end.
Definition temp_value (i : SystemInfo) : option Q := si_dt i.
Definition battery_value (i : SystemInfo) : option Z := fst <$> si_bat i.
Definition services_value (i : SystemInfo) : option Z := fst <$> si_sv i.
Definition updates_value (i : SystemInfo) : Z := default 0 (si_pu i).
Definition uptime_value (i : SystemInfo) : option Z := js_or_undef (Some (si_u i)).
Definition agent_value (i : SystemInfo) : string := si_v i.

(** the comparison of the services column *)
Definition services_compare (a b : SystemInfo) : Z :=
  let '(totalCountA, numFailedA) := default (0, 0) (si_sv a) in
  let '(totalCountB, numFailedB) := default (0, 0) (si_sv b) in
  if numFailedA =? numFailedB then totalCountA - totalCountB else numFailedA - numFailedB.

(** ** Columns: cells

    [None] is an empty cell. *)

Definition STATUS_COLORS (s : SystemStatus) : string :=
  match s with
  | Status_Up => "bg-green-500" | Status_Down => "bg-red-500" | Status_Paused => "bg-primary/40"
  | Status_Pending => "bg-yellow-500"
  end.

(** a number with one digit from [big] on, with two below *)
Definition short `{Intl} (big : Q) (q : Q) : string :=
  (decimalString [] q (if Qle_bool big q then 1 else 2)).1.

Definition getIndicatorColor (settings : UserSettings) (status : SystemStatus) (pct : Q) : string :=
  if decide (status = Status_Up) then
    match getMeterState settings pct with
    | MeterState_Good => STATUS_COLORS Status_Up
    | MeterState_Warn => STATUS_COLORS Status_Pending
    | MeterState_Crit => STATUS_COLORS Status_Down
    end
  else STATUS_COLORS Status_Paused.

(** text, colour and width of the meter *)
Definition TableCellWithMeter `{Intl} (settings : UserSettings) (status : SystemStatus)
    (value : option Q) : string * string * Q :=
  let val := js_or value 0%Q in
  (short 10 val +:+ "%", getIndicatorColor settings status val, val).

(** the load averages with the colour of the dot, grey when the system is not up *)
Definition load_threshold (settings : UserSettings) (m : Q) (threads : Z) : MeterState :=
  (* a division by 0 is infinite, or not a number, which no threshold is reached by *)
  if threads =? 0 then (if Qltb 0 m then MeterState_Crit else MeterState_Good)
  else getMeterState settings (m / inject_Z threads * 100).
Definition loadAverage_cell (settings : UserSettings) (s : SystemRecord) :
    option (MeterState * bool * (Q * Q * Q)) :=
  let i := sys_info s in
  let v := parseSemVer (Some (si_v i)) in
  let legacy := (default 0%Q (si_l1 i), default 0%Q (si_l5 i), default 0%Q (si_l15 i)) in
  let loadAverages :=
    match si_la i with
    | Some la => if num_eqb (minor v) (Fin 12) && num_ltb (patch v) (Fin 1) then legacy else la
    | None => legacy
    end in
  let '(a, b, c) := loadAverages in
  let m := Qmax (Qmax a b) c in
  if Qeq_bool m 0 && (bool_decide (sys_status s = Status_Paused) || num_ltb (minor v) (Fin 12))
  then None
  else Some (load_threshold settings m (default 1 (si_t i)),
             negb (bool_decide (sys_status s = Status_Up)), loadAverages).

Definition net_cell `{Intl} (unitNet : Unit) (s : SystemRecord) : option string :=
  if decide (sys_status s = Status_Paused) then None
  else let '(value, unit) := formatBytes (js_or (net_value (sys_info s)) 0%Q) true unitNet false in
       Some (short 100 value +:+ " " +:+ unit).
Definition temp_cell `{Intl} (unitTemp : option Unit) (s : SystemRecord) : option string :=
  match js_or_undef (temp_value (sys_info s)) with
  | Some val => let '(value, unit) := formatTemperature unitTemp val None in
                Some (short 100 value +:+ " " +:+ unit)
  | None => None
  end.

Inductive battery_icon := PlugCharging | BatteryLow | BatteryMedium | BatteryHigh | BatteryFull.
Definition battery_cell (i : SystemInfo) : option (battery_icon * string * Z) :=
  match si_bat i with
  | None => None
  | Some (pct, st) =>
      let muted := "text-muted-foreground"%string in
      Some (if st =? BatteryState_num Battery_Charging then (PlugCharging, muted, pct)
            else if pct <? 25 then
              (BatteryLow, if pct <? 11 then "text-red-500"%string else "text-yellow-500"%string, pct)
            else if pct <? 75 then (BatteryMedium, muted, pct)
            else if pct <? 95 then (BatteryHigh, muted, pct)
            else (BatteryFull, muted, pct))
  end.

(** total, failed, and the colour of the dot *)
Definition services_cell (s : SystemRecord) : option (Z * Z * string) :=
  let '(totalCount, numFailed) := default (0, 0) (si_sv (sys_info s)) in
  if negb (bool_decide (sys_status s = Status_Up)) || (totalCount =? 0) then None
  else Some (totalCount, numFailed,
             if 0 <? numFailed then STATUS_COLORS Status_Down
             else if numFailed =? 0 then STATUS_COLORS Status_Up else ""%string).

(** the count with its colour when there are updates, whether a reboot is needed, the title *)
Definition updates_cell (s : SystemRecord) : option (option (Z * string) * bool * string) :=
  let i := sys_info s in
  let count := default 0 (si_pu i) in
  let secCount := default 0 (si_pus i) in
  let rebootNeeded := default false (si_rb i) in
  if negb (bool_decide (sys_status s = Status_Up)) || ((count =? 0) && negb rebootNeeded) then None
  else Some (if 0 <? count
             then Some (count, if 0 <? secCount then STATUS_COLORS Status_Down
                               else STATUS_COLORS Status_Pending)
             else None,
             rebootNeeded,
             (if 0 <? secCount then z_str secCount +:+ " security" else "") +:+
             (if rebootNeeded then (if 0 <? secCount then " · " else "") +:+ "Reboot required" else "")).

Definition uptime_cell `{Intl} (i : SystemInfo) : option string :=
  match uptime_value i with
  | None => None
  | Some uptime =>
      Some (if uptime <? 3600 then secondsToString uptime Minute
            else if uptime <? 360000 then secondsToString uptime Hour
            else secondsToString uptime Day)
  end.

(** the icon, the colour classes in their order (a later one wins), and the hover title *)
Inductive agent_icon := WebSocketIcon | SshIcon | Dot.
Definition agent_cell (hub_version : string) (s : SystemRecord) :
    option (list agent_icon * list string * option string) :=
  let i := sys_info s in
  if truthy (si_v i) then
    let color := (if String.eqb (si_v i) hub_version then ["text-green-500"] else ["text-yellow-500"])
                 ++ (if decide (sys_status s = Status_Up) then [] else ["text-red-500"]) in
    Some ((if decide (si_ct i = Some (ConnectionType_num Connection_WebSocket)) then [WebSocketIcon] else [])
          ++ (if decide (si_ct i = Some (ConnectionType_num Connection_SSH)) then [SshIcon] else [])
          ++ (if truthy (si_ct i) then [] else [Dot]),
          color, ct ← si_ct i; label_at connectionTypeLabels ct)
  else None.

(** *** Disks *)

Definition root_disk_colors (settings : UserSettings) (status : SystemStatus) (efs : jsmap Q) : list string :=
  let stateColors (s : MeterState) := match s with
    | MeterState_Good => STATUS_COLORS Status_Up | MeterState_Warn => STATUS_COLORS Status_Pending
    | MeterState_Crit => STATUS_COLORS Status_Down end in
  if decide (status = Status_Up) then
    stateColors <$> js_sort (λ a b, MeterState_num b <? MeterState_num a)
                      (remove_dups ((λ p : string * Q, getMeterState settings p.2) <$> efs))
  else [].

(** the extra disks of the tooltip, fullest first *)
Definition extra_disks (settings : UserSettings) (status : SystemStatus) (efs : jsmap Q) :
    list (string * Q * string) :=
  (λ p : string * Q, (p.1, p.2, getIndicatorColor settings status p.2)) <$>
    js_sort (λ a b : string * Q, Qltb a.2 b.2) efs.

Inductive disk_cell :=
| OneDisk (meter : string * string * Q)
| ManyDisks (root : string * string * Q) (indicators : list string) (extra : list (string * Q * string)).
Definition DiskCellWithMultiple `{Intl} (settings : UserSettings) (s : SystemRecord) : disk_cell :=
  let i := sys_info s in
  let extraFs := default [] (si_efs i) in
  if (length extraFs =? 0)%nat then OneDisk (TableCellWithMeter settings (sys_status s) (disk_value i))
  else ManyDisks (short 10 (si_dp i) +:+ "%", getIndicatorColor settings (sys_status s) (si_dp i), si_dp i)
         (root_disk_colors settings (sys_status s) extraFs)
         (extra_disks settings (sys_status s) extraFs).

Definition IndicatorDot (s : SystemRecord) (className : string) : string :=
  if truthy className then className else STATUS_COLORS (sys_status s).

(** ** The menu of a row *)

Inductive menu_item :=
| Edit | Pause | Resume | CopyName | CopyHost | UpdateAgent | ApplyAll (count : Z)
| ApplySecurity (count : Z) | Reboot (needed : bool) | Separator | Delete.

(** the items that are not hidden *)
Definition menu (readOnly : bool) (s : SystemRecord) : list menu_item :=
  let i := sys_info s in
  let up := bool_decide (sys_status s = Status_Up) in
  let item b x : list menu_item := if (b : bool) then [x] else [] in
  item (negb readOnly) Edit ++
  item (negb readOnly) (if decide (sys_status s = Status_Paused) then Resume else Pause) ++
  [CopyName; CopyHost] ++
  item (negb (readOnly || negb up)) UpdateAgent ++
  item (negb (readOnly || negb up || negb (truthy (default 0 (si_pu i))))) (ApplyAll (default 0 (si_pu i))) ++
  item (negb (readOnly || negb up || negb (truthy (default 0 (si_pus i))))) (ApplySecurity (default 0 (si_pus i))) ++
  item (negb (readOnly || negb up)) (Reboot (default false (si_rb i))) ++
  item (negb readOnly) Separator ++ item (negb readOnly) Delete.

(** what choosing an item sends to the hub or opens *)
Inductive menu_effect :=
| OpenEdit | OpenReboot | OpenDelete | Copy (text : string)
| SetStatus (id : string) (status : SystemStatus)
| SendAgentUpdate (id : string) | SendApply (id : string) (securityOnly : bool) | NoEffect.
Definition choose (s : SystemRecord) (x : menu_item) : menu_effect :=
  match x with
  | Edit => OpenEdit | Reboot _ => OpenReboot | Delete => OpenDelete | Separator => NoEffect
  | CopyName => Copy (sys_name s) | CopyHost => Copy (sys_host s)
  | Pause | Resume => SetStatus (sys_id s)
      (if decide (sys_status s = Status_Paused) then Status_Pending else Status_Paused)
  | UpdateAgent => SendAgentUpdate (sys_id s)
  | ApplyAll _ => SendApply (sys_id s) false
  | ApplySecurity _ => SendApply (sys_id s) true
  end.

(** ** Fleet-wide actions *)

Inductive FleetAction := Agents | Updates | Security.
Definition action_request (a : FleetAction) : string * option bool :=
  match a with
  | Agents => ("/api/beszel-ext/agents/update-all"%string, None)
  | Updates => ("/api/beszel-ext/updates/apply-all"%string, Some false)
  | Security => ("/api/beszel-ext/updates/apply-all"%string, Some true)
  end.

Definition is_acted (r : string) : bool := starts_with r "updated" || starts_with r "running".
Definition is_skipped (r : string) : bool := String.eqb r "up to date" || String.eqb r "no updates".
Definition is_failed (r : string) : bool := starts_with r "error".

Definition acted (results : jsmap string) : list string :=
  fst <$> List.filter (λ p, is_acted p.2) results.
Definition skipped (results : jsmap string) : nat :=
  length (List.filter (λ p, is_skipped p.2) results).
Definition failed (results : jsmap string) : list string :=
  (λ p : string * string, p.1 +:+ " (" +:+ slice_from p.2 7 +:+ ")") <$>
    List.filter (λ p, is_failed p.2) results.

(** title and description of the report *)
Definition fleet_report (a : FleetAction) (results : jsmap string) : string * string :=
  (match a with Agents => "Agent updates pushed" | _ => "Package updates started" end,
   str_join " · " (List.filter truthy
     [(if (0 <? length (acted results))%nat then "Started: " +:+ str_join ", " (acted results) else "");
      (if (0 <? skipped results)%nat then "Nothing to do: " +:+ z_str (Z.of_nat (skipped results)) else "");
      (if (0 <? length (failed results))%nat then "Failed: " +:+ str_join "; " (failed results) else "")])).
(** only administrators have the button; a rejected request reports its message *)
Definition run (admin : bool) (a : FleetAction) (answer : string + option (jsmap string)) :
    option (string * string) :=
  if admin then
    Some (match answer with
          | inr results => fleet_report a (default [] results)
          | inl message => ("Fleet action failed"%string, message)
          end)
  else None.

(** ** Theorems: rows *)

Lemma filteredData_status `{Laws : MapStoreLaws} st status :
  reachable st → status ≠ Status_Pending →
  filteredData (OfStatus status) st ≡ₚ
    List.filter (λ s, bool_decide (sys_status s = status)) (filteredData All st).
Proof.
  intros Hr Hs. pose proof (reachable_inv _ Hr) as Hinv.
  assert (∀ w, status_of w = Some status →
    jvalues (stores st w) ≡ₚ List.filter (λ s, bool_decide (sys_status s = status)) (systems st)) as Hw.
  { intros w Hw. apply jvalues_filter_perm; [apply Hinv | apply Hinv |]. intros k v.
    rewrite (inv_mirrors _ Hinv w status k Hw I). unfold if_status.
    destruct (jget k (stores st ById)) as [x|]; [|by split; [|intros []]].
    rewrite bool_decide_eq_true. destruct (decide (sys_status x = status)) as [E|E]; split.
    - intros [= <-]. done.
    - intros [[= <-] _]. done.
    - done.
    - intros [[= <-] ?]. done. }
  by destruct status; apply Hw.
Qed.

(** Fact [filteredData_by_status]: in every state the systems manager can reach, the status filter up,
    down or paused lists exactly the systems with that status, each as often as it is in the full
    list, and the number beside the filter is the length of its list. *)
Theorem filteredData_by_status `{Laws : MapStoreLaws} st status :
  reachable st → status ≠ Status_Pending →
  filteredData (OfStatus status) st ≡ₚ
    List.filter (λ s, bool_decide (sys_status s = status)) (filteredData All st)
  ∧ counts st = (length (filteredData (OfStatus Status_Up) st),
                 length (filteredData (OfStatus Status_Down) st),
                 length (filteredData (OfStatus Status_Paused) st)).
Proof. intros Hr Hs. split; [by apply filteredData_status | done]. Qed.
Lemma filteredData_by_status_witness :
  filteredData (OfStatus Status_Up) ex_state ≡ₚ
    List.filter (λ s, bool_decide (sys_status s = Status_Up)) (filteredData All ex_state)
  ∧ filteredData (OfStatus Status_Up) ex_state = [ex_web].
Proof.
  split; [|by vm_compute].
  exact (proj1 (filteredData_by_status (Laws := reference_store_laws) ex_state Status_Up ex_reachable
    ltac:(done))).
Defined.

(** *** The name filter *)

(** what the filter means, without caches *)
Definition matches (input : string) (row : SystemRecord) : bool :=
  str_includes (str_lower (sys_name row)) (str_lower input) ||
  match statusTranslations (sys_status row) with
  | Some t => str_includes t (str_lower input)
  | None => false
  end.

Definition cache_ok (c : filter_cache) : Prop :=
  filterInputLower c = str_lower (filterInput c)
  ∧ ∀ k v, jget k (nameCache c) = Some v → v = str_lower k.

Lemma filterFn_ok input row c : cache_ok c →
  (filterFn input row c).1 = matches input row ∧ cache_ok (filterFn input row c).2.
Proof.
  intros [Hl Hn]. unfold filterFn.
  set (c' := if String.eqb input (filterInput c) then c else _).
  assert (filterInput c' = input ∧ cache_ok c') as [Hi [Hl' Hn']].
  { subst c'. destruct (String.eqb_spec input (filterInput c)) as [->|]; by repeat split. }
  clearbody c'. rewrite Hi in Hl'. unfold matches.
  destruct (jget (sys_name row) (nameCache c')) as [l|] eqn:E.
  - rewrite (Hn' _ _ E), Hl'. destruct (str_includes _ _); cbn; (split; [done|]); (split; [congruence | exact Hn']).
  - cbn [filterInputLower filterInput nameCache]. rewrite Hl'.
    assert (cache_ok {| filterInput := filterInput c'; filterInputLower := filterInputLower c';
      nameCache := jset (sys_name row) (str_lower (sys_name row)) (nameCache c') |}) as Hok.
    { split; cbn; [congruence|]. intros k v. rewrite jget_jset.
      destruct (String.eqb_spec (sys_name row) k) as [<-|]; [by intros [= <-] | apply Hn']. }
    rewrite Hl' in Hok. destruct (str_includes _ _); cbn; rewrite ?Hl'; split; done.
Qed.

Fixpoint filter_calls (calls : list (string * SystemRecord)) (c : filter_cache) : list bool :=
  match calls with
  | [] => []
  | (input, row) :: rest => let '(r, c) := filterFn input row c in r :: filter_calls rest c
  end.

(** C40: the caches of the name filter are invisible: through any sequence of
    inputs and rows it answers whether the name, or the translated status, contains the input,
    ignoring case. *)
Theorem filter_cache_transparent calls :
  filter_calls calls empty_cache = (λ c, matches c.1 c.2) <$> calls.
Proof.
  assert (cache_ok empty_cache) as Hok by by split. revert Hok.
  generalize empty_cache as c. induction calls as [|[input row] rest IH]; intros c Hok; [done|].
  cbn [filter_calls fmap list_fmap]. destruct (filterFn_ok input row c Hok) as [H1 H2].
  destruct (filterFn input row c) as [r c']. cbn in *. rewrite H1. f_equal. by apply IH.
Qed.

(** ** Theorems: cells, menu, fleet *)

Lemma MeterState_num_inj a b : MeterState_num a = MeterState_num b → a = b.
Proof. by destruct a, b. Qed.

(** Fact [disk_indicators]: the dots on the disk cell of an up system are the colours of the states that
    occur among its extra disks, each once and by increasing severity, so at most three; a system
    that is not up has none. *)
Theorem disk_indicators settings status efs :
  let colors := root_disk_colors settings status efs in
  (∀ c, c ∈ colors ↔
     status = Status_Up ∧ ∃ name pct, (name, pct) ∈ efs ∧ getIndicatorColor settings Status_Up pct = c)
  ∧ NoDup colors ∧ (length colors ≤ 3)%nat
  ∧ ∀ i j a b, colors !! i = Some a → colors !! j = Some b → (i < j)%nat →
      a = STATUS_COLORS Status_Up ∨ b = STATUS_COLORS Status_Down.
Proof.
  intros colors. subst colors. unfold root_disk_colors.
  destruct (decide (status = Status_Up)) as [->|Hs].
  2:{ split; [|split; [constructor|split; [cbn; lia | done]]].
      intros c. split; [by intros ?%elem_of_nil | by intros [? _]]. }
  set (f := λ s, match s with MeterState_Good => _ | MeterState_Warn => _ | MeterState_Crit => _ end).
  set (states := js_sort _ _).
  assert (states ≡ₚ remove_dups ((λ p : string * Q, getMeterState settings p.2) <$> efs)) as Hp
    by apply sort_perm.
  assert (NoDup states) as Hnd by (rewrite Hp; apply NoDup_remove_dups).
  assert (StronglySorted (λ a b, MeterState_num a ≤ MeterState_num b) states) as Hsort.
  { assert (StronglySorted (λ a b, (MeterState_num b <? MeterState_num a) = false) states) as H0.
    { apply sort_order; intros; rewrite ?Z.ltb_lt, ?Z.ltb_ge in *; lia. }
    clear -H0. induction H0 as [|x l Hl IH Hx]; constructor; [done|].
    eapply Forall_impl; [exact Hx|]. intros y Hy. by apply Z.ltb_ge in Hy. }
  assert (Inj (=) (=) f) as Hinj by (intros [] []; done).
  split; [|split; [by apply NoDup_fmap|split]].
  - intros c. rewrite list_elem_of_fmap. split.
    + intros (s & -> & Hin). split; [done|]. rewrite Hp, elem_of_remove_dups in Hin.
      apply list_elem_of_fmap in Hin as ([name pct] & -> & Hin). exists name, pct. split; [done|].
      unfold getIndicatorColor. cbn. by destruct (getMeterState settings pct).
    + intros (_ & name & pct & Hin & <-). exists (getMeterState settings pct). split.
      * unfold getIndicatorColor. cbn. by destruct (getMeterState settings pct).
      * rewrite Hp, elem_of_remove_dups. apply list_elem_of_fmap. by exists (name, pct).
  - rewrite length_fmap.
    assert (length states ≤ length [MeterState_Good; MeterState_Warn; MeterState_Crit])%nat as Hl; [|exact Hl].
    apply submseteq_length, NoDup_submseteq; [done|]. intros [] _; set_solver.
  - intros i j a b Ha Hb Hij. rewrite list_lookup_fmap in Ha, Hb.
    destruct (states !! i) as [s|] eqn:Es; [|done]. destruct (states !! j) as [t|] eqn:Et; [|done].
    cbn in Ha, Hb. injection Ha as <-. injection Hb as <-.
    assert (s ≠ t) as Hne by (intros <-; pose proof (NoDup_lookup _ _ _ _ Hnd Es Et); lia).
    assert (MeterState_num s ≤ MeterState_num t) as Hle.
    { revert i j Es Et Hij. clear -Hsort. induction Hsort as [|x l Hl IH Hx]; intros i j; [done|].
      destruct j as [|j]; [lia|]. destruct i as [|i]; cbn; intros Hi Hj Hij; [|apply (IH i j); auto with lia].
      injection Hi as ->. rewrite Forall_forall in Hx. by apply Hx, list_elem_of_lookup_2 with j. }
    destruct s, t; first [by left | by right | cbn in Hle; lia | congruence].
Qed.

Lemma disk_indicators_witness :
  root_disk_colors no_settings Status_Up [("a"%string, 95%Q); ("b"%string, 10%Q)] =
    ["bg-green-500"; "bg-red-500"]%string
  ∧ (length (root_disk_colors no_settings Status_Up [("a"%string, 95%Q); ("b"%string, 10%Q)]) ≤ 3)%nat.
Proof.
  split; [by vm_compute|].
  exact (proj1 (proj2 (proj2 (disk_indicators no_settings Status_Up [("a"%string, 95%Q); ("b"%string, 10%Q)])))).
Defined.

(** Fact [menu_permissions]: a read-only user's menu only copies; pausing and resuming are offered
    according to the status and undo each other; everything that talks to the agent is offered
    only while the system is up, and updates only when there are some. *)
Theorem menu_permissions readOnly s :
  (readOnly = true → menu readOnly s = [CopyName; CopyHost])
  ∧ (∀ x, x ∈ menu readOnly s →
       match choose s x with
       | SendAgentUpdate id => readOnly = false ∧ id = sys_id s ∧ sys_status s = Status_Up
       | SendApply id security =>
           readOnly = false ∧ id = sys_id s ∧ sys_status s = Status_Up
           ∧ (if security : bool then si_pus (sys_info s) else si_pu (sys_info s)) ≠ None
       | SetStatus id status =>
           readOnly = false ∧ id = sys_id s
           ∧ (status = Status_Paused ↔ sys_status s ≠ Status_Paused)
           ∧ (x = Resume ↔ sys_status s = Status_Paused)
       | OpenReboot => readOnly = false ∧ sys_status s = Status_Up
       | OpenEdit | OpenDelete => readOnly = false
       | Copy _ | NoEffect => True
       end).
Proof.
  assert (∀ n : option Z, truthy (default 0 n) = true → n ≠ None) as Hn by (by intros [n|]).
  split.
  - intros ->. unfold menu. by cbn.
  - intros x. unfold menu. cbv zeta. pose proof (Hn (si_pu (sys_info s))) as Hpu.
    pose proof (Hn (si_pus (sys_info s))) as Hpus. revert Hpu Hpus.
    destruct readOnly; cbn [negb orb app].
    { intros _ _ Hx. apply elem_of_cons in Hx as [->|Hx]; [done|].
      apply elem_of_cons in Hx as [->|Hx]; [done|]. by apply elem_of_nil in Hx. }
    unfold choose.
    destruct (decide (sys_status s = Status_Paused)) as [Hp|Hp], (bool_decide (sys_status s = Status_Up)) eqn:Hu;
      (apply bool_decide_eq_true in Hu || apply bool_decide_eq_false in Hu);
      cbn [negb orb app];
      destruct (truthy (default 0 (si_pu (sys_info s)))), (truthy (default 0 (si_pus (sys_info s))));
      cbn [negb orb app]; intros Hpu Hpus Hx;
      repeat (apply elem_of_cons in Hx as [->|Hx]; [repeat split; auto; try congruence|]);
      by apply elem_of_nil in Hx.
Qed.

(** the results the hub gives for a system *)
Inductive hub_result :=
| Updated | UpToDate | NoUpdates | Applying (status : string) (count : Z) | Error (message : string).
Definition render_result (r : hub_result) : string :=
  match r with
  | Updated => "updated" | UpToDate => "up to date" | NoUpdates => "no updates"
  | Applying status count => status +:+ " (" +:+ z_str count +:+ ")"
  | Error message => "error: " +:+ message
  end.
Definition install_statuses : list string := ["idle"; "running"; "done"; "failed"]%string.

(** Fact [fleet_report_groups]: each result the hub gives is counted in exactly one group of the report,
    with an error shown by its message, except the result of an installation that is idle, done
    or has failed, which is counted in none: a failed installation does not appear. *)
Theorem fleet_report_groups name r :
  (∀ status count, r = Applying status count → status ∈ install_statuses) →
  let s := [(name, render_result r)] in
  match r with
  | Updated => acted s = [name] ∧ skipped s = 0%nat ∧ failed s = []
  | UpToDate | NoUpdates => acted s = [] ∧ skipped s = 1%nat ∧ failed s = []
  | Error message => acted s = [] ∧ skipped s = 0%nat ∧ failed s = [name +:+ " (" +:+ message +:+ ")"]
  | Applying status _ =>
      acted s = (if String.eqb status "running" then [name] else []) ∧ skipped s = 0%nat ∧ failed s = []
  end.
Proof.
  intros Hs s. subst s.
  destruct r as [| | |status count|message]; try (by vm_compute).
  specialize (Hs status count eq_refl). unfold install_statuses in Hs.
  repeat (apply elem_of_cons in Hs as [->|Hs]; [by cbn|]). by apply elem_of_nil in Hs.
Qed.
Lemma fleet_report_groups_witness :
  "failed"%string ∈ install_statuses
  ∧ failed [("web"%string, render_result (Applying "failed" 3))] = [].
Proof.
  split; [by vm_compute; repeat constructor|].
  apply (fleet_report_groups "web" (Applying "failed" 3)). intros status count [= <- <-].
  vm_compute. repeat constructor.
Defined.
