(* ===== verification/QuietHours.v ===== *)
(** * Quiet hours: [components/routes/settings/quiet-hours.tsx]

    The list kept by the realtime subscription, the state of a window now, the dialog's fields
    and what it submits.  The rule by which the hub silences a notification
    ([internal/alerts/alerts.go]) is the specification of the state shown. *)
From Stdlib Require Import Ascii ZArith Lia.
From S2P Require Import Prelude JsValue JsDate Types Live.
Open Scope Z_scope.

(** [new Date(y, m, d, h, min)] of local fields, given as the time value that has those fields in
    UTC: an instant that shows them, where the local clock shows them at all *)
Class LocalDates `{LocalTime} := {
  from_local : Z → Z;
  from_local_shown : ∀ t, local_of (from_local (local_of t)) = local_of t }.

(** ** The list *)

Definition qh_event (action : action) (record : QuietHoursRecord) (current : list QuietHoursRecord) :
    list QuietHoursRecord :=
  match action with
  | Create => record :: current
  | Update => (λ r, if String.eqb (qh_id r) (qh_id record) then record else r) <$> current
  | Delete => List.filter (λ r, negb (String.eqb (qh_id r) (qh_id record))) current
  end.

(** the system's column: its name, its identifier, or all systems *)
Definition system_label (r : QuietHoursRecord) : string :=
  if truthy (qh_system r) then js_or (qh_system_name r) (qh_system r) else "All Systems".

(** ** The state of a window *)

Inductive window_state := Active | Past | Inactive.

Section State.
Context `{LocalTime}.

Definition minutes_of (hours minutes : Z) : Z := hours * 60 + minutes.
(** without an end the end is [NaN], which no comparison holds of *)
Definition getWindowState (now : Z) (r : QuietHoursRecord) : window_state :=
  match qh_type r with
  | Daily =>
      let currentMinutes := minutes_of (getHours now) (getMinutes now) in
      let startMinutes := minutes_of (getUTCHours (qh_start r)) (getUTCMinutes (qh_start r)) in
      let offset := tz_offset now in
      let localStartMinutes := (startMinutes - offset + 1440) mod 1440 in
      match qh_end r with
      | Some e =>
          let endMinutes := minutes_of (getUTCHours e) (getUTCMinutes e) in
          let localEndMinutes := (endMinutes - offset + 1440) mod 1440 in
          if localStartMinutes <=? localEndMinutes then
            if (localStartMinutes <=? currentMinutes) && (currentMinutes <? localEndMinutes)
            then Active else Inactive
          else
            if (localStartMinutes <=? currentMinutes) || (currentMinutes <? localEndMinutes)
            then Active else Inactive
      | None => if localStartMinutes <=? currentMinutes then Active else Inactive
      end
  | OneTime =>
      match qh_end r with
      | Some e => if (qh_start r <=? now) && (now <? e) then Active
                  else if e <=? now then Past else Inactive
      | None => Inactive
      end
  end.

(** the hours and minutes of a daily window as the list shows them *)
Definition shown_daily (r : QuietHoursRecord) : (Z * Z) * option (Z * Z) :=
  ((getHours (qh_start r), getMinutes (qh_start r)),
   (λ e, (getHours e, getMinutes e)) <$> qh_end r).
End State.

(** the hub's rule: a notification at [now] is silenced *)
Definition silenced_daily (startMinutes endMinutes nowMinutes : Z) : bool :=
  if endMinutes <? startMinutes
  then (startMinutes <=? nowMinutes) || (nowMinutes <? endMinutes)
  else (startMinutes <=? nowMinutes) && (nowMinutes <? endMinutes).
Definition hub_silenced (now : Z) (type : QuietHoursType) (start finish : Z) : bool :=
  match type with
  | Daily =>
      silenced_daily (minutes_of (getUTCHours start) (getUTCMinutes start))
        (minutes_of (getUTCHours finish) (getUTCMinutes finish))
        (minutes_of (getUTCHours now) (getUTCMinutes now))
  | OneTime => (start <=? now) && (now <? finish)
  end.

(** ** The dialog *)

Record dialog := {
  selectedSystem : string; isGlobal : bool; windowType : QuietHoursType;
  startDateTime : string; endDateTime : string; startTime : string; endTime : string }.

(** before the effect has run *)
Definition dialog_init (editing : option QuietHoursRecord) : dialog := {|
  selectedSystem := match editing with Some r => qh_system r | None => "" end;
  isGlobal := match editing with Some r => negb (truthy (qh_system r)) | None => true end;
  windowType := match editing with Some r => qh_type r | None => OneTime end;
  startDateTime := ""; endDateTime := ""; startTime := ""; endTime := "" |}.

Section Dialog.
Context `{LocalDates}.

Definition formatDateTimeLocal (date : Z) : string :=
  let year := z_str (getFullYear date) in
  let month := pad2 (getMonth date + 1) in
  let day := pad2 (getDate date) in
  let hours := pad2 (getHours date) in
  let minutes := pad2 (getMinutes date) in
  (year +:+ String "-" (month +:+ String "-" day)) +:+ String "T" (hours +:+ String ":" minutes).

(** [date.toTimeString().slice(0, 5)] *)
Definition time_text (date : Z) : string :=
  pad2 (getHours date) +:+ String ":" (pad2 (getMinutes date)).

(** midnight of the local day, as the time value that has those fields in UTC *)
Definition local_midnight (t : Z) : Z := local_of t - local_of t mod ms_per_day.

(** the effect that fills the fields *)
Definition dialog_effect (now : Z) (editing : option QuietHoursRecord) (d : dialog) : dialog :=
  match editing with
  | Some r =>
      match qh_type r with
      | Daily => {|
          selectedSystem := qh_system r; isGlobal := negb (truthy (qh_system r)); windowType := Daily;
          startDateTime := startDateTime d; endDateTime := endDateTime d;
          startTime := time_text (qh_start r);
          endTime := match qh_end r with Some e => time_text e | None => "" end |}
      | OneTime => {|
          selectedSystem := qh_system r; isGlobal := negb (truthy (qh_system r)); windowType := OneTime;
          startDateTime := formatDateTimeLocal (qh_start r);
          endDateTime := match qh_end r with Some e => formatDateTimeLocal e | None => "" end;
          startTime := startTime d; endTime := endTime d |}
      end
  | None => {|
      selectedSystem := ""; isGlobal := true; windowType := OneTime;
      startDateTime := formatDateTimeLocal (from_local (local_midnight now + 12 * 3600000));
      endDateTime := formatDateTimeLocal (from_local (local_midnight now + 13 * 3600000));
      startTime := "12:00"; endTime := "13:00" |}
  end.

(** *** [new Date(text)] of a local date and time of day: [None] is the invalid date *)

(** a number of exactly [n] digits below [bound] *)
Definition read_field (n : nat) (s : string) : option Z :=
  if Nat.eqb (String.length s) n then read_decimal s else None.
Definition read_time (s : string) : option Z :=
  match str_split ":" s with
  | [h; m] =>
      match read_field 2 h, read_field 2 m with
      | Some h, Some m => if (h <? 24) && (m <? 60) then Some (h * 3600000 + m * 60000) else None
      | _, _ => None
      end
  | _ => None
  end.
Definition read_date (s : string) : option Z :=
  match str_split "-" s with
  | [y; m; d] =>
      match read_field 4 y, read_field 2 m, read_field 2 d with
      | Some y, Some m, Some d =>
          if (1 <=? m) && (m <=? 12) && (1 <=? d) && (d <=? 31) then Some (days_of_civil y m d * ms_per_day)
          else None
      | _, _, _ => None
      end
  | _ => None
  end.
Definition local_value (date time : string) : option Z :=
  match read_date date, read_time time with Some d, Some t => Some (d + t) | _, _ => None end.
Definition parse_local (date time : string) : option Z := from_local <$> local_value date time.
(** the number a [datetime-local] field compares by *)
Definition datetime_value (s : string) : option Z :=
  match str_split "T" s with [date; time] => local_value date time | _ => None end.
Definition parse_datetime (s : string) : option Z := from_local <$> datetime_value s.

(** what is sent; the instants stand for their ISO texts *)
Record submission := {
  sub_system : option string; sub_type : QuietHoursType; sub_start : Z; sub_end : option Z }.

(** [None] is the exception of an invalid date, which a toast reports *)
Definition handleSubmit (d : dialog) : option submission :=
  let system := if isGlobal d then None else Some (selectedSystem d) in
  match windowType d with
  | Daily =>
      start ← parse_local "2000-01-01" (startTime d);
      finish ← (if truthy (endTime d) then Some <$> parse_local "2000-01-01" (endTime d) else Some None);
      Some {| sub_system := system; sub_type := Daily; sub_start := start; sub_end := finish |}
  | OneTime =>
      start ← parse_datetime (startDateTime d);
      finish ← (if truthy (endDateTime d) then Some <$> parse_datetime (endDateTime d) else Some None);
      Some {| sub_system := system; sub_type := OneTime; sub_start := start; sub_end := finish |}
  end.
End Dialog.

(** ** Lemmas and theorems: the state of a window *)

Section StateLemmas.
Context `{LocalTime}.

Lemma minutes_utc t : minutes_of (getUTCHours t) (getUTCMinutes t) = t / 60000 mod 1440.
Proof.
  unfold minutes_of, getUTCHours, getUTCMinutes, ms_per_day. Z.to_euclidean_division_equations. lia.
Qed.

Lemma minutes_local t : minutes_of (getHours t) (getMinutes t) = (t / 60000 - tz_offset t) mod 1440.
Proof.
  unfold getHours, getMinutes. rewrite minutes_utc. unfold local_of.
  replace (t - tz_offset t * 60000) with (t + (- tz_offset t) * 60000) by ring.
  rewrite Z.div_add by lia. f_equal.
Qed.

(** membership in a cyclic interval, and its invariance under a shift of the clock *)
Definition in_cycle (s e c : Z) : Prop := (c - s) mod 1440 < (e - s) mod 1440.

Lemma cycle_split s e c : 0 ≤ s < 1440 → 0 ≤ e < 1440 → 0 ≤ c < 1440 →
  in_cycle s e c ↔ if s <=? e then s ≤ c ∧ c < e else s ≤ c ∨ c < e.
Proof.
  intros Hs He Hc. unfold in_cycle. destruct (Z.leb_spec s e); Z.to_euclidean_division_equations; lia.
Qed.

Lemma cycle_shift s e c o :
  in_cycle ((s - o) mod 1440) ((e - o) mod 1440) ((c - o) mod 1440) ↔ in_cycle s e c.
Proof.
  unfold in_cycle. rewrite <-!Zminus_mod.
  by replace (c - o - (s - o)) with (c - s) by ring; replace (e - o - (s - o)) with (e - s) by ring.
Qed.

Lemma cycle_ext s e c s' e' c' :
  s mod 1440 = s' mod 1440 → e mod 1440 = e' mod 1440 → c mod 1440 = c' mod 1440 →
  in_cycle s e c ↔ in_cycle s' e' c'.
Proof.
  intros Hs He Hc. unfold in_cycle.
  by rewrite (Zminus_mod c s), (Zminus_mod e s), Hs, He, Hc, <-!Zminus_mod.
Qed.

Lemma silenced_cycle s e c : 0 ≤ s < 1440 → 0 ≤ e < 1440 → 0 ≤ c < 1440 →
  silenced_daily s e c = true ↔ in_cycle s e c.
Proof.
  intros Hs He Hc. rewrite cycle_split by done. unfold silenced_daily. rewrite Z.ltb_antisym.
  destruct (s <=? e); cbn [negb];
    rewrite ?andb_true_iff, ?orb_true_iff, ?Z.leb_le, ?Z.ltb_lt; tauto.
Qed.

Lemma local_minutes x o : (x mod 1440 - o + 1440) mod 1440 = (x mod 1440 - o) mod 1440.
Proof. by rewrite <-Zplus_mod_idemp_r, Z_mod_same_full, Z.add_0_r. Qed.

(** the state of a daily window, in minutes of UTC *)
Lemma daily_state now r e : qh_type r = Daily → qh_end r = Some e →
  (getWindowState now r = Active ↔
   in_cycle (qh_start r / 60000 mod 1440) (e / 60000 mod 1440) (now / 60000 mod 1440))
  ∧ getWindowState now r ≠ Past.
Proof.
  intros Ht He. unfold getWindowState. rewrite Ht, He. cbv zeta.
  rewrite minutes_local, !minutes_utc, !local_minutes, <-(Zminus_mod_idemp_l (now / 60000)).
  generalize (Z.mod_pos_bound (qh_start r / 60000) 1440 ltac:(lia)) as Hs.
  generalize (Z.mod_pos_bound (e / 60000) 1440 ltac:(lia)) as Hf.
  generalize (Z.mod_pos_bound (now / 60000) 1440 ltac:(lia)) as Hc.
  generalize (qh_start r / 60000 mod 1440), (e / 60000 mod 1440), (now / 60000 mod 1440).
  intros s f c Hc Hf Hs. rewrite <-(cycle_shift s f c (tz_offset now)).
  rewrite cycle_split by (apply Z.mod_pos_bound; lia).
  generalize ((s - tz_offset now) mod 1440), ((f - tz_offset now) mod 1440), ((c - tz_offset now) mod 1440).
  intros s' f' c'.
  destruct (s' <=? f'); (split; [|by destruct (_ && _) || destruct (_ || _)]).
  - destruct ((s' <=? c') && (c' <? f')) eqn:E.
    + apply andb_prop in E. rewrite Z.leb_le, Z.ltb_lt in E. tauto.
    + apply andb_false_iff in E. rewrite Z.leb_gt, Z.ltb_ge in E. split; [done | lia].
  - destruct ((s' <=? c') || (c' <? f')) eqn:E.
    + apply orb_prop in E. rewrite Z.leb_le, Z.ltb_lt in E. tauto.
    + apply orb_false_iff in E. rewrite Z.leb_gt, Z.ltb_ge in E. split; [done | lia].
Qed.

(** C16: in every time zone and at every moment the state shown for a window
    is active exactly when the hub would silence a notification: the local clock, the zone's
    offset and windows across midnight come out as the hub's comparison of UTC times of day. *)
Theorem window_state_matches_hub now r e : qh_end r = Some e →
  (getWindowState now r = Active ↔ hub_silenced now (qh_type r) (qh_start r) e = true)
  ∧ (getWindowState now r = Past → qh_type r = OneTime ∧ e ≤ now).
Proof.
  intros He. unfold hub_silenced. destruct (qh_type r) eqn:Ht.
  - unfold getWindowState. rewrite Ht, He. destruct ((qh_start r <=? now) && (now <? e)); [done|].
    destruct (Z.leb_spec e now); done.
  - destruct (daily_state now r e Ht He) as [Ha Hp]. rewrite !minutes_utc, silenced_cycle; [done |..];
      apply Z.mod_pos_bound; lia.
Qed.

(** Fact [daily_window_shifts_with_dst]: the times shown for a daily window are read with the zone's offset
    on the stored date, its state with the offset of today.  Where the two differ, as in summer
    for a window stored on a winter date, the window is active when the clock moved back by the
    difference is within the times shown, and not when the clock itself is. *)
Theorem daily_window_shifts_with_dst now r e :
  qh_type r = Daily → qh_end r = Some e → tz_offset e = tz_offset (qh_start r) →
  let shift := tz_offset (qh_start r) - tz_offset now in
  let s := minutes_of (shown_daily r).1.1 (shown_daily r).1.2 in
  let f := match (shown_daily r).2 with Some (h, m) => minutes_of h m | None => 0 end in
  getWindowState now r = Active ↔
    in_cycle s f (minutes_of (getHours now) (getMinutes now) - shift).
Proof.
  intros Ht He Ho. cbv zeta. unfold shown_daily. rewrite He. cbn [fst snd fmap option_fmap option_map].
  rewrite !minutes_local, Ho, (proj1 (daily_state now r e Ht He)).
  rewrite <-(cycle_shift _ _ _ (tz_offset (qh_start r))). apply cycle_ext.
  - by rewrite Zmod_mod, Zminus_mod_idemp_l, Zmod_mod.
  - by rewrite Zmod_mod, Zminus_mod_idemp_l, Zmod_mod.
  - rewrite Zmod_mod, !Zminus_mod_idemp_l. f_equal. lia.
Qed.
End StateLemmas.

(** two zones used in examples: UTC+2, and a zone whose clock moves forward in summer *)
Definition plus_two : LocalTime := fixed_zone (-120) ltac:(lia).
Definition ex_window (type : QuietHoursType) (start finish : Z) : QuietHoursRecord := {|
  qh_id := "q1"; qh_user := "u1"; qh_system := ""; qh_type := type; qh_start := start;
  qh_end := Some finish; qh_system_name := None |}.

Lemma window_state_matches_hub_witness :
  (* 23:30 to 00:30 UTC, looked at from UTC+2 at 00:10 UTC *)
  getWindowState (H := plus_two) 600000 (ex_window Daily 84600000 1800000) = Active.
Proof.
  apply (proj1 (window_state_matches_hub (H := plus_two) 600000 (ex_window Daily 84600000 1800000)
    1800000 eq_refl)).
  by vm_compute.
Defined.

(** UTC+1, with UTC+2 from the second day on *)
Definition summer_time : LocalTime.
Proof.
  refine {| tz_offset := λ t, if 86400000 <=? t then -120 else -60 |}.
  intros t. destruct (86400000 <=? t); lia.
Defined.

(** stored as 12:00 to 13:00 on the first day; on the second day 13:30 is inside, 12:30 is not *)
Lemma daily_window_shifts_with_dst_witness :
  let r := ex_window Daily 39600000 43200000 in
  shown_daily (H := summer_time) r = ((12, 0), Some (13, 0))
  ∧ getWindowState (H := summer_time) 127800000 r = Active
  ∧ getWindowState (H := summer_time) 124200000 r = Inactive.
Proof.
  intros r. split; [by vm_compute|]. split; [|by vm_compute].
  apply (daily_window_shifts_with_dst (H := summer_time) 127800000 r 43200000 eq_refl eq_refl eq_refl).
  by vm_compute.
Defined.

(** ** Lemmas and theorems: the dialog *)

Section DialogLemmas.
Context `{LocalDates}.

Lemma read_pad2 n : 0 ≤ n < 100 → read_field 2 (pad2 n) = Some n.
Proof. intros Hn. destruct (pad2_digits n Hn) as [Hd Hl]. unfold read_field. by rewrite Hl. Qed.
Lemma read_year n : 1000 ≤ n < 10000 → read_field 4 (z_str n) = Some n.
Proof. intros Hn. unfold read_field. rewrite year4_length by done. apply year_digits. lia. Qed.

Lemma read_time_text h m : 0 ≤ h < 24 → 0 ≤ m < 60 →
  read_time (pad2 h +:+ String ":" (pad2 m)) = Some (h * 3600000 + m * 60000).
Proof.
  intros Hh Hm. unfold read_time.
  rewrite str_split_app by (apply no_separator_split, colon_separator; apply pad2_no_separator; lia).
  rewrite (no_separator_split (pad2 m)) by (apply colon_separator || (apply pad2_no_separator; lia)).
  rewrite !read_pad2 by lia.
  by rewrite (proj2 (Z.ltb_lt h 24)), (proj2 (Z.ltb_lt m 60)) by lia.
Qed.

Lemma read_date_text y m d : 1000 ≤ y < 10000 → 1 ≤ m ≤ 12 → 1 ≤ d ≤ 31 →
  read_date (z_str y +:+ String "-" (pad2 m +:+ String "-" (pad2 d))) =
  Some (days_of_civil y m d * ms_per_day).
Proof.
  intros Hy Hm Hd. unfold read_date.
  rewrite (split_fields "-") by (apply dash_separator || (apply year_no_separator; lia) ||
                                 (apply pad2_no_separator; lia)).
  rewrite read_year, !read_pad2 by lia.
  rewrite !(proj2 (Z.leb_le _ _)) by lia. done.
Qed.

Lemma local_minute t : t mod 60000 = 0 → getUTCSeconds (local_of t) = 0 ∧ local_of t / 1000 * 1000 = local_of t.
Proof.
  intros Ht. unfold getUTCSeconds, local_of. revert Ht. generalize (tz_offset t). intros o Ht.
  split; Z.to_euclidean_division_equations; lia.
Qed.

Lemma formatDateTimeLocal_value t : 1000 ≤ getFullYear t < 10000 → t mod 60000 = 0 →
  datetime_value (formatDateTimeLocal t) = Some (local_of t).
Proof.
  intros Hy Ht. unfold getFullYear in Hy. unfold datetime_value, formatDateTimeLocal.
  unfold getFullYear, getMonth, getDate, getHours, getMinutes. cbv zeta.
  destruct (utc_field_bounds (local_of t)) as (Hh & Hm & _ & Hmo & Hd).
  destruct (local_minute t Ht) as [Hs0 Hs]. pose proof (utc_fields_value (local_of t)) as Hv.
  revert Hy Hh Hm Hmo Hd Hs0 Hs Hv. generalize (local_of t). intros l Hy Hh Hm Hmo Hd Hs0 Hs Hv.
  assert (∀ n, 0 ≤ n < 100 → no_separator (pad2 n) = true) as Np by (intros; by apply pad2_no_separator).
  assert (no_separator (z_str (getUTCFullYear l)) = true) as Ny by (apply year_no_separator; lia).
  rewrite str_split_app by (apply fields_no; [apply T_separator | exact Ny | apply Np; lia | apply Np; lia | done]).
  rewrite (str_split_plain "T" (pad2 (getUTCHours l))) by
    (done || (apply no_separator_split, T_separator; apply Np; lia)).
  unfold local_value. rewrite read_date_text, read_time_text by lia.
  rewrite Hs0 in Hv. revert Hs Hv. unfold ms_per_day.
  generalize (days_of_civil (getUTCFullYear l) (getUTCMonth l + 1) (getUTCDate l)),
    (getUTCHours l), (getUTCMinutes l), (l / 1000).
  intros days h m q Hs Hv. f_equal. lia.
Qed.
Lemma parse_formatDateTimeLocal t : 1000 ≤ getFullYear t < 10000 → t mod 60000 = 0 →
  parse_datetime (formatDateTimeLocal t) = Some (from_local (local_of t)).
Proof. intros. unfold parse_datetime. by rewrite formatDateTimeLocal_value. Qed.

(** C31: opening a one-time window for editing and submitting it unchanged sends the same
    system and type, and instants that show the same local times; opening a daily window does the
    same for its times of day, provided the clock of 2000-01-01 has them. *)
Theorem edit_roundtrip now r e d :
  qh_end r = Some e → qh_start r mod 60000 = 0 → e mod 60000 = 0 →
  1000 ≤ getFullYear (qh_start r) < 10000 → 1000 ≤ getFullYear e < 10000 →
  (∀ h m, 0 ≤ h < 24 → 0 ≤ m < 60 → ∃ t,
     local_of t = days_of_civil 2000 1 1 * ms_per_day + (h * 3600000 + m * 60000)) →
  ∃ s f, handleSubmit (dialog_effect now (Some r) d) =
    Some {| sub_system := if truthy (qh_system r) then Some (qh_system r) else None;
            sub_type := qh_type r; sub_start := s; sub_end := Some f |}
  ∧ (if decide (qh_type r = OneTime) then local_of s = local_of (qh_start r) ∧ local_of f = local_of e
     else time_text s = time_text (qh_start r) ∧ time_text f = time_text e).
Proof.
  intros He Hs Hf Hys Hye Hclock. unfold dialog_effect. rewrite He.
  destruct (qh_type r) eqn:Ht; unfold handleSubmit; cbn [windowType isGlobal selectedSystem startDateTime
    endDateTime startTime endTime].
  - rewrite !parse_formatDateTimeLocal by done.
    assert (truthy (formatDateTimeLocal e) = true) as ->.
    { unfold truthy, truthy_string. apply negb_true_iff, String.eqb_neq. unfold formatDateTimeLocal.
      by destruct (z_str (getFullYear e)). }
    cbn [mbind option_bind fmap option_fmap option_map]. eexists _, _.
    split; [by destruct (truthy (qh_system r)) | split; apply from_local_shown].
  - assert (∀ t, parse_local "2000-01-01" (time_text t) =
      Some (from_local (days_of_civil 2000 1 1 * ms_per_day + (getHours t * 3600000 + getMinutes t * 60000)))
      ∧ time_text (from_local (days_of_civil 2000 1 1 * ms_per_day +
                    (getHours t * 3600000 + getMinutes t * 60000))) = time_text t) as Htime.
    { intros t. destruct (utc_field_bounds (local_of t)) as (Hh & Hm & _). split.
      - unfold parse_local, local_value, time_text. by rewrite read_time_text by done.
      - destruct (Hclock (getHours t) (getMinutes t) Hh Hm) as (x & Hx). rewrite <-Hx.
        unfold time_text, getHours, getMinutes. rewrite from_local_shown, Hx.
        fold (getHours t) (getMinutes t). unfold getHours in *. unfold getMinutes in *.
        revert Hh Hm. generalize (getUTCHours (local_of t)), (getUTCMinutes (local_of t)). intros h m Hh Hm.
        change (days_of_civil 2000 1 1) with 10957. unfold getUTCHours, getUTCMinutes, ms_per_day.
        do 2 f_equal; [|f_equal]; f_equal; Z.to_euclidean_division_equations; lia. }
    rewrite !(λ t, proj1 (Htime t)).
    assert (truthy (time_text e) = true) as ->.
    { unfold truthy, truthy_string. apply negb_true_iff, String.eqb_neq. unfold time_text.
      by destruct (pad2 (getHours e)). }
    cbn [mbind option_bind fmap option_fmap option_map]. eexists _, _.
    split; [by destruct (truthy (qh_system r)) | by split; apply Htime].
Qed.
End DialogLemmas.

Definition plus_two_dates : @LocalDates plus_two.
Proof.
  refine {| from_local := λ l, l + -120 * 60000 |}. intros t. unfold local_of. cbn. ring.
Defined.

(** 2026-01-01, 12:00 to 13:00 UTC *)
Definition ex_one_time : QuietHoursRecord := ex_window OneTime 1767268800000 1767272400000.
Definition ex_dialog (now : Z) : dialog :=
  dialog_effect (H := plus_two) (H0 := plus_two_dates) now (Some ex_one_time) (dialog_init None).
Lemma edit_roundtrip_witness :
  startDateTime (ex_dialog 0) = "2026-01-01T14:00"%string
  ∧ ∃ s f, handleSubmit (H := plus_two) (H0 := plus_two_dates) (ex_dialog 0) =
      Some {| sub_system := None; sub_type := OneTime; sub_start := s; sub_end := Some f |}
    ∧ local_of (H := plus_two) s = local_of (H := plus_two) 1767268800000.
Proof.
  split; [by vm_compute|].
  destruct (edit_roundtrip (H := plus_two) (H0 := plus_two_dates) 0 ex_one_time 1767272400000
    (dialog_init None) eq_refl eq_refl eq_refl) as (s & f & Hs & Hl & _).
  - vm_compute. split; congruence.
  - vm_compute. split; congruence.
  - intros h m _ _. exists (days_of_civil 2000 1 1 * ms_per_day + (h * 3600000 + m * 60000) + -120 * 60000).
    unfold local_of. cbn [tz_offset plus_two fixed_zone]. ring.
  - exists s, f. by split.
Defined.

(** ** Theorems: the list *)

#[export] Instance quiet_hours_table : LiveTable QuietHoursRecord := {|
  live_key := qh_id; live_scope := λ _, true; live_event := qh_event |}.

#[export] Instance quiet_hours_laws : LiveTableLaws QuietHoursRecord.
Proof.
  intros a r l m Hs Hp.
  assert (record_of (live_key r) l = jget (live_key r) m) as Hr
    by (rewrite (proj2 Hs); by destruct (jget _ m)).
  destruct a; cbn [live_event quiet_hours_table qh_event server_event possible] in *.
  - refine (shows_prepend r l m Hs _ eq_refl). by rewrite Hr.
  - refine (shows_replace r l m Hs _ eq_refl). by rewrite Hr.
  - refine (shows_remove r l m _ Hs _ _); [by rewrite jget_jdel_eq |]. intros. by apply jget_jdel_ne.
Qed.

(** Fact [quiet_hours_mirror]: a list that shows the server's windows, each once, still does after every
    sequence of realtime messages of things that can happen on the server. *)
Theorem quiet_hours_mirror (events : list (action * QuietHoursRecord)) l m :
  shows l m → history events m →
  shows (foldl (λ l e, qh_event e.1 e.2 l) l events) (server_run events m).
Proof. exact (live_history events l m). Qed.
Lemma quiet_hours_mirror_witness :
  shows (foldl (λ l e, qh_event e.1 e.2 l) [] [(Create, ex_one_time); (Update, ex_one_time)])
        (server_run [(Create, ex_one_time); (Update, ex_one_time)] []).
Proof.
  apply (quiet_hours_mirror [(Create, ex_one_time); (Update, ex_one_time)] [] []).
  - split; [constructor | done].
  - cbn. done.
Defined.
