(* ===== verification/QuickLinks.v ===== *)
(** * Quick links and external links: [components/quick-links.tsx], [external-links.tsx] and
    [routes/settings/general.tsx]

    Grouping by category, adding, editing, removing and moving quick links, and the manager of
    external links.  An operation gives the list that is handed to the saver, or nothing when
    nothing is saved. *)
From Stdlib Require Import Ascii ZArith Lia Sorting.Permutation.
From S2P Require Import Prelude JsValue Types.
Open Scope Z_scope.

(** ** Groups *)

Definition category_of (link : QuickLink) : string := js_or (ql_category link) "Uncategorized"%string.

Definition group_step (m : jsmap (list QuickLink)) (link : QuickLink) : jsmap (list QuickLink) :=
  let cat := category_of link in
  let m := if jhas cat m then m else jset cat [] m in
  jset cat (default [] (jget cat m) ++ [link]) m.
Definition grouped (quickLinks : list QuickLink) : jsmap (list QuickLink) :=
  foldl group_step [] quickLinks.

(** the distinct non-empty categories, sorted *)
Definition string_set (l : list string) : list string :=
  foldl (λ s x, if bool_decide (x ∈ s) then s else s ++ [x]) [] l.
Definition existingCategories (categories : list (option string)) : list string :=
  js_sort (λ a b, String.ltb b a) (string_set (omap (λ c, js_or_undef c) categories)).

(** ** Operations on quick links *)

Definition addNewLink (uuid name localUrl domainUrl category : string) (quickLinks : list QuickLink) :
    option (list QuickLink) :=
  if truthy (str_trim name) then
    Some (quickLinks ++ [{| ql_id := uuid; ql_name := str_trim name; ql_localUrl := localUrl;
                            ql_domainUrl := domainUrl; ql_category := Some category |}])
  else None.

(** the fields of the edit dialog *)
Record edit_form := {
  editName : string; editLocalUrl : string; editDomainUrl : string; editCategory : string }.
Definition openEditDialog (link : QuickLink) : edit_form := {|
  editName := ql_name link; editLocalUrl := ql_localUrl link; editDomainUrl := ql_domainUrl link;
  editCategory := js_or (ql_category link) ""%string |}.
Definition saveEdit (editingLink : option QuickLink) (f : edit_form) (quickLinks : list QuickLink) :
    option (list QuickLink) :=
  match editingLink with
  | None => None
  | Some e =>
      Some ((λ l, if String.eqb (ql_id l) (ql_id e)
                  then {| ql_id := ql_id l; ql_name := editName f; ql_localUrl := editLocalUrl f;
                          ql_domainUrl := editDomainUrl f; ql_category := Some (editCategory f) |}
                  else l) <$> quickLinks)
  end.

Definition removeLink (id : string) (quickLinks : list QuickLink) : list QuickLink :=
  List.filter (λ l, negb (String.eqb (ql_id l) id)) quickLinks.

(** *** Moving *)

Inductive direction := Left | Right.

Definition same_category (l : list QuickLink) (category : string) (i : nat) : bool :=
  match l !! i with Some x => String.eqb (category_of x) category | None => false end.
(** [for (let i = idx - 1; i >= 0; i--)], from [n = i + 1] *)
Fixpoint search_down (l : list QuickLink) (category : string) (n : nat) : option nat :=
  match n with
  | O => None
  | S i => if same_category l category i then Some i else search_down l category i
  end.
(** [for (let i = idx + 1; i < length; i++)]: [fuel] is the number of turns left *)
Fixpoint search_up (l : list QuickLink) (category : string) (i fuel : nat) : option nat :=
  match fuel with
  | O => None
  | S fuel => if same_category l category i then Some i else search_up l category (S i) fuel
  end.

Fixpoint index_by_id (id : string) (l : list QuickLink) : option nat :=
  match l with
  | [] => None
  | x :: l => if String.eqb (ql_id x) id then Some 0%nat else S <$> index_by_id id l
  end.

(** [splice(idx, 1)] and [splice(target, 0, item)] *)
Definition splice_out {A} (i : nat) (l : list A) : list A := take i l ++ drop (S i) l.
Definition splice_in {A} (i : nat) (x : A) (l : list A) : list A := take i l ++ x :: drop i l.

Definition moveLink (id : string) (dir : direction) (quickLinks : list QuickLink) :
    option (list QuickLink) :=
  match index_by_id id quickLinks with
  | None => None
  | Some idx =>
      match quickLinks !! idx with
      | None => None
      | Some item =>
          let category := category_of item in
          match (match dir with
                 | Left => search_down quickLinks category idx
                 | Right => search_up quickLinks category (S idx) (length quickLinks - S idx)
                 end) with
          | None => None
          | Some targetIdx => Some (splice_in targetIdx item (splice_out idx quickLinks))
          end
      end
  end.

(** which arrows a card shows, for the place of the link in its group *)
Definition arrows (idx : nat) (links : list QuickLink) : bool * bool :=
  ((0 <? idx)%nat, (idx <? length links - 1)%nat).

(** the dot of a link that carries the identifier of a system *)
Definition link_status_color (status : option string) : option string :=
  match status with
  | None => None
  | Some s =>
      if truthy s then
        Some (if String.eqb s "up" then "bg-green-500" else if String.eqb s "down" then "bg-red-500"
              else if String.eqb s "paused" then "bg-primary/40"
              else if String.eqb s "pending" then "bg-yellow-500" else "bg-primary/40")%string
      else None
  end.

(** ** External links *)

Definition icon_names : list string :=
  ["globe"; "link"; "star"; "home"; "server"; "database"; "cloud"; "shield"; "monitor"; "mail"; "file";
   "folder"; "camera"; "music"; "video"; "settings"; "terminal"; "wifi"; "lock"; "book"].
(** [ICON_MAP[link.icon] || GlobeIcon] *)
Definition icon_of (link : ExternalLink) : string :=
  if bool_decide (el_icon link ∈ icon_names) then el_icon link else "globe"%string.

Record external_form := {
  formLabel : string; formUrl : string; formIcon : string; formCategory : string }.
Definition openAdd : external_form :=
  {| formLabel := ""; formUrl := ""; formIcon := "globe"; formCategory := "" |}.
Definition openEdit (link : ExternalLink) : external_form := {|
  formLabel := el_label link; formUrl := el_url link;
  formIcon := if truthy (el_icon link) then el_icon link else "globe";
  formCategory := js_or (el_category link) ""%string |}.
Definition form_complete (f : external_form) : bool :=
  truthy (str_trim (formLabel f)) && truthy (str_trim (formUrl f)).
Definition external_of (id : string) (f : external_form) : ExternalLink := {|
  el_id := id; el_label := str_trim (formLabel f); el_url := str_trim (formUrl f);
  el_icon := formIcon f; el_category := Some (formCategory f) |}.
Definition handleAdd (uuid : string) (f : external_form) (links : list ExternalLink) :
    option (list ExternalLink) :=
  if form_complete f then Some (links ++ [external_of uuid f]) else None.
Definition handleSaveEdit (editLink : option ExternalLink) (f : external_form)
    (links : list ExternalLink) : option (list ExternalLink) :=
  match editLink with
  | Some e =>
      if form_complete f then
        Some ((λ l, if String.eqb (el_id l) (el_id e) then external_of (el_id l) f else l) <$> links)
      else None
  | None => None
  end.
Definition handleRemove (id : string) (links : list ExternalLink) : list ExternalLink :=
  List.filter (λ l, negb (String.eqb (el_id l) id)) links.

(** ** Lemmas and theorems: groups *)

Definition in_category (cat : string) (l : QuickLink) : bool := String.eqb (category_of l) cat.

Lemma group_step_get m link cat :
  jget cat (group_step m link) =
  if in_category cat link then Some (default [] (jget cat m) ++ [link]) else jget cat m.
Proof.
  unfold group_step, in_category. cbv zeta. rewrite jget_jset.
  destruct (String.eqb_spec (category_of link) cat) as [<-|Hne].
  - unfold jhas. destruct (jget (category_of link) m) eqn:E; [by rewrite E|].
    by rewrite jget_jset_eq.
  - destruct (jhas (category_of link) m); [done|]. by rewrite jget_jset_ne.
Qed.

Lemma group_step_wf m link : jwf m → jwf (group_step m link).
Proof.
  intros Hm. unfold group_step. cbv zeta. apply jwf_jset. destruct (jhas _ m); [done|]. by apply jwf_jset.
Qed.

Lemma grouped_get links cat :
  jget cat (grouped links) =
  match List.filter (in_category cat) links with [] => None | l => Some l end.
Proof.
  unfold grouped. induction links as [|x links IH] using rev_ind; [done|].
  rewrite foldl_app, List.filter_app. cbn [foldl List.filter]. rewrite group_step_get, IH.
  destruct (in_category cat x); [|by rewrite app_nil_r].
  by destruct (List.filter (in_category cat) links).
Qed.

Lemma grouped_wf links : jwf (grouped links).
Proof.
  unfold grouped. induction links as [|x links IH] using rev_ind; [constructor|].
  rewrite foldl_app. by apply group_step_wf.
Qed.

(** Fact [grouped_partition]: the groups are a partition of the links: every category that occurs has one
    group, which holds its links in their order, and together the groups hold each link as often
    as the list does. *)
Theorem grouped_partition links :
  jwf (grouped links)
  ∧ (∀ cat l, jget cat (grouped links) = Some l ↔
       l = List.filter (in_category cat) links ∧ l ≠ [])
  ∧ concat (jvalues (grouped links)) ≡ₚ links.
Proof.
  split; [apply grouped_wf|]. split.
  - intros cat l. rewrite grouped_get. destruct (List.filter (in_category cat) links) as [|x f].
    + split; [done | by intros [-> ?]].
    + split; [by intros [= <-] | by intros [-> _]].
  - unfold grouped. induction links as [|x links IH] using rev_ind; [done|].
    rewrite foldl_app. cbn [foldl]. fold (grouped links) in *.
    assert (∀ m, concat (jvalues (group_step m x)) ≡ₚ concat (jvalues m) ++ [x]) as Hstep.
    { intros m. unfold group_step, jhas. cbv zeta.
      assert (∀ m, jget (category_of x) m = None →
        concat (jvalues (jset (category_of x) [x] m)) ≡ₚ concat (jvalues m) ++ [x]) as Hnew.
      { clear. induction m as [|[k v] m IH]; cbn; [done|].
        destruct (String.eqb (category_of x) k); [done|]. intros Hm. cbn. by rewrite IH, app_assoc. }
      assert (∀ m l, jget (category_of x) m = Some l →
        concat (jvalues (jset (category_of x) (l ++ [x]) m)) ≡ₚ concat (jvalues m) ++ [x]) as Hold.
      { clear. induction m as [|[k v] m IH]; cbn [jget jset]; [done|]. intros l.
        destruct (String.eqb (category_of x) k); intros Hm; unfold jvalues; cbn [fmap list_fmap snd concat].
        - injection Hm as ->. rewrite <-!app_assoc. f_equiv. apply Permutation_app_comm.
        - specialize (IH l Hm). unfold jvalues in IH. by rewrite IH, app_assoc. }
      destruct (jget (category_of x) m) as [l|] eqn:E; [rewrite E; by apply Hold|].
      rewrite jget_jset_eq. cbn [default from_option id app].
      assert (∀ v w (m : jsmap (list QuickLink)), jset (category_of x) v (jset (category_of x) w m) =
        jset (category_of x) v m) as ->; [|by apply Hnew].
      clear. induction m as [|[k u] m IH]; cbn; [by rewrite String.eqb_refl|].
      destruct (String.eqb (category_of x) k) eqn:E; cbn; rewrite E; [done | by rewrite IH]. }
    by rewrite Hstep, IH.
Qed.

(** ** Lemmas and theorems: moving *)

Lemma index_by_id_spec id l i : index_by_id id l = Some i →
  ∃ A x B, l = A ++ x :: B ∧ length A = i ∧ ql_id x = id ∧ id ∉ ql_id <$> A.
Proof.
  revert i. induction l as [|x l IH]; intros i; [done|]. cbn [index_by_id].
  destruct (String.eqb_spec (ql_id x) id) as [E|E].
  - intros [= <-]. exists [], x, l. repeat split; [done | apply not_elem_of_nil].
  - destruct (index_by_id id l) as [j|]; [|done]. intros [= <-].
    destruct (IH j eq_refl) as (A & y & B & -> & Hl & Hy & Hn). exists (x :: A), y, B.
    repeat split; [cbn; by rewrite Hl | done |]. rewrite fmap_cons. apply not_elem_of_cons. by split.
Qed.

Lemma index_by_id_None id l : index_by_id id l = None → id ∉ ql_id <$> l.
Proof.
  induction l as [|x l IH]; [intros _; apply not_elem_of_nil|]. cbn [index_by_id].
  destruct (String.eqb_spec (ql_id x) id) as [E|E]; [done|].
  destruct (index_by_id id l); [done|]. intros _. rewrite fmap_cons. apply not_elem_of_cons.
  split; [congruence | by apply IH].
Qed.

Lemma search_up_spec l cat i fuel : (length l ≤ i + fuel)%nat →
  match search_up l cat i fuel with
  | Some t => ∃ M y B, drop i l = M ++ y :: B ∧ t = (i + length M)%nat ∧ in_category cat y = true
                       ∧ List.filter (in_category cat) M = []
  | None => List.filter (in_category cat) (drop i l) = []
  end.
Proof.
  revert i. induction fuel as [|fuel IH]; intros i Hi; cbn [search_up].
  { by rewrite drop_ge by lia. }
  unfold same_category. destruct (l !! i) as [x|] eqn:Ex.
  - pose proof (drop_S _ _ _ Ex) as Hd. fold (in_category cat x).
    destruct (in_category cat x) eqn:Ec.
    + exists [], x, (drop (S i) l). repeat split; [done | cbn; lia | done].
    + specialize (IH (S i) ltac:(lia)). destruct (search_up l cat (S i) fuel) as [t|].
      * destruct IH as (M & y & B & HM & -> & Hy & Hf). exists (x :: M), y, B.
        rewrite Hd, HM. cbn. rewrite Ec. repeat split; [lia | done | done].
      * rewrite Hd. cbn. by rewrite Ec.
  - apply lookup_ge_None in Ex. specialize (IH (S i) ltac:(lia)).
    rewrite (drop_ge l (S i)) in IH by lia. rewrite (drop_ge l i) by lia.
    destruct (search_up l cat (S i) fuel) as [t|]; [|done].
    destruct IH as (M & y & B & HM & _). by destruct M.
Qed.

Lemma search_down_spec l cat n : (n ≤ length l)%nat →
  match search_down l cat n with
  | Some t => ∃ A y M, take n l = A ++ y :: M ∧ t = length A ∧ in_category cat y = true
                       ∧ List.filter (in_category cat) M = []
  | None => List.filter (in_category cat) (take n l) = []
  end.
Proof.
  induction n as [|n IH]; intros Hn; [done|]. cbn [search_down]. unfold same_category.
  destruct (lookup_lt_is_Some_2 l n) as [x Ex]; [lia|]. rewrite Ex, (take_S_r _ _ _ Ex).
  fold (in_category cat x). destruct (in_category cat x) eqn:Ec.
  - exists (take n l), x, []. repeat split; [rewrite length_take; lia | done].
  - specialize (IH ltac:(lia)). destruct (search_down l cat n) as [t|].
    + destruct IH as (A & y & M & -> & -> & Hy & Hf). exists A, y, (M ++ [x]).
      rewrite List.filter_app, Hf. cbn. rewrite Ec. repeat split; [|done]. by rewrite <-app_assoc.
    + rewrite List.filter_app, IH. cbn. by rewrite Ec.
Qed.

Lemma splice_right {A} (l1 : list A) x M y B :
  splice_in (S (length l1) + length M) x (splice_out (length l1) (l1 ++ x :: M ++ y :: B)) =
  l1 ++ M ++ y :: x :: B.
Proof.
  assert (splice_out (length l1) (l1 ++ x :: M ++ y :: B) = (l1 ++ M ++ [y]) ++ B) as ->.
  { unfold splice_out. rewrite take_app_length, drop_app_ge by lia.
    replace (S (length l1) - length l1)%nat with 1%nat by lia. cbn [drop].
    by rewrite <-!app_assoc. }
  replace (S (length l1) + length M)%nat with (length (l1 ++ M ++ [y]))
    by (rewrite !length_app; cbn; lia).
  unfold splice_in. by rewrite take_app_length, drop_app_length, <-!app_assoc.
Qed.

Lemma splice_left {A} (l1 : list A) x M y B :
  splice_in (length l1) x (splice_out (length (l1 ++ y :: M)) ((l1 ++ y :: M) ++ x :: B)) =
  l1 ++ x :: y :: M ++ B.
Proof.
  unfold splice_out, splice_in. rewrite take_app_length, drop_app_ge by lia.
  replace (S (length (l1 ++ y :: M)) - length (l1 ++ y :: M))%nat with 1%nat by lia. cbn [drop].
  by rewrite <-app_assoc, take_app_length, drop_app_length.
Qed.

(** the link next to [x] in the direction [dir], for a group written around [x] *)
Definition swapped (dir : direction) (before after : list QuickLink) (x : QuickLink) :
    option (list QuickLink) :=
  match dir with
  | Left => match last before with
            | Some y => Some (removelast before ++ x :: y :: after) | None => None end
  | Right => match after with y :: after => Some (before ++ y :: x :: after) | [] => None end
  end.

(** Fact [moveLink_spec]: moving a link changes places with its neighbour in its own group and nothing
    else: the links stay the same, every other group keeps its order, and in the link's group
    it has moved by one; at the end of its group, or for an unknown link, nothing is saved. *)
Theorem moveLink_spec id dir links :
  match index_by_id id links with
  | None => moveLink id dir links = None ∧ id ∉ ql_id <$> links
  | Some i =>
      ∃ A x B, links = A ++ x :: B ∧ length A = i ∧ ql_id x = id ∧
      let cat := category_of x in
      let group := List.filter (in_category cat) in
      match moveLink id dir links with
      | Some l' => l' ≡ₚ links ∧ swapped dir (group A) (group B) x = Some (group l')
                   ∧ ∀ c, c ≠ cat → List.filter (in_category c) l' = List.filter (in_category c) links
      | None => swapped dir (group A) (group B) x = None
      end
  end.
Proof.
  destruct (index_by_id id links) as [i|] eqn:Ei.
  2:{ unfold moveLink. rewrite Ei. split; [done | by apply index_by_id_None]. }
  destruct (index_by_id_spec _ _ _ Ei) as (A & x & B & Hl & Hi & Hx & _).
  exists A, x, B. do 3 (split; [done|]). intros cat group.
  assert (in_category cat x = true) as Hxc by apply String.eqb_refl.
  assert (∀ c, c ≠ cat → ∀ y, in_category cat y = true → in_category c y = false) as Hother.
  { unfold in_category. intros c Hc y Hy. apply String.eqb_eq in Hy. apply String.eqb_neq. congruence. }
  unfold moveLink. rewrite Ei. replace (links !! i) with (Some x) by (by rewrite Hl, <-Hi, list_lookup_middle).
  cbv zeta. fold cat. destruct dir.
  - pose proof (search_down_spec links cat i) as Hs.
    assert (take i links = A) as Ht by (by rewrite Hl, <-Hi, take_app_length). rewrite Ht in Hs.
    destruct (search_down links cat i) as [t|].
    + destruct Hs as (A' & y & M & HA & -> & Hy & Hf); [rewrite Hl, length_app; lia|].
      rewrite Hl, <-Hi, HA, splice_left. unfold group. split; [|split].
      * rewrite <-app_assoc. cbn. f_equiv. rewrite <-(Permutation_middle M B x). apply perm_swap.
      * cbn. rewrite !List.filter_app. cbn. rewrite Hxc, Hy, Hf, last_snoc. cbn.
        by rewrite removelast_last, List.filter_app, Hf.
      * intros c Hc. rewrite <-app_assoc, !List.filter_app. cbn.
        by rewrite (Hother c Hc x Hxc), (Hother c Hc y Hy), List.filter_app.
    + cbn. unfold group. by rewrite Hs by (rewrite Hl, length_app; lia).
  - pose proof (search_up_spec links cat (S i) (length links - S i)) as Hs.
    assert (drop (S i) links = B) as Ht.
    { rewrite Hl, <-Hi, drop_app_ge by lia. by replace (S (length A) - length A)%nat with 1%nat by lia. }
    rewrite Ht in Hs. destruct (search_up links cat (S i) (length links - S i)) as [t|].
    + destruct Hs as (M & y & B' & HB & -> & Hy & Hf); [lia|].
      rewrite Hl, <-Hi, HB, splice_right. unfold group. split; [|split].
      * f_equiv. rewrite (Permutation_middle M (y :: B') x). f_equiv. apply perm_swap.
      * cbn. rewrite !List.filter_app. cbn. by rewrite Hy, Hxc, Hf.
      * intros c Hc. rewrite !List.filter_app. cbn. rewrite List.filter_app. cbn.
        by rewrite (Hother c Hc x Hxc), (Hother c Hc y Hy).
    + cbn. unfold group. by rewrite Hs by lia.
Qed.

(** the groups are shown in the order of their first links, so a move within one group can change
    the order of the groups *)
Definition ex_quick (id cat : string) : QuickLink := {|
  ql_id := id; ql_name := id; ql_localUrl := ""; ql_domainUrl := ""; ql_category := Some cat |}.
Example moving_reorders_groups :
  let links := [ex_quick "a1" "A"; ex_quick "b1" "B"; ex_quick "a2" "A"] in
  jkeys (grouped links) = ["A"; "B"]%string
  ∧ (jkeys ∘ grouped) <$> moveLink "a1" Right links = Some ["B"; "A"]%string.
Proof. by vm_compute. Qed.

(** ** Theorems: adding, editing, removing *)

(** Fact [quick_link_edits]: an edit saved as it was opened changes no link, except that a link without a
    category gets the empty one, which shows in the same group; adding puts the new link at the
    end of its group and removing takes exactly the links of the identifier out. *)
Theorem quick_link_edits links :
  (∀ e links', saveEdit (Some e) (openEditDialog e) links = Some links' → NoDup (ql_id <$> links) →
     e ∈ links → ql_id <$> links' = ql_id <$> links ∧ ql_name <$> links' = ql_name <$> links
       ∧ category_of <$> links' = category_of <$> links)
  ∧ (∀ uuid name lu du cat links', addNewLink uuid name lu du cat links = Some links' →
       ∃ l, ql_id l = uuid ∧ str_trim name ≠ ""%string ∧ ql_name l = str_trim name
         ∧ ∀ c, List.filter (in_category c) links' =
                List.filter (in_category c) links ++ (if in_category c l then [l] else []))
  ∧ (∀ id l, l ∈ removeLink id links ↔ l ∈ links ∧ ql_id l ≠ id).
Proof.
  split; [|split].
  - intros e links' [= <-] Hnd He. rewrite <-!list_fmap_compose.
    assert (∀ {B} (f : QuickLink → B), (∀ l, l ∈ links → ql_id l = ql_id e →
      f {| ql_id := ql_id l; ql_name := ql_name e; ql_localUrl := ql_localUrl e;
           ql_domainUrl := ql_domainUrl e; ql_category := Some (js_or (ql_category e) ""%string) |} = f l) →
      (f ∘ (λ l, if String.eqb (ql_id l) (ql_id e) then
        {| ql_id := ql_id l; ql_name := editName (openEditDialog e); ql_localUrl := editLocalUrl (openEditDialog e);
           ql_domainUrl := editDomainUrl (openEditDialog e);
           ql_category := Some (editCategory (openEditDialog e)) |} else l)) <$> links = f <$> links) as Hmap.
    { intros B f Hf. apply list_fmap_ext. intros i l Hl. cbn.
      destruct (String.eqb_spec (ql_id l) (ql_id e)) as [E|]; [|done].
      apply (Hf l); [by eapply list_elem_of_lookup_2 | done]. }
    assert (∀ l, l ∈ links → ql_id l = ql_id e → l = e) as Huniq.
    { intros l Hl E. apply list_elem_of_lookup_1 in Hl as [i Hi]. apply list_elem_of_lookup_1 in He as [j Hj].
      assert (i = j) as ->; [|congruence]. apply (NoDup_lookup _ i j (ql_id e) Hnd);
        rewrite list_lookup_fmap, ?Hi, ?Hj; cbn; congruence. }
    split; [|split]; apply Hmap; intros l Hl E; pose proof (Huniq l Hl E) as ->; [done | done |].
    unfold category_of. cbn. destruct (ql_category e) as [c|]; cbn; [|done].
    destruct (truthy c) eqn:Et; cbn; [by rewrite Et | done].
  - intros uuid name lu du cat links'. unfold addNewLink.
    destruct (truthy (str_trim name)) eqn:Et; [|done]. intros [= <-].
    eexists {| ql_id := uuid; ql_name := str_trim name; ql_localUrl := lu; ql_domainUrl := du;
               ql_category := Some cat |}.
    split; [done|]. split; [|split; [done|]].
    + unfold truthy, truthy_string in Et. by apply negb_true_iff, String.eqb_neq in Et.
    + intros c. by rewrite List.filter_app.
  - intros id l. unfold removeLink. rewrite list_elem_of_In, filter_In, <-list_elem_of_In.
    rewrite negb_true_iff, String.eqb_neq. done.
Qed.
