(* ===== verification/Containers.v ===== *)
(** * The containers table: [components/containers-table/]

    Merging an answer of the server into the containers shown, the value of a status text, the
    search, the cells, and the shortest spin of the refresh button. *)
From Stdlib Require Import Ascii QArith Lqa Lia ZArith.
From S2P Require Import Prelude JsValue JsDate Types Utils.
Open Scope Z_scope.

(** ** Merging *)

(** the first and the last item decide what counts as current *)
Definition lastUpdated (first : ContainerRecord) (items : list ContainerRecord) : Z :=
  Z.max (co_updated first) (match last items with Some x => co_updated x | None => 0 end).

Definition window : Z := 70000.

(** the answer to a fetch for one system, or for all; [None] is the table before its first answer *)
Definition merge_items (systemId : option string) (items : list ContainerRecord)
    (curItems : option (list ContainerRecord)) : list ContainerRecord :=
  match items with
  | [] =>
      match systemId with
      | Some id => if truthy id
                   then default [] (List.filter (λ item, negb (String.eqb (co_system item) id)) <$> curItems)
                   else []
      | None => []
      end
  | first :: _ =>
      let last := lastUpdated first items in
      let kept := List.filter (λ item, Z.abs (last - co_updated item) <? window) items in
      let containerIds := co_id <$> kept in
      kept ++ List.filter (λ item, negb (bool_decide (co_id item ∈ containerIds)) &&
                                   (last - co_updated item <? window)) (default [] curItems)
  end.

(** ** Status texts *)

Definition unitSeconds : list (string * Z) :=
  [("s", 1); ("mi", 60); ("h", 3600); ("d", 86400); ("w", 604800); ("mo", 2592000)]%string.

Definition num_scale (n : jsnum) (k : Z) : jsnum :=
  match n with Fin q => Fin (q * inject_Z k) | NaN => NaN | Inf s => Inf s end.

(** [None] is the exception of a text with fewer than three words *)
Definition getStatusValue (status : string) : option jsnum :=
  let parts := str_split " " status in
  let num := parts !! 1%nat in
  match parts !! 2%nat with
  | None => None
  | Some unit =>
      let numValue :=
        match num with
        | Some n => if String.eqb n "a" || String.eqb n "an" then Fin 1 else Number n
        | None => NaN
        end in
      Some (match List.find (λ u, starts_with unit u.1) unitSeconds with
            | Some (_, value) => num_scale numValue value
            | None => Fin 0
            end)
  end.

(** the comparison of the status column *)
Definition status_compare (a b : ContainerRecord) : option jsnum :=
  x ← getStatusValue (co_status a); y ← getStatusValue (co_status b); Some (num_sub x y).

(** ** Search and cells *)

Definition globalFilterFn (systemName : option string) (c : ContainerRecord) (filterValue : string) : bool :=
  let searchString := str_lower (default ""%string systemName +:+ " " +:+ co_id c +:+ " " +:+ co_name c
    +:+ " " +:+ default ""%string (label_at ContainerHealthLabels (co_health c)) +:+ " " +:+ co_status c
    +:+ " " +:+ co_image c) in
  every_term searchString (str_lower filterValue).

Definition cpu_text `{Intl} (val : Q) : string :=
  (decimalString [] val (if Qle_bool 10 val then 1 else 2)).1 +:+ "%".
Definition bytes_text `{Intl} (val : Q) (perSecond megabytes : bool) : string :=
  let '(value, unit) := formatBytes val perSecond Unit_Bytes megabytes in
  (decimalString [] value (if Qle_bool 10 value then 1 else 2)).1 +:+ " " +:+ unit.
(** label and colour of the badge; a number that names no state has no colour *)
Definition health_cell (health : Z) : string * string :=
  (js_or (label_at ContainerHealthLabels health) "Unknown"%string,
   if health =? ContainerHealth_num Health_Healthy then "bg-green-500"%string
   else if health =? ContainerHealth_num Health_Unhealthy then "bg-red-500"%string
   else if health =? ContainerHealth_num Health_Starting then "bg-yellow-500"%string
   else if health =? ContainerHealth_num Health_None then "bg-zinc-500"%string else ""%string).

(** the columns of a system's own table leave the system out *)
Definition columns (systemId : option string) : list string :=
  List.filter (λ id, match systemId with
                     | Some s => if truthy s then negb (String.eqb id "system") else true
                     | None => true
                     end)
    ["name"; "system"; "cpu"; "memory"; "net"; "health"; "image"; "status"; "updated"].

(** how long the refresh button keeps spinning after the logs have arrived *)
Definition remaining_spin (startTime now : Z) : Z :=
  let elapsed := now - startTime in Z.max 0 (500 - elapsed).

(** which updates of the systems make the table of all containers fetch again *)
Definition fetch_on_update (loadTime now : Z) : bool := 500 <? now - loadTime.

(** ** Theorems: merging *)

Lemma merge_items_ids systemId items cur :
  NoDup (co_id <$> items) → NoDup (co_id <$> default [] cur) → NoDup (co_id <$> merge_items systemId items cur).
Proof.
  intros Hi Hc. unfold merge_items. destruct items as [|first rest].
  - destruct systemId as [id|]; [|constructor]. destruct (truthy id); [|constructor].
    destruct cur; [|constructor]. by apply NoDup_fmap_filter.
  - cbv zeta. rewrite fmap_app. apply NoDup_app. split; [by apply NoDup_fmap_filter|]. split; [|by apply NoDup_fmap_filter].
    intros i Hin (y & -> & Hy)%list_elem_of_fmap. apply elem_of_filter_bool in Hy as [_ Hy].
    apply andb_prop in Hy as [Hy _]. by apply negb_true_iff, bool_decide_eq_false in Hy.
Qed.

(** Fact [merge_items_spec]: after an answer every container is shown once; those of the answer that are
    within 70 seconds of its first or last item are shown as the answer has them, the others
    shown before stay only while they are as recent and not in the answer, and nothing else is
    shown.  An empty answer for a system takes exactly its containers away. *)
Theorem merge_items_spec systemId first rest cur :
  let items := first :: rest in
  NoDup (co_id <$> items) → NoDup (co_id <$> default [] cur) →
  let shown := merge_items systemId items cur in
  let lst := lastUpdated first items in
  let current x := Z.abs (lst - co_updated x) < window in
  NoDup (co_id <$> shown)
  ∧ (∀ x, x ∈ items → current x → x ∈ shown)
  ∧ (∀ x, x ∈ shown →
       x ∈ items ∧ current x
       ∨ x ∈ default [] cur ∧ lst - co_updated x < window
         ∧ ∀ y, y ∈ items → current y → co_id y ≠ co_id x)
  ∧ (∀ id, id ≠ ""%string → ∀ x, x ∈ merge_items (Some id) [] cur ↔ x ∈ default [] cur ∧ co_system x ≠ id).
Proof.
  intros items Hi Hc shown lst current.
  set (kept := List.filter (λ item, Z.abs (lst - co_updated item) <? window) items).
  change shown with (kept ++ List.filter (λ item, negb (bool_decide (co_id item ∈ co_id <$> kept)) &&
                                                  (lst - co_updated item <? window)) (default [] cur)).
  assert (∀ x, x ∈ kept ↔ x ∈ items ∧ current x) as Hk
    by (intros x; unfold kept; rewrite elem_of_filter_bool, Z.ltb_lt; done).
  split; [|split; [|split]].
  - by apply (merge_items_ids systemId items cur).
  - intros x Hx Hcx. apply elem_of_app. left. by apply Hk.
  - intros x [Hx|Hx]%elem_of_app; [left; by apply Hk | right].
    apply elem_of_filter_bool in Hx as [Hx Hf]. apply andb_prop in Hf as [Hf Hr].
    apply Z.ltb_lt in Hr. apply negb_true_iff, bool_decide_eq_false in Hf.
    split; [done|]. split; [done|]. intros y Hy Hcy E. apply Hf. rewrite <-E.
    apply list_elem_of_fmap_2. by apply Hk.
  - intros id Hid x. unfold merge_items. rewrite (proj2 (truthy_nonempty id) Hid).
    destruct cur as [cur|]; cbn; [|by split; [intros ?%elem_of_nil | intros [?%elem_of_nil _]]].
    by rewrite elem_of_filter_bool, negb_true_iff, String.eqb_neq.
Qed.

(** Fact [current_containers_dropped]: the first and the last item stand for the whole answer.  When both
    are old, as with containers of a system that went down some minutes ago, every container
    that has been updated since, by 70 seconds or more, is missing from a table that loads. *)
Theorem current_containers_dropped systemId first rest x :
  x ∈ first :: rest → lastUpdated first (first :: rest) + window <= co_updated x →
  x ∉ merge_items systemId (first :: rest) None.
Proof.
  intros Hx Ho. unfold merge_items. cbv zeta. intros [Hin|Hin]%elem_of_app;
    apply elem_of_filter_bool in Hin as [Hin Hf]; [|by apply elem_of_nil in Hin].
  apply Z.ltb_lt in Hf. unfold window in *. lia.
Qed.

Definition ex_co (id system : string) (updated : Z) : ContainerRecord := {|
  co_id := id; co_system := system; co_name := id; co_image := "img"; co_cpu := 1; co_memory := 10;
  co_net := 0; co_health := 2; co_status := "Up 5 minutes"; co_updated := updated |}.
Lemma current_containers_dropped_witness :
  let items := [ex_co "a" "down" 1000000; ex_co "b" "up" 1300000; ex_co "c" "down" 1000500] in
  (ex_co "b" "up" 1300000 ∈ items) ∧ (ex_co "b" "up" 1300000 ∉ merge_items None items None).
Proof.
  split; [right; left|].
  apply current_containers_dropped; [right; left | by vm_compute].
Defined.
Lemma merge_items_spec_witness :
  ex_co "a" "s" 1000000 ∈ merge_items None [ex_co "a" "s" 1000000; ex_co "b" "s" 1000500] None.
Proof.
  refine (proj1 (proj2 (merge_items_spec None (ex_co "a" "s" 1000000) [ex_co "b" "s" 1000500] None _ _)) _ _ _).
  - repeat constructor; set_solver.
  - constructor.
  - left.
  - by vm_compute.
Defined.

(** ** Theorems: status texts *)

Definition unit_words : list (string * Z) :=
  [("second", 1); ("seconds", 1); ("minute", 60); ("minutes", 60); ("hour", 3600); ("hours", 3600);
   ("day", 86400); ("days", 86400); ("week", 604800); ("weeks", 604800); ("month", 2592000);
   ("months", 2592000)]%string.

(** the status texts the agent sends, as it writes them *)
Definition up_text (count : string) (unit : string) : string :=
  "Up" +:+ String " " (count +:+ String " " unit).

Lemma pretty_no_space (n : N) : str_split " " (pretty n) = [pretty n].
Proof.
  apply str_split_none. apply (str_all_impl is_digit); [|apply pretty_N_digits].
  intros d Hd. apply negb_true_iff, Ascii.eqb_neq. intros ->. discriminate Hd.
Qed.

(** Fact [getStatusValue_spec]: the value of a running container's status is its age in seconds, for every
    count and every unit from seconds to months and for the articles that stand for one; an age
    in years counts as 0, and a text of fewer than three words, such as the empty status, throws. *)
Theorem getStatusValue_spec (n : N) unit seconds :
  (unit, seconds) ∈ unit_words →
  getStatusValue (up_text (pretty n) unit) = Some (Fin (inject_Z (Z.of_N n) * inject_Z seconds))
  ∧ getStatusValue (up_text "a" unit) = Some (Fin (1 * inject_Z seconds))
  ∧ getStatusValue (up_text "an" unit) = Some (Fin (1 * inject_Z seconds))
  ∧ getStatusValue (up_text (pretty n) "years") = Some (Fin 0)
  ∧ getStatusValue "" = None ∧ getStatusValue "Created" = None.
Proof.
  intros Hu.
  assert (∀ u, str_split " " u = [u] → str_split " " (up_text (pretty n) u) = ["Up"%string; pretty n; u]) as Hs.
  { intros u Hw. unfold up_text. rewrite !str_split_app by (done || apply pretty_no_space). by rewrite Hw. }
  assert (pretty n ≠ "a"%string ∧ pretty n ≠ "an"%string) as [Ha Han].
  { pose proof (pretty_N_digits n) as Hd. split; intros E; rewrite E in Hd; discriminate Hd. }
  assert (∀ u, str_split " " u = [u] → getStatusValue (up_text (pretty n) u) =
    Some (match List.find (λ x, starts_with u x.1) unitSeconds with
          | Some (_, v) => Fin (inject_Z (Z.of_N n) * inject_Z v) | None => Fin 0 end)) as Hv.
  { intros u Hw. unfold getStatusValue. rewrite (Hs u Hw). cbn [lookup list_lookup].
    rewrite (proj2 (String.eqb_neq _ _) Ha), (proj2 (String.eqb_neq _ _) Han), Number_pretty. done. }
  split; [|split; [|split; [|split; [by rewrite Hv | done]]]].
  - unfold unit_words in Hu. rewrite Hv; repeat (apply elem_of_cons in Hu as [[= -> ->]|Hu]; [done|]);
      by apply elem_of_nil in Hu.
  - unfold unit_words in Hu. repeat (apply elem_of_cons in Hu as [[= -> ->]|Hu]; [done|]).
    by apply elem_of_nil in Hu.
  - unfold unit_words in Hu. repeat (apply elem_of_cons in Hu as [[= -> ->]|Hu]; [done|]).
    by apply elem_of_nil in Hu.
Qed.
Lemma getStatusValue_spec_witness :
  getStatusValue (up_text (pretty 3%N) "hours") = Some (Fin (3 * 3600)).
Proof. apply (getStatusValue_spec 3 "hours" 3600). vm_compute. repeat constructor. Defined.

(** an unsorted status text never throws for a container that has been collected while it runs, but
    the comparison throws as soon as one of two statuses is empty *)
Lemma status_compare_empty a b : co_status a = ""%string → status_compare a b = None.
Proof. intros E. unfold status_compare. by rewrite E. Qed.
