(* ===== verification/Smart.v ===== *)
(** * S.M.A.R.T. devices: [components/routes/system/smart-table.tsx]

    The list of devices as a live table with a scope (one system, or all), the cells, the
    row actions and their spinner, the search, and the sheet that loads one device with its
    attributes. *)
From Stdlib Require Import QArith ZArith Lia.
From S2P Require Import Prelude JsValue JsDate Types Utils Live.
Open Scope Z_scope.

(** ** The list *)

(** the page's system; without one every device is in scope *)
Definition matchesSystemScope (systemId : option string) (record : SmartDeviceRecord) : bool :=
  match systemId with Some s => negb (truthy s) || String.eqb (sd_system record) s | None => true end.

Fixpoint findIndex (id : string) (devices : list SmartDeviceRecord) : option nat :=
  match devices with
  | [] => None
  | d :: rest => if String.eqb (sd_id d) id then Some O else S <$> findIndex id rest
  end.

(** the subscription's reducer; [None] is the list before its first answer *)
Definition smart_event (systemId : option string) (a : action) (record : SmartDeviceRecord)
    (currentDevices : option (list SmartDeviceRecord)) : list SmartDeviceRecord :=
  let devices := default [] currentDevices in
  let others := List.filter (λ device, negb (String.eqb (sd_id device) (sd_id record))) devices in
  match a with
  | Delete => others
  | _ =>
      if matchesSystemScope systemId record then
        match findIndex (sd_id record) devices with
        | None => record :: devices
        | Some existingIndex => <[existingIndex := record]> devices
        end
      else others
  end.

(** an answer of the initial fetch: [None] is a failure, which empties the list unless it was
    the abort of leaving the page *)
Definition smart_answer (answer : option (list SmartDeviceRecord)) (isAbort : bool)
    (current : option (list SmartDeviceRecord)) : option (list SmartDeviceRecord) :=
  match answer with
  | Some devices => Some devices
  | None => if isAbort then current else Some []
  end.

(** a system's page shows no table while it has no device *)
Definition table_hidden (systemId : option string) (devices : option (list SmartDeviceRecord))
    (columnFilters : nat) : bool :=
  truthy systemId && Nat.eqb (length (default [] devices)) 0 && Nat.eqb columnFilters 0.

(** ** Columns *)

Definition column_ids : list string :=
  ["system"; "name"; "model"; "capacity"; "state"; "type"; "hours"; "cycles"; "temp"; "updated"].
Definition tableColumns (systemId : option string) : list string :=
  (if truthy systemId then List.filter (λ c, negb (String.eqb c "system")) column_ids else column_ids)
  ++ ["actions"%string].

(** the number that is written out, and its unit *)
Definition formatCapacity (bytes : Q) : Q * string :=
  let '(value, unit) := formatBytes bytes false Unit_Bytes false in
  (toFixedFloat value (if Qle_bool 10 value then 1 else 2)%nat, unit).

Section Cells.
Context `{Intl}.
(** hours and days of the time a device has been on *)
Definition hours_cell (hours : option Z) : string * string :=
  let seconds := default 0 hours * 3600 in
  (secondsToString seconds Hour, secondsToString seconds Day).
Definition cycles_cell (cycles : option Z) : string :=
  match cycles with Some c => to_locale_string c | None => "N/A" end.
End Cells.

Definition badge_variant (status : string) : string :=
  if String.eqb status "PASSED" then "success" else if String.eqb status "FAILED" then "danger" else "warning".

Inductive updated_format := OnlyTime | ShortDate.
(** today's records show the time only; an invalid date is never today *)
Definition updated_cell `{LocalTime} `{DateParse} (now : Z) (timestamp : string) : updated_format :=
  match date_parse timestamp with
  | Some t => if local_of t / ms_per_day =? local_of now / ms_per_day then OnlyTime else ShortDate
  | None => ShortDate
  end.

Definition smart_filter (systemName : option string) (disk : SmartDeviceRecord) (filterValue : string) : bool :=
  every_term (str_lower (default ""%string systemName +:+ " " +:+ sd_name disk +:+ " " +:+ sd_model disk
    +:+ " " +:+ sd_state disk +:+ " " +:+ sd_type disk)) (str_lower filterValue).

(** ** Row actions *)

Inductive row_action := RowRefresh | RowDelete.
#[export] Instance row_action_eq_dec : EqDecision row_action. Proof. solve_decision. Defined.
Definition row_state := option (row_action * string).

(** the request an action starts with; a device without a system is not refreshed *)
Inductive row_request := PostRefresh (system : string) | DeleteDevice (id : string).
Definition start_action (type : row_action) (disk : SmartDeviceRecord) (st : row_state) :
    option row_request * row_state :=
  match type with
  | RowRefresh => if truthy (sd_system disk)
                  then (Some (PostRefresh (sd_system disk)), Some (RowRefresh, sd_id disk)) else (None, st)
  | RowDelete => (Some (DeleteDevice (sd_id disk)), Some (RowDelete, sd_id disk))
  end.
(** [finally] *)
Definition finish_action (disk : SmartDeviceRecord) (st : row_state) : row_state :=
  match st with
  | Some (_, id) => if String.eqb id (sd_id disk) then None else st
  | None => st
  end.
Definition isRow (type : row_action) (st : row_state) (disk : SmartDeviceRecord) : bool :=
  bool_decide (st = Some (type, sd_id disk)).
(** the refresh item is disabled during both actions, the delete item during a deletion *)
Definition refresh_disabled (st : row_state) (disk : SmartDeviceRecord) : bool :=
  isRow RowRefresh st disk || isRow RowDelete st disk.
Definition delete_disabled (st : row_state) (disk : SmartDeviceRecord) : bool := isRow RowDelete st disk.

(** ** The sheet *)

Record sheet := {
  activeDiskId : option string; sheetOpen : bool;
  disk : option SmartDeviceRecord; isLoading : bool }.
Definition closed_sheet : sheet :=
  {| activeDiskId := None; sheetOpen := false; disk := None; isLoading := false |}.

(** the effect that runs when the device or the open flag has changed: the request it makes *)
Definition sheet_effect (s : sheet) : sheet * option string :=
  match activeDiskId s with
  | Some diskId =>
      if truthy diskId then
        if sheetOpen s
        then ({| activeDiskId := activeDiskId s; sheetOpen := true; disk := disk s; isLoading := true |}, Some diskId)
        else (s, None)
      else ({| activeDiskId := activeDiskId s; sheetOpen := sheetOpen s; disk := None; isLoading := isLoading s |}, None)
  | None => ({| activeDiskId := None; sheetOpen := sheetOpen s; disk := None; isLoading := isLoading s |}, None)
  end.
Definition openSheet (id : string) (s : sheet) : sheet * option string :=
  sheet_effect {| activeDiskId := Some id; sheetOpen := true; disk := disk s; isLoading := isLoading s |}.
Definition closeSheet (s : sheet) : sheet * option string :=
  sheet_effect {| activeDiskId := activeDiskId s; sheetOpen := false; disk := disk s; isLoading := isLoading s |}.
(** an answer, or the failure, of any request made so far *)
Definition sheet_answer (answer : option SmartDeviceRecord) (s : sheet) : sheet :=
  {| activeDiskId := activeDiskId s; sheetOpen := sheetOpen s; disk := answer; isLoading := false |}.

Definition smartAttributes (s : sheet) : list SmartAttribute :=
  default [] (d ← disk s; sd_attributes d).
Definition isFailedAttribute (attr : SmartAttribute) : bool :=
  match sa_wf attr with Some wf => truthy wf && negb (String.eqb (str_trim wf) "") | None => false end.
Definition failedAttributes (attrs : list SmartAttribute) : list SmartAttribute :=
  List.filter isFailedAttribute attrs.

Inductive smart_column := ColId | ColName | ColValue | ColNormalized | ColWorst | ColThreshold | ColFailing.
Definition smartColumns : list smart_column :=
  [ColId; ColName; ColValue; ColNormalized; ColWorst; ColThreshold; ColFailing].
(** whether the attribute has the property the column reads by name; the columns with a
    function have no such property *)
Definition has_value (c : smart_column) (attr : SmartAttribute) : bool :=
  match c with
  | ColId => bool_decide (is_Some (sa_id attr)) | ColNormalized => bool_decide (is_Some (sa_v attr))
  | ColWorst => bool_decide (is_Some (sa_w attr)) | ColThreshold => bool_decide (is_Some (sa_t attr))
  | ColFailing => bool_decide (is_Some (sa_wf attr)) | ColName | ColValue => true
  end.
Definition has_key (c : smart_column) : bool := match c with ColName | ColValue => false | _ => true end.
Definition visibleColumns (attrs : list SmartAttribute) : list smart_column :=
  List.filter (λ c, if has_key c then existsb (has_value c) attrs else true) smartColumns.
(** the raw value: its text, or the number written out *)
Definition raw_value (attr : SmartAttribute) : option string :=
  match sa_rs attr with
  | Some rs => if truthy rs then Some rs else z_str <$> sa_rv attr
  | None => z_str <$> sa_rv attr
  end.
(** a fact of the sheet's heading *)
Definition or_unknown (s : option string) : string := js_or s "Unknown"%string.

(** ** Theorems: the list *)

Section LiveDevices.
Context (systemId : option string).

#[local] Instance smart_table : LiveTable SmartDeviceRecord := {|
  live_key := sd_id; live_scope := matchesSystemScope systemId;
  live_event := λ a r l, smart_event systemId a r (Some l) |}.

Lemma findIndex_spec id (l : list SmartDeviceRecord) :
  match findIndex id l with
  | Some i => record_of id l ≠ None
              ∧ ∀ r, sd_id r = id → NoDup (live_key <$> l) → <[i := r]> l = replace_record r l
  | None => record_of id l = None
  end.
Proof.
  induction l as [|d l IH]; [done|]. cbn [findIndex record_of]. change (live_key d) with (sd_id d).
  destruct (String.eqb_spec (sd_id d) id) as [E|E].
  - split; [done|]. intros r Hr. rewrite fmap_cons. intros [Hd _]%NoDup_cons.
    rewrite replace_record_cons, replace_record_absent by (cbn in *; congruence).
    by rewrite (proj2 (String.eqb_eq _ _)) by (cbn; congruence).
  - destruct (findIndex id l) as [i|]; [|done]. destruct IH as [Hn IH]. split; [done|].
    intros r Hr. rewrite fmap_cons. intros [_ Hnd]%NoDup_cons.
    rewrite replace_record_cons, (proj2 (String.eqb_neq _ _)) by (cbn; congruence).
    cbn. f_equal. by apply IH.
Qed.

(** a record that is written, whether the list had it or not *)
Lemma smart_written a r l (m m' : jsmap SmartDeviceRecord) :
  a ≠ Delete → shows l m → jequiv m' (jset (sd_id r) r m) → shows (smart_event systemId a r (Some l)) m'.
Proof.
  intros Ha Hs He. apply (shows_equiv _ (jset (sd_id r) r m)); [|done].
  replace (smart_event systemId a r (Some l)) with (smart_event systemId Update r (Some l)) by by destruct a.
  unfold smart_event. change (default [] (Some l)) with l. cbv zeta iota.
  destruct (matchesSystemScope systemId r) eqn:Hm.
  - pose proof (findIndex_spec (sd_id r) l) as Hf. destruct (findIndex (sd_id r) l) as [i|].
    + destruct Hf as [Hn Hi]. rewrite (Hi r eq_refl (proj1 Hs)). by refine (shows_replace r l m Hs Hn Hm).
    + by refine (shows_prepend r l m Hs Hf Hm).
  - refine (shows_remove r l m _ Hs _ _).
    + rewrite jget_jset_eq. cbn. by rewrite Hm.
    + intros. by apply jget_jset_ne.
Qed.

Lemma smart_step a r l (m : jsmap SmartDeviceRecord) :
  shows l m → shows (smart_event systemId a r (Some l)) (server_event a r m).
Proof.
  intros Hs. destruct a.
  - by apply (smart_written Create _ _ m).
  - by apply (smart_written Update _ _ m).
  - refine (shows_remove r l m _ Hs _ _); [by cbn; rewrite jget_jdel_eq|].
    intros. by apply jget_jdel_ne.
Qed.

(** Fact [smart_live]: a list that shows the devices of its scope, each once, does so after every
    sequence of messages, devices that move into and out of the scope included; and a message that is
    already part of the answer that was fetched changes nothing in what is shown. *)
Theorem smart_live l (m : jsmap SmartDeviceRecord) :
  shows l m →
  (∀ events, shows (foldl (λ l e, smart_event systemId e.1 e.2 (Some l)) l events) (server_run events m))
  ∧ (∀ a r, reflected a r m → shows (smart_event systemId a r (Some l)) m).
Proof.
  intros Hs. split.
  - intros events. change (shows (live_run events l) (server_run events m)).
    revert l m Hs. induction events as [|[a r] events IH]; intros l m Hs; [done|].
    cbn [live_run server_run foldl fst snd]. apply IH, smart_step, Hs.
  - intros a r Hr. change (shows (live_event a r l) m). apply (shows_equiv _ (server_event a r m)); [by apply smart_step|].
    intros id. destruct a; cbn in *; rewrite ?jget_jset, ?jget_jdel;
      destruct (String.eqb_spec (sd_id r) id) as [<-|]; by rewrite ?Hr.
Qed.
End LiveDevices.

Definition ex_disk (id system : string) : SmartDeviceRecord := {|
  sd_id := id; sd_system := system; sd_name := "/dev/sda"; sd_model := "disk"; sd_state := "PASSED";
  sd_capacity := 1000; sd_temp := 30; sd_firmware := None; sd_serial := None; sd_type := "sat";
  sd_hours := Some 10; sd_cycles := Some 3; sd_attributes := None; sd_updated := "" |}.
Lemma smart_live_witness :
  let table := smart_table (Some "s"%string) in
  shows (H := table) (live_run (H := table) [(Create, ex_disk "a" "s"); (Update, ex_disk "a" "other")] [])
        (server_run (H := table) [(Create, ex_disk "a" "s"); (Update, ex_disk "a" "other")] []).
Proof.
  apply (smart_live (Some "s"%string) [] []). split; [constructor | done].
Defined.

(** ** Theorems: the sheet *)

Inductive sheet_event := Open (id : string) | Close | Answer (answer : option SmartDeviceRecord).
Definition sheet_step (s : sheet) (e : sheet_event) : sheet :=
  match e with
  | Open id => (openSheet id s).1
  | Close => (closeSheet s).1
  | Answer a => sheet_answer a s
  end.
Fixpoint last_opened (id : option string) (es : list sheet_event) : option string :=
  match es with
  | [] => id
  | Open id' :: es => last_opened (Some id') es
  | _ :: es => last_opened id es
  end.

Lemma sheet_active es s : activeDiskId (foldl sheet_step s es) = last_opened (activeDiskId s) es.
Proof.
  revert s. induction es as [|e es IH]; intros s; [done|]. cbn [foldl]. rewrite IH.
  destruct e; cbn [last_opened]; f_equal; unfold sheet_step, openSheet, closeSheet, sheet_effect; cbn;
    repeat case_match; cbn in *; congruence.
Qed.

(** Fact [sheet_shows_last_answer]: the sheet's title and attributes are those of the answer that came
    last, whichever device it is about; so when two devices are opened one after the other and
    the first one's answer is the slower one, the sheet of the second shows the first. *)
Theorem sheet_shows_last_answer es a later s :
  (∀ e, e ∈ later → match e with Open id => id ≠ ""%string | Close => True | Answer _ => False end) →
  last_opened (activeDiskId s) es ≠ None → last_opened (activeDiskId s) es ≠ Some ""%string →
  disk (foldl sheet_step s (es ++ Answer a :: later)) = a
  ∧ activeDiskId (foldl sheet_step s (es ++ Answer a :: later)) = last_opened (activeDiskId s) (es ++ later).
Proof.
  intros Hl Hn He. split.
  - rewrite foldl_app. cbn [foldl]. pose proof (sheet_active es s) as Hs. revert Hs.
    generalize (foldl sheet_step s es). intros s' Hs'.
    assert (activeDiskId (sheet_answer a s') = last_opened (activeDiskId s) es) as Hs by done.
    change (sheet_step s' (Answer a)) with (sheet_answer a s').
    assert (disk (sheet_answer a s') = a) as Hd by done. revert Hs Hd Hn He Hl. clear.
    generalize (sheet_answer a s'), (last_opened (activeDiskId s) es). clear s s' es.
    induction later as [|e later IH]; intros s o Hs Hd Hn He Hl; [done|]. cbn [foldl].
    assert (∀ e, e ∈ later → match e with Open id => id ≠ ""%string | Close => True | Answer _ => False end)
      as Hl' by (intros e' ?; apply Hl; by right).
    specialize (Hl e ltac:(left)). destruct e as [id| |]; [| |done].
    + apply (IH _ (Some id)); [| |done|congruence|done]; unfold sheet_step, openSheet, sheet_effect; cbn;
        by rewrite (proj2 (truthy_nonempty id) Hl).
    + destruct o as [o|]; [|done].
      assert (truthy o = true) as Ht by (apply truthy_nonempty; congruence).
      apply (IH _ (Some o)); [| |done|done|done]; unfold sheet_step, closeSheet, sheet_effect; cbn;
        rewrite Hs, Ht; done.
  - rewrite sheet_active. clear -Hl. generalize (activeDiskId s) as o.
    induction es as [|e es IH]; intros o; [done|]. by destruct e; apply IH.
Qed.
Lemma sheet_shows_last_answer_witness :
  let s := foldl sheet_step closed_sheet
    [Open "a"; Open "b"; Answer (Some (ex_disk "b" "s")); Answer (Some (ex_disk "a" "s"))] in
  disk s = Some (ex_disk "a" "s") ∧ activeDiskId s = Some "b"%string.
Proof.
  apply (sheet_shows_last_answer [Open "a"; Open "b"; Answer (Some (ex_disk "b" "s"))]
           (Some (ex_disk "a" "s")) [] closed_sheet).
  - intros e H. by apply elem_of_nil in H.
  - discriminate.
  - discriminate.
Defined.

(** Fact [visibleColumns_spec]: no value is hidden: a column is left out of the attribute table only when
    no attribute has a value for it; names and raw values always show, and when an attribute has
    failed the column that says when does. *)
Theorem visibleColumns_spec attrs :
  (∀ c attr, attr ∈ attrs → has_value c attr = true → c ∈ visibleColumns attrs)
  ∧ ColName ∈ visibleColumns attrs ∧ ColValue ∈ visibleColumns attrs
  ∧ (failedAttributes attrs ≠ [] → ColFailing ∈ visibleColumns attrs)
  ∧ (∀ c, c ∈ visibleColumns attrs → has_key c = true → ∃ attr, attr ∈ attrs ∧ has_value c attr = true).
Proof.
  assert (∀ c, c ∈ visibleColumns attrs ↔ if has_key c then ∃ attr, attr ∈ attrs ∧ has_value c attr = true else True) as Hc.
  { intros c. unfold visibleColumns. rewrite list_elem_of_In, filter_In, <-list_elem_of_In.
    assert (c ∈ smartColumns) as Hin by (destruct c; repeat constructor).
    destruct (has_key c); [|by split]. rewrite existsb_exists. setoid_rewrite list_elem_of_In. apply list_elem_of_In in Hin. tauto. }
  assert (∀ c attr, attr ∈ attrs → has_value c attr = true → c ∈ visibleColumns attrs) as Hv
    by (intros c attr Ha Hh; apply Hc; destruct (has_key c); eauto).
  split; [done|]. split; [by apply Hc|]. split; [by apply Hc|]. split.
  - intros Hf. destruct (failedAttributes attrs) as [|attr l] eqn:E; [done|].
    assert (attr ∈ failedAttributes attrs) as Hin by (rewrite E; left).
    unfold failedAttributes in Hin. rewrite list_elem_of_In, filter_In, <-list_elem_of_In in Hin.
    destruct Hin as [Hin Hw]. apply (Hv _ attr Hin). cbn. unfold isFailedAttribute in Hw.
    destruct (sa_wf attr); [by apply bool_decide_eq_true_2 | done].
  - intros c Hin Hk. apply Hc in Hin. by rewrite Hk in Hin.
Qed.

(** ** Theorems: row actions *)

(** a finished action takes the spinner of its own device away and leaves any other device's *)
Lemma finish_other disk other type :
  sd_id disk ≠ sd_id other →
  isRow type (finish_action disk (Some (type, sd_id other))) other = true.
Proof.
  intros Hne. unfold finish_action. rewrite (proj2 (String.eqb_neq _ _)) by congruence.
  by apply bool_decide_eq_true_2.
Qed.
(** but a refresh that finishes after a deletion of the same device was started takes the
    deletion's spinner away *)
Lemma finish_same disk st : finish_action disk (start_action RowDelete disk st).2 = None.
Proof. unfold finish_action, start_action. cbn. by rewrite String.eqb_refl. Qed.
