(* ===== verification/Tokens.v ===== *)
(** * Tokens and fingerprints: [components/routes/settings/tokens-fingerprints.tsx]

    The sorted list of fingerprints as a live table, the map of tokens it feeds, the requests of
    a row's menu, the texts it copies, and the universal token's switch and tabs. *)
From Stdlib Require Import Ascii ZArith Lia Sorting.Permutation Sorting.Sorted.
From S2P Require Import Prelude JsValue JsDate Types Live.
Open Scope Z_scope.

(** [a.localeCompare(b) > 0] *)
Class Collator := locale_after : string → string → bool.
(** what sorting relies on: a strict weak order *)
Class CollatorLaws `(Collator) : Prop := {
  locale_asym a b : locale_after a b = true → locale_after b a = false;
  locale_trans a b c : locale_after b a = false → locale_after c b = false → locale_after c a = false }.

(** code-point order; only examples use it *)
Definition code_point_order : Collator := λ a b, String.ltb b a.
Lemma ltb_compare a b : String.ltb a b = true ↔ String.compare a b = Lt.
Proof. unfold String.ltb. by destruct (String.compare a b). Qed.
Lemma compare_ge_trans a b c :
  String.compare a b ≠ Lt → String.compare b c ≠ Lt → String.compare a c ≠ Lt.
Proof.
  revert b c. induction a as [|x a IH]; intros [|y b] [|z c]; cbn; try done. unfold Ascii.compare.
  destruct (N.compare_spec (N_of_ascii x) (N_of_ascii y)) as [E1|E1|E1]; try done;
    destruct (N.compare_spec (N_of_ascii y) (N_of_ascii z)) as [E2|E2|E2]; try done;
    destruct (N.compare_spec (N_of_ascii x) (N_of_ascii z)) as [E3|E3|E3]; try done; try lia. apply IH.
Qed.
Lemma code_point_laws : CollatorLaws code_point_order.
Proof.
  assert (∀ a b, code_point_order a b = false ↔ String.compare b a ≠ Lt) as Hf.
  { intros a b. unfold code_point_order. by rewrite <-not_true_iff_false, ltb_compare. }
  split.
  - intros a b. unfold locale_after. rewrite Hf. unfold code_point_order. rewrite ltb_compare.
    rewrite String.compare_antisym. by destruct (String.compare a b).
  - intros a b c. unfold locale_after. rewrite !Hf. intros H1 H2. by apply (compare_ge_trans a b c).
Qed.

(** ** The list *)

Section Fingerprints.
Context `{Collator}.

Definition sortFingerprints (fingerprints : list FingerprintRecord) : list FingerprintRecord :=
  js_sort (λ a b, locale_after (fp_system_name a) (fp_system_name b)) fingerprints.

(** the subscription's reducer; a record of a message has every property of the one it is
    merged into *)
Definition fingerprint_event (a : action) (record : FingerprintRecord)
    (current : list FingerprintRecord) : list FingerprintRecord :=
  match a with
  | Create => sortFingerprints (current ++ [record])
  | Update => (λ fingerprint, if String.eqb (fp_id fingerprint) (fp_id record) then record else fingerprint) <$> current
  | Delete => List.filter (λ fingerprint, negb (String.eqb (fp_id fingerprint) (fp_id record))) current
  end.
End Fingerprints.

(** the effect that runs after every change of the list *)
Definition update_tokenMap (fingerprints : list FingerprintRecord) (tokenMap : jsmap string) : jsmap string :=
  foldl (λ m f, jset (fp_system f) (fp_token f) m) tokenMap fingerprints.

(** ** The row's menu *)

Record fingerprint_update := { set_fingerprint : string; set_token : string }.
Definition updateFingerprint (generated : string) (fingerprint : FingerprintRecord) (rotateToken : bool) :
    string * fingerprint_update :=
  (fp_id fingerprint,
   {| set_fingerprint := "";
      set_token := if rotateToken then generated else fp_token fingerprint |}).

Definition newline : ascii := Ascii.ascii_of_nat 10.
(** [text.replaceAll("=", ": ")] *)
Fixpoint colon_for_equals (s : string) : string :=
  match s with
  | EmptyString => EmptyString
  | String c s => if Ascii.eqb c "=" then ": " +:+ colon_for_equals s else String c (colon_for_equals s)
  end.
Definition envVar (hubURL : string) (fingerprint : FingerprintRecord) : string :=
  "HUB_URL=" +:+ hubURL +:+ String newline ("TOKEN=" +:+ fp_token fingerprint).
Definition copyEnv := envVar.
Definition copyYaml (hubURL : string) (fingerprint : FingerprintRecord) : string :=
  colon_for_equals (envVar hubURL fingerprint).

(** the items after the two that copy, and whether read-only users see a menu at all *)
Definition fingerprint_menu (isReadOnly : bool) (fingerprint : FingerprintRecord) : list string :=
  if isReadOnly then []
  else ["Copy YAML"; "Copy env"; "Rotate token"]%string
       ++ (if truthy (fp_fingerprint fingerprint) then ["Delete fingerprint"%string] else []).

(** ** The universal token *)

Record universal := { ut_token : string; ut_isLoading : bool; ut_checked : bool; ut_isPermanent : bool }.
Definition universal_init : universal :=
  {| ut_token := ""; ut_isLoading := true; ut_checked := false; ut_isPermanent := false |}.
Record token_query := { tq_token : string; tq_enable : Z; tq_permanent : Z }.
(** the hub's answer; [permanent] may be missing *)
Record token_answer := { ta_token : string; ta_active : bool; ta_permanent : option bool }.
Definition updateToken (s : universal) (enable permanent : option Z) : token_query :=
  {| tq_token := ut_token s; tq_enable := default (-1) enable; tq_permanent := default (-1) permanent |}.
Definition token_answered (data : token_answer) : universal :=
  {| ut_token := ta_token data; ut_isLoading := false; ut_checked := ta_active data;
     ut_isPermanent := default false (ta_permanent data) |}.
Definition switch_changed (checked : bool) (s : universal) : token_query :=
  updateToken s (Some (if checked then 1 else 0)) (Some (if ut_isPermanent s then 1 else 0)).
Definition tab_changed (value : string) (s : universal) : token_query :=
  updateToken s (Some 1) (Some (if String.eqb value "permanent" then 1 else 0)).
Definition tab_value (s : universal) : string := if ut_isPermanent s then "permanent" else "ephemeral".

(** ** Theorems: the list *)

Section FingerprintLemmas.
Context `{Laws : CollatorLaws}.

#[local] Instance fingerprint_table : LiveTable FingerprintRecord := {|
  live_key := fp_id; live_scope := λ _, true; live_event := fingerprint_event |}.

Lemma record_of_perm (l l' : list FingerprintRecord) id :
  NoDup (fp_id <$> l) → l ≡ₚ l' → record_of id l = record_of id l'.
Proof.
  intros Hnd Hp. assert (NoDup (fp_id <$> l')) as Hnd' by (by rewrite <-Hp).
  destruct (record_of id l) as [r|] eqn:E; symmetry.
  - apply record_of_Some in E as [Hin <-]. apply elem_record_of; [done|]. by rewrite <-Hp.
  - apply record_of_None. apply record_of_None in E. by rewrite <-Hp.
Qed.

Lemma record_of_snoc (l : list FingerprintRecord) r id :
  record_of (fp_id r) l = None →
  record_of id (l ++ [r]) = if String.eqb (fp_id r) id then Some r else record_of id l.
Proof.
  intros Hr. induction l as [|x l IH]; [done|]. cbn in *. fold (record_of (H := fingerprint_table)) in *.
  destruct (String.eqb_spec (fp_id x) (fp_id r)) as [E|E]; [done|]. rewrite (IH Hr).
  destruct (String.eqb_spec (fp_id x) id) as [<-|]; [|done].
  by rewrite (proj2 (String.eqb_neq (fp_id r) (fp_id x))) by congruence.
Qed.

Definition by_name (l : list FingerprintRecord) : Prop :=
  StronglySorted (λ a b, locale_after (fp_system_name a) (fp_system_name b) = false) l.

Lemma sort_by_name l : by_name (sortFingerprints l).
Proof.
  apply sort_order.
  - intros a b. apply locale_asym.
  - intros a b c. apply locale_trans.
Qed.

Lemma by_name_filter f l : by_name l → by_name (List.filter f l).
Proof.
  induction 1 as [|x l Hl IH Hx]; cbn; [constructor|]. destruct (f x); [|done]. constructor; [done|].
  rewrite Forall_forall in *. intros y Hy. apply Hx. apply list_elem_of_In in Hy. apply filter_In in Hy.
  by apply list_elem_of_In, Hy.
Qed.

(** Fact [fingerprints_live]: the list keeps showing the collection's fingerprints, each once, through
    every sequence of realtime messages, and stays in the order of the system names as long as
    updates keep the names. *)
Theorem fingerprints_live events l (m : jsmap FingerprintRecord) :
  shows l m → history events m →
  shows (live_run events l) (server_run events m)
  ∧ (by_name l →
     (∀ a r x, (a, r) ∈ events → a = Update → fp_id x = fp_id r → fp_system_name x = fp_system_name r) →
     by_name (live_run events l)).
Proof.
  intros Hs Hh. split.
  - revert Hs Hh. apply @live_history. clear. intros a r l m Hs Hp.
    assert (record_of (fp_id r) l = jget (fp_id r) m) as Hr
      by (rewrite (proj2 Hs); by destruct (jget _ m)).
    destruct a; cbn in Hp.
    + destruct Hs as [Hnd Hl]. rewrite Hp in Hr.
      assert (NoDup (fp_id <$> (l ++ [r]))) as Hnd'.
      { rewrite fmap_app. apply NoDup_app. split; [done|]. split; [|apply NoDup_singleton].
        intros i Hi ->%list_elem_of_singleton. by apply record_of_None in Hr. }
      assert (sortFingerprints (l ++ [r]) ≡ₚ l ++ [r]) as Hperm by apply sort_perm.
      cbn [live_event fingerprint_table fingerprint_event]. split; [by rewrite Hperm|]. intros id.
      rewrite (record_of_perm _ (l ++ [r])) by (done || by rewrite Hperm).
      rewrite record_of_snoc by done. cbn [server_event]. rewrite jget_jset.
      change (live_key r) with (fp_id r). by destruct (String.eqb (fp_id r) id).
    + refine (shows_replace r l m Hs _ eq_refl). change (live_key r) with (fp_id r). by rewrite Hr.
    + refine (shows_remove r l m _ Hs _ _); [by cbn; rewrite jget_jdel_eq|].
      intros. by apply jget_jdel_ne.
  - clear Hs Hh. revert l. induction events as [|[a r] events IH]; intros l Hb Hn; [done|].
    cbn [live_run foldl fst snd]. apply IH; [|intros a' r' x Hin; apply (Hn a'); by right].
    destruct a; cbn [live_event fingerprint_table fingerprint_event].
    + apply sort_by_name.
    + assert (∀ x, fp_system_name (if String.eqb (fp_id x) (fp_id r) then r else x) = fp_system_name x) as Hx.
      { intros x. destruct (String.eqb_spec (fp_id x) (fp_id r)); [|done]. symmetry.
        apply (Hn Update r); [left | done | done]. }
      clear -Hb Hx. induction Hb as [|x l Hl IH Hf]; cbn; constructor; [done|].
      rewrite Forall_forall in *. intros y (z & -> & Hz)%list_elem_of_fmap. rewrite !Hx. by apply Hf.
    + by apply by_name_filter.
Qed.
End FingerprintLemmas.

Definition ex_fingerprint (id system name : string) : FingerprintRecord := {|
  fp_id := id; fp_system := system; fp_fingerprint := "f"; fp_token := "t" +:+ id; fp_system_name := name |}.
Lemma fingerprints_live_witness :
  let table := fingerprint_table (H := code_point_order) in
  let events := [(Create, ex_fingerprint "1" "s1" "web"); (Create, ex_fingerprint "2" "s2" "db")] in
  shows (H := table) (live_run (H := table) events []) (server_run (H := table) events [])
  ∧ by_name (H := code_point_order) (live_run (H := table) events [])
  ∧ fp_system_name <$> live_run (H := table) events [] = ["db"; "web"]%string.
Proof.
  set (events := [(Create, ex_fingerprint "1" "s1" "web"); (Create, ex_fingerprint "2" "s2" "db")]).
  destruct (fingerprints_live (H := code_point_order) (Laws := code_point_laws) events [] []) as [Hs Hb].
  - split; [constructor | done].
  - cbn. done.
  - split; [exact Hs|]. split; [|by vm_compute].
    apply Hb; [constructor|]. intros a r x Hin Ha. subst a.
    repeat (apply elem_of_cons in Hin as [Hin|Hin]; [discriminate Hin|]). by apply elem_of_nil in Hin.
Defined.

(** after the effect the map has the token of every system shown, if no system occurs twice *)
Lemma tokenMap_current l m f :
  NoDup (fp_system <$> l) → f ∈ l → jget (fp_system f) (update_tokenMap l m) = Some (fp_token f).
Proof.
  unfold update_tokenMap. induction l as [|x l IH] using rev_ind; [intros _ Hin; by apply elem_of_nil in Hin|].
  rewrite fmap_app, foldl_app. intros (Hnd & Hx & _)%NoDup_app Hin. cbn. rewrite jget_jset.
  apply elem_of_app in Hin as [Hin| ->%list_elem_of_singleton]; [|by rewrite String.eqb_refl].
  destruct (String.eqb_spec (fp_system x) (fp_system f)) as [E|_]; [|by apply IH].
  destruct (Hx (fp_system f)); [by apply list_elem_of_fmap_2|]. rewrite <-E. left.
Qed.

(** ** Theorems: the texts and the switch *)

Lemma colon_for_equals_plain s :
  str_all (λ c, negb (Ascii.eqb c "=")) s = true → colon_for_equals s = s.
Proof.
  induction s as [|c s IH]; cbn; [done|]. intros [Hc Hs]%andb_prop. apply negb_true_iff in Hc.
  by rewrite Hc, IH.
Qed.
Lemma colon_for_equals_app a b : colon_for_equals (a +:+ b) = colon_for_equals a +:+ colon_for_equals b.
Proof.
  induction a as [|c a IH]; [done|]. change (String c a +:+ b) with (String c (a +:+ b)).
  cbn [colon_for_equals]. rewrite IH. by destruct (Ascii.eqb c "=").
Qed.

Lemma string_app_assoc (a b c : string) : (a +:+ b) +:+ c = a +:+ (b +:+ c).
Proof.
  induction a as [|x a IH]; [done|].
  change (String x ((a +:+ b) +:+ c) = String x (a +:+ (b +:+ c))). by rewrite IH.
Qed.

(** Fact [copyYaml_spec]: the YAML text is the environment's two assignments as a mapping, provided neither
    the hub's address nor the token holds an equals sign; and the address of a hub with one, as
    in a query, is changed. *)
Theorem copyYaml_spec hubURL f :
  str_all (λ c, negb (Ascii.eqb c "=")) hubURL = true →
  str_all (λ c, negb (Ascii.eqb c "=")) (fp_token f) = true →
  copyYaml hubURL f = "HUB_URL: " +:+ hubURL +:+ String newline ("TOKEN: " +:+ fp_token f)
  ∧ copyYaml (hubURL +:+ "?a=1") f ≠
    "HUB_URL: " +:+ (hubURL +:+ "?a=1") +:+ String newline ("TOKEN: " +:+ fp_token f).
Proof.
  intros Hu Ht.
  assert (∀ u, copyYaml u f = "HUB_URL: " +:+ colon_for_equals u +:+ String newline ("TOKEN: " +:+ fp_token f)) as Hy.
  { intros u. unfold copyYaml, envVar.
    change (String newline ("TOKEN=" +:+ fp_token f)) with (String newline "TOKEN=" +:+ fp_token f).
    by rewrite !colon_for_equals_app, (colon_for_equals_plain (fp_token f)). }
  split; [by rewrite Hy, colon_for_equals_plain|]. rewrite Hy, colon_for_equals_app, colon_for_equals_plain by done.
  intros E. apply (inj (String.append _)) in E. rewrite !string_app_assoc in E.
  apply (inj (String.append _)) in E. discriminate E.
Qed.
Lemma copyYaml_spec_witness :
  copyYaml "https://hub" (ex_fingerprint "1" "s" "web") =
  "HUB_URL: https://hub" +:+ String newline "TOKEN: t1".
Proof. apply (copyYaml_spec "https://hub" (ex_fingerprint "1" "s" "web")); reflexivity. Defined.

(** turning the token off or on keeps its persistence, choosing a tab enables it; the next
    request after an answer carries that answer's token *)
Lemma universal_requests data checked value :
  let s := token_answered data in
  tq_permanent (switch_changed checked s) = (if default false (ta_permanent data) then 1 else 0)
  ∧ tq_enable (tab_changed value s) = 1
  ∧ tq_token (switch_changed checked s) = ta_token data ∧ tq_token (tab_changed value s) = ta_token data.
Proof. done. Qed.
