(* ===== verification/AlertHistory.v ===== *)
(** * The alert history: [components/routes/settings/alerts-history-data-table.tsx] and
    [components/alerts-history-columns.tsx]

    The list and its realtime messages, the columns with their search and order, the rows that
    are selected, their deletion in batches and their export as CSV. *)
From Stdlib Require Import Ascii QArith ZArith Lia.
From S2P Require Import Prelude JsValue Types Utils Live Alerts.
Open Scope Z_scope.

(** ** Interfaces *)

(** [Intl.DateTimeFormat.format] of the short date format; formatting an invalid date throws *)
Class ShortDateFormat := format_short : Z → string.

(** the table library: the rows that are selected *)
Class RowModel := getSelectedRows : ∀ {R : Type}, list nat → list R → list R.
(** without a [getRowId] a row is known by its position in the data *)
Class RowModelLaws `(RowModel) : Prop :=
  selected_by_index : ∀ (R : Type) (sel : list nat) (data : list R) x,
    x ∈ getSelectedRows sel data ↔ ∃ i, i ∈ sel ∧ data !! i = Some x.

(** ** The list *)

(** the initial answer replaces the list; a message changes it *)
Definition history_event (a : action) (record : AlertsHistoryRecord) (current : list AlertsHistoryRecord) :
    list AlertsHistoryRecord :=
  match a with
  | Create => record :: current
  | Update => (λ r, if String.eqb (ah_id r) (ah_id record) then record else r) <$> current
  | Delete => List.filter (λ r, negb (String.eqb (ah_id r) (ah_id record))) current
  end.

(** ** Columns *)

Definition display_system (r : AlertsHistoryRecord) : string := js_or (ah_system_name r) (ah_system r).
Definition system_filter (r : AlertsHistoryRecord) (filterValue : string) : bool :=
  str_includes (str_lower (display_system r)) (str_lower filterValue).

(** [s.replace(p, q)]: the first occurrence *)
Definition replace_first (s p q : string) : string :=
  match index_of s p with
  | Some i => slice_to s i +:+ q +:+ slice_from s (i + String.length p)
  | None => s
  end.
Definition display_name (r : AlertsHistoryRecord) : string :=
  js_or ((λ info, replace_first (ai_name info) "cpu" "CPU") <$> jget (ah_name r) alertInfo) (ah_name r).

(** the value that is written out and its unit; a status alert only says that the system is down *)
Definition value_cell (r : AlertsHistoryRecord) : option (Q * option string) :=
  if String.eqb (ah_name r) "Status" then None
  else Some (toFixedFloat (ah_value r) (if Qltb (ah_value r) 10 then 2 else 1)%nat,
             ai_unit <$> jget (ah_name r) alertInfo).
Definition is_resolved (r : AlertsHistoryRecord) : bool := truthy (ah_resolved r).
Definition state_compare (a b : AlertsHistoryRecord) : Z :=
  (if is_resolved a then 1 else 0) - (if is_resolved b then 1 else 0).

Section Dates.
Context `{DateParse} `{ShortDateFormat}.

Definition formatShortDate (timestamp : string) : option string := format_short <$> date_parse timestamp.

(** milliseconds from start to end; an invalid date gives [NaN], which counts as no duration *)
Definition history_duration (r : AlertsHistoryRecord) : option Z :=
  match ah_resolved r with
  | Some t => if truthy t then
                match date_parse t, date_parse (ah_created r) with
                | Some resolved, Some created => Some (resolved - created)
                | _, _ => None
                end
              else None
  | None => None
  end.
Definition duration_compare (rowA rowB : AlertsHistoryRecord) : Z :=
  let aDuration := history_duration rowA in
  let bDuration := history_duration rowB in
  if negb (truthy aDuration) && truthy bDuration then -1
  else if truthy aDuration && negb (truthy bDuration) then 1
  else js_or aDuration 0 - js_or bDuration 0.

(** a date that cannot be formatted throws *)
Definition history_filter (r : AlertsHistoryRecord) (filterValue : string) : option bool :=
  created ← formatShortDate (ah_created r);
  let search := str_lower filterValue in
  Some (str_includes (str_lower (default ""%string (ah_system_name r))) search
        || str_includes (str_lower (display_name r)) search || str_includes (str_lower created) search).

(** ** Export *)

Section Csv.
(** how a number is written *)
Context (num_str : Q → string).

Definition csv_keys : list string :=
  ["system"; "name"; "value"; "state"; "created"; "resolved"; "duration"].
Definition csv_cells (r : AlertsHistoryRecord) : option (list string) :=
  created ← formatShortDate (ah_created r);
  resolved ← match ah_resolved r with
             | Some t => if truthy t then formatShortDate t else Some ""%string
             | None => Some ""%string
             end;
  Some [ display_system r;
         js_or (ai_name <$> jget (ah_name r) alertInfo) (ah_name r);
         num_str (ah_value r) +:+ default "" (ai_unit <$> jget (ah_name r) alertInfo);
         (if is_resolved r then "Resolved" else "Active");
         created; resolved;
         (if is_resolved r then formatDuration (Some (ah_created r)) (ah_resolved r) else "") ]%string.
Definition csv_row (cells : list string) : string := str_join "," cells.
(** [None]: a date throws; [Some None]: nothing is selected *)
Definition handleExportCSV (selectedRows : list AlertsHistoryRecord) : option (option string) :=
  match selectedRows with
  | [] => Some None
  | _ => rows ← mapM csv_cells selectedRows;
         Some (Some (str_join (String (ascii_of_nat 10) "") (csv_row csv_keys :: (csv_row <$> rows))))
  end.
End Csv.
End Dates.

(** ** Deletion *)

(** the loop over the selected identifiers: the batches that were sent, and whether no request
    failed; [send] says whether the server takes a batch *)
Fixpoint bulk_loop (send : list string → bool) (ids batch : list string) (inBatch : nat) :
    list (list string) * bool :=
  match ids with
  | [] => if Nat.eqb inBatch 0 then ([], true)
          else if send batch then ([batch], true) else ([], false)
  | id :: rest =>
      let batch := batch ++ [id] in
      let inBatch := S inBatch in
      if (20 <? inBatch)%nat then
        if send batch then let '(sent, ok) := bulk_loop send rest [] 0 in (batch :: sent, ok)
        else ([], false)
      else bulk_loop send rest batch inBatch
  end.
(** the accepted batches, the selection afterwards, and whether the error is shown *)
Definition handleBulkDelete `{RowModel} (send : list string → bool) (data : list AlertsHistoryRecord)
    (rowSelection : list nat) : list (list string) * list nat * bool :=
  let selectedIds := ah_id <$> getSelectedRows rowSelection data in
  let '(sent, ok) := bulk_loop send selectedIds [] 0 in
  (sent, if ok then [] else rowSelection, negb ok).

(** ** Theorems: the list *)

#[export] Instance history_table : LiveTable AlertsHistoryRecord := {|
  live_key := ah_id; live_scope := λ _, true; live_event := history_event |}.

(** only the 200 most recent alerts are fetched: what is shown is part of the collection *)
Definition shows_part (l : list AlertsHistoryRecord) (m : jsmap AlertsHistoryRecord) : Prop :=
  NoDup (ah_id <$> l) ∧ ∀ id r, record_of id l = Some r → jget id m = Some r.

Lemma history_event_part a r l m : shows_part l m → possible a r m →
  shows_part (history_event a r l) (server_event a r m).
Proof.
  intros [Hnd Hl] Hp. destruct a; cbn in Hp.
  - split.
    + change (NoDup (live_key r :: (live_key <$> l))). apply NoDup_cons. split; [|done]. apply record_of_None.
      change (live_key r) with (ah_id r).
      destruct (record_of (ah_id r) l) as [x|] eqn:E; [|done]. apply Hl in E. cbn in *. congruence.
    + intros id x. cbn. rewrite jget_jset. by destruct (String.eqb (ah_id r) id); [|apply Hl].
  - split; [by change (NoDup (live_key <$> replace_record r l)); rewrite replace_record_ids|].
    intros id x. change (history_event Update r l) with (replace_record r l).
    rewrite record_of_replace. cbn. rewrite jget_jset.
    destruct (String.eqb (ah_id r) id); [|apply Hl]. by destruct (record_of id l).
  - split; [by refine (NoDup_remove_record (ah_id r) l Hnd)|].
    intros id x. change (history_event Delete r l) with (remove_record (ah_id r) l).
    rewrite record_of_remove. cbn. rewrite jget_jdel. by destruct (String.eqb (ah_id r) id); [|apply Hl].
Qed.

(** Fact [alert_history_current]: of the alerts on the server the page shows some, each once and as it is
    now, after every sequence of messages; an alert that is created is at the top. *)
Theorem alert_history_current events l (m : jsmap AlertsHistoryRecord) :
  shows_part l m → history events m →
  shows_part (live_run events l) (server_run events m)
  ∧ ∀ before r, events = before ++ [(Create, r)] → head (live_run events l) = Some r.
Proof.
  intros Hs Hh. split.
  - revert l m Hs Hh. induction events as [|[a r] events IH]; intros l m Hs Hh; [done|].
    destruct Hh as [Hp Hh]. cbn [live_run server_run foldl fst snd].
    apply IH; [by apply history_event_part | done].
  - intros before r ->. unfold live_run. by rewrite foldl_app.
Qed.
Definition ex_alert (id system : string) : AlertsHistoryRecord := {|
  ah_id := id; ah_system := system; ah_name := "CPU"; ah_value := 90; ah_created := "2026-01-01";
  ah_resolved := None; ah_system_name := Some system |}.
Lemma alert_history_current_witness :
  shows_part (live_run [(Create, ex_alert "b" "web")] [ex_alert "a" "db"])
    (server_run [(Create, ex_alert "b" "web")] [("old"%string, ex_alert "old" "db"); ("a"%string, ex_alert "a" "db")]).
Proof.
  apply (alert_history_current [(Create, ex_alert "b" "web")] [ex_alert "a" "db"]
    [("old"%string, ex_alert "old" "db"); ("a"%string, ex_alert "a" "db")]).
  - split; [apply NoDup_singleton|]. intros id r. cbn [record_of]. change (live_key (ex_alert "a" "db")) with "a"%string.
    destruct (String.eqb_spec "a" id) as [<-|]; [|done]. cbn. done.
  - cbn. done.
Defined.

(** ** Theorems: the selection *)

(** Fact [selection_shifts]: a row is selected by its position, so an alert that is created while one is
    selected moves the selection to the alert above it; it is that alert, or the new one, that is then
    deleted, and the one the user has chosen is not. *)
Theorem selection_shifts `{RowModelLaws} (data : list AlertsHistoryRecord) (i : nat) x r :
  NoDup (ah_id <$> (r :: data)) → data !! i = Some x →
  (∀ y, y ∈ getSelectedRows [i] data ↔ y = x)
  ∧ (∀ y, y ∈ getSelectedRows [i] (history_event Create r data) ↔
          Some y = match i with O => Some r | S j => data !! j end)
  ∧ x ∉ getSelectedRows [i] (history_event Create r data).
Proof.
  intros Hnd Hx.
  assert (∀ y, y ∈ getSelectedRows [i] (history_event Create r data) ↔
          Some y = match i with O => Some r | S j => data !! j end) as Hafter.
  { intros y. rewrite selected_by_index. split.
    - intros (j & ->%list_elem_of_singleton & Hj). by destruct i.
    - intros Hy. exists i. split; [left|]. by destruct i. }
  split; [|split; [done|]].
  - intros y. rewrite selected_by_index. split.
    + intros (j & ->%list_elem_of_singleton & Hj). congruence.
    + intros ->. exists i. split; [left | done].
  - rewrite Hafter. intros Hy. rewrite fmap_cons in Hnd. apply NoDup_cons in Hnd as [Hr Hnd].
    destruct i as [|j].
    + injection Hy as ->. apply Hr. apply list_elem_of_fmap_2. by apply list_elem_of_lookup_2 with O.
    + assert ((ah_id <$> data) !! S j = Some (ah_id x)) as E1 by (by rewrite list_lookup_fmap, Hx).
      assert ((ah_id <$> data) !! j = Some (ah_id x)) as E2 by (by rewrite list_lookup_fmap, <-Hy).
      pose proof (NoDup_lookup _ _ _ _ Hnd E1 E2). lia.
Qed.

(** rows picked by position *)
Definition index_rows : RowModel := λ R sel data, omap (λ i, data !! i) sel.
Lemma index_rows_laws : RowModelLaws index_rows.
Proof. intros R sel data x. unfold getSelectedRows, index_rows. rewrite list_elem_of_omap. done. Qed.
Lemma selection_shifts_witness :
  ex_alert "b" "db" ∉ getSelectedRows (RowModel := index_rows) [1%nat]
    (history_event Create (ex_alert "c" "new") [ex_alert "a" "web"; ex_alert "b" "db"]).
Proof.
  apply (selection_shifts (H := index_rows) (H0 := index_rows_laws) [ex_alert "a" "web"; ex_alert "b" "db"] 1
           (ex_alert "b" "db") (ex_alert "c" "new")); [|reflexivity].
  apply (bool_decide_unpack _). vm_compute. exact I.
Defined.

(** ** Theorems: deletion *)

Lemma bulk_loop_spec send ids batch sent ok :
  (length batch ≤ 20)%nat → bulk_loop send ids batch (length batch) = (sent, ok) →
  (∃ rest, batch ++ ids = concat sent ++ rest ∧ (ok = true ↔ rest = []))
  ∧ Forall (λ b, send b = true ∧ (1 ≤ length b ≤ 21)%nat) sent
  ∧ ∀ i b, sent !! i = Some b → (S i < length sent)%nat → length b = 21%nat.
Proof.
  revert batch sent ok. induction ids as [|id ids IH]; intros batch sent ok Hb; cbn [bulk_loop].
  - rewrite app_nil_r. destruct (Nat.eqb_spec (length batch) 0) as [E|E].
    + apply nil_length_inv in E as ->. intros [= <- <-]. split; [by exists []|]. split; [constructor | done].
    + destruct (send batch) eqn:Es; intros [= <- <-].
      * split; [exists []; cbn; by rewrite !app_nil_r|]. split; [constructor; [lia || (split; [done | lia]) | constructor]|].
        intros i b _ Hi. cbn in Hi. lia.
      * split; [exists batch; split; [done|]; split; [done | by intros ->]|]. split; [constructor | done].
  - destruct (Nat.ltb_spec 20 (S (length batch))) as [Hl|Hl].
    + destruct (send (batch ++ [id])) eqn:Es.
      * destruct (bulk_loop send ids [] 0) as [sent' ok'] eqn:E. intros [= <- <-].
        destruct (IH [] sent' ok' ltac:(cbn; lia) E) as ((rest & Hr & Ho) & Hf & Hn).
        split; [exists rest; split; [|done]; cbn in *; rewrite Hr; by rewrite <-!app_assoc|]. split.
        -- constructor; [|done]. rewrite length_app. cbn. split; [done | lia].
        -- intros [|i] b Hi Hlt; [|apply (Hn i); [done | cbn in Hlt; lia]].
           injection Hi as <-. rewrite length_app. cbn. lia.
      * intros [= <- <-]. split; [|split; [constructor | done]]. exists (batch ++ id :: ids).
        split; [done|]. split; [done|]. by destruct batch.
    + replace (S (length batch)) with (length (batch ++ [id])) in * by (rewrite length_app; cbn; lia).
      intros E. destruct (IH (batch ++ [id]) sent ok ltac:(lia) E) as ((rest & Hr & Ho) & H).
      split; [|done]. exists rest. split; [|done]. by rewrite <-Hr, <-app_assoc.
Qed.

(** Fact [bulk_delete_batches]: the selected alerts are deleted in order, in batches of 21 with a smaller
    last one and none empty.  The batches that are sent before a request fails are deleted, those from
    it on are not, the error is shown and the selection stays; otherwise all are and it is cleared. *)
Theorem bulk_delete_batches `{RowModel} send data rowSelection sent sel failed :
  handleBulkDelete send data rowSelection = (sent, sel, failed) →
  (∃ rest, ah_id <$> getSelectedRows rowSelection data = concat sent ++ rest
           ∧ (failed = false ↔ rest = []))
  ∧ Forall (λ b, send b = true ∧ (1 ≤ length b ≤ 21)%nat) sent
  ∧ (∀ i b, sent !! i = Some b → (S i < length sent)%nat → length b = 21%nat)
  ∧ sel = (if failed then rowSelection else []).
Proof.
  unfold handleBulkDelete. destruct (bulk_loop _ _ _ _) as [s ok] eqn:E. intros [= <- <- <-].
  destruct (bulk_loop_spec send _ [] s ok ltac:(cbn; lia) E) as ((rest & Hr & Ho) & Hf & Hn).
  split; [exists rest; split; [done|]; rewrite negb_false_iff; done|]. split; [done|]. split; [done|].
  by destruct ok.
Qed.
Lemma bulk_delete_batches_witness :
  let data := (λ n, ex_alert (pretty n) "web") <$> seq 0 23 in
  ∃ sent sel, handleBulkDelete (H := index_rows) (λ _, true) data (seq 0 23) = (sent, sel, false)
              ∧ length <$> sent = [21; 2]%nat ∧ sel = [].
Proof.
  set (data := (λ n, ex_alert (pretty n) "web") <$> seq 0 23).
  destruct (handleBulkDelete (H := index_rows) (λ _, true) data (seq 0 23)) as [[sent sel] failed] eqn:E.
  pose proof (bulk_delete_batches (H := index_rows) (λ _, true) data (seq 0 23) sent sel failed E) as (_ & _ & _ & Hs).
  vm_compute in E. injection E as <- <- <-. eexists _, _. split; [reflexivity|]. split; [reflexivity | exact Hs].
Defined.

(** ** Theorems: the export *)

Fixpoint char_count (c : ascii) (s : string) : nat :=
  match s with
  | EmptyString => 0
  | String a s => (if Ascii.eqb a c then 1 else 0) + char_count c s
  end.
Lemma char_count_app c a b : char_count c (a +:+ b) = (char_count c a + char_count c b)%nat.
Proof.
  induction a as [|x a IH]; [done|]. change (String x a +:+ b) with (String x (a +:+ b)).
  cbn [char_count]. rewrite IH. lia.
Qed.
Lemma length_split c s : length (str_split c s) = S (char_count c s).
Proof.
  induction s as [|a s IH]; [done|]. cbn [str_split char_count].
  destruct (Ascii.eqb a c); cbn; [by rewrite IH|]. by destruct (str_split c s).
Qed.
Lemma length_split_join c (cells : list string) : cells ≠ [] →
  length (str_split c (str_join (String c "") cells)) = (length cells + list_sum (char_count c <$> cells))%nat.
Proof.
  intros Hne. rewrite length_split. unfold str_join.
  induction cells as [|x cells IH]; [done|]. destruct cells as [|y cells]; [cbn; lia|].
  change (String.concat (String c "") (x :: y :: cells)) with
    (x +:+ (String c "" +:+ String.concat (String c "") (y :: cells))).
  rewrite !char_count_app. cbn [char_count]. rewrite Ascii.eqb_refl. specialize (IH ltac:(done)).
  rewrite !fmap_cons in *. cbn [length list_sum foldr] in *. lia.
Qed.

(** Fact [csv_columns]: no cell of the export is quoted, so a row has the seven columns of the heading
    exactly when none of its texts has a comma; with a date format that has one, as the English
    one does, every row has more columns than the heading. *)
Theorem csv_columns `{DateParse} `{ShortDateFormat} num_str r cells :
  csv_cells num_str r = Some cells →
  length (str_split "," (csv_row cells)) = (7 + list_sum (char_count "," <$> cells))%nat
  ∧ ((∀ t, 0 < char_count "," (format_short t))%nat →
     (length (str_split "," (csv_row csv_keys)) < length (str_split "," (csv_row cells)))%nat).
Proof.
  intros Hc. assert (length cells = 7%nat ∧ ∃ created, created ∈ cells ∧ formatShortDate (ah_created r) = Some created)
    as (Hl & created & Hin & Hf).
  { unfold csv_cells in Hc. destruct (formatShortDate (ah_created r)) as [created|]; [|done].
    cbn [mbind option_bind] in Hc.
    destruct (match ah_resolved r with Some t => if truthy t then formatShortDate t else Some "" | None => Some "" end)%string
      as [resolved|]; [|done]. cbn [mbind option_bind] in Hc. injection Hc as <-. split; [done|].
    exists created. split; [|done]. repeat first [left | right]. }
  assert (length (str_split "," (csv_row cells)) = (7 + list_sum (char_count "," <$> cells))%nat) as Hs.
  { unfold csv_row. rewrite (length_split_join ","), Hl; [done | by intros ->]. }
  split; [done|]. intros Hd. rewrite Hs. change (length (str_split "," (csv_row csv_keys))) with 7%nat.
  assert (0 < char_count "," created)%nat as Hp
    by (unfold formatShortDate in Hf; destruct (date_parse _); [|done]; injection Hf as <-; apply Hd).
  clear -Hin Hp. induction cells as [|x cells IH]; [by apply elem_of_nil in Hin|].
  rewrite fmap_cons. cbn [list_sum foldr]. apply elem_of_cons in Hin as [<-|Hin]; [lia|]. specialize (IH Hin). unfold list_sum in IH. lia.
Qed.
Lemma csv_columns_witness :
  let parse : DateParse := λ _, Some 0 in
  let format : ShortDateFormat := λ _, "Jan 1, 12:00 AM"%string in
  ∃ cells, csv_cells (H := parse) (H0 := format) (λ _, "90"%string) (ex_alert "a" "web") = Some cells
           ∧ (7 < length (str_split "," (csv_row cells)))%nat.
Proof.
  intros parse format. eexists. split; [reflexivity|].
  apply (csv_columns (H := parse) (H0 := format) (λ _, "90"%string) (ex_alert "a" "web") _ eq_refl).
  intros t. cbn. lia.
Defined.

(** ** Theorems: order *)

(** the order of the durations: alerts without one first, then by length *)
Definition duration_rank `{DateParse} (r : AlertsHistoryRecord) : option Z :=
  match history_duration r with Some d => if truthy d then Some d else None | None => None end.
Definition rank_lt (a b : option Z) : Prop :=
  match a, b with None, Some _ => True | Some x, Some y => x < y | _, None => False end.

(** Fact [duration_order]: sorting by duration compares consistently: an alert comes before another exactly
    when it has no duration and the other one does, or its duration is smaller; the sign is
    turned when the two are exchanged. *)
Theorem duration_order `{DateParse} a b :
  (duration_compare a b < 0 ↔ rank_lt (duration_rank a) (duration_rank b))
  ∧ duration_compare b a = - duration_compare a b
  ∧ (duration_compare a b = 0 ↔ duration_rank a = duration_rank b).
Proof.
  unfold duration_compare, duration_rank, truthy, truthy_option, truthy, truthy_Z, js_or, truthy.
  destruct (history_duration a) as [x|], (history_duration b) as [y|]; cbn;
    repeat match goal with |- context [Z.eqb ?z 0] => destruct (Z.eqb_spec z 0) end; cbn; subst;
    unfold rank_lt; (split; [split | split; [| split]]); intros; try lia; try done; try (f_equal; lia);
    match goal with E : Some _ = Some _ |- _ => apply (inj Some) in E; lia | _ => idtac end.
Qed.
