(* ===== verification/PackageUpdates.v ===== *)
(** * Package updates: [components/package-updates-table/package-updates-table.tsx]

    The table's state, one definition per handler and per answer of a request, the derived
    lists, and the events as a step relation: a handler can run when its control is enabled,
    an answer at any moment after its request, in any order. *)
From Stdlib Require Import Ascii ZArith Lia.
From S2P Require Import Prelude JsValue Types.
Open Scope Z_scope.

(** ** Sets of names, in the order they were added *)

Definition set_has (name : string) (s : list string) : bool := bool_decide (name ∈ s).
Definition set_add (s : list string) (name : string) : list string :=
  if set_has name s then s else s ++ [name].
Definition set_delete (s : list string) (name : string) : list string :=
  List.filter (λ n, negb (String.eqb n name)) s.
Definition set_of (names : list string) : list string := foldl set_add [] names.

(** ** State *)

Inductive job_status := Idle | Running | Done | Failed | Unreachable.
#[export] Instance job_status_eq_dec : EqDecision job_status. Proof. solve_decision. Defined.

(** an answer about a job; [as_status] may be missing *)
Record ApplyStatus := {
  as_status : option job_status; as_packages : option (list string); as_message : option string;
  as_startedAt : option Z; as_finishedAt : option Z }.

Definition POLL_INTERVAL : Z := 5000.

Record table := {
  systemId : string; updates : option (list PackageUpdate); selected : list string;
  checking : bool; applying : option ApplyStatus; unsupported : bool; filter : string;
  announcedJob : Z }.
Definition new_table (system : string) (typed : string) : table := {|
  systemId := system; updates := None; selected := []; checking := false; applying := None;
  unsupported := false; filter := typed; announcedJob := 0 |}.

Definition set_updates (u : option (list PackageUpdate)) (s : table) : table := {|
  systemId := systemId s; updates := u; selected := selected s; checking := checking s;
  applying := applying s; unsupported := unsupported s; filter := filter s; announcedJob := announcedJob s |}.
Definition set_selected (names : list string) (s : table) : table := {|
  systemId := systemId s; updates := updates s; selected := names; checking := checking s;
  applying := applying s; unsupported := unsupported s; filter := filter s; announcedJob := announcedJob s |}.
Definition set_checking (b : bool) (s : table) : table := {|
  systemId := systemId s; updates := updates s; selected := selected s; checking := b;
  applying := applying s; unsupported := unsupported s; filter := filter s; announcedJob := announcedJob s |}.
Definition set_applying (a : option ApplyStatus) (s : table) : table := {|
  systemId := systemId s; updates := updates s; selected := selected s; checking := checking s;
  applying := a; unsupported := unsupported s; filter := filter s; announcedJob := announcedJob s |}.
Definition set_unsupported (s : table) : table := {|
  systemId := systemId s; updates := updates s; selected := selected s; checking := checking s;
  applying := applying s; unsupported := true; filter := filter s; announcedJob := announcedJob s |}.
Definition set_filter (typed : string) (s : table) : table := {|
  systemId := systemId s; updates := updates s; selected := selected s; checking := checking s;
  applying := applying s; unsupported := unsupported s; filter := typed; announcedJob := announcedJob s |}.
Definition set_announced (job : Z) (s : table) : table := {|
  systemId := systemId s; updates := updates s; selected := selected s; checking := checking s;
  applying := applying s; unsupported := unsupported s; filter := filter s; announcedJob := job |}.

(** what a handler does beside the state *)
Inductive notice :=
| PackagesUpdated (count : option nat) | UpdateFailed (message : option string) | ErrorShown (fallback : string)
| HoldChanged (package : string) (hold : bool).
Inductive request :=
| CheckUpdates (system : string) (refresh : bool) | GetStatus (system : string)
| PostApply (system : string) (packages : list string) | PostHold (system package : string) (hold : bool).
Record effects := { notices : list notice; requests : list request }.
Definition no_effects : effects := {| notices := []; requests := [] |}.
Definition asks (r : list request) : effects := {| notices := []; requests := r |}.

(** ** Loading *)

Definition names_of (us : list PackageUpdate) : list string := pu_n <$> us.

(** [fetchUpdates] once its answer is there; the list may be missing in it *)
Definition fetched (answer : option (list PackageUpdate)) (s : table) : table :=
  let us := default [] answer in
  set_selected (List.filter (λ name, set_has name (names_of us)) (selected s)) (set_updates (Some us) s).

(** the effect of a new system *)
Definition opened (system : string) (s : table) : table * effects :=
  ({| systemId := system; updates := None; selected := []; checking := checking s; applying := None;
      unsupported := false; filter := filter s; announcedJob := 0 |},
   asks [CheckUpdates system false; GetStatus system]).
Definition status_loaded (status : ApplyStatus) (s : table) : table :=
  if decide (as_status status = Some Running)
  then set_applying (Some status) (set_announced (default 0 (as_startedAt status)) s) else s.

(** ** A job and its polling *)

Definition job_of (s : table) : option job_status := a ← applying s; as_status a.
Definition isApplying (s : table) : bool :=
  bool_decide (job_of s = Some Running) || bool_decide (job_of s = Some Unreachable).
(** the timer runs while a job does *)
Definition polling : table → bool := isApplying.

Definition with_status (k : job_status) (a : ApplyStatus) : ApplyStatus := {|
  as_status := Some k; as_packages := as_packages a; as_message := as_message a;
  as_startedAt := as_startedAt a; as_finishedAt := as_finishedAt a |}.

(** what is said about a finished job, and the job that counts as announced *)
Definition announcement (status : ApplyStatus) : list notice :=
  match as_status status with
  | Some Done => [PackagesUpdated (length <$> as_packages status)]
  | Some Failed => [UpdateFailed (as_message status)]
  | _ => []
  end.

(** the answer to a poll that was made for the system [asked]; a failed poll changes nothing *)
Definition polled (asked : string) (now : Z) (status : ApplyStatus) (s : table) : table * effects :=
  match as_status status with
  | Some Running => (set_applying (Some status) s, no_effects)
  | Some Unreachable => (set_applying (Some (with_status Unreachable (default status (applying s)))) s, no_effects)
  | _ =>
      let s := set_applying None s in
      let jobKey := default now (as_finishedAt status) in
      let '(s, said) :=
        if announcedJob s =? jobKey then (s, []) else (set_announced jobKey s, announcement status) in
      (set_selected [] s, {| notices := said; requests := [CheckUpdates asked false] |})
  end.

Definition applySelected (s : table) : effects :=
  match selected s with [] => no_effects | packages => asks [PostApply (systemId s) packages] end.
Definition apply_answered (asked : string) (packages : list string) (now : Z) (status : ApplyStatus) (s : table) :
    table * effects :=
  match as_status status with
  | Some Done =>
      (set_selected [] (set_announced (default now (as_finishedAt status)) s),
       {| notices := [PackagesUpdated (Some (length packages))]; requests := [CheckUpdates asked false] |})
  | Some Failed =>
      (set_selected [] (set_announced (default now (as_finishedAt status)) s),
       {| notices := [UpdateFailed (as_message status)]; requests := [CheckUpdates asked false] |})
  | Some _ => (set_applying (Some status) (set_announced 0 s), no_effects)
  | None =>
      (set_applying (Some {| as_status := Some Running; as_packages := Some packages; as_message := None;
                             as_startedAt := None; as_finishedAt := None |}) (set_announced 0 s), no_effects)
  end.

(** ** Checking now *)

Definition checkNow (s : table) : table * effects :=
  (set_checking true s, asks [CheckUpdates (systemId s) true]).
Definition check_answered (answer : option (list PackageUpdate)) (s : table) : table :=
  set_checking false (fetched answer s).
Definition check_failed (s : table) : table * effects :=
  (set_checking false s, {| notices := [ErrorShown "Failed to check for updates"]; requests := [] |}).

(** ** Lists and selection *)

Definition held (u : PackageUpdate) : bool := truthy (pu_hd u).
Definition filteredUpdates (s : table) : list PackageUpdate :=
  match updates s with
  | None => []
  | Some us =>
      match List.filter truthy (str_split " " (str_lower (filter s))) with
      | [] => us
      | terms => List.filter (λ u, forallb (str_includes (str_lower (pu_n u))) terms) us
      end
  end.
Definition selectableUpdates (s : table) : list PackageUpdate :=
  List.filter (λ u, negb (held u)) (filteredUpdates s).
Definition security (us : list PackageUpdate) : list PackageUpdate :=
  List.filter (λ u, truthy (pu_sec u) && negb (held u)) us.
Definition securityCount (s : table) : nat := length (security (default [] (updates s))).
Definition selectSecurity (s : table) : table :=
  set_selected (set_of (names_of (security (default [] (updates s))))) s.
Definition allFilteredSelected (s : table) : bool :=
  negb (Nat.eqb (length (selectableUpdates s)) 0)
  && forallb (λ u, set_has (pu_n u) (selected s)) (selectableUpdates s).
Definition toggleAll (s : table) : table :=
  let names := names_of (selectableUpdates s) in
  set_selected
    (if forallb (λ u, set_has (pu_n u) (selected s)) (selectableUpdates s)
     then foldl set_delete (selected s) names else foldl set_add (selected s) names) s.
Definition toggleOne (name : string) (s : table) : table :=
  set_selected (if set_has name (selected s) then set_delete (selected s) name
                else set_add (selected s) name) s.

Definition with_hold (hold : bool) (u : PackageUpdate) : PackageUpdate := {|
  pu_n := pu_n u; pu_cv := pu_cv u; pu_av := pu_av u; pu_hd := Some hold; pu_sec := pu_sec u |}.
Definition hold_rows (pkg : string) (hold : bool) (us : list PackageUpdate) : list PackageUpdate :=
  (λ u, if String.eqb (pu_n u) pkg then with_hold hold u else u) <$> us.
Definition setHold (pkg : string) (hold : bool) (s : table) : table * effects :=
  let s := set_updates (hold_rows pkg hold <$> updates s) s in
  (if hold then set_selected (set_delete (selected s) pkg) s else s, asks [PostHold (systemId s) pkg hold]).
(** after the request the list is fetched again, whether it was taken or not *)
Definition hold_answered (asked pkg : string) (hold ok : bool) : effects := {|
  notices := [if ok then HoldChanged pkg hold else ErrorShown "Failed to change hold"];
  requests := [CheckUpdates asked false] |}.

(** ** Controls *)

Definition hidden (s : table) : bool := unsupported s || bool_decide (updates s = None).
Definition check_enabled (s : table) : bool := negb (hidden s) && negb (checking s) && negb (isApplying s).
Definition security_enabled (s : table) : bool :=
  (0 <? securityCount s)%nat && check_enabled s.
Definition apply_enabled (s : table) : bool :=
  check_enabled s && negb (Nat.eqb (length (default [] (updates s))) 0)
  && negb (Nat.eqb (length (selected s)) 0).
(** the list takes no mouse while a job runs, but the keyboard reaches its boxes and buttons all the same *)
Definition rows_enabled (s : table) : bool := negb (hidden s).
Definition row_enabled (name : string) (s : table) : bool :=
  rows_enabled s && existsb (λ u, String.eqb (pu_n u) name && negb (held u)) (filteredUpdates s).

(** ** Events *)

Inductive event :=
| Opened (system : string)
| Answered (answer : option (list PackageUpdate)) | LoadFailed
| StatusLoaded (status : ApplyStatus)
| Polled (asked : string) (now : Z) (status : ApplyStatus)
| CheckClicked | CheckAnswered (answer : option (list PackageUpdate)) | CheckFailed
| ApplyClicked | ApplyAnswered (asked : string) (packages : list string) (now : Z) (status : ApplyStatus) | ApplyFailed
| Typed (text : string) | SecurityClicked | AllClicked | RowClicked (name : string)
| HoldClicked (pkg : string) (hold : bool) | HoldAnswered (asked pkg : string) (hold ok : bool).

Definition enabled (e : event) (s : table) : bool :=
  match e with
  | CheckClicked => check_enabled s | ApplyClicked => apply_enabled s
  | SecurityClicked => security_enabled s | AllClicked => rows_enabled s
  | RowClicked name => row_enabled name s | HoldClicked _ _ => rows_enabled s
  | _ => true
  end.
Definition step (e : event) (s : table) : table * effects :=
  match e with
  | Opened system => opened system s
  | Answered answer => (fetched answer s, no_effects)
  | LoadFailed => (set_unsupported s, no_effects)
  | StatusLoaded status => (status_loaded status s, no_effects)
  | Polled asked now status => polled asked now status s
  | CheckClicked => checkNow s
  | CheckAnswered answer => (check_answered answer s, no_effects)
  | CheckFailed => check_failed s
  | ApplyClicked => (s, applySelected s)
  | ApplyAnswered asked packages now status => apply_answered asked packages now status s
  | ApplyFailed => (s, {| notices := [ErrorShown "Failed to start update"]; requests := [] |})
  | Typed text => (set_filter text s, no_effects)
  | SecurityClicked => (selectSecurity s, no_effects)
  | AllClicked => (toggleAll s, no_effects)
  | RowClicked name => (toggleOne name s, no_effects)
  | HoldClicked pkg hold => setHold pkg hold s
  | HoldAnswered asked pkg hold ok => (s, hold_answered asked pkg hold ok)
  end.

Inductive reachable : table → Prop :=
| reach_new system : reachable (opened system (new_table system "")).1
| reach_step e s : reachable s → enabled e s = true → reachable (step e s).1.

(** ** Theorems: the selection *)

Lemma elem_set_add x name s : x ∈ set_add s name ↔ x ∈ s ∨ x = name.
Proof.
  unfold set_add, set_has. case_bool_decide; [set_solver|]. rewrite elem_of_app, list_elem_of_singleton. done.
Qed.
Lemma elem_set_delete x name s : x ∈ set_delete s name ↔ x ∈ s ∧ x ≠ name.
Proof.
  unfold set_delete. rewrite list_elem_of_In, filter_In, <-list_elem_of_In.
  by rewrite negb_true_iff, String.eqb_neq.
Qed.
Lemma NoDup_set_add name s : NoDup s → NoDup (set_add s name).
Proof.
  intros Hs. unfold set_add, set_has. case_bool_decide; [done|].
  apply NoDup_app. split; [done|]. split; [set_solver | apply NoDup_singleton].
Qed.
Lemma NoDup_set_delete name s : NoDup s → NoDup (set_delete s name).
Proof. apply NoDup_list_filter. Qed.

Lemma set_adds names s :
  (∀ x, x ∈ foldl set_add s names ↔ x ∈ s ∨ x ∈ names) ∧ (NoDup s → NoDup (foldl set_add s names)).
Proof.
  revert s. induction names as [|n names IH]; intros s; cbn.
  - split; [|done]. intros x. split; [by left | intros [|H%elem_of_nil]; done].
  - destruct (IH (set_add s n)) as [He Hn]. split; [|by intros; apply Hn, NoDup_set_add].
    intros x. rewrite He, elem_set_add, elem_of_cons. tauto.
Qed.
Lemma set_deletes names s :
  (∀ x, x ∈ foldl set_delete s names ↔ x ∈ s ∧ x ∉ names) ∧ (NoDup s → NoDup (foldl set_delete s names)).
Proof.
  revert s. induction names as [|n names IH]; intros s; cbn.
  - split; [|done]. intros x. split; [|by intros []]. intros. split; [done | apply not_elem_of_nil].
  - destruct (IH (set_delete s n)) as [He Hn]. split; [|by intros; apply Hn, NoDup_set_delete].
    intros x. rewrite He, elem_set_delete, not_elem_of_cons. tauto.
Qed.
Lemma elem_set_of x names : x ∈ set_of names ↔ x ∈ names.
Proof. unfold set_of. rewrite (proj1 (set_adds names [])). split; [intros [H%elem_of_nil|]; done | by right]. Qed.

Lemma elem_bool_filter {A} (f : A → bool) x l : x ∈ List.filter f l ↔ x ∈ l ∧ f x = true.
Proof. by rewrite list_elem_of_In, filter_In, <-list_elem_of_In. Qed.

(** the names of the rows shown are names of updates *)
Lemma filtered_names s name : name ∈ names_of (filteredUpdates s) → name ∈ names_of (default [] (updates s)).
Proof.
  unfold filteredUpdates. destruct (updates s) as [us|]; [|done]. cbn.
  destruct (List.filter truthy _); [done|]. unfold names_of.
  intros (u & -> & [Hu _]%elem_bool_filter)%list_elem_of_fmap. by apply list_elem_of_fmap_2.
Qed.
Lemma selectable_names s name :
  name ∈ names_of (selectableUpdates s) →
  name ∈ names_of (default [] (updates s)).
Proof.
  intros (u & -> & [Hu _]%elem_bool_filter)%list_elem_of_fmap. apply filtered_names. by apply list_elem_of_fmap_2.
Qed.
Lemma names_of_hold pkg hold us :
  names_of (hold_rows pkg hold us) = names_of us.
Proof.
  unfold names_of, hold_rows. induction us as [|u us IH]; [done|]. rewrite !fmap_cons, IH.
  by destruct (String.eqb (pu_n u) pkg).
Qed.

(** the selection is a set of names of the updates that are listed *)
Definition selection_ok (s : table) : Prop :=
  NoDup (selected s) ∧ ∀ name, name ∈ selected s → name ∈ names_of (default [] (updates s)).

Lemma selection_empty s : selection_ok (set_selected [] s).
Proof. split; [constructor | by intros n H%elem_of_nil]. Qed.
Lemma selection_fetched answer s : selection_ok s → selection_ok (fetched answer s).
Proof.
  intros [Hnd Hs]. split; cbn; [by apply NoDup_list_filter|].
  intros name [_ Hn]%elem_bool_filter. by apply bool_decide_eq_true in Hn.
Qed.
Lemma selection_toggleAll s : selection_ok s → selection_ok (toggleAll s).
Proof.
  intros [Hnd Hs]. unfold toggleAll. destruct (forallb _ _).
  - destruct (set_deletes (names_of (selectableUpdates s)) (selected s)) as [He Hn]. split; [by apply Hn|].
    intros name [Hin _]%He. by apply Hs.
  - destruct (set_adds (names_of (selectableUpdates s)) (selected s)) as [He Hn]. split; [by apply Hn|].
    intros name [Hin|Hin]%He; [by apply Hs | by apply selectable_names].
Qed.
Lemma selection_toggleOne name s :
  name ∈ names_of (default [] (updates s)) → selection_ok s → selection_ok (toggleOne name s).
Proof.
  intros Hin [Hnd Hs]. unfold toggleOne. destruct (set_has name (selected s)); cbn.
  - split; [by apply NoDup_set_delete|]. intros x [Hx _]%elem_set_delete. by apply Hs.
  - split; [by apply NoDup_set_add|]. intros x [Hx| ->]%elem_set_add; [by apply Hs | done].
Qed.
Lemma selection_setHold pkg hold s : selection_ok s → selection_ok (setHold pkg hold s).1.
Proof.
  intros [Hnd Hs].
  assert (∀ names : list string, (∀ n, n ∈ names → n ∈ selected s) → ∀ n, n ∈ names →
    n ∈ names_of (default [] (hold_rows pkg hold <$> updates s))) as Hn.
  { intros names Hsub n Hin. apply Hsub, Hs in Hin. destruct (updates s); [|done]. cbn. by rewrite names_of_hold. }
  destruct hold; cbn.
  - split; [by apply NoDup_set_delete|]. apply Hn. by intros n [? _]%elem_set_delete.
  - split; [done|]. by apply Hn.
Qed.
Lemma selection_security s : selection_ok s → selection_ok (selectSecurity s).
Proof.
  intros _. split; [by apply (set_adds _ []); constructor|]. intros name Hin.
  change (name ∈ set_of (names_of (security (default [] (updates s))))) in Hin.
  rewrite elem_set_of in Hin. apply list_elem_of_fmap in Hin as (u & -> & [Hu _]%elem_bool_filter). by apply list_elem_of_fmap_2.
Qed.

Lemma reachable_selection s : reachable s → selection_ok s.
Proof.
  intros Hr. induction Hr as [system|e s Hr IH He]; [apply (selection_empty (new_table system ""))|].
  destruct e; cbn [step]; cbn [enabled] in He; try done; try apply IH.
  - apply (selection_empty (opened system s).1).
  - by apply selection_fetched.
  - unfold status_loaded. destruct (decide _); apply IH.
  - unfold polled. destruct (as_status status) as [[]|]; try apply IH;
      destruct (_ =? _); apply selection_empty.
  - by apply (selection_fetched answer).
  - unfold apply_answered. destruct (as_status status) as [[]|]; try apply IH; apply selection_empty.
  - by apply selection_security.
  - by apply selection_toggleAll.
  - apply selection_toggleOne; [|done]. apply andb_prop in He as [_ He].
    apply existsb_exists in He as (u & Hu & Hn). apply andb_prop in Hn as [Hn _].
    apply String.eqb_eq in Hn as <-. apply filtered_names, list_elem_of_fmap_2. by apply list_elem_of_In.
  - by apply selection_setHold.
Qed.

(** Fact [selection_invariant]: in every state the page can reach, with answers of earlier requests
    arriving in any order, the selection holds no name twice and only names of updates that are
    listed; without a list it is empty. *)
Theorem selection_invariant s : reachable s →
  NoDup (selected s) ∧ (∀ name, name ∈ selected s → name ∈ names_of (default [] (updates s)))
  ∧ (updates s = None → selected s = []).
Proof.
  intros Hok%reachable_selection.
  split; [apply Hok|]. split; [apply Hok|]. intros Hu. destruct Hok as [_ Hs]. rewrite Hu in Hs.
  destruct (selected s) as [|n l]; [done|]. assert (n ∈ []) as H%elem_of_nil by (apply Hs; left). done.
Qed.

Definition ex_update (name : string) (hold : bool) : PackageUpdate := {|
  pu_n := name; pu_cv := Some "1"; pu_av := Some "2"; pu_hd := Some hold; pu_sec := Some true |}%string.
Fixpoint run (es : list event) (s : table) : table :=
  match es with [] => s | e :: es => run es (step e s).1 end.
(** every event of a list runs when its control is enabled *)
Fixpoint all_enabled (es : list event) (s : table) : bool :=
  match es with [] => true | e :: es => enabled e s && all_enabled es (step e s).1 end.
Lemma run_reachable es s : reachable s → all_enabled es s = true → reachable (run es s).
Proof.
  revert s. induction es as [|e es IH]; intros s Hs He; [done|]. apply andb_prop in He as [He Hes].
  apply IH; [by apply reach_step | done].
Qed.
Definition page (system : string) (es : list event) : table := run es (opened system (new_table system "")).1.

Lemma selection_invariant_witness :
  let s := page "a" [Answered (Some [ex_update "curl" false; ex_update "git" false]); AllClicked;
                     Answered (Some [ex_update "git" false])] in
  NoDup (selected s) ∧ selected s = ["git"%string].
Proof.
  intros s. split; [|by vm_compute]. apply (selection_invariant s). apply run_reachable; [constructor | by vm_compute].
Defined.

(** Fact [toggleAll_spec]: the box at the top selects every listed package that is not held, or, when all of
    them are selected, none; packages that the search hides, and held ones, keep their place in or
    out of the selection, and afterwards the box shows what it did. *)
Theorem toggleAll_spec s name :
  (name ∈ selected (toggleAll s) ↔
     if bool_decide (name ∈ names_of (selectableUpdates s))
     then ¬ (∀ u, u ∈ selectableUpdates s → pu_n u ∈ selected s) else name ∈ selected s)
  ∧ (selectableUpdates s ≠ [] →
     allFilteredSelected (toggleAll s) = negb (allFilteredSelected s)).
Proof.
  assert (∀ s', forallb (λ u, set_has (pu_n u) (selected s')) (selectableUpdates s') = true ↔
      ∀ u, u ∈ selectableUpdates s' → pu_n u ∈ selected s') as Hall.
  { intros s'. rewrite forallb_forall. unfold set_has.
    split; intros Hu u Hin; [apply list_elem_of_In in Hin | apply list_elem_of_In in Hin];
      apply Hu in Hin; by apply bool_decide_eq_true in Hin || apply bool_decide_eq_true. }
  assert (∀ name, name ∈ selected (toggleAll s) ↔
     if bool_decide (name ∈ names_of (selectableUpdates s))
     then ¬ (∀ u, u ∈ selectableUpdates s → pu_n u ∈ selected s) else name ∈ selected s) as Hsel.
  { clear name. intros name. unfold toggleAll. cbn.
    destruct (forallb (λ u, set_has (pu_n u) (selected s)) (selectableUpdates s)) eqn:E.
    - rewrite (proj1 (set_deletes _ _)). case_bool_decide as Hn; [|tauto].
      split; [by intros [_ []]|]. intros []. by apply Hall.
    - apply not_true_iff_false in E. rewrite Hall in E. rewrite (proj1 (set_adds _ _)).
      case_bool_decide; tauto. }
  split; [apply Hsel|]. intros Hne.
  change (selectableUpdates (toggleAll s)) with (selectableUpdates s) in *. unfold allFilteredSelected.
  change (selectableUpdates (toggleAll s)) with (selectableUpdates s).
  destruct (selectableUpdates s) as [|u us] eqn:Eu; [done|]. rewrite <-Eu in *. clear Hne.
  rewrite Eu. cbn [length Nat.eqb negb andb]. rewrite <-Eu.
  assert (∀ u, u ∈ selectableUpdates s → pu_n u ∈ names_of (selectableUpdates s)) as Hin
    by (intros; by apply list_elem_of_fmap_2).
  assert (u ∈ selectableUpdates s) as Hu by (rewrite Eu; left).
  destruct (forallb (λ u, set_has (pu_n u) (selected s)) (selectableUpdates s)) eqn:E; cbn.
  - apply not_true_iff_false. intros Hf. apply (Hall (toggleAll s)) with (u := u) in Hf; [|done].
    apply Hsel in Hf. rewrite bool_decide_eq_true_2 in Hf by by apply Hin. apply Hf. by apply Hall.
  - apply not_true_iff_false in E. rewrite Hall in E. apply (Hall (toggleAll s)). intros x Hx.
    apply Hsel. rewrite bool_decide_eq_true_2 by by apply Hin. done.
Qed.
Lemma toggleAll_spec_witness :
  allFilteredSelected (toggleAll (page "a" [Answered (Some [ex_update "git" false])])) = true.
Proof.
  rewrite (proj2 (toggleAll_spec (page "a" [Answered (Some [ex_update "git" false])]) "git")); [reflexivity|].
  discriminate.
Defined.

(** Fact [held_package_requested]: a package that is held on the system while it is selected stays selected
    when the list is fetched again, cannot be unselected by its row, and is among the packages the
    next installation asks for. *)
Theorem held_package_requested : ∃ s,
  reachable s ∧ apply_enabled s = true ∧ row_enabled "git" s = false
  ∧ (∃ u, u ∈ default [] (updates s) ∧ pu_n u = "git"%string ∧ held u = true)
  ∧ requests (applySelected s) = [PostApply "a" ["git"%string]].
Proof.
  exists (page "a" [Answered (Some [ex_update "git" false]); RowClicked "git"; CheckClicked;
                    CheckAnswered (Some [ex_update "git" true])]).
  split; [apply run_reachable; [constructor | by vm_compute]|].
  do 2 (split; [by vm_compute|]). split; [|by vm_compute].
  exists (ex_update "git" true). split; [left | done].
Qed.

(** Fact [stale_list_shown]: answers are not told apart by the system they are about: one that was asked for
    the system shown before replaces the list of the system shown now, and its packages are what is
    then asked to be installed there. *)
Theorem stale_list_shown : ∃ s,
  reachable s ∧ systemId s = "b"%string
  ∧ updates s = Some [ex_update "only-on-a" false]
  ∧ apply_enabled s = true ∧ requests (applySelected s) = [PostApply "b" ["only-on-a"%string]].
Proof.
  exists (page "a" [Opened "b"; Answered (Some [ex_update "git" false]);
                    Answered (Some [ex_update "only-on-a" false]); RowClicked "only-on-a"]).
  split; [apply run_reachable; [constructor | by vm_compute]|]. by vm_compute.
Qed.

(** ** Theorems: announcing a job *)

Definition about_job (finished : Z) (status : ApplyStatus) : Prop :=
  match as_status status with
  | Some Running | Some Unreachable => True
  | Some Done | Some Failed => as_finishedAt status = Some finished
  | _ => False
  end.
Definition is_finished (status : ApplyStatus) : bool :=
  bool_decide (as_status status = Some Done) || bool_decide (as_status status = Some Failed).
(** polls answered at given times *)
Fixpoint poll_run (asked : string) (polls : list (Z * ApplyStatus)) (s : table) : table * list notice :=
  match polls with
  | [] => (s, [])
  | (now, status) :: rest =>
      let '(s, e) := polled asked now status s in
      let '(s, said) := poll_run asked rest s in (s, notices e ++ said)
  end.

Lemma polled_job asked now status s f :
  about_job f status →
  announcedJob (polled asked now status s).1 = (if is_finished status then f else announcedJob s)
  ∧ notices (polled asked now status s).2 =
      (if is_finished status && negb (announcedJob s =? f) then announcement status else [])
  ∧ length (announcement status) = (if is_finished status then 1 else 0)%nat
  ∧ polling (polled asked now status s).1 = negb (is_finished status).
Proof.
  destruct status as [st packages message started fin]. unfold about_job, polled, is_finished, announcement.
  cbn [as_status as_finishedAt as_packages as_message].
  destruct st as [[]|]; try done; intros Hf; try (rewrite Hf; cbn [default from_option id]);
    cbn; try (destruct (Z.eqb_spec (announcedJob s) f)); cbn; repeat split; try done.
Qed.

(** C24: however often the end of one job is reported, and whether or not reports that
    it still runs come late, it is announced once, and not at all before it has ended; polling goes
    on exactly when the last report says that the job runs. *)
Theorem job_announced_once asked polls s f :
  announcedJob s ≠ f → Forall (λ p, about_job f p.2) polls →
  length (poll_run asked polls s).2 = (if existsb (λ p, is_finished p.2) polls then 1 else 0)%nat
  ∧ polling (poll_run asked polls s).1 =
      match last polls with Some p => negb (is_finished p.2) | None => polling s end.
Proof.
  intros Hne Hf. assert (∀ polls s, Forall (λ p, about_job f p.2) polls →
    length (poll_run asked polls s).2 =
      (if existsb (λ p, is_finished p.2) polls && negb (announcedJob s =? f)%Z then 1 else 0)%nat
    ∧ polling (poll_run asked polls s).1 =
      match last polls with Some p => negb (is_finished p.2) | None => polling s end) as H.
  { clear. induction polls as [|[now status] polls IH]; intros s; [done|].
    intros [Hj Hf]%Forall_cons. cbn [poll_run]. cbn [snd] in Hj.
    destruct (polled_job asked now status s f Hj) as (Ha & Hn & Hl & Hp).
    destruct (polled asked now status s) as [s' e]. cbn [fst snd] in *.
    destruct (IH s' Hf) as [IHl IHp]. destruct (poll_run asked polls s') as [s'' said]. cbn [fst snd] in *.
    split.
    - rewrite length_app, IHl, Hn, Ha. cbn [existsb snd]. destruct (is_finished status); cbn.
      + rewrite Z.eqb_refl. rewrite andb_false_r. destruct (announcedJob s =? f); cbn; [done|]. by rewrite Hl.
      + done.
    - rewrite IHp, Hp. destruct polls as [|p polls]; [done|].
      change (last ((now, status) :: p :: polls)) with (last (p :: polls)).
      destruct (last (p :: polls)) eqn:E; [done|]. by apply last_None in E. }
  destruct (H polls s Hf) as [Hl Hp]. split; [|done]. rewrite Hl.
  rewrite (proj2 (Z.eqb_neq _ _) Hne). by rewrite andb_true_r.
Qed.
Definition ex_status (k : job_status) (f : option Z) : ApplyStatus := {|
  as_status := Some k; as_packages := Some ["git"%string]; as_message := None; as_startedAt := Some 1;
  as_finishedAt := f |}.
Lemma job_announced_once_witness :
  length (poll_run "a" [(5000, ex_status Done (Some 7)); (9000, ex_status Running None);
                        (10000, ex_status Done (Some 7))] (new_table "a" "")).2 = 1%nat.
Proof.
  apply (job_announced_once "a" [(5000, ex_status Done (Some 7)); (9000, ex_status Running None);
                        (10000, ex_status Done (Some 7))] (new_table "a" "") 7).
  - discriminate.
  - repeat constructor.
Defined.

(** an end that is reported without its time is announced again by every report *)
Example announced_again :
  length (poll_run "a" [(5000, ex_status Done None); (5001, ex_status Done None)] (new_table "a" "")).2 = 2%nat.
Proof. reflexivity. Qed.
