(* ===== verification/AlertsSheet.v ===== *)
(** * The alerts sheet: [components/alerts/alerts-sheet.tsx]

    The switches and sliders of one kind of alert, for one system or for all, the systems a
    change is for, and the two debounced requests that all kinds of alerts share.  The hub's
    handlers ([internal/alerts/alerts_api.go]) say what the requests do. *)
From Stdlib Require Import QArith ZArith Lia Sorting.Sorted.
From S2P Require Import Prelude JsValue Types Utils Alerts.
Open Scope Z_scope.

(** ** Requests *)

Definition endpoint : string := "/api/beszel/user-alerts".
Definition alertDebounce : Z := 100.
Definition alertKeys : list string := jkeys alertInfo.

Record upsert := { up_name : string; up_value : Q; up_min : Z; up_systems : list string; up_overwrite : bool }.
Record deletion := { del_name : string; del_systems : list string }.
(** the pending call of each of the two debounced functions; all alerts share them *)
Record timers := { upsertAlerts : debounced upsert; deleteAlerts : debounced deletion }.
Definition no_timers : timers :=
  {| upsertAlerts := Build_debounced None; deleteAlerts := Build_debounced None |}.

(** ** One kind of alert *)

Record content := {
  alertKey : string; system : string; global : bool;
  checked : bool; min : Z; value : Q }.

(** the first render: [alert] is the system's own alert of this kind *)
Definition content_init (key sys : string) (global : bool) (data : AlertInfo) (alert : option AlertRecord) :
    content := {|
  alertKey := key; system := sys; global := global;
  checked := if global then false else match alert with Some _ => true | None => false end;
  min := js_or (al_min <$> alert) 10;
  value := js_or (al_value <$> alert)
             (match ai_singleDesc data with
              | Some d => if truthy d then 0%Q else default 80%Q (ai_start data)
              | None => default 80%Q (ai_start data)
              end) |}.

(** [alertsWhenGlobalSelected]: a copy of the alerts, made when the tab is chosen *)
Definition alertsWhenGlobalSelected (tab_changed : bool) (alerts previous : AlertMap) : AlertMap :=
  if tab_changed then alerts else previous.

Definition has_alert (initial : AlertMap) (sys key : string) : bool :=
  match jget sys initial with Some m => jhas key m | None => false end.
Definition getSystemIds (allSystems : list SystemRecord) (overwriteExisting : bool) (initialAlertsState : AlertMap)
    (c : content) : list string :=
  if global c then
    sys_id <$> List.filter (λ s, overwriteExisting || negb (has_alert initialAlertsState (sys_id s) (alertKey c)))
                 allSystems
  else [system c].

Definition sendUpsert (now : Z) (systems : list string) (c : content) (min : Z) (value : Q) (t : timers) : timers :=
  match systems with
  | [] => t
  | _ => {| upsertAlerts := debounce_call alertDebounce now
              {| up_name := alertKey c; up_value := value; up_min := min; up_systems := systems;
                 up_overwrite := true |} (upsertAlerts t);
            deleteAlerts := deleteAlerts t |}
  end.

Definition forget_alert (key : string) (initial : AlertMap) : AlertMap := (λ p, (p.1, jdel key p.2)) <$> initial.

Definition with_checked (b : bool) (c : content) : content := {|
  alertKey := alertKey c; system := system c; global := global c; checked := b; min := min c; value := value c |}.

(** the switch: content, timers and the copy of the alerts afterwards *)
Definition onCheckedChange (now : Z) (allSystems : list SystemRecord) (overwriteExisting : bool)
    (newChecked : bool) (c : content) (t : timers) (initial : AlertMap) : content * timers * AlertMap :=
  let systems := getSystemIds allSystems overwriteExisting initial c in
  let c := with_checked newChecked c in
  if newChecked then (c, sendUpsert now systems c (min c) (value c) t, initial)
  else
    (c, {| upsertAlerts := upsertAlerts t;
           deleteAlerts := debounce_call alertDebounce now
             {| del_name := alertKey c; del_systems := systems |} (deleteAlerts t) |},
     if overwriteExisting then forget_alert (alertKey c) initial else initial).

(** ** The timers *)

Inductive sent := Upserted (u : upsert) | Deleted (d : deletion).

(** the clock reaches [now]: due functions run in the order in which they were due *)
Definition tick (now : Z) (t : timers) : list sent * timers :=
  let '(u, ups) := debounce_tick now (upsertAlerts t) in
  let '(d, dels) := debounce_tick now (deleteAlerts t) in
  let us := option_list (Upserted <$> u) in
  let ds := option_list (Deleted <$> d) in
  (match timeout (upsertAlerts t), timeout (deleteAlerts t) with
   | Some (_, due), Some (_, due') => if due' <? due then ds ++ us else us ++ ds
   | _, _ => us ++ ds
   end, {| upsertAlerts := ups; deleteAlerts := dels |}).

(** switch changes of one content at given times, then a long pause *)
Fixpoint toggles (allSystems : list SystemRecord) (overwrite : bool) (changes : list (Z * bool)) (c : content)
    (t : timers) (initial : AlertMap) : list sent * content :=
  match changes with
  | [] => let due := λ A (x : debounced A), match timeout x with Some (_, d) => d | None => 0 end in
          ((tick (Z.max (due _ (upsertAlerts t)) (due _ (deleteAlerts t))) t).1, c)
  | (now, b) :: rest =>
      let '(out, t) := tick now t in
      let '(c, t, initial) := onCheckedChange now allSystems overwrite b c t initial in
      let '(out', c) := toggles allSystems overwrite rest c t initial in (out ++ out', c)
  end.

(** ** The hub *)

(** the alerts of a user: value and minutes by system and kind *)
Definition hub := string → string → option (Q * Z).
(** [None] is the error for a request without a kind or without systems.  The minutes are a byte there; the
    sheet sends those of the slider (1 to 60) or of the stored alert, which came through the same byte *)
Definition UpsertUserAlerts (u : upsert) (h : hub) : option hub :=
  if truthy (up_name u) && negb (Nat.eqb (length (up_systems u)) 0) then
    Some (λ sys name,
      if String.eqb name (up_name u) && bool_decide (sys ∈ up_systems u)
         && (up_overwrite u || bool_decide (h sys name = None))
      then Some (up_value u, up_min u) else h sys name)
  else None.
Definition DeleteUserAlerts (d : deletion) (h : hub) : option hub :=
  if truthy (del_name d) && negb (Nat.eqb (length (del_systems d)) 0) then
    Some (λ sys name, if String.eqb name (del_name d) && bool_decide (sys ∈ del_systems d) then None else h sys name)
  else None.
(** a rejected request changes nothing (and shows an error) *)
Definition hub_step (h : hub) (s : sent) : hub :=
  default h (match s with Upserted u => UpsertUserAlerts u h | Deleted d => DeleteUserAlerts d h end).

(** ** Theorems: the systems a change is for *)

(** Fact [getSystemIds_spec]: for all systems, a change is for those that had no alert of the kind when the
    tab was opened, and for every system when existing alerts are to be overwritten; once
    all alerts of a kind have been deleted that way, it is for every system in any case. *)
Theorem getSystemIds_spec allSystems overwrite initial c sys :
  global c = true →
  (sys ∈ getSystemIds allSystems overwrite initial c ↔
     sys ∈ (sys_id <$> allSystems) ∧ (overwrite = true ∨ has_alert initial sys (alertKey c) = false))
  ∧ getSystemIds allSystems false (forget_alert (alertKey c) initial) c = sys_id <$> allSystems.
Proof.
  intros Hg. unfold getSystemIds. rewrite Hg. split.
  - rewrite !list_elem_of_fmap. split.
    + intros (s & -> & Hs). rewrite list_elem_of_In, filter_In, <-list_elem_of_In in Hs.
      destruct Hs as [Hs Hf]. apply orb_prop in Hf. rewrite negb_true_iff in Hf. split; [by exists s | done].
    + intros [(s & -> & Hs) Ho]. exists s. split; [done|]. rewrite list_elem_of_In, filter_In, <-list_elem_of_In.
      split; [done|]. rewrite orb_true_iff, negb_true_iff. done.
  - assert (∀ s, has_alert (forget_alert (alertKey c) initial) s (alertKey c) = false) as Hn.
    { intros s. unfold has_alert, forget_alert. induction initial as [|[k m] initial IH]; [done|].
      rewrite fmap_cons. cbn [jget fst snd]. destruct (String.eqb s k); [|done]. unfold jhas. by rewrite jget_jdel_eq. }
    f_equal. induction allSystems as [|s l IH]; [done|]. cbn [List.filter]. by rewrite Hn, IH.
Qed.
Lemma getSystemIds_spec_witness :
  getSystemIds [example_system "a" "web" Status_Up; example_system "b" "db" Status_Up] false []
    (content_init "CPU" "a" true (plain_info "CPU Usage" "%" "" None) None) = ["a"; "b"]%string.
Proof.
  apply (proj2 (getSystemIds_spec [example_system "a" "web" Status_Up; example_system "b" "db" Status_Up] false []
    (content_init "CPU" "a" true (plain_info "CPU Usage" "%" "" None) None) "a" eq_refl)).
Defined.

(** what an accepted request does to one alert *)
Lemma hub_upserted u h sys name : up_overwrite u = true → truthy (up_name u) = true → up_systems u ≠ [] →
  hub_step h (Upserted u) sys name =
  if String.eqb name (up_name u) && bool_decide (sys ∈ up_systems u) then Some (up_value u, up_min u) else h sys name.
Proof.
  intros Ho Hn Hs. unfold hub_step, UpsertUserAlerts. rewrite Hn, Ho. destruct (up_systems u) as [|x l]; [done|].
  cbn. by rewrite andb_true_r.
Qed.
Lemma hub_deleted d h sys name : truthy (del_name d) = true → del_systems d ≠ [] →
  hub_step h (Deleted d) sys name =
  if String.eqb name (del_name d) && bool_decide (sys ∈ del_systems d) then None else h sys name.
Proof.
  intros Hn Hs. unfold hub_step, DeleteUserAlerts. rewrite Hn. by destruct (del_systems d).
Qed.

(** ** Theorems: one switch *)

(** the requests that switch changes leave behind, for one system *)
Definition upsert_of (c : content) : upsert := {|
  up_name := alertKey c; up_value := value c; up_min := min c; up_systems := [system c]; up_overwrite := true |}.
Definition deletion_of (c : content) : deletion := {| del_name := alertKey c; del_systems := [system c] |}.
Definition request_of (b : bool) (c : content) : sent :=
  if b then Upserted (upsert_of c) else Deleted (deletion_of c).

(** the request of the last change, made at [now], is pending, and the other timer is due before *)
Definition pending (now : Z) (b : bool) (c : content) (t : timers) : Prop :=
  let due := now + alertDebounce in
  if b then timeout (upsertAlerts t) = Some (upsert_of c, due)
            ∧ ∀ d due', timeout (deleteAlerts t) = Some (d, due') → due' < due
  else timeout (deleteAlerts t) = Some (deletion_of c, due)
       ∧ ∀ u due', timeout (upsertAlerts t) = Some (u, due') → due' < due.
(** no timer is due later than the waiting time after [now] *)
Definition due_by (now : Z) (t : timers) : Prop :=
  (∀ u due, timeout (upsertAlerts t) = Some (u, due) → due ≤ now + alertDebounce)
  ∧ (∀ d due, timeout (deleteAlerts t) = Some (d, due) → due ≤ now + alertDebounce).

Lemma pending_due_by now b c t : pending now b c t → due_by now t.
Proof.
  destruct b; intros [H1 H2]; (split; [intros u due E | intros d due E]); rewrite ?H1 in E;
    first [injection E as <- <-; lia | apply H2 in E; lia].
Qed.

Lemma tick_due_by now now' t : due_by now t → due_by now (tick now' t).2.
Proof.
  intros [Hu Hd]. unfold tick. destruct (debounce_tick now' (upsertAlerts t)) as [u ups] eqn:Eu.
  destruct (debounce_tick now' (deleteAlerts t)) as [d dels] eqn:Ed. cbn.
  assert (∀ A (x x' : debounced A) o, debounce_tick now' x = (o, x') →
    ∀ a due, timeout x' = Some (a, due) → timeout x = Some (a, due)) as Hk.
  { intros A x x' o. unfold debounce_tick. destruct (timeout x) as [[a due]|] eqn:E; [|intros [= <- <-]; congruence].
    destruct (due <=? now'); intros [= <- <-] a' due' Ha; [discriminate Ha | congruence]. }
  split; cbn; [intros a due E; apply (Hu a) | intros a due E; apply (Hd a)]; eapply Hk; eauto.
Qed.

Lemma change_pending now now' allSystems overwrite b c t initial :
  global c = false → due_by now t → now < now' →
  pending now' b c (onCheckedChange now' allSystems overwrite b c t initial).1.2.
Proof.
  intros Hg [Hu Hd] Hn. unfold onCheckedChange, getSystemIds. rewrite Hg. destruct b; cbn.
  - split; [done|]. intros d due E. apply Hd in E. unfold alertDebounce in *. lia.
  - split; [done|]. intros u due E. apply Hu in E. unfold alertDebounce in *. lia.
Qed.

Lemma pending_fires now b c t :
  pending now b c t →
  let due := λ A (x : debounced A), match timeout x with Some (_, d) => d | None => 0 end in
  last (tick (Z.max (due _ (upsertAlerts t)) (due _ (deleteAlerts t))) t).1 = Some (request_of b c).
Proof.
  intros Hp due. unfold tick, debounce_tick, due. clear due.
  destruct b; destruct Hp as [-> Ho].
  - destruct (timeout (deleteAlerts t)) as [[d due']|] eqn:E.
    + specialize (Ho d due' eq_refl). rewrite !(proj2 (Z.leb_le _ _)) by lia. cbn.
      by rewrite (proj2 (Z.ltb_lt _ _)) by lia.
    + by rewrite !(proj2 (Z.leb_le _ _)) by lia.
  - destruct (timeout (upsertAlerts t)) as [[u due']|] eqn:E.
    + specialize (Ho u due' eq_refl). rewrite !(proj2 (Z.leb_le _ _)) by lia. cbn.
      by rewrite (proj2 (Z.ltb_ge _ _)) by lia.
    + by rewrite !(proj2 (Z.leb_le _ _)) by lia.
Qed.

Lemma toggles_settle allSystems overwrite changes now b c t initial :
  global c = false → checked c = b → pending now b c t → StronglySorted Z.lt (now :: changes.*1) →
  let final := match last changes with Some p => p.2 | None => b end in
  last (toggles allSystems overwrite changes c t initial).1 = Some (request_of final c)
  ∧ checked (toggles allSystems overwrite changes c t initial).2 = final.
Proof.
  revert now b c t initial. induction changes as [|[now' b'] changes IH]; intros now b c t initial Hg Hc Hp Hs.
  - cbn [toggles last fst snd]. split; [by apply pending_fires in Hp | done].
  - apply StronglySorted_inv in Hs as [Hs Hlt]. rewrite Forall_forall in Hlt.
    assert (now < now') as Hn by (apply Hlt; left). cbn [toggles].
    pose proof (tick_due_by now now' t (pending_due_by _ _ _ _ Hp)) as Hd.
    destruct (tick now' t) as [out t'] eqn:Et. cbn [snd] in Hd.
    pose proof (change_pending now now' allSystems overwrite b' c t' initial Hg Hd Hn) as Hp'.
    destruct (onCheckedChange now' allSystems overwrite b' c t' initial) as [[c' t''] initial'] eqn:Ec.
    assert (c' = with_checked b' c) as ->
      by (unfold onCheckedChange in Ec; destruct b'; by injection Ec as <- <- <-).
    cbn [fst snd] in Hp'.
    destruct (IH now' b' (with_checked b' c) t'' initial') as [IHl IHc]; [done | done | by destruct b' | done |].
    assert (match last ((now', b') :: changes) with Some p => p.2 | None => b end =
            match last changes with Some p => p.2 | None => b' end) as Hf.
    { destruct changes as [|p changes]; [done|]. change (last ((now', b') :: p :: changes)) with (last (p :: changes)).
      destruct (last (p :: changes)) eqn:E; [done|]. by apply last_None in E. }
    cbv zeta in *. rewrite Hf. destruct (toggles _ _ changes _ t'' initial') as [out' c']. cbn [fst snd] in *.
    split; [|done]. rewrite last_app, IHl. by destruct (match last changes with Some p => p.2 | None => b' end).
Qed.

(** C29: however quickly the switch of a system's alert is turned on and off, once the
    timers have run the alert is there, with the sliders' values, exactly when the switch is on;
    the requests of one switch never overtake each other. *)
Theorem switch_settles allSystems overwrite now b changes c initial h :
  global c = false → truthy (alertKey c) = true → StronglySorted Z.lt (now :: changes.*1) →
  let final := match last changes with Some p => p.2 | None => b end in
  let '(out, c') := toggles allSystems overwrite ((now, b) :: changes) c no_timers initial in
  checked c' = final
  ∧ foldl hub_step h out (system c) (alertKey c) = if final then Some (value c, min c) else None.
Proof.
  intros Hg Hk Hs final. cbn [toggles].
  change (tick now no_timers) with (@nil sent, no_timers). cbv beta iota.
  pose proof (change_pending (now - 1) now allSystems overwrite b c no_timers initial Hg) as Hp.
  destruct (onCheckedChange now allSystems overwrite b c no_timers initial) as [[c1 t1] initial1] eqn:Ec.
  assert (c1 = with_checked b c) as ->
    by (unfold onCheckedChange in Ec; destruct b; by injection Ec as <- <- <-).
  destruct (toggles_settle allSystems overwrite changes now b (with_checked b c) t1 initial1) as [Hl Hc];
    [done | done | | done |].
  { cbn [fst snd] in Hp. destruct b; apply Hp; (split; by intros ? ? E) || lia. }
  fold final in Hl, Hc. destruct (toggles _ _ changes _ t1 initial1) as [out c']. cbn [fst snd app] in *.
  split; [done|]. apply last_Some in Hl as [pre ->]. rewrite foldl_app. cbn [foldl].
  unfold request_of. destruct final.
  - rewrite hub_upserted by done. cbn. rewrite String.eqb_refl, bool_decide_eq_true_2; [done | left].
  - rewrite hub_deleted by done. cbn. rewrite String.eqb_refl, bool_decide_eq_true_2; [done | left].
Qed.
Lemma switch_settles_witness :
  let c := content_init "CPU" "a" false (plain_info "CPU Usage" "%" "" None) None in
  let '(out, c') := toggles [] false [(0, true); (10, false); (20, true)] c no_timers [] in
  checked c' = true ∧ foldl hub_step (λ _ _, None) out "a"%string "CPU"%string = Some (80%Q, 10).
Proof.
  intros c.
  pose proof (switch_settles [] false 0 true [(10, false); (20, true)] c [] (λ _ _, None) eq_refl eq_refl) as H.
  destruct (toggles [] false [(0, true); (10, false); (20, true)] c no_timers []) as [out c'].
  apply H. repeat constructor.
Defined.

(** two kinds of alerts that are changed within the waiting time share a timer: the first change is
    never sent *)
Lemma shared_timer_loses_change now now' c c' min min' value value' systems systems' t :
  systems ≠ [] → systems' ≠ [] → now' < now + alertDebounce → timeout (upsertAlerts t) = None →
  let t1 := sendUpsert now systems c min value t in
  let '(out, t2) := tick now' t1 in
  (∀ u, Upserted u ∈ out → False)
  ∧ timeout (upsertAlerts (sendUpsert now' systems' c' min' value' t2)) =
      Some ({| up_name := alertKey c'; up_value := value'; up_min := min'; up_systems := systems';
               up_overwrite := true |}, now' + alertDebounce).
Proof.
  intros Hs Hs' Hn Hu. destruct systems as [|s l]; [done|]. destruct systems' as [|s' l']; [done|]. cbn.
  unfold tick, debounce_tick. cbn. rewrite (proj2 (Z.leb_gt _ _)) by lia.
  destruct (timeout (deleteAlerts t)) as [[d due]|]; cbn; [|split; [by intros u H%elem_of_nil | done]].
  destruct (due <=? now'); cbn; destruct (due <? now + alertDebounce); cbn; split; try done;
    intros u H; repeat (apply elem_of_cons in H as [H|H]; [discriminate H|]); by apply elem_of_nil in H.
Qed.

(** ** Theorems: all systems *)

(** the requests of turning a switch on and later off *)
Lemma check_uncheck_requests allSystems overwrite initial c now now' :
  now < now' →
  let ids := getSystemIds allSystems overwrite initial c in
  (toggles allSystems overwrite [(now, true); (now', false)] c no_timers initial).1 =
    (match ids with
     | [] => []
     | _ => [Upserted {| up_name := alertKey c; up_value := value c; up_min := min c; up_systems := ids;
                         up_overwrite := true |}]
     end) ++ [Deleted {| del_name := alertKey c; del_systems := ids |}].
Proof.
  intros Hn ids. cbn [toggles]. change (tick now no_timers) with (@nil sent, no_timers). cbv beta iota.
  unfold onCheckedChange at 1. fold ids. cbn [with_checked min value].
  assert (∀ b, getSystemIds allSystems overwrite initial (with_checked b c) = ids) as Hids by done.
  destruct ids as [|i l] eqn:Ei; cbn [sendUpsert].
  - change (tick now' no_timers) with (@nil sent, no_timers). cbv beta iota. unfold onCheckedChange. rewrite Hids.
    cbn. unfold tick, debounce_tick. cbn. by rewrite (proj2 (Z.leb_le _ _)) by lia.
  - unfold tick at 1, debounce_tick at 1. cbn [timeout upsertAlerts debounce_call].
    destruct (Z.leb_spec (now + alertDebounce) now') as [Hd|Hd]; cbn.
    + rewrite Hids. cbn. unfold tick, debounce_tick. cbn. by rewrite (proj2 (Z.leb_le _ _)) by lia.
    + rewrite Hids. cbn. unfold tick, debounce_tick. cbn. rewrite !(proj2 (Z.leb_le _ _)) by lia. cbn.
      by rewrite (proj2 (Z.ltb_ge _ _)) by lia.
Qed.

(** Fact [global_check_uncheck]: turning a kind of alert on for all systems and off again, without
    overwriting, leaves the alerts that systems had untouched and takes back exactly those it made;
    when every system already has one, nothing is sent for turning it on, and the deletion
    that is sent is rejected as an error. *)
Theorem global_check_uncheck allSystems initial c h now now' :
  global c = true → truthy (alertKey c) = true → now < now' →
  (∀ sys, sys ∈ (sys_id <$> allSystems) → (has_alert initial sys (alertKey c) = true ↔ h sys (alertKey c) ≠ None)) →
  let out := (toggles allSystems false [(now, true); (now', false)] c no_timers initial).1 in
  (∀ sys name, foldl hub_step h out sys name = h sys name)
  ∧ ((∀ sys, sys ∈ (sys_id <$> allSystems) → has_alert initial sys (alertKey c) = true) →
     ∃ d, out = [Deleted d] ∧ DeleteUserAlerts d h = None).
Proof.
  intros Hg Hk Hlt Hh out. unfold out. rewrite check_uncheck_requests by done.
  assert (∀ sys, sys ∈ getSystemIds allSystems false initial c →
            sys ∈ (sys_id <$> allSystems) ∧ has_alert initial sys (alertKey c) = false) as Hin.
  { unfold getSystemIds. rewrite Hg. intros sys (s & -> & Hs)%list_elem_of_fmap.
    rewrite list_elem_of_In, filter_In, <-list_elem_of_In in Hs. destruct Hs as [Hs Hf].
    split; [by apply list_elem_of_fmap_2 | by apply negb_true_iff in Hf]. }
  destruct (getSystemIds allSystems false initial c) as [|i l].
  - split.
    + intros sys name. cbn. unfold DeleteUserAlerts. by rewrite andb_false_r.
    + intros _. eexists. split; [reflexivity|]. unfold DeleteUserAlerts. by rewrite andb_false_r.
  - split.
    + intros sys name. cbn [app foldl]. rewrite hub_deleted, hub_upserted by done.
      cbn [del_name del_systems up_name up_systems].
      destruct (String.eqb_spec name (alertKey c)) as [->|]; [|done]. cbn [andb].
      case_bool_decide as Hs; [|done]. apply Hin in Hs as [Hs Hno]. symmetry. apply dec_stable. intros Hne.
      apply Hh in Hne; [congruence | done].
    + intros Hall. destruct (Hin i) as [Hi Hno]; [left|]. rewrite Hall in Hno; done.
Qed.
Lemma global_check_uncheck_witness :
  let c := content_init "CPU" "a" true (plain_info "CPU Usage" "%" "" None) None in
  let h : hub := λ sys name, if String.eqb sys "a" then Some (50%Q, 5) else None in
  let initial : AlertMap := [("a"%string, [("CPU"%string, {| al_id := "1"; al_system := "a"; al_name := "CPU";
                                  al_triggered := false; al_value := 50; al_min := 5 |})])] in
  foldl hub_step h (toggles [example_system "a" "web" Status_Up; example_system "b" "db" Status_Up] false
                      [(0, true); (50, false)] c no_timers initial).1 "a"%string "CPU"%string = Some (50%Q, 5).
Proof.
  intros c h initial.
  refine (proj1 (global_check_uncheck [example_system "a" "web" Status_Up; example_system "b" "db" Status_Up]
    initial c h 0 50 eq_refl eq_refl eq_refl _) "a"%string "CPU"%string).
  intros sys Hs. cbn in Hs. apply elem_of_cons in Hs as [->|Hs]; [by split|].
  apply elem_of_cons in Hs as [->|Hs]; [by split | by apply elem_of_nil in Hs].
Defined.
