(* ===== verification/Systemd.v ===== *)
(** * Systemd services: [components/systemd-table/]

    The merging of fetched services and the guard of the fetches, the totals, the columns, and
    the sheet of one service.  The sheet writes into the record that the table shows, so the
    records live in a store and the table's rows and the sheet refer to them. *)
From Stdlib Require Import Ascii QArith Qround ZArith Lia.
From S2P Require Import Prelude JsValue JsDate Types Utils.
Open Scope Z_scope.

(** ** Merging and fetching *)

Definition merge_services (items curItems : list SystemdRecord) : list SystemdRecord :=
  match items with
  | [] => curItems
  | first :: _ =>
      let lastUpdated := Z.max (sv_updated first) (match last items with Some x => sv_updated x | None => 0 end) in
      let newItems := List.filter (λ item, Z.abs (lastUpdated - sv_updated item) <? 70000) items in
      let systemdNames := sv_name <$> newItems in
      newItems ++ List.filter (λ item, negb (bool_decide (sv_name item ∈ systemdNames)) &&
                                       (lastUpdated - sv_updated item <? 70000)) curItems
  end.

(** the table of one system: its records, and the time its effect has kept for the guard *)
Record fetch_state := { data : list SystemdRecord; effect_lastUpdated : Z }.
(** a page is opened for a system: the effect sees the records of the last render, which are
    cleared afterwards *)
Definition open_system (st : fetch_state) : fetch_state := {|
  data := []; effect_lastUpdated := match data st with r :: _ => sv_updated r | [] => 0 end |}.
Definition services_answered (items : list SystemdRecord) (st : fetch_state) : fetch_state := {|
  data := merge_services items (data st); effect_lastUpdated := effect_lastUpdated st |}.
(** whether an update of the system makes the table fetch: not within 9.5 minutes of the time kept *)
Definition fetches (now : Z) (st : fetch_state) : bool := negb (now - 570000 <? effect_lastUpdated st).
Inductive fetch_event := OpenSystem | ServicesAnswered (items : list SystemdRecord).
Definition fetch_step (st : fetch_state) (e : fetch_event) : fetch_state :=
  match e with OpenSystem => open_system st | ServicesAnswered items => services_answered items st end.

(** ** Totals, search and columns *)

(** a state that is no index of the six totals adds to none of them *)
Definition add_total (totals : list Z) (service : SystemdRecord) : list Z :=
  if sv_state service <? 0 then totals else alter (λ n, n + 1) (Z.to_nat (sv_state service)) totals.
Definition statusTotals (data : list SystemdRecord) : list Z :=
  foldl add_total [0; 0; 0; 0; 0; 0] data.

Definition service_filter (systemName : option string) (service : SystemdRecord) (filterValue : string) : bool :=
  every_term (str_lower (default ""%string systemName +:+ " " +:+ sv_name service +:+ " " +:+
    default ""%string (label_at ServiceStatusLabels (sv_state service)) +:+ " " +:+ z_str (sv_sub service)))
    (str_lower filterValue).

Definition cpu_of (record : SystemdRecord) : Q :=
  if sv_sub record =? ServiceSubState_num Sub_Running then sv_cpu record else -1.
Definition cpuPeak_of (record : SystemdRecord) : Q :=
  if sv_sub record =? ServiceSubState_num Sub_Running then default 0%Q (sv_cpuPeak record) else -1.
Section Cells.
Context `{Intl}.
Definition percent_cell (val : Q) : string :=
  if Qltb val 0 then "N/A" else (decimalString [] val (if Qle_bool 10 val then 1 else 2)).1 +:+ "%".
Definition bytes_text (val : Q) : string :=
  let '(value, unit) := formatBytes val false Unit_Bytes false in
  (decimalString [] value (if Qle_bool 10 value then 1 else 2)).1 +:+ " " +:+ unit.
Definition memory_cell (val : Q) : string := if truthy val then bytes_text val else "N/A".
End Cells.
Definition state_cell (state : Z) : string := js_or (label_at ServiceStatusLabels state) "Unknown"%string.
Definition sub_cell (sub : Z) : string := js_or (label_at ServiceSubStateLabels sub) "Unknown"%string.
Definition getStatusColor (status : Z) : string :=
  if status =? ServiceStatus_num Service_Active then "bg-green-500"
  else if status =? ServiceStatus_num Service_Failed then "bg-red-500"
  else if (status =? ServiceStatus_num Service_Reloading) || (status =? ServiceStatus_num Service_Activating)
          || (status =? ServiceStatus_num Service_Deactivating) then "bg-yellow-500"
  else "bg-zinc-500".
Definition getSubStateColor (sub : Z) : string :=
  if sub =? ServiceSubState_num Sub_Running then "bg-green-500"
  else if sub =? ServiceSubState_num Sub_Failed then "bg-red-500"
  else if sub =? ServiceSubState_num Sub_Dead then "bg-yellow-500" else "bg-zinc-500".

(** ** The sheet's texts *)

(** a property of the details: missing, null, or a value *)
Inductive maybe (A : Type) := Undefined | Null | Value (a : A).
Arguments Undefined {A}. Arguments Null {A}. Arguments Value {A}.

(** the properties that the sheet reads *)
Record details := {
  ActiveState : option string; SubState : option string; CPUUsageNSec : option Z;
  TasksCurrent : maybe Z; TasksMax : maybe Z; MemoryCurrent : maybe Q; MemoryPeak : maybe Q;
  MemoryLimit : maybe Q; NRestarts : option Z; MainPID : option Z; ExecMainPID : option Z }.

Section Texts.
Context `{Intl}.
Definition formatMemory (value : maybe Q) : option string :=
  match value with
  | Undefined => None | Null => Some "Unlimited"%string | Value v => Some (bytes_text v)
  end.

Definition second_ns : Z := 1000000000.
(** hours, minutes and seconds that have passed, whole *)
Definition cpu_hms (ns : Z) : Z * Z * Z :=
  (ns / (3600 * second_ns), ns mod (3600 * second_ns) / (60 * second_ns), ns mod (60 * second_ns) / second_ns).
Definition unit_part (n : Z) (u : string) : list string := if truthy n then [z_str n +:+ u] else [].
Definition formatCpuTime (ns : option Z) : option string :=
  match ns with
  | None => None
  | Some ns =>
      if ns =? 0 then None
      else
        let seconds := inject_Z ns / inject_Z second_ns in
        if 3600 * second_ns <=? ns then
          let '(hours, minutes, secs) := cpu_hms ns in
          Some (str_join " " (unit_part hours "h" ++ unit_part minutes "m" ++ unit_part secs "s"))
        else if 60 * second_ns <=? ns then
          Some (z_str (ns / (60 * second_ns)) +:+ "m " +:+ z_str (ns mod (60 * second_ns) / second_ns) +:+ "s")
        else if second_ns <=? ns then Some ((decimalString [] seconds 2).1 +:+ "s")
        else Some ((decimalString [] (seconds * 1000) 2).1 +:+ "ms")
  end%Q.
End Texts.

(** the count, where known, and the limit that is shown behind it *)
Inductive task_limit := NoLimitShown | LimitIs (max : Z) | LimitUnlimited.
Definition formatTasks (current max : maybe Z) : option (option Z * task_limit) :=
  let hasCurrent := match current with Value n => 0 <=? n | _ => false end in
  let hasMax := match max with Value n => 0 <? n | _ => false end in
  if negb hasCurrent && negb hasMax then None
  else Some (match current with Value n => if 0 <=? n then Some n else None | _ => None end,
             match max with Value n => if 0 <? n then LimitIs n else NoLimitShown
                       | Null => LimitUnlimited | Undefined => NoLimitShown end).
Definition mainPidValue (d : option details) : option Z :=
  pid ← (d ← d; MainPID d); if 0 <? pid then Some pid else None.
Definition execMainPidValue (d : option details) : option Z :=
  pid ← (d ← d; ExecMainPID d);
  if (0 <? pid) && negb (bool_decide (Some pid = (d ← d; MainPID d))) then Some pid else None.

(** the state in words *)
Definition stateText (d : option details) (service : SystemdRecord) : string :=
  let statusLabel := default ""%string (label_at ServiceStatusLabels (sv_state service)) in
  let subStateLabel := default ""%string (label_at ServiceSubStateLabels (sv_sub service)) in
  match (d ← d; js_or_undef (ActiveState d)) with
  | Some active => match (d ← d; js_or_undef (SubState d)) with
                   | Some sub => active +:+ " (" +:+ sub +:+ ")" | None => active end
  | None => if truthy subStateLabel then statusLabel +:+ " (" +:+ subStateLabel +:+ ")" else statusLabel
  end.

(** [for (const [index, status] of ServiceStatusLabels.entries())] *)
Fixpoint label_index (text : string) (labels : list string) (index : Z) : option Z :=
  match labels with
  | [] => None
  | status :: rest => if String.eqb text (str_lower status) then Some index else label_index text rest (index + 1)
  end.
Definition state_of_details (d : option details) : option Z :=
  active ← (d ← d; ActiveState d); label_index (str_lower active) ServiceStatusLabels 0.

(** ** The sheet *)

Definition with_state (n : Z) (r : SystemdRecord) : SystemdRecord := {|
  sv_system := sv_system r; sv_name := sv_name r; sv_state := n; sv_sub := sv_sub r; sv_cpu := sv_cpu r;
  sv_cpuPeak := sv_cpuPeak r; sv_memory := sv_memory r; sv_memPeak := sv_memPeak r; sv_updated := sv_updated r |}.

(** [objects] are the records, [rows] the ones the table shows.  Requests are numbered in the order
    they are made, [requests] is the next number; [pending] is the one that has not been cancelled *)
Record page := {
  objects : list SystemdRecord; rows : list nat; activeService : option nat; sheetOpen : bool;
  shown_details : option details; error : option string; isLoading : bool; pending : option nat; requests : nat }.

(** rendering the sheet writes the state that the details name into the service's record *)
Definition render (p : page) : page :=
  match activeService p, state_of_details (shown_details p) with
  | Some ref, Some n => {|
      objects := alter (with_state n) ref (objects p); rows := rows p; activeService := activeService p;
      sheetOpen := sheetOpen p; shown_details := shown_details p; error := error p; isLoading := isLoading p;
      pending := pending p; requests := requests p |}
  | _, _ => p
  end.

Definition set_sheet (active : option nat) (open : bool) (p : page) : page := {|
  objects := objects p; rows := rows p; activeService := active; sheetOpen := open;
  shown_details := shown_details p; error := error p; isLoading := isLoading p; pending := None;
  requests := requests p |}.
(** the effect of an open sheet: the details are dropped and requested *)
Definition sheet_effect (p : page) : page :=
  if sheetOpen p then {|
      objects := objects p; rows := rows p; activeService := activeService p; sheetOpen := true;
      shown_details := None; error := None; isLoading := true;
      pending := Some (requests p); requests := S (requests p) |}
  else p.
(** the row is clicked: the sheet is rendered, the effect runs, the sheet is rendered again *)
Definition openSheet (ref : nat) (p : page) : page :=
  render (sheet_effect (render (set_sheet (Some ref) true p))).
Definition closeSheet (p : page) : page := render (set_sheet (activeService p) false p).

Inductive answer := Details (d : option details) | Failure (message : option string).
Definition sheet_answered (request : nat) (a : answer) (p : page) : page :=
  if bool_decide (pending p = Some request) then
    render {|
      objects := objects p; rows := rows p; activeService := activeService p; sheetOpen := sheetOpen p;
      shown_details := match a with Details d => d | Failure _ => None end;
      error := match a with
               | Details (Some _) => error p
               | Details None => Some "No results found."%string
               | Failure m => Some (default "Failed to load service details"%string m)
               end;
      isLoading := false; pending := None; requests := requests p |}
  else p.
Inductive page_event := RowClicked (ref : nat) | SheetClosed | SheetAnswered (request : nat) (a : answer).
Definition page_step (p : page) (e : page_event) : page :=
  match e with
  | RowClicked ref => openSheet ref p | SheetClosed => closeSheet p
  | SheetAnswered request a => sheet_answered request a p
  end.

(** ** Theorems: fetching *)

Lemma answers_keep_time answers st :
  effect_lastUpdated (foldl fetch_step st (ServicesAnswered <$> answers)) = effect_lastUpdated st.
Proof. revert st. induction answers as [|items answers IH]; intros st; [done|]. cbn. by rewrite IH. Qed.

(** Fact [fetch_guard_stale]: the guard that is to save fetches looks at the records of the render in which
    the page was opened.  On a page that starts empty it never holds a fetch back, however fresh the
    records are that have arrived since; and on a page that was reached from another system's it
    goes by that system's records, and holds fetches back while this table is still empty. *)
Theorem fetch_guard_stale answers now previous :
  570000 ≤ now →
  fetches now (foldl fetch_step (open_system {| data := []; effect_lastUpdated := previous |})
                 (ServicesAnswered <$> answers)) = true
  ∧ ∀ r rest, now - 570000 < sv_updated r →
      let st := open_system {| data := r :: rest; effect_lastUpdated := previous |} in
      data st = [] ∧ fetches now st = false
      ∧ fetches now (foldl fetch_step st (ServicesAnswered <$> answers)) = false.
Proof.
  intros Hn. split.
  - unfold fetches. rewrite answers_keep_time. cbn. apply negb_true_iff, Z.ltb_ge. lia.
  - intros r rest Hr st. split; [done|]. unfold fetches. rewrite answers_keep_time. unfold st. cbn.
    by rewrite (proj2 (Z.ltb_lt _ _)).
Qed.
Definition ex_service (name : string) (state updated : Z) : SystemdRecord := {|
  sv_system := None; sv_name := name; sv_state := state; sv_sub := 1; sv_cpu := 1; sv_cpuPeak := None;
  sv_memory := 1; sv_memPeak := 1; sv_updated := updated |}.
Lemma fetch_guard_stale_witness :
  fetches 1700000001000 (foldl fetch_step (open_system {| data := []; effect_lastUpdated := 0 |})
    (ServicesAnswered <$> [[ex_service "ssh" 0 1700000000000]])) = true.
Proof. apply (fetch_guard_stale [[ex_service "ssh" 0 1700000000000]] 1700000001000 0). lia. Defined.

(** ** Theorems: totals and times *)

Definition in_state (i : nat) (service : SystemdRecord) : bool := sv_state service =? Z.of_nat i.

(** Fact [statusTotals_spec]: each of the six totals is the number of services in that state, whatever states
    the others are in. *)
Theorem statusTotals_spec services i :
  (i < 6)%nat →
  statusTotals services !! i = Some (Z.of_nat (length (List.filter (in_state i) services))).
Proof.
  intros Hi. unfold statusTotals.
  assert (∀ totals n, totals !! i = Some n →
    foldl add_total totals services !! i =
    Some (n + Z.of_nat (length (List.filter (in_state i) services)))) as H.
  { induction services as [|x services IH]; intros totals n Ht; [cbn; by rewrite Z.add_0_r, Ht|].
    cbn [foldl List.filter]. unfold in_state at 1, add_total at 2. destruct (Z.ltb_spec (sv_state x) 0) as [Hx|Hx].
    - rewrite (proj2 (Z.eqb_neq _ _)) by lia. by apply IH.
    - destruct (Z.eqb_spec (sv_state x) (Z.of_nat i)) as [E|E].
      + rewrite (IH _ (n + 1)); [cbn [length]; f_equal; lia|]. rewrite E, Nat2Z.id.
        by rewrite list_lookup_alter_eq, Ht.
      + apply IH. rewrite list_lookup_alter_ne by lia. done. }
  rewrite (H _ 0); [done|]. do 6 (destruct i as [|i]; [done|]). lia.
Qed.
Lemma statusTotals_spec_witness :
  statusTotals [ex_service "a" 2 0; ex_service "b" 0 0; ex_service "c" 2 0; ex_service "d" 9 0] !! 2%nat = Some 2.
Proof. apply (statusTotals_spec [ex_service "a" 2 0; ex_service "b" 0 0; ex_service "c" 2 0; ex_service "d" 9 0] 2). lia. Defined.

(** the hours, minutes and seconds shown add up to the whole seconds *)
Lemma cpu_hms_spec ns : 0 ≤ ns →
  let '(h, m, s) := cpu_hms ns in
  h * 3600 + m * 60 + s = ns / second_ns ∧ 0 ≤ h ∧ 0 ≤ m < 60 ∧ 0 ≤ s < 60.
Proof. intros Hn. unfold cpu_hms, second_ns. Z.to_euclidean_division_equations. lia. Qed.

(** ** Theorems: the sheet *)

(** the six states by their names, in any case *)
Lemma state_of_details_label d i label :
  ServiceStatusLabels !! i = Some label →
  (str_lower <$> (d ← d; ActiveState d)) = Some (str_lower label) →
  state_of_details d = Some (Z.of_nat i).
Proof.
  intros Hi Hd. unfold state_of_details. destruct (d ← d; ActiveState d) as [active|]; [|done].
  cbn in Hd. injection Hd as Hd. cbn [mbind option_bind]. rewrite Hd.
  do 6 (destruct i as [|i]; [injection Hi as <-; reflexivity|]). done.
Qed.

Lemma render_rest p :
  activeService (render p) = activeService p ∧ shown_details (render p) = shown_details p
  ∧ pending (render p) = pending p ∧ sheetOpen (render p) = sheetOpen p ∧ requests (render p) = requests p
  ∧ ∀ ref, Some ref ≠ activeService p → objects (render p) !! ref = objects p !! ref.
Proof.
  unfold render. destruct (activeService p) as [ref|] eqn:Ea; [|by repeat split].
  destruct (state_of_details (shown_details p)) as [n|]; [|by repeat split].
  repeat split; cbn; try done. intros ref' Hne. apply list_lookup_alter_ne. congruence.
Qed.

(** Fact [sheet_writes_other_state]: the sheet of a service that is opened is rendered once with the details of
    the service shown before, and that render writes the earlier service's state into the record
    of this one; if its own details cannot be loaded the record keeps the wrong state, which the
    sheet shows and the filter reads. *)
Theorem sheet_writes_other_state p ref r n message :
  state_of_details (shown_details p) = Some n → objects p !! ref = Some r →
  objects (openSheet ref p) !! ref = Some (with_state n r)
  ∧ objects (sheet_answered (requests p) (Failure message) (openSheet ref p)) !! ref = Some (with_state n r)
  ∧ ∀ other, other ≠ ref → objects (openSheet ref p) !! other = objects p !! other.
Proof.
  intros Hd Hr.
  assert (objects (openSheet ref p) = alter (with_state n) ref (objects p)
          ∧ pending (openSheet ref p) = Some (requests p)) as (Ho & Hp).
  { assert (render (set_sheet (Some ref) true p) = {|
        objects := alter (with_state n) ref (objects p); rows := rows p; activeService := Some ref; sheetOpen := true;
        shown_details := shown_details p; error := error p; isLoading := isLoading p; pending := None;
        requests := requests p |}) as E
      by (unfold render; cbn [activeService set_sheet shown_details]; by rewrite Hd).
    unfold openSheet. rewrite E. done. }
  split; [by rewrite Ho, list_lookup_alter_eq, Hr|]. split.
  - unfold sheet_answered. rewrite Hp, bool_decide_eq_true_2 by done.
    transitivity (objects (openSheet ref p) !! ref); [|by rewrite Ho, list_lookup_alter_eq, Hr].
    generalize (openSheet ref p). intros q. unfold render. cbn. by destruct (activeService q).
  - intros other Hne. rewrite Ho. by apply list_lookup_alter_ne.
Qed.

Definition ex_details (active : string) : details := {|
  ActiveState := Some active; SubState := None; CPUUsageNSec := None; TasksCurrent := Undefined;
  TasksMax := Undefined; MemoryCurrent := Undefined; MemoryPeak := Undefined; MemoryLimit := Undefined;
  NRestarts := None; MainPID := None; ExecMainPID := None |}.
Definition ex_page : page := {|
  objects := [ex_service "web" 0 0; ex_service "backup" 2 0]; rows := [0; 1]%nat; activeService := None;
  sheetOpen := false; shown_details := None; error := None; isLoading := false; pending := None; requests := 0 |}.
(** the failed service is shown as active after the sheet of the active one *)
Lemma sheet_writes_other_state_witness :
  objects (sheet_answered 1 (Failure None) (openSheet 1 (closeSheet
    (sheet_answered 0 (Details (Some (ex_details "active"))) (openSheet 0 ex_page))))) !! 1%nat
  = Some (ex_service "backup" 0 0).
Proof.
  refine (proj1 (proj2 (sheet_writes_other_state (closeSheet
    (sheet_answered 0 (Details (Some (ex_details "active"))) (openSheet 0 ex_page))) 1
    (ex_service "backup" 2 0) 0 None _ _))); reflexivity.
Defined.

(** the service that was opened last, and how many have been opened *)
Fixpoint opened_last (active : option nat) (es : list page_event) : option nat :=
  match es with
  | [] => active
  | RowClicked ref :: es => opened_last (Some ref) es
  | _ :: es => opened_last active es
  end.
Fixpoint openings (es : list page_event) : nat :=
  match es with [] => O | RowClicked _ :: es => S (openings es) | _ :: es => openings es end.

Lemma opened_last_snoc a es e :
  opened_last a (es ++ [e]) = match e with RowClicked ref => Some ref | _ => opened_last a es end.
Proof. revert a. induction es as [|x es IH]; intros a; [by destruct e|]. by destruct x; cbn; rewrite IH. Qed.
Lemma openings_app es es' : openings (es ++ es') = (openings es + openings es')%nat.
Proof. induction es as [|x es IH]; [done|]. destruct x; cbn; by rewrite IH. Qed.

Lemma openSheet_state ref p :
  activeService (openSheet ref p) = Some ref ∧ shown_details (openSheet ref p) = None
  ∧ pending (openSheet ref p) = Some (requests p) ∧ requests (openSheet ref p) = S (requests p).
Proof.
  unfold openSheet. destruct (render_rest (set_sheet (Some ref) true p)) as (Ha & _ & _ & Ho & Hr & _).
  destruct (render_rest (sheet_effect (render (set_sheet (Some ref) true p)))) as (Ha' & Hd' & Hp' & _ & Hr' & _).
  rewrite Ha', Hd', Hp', Hr'. unfold sheet_effect. rewrite Ho.
  cbn [sheetOpen set_sheet activeService shown_details pending requests]. by rewrite Ha, Hr.
Qed.

(** an answer that the sheet shows is one to the request of the last opening *)
Definition answer_shown (es : list page_event) (first : nat) (d : details) : Prop :=
  ∃ before request after, es = before ++ SheetAnswered request (Details (Some d)) :: after
    ∧ (first + openings before)%nat = S request ∧ openings after = O.

Lemma answer_shown_later es e first d :
  answer_shown es first d → openings [e] = O → answer_shown (es ++ [e]) first d.
Proof.
  intros (before & request & after & -> & H1 & H2) He. exists before, request, (after ++ [e]).
  rewrite <-app_assoc, openings_app, H2, He. done.
Qed.

(** Fact [sheet_details_current]: although answers arrive in any order, also those of requests made by
    earlier openings of the same service, the sheet of a service shows no details but those
    of the answer to the request that its last opening made. *)
Theorem sheet_details_current es p d :
  shown_details p = None → pending p = None →
  shown_details (foldl page_step p es) = Some d →
  answer_shown es (requests p) d
  ∧ activeService (foldl page_step p es) = opened_last (activeService p) es.
Proof.
  intros Hd Hp. revert d.
  assert (activeService (foldl page_step p es) = opened_last (activeService p) es
    ∧ requests (foldl page_step p es) = (requests p + openings es)%nat
    ∧ (∀ request, pending (foldl page_step p es) = Some request → (requests p + openings es)%nat = S request)
    ∧ ∀ d, shown_details (foldl page_step p es) = Some d → answer_shown es (requests p) d) as (Ha & _ & _ & H).
  { induction es as [|e es IH] using rev_ind; [cbn; rewrite Hd, Hp, Nat.add_0_r; done|].
    destruct IH as (Ha & Hrq & Hpn & Hsh). rewrite foldl_app, opened_last_snoc, openings_app. cbn [foldl].
    set (q := foldl page_step p es) in *. destruct e as [ref| |request a]; cbn [page_step openings].
    - destruct (openSheet_state ref q) as (-> & -> & -> & ->). split; [done|]. split; [lia|].
      split; [intros ? [= <-]; lia | done].
    - unfold closeSheet. destruct (render_rest (set_sheet (activeService q) false q)) as (-> & -> & -> & _ & -> & _).
      cbn. split; [done|]. split; [lia|]. split; [done|]. intros d Hq. by apply answer_shown_later; [apply Hsh|].
    - unfold sheet_answered. rewrite Nat.add_0_r. case_bool_decide as Hr.
      + match goal with |- context [render ?x] => destruct (render_rest x) as (-> & -> & -> & _ & -> & _) end. cbn.
        split; [done|]. split; [done|]. split; [done|]. intros d Hq. destruct a as [o|]; [|done]. subst o.
        exists es, request, []. split; [done|]. by rewrite (Hpn request Hr).
      + split; [done|]. split; [done|]. split; [done|]. intros d Hq. by apply answer_shown_later; [apply Hsh|]. }
  intros d Hs. split; [by apply H | done].
Qed.
Lemma sheet_details_current_witness :
  let es := [RowClicked 0; RowClicked 1; SheetAnswered 1 (Details (Some (ex_details "failed")));
             SheetAnswered 0 (Details (Some (ex_details "active")))]%nat in
  shown_details (foldl page_step ex_page es) = Some (ex_details "failed")
  ∧ activeService (foldl page_step ex_page es) = Some 1%nat.
Proof.
  intros es. assert (shown_details (foldl page_step ex_page es) = Some (ex_details "failed")) as Hs by reflexivity.
  split; [exact Hs|].
  exact (proj2 (sheet_details_current es ex_page (ex_details "failed") eq_refl eq_refl Hs)).
Defined.
