(* ===== verification/Settings.v ===== *)
(** * Settings, locale and routes: [components/routes/settings/], [lib/i18n.ts], [components/router.tsx]

    What saving a form does to the settings object, how its texts are read back as thresholds,
    the notification page's lists, the settings menu, the choice of the locale, and the base
    path of links. *)
From Stdlib Require Import Ascii QArith ZArith Lia.
From S2P Require Import Prelude JsValue Types Utils.
Open Scope Z_scope.

(** ** The settings object *)

(** a value of the object: texts come from forms, numbers and lists from code *)
Inductive json := JStr (s : string) | JNum (q : Q) | JList (l : list string).
Definition settings := jsmap json.

(** [{ ...a, ...b }] *)
Definition spread (a b : settings) : settings := foldl (λ m p, jset p.1 p.2 m) a b.

(** the collection of one user: [fetch] gives the record's identifier and settings, [update]
    stores settings and gives them back; [None] is a failed request *)
Record settings_api := {
  fetch : option (string * settings); update : string → settings → option settings }.
Inductive saved := SettingsSaved | SaveFailed.
(** [None] keeps the store as it is *)
Definition saveSettings (api : settings_api) (newSettings : settings) : option settings * saved :=
  match fetch api with
  | Some (id, old) => match update api id (spread old newSettings) with
                      | Some updated => (Some updated, SettingsSaved)
                      | None => (None, SaveFailed)
                      end
  | None => (None, SaveFailed)
  end.

(** the general form: [FormData] gives every field as text *)
Definition form_fields : list string :=
  ["layoutWidth"; "chartTime"; "hourFormat"; "unitTemp"; "unitNet"; "unitDisk"; "colorWarn"; "colorCrit"].
Definition form_data (fields : string → string) : settings := (λ k, (k, JStr (fields k))) <$> form_fields.
Definition handleSubmit (api : settings_api) (fields : string → string) : option settings * saved :=
  saveSettings api (form_data fields).

(** a threshold as the comparison of a meter reads it: a text by its number *)
Definition threshold (standard : Q) (v : option json) : jsnum :=
  match v with
  | None => Fin standard | Some (JNum q) => Fin q | Some (JStr s) => Number s | Some (JList _) => NaN
  end.
Definition meter_state (s : settings) (value : Q) : MeterState :=
  if num_geb (Fin value) (threshold 90 (jget "colorCrit" s)) then MeterState_Crit
  else if num_geb (Fin value) (threshold 65 (jget "colorWarn" s)) then MeterState_Warn else MeterState_Good.

(** ** Notifications *)

Record notifications := { webhooks : list string; emails : list string }.
Definition addWebhook (n : notifications) : notifications :=
  {| webhooks := webhooks n ++ [""%string]; emails := emails n |}.
(** the elements except the one at an index *)
Fixpoint remove_nth {A} (i : nat) (l : list A) : list A :=
  match l, i with [], _ => [] | _ :: l, O => l | x :: l, S i => x :: remove_nth i l end.
Definition removeWebhook (index : nat) (n : notifications) : notifications :=
  {| webhooks := remove_nth index (webhooks n); emails := emails n |}.
(** an index of a card that is shown is one of the list *)
Definition updateWebhook (index : nat) (value : string) (n : notifications) : notifications :=
  {| webhooks := <[index := value]> (webhooks n); emails := emails n |}.

Section Validation.
(** what the validation library takes for an email address and for a URL *)
Context (is_email is_url : string → bool).
Definition NotificationSchema (n : notifications) : bool := forallb is_email (emails n) && forallb is_url (webhooks n).
(** a form that does not validate is not sent, and shows an error *)
Definition updateSettings (api : settings_api) (n : notifications) : option settings * option saved :=
  if NotificationSchema n then
    let '(s, r) := saveSettings api [("emails", JList (emails n)); ("webhooks", JList (webhooks n))]%string in
    (s, Some r)
  else (None, None).
End Validation.

(** [Array.from(new Set(l))] *)
Definition distinct (l : list string) : list string :=
  foldl (λ s x, if bool_decide (x ∈ s) then s else s ++ [x]) [] l.
(** the field of tags: the tags and the text that is being typed *)
Record tags := { tag_values : list string; pendingDataPoint : string }.
(** the effect on a text with commas, as when a list is pasted *)
Definition tags_effect (t : tags) : tags :=
  if str_includes (pendingDataPoint t) "," then
    {| tag_values := distinct (tag_values t ++ (str_trim <$> str_split "," (pendingDataPoint t)));
       pendingDataPoint := "" |}
  else t.
(** the enter and the comma key *)
Definition addPendingDataPoint (t : tags) : tags :=
  if truthy (pendingDataPoint t)
  then {| tag_values := distinct (tag_values t ++ [pendingDataPoint t]); pendingDataPoint := "" |} else t.
Definition backspace (t : tags) : tags :=
  if negb (truthy (pendingDataPoint t))
  then {| tag_values := removelast (tag_values t); pendingDataPoint := pendingDataPoint t |} else t.
Definition remove_tag (item : string) (t : tags) : tags :=
  {| tag_values := List.filter (λ i, negb (String.eqb i item)) (tag_values t); pendingDataPoint := pendingDataPoint t |}.

(** ** The settings menu *)

Record nav_item := { nav_name : string; nav_admin : bool; nav_noReadOnly : bool }.
Definition sidebarNavItems : list nav_item := [
  {| nav_name := "general"; nav_admin := false; nav_noReadOnly := false |};
  {| nav_name := "notifications"; nav_admin := false; nav_noReadOnly := false |};
  {| nav_name := "tokens"; nav_admin := false; nav_noReadOnly := true |};
  {| nav_name := "alert-history"; nav_admin := false; nav_noReadOnly := false |};
  {| nav_name := "config"; nav_admin := true; nav_noReadOnly := false |} ].
Definition mobile_items (isAdmin isReadOnly : bool) : list nav_item :=
  List.filter (λ i, negb (nav_admin i && negb isAdmin)) sidebarNavItems.
Definition desktop_items (isAdmin isReadOnly : bool) : list nav_item :=
  List.filter (λ i, negb ((nav_admin i && negb isAdmin) || (nav_noReadOnly i && isReadOnly))) sidebarNavItems.

(** ** The locale *)

Definition languages : list string :=
  ["ar"; "bg"; "cs"; "da"; "de"; "en"; "es"; "fa"; "fr"; "he"; "hr"; "hu"; "id"; "it"; "ja"; "ko"; "nl"; "no";
   "pl"; "pt"; "ru"; "sl"; "sr"; "sv"; "tr"; "uk"; "vi"; "zh-CN"; "zh-HK"; "zh"].
Definition rtlLanguages : list string := ["ar"; "fa"; "he"].
Definition zhVariantMap : jsmap string :=
  [("zh-HK", "zh-HK"); ("zh-TW", "zh"); ("zh-MO", "zh"); ("zh-Hant", "zh")]%string.
(** [detected] is what the storage or the browser says *)
Definition getLocale (detected : option string) : string :=
  if match detected with Some l => starts_with l "zh-" | None => false end
  then js_or (l ← detected; jget l zhVariantMap) "zh-CN"%string
  else
    let locale := match str_split "-" (js_or detected "en"%string) with l :: _ => l | [] => ""%string end in
    if existsb (λ l, String.eqb l locale) languages then locale else "en"%string.

(** the active locale, which is also stored, and the direction of the text *)
Record locale_state := { lang : string; rtl : bool }.
Definition activateLocale (locale : string) : locale_state :=
  {| lang := locale; rtl := existsb (String.eqb locale) rtlLanguages |}.
(** [loads] says whether a catalogue can be imported *)
Definition dynamicActivate (loads : string → bool) (locale : string) : locale_state :=
  if String.eqb locale "en" then activateLocale locale
  else if loads locale then activateLocale locale else activateLocale "en".

(** ** Routes *)

(** [s.replaceAll("//", "/")] *)
Fixpoint single_slashes (s : string) : string :=
  match s with
  | String a s' =>
      match s' with
      | String b s'' => if Ascii.eqb a "/" && Ascii.eqb b "/" then String "/" (single_slashes s'')
                        else String a (single_slashes s')
      | EmptyString => s
      end
  | EmptyString => EmptyString
  end.
Definition prependBasePath (basePath path : string) : string := single_slashes (basePath +:+ path).
Definition routes (basePath : string) : jsmap string :=
  (λ p, (p.1, prependBasePath basePath p.2)) <$>
    [("home", "/"); ("containers", "/containers"); ("smart", "/smart"); ("system", "/system/:id");
     ("settings", "/settings/:name?"); ("forgot_password", "/forgot-password"); ("request_otp", "/request-otp")]%string.

(** ** Theorems: saving *)

Lemma jget_spread a b k : jwf b →
  jget k (spread a b) = match jget k b with Some v => Some v | None => jget k a end.
Proof.
  revert a. induction b as [|[k' v] b IH]; intros a; [done|]. unfold jwf. rewrite jkeys_cons.
  intros [Hk Hb]%NoDup_cons. cbn [spread foldl fst snd]. fold (spread (jset k' v a) b). rewrite IH by done.
  cbn [jget]. destruct (String.eqb_spec k k') as [->|Hne].
  - by rewrite (proj2 (jget_None k' b)), jget_jset_eq.
  - by rewrite jget_jset_ne.
Qed.

Lemma form_wf fields : jwf (form_data fields).
Proof. unfold jwf, form_data, jkeys. cbn. apply (bool_decide_unpack _). by vm_compute. Qed.

(** Fact [form_saves_fields]: saving the general form stores the text of each of its fields and leaves every
    other setting, such as the links and the notification addresses, as the server has it, also
    when another page has changed it since; a failed request leaves the page's settings alone. *)
Theorem form_saves_fields api fields :
  match fetch api with
  | Some (id, old) =>
      ∀ k, jget k (spread old (form_data fields)) =
           if bool_decide (k ∈ form_fields) then Some (JStr (fields k)) else jget k old
  | None => handleSubmit api fields = (None, SaveFailed)
  end
  ∧ (∀ id old updated, fetch api = Some (id, old) → update api id (spread old (form_data fields)) = Some updated →
       handleSubmit api fields = (Some updated, SettingsSaved)).
Proof.
  split.
  - destruct (fetch api) as [[id old]|] eqn:E; [|unfold handleSubmit, saveSettings; by rewrite E].
    intros k. rewrite jget_spread by apply form_wf.
    case_bool_decide as Hk.
    + unfold form_fields in Hk. repeat (apply elem_of_cons in Hk as [->|Hk]; [reflexivity|]). by apply elem_of_nil in Hk.
    + replace (jget k (form_data fields)) with (@None json); [done|]. symmetry. apply jget_None. exact Hk.
  - intros id old updated Hf Hu. unfold handleSubmit, saveSettings. by rewrite Hf, Hu.
Qed.
Definition ex_api (old : settings) : settings_api := {| fetch := Some ("1"%string, old); update := λ _ s, Some s |}.
Lemma form_saves_fields_witness :
  handleSubmit (ex_api [("emails", JList ["a@b"])]%string) (λ _, "x"%string)
  = (Some (spread [("emails", JList ["a@b"])]%string (form_data (λ _, "x"%string))), SettingsSaved).
Proof. apply (form_saves_fields (ex_api [("emails", JList ["a@b"])]%string) (λ _, "x"%string)) with (id := "1"%string) (old := [("emails", JList ["a@b"])]%string); reflexivity. Defined.

(** Fact [thresholds_from_form]: a threshold that was typed as a whole number colours the meters as that number;
    a field that was cleared and saved counts as 0, so that with the critical one every reading
    is critical, and with the warning one none is good. *)
Theorem thresholds_from_form s fields warn crit value :
  fields "colorWarn"%string = pretty (warn : N) → fields "colorCrit"%string = pretty (crit : N) →
  meter_state (spread s (form_data fields)) value =
    (if Qle_bool (inject_Z (Z.of_N crit)) value then MeterState_Crit
     else if Qle_bool (inject_Z (Z.of_N warn)) value then MeterState_Warn else MeterState_Good)
  ∧ ((0 <= value)%Q → ∀ cleared,
       (cleared "colorCrit" = "" → meter_state (spread s (form_data cleared)) value = MeterState_Crit)
       ∧ (cleared "colorWarn" = "" → meter_state (spread s (form_data cleared)) value ≠ MeterState_Good))%string.
Proof.
  assert (∀ f, jget "colorCrit" (spread s (form_data f)) = Some (JStr (f "colorCrit"%string))
             ∧ jget "colorWarn" (spread s (form_data f)) = Some (JStr (f "colorWarn"%string))) as Hj.
  { intros f. by rewrite !jget_spread by apply form_wf. }
  assert (∀ x, num_geb (Fin value) (Fin x) = Qle_bool x value) as Hge.
  { intros x. unfold num_geb, num_leb. cbn. destruct (Qle_bool x value) eqn:E; cbn.
    - by destruct (Qeq_bool x value).
    - apply not_true_iff_false. intros Hq%Qeq_bool_iff. apply not_true_iff_false in E. apply E.
      apply Qle_bool_iff. rewrite Hq. apply Qle_refl. }
  intros Hw Hc. unfold meter_state. split.
  - destruct (Hj fields) as [-> ->]. cbn [threshold]. by rewrite Hw, Hc, !Number_pretty, !Hge.
  - intros Hv cleared. destruct (Hj cleared) as [-> ->]. apply Qle_bool_iff in Hv.
    split; intros E; cbn [threshold]; rewrite E; change (Number "") with (Fin 0); rewrite Hge, Hv; [done|].
    by destruct (num_geb _ _).
Qed.
Lemma thresholds_from_form_witness :
  let fields k := (if String.eqb k "colorWarn" then "50" else "80")%string in
  meter_state (spread [] (form_data fields)) 60 = MeterState_Warn.
Proof.
  intros fields. rewrite (proj1 (thresholds_from_form [] fields 50 80 60 eq_refl eq_refl)). reflexivity.
Defined.

(** with numbers for thresholds this is the code's meter on typed settings *)
Lemma meter_state_numbers s warn crit value :
  jget "colorWarn" s = JNum <$> warn → jget "colorCrit" s = JNum <$> crit →
  meter_state s value = getMeterState {|
    us_chartTime := None; us_emails := None; us_webhooks := None; us_unitTemp := None; us_unitNet := None;
    us_unitDisk := None; us_colorWarn := warn; us_colorCrit := crit; us_hourFormat := None;
    us_layoutWidth := None; us_quickLinks := None; us_externalLinks := None |} value.
Proof.
  intros Hw Hc. unfold meter_state, getMeterState. rewrite Hw, Hc.
  assert (∀ x, num_geb (Fin value) (Fin x) = Qle_bool x value) as Hge.
  { intros x. unfold num_geb, num_leb. cbn. destruct (Qle_bool x value) eqn:E; cbn.
    - by destruct (Qeq_bool x value).
    - apply not_true_iff_false. intros Hq%Qeq_bool_iff. apply not_true_iff_false in E. apply E.
      apply Qle_bool_iff. rewrite Hq. apply Qle_refl. }
  destruct warn, crit; cbn; by rewrite !Hge.
Qed.

(** ** Theorems: notifications *)

(** a pasted list that ends with a comma adds an empty address *)
Example trailing_comma :
  tag_values (tags_effect {| tag_values := []; pendingDataPoint := "a@b.c," |}) = ["a@b.c"; ""]%string.
Proof. reflexivity. Qed.

(** what read-only users see differs between the two menus *)
Lemma mobile_shows_tokens :
  nav_name <$> mobile_items false true = ["general"; "notifications"; "tokens"; "alert-history"]%string
  ∧ nav_name <$> desktop_items false true = ["general"; "notifications"; "alert-history"]%string.
Proof. done. Qed.

(** ** Theorems: locale and routes *)

(** Fact [getLocale_supported]: whatever the storage or the browser says, the locale is one there are translations
    for; a language the dashboard has is kept with or without a region, and every Chinese
    variant gets a Chinese locale. *)
Theorem getLocale_supported detected :
  getLocale detected ∈ languages
  ∧ (∀ l region, l ∈ languages → starts_with l "zh" = false →
       getLocale (Some l) = l ∧ getLocale (Some (l +:+ String "-" region)) = l)
  ∧ (∀ region, starts_with (getLocale (Some ("zh-" +:+ region))) "zh" = true).
Proof.
  assert (∀ l, existsb (λ x, String.eqb x l) languages = true ↔ l ∈ languages) as Hl.
  { intros l. rewrite existsb_exists. split.
    - intros (x & Hx & ->%String.eqb_eq). by apply list_elem_of_In.
    - intros Hin. exists l. split; [by apply list_elem_of_In | apply String.eqb_refl]. }
  assert (∀ k v, jget k zhVariantMap = Some v → v ∈ languages ∧ starts_with v "zh" = true ∧ truthy v = true) as Hz.
  { intros k v Hv. apply jget_Some_elem in Hv. unfold zhVariantMap in Hv.
    repeat (apply elem_of_cons in Hv as [[= -> ->]|Hv]; [split; [apply Hl; reflexivity | done]|]). by apply elem_of_nil in Hv. }
  assert ("zh-CN"%string ∈ languages) as Hcn by (apply Hl; reflexivity).
  split; [|split].
  - unfold getLocale. destruct (match detected with Some l => starts_with l "zh-" | None => false end).
    + destruct detected as [l|]; [|done]. cbn [mbind option_bind]. unfold js_or.
      destruct (jget l zhVariantMap) as [v|] eqn:E; [|done]. apply Hz in E as (? & _ & ->). done.
    + cbv zeta. destruct (existsb _ languages) eqn:E; [by apply Hl | by apply Hl; reflexivity].
  - intros l region Hin Hzh. unfold languages in Hin.
    repeat (apply elem_of_cons in Hin as [->|Hin]; [first [discriminate Hzh | by split]|]). by apply elem_of_nil in Hin.
  - intros region. unfold getLocale. change (starts_with ("zh-" +:+ region) "zh-") with (String.prefix "" region).
    assert (String.prefix "" region = true) as -> by (by destruct region). cbn [mbind option_bind]. unfold js_or.
    destruct (jget _ zhVariantMap) as [v|] eqn:E; [|done]. by apply Hz in E as (_ & ? & ->).
Qed.
Lemma getLocale_supported_witness : getLocale (Some "pt-BR"%string) = "pt"%string.
Proof.
  refine (proj2 (proj1 (proj2 (getLocale_supported None)) "pt"%string "BR"%string _ eq_refl)).
  apply (bool_decide_unpack _). vm_compute. exact I.
Defined.

(** no two slashes in a row *)
Fixpoint no_double (s : string) : bool :=
  match s with
  | String a s' =>
      match s' with
      | String b _ => negb (Ascii.eqb a "/" && Ascii.eqb b "/") && no_double s'
      | EmptyString => true
      end
  | EmptyString => true
  end.
Lemma single_slashes_id s : no_double s = true → single_slashes s = s.
Proof.
  induction s as [|a s IH]; [done|]. destruct s as [|b s]; [done|]. intros [Ha Hs]%andb_prop.
  apply negb_true_iff in Ha. cbn [single_slashes]. rewrite Ha. f_equal. by apply IH.
Qed.
Lemma single_slashes_join base path : no_double (base +:+ "/") = true → no_double (String "/" path) = true →
  single_slashes ((base +:+ "/") +:+ String "/" path) = base +:+ String "/" path.
Proof.
  induction base as [|a base IH].
  - intros _ Hp. change (("" +:+ "/") +:+ String "/" path) with (String "/" (String "/" path)).
    cbn [single_slashes]. change (Ascii.eqb "/" "/") with true. cbn [andb].
    change ("" +:+ String "/" path) with (String "/" path). f_equal. apply single_slashes_id.
    destruct path; [done|]. by apply andb_prop in Hp as [_ ?].
  - intros Hb Hp. change ((String a base +:+ "/") +:+ String "/" path) with
      (String a ((base +:+ "/") +:+ String "/" path)).
    change (String a base +:+ String "/" path) with (String a (base +:+ String "/" path)).
    change (String a base +:+ "/") with (String a (base +:+ "/")) in Hb.
    rewrite <-IH; [|by destruct base; apply andb_prop in Hb as [_ Hb] | done].
    assert (∃ b s, base +:+ "/" = String b s) as (b & s & E) by (destruct base; eauto).
    rewrite E in *. apply andb_prop in Hb as [Ha _]. apply negb_true_iff in Ha.
    change (String b s +:+ String "/" path) with (String b (s +:+ String "/" path)).
    cbn [single_slashes]. by rewrite Ha.
Qed.

(** Fact [prependBasePath_spec]: a base path is put before a path with one slash between the two, whether or not
    it ends with one itself, and without a base path paths are left alone. *)
Theorem prependBasePath_spec base path :
  no_double (base +:+ "/") = true → no_double (String "/" path) = true →
  prependBasePath (base +:+ "/") (String "/" path) = base +:+ String "/" path
  ∧ prependBasePath "" (String "/" path) = String "/" path
  ∧ (no_double (base +:+ String "/" path) = true →
     prependBasePath base (String "/" path) = base +:+ String "/" path).
Proof.
  intros Hb Hp. unfold prependBasePath. split; [by apply single_slashes_join|].
  split; [by apply single_slashes_id | by apply single_slashes_id].
Qed.
Lemma prependBasePath_spec_witness : prependBasePath "/beszel/" "/system/1" = "/beszel/system/1"%string.
Proof. apply (prependBasePath_spec "/beszel" "system/1"); reflexivity. Defined.
