(* ===== verification/Login.v ===== *)
(** * Signing in: [components/login/], the gate in [main.tsx]

    The schemas of the forms, the password form with registration and the second factor, sign-in
    through a provider and its automatic start, one-time codes, password reset, and the page that
    is drawn.  A handler's requests to the server are its effects; their answers are arguments of
    the events.  The schema library is a parameter. *)
From Stdlib Require Import Ascii ZArith Lia.
From S2P Require Import Prelude JsValue Nanostores SystemsManager Api.
Open Scope nat_scope.

(** ** Schemas *)

Inductive rule := Email (message : string) | MinLength (n : nat) (message : string)
| MaxBytes (n : nat) (message : string).
Inductive field := Literal (text : string) | Pipe (rules : list rule).
Definition schema := list (string * field).

Definition honeypot : field := Literal "".
Definition emailSchema : field := Pipe [Email "Invalid email address."].
Definition passwordSchema : field := Pipe [
  MinLength 8 "Password must be at least 8 characters.";
  MaxBytes 72 "Password must be less than 72 bytes."].
Definition LoginSchema : schema :=
  [("website", honeypot); ("email", emailSchema); ("password", passwordSchema)]%string.
Definition RegisterSchema : schema :=
  [("website", honeypot); ("email", emailSchema); ("password", passwordSchema);
   ("passwordConfirm", passwordSchema)]%string.

Record issue := { issue_key : string; issue_message : string }.

(** the schema library: the issues of a parsed object, and its test of addresses *)
Class Valibot := { safeParse : schema → jsmap string → list issue; is_email : string → bool }.

Definition breaks_with (email_ok : string → bool) (r : rule) (v : string) : bool :=
  match r with
  | Email _ => negb (email_ok v)
  | MinLength n _ => String.length v <? n
  | MaxBytes n _ => n <? String.length v
  end.
Definition breaks `{Valibot} : rule → string → bool := breaks_with is_email.
Definition message_of (r : rule) : string :=
  match r with Email m => m | MinLength _ m => m | MaxBytes _ m => m end.
Definition field_ok `{Valibot} (f : field) (v : option string) : bool :=
  match f, v with
  | Literal t, Some v => String.eqb v t
  | Pipe rules, Some v => forallb (λ r, negb (breaks r v)) rules
  | _, None => false
  end.

(** what the forms rely on: a key has an issue when its value does not fit its field, and the
    messages about a value are those of the rules it breaks *)
Class ValibotLaws `(Valibot) : Prop := {
  issue_iff sch data k : NoDup (jkeys sch) →
    (∃ m, {| issue_key := k; issue_message := m |} ∈ safeParse sch data) ↔
    ∃ f, jget k sch = Some f ∧ field_ok f (jget k data) = false;
  issue_rules sch data k rules v m : NoDup (jkeys sch) →
    jget k sch = Some (Pipe rules) → jget k data = Some v →
    {| issue_key := k; issue_message := m |} ∈ safeParse sch data →
    ∃ r, r ∈ rules ∧ breaks r v = true ∧ message_of r = m }.

(** ** The password form *)

Record auth_form := {
  isFirstRun : bool; isLoading : bool; isOauthLoading : bool; errors : jsmap string;
  mfaId : option string; otpId : option string }.
Definition new_form (first : bool) : auth_form := {|
  isFirstRun := first; isLoading := false; isOauthLoading := false; errors := [];
  mfaId := None; otpId := None |}.
Definition set_loading (b : bool) (f : auth_form) : auth_form := {|
  isFirstRun := isFirstRun f; isLoading := b; isOauthLoading := isOauthLoading f; errors := errors f;
  mfaId := mfaId f; otpId := otpId f |}.
Definition set_oauth_loading (b : bool) (f : auth_form) : auth_form := {|
  isFirstRun := isFirstRun f; isLoading := isLoading f; isOauthLoading := b; errors := errors f;
  mfaId := mfaId f; otpId := otpId f |}.
Definition set_errors (e : jsmap string) (f : auth_form) : auth_form := {|
  isFirstRun := isFirstRun f; isLoading := isLoading f; isOauthLoading := isOauthLoading f; errors := e;
  mfaId := mfaId f; otpId := otpId f |}.
Definition set_ids (mfa otp : option string) (f : auth_form) : auth_form := {|
  isFirstRun := isFirstRun f; isLoading := isLoading f; isOauthLoading := isOauthLoading f; errors := errors f;
  mfaId := mfa; otpId := otp |}.

Record provider := { pr_name : string; pr_displayName : string }.

Inductive request :=
| CreateUser (email password : string) | AuthWithPassword (email password : string)
| RequestOTP (email : string) | AuthWithOTP (otp code mfa : string)
| AuthWithOAuth2 (provider : string) (popup : bool) | RequestPasswordReset (email : string)
| AuthRefresh.
(** the description of a toast: a text, or the error object of a rejected promise *)
Inductive described := Text (s : string) | ErrorObject.
Inductive notice := LoginFailed (description : described) | EnablePopups | ResetReceived (email : string).

(** [showLoginFaliedToast] *)
Definition showLoginFaliedToast (description : option described) : notice :=
  LoginFailed
    match description with
    | Some (Text s) => Text (js_or (Some s) "Please check your credentials and try again"%string)
    | Some ErrorObject => ErrorObject
    | None => Text "Please check your credentials and try again"
    end.
(** a toast's description is put into the page as it is; an object that is no element cannot be *)
Definition can_be_drawn (n : notice) : bool :=
  match n with LoginFailed ErrorObject => false | _ => true end.

(** what a handler does beside its own state; [signed] is what it sets [$authenticated] to *)
Record effects := { requests : list request; notices : list notice; signed : option bool }.
Definition nothing : effects := {| requests := []; notices := []; signed := None |}.

(** the named inputs; a disabled input is not part of the form's data *)
Record typed := { t_email : string; t_password : string; t_confirm : string; t_website : string }.
Definition form_data (t : typed) (f : auth_form) : jsmap string :=
  let enabled := negb (isLoading f || isOauthLoading f) in
  (if enabled then [("email"%string, t_email t); ("password"%string, t_password t)] else [])
  ++ (if enabled && isFirstRun f then [("passwordConfirm"%string, t_confirm t)] else [])
  ++ [("website"%string, t_website t)].
Definition errors_of (issues : list issue) : jsmap string :=
  foldl (λ m i, jset (issue_key i) (issue_message i) m) [] issues.

(** a call is accepted, or refused with the error's [response.mfaId] *)
Inductive answer := Accepted | Refused (mfa : option string).
Record answers := { create_user : answer; with_password : answer; otp_requested : option string }.

Section Form.
Context `{Valibot}.

(** the two calls of the [try] block, and whether the last of them was accepted *)
Definition sign_in (a : answers) (first : bool) (email password : string) : list request * answer :=
  if first then
    match create_user a with
    | Accepted => ([CreateUser email password; AuthWithPassword email password], with_password a)
    | Refused mfa => ([CreateUser email password], Refused mfa)
    end
  else ([AuthWithPassword email password], with_password a).

Definition handleSubmit (t : typed) (a : answers) (f : auth_form) : auth_form * effects :=
  (* the data is read before [setIsLoading(true)] is drawn *)
  let data := form_data t f in
  let '(f, e) :=
    match safeParse (if isFirstRun f then RegisterSchema else LoginSchema) data with
    | (_ :: _) as issues => (set_errors (errors_of issues) f, nothing)
    | [] =>
        let email := default ""%string (jget "email" data) in
        let password := default ""%string (jget "password" data) in
        if isFirstRun f && negb (bool_decide (jget "password" data = jget "passwordConfirm" data)) then
          (set_errors [("passwordConfirm", "Passwords do not match")]%string f, nothing)
        else
          let '(sent, result) := sign_in a (isFirstRun f) email password in
          match result with
          | Accepted => (f, {| requests := sent; notices := []; signed := Some true |})
          | Refused mfa =>
              match js_or_undef mfa with
              | None => (f, {| requests := sent; notices := [showLoginFaliedToast None]; signed := None |})
              | Some id =>
                  match otp_requested a with
                  | Some otp => (set_ids (Some id) (Some otp) f,
                      {| requests := sent ++ [RequestOTP email]; notices := []; signed := None |})
                  | None => (set_ids (Some id) (otpId f) f,
                      {| requests := sent ++ [RequestOTP email]; notices := [showLoginFaliedToast None]; signed := None |})
                  end
              end
          end
    end in
  (set_loading false f, e).
End Form.

(** ** Providers *)

Record methods := {
  password_enabled : bool; otp_enabled : bool; mfa_enabled : bool; oauth2_enabled : bool;
  providers : option (list provider) }.
Definition authProviders (m : methods) : list provider := default [] (providers m).
Definition oauthEnabled (m : methods) : bool :=
  oauth2_enabled m && (0 <? length (authProviders m)).

(** [ios]: the browser is one of the named devices; [opens]: it lets the page open a window *)
Definition loginWithOauth (p : provider) (forcePopup ios opens : bool) (f : auth_form) : auth_form * effects :=
  let f := set_oauth_loading true f in
  if (forcePopup || ios) && negb opens then
    (set_oauth_loading false f, {| requests := []; notices := [EnablePopups]; signed := None |})
  else (f, {| requests := [AuthWithOAuth2 (pr_name p) (forcePopup || ios)]; notices := []; signed := None |}).
(** the answer: the store's validity, or the error, which is handed to the toast as it is *)
Definition oauth_answered (valid : option bool) (f : auth_form) : auth_form * effects :=
  (set_oauth_loading false f,
   match valid with
   | Some v => {| requests := []; notices := []; signed := Some v |}
   | None => {| requests := []; notices := [showLoginFaliedToast (Some ErrorObject)]; signed := None |}
   end).

Definition auto_login_delay : Z := 300.
(** the effect of the first drawing: the provider that is started after [auto_login_delay] *)
Definition auto_login (m : methods) (sessionStorage : jsmap string) : option provider :=
  match authProviders m with
  | [p] => if negb (password_enabled m) && negb (truthy (jget "lo" sessionStorage)) then Some p else None
  | _ => None
  end.
(** [getAuthProviderIcon] without the base path *)
Definition provider_icon (p : provider) : string :=
  "/_/images/oauth2/" +:+ (if starts_with (pr_name p) "oidc" then "oidc" else pr_name p)%string +:+ ".svg".

(** ** What is drawn *)

Inductive element :=
| PasswordForm (fields : list string) | Divider | OtpLink | ProviderButtons (names : list string)
| GitHubDialog | ForgotLink.
Inductive form_view := CodeInput (otp mfa : string) | Elements (l : list element).
Definition shown_if (b : bool) (x : element) : list element := if b then [x] else [].
Definition form_fields (first : bool) : list string :=
  ["email"; "password"]%string ++ (if first then ["passwordConfirm"%string] else []) ++ ["website"%string].
Definition form_view_of (m : methods) (f : auth_form) : form_view :=
  match js_or_undef (otpId f), js_or_undef (mfaId f) with
  | Some otp, Some mfa => CodeInput otp mfa
  | _, _ => Elements
     (shown_if (password_enabled m) (PasswordForm (form_fields (isFirstRun f)))
      ++ shown_if (password_enabled m && (isFirstRun f || oauthEnabled m || (otp_enabled m && negb (mfa_enabled m)))) Divider
      ++ shown_if (otp_enabled m && negb (mfa_enabled m)) OtpLink
      ++ shown_if (oauthEnabled m) (ProviderButtons (pr_displayName <$> authProviders m))
      ++ shown_if (negb (oauthEnabled m) && isFirstRun f) GitHubDialog
      ++ shown_if (password_enabled m && negb (isFirstRun f)) ForgotLink)
  end.
(** the red border of an input *)
Definition marked (input : string) (f : auth_form) : bool :=
  if String.eqb input "passwordConfirm" then truthy (jget "password" (errors f))
  else truthy (jget input (errors f)).
(** the text below it *)
Definition error_below (input : string) (f : auth_form) : option string := js_or_undef (jget input (errors f)).

(** ** One-time codes and password reset *)

(** drawing the input of a code sends it when it is complete *)
Definition code_drawn (otp mfa value : string) : list request :=
  if String.length value =? 6 then [AuthWithOTP otp value mfa] else [].
(** typing draws again when the text differs *)
Definition code_typed (otp mfa old value : string) : list request :=
  if String.eqb old value then [] else code_drawn otp mfa value.

Record mail_form := { mail_loading : bool; mail_email : string; mail_otp : option string }.
Definition new_mail_form : mail_form := {| mail_loading := false; mail_email := ""; mail_otp := None |}.
Definition mail_typed (email : string) (f : mail_form) : mail_form := {|
  mail_loading := mail_loading f; mail_email := email; mail_otp := mail_otp f |}.
(** the two submit handlers; [inr] is the message of the error, which may be missing *)
Definition request_otp (answered : string + option string) (f : mail_form) : mail_form * effects :=
  match answered with
  | inl otp => ({| mail_loading := false; mail_email := ""; mail_otp := Some otp |},
                {| requests := [RequestOTP (mail_email f)]; notices := []; signed := None |})
  | inr message => ({| mail_loading := false; mail_email := ""; mail_otp := mail_otp f |},
                {| requests := [RequestOTP (mail_email f)];
                   notices := [showLoginFaliedToast (Text <$> message)]; signed := None |})
  end.
Definition request_reset (accepted : bool) (f : mail_form) : mail_form * effects :=
  ({| mail_loading := false; mail_email := ""; mail_otp := mail_otp f |},
   {| requests := [RequestPasswordReset (mail_email f)];
      notices := [if accepted then ResetReceived (mail_email f) else showLoginFaliedToast None];
      signed := None |}).

(** ** The page *)

Inductive route := Home | SystemPage (id : string) | ContainersPage | SmartPage | SettingsPage
| ForgotPasswordPage | RequestOtpPage.

Definition subtitle (first : bool) (page : option route) : string :=
  if first then "Please create an admin account" else
  match page with
  | Some ForgotPasswordPage => "Enter email address to reset password"
  | Some RequestOtpPage => "Request a one-time password"
  | _ => "Please sign in to your account"
  end.

Inductive login_body := ForgotPassword | OtpRequestForm (view : option (string * string)) | UserAuthForm (view : form_view).
Inductive app_body := NotFound | AppPage (r : route) | Blank.
Inductive page_view := LoginLoading | LoginPage (subtitle : string) (body : login_body) | App (body : app_body).

Definition app_body_of (page : option route) : app_body :=
  match page with
  | None => NotFound
  | Some ForgotPasswordPage => Blank | Some RequestOtpPage => Blank
  | Some r => AppPage r
  end.

Record state := {
  authenticated : bool; page : option route; auth_methods : option methods;
  form : auth_form; code : string; otp_form : mail_form; forgot_form : mail_form }.
Definition start (p : option route) (valid : bool) : state := {|
  authenticated := valid; page := p; auth_methods := None; form := new_form false; code := "";
  otp_form := new_mail_form; forgot_form := new_mail_form |}.
Definition set_authenticated (b : bool) (s : state) : state := {|
  authenticated := b; page := page s; auth_methods := auth_methods s; form := form s; code := code s;
  otp_form := otp_form s; forgot_form := forgot_form s |}.
Definition set_page (p : option route) (s : state) : state := {|
  authenticated := authenticated s; page := p; auth_methods := auth_methods s; form := form s; code := code s;
  otp_form := otp_form s; forgot_form := forgot_form s |}.
Definition set_form (f : auth_form) (s : state) : state := {|
  authenticated := authenticated s; page := page s; auth_methods := auth_methods s; form := f; code := code s;
  otp_form := otp_form s; forgot_form := forgot_form s |}.
Definition set_code (c : string) (s : state) : state := {|
  authenticated := authenticated s; page := page s; auth_methods := auth_methods s; form := form s; code := c;
  otp_form := otp_form s; forgot_form := forgot_form s |}.
Definition set_methods (m : methods) (s : state) : state := {|
  authenticated := authenticated s; page := page s; auth_methods := Some m; form := form s; code := code s;
  otp_form := otp_form s; forgot_form := forgot_form s |}.
Definition set_mail_forms (otp forgot : mail_form) (s : state) : state := {|
  authenticated := authenticated s; page := page s; auth_methods := auth_methods s; form := form s; code := code s;
  otp_form := otp; forgot_form := forgot |}.

Definition view (s : state) : page_view :=
  if authenticated s then App (app_body_of (page s)) else
  match auth_methods s with
  | None => LoginLoading
  | Some m => LoginPage (subtitle (isFirstRun (form s)) (page s))
      match page s with
      | Some ForgotPasswordPage => ForgotPassword
      | Some RequestOtpPage => OtpRequestForm ((λ otp, (otp, ""%string)) <$> js_or_undef (mail_otp (otp_form s)))
      | _ => UserAuthForm (form_view_of m (form s))
      end
  end.
(** the input of a code that is on the page *)
Definition code_input (s : state) : option (string * string) :=
  match view s with
  | LoginPage _ (OtpRequestForm v) => v
  | LoginPage _ (UserAuthForm (CodeInput otp mfa)) => Some (otp, mfa)
  | _ => None
  end.

(** a form that leaves the page loses its state: all of them when the user is signed in, the ones
    of the route when it changes to that of another form; and so does the input of a code *)
Definition form_kind (s : state) : nat :=
  match page s with Some ForgotPasswordPage => 0 | Some RequestOtpPage => 1 | _ => 2 end.
Definition remount (old new : state) : state :=
  if authenticated new then start (page new) true else
  let new :=
    if form_kind old =? form_kind new then new
    else set_mail_forms new_mail_form new_mail_form (set_form (new_form (isFirstRun (form new))) new) in
  match code_input old, code_input new with Some _, Some _ => new | _, _ => set_code "" new end.

(** ** Events *)

Inductive event :=
| FirstRunKnown (first : bool) | MethodsListed (m : methods)
| Submitted (t : typed) (a : answers) | FormChanged
| ProviderClicked (p : provider) (forced ios opens : bool) | ProviderAnswered (valid : option bool)
| CodeTyped (value : string) | CodeAnswered (accepted : bool) (message : string)
| OtpEmailTyped (email : string) | OtpRequested (answered : string + option string)
| ForgotEmailTyped (email : string) | ResetRequested (accepted : bool)
| Visited (p : option route) | Refreshed (valid : bool)
| AuthStoreChanged (valid : bool) | LoggedOut.

(** the answers with which the server, or the store it filled, says who the user is *)
Definition admits (e : event) : bool :=
  match e with
  | Submitted _ a => match with_password a with Accepted => true | _ => false end
  | ProviderAnswered (Some true) => true
  | CodeAnswered true _ => true
  | Refreshed true => true | AuthStoreChanged true => true
  | _ => false
  end.

Section Steps.
Context `{Valibot}.

Definition apply_signed (e : effects) (s : state) : state :=
  match signed e with Some b => set_authenticated b s | None => s end.

(** the handler of an event; the address "/" an accepted code leads to is that of the home page unless there is a base path *)
Definition handle (s : state) (e : event) : state * effects :=
  match e with
  | FirstRunKnown first => (set_form
      {| isFirstRun := first; isLoading := isLoading (form s); isOauthLoading := isOauthLoading (form s);
         errors := errors (form s); mfaId := mfaId (form s); otpId := otpId (form s) |} s, nothing)
  | MethodsListed m => (set_methods m s, nothing)
  | Submitted t a => let '(f, e) := handleSubmit t a (form s) in (apply_signed e (set_form f s), e)
  | FormChanged => (set_form (set_errors [] (form s)) s, nothing)
  | ProviderClicked p forced ios opens =>
      let '(f, e) := loginWithOauth p forced ios opens (form s) in (set_form f s, e)
  | ProviderAnswered valid => let '(f, e) := oauth_answered valid (form s) in (apply_signed e (set_form f s), e)
  | CodeTyped value =>
      match code_input s with
      | Some (otp, mfa) => (set_code value s,
          {| requests := code_typed otp mfa (code s) value; notices := []; signed := None |})
      | None => (s, nothing)
      end
  | CodeAnswered true _ => (set_authenticated true (set_page (Some Home) s),
      {| requests := []; notices := []; signed := Some true |})
  | CodeAnswered false message => (s,
      {| requests := []; notices := [showLoginFaliedToast (Some (Text message))]; signed := None |})
  | OtpEmailTyped email => (set_mail_forms (mail_typed email (otp_form s)) (forgot_form s) s, nothing)
  | OtpRequested a => let '(f, e) := request_otp a (otp_form s) in (set_mail_forms f (forgot_form s) s, e)
  | ForgotEmailTyped email => (set_mail_forms (otp_form s) (mail_typed email (forgot_form s)) s, nothing)
  | ResetRequested a => let '(f, e) := request_reset a (forgot_form s) in (set_mail_forms (otp_form s) f s, e)
  | Visited p => (set_page p s, nothing)
  | Refreshed valid => (set_authenticated valid s, nothing)
  | AuthStoreChanged valid => (set_authenticated valid s, nothing)
  | LoggedOut => (set_authenticated false s, nothing)
  end.
Definition step (s : state) (e : event) : state * effects :=
  let '(s', e) := handle s e in (remount s s', e).
Definition run (es : list event) (s : state) : state := foldl (λ s e, (step s e).1) s es.
End Steps.

(** ** Theorems: the password form *)

(** an executable library: every broken rule gives an issue, in the order of the schema *)
Definition field_issues (email_ok : string → bool) (k : string) (f : field) (v : option string) : list issue :=
  match f, v with
  | Literal t, Some v => if String.eqb v t then [] else [{| issue_key := k; issue_message := "Invalid type" |}]
  | Pipe rules, Some v =>
      (λ r, {| issue_key := k; issue_message := message_of r |}) <$>
      List.filter (λ r, breaks_with email_ok r v) rules
  | _, None => [{| issue_key := k; issue_message := "Invalid key" |}]
  end.
Definition has_at (s : string) : bool := str_includes s "@".
Definition reference_valibot : Valibot := {|
  safeParse sch data := concat ((λ p, field_issues has_at p.1 p.2 (jget p.1 data)) <$> sch);
  is_email := has_at |}.

Lemma field_issue_key ok k f v i : i ∈ field_issues ok k f v → issue_key i = k.
Proof.
  destruct f, v; cbn; try (destruct (String.eqb _ _)); try (intros ->%list_elem_of_singleton; done);
    try (intros []%elem_of_nil). by intros (r & -> & _)%list_elem_of_fmap.
Qed.
Lemma reference_parse sch data i :
  i ∈ safeParse (Valibot := reference_valibot) sch data ↔
  ∃ (k : string) (f : field), (k, f) ∈ sch ∧ i ∈ field_issues has_at k f (jget k data).
Proof.
  unfold safeParse. cbn. rewrite list_elem_of_In, in_concat. split.
  - intros (l & Hl & Hi). apply list_elem_of_In, list_elem_of_fmap in Hl as ([k f] & -> & Hin).
    exists k, f. split; [done|]. by apply list_elem_of_In.
  - intros (k & f & Hin & Hi). eexists. split; [|by apply list_elem_of_In].
    apply list_elem_of_In, list_elem_of_fmap. by exists (k, f).
Qed.
Lemma field_issues_none (k : string) f v :
  field_ok (H := reference_valibot) f v = true ↔ field_issues has_at k f v = [].
Proof.
  destruct f as [t|rules], v as [v|]; cbn [field_ok field_issues]; try done; [by destruct (String.eqb v t)|].
  induction rules as [|r rules IH]; [done|]. cbn [forallb List.filter]. unfold breaks at 1.
  change is_email with has_at. by destruct (breaks_with has_at r v).
Qed.
#[export] Instance reference_valibot_laws : ValibotLaws reference_valibot.
Proof.
  split.
  - intros sch data k Hnd. split.
    + intros (m & (k' & f & Hf & Hi)%reference_parse). pose proof (field_issue_key _ _ _ _ _ Hi) as <-. cbn in *.
      exists f. split; [by apply elem_jget|]. apply not_true_iff_false. intros Hok.
      apply (field_issues_none k) in Hok. rewrite Hok in Hi. by apply elem_of_nil in Hi.
    + intros (f & Hf & Hbad). destruct (field_issues has_at k f (jget k data)) as [|i l] eqn:E.
      { apply field_issues_none in E. congruence. }
      exists (issue_message i). apply reference_parse. exists k, f. split; [by apply jget_Some_elem|].
      rewrite E. assert (issue_key i = k) as <- by (apply (field_issue_key has_at k f (jget k data)); rewrite E; left).
      destruct i as [k m]. left.
  - intros sch data k rules v m Hnd Hk Hv (k' & f & Hf & Hi)%reference_parse.
    pose proof (field_issue_key _ _ _ _ _ Hi) as E. cbn in E. subst k'.
    rewrite (elem_jget _ _ _ Hnd Hf) in Hk. injection Hk as ->. rewrite Hv in Hi. cbn in Hi.
    apply list_elem_of_fmap in Hi as (r & [= Hm] & Hr). rewrite list_elem_of_In, filter_In, <-list_elem_of_In in Hr.
    exists r. split; [apply Hr|]. split; [|done]. apply Hr.
Qed.

Section Submit.
Context {V : Valibot} {L : ValibotLaws V}.

(** what a form needs to be sent: an empty hidden field, an address, passwords of 8 to 72 bytes *)
Definition password_ok (p : string) : bool := (8 <=? String.length p) && (String.length p <=? 72).
Definition valid_field (t : typed) (k : string) : bool :=
  if String.eqb k "website" then String.eqb (t_website t) ""
  else if String.eqb k "email" then is_email (t_email t)
  else if String.eqb k "password" then password_ok (t_password t)
  else password_ok (t_confirm t).
Definition valid_form (first : bool) (t : typed) : bool := forallb (valid_field t) (form_fields first).
Definition ready (first : bool) (t : typed) : bool :=
  valid_form first t && (negb first || String.eqb (t_password t) (t_confirm t)).
(** the schema of the form *)
Definition schema_of (first : bool) : schema := if first then RegisterSchema else LoginSchema.

Lemma schema_nodup first : NoDup (jkeys (schema_of first)).
Proof. by destruct first; apply (bool_decide_unpack _); vm_compute. Qed.
Lemma jget_errors_of k issues :
  jget k (errors_of issues) ≠ None ↔ ∃ m, {| issue_key := k; issue_message := m |} ∈ issues.
Proof.
  unfold errors_of. induction issues as [|[k' m'] issues IH] using rev_ind.
  - cbn. split; [done | by intros (m & []%elem_of_nil)].
  - rewrite foldl_snoc, jget_jset. cbn. setoid_rewrite elem_of_app. setoid_rewrite list_elem_of_singleton.
    destruct (String.eqb_spec k' k) as [->|Hne].
    + split; [|done]. intros _. exists m'. by right.
    + rewrite IH. split; [intros [m Hm]; exists m; by left|]. intros (m & [Hm|[= -> ->]]); [by exists m | done].
Qed.
Lemma errors_spec f t k : isLoading f = false → isOauthLoading f = false → k ∈ form_fields (isFirstRun f) →
  (jget k (errors_of (safeParse (schema_of (isFirstRun f)) (form_data t f))) ≠ None ↔ valid_field t k = false).
Proof.
  intros Hl Ho Hk. rewrite jget_errors_of, issue_iff by apply schema_nodup.
  assert (∃ fld v, jget k (schema_of (isFirstRun f)) = Some fld ∧ jget k (form_data t f) = Some v
    ∧ field_ok fld (Some v) = valid_field t k) as (fld & v & -> & -> & <-).
  { unfold form_data. rewrite Hl, Ho. destruct (isFirstRun f); cbn in Hk |- *;
      repeat (apply elem_of_cons in Hk as [->|Hk]); try (by apply elem_of_nil in Hk);
      do 2 eexists; (split; [reflexivity|]; split; [reflexivity|]);
      unfold honeypot, emailSchema, passwordSchema, valid_field, password_ok;
      cbn [field_ok forallb breaks breaks_with String.eqb Ascii.eqb Bool.eqb];
      rewrite <-?Nat.leb_antisym, ?andb_true_r, ?negb_involutive; done. }
  split; [by intros (f' & [= <-] & ?) | by exists fld].
Qed.
Lemma no_issues f t : isLoading f = false → isOauthLoading f = false →
  (safeParse (schema_of (isFirstRun f)) (form_data t f) = [] ↔ valid_form (isFirstRun f) t = true).
Proof.
  intros Hl Ho. unfold valid_form. rewrite forallb_forall. split.
  - intros Hnil k Hk%list_elem_of_In. apply not_false_iff_true. rewrite <-(errors_spec f) by done.
    rewrite Hnil. by intros [].
  - intros Hall. destruct (safeParse _ _) as [|[k m] l] eqn:E; [done|]. exfalso.
    assert (∃ m, {| issue_key := k; issue_message := m |} ∈ safeParse (schema_of (isFirstRun f)) (form_data t f)) as Hi
      by (exists m; rewrite E; left).
    assert (k ∈ form_fields (isFirstRun f)) as Hk.
    { apply issue_iff in Hi; [|apply schema_nodup]. destruct Hi as (fld & Hf & _).
      apply jget_Some_elem in Hf. destruct (isFirstRun f); cbn in Hf;
        repeat (apply elem_of_cons in Hf as [[= -> _]|Hf]; [set_solver|]); by apply elem_of_nil in Hf. }
    apply (jget_errors_of k) in Hi. apply (errors_spec f t k Hl Ho Hk) in Hi.
    rewrite Hall in Hi; [done | by apply list_elem_of_In].
Qed.

(** the calls an accepted or refused sign-in makes *)
Definition refused_with (first : bool) (a : answers) : option (option string) :=
  match (if first then create_user a else Accepted), with_password a with
  | Accepted, Accepted => None
  | Accepted, Refused mfa => Some mfa
  | Refused mfa, _ => Some mfa
  end.

Lemma submit_not_ready t a f : isLoading f = false → isOauthLoading f = false → ready (isFirstRun f) t = false →
  ∃ e, handleSubmit t a f = (set_errors e f, nothing)
  ∧ (valid_form (isFirstRun f) t = false → e = errors_of (safeParse (schema_of (isFirstRun f)) (form_data t f)))
  ∧ (valid_form (isFirstRun f) t = true → e = [("passwordConfirm", "Passwords do not match")]%string).
Proof.
  intros Hl Ho Hr. unfold handleSubmit. fold (schema_of (isFirstRun f)).
  destruct (safeParse (schema_of (isFirstRun f)) (form_data t f)) as [|i l] eqn:E.
  - apply (no_issues f t Hl Ho) in E. unfold ready in Hr. rewrite E in Hr.
    apply orb_false_elim in Hr as [Hf Hp]. apply negb_false_iff in Hf. apply String.eqb_neq in Hp.
    destruct f as [first ld ol errs mfa otp]. cbn [isFirstRun isLoading isOauthLoading] in *. subst. cbn.
    rewrite bool_decide_eq_false_2 by congruence. eexists. split; [reflexivity|]. split; [|done].
    intros Hv. change (valid_form true t = false) in Hv. congruence.
  - exists (errors_of (i :: l)). split; [by destruct f; cbn in *; subst|]. split; [done|]. intros Hv.
    apply (no_issues f t Hl Ho) in Hv. congruence.
Qed.
Lemma submit_ready t a f : isLoading f = false → isOauthLoading f = false → ready (isFirstRun f) t = true →
  let '(sent, result) := sign_in a (isFirstRun f) (t_email t) (t_password t) in
  handleSubmit t a f =
  match result with
  | Accepted => (f, {| requests := sent; notices := []; signed := Some true |})
  | Refused mfa =>
      match js_or_undef mfa, otp_requested a with
      | None, _ => (f, {| requests := sent; notices := [showLoginFaliedToast None]; signed := None |})
      | Some id, Some otp => (set_ids (Some id) (Some otp) f,
          {| requests := sent ++ [RequestOTP (t_email t)]; notices := []; signed := None |})
      | Some id, None => (set_ids (Some id) (otpId f) f,
          {| requests := sent ++ [RequestOTP (t_email t)]; notices := [showLoginFaliedToast None]; signed := None |})
      end
  end.
Proof.
  intros Hl Ho [Hv Hp]%andb_prop. unfold handleSubmit. fold (schema_of (isFirstRun f)).
  rewrite (proj2 (no_issues f t Hl Ho) Hv).
  assert (isFirstRun f && negb (bool_decide (jget "password" (form_data t f) = jget "passwordConfirm" (form_data t f))) = false) as ->.
  { unfold form_data. rewrite Hl, Ho. destruct (isFirstRun f); [|done]. cbn. apply negb_false_iff, bool_decide_eq_true.
    cbn in Hp. apply String.eqb_eq in Hp. congruence. }
  assert (default ""%string (jget "email" (form_data t f)) = t_email t
    ∧ default ""%string (jget "password" (form_data t f)) = t_password t) as [-> ->]
    by (unfold form_data; by rewrite Hl, Ho).
  destruct (sign_in _ _ _ _) as [sent result], f as [first ld ol errs mfa otp]. cbn in Hl, Ho. subst ld ol.
  destruct result as [|m]; [done|]. destruct (js_or_undef m); [|done]. by destruct (otp_requested a).
Qed.

Definition second_factor_id (r : option (option string)) : option string := r ≫= js_or_undef.
Lemma submit_ready_effects t a f : isLoading f = false → isOauthLoading f = false → ready (isFirstRun f) t = true →
  let '(f', e) := handleSubmit t a f in
  isLoading f' = false
  ∧ signed e = match refused_with (isFirstRun f) a with None => Some true | Some _ => None end
  ∧ requests e = (if isFirstRun f then [CreateUser (t_email t) (t_password t)] else [])
      ++ (match isFirstRun f, create_user a with true, Refused _ => [] | _, _ => [AuthWithPassword (t_email t) (t_password t)] end)
      ++ (match second_factor_id (refused_with (isFirstRun f) a) with Some _ => [RequestOTP (t_email t)] | None => [] end).
Proof.
  intros Hl Ho Hr. pose proof (submit_ready t a f Hl Ho Hr) as He. revert He.
  unfold refused_with, sign_in, second_factor_id.
  destruct (isFirstRun f), (create_user a) as [|m1], (with_password a) as [|m2]; intros He; rewrite He; clear He;
    cbn [mbind option_bind]; try (destruct (js_or_undef m1)); try (destruct (js_or_undef m2)); try destruct (otp_requested a);
    (split; [done | split; reflexivity]).
Qed.

(** Fact [submit_spec]: submitting the form signs the user in exactly when its fields are valid, the two
    passwords agree on the first run, and the server takes every call; it sends something exactly
    when the fields are valid and agree; an account is only created on the first run, with what
    was typed; a one-time code is asked for exactly when the server refuses with the identifier of
    a second factor; and a form that is not sent says so at each field that is wrong. *)
Theorem submit_spec t a f : isLoading f = false → isOauthLoading f = false →
  let '(f', e) := handleSubmit t a f in
  let ok := ready (isFirstRun f) t in
  isLoading f' = false
  ∧ (signed e = Some true ↔ ok = true ∧ refused_with (isFirstRun f) a = None)
  ∧ (requests e = [] ↔ ok = false)
  ∧ (∀ email password, CreateUser email password ∈ requests e ↔
       ok = true ∧ isFirstRun f = true ∧ email = t_email t ∧ password = t_password t)
  ∧ (∀ email, RequestOTP email ∈ requests e ↔ ok = true ∧ email = t_email t
       ∧ ∃ id, refused_with (isFirstRun f) a = Some (Some id) ∧ truthy id = true)
  ∧ (valid_form (isFirstRun f) t = false → ∀ k, k ∈ form_fields (isFirstRun f) →
       (jget k (errors f') ≠ None ↔ valid_field t k = false)).
Proof.
  intros Hl Ho. destruct (ready (isFirstRun f) t) eqn:Hr.
  - pose proof (submit_ready_effects t a f Hl Ho Hr) as He. destruct (handleSubmit t a f) as [f' e].
    destruct He as (Hld & Hs & Hreq). cbn zeta. split; [done|]. rewrite Hs, Hreq.
    assert (valid_form (isFirstRun f) t = true) as Hv by (by apply andb_prop in Hr as [? _]).
    split; [destruct (refused_with _ _); naive_solver|].
    split; [destruct (isFirstRun f); by cbn|].
    split; [|split; [|congruence]].
    + intros email password. rewrite !elem_of_app. destruct (isFirstRun f), (create_user a), (second_factor_id _);
        rewrite ?elem_of_cons, ?elem_of_nil; naive_solver.
    + intros email. rewrite !elem_of_app. unfold second_factor_id.
      destruct (refused_with (isFirstRun f) a) as [[id|]|]; cbn; [unfold js_or_undef; destruct (truthy id) eqn:E| |];
        destruct (isFirstRun f), (create_user a); rewrite ?elem_of_cons, ?elem_of_nil;
        first [naive_solver | split; [intuition discriminate | intros (_ & _ & x & [= <-] & ?); congruence]].
  - destruct (submit_not_ready t a f Hl Ho Hr) as (e & -> & Hbad & _). cbn.
    split; [done|]. split; [naive_solver|]. split; [done|].
    split; [intros; split; [by intros []%elem_of_nil | naive_solver]|].
    split; [intros; split; [by intros []%elem_of_nil | naive_solver]|].
    intros Hv k Hk. rewrite (Hbad Hv). by apply errors_spec.
Qed.
End Submit.

Definition ex_typed (password confirm : string) : typed := {|
  t_email := "a@b"; t_password := password; t_confirm := confirm; t_website := "" |}.
Definition ex_answers (pw : answer) (otp : option string) : answers := {|
  create_user := Accepted; with_password := pw; otp_requested := otp |}.
Lemma submit_spec_witness :
  signed (handleSubmit (H := reference_valibot) (ex_typed "12345678" "") (ex_answers Accepted None) (new_form false)).2 = Some true.
Proof.
  pose proof (submit_spec (V := reference_valibot) (ex_typed "12345678" "") (ex_answers Accepted None)
    (new_form false) eq_refl eq_refl) as H.
  destruct (handleSubmit _ _ _) as [f' e]. apply (proj1 (proj2 H)). split; reflexivity.
Defined.

(** passwords that differ: the text is below the second input, which is not marked *)
Lemma confirm_not_marked {V : Valibot} {L : ValibotLaws V} t a f :
  isLoading f = false → isOauthLoading f = false → valid_form (isFirstRun f) t = true →
  ready (isFirstRun f) t = false →
  error_below "passwordConfirm" (handleSubmit t a f).1 = Some "Passwords do not match"%string
  ∧ marked "passwordConfirm" (handleSubmit t a f).1 = false.
Proof.
  intros Hl Ho Hv Hr. destruct (submit_not_ready t a f Hl Ho Hr) as (e & -> & _ & He). by rewrite (He Hv).
Qed.

(** ** Theorems: second factor, providers *)

(** Fact [oauth_blocks_password]: while a provider's sign-in is going on the inputs are disabled but the
    button is not: whatever is typed, submitting sends nothing and reports the address and the
    password as wrong. *)
Theorem oauth_blocks_password {V : Valibot} {L : ValibotLaws V} p forced ios opens t a f :
  (forced || ios = true → opens = true) →
  let '(f', e) := handleSubmit t a (loginWithOauth p forced ios opens f).1 in
  e = nothing ∧ ∀ k, k ∈ ["email"; "password"]%string → jget k (errors f') ≠ None.
Proof.
  intros Hopens. unfold loginWithOauth.
  assert ((forced || ios) && negb opens = false) as -> by (destruct (forced || ios); [by rewrite Hopens | done]).
  cbn [fst]. set (g := set_oauth_loading true f). unfold handleSubmit. fold (schema_of (isFirstRun g)).
  assert (form_data t g = [("website"%string, t_website t)]) as -> by (unfold form_data; cbn; by rewrite orb_true_r).
  assert (∀ k, k ∈ ["email"; "password"]%string →
    jget k (errors_of (safeParse (schema_of (isFirstRun g)) [("website"%string, t_website t)])) ≠ None) as Hk.
  { intros k Hk. apply jget_errors_of, issue_iff; [apply schema_nodup|].
    repeat (apply elem_of_cons in Hk as [->|Hk]); [| |by apply elem_of_nil in Hk];
      destruct (isFirstRun g); eexists; split; reflexivity. }
  destruct (safeParse _ _) as [|i l] eqn:E; [destruct (Hk "email"%string); [left | done]|]. split; [done | exact Hk].
Qed.
Lemma oauth_blocks_password_witness :
  (handleSubmit (H := reference_valibot) (ex_typed "12345678" "") (ex_answers Accepted None)
     (loginWithOauth {| pr_name := "github"; pr_displayName := "GitHub" |} false false true (new_form false)).1).2 = nothing.
Proof.
  assert (false || false = true → true = true) as Ho by done.
  pose proof (oauth_blocks_password (V := reference_valibot) {| pr_name := "github"; pr_displayName := "GitHub" |}
    false false true (ex_typed "12345678" "") (ex_answers Accepted None) (new_form false) Ho) as H.
  destruct (handleSubmit _ _ _) as [f' e]. apply H.
Defined.

(** a refused sign-in through a provider hands the error object to the toast *)
Lemma oauth_refused_toast f : forallb can_be_drawn (notices (oauth_answered None f).2) = false.
Proof. reflexivity. Qed.
(** after [logOut] no provider is started by itself *)
Lemma no_auto_login_after_logOut `{MapStore} m s : auto_login m (sessionStorage (logOut s)) = None.
Proof.
  unfold auto_login, logOut. cbn [sessionStorage]. rewrite jget_jset_eq.
  destruct (authProviders m) as [|p [|]]; [done| |done]. cbn. by rewrite andb_false_r.
Qed.
(** on the first run the page of a forgotten password keeps the heading of the registration *)
Lemma forgot_heading m : ∃ s, view s = LoginPage "Please create an admin account" ForgotPassword ∧ auth_methods s = Some m.
Proof.
  by exists {| authenticated := false; page := Some ForgotPasswordPage; auth_methods := Some m; form := new_form true;
            code := ""; otp_form := new_mail_form; forgot_form := new_mail_form |}.
Qed.
(** the divider is drawn exactly when something follows it *)
Definition is_divider (x : element) : bool := match x with Divider => true | _ => false end.
Definition is_alternative (x : element) : bool :=
  match x with OtpLink | ProviderButtons _ | GitHubDialog => true | _ => false end.
Lemma divider_followed m f l : form_view_of m f = Elements l → password_enabled m = true →
  existsb is_divider l = existsb is_alternative l.
Proof.
  unfold form_view_of. intros Hl Hp. rewrite Hp in Hl.
  assert (∃ alt : bool, alt = otp_enabled m && negb (mfa_enabled m)) as [alt Ha] by eauto. rewrite <-Ha in Hl.
  destruct (js_or_undef (otpId f)), (js_or_undef (mfaId f)); try discriminate; injection Hl as <-;
    by destruct (isFirstRun f), (oauthEnabled m), alt.
Qed.

(** ** Theorems: who is let in *)

(** the events after which the user is not signed in *)
Definition revokes (e : event) : bool :=
  match e with
  | LoggedOut => true | AuthStoreChanged v => negb v | Refreshed v => negb v
  | ProviderAnswered (Some v) => negb v | _ => false
  end.

Lemma submit_signed `{Valibot} t a f :
  signed (handleSubmit t a f).2 = None
  ∨ signed (handleSubmit t a f).2 = Some true ∧ with_password a = Accepted.
Proof.
  unfold handleSubmit. destruct (safeParse _ _); [|by left]. destruct (isFirstRun f && _); [by left|].
  unfold sign_in. destruct (isFirstRun f), (create_user a) as [|m1], (with_password a) as [|m2]; cbn; auto;
    try (destruct (js_or_undef m1)); try (destruct (js_or_undef m2)); cbn; auto; destruct (otp_requested a); auto.
Qed.
Lemma remount_authenticated old new : authenticated (remount old new) = authenticated new.
Proof.
  unfold remount. destruct (authenticated new) eqn:E; [done|]. repeat case_match; exact E.
Qed.
Lemma step_authenticated `{Valibot} s e :
  authenticated (step s e).1 = true → admits e = true ∨ authenticated s = true ∧ revokes e = false.
Proof.
  unfold step. destruct (handle s e) as [s' ef] eqn:E. cbn [fst]. rewrite remount_authenticated. intros Ha.
  destruct e; cbn [handle] in E; try (injection E as <- _; by right); try (injection E as <- _; destruct valid; auto; fail).
  - destruct (submit_signed t a (form s)) as [Hs|[Hs Hp]]; [|left; cbn; by rewrite Hp].
    destruct (handleSubmit _ _ _) as [f e']. unfold apply_signed in E. cbn in Hs. rewrite Hs in E.
    injection E as <- _. by right.
  - destruct (loginWithOauth _ _ _ _ _). injection E as <- _. by right.
  - destruct valid as [[]|]; injection E as <- _; auto.
  - destruct (code_input s) as [[]|]; injection E as <- _; by right.
  - destruct accepted; injection E as <- _; auto.
  - destruct (request_otp _ _). injection E as <- _. by right.
Qed.

(** Fact [admission]: something of the application is only drawn when the server, or the store it filled,
    has said who the user is and has not been overruled since: by signing out, by a change of the
    store or by an answer that leaves it invalid. *)
Theorem admission `{Valibot} es s body : view (run es s) = App body →
  authenticated s = true ∧ Forall (λ e, revokes e = false) es
  ∨ ∃ es1 e es2, es = es1 ++ e :: es2 ∧ admits e = true ∧ Forall (λ e, revokes e = false) es2.
Proof.
  intros Hv. assert (authenticated (run es s) = true) as Ha.
  { unfold view in Hv. destruct (authenticated (run es s)); [done|]. by destruct (auth_methods _). }
  clear Hv. induction es as [|e es IH] using rev_ind; [by left|]. unfold run in Ha. rewrite foldl_snoc in Ha.
  apply step_authenticated in Ha as [Ha|[Ha Hr]]; [right; by exists es, e, []|].
  destruct (IH Ha) as [[Hs Hall]|(es1 & e1 & es2 & -> & Hadm & Hall)].
  - left. split; [done|]. apply Forall_app. split; [done | by constructor].
  - right. exists es1, e1, (es2 ++ [e]). rewrite <-app_assoc. split; [done|]. split; [done|].
    apply Forall_app. split; [done | by constructor].
Qed.
Definition ex_methods : methods := {|
  password_enabled := true; otp_enabled := true; mfa_enabled := true; oauth2_enabled := false; providers := None |}.
Lemma admission_witness : ∃ es1 e es2,
  [MethodsListed ex_methods; Submitted (ex_typed "12345678" "") (ex_answers Accepted None)] = es1 ++ e :: es2
  ∧ admits e = true.
Proof.
  destruct (admission (H := reference_valibot)
    [MethodsListed ex_methods; Submitted (ex_typed "12345678" "") (ex_answers Accepted None)]
    (start (Some Home) false) (AppPage Home) eq_refl) as [[H _]|(es1 & e & es2 & He & Ha & _)]; [discriminate H|].
  by exists es1, e, es2.
Defined.

(** ** Theorems: the second factor *)

(** the requests of a sequence of events *)
Fixpoint sent `{Valibot} (es : list event) (s : state) : list request :=
  match es with [] => [] | e :: es => requests (step s e).2 ++ sent es (step s e).1 end.
(** a code typed character by character *)
Definition typings (code : string) : list event :=
  (λ n, CodeTyped (slice_to code n)) <$> seq 1 (String.length code).

Lemma code_typed_short otp mfa old value : String.length value ≠ 6 → code_typed otp mfa old value = [].
Proof. intros Hl. unfold code_typed, code_drawn. apply Nat.eqb_neq in Hl as ->. by destruct (String.eqb old value). Qed.
Lemma code_typed_full otp mfa old value : String.length value = 6 → String.length old ≠ 6 →
  code_typed otp mfa old value = [AuthWithOTP otp value mfa].
Proof.
  intros Hl Ho. unfold code_typed, code_drawn. rewrite Hl. destruct (String.eqb_spec old value); [congruence | done].
Qed.
Lemma code_step `{Valibot} s otp mfa value : authenticated s = false → code_input s = Some (otp, mfa) →
  step s (CodeTyped value) = (set_code value s,
    {| requests := code_typed otp mfa (code s) value; notices := []; signed := None |}).
Proof.
  intros Ha Hc. unfold step. cbn [handle]. rewrite Hc. unfold remount. cbn [authenticated set_code]. rewrite Ha.
  change (form_kind (set_code value s)) with (form_kind s). rewrite Nat.eqb_refl.
  change (code_input (set_code value s)) with (code_input s). by rewrite Hc.
Qed.
Lemma typings_sent `{Valibot} otp mfa value : String.length value = 6 → ∀ s,
  authenticated s = false → code_input s = Some (otp, mfa) →
  sent (typings value) s = [AuthWithOTP otp value mfa]
  ∧ authenticated (run (typings value) s) = false ∧ code_input (run (typings value) s) = Some (otp, mfa).
Proof.
  intros Hl s Ha Hc. unfold typings. rewrite Hl.
  do 6 (destruct value as [| ? value]; [done|]). destruct value; [|done]. cbn [seq].
  unfold run. cbn [sent fmap list_fmap foldl].
  repeat (rewrite (code_step _ otp mfa) by done; cbn [fst snd requests]).
  do 5 (rewrite code_typed_short by done). rewrite code_typed_full by done. done.
Qed.

(** the form is on the page, and takes input *)
Definition at_form (s : state) : Prop :=
  authenticated s = false ∧ (∃ m, auth_methods s = Some m) ∧ form_kind s = 2
  ∧ isLoading (form s) = false ∧ isOauthLoading (form s) = false ∧ code_input s = None.

Lemma asked_for_code {V : Valibot} {L : ValibotLaws V} s t a id otp : at_form s →
  ready (isFirstRun (form s)) t = true → refused_with (isFirstRun (form s)) a = Some (Some id) → truthy id = true →
  otp_requested a = Some otp → truthy otp = true →
  let s1 := (step s (Submitted t a)).1 in authenticated s1 = false ∧ code_input s1 = Some (otp, id).
Proof.
  intros (Ha & [m Hm] & Hk & Hl & Ho & Hc) Hr Href Hid Hotp Ht s1.
  assert (s1 = set_code "" (set_form (set_ids (Some id) (Some otp) (form s)) s)) as ->.
  { subst s1. unfold step. cbn [handle]. pose proof (submit_ready t a (form s) Hl Ho Hr) as He.
    unfold refused_with in Href. unfold sign_in in He.
    assert (∃ reqs, handleSubmit t a (form s) =
      (set_ids (Some id) (Some otp) (form s), {| requests := reqs; notices := []; signed := None |})) as [reqs ->].
    { destruct (isFirstRun (form s)), (create_user a), (with_password a); simplify_eq/=;
        unfold js_or_undef in He; rewrite Hid, Hotp in He; eexists; exact He. }
    unfold apply_signed. cbn [signed fst]. unfold remount. cbn [authenticated set_form]. rewrite Ha.
    change (form_kind (set_form _ s)) with (form_kind s). by rewrite Nat.eqb_refl, Hc. }
  split; [done|]. unfold code_input, view. cbn. rewrite Ha, Hm. unfold form_kind in Hk.
  unfold form_view_of, js_or_undef. cbn. rewrite Hid, Ht. by destruct (page s) as [[]|].
Qed.

(** Fact [second_factor]: when the server asks for a second factor the form gives way to the input of a
    code; typing six characters sends the code once, with both identifiers, nothing before; an
    accepted code leads to the home page, whatever page the form was on (that is where its address
    leads when there is no base path), and a refused one leaves the input in place. *)
Theorem second_factor {V : Valibot} {L : ValibotLaws V} s t a id otp value message : at_form s →
  ready (isFirstRun (form s)) t = true → refused_with (isFirstRun (form s)) a = Some (Some id) → truthy id = true →
  otp_requested a = Some otp → truthy otp = true → String.length value = 6 →
  let s1 := (step s (Submitted t a)).1 in let s2 := run (typings value) s1 in
  sent (typings value) s1 = [AuthWithOTP otp value id]
  ∧ view (step s2 (CodeAnswered true message)).1 = App (AppPage Home)
  ∧ code_input (step s2 (CodeAnswered false message)).1 = Some (otp, id).
Proof.
  intros Hs Hr Href Hid Hotp Ht Hv s1 s2. destruct (asked_for_code s t a id otp Hs Hr Href Hid Hotp Ht) as [Ha Hc].
  destruct (typings_sent otp id value Hv s1 Ha Hc) as (Hsent & Ha2 & Hc2). fold s2 in Ha2, Hc2.
  split; [done|]. split; [done|]. unfold step. cbn [handle fst]. unfold remount.
  by rewrite Ha2, Nat.eqb_refl, Hc2.
Qed.
Lemma second_factor_witness :
  let s := (step (H := reference_valibot) (start None false) (MethodsListed ex_methods)).1 in
  sent (H := reference_valibot) (typings "123456")
    (step (H := reference_valibot) s (Submitted (ex_typed "12345678" "") (ex_answers (Refused (Some "m"%string)) (Some "o"%string)))).1
  = [AuthWithOTP "o" "123456" "m"].
Proof.
  intros s.
  assert (at_form s) as Hs by (split; [reflexivity|]; split; [by exists ex_methods|]; done).
  exact (proj1 (second_factor (V := reference_valibot) s (ex_typed "12345678" "")
    (ex_answers (Refused (Some "m"%string)) (Some "o"%string)) "m" "o" "123456" "" Hs eq_refl eq_refl eq_refl eq_refl eq_refl eq_refl)).
Defined.
