(* ===== verification/AddSystem.v ===== *)
(** * The dialog of a system: [components/add-system.tsx], [components/install-dropdowns.tsx]

    The installation texts; the dialog that adds a system as a machine whose requests are
    answered later, with the token that is kept between openings; the dialog that edits one. *)
From Stdlib Require Import Ascii ZArith Lia.
From S2P Require Import Prelude JsValue Types.
Open Scope nat_scope.

(** ** Installation texts *)

Definition newline : ascii := ascii_of_nat 10.
Definition quote : string := String (ascii_of_nat 34) "".
(** a text between double quotes *)
Definition quoted (s : string) : string := quote +:+ s +:+ quote.

Definition getScriptUrl (path : string) : string := "https://get.beszel.dev" +:+ path.
Definition AGENT_IMAGE : string := "henrygd/beszel-agent".
Definition default_port : string := "45876".

Section Texts.
Context (hubURL : string).

Definition compose_lines (port : option string) (publicKey token : string) : list string := [
  "services:";
  "  beszel-agent:";
  "    image: " +:+ AGENT_IMAGE;
  "    container_name: beszel-agent";
  "    restart: unless-stopped";
  "    network_mode: host";
  "    volumes:";
  "      - /var/run/docker.sock:/var/run/docker.sock:ro";
  "      - ./beszel_agent_data:/var/lib/beszel-agent";
  "      # monitor other disks / partitions by mounting a folder in /extra-filesystems";
  "      # - /mnt/disk/.beszel:/extra-filesystems/sda1:ro";
  "    environment:";
  "      LISTEN: " +:+ default default_port port;
  "      KEY: '" +:+ publicKey +:+ "'";
  "      TOKEN: " +:+ token;
  "      HUB_URL: " +:+ hubURL]%string.
Definition docker_compose (port : option string) (publicKey token : string) : string :=
  str_join (String newline "") (compose_lines port publicKey token).

Definition docker_run (port : option string) (publicKey token : string) : string :=
  "docker run -d --name beszel-agent --network host --restart unless-stopped -v /var/run/docker.sock:/var/run/docker.sock:ro -v ./beszel_agent_data:/var/lib/beszel-agent -e KEY="
  +:+ quoted publicKey +:+ " -e LISTEN=" +:+ default default_port port +:+ " -e TOKEN=" +:+ quoted token
  +:+ " -e HUB_URL=" +:+ quoted hubURL +:+ " " +:+ AGENT_IMAGE.

Definition linux_command (port : option string) (publicKey token : string) (brew : bool) : string :=
  "curl -sL " +:+ (if brew then getScriptUrl "/brew" else hubURL +:+ "/install-agent.sh")
  +:+ " -o /tmp/install-agent.sh && chmod +x /tmp/install-agent.sh && /tmp/install-agent.sh -p "
  +:+ default default_port port +:+ " -k " +:+ quoted publicKey +:+ " -t " +:+ quoted token
  +:+ " -url " +:+ quoted hubURL.

Definition windows_command (port : option string) (publicKey token : string) : string :=
  let file := quoted "$env:TEMP\install-agent.ps1" in
  "& iwr -useb " +:+ getScriptUrl "" +:+ " -OutFile " +:+ file +:+ "; & Powershell -ExecutionPolicy Bypass -File "
  +:+ file +:+ " -Key " +:+ quoted publicKey +:+ " -Port " +:+ default default_port port
  +:+ " -Token " +:+ quoted token +:+ " -Url " +:+ quoted hubURL.
End Texts.

(** what the buttons pass as the port: the path of a socket, or the field's text *)
Definition isUnixSocket (host : string) : bool := starts_with host "/".
Definition listen_on (host : string) (port_field : option string) : option string :=
  if isUnixSocket host then Some host else port_field.

(** ** The dialog that adds a system *)

Record quick_fields := { qf_add : bool; qf_local : string; qf_domain : string; qf_category : string }.
(** [d_effect] is the value of [nextSystemToken] for which the effect last ran *)
Record dialog := {
  d_open : bool; d_token : string; d_effect : option (option string); d_host : string; d_quick : quick_fields }.
Definition new_dialog : dialog := {|
  d_open := true; d_token := ""; d_effect := None; d_host := "";
  d_quick := {| qf_add := false; qf_local := ""; qf_domain := ""; qf_category := "" |} |}.

(** a submission that waits for the answer to its first or its second request *)
Inductive stage := Creating | Fingerprinting (system : string).
Record pending := { pd_token : string; pd_name : string; pd_host : string; pd_quick : quick_fields; pd_stage : stage }.

(** [generated] counts the calls of [generateToken]; [fingerprints] are the pairs of a system
    and a token that the server has taken *)
Record state := {
  nextSystemToken : option string; generated : nat; shown : option dialog; pendings : list pending;
  fingerprints : list (string * string); quickLinks : list QuickLink; at_home : bool }.
Definition start (links : list QuickLink) : state := {|
  nextSystemToken := None; generated := 0; shown := None; pendings := []; fingerprints := [];
  quickLinks := links; at_home := false |}.

Definition set_next (t : option string) (n : nat) (s : state) : state := {|
  nextSystemToken := t; generated := n; shown := shown s; pendings := pendings s;
  fingerprints := fingerprints s; quickLinks := quickLinks s; at_home := at_home s |}.
Definition set_shown (d : dialog) (s : state) : state := {|
  nextSystemToken := nextSystemToken s; generated := generated s; shown := Some d; pendings := pendings s;
  fingerprints := fingerprints s; quickLinks := quickLinks s; at_home := at_home s |}.
Definition set_pendings (l : list pending) (s : state) : state := {|
  nextSystemToken := nextSystemToken s; generated := generated s; shown := shown s; pendings := l;
  fingerprints := fingerprints s; quickLinks := quickLinks s; at_home := at_home s |}.
Definition succeed (system : string) (p : pending) (links : list QuickLink) (s : state) : state := {|
  nextSystemToken := None; generated := generated s; shown := shown s; pendings := pendings s;
  fingerprints := fingerprints s ++ [(system, pd_token p)]; quickLinks := links; at_home := true |}.

Definition with_open (b : bool) (host : string) (d : dialog) : dialog := {|
  d_open := b; d_token := d_token d; d_effect := d_effect d; d_host := host; d_quick := d_quick d |}.
Definition with_token (t : string) (d : dialog) : dialog := {|
  d_open := d_open d; d_token := t; d_effect := Some (Some t); d_host := d_host d; d_quick := d_quick d |}.
Definition with_quick (q : quick_fields) (d : dialog) : dialog := {|
  d_open := d_open d; d_token := d_token d; d_effect := d_effect d; d_host := d_host d; d_quick := q |}.

Definition quick_link (system : string) (p : pending) : QuickLink := {|
  ql_id := system; ql_name := pd_name p; ql_localUrl := qf_local (pd_quick p);
  ql_domainUrl := qf_domain (pd_quick p); ql_category := Some (qf_category (pd_quick p)) |}.

Section Machine.
(** the token of the n-th call of [generateToken] *)
Context (generateToken : nat → string).

(** drawing the dialog runs its effect when [nextSystemToken] is not the value it last ran for;
    the effect leaves a token there, so that it settles after one round *)
Definition render (s : state) : state :=
  match shown s with
  | None => s
  | Some d =>
      if bool_decide (d_effect d = Some (nextSystemToken s)) then s else
      let fresh := negb (truthy (nextSystemToken s)) in
      let t := js_or (nextSystemToken s) (generateToken (generated s)) in
      set_shown (with_token t d) (set_next (Some t) (if fresh then S (generated s) else generated s) s)
  end.

Inductive event :=
| Opened | Closed | HostTyped (host : string) | QuickTyped (q : quick_fields)
| Submitted (name : string)
| CreateAnswered (i : nat) (system : option string) | FingerprintAnswered (i : nat) (accepted : bool).

Definition is_open (s : state) : bool := match shown s with Some d => d_open d | None => false end.
Definition set_dialog (f : dialog → dialog) (s : state) : state :=
  match shown s with Some d => render (set_shown (f d) s) | None => s end.

Definition step (s : state) (e : event) : state :=
  match e with
  | Opened => render (set_shown (match shown s with Some d => with_open true (d_host d) d | None => new_dialog end) s)
  | Closed => set_dialog (with_open false "") s
  | HostTyped host => set_dialog (λ d, with_open (d_open d) host d) s
  | QuickTyped q => set_dialog (with_quick q) s
  | Submitted name =>
      match shown s with
      | Some d =>
          if d_open d then
            set_dialog (with_open false "")
              (set_pendings (pendings s ++ [{| pd_token := d_token d; pd_name := name; pd_host := d_host d;
                                               pd_quick := d_quick d; pd_stage := Creating |}]) s)
          else s
      | None => s
      end
  | CreateAnswered i system =>
      match pendings s !! i, system with
      | Some p, None => set_pendings (delete i (pendings s)) s
      | Some p, Some system =>
          match pd_stage p with
          | Creating => set_pendings (<[i := {| pd_token := pd_token p; pd_name := pd_name p; pd_host := pd_host p;
                                               pd_quick := pd_quick p; pd_stage := Fingerprinting system |}]> (pendings s)) s
          | Fingerprinting _ => s
          end
      | None, _ => s
      end
  | FingerprintAnswered i accepted =>
      match pendings s !! i with
      | Some p =>
          match pd_stage p with
          | Fingerprinting system =>
              let s := set_pendings (delete i (pendings s)) s in
              if accepted then
                succeed system p
                  (if qf_add (pd_quick p) then quickLinks s ++ [quick_link system p] else quickLinks s) s
              else s
          | Creating => s
          end
      | None => s
      end
  end.
Definition run (es : list event) (s : state) : state := foldl step s es.
End Machine.

(** ** The dialog that edits a system *)

(** the record that is sent: the form's fields, the user, and the status *)
Definition edit_submit (user : string) (fields : jsmap string) : jsmap string :=
  jset "status" "pending" (jset "users" user fields).

(** ** Theorems: texts *)

Definition no_newline (s : string) : bool := str_all (λ c, negb (Ascii.eqb c newline)) s.
Lemma split_join (l : list string) : l ≠ [] → Forall (λ s, no_newline s = true) l →
  str_split newline (str_join (String newline "") l) = l.
Proof.
  intros Hne Hl. induction Hl as [|s l Hs Hl IH]; [done|]. destruct l as [|s' l].
  - by apply str_split_none.
  - change (str_join (String newline "") (s :: s' :: l)) with
      (s +:+ String newline "" +:+ str_join (String newline "") (s' :: l)).
    specialize (IH ltac:(done)). revert IH. generalize (str_join (String newline "") (s' :: l)) as rest. intros rest IH.
    clear Hl Hne. unfold no_newline in Hs. induction s as [|c s IHs].
    + change (str_split newline (String newline rest) = ""%string :: s' :: l). cbn [str_split].
      rewrite Ascii.eqb_refl. by rewrite IH.
    + cbn [str_all] in Hs. apply andb_prop in Hs as [Hc Hs]. apply negb_true_iff in Hc.
      change (str_split newline (String c (s +:+ String newline "" +:+ rest)) = String c s :: s' :: l). cbn [str_split].
      rewrite Hc. by rewrite (IHs Hs).
Qed.

(** the value of a variable of the compose file's environment *)
Definition env_value (key text : string) : option string :=
  let prefix := "      " +:+ key +:+ ": " in
  line ← List.find (λ l, starts_with l prefix) (str_split newline text);
  Some (slice_from line (String.length prefix)).

Lemma starts_with_app (p r : string) : starts_with (p +:+ r) p = true.
Proof.
  unfold starts_with. induction p as [|c p IH]; [by destruct r|].
  change (String.prefix (String c p) (String c (p +:+ r)) = true). cbn. by destruct (ascii_dec c c).
Qed.
Lemma slice_from_app (p r : string) : slice_from (p +:+ r) (String.length p) = r.
Proof. induction p as [|c p IH]; [by destruct r | exact IH]. Qed.
Lemma env_value_in key v before after :
  let prefix := "      " +:+ key +:+ ": " in
  forallb (λ l, negb (starts_with l prefix)) before = true →
  Forall (λ s, no_newline s = true) (before ++ (prefix +:+ v) :: after) →
  env_value key (str_join (String newline "") (before ++ (prefix +:+ v) :: after)) = Some v.
Proof.
  intros prefix Hb Hl. unfold env_value. fold prefix. rewrite split_join by (done || by destruct before).
  assert (List.find (λ l, starts_with l prefix) (before ++ (prefix +:+ v) :: after) = Some (prefix +:+ v)) as ->.
  { clear Hl. induction before as [|l before IH]; cbn; [by rewrite starts_with_app|].
    cbn in Hb. apply andb_prop in Hb as [Hl Hb]. apply negb_true_iff in Hl. by rewrite Hl, IH. }
  cbn. by rewrite slice_from_app.
Qed.

(** Fact [compose_roundtrip]: reading the compose file line by line gives back the address to listen on
    (the default port when there is none), the token and the address of the hub, as long as none
    of the four texts has a line break. *)
Theorem compose_roundtrip hubURL port publicKey token :
  no_newline hubURL = true → no_newline (default default_port port) = true →
  no_newline publicKey = true → no_newline token = true →
  let text := docker_compose hubURL port publicKey token in
  env_value "LISTEN" text = Some (default default_port port)
  ∧ env_value "KEY" text = Some ("'" +:+ publicKey +:+ "'")
  ∧ env_value "TOKEN" text = Some token ∧ env_value "HUB_URL" text = Some hubURL.
Proof.
  intros Hh Hp Hk Ht text. set (l := compose_lines hubURL port publicKey token).
  assert (Forall (λ s, no_newline s = true) l) as Hl.
  { unfold l, compose_lines. repeat (apply Forall_cons; split; [first [reflexivity
      | unfold no_newline in *; rewrite ?str_all_app; rewrite ?Hh, ?Hp, ?Hk, ?Ht; reflexivity]|]). by apply Forall_nil. }
  split; [|split; [|split]].
  - exact (env_value_in "LISTEN" _ (take 12 l) (drop 13 l) eq_refl Hl).
  - exact (env_value_in "KEY" _ (take 13 l) (drop 14 l) eq_refl Hl).
  - exact (env_value_in "TOKEN" _ (take 14 l) (drop 15 l) eq_refl Hl).
  - exact (env_value_in "HUB_URL" _ (take 15 l) [] eq_refl Hl).
Qed.
Lemma compose_roundtrip_witness :
  env_value "TOKEN" (docker_compose "https://hub" None "ssh-ed25519 AAA" "t0k") = Some "t0k"%string.
Proof. apply (compose_roundtrip "https://hub" None "ssh-ed25519 AAA" "t0k"); reflexivity. Defined.

(** ** Theorems: tokens *)

Section Tokens.
Context (generateToken : nat → string).
(** what the dialog relies on: tokens are not empty, and no two calls give the same *)
Hypothesis token_nonempty : ∀ n, truthy (generateToken n) = true.
Hypothesis token_injective : ∀ n m, generateToken n = generateToken m → n = m.

(** the dialog is not opened while a submission waits for its answers *)
Definition calm (e : event) (s : state) : Prop := match e with Opened => pendings s = [] | _ => True end.
Inductive reachable (links : list QuickLink) : state → Prop :=
| reach_start : reachable links (start links)
| reach_step e s : reachable links s → calm e s → reachable links (step generateToken s e).

Definition taken (s : state) : list string := (fingerprints s).*2.
Definition generated_before (s : state) (t : string) : Prop := ∃ k, k < generated s ∧ t = generateToken k.
(** the tokens of the server and the one that is kept *)
Record tokens_ok (s : state) : Prop := {
  tok_nodup : NoDup (taken s);
  tok_taken t : t ∈ taken s → generated_before s t;
  tok_next t : nextSystemToken s = Some t → (t ∉ taken s) ∧ generated_before s t }.
(** the dialog's effect has run *)
Definition dialog_ok (s : state) : Prop :=
  ∀ d, shown s = Some d → d_effect d = Some (Some (d_token d))
    ∧ (d_open d = true → nextSystemToken s = Some (d_token d) ∧ pendings s = []).
Definition pending_ok (s : state) : Prop :=
  pendings s = [] ∨ ∃ p, pendings s = [p] ∧ nextSystemToken s = Some (pd_token p).

Lemma generated_truthy s t : generated_before s t → truthy t = true.
Proof. intros (k & _ & ->). apply token_nonempty. Qed.

Lemma render_spec s d : tokens_ok s → shown s = Some d →
  d_effect d = None ∨ d_effect d = Some (Some (d_token d)) →
  ∃ d', shown (render generateToken s) = Some d' ∧ d_open d' = d_open d
  ∧ d_effect d' = Some (Some (d_token d'))
  ∧ nextSystemToken (render generateToken s) = Some (d_token d')
  ∧ pendings (render generateToken s) = pendings s ∧ fingerprints (render generateToken s) = fingerprints s
  ∧ (∀ t, nextSystemToken s = Some t → t = d_token d')
  ∧ tokens_ok (render generateToken s).
Proof.
  intros Hok Hd He. unfold render. rewrite Hd. case_bool_decide as Hn.
  { destruct He as [He|He]; [congruence|]. rewrite He in Hn. injection Hn as Hn.
    exists d. split_and!; try done; congruence. }
  destruct (nextSystemToken s) as [t|] eqn:Et.
  - destruct (tok_next s Hok t Et) as [Hnt Hg]. pose proof (generated_truthy s t Hg) as Htr.
    unfold truthy, truthy_option, js_or. rewrite Htr. cbn.
    eexists. split_and!; try done; [by intros ? [= ->]|].
    split; cbn; [apply Hok | apply Hok | intros ? [= <-]; done].
  - cbn. eexists. split_and!; try done. split; cbn; [apply Hok| |].
    + intros x Hx. destruct (tok_taken s Hok x Hx) as (k & Hk & ->). exists k. split; [cbn; lia | done].
    + intros x [= <-]. split; [|exists (generated s); split; [cbn; lia | done]].
      intros Hx. destruct (tok_taken s Hok _ Hx) as (k & Hk & Heq). apply token_injective in Heq. lia.
Qed.

Definition all_ok (s : state) : Prop := tokens_ok s ∧ dialog_ok s ∧ pending_ok s.

Lemma set_dialog_ok s f : all_ok s →
  (∀ d, d_effect (f d) = d_effect d ∧ d_token (f d) = d_token d) →
  (∀ d, shown s = Some d → d_open (f d) = true → pendings s = []) →
  all_ok (set_dialog generateToken f s).
Proof.
  intros (Ht & Hd & Hp) Hf Ho. unfold set_dialog. destruct (shown s) as [d|] eqn:E; [|done].
  assert (tokens_ok (set_shown (f d) s)) as Ht' by (split; apply Ht).
  destruct (Hf d) as [He Htok]. destruct (Hd d E) as [Heff _].
  destruct (render_spec (set_shown (f d) s) (f d) Ht' eq_refl) as (d' & Hs' & Hopen & Heff' & Hn' & Hp' & _ & Hsame & Ht'');
    [right; congruence|].
  split_and!; [done| |].
  - intros x Hx. rewrite Hs' in Hx. injection Hx as <-. split; [done|]. intros Hox. split; [done|].
    rewrite Hp'. apply (Ho d); [done | congruence].
  - unfold pending_ok. rewrite Hp'. destruct Hp as [Hp|(p & Hp & Hn)]; [by left | right].
    exists p. split; [done|]. rewrite Hn'. f_equal. symmetry. by apply Hsame.
Qed.
Lemma dialog_step_ok s e : all_ok s → calm e s → all_ok (step generateToken s e).
Proof.
  intros Hok Hc. pose proof Hok as (Ht & Hd & Hp). destruct e as [| |host|q|name|i [system|]|i accepted]; cbn [step].
  - set (d := match shown s with Some d => with_open true (d_host d) d | None => new_dialog end).
    assert (tokens_ok (set_shown d s)) as Ht' by (split; apply Ht).
    destruct (render_spec (set_shown d s) d Ht' eq_refl) as (d' & Hs' & Hopen & Heff' & Hn' & Hp' & _ & Hsame & Ht'').
    { subst d. destruct (shown s) as [d|] eqn:E; [right; apply (Hd d E) | by left]. }
    split_and!; [done| |left; by rewrite Hp'].
    intros x Hx. rewrite Hs' in Hx. injection Hx as <-. rewrite Hp'. by split.
  - by apply set_dialog_ok.
  - apply set_dialog_ok; try done. intros d E Ho. by apply (Hd d E).
  - apply set_dialog_ok; try done. intros d E Ho. by apply (Hd d E).
  - destruct (shown s) as [d|] eqn:E; [|done]. destruct (d_open d) eqn:Eo; [|done].
    destruct (Hd d E) as [Heff Hopen]. destruct (Hopen Eo) as [Hn Hpe].
    set (p := {| pd_token := _ |}).
    assert (tokens_ok (set_pendings (pendings s ++ [p]) s)) as Ht' by (split; apply Ht).
    assert (shown (set_pendings (pendings s ++ [p]) s) = Some d) as E' by done.
    unfold set_dialog. rewrite E'.
    destruct (render_spec (set_shown (with_open false "" d) (set_pendings (pendings s ++ [p]) s)) (with_open false "" d))
      as (d' & Hs' & Hop & Heff' & Hn' & Hp' & _ & Hsame & Ht''); [split; apply Ht | done | by right|].
    split_and!; [done| |].
    + intros x Hx. rewrite Hs' in Hx. injection Hx as <-. split; [done|]. by rewrite Hop.
    + right. exists p. rewrite Hp', Hn'. cbn. rewrite Hpe. split; [done|]. f_equal. symmetry. apply Hsame. exact Hn.
  - destruct Hp as [Hp|(p & Hp & Hn)]; rewrite Hp; [done|]. destruct i; [|done]. cbn. destruct (pd_stage p); [|done].
    split_and!; [split; apply Ht| |].
    + intros d E. split; [apply (Hd d E)|]. intros Ho. destruct (Hd d E) as [_ Hopen]. destruct (Hopen Ho). congruence.
    + right. eexists. split; [reflexivity | done].
  - destruct Hp as [Hp|(p & Hp & Hn)]; rewrite Hp; [done|]. destruct i; [|done].
    split_and!; [split; apply Ht| |by left]. intros d E. split; [apply (Hd d E)|]. intros Ho.
    split; [by apply (Hd d E) | done].
  - destruct Hp as [Hp|(p & Hp & Hn)]; rewrite Hp; [done|]. destruct i; [|done]. cbn.
    destruct (pd_stage p) as [|system]; [done|]. destruct (tok_next s Ht _ Hn) as [Hnt Hg].
    assert (∀ d, shown s = Some d → d_open d = false) as Hclosed.
    { intros d E. apply not_true_iff_false. intros Ho. destruct (Hd d E) as [_ Hopen]. destruct (Hopen Ho). congruence. }
    destruct accepted; split_and!; try by left.
    + split; unfold taken; cbn; rewrite fmap_app; cbn; [|intros t [Hin|Hin]%elem_of_app|done].
      * apply NoDup_app. split; [apply Ht|]. split; [|apply NoDup_singleton].
        by intros t Hin ->%list_elem_of_singleton.
      * by apply (tok_taken s Ht).
      * by apply list_elem_of_singleton in Hin as ->.
    + intros d E. split; [apply (Hd d E)|]. intros Ho. by rewrite (Hclosed d E) in Ho.
    + split; apply Ht.
    + intros d E. split; [apply (Hd d E)|]. intros Ho. by rewrite (Hclosed d E) in Ho.
Qed.

Lemma reachable_ok links s : reachable links s → all_ok s.
Proof.
  induction 1 as [|e s Hr IH Hc]; [|by apply dialog_step_ok]. split_and!; [|by intros d|by left].
  split; cbn; [constructor | by intros t ?%elem_of_nil | done].
Qed.

(** Fact [tokens_distinct]: as long as the dialog is not opened again while a submission waits, no two
    systems get the same token; an open dialog shows the token that is kept, however often it was
    closed and opened before, and no system has it yet; and neither has a system the token of a
    submission that waits. *)
Theorem tokens_distinct links s : reachable links s →
  NoDup (taken s)
  ∧ (∀ d, shown s = Some d → d_open d = true → nextSystemToken s = Some (d_token d) ∧ d_token d ∉ taken s)
  ∧ (∀ p, p ∈ pendings s → pd_token p ∉ taken s).
Proof.
  intros (Ht & Hd & Hp)%reachable_ok.
  split_and!; [apply Ht| |].
  - intros d E Ho. destruct (Hd d E) as [_ Hopen]. destruct (Hopen Ho) as [Hn _].
    split; [done|]. by apply (tok_next s Ht).
  - intros p Hin. destruct Hp as [Hp|(q & Hp & Hn)]; rewrite Hp in Hin; [by apply elem_of_nil in Hin|].
    apply list_elem_of_singleton in Hin as ->. by apply (tok_next s Ht).
Qed.
End Tokens.

Fixpoint all_calm (es : list event) (generateToken : nat → string) (s : state) : Prop :=
  match es with [] => True | e :: es => calm e s ∧ all_calm es generateToken (step generateToken s e) end.
Lemma dialog_run_reachable gen links es : ∀ s, reachable gen links s → all_calm es gen s → reachable gen links (run gen es s).
Proof.
  induction es as [|e es IH]; intros s Hs; [done|]. intros [He Hes]. apply IH; [by apply reach_step | done].
Qed.

(** tokens for examples *)
Definition numbered (n : nat) : string := String "t" (pretty (N.of_nat n)).
Lemma numbered_truthy n : truthy (numbered n) = true.
Proof. reflexivity. Qed.
Lemma numbered_injective n m : numbered n = numbered m → n = m.
Proof. intros [= H]. simplify_eq. lia. Qed.
Definition no_quick : quick_fields := {| qf_add := false; qf_local := ""; qf_domain := ""; qf_category := "" |}.

Lemma tokens_distinct_witness :
  NoDup (taken (run numbered
    [Opened; Closed; Opened; Submitted "web"; CreateAnswered 0 (Some "s1"%string); FingerprintAnswered 0 true;
     Opened; Submitted "db"; CreateAnswered 0 (Some "s2"%string); FingerprintAnswered 0 true] (start []))).
Proof.
  refine (proj1 (tokens_distinct numbered numbered_truthy numbered_injective [] _ _)).
  apply dialog_run_reachable; [constructor | by vm_compute].
Defined.

Definition submission (name : string) (d : dialog) : pending := {|
  pd_token := d_token d; pd_name := name; pd_host := d_host d; pd_quick := d_quick d; pd_stage := Creating |}.
Lemma render_settled gen s d : shown s = Some d → d_effect d = Some (nextSystemToken s) → render gen s = s.
Proof. intros Hs He. unfold render. by rewrite Hs, bool_decide_eq_true_2. Qed.
Lemma render_fresh gen s d : shown s = Some d → d_effect d ≠ Some None → nextSystemToken s = None →
  render gen s = set_shown (with_token (gen (generated s)) d) (set_next (Some (gen (generated s))) (S (generated s)) s).
Proof. intros Hs He Hn. unfold render. by rewrite Hs, Hn, bool_decide_eq_false_2. Qed.
Lemma open_settled gen s d : shown s = Some d → d_effect d = Some (nextSystemToken s) →
  step gen s Opened = set_shown (with_open true (d_host d) d) s.
Proof. intros Hs He. cbn [step]. rewrite Hs. by apply (render_settled _ _ (with_open true (d_host d) d)). Qed.
Lemma submit_state gen s d name : shown s = Some d → d_open d = true →
  step gen s (Submitted name) =
    render gen (set_shown (with_open false "" d) (set_pendings (pendings s ++ [submission name d]) s)).
Proof. intros Hs Ho. cbn [step]. rewrite Hs, Ho. unfold set_dialog. cbn [shown set_pendings]. by rewrite Hs. Qed.

(** Fact [reopened_token]: when the dialog is opened again while a submission waits, it shows the token of
    that submission and keeps showing it after the answers, so that the next system is given the
    same token. *)
Theorem reopened_token gen links name name' id id' :
  let s := run gen [Opened; Submitted name; Opened; CreateAnswered 0 (Some id); FingerprintAnswered 0 true;
                    Submitted name'; CreateAnswered 0 (Some id'); FingerprintAnswered 0 true] (start links) in
  fingerprints s = [(id, gen 0); (id', gen 0)].
Proof.
  cbn zeta. unfold run. cbn [foldl].
  assert (step gen (start links) Opened = set_shown (with_token (gen 0) new_dialog) (set_next (Some (gen 0)) 1 (start links))) as ->
    by exact (render_fresh gen (set_shown new_dialog (start links)) new_dialog eq_refl ltac:(done) eq_refl).
  set (s1 := set_shown (with_token (gen 0) new_dialog) _).
  rewrite (submit_state gen s1 (with_token (gen 0) new_dialog) name eq_refl eq_refl).
  rewrite (render_settled gen _ (with_open false "" (with_token (gen 0) new_dialog))) by reflexivity.
  rewrite (open_settled gen _ (with_open false "" (with_token (gen 0) new_dialog))) by reflexivity.
  set (d2 := with_open true _ _). set (s3 := set_shown d2 _).
  set (p := submission name (with_token (gen 0) new_dialog)).
  assert (step gen (step gen s3 (CreateAnswered 0 (Some id))) (FingerprintAnswered 0 true)
    = succeed id p links (set_pendings [] s3)) as -> by reflexivity.
  rewrite (submit_state gen (succeed id p links (set_pendings [] s3)) d2 name' eq_refl eq_refl).
  rewrite (render_fresh gen _ (with_open false "" d2)) by done. reflexivity.
Qed.
Lemma reopened_token_witness :
  fingerprints (run numbered [Opened; Submitted "web"; Opened; CreateAnswered 0 (Some "s1"); FingerprintAnswered 0 true;
                    Submitted "db"; CreateAnswered 0 (Some "s2"); FingerprintAnswered 0 true] (start []))%string
  = [("s1", "t0"); ("s2", "t0")]%string.
Proof. exact (reopened_token numbered [] "web" "db" "s1" "s2"). Defined.

(** ** Theorems: what a submission leaves *)

(** a system whose fingerprint is refused stays without one: there is no link, the page does not
    change, and the token is kept for the next system *)
Lemma refused_fingerprint gen s p system : pendings s = [p] → pd_stage p = Fingerprinting system →
  step gen s (FingerprintAnswered 0 false) = set_pendings [] s.
Proof. intros Hp Hst. cbn [step]. rewrite Hp. cbn. by rewrite Hst. Qed.

(** the fields of the quick link outlive the dialog: the next system gets a link with the same
    addresses unless they are changed *)
Lemma quick_fields_kept gen s d name : shown s = Some d → d_open d = true →
  ∃ d', shown (step gen s (Submitted name)) = Some d' ∧ d_quick d' = d_quick d ∧ d_open d' = false ∧ d_host d' = ""%string.
Proof.
  intros Hs Ho. rewrite (submit_state gen s d name Hs Ho). unfold render. cbn [shown set_shown].
  case_bool_decide; cbn; eexists; split; try reflexivity; by split.
Qed.

(** saving a system sets its status to pending, also that of a paused one, and sends the other fields
    as they were typed *)
Lemma edit_fields user fields k : k ≠ "status"%string → k ≠ "users"%string →
  jget "status" (edit_submit user fields) = Some "pending"%string
  ∧ jget k (edit_submit user fields) = jget k fields.
Proof.
  intros Hs Hu. unfold edit_submit. rewrite jget_jset_eq. split; [done|].
  rewrite !jget_jset_ne by done. done.
Qed.
