(* ===== verification/InfoBar.v ===== *)
(** * The bar of a system's page: [components/routes/system/info-bar.tsx]

    What the bar shows about the host, from the system's details or from the last report, the
    status and its dot, and the tooltip of the connection. *)
From Stdlib Require Import QArith ZArith Lia.
From S2P Require Import Prelude JsValue JsDate Types Utils.
Open Scope Z_scope.

(** the fields the bar reads; [dt_arch] is not part of the declared type *)
Record details := {
  dt_hostname : string; dt_kernel : string; dt_cores : Z; dt_threads : Z; dt_cpu : string; dt_os : Z;
  dt_os_name : string; dt_arch : option string; dt_memory : Q }.

(** an item; [value] and [label] may be missing *)
Record item := { icon : string; value : option string; label : option string; hide : bool }.
Definition plain (i : string) (v : option string) (l : option string) : item :=
  {| icon := i; value := v; label := l; hide := false |}.

Definition text_of (s : option string) : string := default "undefined"%string s.
Definition js_or_opt (a b : option string) : option string := match js_or_undef a with Some x => Some x | None => b end.

Section Bar.
Context `{Intl}.
(** how a number is written in a template string *)
Context (num_str : Q → string).

(** [osInfo[os]]; a number that names no system has no entry *)
Definition osInfo (os : Z) (osName kernel : option string) : option item :=
  let named i := plain i (js_or_opt osName kernel) (if truthy osName then kernel else None) in
  if os =? 0 then Some (named "Tux"%string)
  else if os =? 1 then Some (plain "Apple" (js_or_opt osName (Some ("macOS " +:+ text_of kernel))) None)
  else if os =? 2 then Some (named "Windows"%string)
  else if os =? 3 then Some (named "FreeBSD"%string)
  else None.

Definition uptime (u : Z) : string :=
  if u <? 3600 then secondsToString u Minute
  else if u <? 360000 then secondsToString u Hour else secondsToString u Day.

Definition plural_text (n : Z) (unit : string) : string :=
  to_locale_string n +:+ " " +:+ unit +:+ (match plural_category n with One => "" | _ => "s" end)%string.
Definition cores_text (cores threads : Z) (arch : option string) : string :=
  plural_text cores "core" +:+ " / " +:+ plural_text threads "thread"
  +:+ (if truthy arch then " / " +:+ text_of arch else "")%string.

Definition memory_text (memory : Q) : string :=
  let '(v, unit) := formatBytes memory false Unit_Bytes false in
  num_str (toFixedFloat v (if Qle_bool 10 v then 1 else 2)) +:+ " " +:+ unit.

(** the entries; [None] stands for the missing one of an unknown system *)
Definition systemInfo (system : SystemRecord) (d : option details) : list (option item) :=
  let info := sys_info system in
  let hostname := default (si_h info) (dt_hostname <$> d) in
  let kernel := match d with Some d => Some (dt_kernel d) | None => si_k info end in
  let cores := default (si_c info) (dt_cores <$> d) in
  let threads := default (default 0 (si_t info)) (dt_threads <$> d) in
  let cpuModel := match d with Some d => Some (dt_cpu d) | None => si_m info end in
  let os := default (default 0 (si_os info)) (dt_os <$> d) in
  [ Some (plain "Globe" (Some (getHostDisplayValue system)) None);
    Some {| icon := "Monitor"; value := Some hostname; label := Some "Hostname"%string;
            hide := String.eqb hostname (sys_host system) || String.eqb hostname (sys_name system) |};
    Some {| icon := "Clock"; value := Some (uptime (si_u info)); label := Some "Uptime"%string;
            hide := negb (truthy (si_u info)) |};
    osInfo os (dt_os_name <$> d) kernel;
    Some {| icon := "Cpu"; value := cpuModel; label := Some (cores_text cores threads (d ≫= dt_arch));
            hide := negb (truthy cpuModel) |} ]
  ++ match d with
     | Some d => if truthy (dt_memory d)
                 then [Some {| icon := "Memory"; value := Some (memory_text (dt_memory d)); label := Some "Memory"%string;
                               hide := negb (truthy (dt_memory d)) |}] else []
     | None => []
     end.

(** what is drawn: an entry that is missing cannot be taken apart, and the page fails *)
Definition drawn (i : item) : bool := negb (hide i) && truthy (value i).
Definition shown_items (system : SystemRecord) (d : option details) : option (list item) :=
  List.filter drawn <$> mapM id (systemInfo system d).
End Bar.

Definition translatedStatus (s : SystemStatus) : string :=
  match s with
  | Status_Up => "Up" | Status_Down => "Down" | Status_Paused => "paused" | Status_Pending => "pending"
  end.
Definition status_dot (s : SystemStatus) : string :=
  match s with
  | Status_Up => "bg-green-500" | Status_Down => "bg-red-500" | Status_Paused => "bg-primary/40"
  | Status_Pending => "bg-yellow-500"
  end.
Definition pings (s : SystemStatus) : bool := bool_decide (s = Status_Up).
(** the tooltip of the connection: icon and text *)
Definition connection_label (ct : option Z) : option (string * option string) :=
  match js_or_undef ct with
  | Some ct => Some (if ct =? 2 then "WebSocket"%string else "ChevronRight"%string,
                     label_at [""; "SSH"; "WebSocket"]%string ct)
  | None => None
  end.

(** ** Theorems *)

Section Facts.
Context `{Intl} (num_str : Q → string).

(** the reading of a time of operation: fewer than sixty minutes, one to ninety-nine hours, or
    four days and more *)
Lemma uptime_bounds u : 0 ≤ u →
  ∃ unit count, uptime u = secondsToString u unit
  ∧ count = u / match unit with Hour => 3600 | Minute => 60 | Day => 86400 end
  ∧ match unit with Minute => 0 ≤ count < 60 | Hour => 1 ≤ count < 100 | Day => 4 ≤ count end.
Proof.
  intros Hu. unfold uptime. destruct (Z.ltb_spec u 3600); [|destruct (Z.ltb_spec u 360000)].
  - exists Minute. eexists. split; [done|]. split; [done|]. split; [by apply Z.div_pos|]. apply Z.div_lt_upper_bound; lia.
  - exists Hour. eexists. split; [done|]. split; [done|].
    split; [apply Z.div_le_lower_bound; lia | apply Z.div_lt_upper_bound; lia].
  - exists Day. eexists. split; [done|]. split; [done|]. apply Z.div_le_lower_bound; lia.
Qed.

(** the parts of the bar that [d] or the last report give *)
Definition host_name (system : SystemRecord) (d : option details) : string :=
  default (si_h (sys_info system)) (dt_hostname <$> d).
Definition cpu_model (system : SystemRecord) (d : option details) : option string :=
  match d with Some d => Some (dt_cpu d) | None => si_m (sys_info system) end.
Definition os_number (system : SystemRecord) (d : option details) : Z :=
  default (default 0 (si_os (sys_info system))) (dt_os <$> d).
Definition has_icon (i : string) (l : list item) : Prop := ∃ x, x ∈ l ∧ icon x = i.

Lemma has_icon_cons (j : string) (x : item) (l : list item) :
  has_icon j (List.filter drawn (x :: l)) ↔ (icon x = j ∧ drawn x = true) ∨ has_icon j (List.filter drawn l).
Proof.
  unfold has_icon. cbn [List.filter]. destruct (drawn x) eqn:E; [|naive_solver]. split.
  - intros (y & [->|Hy]%elem_of_cons & Hi); [by left | right; by exists y].
  - intros [[Hi _]|(y & Hy & Hi)]; [exists x | exists y]; rewrite elem_of_cons; auto.
Qed.
Lemma no_icon j : has_icon j [] ↔ False.
Proof. split; [by intros (x & []%elem_of_nil & _) | done]. Qed.

Lemma truthy_app (a b : string) : truthy b = true → truthy (a +:+ b) = true.
Proof. by destruct a. Qed.
Lemma uptime_text u : truthy (uptime u) = true.
Proof.
  unfold uptime, secondsToString. repeat case_match; by apply truthy_app.
Qed.
Lemma memory_text_text q : truthy (memory_text num_str q) = true.
Proof. unfold memory_text. destruct (formatBytes _ _ _ _) as [v unit]. by apply truthy_app. Qed.
Lemma osInfo_known os osName kernel :
  match osInfo os osName kernel with
  | Some o => 0 ≤ os ≤ 3 ∧ icon o ∈ ["Tux"; "Apple"; "Windows"; "FreeBSD"]%string
  | None => ¬ 0 ≤ os ≤ 3
  end.
Proof.
  unfold osInfo. destruct (Z.eqb_spec os 0), (Z.eqb_spec os 1), (Z.eqb_spec os 2), (Z.eqb_spec os 3);
    try lia; cbn; (split; [lia | set_solver]).
Qed.

Lemma mapM_entries {A} (a b c e : A) o mem mem' : mapM id mem = Some mem' →
  mapM id ([Some a; Some b; Some c; o; Some e] ++ mem)
  = match o with Some o => Some (a :: b :: c :: o :: e :: mem') | None => None end.
Proof.
  intros Hm. change ([Some a; Some b; Some c; o; Some e] ++ mem) with (Some a :: Some b :: Some c :: o :: Some e :: mem).
  destruct o; [|done]. do 5 (cbn [mapM id mbind option_bind]). by rewrite Hm.
Qed.

Definition memory_items (d : option details) : list item :=
  match d with
  | Some d => if truthy (dt_memory d)
              then [{| icon := "Memory"; value := Some (memory_text num_str (dt_memory d)); label := Some "Memory"%string;
                       hide := negb (truthy (dt_memory d)) |}] else []
  | None => []
  end.
Lemma memory_items_icon d j : has_icon j (List.filter drawn (memory_items d)) ↔
  j = "Memory"%string ∧ ∃ d', d = Some d' ∧ truthy (dt_memory d') = true.
Proof.
  unfold memory_items. destruct d as [d|]; [|rewrite no_icon; naive_solver].
  destruct (truthy (dt_memory d)) eqn:E; [|rewrite no_icon; split; [done | intros (_ & d' & [= <-] & Hd); congruence]].
  rewrite has_icon_cons, no_icon. unfold drawn. cbn [icon hide value negb andb].
  change (truthy (Some (memory_text num_str (dt_memory d)))) with (truthy (memory_text num_str (dt_memory d))).
  rewrite memory_text_text. naive_solver.
Qed.

(** Fact [bar_spec]: for a known operating system the bar shows the host name unless it is empty or is the
    address or the name of the system, the time of operation unless it is zero, the processor
    unless its model is empty, and the memory only with details that have it; each from the details
    when there are some, even empty ones.  For a number that names no system it cannot be drawn. *)
Theorem bar_spec system d :
  match shown_items num_str system d with
  | Some items =>
      0 ≤ os_number system d ≤ 3
      ∧ (has_icon "Monitor" items ↔ host_name system d ∉ [""%string; sys_host system; sys_name system])
      ∧ (has_icon "Clock" items ↔ si_u (sys_info system) ≠ 0)
      ∧ (has_icon "Cpu" items ↔ truthy (cpu_model system d) = true)
      ∧ (has_icon "Memory" items ↔ ∃ d', d = Some d' ∧ truthy (dt_memory d') = true)
  | None => ¬ 0 ≤ os_number system d ≤ 3
  end.
Proof.
  unfold shown_items, systemInfo.
  pose proof (osInfo_known (os_number system d) (dt_os_name <$> d)
    match d with Some d => Some (dt_kernel d) | None => si_k (sys_info system) end) as Ho.
  unfold os_number in *. set (mem := match d with Some _ => _ | None => [] end).
  assert (mapM id mem = Some (memory_items d)) as Hm
    by (subst mem; unfold memory_items; destruct d as [d|]; [destruct (truthy (dt_memory d))|]; reflexivity).
  rewrite (mapM_entries _ _ _ _ _ _ _ Hm). destruct (osInfo _ _ _) as [o|]; [|done]. destruct Ho as [Hos Hi].
  cbn [fmap option_fmap option_map]. split; [done|]. clear Hm mem Hos.
  assert (∀ j, j ∉ ["Tux"; "Apple"; "Windows"; "FreeBSD"]%string → icon o ≠ j) as Hno by (intros j Hj <-; done).
  rewrite !has_icon_cons, !memory_items_icon. unfold drawn. cbn [icon hide value plain negb andb].
  repeat match goal with |- context [@truthy (option string) _ (Some ?x)] =>
    change (@truthy (option string) _ (Some x)) with (truthy x) end.
  rewrite uptime_text, negb_involutive, andb_true_r.
  fold (host_name system d). fold (cpu_model system d). 
  pose proof (Hno "Monitor"%string ltac:(set_solver)). pose proof (Hno "Clock"%string ltac:(set_solver)).
  pose proof (Hno "Cpu"%string ltac:(set_solver)). pose proof (Hno "Memory"%string ltac:(set_solver)).
  assert (negb (String.eqb (host_name system d) (sys_host system) || String.eqb (host_name system d) (sys_name system))
      && truthy (host_name system d) = true ↔ host_name system d ∉ [""%string; sys_host system; sys_name system]) as Hmon.
  { rewrite andb_true_iff, negb_true_iff, orb_false_iff, !String.eqb_neq, truthy_nonempty, !not_elem_of_cons.
    pose proof (not_elem_of_nil (host_name system d)). tauto. }
  assert (truthy (si_u (sys_info system)) = true ↔ si_u (sys_info system) ≠ 0) as Hclk
    by (unfold truthy, truthy_Z; by rewrite negb_true_iff, Z.eqb_neq).
  rewrite <-Hmon, <-Hclk, negb_involutive, andb_diag.
  split_and!; intuition discriminate.
Qed.
End Facts.

Definition plain_english : Intl := {|
  format_fixed v digits := z_str v; to_locale_string := z_str; plural_category n := if n =? 1 then One else Other |}.
Definition ex_system : SystemRecord := example_system "a1" "web" Status_Up.
Definition ex_details : details := {|
  dt_hostname := "box"; dt_kernel := "6.1"; dt_cores := 2; dt_threads := 4; dt_cpu := ""; dt_os := 0; dt_os_name := "Debian";
  dt_arch := Some "amd64"%string; dt_memory := 1024 |}.
Lemma bar_spec_witness : ∃ items,
  shown_items (H := plain_english) (λ _, ""%string) ex_system (Some ex_details) = Some items ∧ has_icon "Monitor" items.
Proof.
  pose proof (bar_spec (H := plain_english) (λ _, ""%string) ex_system (Some ex_details)) as H.
  destruct (shown_items _ ex_system (Some ex_details)) as [items|]; [|destruct H; vm_compute; split; discriminate].
  exists items. split; [reflexivity|]. apply (proj1 (proj2 H)). apply (bool_decide_unpack _). by vm_compute.
Defined.
