(* ===== verification/ChartParts.v ===== *)
(** * Single charts: [components/charts/], [components/routes/system/cpu-sheet.tsx],
    [components/routes/system/network-sheet.tsx], [components/ui/chart.tsx]

    The data, keys and colours of the temperature, GPU power and load charts, the breakdown of the
    processor time, the axes and labels of the memory, swap, disk and network charts, the tooltip
    with the memo it filters in, and the cached axis. *)
From Stdlib Require Import Ascii QArith Qround Lqa Lia ZArith Sorting.Sorted.
From S2P Require Import Prelude JsValue JsDate Types Utils Charts ChartView.
Open Scope Z_scope.

(** ** Sums by key, and keys in the order of their sums *)

(** [sums[key] = (sums[key] ?? 0) + value] *)
Definition add_sum (sums : jsmap Q) (key : string) (value : Q) : jsmap Q :=
  jset key (default 0 (jget key sums) + value)%Q sums.
Definition sum_of (sums : jsmap Q) (key : string) : Q := default 0%Q (jget key sums).
(** [keys.sort((a, b) => sums[b] - sums[a])] *)
Definition by_sum (sums : jsmap Q) : list string :=
  js_sort (λ a b, Qltb (sum_of sums a) (sum_of sums b)) (jkeys sums).

(** ** Temperatures *)

(** the temperatures of a record; the row of the chart has them beside [created] *)
Definition temps (r : SystemStatsRecord) : jsmap Q := default [] (s ← sr_stats r; st_t s).
Record temperature_data := { td_rows : list (created * jsmap Q); td_colors : jsmap Q }.
Definition temperature_sums (systemStats : list SystemStatsRecord) : jsmap Q :=
  foldl (λ sums r, foldl (λ sums p, add_sum sums p.1 p.2) sums (temps r)) [] systemStats.
Definition temperatureData (systemStats : list SystemStatsRecord) : temperature_data :=
  let keys := by_sum (temperature_sums systemStats) in {|
  td_rows := (λ r, (sr_created r, foldl (λ row p, jset p.1 p.2 row) [] (temps r))) <$> systemStats;
  td_colors := imap (λ i key, (key, hue i (length keys))) keys |}.
Definition temperature_legend (d : temperature_data) : bool := (length (td_colors d) <? 12)%nat.
(** the lines that are dimmed: none when the filter has no terms, unlike in the charts of containers *)
Definition dimmed_lines (filter : string) (d : temperature_data) : list string :=
  let terms := if truthy filter then List.filter (λ t, (0 <? String.length t)%nat) (str_split " " (str_lower filter)) else [] in
  if (0 <? length terms)%nat then List.filter (λ key, negb (existsb (str_includes (str_lower key)) terms)) (jkeys (td_colors d))
  else [].
Definition temperature_tick (unitTemp : option Unit) (val : Q) : Q * string :=
  let '(value, unit) := formatTemperature unitTemp val unitTemp in (toFixedFloat value 2, (" " +:+ unit)%string).

(** ** GPU power *)

Definition packageKey : string := " package".
Definition ends_with (s t : string) : bool :=
  (String.length t <=? String.length s)%nat
  && String.eqb (slice_from s (String.length s - String.length t)) t.
(** the row of a record: each GPU under its name, and again under its package's when that has a power *)
Definition gpu_row (gpus : jsmap GPUData) : jsmap GPUData :=
  foldl (λ row p, let gpu := p.2 in
    let row := jset (gpu_n gpu) gpu row in
    if truthy (gpu_pp gpu) then jset (gpu_n gpu +:+ packageKey) gpu row else row) [] gpus.
Definition gpu_sums (gpus : jsmap GPUData) (sums : jsmap Q) : jsmap Q :=
  foldl (λ sums p, let gpu := p.2 in
    let sums := add_sum sums (gpu_n gpu) (default 0%Q (gpu_p gpu)) in
    if truthy (gpu_pp gpu) then add_sum sums (gpu_n gpu +:+ packageKey) (default 0%Q (gpu_pp gpu)) else sums) sums gpus.
(** [gpus_of] of the page's charts reads the GPUs of a record *)
Definition addedKeys (systemStats : list SystemStatsRecord) : jsmap Q :=
  foldl (λ sums r, gpu_sums (gpus_of r) sums) [] systemStats.
(** label and hue of each line *)
Definition gpu_lines (systemStats : list SystemStatsRecord) : list (string * Q) :=
  let keys := by_sum (addedKeys systemStats) in
  imap (λ i key, (key, (226 + hue i (length keys))%Q)) keys.
Definition gpu_value (id : string) (row : jsmap GPUData) : Q :=
  let g := jget id row in
  if ends_with id packageKey then default 0%Q (g ≫= gpu_pp) else default 0%Q (g ≫= gpu_p).

(** ** Load averages *)

Definition load_legacy (i : nat) (s : SystemStats) : option Q :=
  match i with 0%nat => st_l1 s | 1%nat => st_l5 s | _ => st_l15 s end.
Definition load_list (i : nat) (s : SystemStats) : option Q :=
  (λ la : Q * Q * Q, match i with 0%nat => la.1.1 | 1%nat => la.1.2 | _ => la.2 end) <$> st_la s.
Definition load_key (agentVersion : SemVer) (i : nat) (stats : option SystemStats) : option Q :=
  if num_leb (minor agentVersion) (Fin 12) && num_ltb (patch agentVersion) (Fin 1)
  then stats ≫= load_legacy i
  else match stats ≫= load_list i with Some x => Some x | None => stats ≫= load_legacy i end.
Definition load_lines : list (string * string) :=
  [("1 min", "hsl(271, 81%, 60%)"); ("5 min", "hsl(217, 91%, 60%)"); ("15 min", "hsl(25, 95%, 53%)")]%string.

(** ** The processor sheet *)

Definition minAgentVersion : SemVer := parseSemVer (Some "0.15.3"%string).
Definition supportsBreakdown (agentVersion : SemVer) : bool :=
  num_geb (compareSemVer agentVersion minAgentVersion) (Fin 0).
Definition breakdown (stats : option SystemStats) : option (list Z) := stats ≫= st_cpub.
(** the stacked areas: system, user, waiting, stolen, idle, and what is missing to 100 *)
Definition breakdown_labels : list (string * nat) :=
  [("System", 1%nat); ("User", 0%nat); ("IOWait", 2%nat); ("Steal", 3%nat); ("Idle", 4%nat)]%string.
Definition breakdown_key (i : nat) (stats : option SystemStats) : option Z := l ← breakdown stats; l !! i.
Definition other_key (stats : option SystemStats) : option Z :=
  let total := default 0 (foldl Z.add 0 <$> breakdown stats) in
  if 0 <? total then Some (100 - total) else None.
(** a core's share in the stack of all cores; a record without the core has a part of one *)
Definition core_key (i : nat) (stats : option SystemStats) : jsnum :=
  let cpus := stats ≫= st_cpus in
  match (l ← cpus; l !! i) with
  | Some x => Fin (inject_Z x)
  | None => let n := default 1%nat (length <$> cpus) in
            if (n =? 0)%nat then Inf false else Fin (1 / inject_Z (Z.of_nat n))
  end.
Definition core_hue (i numCores : nat) : Q := (226 + hue i (Nat.max 1 numCores))%Q.
(** the charts of the sheet: the breakdown, all cores, and one for each core *)
Definition cpu_sheet (agentVersion : SemVer) (latest : option SystemStats) : option (bool * nat * bool) :=
  if supportsBreakdown agentVersion then
    let numCores := length (default [] (latest ≫= st_cpus)) in
    Some ((0 <? length (default [] (breakdown latest)))%nat, numCores, (numCores <? 10)%nat)
  else None.

(** ** Axes and labels *)

Section Labels.
Context `{Intl}.
(** memory: the axis ends at the size, which hides it when it is zero *)
Definition totalMem (latest : option SystemStats) : Q := toFixedFloat (default 0%Q (st_m <$> latest)) 1.
Definition mem_axis (latest : option SystemStats) : option (Q * Q) :=
  if truthy (totalMem latest) then Some (0, totalMem latest)%Q else None.
Definition mem_areas (showMax : bool) (stats : option SystemStats) : list (string * option Q) :=
  [("Used", stats ≫= (λ s, if showMax then st_mm s else Some (st_mu s)));
   ("ZFS ARC", if showMax then None else stats ≫= st_mz);
   ("Cache / Buffers", if showMax then None else st_mb <$> stats)]%string.
Definition swap_top (latest : option SystemStats) : Q := toFixedFloat (default (4 # 100) (st_s <$> latest)) 2.
(** the digits of a tick depend on the number of gigabytes, those of the tooltip on the number shown *)
Definition size_tick (unit : Unit) (value : Q) : Q * string :=
  let '(v, u) := formatBytes (value * 1024) false unit true in
  (toFixedFloat v (if Qle_bool 10 value then 0 else 1), (" " +:+ u)%string).
Definition size_content (unit : Unit) (value : Q) : string :=
  let '(v, u) := formatBytes (value * 1024) false unit true in
  (decimalString [] v (if Qle_bool 100 v then 1 else 2)).1 +:+ " " +:+ u.
(** disks *)
Definition disk_top (diskSize : Q) : Q :=
  if Qle_bool 100 diskSize then inject_Z (round_half_up diskSize) else diskSize.
Definition disk_tick (value : Q) : Q * string :=
  let '(v, u) := formatBytes (value * 1024) false Unit_Bytes true in
  (toFixedFloat v (if Qle_bool 10 v then 0 else 1), (" " +:+ u)%string).
(** the network sheet: bytes a second for the two upper charts, bytes for the lower ones *)
Definition net_tick (perSecond : bool) (unit : Unit) (val : Q) : Q * string :=
  let '(v, u) := formatBytes val perSecond unit false in
  (toFixedFloat v (if Qle_bool 10 v then 0 else 1), (" " +:+ u)%string).
Definition net_content (perSecond : bool) (unit : Unit) (val : Q) : string :=
  let '(v, u) := formatBytes val perSecond unit false in
  (decimalString [] v (if Qle_bool 100 v then 1 else 2)).1 +:+ " " +:+ u.
End Labels.
(** title and index of the four charts; the sheet is missing without interfaces *)
Definition net_charts : list (string * nat) :=
  [("Download", 1%nat); ("Upload", 0%nat); ("Cumulative Download", 3%nat); ("Cumulative Upload", 2%nat)]%string.
Definition network_sheet (latest : option SystemStats) : option (list (string * Q) * bool) :=
  let lines := useNetworkInterfaces (Some (default [] (latest ≫= st_ni))) in
  match lines with [] => None | _ => Some (lines, (length lines <? 15)%nat) end.
(** a numbered colour is one of the theme's *)
Definition area_color (c : Z + string) : string :=
  match c with inl n => ("var(--chart-" +:+ z_str n +:+ ")")%string | inr s => s end.

(** ** The tooltip *)

Record payload_item := { pi_name : string; pi_value : option Q }.
Definition filter_items (filter : string) (items : list payload_item) : list payload_item :=
  let terms := List.filter (λ t, (0 <? String.length t)%nat) (str_split " " (str_lower filter)) in
  List.filter (λ i, existsb (str_includes (str_lower (pi_name i))) terms) items.

(** a render gets the array [payload], named by a number, and the sorter, named likewise; the memo
    runs when one of the two is another than in the last render.  Sorting is done in the array. *)
Record tooltip_props := { tp_payload : nat; tp_sorter : option nat; tp_filter : string }.
Record tooltip := { arrays : nat → list payload_item; last_deps : option (option nat * nat) }.

Section Tooltip.
Context (sort : nat → list payload_item → list payload_item).
(** the items that are drawn *)
Definition tooltip_render (p : tooltip_props) (s : tooltip) : tooltip * list payload_item :=
  let deps := (tp_sorter p, tp_payload p) in
  let items := arrays s (tp_payload p) in
  if bool_decide (last_deps s = Some deps) then (s, items) else
  let filtered := if truthy (tp_filter p) then filter_items (tp_filter p) items else items in
  let sorted := match tp_sorter p with Some f => sort f filtered | None => filtered end in
  (* a filtered array is a new one; an unfiltered one is sorted where it is *)
  let arrays := if truthy (tp_filter p) then arrays s
                else λ i, if (i =? tp_payload p)%nat then sorted else arrays s i in
  ({| arrays := arrays; last_deps := Some deps |}, sorted).
End Tooltip.

(** the total below the items: none when there are none *)
Definition tooltip_sum (showTotal : bool) (items : list payload_item) : option Q :=
  if showTotal && (0 <? length items)%nat then
    let values := omap pi_value items in
    if (0 <? length values)%nat then Some (foldl Qplus 0%Q values) else None
  else None.
(** the legend *)
Definition legend_items {A} (reverse : bool) (payload : list A) : list A := if reverse then rev payload else payload.

(** ** The cached axis *)

Record axis := { ax_domain : Z * Z; ax_ticks : list Z; ax_time : ChartTimes }.
Definition xAxis (cachedAxis : option axis) (td : time_data) : axis :=
  let fresh := {| ax_domain := td_domain td; ax_ticks := td_ticks td; ax_time := td_chartTime td |} in
  match cachedAxis with
  | Some a => if (td_domain td).1 =? (ax_domain a).1 then a else fresh
  | None => fresh
  end.

(** ** Theorems: temperatures *)

Lemma by_sum_spec sums :
  by_sum sums ≡ₚ jkeys sums ∧ StronglySorted (λ a b, sum_of sums b <= sum_of sums a)%Q (by_sum sums).
Proof. apply (js_sort_desc (sum_of sums)). Qed.

Lemma StronglySorted_weaken {A} (R R' : A → A → Prop) l : StronglySorted R l →
  (∀ x y, x ∈ l → y ∈ l → R x y → R' x y) → StronglySorted R' l.
Proof.
  induction 1 as [|a l Hs IH Ha]; intros HR; [constructor|]. constructor.
  - apply IH. intros x y Hx Hy. apply HR; by right.
  - rewrite Forall_forall in *. intros x Hx. apply HR; [left | by right | by apply Ha].
Qed.

(** all readings of the sensors, oldest record first, and the sum of those of one sensor *)
Definition all_temps (systemStats : list SystemStatsRecord) : list (string * Q) := concat (temps <$> systemStats).
Definition sum_for (key : string) (l : list (string * Q)) : Q :=
  foldl (λ acc p, if String.eqb p.1 key then acc + p.2 else acc)%Q 0%Q l.

Lemma temperature_sums_fold systemStats :
  temperature_sums systemStats = foldl (λ s p, add_sum s p.1 p.2) [] (all_temps systemStats).
Proof.
  unfold temperature_sums, all_temps. generalize (@nil (string * Q)) as m.
  induction systemStats as [|r l IH]; intros m; cbn; [done|]. by rewrite IH, foldl_app.
Qed.
Lemma sums_lookup key l :
  jget key (foldl (λ s p, add_sum s p.1 p.2) [] l) =
  if existsb (λ p, String.eqb p.1 key) l then Some (sum_for key l) else None.
Proof.
  induction l as [|p l IH] using rev_ind; [done|]. rewrite foldl_snoc, existsb_app. unfold add_sum at 1.
  rewrite jget_jset. unfold sum_for. rewrite foldl_snoc. fold (sum_for key l). cbn. rewrite orb_false_r.
  destruct (String.eqb_spec p.1 key) as [->|]; [|by rewrite orb_false_r, IH].
  rewrite orb_true_r, IH. destruct (existsb _ l) eqn:E; [done|]. cbn. f_equal. f_equal.
  unfold sum_for. clear IH. induction l as [|q l IHl] using rev_ind; [done|].
  rewrite existsb_app in E. apply orb_false_elim in E as [E1 E2]. cbn in E2. rewrite orb_false_r in E2.
  rewrite foldl_snoc, E2. by apply IHl.
Qed.
Lemma sums_wf l : jwf (foldl (λ s p, add_sum s p.1 p.2) [] l).
Proof.
  induction l as [|p l IH] using rev_ind; [constructor|]. rewrite foldl_snoc. by apply jwf_jset.
Qed.
Lemma jkeys_imap {B} (f : nat → string → B) l : jkeys (imap (λ i key, (key, f i key)) l) = l.
Proof.
  unfold jkeys. rewrite fmap_imap. apply list_eq. intros i. rewrite list_lookup_imap. cbn. by destruct (l !! i).
Qed.

(** Fact [temperature_lines]: the temperature chart has one line for every sensor that occurs in a record,
    and no other; the sensors come by decreasing sum of their readings. *)
Theorem temperature_lines systemStats :
  let lines := jkeys (td_colors (temperatureData systemStats)) in
  NoDup lines
  ∧ (∀ key, key ∈ lines ↔ ∃ r q, r ∈ systemStats ∧ (key, q) ∈ temps r)
  ∧ StronglySorted (λ a b, sum_for b (all_temps systemStats) <= sum_for a (all_temps systemStats))%Q lines.
Proof.
  intros lines. assert (lines = by_sum (temperature_sums systemStats)) as -> by apply jkeys_imap.
  destruct (by_sum_spec (temperature_sums systemStats)) as [Hp Hs].
  assert (∀ key, jget key (temperature_sums systemStats) =
    if existsb (λ p, String.eqb p.1 key) (all_temps systemStats) then Some (sum_for key (all_temps systemStats)) else None)
    as Hget by (intros key; rewrite temperature_sums_fold; apply sums_lookup).
  assert (∀ key, key ∈ by_sum (temperature_sums systemStats) ↔ existsb (λ p, String.eqb p.1 key) (all_temps systemStats) = true)
    as Hin by (intros key; rewrite Hp, <-jget_is_Some, Hget;
      destruct (existsb _ _); split; [done | by eexists | by intros [] | done]).
  split_and!.
  - rewrite Hp, temperature_sums_fold. apply sums_wf.
  - intros key. rewrite Hin, existsb_exists. split.
    + intros ([k q] & Hk & He). apply String.eqb_eq in He. cbn in He. subst k.
      apply in_concat in Hk as (m & Hm & Hk). apply list_elem_of_In, list_elem_of_fmap in Hm as (r & -> & Hr).
      exists r, q. split; [done|]. by apply list_elem_of_In.
    + intros (r & q & Hr & Hq). exists (key, q). split; [|apply String.eqb_refl]. apply in_concat.
      exists (temps r). split; apply list_elem_of_In; [by apply list_elem_of_fmap_2 | done].
  - apply (StronglySorted_weaken _ _ _ Hs). intros x y Hx%Hin Hy%Hin. unfold sum_of. rewrite !Hget, Hx, Hy. done.
Qed.
Definition ex_temps (t : Z) (a b : Q) : SystemStatsRecord := measured {|
  st_cpu := 3; st_cpum := None; st_cpub := Some [20; 10; 0; 0; 70]; st_cpus := None; st_l1 := Some 1%Q; st_l5 := None;
  st_l15 := None; st_la := Some (2, 3, 4)%Q; st_m := 4; st_mu := 1; st_mp := 25; st_mb := 1; st_mm := None;
  st_mz := None; st_s := 0; st_su := None; st_d := None; st_du := 10; st_dp := 5; st_dr := None;
  st_dw := None; st_drm := None; st_dwm := None; st_dio := None; st_diom := None; st_ns := 0;
  st_nr := 0; st_b := None; st_nsm := None; st_nrm := None; st_bm := None; st_t := Some [("cpu", a); ("nvme", b)]%string;
  st_efs := None; st_g := None; st_bat := None; st_ni := None |} t.
Lemma temperature_lines_witness : "nvme"%string ∈ jkeys (td_colors (temperatureData [ex_temps 0 40 50])).
Proof.
  apply (proj1 (proj2 (temperature_lines [ex_temps 0 40 50]))).
  exists (ex_temps 0 40 50), 50%Q. split; [left | right; left].
Defined.

(** ** Theorems: GPU power *)

Lemma starts_ends (a b : string) : ends_with (a +:+ b) b = true.
Proof.
  unfold ends_with. rewrite str_length_app. apply andb_true_intro. split; [apply Nat.leb_le; lia|].
  replace (String.length a + String.length b - String.length b)%nat with (String.length a) by lia.
  apply String.eqb_eq. induction a as [|c a IH]; [by destruct b | exact IH].
Qed.
Lemma append_inj_l (a a' b : string) : a +:+ b = a' +:+ b → a = a'.
Proof.
  intros H. assert (String.length a = String.length a') as Hl.
  { apply (f_equal String.length) in H. rewrite !str_length_app in H. lia. }
  revert a' Hl H. induction a as [|c a IH]; intros [|c' a'] Hl H; try done.
  injection Hl as Hl. injection H as -> H. f_equal. by apply IH.
Qed.

(** the GPUs of a record with a name, and those of them whose package has a power *)
Definition named (name : string) (gpus : jsmap GPUData) : list GPUData :=
  List.filter (λ g, String.eqb (gpu_n g) name) (jvalues gpus).
Definition with_package (l : list GPUData) : list GPUData := List.filter (λ g, truthy (gpu_pp g)) l.

Lemma named_snoc name gpus p :
  named name (gpus ++ [p]) = named name gpus ++ (if String.eqb (gpu_n p.2) name then [p.2] else []).
Proof. unfold named, jvalues. rewrite fmap_app, List.filter_app. cbn. by destruct (String.eqb _ _). Qed.
Lemma last_if {A} (l : list A) (b : bool) x : last (l ++ (if b then [x] else [])) = if b then Some x else last l.
Proof. destruct b; [apply last_snoc | by rewrite app_nil_r]. Qed.

Lemma jget_gpu_row gpus name :
  (∀ p, p ∈ gpus → ends_with (gpu_n p.2) packageKey = false) →
  (ends_with name packageKey = false → jget name (gpu_row gpus) = last (named name gpus))
  ∧ jget (name +:+ packageKey) (gpu_row gpus) = last (with_package (named name gpus)).
Proof.
  intros Hn. induction gpus as [|p gpus IH] using rev_ind; [by split|].
  assert (ends_with (gpu_n p.2) packageKey = false) as Hp by (apply Hn; rewrite elem_of_app; right; left).
  destruct IH as [IH1 IH2]; [intros q Hq; apply Hn; rewrite elem_of_app; by left|].
  assert (∀ x, ends_with x packageKey = false → (x +:+ packageKey =? gpu_n p.2)%string = false) as Hne.
  { intros x _. apply String.eqb_neq. intros E. rewrite <-E, starts_ends in Hp. done. }
  unfold gpu_row. rewrite foldl_snoc. fold (gpu_row gpus). rewrite named_snoc. split.
  - intros Hx. rewrite last_if. destruct (truthy (gpu_pp p.2)); rewrite !jget_jset; [|by destruct (String.eqb _ _); auto].
    destruct (String.eqb_spec (gpu_n p.2 +:+ packageKey) name) as [E|E]; [by rewrite <-E, starts_ends in Hx|].
    destruct (String.eqb _ _); auto.
  - unfold with_package. rewrite List.filter_app.
    assert ((gpu_n p.2 =? name +:+ packageKey)%string = false) as Hneq.
    { apply String.eqb_neq. intros E. by rewrite E, starts_ends in Hp. }
    destruct (String.eqb_spec (gpu_n p.2) name) as [<-|Hname]; cbn [List.filter].
    + destruct (truthy (gpu_pp p.2)) eqn:E; rewrite !jget_jset; [by rewrite String.eqb_refl, last_snoc|].
      by rewrite Hneq, app_nil_r.
    + rewrite app_nil_r. destruct (truthy (gpu_pp p.2)); rewrite !jget_jset, Hneq; [|done].
      destruct (String.eqb_spec (gpu_n p.2 +:+ packageKey) (name +:+ packageKey)) as [E%append_inj_l|]; done.
Qed.

(** Fact [gpu_power_lines]: in every record a line shows the power of the last GPU that has its name, and the
    line of a package that of the last such GPU whose package has a power: GPUs with different
    names keep their own, while of several with one name all but the last are lost. *)
Theorem gpu_power_lines gpus name :
  (∀ p, p ∈ gpus → ends_with (gpu_n p.2) packageKey = false) → ends_with name packageKey = false →
  gpu_value name (gpu_row gpus) = default 0%Q (last (named name gpus) ≫= gpu_p)
  ∧ gpu_value (name +:+ packageKey) (gpu_row gpus) = default 0%Q (last (with_package (named name gpus)) ≫= gpu_pp).
Proof.
  intros Hn Hx. destruct (jget_gpu_row gpus name Hn) as [H1 H2]. unfold gpu_value.
  rewrite Hx, starts_ends, H2, (H1 Hx). done.
Qed.
Definition ex_gpu (power : Q) : GPUData := {|
  gpu_n := "RTX"; gpu_mu := None; gpu_mt := None; gpu_u := 0; gpu_p := Some power; gpu_pp := None; gpu_e := None |}.
Lemma gpu_power_lines_witness : gpu_value "RTX" (gpu_row [("0", ex_gpu 200); ("1", ex_gpu 30)]%string) = 30%Q.
Proof.
  refine (proj1 (gpu_power_lines [("0", ex_gpu 200); ("1", ex_gpu 30)]%string "RTX" _ _)); [|reflexivity].
  intros p Hp. repeat (apply elem_of_cons in Hp as [->|Hp]; [reflexivity|]). by apply elem_of_nil in Hp.
Defined.

(** ** Theorems: the processor sheet and load *)

(** Fact [breakdown_total]: with five readings the areas of the breakdown add up to 100 whenever one of them
    is not zero; the last area, what is missing to 100, is then below zero exactly when rounding has
    taken the five above 100, and there is none at all when the five are zero. *)
Theorem breakdown_total stats a b c d e : breakdown stats = Some [a; b; c; d; e] →
  0 <= a → 0 <= b → 0 <= c → 0 <= d → 0 <= e →
  match other_key stats with
  | Some other =>
      foldl Z.add other (omap (λ l, breakdown_key l.2 stats) breakdown_labels) = 100
      ∧ (other < 0 ↔ 100 < a + b + c + d + e)
  | None => a = 0 ∧ b = 0 ∧ c = 0 ∧ d = 0 ∧ e = 0
  end.
Proof.
  intros Hs ? ? ? ? ?. unfold other_key.
  assert (default 0 (foldl Z.add 0 <$> breakdown stats) = a + b + c + d + e) as -> by (rewrite Hs; cbn; lia).
  assert (omap (λ l, breakdown_key l.2 stats) breakdown_labels = [b; a; c; d; e]) as ->
    by (unfold breakdown_key; by rewrite Hs).
  destruct (Z.ltb_spec 0 (a + b + c + d + e)); [|lia]. cbn [foldl]. lia.
Qed.
Lemma breakdown_total_witness : other_key (sr_stats (ex_temps 0 1 1)) = Some 0 ∧
  foldl Z.add 0 (omap (λ l, breakdown_key l.2 (sr_stats (ex_temps 0 1 1))) breakdown_labels) = 100.
Proof.
  pose proof (breakdown_total (sr_stats (ex_temps 0 1 1)) 20 10 0 0 70 eq_refl) as H.
  split; [reflexivity|]. apply H; lia.
Defined.

(** agents up to 0.12.0 are read from the three old fields, newer ones from the list, and from the
    old fields when there is no list; the check does not look at the first number of the version,
    so that the list of a release such as 1.0.0 is not shown *)
Lemma load_spec v i stats :
  load_key v i (Some stats) =
  if num_leb (minor v) (Fin 12) && num_ltb (patch v) (Fin 1) then load_legacy i stats
  else match load_list i stats with Some x => Some x | None => load_legacy i stats end.
Proof. reflexivity. Qed.
Lemma load_of_1_0_0 i stats : load_key (parseSemVer (Some "1.0.0"%string)) i (Some stats) = load_legacy i stats.
Proof. reflexivity. Qed.

(** ** Theorems: the tooltip and the axis *)

(** Fact [tooltip_filter]: the filter is applied when the tooltip is drawn for another array or sorter than
    before; drawn again for the same ones it shows every item, also those that the filter, or
    another filter that was set meanwhile, leaves out. *)
Theorem tooltip_filter sort p s filter' :
  tp_sorter p = None → truthy (tp_filter p) = true → last_deps s ≠ Some (None, tp_payload p) →
  let '(s1, first) := tooltip_render sort p s in
  let again := {| tp_payload := tp_payload p; tp_sorter := None; tp_filter := filter' |} in
  first = filter_items (tp_filter p) (arrays s (tp_payload p))
  ∧ (tooltip_render sort again s1).2 = arrays s (tp_payload p).
Proof.
  intros Hs Hf Hd. unfold tooltip_render at 1. rewrite Hs, bool_decide_eq_false_2, Hf by done. split; [done|].
  unfold tooltip_render. cbn. by rewrite bool_decide_eq_true_2.
Qed.
Definition ex_items (n : nat) : list payload_item := [{| pi_name := "web"; pi_value := Some 1%Q |}; {| pi_name := "db"; pi_value := Some 2%Q |}].
Lemma tooltip_filter_witness :
  (tooltip_render (λ _ l, l) {| tp_payload := 0; tp_sorter := None; tp_filter := "web" |}
     (tooltip_render (λ _ l, l) {| tp_payload := 0; tp_sorter := None; tp_filter := "web" |}
        {| arrays := ex_items; last_deps := None |}).1).2 = ex_items 0.
Proof.
  pose proof (tooltip_filter (λ _ l, l) {| tp_payload := 0; tp_sorter := None; tp_filter := "web" |}
    {| arrays := ex_items; last_deps := None |} "web" eq_refl eq_refl ltac:(discriminate)) as H.
  destruct (tooltip_render _ _ {| arrays := ex_items; last_deps := None |}) as [s1 first]. apply H.
Defined.
(** an axis is kept as long as its start does not change, whatever the span of the chart *)
Lemma axis_kept a td : (td_domain td).1 = (ax_domain a).1 → xAxis (Some a) td = a.
Proof. intros H. cbn. by rewrite H, Z.eqb_refl. Qed.
