(* ===== verification/Palette.v ===== *)
(** * Getting around: [components/command-palette.tsx], the user's menu in [components/navbar.tsx]

    The entries of the palette with their targets, the key that opens it, the memo that keeps the
    entries of the moment it was opened, and the menu of the user. *)
From Stdlib Require Import ZArith Lia.
From S2P Require Import Prelude JsValue Types Utils Settings.

(** where an entry leads: a page of the router with its parameter, an address in this window, or
    one in a new window *)
Inductive target := Page (route : string) (param : option string) | Here (url : string) | Window (path : string).
Record entry := { text : string; shortcut : string; keywords : list string; leads : target; closes : bool }.
Definition to_page (t s : string) (k : list string) (route : string) (param : option string) : entry :=
  {| text := t; shortcut := s; keywords := k; leads := Page route param; closes := true |}.

Definition palette_systems (systems : list SystemRecord) : list entry :=
  (λ system, to_page (sys_name system) (getHostDisplayValue system) [] "system" (Some (sys_id system))) <$> systems.
Definition palette_pages : list entry := [
  to_page "All Systems" "Page" ["home"] "home" None;
  to_page "All Containers" "Page" [] "containers" None;
  to_page "S.M.A.R.T." "Page" [] "smart" None;
  to_page "Settings" "Settings" [] "settings" (Some "general");
  to_page "Notifications" "Settings" ["alerts"] "settings" (Some "notifications");
  to_page "Tokens & Fingerprints" "Settings" ["Universal token"] "settings" (Some "tokens");
  to_page "Alert History" "Settings" [] "settings" (Some "alert-history");
  {| text := "Documentation"; shortcut := "beszel.dev"; keywords := ["help"; "oauth"; "oidc"];
     leads := Here "https://beszel.dev/guide/what-is-beszel"; closes := false |}]%string.
Definition admin_entry (t : string) (k : list string) (path : string) : entry :=
  {| text := t; shortcut := "Admin"; keywords := k; leads := Window path; closes := true |}.
Definition palette_admin : list entry := [
  admin_entry "Users" ["pocketbase"] "/_/";
  admin_entry "Logs" [] "/_/#/logs";
  admin_entry "Backups" [] "/_/#/settings/backups";
  admin_entry "SMTP settings" ["email"] "/_/#/settings/mail"]%string.
(** the groups; that of the systems is left out when there are none *)
Definition palette_groups (systems : list SystemRecord) (isAdmin : bool) : list (list entry) :=
  (if (0 <? length systems)%nat then [palette_systems systems] else [])
  ++ [palette_pages] ++ (if isAdmin then [palette_admin] else []).
Definition palette_entries (systems : list SystemRecord) (isAdmin : bool) : list entry :=
  concat (palette_groups systems isAdmin).

(** [usersMenu]: the user's menu *)
Definition user_menu (isAdmin : bool) : list (string * option string) :=
  (if isAdmin then [("Users", Some "/_/"); ("Systems", Some "/_/#/collections?collection=systems");
                    ("Logs", Some "/_/#/logs"); ("Backups", Some "/_/#/settings/backups")] else [])%string
  ++ [("Log Out"%string, None)].

(** ** The palette on the page *)

(** [memo] is the value of [open] for which the entries were drawn last *)
Record palette := { open : bool; memo : option bool; entries : list entry }.
Definition closed_palette : palette := {| open := false; memo := None; entries := [] |}.
Record key_down := { kd_key : string; kd_meta : bool; kd_ctrl : bool }.
Definition opens (e : key_down) : bool := String.eqb (kd_key e) "k" && (kd_meta e || kd_ctrl e).

(** drawing: the entries are those of the store only when [open] has changed *)
Definition draw (systems : list SystemRecord) (isAdmin : bool) (p : palette) : palette :=
  if bool_decide (memo p = Some (open p)) then p
  else {| open := open p; memo := Some (open p); entries := palette_entries systems isAdmin |}.
Inductive event := KeyDown (e : key_down) | SearchClicked | Closed | Selected (x : entry) | StoreChanged.
(** [systems] is the store at the time of the event *)
Definition palette_step (isAdmin : bool) (p : palette) (e : list SystemRecord * event) : palette :=
  let set b := draw e.1 isAdmin {| open := b; memo := memo p; entries := entries p |} in
  match e.2 with
  | KeyDown k => if opens k then set (negb (open p)) else p
  | SearchClicked => set true
  | Closed => set false
  | Selected x => if closes x then set false else p
  | StoreChanged => p
  end.
Definition palette_run (isAdmin : bool) (es : list (list SystemRecord * event)) : palette :=
  foldl (palette_step isAdmin) (draw [] isAdmin closed_palette) es.

(** ** Theorems *)

(** Fact [palette_spec]: every entry that leads to a page leads to one of the router's, every system has an
    entry that leads to its page, and only administrators are led to the administration. *)
Theorem palette_spec systems isAdmin x : x ∈ palette_entries systems isAdmin →
  match leads x with
  | Page route param =>
      jhas route (routes "") = true
      ∧ (route = "system"%string → ∃ s, s ∈ systems ∧ param = Some (sys_id s) ∧ text x = sys_name s)
  | Here _ => closes x = false
  | Window path => isAdmin = true ∧ starts_with path "/_/" = true
  end.
Proof.
  unfold palette_entries, palette_groups. rewrite !concat_app. rewrite !elem_of_app. intros [Hx|[Hx|Hx]].
  - destruct (0 <? length systems)%nat; [|set_solver].
    cbn [concat] in Hx. rewrite app_nil_r in Hx. apply list_elem_of_fmap in Hx as (s & -> & Hs).
    split; [reflexivity|]. intros _. by exists s.
  - revert x Hx. apply Forall_forall. repeat constructor; by vm_compute.
  - destruct isAdmin; [|set_solver]. revert x Hx. apply Forall_forall. repeat constructor.
Qed.

Definition ex_systems : list SystemRecord := [example_system "a1" "web" Status_Up].
Lemma palette_spec_witness :
  ∃ x, x ∈ palette_entries ex_systems false ∧ leads x = Page "system" (Some "a1"%string)
       ∧ jhas "system" (routes "") = true
       ∧ ("system" = "system" → ∃ s, s ∈ ex_systems ∧ Some "a1" = Some (sys_id s) ∧ text x = sys_name s)%string.
Proof.
  assert (Hx : to_page "web" "10.0.0.1" [] "system" (Some "a1"%string) ∈ palette_entries ex_systems false)
    by (unfold palette_entries, palette_groups; rewrite concat_app; apply elem_of_app; left; vm_compute; left).
  eexists. split; [exact Hx|]. split; [reflexivity|]. exact (palette_spec _ _ _ Hx).
Defined.

(** whatever happened, the palette shows what the store held when it was opened or closed last *)
Definition toggles (p : palette) (e : event) : bool :=
  match e with
  | KeyDown k => opens k
  | SearchClicked => negb (open p)
  | Closed => open p
  | Selected x => closes x && open p
  | StoreChanged => false
  end.
Lemma step_memo isAdmin p e : memo p = Some (open p) → memo (palette_step isAdmin p e) = Some (open (palette_step isAdmin p e)).
Proof.
  intros Hm. destruct e as [systems [k| | |x|]]; unfold palette_step, draw; cbn [fst snd open memo];
    repeat case_match; try done; by case_bool_decide.
Qed.
Lemma run_memo isAdmin es : memo (palette_run isAdmin es) = Some (open (palette_run isAdmin es)).
Proof.
  induction es as [|e es IH] using rev_ind; [reflexivity|].
  unfold palette_run. rewrite foldl_app. by apply step_memo.
Qed.

(** Fact [palette_frozen]: the entries change only by an event that opens or closes the palette, and are then those of
    the systems the store has at that moment: a system added, renamed or removed while the palette
    is open is not followed. *)
Theorem palette_frozen isAdmin es systems e :
  let p := palette_run isAdmin es in
  let p' := palette_run isAdmin (es ++ [(systems, e)]) in
  (open p' = if toggles p e then negb (open p) else open p)
  ∧ entries p' = if toggles p e then palette_entries systems isAdmin else entries p.
Proof.
  cbn zeta. pose proof (run_memo isAdmin es) as Hm. unfold palette_run in *. rewrite foldl_app. cbn [foldl].
  revert Hm. generalize (foldl (palette_step isAdmin) (draw [] isAdmin closed_palette) es). intros [o m l].
  cbn [memo open]. intros ->.
  destruct e as [k| | |x|]; cbn [palette_step toggles fst snd open memo entries]; [destruct (opens k)| | |destruct (closes x)|];
    unfold draw; cbn [memo open entries]; repeat case_bool_decide; destruct o; naive_solver.
Qed.
