(* ===== verification/Boot.v ===== *)
(** * Starting the application: [App] in [main.tsx]

    The page's effect asks for the systems, subscribes to them, asks for the alerts and
    subscribes to those, each step when the one before was answered, and ends both subscriptions
    when the page goes away.  An answer can come after the user has logged out; a page that comes
    back starts another chain.  The parts are those of [SystemsManager], [Alerts] and [Api]. *)
From Stdlib Require Import QArith ZArith Lia Sorting.Permutation.
From S2P Require Import Prelude JsValue Types Nanostores Live.
From S2P Require SystemsManager.
From S2P Require Alerts.
From S2P Require Api.
Import SystemsManager (ById, has_id, valid, handle, NoHandle, Handle, Answer).

(** ** State *)

(** where a chain of requests waits, or why it waits no more *)
Inductive stage := Refreshing | Subscribing | AlertsRefreshing | AlertsSubscribing | Ready | Rejected.
#[export] Instance stage_eq_dec : EqDecision stage. Proof. solve_decision. Defined.

(** the subscriptions of one collection that reach its handler, and the module's [unsub] *)
Record channel := { live : list nat; unsub : handle }.
Definition no_channel : channel := {| live := []; unsub := NoHandle |}.
Definition subscribe (i : nat) (c : channel) : channel := {| live := live c ++ [i]; unsub := Handle i |}.
Definition without (i : option nat) (l : list nat) : list nat :=
  match i with Some i => List.filter (λ j, negb (Nat.eqb j i)) l | None => l end.

Record application := {
  session : Api.session; messages : Alerts.batch_state; systems_channel : channel; alerts_channel : channel;
  stages : list stage;   (* one chain per time the page was put up *)
  mounted : bool; verifying : nat; threw : bool }.

Definition with_session (s : Api.session) (a : application) : application := {|
  session := s; messages := messages a; systems_channel := systems_channel a; alerts_channel := alerts_channel a;
  stages := stages a; mounted := mounted a; verifying := verifying a; threw := threw a |}.
Definition with_systems (st : SystemsManager.state) (s : Api.session) : Api.session := {|
  Api.systems_state := st; Api.alerts := Api.alerts s; Api.client_state := Api.client_state s;
  Api.sessionStorage := Api.sessionStorage s; Api.authenticated := Api.authenticated s; Api.subscribed := Api.subscribed s |}.
Definition with_alerts (al : AlertMap) (s : Api.session) : Api.session := {|
  Api.systems_state := Api.systems_state s; Api.alerts := al; Api.client_state := Api.client_state s;
  Api.sessionStorage := Api.sessionStorage s; Api.authenticated := Api.authenticated s; Api.subscribed := Api.subscribed s |}.
Definition on_systems (f : SystemsManager.state → SystemsManager.state) (a : application) : application :=
  with_session (with_systems (f (Api.systems_state (session a))) (session a)) a.
Definition with_authenticated (b : bool) (s : Api.session) : Api.session := {|
  Api.systems_state := Api.systems_state s; Api.alerts := Api.alerts s; Api.client_state := Api.client_state s;
  Api.sessionStorage := Api.sessionStorage s; Api.authenticated := b; Api.subscribed := Api.subscribed s |}.
Definition with_messages (m : Alerts.batch_state) (a : application) : application := {|
  session := session a; messages := m; systems_channel := systems_channel a; alerts_channel := alerts_channel a;
  stages := stages a; mounted := mounted a; verifying := verifying a; threw := threw a |}.
Definition with_channels (s al : channel) (a : application) : application := {|
  session := session a; messages := messages a; systems_channel := s; alerts_channel := al;
  stages := stages a; mounted := mounted a; verifying := verifying a; threw := threw a |}.
Definition with_stages (l : list stage) (a : application) : application := {|
  session := session a; messages := messages a; systems_channel := systems_channel a; alerts_channel := alerts_channel a;
  stages := l; mounted := mounted a; verifying := verifying a; threw := threw a |}.
Definition with_page (m : bool) (v : nat) (t : bool) (a : application) : application := {|
  session := session a; messages := messages a; systems_channel := systems_channel a; alerts_channel := alerts_channel a;
  stages := stages a; mounted := m; verifying := v; threw := t |}.
Definition to_stage (i : nat) (t : stage) (a : application) : application := with_stages (<[i := t]> (stages a)) a.

(** ** Events *)

Inductive event :=
  | Mounted | Unmounted                                            (* the page follows [$authenticated] *)
  | SystemsAnswered (i : nat) (answer : option (list SystemRecord))
  | SystemsSubscribed (i : nat) (accepted : bool)
  | AlertsAnswered (i : nat) (answer : option (list AlertRecord))
  | AlertsSubscribed (i : nat) (accepted : bool)
  | SystemMessage (act : string) (record : SystemRecord)
  | AlertMessage (now : Z) (e : Alerts.event)
  | AlertsTimer (now : Z)
  | Verified (accepted : bool)
  | LoggedOut | SignedIn.

Definition waits (i : nat) (t : stage) (a : application) : bool := bool_decide (stages a !! i = Some t).

Section Boot.
Context `{MapStore}.
(** what the function that ends a subscription returns *)
Context (returned : handle).

(** the effect: the manager's listener, and a chain of its own *)
Definition mount (a : application) : application :=
  with_page true (verifying a) (threw a) (with_stages (stages a ++ [Refreshing]) (on_systems SystemsManager.init a)).

(** the cleanup: [alertManager.unsubscribe()] keeps its function, then [systemsManager.unsubscribe()] *)
Definition cleanup (a : application) : application :=
  let al := alerts_channel a in
  let al := {| live := without (match unsub al with Handle i => Some i | _ => None end) (live al); unsub := unsub al |} in
  let s := systems_channel a in
  match SystemsManager.unsubscribe returned (unsub s) with
  | Some (ended, u) =>
      with_page false (verifying a) (threw a) (with_channels {| live := without ended (live s); unsub := u |} al a)
  | None => with_page false (verifying a) true (with_channels s al a)
  end.

(** [systemsManager.refresh] never rejects *)
Definition systems_answered (i : nat) (answer : option (list SystemRecord)) (a : application) : application :=
  let '(st, verify) := SystemsManager.refresh answer (Api.systems_state (session a)) in
  let a := to_stage i Subscribing (on_systems (λ _, st) a) in
  with_page (mounted a) (if verify then S (verifying a) else verifying a) (threw a) a.
(** nor does [systemsManager.subscribe] *)
Definition systems_subscribed (i : nat) (accepted : bool) (a : application) : application :=
  to_stage i AlertsRefreshing
    (if accepted then with_channels (subscribe i (systems_channel a)) (alerts_channel a) a else a).
(** [alertManager.refresh] and [alertManager.subscribe] do, and nothing follows them then *)
Definition alerts_answered (i : nat) (answer : option (list AlertRecord)) (a : application) : application :=
  match Alerts.refresh answer (Api.alerts (session a)) with
  | Some al => to_stage i AlertsSubscribing (with_session (with_alerts al (session a)) a)
  | None => to_stage i Rejected a
  end.
Definition alerts_subscribed (i : nat) (accepted : bool) (a : application) : application :=
  if accepted then to_stage i Ready (with_channels (systems_channel a) (subscribe i (alerts_channel a)) a)
  else to_stage i Rejected a.

(** every subscription that is alive calls the handler *)
Definition times {A} (f : A → A) (n : nat) (x : A) : A := Nat.iter n f x.

Definition step (a : application) (e : event) : application :=
  match e with
  | Mounted => if negb (mounted a) && Api.authenticated (session a) then mount a else a
  | Unmounted => if mounted a && negb (Api.authenticated (session a)) then cleanup a else a
  | SystemsAnswered i answer => if waits i Refreshing a then systems_answered i answer a else a
  | SystemsSubscribed i accepted => if waits i Subscribing a then systems_subscribed i accepted a else a
  | AlertsAnswered i answer => if waits i AlertsRefreshing a then alerts_answered i answer a else a
  | AlertsSubscribed i accepted => if waits i AlertsSubscribing a then alerts_subscribed i accepted a else a
  | SystemMessage act record =>
      on_systems (times (SystemsManager.on_event act record) (length (live (systems_channel a)))) a
  | AlertMessage now e =>
      with_messages (times (Alerts.batchUpdate now e) (length (live (alerts_channel a))) (messages a)) a
  | AlertsTimer now =>
      if bool_decide (Alerts.batch_timeout (messages a) = Some now) then
        let '(m, al) := Alerts.flush (messages a) (Api.alerts (session a)) in
        with_messages m (with_session (with_alerts al (session a)) a)
      else a
  | Verified accepted =>
      match verifying a with
      | O => a
      | S v => let '(s, out) := Api.verifyAuth accepted (session a) in
               let a := with_page (mounted a) v (threw a) (with_session s a) in
               if out then with_channels {| live := []; unsub := unsub (systems_channel a) |}
                             {| live := []; unsub := unsub (alerts_channel a) |} a
               else a
      end
  | LoggedOut =>   (* [pb.realtime.unsubscribe()] ends every subscription *)
      with_channels {| live := []; unsub := unsub (systems_channel a) |} {| live := []; unsub := unsub (alerts_channel a) |}
        (with_session (Api.logOut (session a)) a)
  | SignedIn => with_session (with_authenticated true (session a)) a
  end.
Definition run (es : list event) (a : application) : application := foldl step a es.
End Boot.

(** ** The server's systems and the page *)

Definition action_name (a : action) : string :=
  match a with Create => "create" | Update => "update" | Delete => "delete" end.
(** a change of a record on the server *)
Definition server_change (a : action) (r : SystemRecord) (m : jsmap SystemRecord) : jsmap SystemRecord :=
  match a with Create | Update => jset (sys_id r) r m | Delete => jdel (sys_id r) m end.

Record world := { server : jsmap SystemRecord; page : application }.
Definition store (w : SystemsManager.store_id) (a : application) : jsmap SystemRecord :=
  SystemsManager.stores (Api.systems_state (session a)) w.
(** the application as it is loaded by a user who is signed in *)
Definition loaded (c : Api.client) (storage : jsmap string) : application := {|
  session := {| Api.systems_state := SystemsManager.initial_state; Api.alerts := []; Api.client_state := c;
                Api.sessionStorage := storage; Api.authenticated := true; Api.subscribed := false |};
  messages := Alerts.empty_batch; systems_channel := no_channel; alerts_channel := no_channel;
  stages := []; mounted := false; verifying := 0; threw := false |}.

(** an event that has nothing to do with the systems *)
Definition about_alerts (e : event) : bool :=
  match e with
  | AlertsAnswered _ _ | AlertsSubscribed _ _ | AlertMessage _ _ | AlertsTimer _ | Verified true | Unmounted => true
  | _ => false
  end.
Definition report (c : action * SystemRecord) : event := SystemMessage (action_name c.1) c.2.
(** the records of the server have an identifier and were sent by an agent that reported once *)
Definition sound (r : SystemRecord) : Prop := has_id r ∧ valid r.
Definition collection (m : jsmap SystemRecord) : Prop :=
  jwf m ∧ ∀ k r, jget k m = Some r → sys_id r = k ∧ sound r.

Section Follow.
Context `{Laws : MapStoreLaws} (returned : handle).

(** the page of one session whose requests for systems succeed, beside a server that changes at any
    time except between the answer of the list and that of the subscription *)
Inductive follows : world → Prop :=
  | follows_load m c storage : collection m → follows {| server := m; page := loaded c storage |}
  | follows_mount w : follows w → follows {| server := server w; page := step returned (page w) Mounted |}
  | follows_list w records : follows w → records ≡ₚ jvalues (server w) →
      follows {| server := server w; page := step returned (page w) (SystemsAnswered 0 (Some records)) |}
  | follows_subscribe w : follows w → follows {| server := server w; page := step returned (page w) (SystemsSubscribed 0 true) |}
  | follows_alerts w e : follows w → about_alerts e = true →
      follows {| server := server w; page := step returned (page w) e |}
  | follows_change w a r : follows w → sound r → waits 0 Subscribing (page w) = false →
      follows {| server := server_change a r (server w); page := step returned (page w) (report (a, r)) |}.

(** what holds at each stage *)
Record tracks (w : world) : Prop := {
  tr_auth : Api.authenticated (session (page w)) = true;
  tr_server : collection (server w);
  tr_stage :
    match stages (page w) with
    | [] => mounted (page w) = false ∧ systems_channel (page w) = no_channel
            ∧ Api.systems_state (session (page w)) = SystemsManager.initial_state
    | [t] => mounted (page w) = true
             ∧ live (systems_channel (page w)) = (if bool_decide (t = Refreshing ∨ t = Subscribing) then [] else [0%nat])
             ∧ SystemsManager.invariant (Api.systems_state (session (page w)))
             ∧ (if bool_decide (t = Refreshing) then store ById (page w) = []
                else jequiv (store ById (page w)) (server w))
    | _ => False
    end }.

(** a list with every identifier once gives each its record *)
Lemma refreshed_cons k x l o : valid x →
  SystemsManager.refreshed k (x :: l) o = SystemsManager.refreshed k l (if String.eqb (sys_id x) k then Some x else o).
Proof. unfold SystemsManager.refreshed. cbn. by intros ->. Qed.
Lemma refreshed_absent k l o : Forall valid l → k ∉ sys_id <$> l → SystemsManager.refreshed k l o = o.
Proof.
  revert o. induction l as [|r l IH]; intros o Hv Hk; [done|].
  apply Forall_cons in Hv as [Hr Hv]. rewrite fmap_cons in Hk. apply not_elem_of_cons in Hk as [Hne Hk].
  rewrite refreshed_cons by done. rewrite (proj2 (String.eqb_neq _ _)) by congruence. by apply IH.
Qed.
Lemma refreshed_in l r o : NoDup (sys_id <$> l) → Forall valid l → r ∈ l → SystemsManager.refreshed (sys_id r) l o = Some r.
Proof.
  revert o. induction l as [|x l IH]; intros o Hnd Hv Hr; [by apply elem_of_nil in Hr|].
  apply Forall_cons in Hv as [Hx Hv]. rewrite fmap_cons in Hnd. apply NoDup_cons in Hnd as [Hn Hnd].
  rewrite refreshed_cons by done. apply elem_of_cons in Hr as [->|Hr]; [|by apply IH].
  rewrite String.eqb_refl. by apply refreshed_absent.
Qed.

Lemma collection_ids m : collection m → sys_id <$> jvalues m = jkeys m.
Proof.
  intros [Hwf Hs]. unfold jvalues, jkeys. rewrite <- list_fmap_compose. apply Forall_fmap_ext, Forall_forall.
  intros [k r] Hi. by apply (Hs k r), elem_jget.
Qed.
Lemma collection_values m : collection m → Forall sound (jvalues m).
Proof.
  intros [Hwf Hs]. apply Forall_fmap, Forall_forall. intros [k r] Hi. by apply (Hs k r), elem_jget.
Qed.
Lemma refreshed_collection m l k : collection m → l ≡ₚ jvalues m → SystemsManager.refreshed k l None = jget k m.
Proof.
  intros Hm Hl. pose proof (collection_ids m Hm) as Hids. pose proof (collection_values m Hm) as Hv.
  rewrite <- Hl in Hv. assert (Hvalid : Forall valid l) by (eapply Forall_impl; [exact Hv | by intros ? []]).
  destruct (jget k m) as [r|] eqn:Hk.
  - destruct (proj2 Hm _ _ Hk) as [<- _]. apply refreshed_in; [rewrite Hl, Hids; apply Hm | done |].
    rewrite Hl. apply list_elem_of_fmap. exists (sys_id r, r). by split; [|apply jget_Some_elem].
  - apply refreshed_absent; [done|]. rewrite Hl, Hids. by apply jget_None.
Qed.
Lemma collection_change a r m : collection m → sound r → collection (server_change a r m).
Proof.
  intros [Hwf Hs] Hr. destruct a; (split; [by apply jwf_jset || by apply jwf_jdel|]); intros k x; cbn;
    rewrite ?jget_jset, ?jget_jdel; (destruct (String.eqb_spec (sys_id r) k); [naive_solver | apply Hs]).
Qed.

(** a message does to the store by id what the change did to the server's records *)
Lemma on_event_change a r st : SystemsManager.invariant st → sound r →
  SystemsManager.invariant (SystemsManager.on_event (action_name a) r st)
  ∧ SystemsManager.stores (SystemsManager.on_event (action_name a) r st) ById =
    server_change a r (SystemsManager.stores st ById).
Proof.
  intros Hi [Hid Hv]. destruct a.
  - change (SystemsManager.on_event (action_name Create) r st) with (SystemsManager.add r st).
    by destruct (SystemsManager.add_spec r st Hi Hid Hv) as (? & ? & _).
  - change (SystemsManager.on_event (action_name Update) r st) with (SystemsManager.update r st).
    by destruct (SystemsManager.update_spec r st Hi Hid Hv) as (? & ? & _).
  - change (SystemsManager.on_event (action_name Delete) r st) with (SystemsManager.remove r st).
    destruct (SystemsManager.remove_invariant r st Hi) as (Hi' & Hs & _).
    split; [exact Hi' |]. rewrite (Hs ById). reflexivity.
Qed.
Lemma change_equiv a r m m' : jequiv m m' → jequiv (server_change a r m) (server_change a r m').
Proof. intros Hm k. destruct a; cbn; by rewrite ?jget_jset, ?jget_jdel, Hm. Qed.

Lemma tracks_systems w a' : tracks w → Api.authenticated (session a') = Api.authenticated (session (page w)) →
  Api.systems_state (session a') = Api.systems_state (session (page w)) → stages a' = stages (page w) →
  mounted a' = mounted (page w) → systems_channel a' = systems_channel (page w) →
  tracks {| server := server w; page := a' |}.
Proof.
  intros [Ha Hs Ht] E0 E1 E2 E3 E4. split; cbn [page server]; rewrite ?E0; [done..|].
  unfold store in *. cbn [page]. by rewrite E2, E3, E4, E1.
Qed.

Lemma tracks_load m c storage : collection m → tracks {| server := m; page := loaded c storage |}.
Proof. by split. Qed.

Definition about_systems (t : stage) : bool := bool_decide (t = Refreshing ∨ t = Subscribing).
Lemma tracks_stage w a' i t t' : tracks w → waits i t (page w) = true → about_systems t = false → about_systems t' = false →
  Api.authenticated (session a') = true → Api.systems_state (session a') = Api.systems_state (session (page w)) →
  stages a' = <[i := t']> (stages (page w)) → mounted a' = mounted (page w) →
  systems_channel a' = systems_channel (page w) → tracks {| server := server w; page := a' |}.
Proof.
  intros [_ Hs Ht] Hw0 Hn Hn' Ha Est Esg Em Ec. apply bool_decide_eq_true in Hw0.
  destruct (stages (page w)) as [|t0 [|]] eqn:E; [done| |done]. destruct i; [|done]. injection Hw0 as ->.
  destruct Ht as (Hm & Hc & Hi & Hb).
  split; cbn [page server]; [done..|]. rewrite Esg, Em, Ec, Est. cbn [insert list_insert].
  unfold about_systems in *. rewrite Hn in Hc. rewrite Hn'.
  apply bool_decide_eq_false in Hn, Hn'. rewrite bool_decide_false in Hb by tauto.
  rewrite bool_decide_false by tauto. split_and!; [done..|]. unfold store in *. cbn [page]. by rewrite Est.
Qed.
Lemma tracks_change w a r : tracks w → sound r → waits 0 Subscribing (page w) = false →
  tracks {| server := server_change a r (server w); page := step returned (page w) (report (a, r)) |}.
Proof.
  intros [Ha Hs Ht] Hr Hgap. apply bool_decide_eq_false in Hgap.
  assert (Hs' : collection (server_change a r (server w))) by (by apply collection_change).
  split; cbn [page server]; [done..|]. cbn [report step fst snd].
  change (stages (on_systems ?f (page w))) with (stages (page w)).
  destruct (stages (page w)) as [|t [|]] eqn:E; [| |done].
  - destruct Ht as (Hm & Hc & Hst). rewrite Hc. by split_and!.
  - destruct Ht as (Hm & Hc & Hi & Hb). split_and!; [done..| |].
    + cbn [on_systems with_session with_systems session Api.systems_state]. rewrite Hc.
      destruct (bool_decide (t = Refreshing ∨ t = Subscribing)); [exact Hi | exact (proj1 (on_event_change a r _ Hi Hr))].
    + unfold store in *. cbn [page on_systems with_session with_systems session Api.systems_state]. rewrite Hc.
      destruct (bool_decide (t = Refreshing)) eqn:Et.
      * apply bool_decide_eq_true in Et as ->. by rewrite bool_decide_true by eauto.
      * apply bool_decide_eq_false in Et. rewrite bool_decide_false by (intros [?| ->]; done).
        change (times ?f (length [0%nat]) ?x) with (f x).
        destruct (on_event_change a r _ Hi Hr) as [_ ->]. by apply change_equiv.
Qed.

Lemma follows_tracks w : follows w → tracks w.
Proof.
  induction 1 as [m c storage Hm|w Hw IH|w records Hw IH Hl|w Hw IH|w e Hw IH He|w a r Hw IH Hr Hgap].
  - by apply tracks_load.
  - pose proof IH as [Ha Hs Ht]. cbn [step].
    destruct (stages (page w)) as [|t [|]] eqn:E; [|destruct Ht as [-> _] |done].
    + destruct Ht as (Hm & Hc & Hst). rewrite Hm, Ha. cbn [negb andb].
      split; cbn [page server mount with_page with_stages on_systems with_session with_systems session Api.authenticated
        stages systems_channel Api.systems_state mounted]; [done..|]. rewrite E, Hc, Hst. cbn [app].
      split_and!; [done..|apply SystemsManager.init_invariant|].
      change (SystemsManager.stores (SystemsManager.init (Api.systems_state (session (page w)))) ById = []). by rewrite Hst.
    + by destruct w.
  - pose proof IH as [Ha Hs Ht]. cbn [step].
    destruct (waits 0 Refreshing (page w)) eqn:Hw0; [|by destruct w].
    apply bool_decide_eq_true in Hw0. destruct (stages (page w)) as [|t [|]] eqn:E; [done| |done].
    injection Hw0 as ->. destruct Ht as (Hm & Hc & Hi & Hb).
    rewrite bool_decide_true in Hc, Hb by eauto.
    unfold systems_answered. destruct (SystemsManager.refresh _ _) as [st verify] eqn:Er.
    assert (Hst : st = foldl (λ st record, SystemsManager.add record st) (Api.systems_state (session (page w))) records).
    { unfold SystemsManager.refresh in Er. cbn [SystemsManager.fetchSystems default] in Er. destruct records; by injection Er as <- _. }
    assert (Hids : Forall has_id records).
    { eapply Forall_impl; [rewrite Hl; apply collection_values, Hs | by intros ? []]. }
    split; cbn [page server with_page to_stage with_stages on_systems with_session with_systems session Api.authenticated
        stages systems_channel Api.systems_state mounted]; [done..|]. rewrite E. cbn [insert list_insert].
    split_and!; [done|exact Hc| |].
    + rewrite Hst. by apply SystemsManager.refresh_fold.
    + intros k. unfold store. cbn [page session with_page to_stage with_stages on_systems with_session with_systems Api.systems_state].
      rewrite Hst, SystemsManager.refresh_fold_lookup by done. unfold store in Hb. rewrite Hb.
      by apply refreshed_collection.
  - pose proof IH as [Ha Hs Ht]. cbn [step].
    destruct (waits 0 Subscribing (page w)) eqn:Hw0; [|by destruct w].
    apply bool_decide_eq_true in Hw0. destruct (stages (page w)) as [|t [|]] eqn:E; [done| |done].
    injection Hw0 as ->. destruct Ht as (Hm & Hc & Hi & Hb).
    rewrite bool_decide_true in Hc by eauto. rewrite bool_decide_false in Hb by done.
    split; cbn [page server systems_subscribed with_page to_stage with_stages with_channels session
        stages systems_channel mounted subscribe live]; [done..|]. rewrite E, Hc. cbn [insert list_insert].
    by split_and!.
  - destruct e as [| | | |i answer|i ok| |now e|now|ok| |]; try discriminate He; cbn [step].
    + rewrite (tr_auth _ IH), andb_false_r. by destruct w.
    + destruct (waits i AlertsRefreshing (page w)) eqn:Hw0; [|by destruct w]. unfold alerts_answered.
      destruct (Alerts.refresh answer _);
        [apply (tracks_stage w _ i AlertsRefreshing AlertsSubscribing) | apply (tracks_stage w _ i AlertsRefreshing Rejected)];
        try done; exact (tr_auth _ IH).
    + destruct (waits i AlertsSubscribing (page w)) eqn:Hw0; [|by destruct w]. unfold alerts_subscribed.
      destruct ok;
        [apply (tracks_stage w _ i AlertsSubscribing Ready) | apply (tracks_stage w _ i AlertsSubscribing Rejected)];
        try done; exact (tr_auth _ IH).
    + by apply tracks_systems.
    + case_bool_decide; [|by destruct w]. destruct (Alerts.flush _ _) as [m al]. by apply tracks_systems.
    + destruct ok; [|done]. destruct (verifying (page w)) as [|v]; [by destruct w|]. cbn [Api.verifyAuth]. by apply tracks_systems.
  - by apply tracks_change.
Qed.

(** the chain has passed the subscription to the systems *)
Definition past_systems (a : application) : Prop := ∃ t, stages a !! 0%nat = Some t ∧ about_systems t = false.

(** C2: once the chain has passed the subscription, the store by id holds the server's
    systems, and the stores of the states those with that state, whatever happened to the alerts and
    however often the server changed, unless it did between the list and the subscription. *)
Theorem boot_follows_server w : follows w → past_systems (page w) →
  ∀ k, jget k (store ById (page w)) = jget k (server w)
       ∧ ∀ s status, SystemsManager.status_of s = Some status →
           jget k (store s (page w)) = SystemsManager.if_status status (jget k (server w)).
Proof.
  intros [_ _ Ht]%follows_tracks (t & Hst & Hn) k.
  destruct (stages (page w)) as [|t0 [|]]; [done| |done]. injection Hst as ->.
  destruct Ht as (_ & _ & Hi & Hb). apply bool_decide_eq_false in Hn. rewrite bool_decide_false in Hb by tauto.
  split; [apply Hb|]. intros s status Hss. unfold store. rewrite (SystemsManager.inv_mirrors _ Hi s status k Hss I).
  f_equal. apply Hb.
Qed.

(** later changes of other systems leave an entry alone *)
Lemma reports_elsewhere (l : list (action * SystemRecord)) k : Forall (λ c, sound c.2 ∧ sys_id c.2 ≠ k) l →
  ∀ a, SystemsManager.invariant (Api.systems_state (session a)) → live (systems_channel a) = [0%nat] →
  jget k (store ById (run returned (report <$> l) a)) = jget k (store ById a).
Proof.
  induction 1 as [|c l [Hs Hk] Hl IH]; intros a Hi Hlive; [done|]. cbn [fmap list_fmap].
  change (run returned (report c :: (report <$> l)) a) with (run returned (report <$> l) (step returned a (report c))).
  destruct c as [act r]. cbn [fst snd] in *.
  assert (E : Api.systems_state (session (step returned a (report (act, r)))) =
              SystemsManager.on_event (action_name act) r (Api.systems_state (session a))).
  { cbn [step report fst snd on_systems with_session with_systems session Api.systems_state]. by rewrite Hlive. }
  destruct (on_event_change act r _ Hi Hs) as [Hi' Hb].
  rewrite IH; [|by rewrite E|done]. unfold store. rewrite E, Hb.
  destruct act; cbn [server_change]; by rewrite ?jget_jset_ne, ?jget_jdel_ne.
Qed.

(** Fact [deletion_in_the_gap]: a system that is deleted after the list was answered and before the subscription
    stays on the page, whatever happens to the other systems afterwards. *)
Theorem deletion_in_the_gap w r later : follows w → waits 0 Subscribing (page w) = true →
  jget (sys_id r) (server w) = Some r → Forall (λ c, sound c.2 ∧ sys_id c.2 ≠ sys_id r) later →
  let events := report (Delete, r) :: SystemsSubscribed 0 true :: (report <$> later) in
  jget (sys_id r) (server_change Delete r (server w)) = None
  ∧ jget (sys_id r) (store ById (run returned events (page w))) = Some r.
Proof.
  intros [_ _ Ht]%follows_tracks Hw Hr Hl. split; [apply jget_jdel_eq|].
  apply bool_decide_eq_true in Hw as Hst. destruct (stages (page w)) as [|t [|]] eqn:E; [done| |done]. injection Hst as ->.
  destruct Ht as (Hm & Hc & Hi & Hb). rewrite bool_decide_true in Hc by eauto. rewrite bool_decide_false in Hb by done.
  cbn zeta.
  change (run returned (report (Delete, r) :: SystemsSubscribed 0 true :: (report <$> later)) (page w)) with
    (run returned (report <$> later) (step returned (step returned (page w) (report (Delete, r))) (SystemsSubscribed 0 true))).
  set (a := step returned (page w) (report (Delete, r))).
  assert (Ea : Api.systems_state (session a) = Api.systems_state (session (page w))).
  { subst a. cbn [step report fst snd on_systems with_session with_systems session Api.systems_state]. by rewrite Hc. }
  assert (Hwa : waits 0 Subscribing a = true) by exact Hw.
  assert (Hca : live (systems_channel a) = []) by exact Hc.
  rewrite reports_elsewhere; [|done|..]; cbn [step]; rewrite Hwa;
    unfold systems_subscribed; cbn [to_stage with_stages with_channels session systems_channel subscribe live].
  - unfold store. cbn [to_stage with_stages with_channels session]. rewrite Ea. rewrite <- Hr. apply Hb.
  - by rewrite Ea.
  - by rewrite Hca.
Qed.
End Follow.

(** ** Failures, leaving early, coming back *)

Section Failures.
Context `{MapStore} (returned : handle).

Definition settled (t : stage) : bool := bool_decide (t = Ready ∨ t = Rejected).

Lemma stages_to_stage i j t t' a : waits i t a = true → settled t = false →
  ∀ s, settled s = true → stages a !! j = Some s → <[i := t']> (stages a) !! j = Some s.
Proof.
  intros Hw Ht s Hs Hj. apply bool_decide_eq_true in Hw.
  rewrite list_lookup_insert_ne; [done|]. intros ->. congruence.
Qed.
Lemma settled_stays e j s a : settled s = true → stages a !! j = Some s → stages (step returned a e) !! j = Some s.
Proof.
  intros Hs Hj. destruct e as [| |i answer|i ok|i answer|i ok|act r|now e|now|ok| |]; cbn [step].
  - destruct (_ && _); [|done]. cbn [mount with_page with_stages on_systems with_session stages]. by apply lookup_app_l_Some.
  - destruct (_ && _); [|done]. unfold cleanup. by destruct (SystemsManager.unsubscribe _ _) as [[]|].
  - destruct (waits i Refreshing a) eqn:Hw; [|done]. unfold systems_answered. destruct (SystemsManager.refresh _ _).
    exact (stages_to_stage i j Refreshing _ a Hw eq_refl s Hs Hj).
  - destruct (waits i Subscribing a) eqn:Hw; [|done].
    destruct ok; exact (stages_to_stage i j Subscribing _ a Hw eq_refl s Hs Hj).
  - destruct (waits i AlertsRefreshing a) eqn:Hw; [|done]. unfold alerts_answered.
    destruct (Alerts.refresh _ _); exact (stages_to_stage i j AlertsRefreshing _ a Hw eq_refl s Hs Hj).
  - destruct (waits i AlertsSubscribing a) eqn:Hw; [|done].
    destruct ok; exact (stages_to_stage i j AlertsSubscribing _ a Hw eq_refl s Hs Hj).
  - done.
  - done.
  - case_bool_decide; [|done]. by destruct (Alerts.flush _ _).
  - destruct (verifying a); [done|]. destruct (Api.verifyAuth _ _) as [s' []]; done.
  - done.
  - done.
Qed.

Lemma elem_without j i l : j ∈ without i l → j ∈ l.
Proof.
  destruct i; [|done]. cbn. rewrite !list_elem_of_In, filter_In. tauto.
Qed.
(** a chain listens to the alerts when it is through, and only then *)
Lemma live_alerts e j a : j ∈ live (alerts_channel (step returned a e)) →
  j ∈ live (alerts_channel a) ∨ stages (step returned a e) !! j = Some Ready.
Proof.
  destruct e as [| |i answer|i ok|i answer|i ok|act r|now e|now|ok| |]; cbn [step].
  - destruct (_ && _); by left.
  - destruct (_ && _); [|by left]. unfold cleanup.
    destruct (SystemsManager.unsubscribe _ _) as [[]|]; intros Hj; left; exact (elem_without _ _ _ Hj).
  - destruct (waits i Refreshing a); [|by left]. unfold systems_answered. destruct (SystemsManager.refresh _ _). by left.
  - destruct (waits i Subscribing a); [|by left]. destruct ok; by left.
  - destruct (waits i AlertsRefreshing a); [|by left]. unfold alerts_answered. destruct (Alerts.refresh _ _); by left.
  - destruct (waits i AlertsSubscribing a) eqn:Hw; [|by left]. destruct ok; [|by left].
    cbn [alerts_subscribed to_stage with_stages with_channels alerts_channel subscribe live stages].
    intros [Hj|Hj]%elem_of_app; [by left|]. apply list_elem_of_singleton in Hj as ->. right.
    apply bool_decide_eq_true in Hw. apply list_lookup_insert_eq. by eapply lookup_lt_Some.
  - by left.
  - by left.
  - case_bool_decide; [|by left]. destruct (Alerts.flush _ _). by left.
  - destruct (verifying a); [by left|]. destruct (Api.verifyAuth _ _) as [s' []]; [by intros ?%elem_of_nil | by left].
  - by intros ?%elem_of_nil.
  - by left.
Qed.
Definition listening_is_ready (a : application) : Prop :=
  ∀ j, j ∈ live (alerts_channel a) → stages a !! j = Some Ready.
Lemma listening_run es a : listening_is_ready a → listening_is_ready (run returned es a).
Proof.
  revert a. induction es as [|e es IH]; intros a Ha; [done|]. apply IH. intros j Hj.
  apply live_alerts in Hj as [Hj|Hj]; [|done]. by apply settled_stays, Ha.
Qed.
Lemma settled_stages_run es j s a : settled s = true → stages a !! j = Some s → stages (run returned es a) !! j = Some s.
Proof. revert a. induction es as [|e es IH]; intros a Hs Hj; [done|]. apply IH; [done|]. by apply settled_stays. Qed.

(** Fact [failed_alerts]: when the request for the alerts fails, the alerts are not subscribed to either, however
    long the page stays, although the systems are. *)
Theorem failed_alerts c storage before i after :
  let a := run returned before (loaded c storage) in
  waits i AlertsRefreshing a = true →
  i ∉ live (alerts_channel (run returned (AlertsAnswered i None :: after) a)).
Proof.
  intros a Hw Hi. change (run returned (AlertsAnswered i None :: after) a) with
    (run returned after (step returned a (AlertsAnswered i None))) in Hi.
  apply (listening_run after) in Hi.
  - assert (Hr : stages (step returned a (AlertsAnswered i None)) !! i = Some Rejected).
    { cbn [step]. rewrite Hw. apply list_lookup_insert_eq. apply bool_decide_eq_true in Hw. by eapply lookup_lt_Some. }
    by rewrite (settled_stages_run after i Rejected) in Hi.
  - apply (listening_run [AlertsAnswered i None]), listening_run. by intros ? ?%elem_of_nil.
Qed.

(** leaving before the subscription is answered ends nothing: it is set up afterwards and stays *)
Lemma late_subscription i a : waits i Subscribing a = true → Api.authenticated (session a) = true → mounted a = true →
  let a' := run returned [LoggedOut; Unmounted; SystemsSubscribed i true] a in
  i ∈ live (systems_channel a') ∧ mounted a' = false ∧ Api.authenticated (session a') = false.
Proof.
  intros Hw Ha Hm. cbn zeta. unfold run. cbn [foldl step].
  cbn [with_channels with_session session mounted Api.logOut Api.authenticated negb]. rewrite Hm. cbn [andb]. unfold cleanup.
  cbn [with_channels with_session session mounted systems_channel alerts_channel unsub live].
  destruct (SystemsManager.unsubscribe _ _) as [[ended u]|];
    (match goal with |- context [waits i Subscribing ?x] => change (waits i Subscribing x) with (waits i Subscribing a) end);
    rewrite Hw; (split; [|done]); apply elem_of_app; right; apply list_elem_of_singleton; done.
Qed.

(** the client library's function returns a promise: leaving a second time with no subscription in
    between calls it *)
Lemma second_departure_throws i a : returned = Answer → unsub (systems_channel a) = Handle i →
  Api.authenticated (session a) = true → mounted a = true →
  threw (run returned [LoggedOut; Unmounted; SignedIn; Mounted; LoggedOut; Unmounted] a) = true.
Proof.
  intros -> Hu Ha Hm. unfold run. cbn [foldl step].
  cbn [with_channels with_session session mounted Api.logOut Api.authenticated negb]. rewrite Hm. cbn [andb]. unfold cleanup.
  cbn [with_channels with_session session mounted systems_channel alerts_channel unsub live]. rewrite Hu.
  reflexivity.
Qed.
End Failures.

(** ** An instance *)

Definition ex_server : jsmap SystemRecord := [("a1", SystemsManager.ex_web)]%string.
Lemma ex_sound : sound SystemsManager.ex_web.
Proof. by split. Qed.
Lemma ex_collection : collection ex_server.
Proof.
  split; [apply NoDup_singleton|]. intros k r. cbn. destruct (String.eqb_spec k "a1") as [->|]; [|done].
  intros [= <-]. split; [done | exact ex_sound].
Qed.
Definition ex_loaded : application := loaded Api.ex_client [].
Definition ex_until (es : list event) : application := run (H := reference_store) Answer es ex_loaded.
Definition ex_listed : list event := [Mounted; SystemsAnswered 0 (Some [SystemsManager.ex_web])].
Lemma ex_follows : follows (H := reference_store) Answer {| server := ex_server; page := ex_until ex_listed |}.
Proof.
  apply (follows_list (H := reference_store) Answer {| server := ex_server; page := ex_until [Mounted] |} [SystemsManager.ex_web]); [|done].
  apply (follows_mount (H := reference_store) Answer {| server := ex_server; page := ex_loaded |}).
  apply follows_load, ex_collection.
Qed.

Lemma boot_follows_server_witness :
  jget "a1" (store ById (ex_until (ex_listed ++ [SystemsSubscribed 0 true]))) = Some SystemsManager.ex_web.
Proof.
  assert (Hf := follows_subscribe (H := reference_store) Answer _ ex_follows).
  assert (Hp : past_systems (page {| server := ex_server; page := ex_until (ex_listed ++ [SystemsSubscribed 0 true]) |}))
    by (exists AlertsRefreshing; split; vm_compute; reflexivity).
  exact (proj1 (boot_follows_server (Laws := reference_store_laws) Answer _ Hf Hp "a1")).
Defined.

Lemma deletion_in_the_gap_witness :
  jget "a1" (store ById (ex_until (ex_listed ++ [report (Delete, SystemsManager.ex_web); SystemsSubscribed 0 true]))) =
  Some SystemsManager.ex_web.
Proof.
  exact (proj2 (deletion_in_the_gap (Laws := reference_store_laws) Answer _ SystemsManager.ex_web [] ex_follows
                  ltac:(by vm_compute) eq_refl ltac:(constructor))).
Defined.

Lemma failed_alerts_witness :
  0%nat ∉ live (alerts_channel (ex_until (ex_listed ++ [SystemsSubscribed 0 true; AlertsAnswered 0 None; AlertMessage 5
    {| Alerts.ev_action := Create; Alerts.ev_record := Alerts.ex_alert "a1" "CPU" 80%Q |}]))).
Proof.
  exact (failed_alerts (H := reference_store) Answer Api.ex_client [] (ex_listed ++ [SystemsSubscribed 0 true]) 0
           [AlertMessage 5 {| Alerts.ev_action := Create; Alerts.ev_record := Alerts.ex_alert "a1" "CPU" 80%Q |}]
           ltac:(by vm_compute)).
Defined.
