(* ===== verification/ContainerSheet.v ===== *)
(** * The sheet of a container: the second half of [components/containers-table/containers-table.tsx]

    A row that is clicked becomes the active container; drawing the sheet for another row asks for
    its logs and details.  The logs can be asked for again, with a spinner of a shortest time.  An
    answer sets what is shown, whichever container it is about. *)
From Stdlib Require Import ZArith Lia.
From S2P Require Import Prelude JsValue Types Containers.
Open Scope Z_scope.

(** a row's record with its identity: the effect compares records by reference *)
Record row := { ref : nat; record : ContainerRecord }.

(** a request in flight: both texts of a row that was opened, or the logs again, asked for at a time *)
Inductive request := Load (r : row) | Again (r : row) (startTime : Z).
Record sheet := {
  activeContainer : option row;   (* the table's reference *)
  sheetOpen : bool;
  drawn : option row;             (* the row of the last drawing *)
  logsDisplay : string; infoDisplay : string;
  isRefreshingLogs : bool;
  requests : list request;
  spins : list Z }.               (* when the spinner's timers are due *)
Definition no_sheet : sheet := {|
  activeContainer := None; sheetOpen := false; drawn := None; logsDisplay := ""; infoDisplay := "";
  isRefreshingLogs := false; requests := []; spins := [] |}.

Inductive event :=
  | RowClicked (r : row)
  | SheetClosed
  | LoadAnswered (i : nat) (logs info : option string)   (* [None]: the request failed *)
  | RefreshClicked (now : Z)
  | AgainAnswered (i : nat) (now : Z) (logs : option string)
  | SpinOver (now : Z).

Section Sheet.
(** the highlighter; [JSON.stringify(JSON.parse(info), null, 2)], [None] when the text is not JSON *)
Context (codeToHtml : string → string → string) (reindent : string → option string).

Definition getLogsHtml (answer : option string) : string :=
  match answer with
  | Some logs => if truthy logs then codeToHtml "log" logs else "No results."
  | None => ""
  end.
Definition getInfoHtml (answer : option string) : string :=
  match answer with
  | Some info => let info := default info (reindent info) in
                 if truthy info then codeToHtml "json" info else "No results."
  | None => ""
  end.

Definition same_row (d : option row) (r : row) : bool := match d with Some d => Nat.eqb (ref d) (ref r) | None => false end.
(** drawing: the effect of a row it has not run for *)
Definition render (s : sheet) : sheet :=
  match activeContainer s with
  | Some r =>
      if same_row (drawn s) r then s
      else {| activeContainer := activeContainer s; sheetOpen := sheetOpen s; drawn := Some r;
              logsDisplay := ""; infoDisplay := ""; isRefreshingLogs := isRefreshingLogs s;
              requests := requests s ++ [Load r]; spins := spins s |}
  | None => s
  end.
(** [openSheet]: the reference is set at once, the sheet drawn when its state changes *)
Definition openSheet (r : row) (s : sheet) : sheet :=
  let s' := {| activeContainer := Some r; sheetOpen := true; drawn := drawn s; logsDisplay := logsDisplay s;
               infoDisplay := infoDisplay s; isRefreshingLogs := isRefreshingLogs s; requests := requests s; spins := spins s |} in
  if sheetOpen s then s' else render s'.
Definition close (s : sheet) : sheet := {|
  activeContainer := activeContainer s; sheetOpen := false; drawn := drawn s; logsDisplay := logsDisplay s;
  infoDisplay := infoDisplay s; isRefreshingLogs := isRefreshingLogs s; requests := requests s; spins := spins s |}.
Definition show (logs info : string) (rest : list request) (spins' : list Z) (s : sheet) : sheet := {|
  activeContainer := activeContainer s; sheetOpen := sheetOpen s; drawn := drawn s; logsDisplay := logs;
  infoDisplay := info; isRefreshingLogs := isRefreshingLogs s; requests := rest; spins := spins' |}.
Definition spinning (b : bool) (rest : list request) (spins' : list Z) (s : sheet) : sheet := {|
  activeContainer := activeContainer s; sheetOpen := sheetOpen s; drawn := drawn s; logsDisplay := logsDisplay s;
  infoDisplay := infoDisplay s; isRefreshingLogs := b; requests := rest; spins := spins' |}.

(** every change of the sheet's own state draws it again *)
Definition step (s : sheet) (e : event) : sheet :=
  match e with
  | RowClicked r => openSheet r s
  | SheetClosed => if sheetOpen s then render (close s) else s
  | LoadAnswered i logs info =>
      match requests s !! i with
      | Some (Load _) => render (show (getLogsHtml logs) (getInfoHtml info) (delete i (requests s)) (spins s) s)
      | _ => s
      end
  | RefreshClicked now =>
      match drawn s with
      | Some r => if isRefreshingLogs s || negb (sheetOpen s) then s   (* the button is disabled, or not there *)
                  else render (spinning true (requests s ++ [Again r now]) (spins s) s)
      | None => s
      end
  | AgainAnswered i now logs =>
      match requests s !! i with
      | Some (Again _ startTime) =>
          render (show (getLogsHtml logs) (infoDisplay s) (delete i (requests s))
                       (spins s ++ [now + remaining_spin startTime now]) s)
      | _ => s
      end
  | SpinOver now =>
      if bool_decide (now ∈ spins s)
      then render (spinning false (requests s) (List.filter (λ t, negb (t =? now)) (spins s)) s) else s
  end.
Definition run (es : list event) (s : sheet) : sheet := foldl step s es.

(** ** Theorems: which logs are shown *)

Definition about (q : request) : row := match q with Load r | Again r _ => r end.

(** the sheet of a table whose requests are answered in their order, with the logs the server has for
    the row; a row is clicked when no sheet covers the table *)
Section InOrder.
Context (server_logs : nat → option string).
Inductive ordered : sheet → Prop :=
  | ordered_start : ordered no_sheet
  | ordered_click s r : ordered s → sheetOpen s = false → ordered (step s (RowClicked r))
  | ordered_close s : ordered s → ordered (step s SheetClosed)
  | ordered_refresh s now : ordered s → ordered (step s (RefreshClicked now))
  | ordered_load s r rest info : ordered s → requests s = Load r :: rest →
      ordered (step s (LoadAnswered 0 (server_logs (ref r)) info))
  | ordered_again s r t rest now : ordered s → requests s = Again r t :: rest →
      ordered (step s (AgainAnswered 0 now (server_logs (ref r))))
  | ordered_spin s now : ordered s → ordered (step s (SpinOver now)).

(** what is drawn is the active row, and the request that comes last is about it *)
Definition last_about (s : sheet) : Prop :=
  ref <$> drawn s = ref <$> activeContainer s
  ∧ ∀ r, drawn s = Some r →
    match last (requests s) with
    | Some q => ref (about q) = ref r
    | None => logsDisplay s = getLogsHtml (server_logs (ref r))
    end.

Lemma render_same s : ref <$> drawn s = ref <$> activeContainer s → render s = s.
Proof.
  unfold render. destruct (activeContainer s) as [r|]; [|done]. cbn. intros E.
  destruct (drawn s) as [d|]; [|done]. injection E as E. cbn. by rewrite E, Nat.eqb_refl.
Qed.

Lemma last_cons {A} (x : A) l : last (x :: l) = Some (default x (last l)).
Proof. revert x. induction l as [|y l IH]; intros x; [done|]. change (last (x :: y :: l)) with (last (y :: l)). by rewrite IH. Qed.

Lemma ordered_last s : ordered s → last_about s.
Proof.
  induction 1 as [|s r Hs IH Ho|s Hs IH|s now Hs IH|s r rest info Hs [Hd Hl] Hq|s r t rest now Hs [Hd Hl] Hq|s now Hs IH].
  - done.
  - destruct IH as [Hd Hl]. cbn [step]. unfold openSheet. rewrite Ho. unfold render. cbn [activeContainer drawn].
    destruct (same_row (drawn s) r) eqn:E.
    + split; [|exact Hl]. cbn [drawn activeContainer]. destruct (drawn s) as [d|]; [|done].
      cbn in E |- *. by apply Nat.eqb_eq in E as ->.
    + split; [done|]. cbn [drawn requests]. intros r' [= <-]. by rewrite last_snoc.
  - cbn [step]. destruct (sheetOpen s); [|done]. rewrite render_same by apply IH. exact IH.
  - cbn [step]. destruct (drawn s) as [r|] eqn:Er; [|done]. destruct (_ || _); [done|].
    destruct IH as [Hd Hl]. rewrite render_same by exact Hd. split; [exact Hd|].
    intros r' Hr'. cbn [spinning requests drawn] in *. rewrite last_snoc. cbn. congruence.
  - cbn [step]. rewrite Hq. cbn [lookup list_lookup delete list_delete]. rewrite render_same by exact Hd.
    split; [exact Hd|]. cbn [show drawn requests logsDisplay]. intros r' Hr'. specialize (Hl r' Hr').
    rewrite Hq, last_cons in Hl. cbn [default] in Hl. destruct (last rest); cbn in Hl; [exact Hl|]. by rewrite <- Hl.
  - cbn [step]. rewrite Hq. cbn [lookup list_lookup delete list_delete]. rewrite render_same by exact Hd.
    split; [exact Hd|]. cbn [show drawn requests logsDisplay]. intros r' Hr'. specialize (Hl r' Hr').
    rewrite Hq, last_cons in Hl. cbn [default] in Hl. destruct (last rest); cbn in Hl; [exact Hl|]. by rewrite <- Hl.
  - cbn [step]. case_bool_decide; [|done]. destruct IH as [Hd Hl]. by rewrite render_same.
Qed.

(** C30: when every request is answered in its turn, the logs shown in the end are those the
    server has for the container the sheet is about. *)
Theorem logs_settle s r : ordered s → requests s = [] → activeContainer s = Some r →
  logsDisplay s = getLogsHtml (server_logs (ref r)).
Proof.
  intros [Hd Hl]%ordered_last Hq Ha. rewrite Ha in Hd. destruct (drawn s) as [r'|]; [|done].
  specialize (Hl r' eq_refl). rewrite Hq in Hl. cbn in Hd, Hl. injection Hd as Hd. by rewrite Hl, Hd.
Qed.
End InOrder.

(** Fact [logs_of_another]: when the first container's answer comes after the second's, the sheet of the second
    shows the logs and details of the first, and nothing is asked for any more. *)
Theorem logs_of_another r1 r2 logs1 info1 logs2 info2 : ref r1 ≠ ref r2 →
  let s := run [RowClicked r1; SheetClosed; RowClicked r2; LoadAnswered 1 logs2 info2; LoadAnswered 0 logs1 info1] no_sheet in
  activeContainer s = Some r2 ∧ sheetOpen s = true ∧ requests s = []
  ∧ logsDisplay s = getLogsHtml logs1 ∧ infoDisplay s = getInfoHtml info1.
Proof.
  intros Hne%Nat.eqb_neq s. subst s. unfold run. cbn [foldl]. cbn -[Nat.eqb]. rewrite Nat.eqb_refl.
  cbn -[Nat.eqb]. rewrite Hne. cbn -[Nat.eqb]. rewrite Nat.eqb_refl. cbn -[Nat.eqb]. by rewrite Nat.eqb_refl.
Qed.

(** ** Theorems: the spinner *)

Definition is_again (q : request) : bool := match q with Again _ _ => true | Load _ => false end.
Definition spin_count (s : sheet) : nat := length (List.filter is_again (requests s)) + length (spins s).

Lemma render_spin s : spin_count (render s) = spin_count s ∧ isRefreshingLogs (render s) = isRefreshingLogs s.
Proof.
  unfold render, spin_count. destruct (activeContainer s); [|done]. destruct (same_row _ _); [done|].
  cbn [requests spins isRefreshingLogs]. by rewrite List.filter_app, app_nil_r.
Qed.
Lemma filter_delete (f : request → bool) (l : list request) i q : l !! i = Some q →
  length (List.filter f l) = ((if f q then 1 else 0) + length (List.filter f (delete i l)))%nat.
Proof.
  revert i. induction l as [|x l IH]; intros [|i] Hi; try done.
  - injection Hi as ->. cbn. by destruct (f q).
  - specialize (IH i Hi). change (delete (S i) (x :: l)) with (x :: delete i l).
    cbn [List.filter]. destruct (f x); cbn; rewrite IH; destruct (f q); cbn; lia.
Qed.
Lemma filter_gone (now : Z) l : now ∈ l → (length l ≤ 1)%nat → List.filter (λ t, negb (t =? now)) l = [].
Proof.
  destruct l as [|t [|]]; [by intros ?%elem_of_nil| |cbn; lia]. intros ->%list_elem_of_singleton _. cbn. by rewrite Z.eqb_refl.
Qed.

(** Fact [one_spin]: after any events there is one request for the logs or one timer while the spinner turns,
    and neither when it does not: it stops exactly when what it was started for is over. *)
Theorem one_spin es : let s := run es no_sheet in spin_count s = if isRefreshingLogs s then 1%nat else 0%nat.
Proof.
  cbn zeta. induction es as [|e es IH] using rev_ind; [done|]. unfold run in *. rewrite foldl_app. cbn [foldl].
  revert IH. generalize (foldl step no_sheet es). intros s IH.
  destruct e as [r| |i logs info|now|i now logs|now]; cbn [step].
  - unfold openSheet. destruct (sheetOpen s); [exact IH|]. rewrite (proj1 (render_spin _)), (proj2 (render_spin _)). exact IH.
  - destruct (sheetOpen s); [|exact IH]. rewrite (proj1 (render_spin _)), (proj2 (render_spin _)). exact IH.
  - destruct (requests s !! i) as [[r|]|] eqn:Hi; [|exact IH..]. rewrite (proj1 (render_spin _)), (proj2 (render_spin _)).
    unfold spin_count in *. cbn [show requests spins isRefreshingLogs]. rewrite <- IH, (filter_delete _ _ _ _ Hi). done.
  - destruct (drawn s) as [r|]; [|exact IH]. destruct (isRefreshingLogs s) eqn:Er; [cbn [orb]; by rewrite Er|].
    destruct (negb (sheetOpen s)); cbn [orb]; [by rewrite Er|]. rewrite (proj1 (render_spin _)), (proj2 (render_spin _)).
    unfold spin_count in *. cbn [spinning requests spins isRefreshingLogs]. rewrite List.filter_app, length_app. cbn. lia.
  - destruct (requests s !! i) as [[|r t]|] eqn:Hi; [exact IH| |exact IH]. rewrite (proj1 (render_spin _)), (proj2 (render_spin _)).
    unfold spin_count in *. cbn [show requests spins isRefreshingLogs]. rewrite <- IH, (filter_delete _ _ _ _ Hi), length_app.
    cbn. lia.
  - case_bool_decide as Hin; [|exact IH]. rewrite (proj1 (render_spin _)), (proj2 (render_spin _)).
    unfold spin_count in *. cbn [spinning requests spins isRefreshingLogs].
    assert (1 ≤ length (spins s))%nat by (destruct (spins s); [by apply elem_of_nil in Hin | cbn; lia]).
    rewrite filter_gone; [|done|destruct (isRefreshingLogs s); lia]. destruct (isRefreshingLogs s); cbn; lia.
Qed.
End Sheet.

(** ** An instance *)

Definition ex_row (n : nat) (id : string) : row := {| ref := n; record := ex_co id "s1" 0 |}.
Definition ex_html (lang text : string) : string := lang +:+ ":" +:+ text.
Definition ex_logs (n : nat) : option string := if Nat.eqb n 1 then Some "one"%string else Some "two"%string.
Definition ex_reindent (text : string) : option string := None.
Definition ex_events : list event :=
  [RowClicked (ex_row 1 "a"); SheetClosed; RowClicked (ex_row 2 "b");
   LoadAnswered 0 (Some "one"%string) None; LoadAnswered 0 (Some "two"%string) None].
Definition ex_until (n : nat) : sheet := run ex_html ex_reindent (firstn n ex_events) no_sheet.
Lemma ex_ordered : ordered ex_html ex_reindent ex_logs (ex_until 5).
Proof.
  assert (H1 := ordered_click ex_html ex_reindent ex_logs no_sheet (ex_row 1 "a") (ordered_start _ _ _) eq_refl).
  assert (H2 := ordered_close _ _ _ _ H1).
  assert (H3 := ordered_click _ _ _ (ex_until 2) (ex_row 2 "b") H2 eq_refl).
  assert (H4 := ordered_load _ _ _ (ex_until 3) (ex_row 1 "a") [Load (ex_row 2 "b")] None H3 eq_refl).
  exact (ordered_load _ _ _ (ex_until 4) (ex_row 2 "b") [] None H4 eq_refl).
Qed.
Lemma logs_settle_witness : logsDisplay (ex_until 5) = "log:two"%string.
Proof. exact (logs_settle ex_html ex_reindent ex_logs _ (ex_row 2 "b") ex_ordered eq_refl eq_refl). Defined.
Lemma logs_of_another_witness :
  logsDisplay (run ex_html ex_reindent [RowClicked (ex_row 1 "a"); SheetClosed; RowClicked (ex_row 2 "b");
                 LoadAnswered 1 (Some "two") None; LoadAnswered 0 (Some "one") None]%string no_sheet) = "log:one"%string.
Proof.
  exact (proj1 (proj2 (proj2 (proj2 (logs_of_another ex_html ex_reindent (ex_row 1 "a") (ex_row 2 "b")
           (Some "one"%string) None (Some "two"%string) None ltac:(done)))))).
Defined.
