(* ===== verification/Observer.v ===== *)
(** * Drawing what is seen: [lib/use-intersection-observer.ts] and the lazy parts of [routes/system.tsx]

    The hook that tells whether an element is on the screen: its state, the effect that observes
    the element with an observer of the browser, the freezing once it was seen, and the effect that
    forgets the element.  The cards and tables of the system page are drawn when it says so. *)
From Stdlib Require Import QArith ZArith Lqa Lia.
From S2P Require Import Prelude.

(** what the browser reports of an element *)
Record observation := { e_target : nat; e_isIntersecting : bool; e_ratio : Q }.

Record options := {
  threshold : list Q; freeze : bool; initialIsIntersecting : bool }.
(** the defaults, with which the page calls the hook *)
Definition default_options : options := {| threshold := [0%Q]; freeze := true; initialIsIntersecting := false |}.

(** [seen] are the arguments of the calls of [onChange] *)
Record hook := {
  element : option nat; isIntersecting : bool; entry : option observation;
  observing : option nat;                           (* the element of the observer that is connected *)
  effect_deps : option (option nat * option bool);  (* the dependencies the effect ran with last *)
  prevRef : option nat; seen : list (bool * observation) }.
Definition new_hook (o : options) : hook := {|
  element := None; isIntersecting := initialIsIntersecting o; entry := None; observing := None;
  effect_deps := None; prevRef := None; seen := [] |}.

Section Hook.
Context (o : options) (supported : bool).

(** [state.entry?.isIntersecting && freeze]; [None] is [undefined] *)
Definition frozen (s : hook) : option bool := (λ e, e_isIntersecting e && freeze o) <$> entry s.
Definition is_frozen (s : hook) : bool := default false (frozen s).

(** the first effect: the observer is disconnected and, unless frozen, made again, when one of the
    dependencies has changed (the options do not) *)
Definition observe (s : hook) : hook :=
  let deps := (element s, frozen s) in
  if bool_decide (effect_deps s = Some deps) then s else
  {| element := element s; isIntersecting := isIntersecting s; entry := entry s;
     observing := if supported && negb (is_frozen s) then element s else None;
     effect_deps := Some deps; prevRef := prevRef s; seen := seen s |}.
(** the second effect: an element that is gone is forgotten, once *)
Definition forget (s : hook) : hook :=
  match element s, entry s with
  | None, Some e =>
      if negb (freeze o) && negb (is_frozen s) && negb (bool_decide (prevRef s = Some (e_target e)))
      then {| element := None; isIntersecting := initialIsIntersecting o; entry := None; observing := observing s;
              effect_deps := effect_deps s; prevRef := Some (e_target e); seen := seen s |}
      else s
  | _, _ => s
  end.
(** drawing runs the effects; the second may change the state, which draws again *)
Definition draw (s : hook) : hook := observe (forget (observe s)).

Definition meets (e : observation) : bool :=
  e_isIntersecting e && existsb (λ t, Qle_bool t (e_ratio e)) (threshold o).
(** the observer's callback: a state for every entry, of which the last one stays *)
Definition report (s : hook) (e : observation) : hook := {|
  element := element s; isIntersecting := meets e; entry := Some e; observing := observing s;
  effect_deps := effect_deps s; prevRef := prevRef s; seen := seen s ++ [(meets e, e)] |}.

Inductive event := SetRef (x : option nat) | Observed (entries : list observation).
Definition step (s : hook) (ev : event) : hook :=
  match ev with
  | SetRef x => draw {| element := x; isIntersecting := isIntersecting s; entry := entry s; observing := observing s;
                        effect_deps := effect_deps s; prevRef := prevRef s; seen := seen s |}
  | Observed entries => match observing s with
                        | Some _ => draw (foldl report s entries)
                        | None => s
                        end
  end.
Definition run (es : list event) (s : hook) : hook := foldl step s es.

(** ** Theorems *)

(** a frozen hook observes nothing, so nothing changes any more *)
Lemma forget_frozen s : freeze o = true → forget s = s.
Proof. intros Hf. unfold forget. rewrite Hf. by destruct (element s), (entry s). Qed.
Definition settled (s : hook) : Prop := freeze o = true ∧ is_frozen s = true ∧ observing s = None.
Lemma settled_step s ev : settled s → settled (step s ev) ∧ isIntersecting (step s ev) = isIntersecting s.
Proof.
  intros (Hf & Hz & Hn). destruct ev as [x|entries]; cbn [step]; [|rewrite Hn; done].
  unfold draw. rewrite forget_frozen by done.
  assert (H : ∀ s', freeze o = true → is_frozen s' = true → observing s' = None →
              settled (observe s') ∧ isIntersecting (observe s') = isIntersecting s' ∧ is_frozen (observe s') = true).
  { intros s' _ Hz' Hn'. unfold observe, settled. case_bool_decide; [done|].
    unfold is_frozen, frozen in *. cbn [entry observing isIntersecting]. rewrite Hz', andb_false_r. done. }
  set (s1 := {| element := x |}). destruct (H s1 Hf Hz Hn) as ((_ & _ & Hn1) & Hi1 & Hz1).
  destruct (H (observe s1) Hf Hz1 Hn1) as (Hs2 & Hi2 & _). split; [exact Hs2|]. by rewrite Hi2, Hi1.
Qed.
Lemma settled_run es s : settled s → settled (run es s) ∧ isIntersecting (run es s) = isIntersecting s.
Proof.
  revert s. induction es as [|e es IH]; intros s Hs; [done|].
  destruct (settled_step s e Hs) as [Hs' Hi]. destruct (IH _ Hs') as [? E]. split; [done|]. cbn. by rewrite <- Hi, <- E.
Qed.

(** of a batch the last entry counts *)
Lemma reported b s : let s' := foldl report s b in
  element s' = element s ∧ observing s' = observing s ∧ effect_deps s' = effect_deps s ∧ prevRef s' = prevRef s
  ∧ match last b with
    | Some e => entry s' = Some e ∧ isIntersecting s' = meets e
    | None => entry s' = entry s ∧ isIntersecting s' = isIntersecting s
    end.
Proof.
  cbn zeta. induction b as [|e b IH] using rev_ind; [done|]. rewrite foldl_app, last_snoc. cbn [foldl].
  destruct IH as (? & ? & ? & ? & _). by split_and!.
Qed.

(** the observer is that of the dependencies the effect ran with *)
Definition observed_by (d : option (option nat * option bool)) : option nat :=
  match d with Some (el, fz) => if supported && negb (default false fz) then el else None | None => None end.
Definition linked (s : hook) : Prop := observing s = observed_by (effect_deps s).
Lemma linked_observe s : linked s → linked (observe s) ∧ effect_deps (observe s) = Some (element s, frozen s)
  ∧ element (observe s) = element s ∧ entry (observe s) = entry s ∧ isIntersecting (observe s) = isIntersecting s.
Proof. intros Hl. unfold observe. by case_bool_decide. Qed.
Lemma linked_forget s : linked s → linked (forget s).
Proof. intros Hl. unfold forget. destruct (element s), (entry s); try done. by destruct (_ && _). Qed.
Lemma linked_step s ev : linked s → linked (step s ev).
Proof.
  intros Hl. assert (Hd : ∀ s', linked s' → linked (draw s')).
  { intros s' H. by apply linked_observe, linked_forget, linked_observe. }
  destruct ev as [x|b]; cbn [step]; [by apply Hd|]. destruct (observing s) eqn:E; [|done]. apply Hd.
  destruct (reported b s) as (_ & E2 & E3 & _). unfold linked. by rewrite E2, E3.
Qed.
Lemma linked_run es : linked (run es (new_hook o)).
Proof.
  induction es as [|e es IH] using rev_ind; [done|]. unfold run. rewrite foldl_app. by apply linked_step.
Qed.

(** drawing a freezing hook *)
Lemma draw_freezing s : freeze o = true → linked s → linked (draw s) ∧ entry (draw s) = entry s
  ∧ isIntersecting (draw s) = isIntersecting s ∧ element (draw s) = element s
  ∧ observing (draw s) = if supported && negb (is_frozen s) then element s else None.
Proof.
  intros Hf Hl. unfold draw. rewrite forget_frozen by done.
  destruct (linked_observe s Hl) as (H1 & D1 & L1 & N1 & I1). destruct (linked_observe _ H1) as (H2 & D2 & L2 & N2 & I2).
  rewrite L2, N2, I2, N1, L1, I1. split_and!; [done..|]. rewrite H2, D2. cbn [observed_by]. unfold is_frozen, frozen.
  by rewrite N1, L1.
Qed.

(** Fact [freeze_sticks]: when a batch ends with an entry that intersects, a freezing hook keeps what it says
    then, whatever happens afterwards: shown for good when the ratio reaches a threshold, and, when it
    reaches none, hidden for good, however much of the element is seen later. *)
Theorem freeze_sticks before b e later : freeze o = true → is_Some (observing (run before (new_hook o))) →
  last b = Some e → e_isIntersecting e = true →
  let s := run (before ++ Observed b :: later) (new_hook o) in
  isIntersecting s = existsb (λ t, Qle_bool t (e_ratio e)) (threshold o) ∧ observing s = None.
Proof.
  intros Hf [x Hx] Hb He s. subst s. unfold run. rewrite foldl_app. cbn [foldl].
  pose proof (linked_run before) as Hl. unfold run in *. revert Hx Hl.
  generalize (foldl step (new_hook o) before). intros s Hx Hl. cbn [step]. rewrite Hx.
  destruct (reported b s) as (E1 & E2 & E3 & E4 & E5). rewrite Hb in E5. destruct E5 as [En Ei].
  set (s1 := foldl report s b) in *. assert (Hl1 : linked s1) by (unfold linked; by rewrite E2, E3).
  assert (Hz : is_frozen s1 = true) by (unfold is_frozen, frozen; rewrite En; cbn; by rewrite He, Hf).
  destruct (draw_freezing s1 Hf Hl1) as (_ & Nd & Id & _ & Od). rewrite Hz, andb_false_r in Od.
  assert (Hs : settled (draw s1)) by (split_and!; [done| |done]; unfold is_frozen, frozen in *; by rewrite Nd).
  destruct (settled_run later (draw s1) Hs) as [(_ & _ & Hn) Hi]. split; [|exact Hn].
  unfold run in Hi. rewrite Hi, Id, Ei. unfold meets. by rewrite He.
Qed.
End Hook.

(** ** The page's cards and tables *)

(** [{isIntersecting && children}] *)
Definition lazily {A} (s : hook) (children : A) : option A := if isIntersecting s then Some children else None.
Definition last_seen (b : list observation) : bool := match last b with Some e => e_isIntersecting e | None => false end.

(** Fact [lazily_drawn]: with the options the page uses, a card is drawn exactly when one of the batches that came
    while it was observed ended with the card on the screen; it is never taken away again. *)
Theorem lazily_drawn {A} x (children : A) batches :
  Forall (Forall (λ e, (0 <= e_ratio e)%Q)) batches →
  lazily (run default_options true (SetRef (Some x) :: (Observed <$> batches)) (new_hook default_options)) children =
  if existsb last_seen batches then Some children else None.
Proof.
  intros Hr. unfold lazily.
  enough (H : ∀ s, linked true s → is_frozen default_options s = false → isIntersecting s = false → is_Some (observing s) →
              element s = observing s →
              isIntersecting (run default_options true (Observed <$> batches) s) = existsb last_seen batches).
  { change (run default_options true (SetRef (Some x) :: (Observed <$> batches)) (new_hook default_options)) with
      (run default_options true (Observed <$> batches) (step default_options true (new_hook default_options) (SetRef (Some x)))).
    set (s0 := {| element := Some x; isIntersecting := false; entry := None; observing := None; effect_deps := None;
                  prevRef := None; seen := [] |}).
    change (step default_options true (new_hook default_options) (SetRef (Some x))) with (draw default_options true s0).
    destruct (draw_freezing default_options true s0 eq_refl eq_refl) as (Hl & En & Ei & El & Eo). cbn in En, Ei, El, Eo.
    rewrite H; [by destruct (existsb _ _)|done|by unfold is_frozen, frozen; rewrite En|done|by rewrite Eo|by rewrite El, Eo]. }
  induction Hr as [|b batches Hb Hr IH]; intros s Hl Hz Hi [y Hy] Hel; [done|].
  cbn [fmap list_fmap existsb]. unfold run. cbn [foldl step]. rewrite Hy.
  destruct (reported default_options b s) as (E1 & E2 & E3 & E4 & E5). set (s1 := foldl (report default_options) s b) in *.
  assert (Hl1 : linked true s1) by (unfold linked; by rewrite E2, E3).
  destruct (draw_freezing default_options true s1 eq_refl Hl1) as (Hld & Nd & Id & Ld & Od).
  unfold last_seen at 1. destruct (last b) as [e|] eqn:Elast; destruct E5 as [En Ei].
  - destruct (e_isIntersecting e) eqn:He.
    + assert (Hs : settled default_options (draw default_options true s1)).
      { assert (is_frozen default_options s1 = true) as Hz1 by (unfold is_frozen, frozen; rewrite En; cbn; by rewrite He).
        split_and!; [done| |by rewrite Od, Hz1]. unfold is_frozen, frozen in *. by rewrite Nd. }
      destruct (settled_run default_options true (Observed <$> batches) _ Hs) as [_ Hrun]. unfold run in Hrun.
      rewrite Hrun, Id, Ei. unfold meets. rewrite He. cbn. rewrite Forall_forall in Hb.
      assert (0 <= e_ratio e)%Q by (apply Hb, last_Some_elem_of; done). by rewrite (proj2 (Qle_bool_iff 0 (e_ratio e))).
    + cbn [orb]. assert (Hz1 : is_frozen default_options s1 = false) by (unfold is_frozen, frozen; rewrite En; cbn; by rewrite He).
      apply IH; [done|unfold is_frozen, frozen in *; by rewrite Nd|rewrite Id, Ei; unfold meets; by rewrite He|..];
        rewrite Od, Hz1; cbn; rewrite ?E1, ?Ld, ?E1, Hel, ?Hy; done.
  - cbn [orb]. assert (Hz1 : is_frozen default_options s1 = false) by (unfold is_frozen, frozen in *; by rewrite En).
    apply IH; [done|unfold is_frozen, frozen in *; by rewrite Nd|by rewrite Id, Ei|..];
      rewrite Od, Hz1; cbn; rewrite ?E1, ?Ld, ?E1, Hel, ?Hy; done.
Qed.

Definition ex_observation (b : bool) (r : Q) : observation := {| e_target := 1; e_isIntersecting := b; e_ratio := r |}.
Lemma lazily_drawn_witness :
  lazily (run default_options true [SetRef (Some 1%nat); Observed [ex_observation false 0]; Observed [ex_observation true (1 # 2)];
            Observed [ex_observation false 0]] (new_hook default_options)) "chart"%string = Some "chart"%string.
Proof.
  exact (lazily_drawn 1 "chart"%string [[ex_observation false 0]; [ex_observation true (1 # 2)]; [ex_observation false 0]]
           ltac:(repeat constructor; by vm_compute)).
Defined.
Definition half : options := {| threshold := [1 # 2]%Q; freeze := true; initialIsIntersecting := false |}.
Lemma freeze_sticks_witness :
  isIntersecting (run half true [SetRef (Some 1%nat); Observed [ex_observation true (1 # 10)]; Observed [ex_observation true 1]] (new_hook half)) = false.
Proof.
  exact (proj1 (freeze_sticks half true [SetRef (Some 1%nat)] [ex_observation true (1 # 10)] (ex_observation true (1 # 10))
           [Observed [ex_observation true 1]] eq_refl ltac:(by eexists) eq_refl eq_refl)).
Defined.
