(* ===== verification/Controls.v ===== *)
(** * Small controls

    The field of tags as a machine ([components/ui/input-tags.tsx]), the dialog with a text that
    could not be copied ([components/copy-to-clipboard.tsx], [copyToClipboard] in [lib/utils.ts]), the
    theme ([components/theme-provider.tsx], [mode-toggle.tsx]), the choice of the period
    ([components/charts/chart-time-select.tsx]), the reboot button
    ([components/systems-table/reboot-button.tsx]), the YAML page
    ([components/routes/settings/config-yaml.tsx]) and the bell ([components/alerts/alert-button.tsx]). *)
From Stdlib Require Import Ascii QArith ZArith Lia.
From S2P Require Import Prelude JsValue JsDate Types Utils Settings.
Open Scope Z_scope.

(** ** The field of tags *)

Inductive tag_event := Typed (text : string) | KeyPressed (key : string) | TagRemoved (item : string).
Definition tags_step (t : tags) (e : tag_event) : tags :=
  match e with
  | Typed text => tags_effect {| tag_values := tag_values t; pendingDataPoint := text |}
  | KeyPressed key =>
      if String.eqb key "Enter" || String.eqb key "," then addPendingDataPoint t
      else if String.eqb key "Backspace" then backspace t else t
  | TagRemoved item => remove_tag item t
  end.
Definition tags_run (es : list tag_event) (t : tags) : tags := foldl tags_step t es.

(** ** The text that could not be copied *)

(** [$copyContent], and the dialog with what it shows *)
Record clipboard := { copyContent : string; shown : option string; toasts : nat }.
Inductive copy_event := Copied (content : string) (allowed : bool) | DialogClosed.
(** the application puts the dialog up when there is a text, and takes it away when there is none *)
Definition draw_dialog (c : clipboard) : clipboard := {|
  copyContent := copyContent c; shown := if truthy (copyContent c) then Some (copyContent c) else None; toasts := toasts c |}.
Definition copy_step (c : clipboard) (e : copy_event) : clipboard :=
  match e with
  | Copied content true => {| copyContent := copyContent c; shown := shown c; toasts := S (toasts c) |}
  | Copied content false => draw_dialog {| copyContent := content; shown := shown c; toasts := toasts c |}
  | DialogClosed =>   (* the text area goes away and empties the store *)
      match shown c with
      | Some _ => draw_dialog {| copyContent := ""; shown := None; toasts := toasts c |}
      | None => c
      end
  end.
Definition copy_run (es : list copy_event) (c : clipboard) : clipboard := foldl copy_step c es.
Definition no_clipboard : clipboard := {| copyContent := ""; shown := None; toasts := 0 |}.
(** the rows of the text area *)
Definition copy_rows (content : string) : nat := length (str_split (ascii_of_nat 10) content).

(** ** The theme *)

(** the theme, what the storage holds, and the classes of the document's root *)
Record theme_state := { theme : string; stored_theme : option string; root_classes : list string }.
(** the effect: [prefers_dark] is what the browser says *)
Definition theme_effect (prefers_dark : bool) (t : theme_state) : theme_state :=
  let others := List.filter (λ c, negb (String.eqb c "light" || String.eqb c "dark")) (root_classes t) in
  let added := if String.eqb (theme t) "system" then (if prefers_dark then "dark" else "light")%string else theme t in
  {| theme := theme t; stored_theme := stored_theme t;
     root_classes := if existsb (String.eqb added) others then others else others ++ [added] |}.
Definition theme_start (prefers_dark : bool) (stored : option string) (classes : list string) : theme_state :=
  theme_effect prefers_dark {| theme := js_or stored "system"%string; stored_theme := stored; root_classes := classes |}.
Definition setTheme (prefers_dark : bool) (new : string) (t : theme_state) : theme_state :=
  if String.eqb (theme t) new
  then {| theme := theme t; stored_theme := Some new; root_classes := root_classes t |}
  else theme_effect prefers_dark {| theme := new; stored_theme := Some new; root_classes := root_classes t |}.
Definition toggle_theme (prefers_dark : bool) (t : theme_state) : theme_state :=
  setTheme prefers_dark (if String.eqb (theme t) "dark" then "light" else "dark") t.

(** ** The periods an agent supports *)

Definition all_periods : list ChartTimes := [T1m; T1h; T12h; T24h; T1w; T30d].
Definition availableChartTimes `{D3Time} (agentVersion : SemVer) : list (ChartTimes * string) :=
  (λ c, (c, cp_label (chartTimeData c))) <$>
  List.filter (λ c, match minVersion (chartTimeData c) with
                    | Some v => if truthy v then num_geb (compareSemVer agentVersion (parseSemVer (Some v))) (Fin 0) else true
                    | None => true
                    end) all_periods.

(** ** Reboot, YAML, bell *)

Definition reboot_button (system : SystemRecord) (isReadOnly : bool) : bool :=
  truthy (si_rb (sys_info system)) && negb isReadOnly.
Definition reboot_path (system : SystemRecord) : string :=
  "/api/beszel-ext/systems/" +:+ sys_id system +:+ "/reboot".
(** the toast after the request: an error carries its message *)
Definition reboot_toast (system : SystemRecord) (error : option string) : string * option string :=
  match error with
  | None => ("Rebooting", Some (sys_name system +:+ " is restarting now"))
  | Some message => ("Reboot failed", Some message)
  end%string.

Record yaml_page := { configContent : string; isLoading : bool; yaml_error : option string }.
Inductive yaml_event := ExportClicked | ConfigAnswered (answer : string + string).   (* text, or the error's message *)
Definition yaml_step (p : yaml_page) (e : yaml_event) : yaml_page :=
  match e with
  | ExportClicked => if isLoading p then p else {| configContent := configContent p; isLoading := true; yaml_error := None |}
  | ConfigAnswered (inl config) => {| configContent := config; isLoading := false; yaml_error := None |}
  | ConfigAnswered (inr message) => {| configContent := configContent p; isLoading := false; yaml_error := Some message |}
  end.
Definition yaml_rows (p : yaml_page) : option nat :=
  if truthy (configContent p) then Some (Nat.min 25 (length (str_split (ascii_of_nat 10) (configContent p)))) else None.

Definition hasSystemAlert (alerts : AlertMap) (system : SystemRecord) : bool :=
  match jget (sys_id system) alerts with Some m => (0 <? length m)%nat | None => false end.

(** ** Theorems: tags *)

Definition no_comma (s : string) : bool := str_all (λ c, negb (Ascii.eqb c ",")) s.
Lemma distinct_acc (l : list string) : ∀ acc, NoDup acc →
  let r := foldl (λ s x, if bool_decide (x ∈ s) then s else s ++ [x]) acc l in
  NoDup r ∧ ∀ x, x ∈ r ↔ x ∈ acc ∨ x ∈ l.
Proof.
  induction l as [|y l IH]; intros acc Hacc; [by split; [|set_solver]|]. cbn [foldl].
  case_bool_decide as Hy.
  - destruct (IH acc Hacc) as [? Hx]. split; [done|]. intros x. rewrite Hx. set_solver.
  - destruct (IH (acc ++ [y])) as [? Hx].
    { apply NoDup_app. split_and!; [done| |apply NoDup_singleton]. intros x Hxa Hxy. apply list_elem_of_singleton in Hxy as ->. done. }
    split; [done|]. intros x. rewrite Hx. set_solver.
Qed.
Lemma distinct_spec l : NoDup (distinct l) ∧ ∀ x, x ∈ distinct l ↔ x ∈ l.
Proof. destruct (distinct_acc l [] (NoDup_nil_2)) as [? H]. split; [done|]. intros x. unfold distinct. rewrite H. set_solver. Qed.

Lemma str_all_split (c : ascii) s : Forall (λ w, str_all (λ a, negb (Ascii.eqb a c)) w = true) (str_split c s).
Proof.
  induction s as [|a s IH]; [by constructor|]. cbn. destruct (Ascii.eqb a c) eqn:E; [by constructor|].
  destruct (str_split c s) as [|w ws]; [constructor; [|done]; cbn; by rewrite E|].
  apply Forall_cons in IH as [Hw Hws]. constructor; [|done]. cbn. by rewrite E.
Qed.
Lemma str_all_trim p s : str_all p s = true → str_all p (str_trim s) = true.
Proof.
  intros H. unfold str_trim.
  assert (Hs : str_all p (trim_start s) = true).
  { induction s as [|a s IH]; [done|]. cbn in *. apply andb_prop in H as [Ha H]. destruct (is_space a); [by apply IH|]. cbn. by rewrite Ha. }
  revert Hs. generalize (trim_start s). clear. induction s as [|a s IH]; [done|]. intros [Ha Hs]%andb_prop. cbn.
  specialize (IH Hs). destruct (trim_end s); [destruct (is_space a); cbn; by rewrite ?Ha|]. cbn in *. by rewrite Ha.
Qed.
Lemma index_of_excluded s c : index_of s (String c "") = None → str_all (λ a, negb (Ascii.eqb a c)) s = true.
Proof.
  unfold index_of. induction s as [|a s IH]; simpl; [done|]. destruct (ascii_dec c a) as [|Hne]; [by destruct s|].
  rewrite (proj2 (Ascii.eqb_neq a c)) by congruence. destruct (String.index 0 (String c "") s); [done|]. intros _. by apply IH.
Qed.
Lemma no_comma_excluded s : str_includes s "," = false → no_comma s = true.
Proof. unfold str_includes. destruct (index_of s ",") eqn:E; [done|]. intros _. by apply index_of_excluded. Qed.

Definition tags_ok (t : tags) : Prop :=
  NoDup (tag_values t) ∧ Forall (λ s, no_comma s = true) (tag_values t) ∧ no_comma (pendingDataPoint t) = true.
Lemma distinct_tags l p : Forall (λ s, no_comma s = true) l → no_comma p = true →
  tags_ok {| tag_values := distinct l; pendingDataPoint := p |}.
Proof.
  intros Hl Hp. destruct (distinct_spec l) as [Hn Hx]. split_and!; [done| |done].
  apply Forall_forall. intros x Hxl%Hx. by eapply Forall_forall in Hl.
Qed.

(** Fact [tags_distinct]: whatever is typed, pasted, confirmed or removed, no tag is there twice, and neither a tag
    nor the text that waits contains a comma. *)
Theorem tags_distinct es t : tags_ok t → tags_ok (tags_run es t).
Proof.
  revert t. induction es as [|e es IH]; intros t Ht; [done|]. apply IH. destruct Ht as (Hn & Hc & Hp).
  destruct e as [text|key|item]; cbn [tags_step].
  - unfold tags_effect. cbn [pendingDataPoint tag_values]. destruct (str_includes text ",") eqn:E.
    + apply distinct_tags; [|done]. apply Forall_app. split; [done|]. apply Forall_fmap.
      eapply Forall_impl; [apply str_all_split|]. intros w Hw. by apply str_all_trim.
    + split_and!; [done..|by apply no_comma_excluded].
  - destruct (_ || _); [|destruct (String.eqb key "Backspace"); [|done]].
    + unfold addPendingDataPoint. destruct (truthy _); [|done]. apply distinct_tags; [|done].
      apply Forall_app. by split; [|constructor].
    + unfold backspace. destruct (negb _); [|done]. unfold tags_ok. cbn [tag_values pendingDataPoint].
      revert Hn Hc. generalize (tag_values t). intros l. induction l as [|x l _] using rev_ind; [done|].
      rewrite removelast_last. intros (? & _ & _)%NoDup_app [? _]%Forall_app. done.
  - split_and!; [by apply NoDup_list_filter| |done]. cbn [tag_values].
    apply Forall_forall. intros x [Hx _]%list_elem_of_In%filter_In. rewrite Forall_forall in Hc. by apply Hc, list_elem_of_In.
Qed.
Lemma tags_distinct_witness :
  tags_ok (tags_run [Typed "a@b.c, a@b.c"; Typed "d"; KeyPressed "Enter"; KeyPressed "Backspace"]%string {| tag_values := []; pendingDataPoint := "" |}).
Proof. apply tags_distinct. by split_and!; [constructor|constructor|]. Defined.

(** a list that ends with a comma leaves an empty tag *)
Lemma pasted_trailing_comma s t : no_comma s = true → ""%string ∈ tag_values (tags_step t (Typed (s +:+ ","))).
Proof.
  intros Hs. cbn [tags_step]. unfold tags_effect. cbn [pendingDataPoint tag_values].
  assert (E : str_includes (s +:+ ",") "," = true) by (unfold str_includes; by rewrite (index_of_app s "" ",")).
  rewrite E. cbn [tag_values]. apply distinct_spec, elem_of_app. right. apply list_elem_of_fmap. exists ""%string. split; [done|].
  change (s +:+ ",") with (s +:+ String "," ""). rewrite str_split_app by (by apply str_split_none). by right; left.
Qed.

(** ** Theorems: copying *)

(** Fact [copy_dialog]: the dialog is there exactly while a text waits in the store and shows that text; closing it
    empties the store, so that the next text that cannot be copied is shown again. *)
Theorem copy_dialog es : let c := copy_run es no_clipboard in
  shown c = (if truthy (copyContent c) then Some (copyContent c) else None)
  ∧ shown (copy_step c DialogClosed) = None
  ∧ ∀ text, truthy text = true → shown (copy_run [DialogClosed; Copied text false] c) = Some text.
Proof.
  cbn zeta. assert (H : shown (copy_run es no_clipboard) =
    if truthy (copyContent (copy_run es no_clipboard)) then Some (copyContent (copy_run es no_clipboard)) else None).
  { induction es as [|e es IH] using rev_ind; [done|]. unfold copy_run in *. rewrite foldl_app. cbn [foldl].
    destruct e as [text []|]; cbn [copy_step]; [exact IH|done|].
    destruct (shown (foldl copy_step no_clipboard es)) eqn:E; [done|]. rewrite E. exact IH. }
  split; [exact H|]. split.
  - cbn [copy_step]. by destruct (shown _) eqn:E.
  - intros text Ht. unfold copy_run at 1. cbn [foldl copy_step draw_dialog copyContent shown]. by rewrite Ht.
Qed.

(** ** Facts of the small controls *)

(** the choice offers every period but the minute to every agent, and the minute to those that parse
    as no older than 0.13.0 *)
Lemma periods_offered `{D3Time} v : fst <$> availableChartTimes v =
  (if num_geb (compareSemVer v (parseSemVer (Some "0.13.0"%string))) (Fin 0) then [T1m] else [])
  ++ [T1h; T12h; T24h; T1w; T30d].
Proof.
  unfold availableChartTimes. rewrite <- list_fmap_compose.
  cbn [all_periods List.filter chartTimeData minVersion truthy truthy_string].
  change (negb (String.eqb "0.13.0" "")) with true. cbv iota. by destruct (num_geb _ _).
Qed.

(** the root gets exactly one of the two classes, unless the storage held another word *)
Lemma theme_class dark t :
  let is_mode c := String.eqb c "light" || String.eqb c "dark" in
  List.filter is_mode (root_classes (theme_effect dark t)) =
  (if String.eqb (theme t) "system" then [if dark then "dark" else "light"] else List.filter is_mode [theme t])%string.
Proof.
  intros is_mode. assert (Hnone : List.filter is_mode (List.filter (λ c, negb (is_mode c)) (root_classes t)) = []).
  { induction (root_classes t) as [|c l IH]; [done|]. cbn [List.filter]. destruct (is_mode c) eqn:E; cbn [negb List.filter]; by rewrite ?E. }
  assert (Hin : ∀ c, is_mode c = true → existsb (String.eqb c) (List.filter (λ c, negb (is_mode c)) (root_classes t)) = false).
  { intros c Hc. apply not_true_is_false. intros (x & Hx & ->%String.eqb_eq)%existsb_exists.
    apply filter_In in Hx as [_ Hx]. by rewrite Hc in Hx. }
  unfold theme_effect. cbn [root_classes]. fold is_mode.
  change (λ c, negb (String.eqb c "light" || String.eqb c "dark")) with (λ c, negb (is_mode c)).
  destruct (String.eqb (theme t) "system").
  - rewrite Hin by (by destruct dark). rewrite List.filter_app, Hnone. by destruct dark.
  - destruct (existsb _ _) eqn:E; [|by rewrite List.filter_app, Hnone]. rewrite Hnone. cbn [List.filter].
    destruct (is_mode (theme t)) eqn:Em; [|done]. by rewrite Hin in E.
Qed.
