(* ===== verification/SystemdSheet.v ===== *)
(** * The rows of a service's sheet: the second half of [components/systemd-table/systemd-table.tsx]

    What the sheet shows of the details of a service: the rows of its five tables, with the ones that
    are always there and the ones that appear only with a value. *)
From Stdlib Require Import Ascii QArith ZArith Lia.
From S2P Require Import Prelude JsValue JsDate Types Utils Systemd.
Open Scope Z_scope.

(** the details the first half does not use; a list is absent when the property is not an array *)
Record more_details := {
  base : details;
  Description : option string; LoadState : option string; UnitFileState : option string;
  UnitFilePreset : option string; FragmentPath : option string; Result : option string;
  Documentation : option (list string); Wants : option (list string); Requires : option (list string);
  RequiredBy : option (list string); Conflicts : option (list string); Before : option (list string);
  After : option (list string); Triggers : option (list string); TriggeredBy : option (list string);
  ActiveEnterTimestamp : option Z; ActiveExitTimestamp : option Z; InactiveEnterTimestamp : option Z;
  CanStart : bool; CanStop : bool; CanReload : bool }.

Record table_row := { row_key : string; row_label : string; row_value : string }.
Definition notAvailable : string := "N/A".
(** [value ?? notAvailable]: an empty value of a row that is always shown stays empty *)
Definition renderRow (key label : string) (value : option string) (alwaysShow : bool) : list table_row :=
  if negb alwaysShow && match value with None => true | Some v => String.eqb v "" end then []
  else [{| row_key := key; row_label := label; row_value := default notAvailable value |}].

(** [str.charAt(0).toUpperCase() + str.slice(1).toLowerCase()] *)
Definition upper_ascii (c : ascii) : ascii :=
  let n := nat_of_ascii c in if (97 <=? n)%nat && (n <=? 122)%nat then ascii_of_nat (n - 32) else c.
Definition capitalize (str : string) : string :=
  match str with String c rest => String (upper_ascii c) (str_lower rest) | EmptyString => EmptyString end.

(** [Array.isArray(l) && l.length > 0 ? l.join(", ") : undefined] *)
Definition list_text (l : option (list string)) : option string :=
  match l with Some (x :: r) => Some (str_join ", " (x :: r)) | _ => None end.
Definition tasks_text (t : option (option Z * task_limit)) : option string :=
  (λ t : option Z * task_limit,
     (match t.1 with Some n => z_str n | None => notAvailable end) +:+
     match t.2 with NoLimitShown => "" | LimitIs n => "(limit: " +:+ z_str n +:+ ")" | LimitUnlimited => "(limit: unlimited)" end)%string
  <$> t.
Definition yes_no (b : bool) : string := if b then "Yes" else "No".

Section Rows.
Context `{Intl}.
(** [date.toLocaleString()] *)
Context (toLocaleString : Z → string).

(** microseconds; a date out of range is [NaN] *)
Definition formatTimestamp (timestamp : option Z) : option string :=
  match timestamp with
  | Some t => if t =? 0 then None
              else if 8640000000000000000 <? Z.abs t then None else Some (toLocaleString (Z.quot t 1000))
  | None => None
  end.

(** the details while they are loaded are absent, and so are all their properties *)
Definition of_details {A} (f : more_details → option A) (d : option more_details) : option A := d ← d; f d.
Definition base_maybe (f : details → maybe Q) (d : option more_details) : maybe Q :=
  match d with Some d => f (base d) | None => Undefined end.
Definition boot_state (d : option more_details) : string :=
  (default "" (of_details UnitFileState d) +:+
   match of_details UnitFilePreset d with
   | Some p => if truthy p then "(preset: " +:+ p +:+ ")" else ""
   | None => ""
   end)%string.

(** [service.state] is what drawing the sheet has written by then *)
Definition unit_rows (d : option more_details) (service : SystemdRecord) : list table_row :=
  renderRow "name" "Name" (Some (sv_name service)) true
  ++ renderRow "description" "Description" (of_details Description d) true
  ++ renderRow "loadState" "Load state" (of_details LoadState d) true
  ++ renderRow "bootState" "Boot state" (Some (boot_state d)) true
  ++ renderRow "unitFile" "Unit file" (of_details FragmentPath d) true
  ++ renderRow "active" "Active state" (Some (stateText (base <$> d) service)) true
  ++ renderRow "status" "Status" (of_details Result d) true
  ++ renderRow "documentation" "Documentation" (list_text (of_details Documentation d)) false.
Definition runtime_rows (d : option more_details) : list table_row :=
  let tasks := formatTasks (match d with Some d => TasksCurrent (base d) | None => Undefined end)
                           (match d with Some d => TasksMax (base d) | None => Undefined end) in
  renderRow "mainPid" "Main PID" (z_str <$> mainPidValue (base <$> d)) true
  ++ renderRow "execMainPid" "Exec main PID" (z_str <$> execMainPidValue (base <$> d)) false
  ++ renderRow "tasks" "Tasks" (tasks_text tasks) true
  ++ renderRow "cpuTime" "CPU time" (formatCpuTime (d ← d; CPUUsageNSec (base d))) false
  ++ renderRow "memory" "Memory" (formatMemory (base_maybe MemoryCurrent d)) true
  ++ renderRow "memoryPeak" (capitalize "Memory Peak") (formatMemory (base_maybe MemoryPeak d)) false
  ++ renderRow "memoryLimit" "Memory limit" (formatMemory (base_maybe MemoryLimit d)) false
  ++ renderRow "restarts" "Restarts" (z_str <$> (d ← d; NRestarts (base d))) true.
Definition relation_rows (d : option more_details) : list table_row :=
  let related key label f := renderRow key label (list_text (of_details f d)) false in
  related "wants" "Wants" Wants ++ related "requires" "Requires" Requires
  ++ related "requiredBy" "Required by" RequiredBy ++ related "conflicts" "Conflicts" Conflicts
  ++ related "before" "Before" Before ++ related "after" "After" After
  ++ related "triggers" "Triggers" Triggers ++ related "triggeredBy" "Triggered by" TriggeredBy.
Definition lifecycle_rows (d : option more_details) (service : SystemdRecord) : list table_row :=
  renderRow "activeSince" "Became active" (formatTimestamp (of_details ActiveEnterTimestamp d)) false
  ++ (if sv_state service =? 0 then []
      else renderRow "lastActive" "Exited active" (formatTimestamp (of_details ActiveExitTimestamp d)) false)
  ++ renderRow "inactiveSince" "Became inactive" (formatTimestamp (of_details InactiveEnterTimestamp d)) false
  ++ renderRow "execMainStart" "Process started" None false.
Definition capability_rows (d : option more_details) : list table_row :=
  let can f := Some (yes_no (match d with Some d => f d | None => false end)) in
  renderRow "canStart" "Can start" (can CanStart) false ++ renderRow "canStop" "Can stop" (can CanStop) false
  ++ renderRow "canReload" "Can reload" (can CanReload) false.
(** a titled table; the last three are hidden while they have no row *)
Definition sheet_tables (d : option more_details) (service : SystemdRecord) : list (string * list table_row) :=
  List.filter (λ t : string * list table_row, bool_decide (t.1 ∈ [""; "Runtime Metrics"]%string) || (0 <? length t.2)%nat)
    [("", unit_rows d service); ("Runtime Metrics", runtime_rows d); ("Relationships", relation_rows d);
     ("Lifecycle", lifecycle_rows d service); ("Capabilities", capability_rows d)]%string.
Definition sheet_rows (d : option more_details) (service : SystemdRecord) : list table_row :=
  concat ((sheet_tables d service).*2).

(** ** Theorems *)

Definition fixed_keys : list string :=
  ["name"; "description"; "loadState"; "bootState"; "unitFile"; "active"; "status"; "mainPid"; "tasks"; "memory"; "restarts"]%string.

Lemma elem_renderRow r key label value always : r ∈ renderRow key label value always →
  row_key r = key ∧ (always = true ∨ row_value r ≠ ""%string).
Proof.
  unfold renderRow. destruct (_ && _) eqn:E; [by intros ?%elem_of_nil|]. intros ->%list_elem_of_singleton. split; [done|].
  destruct always; [by left|]. right. cbn in *. destruct value as [v|]; [|done]. by apply String.eqb_neq.
Qed.
Lemma renderRow_fixed key label value : key ∈ row_key <$> renderRow key label value true.
Proof. unfold renderRow. cbn. left. Qed.
Lemma concat_hidden (l : list (string * list table_row)) :
  concat ((List.filter (λ t, bool_decide (t.1 ∈ [""; "Runtime Metrics"]%string) || (0 <? length t.2)%nat) l).*2) = concat (l.*2).
Proof.
  induction l as [|[t rows] l IH]; [done|]. cbn [List.filter fst snd]. destruct (bool_decide _); cbn [orb].
  - cbn [fmap list_fmap concat snd]. by rewrite <- IH.
  - destruct rows as [|r rows]; cbn [length Nat.ltb Nat.leb]; [exact IH|]. cbn [fmap list_fmap concat snd]. by rewrite <- IH.
Qed.

(** Fact [sheet_rows_spec]: whatever is known of a service, the eleven fixed rows are shown, and every other row
    that is shown has a text. *)
Theorem sheet_rows_spec d service :
  (∀ key, key ∈ fixed_keys → key ∈ row_key <$> sheet_rows d service)
  ∧ (∀ r, r ∈ sheet_rows d service → row_key r ∈ fixed_keys ∨ row_value r ≠ ""%string).
Proof.
  unfold sheet_rows, sheet_tables. rewrite concat_hidden. cbn [fmap list_fmap concat snd]. rewrite app_nil_r. split.
  - intros key Hk. rewrite !fmap_app, !elem_of_app. unfold fixed_keys in Hk.
    unfold unit_rows, runtime_rows. rewrite !fmap_app, !elem_of_app.
    repeat (apply elem_of_cons in Hk as [->|Hk]; [pose proof renderRow_fixed; eauto 20|]). by apply elem_of_nil in Hk.
  - intros r Hr. unfold unit_rows, runtime_rows, relation_rows, lifecycle_rows, capability_rows in Hr.
    repeat (apply elem_of_app in Hr as [Hr|Hr]);
      try (destruct (sv_state service =? 0); [by apply elem_of_nil in Hr|]);
      apply elem_renderRow in Hr as [Hk [Ha|Hv]]; try discriminate Ha; try (by right); left; rewrite Hk; unfold fixed_keys; set_solver.
Qed.
(** before the details arrive the sheet says that the service can neither be started nor stopped *)
Lemma unknown_capabilities : row_value <$> capability_rows None = ["No"; "No"; "No"]%string.
Proof. reflexivity. Qed.
End Rows.

Definition plain : Intl := {|
  format_fixed v digits := z_str v; to_locale_string := z_str; plural_category n := if n =? 1 then One else Other |}.
Lemma sheet_rows_spec_witness : "memory"%string ∈ row_key <$> sheet_rows (H := plain) z_str None (ex_service "web" 0 0).
Proof. apply (proj1 (sheet_rows_spec (H := plain) z_str None (ex_service "web" 0 0))). apply (bool_decide_unpack _); by vm_compute. Defined.

