(* ===== verification/GeneralForm.v ===== *)
(** * The general settings form: [components/routes/settings/general.tsx]

    What the form shows for the settings at hand, what an unchanged form stores, and what the rest
    of the application reads from the stored texts: the units by loose equality, the thresholds as
    numbers, the period and the hour format as texts. *)
From Stdlib Require Import Ascii QArith ZArith Lia.
From S2P Require Import Prelude JsValue JsDate Types Utils Settings.
Open Scope Z_scope.

Section Form.
(** how a number is written as a text; what [resolvedOptions] says of the clock *)
Context (num_str : Q → string) (currentHour12 : bool).

(** [value.toString()] *)
Definition json_text (v : json) : string :=
  match v with JStr s => s | JNum q => num_str q | JList l => str_join "," l end.
(** JavaScript's truth of a setting *)
Definition json_truthy (v : json) : bool :=
  match v with JStr s => truthy s | JNum q => truthy q | JList _ => true end.

(** *** What a number field makes of its value: nothing, unless it is a number's literal *)

Fixpoint drop_digits (s : string) : string :=
  match s with String c r => if is_digit c then drop_digits r else s | EmptyString => s end.
Definition starts_digit (s : string) : bool := match s with String c _ => is_digit c | EmptyString => false end.
Definition exponent_ok (s : string) : bool :=
  match s with
  | EmptyString => true
  | String c r =>
      if Ascii.eqb c "e" || Ascii.eqb c "E" then
        let r := match r with String "-" t => t | String "+" t => t | _ => r end in
        starts_digit r && String.eqb (drop_digits r) ""
      else false
  end.
Definition valid_float (s : string) : bool :=
  let s := match s with String "-" r => r | _ => s end in
  match drop_digits s with
  | String "." r => starts_digit r && exponent_ok (drop_digits r)
  | rest => starts_digit s && exponent_ok rest
  end.
Definition number_field (text : string) : string := if valid_float text then text else "".

(** *** The fields as they are shown first, which an untouched form hands over: a select gives the value
    it was given, a number field its text when that is a number *)

Definition or_text (v : option json) (d : string) : string :=
  match v with Some v => json_text v | None => d end.
Definition chartTime_default (s : settings) : string := or_text (jget "chartTime" s) "".
Definition hourFormat_default (s : settings) : string :=
  or_text (jget "hourFormat" s) (if currentHour12 then "12h" else "24h").
Definition unitTemp_default (s : settings) : string :=
  let t := or_text (jget "unitTemp" s) "" in if truthy t then t else z_str (Unit_num Unit_Celsius).
Definition unit_default (s : settings) (field : string) : string :=
  or_text (jget field s) (z_str (Unit_num Unit_Bytes)).
Definition threshold_default (s : settings) (field standard : string) : string :=
  number_field (or_text (jget field s) standard).
Definition form_default (s : settings) (field : string) : string :=
  if String.eqb field "layoutWidth" then or_text (jget field s) "1500"
  else if String.eqb field "chartTime" then chartTime_default s
  else if String.eqb field "hourFormat" then hourFormat_default s
  else if String.eqb field "unitTemp" then unitTemp_default s
  else if String.eqb field "unitNet" || String.eqb field "unitDisk" then unit_default s field
  else if String.eqb field "colorWarn" then threshold_default s field "65"
  else if String.eqb field "colorCrit" then threshold_default s field "90"
  else "".
(** the options of the selects *)
Definition unit_options (field : string) : list string :=
  if String.eqb field "unitTemp" then [z_str (Unit_num Unit_Celsius); z_str (Unit_num Unit_Fahrenheit)]
  else [z_str (Unit_num Unit_Bytes); z_str (Unit_num Unit_Bits)].
(** the slider writes the store at once, before anything is saved *)
Definition slide_width (width : Q) (s : settings) : settings := jset "layoutWidth" (JNum width) s.

(** *** What is read from the settings *)

(** [v == n]: a text counts as its number *)
Definition loose_eq (v : option json) (n : Z) : bool :=
  match v with
  | None => false
  | Some (JNum q) => Qeq_bool q (inject_Z n)
  | Some (JStr t) => match Number t with Fin q => Qeq_bool q (inject_Z n) | _ => false end
  | Some (JList l) => match Number (str_join "," l) with Fin q => Qeq_bool q (inject_Z n) | _ => false end
  end.
(** [formatTemperature]: [userSettings.unitTemp || Unit.Celsius] *)
Definition fahrenheit (s : settings) : bool :=
  match jget "unitTemp" s with
  | Some v => if json_truthy v then loose_eq (Some v) (Unit_num Unit_Fahrenheit) else false
  | None => false
  end.
(** [formatBytes] with its default unit *)
Definition in_bits (s : settings) (field : string) : bool := loose_eq (jget field s) (Unit_num Unit_Bits).

(** *** Theorems *)

Hypothesis num_str_whole : ∀ n : N, num_str (inject_Z (Z.of_N n)) = pretty n.

(** a setting as the application writes it: absent, a whole number, or a text *)
Definition written (v : option json) : Prop :=
  match v with None | Some (JStr _) => True | Some (JNum q) => ∃ n : N, q = inject_Z (Z.of_N n) | Some (JList _) => False end.
(** a threshold: a text is one that the form has stored, digits or nothing *)
Definition threshold_written (v : option json) : Prop :=
  written v ∧ ∀ t, v = Some (JStr t) → str_all is_digit t = true.

Lemma drop_digits_all t : str_all is_digit t = true → drop_digits t = ""%string.
Proof. induction t as [|c t IH]; [done|]. cbn. intros [Hc Ht]%andb_prop. by rewrite Hc, IH. Qed.
Lemma number_field_digits t : str_all is_digit t = true → number_field t = t.
Proof.
  intros Ht. unfold number_field, valid_float.
  assert (E : match t with String "-" r => r | _ => t end = t).
  { destruct t as [|c r]; [done|]. cbn in Ht. apply andb_prop in Ht as [Hc _]. by digit_cases Hc. }
  rewrite E, drop_digits_all by done. destruct t as [|c r]; [done|]. cbn in Ht |- *. apply andb_prop in Ht as [Hc _]. by rewrite Hc.
Qed.

(** the settings after an unchanged form was saved *)
Definition resaved (s : settings) : settings := spread s (form_data (form_default s)).
Lemma resaved_field s k : k ∈ form_fields → jget k (resaved s) = Some (JStr (form_default s k)).
Proof.
  intros Hk. unfold resaved. rewrite jget_spread by apply form_wf. unfold form_fields in Hk.
  repeat (apply elem_of_cons in Hk as [->|Hk]; [reflexivity|]). by apply elem_of_nil in Hk.
Qed.
Lemma Qeq_whole (n : N) (m : Z) : Qeq_bool (inject_Z (Z.of_N n)) (inject_Z m) = (Z.of_N n =? m).
Proof. unfold Qeq_bool, inject_Z. cbn. by rewrite !Z.mul_1_r. Qed.
(** a text with the number's digits equals what the number does *)
Lemma loose_eq_text n m : loose_eq (Some (JStr (pretty (n : N)))) m = loose_eq (Some (JNum (inject_Z (Z.of_N n)))) m.
Proof. unfold loose_eq. by rewrite Number_pretty. Qed.
Lemma pretty_truthy (n : N) : truthy (pretty n) = true.
Proof. apply truthy_nonempty. intros E. pose proof (Number_pretty n) as H. destruct n; [done|]. rewrite E in H. discriminate H. Qed.

Lemma resaved_bits s k : k = "unitNet"%string ∨ k = "unitDisk"%string → written (jget k s) → in_bits (resaved s) k = in_bits s k.
Proof.
  intros Hk Hw. unfold in_bits. rewrite resaved_field by (destruct Hk as [->| ->]; apply (bool_decide_unpack _); by vm_compute).
  assert (E : form_default s k = or_text (jget k s) (z_str (Unit_num Unit_Bytes))) by (destruct Hk as [->| ->]; reflexivity).
  rewrite E. destruct (jget k s) as [[t|q|l]|]; [done| |done|done].
  destruct Hw as [n ->]. cbn [or_text json_text]. rewrite num_str_whole. apply loose_eq_text.
Qed.
Lemma resaved_threshold s k (standard : N) : (k = "colorWarn" ∧ standard = 65%N ∨ k = "colorCrit" ∧ standard = 90%N)%string →
  threshold_written (jget k s) →
  threshold (inject_Z (Z.of_N standard)) (jget k (resaved s)) = threshold (inject_Z (Z.of_N standard)) (jget k s).
Proof.
  intros Hk [Hw Hd]. rewrite resaved_field by (destruct Hk as [[-> _]|[-> _]]; apply (bool_decide_unpack _); by vm_compute).
  assert (E : form_default s k = number_field (or_text (jget k s) (pretty standard)))
    by (destruct Hk as [[-> ->]|[-> ->]]; reflexivity).
  rewrite E. destruct (jget k s) as [[t|q|l]|]; cbn [or_text json_text].
  - by rewrite number_field_digits by (by apply Hd).
  - destruct Hw as [n ->]. rewrite num_str_whole, number_field_digits by apply pretty_N_digits.
    cbn [threshold]. by rewrite Number_pretty.
  - done.
  - rewrite number_field_digits by apply pretty_N_digits. cbn [threshold]. by rewrite Number_pretty.
Qed.

(** Fact [unchanged_form]: saving the general form without touching it changes nothing that is shown: the units, the
    colours of every meter and the period stay as they were, whether a setting was absent, a number
    of the first version or a text of the form. *)
Theorem unchanged_form s :
  (written (jget "unitTemp" s) → fahrenheit (resaved s) = fahrenheit s)
  ∧ (∀ k, k = "unitNet" ∨ k = "unitDisk" → written (jget k s) → in_bits (resaved s) k = in_bits s k)%string
  ∧ (threshold_written (jget "colorWarn" s) → threshold_written (jget "colorCrit" s) →
     ∀ value, meter_state (resaved s) value = meter_state s value)
  ∧ (∀ v, jget "chartTime" s = Some (JStr v) → jget "chartTime" (resaved s) = Some (JStr v))
  ∧ (∀ k, k ∉ form_fields → jget k (resaved s) = jget k s).
Proof.
  split_and!.
  - intros Hw. unfold fahrenheit. rewrite resaved_field by (apply (bool_decide_unpack _); by vm_compute).
    change (form_default s "unitTemp") with
      (let t := or_text (jget "unitTemp" s) "" in if truthy t then t else z_str (Unit_num Unit_Celsius)).
    cbv zeta. destruct (jget "unitTemp" s) as [[t|q|l]|]; cbn [or_text json_text]; [|destruct Hw as [n ->]|done|done].
    + destruct (truthy t) eqn:Et; cbn [json_truthy]; by rewrite Et.
    + rewrite num_str_whole, pretty_truthy. cbn [json_truthy]. rewrite pretty_truthy, loose_eq_text.
      unfold truthy, truthy_Q. destruct (Qeq_bool _ 0) eqn:E; [|done]. cbn [negb].
      change (0%Q) with (inject_Z 0) in E. rewrite (Qeq_whole n 0) in E. apply Z.eqb_eq in E. cbn [loose_eq]. by rewrite E.
  - intros. by apply resaved_bits.
  - intros Hw Hc value. unfold meter_state.
    pose proof (resaved_threshold s "colorCrit" 90 ltac:(by right) Hc) as Ec.
    pose proof (resaved_threshold s "colorWarn" 65 ltac:(by left) Hw) as Ew.
    change (inject_Z (Z.of_N 90)) with 90%Q in Ec. change (inject_Z (Z.of_N 65)) with 65%Q in Ew. by rewrite Ec, Ew.
  - intros v Hv. rewrite resaved_field by (apply (bool_decide_unpack _); by vm_compute).
    change (form_default s "chartTime") with (or_text (jget "chartTime" s) ""). by rewrite Hv.
  - intros k Hk. unfold resaved. rewrite jget_spread by apply form_wf.
    replace (jget k (form_data (form_default s))) with (@None json); [done|]. symmetry. apply jget_None. exact Hk.
Qed.
End Form.

Definition whole_str (q : Q) : string := z_str (Qround.Qfloor q).
Lemma unchanged_form_witness :
  meter_state (resaved whole_str true [("colorWarn", JNum 50); ("unitTemp", JNum 3)]%string) 60 = MeterState_Warn.
Proof.
  rewrite (proj1 (proj2 (proj2 (unchanged_form whole_str true
    ltac:(intros n; unfold whole_str; rewrite Qround.Qfloor_Z; by destruct n) [("colorWarn", JNum 50); ("unitTemp", JNum 3)]%string)))
    ltac:(split; [by exists 50%N | done]) ltac:(by split)).
  by vm_compute.
Defined.
