(* ===== verification/JsonText.v ===== *)
(** * JSON texts as the browser's storage holds them: [JSON.stringify] and [JSON.parse]

    The values that [useBrowserStorage] of [lib/utils.ts] keeps are truth values, names, whole numbers,
    lists and objects.  [stringify] writes them without white space, as the language does; [parse] reads
    such texts back and fails on a text that is none of them.  The printer carries the text that
    follows, so that printing is never an append of an append. *)
From Stdlib Require Import Ascii ZArith Lia.
From S2P Require Import Prelude JsValue.
Open Scope Z_scope.

#[warnings="-register-all"] Inductive jval :=
| VBool (b : bool)
| VNum (n : N)
| VText (t : string)
| VList (l : list jval)
| VObj (fields : list (string * jval)).

(** ** Texts *)

Definition quote : ascii := ascii_of_N 34.
Definition backslash : ascii := ascii_of_N 92.
(** the letter after the backslash, and the character it stands for *)
Definition escapes : list (ascii * ascii) :=
  [(quote, quote); (backslash, backslash); ("b", ascii_of_N 8); ("f", ascii_of_N 12); ("n", ascii_of_N 10);
   ("r", ascii_of_N 13); ("t", ascii_of_N 9)]%char.
Definition escape_letter (c : ascii) : option ascii := fst <$> find (λ e, Ascii.eqb e.2 c) escapes.
Definition unescape (c : ascii) : option ascii :=
  if Ascii.eqb c "/" then Some "/"%char else snd <$> find (λ e, Ascii.eqb e.1 c) escapes.
Definition hex_digit (n : N) : ascii := if (n <? 10)%N then ascii_of_N (48 + n) else ascii_of_N (87 + n).
Definition is_control (c : ascii) : bool := (N_of_ascii c <? 32)%N.

Definition emit_char (c : ascii) (k : string) : string :=
  match escape_letter c with
  | Some e => String backslash (String e k)
  | None =>
      if is_control c then
        String backslash (String "u" (String "0" (String "0"
          (String (hex_digit (N_of_ascii c / 16)) (String (hex_digit (N_of_ascii c mod 16)) k)))))
      else String c k
  end.
Fixpoint emit_text (t k : string) : string :=
  match t with EmptyString => k | String c t => emit_char c (emit_text t k) end.

(** a unit written with four hexadecimal digits; the strings here hold units below 256 *)
Definition hex_unit (a b c d : ascii) : option ascii :=
  match digit_value a, digit_value b, digit_value c, digit_value d with
  | Some 0, Some 0, Some x, Some y => Some (ascii_of_N (Z.to_N (x * 16 + y)))
  | _, _, _, _ => None
  end.
Definition before (c : ascii) (r : option (string * string)) : option (string * string) :=
  (λ p, (String c p.1, p.2)) <$> r.
Fixpoint read_text (s : string) : option (string * string) :=
  match s with
  | EmptyString => None
  | String c r =>
      if Ascii.eqb c quote then Some (""%string, r)
      else if Ascii.eqb c backslash then
        match r with
        | String e r =>
            if Ascii.eqb e "u" then
              match r with
              | String h1 (String h2 (String h3 (String h4 r))) =>
                  match hex_unit h1 h2 h3 h4 with Some c => before c (read_text r) | None => None end
              | _ => None
              end
            else match unescape e with Some c => before c (read_text r) | None => None end
        | EmptyString => None
        end
      else if is_control c then None else before c (read_text r)
  end.

Lemma read_emit_char c k : read_text (emit_char c k) = before c (read_text k).
Proof. destruct c as [[] [] [] [] [] [] [] []]; reflexivity. Qed.
Lemma read_emit_text t k : read_text (emit_text t (String quote k)) = Some (t, k).
Proof. induction t as [|c t IH]; [done|]. cbn [emit_text]. by rewrite read_emit_char, IH. Qed.

(** ** Values *)

Definition emit_key (name : string) (k : string) : string :=
  String quote (emit_text name (String quote (String ":" k))).
Fixpoint emit (v : jval) (k : string) : string :=
  match v with
  | VBool b => (if b then "true" else "false") +:+ k
  | VNum n => pretty n +:+ k
  | VText t => String quote (emit_text t (String quote k))
  | VList l =>
      String "[" ((fix items l := match l with
                                  | [] => String "]" k
                                  | x :: l => emit x (match l with [] => String "]" k | _ => String "," (items l) end)
                                  end) l)
  | VObj fields =>
      String "{" ((fix items l := match l with
                                  | [] => String "}" k
                                  | (name, x) :: l =>
                                      emit_key name (emit x (match l with [] => String "}" k | _ => String "," (items l) end))
                                  end) fields)
  end.
Definition stringify (v : jval) : string := emit v "".

Section Reading.
Context (value : string → option (jval * string)).
Fixpoint read_items (fuel : nat) (s : string) : option (list jval * string) :=
  match fuel with
  | O => None
  | S fuel =>
      '(v, r) ← value s;
      match r with
      | String c r =>
          if Ascii.eqb c "," then '(l, r) ← read_items fuel r; Some (v :: l, r)
          else if Ascii.eqb c "]" then Some ([v], r) else None
      | EmptyString => None
      end
  end.
Definition read_member (s : string) : option (string * jval * string) :=
  match s with
  | String c r =>
      if Ascii.eqb c quote then
        '(name, r) ← read_text r;
        match r with
        | String c r => if Ascii.eqb c ":" then '(v, r) ← value r; Some (name, v, r) else None
        | EmptyString => None
        end
      else None
  | EmptyString => None
  end.
Fixpoint read_fields (fuel : nat) (s : string) : option (list (string * jval) * string) :=
  match fuel with
  | O => None
  | S fuel =>
      '(name, v, r) ← read_member s;
      match r with
      | String c r =>
          if Ascii.eqb c "," then '(l, r) ← read_fields fuel r; Some ((name, v) :: l, r)
          else if Ascii.eqb c "}" then Some ([(name, v)], r) else None
      | EmptyString => None
      end
  end.
End Reading.

(** the rest of [s] after the letters [w] *)
Definition strip (w s : string) : option string :=
  if starts_with s w then Some (slice_from s (String.length w)) else None.
Fixpoint read (fuel : nat) (s : string) : option (jval * string) :=
  match fuel, s with
  | S fuel, String c r =>
      if Ascii.eqb c "t" then (λ r, (VBool true, r)) <$> strip "rue" r
      else if Ascii.eqb c "f" then (λ r, (VBool false, r)) <$> strip "alse" r
      else if Ascii.eqb c quote then '(t, r) ← read_text r; Some (VText t, r)
      else if Ascii.eqb c "[" then
        match r with
        | String c' r' => if Ascii.eqb c' "]" then Some (VList [], r')
                          else '(l, r) ← read_items (read fuel) fuel r; Some (VList l, r)
        | EmptyString => None
        end
      else if Ascii.eqb c "{" then
        match r with
        | String c' r' => if Ascii.eqb c' "}" then Some (VObj [], r')
                          else '(l, r) ← read_fields (read fuel) fuel r; Some (VObj l, r)
        | EmptyString => None
        end
      else if is_digit c then let '(z, _, r) := take_digits 10 s 0 0 in Some (VNum (Z.to_N z), r)
      else None
  | _, _ => None
  end.
(** every turn of the reader takes a character, so the length of the text is fuel enough *)
Definition parse (s : string) : option jval :=
  match read (String.length s) s with Some (v, EmptyString) => Some v | _ => None end.

(** ** Reading what was written *)

Fixpoint size (v : jval) : nat :=
  match v with
  | VBool _ | VNum _ | VText _ => 1
  | VList l => S (list_sum (List.map (λ x, S (size x)) l))
  | VObj fields => S (list_sum (List.map (λ p, S (size p.2)) fields))
  end.

Lemma jval_nested_ind (P : jval → Prop) :
  (∀ b, P (VBool b)) → (∀ n, P (VNum n)) → (∀ t, P (VText t)) → (∀ l, Forall P l → P (VList l)) →
  (∀ fields, Forall (λ p, P p.2) fields → P (VObj fields)) → ∀ v, P v.
Proof.
  intros Hb Hn Ht Hl Ho. fix IH 1. intros [b|n|t|l|fields]; [apply Hb|apply Hn|apply Ht|apply Hl|apply Ho].
  - induction l; constructor; [apply IH | done].
  - induction fields as [|[name v] fields IHf]; constructor; [apply IH | done].
Qed.

Definition emit_items (k : string) : list jval → string :=
  fix items l := match l with
                 | [] => String "]" k
                 | x :: l => emit x (match l with [] => String "]" k | _ => String "," (items l) end)
                 end.
Definition emit_fields (k : string) : list (string * jval) → string :=
  fix items l := match l with
                 | [] => String "}" k
                 | (name, x) :: l =>
                     emit_key name (emit x (match l with [] => String "}" k | _ => String "," (items l) end))
                 end.
Lemma emit_list l k : emit (VList l) k = String "[" (emit_items k l).
Proof. reflexivity. Qed.
Lemma emit_obj fields k : emit (VObj fields) k = String "{" (emit_fields k fields).
Proof. reflexivity. Qed.

(** the text that follows does not go on with a digit *)
Definition stops (k : string) : Prop := match k with String c _ => is_digit c = false | EmptyString => True end.
Lemma take_stop z k n : stops k → take_digits 10 k z n = (z, n, k).
Proof. destruct k as [|c k]; [done|]. destruct c as [[] [] [] [] [] [] [] []]; by intros H. Qed.
Lemma pretty_go_append x s k : pretty_N_go x s +:+ k = pretty_N_go x (s +:+ k).
Proof.
  revert s. induction (N.lt_wf_0 x) as [x _ IH]. intros s. destruct (decide (0 < x)%N) as [Hx|Hx].
  - rewrite !(pretty_N_go_step x) by done. by rewrite IH by (apply N.div_lt; lia).
  - by replace x with 0%N by lia.
Qed.
Lemma take_pretty x k : stops k → ∃ n, take_digits 10 (pretty x +:+ k) 0 0 = (Z.of_N x, n, k).
Proof.
  intros Hk. unfold pretty, pretty_N. destruct (decide (x = 0%N)) as [->|Hx].
  - exists 1%nat. change ("0" +:+ k) with (String "0" k). cbn. by apply take_stop.
  - rewrite pretty_go_append. destruct (take_pretty_go x (""%string +:+ k)) as (n & -> & _). exists n. by apply take_stop.
Qed.
Lemma pretty_head x : ∃ c r, pretty (x : N) = String c r ∧ is_digit c = true.
Proof.
  pose proof (pretty_N_digits x) as Hd. pose proof (Number_pretty x) as Hn.
  destruct (pretty x) as [|c r] eqn:E; [|exists c, r; split; [done|]; by apply andb_prop in Hd as [? _]].
  exfalso. unfold pretty, pretty_N in E. destruct (decide (x = 0%N)) as [->|Hx]; [discriminate E|].
  cbn in Hn. destruct x; [done|discriminate Hn].
Qed.
Lemma read_digit f c r : is_digit c = true →
  read (S f) (String c r) = let '(z, _, k) := take_digits 10 (String c r) 0 0 in Some (VNum (Z.to_N z), k).
Proof. intros H. by digit_cases H. Qed.

(** a value never begins with a character that closes a list or an object *)
Lemma emit_head v k : ∃ c r, emit v k = String c r ∧ Ascii.eqb c "]" = false ∧ Ascii.eqb c "}" = false.
Proof.
  destruct v as [[]|n|t|l|fields]; try (by do 2 eexists).
  cbn [emit]. destruct (pretty_head n) as (c & r & -> & Hc). exists c, (r +:+ k). split; [done|]. by digit_cases Hc.
Qed.

Lemma read_items_emit n k l m : l ≠ [] → (length l ≤ m)%nat →
  Forall (λ v, ∀ k, stops k → read n (emit v k) = Some (v, k)) l →
  read_items (read n) m (emit_items k l) = Some (l, k).
Proof.
  revert m. induction l as [|x l IH]; [done|]. intros m _ Hm [Hx Hl]%Forall_cons. destruct m as [|m]; [cbn in Hm; lia|].
  cbn [emit_items read_items]. rewrite Hx by (by destruct l). cbn.
  destruct l as [|y l]; [done|]. cbn. fold (emit_items k (y :: l)).
  by rewrite IH by (done || cbn in Hm |- *; lia).
Qed.
Lemma read_key {value} name v k r : value k = Some (v, r) → read_member value (emit_key name k) = Some (name, v, r).
Proof. intros Hv. unfold emit_key, read_member. cbn. rewrite read_emit_text. cbn. by rewrite Hv. Qed.
Lemma read_fields_emit n k l m : l ≠ [] → (length l ≤ m)%nat →
  Forall (λ p : string * jval, ∀ k, stops k → read n (emit p.2 k) = Some (p.2, k)) l →
  read_fields (read n) m (emit_fields k l) = Some (l, k).
Proof.
  revert m. induction l as [|[name x] l IH]; [done|]. intros m _ Hm [Hx Hl]%Forall_cons. destruct m as [|m]; [cbn in Hm; lia|].
  cbn [emit_fields read_fields]. cbn in Hx.
  erewrite read_key by (by apply Hx; destruct l). cbn.
  destruct l as [|[name' y] l]; [done|]. cbn. fold (emit_fields k ((name', y) :: l)).
  by rewrite IH by (done || cbn in Hm |- *; lia).
Qed.

Lemma sum_length {A} (f : A → nat) l : (length l ≤ list_sum (List.map (λ x, S (f x)) l))%nat.
Proof. unfold list_sum. induction l; cbn; lia. Qed.
Lemma sum_part {A} (f : A → nat) l x : x ∈ l → (f x < list_sum (List.map (λ x, S (f x)) l))%nat.
Proof. unfold list_sum. induction 1; cbn; lia. Qed.

Lemma read_emit v n k : (size v ≤ n)%nat → stops k → read n (emit v k) = Some (v, k).
Proof.
  revert n k. induction v as [b|x|t|l IH|fields IH] using jval_nested_ind; intros [|n] k Hn Hk; try (cbn in Hn; lia).
  - destruct b; cbn; by destruct k.
  - cbn [emit]. destruct (pretty_head x) as (c & r & E & Hc). destruct (take_pretty x k Hk) as [d Hd].
    rewrite E in Hd |- *. change (String c r +:+ k) with (String c (r +:+ k)) in Hd |- *.
    rewrite read_digit, Hd by done. by rewrite N2Z.id.
  - cbn. by rewrite read_emit_text.
  - rewrite emit_list. destruct l as [|x l]; [done|].
    pose proof (sum_length size (x :: l)) as Hl. pose proof (sum_part size (x :: l)) as Hp. unfold list_sum in *; cbn in Hl, Hp, Hn.
    assert (Forall (λ v, ∀ k, stops k → read n (emit v k) = Some (v, k)) (x :: l)) as Hf.
    { apply Forall_forall. intros v Hv k' Hk'. rewrite Forall_forall in IH. apply IH; [done| |done]. apply Hp in Hv. lia. }
    pose proof (read_items_emit n k (x :: l) n ltac:(done) ltac:(cbn; lia) Hf) as Hr. revert Hr. cbn [emit_items]. destruct (emit_head x (match l with [] => String "]" k | _ => String "," (emit_items k l) end))
      as (c & r & -> & Hc & _). intros Hr. cbn. rewrite Hc, Hr. done.
  - rewrite emit_obj. destruct fields as [|[name x] l]; [done|].
    pose proof (sum_length (λ p : string * jval, size p.2) ((name, x) :: l)) as Hl.
    pose proof (sum_part (λ p : string * jval, size p.2) ((name, x) :: l)) as Hp. unfold list_sum in *; cbn in Hl, Hp, Hn.
    assert (Forall (λ p : string * jval, ∀ k, stops k → read n (emit p.2 k) = Some (p.2, k)) ((name, x) :: l)) as Hf.
    { apply Forall_forall. intros v Hv k' Hk'. rewrite Forall_forall in IH. apply IH; [done| |done]. apply Hp in Hv. lia. }
    pose proof (read_fields_emit n k ((name, x) :: l) n ltac:(done) ltac:(cbn; lia) Hf) as Hr. cbn. cbn in Hr. by rewrite Hr.
Qed.

(** the text is at least as long as the value is large *)
Lemma emit_text_length t k : (String.length k ≤ String.length (emit_text t k))%nat.
Proof.
  induction t as [|c t IH]; [done|]. cbn [emit_text]. unfold emit_char.
  destruct (escape_letter c); [|destruct (is_control c)]; cbn [String.length]; lia.
Qed.
Lemma emit_size v k : (size v + String.length k ≤ String.length (emit v k))%nat.
Proof.
  revert k. induction v as [b|x|t|l IH|fields IH] using jval_nested_ind; intros k.
  - destruct b; cbn [emit size]; rewrite str_length_app; cbn; lia.
  - cbn [emit size]. destruct (pretty_head x) as (c & r & -> & _). rewrite str_length_app. cbn. lia.
  - cbn. pose proof (emit_text_length t (String quote k)). cbn in *. lia.
  - rewrite emit_list. cbn [size String.length]. unfold list_sum.
    induction IH as [|x l Hx _ IHl]; cbn; [lia|].
    specialize (Hx (match l with [] => String "]" k | _ => String "," (emit_items k l) end)).
    destruct l; cbn in *; lia.
  - rewrite emit_obj. cbn [size String.length]. unfold list_sum.
    induction IH as [|[name x] l Hx _ IHl]; cbn; [lia|]. cbn in Hx.
    specialize (Hx (match l with [] => String "}" k | _ => String "," (emit_fields k l) end)).
    match goal with |- context [emit_text name ?s] => pose proof (emit_text_length name s) as Ht end.
    destruct l as [|[name' y] l]; cbn in *; lia.
Qed.

(** what [stringify] writes, [parse] reads, whatever the texts in it contain *)
Lemma parse_stringify v : parse (stringify v) = Some v.
Proof.
  unfold parse, stringify. pose proof (emit_size v "") as H. cbn in H. by rewrite read_emit by (lia || done).
Qed.
Lemma stringify_truthy v : truthy (stringify v) = true.
Proof. apply truthy_nonempty. unfold stringify. by destruct (emit_head v "") as (c & r & -> & _). Qed.
