(* ===== verification/Dom.v ===== *)
(** * Pages as the user meets them

    What a component draws is a list of widgets, each with the event its handler stands for; a disabled
    button is drawn and does nothing.  [offered] says which events the drawn page lets the user cause,
    [reachable] collects the states a page comes to when only such events happen, and what the server
    or another part does.  Class names, icons, placeholders and hover texts are left out; a label of
    the code is the label of the widget, and a widget that is drawn once per row carries the row. *)
From Stdlib Require Import QArith.
From S2P Require Import Prelude.
Open Scope nat_scope.

Inductive widget (E : Type) :=
| Text (row text : string)
| Button (row label : string) (enabled : bool) (on_click : E)
| Link (row label href : string)
| Input (label value : string) (on_change : string → E)
| Select (label value : string) (options : list (string * string)) (on_change : string → E)
| Checkbox (row label : string) (checked enabled : bool) (on_change : bool → E)
(** a slider: its least and greatest value, its step, and what moving it and letting it go do *)
| Slider (row label : string) (min max step value : Q) (on_change on_commit : Q → E)
(** a dialog that is open, with what leaving it by the cross, the escape key or a click outside does *)
| Dialog (title : string) (on_leave : E).
Arguments Text {E} row text.
Arguments Button {E} row label enabled on_click.
Arguments Link {E} row label href.
Arguments Input {E} label value on_change.
Arguments Select {E} label value options on_change.
Arguments Checkbox {E} row label checked enabled on_change.
Arguments Slider {E} row label min max step value on_change on_commit.
Arguments Dialog {E} title on_leave.

Abbreviation screen E := (list (widget E)).

(** ** What the user can do *)

(** a slider stands at whole steps from its least value *)
Definition on_slider (min max step v : Q) : Prop := (v <= max)%Q ∧ ∃ k : nat, v = (min + inject_Z (Z.of_nat k) * step)%Q.

Inductive offered {E} (page : screen E) : E → Prop :=
| by_click row label e : Button row label true e ∈ page → offered page e
| by_typing label value f text : Input label value f ∈ page → offered page (f text)
| by_choice label value options f v name :
    Select label value options f ∈ page → (v, name) ∈ options → offered page (f v)
| by_tick row label checked f : Checkbox row label checked true f ∈ page → offered page (f (negb checked))
| by_sliding row label min max st value f g v : Slider row label min max st value f g ∈ page → on_slider min max st v → offered page (f v)
| by_letting_go row label min max st value f g v : Slider row label min max st value f g ∈ page → on_slider min max st v → offered page (g v)
| by_leaving title e : Dialog title e ∈ page → offered page e.

(** *** Scripts: the user named by what is drawn *)

Inductive act :=
| Click (row label : string)
| Type_ (label text : string)
| Choose (label name : string)
| Tick (row label : string)
| Slide (row label : string) (steps : nat)
| Release (row label : string) (steps : nat)
| Leave.
Definition slider_value (min max step : Q) (steps : nat) : option Q :=
  let v := (min + inject_Z (Z.of_nat steps) * step)%Q in if Qle_bool v max then Some v else None.
Definition same (a b : string) : bool := String.eqb a b.
Definition option_named (name : string) (options : list (string * string)) : option (string * string) :=
  find (λ o, same o.2 name) options.
Definition respond {E} (a : act) (w : widget E) : option E :=
  match a, w with
  | Click r l, Button r' l' true e => if same r r' && same l l' then Some e else None
  | Type_ l t, Input l' _ f => if same l l' then Some (f t) else None
  | Choose l name, Select l' _ options f =>
      if same l l' then (λ o : string * string, f o.1) <$> option_named name options else None
  | Tick r l, Checkbox r' l' c true f => if same r r' && same l l' then Some (f (negb c)) else None
  | Slide r l k, Slider r' l' lo hi st _ f _ => if same r r' && same l l' then f <$> slider_value lo hi st k else None
  | Release r l k, Slider r' l' lo hi st _ _ g => if same r r' && same l l' then g <$> slider_value lo hi st k else None
  | Leave, Dialog _ e => Some e
  | _, _ => None
  end.
Fixpoint perform {E} (a : act) (page : screen E) : option E :=
  match page with
  | [] => None
  | w :: page => match respond a w with Some e => Some e | None => perform a page end
  end.

Lemma slider_value_on lo hi st k v : slider_value lo hi st k = Some v → on_slider lo hi st v.
Proof.
  unfold slider_value. destruct (Qle_bool _ hi) eqn:E; [|done]. intros [= <-]. split; [by apply Qle_bool_iff|]. by exists k.
Qed.
Lemma respond_offered {E} a (w : widget E) page e : w ∈ page → respond a w = Some e → offered page e.
Proof.
  intros Hw. destruct a, w as [| r l [] f| |l v f|l v o f|r l c [] f|r l lo hi st v f g|t f]; cbn; try done.
  - destruct (same _ _ && same _ _); [|done]. intros [= <-]. by eapply by_click.
  - destruct (same _ _); [|done]. intros [= <-]. by eapply by_typing.
  - destruct (same _ _); [|done]. unfold option_named. destruct (find _ o) as [[w name']|] eqn:F; [|done].
    intros [= <-]. apply find_some in F as [F _]. eapply by_choice; [done|]. apply list_elem_of_In, F.
  - destruct (same _ _ && same _ _); [|done]. intros [= <-]. by eapply by_tick.
  - destruct (same _ _ && same _ _); [|done]. intros (x & Hx & ->)%fmap_Some. eapply by_sliding; [done|]. by eapply slider_value_on.
  - destruct (same _ _ && same _ _); [|done]. intros (x & Hx & ->)%fmap_Some. eapply by_letting_go; [done|]. by eapply slider_value_on.
  - intros [= <-]. by eapply by_leaving.
Qed.
Lemma perform_offered {E} a (page : screen E) e : perform a page = Some e → offered page e.
Proof.
  assert (∀ rest, (∀ w, w ∈ rest → w ∈ page) → perform a rest = Some e → offered page e) as H; [|by apply H].
  intros rest. induction rest as [|w rest IH]; [done|]. intros Hin. cbn. destruct (respond a w) eqn:F.
  - intros [= <-]. eapply respond_offered; [|done]. apply Hin. by left.
  - apply IH. intros x Hx. apply Hin. by right.
Qed.

(** ** Pages over time *)

Section Page.
Context {S E : Type} (draw : S → screen E) (step : E → S → S) (outside : S → S → Prop) (start : S → Prop).

Inductive reachable : S → Prop :=
| at_start s : start s → reachable s
| by_user s e : reachable s → offered (draw s) e → reachable (step e s)
| from_outside s s' : reachable s → outside s s' → reachable s'.

(** an invariant need only hold for the events the page lets happen *)
Lemma page_invariant (I : S → Prop) :
  (∀ s, start s → I s) → (∀ s e, I s → offered (draw s) e → I (step e s)) →
  (∀ s s', I s → outside s s' → I s') → ∀ s, reachable s → I s.
Proof. intros H1 H2 H3 s Hs. induction Hs; eauto. Qed.

Fixpoint play (acts : list act) (s : S) : option S :=
  match acts with
  | [] => Some s
  | a :: acts => e ← perform a (draw s); play acts (step e s)
  end.
Lemma play_reachable acts s s' : reachable s → play acts s = Some s' → reachable s'.
Proof.
  revert s. induction acts as [|a acts IH]; intros s Hs; cbn; [by intros [= <-]|].
  destruct (perform a (draw s)) as [e|] eqn:F; [|done]. apply IH. eapply by_user; [done|]. by eapply perform_offered.
Qed.
End Page.
Arguments reachable {S E} draw step outside start _.
Arguments play {S E} draw step acts s.

(** ** Case analysis of what is drawn *)

(** the rows of a list *)
Definition rows {A E} (f : A → screen E) (l : list A) : screen E := concat (f <$> l).
Lemma elem_of_rows {A E} (w : widget E) (f : A → screen E) l : w ∈ rows f l ↔ ∃ x, x ∈ l ∧ w ∈ f x.
Proof.
  unfold rows. rewrite elem_of_concat. split.
  - intros (p & Hw & (x & -> & Hx)%list_elem_of_fmap). by exists x.
  - intros (x & Hx & Hw). exists (f x). split; [done|]. apply list_elem_of_fmap. by exists x.
Qed.
(** the rows of a list that also look at their place *)
Definition irows {A E} (f : nat → A → screen E) (l : list A) : screen E := concat (imap f l).
Lemma elem_of_irows {A E} (w : widget E) (f : nat → A → screen E) l :
  w ∈ irows f l ↔ ∃ i x, l !! i = Some x ∧ w ∈ f i x.
Proof.
  unfold irows. rewrite elem_of_concat. split.
  - intros (p & Hw & Hp). apply list_elem_of_lookup in Hp as [i Hi]. rewrite list_lookup_imap in Hi.
    destruct (l !! i) as [x|] eqn:Hx; [|done]. injection Hi as <-. by exists i, x.
  - intros (i & x & Hx & Hw). exists (f i x). split; [done|]. apply list_elem_of_lookup. exists i.
    by rewrite list_lookup_imap, Hx.
Qed.
(** splits a hypothesis that a widget is drawn into the places where it may be, and drops the impossible ones *)
Ltac drawn H :=
  repeat lazymatch type of H with
  | _ ∈ [] => by apply elem_of_nil in H
  | _ ∈ _ :: _ => apply elem_of_cons in H as [H|H]; [try discriminate H | drawn H]
  | _ ∈ _ ++ _ => apply elem_of_app in H as [H|H]; drawn H
  | _ ∈ when _ _ => let C := fresh "C" in apply elem_of_when in H as [C H]; drawn H
  | _ ∈ rows _ _ => let x := fresh "x" in let Hx := fresh "Hx" in apply elem_of_rows in H as (x & Hx & H); drawn H
  | _ ∈ irows _ _ => let i := fresh "i" in let x := fresh "x" in let Hx := fresh "Hx" in
                     apply elem_of_irows in H as (i & x & Hx & H); drawn H
  | _ ∈ (if ?b then _ else _) => let C := fresh "C" in destruct b eqn:C; drawn H
  | _ ∈ (match ?b with _ => _ end) => let C := fresh "C" in destruct b eqn:C; drawn H
  | _ = _ => fail
  end.
(** the ways an event can be offered; [unfold_page] opens the definitions of the page *)
Tactic Notation "offered_cases" hyp(H) "by" tactic3(unfold_page) :=
  destruct H as [ ?row ?label ?e H | ?label ?value ?f ?text H | ?label ?value ?options ?f ?v ?name H ?Hv | ?row ?label ?checked ?f H
             | ?row ?label ?min ?max ?st ?value ?f ?g ?v H ?Hv | ?row ?label ?min ?max ?st ?value ?f ?g ?v H ?Hv | ?title ?e H ];
  unfold_page; drawn H;
  try (match type of H with Slider _ _ _ _ _ _ _ _ = _ => injection H; clear H; intros end); simplify_eq; cbn; try done.

(** ** What the parts of a page offer *)

Lemma offered_mono {E} (p q : screen E) e : (∀ w, w ∈ p → w ∈ q) → offered p e → offered q e.
Proof.
  intros Hpq [r l e' H|l v f t H|l v o f u n H Hu|r l c f H|r l lo hi st v f g x H Hx|r l lo hi st v f g x H Hx|t e' H]; apply Hpq in H;
    [by eapply by_click|by eapply by_typing|by eapply by_choice|by eapply by_tick|by eapply by_sliding|by eapply by_letting_go|by eapply by_leaving].
Qed.
Lemma offered_part {E} (p : screen E) e : offered p e ↔ ∃ w, w ∈ p ∧ offered [w] e.
Proof.
  split.
  - intros [r l e' H|l v f t H|l v o f u n H Hu|r l c f H|r l lo hi st v f g x H Hx|r l lo hi st v f g x H Hx|t e' H];
      (eexists; split; [exact H|]);
      [eapply by_click|eapply by_typing|eapply by_choice|eapply by_tick|eapply by_sliding|eapply by_letting_go|eapply by_leaving];
      try done; left.
  - intros (w & Hw & H). eapply offered_mono; [|exact H]. by intros x ->%list_elem_of_singleton.
Qed.
Lemma offered_app {E} (p q : screen E) e : offered (p ++ q) e ↔ offered p e ∨ offered q e.
Proof. rewrite !(offered_part _ e). setoid_rewrite elem_of_app. naive_solver. Qed.
Lemma offered_rows {A E} (f : A → screen E) l e : offered (rows f l) e ↔ ∃ x, x ∈ l ∧ offered (f x) e.
Proof. rewrite offered_part. setoid_rewrite offered_part at 2. setoid_rewrite elem_of_rows. naive_solver. Qed.
Lemma offered_when {E} b (p : screen E) e : offered (when b p) e ↔ b = true ∧ offered p e.
Proof. rewrite offered_part. setoid_rewrite (offered_part p). setoid_rewrite elem_of_when. naive_solver. Qed.
