(* ===== verification/TableLib.v ===== *)
(** * The interface of the table library

    The tables are [@tanstack/react-table]'s: a page gives it rows and columns and keeps its state.
    [TableLib] is what the library does with a sorting, [PageLib] what it does with pages and with the
    rows that are selected; their laws state the documented behaviour that the pages rely on. *)
From Stdlib Require Import Lia.
From S2P Require Import Prelude.

(** ** Sorting: a column and whether it is descending *)

Abbreviation SortingState := (list (string * bool)).
(** rows in the order of a sorting ([getSortedRowModel]), the direction a column is sorted in
    ([getIsSorted]: descending or not), and the sorting after [toggleSorting] *)
Class TableLib (R : Type) := {
  getSortedRowModel : SortingState → list R → list R;
  getIsSorted : string → SortingState → option bool;
  toggleSorting : string → bool → SortingState → SortingState }.
Class TableLibLaws {R} (T : TableLib R) : Prop := {
  sorted_perm sorting rows : getSortedRowModel sorting rows ≡ₚ rows;
  toggled id desc sorting x : x ∈ toggleSorting id desc sorting → x = (id, desc) ∨ x ∈ sorting }.

(** ** Pages and selections

    A row that is not given an identifier is known by its position in the data. *)
Record PaginationState := { pageIndex : nat; pageSize : nat }.
Class PageLib := {
  (** the rows of a page, and the number of pages *)
  getPaginationRows : ∀ {R : Type}, PaginationState → list R → list R;
  getPageCount : ∀ {R : Type}, PaginationState → list R → nat;
  (** another number of rows per page, another page *)
  setPageSize : nat → PaginationState → PaginationState;
  setPageIndex : nat → PaginationState → PaginationState;
  (** what becomes of the page when the rows change: the data, a filter or the order *)
  autoResetPageIndex : PaginationState → PaginationState;
  (** one row, or the rows of a page, selected or not *)
  toggleSelected : nat → bool → list nat → list nat;
  toggleAllPageRowsSelected : list nat → bool → list nat → list nat }.
Class PageLibLaws (P : PageLib) : Prop := {
  page_rows R p (rows : list R) : getPaginationRows p rows = take (pageSize p) (drop (pageIndex p * pageSize p) rows);
  page_count R p (rows : list R) : (0 < pageSize p)%nat →
    (length rows ≤ getPageCount p rows * pageSize p)%nat ∧ (getPageCount p rows * pageSize p < length rows + pageSize p)%nat;
  size_set n p : pageSize (setPageSize n p) = n;
  index_set n p : setPageIndex n p = {| pageIndex := n; pageSize := pageSize p |};
  index_reset p : autoResetPageIndex p = {| pageIndex := 0; pageSize := pageSize p |};
  row_toggled i b sel j : j ∈ toggleSelected i b sel ↔ if b : bool then j = i ∨ j ∈ sel else j ≠ i ∧ j ∈ sel;
  page_toggled page b sel j :
    j ∈ toggleAllPageRowsSelected page b sel ↔ if b : bool then j ∈ page ∨ j ∈ sel else j ∉ page ∧ j ∈ sel }.

(** a library that does so; only examples use it *)
Definition toggle_row (i : nat) (b : bool) (sel : list nat) : list nat :=
  if b then (if bool_decide (i ∈ sel) then sel else sel ++ [i]) else List.filter (λ j, negb (Nat.eqb j i)) sel.
Definition reference_pages : PageLib := {|
  getPaginationRows := λ R p rows, take (pageSize p) (drop (pageIndex p * pageSize p) rows);
  getPageCount := λ R p rows, ((length rows + pageSize p - 1) / pageSize p)%nat;
  setPageSize := λ n p, {| pageIndex := (pageIndex p * pageSize p) / n; pageSize := n |};
  setPageIndex := λ n p, {| pageIndex := n; pageSize := pageSize p |};
  autoResetPageIndex := λ p, {| pageIndex := 0; pageSize := pageSize p |};
  toggleSelected := toggle_row;
  toggleAllPageRowsSelected := λ page b sel, foldl (λ sel i, toggle_row i b sel) sel page |}.
Lemma elem_of_toggled i b sel j : j ∈ toggle_row i b sel ↔ if b then j = i ∨ j ∈ sel else j ≠ i ∧ j ∈ sel.
Proof.
  unfold toggle_row. destruct b.
  - case_bool_decide; [naive_solver|]. rewrite elem_of_app, list_elem_of_singleton. tauto.
  - rewrite elem_of_filter_bool, negb_true_iff, Nat.eqb_neq. tauto.
Qed.
Lemma reference_pages_laws : PageLibLaws reference_pages.
Proof.
  split; cbn; try done.
  - intros R p rows Hp. pose proof (Nat.div_mod (length rows + pageSize p - 1) (pageSize p) ltac:(lia)).
    pose proof (Nat.mod_upper_bound (length rows + pageSize p - 1) (pageSize p) ltac:(lia)). lia.
  - apply elem_of_toggled.
  - intros page b sel j. revert sel. induction page as [|i page IH]; intros sel; cbn.
    + destruct b; set_solver.
    + rewrite IH. destruct b; rewrite elem_of_toggled; set_solver.
Qed.
