(* ===== verification/QuickLinksUi.v ===== *)
(** * The card of quick links as the user meets it: [components/quick-links.tsx]

    The groups, their cards and both dialogs with every control, over the operations of [QuickLinks].
    The dialogs are modal: while one is open, the page behind it cannot be reached. *)
From Stdlib Require Import Lia.
From S2P Require Import Prelude JsValue Types QuickLinks Dom.

(** ** State and handlers *)

Record state := {
  links : list QuickLink;
  status : string → option string;      (* [systemsById[id]?.status] *)
  isOpen : bool;
  groups_open : jsmap bool;             (* kept in the browser; a group is open at first *)
  editingLink : option QuickLink;
  edit : edit_form;
  addOpen : bool;
  add : edit_form;
  drawn_ids : nat }.                    (* identifiers drawn so far *)

Inductive event :=
| Toggle | ToggleGroup (category : string)
| AddOpen (open : bool) | Add (f : edit_form) | AddNew
| Edit (link : QuickLink) | Editing (f : edit_form) | SaveEdit | StopEdit
| Remove (id : string) | Move (id : string) (dir : direction).

Definition no_form : edit_form := {| editName := ""; editLocalUrl := ""; editDomainUrl := ""; editCategory := "" |}.
Definition group_open (category : string) (s : state) : bool := default true (jget category (groups_open s)).
(** [saveQuickLinks] sets the store before anything else *)
Definition save (l : option (list QuickLink)) (s : state) : state := {|
  links := default (links s) l; status := status s; isOpen := isOpen s; groups_open := groups_open s;
  editingLink := editingLink s; edit := edit s; addOpen := addOpen s; add := add s; drawn_ids := drawn_ids s |}.
Definition with_edit (e : option QuickLink) (f : edit_form) (s : state) : state := {|
  links := links s; status := status s; isOpen := isOpen s; groups_open := groups_open s;
  editingLink := e; edit := f; addOpen := addOpen s; add := add s; drawn_ids := drawn_ids s |}.
Definition with_add (b : bool) (f : edit_form) (n : nat) (s : state) : state := {|
  links := links s; status := status s; isOpen := isOpen s; groups_open := groups_open s;
  editingLink := editingLink s; edit := edit s; addOpen := b; add := f; drawn_ids := n |}.
Definition with_open (b : bool) (g : jsmap bool) (s : state) : state := {|
  links := links s; status := status s; isOpen := b; groups_open := g;
  editingLink := editingLink s; edit := edit s; addOpen := addOpen s; add := add s; drawn_ids := drawn_ids s |}.

Section Page.
Context (randomUUID : nat → string).

Definition step (e : event) (s : state) : state :=
  match e with
  | Toggle => with_open (negb (isOpen s)) (groups_open s) s
  | ToggleGroup c => with_open (isOpen s) (jset c (negb (group_open c s)) (groups_open s)) s
  | AddOpen b => with_add b (add s) (drawn_ids s) s
  | Add f => with_add (addOpen s) f (drawn_ids s) s
  | AddNew =>
      match addNewLink (randomUUID (drawn_ids s)) (editName (add s)) (editLocalUrl (add s)) (editDomainUrl (add s))
              (editCategory (add s)) (links s) with
      | Some l => with_add false no_form (S (drawn_ids s)) (save (Some l) s)
      | None => s
      end
  | Edit link => with_edit (Some link) (openEditDialog link) s
  | Editing f => with_edit (editingLink s) f s
  | SaveEdit =>
      match saveEdit (editingLink s) (edit s) (links s) with
      | Some l => with_edit None (edit s) (save (Some l) s)
      | None => s
      end
  | StopEdit => with_edit None (edit s) s
  | Remove id => save (Some (removeLink id (links s))) s
  | Move id dir => save (moveLink id dir (links s)) s
  end.

(** ** What is drawn *)

(** [QuickLinkCard] *)
Definition card (link : QuickLink) (status : option string) (left right : bool) : screen event :=
  let row := ql_id link in
  match link_status_color status with Some color => [Text row color] | None => [] end
  ++ [Text row (ql_name link)]
  ++ when left [Button row "Move left" true (Move row Left)]
  ++ when right [Button row "Move right" true (Move row Right)]
  ++ [Button row "Edit" true (Edit link); Button row "Remove" true (Remove row)]
  ++ when (truthy (ql_localUrl link)) [Link row "Local" (ql_localUrl link)]
  ++ when (truthy (ql_domainUrl link)) [Link row "Domain" (ql_domainUrl link)]
  ++ when (negb (truthy (ql_localUrl link)) && negb (truthy (ql_domainUrl link))) [Text row "No URLs configured"].
(** [CategoryGroup] *)
Definition group (s : state) (entry : string * list QuickLink) : screen event :=
  let '(category, ls) := entry in
  Button category category true (ToggleGroup category)
  :: when (group_open category s)
       (irows (λ i link, card link (status s (ql_id link)) (arrows i ls).1 (arrows i ls).2) ls).

(** the fields of both dialogs *)
Definition set_name (f : edit_form) (t : string) : edit_form :=
  {| editName := t; editLocalUrl := editLocalUrl f; editDomainUrl := editDomainUrl f; editCategory := editCategory f |}.
Definition set_category (f : edit_form) (t : string) : edit_form :=
  {| editName := editName f; editLocalUrl := editLocalUrl f; editDomainUrl := editDomainUrl f; editCategory := t |}.
Definition set_local (f : edit_form) (t : string) : edit_form :=
  {| editName := editName f; editLocalUrl := t; editDomainUrl := editDomainUrl f; editCategory := editCategory f |}.
Definition set_domain (f : edit_form) (t : string) : edit_form :=
  {| editName := editName f; editLocalUrl := editLocalUrl f; editDomainUrl := t; editCategory := editCategory f |}.
Definition category_field (categories : list string) (f : edit_form) (put : edit_form → event) : screen event :=
  Input "Category" (editCategory f) (λ t, put (set_category f t))
  :: when (0 <? length categories)%nat
       [Select "Category" (editCategory f) ((λ c, (c, c)) <$> categories) (λ c, put (set_category f c))].
Definition add_dialog (s : state) : screen event :=
  let f := add s in
  [Dialog "Add Quick Link" (AddOpen false); Input "Name" (editName f) (λ t, Add (set_name f t))]
  ++ category_field (existingCategories (ql_category <$> links s)) f Add
  ++ [Input "Local URL" (editLocalUrl f) (λ t, Add (set_local f t));
      Input "Domain URL" (editDomainUrl f) (λ t, Add (set_domain f t));
      Button "" "Cancel" true (AddOpen false);
      Button "" "Add" (truthy (str_trim (editName f))) AddNew].
Definition edit_dialog (s : state) : screen event :=
  let f := edit s in
  [Dialog "Edit Quick Link" StopEdit; Input "Name" (editName f) (λ t, Editing (set_name f t))]
  ++ category_field (existingCategories (ql_category <$> links s)) f Editing
  ++ [Input "Local URL" (editLocalUrl f) (λ t, Editing (set_local f t));
      Input "Domain URL" (editDomainUrl f) (λ t, Editing (set_domain f t));
      Button "" "Cancel" true StopEdit;
      Button "" "Save" true SaveEdit].
Definition page (s : state) : screen event :=
  [Button "" "Quick Links" true Toggle; Button "" "Add quick link" true (AddOpen true)]
  ++ when (isOpen s)
       (if (0 <? length (links s))%nat then rows (group s) (grouped (links s))
        else [Text "" "No quick links yet. Click + to add one."]).
Definition draw (s : state) : screen event :=
  if addOpen s then add_dialog s
  else match editingLink s with Some _ => edit_dialog s | None => page s end.

(** ** What happens elsewhere: the stores change *)

Definition ids (s : state) : list string := ql_id <$> links s.
(** lists whose identifiers are distinct, none of them one that is still to be drawn *)
Definition fresh_for (n : nat) (l : list QuickLink) : Prop :=
  NoDup (ql_id <$> l) ∧ ∀ k, (n ≤ k)%nat → randomUUID k ∉ ql_id <$> l.
Definition outside (s s' : state) : Prop :=
  ∃ l st, fresh_for (drawn_ids s) l ∧
    s' = {| links := l; status := st; isOpen := isOpen s; groups_open := groups_open s; editingLink := editingLink s;
            edit := edit s; addOpen := addOpen s; add := add s; drawn_ids := drawn_ids s |}.
Definition start (s : state) : Prop :=
  fresh_for (drawn_ids s) (links s) ∧ editingLink s = None ∧ addOpen s = false ∧ add s = no_form.

(** ** Theorems *)

Context `{!Inj (=) (=) randomUUID}.

Lemma fresh_sub n l l' : fresh_for n l → NoDup (ql_id <$> l') → (ql_id <$> l') ⊆ (ql_id <$> l) → fresh_for n l'.
Proof. intros [_ Hf] Hn Hs. split; [done|]. intros k Hk Hin. by apply (Hf k Hk), Hs. Qed.
Lemma fresh_perm n l l' : fresh_for n l → l' ≡ₚ l → fresh_for n l'.
Proof. intros [Hn Hf] Hp. split; [by rewrite Hp|]. intros k Hk. rewrite Hp. by apply Hf. Qed.
Lemma fresh_add n l x : fresh_for n l → ql_id x = randomUUID n → fresh_for (S n) (l ++ [x]).
Proof.
  intros [Hn Hf] Hx. unfold fresh_for. rewrite fmap_app. split.
  - apply NoDup_app. split; [done|]. split; [|apply NoDup_singleton].
    intros i Hi Hi'. apply list_elem_of_singleton in Hi' as ->. rewrite Hx in Hi. by apply (Hf n).
  - intros k Hk [Hin|Hin]%elem_of_app; [apply (Hf k); [lia|done]|].
    apply list_elem_of_singleton in Hin. rewrite Hx in Hin. apply (inj randomUUID) in Hin. lia.
Qed.

Lemma addNewLink_spec uuid n lo d c l :
  match addNewLink uuid n lo d c l with
  | Some l' => truthy (str_trim n) = true ∧
      l' = l ++ [{| ql_id := uuid; ql_name := str_trim n; ql_localUrl := lo; ql_domainUrl := d; ql_category := Some c |}]
  | None => truthy (str_trim n) = false
  end.
Proof. unfold addNewLink. by destruct (truthy (str_trim n)). Qed.
Lemma saveEdit_ids e f l l' : saveEdit e f l = Some l' → ql_id <$> l' = ql_id <$> l.
Proof.
  unfold saveEdit. destruct e as [e|]; [|done]. intros [= <-]. rewrite <-list_fmap_compose.
  apply list_fmap_ext. intros i x _. cbn. by destruct (String.eqb _ _).
Qed.

Lemma splice_in_perm {A} i (x : A) l : splice_in i x l ≡ₚ x :: l.
Proof. unfold splice_in. rewrite <-Permutation_middle. by rewrite take_drop. Qed.
Lemma splice_out_perm {A} i (x : A) l : l !! i = Some x → x :: splice_out i l ≡ₚ l.
Proof. intros Hx. unfold splice_out. rewrite Permutation_middle. by rewrite take_drop_middle. Qed.
Lemma moveLink_perm id dir l l' : moveLink id dir l = Some l' → l' ≡ₚ l.
Proof.
  unfold moveLink. destruct (index_by_id id l) as [i|]; [|done]. destruct (l !! i) as [x|] eqn:Hx; [|done].
  destruct (match dir with Left => _ | Right => _ end); [|done]. intros [= <-].
  rewrite splice_in_perm. by apply splice_out_perm.
Qed.
(** a link with a neighbour of its group on that side can be moved *)
Lemma move_possible dir A x B : (ql_id x ∉ ql_id <$> A) →
  List.filter (in_category (category_of x)) (match dir with Left => A | Right => B end) ≠ [] →
  ∃ l', moveLink (ql_id x) dir (A ++ x :: B) = Some l'.
Proof.
  intros Hx Hn. unfold moveLink.
  assert (index_by_id (ql_id x) (A ++ x :: B) = Some (length A)) as ->.
  { revert Hx. clear Hn. induction A as [|a A IH]; cbn; [by rewrite String.eqb_refl|].
    intros [Ha HA]%not_elem_of_cons. destruct (String.eqb_spec (ql_id a) (ql_id x)); [congruence|]. by rewrite IH. }
  rewrite list_lookup_middle by done. cbv zeta. destruct dir.
  - pose proof (search_down_spec (A ++ x :: B) (category_of x) (length A) ltac:(rewrite length_app; lia)) as Hs.
    rewrite take_app_length in Hs. destruct (search_down _ _ _); [by eexists | done].
  - pose proof (search_up_spec (A ++ x :: B) (category_of x) (S (length A)) (length (A ++ x :: B) - S (length A)) ltac:(lia)) as Hs.
    rewrite (drop_app_ge A) in Hs by lia. replace (S (length A) - length A)%nat with 1%nat in Hs by lia.
    destruct (search_up _ _ _ _); [by eexists | done].
Qed.

(** *** What a drawn control promises *)

Definition nothing_open (s : state) : Prop := addOpen s = false ∧ editingLink s = None.
Definition promised (s : state) (e : event) : Prop :=
  match e with
  | Toggle | ToggleGroup _ | AddOpen true => nothing_open s
  | AddOpen false | Add _ => addOpen s = true
  | AddNew => addOpen s = true ∧ ∃ l, addNewLink (randomUUID (drawn_ids s)) (editName (add s)) (editLocalUrl (add s))
                                        (editDomainUrl (add s)) (editCategory (add s)) (links s) = Some l
  | Editing _ | StopEdit | SaveEdit => addOpen s = false ∧ is_Some (editingLink s)
  | Edit link => nothing_open s ∧ link ∈ links s
  | Remove id => nothing_open s ∧ id ∈ ids s
  | Move id dir => nothing_open s ∧ ∃ l, moveLink id dir (links s) = Some l
  end.

(** a link of a group with a neighbour there can be moved *)
Lemma arrow_moves s category ls i x dir : NoDup (ids s) → (category, ls) ∈ grouped (links s) → ls !! i = Some x →
  (match dir with Left => (arrows i ls).1 | Right => (arrows i ls).2 end) = true →
  ∃ l, moveLink (ql_id x) dir (links s) = Some l.
Proof.
  intros Hn Hg Hi Ha. apply (elem_jget _ _ _ (grouped_wf _)) in Hg. rewrite grouped_get in Hg.
  assert (ls = List.filter (in_category category) (links s)) as E
    by (destruct (List.filter (in_category category) (links s)); by inversion Hg).
  assert (x ∈ links s ∧ in_category category x = true) as [Hx Hc].
  { apply list_elem_of_lookup_2 in Hi. rewrite E, list_elem_of_In, filter_In in Hi. by rewrite list_elem_of_In. }
  apply list_elem_of_split in Hx as (A & B & HAB). rewrite HAB.
  unfold ids in Hn. rewrite HAB, fmap_app, fmap_cons in Hn. apply NoDup_app in Hn as (_ & Hd & HB).
  assert (ql_id x ∉ ql_id <$> A) as HA by (intros H; by apply (Hd _ H); left).
  apply NoDup_cons in HB as [HB _].
  apply String.eqb_eq in Hc. subst category. apply move_possible; [done|].
  rewrite HAB, List.filter_app in E. cbn in E. unfold in_category in E at 2. rewrite String.eqb_refl in E.
  set (FA := List.filter (in_category (category_of x)) A) in *. set (FB := List.filter (in_category (category_of x)) B) in *.
  assert (i = length FA) as Hlen.
  { assert (∀ F l, ql_id x ∉ ql_id <$> l → x ∉ List.filter F l) as Hnot.
    { intros F l Hl H. apply Hl. rewrite list_elem_of_In, filter_In in H. destruct H as [H _].
      apply list_elem_of_fmap. exists x. split; [done|]. by apply list_elem_of_In. }
    rewrite E in Hi. destruct (decide (i = length FA)) as [|Hne]; [done|]. exfalso.
    rewrite lookup_app in Hi. destruct (FA !! i) eqn:F.
    - injection Hi as ->. apply list_elem_of_lookup_2 in F. by apply (Hnot _ _ HA) in F.
    - apply lookup_ge_None in F. destruct (i - length FA)%nat as [|k] eqn:K; [lia|]. cbn in Hi.
      apply list_elem_of_lookup_2 in Hi. by apply (Hnot _ _ HB) in Hi. }
  unfold arrows in Ha. rewrite E, length_app in Ha. cbn [fst snd length] in Ha. destruct dir; intros Hz.
  - assert (length FA = 0)%nat by (unfold FA; by rewrite Hz). apply Nat.ltb_lt in Ha. lia.
  - assert (length FB = 0)%nat by (unfold FB; by rewrite Hz). apply Nat.ltb_lt in Ha. lia.
Qed.

Definition one_open (s : state) : Prop := addOpen s = true → editingLink s = None.
Lemma group_link s category ls i x : (category, ls) ∈ grouped (links s) → ls !! i = Some x → x ∈ links s.
Proof.
  intros Hg Hi. apply (elem_jget _ _ _ (grouped_wf _)) in Hg. rewrite grouped_get in Hg.
  apply list_elem_of_lookup_2 in Hi.
  assert (ls = List.filter (in_category category) (links s)) as E
    by (destruct (List.filter (in_category category) (links s)); by inversion Hg).
  rewrite E in Hi. by apply elem_of_filter_bool in Hi as [Hi _].
Qed.
Lemma ql_offered_promised s e : NoDup (ids s) → offered (draw s) e → promised s e.
Proof.
  intros Hn H. unfold draw in H. destruct (addOpen s) eqn:Ha.
  - offered_cases H by (unfold add_dialog, category_field in H).
    split; [done|]. unfold addNewLink. match goal with H : true = truthy _ |- _ => rewrite <-H end. by eexists.
  - destruct (editingLink s) as [l|] eqn:He.
    + offered_cases H by (unfold edit_dialog, category_field in H); by rewrite He.
    + assert (nothing_open s) as Hp by done.
      offered_cases H by (unfold page, group, card in H); (split; [done|]).
      * by eapply (arrow_moves _ _ _ _ _ Left).
      * by eapply (arrow_moves _ _ _ _ _ Right).
      * by eapply group_link.
      * apply list_elem_of_fmap. eexists. split; [done|]. by eapply group_link.
Qed.

(** *** The pages that can be reached *)

Definition reached : state → Prop := reachable draw step outside start.
Definition inv (s : state) : Prop := fresh_for (drawn_ids s) (links s) ∧ one_open s.

Lemma ql_inv_user s e : inv s → offered (draw s) e → inv (step e s).
Proof.
  intros [Hf Ho] H. apply ql_offered_promised in H; [|apply Hf]. unfold inv, one_open in *.
  destruct e as [|c|[]|f| |l|f| | |id|id dir]; cbn in H |- *; unfold nothing_open in H; try (destruct_and?; split; [done|]; cbn; naive_solver).
  - destruct H as [Ha [l Hl]]. pose proof (addNewLink_spec (randomUUID (drawn_ids s)) (editName (add s)) (editLocalUrl (add s))
      (editDomainUrl (add s)) (editCategory (add s)) (links s)) as Hs. rewrite Hl in Hs |- *. destruct Hs as [_ ->]. cbn.
    split; [by apply fresh_add | done].
  - destruct H as [[Ha _] _]. split; [done|]. by rewrite Ha.
  - destruct H as [Ha [k Hl]]. rewrite Hl. cbn. split; [|by intros; congruence].
    pose proof (saveEdit_ids (Some k) (edit s) (links s) _ eq_refl) as E. destruct Hf as [Hn Hf].
    unfold fresh_for. cbn in E. rewrite E. by split.
  - split; [|tauto]. eapply fresh_sub; [done| |].
    + apply NoDup_fmap_filter, Hf.
    + intros x (l & -> & [Hl _]%elem_of_filter_bool)%list_elem_of_fmap. by apply list_elem_of_fmap_2.
  - destruct H as [[Ha He] [k Hk]]. rewrite Hk. cbn. split; [|done]. eapply fresh_perm; [done|]. by eapply moveLink_perm.
Qed.

(** *** What a control does *)

Definition unchanged (s s' : state) : Prop := links s' = links s.
(** one link with other contents *)
Definition rewritten (id : string) (f : edit_form) (l l' : QuickLink) : Prop :=
  ql_id l' = ql_id l ∧ (ql_id l ≠ id → l' = l)
  ∧ (ql_id l = id → ql_name l' = editName f ∧ ql_localUrl l' = editLocalUrl f ∧ ql_domainUrl l' = editDomainUrl f
                    ∧ ql_category l' = Some (editCategory f)).
Definition does (s : state) (e : event) (s' : state) : Prop :=
  match e with
  | Toggle => unchanged s s' ∧ isOpen s' = negb (isOpen s)
  | ToggleGroup c => unchanged s s' ∧ ∀ c', group_open c' s' = (if bool_decide (c' = c) then negb (group_open c s) else group_open c' s)
  | AddOpen b => unchanged s s' ∧ addOpen s' = b
  | Add f => unchanged s s' ∧ add s' = f
  | AddNew =>
      links s' = links s ++ [{| ql_id := randomUUID (drawn_ids s); ql_name := str_trim (editName (add s)); ql_localUrl := editLocalUrl (add s);
                                ql_domainUrl := editDomainUrl (add s); ql_category := Some (editCategory (add s)) |}]
      ∧ addOpen s' = false ∧ add s' = no_form
  | Edit link =>
      unchanged s s' ∧ editingLink s' = Some link ∧ editName (edit s') = ql_name link ∧ editLocalUrl (edit s') = ql_localUrl link
      ∧ editDomainUrl (edit s') = ql_domainUrl link ∧ editCategory (edit s') = default "" (ql_category link)
  | Editing f => unchanged s s' ∧ editingLink s' = editingLink s ∧ edit s' = f
  | SaveEdit => editingLink s' = None ∧ ∃ k, editingLink s = Some k ∧ Forall2 (rewritten (ql_id k) (edit s)) (links s) (links s')
  | StopEdit => unchanged s s' ∧ editingLink s' = None
  | Remove id => ∃ A x B, links s = A ++ x :: B ∧ ql_id x = id ∧ links s' = A ++ B
  | Move id dir =>
      ∃ A x B, links s = A ++ x :: B ∧ ql_id x = id ∧ links s' ≡ₚ links s
        ∧ swapped dir (List.filter (in_category (category_of x)) A) (List.filter (in_category (category_of x)) B) x
          = Some (List.filter (in_category (category_of x)) (links s'))
        ∧ ∀ c, c ≠ category_of x → List.filter (in_category c) (links s') = List.filter (in_category c) (links s)
  end.

Lemma remove_one id l : NoDup (ql_id <$> l) → id ∈ ql_id <$> l → ∃ A x B, l = A ++ x :: B ∧ ql_id x = id ∧ removeLink id l = A ++ B.
Proof.
  intros Hn (x & -> & (A & B & ->)%list_elem_of_split)%list_elem_of_fmap. exists A, x, B. split_and!; [done..|].
  rewrite fmap_app, fmap_cons in Hn. apply NoDup_app in Hn as (_ & Hd & [HB _]%NoDup_cons).
  assert (∀ m, ql_id x ∉ ql_id <$> m → removeLink (ql_id x) m = m) as Hk.
  { intros m Hm. unfold removeLink. induction m as [|y m IH]; [done|]. cbn. rewrite fmap_cons in Hm. apply not_elem_of_cons in Hm as [Hy Hm].
    destruct (String.eqb_spec (ql_id y) (ql_id x)); [congruence|]. cbn. by rewrite IH. }
  unfold removeLink. rewrite List.filter_app. cbn. rewrite String.eqb_refl. cbn. f_equal; apply Hk; [|done].
  intros Hx. apply (Hd _ Hx). by left.
Qed.
Lemma promised_does s e : NoDup (ids s) → promised s e → does s e (step e s).
Proof.
  intros Hn Hp. destruct e as [|c|b|f| |l|f| | |id|id dir]; cbn [does step].
  - done.
  - split; [done|]. intros c'. unfold group_open, with_open. cbn. rewrite jget_jset.
    destruct (String.eqb_spec c c') as [->|Hc]; [by rewrite bool_decide_true|by rewrite bool_decide_false by congruence].
  - done.
  - done.
  - destruct Hp as [_ [l Hl]]. pose proof (addNewLink_spec (randomUUID (drawn_ids s)) (editName (add s)) (editLocalUrl (add s))
      (editDomainUrl (add s)) (editCategory (add s)) (links s)) as Hs. rewrite Hl in Hs |- *. by destruct Hs as [_ ->].
  - split_and!; try done. unfold with_edit, openEditDialog, js_or. cbn. by destruct (ql_category l) as [[]|].
  - done.
  - destruct Hp as [_ [k Hk]]. rewrite Hk. cbn [saveEdit]. cbn. split; [done|]. exists k. split; [done|].
    apply Forall2_fmap_r, Forall_Forall2_diag, Forall_forall. intros l _. unfold rewritten.
    cbn. destruct (String.eqb_spec (ql_id l) (ql_id k)); cbn; naive_solver.
  - done.
  - apply remove_one; [done|]. apply Hp.
  - destruct Hp as [_ [l' Hl]]. pose proof (moveLink_spec id dir (links s)) as Hm. rewrite Hl in Hm |- *.
    destruct (index_by_id id (links s)); [|by destruct Hm]. destruct Hm as (A & x & B & E & _ & Hx & Hm). by exists A, x, B.
Qed.

(** *** What a control says *)

(** the label of a button, and the row it stands in *)
Definition says (row label : string) (e : event) : Prop :=
  match e with
  | Toggle => label = "Quick Links" | ToggleGroup c => label = c
  | AddOpen b => label = if b then "Add quick link" else "Cancel"
  | AddNew => label = "Add" | SaveEdit => label = "Save" | StopEdit => label = "Cancel"
  | Edit link => label = "Edit" ∧ row = ql_id link
  | Remove id => label = "Remove" ∧ row = id
  | Move id Left => label = "Move left" ∧ row = id
  | Move id Right => label = "Move right" ∧ row = id
  | Add _ | Editing _ => False
  end%string.
(** a field by its label *)
Definition form_field (label : string) (f : edit_form) : option string :=
  jget label [("Name", editName f); ("Category", editCategory f); ("Local URL", editLocalUrl f); ("Domain URL", editDomainUrl f)]%string.
(** [g] is [f] with another text in one field *)
Definition retyped (label t : string) (f g : edit_form) : Prop :=
  form_field label g = Some t ∧ ∀ l, l ≠ label → form_field l g = form_field l f.
Definition types (s : state) (label t : string) (e : event) : Prop :=
  match e with Add g => retyped label t (add s) g | Editing g => retyped label t (edit s) g | _ => False end.

Lemma typed_set f t : retyped "Name" t f (set_name f t) ∧ retyped "Category" t f (set_category f t)
  ∧ retyped "Local URL" t f (set_local f t) ∧ retyped "Domain URL" t f (set_domain f t).
Proof.
  unfold retyped, form_field. split_and!; try done; intros l Hl; cbn; repeat case_match; try done; by match goal with E : String.eqb _ _ = true |- _ => apply String.eqb_eq in E end.
Qed.
Lemma drawn_says s row label en e : Button row label en e ∈ draw s → says row label e.
Proof.
  intros H. unfold draw in H. destruct (addOpen s); [|destruct (editingLink s)].
  all: unfold add_dialog, edit_dialog, page, group, card, category_field in H; drawn H; simplify_eq; cbn; done.
Qed.
Lemma drawn_types s label v f t : Input label v f ∈ draw s → types s label t (f t).
Proof.
  intros H. unfold draw in H. destruct (addOpen s); [|destruct (editingLink s)].
  all: unfold add_dialog, edit_dialog, page, group, card, category_field in H; drawn H; simplify_eq; cbn; apply typed_set.
Qed.
Lemma drawn_chooses s label v options f t : Select label v options f ∈ draw s → label = "Category"%string ∧ types s label t (f t).
Proof.
  intros H. unfold draw in H. destruct (addOpen s); [|destruct (editingLink s)].
  all: unfold add_dialog, edit_dialog, page, group, card, category_field in H; drawn H; simplify_eq; cbn; (split; [done|apply typed_set]).
Qed.

End Page.

(** ** A visit *)

Definition uuid_of (n : nat) : string := "u" +:+ pretty n.
#[export] Instance uuid_of_inj : Inj (=) (=) uuid_of.
Proof. intros a b H. apply (inj (String.append "u")) in H. by apply (inj pretty) in H. Qed.
Definition empty_page : state := {|
  links := []; status := λ _, None; isOpen := true; groups_open := []; editingLink := None; edit := no_form;
  addOpen := false; add := no_form; drawn_ids := 0 |}.
(** two links of one group; the second is moved to the left and loses its name in the edit dialog *)
Definition visit : list act :=
  [Click "" "Add quick link"; Type_ "Name" " Jellyfin "; Click "" "Add";
   Click "" "Add quick link"; Type_ "Name" "Plex"; Type_ "Local URL" "http://10.0.0.2"; Click "" "Add";
   Click "u1" "Move left"; Click "u1" "Edit"; Type_ "Name" ""; Click "" "Save"]%string.
Definition after_visit : state := default empty_page (play draw (step uuid_of) visit empty_page).
(** the edit dialog stores a name the dialog for adding would not take *)
Example visit_result :
  (λ l, (ql_id l, ql_name l)) <$> links after_visit = [("u1", ""); ("u0", "Jellyfin")]%string.
Proof. vm_compute. reflexivity. Qed.
Lemma start_empty : start uuid_of empty_page.
Proof. split; [|done]. split; [apply NoDup_nil_2|]. intros k _ H. by apply elem_of_nil in H. Qed.
