(* ===== verification/ExternalLinksUi.v ===== *)
(** * The manager of external links as the user meets it: [ExternalLinksManager] of
    [components/routes/settings/general.tsx]

    One form serves both dialogs.  A button that shows only an icon carries the icon's name. *)
From Stdlib Require Import Lia.
From S2P Require Import Prelude JsValue Types QuickLinks Dom.

(** ** State and handlers *)

Record state := {
  links : list ExternalLink; editLink : option ExternalLink; addOpen : bool; form : external_form; drawn_ids : nat }.
Inductive event :=
| OpenAdd | AddOpen (open : bool) | OpenEdit (link : ExternalLink) | StopEdit
| Form (f : external_form) | Add | SaveEdit | Remove (id : string).

Definition ICON_OPTIONS : list (string * string) :=
  [("globe", "Globe"); ("link", "Link"); ("star", "Star"); ("home", "Home"); ("server", "Server");
   ("database", "Database"); ("cloud", "Cloud"); ("shield", "Shield"); ("monitor", "Monitor"); ("mail", "Mail");
   ("file", "File"); ("folder", "Folder"); ("camera", "Camera"); ("music", "Music"); ("video", "Video");
   ("settings", "Settings"); ("terminal", "Terminal"); ("wifi", "WiFi"); ("lock", "Lock"); ("book", "Book")]%string.

Definition with_dialogs (e : option ExternalLink) (a : bool) (f : external_form) (s : state) : state :=
  {| links := links s; editLink := e; addOpen := a; form := f; drawn_ids := drawn_ids s |}.
(** [saveExternalLinks] sets the store before anything else *)
Definition with_links (l : list ExternalLink) (n : nat) (s : state) : state :=
  {| links := l; editLink := editLink s; addOpen := addOpen s; form := form s; drawn_ids := n |}.

Section Page.
Context (randomUUID : nat → string).

Definition step (e : event) (s : state) : state :=
  match e with
  | OpenAdd => with_dialogs (editLink s) true openAdd s
  | AddOpen b => with_dialogs (editLink s) b (form s) s
  | OpenEdit link => with_dialogs (Some link) (addOpen s) (openEdit link) s
  | StopEdit => with_dialogs None (addOpen s) (form s) s
  | Form f => with_dialogs (editLink s) (addOpen s) f s
  | Add =>
      match handleAdd (randomUUID (drawn_ids s)) (form s) (links s) with
      | Some l => with_dialogs (editLink s) false (form s) (with_links l (S (drawn_ids s)) s)
      | None => s
      end
  | SaveEdit =>
      match handleSaveEdit (editLink s) (form s) (links s) with
      | Some l => with_dialogs None (addOpen s) (form s) (with_links l (drawn_ids s) s)
      | None => s
      end
  | Remove id => with_links (handleRemove id (links s)) (drawn_ids s) s
  end.

(** ** What is drawn *)

Definition set_label (f : external_form) (t : string) : external_form :=
  {| formLabel := t; formUrl := formUrl f; formIcon := formIcon f; formCategory := formCategory f |}.
Definition set_url (f : external_form) (t : string) : external_form :=
  {| formLabel := formLabel f; formUrl := t; formIcon := formIcon f; formCategory := formCategory f |}.
Definition set_icon (f : external_form) (t : string) : external_form :=
  {| formLabel := formLabel f; formUrl := formUrl f; formIcon := t; formCategory := formCategory f |}.
Definition set_category (f : external_form) (t : string) : external_form :=
  {| formLabel := formLabel f; formUrl := formUrl f; formIcon := formIcon f; formCategory := t |}.
Definition formContent (s : state) : screen event :=
  let f := form s in
  let categories := existingCategories (el_category <$> links s) in
  [Input "Label" (formLabel f) (λ t, Form (set_label f t));
   Input "URL" (formUrl f) (λ t, Form (set_url f t));
   Select "Icon" (formIcon f) ICON_OPTIONS (λ t, Form (set_icon f t));
   Input "Category" (formCategory f) (λ t, Form (set_category f t))]
  ++ when (0 <? length categories)%nat
       [Select "Category" (formCategory f) ((λ c, (c, c)) <$> categories) (λ t, Form (set_category f t))].
Definition link_row (link : ExternalLink) : screen event :=
  let row := el_id link in
  [Text row (if truthy (el_icon link) then el_icon link else "globe"); Text row (el_label link); Text row (el_url link)]
  ++ match el_category link with Some c => when (truthy c) [Text row c] | None => [] end
  ++ [Button row "Pencil" true (OpenEdit link); Button row "Trash" true (Remove row)].
Definition page (s : state) : screen event :=
  [Text "" "External Links"; Text "" "Manage your favorite external links displayed on the dashboard.";
   Button "" "Add" true OpenAdd]
  ++ (if Nat.eqb (length (links s)) 0 then [Text "" "No external links yet. Click Add to create one."]
      else rows link_row (links s)).
Definition add_dialog (s : state) : screen event :=
  [Dialog "Add External Link" (AddOpen false)] ++ formContent s
  ++ [Button "" "Cancel" true (AddOpen false); Button "" "Add" (form_complete (form s)) Add].
Definition edit_dialog (s : state) : screen event :=
  [Dialog "Edit External Link" StopEdit] ++ formContent s
  ++ [Button "" "Cancel" true StopEdit; Button "" "Save" (form_complete (form s)) SaveEdit].
Definition draw (s : state) : screen event :=
  if addOpen s then add_dialog s else match editLink s with Some _ => edit_dialog s | None => page s end.

(** ** Theorems *)

(** a link that shows something and leads somewhere, with an icon that exists *)
Definition sound_link (l : ExternalLink) : Prop :=
  truthy (el_label l) = true ∧ truthy (el_url l) = true ∧ str_trim (el_label l) = el_label l
  ∧ el_icon l ∈ "" :: icon_names.
Definition sound (l : list ExternalLink) : Prop := Forall sound_link l.
Definition outside (s s' : state) : Prop := ∃ l, sound l ∧ s' = with_links l (drawn_ids s) s.
Definition start (s : state) : Prop :=
  sound (links s) ∧ editLink s = None ∧ addOpen s = false ∧ form s = openAdd.
Definition reached : state → Prop := reachable draw step outside start.

Definition nothing_open (s : state) : Prop := addOpen s = false ∧ editLink s = None.
Definition promised (s : state) (e : event) : Prop :=
  match e with
  | OpenAdd => nothing_open s
  | AddOpen b => addOpen s = true ∧ b = false
  | Form f => (addOpen s = true ∨ is_Some (editLink s)) ∧ (formIcon f = formIcon (form s) ∨ formIcon f ∈ icon_names)
  | Add => addOpen s = true ∧ handleAdd (randomUUID (drawn_ids s)) (form s) (links s) =
             Some (links s ++ [external_of (randomUUID (drawn_ids s)) (form s)])
  | StopEdit => addOpen s = false ∧ is_Some (editLink s)
  | SaveEdit => addOpen s = false ∧ ∃ e, editLink s = Some e ∧ handleSaveEdit (Some e) (form s) (links s) =
      Some ((λ l, if String.eqb (el_id l) (el_id e) then external_of (el_id l) (form s) else l) <$> links s)
  | OpenEdit link => nothing_open s ∧ link ∈ links s
  | Remove id => nothing_open s ∧ id ∈ el_id <$> links s
  end.

Lemma icon_option v name : (v, name) ∈ ICON_OPTIONS → v ∈ icon_names.
Proof.
  intros H. change icon_names with (fst <$> ICON_OPTIONS). apply list_elem_of_fmap. by exists (v, name).
Qed.
Lemma el_offered_promised s e : offered (draw s) e → promised s e.
Proof.
  intros H. unfold draw in H. destruct (addOpen s) eqn:Ha.
  - offered_cases H by (unfold add_dialog, formContent in H); rewrite ?Ha; auto.
    + split; [done|]. unfold handleAdd. by match goal with H : true = form_complete _ |- _ => rewrite <-H end.
    + split; [by left|]. right. by eapply icon_option.
  - destruct (editLink s) as [l|] eqn:He.
    + offered_cases H by (unfold edit_dialog, formContent in H); rewrite ?Ha, ?He; eauto.
      * split; [done|]. exists l. split; [done|]. unfold handleSaveEdit.
        by match goal with H : true = form_complete _ |- _ => rewrite <-H end.
      * split; [by right|]. right. by eapply icon_option.
    + assert (nothing_open s) by done.
      offered_cases H by (unfold page, link_row in H); (split; [done|]); by apply list_elem_of_fmap_2.
Qed.

(** one dialog at most; the links and the icon of the form are sound *)
Definition inv (s : state) : Prop :=
  sound (links s) ∧ (addOpen s = true → editLink s = None) ∧ formIcon (form s) ∈ "" :: icon_names.
Lemma external_of_sound id f : form_complete f = true → formIcon f ∈ "" :: icon_names → sound_link (external_of id f).
Proof.
  unfold form_complete. intros [Hl Hu]%andb_prop Hi. split_and!; [done|done| |done]. apply str_trim_idem.
Qed.
Lemma el_inv_user s e : inv s → offered (draw s) e → inv (step e s).
Proof.
  intros (Hl & Ho & Hi) H. pose proof H as Hp. apply el_offered_promised in Hp.
  destruct e as [|b|l| |f| | |id]; cbn in Hp |- *.
  - destruct Hp as [_ He]. split_and!; [done|by intros _|by right; left].
  - destruct Hp as [Ha ->]. by split_and!.
  - destruct Hp as [[Ha _] Hin]. split_and!; [done|by rewrite Ha|]. cbn.
    unfold sound in Hl. rewrite Forall_forall in Hl. destruct (Hl _ Hin) as (_ & _ & _ & Hic).
    destruct (truthy (el_icon l)); [done|]. by right; left.
  - destruct Hp as [Ha _]. split_and!; [done|by intros _|done].
  - destruct Hp as [_ [E|Hin]]; (split_and!; [done|done|]); cbn; [by rewrite E|by right].
  - destruct Hp as [Ha E]. rewrite E. split_and!; [|done|done]. apply Forall_app. split; [done|].
    apply Forall_singleton. apply external_of_sound; [|done]. unfold handleAdd in E. by destruct (form_complete (form s)).
  - destruct Hp as (Ha & e & He & E). rewrite He. cbn. destruct (form_complete (form s)) eqn:Hc; [|done].
    split_and!; [|by intros _|done]. apply Forall_fmap.
    eapply Forall_impl; [done|]. intros l Hs. cbn. destruct (String.eqb (el_id l) (el_id e)); [|done]. by apply external_of_sound.
  - split_and!; [|done|done]. unfold handleRemove. cbn. apply Forall_forall. intros l [Hin _]%elem_of_filter_bool.
    unfold sound in Hl. rewrite Forall_forall in Hl. by apply Hl.
Qed.

(** C27: no page the user can reach stores a link without a label or an address, with
    blanks around its label or with an icon there is none of; at most one dialog is open, and every
    enabled button does what it says, so the guards of the handlers never refuse. *)
Theorem external_links_sound s : reached s →
  sound (links s) ∧ (addOpen s = true → editLink s = None) ∧ ∀ e, offered (draw s) e → promised s e.
Proof.
  intros Hs. assert (inv s) as (Hl & Ho & _).
  { revert s Hs. apply page_invariant.
    - intros s (Hl & He & Ha & Hf). split_and!; [done|by intros _|]. rewrite Hf. by right; left.
    - apply el_inv_user.
    - intros s s' (_ & Ho & Hi) (l & Hl & ->). by split_and!. }
  split_and!; [done|done|]. intros e. apply el_offered_promised.
Qed.
End Page.

(** ** A visit *)

Definition uuid_of (n : nat) : string := "u" +:+ pretty n.
Definition empty_page : state := {| links := []; editLink := None; addOpen := false; form := openAdd; drawn_ids := 0 |}.
(** blanks do not make a label: the button stays disabled, and the script that clicks it gets nowhere *)
Example blank_label : play draw (step uuid_of) [Click "" "Add"; Type_ "Label" "  "; Type_ "URL" "x"; Click "" "Add"] empty_page = None.
Proof. vm_compute. reflexivity. Qed.
Definition visit : list act :=
  [Click "" "Add"; Type_ "Label" " Docs "; Type_ "URL" "https://beszel.dev"; Choose "Icon" "Book"; Click "" "Add";
   Click "u0" "Pencil"; Type_ "Label" "Manual"; Click "" "Save"]%string.
Definition after_visit : state := default empty_page (play draw (step uuid_of) visit empty_page).
Lemma external_links_sound_witness : sound (links after_visit) ∧ (el_label <$> links after_visit) = ["Manual"]%string.
Proof.
  assert (reached uuid_of after_visit) as Hr.
  { apply (play_reachable _ _ _ _ visit empty_page); [apply at_start; split_and!; [constructor|done..]|]. vm_compute. reflexivity. }
  split; [|by vm_compute]. exact (proj1 (external_links_sound uuid_of after_visit Hr)).
Defined.
