(* ===== verification/QuietHoursUi.v ===== *)
(** * The page of quiet hours as the user meets it: [components/routes/settings/quiet-hours.tsx]

    The table, the dialog with its fields and the browser's check of them, the requests in flight and
    their answers.  The dialog's component stays mounted while the dialog is closed, and its effect
    looks only at which object is edited: a record is an object with an identity here, so that the
    model shows when the fields are filled anew and when they are not. *)
From Stdlib Require Import ZArith Lia.
From S2P Require Import Prelude JsValue JsDate Types Live QuietHours Dom.
Open Scope Z_scope.

Section Page.
Context `{LocalDates}.
(** [toLocaleTimeString] and [formatShortDate]; [None] is an invalid date *)
Context (time_of short_of : option Z → string).

(** ** State and handlers *)

Abbreviation object := (nat * QuietHoursRecord)%type.
Inductive request := CreateWindow (b : submission) | UpdateWindow (id : string) (b : submission) | DeleteWindow (id : string).
Record state := {
  data : list object; systems : list (string * string);
  dialogOpen : bool; editingRecord : option object; fields : dialog;
  requests : list request; toasts : list string; now : Z }.

Inductive event :=
| OpenAdd | OpenEdit (o : object) | DeleteRow (id : string)
| LeaveDialog | Cancel
| SetGlobal (b : bool) | SetSystem (id : string) | SetType (t : QuietHoursType)
| SetStartDateTime (t : string) | SetEndDateTime (t : string) | SetStartTime (t : string) | SetEndTime (t : string)
| Submit.

Definition with_dialog (b : bool) (e : option object) (f : dialog) (s : state) : state := {|
  data := data s; systems := systems s; dialogOpen := b; editingRecord := e; fields := f;
  requests := requests s; toasts := toasts s; now := now s |}.
Definition with_requests (l : list request) (t : list string) (s : state) : state := {|
  data := data s; systems := systems s; dialogOpen := dialogOpen s; editingRecord := editingRecord s; fields := fields s;
  requests := l; toasts := t; now := now s |}.
(** [setEditingRecord], and the effect that follows when that is another object *)
Definition setEditingRecord (e : option object) (s : state) : state :=
  with_dialog (dialogOpen s) e
    (if decide (fst <$> e = fst <$> editingRecord s) then fields s else dialog_effect (now s) (snd <$> e) (fields s)) s.
Definition setDialogOpen (b : bool) (s : state) : state := with_dialog b (editingRecord s) (fields s) s.
Definition setFields (f : dialog → dialog) (s : state) : state := with_dialog (dialogOpen s) (editingRecord s) (f (fields s)) s.
Definition openEditDialog (o : object) (s : state) : state := setDialogOpen true (setEditingRecord (Some o) s).
Definition closeDialog (s : state) : state := setEditingRecord None (setDialogOpen false s).

(** *** The browser's check of a form before [onSubmit] *)

Definition not_before (value min : string) : bool :=
  match datetime_value value, datetime_value min with Some v, Some m => m <=? v | _, _ => true end.
(** [new Date(new Date().setHours(0, 0, 0, 0))] *)
Definition midnight (now : Z) : Z := from_local (local_midnight now).
Definition start_min (s : state) : string := formatDateTimeLocal (midnight (now s)).
Definition end_min (s : state) : string :=
  if truthy (startDateTime (fields s)) then startDateTime (fields s) else formatDateTimeLocal (now s).
Definition form_valid (s : state) : bool :=
  let f := fields s in
  (isGlobal f || truthy (selectedSystem f)) &&
  match windowType f with
  | OneTime => truthy (startDateTime f) && not_before (startDateTime f) (start_min s)
               && truthy (endDateTime f) && not_before (endDateTime f) (end_min s)
  | Daily => truthy (startTime f) && truthy (endTime f)
  end.

Definition submit (s : state) : state :=
  match handleSubmit (fields s) with
  | Some b => with_requests (requests s ++ [match editingRecord s with
                                            | Some (_, r) => UpdateWindow (qh_id r) b
                                            | None => CreateWindow b end]) (toasts s) s
  | None => with_requests (requests s) (toasts s ++ ["Failed to save settings"%string]) s
  end.
Definition set_global b (d : dialog) : dialog := {| selectedSystem := selectedSystem d; isGlobal := b; windowType := windowType d;
  startDateTime := startDateTime d; endDateTime := endDateTime d; startTime := startTime d; endTime := endTime d |}.
Definition set_system v (d : dialog) : dialog := {| selectedSystem := v; isGlobal := isGlobal d; windowType := windowType d;
  startDateTime := startDateTime d; endDateTime := endDateTime d; startTime := startTime d; endTime := endTime d |}.
Definition set_type v (d : dialog) : dialog := {| selectedSystem := selectedSystem d; isGlobal := isGlobal d; windowType := v;
  startDateTime := startDateTime d; endDateTime := endDateTime d; startTime := startTime d; endTime := endTime d |}.
Definition set_datetimes a b (d : dialog) : dialog := {| selectedSystem := selectedSystem d; isGlobal := isGlobal d; windowType := windowType d;
  startDateTime := a; endDateTime := b; startTime := startTime d; endTime := endTime d |}.
Definition set_times a b (d : dialog) : dialog := {| selectedSystem := selectedSystem d; isGlobal := isGlobal d; windowType := windowType d;
  startDateTime := startDateTime d; endDateTime := endDateTime d; startTime := a; endTime := b |}.
Definition step (e : event) (s : state) : state :=
  match e with
  | OpenAdd => setDialogOpen true (setEditingRecord None s)
  | OpenEdit o => openEditDialog o s
  | DeleteRow id => with_requests (requests s ++ [DeleteWindow id]) (toasts s) s
  | LeaveDialog => setDialogOpen false s
  | Cancel => closeDialog s
  | SetGlobal b => setFields (set_global b) s
  | SetSystem v => setFields (set_system v) s
  | SetType v => setFields (set_type v) s
  | SetStartDateTime t => setFields (λ d, set_datetimes t (endDateTime d) d) s
  | SetEndDateTime t => setFields (λ d, set_datetimes (startDateTime d) t d) s
  | SetStartTime t => setFields (λ d, set_times t (endTime d) d) s
  | SetEndTime t => setFields (λ d, set_times (startTime d) t d) s
  | Submit => if form_valid s then submit s else s
  end.

(** an answer: [None] for success, otherwise the message of the error *)
Definition answered (r : request) (error : option string) (s : state) : state :=
  match r, error with
  | DeleteWindow _, None => s
  | DeleteWindow _, Some m =>
      with_requests (requests s) (toasts s ++ [if truthy m then m else "Failed to delete quiet hours."%string]) s
  | _, None => closeDialog s
  | _, Some _ => with_requests (requests s) (toasts s ++ ["Failed to save settings"%string]) s
  end.

(** ** What is drawn *)

Definition schedule (r : QuietHoursRecord) : string :=
  let text := match qh_type r with Daily => time_of | OneTime => short_of end in
  text (Some (qh_start r)) +:+ " - " +:+ text (qh_end r).
Definition state_label (w : window_state) : string :=
  match w with Active => "Active" | Past => "Past" | Inactive => "Inactive" end.
Definition type_label (t : QuietHoursType) : string := match t with Daily => "Daily" | OneTime => "One-time" end.
Definition type_value (v : string) : QuietHoursType := if String.eqb v "daily" then Daily else OneTime.
Definition window_row (now : Z) (o : object) : screen event :=
  let r := snd o in
  [Text (qh_id r) (system_label r); Text (qh_id r) (type_label (qh_type r)); Text (qh_id r) (schedule r);
   Text (qh_id r) (state_label (getWindowState now r));
   Button (qh_id r) "Edit" true (OpenEdit o); Button (qh_id r) "Delete" true (DeleteRow (qh_id r))].
Definition page (s : state) : screen event :=
  [Text "" "Quiet Hours";
   Text "" "Schedule quiet hours where notifications will not be sent, such as during maintenance periods.";
   Button "" "Add Quiet Hours" true OpenAdd]
  ++ when (0 <? length (data s))%nat
       ([Text "" "System"; Text "" "Type"; Text "" "Schedule"; Text "" "State"; Text "" "Actions"]
        ++ rows (window_row (now s)) (data s)).
Definition dialog_page (s : state) : screen event :=
  let f := fields s in
  let editing := match editingRecord s with Some _ => true | None => false end in
  [Dialog (if editing then "Edit Quiet Hours" else "Add Quiet Hours") LeaveDialog;
   Text "" "Schedule quiet hours where notifications will not be sent.";
   Button "" "Global" true (SetGlobal true); Button "" "System" true (SetGlobal false)]
  ++ when (negb (isGlobal f)) [Select "System" (selectedSystem f) (systems s) SetSystem]
  ++ [Select "Type" (match windowType f with Daily => "daily" | OneTime => "one-time" end)
        [("one-time", "One-time"); ("daily", "Daily")]%string (λ v, SetType (type_value v))]
  ++ match windowType f with
     | OneTime => [Input "Start Time" (startDateTime f) SetStartDateTime; Input "End Time" (endDateTime f) SetEndDateTime]
     | Daily => [Input "Start Time" (startTime f) SetStartTime; Input "End Time" (endTime f) SetEndTime]
     end
  ++ [Button "" "Cancel" true Cancel; Button "" (if editing then "Update" else "Create") true Submit].
Definition draw (s : state) : screen event := if dialogOpen s then dialog_page s else page s.

(** the clock, the list, the systems and the answers *)
Inductive outside (s : state) : state → Prop :=
| time_passes t : outside s {| data := data s; systems := systems s; dialogOpen := dialogOpen s; editingRecord := editingRecord s;
    fields := fields s; requests := requests s; toasts := toasts s; now := t |}
| stores_change d sy : outside s {| data := d; systems := sy; dialogOpen := dialogOpen s; editingRecord := editingRecord s;
    fields := fields s; requests := requests s; toasts := toasts s; now := now s |}
| answer before r after error : requests s = before ++ r :: after →
    outside s (answered r error (with_requests (before ++ after) (toasts s) s)).
Definition first_fields (now : Z) : dialog := dialog_effect now None (dialog_init None).
Definition start (s : state) : Prop :=
  dialogOpen s = false ∧ editingRecord s = None ∧ requests s = [] ∧ fields s = first_fields (now s).
Definition reached : state → Prop := reachable draw step outside start.

(** ** Theorems: what is sent *)

(** a window with an end, for all systems or for one *)
Definition complete (b : submission) : Prop :=
  is_Some (sub_end b) ∧ match sub_system b with Some id => truthy id = true | None => True end.
Definition request_complete (r : request) : Prop :=
  match r with CreateWindow b | UpdateWindow _ b => complete b | DeleteWindow _ => True end.

Lemma valid_complete s b : form_valid s = true → handleSubmit (fields s) = Some b → complete b.
Proof.
  unfold form_valid, handleSubmit. intros [Hs Ht]%andb_prop Hb. destruct (windowType (fields s)).
  - apply andb_prop in Ht as [[[_ _]%andb_prop He]%andb_prop _].
    destruct (parse_datetime (startDateTime (fields s))); [|done]. cbn in Hb. rewrite He in Hb.
    destruct (parse_datetime (endDateTime (fields s))); [|done]. injection Hb as <-. split; [by eexists|]. cbn.
    by destruct (isGlobal (fields s)).
  - apply andb_prop in Ht as [_ He].
    destruct (parse_local "2000-01-01" (startTime (fields s))); [|done]. cbn in Hb. rewrite He in Hb.
    destruct (parse_local "2000-01-01" (endTime (fields s))); [|done]. injection Hb as <-. split; [by eexists|]. cbn.
    by destruct (isGlobal (fields s)).
Qed.

Definition promised (s : state) (e : event) : Prop :=
  match e with
  | OpenAdd => dialogOpen s = false
  | OpenEdit o => dialogOpen s = false ∧ o ∈ data s
  | DeleteRow id => dialogOpen s = false ∧ ∃ o, o ∈ data s ∧ qh_id (snd o) = id
  | SetSystem id => dialogOpen s = true ∧ isGlobal (fields s) = false ∧ id ∈ (systems s).*1
  | SetStartDateTime _ | SetEndDateTime _ => dialogOpen s = true ∧ windowType (fields s) = OneTime
  | SetStartTime _ | SetEndTime _ => dialogOpen s = true ∧ windowType (fields s) = Daily
  | LeaveDialog | Cancel | SetGlobal _ | SetType _ | Submit => dialogOpen s = true
  end.
Lemma qh_offered_promised s e : offered (draw s) e → promised s e.
Proof.
  intros Ho. unfold draw in Ho. destruct (dialogOpen s) eqn:Hd.
  - offered_cases Ho by (unfold dialog_page in Ho).
    split; [done|]. split; [by destruct (isGlobal (fields s))|]. apply list_elem_of_fmap. by exists (v, name).
  - offered_cases Ho by (unfold page, window_row in Ho). split; [done|]. by eexists.
Qed.

Lemma requests_step e s : Forall request_complete (requests s) → Forall request_complete (requests (step e s)).
Proof.
  intros Hr. destruct e; try exact Hr; cbn.
  - apply Forall_app. split; [exact Hr|]. by apply Forall_singleton.
  - destruct (form_valid s) eqn:Hv; [|exact Hr]. unfold submit. destruct (handleSubmit (fields s)) as [b|] eqn:Hb; [|exact Hr].
    cbn. apply Forall_app. split; [exact Hr|]. apply Forall_singleton.
    pose proof (valid_complete s b Hv Hb). by destruct (editingRecord s) as [[k r]|].
Qed.

(** C3: every window the page ever asks the server to store has an end, and is for all systems or
    for one that was chosen; and on every page that can be reached the buttons of a row concern a row
    there is, a system can be chosen only where one is asked for and only among the systems there are,
    and nothing behind the dialog can be reached. *)
Theorem quiet_hours_requests s : reached s →
  Forall request_complete (requests s) ∧ ∀ e, offered (draw s) e → promised s e.
Proof.
  intros Hs. split; [|apply qh_offered_promised]. revert s Hs. apply page_invariant.
  - intros s (_ & _ & -> & _). constructor.
  - intros s e Hr _. by apply requests_step.
  - intros s s' Hr []; [done|done|]. rewrite H1 in Hr. apply Forall_app in Hr as [Hb [_ Ha]%Forall_cons].
    assert (Forall request_complete (before ++ after)) as Hba by (by apply Forall_app).
    by destruct r, error.
Qed.

(** ** Theorems: windows that cannot be edited *)

(** the beginning of today as a field writes it; [today_ok] is that the clocks have a midnight today, in a year of four digits *)
Definition today_ok (s : state) : Prop :=
  local_of (midnight (now s)) = local_midnight (now s) ∧ 1000 ≤ getFullYear (midnight (now s)) < 10000.
Lemma start_min_value s : today_ok s → datetime_value (start_min s) = Some (local_midnight (now s)).
Proof.
  intros [Hmid Hym]. unfold start_min. rewrite formatDateTimeLocal_value; [by rewrite Hmid|done|].
  revert Hmid. unfold local_of, local_midnight, ms_per_day.
  generalize (midnight (now s)), (tz_offset (midnight (now s))), (local_of (now s)). intros m o l Hmid.
  Z.to_euclidean_division_equations. lia.
Qed.
Lemma datetime_truthy t v : datetime_value t = Some v → truthy t = true.
Proof. by destruct t. Qed.
(** the texts of the fields as the browser compares them: the beginning is today or later, and the end not before it *)
Definition in_order (s : state) (v w : Z) : Prop :=
  datetime_value (startDateTime (fields s)) = Some v ∧ datetime_value (endDateTime (fields s)) = Some w
  ∧ local_midnight (now s) ≤ v ≤ w ∧ isGlobal (fields s) || truthy (selectedSystem (fields s)) = true.
(** what is asked of the server for the window that is edited, or for a new one *)
Definition asked (s : state) (b : submission) : request :=
  match editingRecord s with Some (_, r) => UpdateWindow (qh_id r) b | None => CreateWindow b end.

(** C28: a form for a one-time window is sent exactly when its texts are dates, its beginning is today or later,
    its end is not before its beginning and a scope is chosen, and then as it was filled in; otherwise nothing is asked of the server,
    and when only the order is wrong nothing happens at all.  So a window that began before today can be changed (prolonged, cut
    short, given to another system) only when its beginning is moved to today or later, or when it is made a daily one: with
    its own beginning in the field, the form is refused. *)
Theorem one_time_check s : today_ok s → windowType (fields s) = OneTime →
  (∀ v w, in_order s v w →
     step Submit s = with_requests (requests s ++ [asked s {|
       sub_system := if isGlobal (fields s) then None else Some (selectedSystem (fields s)); sub_type := OneTime;
       sub_start := from_local v; sub_end := Some (from_local w) |}]) (toasts s) s)
  ∧ ((∀ v w, ¬ in_order s v w) → requests (step Submit s) = requests s)
  ∧ ∀ r, startDateTime (fields s) = formatDateTimeLocal (qh_start r) → local_of (qh_start r) < local_midnight (now s) →
      qh_start r mod 60000 = 0 → 1000 ≤ getFullYear (qh_start r) < 10000 → step Submit s = s.
Proof.
  intros Htoday Ht. pose proof (start_min_value s Htoday) as Hmin. cbn [step]. unfold form_valid. rewrite Ht. split_and!.
  - intros v w (Hv & Hw & [H1 H2] & Hsc). pose proof (datetime_truthy _ _ Hv) as Tv. pose proof (datetime_truthy _ _ Hw) as Tw.
    unfold not_before, end_min. rewrite Hsc, Tv, Tw, Hv, Hw, Hmin. cbn [andb]. rewrite !(proj2 (Z.leb_le _ _)) by lia. cbn [andb].
    unfold submit, handleSubmit, parse_datetime. by rewrite Ht, Hv, Tw, Hw.
  - intros Hno. destruct (_ && _) eqn:E; [|done]. unfold submit, handleSubmit, parse_datetime. rewrite Ht.
    apply andb_true_iff in E as [Hsc E]. apply andb_true_iff in E as [E Hend]. apply andb_true_iff in E as [E Tw].
    apply andb_true_iff in E as [_ Hst]. rewrite Tw. unfold not_before, end_min in Hst, Hend.
    destruct (datetime_value (startDateTime (fields s))) as [v|] eqn:Hv; [|done]. cbn [fmap option_fmap option_map mbind option_bind].
    destruct (datetime_value (endDateTime (fields s))) as [w|] eqn:Hw; [|done]. destruct (Hno v w).
    rewrite Hmin in Hst. rewrite (datetime_truthy _ _ Hv), Hv in Hend. apply Z.leb_le in Hst, Hend. by split_and!.
  - intros r Hs Hlt Hm Hy. rewrite Hs. unfold not_before at 1. rewrite Hmin, formatDateTimeLocal_value by done.
    rewrite (proj2 (Z.leb_gt _ _)) by lia. by rewrite !andb_false_r.
Qed.

(** *** What the request leaves out *)

(** the fields of the body that is sent: [JSON.stringify] drops what is undefined *)
Definition sent_fields (b : submission) : list string :=
  ["user"%string] ++ when (match sub_system b with Some _ => true | None => false end) ["system"%string]
  ++ ["type"; "start"]%string ++ when (match sub_end b with Some _ => true | None => false end) ["end"%string].
(** Fact [global_not_sent]: making a window of one system a global one sends no system at all, so the server, which
    changes the fields it is sent, keeps the system. *)
Theorem global_not_sent d b : handleSubmit d = Some b → isGlobal d = true → "system"%string ∉ sent_fields b.
Proof.
  unfold handleSubmit. intros Hb Hg. rewrite Hg in Hb.
  assert (sub_system b = None) as E.
  { destruct (windowType d).
    - destruct (parse_datetime (startDateTime d)); [|done]. cbn in Hb. destruct (truthy (endDateTime d)); [|by simplify_eq/=].
      destruct (parse_datetime (endDateTime d)); by simplify_eq/=.
    - destruct (parse_local _ (startTime d)); [|done]. cbn in Hb. destruct (truthy (endTime d)); [|by simplify_eq/=].
      destruct (parse_local _ (endTime d)); by simplify_eq/=. }
  unfold sent_fields. rewrite E. destruct (sub_end b); cbn; set_solver.
Qed.
End Page.

(** ** Visits, two hours east of Greenwich *)

#[local] Existing Instance plus_two.
#[local] Existing Instance plus_two_dates.
(** noon of 2026-01-02; the window was from noon to one of the day before *)
Definition ex_page : state := {|
  data := [(0%nat, ex_one_time)]; systems := [("s1", "web")]%string; dialogOpen := false; editingRecord := None;
  fields := first_fields 1767348000000; requests := []; toasts := []; now := 1767348000000 |}.
Definition visit (acts : list act) : state :=
  default ex_page (play (draw (λ _, ""%string) (λ _, ""%string)) step acts ex_page).

(** a window that is saved can be saved again while the answer is awaited *)
Definition double_click : list act :=
  [Click "" "Add Quiet Hours"; Click "" "System"; Choose "System" "web"; Click "" "Create"; Click "" "Create"]%string.
Example double_submit : length (requests (visit double_click)) = 2%nat.
Proof. vm_compute. reflexivity. Qed.
Lemma quiet_hours_requests_witness : Forall request_complete (requests (visit double_click)).
Proof.
  apply (quiet_hours_requests (λ _, ""%string) (λ _, ""%string)).
  apply (play_reachable _ _ _ _ double_click ex_page); [by apply at_start|]. vm_compute. reflexivity.
Defined.

(** the dialog left by its cross keeps what was typed: the same record opens with it again *)
Example abandoned_edit :
  let row := qh_id ex_one_time in
  windowType (fields (visit [Click row "Edit"; Choose "Type" "Daily"; Leave; Click row "Edit"]%string)) = Daily
  ∧ qh_type ex_one_time = OneTime.
Proof. vm_compute. split; reflexivity. Qed.
(** and a dialog for adding that was cancelled, or has just saved, does not start anew *)
Example abandoned_add :
  startDateTime (fields (visit [Click "" "Add Quiet Hours"; Type_ "Start Time" "2030-01-01T10:00"; Click "" "Cancel";
                               Click "" "Add Quiet Hours"]%string)) = "2030-01-01T10:00"%string.
Proof. vm_compute. reflexivity. Qed.
(** an answer that comes late closes the dialog that is open by then *)
Example late_answer :
  let s := visit [Click "" "Add Quiet Hours"; Click "" "Create"; Leave; Click (qh_id ex_one_time) "Edit"]%string in
  match requests s with
  | [r] => dialogOpen s = true ∧ dialogOpen (answered r None (with_requests [] [] s)) = false
  | _ => False
  end.
Proof. vm_compute. split; reflexivity. Qed.

Definition ex_edit : state := visit [Click (qh_id ex_one_time) "Edit"; Type_ "End Time" "2026-01-03T10:00"]%string.
Lemma ex_today : today_ok ex_edit.
Proof. split; vm_compute; [done|]. split; congruence. Qed.
Lemma one_time_check_witness : step Submit ex_edit = ex_edit ∧ endDateTime (fields ex_edit) = "2026-01-03T10:00"%string.
Proof.
  split; [|by vm_compute]. refine (proj2 (proj2 (one_time_check ex_edit ex_today _)) ex_one_time _ _ _ _);
    try (vm_compute; reflexivity). vm_compute. split; congruence.
Defined.
(** the ways around the check: the beginning moved to today, or another type *)
Example moved_to_today :
  length (requests (visit [Click (qh_id ex_one_time) "Edit"; Type_ "Start Time" "2026-01-02T00:00"; Type_ "End Time" "2026-01-03T10:00"; Click "" "Update"]%string)) = 1%nat
  ∧ length (requests (visit [Click (qh_id ex_one_time) "Edit"; Choose "Type" "Daily"; Type_ "Start Time" "10:00"; Type_ "End Time" "11:00"; Click "" "Update"]%string)) = 1%nat.
Proof. vm_compute. split; reflexivity. Qed.
