(* ===== verification/NotificationsUi.v ===== *)
(** * The notification settings as the user meets them: [components/routes/settings/notifications.tsx]
    with [components/ui/input-tags.tsx]

    The addresses, the cards of the webhooks, saving, and the test of a webhook, with the requests in
    flight.  A key that a field answers to is drawn as a button with the name of the key. *)
From Stdlib Require Import Lia.
From S2P Require Import Prelude JsValue Utils Settings Dom.

Section Page.
(** what the validation library takes for an email address and for a URL; is the user an administrator *)
Context (is_email is_url : string → bool) (isAdmin : bool).

(** ** State and handlers *)

Record state := {
  userSettings : settings;
  lists : notifications; pending : string;
  isLoading : bool;
  saves : list notifications;              (* [saveSettings] in flight *)
  cards : list (nat * bool);               (* the cards that are mounted, with [isLoading] of each *)
  next_card : nat;
  tests : list (nat * string);             (* test requests in flight, with the card that sent them *)
  toasts : list string }.

Inductive event :=
| AddWebhook | RemoveWebhook (index : nat) | UpdateWebhook (index : nat) (value : string)
| TypeEmail (text : string) | PressEnter | PressBackspace | RemoveEmail (item : string)
| Save | Test (index : nat).

(** the cards are keyed by their index: a list that grows mounts cards at its end, one that shrinks
    loses its last cards, whichever row was removed *)
Definition mount (n next : nat) (l : list (nat * bool)) : list (nat * bool) :=
  take n l ++ ((λ k, (k, false)) <$> seq next (n - length l)).
Definition with_lists (l : notifications) (p : string) (s : state) : state := {|
  userSettings := userSettings s; lists := l; pending := p; isLoading := isLoading s; saves := saves s;
  cards := mount (length (webhooks l)) (next_card s) (cards s);
  next_card := next_card s + (length (webhooks l) - length (cards s)); tests := tests s; toasts := toasts s |}.
Definition with_saves (b : bool) (l : list notifications) (t : list string) (s : state) : state := {|
  userSettings := userSettings s; lists := lists s; pending := pending s; isLoading := b; saves := l;
  cards := cards s; next_card := next_card s; tests := tests s; toasts := t |}.
Definition with_tests (c : list (nat * bool)) (l : list (nat * string)) (t : list string) (s : state) : state := {|
  userSettings := userSettings s; lists := lists s; pending := pending s; isLoading := isLoading s; saves := saves s;
  cards := c; next_card := next_card s; tests := l; toasts := t |}.
(** [setIsLoading] of a card; one that is gone has nothing to set *)
Definition set_testing (k : nat) (b : bool) (l : list (nat * bool)) : list (nat * bool) :=
  (λ c, if Nat.eqb c.1 k then (k, b) else c) <$> l.

(** the lists of the stored settings, and the effect that runs when the store holds another object *)
Definition list_of (v : option json) : list string := match v with Some (JList l) => l | _ => [] end.
Definition stored (s : settings) : notifications :=
  {| webhooks := list_of (jget "webhooks" s); emails := list_of (jget "emails" s) |}.
Definition with_store (u : settings) (s : state) : state := {|
  userSettings := u; lists := lists s; pending := pending s; isLoading := isLoading s; saves := saves s;
  cards := cards s; next_card := next_card s; tests := tests s; toasts := toasts s |}.
Definition store_changes (u : settings) (s : state) : state := with_lists (stored u) (pending s) (with_store u s).

Definition email_tags (s : state) : tags := {| tag_values := emails (lists s); pendingDataPoint := pending s |}.
Definition put_tags (t : tags) (s : state) : state :=
  with_lists {| webhooks := webhooks (lists s); emails := tag_values t |} (pendingDataPoint t) s.

Definition step (e : event) (s : state) : state :=
  match e with
  | AddWebhook => with_lists (addWebhook (lists s)) (pending s) s
  | RemoveWebhook i => with_lists (removeWebhook i (lists s)) (pending s) s
  | UpdateWebhook i v => with_lists (updateWebhook i v (lists s)) (pending s) s
  | TypeEmail t => put_tags (tags_effect {| tag_values := emails (lists s); pendingDataPoint := t |}) s
  | PressEnter => put_tags (addPendingDataPoint (email_tags s)) s
  | PressBackspace => put_tags (backspace (email_tags s)) s
  | RemoveEmail item => put_tags (remove_tag item (email_tags s)) s
  | Save =>
      if NotificationSchema is_email is_url (lists s) then with_saves true (saves s ++ [lists s]) (toasts s) s
      else with_saves false (saves s) (toasts s ++ ["Failed to save settings"%string]) s
  | Test i =>
      match webhooks (lists s) !! i, cards s !! i with
      | Some url, Some (k, _) => with_tests (set_testing k true (cards s)) (tests s ++ [(k, url)]) (toasts s) s
      | _, _ => s
      end
  end.

(** *** Answers *)

Definition patch (n : notifications) : settings := [("emails", JList (emails n)); ("webhooks", JList (webhooks n))]%string.
Definition saved_toast (r : saved) : string :=
  match r with SettingsSaved => "Settings saved" | SaveFailed => "Failed to save settings" end.
(** the save of [n] ends; [saveSettings] itself reports its failures *)
Definition save_answered (api : settings_api) (n : notifications) (s : state) : state :=
  let '(u, r) := saveSettings api (patch n) in
  let s := match u with Some u => store_changes u s | None => s end in
  with_saves false (saves s) (toasts s ++ [saved_toast r]) s.
(** what the hub says of a test; [Thrown] is a request that fails *)
Inductive test_result := TestSent | TestError (err : option string) | Thrown.
Definition test_answered (k : nat) (r : test_result) (s : state) : state :=
  match r with
  | TestSent => with_tests (set_testing k false (cards s)) (tests s) (toasts s ++ ["Test notification sent"%string]) s
  | TestError err => with_tests (set_testing k false (cards s)) (tests s)
                       (toasts s ++ [default "Failed to send test notification"%string err]) s
  | Thrown => s
  end.

(** ** What is drawn *)

Definition email_field (s : state) : screen event :=
  rows (λ item, [Text item item; Button item "X" true (RemoveEmail item)]) (emails (lists s))
  ++ [Input "To email(s)" (pending s) TypeEmail; Button "To email(s)" "Enter" true PressEnter]
  ++ when (negb (truthy (pending s)) && (0 <? length (emails (lists s)))%nat) [Button "To email(s)" "Backspace" true PressBackspace].
Definition row_name (i : nat) : string := pretty i.
(** [ShoutrrrUrlCard] *)
Definition webhook_card (s : state) (i : nat) (url : string) : screen event :=
  let testing := match cards s !! i with Some (_, b) => b | None => false end in
  [Input ("webhook " +:+ row_name i) url (UpdateWebhook i);
   Button (row_name i) (if testing then "" else "Test URL") (negb (testing || String.eqb url "")) (Test i);
   Button (row_name i) "Delete" true (RemoveWebhook i)].
Definition draw (s : state) : screen event :=
  [Text "" "Notifications"; Text "" "Configure how you receive alert notifications."; Text "" "Email notifications"]
  ++ when isAdmin [Link "" "configure an SMTP server" "/_/#/settings/mail"]
  ++ email_field s
  ++ [Text "" "Webhook / Push notifications"; Link "" "Shoutrrr" "https://beszel.dev/guide/notifications";
      Button "" "Add URL" true AddWebhook]
  ++ irows (webhook_card s) (webhooks (lists s))
  ++ [Button "" "Save Settings" (negb (isLoading s)) Save].

Inductive outside (s : state) : state → Prop :=
| answer_save before n after api : saves s = before ++ n :: after →
    outside s (save_answered api n (with_saves (isLoading s) (before ++ after) (toasts s) s))
| answer_test before t after r : tests s = before ++ t :: after →
    outside s (test_answered (fst t) r (with_tests (cards s) (before ++ after) (toasts s) s))
| other_change u : outside s (store_changes u s).
Definition first_page (u : settings) : state := {|
  userSettings := u; lists := stored u; pending := ""; isLoading := false; saves := [];
  cards := mount (length (webhooks (stored u))) 0 []; next_card := length (webhooks (stored u)); tests := []; toasts := [] |}.
Definition start (s : state) : Prop := ∃ u, s = first_page u.
Definition reached : state → Prop := reachable draw step outside start.

(** ** Theorems *)

Definition promised (s : state) (e : event) : Prop :=
  match e with
  | RemoveWebhook i | UpdateWebhook i _ => (i < length (webhooks (lists s)))%nat
  | Test i => ∃ url k, webhooks (lists s) !! i = Some url ∧ url ≠ ""%string ∧ cards s !! i = Some (k, false)
  | RemoveEmail item => item ∈ emails (lists s)
  | Save => isLoading s = false
  | PressBackspace => emails (lists s) ≠ []
  | AddWebhook | TypeEmail _ | PressEnter => True
  end.
(** a card for every address, all of them different *)
Definition cards_ok (s : state) : Prop :=
  length (cards s) = length (webhooks (lists s)) ∧ NoDup (cards s).*1 ∧ Forall (λ c, c.1 < next_card s)%nat (cards s).
Lemma nt_offered_promised s e : cards_ok s → offered (draw s) e → promised s e.
Proof.
  intros [Hc _] H. offered_cases H by (unfold draw, email_field, webhook_card in H).
  - destruct (emails (lists s)); [|done]. by rewrite andb_false_r in C.
  - match goal with H : true = negb _ |- _ => symmetry in H; apply negb_true_iff, orb_false_iff in H as [Ht Hu] end.
    match goal with H : webhooks _ !! i = Some ?url |- _ => rename H into Hi; rename url into u end.
    assert (is_Some (cards s !! i)) as [[k b] Hk] by (apply lookup_lt_is_Some; rewrite Hc; by eapply lookup_lt_Some).
    rewrite Hk in Ht. subst b. exists u, k. split_and!; [done|by apply String.eqb_neq|done].
  - by eapply lookup_lt_Some.
  - by destruct (isLoading s).
  - by eapply lookup_lt_Some.
Qed.

(** saving is shown exactly while a save is in flight, there is one at a time, and it is of valid lists *)
Definition saving_ok (s : state) : Prop :=
  match saves s with
  | [] => isLoading s = false
  | [n] => isLoading s = true ∧ NotificationSchema is_email is_url n = true
  | _ => False
  end.
Lemma saving_user s e : saving_ok s → promised s e → saving_ok (step e s).
Proof.
  intros Hs Ho. destruct e; try exact Hs; cbn in Ho |- *.
  - unfold saving_ok in *. rewrite Ho in Hs. destruct (saves s) as [|n [|]] eqn:E; [|by destruct Hs|done].
    destruct (NotificationSchema _ _ _) eqn:Hv; cbn; rewrite ?E; [by split|done].
  - destruct Ho as (url & k & -> & _ & ->). exact Hs.
Qed.

Lemma mount_ids n next l : (mount n next l).*1 = take n l.*1 ++ seq next (n - length l).
Proof. unfold mount. by rewrite fmap_app, <-list_fmap_compose, fmap_take, list_fmap_id. Qed.
Lemma mount_ok n next l : NoDup l.*1 → Forall (λ c, c.1 < next)%nat l →
  length (mount n next l) = n ∧ NoDup (mount n next l).*1 ∧
  Forall (λ c, c.1 < next + (n - length l))%nat (mount n next l).
Proof.
  intros Hn Hl. rewrite mount_ids. split_and!.
  - unfold mount. rewrite length_app, length_fmap, length_take, length_seq. lia.
  - apply NoDup_app. split_and!.
    + rewrite <-(take_drop n) in Hn. by apply NoDup_app in Hn as [Hn _].
    + intros k Hk Hs. apply elem_of_seq in Hs. apply elem_of_take in Hk as (i & Hk & _).
      apply list_elem_of_lookup_2 in Hk. apply list_elem_of_fmap in Hk as (c & -> & Hk).
      rewrite Forall_forall in Hl. specialize (Hl _ Hk). cbn in Hl. lia.
    + apply NoDup_seq.
  - unfold mount. apply Forall_app. split.
    + apply Forall_take. eapply Forall_impl; [done|]. cbn. lia.
    + apply Forall_fmap, Forall_forall. intros k Hk%elem_of_seq. cbn. lia.
Qed.
Lemma with_lists_ok l p s : cards_ok s → cards_ok (with_lists l p s).
Proof. intros (_ & Hn & Hf). by apply mount_ok. Qed.
Lemma set_testing_ids k b l : (set_testing k b l).*1 = l.*1.
Proof.
  unfold set_testing. rewrite <-list_fmap_compose. apply list_fmap_ext. intros i [c d] _. cbn.
  by destruct (Nat.eqb_spec c k) as [->|].
Qed.
Lemma set_testing_ok k b l t s : cards_ok s → cards_ok (with_tests (set_testing k b (cards s)) l t s).
Proof.
  unfold cards_ok. cbn. rewrite set_testing_ids. intros (Hc & Hn & Hf). split_and!; [|done|].
  - unfold set_testing. by rewrite length_fmap.
  - apply Forall_fmap. eapply Forall_impl; [done|]. intros c Hlt. cbn. destruct (Nat.eqb_spec c.1 k) as [<-|]; done.
Qed.
Lemma cards_step e s : cards_ok s → cards_ok (step e s).
Proof.
  intros Hs. destruct e; cbn; unfold put_tags; try (by apply with_lists_ok).
  - by destruct (NotificationSchema _ _ _).
  - destruct (webhooks (lists s) !! index); [|done]. destruct (cards s !! index) as [[k b]|]; [|done]. by apply set_testing_ok.
Qed.
Lemma cards_outside s s' : cards_ok s → outside s s' → cards_ok s'.
Proof.
  intros Hs []; cbn.
  - unfold save_answered. destruct (saveSettings _ _) as [[u|] r]; [|exact Hs].
    apply (with_lists_ok (stored u) (pending s) (with_store u (with_saves (isLoading s) (before ++ after) (toasts s) s))). exact Hs.
  - destruct r; [| |exact Hs]; by apply set_testing_ok.
  - by apply (with_lists_ok (stored u) (pending s) (with_store u s)).
Qed.

(** C12: however the page is used, one save at most is in flight, the button says so and nothing
    else, only lists that validate are ever sent, every address has a card of its own, a webhook can be
    tested only when it has an address and its card is not waiting, and the controls of a card or a
    tag concern one there is. *)
Theorem notification_saves s : reached s →
  saving_ok s ∧ cards_ok s ∧ ∀ e, offered (draw s) e → promised s e.
Proof.
  intros Hr. assert (saving_ok s ∧ cards_ok s) as [Hs Hc]; [|split_and!; [done|done|by intros e; apply nt_offered_promised]].
  revert s Hr. apply page_invariant.
  - intros s [u ->]. split; [done|]. split_and!; [| |].
    + by apply mount_ok; constructor.
    + apply mount_ok; constructor.
    + pose proof (mount_ok (length (webhooks (stored u))) 0 [] ltac:(constructor) ltac:(constructor)) as (_ & _ & H).
      eapply Forall_impl; [exact H|]. cbn. lia.
  - intros s e [Hs Hc] Ho. apply nt_offered_promised in Ho; [|done]. split; [by apply saving_user|by apply cards_step].
  - intros s s' [Hs Hc] Ho. split; [|by eapply cards_outside]. destruct Ho; [| |exact Hs].
    + unfold saving_ok in Hs. rewrite H in Hs. destruct before as [|x before]; [|by destruct before].
      destruct after; [|done].
      unfold save_answered, saving_ok. cbn. by destruct (saveSettings _ _) as [[u|] r].
    + by destruct r.
Qed.

(** Fact [save_shows_stored]: after a save that was accepted the page shows what the server has stored, also when something
    else was typed while the answer was awaited: that is gone. *)
Theorem save_shows_stored api n s u : saveSettings api (patch n) = (Some u, SettingsSaved) →
  lists (save_answered api n s) = stored u ∧ isLoading (save_answered api n s) = false.
Proof. intros E. unfold save_answered. by rewrite E. Qed.

(** a card whose request has failed: it waits, and no request of it is in flight *)
Definition stuck (k : nat) (s : state) : Prop :=
  (k, false) ∉ cards s ∧ k ∉ (tests s).*1 ∧ (k < next_card s)%nat.
Lemma stuck_lists k l p s : stuck k s → stuck k (with_lists l p s).
Proof.
  intros (Hc & Ht & Hk). split_and!; [|done|cbn; lia]. cbn. unfold mount.
  rewrite elem_of_app. intros [H|H].
  - apply elem_of_take in H as (i & H & _). apply list_elem_of_lookup_2 in H. done.
  - apply list_elem_of_fmap in H as (j & [= ->] & Hj%elem_of_seq). lia.
Qed.
(** Fact [test_stuck]: a test request that fails leaves the card waiting for good: whatever the user does, the card is
    never ready again as long as it is there, so its address cannot be tested. *)
Theorem test_stuck s e k : cards_ok s → stuck k s → offered (draw s) e → stuck k (step e s).
Proof.
  intros Hok Hs Ho. apply nt_offered_promised in Ho; [|done].
  destruct e; cbn in Ho |- *; unfold put_tags; try (by apply stuck_lists).
  - by destruct (NotificationSchema _ _ _).
  - destruct Ho as (url & j & -> & _ & Hj). rewrite Hj. destruct Hs as (Hc & Ht & Hk).
    apply list_elem_of_lookup_2 in Hj.
    assert (k ≠ j) by (by intros ->). split_and!; [|cbn; rewrite fmap_app; set_solver|done].
    cbn. unfold set_testing. intros (c & E & Hin)%list_elem_of_fmap.
    destruct (Nat.eqb_spec c.1 j); [congruence|]. by subst c.
Qed.
End Page.

(** ** A visit *)

Definition is_address (s : string) : bool := str_includes s "@".
Definition is_web (s : string) : bool := starts_with s "http".
Definition visit (acts : list act) : state :=
  default (first_page []) (play (draw true) (step is_address is_web) acts (first_page [])).
Definition save_twice : list act :=
  [Type_ "To email(s)" "a@b.c"; Click "To email(s)" "Enter"; Click "" "Add URL"; Type_ "webhook 0" "http://x"; Click "" "Save Settings"]%string.
Lemma notification_saves_witness :
  saving_ok is_address is_web (visit save_twice) ∧ play (draw true) (step is_address is_web) [Click "" "Save Settings"]%string (visit save_twice) = None.
Proof.
  split; [|by vm_compute].
  apply (notification_saves is_address is_web true).
  apply (play_reachable _ _ _ _ save_twice (first_page [])); [apply at_start; by eexists|]. vm_compute. reflexivity.
Defined.
