(* ===== verification/ActionsUi.v ===== *)
(** * The menu of a system as the user meets it: [ActionsButton] of
    [components/systems-table/systems-table-columns.tsx]

    The menu of [SystemsTable] with the dialogs it opens, the requests it sends and their answers. *)
From Stdlib Require Import ZArith Lia.
From S2P Require Import Prelude JsDate Types SystemsTable Dom.
Open Scope Z_scope.

Section Page.
Context (isReadOnlyUser : bool).

(** ** State and handlers *)

Inductive window := EditWindow | RebootWindow | DeleteWindow.
Inductive request :=
| UpdateStatus (id : string) (status : SystemStatus) | PushAgent (id name : string)
| ApplyUpdates (id name : string) (securityOnly : bool) (count : Z) | RebootSystem (id name : string) | DeleteSystem (id : string).
Record state := {
  system : SystemRecord; window_open : option window; editOpened : bool;
  requests : list request; copied : list string; toasts : list (string * string) }.
Inductive event := Item (x : menu_item) | CloseWindow | ConfirmReboot | ConfirmDelete.

Definition with_window (w : option window) (e : bool) (s : state) : state := {|
  system := system s; window_open := w; editOpened := e; requests := requests s; copied := copied s; toasts := toasts s |}.
Definition send (r : request) (s : state) : state := {|
  system := system s; window_open := window_open s; editOpened := editOpened s; requests := requests s ++ [r];
  copied := copied s; toasts := toasts s |}.
Definition toast (title description : string) (s : state) : state := {|
  system := system s; window_open := window_open s; editOpened := editOpened s; requests := requests s;
  copied := copied s; toasts := toasts s ++ [(title, description)] |}.
Definition copy (text : string) (s : state) : state := {|
  system := system s; window_open := window_open s; editOpened := editOpened s; requests := requests s;
  copied := copied s ++ [text]; toasts := toasts s |}.

Definition perform_effect (x : menu_effect) (s : state) : state :=
  let name := sys_name (system s) in
  match x with
  | OpenEdit => with_window (Some EditWindow) true s
  | OpenReboot => with_window (Some RebootWindow) (editOpened s) s
  | OpenDelete => with_window (Some DeleteWindow) (editOpened s) s
  | Copy text => copy text s
  | SetStatus id status => send (UpdateStatus id status) s
  | SendAgentUpdate id => send (PushAgent id name) (toast "" ("Pushing agent update to " +:+ name +:+ "...") s)
  | SendApply id sec =>
      let i := sys_info (system s) in
      send (ApplyUpdates id name sec (if sec then default 0 (si_pus i) else default 0 (si_pu i))) s
  | NoEffect => s
  end.
Definition step (e : event) (s : state) : state :=
  match e with
  | Item x => perform_effect (choose (system s) x) s
  | CloseWindow => with_window None (editOpened s) s
  | ConfirmReboot =>
      with_window None (editOpened s) (send (RebootSystem (sys_id (system s)) (sys_name (system s))) s)
  | ConfirmDelete => with_window None (editOpened s) (send (DeleteSystem (sys_id (system s))) s)
  end.

(** *** Answers: what the hub says, or the message of the error *)

Inductive answer := Done | AgentAnswer (updated : bool) (message : string) | Failed (message : string).
Definition answered (r : request) (a : answer) (s : state) : state :=
  match r, a with
  | PushAgent _ _, AgentAnswer updated m => toast (if updated then "Agent updating" else "Agent up to date") m s
  | PushAgent _ _, Failed m => toast "Agent update failed" m s
  | ApplyUpdates _ name false n, Done =>
      toast "Updates started" (name +:+ " is installing " +:+ z_str n +:+ " updates in the background") s
  | ApplyUpdates _ name true n, Done =>
      toast "Security updates started" (name +:+ " is installing " +:+ z_str n +:+ " security updates in the background") s
  | ApplyUpdates _ _ _ _, Failed m => toast "Update failed" m s
  | RebootSystem _ name, Done => toast "Rebooting" (name +:+ " is restarting now") s
  | RebootSystem _ _, Failed m => toast "Reboot failed" m s
  | _, _ => s
  end.

(** ** What is drawn *)

Definition item_label (x : menu_item) : string :=
  match x with
  | Edit => "Edit" | Pause => "Pause" | Resume => "Resume" | CopyName => "Copy name" | CopyHost => "Copy host"
  | UpdateAgent => "Update agent" | ApplyAll n => "Apply all updates (" +:+ z_str n +:+ ")"
  | ApplySecurity n => "Apply security updates (" +:+ z_str n +:+ ")"
  | Reboot _ => "Reboot system" | Separator => "" | Delete => "Delete"
  end.
Definition menu_page (s : state) : screen event :=
  rows (λ x, match x with Separator => [] | _ => [Button "" (item_label x) true (Item x)] end) (menu isReadOnlyUser (system s)).
Definition reboot_dialog (s : state) : screen event :=
  [Dialog ("Reboot " +:+ sys_name (system s) +:+ "?") CloseWindow;
   Text "" (if default false (si_rb (sys_info (system s))) then "This system needs a reboot to finish applying updates."
            else "The host will restart immediately.");
   Text "" "It will show as down for a short time while it comes back up.";
   Button "" "Cancel" true CloseWindow; Button "" "Reboot" true ConfirmReboot].
Definition delete_dialog (s : state) : screen event :=
  [Dialog ("Are you sure you want to delete " +:+ sys_name (system s) +:+ "?") CloseWindow;
   Text "" ("This action cannot be undone. This will permanently delete all current records for "
            +:+ sys_name (system s) +:+ " from the database.");
   Button "" "Cancel" true CloseWindow; Button "" "Continue" true ConfirmDelete].
(** the dialog for editing is the one of [AddSystem]; here it can be left *)
Definition draw (s : state) : screen event :=
  match window_open s with
  | None => menu_page s
  | Some EditWindow => when (editOpened s) [Dialog "Edit System" CloseWindow]
  | Some RebootWindow => reboot_dialog s
  | Some DeleteWindow => delete_dialog s
  end.

(** the record of the system changes, to that of another system when the row of the table moves; requests are answered *)
Inductive outside (s : state) : state → Prop :=
| system_changes r : outside s {|
    system := r; window_open := window_open s; editOpened := editOpened s; requests := requests s; copied := copied s;
    toasts := toasts s |}
| request_answered r a : r ∈ requests s → outside s (answered r a s).
Definition start (s : state) : Prop := window_open s = None ∧ editOpened s = false ∧ requests s = [].
Definition reached : state → Prop := reachable draw step outside start.

(** ** Theorems *)

Lemma answered_requests r a s : requests (answered r a s) = requests s ∧ window_open (answered r a s) = window_open s
  ∧ system (answered r a s) = system s.
Proof. destruct r as [ | | id name [] n | | ], a; by split_and!. Qed.

(** the menu and the dialogs of a user who may only read *)
Lemma read_only_menu x s : x ∈ menu true s → x = CopyName ∨ x = CopyHost.
Proof.
  unfold menu. cbn. intros Hx. repeat (apply elem_of_cons in Hx as [-> | Hx]; [auto|]). by apply elem_of_nil in Hx.
Qed.
Lemma menu_events s e : offered (menu_page s) e → ∃ x, e = Item x ∧ x ∈ menu isReadOnlyUser (system s).
Proof.
  intros (x & Hx & H)%offered_rows. exists x.
  destruct x; offered_cases H by idtac; done.
Qed.
Definition quiet (s : state) : Prop := isReadOnlyUser = true → requests s = [] ∧ window_open s = None.
(** Fact [read_only_sends_nothing]: a user who may only read can, whatever is clicked and however the system changes
    meanwhile, send nothing to the hub and open no dialog. *)
Theorem read_only_sends_nothing s : reached s → quiet s.
Proof.
  intros Hr. revert s Hr. apply page_invariant.
  - intros s (Hw & _ & E) _. by rewrite E, Hw.
  - intros s e Hq Ho Hro. destruct (Hq Hro) as [_ Hw]. unfold draw in Ho. rewrite Hw in Ho. apply menu_events in Ho as (x & -> & Hx).
    rewrite Hro in Hx. apply read_only_menu in Hx as [->| ->]; exact (Hq Hro).
  - intros s s' Hq [r|r a _]; [done|]. destruct (answered_requests r a s) as (E1 & E2 & _). unfold quiet. by rewrite E1, E2.
Qed.

(** why a request is sent: the event, the system it is about as it is drawn, the dialog or the menu the event was offered by *)
Definition justified (s : state) (e : event) (r : request) : Prop :=
  let x := system s in
  match r with
  | RebootSystem id name => e = ConfirmReboot ∧ id = sys_id x ∧ name = sys_name x ∧ Dialog ("Reboot " +:+ sys_name x +:+ "?") CloseWindow ∈ draw s
  | DeleteSystem id => e = ConfirmDelete ∧ id = sys_id x
      ∧ Dialog ("Are you sure you want to delete " +:+ sys_name x +:+ "?") CloseWindow ∈ draw s
  | PushAgent id name => e = Item UpdateAgent ∧ id = sys_id x ∧ name = sys_name x ∧ sys_status x = Status_Up ∧ isReadOnlyUser = false
  | ApplyUpdates id name sec count =>
      e = Item (if sec then ApplySecurity count else ApplyAll count) ∧ id = sys_id x ∧ name = sys_name x
      ∧ count = default 0 (if sec then si_pus (sys_info x) else si_pu (sys_info x)) ∧ count ≠ 0
      ∧ sys_status x = Status_Up ∧ isReadOnlyUser = false
  | UpdateStatus id st => e = Item (if decide (sys_status x = Status_Paused) then Resume else Pause) ∧ id = sys_id x ∧ isReadOnlyUser = false
      ∧ st = if decide (sys_status x = Status_Paused) then Status_Pending else Status_Paused
  end.
(** the label of what causes an event *)
Definition caption (e : event) : list string :=
  match e with Item x => [item_label x] | CloseWindow => ["Cancel"] | ConfirmReboot => ["Reboot"] | ConfirmDelete => ["Continue"] end%string.

Lemma drawn_caption s row label en e : Button row label en e ∈ draw s → label ∈ caption e.
Proof.
  intros H. unfold draw, menu_page, reboot_dialog, delete_dialog in H. destruct (window_open s) as [[]|]; drawn H; simplify_eq; cbn; by left.
Qed.
(** when the items of the menu are there *)
Lemma menu_items y x : x ∈ menu false y →
  match x with
  | Pause => sys_status y ≠ Status_Paused | Resume => sys_status y = Status_Paused
  | UpdateAgent | Reboot _ => sys_status y = Status_Up
  | ApplyAll n => sys_status y = Status_Up ∧ n = default 0 (si_pu (sys_info y)) ∧ n ≠ 0
  | ApplySecurity n => sys_status y = Status_Up ∧ n = default 0 (si_pus (sys_info y)) ∧ n ≠ 0
  | _ => True
  end.
Proof.
  unfold menu. cbn [negb orb]. destruct (bool_decide (sys_status y = Status_Up)) eqn:Hup; [apply bool_decide_eq_true in Hup|]; cbn [negb orb].
  all: assert (∀ n, negb (truthy n) = false → n ≠ 0) as Hz by (by intros n Hn ->).
  all: destruct (negb (truthy (default 0 (si_pu (sys_info y))))) eqn:Ha, (negb (truthy (default 0 (si_pus (sys_info y))))) eqn:Hs; cbn [negb].
  all: destruct (decide (sys_status y = Status_Paused)); cbn [app]; intros Hx;
    repeat (apply elem_of_cons in Hx as [-> | Hx]; [by auto|]); by apply elem_of_nil in Hx.
Qed.
(** what an item of the menu sends *)
Lemma item_sends s x : x ∈ menu isReadOnlyUser (system s) →
  requests (step (Item x) s) = requests s ∨ ∃ r, requests (step (Item x) s) = requests s ++ [r] ∧ justified s (Item x) r.
Proof.
  destruct isReadOnlyUser eqn:Hro; [by intros [->| ->]%read_only_menu; left|]. intros Hx%menu_items.
  destruct x; cbn [step choose perform_effect]; try (by left); right; (eexists; split; [reflexivity|]); cbn.
  all: repeat case_decide; try done; destruct_and?; split_and!; congruence.
Qed.

(** C11: every event that is offered sends nothing, or one request, which is about the system that is drawn and is the
    one its control stands for: a reboot or a deletion comes from the dialog that names the system, an update of the agent
    or of packages from its item in the menu of a system that is up, with the number the item shows, pausing from a system that is not
    paused and resuming from one that is; and each control has the label of its event. *)
Theorem confirmed_requests s e : offered (draw s) e →
  (requests (step e s) = requests s ∨ ∃ r, requests (step e s) = requests s ++ [r] ∧ justified s e r)
  ∧ ∀ row label en, Button row label en e ∈ draw s → label ∈ caption e.
Proof.
  intros Ho. split; [|intros row label en; apply drawn_caption]. destruct (window_open s) as [[]|] eqn:Hw.
  - unfold draw in Ho. rewrite Hw in Ho. offered_cases Ho by idtac. by left.
  - assert (Dialog ("Reboot " +:+ sys_name (system s) +:+ "?") CloseWindow ∈ draw s) as Hd by (unfold draw; rewrite Hw; left).
    unfold draw in Ho. rewrite Hw in Ho. offered_cases Ho by (unfold reboot_dialog in Ho); first [by left|right; by eexists].
  - assert (Dialog ("Are you sure you want to delete " +:+ sys_name (system s) +:+ "?") CloseWindow ∈ draw s) as Hd
      by (unfold draw; rewrite Hw; left).
    unfold draw in Ho. rewrite Hw in Ho. offered_cases Ho by (unfold delete_dialog in Ho); first [by left|right; by eexists].
  - unfold draw in Ho. rewrite Hw in Ho. apply menu_events in Ho as (x & -> & Hx). by apply item_sends.
Qed.
End Page.

(** ** Visits *)

Definition ex_menu (st : SystemStatus) : state := {|
  system := example_system "a" "web" st; window_open := None; editOpened := false; requests := []; copied := []; toasts := [] |}.
Definition visit (readOnly : bool) (acts : list act) (s : state) : state := default s (play (draw readOnly) step acts s).
Definition delete_it : list act := [Click "" "Delete"; Click "" "Continue"]%string.
Lemma read_only_sends_nothing_witness :
  requests (visit true [Click "" "Copy name"; Click "" "Copy host"]%string (ex_menu Status_Up)) = []
  ∧ play (draw true) step delete_it (ex_menu Status_Up) = None
  ∧ requests (visit false delete_it (ex_menu Status_Up)) = [DeleteSystem (sys_id (example_system "a" "web" Status_Up))].
Proof.
  split; [|by vm_compute].
  refine (proj1 (read_only_sends_nothing true _ _ eq_refl)).
  apply (play_reachable _ _ _ _ [Click "" "Copy name"; Click "" "Copy host"]%string (ex_menu Status_Up)); [by apply at_start|].
  vm_compute. reflexivity.
Defined.
Lemma confirmed_requests_witness :
  let s := visit false [Click "" "Delete"]%string (ex_menu Status_Up) in
  requests (step ConfirmDelete s) = requests s
  ∨ ∃ r, requests (step ConfirmDelete s) = requests s ++ [r] ∧ justified false s ConfirmDelete r.
Proof.
  cbv zeta. refine (proj1 (confirmed_requests false _ ConfirmDelete _)).
  apply (perform_offered (Click "" "Continue")). vm_compute. reflexivity.
Defined.

(** the dialog follows the row: when the list moves while it is open, it names the system that is there now, and its button deletes that one *)
Definition moved_on (s : state) : state := {|
  system := example_system "b" "db" Status_Down; window_open := window_open s; editOpened := editOpened s;
  requests := requests s; copied := copied s; toasts := toasts s |}.
Example dialog_moves_on :
  let s := visit false [Click "" "Delete"]%string (ex_menu Status_Up) in
  outside s (moved_on s) ∧ requests (visit false [Click "" "Continue"]%string (moved_on s)) = [DeleteSystem "b"].
Proof. split; [by apply system_changes|by vm_compute]. Qed.
