(* ===== verification/TokensUi.v ===== *)
(** * The page of tokens and fingerprints as the user meets it:
    [components/routes/settings/tokens-fingerprints.tsx] with [components/install-dropdowns.tsx]

    The universal token with its switch, its tabs and its menu, the table of fingerprints with the
    menus of its rows, the queries and requests in flight, and the hub's side of the universal token
    ([internal/hub/hub.go]) as what the page is to show. *)
From Stdlib Require Import ZArith Lia.
From S2P Require Import Prelude JsValue JsDate Types Live Tokens AddSystem Dom.
Import Feed.
Open Scope Z_scope.

(** ** The hub: [getUniversalToken] *)

(** the tokens of the user that expire, and the one in the database *)
Record hub := { ephemeral : list string; permanent : option string }.
(** [RemovebyValue] takes one of the user's tokens away *)
Definition removed_one (l l' : list string) : Prop := (l = [] ∧ l' = []) ∨ ∃ x, l ≡ₚ x :: l'.
Definition set_token (t : string) (l : list string) : list string := if bool_decide (t ∈ l) then l else t :: l.
Definition answer_of (t : string) (active perm : bool) : token_answer :=
  {| ta_token := t; ta_active := active; ta_permanent := Some perm |}.
(** what the handler answers and leaves; [uuid] is the token it draws when it needs one *)
Inductive getUniversalToken (uuid : string) (q : token_query) (h : hub) : token_answer → hub → Prop :=
| disable e : tq_enable q = 0 → removed_one (ephemeral h) e →
    getUniversalToken uuid q h (answer_of (tq_token q) false false) {| ephemeral := e; permanent := None |}
| enable_permanent e : tq_enable q = 1 → tq_permanent q = 1 → removed_one (ephemeral h) e →
    getUniversalToken uuid q h (answer_of (js_or (Some (tq_token q)) uuid) true true)
      {| ephemeral := e; permanent := Some (js_or (Some (tq_token q)) uuid) |}
| enable_ephemeral : tq_enable q = 1 → tq_permanent q ≠ 1 →
    getUniversalToken uuid q h (answer_of (js_or (Some (tq_token q)) uuid) true false)
      {| ephemeral := set_token (js_or (Some (tq_token q)) uuid) (ephemeral h); permanent := None |}
| read_permanent p : tq_enable q ≠ 0 → tq_enable q ≠ 1 → permanent h = Some p →
    getUniversalToken uuid q h
      (if truthy (tq_token q) && negb (String.eqb (tq_token q) p) then answer_of (tq_token q) false false
       else answer_of p true true) h
| read_ephemeral t : tq_enable q ≠ 0 → tq_enable q ≠ 1 → permanent h = None → tq_token q = ""%string → t ∈ ephemeral h →
    getUniversalToken uuid q h (answer_of t true false) h
| read_none : tq_enable q ≠ 0 → tq_enable q ≠ 1 → permanent h = None → tq_token q = ""%string → ephemeral h = [] →
    getUniversalToken uuid q h (answer_of uuid false false) h
| read_asked : tq_enable q ≠ 0 → tq_enable q ≠ 1 → permanent h = None → tq_token q ≠ ""%string →
    getUniversalToken uuid q h (answer_of (tq_token q) (bool_decide (tq_token q ∈ ephemeral h)) false) h.

(** the token registers agents *)
Definition accepted (h : hub) (t : string) : Prop := t ∈ ephemeral h ∨ permanent h = Some t.

(** a request for the universal token: what was asked, what the hub answered, and whether the client gave it up *)
Record request := { query : token_query; reply : option token_answer; given_up : bool }.
(** its method and path; the query is not a part of the key of the client library *)
Definition universal_address : string * string := ("GET", "/api/beszel/universal-token").

Section Page.
Context `{Collator} (hubURL publicKey : string) (isReadOnly : bool) (generateToken : nat → string).
(** the client library gives up an earlier request that is under way for a later one; by its documentation it
    "will auto cancel duplicated pending requests", those of one method and path *)
Context (auto_cancels : string * string → string * string → bool).

(** ** State and handlers *)

Record state := {
  fingerprints : list FingerprintRecord; tokenMap : jsmap string; token : universal;
  requests : list request;                                       (* in the order they were sent *)
  updates : list (string * fingerprint_update); drawn_tokens : nat; copied : list string;
  at_hub : hub; prints : feed FingerprintRecord }.                (* what the hub has *)
Definition with_requests (l : list request) (s : state) : state := {|
  fingerprints := fingerprints s; tokenMap := tokenMap s; token := token s; requests := l;
  updates := updates s; drawn_tokens := drawn_tokens s; copied := copied s; at_hub := at_hub s; prints := prints s |}.
Definition with_token (u : universal) (s : state) : state := {|
  fingerprints := fingerprints s; tokenMap := tokenMap s; token := u; requests := requests s;
  updates := updates s; drawn_tokens := drawn_tokens s; copied := copied s; at_hub := at_hub s; prints := prints s |}.
Definition with_hub (h : hub) (s : state) : state := {|
  fingerprints := fingerprints s; tokenMap := tokenMap s; token := token s; requests := requests s;
  updates := updates s; drawn_tokens := drawn_tokens s; copied := copied s; at_hub := h; prints := prints s |}.

Inductive install := DockerCompose | DockerRun | Linux | Homebrew | Windows | FreeBsd.
Inductive event :=
| Switch (checked : bool) | Tab (value : string) | CopyInstall (x : install)
| CopyYaml (f : FingerprintRecord) | CopyEnv (f : FingerprintRecord)
| RotateToken (f : FingerprintRecord) | DeleteFingerprint (f : FingerprintRecord).

Definition cancel (r : request) : request :=
  {| query := query r; reply := reply r; given_up := given_up r || auto_cancels universal_address universal_address |}.
(** [pb.send] *)
Definition ask (q : token_query) (s : state) : state :=
  with_requests ((cancel <$> requests s) ++ [{| query := q; reply := None; given_up := false |}]) s.
Definition copyToClipboard (text : string) (s : state) : state := {|
  fingerprints := fingerprints s; tokenMap := tokenMap s; token := token s; requests := requests s;
  updates := updates s; drawn_tokens := drawn_tokens s; copied := copied s ++ [text]; at_hub := at_hub s;
  prints := prints s |}.
Definition send_update (u : string * fingerprint_update) (n : nat) (s : state) : state := {|
  fingerprints := fingerprints s; tokenMap := tokenMap s; token := token s; requests := requests s;
  updates := updates s ++ [u]; drawn_tokens := n; copied := copied s; at_hub := at_hub s; prints := prints s |}.

(** the onClick handlers of [ActionsButtonUniversalToken] *)
Definition install_text (x : install) (t : string) : string :=
  let port := Some default_port in
  match x with
  | DockerCompose => docker_compose hubURL port publicKey t | DockerRun => docker_run hubURL port publicKey t
  | Linux | FreeBsd => linux_command hubURL port publicKey t false
  | Homebrew => linux_command hubURL port publicKey t true
  | Windows => windows_command hubURL port publicKey t
  end.
Definition step (e : event) (s : state) : state :=
  match e with
  | Switch b => ask (switch_changed b (token s)) s
  | Tab v => ask (tab_changed v (token s)) s
  | CopyInstall x => copyToClipboard (install_text x (ut_token (token s))) s
  | CopyYaml f => copyToClipboard (copyYaml hubURL f) s
  | CopyEnv f => copyToClipboard (copyEnv hubURL f) s
  | RotateToken f => send_update (updateFingerprint (generateToken (drawn_tokens s)) f true) (S (drawn_tokens s)) s
  | DeleteFingerprint f => send_update (updateFingerprint "" f false) (drawn_tokens s) s
  end.

(** ** What is drawn *)

(** [SectionIntro] *)
Definition intro : screen event :=
  [Text "" "Tokens & Fingerprints";
   Text "" "Tokens and fingerprints are used to authenticate WebSocket connections to the hub.";
   Text "" "Tokens allow agents to connect and register. Fingerprints are stable identifiers unique to each system, set on first connection."].
(** [ActionsButtonUniversalToken]; the menu opens only while the token is enabled *)
Definition install_menu (checked : bool) : screen event :=
  let item x label := Button "install" label checked (CopyInstall x) in
  [item DockerCompose "Copy docker compose"; item DockerRun "Copy docker run"; item Linux "Copy Linux command";
   item Homebrew "Homebrew command"; item Windows "Windows command"; item FreeBsd "FreeBSD command"]%string
  ++ when checked [Link "install" "Manual setup instructions" "https://beszel.dev/guide/agent-installation#binary"].
(** [SectionUniversalToken]; the tab that is chosen does nothing *)
Definition universal_section (u : universal) : screen event :=
  [Text "" "Universal token";
   Text "" "When enabled, this token allows agents to self-register without prior system creation."]
  ++ when (negb (ut_isLoading u))
       ([Checkbox "" "Universal token" (ut_checked u) true Switch; Text "" (ut_token u)]
        ++ install_menu (ut_checked u)
        ++ when (ut_checked u)
             [Text "" "Persistence";
              Button "" "Ephemeral" (ut_isPermanent u) (Tab "ephemeral");
              Button "" "Permanent" (negb (ut_isPermanent u)) (Tab "permanent");
              Text "" (if ut_isPermanent u then "Saved in the database and does not expire until you disable it."
                       else "Expires after one hour or on hub restart.")]).
(** [ActionsButtonTable] *)
Definition row_menu (f : FingerprintRecord) : screen event :=
  [Button (fp_id f) "Copy YAML" true (CopyYaml f); Button (fp_id f) "Copy env" true (CopyEnv f);
   Button (fp_id f) "Rotate token" true (RotateToken f)]
  ++ when (truthy (fp_fingerprint f)) [Button (fp_id f) "Delete fingerprint" true (DeleteFingerprint f)].
(** [SectionTable] *)
Definition table_section (l : list FingerprintRecord) : screen event :=
  [Text "" "System"; Text "" "Token"; Text "" "Fingerprint"] ++ when (negb isReadOnly) [Text "" "Actions"]
  ++ rows (λ f, [Text (fp_id f) (fp_system_name f); Text (fp_id f) (fp_token f); Text (fp_id f) (fp_fingerprint f)]
                ++ when (negb isReadOnly) (row_menu f)) l.
Definition draw (s : state) : screen event :=
  intro ++ universal_section (token s) ++ table_section (fingerprints s).

(** ** The page over time *)

Definition handled (i : nat) (a : token_answer) (h : hub) (s : state) : state :=
  with_hub h (with_requests (alter (λ r, {| query := query r; reply := Some a; given_up := given_up r |}) i (requests s)) s).
Definition dropped (i : nat) (s : state) : state := with_requests (delete i (requests s)) s.
(** an effect writes the tokens of the list into [tokenMap]; a list that cannot be fetched stays empty *)
Definition set_fingerprints (l : list FingerprintRecord) (f : feed FingerprintRecord) (s : state) : state := {|
  fingerprints := l; tokenMap := update_tokenMap l (tokenMap s); token := token s; requests := requests s; updates := updates s;
  drawn_tokens := drawn_tokens s; copied := copied s; at_hub := at_hub s; prints := f |}.
Definition hear (o : heard FingerprintRecord) (f : feed FingerprintRecord) (s : state) : state :=
  match o with
  | ListAnswer items => set_fingerprints (sortFingerprints items) f s
  | Message a r => set_fingerprints (fingerprint_event a r (fingerprints s)) f s
  | Silent | ListFailed => {| fingerprints := fingerprints s; tokenMap := tokenMap s; token := token s; requests := requests s;
      updates := updates s; drawn_tokens := drawn_tokens s; copied := copied s; at_hub := at_hub s; prints := f |}
  end.
(** the hub handles a request, one that was given up as well; an answer that is awaited arrives; a request, or its answer,
    is lost; a token of an hour expires; the page hears of the fingerprints ([Feed]).  With [in_turn] the hub handles the
    requests in the order they were sent, and none is lost that was not given up *)
Inductive outside (calm in_turn : bool) (s : state) : state → Prop :=
| handles i r uuid a h : requests s !! i = Some r → reply r = None → truthy uuid = true →
    (in_turn = true → ∀ j r', (j < i)%nat → requests s !! j = Some r' → reply r' ≠ None) →
    getUniversalToken uuid (query r) (at_hub s) a h → outside calm in_turn s (handled i a h s)
| arrives i r a : requests s !! i = Some r → given_up r = false → reply r = Some a →
    outside calm in_turn s (with_token (token_answered a) (dropped i s))
| lost i r : requests s !! i = Some r → (in_turn = true → given_up r = true) → outside calm in_turn s (dropped i s)
| expires e : removed_one (ephemeral (at_hub s)) e →
    outside calm in_turn s (with_hub {| ephemeral := e; permanent := permanent (at_hub s) |} s)
| feeds o f : feed_step (H := fingerprint_table) calm (shows (H := fingerprint_table)) (prints s) o f →
    outside calm in_turn s (hear o f s).
Definition one_token (h : hub) : Prop :=
  match permanent h with
  | Some p => ephemeral h = [] ∧ truthy p = true
  | None => ephemeral h = [] ∨ ∃ t, ephemeral h = [t] ∧ truthy t = true
  end.
Definition first_request : request := {| query := updateToken universal_init None None; reply := None; given_up := false |}.
(** the page opens with the list, the subscription and the first request under way; of the user's tokens at the hub there is one at most *)
Definition start (s : state) : Prop :=
  fingerprints s = [] ∧ (∃ m, prints s = opened m) ∧ token s = universal_init
  ∧ requests s = [first_request] ∧ updates s = [] ∧ one_token (at_hub s).
Definition reached (calm in_turn : bool) : state → Prop := reachable draw step (outside calm in_turn) start.

(** ** Theorems *)

Definition promised (s : state) (e : event) : Prop :=
  match e with
  | Switch b => ut_isLoading (token s) = false ∧ b = negb (ut_checked (token s))
  | Tab v => ut_isLoading (token s) = false ∧ ut_checked (token s) = true ∧ v ≠ tab_value (token s)
  | CopyInstall _ => ut_isLoading (token s) = false ∧ ut_checked (token s) = true
  | CopyYaml f | CopyEnv f | RotateToken f => isReadOnly = false ∧ f ∈ fingerprints s
  | DeleteFingerprint f => isReadOnly = false ∧ f ∈ fingerprints s ∧ fp_fingerprint f ≠ ""%string
  end.
Lemma tk_offered_promised s e : offered (draw s) e → promised s e.
Proof.
  intros Ho. offered_cases Ho by (unfold draw, intro, universal_section, install_menu, table_section, row_menu in Ho).
  all: rewrite ?negb_true_iff in *; try by split_and!.
  - split_and!; [done|done|]. unfold tab_value. by match goal with H : true = _ |- _ => rewrite <-H end.
  - split_and!; [done|done|]. unfold tab_value. by destruct (ut_isPermanent (token s)).
  - split_and!; [done|done|]. by apply truthy_nonempty.
Qed.

(** *** The universal token *)

(** what the page shows is what the hub has; an ephemeral token may have expired meanwhile *)
Definition reflects (u : universal) (h : hub) : Prop :=
  ut_isLoading u = false ∧ truthy (ut_token u) = true
  ∧ permanent h = (if ut_isPermanent u then Some (ut_token u) else None)
  ∧ (ut_isPermanent u = true → ut_checked u = true ∧ ephemeral h = [])
  ∧ (ephemeral h = [] ∨ ephemeral h = [ut_token u] ∧ ut_checked u = true).
Lemma removed_last l l' : removed_one l l' → (length l ≤ 1)%nat → l' = [].
Proof.
  intros [[_ ->]|[x Hp]] Hl; [done|]. apply Permutation_length in Hp. cbn in Hp. destruct l'; [done|]. cbn in Hp. lia.
Qed.
Lemma reflects_short u h : reflects u h → (length (ephemeral h) ≤ 1)%nat.
Proof. intros (_ & _ & _ & _ & [->|[-> _]]); cbn; lia. Qed.
Lemma handled_reflects u h uuid q a h' : reflects u h → tq_token q = ut_token u → (tq_enable q = 0 ∨ tq_enable q = 1) →
  getUniversalToken uuid q h a h' → reflects (token_answered a) h' ∧ ta_token a = ut_token u.
Proof.
  intros Hu Ht He Hh. pose proof (reflects_short _ _ Hu) as Hl. destruct Hu as (_ & Hn & _ & _ & Heph).
  assert (js_or (Some (tq_token q)) uuid = ut_token u) as Hj by (unfold js_or; by rewrite Ht, Hn).
  destruct Hh as [e _ Hr|e _ _ Hr| | | | |]; try (by destruct He); rewrite ?Hj in *.
  - apply removed_last in Hr as ->; [|done]. split; [|done]. unfold reflects. cbn. rewrite Ht. by split_and!; auto.
  - apply removed_last in Hr as ->; [|done]. split; [|done]. by split_and!; auto.
  - split; [|done]. split_and!; [done|done|done|done|]. right. cbn. split; [|done]. unfold set_token.
    case_bool_decide as Hin; [|by destruct Heph as [E|[E _]]; rewrite E in *; [|by destruct Hin; left]].
    destruct Heph as [E|[E _]]; [rewrite E in Hin; by apply elem_of_nil in Hin|done].
Qed.
Lemma first_reflects uuid h a h' : one_token h → truthy uuid = true →
  getUniversalToken uuid (updateToken universal_init None None) h a h' → reflects (token_answered a) h'.
Proof.
  intros Ho Hu Hh. unfold one_token in Ho.
  destruct Hh as [e He _|e He _ _|He _|p _ _ Hp|t _ _ Hp _ Ht|_ _ Hp _ He|_ _ _ Hn]; try done; cbn in *; rewrite ?Hp in *.
  - destruct Ho as [He Hp']. split_and!; cbn; rewrite ?He; auto.
  - destruct Ho as [E|(x & E & Hx)]; rewrite E in Ht; [by apply elem_of_nil in Ht|]. apply list_elem_of_singleton in Ht as ->.
    by split_and!; auto.
  - by split_and!; auto.
Qed.

Lemma reflects_accepted u h t : reflects u h → accepted h t → t = ut_token u ∧ ut_checked u = true.
Proof.
  intros (_ & _ & Hp & Hc & He). unfold accepted. rewrite Hp. intros [Ht|Ht].
  - destruct He as [He|[He Hch]]; rewrite He in Ht; [by apply elem_of_nil in Ht|]. by apply list_elem_of_singleton in Ht as ->.
  - destruct (ut_isPermanent u); [|done]. injection Ht as <-. by destruct (Hc eq_refl).
Qed.
Lemma reflects_permanent u h : reflects u h → ut_isPermanent u = true → accepted h (ut_token u).
Proof. intros (_ & _ & Hp & _) E. unfold accepted. rewrite Hp, E. by right. Qed.

(** the requests carry the token that is shown, and so do the answers *)
Definition ours (t : string) (r : request) : Prop :=
  tq_token (query r) = t ∧ (tq_enable (query r) = 0 ∨ tq_enable (query r) = 1) ∧ ∀ a, reply r = Some a → ta_token a = t.
Definition unread (s : state) : Prop := token s = universal_init ∧
  (requests s = [] ∨ requests s = [first_request] ∧ one_token (at_hub s)
   ∨ ∃ a, requests s = [{| query := query first_request; reply := Some a; given_up := false |}]
       ∧ reflects (token_answered a) (at_hub s)).
Definition loaded (s : state) : Prop := ut_isLoading (token s) = false ∧ Forall (ours (ut_token (token s))) (requests s)
  ∧ ∃ u, reflects u (at_hub s) ∧ ut_token u = ut_token (token s).
Definition token_inv (s : state) : Prop := unread s ∨ loaded s.

Lemma reflects_expires u h e : reflects u h → removed_one (ephemeral h) e →
  reflects u {| ephemeral := e; permanent := permanent h |}.
Proof.
  intros Hr He. pose proof (reflects_short _ _ Hr) as Hs. apply removed_last in He as ->; [|done].
  destruct Hr as (? & ? & ? & Hp & _). split_and!; try done; [by intros [? _]%Hp|by left].
Qed.
Lemma one_token_expires h e : one_token h → removed_one (ephemeral h) e →
  one_token {| ephemeral := e; permanent := permanent h |}.
Proof.
  intros Hh He. unfold one_token in *. cbn. destruct (permanent h).
  - destruct Hh as [Hh ?]. split; [|done]. eapply removed_last; [done|]. rewrite Hh. cbn. lia.
  - left. eapply removed_last; [done|]. destruct Hh as [->|(t & -> & _)]; cbn; lia.
Qed.
Lemma ours_cancel t l : Forall (ours t) l → Forall (ours t) (cancel <$> l).
Proof. intros Hl. apply Forall_fmap. by eapply Forall_impl. Qed.
Lemma loaded_ask s q : loaded s → tq_token q = ut_token (token s) → (tq_enable q = 0 ∨ tq_enable q = 1) → loaded (ask q s).
Proof.
  intros (Hl & Ho & Hh) Hq He. split_and!; [done| |done]. apply Forall_app. split; [by apply ours_cancel|]. by apply Forall_singleton.
Qed.
Lemma token_inv_user s e : token_inv s → promised s e → token_inv (step e s).
Proof.
  intros [[Ht Hu]|Hi] He.
  - destruct e; cbn in He; rewrite ?Ht in He; try (by destruct He); by left.
  - right. destruct e; cbn in He |- *; try exact Hi; apply loaded_ask; try done; cbn; [destruct checked|]; auto.
Qed.
Lemma token_inv_outside calm turn s s' : token_inv s → outside calm turn s s' → token_inv s'.
Proof.
  intros Hi Ho. destruct Ho as [i r uuid a h Hr Hn Hu _ Hg|i r a Hr Hgu Ha|i r Hr _|e He|o f _].
  - destruct Hi as [[Ht Hi]|(Hl & Ho & u & Hr' & Hu')].
    + left. split; [done|]. right; right. destruct Hi as [E|[[E H1]|(b & E & H1)]]; rewrite E in Hr; [done| |]; (destruct i; [injection Hr as <-|done]); [|done].
      exists a. split; [cbn; by rewrite E|by eapply first_reflects].
    + right. assert (ours (ut_token (token s)) r) as (Hq & He & _) by (by eapply Forall_lookup_1).
      rewrite <- Hu' in Hq. destruct (handled_reflects _ _ _ _ _ _ Hr' Hq He Hg) as [Hr2 Hta].
      split_and!; [done| |exists (token_answered a); split; [done|cbn; congruence]].
      cbn. apply Forall_alter; [done|]. intros r' Hr2' (? & ? & ?). split_and!; [done|done|]. cbn. intros ? [= <-]. by rewrite Hta.
  - right. destruct Hi as [[Ht Hi]|(Hl & Ho & Hh)].
    + destruct Hi as [E|[[E H1]|(b & E & H1)]]; rewrite E in Hr; [done| |]; (destruct i; [injection Hr as <-|done]); [done|].
      injection Ha as <-. split_and!; [done|cbn; rewrite E; constructor|]. exists (token_answered b). by split.
    + assert (ours (ut_token (token s)) r) as (_ & _ & Hta) by (by eapply Forall_lookup_1).
      specialize (Hta a Ha). split_and!; [done| |destruct Hh as (u & ? & ?); exists u; split; [done|by cbn; rewrite Hta]].
      cbn. rewrite Hta. by apply Forall_delete.
  - destruct Hi as [[Ht Hi]|(Hl & Ho & Hh)]; [left|right; split_and!; [done|by apply Forall_delete|done]].
    split; [done|]. left. cbn. destruct Hi as [E|[[E H1]|(b & E & H1)]]; rewrite E in Hr |- *; [done| |]; by destruct i.
  - destruct Hi as [[Ht Hi]|(Hl & Ho & u & Hr & Hu)].
    + left. split; [done|]. destruct Hi as [E|[[E H1]|(b & E & H1)]]; [by left|right; left|right; right; exists b].
      * split; [done|]. by apply one_token_expires.
      * split; [done|]. by apply reflects_expires.
    + right. split_and!; [done|done|]. exists u. split; [by apply reflects_expires|done].
  - assert (token (hear o f s) = token s ∧ requests (hear o f s) = requests s ∧ at_hub (hear o f s) = at_hub s) as (E1 & E2 & E3)
      by (by destruct o). unfold token_inv, unread, loaded in *. by rewrite E1, E2, E3.
Qed.

(** *** Requests that are handled in turn *)

Definition in_order (l : list request) : Prop :=
  ∀ i j r r', (i < j)%nat → l !! i = Some r → l !! j = Some r' → reply r' ≠ None → reply r ≠ None.
(** no answer is awaited, or that of the last request *)
Definition idle (s : state) : Prop :=
  Forall (λ r, given_up r = true ∧ reply r ≠ None) (requests s) ∧ (ut_isLoading (token s) = false → reflects (token s) (at_hub s)).
Definition awaits (s : state) : Prop := ∃ l r, requests s = l ++ [r] ∧ Forall (λ r, given_up r = true) l ∧ given_up r = false
  ∧ in_order (requests s) ∧ ∀ a, reply r = Some a → reflects (token_answered a) (at_hub s).
Definition turn_inv (s : state) : Prop := token_inv s ∧ (idle s ∨ awaits s).

Lemma in_order_alter f i l : in_order l → (∀ r, reply (f r) ≠ None) →
  (∀ j r, (j < i)%nat → l !! j = Some r → reply r ≠ None) → in_order (alter f i l).
Proof.
  intros Ho Hf Hi j k r r' Hjk. rewrite !list_lookup_alter. destruct (decide (i = j)) as [Ej|], (decide (i = k)) as [Ek|]; [lia| | |].
  - intros (r0 & _ & ->)%fmap_Some _ _. apply Hf.
  - intros Hr _ _. subst k. by eapply Hi.
  - by apply Ho.
Qed.
Lemma in_order_delete i l : in_order l → in_order (delete i l).
Proof.
  intros Ho j k r r' Hjk Hr Hr'. assert (∃ m, (j = m ∧ j < i ∨ S j = m ∧ i <= j)%nat ∧ l !! m = Some r) as (m & Hm & Em).
  { destruct (decide (j < i)%nat); [rewrite list_lookup_delete_lt in Hr by done; exists j|rewrite list_lookup_delete_ge in Hr by lia; exists (S j)]; split; [lia|done|lia|done]. }
  assert (∃ m, (k = m ∧ k < i ∨ S k = m ∧ i <= k)%nat ∧ l !! m = Some r') as (m' & Hm' & Em').
  { destruct (decide (k < i)%nat); [rewrite list_lookup_delete_lt in Hr' by done; exists k|rewrite list_lookup_delete_ge in Hr' by lia; exists (S k)]; split; [lia|done|lia|done]. }
  eapply (Ho m m'); [lia|done|done].
Qed.
Lemma delete_init {A} i (l : list A) x : (i < length l)%nat → delete i (l ++ [x]) = delete i l ++ [x].
Proof. revert i. induction l as [ | y l IH]; intros [|i] Hi; cbn in *; [lia..|done|]. f_equal. apply IH. lia. Qed.
Lemma last_waits (l : list request) r i r' : Forall (λ r, given_up r = true) l → (l ++ [r]) !! i = Some r' → given_up r' = false →
  i = length l ∧ r' = r.
Proof.
  intros Hl [[Hi E]|[-> ->]]%lookup_snoc_Some Hr; [|done]. eapply Forall_lookup_1 in Hl; [|done]. cbn in Hl. congruence.
Qed.
Section InTurn.
Context (cancels_same : auto_cancels universal_address universal_address = true).
Lemma awaits_ask s q : idle s ∨ awaits s → awaits (ask q s).
Proof.
  intros Hs. exists (cancel <$> requests s), {| query := q; reply := None; given_up := false |}.
  assert (in_order (requests s)) as Ho.
  { destruct Hs as [[Hs _]|(l & r & _ & _ & _ & Ho & _)]; [|done]. intros i j r r' _ Hi _ _. by eapply Forall_lookup_1 in Hs as [_ ?]. }
  split_and!; [done| |done| |done].
  - apply Forall_fmap, Forall_true. intros r. cbn. rewrite cancels_same. apply orb_true_r.
  - intros i j r r' Hij Hi Hj Hn. cbn in Hi, Hj. apply lookup_snoc_Some in Hj as [[Hj Ej]|[_ <-]]; [|done].
    rewrite lookup_app_l, list_lookup_fmap in Hi by lia. rewrite list_lookup_fmap in Ej.
    apply fmap_Some in Hi as (a & Ha & ->), Ej as (b & Hb & ->). exact (Ho i j a b Hij Ha Hb Hn).
Qed.
Lemma turn_inv_user s e : turn_inv s → promised s e → turn_inv (step e s).
Proof. intros [Ht Hi] He. split; [by apply token_inv_user|]. destruct e; try exact Hi; right; by apply awaits_ask. Qed.
Lemma turn_inv_outside calm s s' : turn_inv s → outside calm true s s' → turn_inv s'.
Proof.
  intros [Ht Hi] Ho. split; [by eapply token_inv_outside|].
  destruct Ho as [i r uuid a h Hr Hn Hu Hb Hg|i r a Hr Hgu Ha|i r Hr Hgu|e He|o f _].
  - destruct Hi as [[Hi _]|(l & r0 & E & Hl & Hr0 & Hor & Hre)]; [by eapply Forall_lookup_1 in Hi as [_ ?]|]. right.
    specialize (Hb eq_refl).
    pose proof (in_order_alter (λ r, {| query := query r; reply := Some a; given_up := given_up r |}) i _ Hor ltac:(done) Hb) as Ho'.
    rewrite E in Hr, Ho'. apply lookup_snoc_Some in Hr as [[Hil Hr]|[-> ->]].
    + exists (alter (λ r, {| query := query r; reply := Some a; given_up := given_up r |}) i l), r0. cbn. rewrite E.
      rewrite alter_app_l in Ho' |- * by done. split_and!; [done|by apply Forall_alter|done|done|].
      intros b Hb'. exfalso. eapply (Hor i (length l) r r0); [done| |rewrite E; by apply list_lookup_middle|by rewrite Hb'|done].
      rewrite E. by apply lookup_app_l_Some.
    + exists l, {| query := query r; reply := Some a; given_up := given_up r |}. cbn. rewrite E.
      rewrite alter_app_r_alt, Nat.sub_diag in Ho' |- * by done. split_and!; [done|done|done|done|]. cbn. intros ? [= <-].
      destruct Ht as [[_ [E'|[[E' H1]|(b & E' & H1)]]]|(_ & Ho & u & Hu' & Eu)].
      * rewrite E' in E. by destruct l.
      * rewrite E' in E. destruct l as [ | ? []]; [|done..]. injection E as <-. by eapply first_reflects.
      * rewrite E' in E. destruct l as [ | ? []]; [|done..]. injection E as <-. done.
      * rewrite E in Ho. apply Forall_app in Ho as [_ [HL _]%Forall_cons]. destruct HL as (Hq & Hen & _). rewrite <- Eu in Hq.
        exact (proj1 (handled_reflects _ _ _ _ _ _ Hu' Hq Hen Hg)).
  - destruct Hi as [[Hi _]|(l & r0 & E & Hl & Hr0 & Hor & Hre)]; [eapply Forall_lookup_1 in Hi as [? _]; [|done]; congruence|].
    left. pose proof Hr as Hr'. rewrite E in Hr'. destruct (last_waits _ _ _ _ Hl Hr' Hgu) as [-> ->].
    split; [|intros _; by apply Hre]. apply Forall_lookup_2. cbn. intros j r' Hj.
    rewrite E, delete_middle, app_nil_r in Hj. split; [by eapply Forall_lookup_1 in Hl|].
    apply lookup_lt_Some in Hj as Hlt. eapply (Hor j (length l) r' r0); [done| |done|by rewrite Ha]. rewrite E. by apply lookup_app_l_Some.
  - specialize (Hgu eq_refl). destruct Hi as [[Hi Hs]|(l & r0 & E & Hl & Hr0 & Hor & Hre)].
    + left. split; [by apply Forall_delete|done].
    + right. rewrite E in Hr. apply lookup_snoc_Some in Hr as [[Hil Hr]|[_ <-]]; [|congruence].
      exists (delete i l), r0. cbn. rewrite E, delete_init by done.
      split_and!; [done|by apply Forall_delete|done| |done]. rewrite <- delete_init, <- E by done. by apply in_order_delete.
  - destruct Hi as [[Hi Hs]|(l & r0 & E & Hl & Hr0 & Hor & Hre)]; [left|right].
    + split; [done|]. intros Hld. by apply reflects_expires, He; apply Hs.
    + exists l, r0. split_and!; try done. intros a Ha. apply reflects_expires; [by apply Hre|done].
  - assert (token (hear o f s) = token s ∧ requests (hear o f s) = requests s ∧ at_hub (hear o f s) = at_hub s) as (E1 & E2 & E3)
      by (by destruct o). unfold idle, awaits in *. by rewrite E1, E2, E3.
Qed.
End InTurn.

(** *** The fingerprints *)

Lemma fingerprint_step `{!CollatorLaws H} a r l m : shows (H := fingerprint_table) l m → possible (H := fingerprint_table) a r m →
  shows (H := fingerprint_table) (fingerprint_event a r l) (server_event (H := fingerprint_table) a r m).
Proof. intros Hs Hp. exact (proj1 (fingerprints_live [(a, r)] l m Hs (conj Hp I))). Qed.
Lemma sorted_shows l m : shows (H := fingerprint_table) l m → shows (H := fingerprint_table) (sortFingerprints l) m.
Proof.
  intros [Hnd Hl]. assert (l ≡ₚ sortFingerprints l) as Hp by (symmetry; apply sort_perm). split; [by rewrite <- Hp|].
  intros id. rewrite <- Hl. symmetry. by apply record_of_perm.
Qed.
Lemma hear_prints o f s : prints (hear o f s) = f
  ∧ fingerprints (hear o f s) = hears (H := fingerprint_table) sortFingerprints o (fingerprints s).
Proof. by destruct o. Qed.
Definition prints_inv (s : state) : Prop := in_sync (H := fingerprint_table) (shows (H := fingerprint_table)) (prints s) (fingerprints s).
Lemma prints_outside `{!CollatorLaws H} turn s s' : prints_inv s → outside true turn s s' → prints_inv s'.
Proof.
  intros Hi [| | | |o f Hf]; try done. unfold prints_inv. destruct (hear_prints o f s) as [-> ->].
  eapply feed_in_sync; [done|apply sorted_shows|intros; by apply fingerprint_step|exact Hi|exact Hf].
Qed.

End Page.

(** disabling a permanent token and enabling it again makes it one that expires: the hub answers that it is not
    permanent, and the page forgets that it was *)
Lemma permanence_forgotten uuid q h a h' : getUniversalToken uuid q h a h' → tq_enable q = 0 →
  tq_permanent (switch_changed true (token_answered a)) = 0.
Proof. intros [] E; try done; rewrite E in *; done. Qed.

(** ** A visit *)

(** the hub as a function: it takes the first of the tokens away *)
Definition hub_reply (uuid : string) (q : token_query) (h : hub) : token_answer * hub :=
  let t := js_or (Some (tq_token q)) uuid in
  if tq_enable q =? 0 then (answer_of (tq_token q) false false, {| ephemeral := tail (ephemeral h); permanent := None |})
  else if tq_enable q =? 1 then
    if tq_permanent q =? 1 then (answer_of t true true, {| ephemeral := tail (ephemeral h); permanent := Some t |})
    else (answer_of t true false, {| ephemeral := set_token t (ephemeral h); permanent := None |})
  else match permanent h with
       | Some p => (if truthy (tq_token q) && negb (String.eqb (tq_token q) p) then answer_of (tq_token q) false false
                    else answer_of p true true, h)
       | None => if truthy (tq_token q) then (answer_of (tq_token q) (bool_decide (tq_token q ∈ ephemeral h)) false, h)
                 else match ephemeral h with [] => (answer_of uuid false false, h) | t :: _ => (answer_of t true false, h) end
       end.
Lemma removed_tail l : removed_one l (tail l).
Proof. destruct l as [|x l]; [by left|]. right. by exists x. Qed.
Lemma hub_reply_ok uuid q h : getUniversalToken uuid q h (hub_reply uuid q h).1 (hub_reply uuid q h).2.
Proof.
  unfold hub_reply. destruct (Z.eqb_spec (tq_enable q) 0) as [E0|E0]; [apply disable; [done|apply removed_tail]|].
  destruct (Z.eqb_spec (tq_enable q) 1) as [E1|E1].
  - destruct (Z.eqb_spec (tq_permanent q) 1); [apply enable_permanent; try done; apply removed_tail|by apply enable_ephemeral].
  - destruct (permanent h) as [p|] eqn:Hp; [by apply read_permanent|].
    destruct (truthy (tq_token q)) eqn:Ht; [by apply read_asked; try apply truthy_nonempty|].
    apply not_true_iff_false in Ht. rewrite truthy_nonempty in Ht. apply dec_stable in Ht.
    destruct (ephemeral h) as [|t l] eqn:He; [by apply read_none|]. apply read_ephemeral; try done. cbn. rewrite He. left.
Qed.
(** the last request is handled and its answer arrives *)
Definition serve (uuid : string) (s : state) : state :=
  match requests s with
  | [r] => let '(a, h) := hub_reply uuid (query r) (at_hub s) in with_token (token_answered a) (dropped 0 (handled 0 a h s))
  | _ => s
  end.
#[local] Existing Instance code_point_order.
Definition uuid_text (n : nat) : string := "t" +:+ pretty n.
Definition one_address (later earlier : string * string) : bool := bool_decide (later = earlier).
Definition ex_reached := reached "https://hub" "key" false uuid_text one_address.
Lemma serve_reached calm turn uuid s : truthy uuid = true → (∀ r, r ∈ requests s → given_up r = false ∧ reply r = None) →
  ex_reached calm turn s → ex_reached calm turn (serve uuid s).
Proof.
  intros Hu Hr0 Hs. unfold serve. destruct (requests s) as [ | r [ | ? ?]] eqn:E; [done| |done].
  pose proof (hub_reply_ok uuid (query r) (at_hub s)) as Hr. destruct (hub_reply uuid (query r) (at_hub s)) as [a h]. cbn in Hr.
  destruct (Hr0 r) as [Hg Hn]; [by left|].
  eapply from_outside; [eapply from_outside; [exact Hs|]|].
  - eapply (handles _ _ s 0 r uuid a h); [by rewrite E|done|done|lia|done].
  - eapply (arrives _ _ (handled 0 a h s) 0 {| query := query r; reply := Some a; given_up := given_up r |}); [|done|done].
    cbn. by rewrite E.
Qed.
Definition just_opened : state := {|
  fingerprints := []; tokenMap := []; token := universal_init;
  requests := [first_request]; updates := []; drawn_tokens := 0; copied := [];
  at_hub := {| ephemeral := []; permanent := None |}; prints := opened [("1"%string, ex_fingerprint "1" "s1" "web")] |}.
(** the list has arrived *)
Definition opening : state := set_fingerprints [ex_fingerprint "1" "s1" "web"] (with_listing Arrived (prints just_opened)) just_opened.
Definition then_do (acts : list act) (s : state) : state :=
  default s (play (draw false) (step "https://hub" "key" uuid_text one_address) acts s).
Definition enabled : state := serve "u1" (then_do [Tick "" "Universal token"]%string (serve "u0" opening)).
Definition made_permanent : state := serve "u2" (then_do [Click "" "Permanent"]%string enabled).
Lemma tokens_opening_reached calm turn : ex_reached calm turn opening.
Proof.
  set (reading := hear Silent (with_listing (Read [ex_fingerprint "1" "s1" "web"]) (prints just_opened)) just_opened).
  assert (ex_reached calm turn reading) as Hr.
  { apply (from_outside _ _ _ _ just_opened); [apply at_start; split_and!; try done; [by eexists|by left]|].
    apply (feeds _ _ just_opened Silent). apply list_read; [done|]. split; [apply NoDup_singleton|]. intros id.
    unfold record_of, jget, just_opened, prints, opened, collection.
    change (live_key (ex_fingerprint "1" "s1" "web")) with "1"%string. rewrite (String.eqb_sym id). by destruct (String.eqb "1" id). }
  replace opening with (hear (ListAnswer [ex_fingerprint "1" "s1" "web"]) (with_listing Arrived (prints reading)) reading) by (vm_compute; reflexivity).
  eapply from_outside; [exact Hr|]. apply (feeds _ _ reading (ListAnswer [ex_fingerprint "1" "s1" "web"])). by apply list_arrives.
Qed.
Lemma enabled_reached calm turn : ex_reached calm turn enabled.
Proof.
  apply serve_reached; [done|by intros r ->%list_elem_of_singleton|].
  apply (play_reachable _ _ _ _ [Tick "" "Universal token"]%string (serve "u0" opening)); [|vm_compute; reflexivity].
  apply serve_reached; [done|by intros r ->%list_elem_of_singleton|]. apply tokens_opening_reached.
Qed.

(** the condition of the last part is needed: the user makes the token permanent and turns it off before the answer comes, the
    client gives up the first request, and the hub handles it after the second; the page shows the token as
    disabled, and the hub accepts it for good *)
Definition turned_off : state := then_do [Click "" "Permanent"; Tick "" "Universal token"]%string enabled.
Definition overtaken : state :=
  let '(a, h) := hub_reply "u2" (default (query first_request) (query <$> requests turned_off !! 1%nat)) (at_hub turned_off) in
  let s := handled 1 a h turned_off in
  let '(b, h') := hub_reply "u3" (default (query first_request) (query <$> requests turned_off !! 0%nat)) (at_hub s) in
  dropped 0 (with_token (token_answered a) (dropped 1 (handled 0 b h' s))).
Example token_not_shown : ex_reached true false overtaken ∧ requests overtaken = []
  ∧ token overtaken = {| ut_token := "u0"; ut_isLoading := false; ut_checked := false; ut_isPermanent := false |}
  ∧ accepted (at_hub overtaken) "u0".
Proof.
  split_and!; [|vm_compute; reflexivity|vm_compute; reflexivity|right; vm_compute; reflexivity].
  unfold overtaken. destruct (hub_reply "u2" _ _) as [a h] eqn:E1. destruct (hub_reply "u3" _ _) as [b h'] eqn:E2.
  pose proof (hub_reply_ok "u2" (default (query first_request) (query <$> requests turned_off !! 1%nat)) (at_hub turned_off)) as R1.
  pose proof (hub_reply_ok "u3" (default (query first_request) (query <$> requests turned_off !! 0%nat)) (at_hub (handled 1 a h turned_off))) as R2.
  rewrite E1 in R1. rewrite E2 in R2. cbn [fst snd] in R1, R2.
  assert (ex_reached true false turned_off) as Hr.
  { apply (play_reachable _ _ _ _ [Click "" "Permanent"; Tick "" "Universal token"]%string enabled); [|vm_compute; reflexivity]. apply enabled_reached. }
  eapply from_outside; [eapply from_outside; [eapply from_outside; [eapply from_outside; [exact Hr|]|]|]|].
  - eapply (handles _ _ _ 1 _ "u2" a h); [vm_compute; reflexivity..|done|exact R1].
  - eapply (handles _ _ _ 0 _ "u3" b h'); [vm_compute; reflexivity..|done|exact R2].
  - eapply (arrives _ _ _ 1 _ a); vm_compute; reflexivity.
  - eapply lost; [vm_compute; reflexivity|done].
Qed.
