(* ===== verification/AddSystemUi.v ===== *)
(** * The dialogs of a system as the user meets them: [components/add-system.tsx]

    [AddSystemButton] with the dialog that adds a system, over the machine of [AddSystem], and the dialog
    that edits one: both are [SystemDialog], drawn here by [dialog_page].  The browser sends the form only
    when its required fields are filled in; the fields of key and token are read-only, so that it does
    not look at them. *)
From Stdlib Require Import QArith ZArith Lia.
From S2P Require Import Prelude JsValue Types SystemsManager AddSystem Dom.
Open Scope nat_scope.

(** ** What both dialogs draw *)

Inductive copy_kind := Compose | Run | Linux | Brew | Windows | FreeBsd.
(** what was copied: an installation for a port and a token, the key, or the token alone *)
Inductive copy := Config (k : copy_kind) (port : option string) (token : string) | PublicKey | Token (token : string).
Definition token_of (c : copy) : option string := match c with Config _ _ t | Token t => Some t | PublicKey => None end.

Record form := { f_name : string; f_host : string; f_port : string; f_tab : string }.
Definition with_name (t : string) (f : form) : form := {| f_name := t; f_host := f_host f; f_port := f_port f; f_tab := f_tab f |}.
Definition with_host (t : string) (f : form) : form := {| f_name := f_name f; f_host := t; f_port := f_port f; f_tab := f_tab f |}.
Definition with_port (t : string) (f : form) : form := {| f_name := f_name f; f_host := f_host f; f_port := t; f_tab := f_tab f |}.
Definition with_tab (t : string) (f : form) : form := {| f_name := f_name f; f_host := f_host f; f_port := f_port f; f_tab := t |}.
(** the browser's check: the port is not required while its field is hidden *)
Definition form_valid (f : form) : bool :=
  truthy (f_name f) && truthy (f_host f) && (isUnixSocket (f_host f) || truthy (f_port f)).
(** [FormData]: every field that has a name *)
Definition form_data (f : form) (publicKey token : string) : jsmap string :=
  [("name", f_name f); ("host", f_host f); ("port", f_port f); ("pkey", publicKey); ("tkn", token)]%string.
Definition copied (k : copy_kind) (f : form) (token : string) : copy := Config k (listen_on (f_host f) (Some (f_port f))) token.

Section Drawing.
Context (hubURL publicKey : string).
Definition copy_text (c : copy) : string :=
  match c with
  | Config Compose port token => docker_compose hubURL port publicKey token
  | Config Run port token => docker_run hubURL port publicKey token
  | Config (Linux | FreeBsd) port token => linux_command hubURL port publicKey token false
  | Config Brew port token => linux_command hubURL port publicKey token true
  | Config Windows port token => windows_command hubURL port publicKey token
  | PublicKey => publicKey
  | Token token => token
  end.

Record handlers E := {
  on_form : (form → form) → E; on_copy : copy → E; on_tokens : E; on_leave : E; on_submit : E }.
Arguments on_form {E}. Arguments on_copy {E}. Arguments on_tokens {E}. Arguments on_leave {E}. Arguments on_submit {E}.
Context {E : Type} (h : handlers E).

Definition intro (tab : string) : screen E :=
  [Text "" (if String.eqb tab "docker"
            then "Copy the docker-compose.yml content for the agent below, or register agents automatically with a"
            else "Copy the installation command for the agent below, or register agents automatically with a");
   Button "" "universal token" true (on_tokens h)].
(** [InputCopy] *)
Definition input_copy (label value : string) (c : copy) : screen E :=
  [Text label value; Button label "Click to copy" true (on_copy h c)].
Definition fields (f : form) (token : string) : screen E :=
  [Input "Name" (f_name f) (λ t, on_form h (with_name t)); Input "Host / IP" (f_host f) (λ t, on_form h (with_host t))]
  ++ when (negb (isUnixSocket (f_host f))) [Input "Port" (f_port f) (λ t, on_form h (with_port t))]
  ++ input_copy "Public Key" publicKey PublicKey ++ input_copy "Token" token (Token token).
(** [CopyButton] with the items of its menu *)
Definition copy_buttons (f : form) (token : string) : screen E :=
  let item label k := Button "copy" label true (on_copy h (copied k f token)) in
  if String.eqb (f_tab f) "docker" then [item "Copy docker compose" Compose; item "Copy docker run" Run]%string
  else [item "Copy Linux command" Linux; item "Homebrew command" Brew; item "Windows command" Windows; item "FreeBSD command" FreeBsd;
        Link "copy" "Manual setup instructions" "https://beszel.dev/guide/agent-installation#binary"]%string.
Definition dialog_page (title save : string) (f : form) (token : string) (quick : screen E) : screen E :=
  [Dialog title (on_leave h); Button "tab" "Docker" true (on_form h (with_tab "docker")); Button "tab" "Binary" true (on_form h (with_tab "binary"))]
  ++ intro (f_tab f) ++ fields f token ++ quick ++ copy_buttons f token ++ [Button "" save true (on_submit h)].

Lemma dialog_offers title save f token quick e : offered (dialog_page title save f token quick) e →
  (∃ g, e = on_form h g) ∨ e = on_tokens h ∨ e = on_leave h ∨ e = on_submit h
  ∨ e = on_copy h PublicKey ∨ e = on_copy h (Token token) ∨ (∃ k, e = on_copy h (copied k f token)) ∨ offered quick e.
Proof.
  unfold dialog_page. rewrite !offered_app. intros [Ho|[Ho|[Ho|[Ho|[Ho|Ho]]]]]; [| | |by auto 9| |].
  - offered_cases Ho by idtac; eauto 9.
  - offered_cases Ho by (unfold intro in Ho); eauto 9.
  - offered_cases Ho by (unfold fields, input_copy in Ho); eauto 9.
  - offered_cases Ho by (unfold copy_buttons in Ho); eauto 9.
  - offered_cases Ho by idtac; eauto 9.
Qed.
End Drawing.
Arguments on_form {E}. Arguments on_copy {E}. Arguments on_tokens {E}. Arguments on_leave {E}. Arguments on_submit {E}.

(** ** The dialog that adds a system *)

Section Add.
Context (hubURL publicKey user : string) (readOnly : bool) (generateToken : nat → string).

Record state := { machine : AddSystem.state; typed : form; copies : list copy; bodies : list (jsmap string) }.
Inductive event := Open | Form (f : form → form) | Quick (q : quick_fields) | Copy (c : copy) | ToTokens | Abandon | Submit.
Definition the_dialog (s : state) : dialog := default new_dialog (shown (machine s)).
(** name and port are not_lost by their fields, the host by the dialog *)
Definition the_form (s : state) : form := with_host (d_host (the_dialog s)) (typed s).
Definition empty_form (tab : string) : form := {| f_name := ""; f_host := ""; f_port := default_port; f_tab := tab |}.
Definition create_body (s : state) : jsmap string :=
  jset "users" user (form_data (the_form s) publicKey (d_token (the_dialog s))).
Definition with_machine (m : AddSystem.state) (f : form) (s : state) : state :=
  {| machine := m; typed := f; copies := copies s; bodies := bodies s |}.
(** a dialog that is closed takes its fields with it; the tab stays *)
Definition closed (e : AddSystem.event) (s : state) : state :=
  with_machine (AddSystem.step generateToken (machine s) e) (empty_form (f_tab (typed s))) s.
(** the fields of name and port do not draw the dialog again, the host and the tab do *)
Definition edited (f : form) (s : state) : state :=
  with_machine (if String.eqb (f_host f) (f_host (the_form s)) && String.eqb (f_tab f) (f_tab (typed s)) then machine s
                else AddSystem.step generateToken (machine s) (HostTyped (f_host f))) f s.
Definition step (e : event) (s : state) : state :=
  match e with
  | Open => with_machine (AddSystem.step generateToken (machine s) Opened) (typed s) s
  | Form g => edited (g (the_form s)) s
  | Quick q => with_machine (AddSystem.step generateToken (machine s) (QuickTyped q)) (typed s) s
  | Copy c => {| machine := machine s; typed := typed s; copies := copies s ++ [c]; bodies := bodies s |}
  | ToTokens | Abandon => closed Closed s
  | Submit =>
      if form_valid (the_form s)
      then closed (Submitted (f_name (the_form s)))
             {| machine := machine s; typed := typed s; copies := copies s; bodies := bodies s ++ [create_body s] |}
      else s
  end.

Definition set_link (b : bool) (q : quick_fields) : quick_fields := {| qf_add := b; qf_local := qf_local q; qf_domain := qf_domain q; qf_category := qf_category q |}.
Definition set_local (t : string) (q : quick_fields) : quick_fields := {| qf_add := qf_add q; qf_local := t; qf_domain := qf_domain q; qf_category := qf_category q |}.
Definition set_domain (t : string) (q : quick_fields) : quick_fields := {| qf_add := qf_add q; qf_local := qf_local q; qf_domain := t; qf_category := qf_category q |}.
Definition set_category (t : string) (q : quick_fields) : quick_fields := {| qf_add := qf_add q; qf_local := qf_local q; qf_domain := qf_domain q; qf_category := t |}.
Definition quick_section (q : quick_fields) : screen event :=
  Checkbox "" "Add to quick links" (qf_add q) true (λ b, Quick (set_link b q))
  :: when (qf_add q) [Input "Category" (qf_category q) (λ t, Quick (set_category t q));
                      Input "Local URL" (qf_local q) (λ t, Quick (set_local t q));
                      Input "Domain URL" (qf_domain q) (λ t, Quick (set_domain t q))].
Definition add_handlers : handlers event :=
  {| on_form := Form; on_copy := Copy; on_tokens := ToTokens; on_leave := Abandon; on_submit := Submit |}.
Definition draw (s : state) : screen event :=
  if readOnly then []
  else if is_open (machine s)
  then dialog_page publicKey add_handlers "Add System" "Add system" (the_form s) (d_token (the_dialog s)) (quick_section (d_quick (the_dialog s)))
  else [Button "" "Add System" true Open].

Inductive outside (s : state) : state → Prop :=
| create_answered i system : outside s (with_machine (AddSystem.step generateToken (machine s) (CreateAnswered i system)) (typed s) s)
| fingerprint_answered i accepted : outside s (with_machine (AddSystem.step generateToken (machine s) (FingerprintAnswered i accepted)) (typed s) s).
Definition first_state (links : list QuickLink) (tab : string) : state :=
  {| machine := AddSystem.start links; typed := empty_form tab; copies := []; bodies := [] |}.
Definition start (links : list QuickLink) (s : state) : Prop := ∃ tab, s = first_state links tab.
Definition reached (links : list QuickLink) : state → Prop := Dom.reachable draw step outside (start links).
(** the dialog is not opened again while a submission waits for its answers *)
Inductive calmly (links : list QuickLink) : state → Prop :=
| calm_start s : start links s → calmly links s
| calm_user s e : calmly links s → offered (draw s) e → (e = Open → pendings (machine s) = []) → calmly links (step e s)
| calm_outside s s' : calmly links s → outside s s' → calmly links s'.

(** *** Theorems *)

Definition promised (s : state) (e : event) : Prop :=
  readOnly = false ∧
  match e with
  | Open => is_open (machine s) = false
  | Copy c => is_open (machine s) = true ∧ ∀ t, token_of c = Some t → t = d_token (the_dialog s)
  | _ => is_open (machine s) = true
  end.
Lemma as_offered_promised s e : offered (draw s) e → promised s e.
Proof.
  unfold draw, promised. destruct readOnly; [intros Ho; offered_cases Ho by idtac|]. destruct (is_open (machine s)) eqn:Hop.
  - intros [[g ->]|[ -> |[ -> |[ -> |[ -> |[ -> |[[k ->]|Ho]]]]]]]%dialog_offers; cbn; try done.
    + split_and!; [done|done|]. by intros t [= <-].
    + split_and!; [done|done|]. by intros t [= <-].
    + offered_cases Ho by (unfold quick_section in Ho).
  - intros Ho. by offered_cases Ho by idtac.
Qed.
(** what is sent has a name, a host and a user, and a port unless the host is a socket *)
Definition body_ok (b : jsmap string) : Prop :=
  (∃ name host port, jget "name" b = Some name ∧ name ≠ "" ∧ jget "host" b = Some host ∧ host ≠ ""
    ∧ jget "port" b = Some port ∧ (isUnixSocket host = false → port ≠ "")) ∧ jget "users" b = Some user.
Lemma create_body_ok s : form_valid (the_form s) = true → body_ok (create_body s).
Proof.
  unfold form_valid. rewrite !andb_true_iff, orb_true_iff, !truthy_nonempty. intros [[Hn Hh] Hp].
  split; [|reflexivity]. exists (f_name (the_form s)), (f_host (the_form s)), (f_port (the_form s)). split_and!; [done..|].
  intros Hu. destruct Hp as [Hp|Hp]; [congruence|done].
Qed.
Lemma edited_rest f s : copies (edited f s) = copies s ∧ bodies (edited f s) = bodies s.
Proof. done. Qed.

(** Fact [add_requests]: whatever is clicked and answered, a request to create a system has a name, a host, the
    user and a port, unless the host is a socket, and a user who may only read makes none; every
    control belongs to the dialog that is open, and copies its token. *)
Theorem add_requests links s : reached links s →
  Forall body_ok (bodies s) ∧ (readOnly = true → bodies s = [] ∧ copies s = [])
  ∧ ∀ e, offered (draw s) e → promised s e.
Proof.
  intros Hs. assert (Forall body_ok (bodies s) ∧ (readOnly = true → bodies s = [] ∧ copies s = [])) as [Hb Hr].
  { revert s Hs. apply page_invariant.
    - intros s (tab & ->). by split.
    - intros s e [Hb Hr] [Hro _]%as_offered_promised. split; [|congruence].
      destruct e; try done. cbn. destruct (form_valid (the_form s)) eqn:Hv; [|done]. cbn.
      apply Forall_app. split; [done|]. apply Forall_singleton. by apply create_body_ok.
    - intros s s' Hi Ho. by destruct Ho. }
  split_and!; [done|done|]. intros e. apply as_offered_promised.
Qed.

(** *** Theorems: the token that was copied *)

Section Calm.
Hypothesis token_nonempty : ∀ n, truthy (generateToken n) = true.
Hypothesis token_injective : ∀ n m, generateToken n = generateToken m → n = m.
Abbreviation m_step := (AddSystem.step generateToken).

Lemma render_next m t : truthy t = true → nextSystemToken m = Some t → nextSystemToken (render generateToken m) = Some t.
Proof.
  intros Ht Hn. unfold render. destruct (shown m) as [d|]; [|done]. case_bool_decide; [done|]. rewrite Hn. cbn. unfold js_or. by rewrite Ht.
Qed.
Lemma render_taken m : taken (render generateToken m) = taken m.
Proof. unfold render. destruct (shown m) as [d|]; [|done]. by case_bool_decide. Qed.
Definition not_lost (t : string) (m : AddSystem.state) : Prop := t ∈ taken m ∨ nextSystemToken m = Some t.
Lemma set_dialog_kept f t m : truthy t = true → not_lost t m → not_lost t (set_dialog generateToken f m).
Proof.
  intros Ht Hk. unfold set_dialog. destruct (shown m) as [d|]; [|done].
  destruct Hk as [Hk|Hk]; [left; by rewrite render_taken|right; by apply render_next].
Qed.
Lemma step_kept m e t : all_ok generateToken m → truthy t = true → not_lost t m → not_lost t (m_step m e).
Proof.
  intros (_ & _ & Hp) Ht Hk. destruct e as [| |host|q|name|i [system|]|i accepted]; cbn [AddSystem.step].
  - destruct Hk as [Hk|Hk]; [left; by rewrite render_taken|right; by apply render_next].
  - by apply set_dialog_kept.
  - by apply set_dialog_kept.
  - by apply set_dialog_kept.
  - destruct (shown m) as [d|]; [|done]. destruct (d_open d); [|done]. by apply set_dialog_kept.
  - destruct (pendings m !! i) as [p|]; [|done]. by destruct (pd_stage p).
  - by destruct (pendings m !! i).
  - destruct Hp as [Hp|(p & Hp & Hn)]; rewrite Hp; [done|]. destruct i; [|done]. cbn.
    destruct (pd_stage p) as [|system]; [done|]. destruct accepted; [|done]. left.
    unfold taken. cbn. rewrite fmap_app. apply elem_of_app. destruct Hk as [Hk|Hk]; [by left|right].
    rewrite Hn in Hk. injection Hk as ->. by left.
Qed.
Definition tokens_kept (s : state) : Prop :=
  ∀ c t, c ∈ copies s → token_of c = Some t → truthy t = true ∧ not_lost t (machine s).
Definition inv (links : list QuickLink) (s : state) : Prop := AddSystem.reachable generateToken links (machine s) ∧ tokens_kept s.
Lemma machine_inv links s e f bs : inv links s → calm e (machine s) →
  inv links {| machine := m_step (machine s) e; typed := f; copies := copies s; bodies := bs |}.
Proof.
  intros [Hr Hk] Hc. split; [by apply reach_step|]. intros c t Hin Ht. destruct (Hk c t Hin Ht) as [Htr Hkt].
  split; [done|]. apply step_kept; [|done..]. by eapply reachable_ok.
Qed.
Lemma as_inv_user links s e : inv links s → offered (draw s) e → (e = Open → pendings (machine s) = []) → inv links (step e s).
Proof.
  intros Hi [_ Ho]%as_offered_promised Hc. destruct e as [|g|q|c| | |]; cbn [step].
  - apply (machine_inv _ _ Opened); [done|]. by apply Hc.
  - unfold edited. destruct (_ && _); [done|]. by apply (machine_inv _ _ (HostTyped _)).
  - by apply (machine_inv _ _ (QuickTyped q)).
  - destruct Ho as [Hop Ht]. pose proof Hi as [Hr Hk]. split; [done|]. intros c' t Hin Htok.
    apply elem_of_app in Hin as [Hin| ->%list_elem_of_singleton]; [by apply (Hk c')|].
    rewrite (Ht t Htok). pose proof (reachable_ok generateToken token_nonempty token_injective _ _ Hr) as (Hok & Hd & _).
    unfold is_open, the_dialog in *. cbn [machine]. destruct (shown (machine s)) as [d|] eqn:E; [|done]. cbn.
    destruct (Hd d E) as [_ Hn]. destruct (Hn Hop) as [Hn' _]. split; [|by right].
    eapply generated_truthy; [done|]. by apply (tok_next generateToken _ Hok).
  - by apply (machine_inv _ _ Closed).
  - by apply (machine_inv _ _ Closed).
  - destruct (form_valid _); [|done]. by apply (machine_inv _ _ (Submitted _)).
Qed.

(** C21: as long as the dialog is not opened again while a submission waits, a token that was copied, alone or
    in the commands for an agent, is that of a system that was created, or it is the one that the next system
    gets, however often the dialog was closed, opened and edited since; and no two systems share a token. *)
Theorem copied_tokens links s : calmly links s →
  (∀ c t, c ∈ copies s → token_of c = Some t → t ∈ taken (machine s) ∨ nextSystemToken (machine s) = Some t)
  ∧ NoDup (taken (machine s))
  ∧ (is_open (machine s) = true → nextSystemToken (machine s) = Some (d_token (the_dialog s)) ∧ d_token (the_dialog s) ∉ taken (machine s)).
Proof.
  intros Hs. assert (inv links s) as [Hr Hk].
  { induction Hs as [s (tab & ->)|s e Hs IH Ho Hc|s s' Hs IH Ho].
    - split; [constructor|]. intros c t ?%elem_of_nil. done.
    - by apply as_inv_user.
    - destruct Ho; by apply machine_inv. }
  apply reachable_ok in Hr as (Hok & Hd & _); [|done..].
  split_and!; [|apply Hok|].
  - intros c t Hin Ht. by apply (Hk c t Hin Ht).
  - unfold is_open, the_dialog. destruct (shown (machine s)) as [d|] eqn:E; [|done]. cbn. intros Hop.
    destruct (Hd d E) as [_ Hn]. destruct (Hn Hop) as [Hn' _]. split; [done|]. by apply (tok_next generateToken _ Hok).
Qed.
End Calm.
End Add.

(** ** The dialog that edits a system *)

(** the fields start with what the system has; a missing port is the standard one *)
Definition system_form (system : SystemRecord) (tab : string) : form := {|
  f_name := sys_name system; f_host := sys_host system;
  f_port := if truthy (sys_port system) then sys_port system else default_port; f_tab := tab |}.

Section Edit.
Context (publicKey user : string).

(** the record is that of the row the dialog belongs to, which changes, also to that of another system; the host
    is the dialog's own, and stays when the dialog is closed; [e_asked] are the systems whose token is being asked for *)
Record edit_state := {
  e_system : SystemRecord; e_open : bool; e_form : form; e_token : string; tokenMap : jsmap string; e_asked : list string;
  e_copies : list copy; e_sent : list (string * jsmap string) }.
Inductive edit_event := EditForm (f : form → form) | EditCopy (c : copy) | EditToTokens | EditLeave | EditSubmit.
Definition with_form (o : bool) (f : form) (s : edit_state) : edit_state := {|
  e_system := e_system s; e_open := o; e_form := f; e_token := e_token s; tokenMap := tokenMap s; e_asked := e_asked s;
  e_copies := e_copies s; e_sent := e_sent s |}.
Definition with_edit_token (t : string) (m : jsmap string) (l : list string) (s : edit_state) : edit_state := {|
  e_system := e_system s; e_open := e_open s; e_form := e_form s; e_token := t; tokenMap := m; e_asked := l;
  e_copies := e_copies s; e_sent := e_sent s |}.
(** the content is put up anew with the fields of the system as it is, and with the host the dialog has *)
Definition reopened (s : edit_state) : edit_state :=
  with_form true (with_host (f_host (e_form s)) (system_form (e_system s) (f_tab (e_form s)))) s.
(** [onCloseAutoFocus]: the host becomes that of the system *)
Definition edit_closed (s : edit_state) : edit_state := with_form false (system_form (e_system s) (f_tab (e_form s))) s.
Definition edit_body (s : edit_state) : jsmap string := edit_submit user (form_data (e_form s) publicKey (e_token s)).
Definition edit_step (e : edit_event) (s : edit_state) : edit_state :=
  match e with
  | EditForm g => with_form (e_open s) (g (e_form s)) s
  | EditCopy c => {| e_system := e_system s; e_open := e_open s; e_form := e_form s; e_token := e_token s; tokenMap := tokenMap s;
                     e_asked := e_asked s; e_copies := e_copies s ++ [c]; e_sent := e_sent s |}
  | EditToTokens | EditLeave => edit_closed s
  | EditSubmit =>
      if form_valid (e_form s)
      then edit_closed {| e_system := e_system s; e_open := e_open s; e_form := e_form s; e_token := e_token s; tokenMap := tokenMap s;
                          e_asked := e_asked s; e_copies := e_copies s;
                          e_sent := e_sent s ++ [(sys_id (e_system s), edit_body s)] |}
      else s
  end.
Definition edit_handlers : handlers edit_event :=
  {| on_form := EditForm; on_copy := EditCopy; on_tokens := EditToTokens; on_leave := EditLeave; on_submit := EditSubmit |}.
Definition edit_draw (s : edit_state) : screen edit_event :=
  when (e_open s) (dialog_page publicKey edit_handlers "Edit System" "Save system" (e_form s) (e_token s) []).
(** the effect for the token: from the map of tokens, or by a query; the client gives up an earlier query for the same system *)
Definition token_effect (s : edit_state) : edit_state :=
  match jget (sys_id (e_system s)) (tokenMap s) with
  | Some t => with_edit_token t (tokenMap s) (e_asked s) s
  | None => with_edit_token (e_token s) (tokenMap s) (List.filter (λ i, negb (String.eqb i (sys_id (e_system s)))) (e_asked s) ++ [sys_id (e_system s)]) s
  end.
Definition edit_first (system : SystemRecord) (tab : string) (tokens : jsmap string) : edit_state := token_effect {|
  e_system := system; e_open := true; e_form := system_form system tab; e_token := ""; tokenMap := tokens;
  e_asked := []; e_copies := []; e_sent := [] |}.
(** the effect runs again for another system *)
Definition system_changed (r : SystemRecord) (s : edit_state) : edit_state :=
  let s' := {| e_system := r; e_open := e_open s; e_form := e_form s; e_token := e_token s; tokenMap := tokenMap s;
               e_asked := e_asked s; e_copies := e_copies s; e_sent := e_sent s |} in
  if String.eqb (sys_id r) (sys_id (e_system s)) then s' else token_effect s'.
(** the menu opens the dialog again; the record changes; the effect runs again after a system was added; a query is answered, or
    fails.  With [still] the row keeps its system, and the host of it while the dialog is closed *)
Inductive edit_outside (still : bool) (s : edit_state) : edit_state → Prop :=
| edit_reopened : e_open s = false → edit_outside still s (reopened s)
| record_changes r : (still = true → sys_id r = sys_id (e_system s) ∧ (e_open s = false → sys_host r = sys_host (e_system s))) →
    edit_outside still s (system_changed r s)
| effect_again : edit_outside still s (token_effect s)
| token_answered before id after (answer : option string) : e_asked s = before ++ id :: after →
    edit_outside still s (match answer with
      | Some t => with_edit_token t (jset id t (tokenMap s)) (before ++ after) s
      | None => with_edit_token (e_token s) (tokenMap s) (before ++ after) s
      end).
Definition edit_start (s : edit_state) : Prop := ∃ system tab tokens, s = edit_first system tab tokens.
Definition edit_reached (still : bool) : edit_state → Prop := Dom.reachable edit_draw edit_step (edit_outside still) edit_start.

Definition edit_promised (s : edit_state) (e : edit_event) : Prop :=
  e_open s = true ∧ match e with EditCopy c => ∀ t, token_of c = Some t → t = e_token s | _ => True end.
Lemma edit_offered_promised s e : offered (edit_draw s) e → edit_promised s e.
Proof.
  unfold edit_draw. rewrite offered_when. intros [Ho Hd]. split; [done|]. revert Hd.
  intros [[g ->]|[ -> |[ -> |[ -> |[ -> |[ -> |[[k ->]|Hq]]]]]]]%dialog_offers; cbn; try done.
  - by intros t [= <-].
  - by intros t [= <-].
  - by offered_cases Hq by idtac.
Qed.
(** the fields that are not shown change as well: the status is pending and the only user is the one who saves *)
Definition edit_body_ok (b : jsmap string) : Prop :=
  body_ok user b ∧ jget "status" b = Some "pending"%string.
Definition sent_ok (x : string * jsmap string) : Prop := edit_body_ok x.2.
Lemma edit_body_sent s : form_valid (e_form s) = true → edit_body_ok (edit_body s).
Proof.
  unfold form_valid. rewrite !andb_true_iff, orb_true_iff, !truthy_nonempty. intros [[Hn Hh] Hp].
  split; [|reflexivity]. split; [|reflexivity]. exists (f_name (e_form s)), (f_host (e_form s)), (f_port (e_form s)). split_and!; [done..|].
  intros Hu. destruct Hp as [Hp|Hp]; [congruence|done].
Qed.
Lemma effect_frame s : let s' := token_effect s in
  e_system s' = e_system s ∧ e_open s' = e_open s ∧ e_form s' = e_form s ∧ e_sent s' = e_sent s ∧ tokenMap s' = tokenMap s.
Proof. cbv zeta. unfold token_effect. by destruct (jget _ _). Qed.
Lemma changed_frame r s : let s' := system_changed r s in
  e_system s' = r ∧ e_open s' = e_open s ∧ e_form s' = e_form s ∧ e_sent s' = e_sent s ∧ tokenMap s' = tokenMap s.
Proof.
  cbv zeta. unfold system_changed. destruct (String.eqb _ _); [done|].
  match goal with |- context [token_effect ?x] => destruct (effect_frame x) as (-> & -> & -> & -> & ->) end. done.
Qed.

(** the token is the system's as it is remembered, none before it is known, and no other system is asked for *)
Definition token_ok (s : edit_state) : Prop :=
  e_token s = default "" (jget (sys_id (e_system s)) (tokenMap s)) ∧ Forall (λ i, i = sys_id (e_system s)) (e_asked s).
Definition host_ok (s : edit_state) : Prop := e_open s = false → f_host (e_form s) = sys_host (e_system s).
Lemma effect_token s : token_ok s → token_ok (token_effect s).
Proof.
  intros [Ht Ha]. unfold token_ok, token_effect. destruct (jget (sys_id (e_system s)) (tokenMap s)) as [t|] eqn:E; cbn; rewrite ?E; [done|].
  split; [by rewrite Ht|]. apply Forall_app. split; [|by apply Forall_singleton].
  apply Forall_forall. intros i [Hi _]%elem_of_filter_bool. by eapply Forall_forall in Ha.
Qed.
Lemma still_outside s s' : token_ok s → host_ok s → edit_outside true s s' → token_ok s' ∧ host_ok s'.
Proof.
  intros [Ht Ha] Hh [Hop|r Hr| |before id after answer E].
  - done.
  - destruct (Hr eq_refl) as [E Eh]. unfold system_changed. rewrite (proj2 (String.eqb_eq _ _) E). split.
    + unfold token_ok. cbn. by rewrite E.
    + intros Hop. cbn in *. by rewrite Eh, Hh.
  - split; [by apply effect_token|]. unfold host_ok. destruct (effect_frame s) as (-> & -> & -> & _). done.
  - rewrite E in Ha. apply Forall_app in Ha as [Hb [Hi Haf]%Forall_cons]. subst id.
    destruct answer as [t|]; (split; [|done]); unfold token_ok; cbn; [rewrite jget_jset_eq|]; (split; [done|by apply Forall_app]).
Qed.

(** C36: a change that is sent has a name, a host and a port unless the host is a socket, sets the status to
    pending and leaves the user who saved it as the only user; a token that is copied is the one that is shown; a dialog that is opened again starts with
    the name and the port of the system, and the tab.  While the row of the dialog keeps its system, and the system its host
    while the dialog is closed, also every change is sent for that system, the token that is shown is the system's as it is remembered, and none before it is
    known, and the dialog starts with the host of the system. *)
Theorem edit_requests still s : edit_reached still s →
  Forall sent_ok (e_sent s)
  ∧ (∀ e, offered (edit_draw s) e → edit_promised s e)
  ∧ (∃ host, e_form (reopened s) = with_host host (system_form (e_system s) (f_tab (e_form s)))
       ∧ (still = true → e_open s = false → host = sys_host (e_system s)))
  ∧ (still = true → token_ok s ∧ Forall (λ x, x.1 = sys_id (e_system s)) (e_sent s)).
Proof.
  intros Hs. assert (Forall sent_ok (e_sent s)) as Hb.
  { revert s Hs. apply page_invariant.
    - intros s (system & tab & tokens & ->). unfold edit_first. by destruct (effect_frame
        {| e_system := system; e_open := true; e_form := system_form system tab; e_token := ""; tokenMap := tokens;
           e_asked := []; e_copies := []; e_sent := [] |}) as (_ & _ & _ & -> & _).
    - intros s e Hb _. destruct e; cbn; try done. destruct (form_valid (e_form s)) eqn:Hv; [|done]. cbn. apply Forall_app. split; [done|].
      apply Forall_singleton. by apply edit_body_sent.
    - intros s s' Hb [Hop|r _| |before id after answer E]; [done| | |by destruct answer].
      + by destruct (changed_frame r s) as (_ & _ & _ & -> & _).
      + by destruct (effect_frame s) as (_ & _ & _ & -> & _). }
  assert (still = true → (token_ok s ∧ host_ok s) ∧ Forall (λ x, x.1 = sys_id (e_system s)) (e_sent s)) as Hst.
  { intros ->. clear Hb. revert s Hs. apply page_invariant.
    - intros s (system & tab & tokens & ->). unfold edit_first, token_effect. cbn. destruct (jget (sys_id system) tokens) as [t|] eqn:E;
        cbn; unfold token_ok, host_ok; cbn; rewrite E; (split; [split; [split; [done|]|done]|done]); by repeat constructor.
    - intros s e [[Ht Hh] Hi] [Hop _]%edit_offered_promised. destruct e; cbn; try done.
      + split; [split; [done|]|done]. unfold host_ok. cbn. congruence.
      + destruct (form_valid (e_form s)); [|done]. split; [done|]. cbn. apply Forall_app. split; [done|]. by apply Forall_singleton.
    - intros s s' [[Ht Hh] Hi] Ho. split; [by eapply still_outside|].
      destruct Ho as [Hop|r Hr| |before id after answer E]; [done| | |by destruct answer].
      + destruct (changed_frame r s) as (-> & _ & _ & -> & _). by rewrite (proj1 (Hr eq_refl)).
      + by destruct (effect_frame s) as (-> & _ & _ & -> & _). }
  split_and!; [done|apply edit_offered_promised| |intros E; destruct (Hst E) as [[? _] ?]; done].
  exists (f_host (e_form s)). split; [done|]. intros E Hop. destruct (Hst E) as [[_ Hh] _]. by apply Hh.
Qed.
End Edit.

(** ** Visits *)

(** the commands are copied, the dialog is left, opened again and sent: the system gets the token that was copied *)
Definition copy_and_leave : list act :=
  [Click "" "Add System"; Click "copy" "Copy docker compose"; Leave; Click "" "Add System"; Type_ "Name" "web"; Type_ "Host / IP" "10.0.0.2";
   Click "" "Add system"]%string.
Fixpoint play_calmly (acts : list act) (s : state) : option state :=
  match acts with
  | [] => Some s
  | a :: acts =>
      e ← perform a (draw "key" false s);
      match e, pendings (machine s) with
      | Open, _ :: _ => None
      | _, _ => play_calmly acts (step "key" "me" numbered e s)
      end
  end.
Lemma calm_play acts s s' : calmly "key" "me" false numbered [] s → play_calmly acts s = Some s' → calmly "key" "me" false numbered [] s'.
Proof.
  revert s. induction acts as [|a acts IH]; intros s Hs; cbn [play_calmly]; [by intros [= <-]|].
  destruct (perform a (draw "key" false s)) as [e|] eqn:F; [|done]. apply perform_offered in F. cbn [mbind option_bind]. intros Hp.
  apply (IH (step "key" "me" numbered e s)); [|by destruct e; first [exact Hp|destruct (pendings (machine s))]].
  apply calm_user; [done..|]. intros ->. by destruct (pendings (machine s)).
Qed.
Definition add_visit (acts : list act) (s : state) : state := default s (play_calmly acts s).
Definition ex_sent : state := add_visit copy_and_leave (first_state [] "docker").
Example ex_sent_copies : copies ex_sent = [Config Compose (Some "45876"%string) (numbered 0)] ∧ length (bodies ex_sent) = 1.
Proof. vm_compute. by split. Qed.
Definition answer_both (s : state) : state :=
  let created := with_machine (AddSystem.step numbered (machine s) (CreateAnswered 0 (Some "s1"%string))) (typed s) s in
  with_machine (AddSystem.step numbered (machine created) (FingerprintAnswered 0 true)) (typed created) created.
Definition ex_added : state := answer_both ex_sent.

Lemma copied_tokens_witness : calmly "key" "me" false numbered [] ex_added ∧ taken (machine ex_added) = [numbered 0]
  ∧ (numbered 0 ∈ taken (machine ex_added) ∨ nextSystemToken (machine ex_added) = Some (numbered 0)).
Proof.
  assert (calmly "key" "me" false numbered [] ex_added) as H.
  { eapply calm_outside; [eapply calm_outside|apply fingerprint_answered]; [|apply create_answered].
    apply (calm_play copy_and_leave (first_state [] "docker")); [apply calm_start; by exists "docker"%string|]. by vm_compute. }
  split; [done|]. split; [by vm_compute|].
  apply (proj1 (copied_tokens "key" "me" false numbered numbered_truthy numbered_injective [] ex_added H)
           (Config Compose (Some "45876"%string) (numbered 0))); [|done].
  vm_compute. left.
Defined.
Lemma add_requests_witness : Forall (body_ok "me") (bodies ex_sent) ∧ length (bodies ex_sent) = 1.
Proof.
  split; [|by vm_compute]. apply (add_requests "key" "me" false numbered []).
  apply (play_reachable _ _ _ _ copy_and_leave (first_state [] "docker")); [apply at_start; by exists "docker"%string|]. by vm_compute.
Defined.

Definition ex_shared : SystemRecord := example_system "s1" "web" Status_Paused.
Definition edit_visit (acts : list act) (s : edit_state) : edit_state := default s (play (edit_draw "key") (edit_step "key" "me") acts s).
Definition rename : list act := [Type_ "Name" "web 2"; Click "" "Save system"]%string.
Definition ex_edited : edit_state := edit_visit rename (edit_first ex_shared "docker" []).
(** a paused system that is renamed: it is pending afterwards, and only the user who renamed it has it *)
Example renamed_body : (λ x, (x.1, jget "name" x.2, jget "users" x.2, jget "status" x.2)) <$> e_sent ex_edited
  = [("s1", Some "web 2", Some "me", Some "pending")]%string.
Proof. vm_compute. reflexivity. Qed.
Definition ex_edit_reached := edit_reached "key" "me".
Lemma first_reached still system : ex_edit_reached still (edit_first system "docker" []).
Proof. apply at_start. by exists system, "docker"%string, []. Qed.
Lemma edit_requests_witness : Forall (sent_ok "me") (e_sent ex_edited) ∧ length (e_sent ex_edited) = 1.
Proof.
  split; [|by vm_compute]. apply (edit_requests "key" "me" true).
  apply (play_reachable _ _ _ _ rename (edit_first ex_shared "docker" [])); [apply first_reached|]. by vm_compute.
Defined.

(** the conditions are needed: a host that is changed in the dialog comes back in the dialog when it is opened again, and would be saved
    with the next change; and a row that gets another system while its dialog is open saves the name and the host of the
    one for the other *)
Definition with_sys_host (h : string) (r : SystemRecord) : SystemRecord := {|
  sys_id := sys_id r; sys_name := sys_name r; sys_host := h; sys_status := sys_status r; sys_port := sys_port r; sys_info := sys_info r |}.
Definition moved_host : edit_state :=
  system_changed (with_sys_host "10.0.0.9" ex_shared) (edit_visit [Type_ "Host / IP" "10.0.0.9"; Click "" "Save system"]%string (edit_first ex_shared "docker" [])).
Definition ex_other : SystemRecord := with_sys_host "10.0.0.7" (example_system "s2" "db" Status_Up).
Definition moved_row : edit_state := edit_visit [Click "" "Save system"]%string (system_changed ex_other (edit_first ex_shared "docker" [])).
Example stale_fields :
  (ex_edit_reached false (reopened moved_host) ∧ sys_host (e_system (reopened moved_host)) = "10.0.0.9"%string
   ∧ f_host (e_form (reopened moved_host)) = sys_host ex_shared ∧ sys_host ex_shared ≠ "10.0.0.9"%string)
  ∧ ex_edit_reached false moved_row
  ∧ (λ x, (x.1, jget "name" x.2, jget "host" x.2)) <$> e_sent moved_row = [("s2"%string, Some "web"%string, Some (sys_host ex_shared))].
Proof.
  split; [split_and!; [|by vm_compute..]|split; [|by vm_compute]].
  - eapply from_outside; [eapply from_outside; [|by apply (record_changes false)]|by apply edit_reopened].
    apply (play_reachable _ _ _ _ [Type_ "Host / IP" "10.0.0.9"; Click "" "Save system"]%string (edit_first ex_shared "docker" [])); [apply first_reached|by vm_compute].
  - apply (play_reachable _ _ _ _ [Click "" "Save system"]%string (system_changed ex_other (edit_first ex_shared "docker" []))); [|by vm_compute].
    eapply from_outside; [apply first_reached|]. by apply (record_changes false).
Qed.
