(* ===== verification/HistoryUi.v ===== *)
(** * The alert history as the user meets it: [components/routes/settings/alerts-history-data-table.tsx]
    with the columns of [components/alerts-history-columns.tsx]

    The filter, the head, the rows of a page with their boxes, the controls of the selection, the dialog
    before a deletion, the pages, and what comes in between: the answer of the first list, which is asked for while the
    subscription is being set up, the messages of the subscription, and the ends of deletions.  The library's
    part is [TableLib], [PageLib] and [RowModel]. *)
From Stdlib Require Import Ascii QArith Qround ZArith Lia.
From S2P Require Import Prelude JsValue Types Utils Live Alerts AlertHistory Dom TableLib.
Import Feed.
Open Scope nat_scope.

Section Page.
Context `{DateParse} `{ShortDateFormat} `{RowModelLaws} `{PL : PageLibLaws} {T : TableLib (nat * AlertsHistoryRecord)}
        {TL : TableLibLaws T} (num_str : Q → string).

(** ** State and handlers *)

Record state := {
  data : list AlertsHistoryRecord; sorting : SortingState; globalFilter : string; pagination : PaginationState;
  rowSelection : list nat; deleteOpen : bool;
  deletions : list (list string);                 (* [handleBulkDelete] under way *)
  exports : list (option (option string));        (* what [handleExportCSV] has made *)
  toasts : list string; server : feed AlertsHistoryRecord }.
Inductive event :=
| SortHead (column : string) | ToggleAll (b : bool) | ToggleRow (i : nat) (b : bool) | SetFilter (text : string)
| SetPageSize (value : string) | FirstPage | PreviousPage | NextPage | LastPage
| OpenDelete | CloseDelete | Continue | Export.

Definition with_rows (d : list AlertsHistoryRecord) (so : SortingState) (f : string) (p : PaginationState) (s : state) : state := {|
  data := d; sorting := so; globalFilter := f; pagination := p; rowSelection := rowSelection s; deleteOpen := deleteOpen s;
  deletions := deletions s; exports := exports s; toasts := toasts s; server := server s |}.
Definition with_page (p : PaginationState) (s : state) : state := with_rows (data s) (sorting s) (globalFilter s) p s.
Definition with_selection (sel : list nat) (s : state) : state := {|
  data := data s; sorting := sorting s; globalFilter := globalFilter s; pagination := pagination s; rowSelection := sel;
  deleteOpen := deleteOpen s; deletions := deletions s; exports := exports s; toasts := toasts s; server := server s |}.
Definition with_deletion (b : bool) (l : list (list string)) (s : state) : state := {|
  data := data s; sorting := sorting s; globalFilter := globalFilter s; pagination := pagination s;
  rowSelection := rowSelection s; deleteOpen := b; deletions := l; exports := exports s; toasts := toasts s;
  server := server s |}.

(** *** The rows: each with its position in the data *)

Definition numbered (s : state) : list (nat * AlertsHistoryRecord) := imap pair (data s).
(** [getFilteredRowModel]: the global filter looks at the record, so at every column alike; an empty
    text filters nothing; the dates of the server can be formatted *)
Definition filtered (s : state) : list (nat * AlertsHistoryRecord) :=
  if truthy (globalFilter s) then List.filter (λ r, default false (history_filter r.2 (globalFilter s))) (numbered s)
  else numbered s.
Definition sorted (s : state) : list (nat * AlertsHistoryRecord) := getSortedRowModel (sorting s) (filtered s).
Definition page_model (s : state) : list (nat * AlertsHistoryRecord) := getPaginationRows (pagination s) (sorted s).
Definition is_selected (s : state) (i : nat) : bool := bool_decide (i ∈ rowSelection s).
(** [getFilteredSelectedRowModel], and the identifiers of [getSelectedRowModel] *)
Definition filtered_selected (s : state) : list (nat * AlertsHistoryRecord) := List.filter (λ r, is_selected s r.1) (filtered s).
Definition selectedIds (s : state) : list string := ah_id <$> getSelectedRows (rowSelection s) (data s).

Definition step (e : event) (s : state) : state :=
  match e with
  | SortHead id => with_rows (data s) (toggleSorting id (bool_decide (getIsSorted id (sorting s) = Some false)) (sorting s))
                     (globalFilter s) (autoResetPageIndex (pagination s)) s
  | ToggleAll b => with_selection (toggleAllPageRowsSelected ((page_model s).*1) b (rowSelection s)) s
  | ToggleRow i b => with_selection (toggleSelected i b (rowSelection s)) s
  | SetFilter t => with_rows (data s) (sorting s) t (autoResetPageIndex (pagination s)) s
  | SetPageSize v => with_page (setPageSize (match Number v with Fin q => Z.to_nat (Qfloor q) | _ => 0 end) (pagination s)) s
  | FirstPage => with_page (setPageIndex 0 (pagination s)) s
  | PreviousPage => with_page (setPageIndex (pred (pageIndex (pagination s))) (pagination s)) s
  | NextPage => with_page (setPageIndex (S (pageIndex (pagination s))) (pagination s)) s
  | LastPage => with_page (setPageIndex (pred (getPageCount (pagination s) (sorted s))) (pagination s)) s
  | OpenDelete => with_deletion true (deletions s) s
  | CloseDelete => with_deletion false (deletions s) s
  | Continue => with_deletion false (deletions s ++ [selectedIds s]) s
  | Export => {| data := data s; sorting := sorting s; globalFilter := globalFilter s; pagination := pagination s;
      rowSelection := rowSelection s; deleteOpen := deleteOpen s; deletions := deletions s;
      exports := exports s ++ [handleExportCSV num_str (getSelectedRows (rowSelection s) (data s))]; toasts := toasts s;
      server := server s |}
  end.
(** the end of a deletion: the selection is taken back, or the error is shown *)
Definition deleted (ok : bool) (s : state) : state :=
  if ok then with_selection [] s
  else {| data := data s; sorting := sorting s; globalFilter := globalFilter s; pagination := pagination s;
          rowSelection := rowSelection s; deleteOpen := deleteOpen s; deletions := deletions s; exports := exports s;
          toasts := toasts s ++ ["Failed to delete records."%string]; server := server s |}.
(** [setData]: the list is replaced, or changed by a message *)
Definition set_data (d : list AlertsHistoryRecord) (s : state) : state :=
  with_rows d (sorting s) (globalFilter s) (autoResetPageIndex (pagination s)) s.
Definition with_server (f : feed AlertsHistoryRecord) (s : state) : state := {|
  data := data s; sorting := sorting s; globalFilter := globalFilter s; pagination := pagination s;
  rowSelection := rowSelection s; deleteOpen := deleteOpen s; deletions := deletions s; exports := exports s; toasts := toasts s;
  server := f |}.
Definition received (a : action) (r : AlertsHistoryRecord) (s : state) : state := set_data (history_event a r (data s)) s.

(** ** What is drawn *)

Definition heads : list (string * string * bool) :=
  [("system", "System", true); ("name", "Name", true); ("value", "Value", false); ("state", "State", true);
   ("created", "Created", true); ("resolved", "Resolved", true); ("duration", "Duration", true)]%string.
Definition table_head (s : state) : screen event :=
  Checkbox "head" "Select all" (forallb (λ r, is_selected s r.1) (page_model s) && (0 <? length (page_model s))) true ToggleAll
  :: rows (λ h : string * string * bool, let '(id, label, sorts) := h in [Button "head" label sorts (SortHead id)]) heads.
Definition date_text (t : string) : string := default "" (formatShortDate t).
Definition table_row (s : state) (r : nat * AlertsHistoryRecord) : screen event :=
  let '(i, x) := r in
  let row := ah_id x in
  [Checkbox row "Select row" (is_selected s i) true (ToggleRow i); Text row (display_system x); Text row (display_name x);
   Text row (match value_cell x with None => "Down" | Some (v, unit) => num_str v +:+ default "" unit end);
   Text row (if is_resolved x then "Resolved" else "Active"); Text row (date_text (ah_created x))]
  ++ match ah_resolved x with Some t => when (truthy t) [Text row (date_text t)] | None => [] end
  ++ (let d := formatDuration (Some (ah_created x)) (ah_resolved x) in when (truthy d) [Text row d]).
Definition selection_controls (s : state) : screen event :=
  when (0 <? length (filtered_selected s)) [Button "" "Delete" true OpenDelete; Button "" "Export" true Export].
Definition size_text (n : nat) : string := pretty n.
Definition pages (s : state) : screen event :=
  let p := pagination s in
  let back := 0 <? pageIndex p in
  let count := getPageCount p (sorted s) in
  let on := S (pageIndex p) <? count in
  [Text "" (size_text (length (filtered_selected s)) +:+ " of " +:+ size_text (length (filtered s)) +:+ " row(s) selected.");
   Select "Rows per page" (size_text (pageSize p)) ((λ n, (size_text n, size_text n)) <$> [10; 20; 50; 100; 200]) SetPageSize;
   Text "" ("Page " +:+ size_text (S (pageIndex p)) +:+ " of " +:+ size_text count);
   Button "" "Go to first page" back FirstPage; Button "" "Go to previous page" back PreviousPage;
   Button "" "Go to next page" on NextPage; Button "" "Go to last page" on LastPage].
Definition page (s : state) : screen event :=
  [Text "" "Alert History"; Text "" "View your 200 most recent alerts."]
  ++ selection_controls s ++ [Input "Filter..." (globalFilter s) SetFilter] ++ table_head s
  ++ (if 0 <? length (page_model s) then rows (table_row s) (page_model s) else [Text "" "No results."]) ++ pages s.
Definition dialog : screen event :=
  [Dialog "Are you sure?" CloseDelete; Text "" "This will permanently delete all selected records from the database.";
   Button "" "Cancel" true CloseDelete; Button "" "Continue" true Continue].
(** the dialog is drawn with the controls of the selection *)
Definition dialog_shown (s : state) : bool := deleteOpen s && (0 <? length (filtered_selected s)).
Definition draw (s : state) : screen event := if dialog_shown s then dialog else page s.

(** the 200 most recent alerts are a part of those there are *)
Definition most_recent (l : list AlertsHistoryRecord) (m : jsmap AlertsHistoryRecord) : Prop := shows_part l m ∧ length l ≤ 200.
Definition hear (o : heard AlertsHistoryRecord) (s : state) : state :=
  match o with ListAnswer items => set_data items s | Message a r => received a r s | Silent | ListFailed => s end.
Inductive outside (calm : bool) (s : state) : state → Prop :=
| feeds o f : feed_step calm most_recent (server s) o f → outside calm s (with_server f (hear o s))
| deletion_ends before ids after send : deletions s = before ++ ids :: after →
    outside calm s (deleted (bulk_loop send ids [] 0).2 (with_deletion (deleteOpen s) (before ++ after) s)).
Definition start (s : state) : Prop :=
  data s = [] ∧ rowSelection s = [] ∧ deleteOpen s = false ∧ deletions s = [] ∧ globalFilter s = ""%string ∧ sorting s = []
  ∧ ∃ m, server s = opened m.
Definition reached (calm : bool) : state → Prop := reachable draw step (outside calm) start.

(** ** Theorems *)

Definition promised (s : state) (e : event) : Prop :=
  match e with
  | SortHead id => dialog_shown s = false ∧ id ≠ "value"%string
  | ToggleRow i b => dialog_shown s = false ∧ b = negb (is_selected s i) ∧ ∃ x, (i, x) ∈ page_model s ∧ data s !! i = Some x
  | ToggleAll _ | SetFilter _ => dialog_shown s = false
  | SetPageSize v => dialog_shown s = false ∧ v ∈ size_text <$> [10; 20; 50; 100; 200]
  | FirstPage | PreviousPage => dialog_shown s = false ∧ 0 < pageIndex (pagination s)
  | NextPage | LastPage => dialog_shown s = false ∧ S (pageIndex (pagination s)) < getPageCount (pagination s) (sorted s)
  | OpenDelete | Export => dialog_shown s = false ∧ filtered_selected s ≠ []
  | CloseDelete | Continue => deleteOpen s = true ∧ filtered_selected s ≠ []
  end.
Lemma filtered_row s i x : (i, x) ∈ filtered s → data s !! i = Some x.
Proof.
  assert ((i, x) ∈ numbered s → data s !! i = Some x) as Hn.
  { unfold numbered. intros (j & Hj)%list_elem_of_lookup. rewrite list_lookup_imap in Hj.
    destruct (data s !! j) eqn:E; [|done]. by injection Hj as -> ->. }
  unfold filtered. destruct (truthy (globalFilter s)); [|done]. by intros [Hx _]%elem_of_filter_bool; apply Hn.
Qed.
Lemma page_row s i x : (i, x) ∈ page_model s → data s !! i = Some x.
Proof.
  unfold page_model. rewrite page_rows. intros (j & Hx & _)%elem_of_take. apply list_elem_of_lookup_2 in Hx.
  apply filtered_row. unfold sorted in Hx. rewrite <-(sorted_perm (sorting s) (filtered s)).
  rewrite list_elem_of_In in Hx |- *. rewrite <-(firstn_skipn (pageIndex (pagination s) * pageSize (pagination s))).
  apply in_or_app. by right.
Qed.
Lemma controls_shown s : (0 <? length (filtered_selected s)) = true → filtered_selected s ≠ [].
Proof. by destruct (filtered_selected s). Qed.
Lemma hi_offered_promised s e : offered (draw s) e → promised s e.
Proof.
  intros Ho. unfold draw in Ho. destruct (dialog_shown s) eqn:Hd.
  - assert (deleteOpen s = true ∧ filtered_selected s ≠ []) as Hp.
    { unfold dialog_shown in Hd. apply andb_prop in Hd as [? ?%controls_shown]. by split. }
    offered_cases Ho by (unfold dialog in Ho); done.
  - offered_cases Ho by (unfold page, selection_controls, table_head, table_row, pages in Ho).
    all: try (split; [done|]); try (by apply controls_shown); try (by apply Nat.ltb_lt).
    + intros ->. unfold heads in *. repeat (apply elem_of_cons in Hx as [Hx|Hx]; [discriminate Hx|]). by apply elem_of_nil in Hx.
    + apply (list_elem_of_fmap_2 fst _ (v, name)) in Hv. exact Hv.
    + split; [done|]. eexists. split; [done|]. by apply page_row.
Qed.
Lemma selected_ids s id : id ∈ selectedIds s ↔ ∃ i x, i ∈ rowSelection s ∧ data s !! i = Some x ∧ ah_id x = id.
Proof.
  unfold selectedIds. rewrite list_elem_of_fmap. setoid_rewrite selected_by_index. naive_solver.
Qed.

(** *** The rows and the server *)

Lemma history_event_elem a r l x : x ∈ history_event a r l → x = r ∨ x ∈ l.
Proof.
  destruct a; cbn.
  - by intros [->|]%elem_of_cons; auto.
  - intros (y & -> & Hy)%list_elem_of_fmap. destruct (String.eqb _ _); auto.
  - intros [? _]%elem_of_filter_bool. by right.
Qed.
Lemma part_elem l m (r : AlertsHistoryRecord) : shows_part l m → r ∈ l → jget (ah_id r) m = Some r.
Proof. intros [Hnd Hl] Hr. apply Hl. exact (elem_record_of l r Hnd Hr). Qed.
Lemma hear_data o s : data (hear o s) = hears (λ l, l) o (data s).
Proof. by destruct o. Qed.
Lemma all_had_outside calm s s' : all_had (server s) (data s) → outside calm s s' → all_had (server s') (data s').
Proof.
  intros Hi [o f Hf|before ids after send _].
  - change (data (with_server f (hear o s))) with (data (hear o s)). rewrite hear_data. eapply feed_all_had; [| |exact Hi|exact Hf].
    + intros l m r [Hl _]. by apply part_elem.
    + apply history_event_elem.
  - unfold deleted. by destruct (bulk_loop send ids [] 0).2.
Qed.
Lemma in_sync_outside s s' : in_sync shows_part (server s) (data s) → outside true s s' → in_sync shows_part (server s') (data s').
Proof.
  intros Hi [o f Hf|before ids after send _].
  - change (data (with_server f (hear o s))) with (data (hear o s)). rewrite hear_data. eapply feed_in_sync; [| | |exact Hi|exact Hf].
    + by intros l m [Hl _].
    + done.
    + intros a r l m. apply history_event_part.
  - unfold deleted. by destruct (bulk_loop send ids [] 0).2.
Qed.

End Page.

(** ** Visits *)

#[local] Existing Instance index_rows.
#[local] Existing Instance reference_pages.
#[local] Instance any_date : DateParse := λ _, Some 0%Z.
#[local] Instance any_text : ShortDateFormat := λ _, "Jan 1"%string.
Definition unsorted : TableLib (nat * AlertsHistoryRecord) := {|
  getSortedRowModel := λ _ rows, rows; getIsSorted := λ id sorting, snd <$> find (λ x, String.eqb x.1 id) sorting;
  toggleSorting := λ id desc _, [(id, desc)] |}.
Lemma unsorted_laws : TableLibLaws unsorted.
Proof. split; [done|]. by intros id desc l x ->%list_elem_of_singleton; left. Qed.
#[local] Existing Instance unsorted.
Definition plain_num (_ : Q) : string := "90".
Definition opening (l : list AlertsHistoryRecord) : state := {|
  data := []; sorting := []; globalFilter := ""; pagination := {| pageIndex := 0; pageSize := 10 |}; rowSelection := [];
  deleteOpen := false; deletions := []; exports := []; toasts := [];
  server := opened ((λ x, (ah_id x, x)) <$> l) |}.
(** the list has arrived *)
Definition first_page (l : list AlertsHistoryRecord) : state :=
  with_server (with_listing Arrived (server (opening l))) (set_data l (opening l)).
Definition visit (acts : list act) (s : state) : state := default s (play (draw plain_num) (step plain_num) acts s).
Definition two_alerts : state := first_page [ex_alert "a" "web"; ex_alert "b" "db"].

(** two rows are selected and one of them is filtered away: the page says that one of one is selected, and both
    are deleted *)
Definition delete_filtered : list act :=
  [Tick "head" "Select all"; Type_ "Filter..." "db"; Click "" "Delete"; Click "" "Continue"]%string.
Example hidden_deleted :
  let s := visit [Tick "head" "Select all"; Type_ "Filter..." "db"]%string two_alerts in
  Text "" "1 of 1 row(s) selected." ∈ draw plain_num s ∧ deletions (visit delete_filtered two_alerts) = [["a"; "b"]]%string.
Proof.
  split; [|vm_compute; reflexivity]. cbv zeta. apply list_elem_of_In. vm_compute. repeat first [left; reflexivity | right].
Qed.
(** a dialog whose rows are gone is not drawn but stays open, and comes back by itself with the next selection *)
Example dialog_returns :
  let opened := visit [Tick "b" "Select row"; Click "" "Delete"]%string two_alerts in
  let gone := received Delete (ex_alert "b" "db") opened in
  dialog_shown opened = true ∧ dialog_shown gone = false ∧ dialog_shown (visit [Tick "a" "Select row"]%string gone) = true.
Proof. vm_compute. by split_and!. Qed.

Definition ex_alerts : list AlertsHistoryRecord := [ex_alert "a" "web"; ex_alert "b" "db"].
Definition ex_reached := reached plain_num.
Lemma ex_alerts_part : shows_part ex_alerts (collection (server (opening ex_alerts))).
Proof.
  split; [apply (bool_decide_unpack _); vm_compute; exact I|].
  intros id r. cbn [ex_alerts opening server opened collection fmap list_fmap record_of jget].
  change (live_key (ex_alert "a" "web")) with "a"%string. change (live_key (ex_alert "b" "db")) with "b"%string.
  change (ah_id (ex_alert "a" "web")) with "a"%string. change (ah_id (ex_alert "b" "db")) with "b"%string.
  rewrite (String.eqb_sym id), (String.eqb_sym id "b"). by destruct (String.eqb "a" id), (String.eqb "b" id).
Qed.
Definition reading (items : list AlertsHistoryRecord) (s : state) : state := with_server (with_listing (Read items) (server s)) s.
Definition listing_arrives (items : list AlertsHistoryRecord) (s : state) : state :=
  with_server (with_listing Arrived (server s)) (set_data items s).
Definition changed (a : action) (r : AlertsHistoryRecord) (s : state) : state := with_server (change a r (server s)) s.
Definition message_comes (a : action) (r : AlertsHistoryRecord) (s : state) : state :=
  with_server (with_messages (tail (messages (server s))) (server s)) (received a r s).
Lemma history_opening_reached calm : ex_reached calm (opening ex_alerts).
Proof. apply at_start. split_and!; try done. by eexists. Qed.
Lemma history_reading_reached calm items s : ex_reached calm s → listed (server s) = Asked → most_recent items (collection (server s)) →
  ex_reached calm (reading items s).
Proof. intros Hs E Hi. eapply from_outside; [exact Hs|]. by apply (feeds calm s Silent), list_read. Qed.
Lemma history_arrives_reached calm items s : ex_reached calm s → listed (server s) = Read items → ex_reached calm (listing_arrives items s).
Proof. intros Hs E. eapply from_outside; [exact Hs|]. by apply (feeds calm s (ListAnswer items)), list_arrives. Qed.
Lemma changed_reached a r s : ex_reached false s → possible a r (collection (server s)) → ex_reached false (changed a r s).
Proof. intros Hs Hp. eapply from_outside; [exact Hs|]. by apply (feeds false s Silent), changes. Qed.
Lemma message_reached a r s : ex_reached false s → head (messages (server s)) = Some (a, r) → ex_reached false (message_comes a r s).
Proof.
  intros Hs E. eapply from_outside; [exact Hs|]. apply (feeds false s (Message a r)), message_arrives.
  destruct (messages (server s)); [done|]. by injection E as ->.
Qed.
Lemma two_alerts_reached calm : ex_reached calm two_alerts.
Proof. apply (history_arrives_reached calm ex_alerts (reading ex_alerts (opening ex_alerts))); [|done]. apply history_reading_reached; [apply history_opening_reached|done|]. by split; [exact ex_alerts_part|cbn; lia]. Qed.

(** the list and the messages are not put in order: an alert that is created between the two is shown twice when its message
    comes after the list that has it, and a change is lost when its message comes before the list that has
    not *)
Definition subscribed_first : state := with_server (subscribe (server (opening ex_alerts))) (opening ex_alerts).
Definition new_alert : AlertsHistoryRecord := ex_alert "c" "new".
Definition shown_twice : state :=
  message_comes Create new_alert (listing_arrives [new_alert] (reading [new_alert] (changed Create new_alert subscribed_first))).
Definition renamed_alert : AlertsHistoryRecord := ex_alert "a" "renamed".
Definition overwritten : state :=
  listing_arrives ex_alerts (message_comes Update renamed_alert (changed Update renamed_alert (reading ex_alerts subscribed_first))).
Example list_and_messages :
  (ex_reached false shown_twice ∧ ah_id <$> data shown_twice = ["c"; "c"]%string)
  ∧ ex_reached false overwritten ∧ messages (server overwritten) = []
  ∧ jget "a" (collection (server overwritten)) = Some renamed_alert ∧ renamed_alert ∉ data overwritten.
Proof.
  assert (ex_reached false subscribed_first) as Hs.
  { eapply from_outside; [apply history_opening_reached|]. apply (feeds false (opening ex_alerts) Silent), subscribes. }
  split; [split; [|done]|split_and!; [|done|done|]].
  - apply message_reached; [|done]. apply history_arrives_reached; [|done]. apply history_reading_reached; [by apply changed_reached|done|].
    split; [|cbn; lia]. split; [apply NoDup_singleton|].
    intros id r. cbn [record_of]. change (live_key new_alert) with "c"%string. destruct (String.eqb_spec "c" id) as [<-|]; [|done]. done.
  - apply history_arrives_reached; [|done]. apply message_reached; [|done]. apply changed_reached; [|done].
    apply history_reading_reached; [done|done|]. by split; [exact ex_alerts_part|cbn; lia].
  - cbn. intros Hin. by repeat (apply elem_of_cons in Hin as [Hin|Hin]; [discriminate Hin|]); apply elem_of_nil in Hin.
Qed.
