(* ===== verification/SmartUi.v ===== *)
(** * The table of S.M.A.R.T. devices as the user meets it: [components/routes/system/smart-table.tsx]

    [DisksTable] with its filter, head, rows and row menus, and [DiskSheet] with the device and its
    attributes; the requests in flight, their answers and the messages that come in between are
    [outside], and so are the moves to another system, which the page makes without putting up a new table: the list of the
    earlier system is given up and its subscription taken back if it is there by then.  (The identifier of a device is
    made of its system, so a device stays with its system.)  The list, the cells and the sheet's state are those of [Smart].  The library computes its
    rows again when the devices, the filter or the order change, and not when the names of the systems
    do: [filter_names] and [sort_names] are the names it has read. *)
From Stdlib Require Import QArith ZArith Lia.
From S2P Require Import Prelude JsValue JsDate Types Utils Live SystemsManager AlertHistory Smart SystemdSheet Dom TableLib.
Import Feed.
Open Scope nat_scope.

Section Page.
(** [now] is the time, [hour_text] and the short format print dates *)
Context `{Intl} `{LocalTime} `{DateParse} `{ShortDateFormat}
        {T : jsmap SystemRecord → TableLib SmartDeviceRecord} {TL : ∀ names, TableLibLaws (T names)}
        (num_str : Q → string) (hour_text : Z → string) (now : Z) (unitTemp : option Unit).

(** ** State and handlers *)

(** [systemId] is the page's system, [server] the devices and the connection, [left_behind] the systems whose
    subscriptions were not there yet when the page moved on, and are not taken back *)
Record state := {
  systemId : option string; devices : option (list SmartDeviceRecord); sorting : SortingState; globalFilter : string;
  rowActionState : row_state; the_sheet : Smart.sheet;
  requests : list (row_request * SmartDeviceRecord);  (* row actions under way *)
  fetches : list string;                              (* the sheet's requests under way *)
  systems : jsmap SystemRecord; filter_names : jsmap SystemRecord; sort_names : jsmap SystemRecord;
  server : feed SmartDeviceRecord; left_behind : list (option string) }.
Inductive event :=
| SetFilter (text : string) | SortHead (column : string) | OpenSheet (disk : SmartDeviceRecord) | CloseSheet
| Refresh (disk : SmartDeviceRecord) | DeleteRow (disk : SmartDeviceRecord).

Definition hidden (s : state) : bool := table_hidden (systemId s) (devices s) 0.
Definition with_table (so : SortingState) (f : string) (fn sn : jsmap SystemRecord) (s : state) : state := {|
  systemId := systemId s; devices := devices s; sorting := so; globalFilter := f; rowActionState := rowActionState s; the_sheet := the_sheet s;
  requests := requests s; fetches := fetches s; systems := systems s; filter_names := fn;
  sort_names := sn; server := server s; left_behind := left_behind s |}.
Definition with_action (st : row_state) (l : list (row_request * SmartDeviceRecord)) (s : state) : state := {|
  systemId := systemId s; devices := devices s; sorting := sorting s; globalFilter := globalFilter s; rowActionState := st;
  the_sheet := the_sheet s; requests := l; fetches := fetches s; systems := systems s;
  filter_names := filter_names s; sort_names := sort_names s; server := server s; left_behind := left_behind s |}.
Definition with_sheet (sh : Smart.sheet) (l : list string) (s : state) : state := {|
  systemId := systemId s; devices := devices s; sorting := sorting s; globalFilter := globalFilter s; rowActionState := rowActionState s;
  the_sheet := sh; requests := requests s; fetches := l; systems := systems s;
  filter_names := filter_names s; sort_names := sort_names s; server := server s; left_behind := left_behind s |}.
(** an effect of the sheet adds its request *)
Definition with_effect (effect : Smart.sheet * option string) (s : state) : state :=
  with_sheet effect.1 (match effect.2 with Some id => fetches s ++ [id] | None => fetches s end) s.
Definition start_row (type : row_action) (d : SmartDeviceRecord) (s : state) : state :=
  let '(request, st) := start_action type d (rowActionState s) in
  with_action st (match request with Some r => requests s ++ [(r, d)] | None => requests s end) s.

Definition step (e : event) (s : state) : state :=
  match e with
  | SetFilter t => with_table (sorting s) t (systems s) (systems s) s
  | SortHead id =>
      with_table (toggleSorting (TableLib := T (sort_names s)) id
                    (bool_decide (getIsSorted (TableLib := T (sort_names s)) id (sorting s) = Some false)) (sorting s))
        (globalFilter s) (filter_names s) (systems s) s
  | OpenSheet d => with_effect (openSheet (sd_id d) (the_sheet s)) s
  | CloseSheet => with_effect (closeSheet (the_sheet s)) s
  | Refresh d => start_row RowRefresh d s
  | DeleteRow d => start_row RowDelete d s
  end.

(** new devices: a table that is hidden takes the sheet out of the page, and its state and its requests with
    it; a table that appears puts a new sheet in, whose effect runs with the device and the open flag kept *)
Definition out_of_page (sh : Smart.sheet) : Smart.sheet :=
  {| activeDiskId := activeDiskId sh; sheetOpen := sheetOpen sh; disk := None; isLoading := false |}.
Definition remount (was is_ : bool) (s : state) : state :=
  if is_ then with_sheet (out_of_page (the_sheet s)) [] s
  else if was then with_effect (sheet_effect (out_of_page (the_sheet s))) s else s.
Definition with_devices (l : list SmartDeviceRecord) (s : state) : state :=
  remount (hidden s) (table_hidden (systemId s) (Some l) 0) {|
    systemId := systemId s; devices := Some l; sorting := sorting s; globalFilter := globalFilter s; rowActionState := rowActionState s;
    the_sheet := the_sheet s; requests := requests s; fetches := fetches s; systems := systems s;
    filter_names := systems s; sort_names := systems s; server := server s; left_behind := left_behind s |}.
Definition with_server (f : feed SmartDeviceRecord) (s : state) : state := {|
  systemId := systemId s; devices := devices s; sorting := sorting s; globalFilter := globalFilter s; rowActionState := rowActionState s;
  the_sheet := the_sheet s; requests := requests s; fetches := fetches s; systems := systems s;
  filter_names := filter_names s; sort_names := sort_names s; server := f; left_behind := left_behind s |}.
(** the effects of another system: the devices stay *)
Definition moved (id : option string) (s : state) : state := {|
  systemId := id; devices := devices s; sorting := sorting s; globalFilter := globalFilter s; rowActionState := rowActionState s;
  the_sheet := the_sheet s; requests := requests s; fetches := fetches s; systems := systems s;
  filter_names := filter_names s; sort_names := sort_names s; server := restart (server s);
  left_behind := if subscribed (server s) then left_behind s else systemId s :: left_behind s |}.

(** *** The rows *)

Definition system_name (names : jsmap SystemRecord) (d : SmartDeviceRecord) : option string := sys_name <$> jget (sd_system d) names.
Definition filtered (s : state) : list SmartDeviceRecord :=
  let l := default [] (devices s) in
  if truthy (globalFilter s) then List.filter (λ d, smart_filter (system_name (filter_names s) d) d (globalFilter s)) l else l.
Definition row_model (s : state) : list SmartDeviceRecord :=
  getSortedRowModel (TableLib := T (sort_names s)) (sorting s) (filtered s).

(** ** What is drawn *)

Definition column_name (id : string) : string :=
  if String.eqb id "system" then "System" else if String.eqb id "name" then "Device" else if String.eqb id "model" then "Model"
  else if String.eqb id "capacity" then "Capacity" else if String.eqb id "state" then "Status" else if String.eqb id "type" then "Type"
  else if String.eqb id "hours" then "Power On" else if String.eqb id "cycles" then "Cycles" else if String.eqb id "temp" then "Temp"
  else "Updated".
(** [HeaderButton]; the column of the menus has no button *)
Definition head (id : string) : screen event :=
  if String.eqb id "actions" then [Text "head" "Actions"] else [Button "head" (column_name id) true (SortHead id)].
Definition capacity_text (bytes : Q) : string := let '(value, unit) := formatCapacity bytes in num_str value +:+ " " +:+ unit.
Definition updated_text (timestamp : string) : string :=
  match updated_cell now timestamp with
  | OnlyTime => default "" (hour_text <$> date_parse timestamp)
  | ShortDate => default "" (formatShortDate timestamp)
  end.
Definition row_menu (s : state) (d : SmartDeviceRecord) : screen event :=
  [Button (sd_id d) "Refresh" (negb (refresh_disabled (rowActionState s) d)) (Refresh d);
   Button (sd_id d) "Delete" (negb (delete_disabled (rowActionState s) d)) (DeleteRow d)].
Definition cell (s : state) (d : SmartDeviceRecord) (id : string) : screen event :=
  let row := sd_id d in
  if String.eqb id "system" then [Text row (default "" (system_name (systems s) d))]
  else if String.eqb id "name" then [Text row (sd_name d)]
  else if String.eqb id "model" then [Text row (sd_model d)]
  else if String.eqb id "capacity" then [Text row (capacity_text (sd_capacity d))]
  else if String.eqb id "state" then [Text row (badge_variant (sd_state d)); Text row (sd_state d)]
  else if String.eqb id "type" then [Text row (sd_type d)]
  else if String.eqb id "hours" then let '(h, days) := hours_cell (sd_hours d) in [Text row h; Text row days]
  else if String.eqb id "cycles" then [Text row (cycles_cell (sd_cycles d))]
  else if String.eqb id "temp" then let '(value, unit) := formatTemperature unitTemp (sd_temp d) None in [Text row (num_str value +:+ " " +:+ unit)]
  else if String.eqb id "updated" then [Text row (updated_text (sd_updated d))]
  else row_menu s d.
Definition table_row (s : state) (d : SmartDeviceRecord) : screen event :=
  Button (sd_id d) "row" true (OpenSheet d) :: rows (cell s d) (tableColumns (systemId s)).
Definition table (s : state) : screen event :=
  [Text "" "S.M.A.R.T."; Text "" "Click on a device to view more information."; Input "Filter..." (globalFilter s) SetFilter]
  ++ when (truthy (globalFilter s)) [Button "" "Clear" true (SetFilter "")]
  ++ rows head (tableColumns (systemId s))
  ++ (if 0 <? length (row_model s) then rows (table_row s) (row_model s)
      else [Text "" (match devices s with Some _ => "No results." | None => "Loading" end)]).

(** *** [DiskSheet] *)

Definition smart_header (c : smart_column) : string :=
  match c with ColId => "ID" | ColName => "Name" | ColValue => "Value" | ColNormalized => "Normalized" | ColWorst => "Worst"
             | ColThreshold => "Threshold" | ColFailing => "Failing" end.
Definition smart_cell (attr : SmartAttribute) (c : smart_column) : string :=
  match c with
  | ColId => default "" (z_str <$> sa_id attr) | ColName => sa_n attr | ColValue => default "" (raw_value attr)
  | ColNormalized => default "" (num_str <$> sa_v attr) | ColWorst => default "" (num_str <$> sa_w attr)
  | ColThreshold => default "" (num_str <$> sa_t attr) | ColFailing => default "" (sa_wf attr)
  end.
Definition capacity (d : option SmartDeviceRecord) : string :=
  match d with Some d => if Qeq_bool (sd_capacity d) 0 then "Unknown" else capacity_text (sd_capacity d) | None => "Unknown" end.
Definition facts (d : option SmartDeviceRecord) : list string :=
  [or_unknown (sd_model <$> d); capacity d; or_unknown (d ≫= sd_serial); or_unknown (d ≫= sd_firmware)].
Definition attribute_row (columns : list smart_column) (attr : SmartAttribute) : screen event :=
  when (isFailedAttribute attr) [Text (sa_n attr) "text-red-600"] ++ rows (λ c, [Text (sa_n attr) (smart_cell attr c)]) columns.
Definition self_test (sh : Smart.sheet) : screen event :=
  let status := or_unknown (sd_state <$> disk sh) in
  let failed := failedAttributes (smartAttributes sh) in
  [Text "" (if String.eqb status "PASSED" then "CheckCircle2Icon" else "XCircleIcon"); Text "" ("S.M.A.R.T. Self-Test: " +:+ status)]
  ++ when (0 <? length failed) [Text "" ("Failed Attributes: " +:+ String.concat ", " (sa_n <$> failed))].
Definition sheet_page (sh : Smart.sheet) : screen event :=
  let attributes := smartAttributes sh in
  let columns := Smart.visibleColumns attributes in
  Dialog ("S.M.A.R.T. Details - " +:+ or_unknown (sd_name <$> disk sh)) CloseSheet :: rows (λ t, [Text "" t]) (facts (disk sh))
  ++ (if isLoading sh then [Text "" "Loading"]
      else self_test sh
           ++ (if 0 <? length attributes
               then rows (λ c, [Text "head" (smart_header c)]) columns ++ rows (attribute_row columns) attributes
               else [Text "" "No S.M.A.R.T. attributes available for this device."])).
Definition draw (s : state) : screen event :=
  if hidden s then [] else if sheetOpen (the_sheet s) then sheet_page (the_sheet s) else table s.

(** ** What comes from outside *)

Definition hear (o : heard SmartDeviceRecord) (s : state) : state :=
  match o with
  | Silent => s | ListAnswer items => with_devices items s | ListFailed => with_devices [] s
  | Message a r => with_devices (smart_event (systemId s) a r (devices s)) s
  end.
(** a subscription that was left behind goes on with its messages; with [calm] the page moves only when it can take its
    subscription back, and hears of the devices as [Feed] has it *)
Inductive outside (calm : bool) (s : state) : state → Prop :=
| feeds o f : feed_step (H := smart_table (systemId s)) calm (shows (H := smart_table (systemId s))) (server s) o f →
    outside calm s (with_server f (hear o s))
| moves id : truthy (systemId s) = true → truthy id = true → (calm = true → subscribed (server s) = true) →
    outside calm s (moved (Some id) s)
| left_message id a r : id ∈ left_behind s → r ∈ had (server s) →
    outside calm s (with_devices (smart_event id a r (devices s)) s)
| action_ends before r d after : requests s = before ++ (r, d) :: after →
    outside calm s (with_action (finish_action d (rowActionState s)) (before ++ after) s)
| fetched before id after answer : fetches s = before ++ id :: after →
    outside calm s (with_sheet (sheet_answer answer (the_sheet s)) (before ++ after) s)
| systems_change m : outside calm s {|
    systemId := systemId s; devices := devices s; sorting := sorting s; globalFilter := globalFilter s; rowActionState := rowActionState s;
    the_sheet := the_sheet s; requests := requests s; fetches := fetches s; systems := m;
    filter_names := filter_names s; sort_names := sort_names s; server := server s; left_behind := left_behind s |}.
Definition first_state (id : option string) (systems : jsmap SystemRecord) (collection : jsmap SmartDeviceRecord) : state := {|
  systemId := id; devices := None; sorting := [(if truthy id then "name" else "system", false)]%string; globalFilter := "";
  rowActionState := None; the_sheet := closed_sheet; requests := []; fetches := []; systems := systems;
  filter_names := systems; sort_names := systems; server := opened collection; left_behind := [] |}.
Definition start (s : state) : Prop := ∃ id m c, s = first_state id m c.
Definition reached (calm : bool) : state → Prop := reachable draw step (outside calm) start.

(** ** Theorems *)

Definition open_sheet (s : state) : bool := sheetOpen (the_sheet s).
Definition promised (s : state) (e : event) : Prop :=
  match e with
  | SetFilter _ => open_sheet s = false
  | SortHead id => open_sheet s = false ∧ id ∈ column_ids ∧ (truthy (systemId s) = true → id ≠ "system"%string)
  | OpenSheet d => open_sheet s = false ∧ d ∈ row_model s
  | CloseSheet => open_sheet s = true
  | Refresh d => open_sheet s = false ∧ d ∈ row_model s ∧ refresh_disabled (rowActionState s) d = false
  | DeleteRow d => open_sheet s = false ∧ d ∈ row_model s ∧ delete_disabled (rowActionState s) d = false
  end.
Lemma head_columns sys id : id ∈ tableColumns sys → id ≠ "actions"%string →
  id ∈ column_ids ∧ (truthy sys = true → id ≠ "system"%string).
Proof.
  unfold tableColumns. intros [Hid|Hid%list_elem_of_singleton]%elem_of_app Hn; [|done].
  destruct (truthy sys); [|done]. apply elem_of_filter_bool in Hid as [Hid Hne]. split; [done|].
  by destruct (String.eqb_spec id "system").
Qed.
Lemma cell_offers_menu s d id e : offered (cell s d id) e → offered (row_menu s d) e.
Proof. unfold cell. repeat case_match; try done; intros Ho; offered_cases Ho by idtac. Qed.
Lemma sheet_offers sh e : offered (sheet_page sh) e → e = CloseSheet.
Proof. intros Ho. offered_cases Ho by (unfold sheet_page, self_test, attribute_row in Ho). Qed.
Lemma head_offers id e : offered (head id) e → id ≠ "actions"%string ∧ e = SortHead id.
Proof.
  unfold head. destruct (String.eqb_spec id "actions"); intros Ho; offered_cases Ho by idtac.
Qed.
Lemma sm_offered_promised s e : offered (draw s) e → promised s e.
Proof.
  unfold draw. destruct (hidden s); [intros Ho; offered_cases Ho by idtac|].
  change (sheetOpen (the_sheet s)) with (open_sheet s). destruct (open_sheet s) eqn:Hop.
  { by intros ->%sheet_offers. }
  unfold table. rewrite !offered_app, offered_when. intros [Ho|[[_ Ho]|[Ho|Ho]]].
  1-2: offered_cases Ho by idtac.
  - apply offered_rows in Ho as (id & Hid & [Hn ->]%head_offers). split; [done|]. by apply head_columns.
  - destruct (0 <? length _); [|offered_cases Ho by idtac]. apply offered_rows in Ho as (d & Hd & Ho).
    apply (offered_app [_]) in Ho as [Ho|Ho]; [by offered_cases Ho by idtac|].
    apply offered_rows in Ho as (id & _ & Ho%cell_offers_menu). revert Ho. unfold row_menu. intros Ho.
    offered_cases Ho by idtac.
    all: by split_and!; [..|apply negb_true_iff].
Qed.

Definition request_of (d : SmartDeviceRecord) (r : row_request) : Prop :=
  match r with PostRefresh system => system = sd_system d ∧ system ≠ ""%string | DeleteDevice id => id = sd_id d end.
Definition request_type (r : row_request) : row_action := match r with PostRefresh _ => RowRefresh | DeleteDevice _ => RowDelete end.
(** the requests concern devices the server has or has had, and a spinner is that of a request under way *)
Definition requests_ok (s : state) : Prop :=
  (∀ r d, (r, d) ∈ requests s → d ∈ had (server s) ∧ request_of d r)
  ∧ ∀ type id, rowActionState s = Some (type, id) → ∃ r d, (r, d) ∈ requests s ∧ request_type r = type ∧ sd_id d = id.
Definition sheet_ok (s : state) : Prop := isLoading (the_sheet s) = true → fetches s ≠ [].

Lemma row_device s d : d ∈ row_model s → d ∈ default [] (devices s).
Proof.
  unfold row_model, filtered. rewrite sorted_perm. destruct (truthy _); [|done]. by intros [Hd _]%elem_of_filter_bool.
Qed.
Lemma start_row_frame type d s : let s' := start_row type d s in
  devices s' = devices s ∧ server s' = server s ∧ left_behind s' = left_behind s ∧ systemId s' = systemId s
  ∧ the_sheet s' = the_sheet s ∧ fetches s' = fetches s.
Proof. unfold start_row. by destruct (start_action _ _ _). Qed.
Lemma start_row_ok type s d : requests_ok s → d ∈ had (server s) → requests_ok (start_row type d s).
Proof.
  intros [Hr Ha] Hd. unfold start_row, start_action.
  assert (∀ r, request_of d r → requests_ok (with_action (Some (request_type r, sd_id d)) (requests s ++ [(r, d)]) s)) as Hok.
  { intros r Hrd. split; cbn.
    - intros r' d' [Hin|[= -> ->]%list_elem_of_singleton]%elem_of_app; [by apply Hr|by split].
    - intros t i [= <- <-]. exists r, d. split; [|by split]. apply elem_of_app. right. by left. }
  destruct type; [destruct (truthy (sd_system d)) eqn:Ht|].
  - apply (Hok (PostRefresh (sd_system d))). split; [done|]. by apply truthy_nonempty.
  - by split.
  - by apply (Hok (DeleteDevice (sd_id d))).
Qed.
Lemma action_ends_ok before r d after s : requests s = before ++ (r, d) :: after → requests_ok s →
  requests_ok (with_action (finish_action d (rowActionState s)) (before ++ after) s).
Proof.
  intros E [Hr Ha]. split; cbn.
  - intros r' d' Hin. apply Hr. rewrite E. apply elem_of_app in Hin as [Hin|Hin]; apply elem_of_app; [by left|].
    right. by right.
  - intros t i Hf. unfold finish_action in Hf. destruct (rowActionState s) as [[t' i']|] eqn:Es; [|done].
    destruct (String.eqb_spec i' (sd_id d)) as [|Hne]; [done|]. injection Hf as -> ->.
    destruct (Ha t i eq_refl) as (r' & d' & Hin & Ht & Hi). exists r', d'. split; [|by split].
    rewrite E in Hin. apply elem_of_app in Hin as [Hin|Hin]; apply elem_of_app; [by left|].
    apply elem_of_cons in Hin as [[= -> ->]|Hin]; [done|]. by right.
Qed.
Lemma effect_ok s sh : sheet_ok s → isLoading sh = isLoading (the_sheet s) → sheet_ok (with_effect (sheet_effect sh) s).
Proof.
  unfold sheet_ok, with_effect, sheet_effect. intros Hs E. repeat case_match; cbn; rewrite ?E; try done.
  intros _ Hn. by apply app_eq_nil in Hn as [_ ?].
Qed.
Lemma remount_sheet_ok was is_ s : sheet_ok s → sheet_ok (remount was is_ s).
Proof.
  intros Hs. unfold remount. destruct is_; [done|]. destruct was; [|done].
  unfold sheet_ok, with_effect, sheet_effect. repeat case_match; cbn; try done.
  intros _ Hn. by apply app_eq_nil in Hn as [_ ?].
Qed.
Lemma with_devices_frame l s : let s' := with_devices l s in
  devices s' = Some l ∧ server s' = server s ∧ left_behind s' = left_behind s ∧ systemId s' = systemId s ∧ requests s' = requests s
  ∧ rowActionState s' = rowActionState s.
Proof. cbv zeta. unfold with_devices, remount. by destruct (hidden s), (table_hidden _ _ _). Qed.
Lemma with_devices_sheet l s : sheet_ok s → sheet_ok (with_devices l s).
Proof. intros Hs. unfold with_devices. by apply remount_sheet_ok. Qed.
(** what is drawn has been on the server, each device once *)
Definition shown (s : state) : list SmartDeviceRecord := default [] (devices s).
Definition list_ok (s : state) : Prop := NoDup (sd_id <$> shown s)
  ∧ (∀ items, listed (server s) = Read items → NoDup (sd_id <$> items)) ∧ all_had (server s) (shown s).
Definition inv (s : state) : Prop := list_ok s ∧ requests_ok s ∧ sheet_ok s.

Lemma smart_event_elem sys a r l x : x ∈ smart_event sys a r (Some l) → x = r ∨ x ∈ l.
Proof.
  unfold smart_event. change (default [] (Some l)) with l. cbv zeta.
  assert (x ∈ List.filter (λ d, negb (String.eqb (sd_id d) (sd_id r))) l → x = r ∨ x ∈ l) as Hf by (intros [? _]%elem_of_filter_bool; by right).
  assert (x ∈ match findIndex (sd_id r) l with None => r :: l | Some i => <[i:=r]> l end → x = r ∨ x ∈ l) as Hw.
  { destruct (findIndex (sd_id r) l) as [i|]; [|by intros [->|]%elem_of_cons; auto].
    intros (j & Hj)%list_elem_of_lookup. apply list_lookup_insert_Some in Hj as [(_ & <- & _)|[_ Hj]]; [by left|right].
    by eapply list_elem_of_lookup_2. }
  destruct a; [destruct (matchesSystemScope sys r)..|]; auto.
Qed.
Lemma smart_event_nodup sys a r l : NoDup (sd_id <$> l) → NoDup (sd_id <$> smart_event sys a r (Some l)).
Proof.
  intros Hnd. unfold smart_event. change (default [] (Some l)) with l. cbv zeta.
  assert (NoDup (sd_id <$> List.filter (λ d, negb (String.eqb (sd_id d) (sd_id r))) l)) as Hf.
  { exact (NoDup_remove_record (H := smart_table sys) (sd_id r) l Hnd). }
  assert (NoDup (sd_id <$> match findIndex (sd_id r) l with None => r :: l | Some i => <[i:=r]> l end)) as Hw.
  { pose proof (findIndex_spec sys (sd_id r) l) as Hi. destruct (findIndex (sd_id r) l) as [i|].
    - destruct Hi as [_ Hi]. rewrite (Hi r eq_refl Hnd). change (NoDup (live_key (LiveTable := smart_table sys) <$> replace_record (H := smart_table sys) r l)).
      by rewrite replace_record_ids.
    - rewrite fmap_cons. apply NoDup_cons. split; [|done]. by apply (record_of_None (H := smart_table sys)). }
  destruct a; [destruct (matchesSystemScope sys r)..|]; done.
Qed.
Lemma smart_event_scope sys a r l : Forall (λ d, matchesSystemScope sys d = true) l →
  Forall (λ d, matchesSystemScope sys d = true) (smart_event sys a r (Some l)).
Proof.
  intros Hl. unfold smart_event. change (default [] (Some l)) with l. cbv zeta.
  assert (Forall (λ d, matchesSystemScope sys d = true) (List.filter (λ d, negb (String.eqb (sd_id d) (sd_id r))) l)) as Hf.
  { apply Forall_forall. intros x [Hx _]%elem_of_filter_bool. by eapply Forall_forall in Hl. }
  destruct a; [destruct (matchesSystemScope sys r) eqn:E; [|done]; destruct (findIndex _ _)..|done]; constructor || apply Forall_insert; done.
Qed.
Lemma smart_event_some sys a r o : smart_event sys a r o = smart_event sys a r (Some (default [] o)).
Proof. done. Qed.
Lemma shows_elem sys l m d : shows (H := smart_table sys) l m → d ∈ l → jget (sd_id d) m = Some d ∧ matchesSystemScope sys d = true.
Proof.
  intros [Hnd Hl] Hd. apply (elem_record_of (H := smart_table sys)) in Hd; [|done]. rewrite Hl in Hd. unfold in_scope in Hd.
  change (live_key d) with (sd_id d) in Hd. destruct (jget (sd_id d) m) as [x|]; [|done]. destruct (live_scope x) eqn:Hx; [|done]. by injection Hd as <-.
Qed.
Lemma had_more calm sys f o f' : feed_step (H := smart_table sys) calm (shows (H := smart_table sys)) f o f' → ∀ d, d ∈ had f → d ∈ had f'.
Proof. intros [] d Hd; cbn; try done. by right. Qed.
(** what the page makes of what it hears *)
Definition heard_devices (sys : option string) (o : heard SmartDeviceRecord) (l : list SmartDeviceRecord) : list SmartDeviceRecord :=
  match o with Silent => l | ListAnswer items => items | ListFailed => [] | Message a r => smart_event sys a r (Some l) end.
Lemma hear_frame o f s : let s' := with_server f (hear o s) in
  shown s' = heard_devices (systemId s) o (shown s) ∧ server s' = f ∧ left_behind s' = left_behind s ∧ systemId s' = systemId s
  ∧ requests s' = requests s ∧ rowActionState s' = rowActionState s.
Proof.
  cbv zeta. destruct o as [ |items| |a r]; unfold shown; cbn; [done| | |];
    match goal with |- context [with_devices ?l s] => destruct (with_devices_frame l s) as (E1 & _ & E3 & E4 & E5 & E6) end; by rewrite E1, E3, E4, E5, E6.
Qed.
Lemma hear_sheet o f s : sheet_ok s → sheet_ok (with_server f (hear o s)).
Proof. intros Hs. assert (sheet_ok (hear o s)) as Hh by (destruct o; cbn; [done|by apply with_devices_sheet..]). exact Hh. Qed.
Lemma heard_had calm sys f o f' l : all_had f l → feed_step (H := smart_table sys) calm (shows (H := smart_table sys)) f o f' →
  all_had f' (heard_devices sys o l).
Proof.
  intros Hl Hf. assert (all_had f' (hears (H := smart_table sys) (λ l, l) o l)) as Ha.
  { eapply feed_all_had; [| |exact Hl|exact Hf].
    - intros l' m r Hs Hr. exact (proj1 (shows_elem sys l' m r Hs Hr)).
    - intros a r l' x. apply smart_event_elem. }
  destruct o; try exact Ha. destruct Ha as [_ Ha]. split; [by intros r ?%elem_of_nil|exact Ha].
Qed.
Lemma requests_frame s s' : requests s' = requests s → rowActionState s' = rowActionState s → (∀ d, d ∈ had (server s) → d ∈ had (server s')) →
  requests_ok s → requests_ok s'.
Proof.
  intros E1 E2 Hh [Hr Ha]. unfold requests_ok. rewrite E1, E2. split; [|done]. intros r d Hin. destruct (Hr r d Hin). split; [by apply Hh|done].
Qed.

Lemma sm_inv_user s e : inv s → offered (draw s) e → inv (step e s).
Proof.
  intros (Hl & Hr & Hs) Ho. apply sm_offered_promised in Ho.
  assert (∀ d, d ∈ row_model s → d ∈ had (server s)) as Hd by (intros d Hd; apply Hl, row_device, Hd).
  destruct e as [t|id|d| |d|d]; cbn [step promised] in *; try by split_and!.
  - split_and!; [done|done|]. by apply effect_ok.
  - split_and!; [done|done|]. by apply effect_ok.
  - destruct Ho as (_ & Hin & _). destruct (start_row_frame RowRefresh d s) as (E1 & E2 & E3 & E4 & E5 & E6).
    split_and!; [|by apply start_row_ok, Hd|]; unfold list_ok, sheet_ok, shown; by rewrite ?E1, ?E2, ?E5, ?E6.
  - destruct Ho as (_ & Hin & _). destruct (start_row_frame RowDelete d s) as (E1 & E2 & E3 & E4 & E5 & E6).
    split_and!; [|by apply start_row_ok, Hd|]; unfold list_ok, sheet_ok, shown; by rewrite ?E1, ?E2, ?E5, ?E6.
Qed.
Lemma sm_inv_outside calm s s' : inv s → outside calm s s' → inv s'.
Proof.
  intros ((Hnd & Hi & Hh) & Hr & Hs) [o f Hf|id _ _ _|id a r _ Hin|before r d after E|before id after answer E|m].
  - destruct (hear_frame o f s) as (E1 & E2 & E3 & E4 & E5 & E6). split_and!.
    + unfold list_ok. rewrite E1, E2. split_and!; [| |by eapply heard_had].
      * destruct Hf; cbn; try done; [by apply Hi|constructor|by apply smart_event_nodup].
      * destruct Hf as [items _ [Hn _]|items _|_| |a r _ _|a r rest _|e rest _ _]; cbn; try done; by intros ? [= <-].
    + eapply requests_frame; [exact E5|exact E6| |done]. rewrite E2. by eapply had_more.
    + by apply hear_sheet.
  - split_and!; [|done|done]. destruct Hh as (Hh1 & _ & _ & Hh4). split_and!; [done|done|]. split_and!; cbn; [done| |done|done]. by intros e ?%elem_of_nil.
  - destruct (with_devices_frame (smart_event id a r (devices s)) s) as (E1 & E2 & E3 & E4 & E5 & E6). split_and!.
    + unfold list_ok, shown. rewrite E1, E2. cbn [default]. rewrite smart_event_some. split_and!; [by apply smart_event_nodup|done|].
      destruct Hh as [Hd Hh]. split; [|done]. intros x [->|Hx]%smart_event_elem; [done|by apply Hd].
    + eapply requests_frame; [exact E5|exact E6|by rewrite E2|done].
    + by apply with_devices_sheet.
  - split_and!; [done| |done]. by eapply action_ends_ok.
  - by split_and!.
  - by split_and!.
Qed.

(** *** When nothing changes while the page is set up *)

Definition in_scope_of (sys : option string) (l : list SmartDeviceRecord) : Prop := Forall (λ d, matchesSystemScope sys d = true) l.
Definition settled (f : feed SmartDeviceRecord) : Prop := listed f = Arrived ∨ listed f = Failed.
Definition calm_inv (s : state) : Prop := left_behind s = []
  ∧ in_sync (H := smart_table (systemId s)) (shows (H := smart_table (systemId s))) (server s) (shown s)
  ∧ (settled (server s) → in_scope_of (systemId s) (shown s)).
Lemma shows_scope sys l m : shows (H := smart_table sys) l m → in_scope_of sys l.
Proof. intros Hl. apply Forall_forall. intros d Hd. exact (proj2 (shows_elem sys l m d Hl Hd)). Qed.
Lemma calm_outside s s' : calm_inv s → outside true s s' → calm_inv s'.
Proof.
  intros (Hn & Hi & Hc) [o f Hf|id _ _ Hsub|id a r Hin _|before r d after E|before id after answer E|m]; try done.
  - destruct (hear_frame o f s) as (E1 & E2 & E3 & E4 & _). unfold calm_inv. rewrite E1, E2, E3, E4. split_and!; [done| |].
    + assert (in_sync (H := smart_table (systemId s)) (shows (H := smart_table (systemId s))) f
        (hears (H := smart_table (systemId s)) (λ l, l) o (shown s))) as Hx.
      { eapply feed_in_sync; [done|done| |exact Hi|exact Hf]. intros a r l m' Hs _. by apply (smart_step (systemId s) a r l m'). }
      destruct o; try exact Hx. by inversion Hf.
    + intros Hst. unfold in_sync in Hi. destruct Hf as [items E _|items E|_| |a r _ _|a r rest E|e rest ? _]; cbn in *; try done.
      * destruct Hst as [Hst|Hst]; discriminate Hst.
      * rewrite E in Hi. destruct Hi as [_ Hi]. by eapply shows_scope.
      * constructor.
      * by apply Hc.
      * by apply Hc.
      * apply smart_event_scope. by apply Hc.
  - split_and!; [|done|intros [Hx|Hx]; discriminate Hx]. cbn. by rewrite (Hsub eq_refl).
  - rewrite Hn in Hin. by apply elem_of_nil in Hin.
Qed.

(** C22: whatever is clicked, whatever the server reports meanwhile, and whichever systems the page moves to: the rows are
    devices the server has or has had that match the filter, each once, and when the list of the page's system has been answered, no
    device changed while a list and a subscription were set up, no message was lost and no subscription left behind, devices of
    that system, and the server's when no message is under way;
    a control that is offered concerns a row that is drawn and no request that its item waits for; every
    request that is sent is about the device of its row; and neither a row's nor the sheet's
    spinner turns without a request under way. *)
Theorem smart_page calm s : reached calm s →
  (NoDup (sd_id <$> shown s) ∧ ∀ d, d ∈ shown s → d ∈ had (server s))
  ∧ (calm = true → settled (server s) → ∀ d, d ∈ shown s → matchesSystemScope (systemId s) d = true)
  ∧ (calm = true → listed (server s) = Arrived → messages (server s) = [] →
     shows (H := smart_table (systemId s)) (shown s) (collection (server s)))
  ∧ row_model s ≡ₚ filtered s
  ∧ (∀ e, offered (draw s) e → promised s e)
  ∧ requests_ok s ∧ sheet_ok s.
Proof.
  intros Hs. assert (inv s) as ((Hnd & _ & Hh) & Hr & Hsh).
  { revert s Hs. apply page_invariant.
    - intros s (id & m & c & ->). split_and!; [|split; [|done]; intros r d Hin; by apply elem_of_nil in Hin|done].
      split_and!; [constructor|done|apply opened_had].
    - apply sm_inv_user.
    - intros s s'. apply sm_inv_outside. }
  assert (calm = true → calm_inv s) as Hc.
  { intros ->. clear Hnd Hh Hr Hsh. revert s Hs. apply page_invariant.
    - intros s (id & m & c & ->). split_and!; [done|done|intros [Hx|Hx]; discriminate Hx].
    - intros s e Hi _. assert (∀ type d, calm_inv (start_row type d s)) as Hst.
      { intros type d. destruct (start_row_frame type d s) as (E1 & E2 & E3 & E4 & _). unfold calm_inv, shown in *. by rewrite E1, E2, E3, E4. }
      destruct e as [t|id|d| |d|d]; try exact Hi; apply Hst.
    - apply calm_outside. }
  split_and!; [done|apply Hh| | | |by intros e; apply sm_offered_promised|done|done].
  - intros Hcalm Hst d Hd. destruct (Hc Hcalm) as (_ & _ & Hsc). by eapply Forall_forall in Hsc.
  - intros Hcalm El Em. destruct (Hc Hcalm) as (_ & Hi & _). unfold in_sync in Hi. by rewrite El, Em in Hi.
  - apply sorted_perm.
Qed.
End Page.

(** ** Visits *)

#[local] Existing Instance SystemdSheet.plain.
#[local] Instance utc : LocalTime. Proof. refine {| tz_offset := λ _, 0%Z |}. intros. lia. Defined.
#[local] Instance any_date : DateParse := λ _, Some 0%Z.
#[local] Instance any_text : ShortDateFormat := λ _, "Jan 1"%string.
Definition unsorted : TableLib SmartDeviceRecord := {|
  getSortedRowModel := λ _ rows, rows; getIsSorted := λ id sorting, snd <$> find (λ x, String.eqb x.1 id) sorting;
  toggleSorting := λ id desc _, [(id, desc)] |}.
Lemma sm_unsorted_laws : TableLibLaws unsorted.
Proof. split; [done|]. by intros id desc l x ->%list_elem_of_singleton; left. Qed.
Definition library : jsmap SystemRecord → TableLib SmartDeviceRecord := λ _, unsorted.
Definition plain_num (_ : Q) : string := "30".
Definition plain_hour (_ : Z) : string := "10:00:00".
Definition drawing : state → screen event := draw (T := library) plain_num plain_hour 0 None.
Definition visit (acts : list act) (s : state) : state := default s (play drawing (step (T := library)) acts s).
Definition two_disks : list SmartDeviceRecord := [ex_disk "a" "s"; ex_disk "b" "s"].
Definition empty_page : state := first_state None [] ((λ d, (sd_id d, d)) <$> two_disks).
(** the list has been read, and has arrived *)
Definition reading (items : list SmartDeviceRecord) (s : state) : state := with_server (with_listing (Read items) (server s)) s.
Definition listing_arrives (items : list SmartDeviceRecord) (s : state) : state :=
  with_server (with_listing Arrived (server s)) (with_devices items s).
Definition two_rows : state := listing_arrives two_disks empty_page.
Definition twice : list act := [Click "a" "Refresh"; Click "b" "Refresh"; Click "a" "Refresh"]%string.
Definition ex_page : state := visit twice two_rows.
(** only one row's action is remembered: with another row's, the first row's menu is enabled again while its
    request is still under way *)
Example refreshed_twice : (λ x, sd_id x.2) <$> requests ex_page = ["a"; "b"; "a"]%string.
Proof. vm_compute. reflexivity. Qed.
(** a name that is known only after the text was typed is drawn but not looked at *)
Example filter_reads_old_names :
  let s := visit [Type_ "Filter..." "web"]%string two_rows in
  let named := {| systemId := systemId s; devices := devices s; sorting := sorting s; globalFilter := globalFilter s; rowActionState := rowActionState s;
    the_sheet := the_sheet s; requests := requests s; fetches := fetches s; systems := [("s", ex_web)]%string;
    filter_names := filter_names s; sort_names := sort_names s; server := server s; left_behind := left_behind s |} in
  row_model (T := library) named = [] ∧ system_name (systems named) (ex_disk "a" "s") = Some "web"%string.
Proof. vm_compute. by split. Qed.
(** the sheet of the second device shows the first one until its own answer comes *)
Example old_heading :
  let s := visit [Click "a" "row"]%string two_rows in
  let shown := with_sheet (sheet_answer (Some (ex_disk "a" "s")) (the_sheet s)) [] s in
  let again := visit [Leave; Click "b" "row"]%string shown in
  activeDiskId (the_sheet again) = Some "b"%string ∧ disk (the_sheet again) = Some (ex_disk "a" "s") ∧ isLoading (the_sheet again) = true.
Proof. vm_compute. by split_and!. Qed.

Definition ex_reached := reached (T := library) plain_num plain_hour 0 None.
Lemma smart_reading_reached calm items s : ex_reached calm s → listed (server s) = Asked →
  shows (H := smart_table (systemId s)) items (collection (server s)) → ex_reached calm (reading items s).
Proof. intros Hs E Hi. eapply from_outside; [exact Hs|]. by apply (feeds calm s Silent), list_read. Qed.
Lemma smart_arrives_reached calm items s : ex_reached calm (reading items s) → ex_reached calm (listing_arrives items (reading items s)).
Proof. intros Hs. eapply from_outside; [exact Hs|]. by apply (feeds calm (reading items s) (ListAnswer items)), list_arrives. Qed.
Lemma shows_two sys : truthy sys = false ∨ sys = Some "s"%string →
  shows (H := smart_table sys) two_disks (collection (server empty_page)).
Proof.
  intros Hsys. split.
  - apply (bool_decide_unpack _). vm_compute. exact I.
  - intros id. cbn [record_of two_disks collection server empty_page first_state opened fmap list_fmap jget].
    change (live_key (ex_disk "a" "s")) with "a"%string. change (live_key (ex_disk "b" "s")) with "b"%string.
    change (sd_id (ex_disk "a" "s")) with "a"%string. change (sd_id (ex_disk "b" "s")) with "b"%string.
    rewrite (String.eqb_sym id "a"), (String.eqb_sym id "b").
    assert (∀ n, live_scope (LiveTable := smart_table sys) (ex_disk n "s") = true) as Hin.
    { intros n. cbn. unfold matchesSystemScope. destruct sys as [x|]; [|done]. destruct Hsys as [Hx|[= ->]]; [|done]. cbn in Hx. by rewrite Hx. }
    destruct (String.eqb "a" id), (String.eqb "b" id); unfold in_scope; by rewrite ?Hin.
Qed.
Lemma two_rows_reached : ex_reached true two_rows.
Proof.
  change two_rows with (listing_arrives two_disks (reading two_disks empty_page)). apply smart_arrives_reached, smart_reading_reached; [|done|].
  - apply at_start. by exists None, [], ((λ d, (sd_id d, d)) <$> two_disks).
  - apply (shows_two None). by left.
Qed.
Lemma smart_page_witness : requests_ok ex_page ∧ length (requests ex_page) = 3.
Proof.
  split; [|vm_compute; reflexivity].
  apply (smart_page (T := library) (TL := λ _, sm_unsorted_laws) plain_num plain_hour 0 None true).
  apply (play_reachable _ _ _ _ twice two_rows); [exact two_rows_reached|]. vm_compute. reflexivity.
Defined.

(** the page moves to the next system: the devices of the one before stay, and can be deleted, until the new list comes;
    and a subscription that was not there yet when the page moved goes on putting devices of its system into the
    table of the next *)
Definition on_system : state := first_state (Some "s"%string) [] ((λ d, (sd_id d, d)) <$> two_disks).
Definition shown_on_system : state := listing_arrives two_disks (reading two_disks on_system).
Definition next_system : state := moved (Some "t"%string) (with_server (subscribe (server shown_on_system)) shown_on_system).
Definition soon_moved : state := moved (Some "t"%string) on_system.
Example earlier_system :
  (ex_reached true next_system ∧ offered (drawing next_system) (DeleteRow (ex_disk "a" "s"))
   ∧ matchesSystemScope (systemId next_system) (ex_disk "a" "s") = false)
  ∧ ex_reached false (listing_arrives [] (reading [] soon_moved))
  ∧ let s := with_devices (smart_event (Some "s"%string) Create (ex_disk "a" "s") (Some [])) (listing_arrives [] (reading [] soon_moved)) in
    ex_reached false s ∧ systemId s = Some "t"%string ∧ devices s = Some [ex_disk "a" "s"].
Proof.
  assert (∀ calm, ex_reached calm on_system) as Hon.
  { intros calm. apply at_start. by exists (Some "s"%string), [], ((λ d, (sd_id d, d)) <$> two_disks). }
  split; [split_and!|].
  - assert (ex_reached true shown_on_system) as Hs by (apply smart_arrives_reached, smart_reading_reached; [apply Hon|done|by apply shows_two; right]).
    eapply from_outside; [eapply from_outside; [exact Hs|]|]; [by apply (feeds true shown_on_system Silent), subscribes|]. by apply moves.
  - apply (perform_offered (Click "a" "Delete")). vm_compute. reflexivity.
  - vm_compute. reflexivity.
  - assert (ex_reached false (listing_arrives [] (reading [] soon_moved))) as Hs.
    { apply smart_arrives_reached, smart_reading_reached; [|done|].
      - eapply from_outside; [apply Hon|]. by apply moves.
      - split; [constructor|]. intros id. cbn [record_of two_disks collection server soon_moved moved restart on_system first_state opened fmap list_fmap jget].
        symmetry. destruct (String.eqb id (sd_id (ex_disk "a" "s"))); [done|]. by destruct (String.eqb id (sd_id (ex_disk "b" "s"))). }
    split; [exact Hs|]. split_and!; [|done|done]. eapply from_outside; [exact Hs|].
    apply (left_message false (listing_arrives [] (reading [] soon_moved)) (Some "s"%string) Create (ex_disk "a" "s")); [left|left].
Qed.
