(* ===== verification/PackageUpdatesUi.v ===== *)
(** * The table of package updates as the user meets it: [package-updates-table.tsx]

    The head with its search and buttons, the rows with their boxes and holds, over the handlers of
    [PackageUpdates]; here the requests they make are in flight until they are answered, in any order, or
    fail, the timer asks about a running job, and the page can move to another system meanwhile.
    [package_page] is the refinement: what the page does is what [PackageUpdates] allows. *)
From Stdlib Require Import QArith ZArith Lia.
From S2P Require Import Prelude JsValue Types PackageUpdates Dom.
Open Scope nat_scope.

(** ** State and handlers *)

(** a request in flight, by what is done with its answer *)
Inductive flight :=
| Loading (system : string)                            (* the list of a system that was opened *)
| Refetching (system : string)                         (* the list again, failures ignored *)
| Checking (system : string)
| AskingStatus (system : string)
| Polling (system : string)
| Applying (system : string) (packages : list string)
| Holding (system package : string) (hold : bool).
Record state := { tbl : table; flights : list flight; said : list notice }.
Definition flight_of (e : event) (r : request) : flight :=
  match r with
  | CheckUpdates system refresh =>
      if refresh then Checking system else match e with Opened _ => Loading system | _ => Refetching system end
  | GetStatus system => AskingStatus system
  | PostApply system packages => Applying system packages
  | PostHold system package hold => Holding system package hold
  end.
Definition happen (e : event) (s : state) : state :=
  let '(t, did) := PackageUpdates.step e (tbl s) in
  {| tbl := t; flights := flights s ++ (flight_of e <$> requests did); said := said s ++ notices did |}.
Definition step (e : event) (s : state) : state := happen e s.
Definition with_flights (l : list flight) (s : state) : state := {| tbl := tbl s; flights := l; said := said s |}.

(** ** What is drawn *)

Definition number (n : nat) : string := pretty n.
Definition description (t : table) : screen event :=
  if isApplying t then
    [Text "" (if bool_decide (job_of t = Some Unreachable)
              then "Applying updates — agent is restarting, waiting for it to come back…"
              else "Applying " +:+ number (length (default [] (applying t ≫= as_packages)))
                     +:+ " updates in the background — safe to leave this page.")]
  else if 0 <? length (default [] (updates t)) then
    Text "" ("Available: " +:+ number (length (default [] (updates t))) +:+ ". Nothing is installed without your explicit approval.")
    :: when (0 <? securityCount t) [Text "" ("Security: " +:+ number (securityCount t) +:+ ".")]
  else [Text "" "All packages are up to date."].
Definition idle (t : table) : bool := negb (checking t) && negb (isApplying t).
Definition controls (t : table) : screen event :=
  let some := 0 <? length (default [] (updates t)) in
  when some [Input "Filter..." (filter t) Typed]
  ++ when (0 <? securityCount t)
       [Button "" ("Select security (" +:+ number (securityCount t) +:+ ")") (idle t) SecurityClicked]
  ++ [Button "" "Check now" (idle t) CheckClicked]
  ++ when some [Button "" (if isApplying t then "Applying…" else "Apply selected (" +:+ number (length (selected t)) +:+ ")")
                  (idle t && negb (Nat.eqb (length (selected t)) 0)) ApplyClicked].
(** a click on a row and its box do the same; while a job runs the list takes no mouse, the keyboard still
    reaches the boxes and buttons *)
Definition table_row (t : table) (u : PackageUpdate) : screen event :=
  let row := pu_n u in
  [Button row "row" (negb (isApplying t) && negb (held u)) (RowClicked row);
   Checkbox row "select" (set_has row (selected t)) (negb (held u)) (λ _, RowClicked row); Text row row]
  ++ when (truthy (pu_sec u)) [Text row "security"] ++ when (held u) [Text row "Held"]
  ++ [Text row (js_or (pu_cv u) "—"); Text row (js_or (pu_av u) "—");
      Button row (if held u then "Unhold (allow updates)" else "Hold (pin, prevent updates)") true (HoldClicked row (negb (held u)))].
Definition package_rows (t : table) : screen event :=
  Checkbox "head" "Select all" (allFilteredSelected t) true (λ _, AllClicked)
  :: [Text "head" "Package"; Text "head" "Current version"; Text "head" "Available version"]
  ++ (if 0 <? length (filteredUpdates t) then rows (table_row t) (filteredUpdates t) else [Text "" "No results."]).
Definition draw (s : state) : screen event :=
  let t := tbl s in
  if hidden t then [] else
  Text "" "Package Updates" :: description t ++ controls t ++ when (0 <? length (default [] (updates t))) (package_rows t).

(** ** What comes from outside *)

(** an answer, or a failure that is noticed, and a failure that is not *)
Definition replies (f : flight) (e : event) : Prop :=
  match f, e with
  | Loading _, (Answered _ | LoadFailed) => True
  | Refetching _, Answered _ => True
  | Checking _, (CheckAnswered _ | CheckFailed) => True
  | AskingStatus _, StatusLoaded _ => True
  | Polling system, Polled asked _ _ => asked = system
  | Applying system packages, ApplyAnswered asked packages' _ _ => asked = system ∧ packages' = packages
  | Applying _ _, ApplyFailed => True
  | Holding system package hold, HoldAnswered asked package' hold' _ => asked = system ∧ package' = package ∧ hold' = hold
  | _, _ => False
  end.
Definition silent (f : flight) : bool := match f with Refetching _ | AskingStatus _ | Polling _ => true | _ => false end.
Inductive outside (s : state) : state → Prop :=
| answered before f after e : flights s = before ++ f :: after → replies f e → outside s (happen e (with_flights (before ++ after) s))
| failed before f after : flights s = before ++ f :: after → silent f = true → outside s (with_flights (before ++ after) s)
| timer : polling (tbl s) = true → outside s (with_flights (flights s ++ [Polling (systemId (tbl s))]) s)
| moved system : outside s (happen (Opened system) s).
Definition first_state (system : string) : state :=
  happen (Opened system) {| tbl := new_table system ""; flights := []; said := [] |}.
Definition start (s : state) : Prop := ∃ system, s = first_state system.
Definition reached : state → Prop := Dom.reachable draw step outside start.

(** ** Theorems *)

Lemma js_enabled_rows t u name : u ∈ filteredUpdates t → pu_n u = name → hidden t = false → held u = false →
  row_enabled name t = true.
Proof.
  intros Hu Hn Hh Hd. unfold row_enabled, rows_enabled. rewrite Hh. cbn. apply existsb_exists. exists u.
  split; [by apply list_elem_of_In|]. by rewrite Hn, String.eqb_refl, Hd.
Qed.
Lemma pk_offered_enabled s e : offered (draw s) e → enabled e (tbl s) = true.
Proof.
  unfold draw. destruct (hidden (tbl s)) eqn:Hh; [intros Ho; offered_cases Ho by idtac|]. intros Ho.
  assert (idle (tbl s) = true → check_enabled (tbl s) = true) as Hidle.
  { unfold idle, check_enabled. rewrite Hh. by cbn. }
  offered_cases Ho by (unfold description, controls, package_rows, table_row in Ho).
  - unfold security_enabled. rewrite C. by apply Hidle.
  - by apply Hidle.
  - symmetry in H0. apply andb_prop in H0 as [H0 Hn]. unfold apply_enabled. rewrite Hidle, Hn by done. cbn.
    by destruct (default [] (updates (tbl s))).
  - symmetry in H0. apply andb_prop in H0 as [Ha Hd]. by apply (js_enabled_rows _ x); [..|apply negb_true_iff].
  - unfold rows_enabled. by rewrite Hh.
  - unfold rows_enabled. by rewrite Hh.
  - apply (js_enabled_rows _ x); [done..|]. by apply negb_true_iff.
Qed.

Definition is_check (f : flight) : bool := match f with Checking _ => true | _ => false end.
Definition checks (s : state) : nat := length (List.filter is_check (flights s)).
Definition checks_ok (s : state) : Prop := checks s = if checking (tbl s) then 1 else 0.
Definition applies_ok (s : state) : Prop := ∀ system packages, Applying system packages ∈ flights s → packages ≠ [].

(** the list is asked for anew by the button alone, and what was under way is still *)
Lemma happen_checks e s :
  checks (happen e s) = match e with CheckClicked => 1 | _ => 0 end + checks s
  ∧ checking (tbl (happen e s)) =
      match e with CheckClicked => true | CheckAnswered _ | CheckFailed => false | _ => checking (tbl s) end.
Proof.
  assert (∀ l, length (List.filter is_check (flights s ++ l)) = length (List.filter is_check l) + checks s) as Hc.
  { intros l. rewrite List.filter_app, length_app. unfold checks. lia. }
  unfold checks at 1, happen. destruct e; cbn [PackageUpdates.step];
    unfold opened, fetched, status_loaded, polled, checkNow, check_answered, check_failed, applySelected, apply_answered, setHold, hold_answered;
    repeat case_match; simplify_eq; cbn -[List.filter]; rewrite Hc; done.
Qed.
Lemma happen_applies e s : applies_ok s → applies_ok (happen e s).
Proof.
  intros Hs system packages. unfold happen. destruct (PackageUpdates.step e (tbl s)) as [t did] eqn:E. cbn.
  intros [Hin|(r & Hf & Hr)%list_elem_of_fmap]%elem_of_app; [by eapply Hs|].
  destruct r as [sys [|]|sys|sys pk|sys pkg h]; cbn in Hf; try done; [by destruct e|]. injection Hf as -> ->.
  intros ->. destruct e; cbn [PackageUpdates.step] in E;
    unfold opened, fetched, status_loaded, polled, checkNow, check_answered, check_failed, applySelected, apply_answered, setHold, hold_answered in E;
    repeat case_match; simplify_eq; cbn in Hr; rewrite ?elem_of_cons, ?elem_of_nil in Hr; naive_solver.
Qed.
Lemma removed before f after s : flights s = before ++ f :: after →
  checks s = (if is_check f then 1 else 0) + checks (with_flights (before ++ after) s)
  ∧ (applies_ok s → applies_ok (with_flights (before ++ after) s)).
Proof.
  intros E. split.
  - unfold checks. rewrite E. cbn. rewrite !List.filter_app, !length_app. cbn. destruct (is_check f); cbn; lia.
  - intros Hs system packages Hin. apply (Hs system). rewrite E. cbn in Hin.
    apply elem_of_app in Hin as [Hin|Hin]; apply elem_of_app; [by left|]. right. by right.
Qed.
Lemma happen_tbl e s : tbl (happen e s) = (PackageUpdates.step e (tbl s)).1.
Proof. unfold happen. by destruct (PackageUpdates.step e (tbl s)). Qed.
Lemma silent_check f : silent f = true → is_check f = false.
Proof. by destruct f. Qed.

(** what else the drawn controls are known to be *)
Definition promised (t : table) (e : event) : Prop :=
  match e with
  | CheckClicked => checking t = false
  | Typed _ | SecurityClicked | ApplyClicked | AllClicked => True
  | RowClicked name => ∃ u, u ∈ filteredUpdates t ∧ pu_n u = name ∧ held u = false
  | HoldClicked name hold => ∃ u, u ∈ filteredUpdates t ∧ pu_n u = name ∧ hold = negb (held u)
  | _ => False
  end.
Lemma pk_offered_promised s e : offered (draw s) e → promised (tbl s) e.
Proof.
  unfold draw. destruct (hidden (tbl s)) eqn:Hh; [intros Ho; offered_cases Ho by idtac|]. intros Ho.
  offered_cases Ho by (unfold description, controls, package_rows, table_row in Ho).
  - symmetry in H0. unfold idle in H0. by destruct (checking (tbl s)).
  - exists x. split_and!; [done|done|]. by destruct (held x), (negb (isApplying (tbl s))).
  - by exists x.
  - exists x. split_and!; [done|done|]. by destruct (held x), (negb (isApplying (tbl s))).
Qed.
Definition inv (s : state) : Prop := PackageUpdates.reachable (tbl s) ∧ checks_ok s ∧ applies_ok s.
Lemma pk_inv_user s e : inv s → offered (draw s) e → inv (step e s).
Proof.
  intros (Hr & Hc & Ha) Ho. pose proof (pk_offered_promised s e Ho) as Hp. split_and!.
  - unfold step. rewrite happen_tbl. apply reach_step; [done|]. by apply pk_offered_enabled.
  - unfold checks_ok, step in *. destruct (happen_checks e s) as [-> ->]. rewrite Hc. destruct e; try done. cbn in Hp. by rewrite Hp.
  - by apply happen_applies.
Qed.
Lemma answer_enabled f e t : replies f e → enabled e t = true.
Proof. by destruct f, e. Qed.
Lemma pk_inv_outside s s' : inv s → outside s s' → inv s'.
Proof.
  intros (Hr & Hc & Ha) [before f after e E Hf|before f after E Hf|Hp|system].
  - destruct (removed _ _ _ _ E) as [Hn Ha']. split_and!.
    + rewrite happen_tbl. apply reach_step; [done|]. by eapply answer_enabled.
    + unfold checks_ok in *. destruct (happen_checks e (with_flights (before ++ after) s)) as [-> ->].
      rewrite Hn in Hc. cbn [tbl with_flights] in *. destruct f, e; cbn in Hf, Hc |- *; try done; destruct (checking (tbl s)); lia.
    + by apply happen_applies, Ha'.
  - destruct (removed _ _ _ _ E) as [Hn Ha']. split_and!; [done| |by apply Ha'].
    unfold checks_ok in *. rewrite Hn, (silent_check f) in Hc by done. exact Hc.
  - split_and!; [done| |].
    + unfold checks_ok, checks in *. cbn. rewrite List.filter_app, length_app. cbn. rewrite Nat.add_0_r. exact Hc.
    + intros sys packages [Hin|Hin%list_elem_of_singleton]%elem_of_app; [by eapply Ha|done].
  - split_and!.
    + rewrite happen_tbl. by apply reach_step.
    + unfold checks_ok in *. by destruct (happen_checks (Opened system) s) as [-> ->].
    + by apply happen_applies.
Qed.

(** C35: what is clicked, answered in whatever order, asked by the timer and opened meanwhile are only steps
    that [PackageUpdates] allows: a control that is drawn as enabled is, and concerns an update that
    is listed; the selection has listed names only, each once; the button for checking turns exactly
    while one check is under way; no installation of nothing is asked for; and every listed update
    that is not held can be selected (while a job runs by the keyboard alone, which the fading of the
    list does not stop). *)
Theorem package_page s : reached s →
  PackageUpdates.reachable (tbl s)
  ∧ (∀ e, offered (draw s) e → enabled e (tbl s) = true ∧ promised (tbl s) e)
  ∧ (NoDup (selected (tbl s)) ∧ ∀ name, name ∈ selected (tbl s) → name ∈ names_of (default [] (updates (tbl s))))
  ∧ checks s = (if checking (tbl s) then 1 else 0)
  ∧ applies_ok s
  ∧ (hidden (tbl s) = false → ∀ u, u ∈ filteredUpdates (tbl s) → held u = false →
     offered (draw s) (RowClicked (pu_n u))).
Proof.
  intros Hs. assert (inv s) as (Hr & Hc & Ha).
  { revert s Hs. apply page_invariant.
    - intros s (system & ->). split_and!; [constructor|done|].
      intros sys packages Hin. cbn in Hin. rewrite !elem_of_cons, elem_of_nil in Hin. naive_solver.
    - apply pk_inv_user.
    - apply pk_inv_outside. }
  split; [done|]. split; [intros e He; split; [by apply pk_offered_enabled|by apply pk_offered_promised]|].
  split; [apply (reachable_selection _ Hr)|]. split; [done|]. split; [done|].
  intros Hh u Hu Hd. apply (by_tick _ (pu_n u) "select" (set_has (pu_n u) (selected (tbl s))) (λ _, RowClicked (pu_n u))). unfold draw. rewrite Hh. right. rewrite !elem_of_app. right. right.
  apply elem_of_when. split.
  - unfold filteredUpdates in Hu. destruct (updates (tbl s)) as [[|x l]|]; [|done|by apply elem_of_nil in Hu].
    exfalso. destruct (List.filter truthy _); [by apply elem_of_nil in Hu|]. cbn in Hu. by apply elem_of_nil in Hu.
  - unfold package_rows. right. rewrite !elem_of_app. right. destruct (filteredUpdates (tbl s)) as [|x l] eqn:E; [by apply elem_of_nil in Hu|].
    cbn [length Nat.ltb Nat.leb]. apply elem_of_rows. exists u. split; [done|]. unfold table_row. rewrite Hd. right. left.
Qed.

(** ** Visits *)

Definition visit (acts : list act) (s : state) : state := default s (play draw step acts s).
Definition listed (us : list PackageUpdate) (system : string) : state :=
  happen (Answered (Some us)) (with_flights [AskingStatus system] (first_state system)).
Definition two_updates : list PackageUpdate := [ex_update "curl" false; ex_update "git" true].
Definition select_and_apply : list act :=
  [Tick "curl" "select"; Click "" "Apply selected (1)"; Click "" "Apply selected (1)"]%string.
Definition ex_page : state := visit select_and_apply (listed two_updates "a").
(** the button is not disabled by the request it makes: a second click asks for the same installation again *)
Example applied_twice : flights ex_page = [AskingStatus "a"; Applying "a" ["curl"%string]; Applying "a" ["curl"%string]].
Proof. vm_compute. reflexivity. Qed.
(** while the job runs a press on the box still takes the update off the selection *)
Example selected_in_job :
  let s := happen (ApplyAnswered "a" ["curl"%string] 0 (ex_status Running None)) ex_page in
  isApplying (tbl s) = true ∧ selected (tbl s) = ["curl"%string] ∧ selected (tbl (visit [Tick "curl" "select"]%string s)) = [].
Proof. by vm_compute. Qed.
(** the job of a system that was left is shown, and polled, as that of the next one *)
Example job_of_another :
  let s := happen (ApplyAnswered "a" ["curl"%string] 0 (ex_status Running None))
             (happen (Opened "b") (with_flights [] ex_page)) in
  let asked := with_flights (flights s ++ [Polling (systemId (tbl s))]) s in
  systemId (tbl s) = "b"%string ∧ isApplying (tbl s) = true ∧ Polling "b" ∈ flights asked.
Proof. split_and!; [by vm_compute..|]. apply list_elem_of_In. vm_compute. repeat first [left; reflexivity | right]. Qed.

Lemma package_page_witness : applies_ok ex_page ∧ length (flights ex_page) = 3.
Proof.
  split; [|by vm_compute]. apply (package_page ex_page). apply (play_reachable _ _ _ _ select_and_apply (listed two_updates "a")).
  - apply (from_outside _ _ _ _ (first_state "a")); [apply at_start; by exists "a"%string|].
    apply (answered (first_state "a") [] (Loading "a") [AskingStatus "a"]); done.
  - by vm_compute.
Defined.
