(* ===== verification/AlertsUi.v ===== *)
(** * The sheet of alerts as the user meets it: [AlertDialogContent] and [AlertContent] of
    [components/alerts/alerts-sheet.tsx]

    Both tabs with the switch and the sliders of every kind of alert, over the contents, the debounced
    requests and the copy of the alerts of [AlertsSheet].  The tab that is left is taken down: its
    switches start anew when it is opened again. *)
From Stdlib Require Import QArith Qround ZArith Lia.
From S2P Require Import Prelude JsValue JsDate Types Utils Alerts AlertsSheet Dom.
Open Scope Z_scope.

Section Page.
(** the system the sheet was opened for; how a number is written *)
Context (sys : SystemRecord) (num_str : Q → string).

(** ** State and handlers *)

Record state := {
  alerts : AlertMap; allSystems : list SystemRecord; now : Z;
  overwriteExisting : bool; currentTab : bool;      (* [true]: the tab of all systems *)
  initialAlertsState : AlertMap; contents : jsmap content; pending_calls : timers; requests : list sent }.
Inductive event :=
| SetTab (global : bool) | SetOverwrite (b : bool) | Toggle (key : string) (b : bool)
| SlideValue (key : string) (v : Q) | CommitValue (key : string) (v : Q)
| SlideMin (key : string) (v : Q) | CommitMin (key : string) (v : Q).

Definition systemAlert (s : state) (key : string) : option AlertRecord :=
  match jget (sys_id sys) (alerts s) with Some m => jget key m | None => None end.
(** the contents of a tab when it is opened *)
Definition mount (global : bool) (s : state) : jsmap content :=
  (λ p : string * AlertInfo, (p.1, content_init p.1 (sys_id sys) global p.2 (systemAlert s p.1))) <$> alertInfo.
Definition with_min (m : Z) (c : content) : content := {|
  alertKey := alertKey c; system := system c; global := global c; checked := checked c; min := m; value := value c |}.
Definition with_value (v : Q) (c : content) : content := {|
  alertKey := alertKey c; system := system c; global := global c; checked := checked c; min := min c; value := v |}.
Definition with_contents (l : jsmap content) (t : timers) (i : AlertMap) (s : state) : state := {|
  alerts := alerts s; allSystems := allSystems s; now := now s; overwriteExisting := overwriteExisting s;
  currentTab := currentTab s; initialAlertsState := i; contents := l; pending_calls := t; requests := requests s |}.
Definition set_content (c : content) (s : state) : state :=
  with_contents (jset (alertKey c) c (contents s)) (pending_calls s) (initialAlertsState s) s.
Definition targets_of (s : state) (c : content) : list string :=
  getSystemIds (allSystems s) (overwriteExisting s) (initialAlertsState s) c.
Definition commit (m : Z) (v : Q) (c : content) (s : state) : state :=
  with_contents (contents s) (sendUpsert (now s) (targets_of s c) c m v (pending_calls s)) (initialAlertsState s) s.

Definition step (e : event) (s : state) : state :=
  match e with
  | SetTab g => {|
      alerts := alerts s; allSystems := allSystems s; now := now s; overwriteExisting := overwriteExisting s; currentTab := g;
      initialAlertsState := alertsWhenGlobalSelected (xorb (currentTab s) g) (alerts s) (initialAlertsState s);
      contents := mount g s; pending_calls := pending_calls s; requests := requests s |}
  | SetOverwrite b => {|
      alerts := alerts s; allSystems := allSystems s; now := now s; overwriteExisting := b; currentTab := currentTab s;
      initialAlertsState := initialAlertsState s; contents := contents s; pending_calls := pending_calls s;
      requests := requests s |}
  | Toggle key b =>
      match jget key (contents s) with
      | Some c =>
          let '(c, t, i) := onCheckedChange (now s) (allSystems s) (overwriteExisting s) b c (pending_calls s) (initialAlertsState s) in
          with_contents (jset key c (contents s)) t i s
      | None => s
      end
  | SlideValue key v => match jget key (contents s) with Some c => set_content (with_value v c) s | None => s end
  | SlideMin key v => match jget key (contents s) with Some c => set_content (with_min (Qfloor v) c) s | None => s end
  | CommitValue key v => match jget key (contents s) with Some c => commit (min c) v c s | None => s end
  | CommitMin key v => match jget key (contents s) with Some c => commit (Qfloor v) (value c) c s | None => s end
  end.

(** ** What is drawn *)

Definition single (data : AlertInfo) : bool := match ai_singleDesc data with Some d => truthy d | None => false end.
Definition slider_min (data : AlertInfo) : Q := default 1%Q (ai_min data).
Definition slider_max (data : AlertInfo) : Q := default 99%Q (ai_max data).
Definition slider_step (data : AlertInfo) : Q := default 1%Q (ai_step data).
(** [AlertContent] *)
Definition content_page (data : AlertInfo) (c : content) : screen event :=
  let key := alertKey c in
  [Text key (ai_name data)] ++ when (negb (checked c)) [Text key (ai_desc data)]
  ++ [Checkbox key "switch" (checked c) true (Toggle key)]
  ++ when (checked c)
       (when (negb (single data))
          [Text key ((if default false (ai_invert data) then "Average drops below" else "Average exceeds") +:+ " " +:+ num_str (value c) +:+ ai_unit data);
           Slider key "value" (slider_min data) (slider_max data) (slider_step data) (value c) (SlideValue key) (CommitValue key)]
        ++ when (single data) [Text key (default ""%string (ai_singleDesc data))]
        ++ [Text key ("For " +:+ z_str (min c) +:+ (if min c =? 1 then " minute" else " minutes"));
            Slider key "minutes" 1 60 1 (inject_Z (min c)) (SlideMin key) (CommitMin key)]).
Definition entry_page (p : string * content) : screen event :=
  match jget p.1 alertInfo with Some data => content_page data p.2 | None => [] end.
Definition draw (s : state) : screen event :=
  [Text "" "Alerts"; Link "" "notification settings" "/settings/notifications";
   Button "" (sys_name sys) (currentTab s) (SetTab false); Button "" "All Systems" (negb (currentTab s)) (SetTab true)]
  ++ when (currentTab s) [Checkbox "" "Overwrite existing alerts" (overwriteExisting s) true SetOverwrite]
  ++ rows entry_page (contents s).

(** the minutes of an alert of the hub are not negative *)
Definition alerts_ok (a : AlertMap) : Prop := ∀ id m key x, jget id a = Some m → jget key m = Some x → 0 <= al_min x.
(** the stores change, time passes and the debounced calls run *)
Inductive outside (s : state) : state → Prop :=
| stores_change a l : alerts_ok a → outside s {|
    alerts := a; allSystems := l; now := now s; overwriteExisting := overwriteExisting s; currentTab := currentTab s;
    initialAlertsState := initialAlertsState s; contents := contents s; pending_calls := pending_calls s; requests := requests s |}
| time_passes t : now s <= t → outside s {|
    alerts := alerts s; allSystems := allSystems s; now := t; overwriteExisting := overwriteExisting s;
    currentTab := currentTab s; initialAlertsState := initialAlertsState s; contents := contents s;
    pending_calls := (tick t (pending_calls s)).2; requests := requests s ++ (tick t (pending_calls s)).1 |}.
Definition start (s : state) : Prop :=
  alerts_ok (alerts s) ∧ currentTab s = false ∧ overwriteExisting s = false ∧ contents s = mount false s ∧ pending_calls s = no_timers ∧ requests s = [].
Definition reached : state → Prop := reachable draw step outside start.

(** ** Theorems *)

Definition promised (s : state) (e : event) : Prop :=
  match e with
  | SetTab g => g = negb (currentTab s)
  | SetOverwrite _ => currentTab s = true
  | Toggle key b => ∃ c, jget key (contents s) = Some c ∧ b = negb (checked c)
  | SlideValue key v | CommitValue key v =>
      ∃ c data, jget key (contents s) = Some c ∧ checked c = true ∧ jget key alertInfo = Some data ∧ single data = false
                ∧ (slider_min data <= v)%Q ∧ (v <= slider_max data)%Q
  | SlideMin key v | CommitMin key v =>
      ∃ c, jget key (contents s) = Some c ∧ checked c = true ∧ 1 <= Qfloor v <= 60 ∧ (v == inject_Z (Qfloor v))%Q
  end.

(** *** What the contents are *)

Definition contents_ok (s : state) : Prop :=
  jkeys (contents s) = alertKeys
  ∧ ∀ key c, jget key (contents s) = Some c → alertKey c = key ∧ system c = sys_id sys ∧ global c = currentTab s ∧ 1 <= min c.
Lemma alert_keys_wf : NoDup alertKeys.
Proof. apply (bool_decide_unpack _). vm_compute. exact I. Qed.
Lemma alert_keys_truthy key : key ∈ alertKeys → truthy key = true.
Proof.
  intros H. assert (Forall (λ k, truthy k = true) alertKeys) as Hf by (apply (bool_decide_unpack _); vm_compute; exact I).
  rewrite Forall_forall in Hf. by apply Hf.
Qed.
Lemma js_or_min (m : option Z) : (∀ x, m = Some x → 0 <= x) → 1 <= js_or m 10.
Proof.
  intros Hm. unfold js_or. destruct m as [x|]; cbn; [|lia]. specialize (Hm x eq_refl).
  unfold truthy, truthy_Z. destruct (Z.eqb_spec x 0); cbn; lia.
Qed.
Lemma al_mount_ok g s : alerts_ok (alerts s) → jkeys (mount g s) = alertKeys ∧
  ∀ key c, jget key (mount g s) = Some c → alertKey c = key ∧ system c = sys_id sys ∧ global c = g ∧ 1 <= min c.
Proof.
  intros Ha. split; [reflexivity|]. intros key c Hc. apply jget_Some_elem in Hc.
  apply list_elem_of_fmap in Hc as ([k data] & [= -> ->] & _). split_and!; try done. cbn.
  apply js_or_min. intros x. unfold systemAlert. destruct (jget (sys_id sys) (alerts s)) as [m|] eqn:E; [|done].
  destruct (jget k m) as [a|] eqn:Ea; [|done]. cbn. intros [= <-]. by eapply Ha.
Qed.
Lemma contents_set s c key : contents_ok s → jget key (contents s) = Some c → ∀ c',
  alertKey c' = alertKey c → system c' = system c → global c' = global c → 1 <= min c' →
  jkeys (jset (alertKey c') c' (contents s)) = alertKeys
  ∧ ∀ k x, jget k (jset (alertKey c') c' (contents s)) = Some x →
      alertKey x = k ∧ system x = sys_id sys ∧ global x = currentTab s ∧ 1 <= min x.
Proof.
  intros [Hk Hc] Hg c' Ek Es Eg Em. destruct (Hc _ _ Hg) as (Hkey & Hsys & Hglob & _). rewrite Ek, Hkey. split.
  - rewrite jkeys_jset. unfold jhas. by rewrite Hg.
  - intros k x. rewrite jget_jset. destruct (String.eqb_spec key k) as [<-|]; [|apply Hc].
    intros [= <-]. by rewrite Ek, Es, Eg.
Qed.

(** *** What is sent *)

Definition upsert_ok (u : upsert) : Prop :=
  up_name u ∈ alertKeys ∧ up_systems u ≠ [] ∧ 1 <= up_min u ∧ up_overwrite u = true.
Definition calls_ok (t : timers) : Prop :=
  (∀ u due, timeout (upsertAlerts t) = Some (u, due) → upsert_ok u)
  ∧ ∀ d due, timeout (deleteAlerts t) = Some (d, due) → del_name d ∈ alertKeys.
Definition sent_ok (x : sent) : Prop := match x with Upserted u => upsert_ok u | Deleted d => del_name d ∈ alertKeys end.
Lemma sendUpsert_ok now ids c m v t : alertKey c ∈ alertKeys → 1 <= m → calls_ok t → calls_ok (sendUpsert now ids c m v t).
Proof.
  intros Hk Hm [Hu Hd]. destruct ids as [|i ids]; [done|]. split; [|exact Hd]. intros u due. cbn. intros [= <- <-].
  by split_and!.
Qed.
Lemma debounce_kept {A} (P : A → Prop) now (x : debounced A) : (∀ a due, timeout x = Some (a, due) → P a) →
  (∀ a, (debounce_tick now x).1 = Some a → P a) ∧ ∀ a due, timeout (debounce_tick now x).2 = Some (a, due) → P a.
Proof.
  intros Hx. unfold debounce_tick. destruct (timeout x) as [[a due]|] eqn:E.
  - destruct (due <=? now); cbn; (split; [|intros a' due']); [intros a'|..]; try done; try (intros [= <-]; by eapply Hx).
    rewrite E. apply Hx.
  - cbn. split; [done|]. intros a due. by rewrite E.
Qed.
Lemma tick_ok now t : calls_ok t → calls_ok (tick now t).2 ∧ Forall sent_ok (tick now t).1.
Proof.
  intros [Hu Hd]. apply (debounce_kept _ now) in Hu as [Hu1 Hu2].
  apply (debounce_kept (λ d, del_name d ∈ alertKeys) now) in Hd as [Hd1 Hd2].
  unfold tick. destruct (debounce_tick now (upsertAlerts t)) as [u ups], (debounce_tick now (deleteAlerts t)) as [d dels].
  cbn in *. split; [by split|].
  assert (Forall sent_ok (option_list (Upserted <$> u))) by (destruct u; constructor; [by apply Hu1|constructor]).
  assert (Forall sent_ok (option_list (Deleted <$> d))) by (destruct d; constructor; [by apply Hd1|constructor]).
  destruct (timeout (upsertAlerts t)) as [[]|], (timeout (deleteAlerts t)) as [[]|]; try case_match; by apply Forall_app.
Qed.

Record inv (s : state) : Prop := {
  inv_alerts : alerts_ok (alerts s); inv_contents : contents_ok s; inv_calls : calls_ok (pending_calls s);
  inv_requests : Forall sent_ok (requests s) }.
Lemma slider_values data key v : jget key alertInfo = Some data →
  on_slider (slider_min data) (slider_max data) (slider_step data) v → (slider_min data <= v)%Q ∧ (v <= slider_max data)%Q.
Proof.
  intros Hd [Hm (k & ->)]. split; [|done].
  assert (0 <= slider_step data)%Q as Hs.
  { assert (Forall (λ p : string * AlertInfo, Qle_bool 0 (slider_step p.2) = true) alertInfo) as Hf by (repeat constructor).
    rewrite Forall_forall in Hf. apply Qle_bool_iff, (Hf (key, data)). by apply jget_Some_elem. }
  assert (0 <= inject_Z (Z.of_nat k) * slider_step data)%Q as Hp.
  { apply Qmult_le_0_compat; [|done]. unfold Qle. cbn. lia. }
  rewrite <-(Qplus_0_r (slider_min data)) at 1. by apply Qplus_le_compat; [apply Qle_refl|].
Qed.
Lemma whole_minutes v : on_slider 1 60 1 v → 1 <= Qfloor v <= 60 ∧ (v == inject_Z (Qfloor v))%Q.
Proof.
  intros [Hm (k & E)]. assert (v == inject_Z (1 + Z.of_nat k))%Q as Ev.
  { rewrite E, inject_Z_plus. ring. }
  assert (Qfloor v = 1 + Z.of_nat k) as Ef by (rewrite Ev; apply Qfloor_Z). rewrite Ef. split; [|done].
  split; [lia|]. rewrite Ev in Hm. unfold Qle in Hm. cbn in Hm. lia.
Qed.
Lemma al_offered_promised s e : inv s → offered (draw s) e → promised s e.
Proof.
  intros [_ [Hk Hc] _ _] Ho. unfold draw in Ho. apply offered_app in Ho as [Ho|Ho].
  { offered_cases Ho by idtac; by destruct (currentTab s). }
  apply offered_app in Ho as [Ho|Ho]; [offered_cases Ho by idtac|].
  apply offered_rows in Ho as ([key c] & Hin & Ho). unfold entry_page in Ho. cbn [fst snd] in Ho.
  assert (jget key (contents s) = Some c) as Hg by (apply elem_jget; [unfold jwf; rewrite Hk; apply alert_keys_wf|done]).
  destruct (Hc _ _ Hg) as (<- & _). destruct (jget (alertKey c) alertInfo) as [data|] eqn:Hd; [|offered_cases Ho by idtac].
  offered_cases Ho by (unfold content_page in Ho).
  - by eexists.
  - eexists _, _. split_and!; try done; [by apply negb_true_iff|by eapply slider_values|by eapply slider_values].
  - eexists. split_and!; try done; by apply whole_minutes.
  - eexists _, _. split_and!; try done; [by apply negb_true_iff|by eapply slider_values|by eapply slider_values].
  - eexists. split_and!; try done; by apply whole_minutes.
Qed.
Lemma commit_inv m v c s : inv s → alertKey c ∈ alertKeys → 1 <= m → inv (commit m v c s).
Proof. intros [Ha Hc Hp Hr] Hk Hm. split; [done|done| |done]. by apply sendUpsert_ok. Qed.
Lemma content_key s key c : contents_ok s → jget key (contents s) = Some c → alertKey c ∈ alertKeys ∧ 1 <= min c.
Proof.
  intros [Hk Hc] Hg. destruct (Hc _ _ Hg) as (-> & _ & _ & Hm). split; [|done]. rewrite <-Hk. apply jget_is_Some. by rewrite Hg.
Qed.
Lemma al_inv_user s e : inv s → promised s e → inv (step e s).
Proof.
  intros Hi He. pose proof Hi as [Ha Hc Hp Hr].
  destruct e as [g|b|key b|key v|key v|key v|key v]; cbn in He |- *.
  - split; [done| |done|done]. by apply al_mount_ok.
  - by split.
  - destruct He as (c & Hg & _). rewrite Hg. destruct (content_key _ _ _ Hc Hg) as [Hk Hm].
    pose proof (contents_set s c key Hc Hg (with_checked b c) eq_refl eq_refl eq_refl Hm) as Hs.
    destruct (proj2 Hc _ _ Hg) as (Ek & _). cbn [alertKey with_checked] in Hs. rewrite Ek in Hs.
    unfold onCheckedChange. destruct b; cbn; (split; [done|exact Hs| |done]).
    + apply sendUpsert_ok; [by rewrite Ek in Hk; cbn; rewrite Ek|done|done].
    + destruct Hp as [Hu Hd]. split; [exact Hu|]. cbn. intros d due [= <- <-]. done.
  - destruct He as (c & data & Hg & _). rewrite Hg. destruct (content_key _ _ _ Hc Hg) as [Hk Hm].
    split; [done| |done|done]. by apply (contents_set s c key).
  - destruct He as (c & data & Hg & _). rewrite Hg. destruct (content_key _ _ _ Hc Hg) as [Hk Hm]. by apply commit_inv.
  - destruct He as (c & Hg & _ & Hv & _). rewrite Hg. split; [done| |done|done]. apply (contents_set s c key); try done. apply Hv.
  - destruct He as (c & Hg & _ & Hv & _). rewrite Hg. destruct (content_key _ _ _ Hc Hg) as [Hk Hm]. apply commit_inv; try done. apply Hv.
Qed.

(** C9: however the sheet is used and whatever the stores do meanwhile, every request to create or change
    alerts names a kind there is, is for some system, asks for a minute at least, and is one the hub
    takes; the sliders are there only while the switch of their kind is on, and keep to the range of the
    kind. *)
Theorem alerts_sheet s : reached s →
  Forall sent_ok (requests s) ∧ (∀ u h, Upserted u ∈ requests s → is_Some (UpsertUserAlerts u h))
  ∧ ∀ e, offered (draw s) e → promised s e.
Proof.
  intros Hs. assert (inv s) as Hi.
  { revert s Hs. apply page_invariant.
    - intros s (Ha & Ht & Ho & Hc & Hp & Hr). split; [done| | |by rewrite Hr].
      + unfold contents_ok. rewrite Hc, Ht. by apply al_mount_ok.
      + rewrite Hp. by split.
    - intros s e Hi He. apply al_inv_user; [done|by apply al_offered_promised].
    - intros s s' [Ha Hc Hp Hr] [a l Hok|t Ht].
      + by split.
      + destruct (tick_ok t _ Hp) as [Hp' Hs']. split; [done|done|done|]. by apply Forall_app. }
  split_and!; [apply Hi| |by intros e; apply al_offered_promised].
  intros u h Hin. pose proof (inv_requests _ Hi) as Hr. rewrite Forall_forall in Hr.
  destruct (Hr _ Hin) as (Hk & Hne & _). unfold UpsertUserAlerts. rewrite (alert_keys_truthy _ Hk).
  destruct (up_systems u); [done|]. by eexists.
Qed.
End Page.

(** ** A visit: an alert is switched on and its slider moved before the debounced call has run *)

Definition ex_sheet : state := {|
  alerts := []; allSystems := [example_system "a" "web" Status_Up]; now := 0; overwriteExisting := false; currentTab := false;
  initialAlertsState := []; contents := (λ p : string * AlertInfo, (p.1, content_init p.1 "a" false p.2 None)) <$> alertInfo;
  pending_calls := no_timers; requests := [] |}.
Definition a_number (q : Q) : string := z_str (Qfloor q).
Definition ex_system : SystemRecord := example_system "a" "web" Status_Up.
Definition acts_done : list act := [Tick "Temperature" "switch"; Slide "Temperature" "minutes" 4; Release "Temperature" "minutes" 4]%string.
Definition acted_sheet : state := default ex_sheet (play (draw ex_system a_number) (step ex_system) acts_done ex_sheet).
Definition later : state := {|
  alerts := alerts acted_sheet; allSystems := allSystems acted_sheet; now := 200; overwriteExisting := overwriteExisting acted_sheet;
  currentTab := currentTab acted_sheet; initialAlertsState := initialAlertsState acted_sheet; contents := contents acted_sheet;
  pending_calls := (tick 200 (pending_calls acted_sheet)).2; requests := requests acted_sheet ++ (tick 200 (pending_calls acted_sheet)).1 |}.
Lemma alerts_sheet_witness :
  Forall sent_ok (requests later)
  ∧ match requests later with [Upserted u] => up_name u = "Temperature"%string ∧ up_min u = 5 | _ => False end.
Proof.
  split; [|by vm_compute].
  apply (alerts_sheet ex_system a_number). unfold later. eapply from_outside; [|apply (time_passes acted_sheet 200); vm_compute; discriminate].
  apply (play_reachable _ _ _ _ acts_done ex_sheet).
  - apply at_start. split; [|by split_and!]. by intros id m key x [=].
  - vm_compute. reflexivity.
Defined.
