(* ===== verification/GeneralUi.v ===== *)
(** * The general settings as the user meets them: [components/routes/settings/general.tsx]

    The language, the width of the page, the selects and the number fields with the browser's check of
    the form, saving and its answers, over the initial values of [GeneralForm].  The fields keep their
    values themselves: a select starts anew when the stored setting it is keyed by becomes another
    text, a number field shows the stored one until something is typed.  The links below the form are
    [ExternalLinksUi]. *)
From Stdlib Require Import Ascii QArith ZArith Lia.
From S2P Require Import Prelude JsValue JsDate Types Utils Settings GeneralForm Controls Dom.
Open Scope Z_scope.

Section Page.
Context `{D3Time} (num_str : Q → string) (currentHour12 : bool).

(** ** State and handlers *)

Record state := {
  userSettings : settings; touched : jsmap string;    (* the fields that were changed, with their texts *)
  isLoading : bool; saves : list settings;            (* [saveSettings] in flight *)
  locale : string; imports : list string;             (* catalogues on their way *)
  toasts : list string }.
Inductive event :=
| SetLanguage (lang : string) | SlideWidth (v : Q) | Choose_ (field value : string) | TypeNumber (field text : string) | Submit.

Definition with_settings (u : settings) (t : jsmap string) (s : state) : state := {|
  userSettings := u; touched := t; isLoading := isLoading s; saves := saves s; locale := locale s; imports := imports s;
  toasts := toasts s |}.
Definition with_saves (b : bool) (l : list settings) (t : list string) (s : state) : state := {|
  userSettings := userSettings s; touched := touched s; isLoading := b; saves := l; locale := locale s; imports := imports s;
  toasts := t |}.
Definition with_locale (l : string) (i : list string) (s : state) : state := {|
  userSettings := userSettings s; touched := touched s; isLoading := isLoading s; saves := saves s; locale := l; imports := i;
  toasts := toasts s |}.

(** the text of a field as it stands *)
Definition field_text (s : state) (field : string) : string :=
  match jget field (touched s) with Some t => t | None => form_default num_str currentHour12 (userSettings s) field end.
Definition number_fields : list string := ["colorWarn"; "colorCrit"]%string.
Definition is_number (field : string) : bool := existsb (String.eqb field) number_fields.
Arguments is_number : simpl never.
(** the store holds other settings: a select whose key is another text now is mounted anew *)
Definition same_key (field : string) (old new : settings) : bool :=
  bool_decide (json_text num_str <$> jget field old = json_text num_str <$> jget field new).
Definition settings_changed (u : settings) (s : state) : state :=
  with_settings u (List.filter (λ p, is_number p.1 || same_key p.1 (userSettings s) u) (touched s)) s.

(** the browser's check: a percentage is left out or a whole number from 1 to 100 *)
Definition whole_percent (text : string) : bool :=
  match text with
  | EmptyString => true
  | _ => match Number text with
         | Fin q => Qle_bool 1 q && Qle_bool q 100 && Qeq_bool q (inject_Z (Qround.Qfloor q))
         | _ => false
         end
  end.
Definition form_valid (s : state) : bool := forallb (λ f, whole_percent (field_text s f)) number_fields.
Arguments form_valid : simpl never.
Definition step (e : event) (s : state) : state :=
  match e with
  | SetLanguage l => if String.eqb l "en" then with_locale (lang (activateLocale l)) (imports s) s
                     else with_locale (locale s) (imports s ++ [l]) s   (* the catalogue is imported first *)
  | SlideWidth v => with_settings (slide_width v (userSettings s)) (touched s) s
  | Choose_ f v => with_settings (userSettings s) (jset f v (touched s)) s
  | TypeNumber f t => with_settings (userSettings s) (jset f (number_field t) (touched s)) s
  | Submit => if form_valid s then with_saves true (saves s ++ [form_data (field_text s)]) (toasts s) s else s
  end.

(** *** Answers *)

Definition save_answered (api : settings_api) (n : settings) (s : state) : state :=
  let '(u, r) := saveSettings api n in
  let s := match u with Some u => settings_changed u s | None => s end in
  with_saves false (saves s) (toasts s ++ [match r with SettingsSaved => "Settings saved" | SaveFailed => "Failed to save settings" end]%string) s.
(** a catalogue has come, or could not be loaded *)
Definition imported (loads : string → bool) (l : string) (s : state) : state :=
  with_locale (lang (dynamicActivate loads l)) (imports s) s.

(** ** What is drawn *)

Definition language_names : list (string * string) := combine languages
  ["العربية"; "Български"; "Čeština"; "Dansk"; "Deutsch"; "English"; "Español"; "فارسی"; "Français"; "עברית"; "Hrvatski";
   "Magyar"; "Indonesia"; "Italiano"; "日本語"; "한국어"; "Nederlands"; "Norsk"; "Polski"; "Português"; "Русский";
   "Slovenščina"; "Српски"; "Svenska"; "Türkçe"; "Українська"; "Tiếng Việt"; "简体中文"; "繁體中文"; "繁體中文"]%string.
Definition period_options : list (string * string) := (λ c, (ChartTimes_str c, cp_label (chartTimeData c))) <$> all_periods.
Definition hour_options : list (string * string) := [("12h", "12h"); ("24h", "24h")]%string.
Definition temp_options : list (string * string) :=
  combine (unit_options "unitTemp") ["Celsius (°C)"; "Fahrenheit (°F)"]%string.
Definition byte_options (field : string) : list (string * string) :=
  combine (unit_options field) ["Bytes (KB/s, MB/s, GB/s)"; "Bits (Kbps, Mbps, Gbps)"]%string.
Definition options_of (field : string) : list (string * string) :=
  if String.eqb field "chartTime" then period_options else if String.eqb field "hourFormat" then hour_options
  else if String.eqb field "unitTemp" then temp_options else byte_options field.
Arguments options_of : simpl never.
Definition select (s : state) (field label : string) : widget event :=
  Select label (field_text s field) (options_of field) (Choose_ field).
Definition percent (s : state) (field label : string) : widget event := Input label (field_text s field) (TypeNumber field).
Definition width_text (s : state) : string := or_text num_str (jget "layoutWidth" (userSettings s)) "1500".
(** the value of the slider *)
Definition width_value (s : state) : Q := match Number (width_text s) with Fin q => q | _ => 0 end.
Definition draw (s : state) : screen event :=
  [Text "" "General"; Text "" "Change general application options."; Text "" "Language";
   Link "" "Crowdin" "https://crowdin.com/project/beszel";
   Select "Preferred Language" (locale s) language_names SetLanguage;
   Text "" "Layout width"; Text "" ("Adjust the width of the main layout (" +:+ width_text s +:+ "px)");
   Slider "" "layoutWidth" 1000 2000 10 (width_value s) SlideWidth SlideWidth;
   Text "" "Chart options"; Text "" "Adjust display options for charts.";
   select s "chartTime" "Default time period"; select s "hourFormat" "Time format";
   Text "" "Unit preferences"; Text "" "Change display units for metrics.";
   select s "unitTemp" "Temperature unit"; select s "unitNet" "Network unit";
   select s "unitDisk" "Disk unit";
   Text "" "Warning thresholds"; Text "" "Set percentage thresholds for meter colors.";
   percent s "colorWarn" "Warning (%)"; percent s "colorCrit" "Critical (%)";
   Button "" "Save Settings" (negb (isLoading s)) Submit].

Inductive outside (s : state) : state → Prop :=
| answer_save before n after api : saves s = before ++ n :: after →
    outside s (save_answered api n (with_saves (isLoading s) (before ++ after) (toasts s) s))
| catalogue before l after loads : imports s = before ++ l :: after →
    outside s (imported loads l (with_locale (locale s) (before ++ after) s))
| other_change u : outside s (settings_changed u s).
Definition start (s : state) : Prop :=
  touched s = [] ∧ isLoading s = false ∧ saves s = [] ∧ imports s = [] ∧ locale s ∈ languages.
Definition reached : state → Prop := reachable draw step outside start.

(** ** Theorems *)

Definition promised (s : state) (e : event) : Prop :=
  match e with
  | SetLanguage l => l ∈ languages
  | SlideWidth v => (1000 <= v)%Q ∧ (v <= 2000)%Q
  | Choose_ f v => f ∈ form_fields ∧ is_number f = false ∧ f ≠ "layoutWidth"%string ∧ v ∈ (options_of f).*1
  | TypeNumber f _ => is_number f = true
  | Submit => isLoading s = false
  end.
Lemma width_range v : on_slider 1000 2000 10 v → (1000 <= v)%Q ∧ (v <= 2000)%Q.
Proof.
  intros [Hm (k & ->)]. split; [|done]. rewrite <-(Qplus_0_r 1000) at 1. apply Qplus_le_compat; [apply Qle_refl|].
  apply Qmult_le_0_compat; [|done]. unfold Qle. cbn. lia.
Qed.
Lemma option_value {A B} (v : A) (n : B) l : (v, n) ∈ l → v ∈ l.*1.
Proof. intros Hv. apply list_elem_of_fmap. by exists (v, n). Qed.
Lemma ge_offered_promised s e : offered (draw s) e → promised s e.
Proof.
  intros Ho. unfold draw, select, percent in Ho.
  offered_cases Ho by idtac.
  all: try (split_and!; [by apply (bool_decide_unpack _); vm_compute|done|done|by eapply option_value]).
  - by destruct (isLoading s).
  - apply option_value in Hv. exact Hv.
  - by apply width_range.
  - by apply width_range.
Qed.

(** what was changed by hand: a select holds one of its options, a number field a number or nothing *)
Definition touched_ok (s : state) : Prop :=
  Forall (λ p : string * string, if is_number p.1 then number_field p.2 = p.2 else p.2 ∈ (options_of p.1).*1) (touched s).
Definition save_ok (n : settings) : Prop :=
  ∃ fields, n = form_data fields ∧ whole_percent (fields "colorWarn"%string) = true ∧ whole_percent (fields "colorCrit"%string) = true.
(** saving is shown exactly while a save is in flight, and there is one at a time *)
Definition busy_ok (s : state) : Prop :=
  match saves s with [] => isLoading s = false | [n] => isLoading s = true ∧ save_ok n | _ => False end.
Record inv (s : state) : Prop := {
  inv_touched : touched_ok s; inv_busy : busy_ok s; inv_locale : locale s ∈ languages; inv_imports : Forall (.∈ languages) (imports s) }.

Lemma number_field_idem t : number_field (number_field t) = number_field t.
Proof. unfold number_field. destruct (valid_float t) eqn:E; [by rewrite E|reflexivity]. Qed.
Lemma touched_set f v s (P : string * string → Prop) : Forall P (touched s) → P (f, v) → Forall P (jset f v (touched s)).
Proof.
  intros Hf Hv. apply Forall_forall. intros [k x] Hin. revert Hin. generalize (touched s), Hf. clear Hf s.
  intros m. induction m as [|[k' x'] m IH]; intros Hm Hin; cbn in Hin.
  - by apply list_elem_of_singleton in Hin as [= -> ->].
  - apply Forall_cons in Hm as [Hx Hm]. destruct (String.eqb_spec f k') as [<-|Hne].
    + apply elem_of_cons in Hin as [[= -> ->]|Hin]; [done|]. rewrite Forall_forall in Hm. by apply Hm.
    + apply elem_of_cons in Hin as [[= -> ->]|Hin]; [done|by apply IH].
Qed.
Lemma settings_changed_inv u s : inv s → inv (settings_changed u s).
Proof.
  intros [Ht Hb Hl Hi]. split; [|done|done|done]. apply Forall_forall. intros p [Hp _]%elem_of_filter_bool.
  unfold touched_ok in Ht. rewrite Forall_forall in Ht. by apply Ht.
Qed.
Lemma ge_inv_user s e : inv s → promised s e → inv (step e s).
Proof.
  intros [Ht Hb Hl Hi] He. destruct e as [l|v|f v|f t|]; cbn in He |- *.
  - destruct (String.eqb l "en"); [by split|]. split; [done|done|done|]. apply Forall_app. split; [done|]. by apply Forall_singleton.
  - by split.
  - split; [|done|done|done]. destruct He as (_ & Hn & _ & Hv). apply touched_set; [done|]. cbn. by rewrite Hn.
  - split; [|done|done|done]. apply touched_set; [done|]. cbn. rewrite He. apply number_field_idem.
  - destruct (form_valid s) eqn:Hv; [|by split]. split; [done| |done|done]. unfold busy_ok in *. cbn. rewrite He in Hb.
    destruct (saves s) as [|n [|]]; [|by destruct Hb|done]. split; [done|]. exists (field_text s). split; [done|].
    unfold form_valid, number_fields in Hv. cbn in Hv. by destruct (whole_percent _), (whole_percent _).
Qed.
Lemma activated_supported loads l : l ∈ languages → lang (dynamicActivate loads l) ∈ languages.
Proof.
  intros Hl. unfold dynamicActivate. destruct (String.eqb l "en"); [done|]. destruct (loads l); [done|].
  apply (bool_decide_unpack _). by vm_compute.
Qed.

(** C10: however the form is used, one save at most is in flight and the button says so; what is sent is
    the eight fields of the form, with percentages that are left out or whole numbers from 1 to 100; the
    selects and the language can only be set to what is offered, and the active language is always one
    there is. *)
Theorem general_page s : reached s →
  busy_ok s ∧ touched_ok s ∧ locale s ∈ languages ∧ ∀ e, offered (draw s) e → promised s e.
Proof.
  intros Hs. assert (inv s) as Hi; [|split_and!; [apply Hi..|by apply ge_offered_promised]].
  revert s Hs. apply page_invariant.
  - intros s (Ht & Hb & Hsv & Hi & Hl). split; [by unfold touched_ok; rewrite Ht|by unfold busy_ok; rewrite Hsv|done|by rewrite Hi].
  - intros s e Hi He. apply ge_inv_user; [done|by apply ge_offered_promised].
  - intros s s' Hi [before n after api E|before l after loads E|u]; [| |by apply settings_changed_inv].
    + assert (before ++ after = []) as Hba.
      { pose proof (inv_busy _ Hi) as Hb. unfold busy_ok in Hb. rewrite E in Hb.
        destruct before as [|x [|]]; [by destruct after|by destruct after|done]. }
      unfold save_answered. rewrite Hba. destruct (saveSettings api n) as [[u|] r]; [|by destruct Hi].
      destruct (settings_changed_inv u s Hi) as [Ht _ Hl Hi']. by split.
    + destruct Hi as [Ht Hb Hl Hi]. rewrite E in Hi. apply Forall_app in Hi as [Hb' [Hll Ha]%Forall_cons].
      split; [done|done|by apply activated_supported|]. by apply Forall_app.
Qed.
End Page.

(** ** A visit *)

Definition plain_number (q : Q) : string := z_str (Qround.Qfloor q).
Definition no_locale_times : D3Time := {| timeMinute_offset := λ a _, a; timeHour_offset := λ a _, a; timeDay_offset := λ a _, a; timeTicks := λ _ _ _, [] |}.
#[local] Existing Instance no_locale_times.
Definition first_form (u : settings) : state := {|
  userSettings := u; touched := []; isLoading := false; saves := []; locale := "en"; imports := []; toasts := [] |}.
Definition visit (acts : list act) (s : state) : state := default s (play (draw plain_number true) (step plain_number true) acts s).
(** half a percent is not taken: the button is there and nothing is sent *)
Example half_percent :
  saves (visit [Type_ "Warning (%)" "65.5"; Click "" "Save Settings"]%string (first_form [])) = [].
Proof. vm_compute. reflexivity. Qed.
(** the language that is active is the one whose catalogue came last, not the one that was chosen last *)
Example late_language :
  let s := visit [Choose "Preferred Language" "Deutsch"; Choose "Preferred Language" "Français"]%string (first_form []) in
  imports s = ["de"; "fr"]%string
  ∧ locale (imported (λ _, true) "de" (imported (λ _, true) "fr" (with_locale (locale s) [] s))) = "de"%string.
Proof. vm_compute. by split. Qed.
Definition change_units : list act :=
  [Choose "Temperature unit" "Fahrenheit (°F)"; Slide "" "layoutWidth" 20; Type_ "Critical (%)" "95"; Click "" "Save Settings"]%string.
Lemma general_page_witness :
  busy_ok (visit change_units (first_form []))
  ∧ match saves (visit change_units (first_form [])) with
    | [n] => jget "colorCrit" n = Some (JStr "95") ∧ jget "layoutWidth" n = Some (JStr "1200") | _ => False end%string.
Proof.
  split; [|by vm_compute].
  apply (general_page plain_number true).
  apply (play_reachable _ _ _ _ change_units (first_form [])); [|vm_compute; reflexivity].
  apply at_start. split_and!; try done. apply (bool_decide_unpack _). vm_compute. exact I.
Defined.
