(* ===== verification/ShellUi.v ===== *)
(** * The frame around the pages as the user meets it: [main.tsx], [router.tsx], [navbar.tsx],
    [routes/settings/layout.tsx], [sidebar-nav.tsx], [lang-toggle.tsx], [mode-toggle.tsx], [external-links.tsx]

    The bar with its links and the user's menu, the command palette over everything, the page of the
    route and the navigation of the settings, with the redirects of the pages that a role may not see.
    [Link] is drawn as a button whose click goes to its address.  The router is a library: [Router]
    is what the code uses of it.  The buttons that update the agents and add a system are pages of
    their own, and so is what the routes draw. *)
From Stdlib Require Import QArith ZArith Lia.
From S2P Require Import Prelude JsValue Types Utils SystemsManager Settings AddSystem Palette Controls ExternalLinksUi GeneralUi Dom.
Open Scope nat_scope.

(** ** The router *)

Abbreviation place := (string * option string)%type.
(** the parameters a route takes *)
Definition takes (p : place) : Prop :=
  match p with
  | (r, None) => r ∈ ["home"; "containers"; "smart"; "settings"]%string
  | (r, Some x) => r ∈ ["system"; "settings"]%string ∧ x ≠ ""%string
  end.
Class Router := {
  getPagePath : string → option string → string;
  (** where an address leads; [None] when no route fits *)
  parse_path : string → option place }.
Class RouterLaws (basePath : string) (R : Router) : Prop := {
  parse_page r p : takes (r, p) → parse_path (getPagePath r p) = Some (r, p);
  parse_base : parse_path basePath = Some ("home"%string, None) }.

Section Shell.
Context {R : Router} (basePath : string) {RL : RouterLaws basePath R} (isAdmin isReadOnly : bool) (email : string)
        (prefers_dark : bool) (loads : string → bool).

(** ** State and handlers *)

Record state := {
  here : option place; systems : list SystemRecord; the_palette : palette; externalLinks : list ExternalLink;
  windows : list string; left_for : option string;    (* new windows, and an address that replaces this one *)
  locale : locale_state; the_theme : theme_state; logged_out : bool }.
Inductive event :=
| Go (href : string) | Search | PaletteClosed | PaletteSelected (x : entry) | NewWindow (path : string)
| Language (lang : string) | ToggleTheme | LogOut.

(** [redirectPage] of the pages that look at the role, and of the settings without a name when they are drawn first *)
Definition redirect (before after : option place) : option place :=
  match after with
  | Some (r, p) =>
      if String.eqb r "settings" then
        match p with
        | None => if match before with Some (r', _) => String.eqb r' "settings" | None => false end then after
                  else Some ("settings", Some "general")
        | Some name =>
            if String.eqb name "tokens" && isReadOnly then Some ("settings", Some "general")
            else if String.eqb name "config" && negb isAdmin then Some ("settings", Some "general") else after
        end
      else after
  | None => None
  end%string.
Definition with_place (p : option place) (s : state) : state := {|
  here := redirect (here s) p; systems := systems s; the_palette := the_palette s; externalLinks := externalLinks s;
  windows := windows s; left_for := left_for s; locale := locale s; the_theme := the_theme s; logged_out := logged_out s |}.
Definition with_palette (p : palette) (s : state) : state := {|
  here := here s; systems := systems s; the_palette := p; externalLinks := externalLinks s;
  windows := windows s; left_for := left_for s; locale := locale s; the_theme := the_theme s; logged_out := logged_out s |}.
Definition with_windows (w : list string) (l : option string) (s : state) : state := {|
  here := here s; systems := systems s; the_palette := the_palette s; externalLinks := externalLinks s;
  windows := w; left_for := l; locale := locale s; the_theme := the_theme s; logged_out := logged_out s |}.
Definition with_looks (l : locale_state) (t : theme_state) (s : state) : state := {|
  here := here s; systems := systems s; the_palette := the_palette s; externalLinks := externalLinks s;
  windows := windows s; left_for := left_for s; locale := l; the_theme := t; logged_out := logged_out s |}.
Definition with_login (b : bool) (s : state) : state := {|
  here := here s; systems := systems s; the_palette := the_palette s; externalLinks := externalLinks s;
  windows := windows s; left_for := left_for s; locale := locale s; the_theme := the_theme s; logged_out := b |}.
Definition palette_event (e : Palette.event) (s : state) : state :=
  with_palette (palette_step isAdmin (the_palette s) (systems s, e)) s.

(** [navigate]; an address that no route fits leads to no page *)
Definition navigate (href : string) (s : state) : state := with_place (parse_path href) s.
Definition page_href (r : string) (p : option string) : string := if String.eqb r "home" then basePath else getPagePath r p.
Definition follow (t : target) (s : state) : state :=
  match t with
  | Page r p => navigate (page_href r p) s
  | Here url => with_windows (windows s) (Some url) s
  | Window path => with_windows (windows s ++ [prependBasePath basePath path]) (left_for s) s
  end.
Definition step (e : event) (s : state) : state :=
  match e with
  | Go href => navigate href s
  | Search => palette_event SearchClicked s
  | PaletteClosed => palette_event Closed s
  | PaletteSelected x => palette_event (Selected x) (follow (leads x) s)
  | NewWindow path => with_windows (windows s ++ [prependBasePath basePath path]) (left_for s) s
  | Language l => with_looks (dynamicActivate loads l) (the_theme s) s
  | ToggleTheme => with_looks (locale s) (toggle_theme prefers_dark (the_theme s)) s
  | LogOut => with_login true s
  end.

(** ** What is drawn *)

Definition link (row label href : string) : widget event := Button row label true (Go href).
(** [ExternalLinksBar]: an unknown icon is drawn as the globe *)
Definition external_links (s : state) : screen event :=
  rows (λ l, [Text (el_id l) (if jhas (el_icon l) ICON_OPTIONS then el_icon l else "globe"); Link (el_id l) (el_label l) (el_url l)])
    (externalLinks s).
Definition language_menu (s : state) : screen event :=
  rows (λ l, [Button "languages" l true (Language l)]) languages.
Definition user_items : screen event :=
  Text "user" email
  :: rows (λ i : string * option string, [Button "user" i.1 true (match i.2 with Some path => NewWindow path | None => LogOut end)])
       (user_menu isAdmin).
Definition navbar (s : state) : screen event :=
  [link "navbar" "Home" basePath; Button "navbar" "Search" true Search] ++ external_links s
  ++ [link "navbar" "Containers" (getPagePath "containers" None); link "navbar" "S.M.A.R.T." (getPagePath "smart" None)]
  ++ language_menu s ++ [Button "navbar" "Toggle theme" true ToggleTheme; link "navbar" "Settings" (getPagePath "settings" (Some "general"))]
  ++ user_items.
Definition nav_title (name : string) : string :=
  if String.eqb name "general" then "General" else if String.eqb name "notifications" then "Notifications"
  else if String.eqb name "tokens" then "Tokens & Fingerprints" else if String.eqb name "alert-history" then "Alert History" else "YAML Config".
Definition nav_href (i : nav_item) : string := getPagePath "settings" (Some (nav_name i)).
(** [SidebarNav]: the select of small screens and the links of the others *)
Definition sidebar (name : option string) : screen event :=
  Select "Select page" (getPagePath "settings" name)
    ((λ i, (nav_href i, nav_title (nav_name i))) <$> mobile_items isAdmin isReadOnly) Go
  :: rows (λ i, [link "settings" (nav_title (nav_name i)) (nav_href i)]) (desktop_items isAdmin isReadOnly).
(** [SettingsContent] *)
Definition settings_content (name : string) : screen event :=
  when (bool_decide (name ∈ nav_name <$> sidebarNavItems)) [Text "content" name].
Definition settings_page (name : option string) : screen event :=
  [Text "" "Settings"; Text "" "Manage display and notification preferences."] ++ sidebar name
  ++ settings_content (default "general"%string name).
(** [App] *)
Definition app_page (s : state) : screen event :=
  match here s with
  | None => [Text "" "404"]
  | Some (r, p) =>
      if String.eqb r "settings" then settings_page p
      else if bool_decide (r ∈ ["home"; "system"; "containers"; "smart"]%string) then [Text "content" r] else []
  end.
(** the palette is over everything; its search is the library's *)
Definition palette_dialog (s : state) : screen event :=
  Dialog "Command palette" PaletteClosed
  :: rows (λ x, [Button (shortcut x) (text x) true (PaletteSelected x)]) (entries (the_palette s)).
Definition draw (s : state) : screen event :=
  if logged_out s then [] else if open (the_palette s) then palette_dialog s else navbar s ++ app_page s.

(** ** What comes from outside *)

(** an address that is typed in, the keys, and the stores *)
Inductive outside (s : state) : state → Prop :=
| typed_address p : outside s (with_place p s)
| key_pressed k : outside s (palette_event (KeyDown k) s)
| systems_changed l : Forall (λ x, sys_id x ≠ ""%string) l → outside s {|
    here := here s; systems := l; the_palette := the_palette s; externalLinks := externalLinks s; windows := windows s;
    left_for := left_for s; locale := locale s; the_theme := the_theme s; logged_out := logged_out s |}
| links_changed l : outside s {|
    here := here s; systems := systems s; the_palette := the_palette s; externalLinks := l; windows := windows s;
    left_for := left_for s; locale := locale s; the_theme := the_theme s; logged_out := logged_out s |}.
Definition first_state (p : option place) (l : locale_state) (t : theme_state) : state := {|
  here := redirect None p; systems := []; the_palette := Palette.draw [] isAdmin closed_palette; externalLinks := [];
  windows := []; left_for := None; locale := l; the_theme := t; logged_out := false |}.
Definition start (s : state) : Prop := ∃ p t, s = first_state p (dynamicActivate loads (getLocale None)) t.
Definition reached : state → Prop := Dom.reachable draw step outside start.
End Shell.

(** ** What holds of every state it comes to *)

(** a page that the program draws: of the settings, one with a name in the list *)
Definition good_page (p : place) : Prop :=
  takes p ∧ (p.1 = "settings"%string → ∃ name, p.2 = Some name ∧ name ∈ nav_name <$> sidebarNavItems).
(** a page that the role may see *)
Definition safe_place (isAdmin isReadOnly : bool) (p : option place) : Prop :=
  (isReadOnly = true → p ≠ Some ("settings", Some "tokens")%string)
  ∧ (isAdmin = false → p ≠ Some ("settings", Some "config")%string).

Lemma redirect_safe a r before p : safe_place a r (redirect a r before p).
Proof.
  unfold safe_place, redirect. destruct p as [[route [name|]]|]; [|by case_match; [case_match|]|done].
  destruct (String.eqb_spec route "settings") as [->|]; [|split; congruence].
  destruct (String.eqb_spec name "tokens") as [->|]; [|destruct (String.eqb_spec name "config") as [->|]];
    destruct r, a; cbn; split; congruence.
Qed.
Lemma redirect_good a r before p : good_page p → ∃ q, redirect a r before (Some p) = Some q ∧ good_page q.
Proof.
  assert (good_page ("settings", Some "general")%string) as G.
  { split; [split; [set_solver|done]|]. intros _. eexists. split; [done|]. by left. }
  unfold redirect. destruct p as [route name]. intros Hp. destruct (String.eqb_spec route "settings") as [->|]; [|by eexists].
  destruct Hp as [Ht Hn]. destruct (Hn eq_refl) as (x & E & Hx). cbn in E. subst name.
  destruct (String.eqb x "tokens" && r); [by eexists|]. destruct (String.eqb x "config" && negb a); by eexists.
Qed.
Lemma entry_target systems isAdmin x : x ∈ palette_entries systems isAdmin → Forall (λ s, sys_id s ≠ ""%string) systems →
  match leads x with Page r p => good_page (r, p) | Here _ => True | Window _ => isAdmin = true end.
Proof.
  unfold palette_entries, palette_groups. rewrite !concat_app, !elem_of_app. intros [Hx|[Hx|Hx]] Hs.
  - destruct (0 <? length systems)%nat; [|set_solver]. cbn [concat] in Hx. rewrite app_nil_r in Hx.
    apply list_elem_of_fmap in Hx as (s & -> & Hin). rewrite Forall_forall in Hs. specialize (Hs _ Hin).
    split; [split; [set_solver|done]|done].
  - assert (∀ n, n ∈ nav_name <$> sidebarNavItems → n ≠ ""%string → good_page ("settings", Some n)%string) as G.
    { intros n Hn He. split; [split; [set_solver|done]|]. intros _. by exists n. }
    assert (∀ r : string, r ∈ ["home"; "containers"; "smart"]%string → good_page (r, None)) as P.
    { intros r Hr. split; [cbn in *; set_solver|]. intros E. cbn in E. subst r. set_solver. }
    unfold palette_pages in Hx. cbn [concat app] in Hx. rewrite !elem_of_cons in Hx.
    destruct_or? Hx; try (by apply elem_of_nil in Hx); subst x; cbn [leads to_page]; try done;
      solve [apply P; set_solver | apply G; [cbn; set_solver | done]].
  - destruct isAdmin; [|set_solver]. revert x Hx. apply Forall_forall. repeat constructor.
Qed.


Section Invariant.
Context {R : Router} (basePath : string) {RL : RouterLaws basePath R} (isAdmin isReadOnly : bool) (email : string)
        (prefers_dark : bool) (loads : string → bool).
Local Abbreviation drawn_ := (draw basePath isAdmin isReadOnly email).
Local Abbreviation step_ := (step basePath isAdmin isReadOnly prefers_dark loads).
Local Abbreviation reached_ := (reached basePath isAdmin isReadOnly email prefers_dark loads).

Definition leads_well (x : entry) : Prop :=
  match leads x with Page r p => good_page (r, p) | Here _ => True | Window _ => isAdmin = true end.
Record sound (s : state) : Prop := {
  place_ok : safe_place isAdmin isReadOnly (here s);
  windows_ok : isAdmin = false → windows s = [];
  locale_ok : lang (locale s) ∈ languages;
  systems_ok : Forall (λ x, sys_id x ≠ ""%string) (systems s);
  entries_ok : Forall leads_well (entries (the_palette s)) }.
(** what the drawn page can make happen *)
Definition allowed (e : event) : Prop :=
  match e with
  | Go href => ∃ p, parse_path href = Some p ∧ good_page p
  | NewWindow _ => isAdmin = true
  | PaletteSelected x => leads_well x
  | Language l => l ∈ languages
  | _ => True
  end.

Lemma page_href_parsed r p : good_page (r, p) → parse_path (page_href basePath r p) = Some (r, p).
Proof.
  intros [Ht _]. unfold page_href. destruct (String.eqb_spec r "home") as [->|]; [|by apply parse_page].
  destruct p as [x|]; [|apply parse_base]. destruct Ht as [Ht _]. set_solver.
Qed.
Lemma nav_page i : i ∈ sidebarNavItems → ∃ p, parse_path (nav_href i) = Some p ∧ good_page p.
Proof.
  intros Hi. assert (nav_name i ≠ ""%string) as Hn.
  { revert i Hi. apply Forall_forall. repeat constructor; done. }
  assert (good_page ("settings", Some (nav_name i))%string) as G.
  { split; [split; [set_solver|done]|]. intros _. eexists. split; [done|]. apply list_elem_of_fmap. by exists i. }
  eexists. split; [apply parse_page, G|done].
Qed.
Lemma mobile_page v name : (v, name) ∈ (λ i, (nav_href i, nav_title (nav_name i))) <$> mobile_items isAdmin isReadOnly →
  ∃ p, parse_path v = Some p ∧ good_page p.
Proof.
  intros (i & [= -> _] & Hi)%list_elem_of_fmap. apply nav_page. unfold mobile_items in Hi.
  apply list_elem_of_In, filter_In in Hi as [Hi _]. by apply list_elem_of_In.
Qed.
Lemma offered_allowed s e : sound s → offered (drawn_ s) e → allowed e.
Proof.
  assert (∀ r : string, r ∈ ["containers"; "smart"]%string → allowed (Go (getPagePath r None))) as L.
  { intros r Hr. exists (r, None). split; [apply parse_page; cbn; set_solver|]. split; [cbn; set_solver|]. intros E. cbn in E. set_solver. }
  assert (allowed (Go basePath)) as B.
  { eexists. split; [apply parse_base|]. split; [cbn; set_solver|]. intros [=]. }
  assert (allowed (Go (getPagePath "settings" (Some "general")))) as G.
  { destruct (nav_page {| nav_name := "general"; nav_admin := false; nav_noReadOnly := false |}) as (p & H & Hp); [left|].
    by exists p. }
  intros Hs He.
  offered_cases He by (unfold draw, palette_dialog, navbar, external_links, language_menu, user_items, app_page, settings_page,
    sidebar, settings_content, link in He).
  - eapply Forall_forall; [apply (entries_ok _ Hs)|done].
  - apply L. set_solver.
  - apply L. set_solver.
  - unfold user_menu in Hx. destruct isAdmin eqn:A; cbn in Hx; rewrite ?elem_of_cons in Hx; destruct_or? Hx;
      first [by apply elem_of_nil in Hx | by subst x].
  - apply nav_page. unfold desktop_items in Hx. apply list_elem_of_In, filter_In in Hx as [Hx _]. by apply list_elem_of_In.
  - by apply (mobile_page v name).
Qed.

Lemma navigated s href p : parse_path href = Some p → good_page p →
  ∃ q, here (navigate isAdmin isReadOnly href s) = Some q ∧ good_page q.
Proof. intros E Hp. unfold navigate, with_place. cbn [here]. rewrite E. by apply redirect_good. Qed.
Lemma sound_place s p : sound s → sound (with_place isAdmin isReadOnly p s).
Proof. intros []. split; try done. apply redirect_safe. Qed.
Lemma sound_palette s e : sound s → sound (palette_event isAdmin e s).
Proof.
  intros [? ? ? Hs He]. split; try done. unfold palette_event, with_palette. cbn [the_palette].
  assert (∀ p, Forall leads_well (entries p) → Forall leads_well (entries (Palette.draw (systems s) isAdmin p))) as D.
  { intros p Hp. unfold Palette.draw. case_bool_decide; [done|]. apply Forall_forall. intros x Hx. by eapply entry_target. }
  destruct e as [k| | |x|]; unfold palette_step; cbn [fst snd]; [destruct (opens k)| | |destruct (closes x)|]; try done; by apply D.
Qed.
Lemma activated l : l ∈ languages → lang (dynamicActivate loads l) ∈ languages.
Proof.
  intros Hl. unfold dynamicActivate. repeat case_match; try done.
  cbn. unfold languages. rewrite !elem_of_cons. auto 10.
Qed.
(** what leads well keeps a state sound, and leads to a page there is or leaves the page as it was *)
Lemma step_sound s e : sound s → allowed e →
  sound (step_ e s) ∧ (here (step_ e s) = here s ∨ ∃ p, here (step_ e s) = Some p ∧ good_page p).
Proof.
  intros Hs He. destruct e as [href| | |x|path|l| |]; cbn [allowed step] in *.
  - destruct He as (p & E & Hp). split; [by apply sound_place|]. right. by eapply navigated.
  - split; [by apply sound_palette|by left].
  - split; [by apply sound_palette|by left].
  - unfold follow. destruct (leads x) as [r p|url|path] eqn:E; unfold leads_well in He; rewrite E in He.
    + split; [by apply sound_palette, sound_place|]. right. eapply (navigated s (page_href basePath r p)); [|done].
      by apply page_href_parsed.
    + split; [|by left]. apply sound_palette. by destruct Hs.
    + split; [|by left]. apply sound_palette. destruct Hs. split; try done. congruence.
  - split; [|by left]. destruct Hs. split; try done. congruence.
  - split; [|by left]. destruct Hs. split; try done. by apply activated.
  - split; [|by left]. by destruct Hs.
  - split; [|by left]. by destruct Hs.
Qed.
Lemma reached_sound s : reached_ s → sound s.
Proof.
  apply page_invariant; clear s.
  - intros s (p & t & ->). split; [apply redirect_safe|done| |constructor|].
    + apply (activated (getLocale None)), getLocale_supported.
    + apply Forall_forall. intros x Hx. eapply entry_target; [exact Hx|done].
  - intros s e Hs He. by apply step_sound; [|eapply offered_allowed].
  - intros s s' Hs []; [by apply sound_place|by apply sound_palette| |]; by destruct Hs.
Qed.

(** C26: whatever the user clicks or types as an address, the page shown is one the role may see (for read-only
    users never that of the tokens, for others than administrators never that of the configuration); every
    control of the frame leads to a page that exists or leaves the page; the administration is never opened
    by somebody who is no administrator; the language is one there are translations for; and unless the
    palette is open or the user has left, the home page is one click away, also from the page not found. *)
Theorem shell_pages s : reached_ s →
  safe_place isAdmin isReadOnly (here s)
  ∧ (isAdmin = false → windows s = [])
  ∧ lang (locale s) ∈ languages
  ∧ (∀ e, offered (drawn_ s) e → here (step_ e s) = here s ∨ ∃ p, here (step_ e s) = Some p ∧ good_page p)
  ∧ (logged_out s = false → open (the_palette s) = false →
       offered (drawn_ s) (Go basePath) ∧ here (step_ (Go basePath) s) = Some ("home"%string, None)).
Proof.
  intros Hr. pose proof (reached_sound s Hr) as Hs. split_and!; try apply Hs.
  - intros e He. by apply step_sound; [|eapply offered_allowed].
  - intros Hl Ho. split.
    + unfold draw. rewrite Hl, Ho. eapply by_click. left.
    + cbn [step]. unfold navigate, with_place. cbn [here]. by rewrite parse_base.
Qed.
End Invariant.

(** ** Examples *)

(** the addresses of a program that is served from the root *)
Definition example_getPagePath (r : string) (p : option string) : string :=
  match p with None => r | Some x => r +:+ "/" +:+ x end.
Definition example_parse (href : string) : option place :=
  match href with
  | EmptyString => Some ("home", None)
  | _ =>
      if jhas href [("home", tt); ("containers", tt); ("smart", tt); ("settings", tt)]%string then Some (href, None)
      else if starts_with href "system/" then Some ("system", Some (slice_from href 7))
      else if starts_with href "settings/" then Some ("settings", Some (slice_from href 9)) else None
  end%string.
#[local] Instance example_router : Router := {| getPagePath := example_getPagePath; parse_path := example_parse |}.
#[local] Instance example_router_laws : RouterLaws "" example_router.
Proof.
  split; [|done]. intros r [x|] Hp; cbn in Hp.
  - destruct Hp as [Hp _]. rewrite !elem_of_cons in Hp. destruct Hp as [->|[->|H]]; [| |by apply elem_of_nil in H].
    + transitivity (if starts_with ("system/" +:+ x) "system/"
        then Some ("system", Some (slice_from ("system/" +:+ x) (String.length "system/"))) else None)%string; [reflexivity|].
      by rewrite starts_with_app, slice_from_app.
    + transitivity (if starts_with ("settings/" +:+ x) "settings/"
        then Some ("settings", Some (slice_from ("settings/" +:+ x) (String.length "settings/"))) else None)%string; [reflexivity|].
      by rewrite starts_with_app, slice_from_app.
  - rewrite !elem_of_cons in Hp. destruct_or? Hp; try (by apply elem_of_nil in Hp); by subst r.
Qed.

Definition shell_first (p : option place) : state :=
  first_state false true p (dynamicActivate (λ _, true) (getLocale None)) (theme_start false None []).
Local Abbreviation shell_play := (play (draw "" false true "me@example.com") (step "" false true false (λ _, true))).
Local Abbreviation shell_reached := (reached "" false true "me@example.com" false (λ _, true)).
Lemma shell_first_reached p : shell_reached (shell_first p).
Proof. apply at_start. by eexists _, _. Qed.

(** a read-only user opens an address that there is not, goes to the settings and chooses the tokens in the
    select, which offers them: the page stays that of the general settings *)
Definition after_tokens : list act := [
  Click "navbar" "Settings"; Choose "Select page" "Tokens & Fingerprints"]%string.
Example sent_back : here (shell_first None) = None
  ∧ (here <$> shell_play after_tokens (shell_first None)) = Some (Some ("settings", Some "general"))%string
  ∧ perform (Click "settings" "Tokens & Fingerprints") (draw "" false true "me@example.com" (shell_first (Some ("settings", None)%string))) = None.
Proof. by vm_compute. Qed.
Definition shell_later : state := default (shell_first None) (shell_play after_tokens (shell_first None)).
Lemma shell_pages_witness : shell_reached shell_later
  ∧ offered (draw "" false true "me@example.com" shell_later) (Go "")
  ∧ here (step "" false true false (λ _, true) (Go "") shell_later) = Some ("home"%string, None).
Proof.
  assert (shell_reached shell_later) as Hr.
  { eapply (play_reachable _ _ _ _ after_tokens (shell_first None)); [apply shell_first_reached|]. by vm_compute. }
  split; [exact Hr|].
  pose proof (shell_pages "" false true "me@example.com" false (λ _, true) shell_later Hr) as (_ & _ & _ & _ & H).
  apply H; by vm_compute.
Defined.
(** an administrator finds the administration in the palette; a key opens it and the choice closes it *)
Example searched_backups :
  let s := palette_event true (KeyDown {| kd_key := "k"; kd_meta := false; kd_ctrl := true |})
             (first_state true false (Some ("home", None)%string) (activateLocale "en") (theme_start false None [])) in
  (λ s, (windows s, open (the_palette s), here s))
    <$> play (draw "/beszel" true false "me@example.com") (step "/beszel" true false false (λ _, true)) [Click "Admin" "Backups"] s
  = Some (["/beszel/_/#/settings/backups"], false, Some ("home", None))%string.
Proof. by vm_compute. Qed.
(** a page of the settings without a name keeps the address when the settings were shown before *)
Example nameless_settings :
  redirect true false (Some ("settings", Some "tokens"))%string (Some ("settings", None))%string = Some ("settings", None)%string
  ∧ redirect true false (Some ("home", None))%string (Some ("settings", None))%string = Some ("settings", Some "general")%string.
Proof. by vm_compute. Qed.
