(* ===== verification/Preferences.v ===== *)
(** * What the browser remembers: every use of [useBrowserStorage] of [lib/utils.ts]

    The sorting of the lists, the columns and the layout of the systems, open groups of links, the width
    of the cards, the tab of the installation and the pages of the history are kept in the browser, the
    sortings for the tab only.  The machine has any number of tabs that share the local storage and start
    with whatever it holds; the effect runs with the drawing it belongs to.  The
    specification it refines has no texts and no keys, just what was chosen last. *)
From Stdlib Require Import Ascii ZArith Lia.
From stdpp Require Import functions.
From S2P Require Import Prelude JsValue Utils JsonText SystemsTable.
Open Scope Z_scope.

(** ** The values that are kept *)

Inductive pref :=
| SortSystems | Columns | View                        (* systems-table.tsx *)
| LinksOpen | GroupOpen (category : string)           (* quick-links.tsx *)
| SortContainers (of_system : bool)                   (* containers-table.tsx *)
| SortServices (of_system : bool)                     (* systemd-table.tsx *)
| WideCards                                           (* routes/system.tsx *)
| InstallTab                                          (* add-system.tsx *)
| HistoryPages.                                       (* alerts-history-data-table.tsx *)
#[export] Instance pref_eq_dec : EqDecision pref.
Proof. solve_decision. Defined.

Definition flag (b : bool) : string := if b then "1" else "0".
Definition pref_key (p : pref) : string :=
  match p with
  | SortSystems => "sortMode" | Columns => "cols" | View => "viewMode"
  | LinksOpen => "ql-open" | GroupOpen category => "ql-cat-" +:+ category
  | SortContainers b => "sort-c-" +:+ flag b | SortServices b => "sort-sd-" +:+ flag b
  | WideCards => "grid" | InstallTab => "as-tab" | HistoryPages => "ah-pagination"
  end.
Definition in_session (p : pref) : bool :=
  match p with SortSystems | SortContainers _ | SortServices _ => true | _ => false end.

Definition sort_value (column : string) (desc : bool) : jval := VList [VObj [("id", VText column); ("desc", VBool desc)]]%string.
Definition view_value (v : ViewMode) : jval := VText (match v with Table => "table" | Grid => "grid" end).
(** the value of the first time; the layout looks at the window and the rows there are *)
Definition standard (innerWidth : Z) (rows : nat) (p : pref) : jval :=
  match p with
  | SortSystems => sort_value "system" false
  | Columns => VObj []
  | View => view_value (default_view innerWidth rows)
  | LinksOpen | GroupOpen _ | WideCards => VBool true
  | SortContainers b | SortServices b => sort_value (if b then "name" else "system") false
  | InstallTab => VText "docker"
  | HistoryPages => VObj [("pageIndex", VNum 0); ("pageSize", VNum 10)]%string
  end.

(** what else the application keeps in the storages: theme, language, the links of the first version,
    the mark of a log-out *)
Inductive other := Theme | Lang | OldLinks | LoggedOut.
Definition taken_key (o : other) : string :=
  match o with Theme => "ui-theme" | Lang => "lang" | OldLinks => "besz-quick-links" | LoggedOut => "lo" end.

(** ** The machine *)

Lemma stringify_inj v w : stringify v = stringify w → v = w.
Proof. intros E. pose proof (parse_stringify v) as Hv. rewrite E, parse_stringify in Hv. by simplify_eq. Qed.
#[export] Instance jval_eq_dec : EqDecision jval.
Proof.
  intros v w. destruct (decide (stringify v = stringify w)) as [E|N]; [left; by apply stringify_inj|right].
  intros ->. done.
Defined.

(** storage 0 is the local one, storage [S t] the session of tab [t]; a part that is drawn several times
    in a tab, as the dialogs of the systems are, has a number.  Nothing catches a failing drawing: it
    takes the whole page of its tab with it *)
Record browser := {
  storages : nat → jsmap string;
  shown : nat → nat * pref → option jval;
  failed : nat → bool }.
Definition place (tab : nat) (p : pref) : nat := if in_session p then S tab else 0%nat.

Inductive event :=
| Mount (tab : nat) (innerWidth : Z) (rows : nat) (part : nat * pref)
| Choose (tab : nat) (part : nat * pref) (v : jval) (fresh : bool)   (* [fresh]: an object that is not the shown one *)
| Unmount (tab : nat) (part : nat * pref)
| Leave (tab : nat)
| NewSession (tab : nat)
| Write (storage : nat) (o : other) (text : option string).

(** the dependencies of the effect are compared by [Object.is]: texts, numbers and truth values by what
    they are, lists and objects by which they are *)
Definition changed (w v : jval) (fresh : bool) : bool :=
  negb (bool_decide (w = v)) || match v with VList _ | VObj _ => fresh | _ => false end.

(** the value is drawn, and the effect stores it *)
Definition put (tab : nat) (part : nat * pref) (v : jval) (b : browser) : browser := {|
  storages := <[place tab part.2 := useBrowserStorage_effect stringify (storages b (place tab part.2)) (pref_key part.2) v]> (storages b);
  shown := <[tab := <[part := Some v]> (shown b tab)]> (shown b);
  failed := failed b |}.
Definition with_shown (tab : nat) (s : nat * pref → option jval) (b : browser) : browser :=
  {| storages := storages b; shown := <[tab := s]> (shown b); failed := failed b |}.
Definition with_storage (i : nat) (m : jsmap string) (b : browser) : browser :=
  {| storages := <[i := m]> (storages b); shown := shown b; failed := failed b |}.
(** the tab is empty: left, or torn down by a failure *)
Definition emptied (tab : nat) (broken : bool) (b : browser) : browser :=
  {| storages := storages b; shown := <[tab := λ _, None]> (shown b); failed := <[tab := broken]> (failed b) |}.

Definition step (b : browser) (e : event) : browser :=
  match e with
  | Mount tab width rows part =>
      if failed b tab then b else
      match useBrowserStorage_init parse (storages b (place tab part.2)) (pref_key part.2) (standard width rows part.2) with
      | Some v => put tab part v b
      | None => emptied tab true b
      end
  | Choose tab part v fresh =>
      match shown b tab part with Some w => if changed w v fresh then put tab part v b else b | None => b end
  | Unmount tab part => with_shown tab (<[part := None]> (shown b tab)) b
  | Leave tab => emptied tab false b
  | NewSession tab => with_storage (S tab) [] (emptied tab false b)
  | Write i o (Some text) => with_storage i (jset (taken_key o) text (storages b i)) b
  | Write i o None => with_storage i (jdel (taken_key o) (storages b i)) b
  end.
(** nothing is open yet; the storages hold what earlier visits, or anyone else, left in them *)
Definition opened (st : nat → jsmap string) : browser :=
  {| storages := st; shown := λ _ _, None; failed := λ _, false |}.
Definition new_browser : browser := opened (λ _, []).
Definition run (events : list event) (b : browser) : browser := foldl step b events.

(** re-choosing what is drawn stores nothing: another tab went over to the grid, this one still draws the
    table, and choosing the table here does not bring it back for the next visit *)
Example choice_not_kept :
  let b := run [Mount 0 1600 300 (0%nat, View); Mount 1 1600 300 (0%nat, View);
                Choose 1 (0%nat, View) (VText "grid") true; Choose 0 (0%nat, View) (VText "table") true] new_browser in
  shown b 0%nat (0%nat, View) = Some (VText "table")
  ∧ shown (step b (Mount 2 1600 300 (0%nat, View))) 2%nat (0%nat, View) = Some (VText "grid").
Proof. by vm_compute. Qed.
(** a text that is not JSON takes the page of the tab down, again at every visit *)
Example broken_text :
  let b := opened (λ _, [(storage_key (pref_key Columns), "{"%string)]) in
  let b := run [Mount 0 1600 300 (0%nat, Columns); Leave 0; Mount 0 1600 300 (0%nat, Columns)] b in
  failed b 0%nat = true ∧ shown b 0%nat (0%nat, Columns) = None.
Proof. by vm_compute. Qed.

(** ** The specification: what was chosen last, for everyone or for a tab *)

Record memory := { chosen : nat → pref → option jval; seen : nat → nat * pref → option jval }.
Definition remember (tab : nat) (part : nat * pref) (v : jval) (m : memory) : memory := {|
  chosen := <[place tab part.2 := <[part.2 := Some v]> (chosen m (place tab part.2))]> (chosen m);
  seen := <[tab := <[part := Some v]> (seen m tab)]> (seen m) |}.
Definition spec_step (m : memory) (e : event) : memory :=
  match e with
  | Mount tab width rows part =>
      remember tab part (default (standard width rows part.2) (chosen m (place tab part.2) part.2)) m
  | Choose tab part v fresh =>
      match seen m tab part with Some w => if changed w v fresh then remember tab part v m else m | None => m end
  | Unmount tab part => {| chosen := chosen m; seen := <[tab := <[part := None]> (seen m tab)]> (seen m) |}
  | Leave tab => {| chosen := chosen m; seen := <[tab := λ _, None]> (seen m) |}
  | NewSession tab => {| chosen := <[S tab := λ _, None]> (chosen m); seen := <[tab := λ _, None]> (seen m) |}
  | Write _ _ _ => m
  end.
(** a stored text holds no choice, a choice, or cannot be read; what [parse] reads is what the page itself writes, JSON
    of other shapes is left out of [readable] *)
Definition held (text : option string) : option (option jval) :=
  match text with
  | Some saved => if truthy saved then Some <$> parse saved else Some None
  | None => Some None
  end.
Definition text_of (st : nat → jsmap string) (i : nat) (p : pref) : option string := jget (storage_key (pref_key p)) (st i).
Definition readable (st : nat → jsmap string) : Prop := ∀ tab p, is_Some (held (text_of st (place tab p) p)).
Definition memory_of (st : nat → jsmap string) : memory :=
  {| chosen := λ i p, default None (held (text_of st i p)); seen := λ _ _, None |}.
Definition spec_run (events : list event) (m : memory) : memory := foldl spec_step m events.

(** ** The keys are kept apart *)

Lemma pref_key_inj p q : pref_key p = pref_key q → p = q.
Proof.
  destruct p, q; intros H; repeat match goal with b : bool |- _ => destruct b end;
    cbv [pref_key String.append flag] in H; simplify_eq; done.
Qed.
Lemma storage_key_inj p q : storage_key (pref_key p) = storage_key (pref_key q) → p = q.
Proof. intros H. apply pref_key_inj. cbv [storage_key String.append] in H. by injection H. Qed.
Lemma other_key_ne o p : taken_key o ≠ storage_key (pref_key p).
Proof.
  destruct o, p; repeat match goal with b : bool |- _ => destruct b end;
    intros H; cbv [taken_key storage_key pref_key String.append flag] in H; discriminate H.
Qed.
Lemma stored_text p q v m :
  jget (storage_key (pref_key q)) (useBrowserStorage_effect stringify m (pref_key p) v) =
    if decide (p = q) then Some (stringify v) else jget (storage_key (pref_key q)) m.
Proof.
  unfold useBrowserStorage_effect. destruct (decide (p = q)) as [->|Hne]; [by rewrite jget_jset_eq|].
  rewrite jget_jset_ne; [done|]. intros ?%storage_key_inj. done.
Qed.
Lemma held_stringify v : held (Some (stringify v)) = Some (Some v).
Proof. unfold held. by rewrite stringify_truthy, parse_stringify. Qed.
Lemma init_held m p d :
  useBrowserStorage_init parse m (pref_key p) d = default d <$> held (jget (storage_key (pref_key p)) m).
Proof.
  unfold useBrowserStorage_init, getStorageValue, held. destruct (jget _ m) as [t|]; [|done].
  destruct (truthy t); [|done]. by destruct (parse t).
Qed.

(** ** Refinement *)

Definition agree (b : browser) (m : memory) : Prop :=
  (∀ tab, failed b tab = false) ∧ (∀ tab part, shown b tab part = seen m tab part)
  ∧ ∀ tab p, held (text_of (storages b) (place tab p) p) = Some (chosen m (place tab p) p).

Lemma fn_insert_same {A B} `{EqDecision A} (f g : A → B) (k i : A) (v : B) :
  f i = g i → (<[k := v]> f) i = (<[k := v]> g) i.
Proof.
  intros E. destruct (decide (k = i)) as [->|]; [by rewrite !fn_lookup_insert|by rewrite !fn_lookup_insert_ne].
Qed.
Lemma agree_seen (f g : nat → nat * pref → option jval) tab h h' :
  (∀ t part, f t part = g t part) → (∀ part, h part = h' part) →
  ∀ t part, (<[tab := h]> f) t part = (<[tab := h']> g) t part.
Proof.
  intros Hs E t part. destruct (decide (tab = t)) as [<-|Ht]; [by rewrite !fn_lookup_insert|by rewrite !fn_lookup_insert_ne].
Qed.
Lemma agree_put b m tab part v : agree b m → agree (put tab part v b) (remember tab part v m).
Proof.
  intros (Hf & Hs & Hc). split_and!; [done| |].
  - apply agree_seen; [done|]. intros q. by apply fn_insert_same.
  - intros t q. unfold text_of. cbn. destruct (decide (place tab part.2 = place t q)) as [E|Hne]; [|by rewrite !fn_lookup_insert_ne; [apply Hc|..]].
    rewrite <-E, !fn_lookup_insert, stored_text.
    destruct (decide (part.2 = q)) as [<-|Hp]; [by rewrite fn_lookup_insert, held_stringify|].
    rewrite fn_lookup_insert_ne by done. rewrite E. apply Hc.
Qed.
Lemma agree_shown b m tab s s' : agree b m → (∀ part, s part = s' part) →
  agree (with_shown tab s b) {| chosen := chosen m; seen := <[tab := s']> (seen m) |}.
Proof. intros (Hf & Hs & Hc) E. split_and!; [done| |done]. by apply agree_seen. Qed.
Lemma agree_emptied b m tab : agree b m →
  agree (emptied tab false b) {| chosen := chosen m; seen := <[tab := λ _, None]> (seen m) |}.
Proof.
  intros (Hf & Hs & Hc). split_and!; [| |done]; [|by apply agree_seen]. intros t. cbn.
  destruct (decide (tab = t)) as [<-|]; [by rewrite fn_lookup_insert|by rewrite fn_lookup_insert_ne].
Qed.
Lemma agree_write b m i o f : agree b m → (∀ k, k ≠ taken_key o → jget k f = jget k (storages b i)) →
  agree (with_storage i f b) m.
Proof.
  intros (Hf & Hs & Hc) Hk. split_and!; [done|done|]. intros t q. rewrite <-Hc. unfold text_of. cbn.
  destruct (decide (i = place t q)) as [->|Hi]; [|by rewrite fn_lookup_insert_ne].
  rewrite fn_lookup_insert. f_equal. apply Hk. intros E. symmetry in E. by apply other_key_ne in E.
Qed.
(** what mounting reads: the value that was chosen, or the standard one *)
Lemma agree_init b m tab p d : agree b m →
  useBrowserStorage_init parse (storages b (place tab p)) (pref_key p) d = Some (default d (chosen m (place tab p) p)).
Proof. intros (_ & _ & Hc). specialize (Hc tab p). unfold text_of in Hc. by rewrite init_held, Hc. Qed.
Lemma agree_mount b m tab width rows part : agree b m →
  step b (Mount tab width rows part) =
    put tab part (default (standard width rows part.2) (chosen m (place tab part.2) part.2)) b.
Proof. intros H. cbn [step]. by rewrite (proj1 H), (agree_init _ _ tab part.2 _ H). Qed.

Lemma agree_step b m e : agree b m → agree (step b e) (spec_step m e).
Proof.
  intros H. destruct e as [tab width rows part|tab part v fresh|tab part|tab|tab|i o [text|]].
  - rewrite (agree_mount _ _ _ _ _ _ H). by apply agree_put.
  - cbn [step spec_step]. rewrite (proj1 (proj2 H)). destruct (seen m tab part) as [w|]; [|done].
    destruct (changed w v fresh); [by apply agree_put|done].
  - apply agree_shown; [done|]. intros q. apply fn_insert_same, H.
  - by apply agree_emptied.
  - destruct (agree_emptied b m tab H) as (Hf & Hs & Hc). split_and!; [done|done|].
    intros t q. specialize (Hc t q). unfold text_of in *. cbn in Hc |- *.
    destruct (decide (S tab = place t q)) as [E|Hi]; [by rewrite <-E, !fn_lookup_insert|].
    by rewrite !fn_lookup_insert_ne.
  - apply (agree_write b m i o); [done|]. intros k Hk. by apply jget_jset_ne.
  - apply (agree_write b m i o); [done|]. intros k Hk. by apply jget_jdel_ne.
Qed.
Lemma agree_run st events : readable st → agree (run events (opened st)) (spec_run events (memory_of st)).
Proof.
  intros Hst. unfold run, spec_run. induction events as [|e events IH] using rev_ind.
  - split_and!; [done|done|]. intros tab p. change (held (text_of st (place tab p) p) = Some (default None (held (text_of st (place tab p) p)))).
    by destruct (Hst tab p) as [t ->].
  - rewrite !foldl_app. by apply agree_step.
Qed.
Lemma mount_shows st events tab part width rows : readable st →
  shown (step (run events (opened st)) (Mount tab width rows part)) tab part =
    Some (default (standard width rows part.2) (chosen (spec_run events (memory_of st)) (place tab part.2) part.2)).
Proof. intros Hst. rewrite (agree_mount _ _ _ _ _ _ (agree_run _ _ Hst)). cbn. by rewrite !fn_lookup_insert. Qed.

(** C38: whatever happens in any number of tabs over storages whose texts can be read, no tab fails; every
    part shows what the specification says, and a part that is drawn anew shows what was chosen last,
    in any tab for the values of the local storage, in its own tab for the sortings, or its standard
    value when nothing was.  A choice is a value that differs from the one its part shows: choosing
    what is shown stores nothing, also when another tab has chosen otherwise since. *)
Theorem preferences_remembered st events tab part : readable st →
  let b := run events (opened st) in
  let m := spec_run events (memory_of st) in
  failed b tab = false ∧ shown b tab part = seen m tab part
  ∧ ∀ width rows, shown (step b (Mount tab width rows part)) tab part =
      Some (default (standard width rows part.2) (chosen m (place tab part.2) part.2)).
Proof.
  intros Hst b m. pose proof (agree_run st events Hst) as H. split_and!; [apply H|apply H|].
  intros width rows. by apply mount_shows.
Qed.
Definition left_grid (i : nat) : jsmap string := [(storage_key (pref_key View), stringify (VText "grid"))].
Lemma left_grid_readable : readable left_grid.
Proof. intros t p. destruct p as [| | | | |[]|[]| | |]; eexists; vm_compute; reflexivity. Qed.
(** an earlier visit left the grid; one tab goes over to the table, another is opened afterwards *)
Lemma preferences_remembered_witness :
  shown (run [Mount 0 1600 300 (0%nat, View); Choose 0 (0%nat, View) (VText "table") true; Mount 1 800 0 (0%nat, View)]
    (opened left_grid)) 1%nat (0%nat, View) = Some (VText "table").
Proof.
  etrans; [exact (proj2 (proj2 (preferences_remembered left_grid
    [Mount 0 1600 300 (0%nat, View); Choose 0 (0%nat, View) (VText "table") true] 1%nat (0%nat, View)
    left_grid_readable)) 800 0%nat)|].
  vm_compute. reflexivity.
Defined.

Definition chooses (p : pref) (e : event) : Prop := match e with Choose _ part _ _ => p = part.2 | _ => False end.
Lemma chosen_stays events p m v : in_session p = false → chosen m 0%nat p = Some v →
  Forall (λ e, ¬ chooses p e) events → chosen (spec_run events m) 0%nat p = Some v.
Proof.
  intros Hp. revert m. induction events as [|e events IH]; [done|]. intros m Hv [He Hes]%Forall_cons. cbn. apply IH; [|done].
  assert (∀ part tab w, (part.2 = p → w = v) → chosen (remember tab part w m) 0%nat p = Some v) as Hc.
  { intros [n q] tab w Hw. cbn in *. destruct (decide (place tab q = 0%nat)) as [-> | ?]; [|by rewrite fn_lookup_insert_ne].
    rewrite fn_lookup_insert. destruct (decide (q = p)) as [->|]; [by rewrite fn_lookup_insert, Hw|by rewrite fn_lookup_insert_ne]. }
  destruct e as [tab width rows part|tab part w fresh|tab part|tab|tab|i o t]; cbn [spec_step]; try done.
  - apply Hc. intros ->. unfold place. rewrite Hp. by rewrite Hv.
  - destruct (seen m tab part) as [u|]; [|done]. destruct (changed u w fresh); [|done]. apply Hc. intros <-. by destruct He.
Qed.
Lemma nothing_stored : readable (λ _, []).
Proof. intros tab p. by eexists. Qed.

(** Fact [view_decided_once]: the layout of the list of systems is decided by the window and the rows of its
    very first drawing: until someone chooses another, no tab ever looks at them again, so also a list
    that was empty at that moment, or a window that was narrow, decides for all that follow. *)
Theorem view_decided_once tab n width rows events :
  Forall (λ e, ¬ chooses View e) events → ∀ tab' n' width' rows',
  shown (run (Mount tab width rows (n, View) :: events ++ [Mount tab' width' rows' (n', View)]) new_browser) tab' (n', View) =
    Some (view_value (default_view width rows)).
Proof.
  intros He tab' n' width' rows'. unfold run. rewrite app_comm_cons, foldl_app.
  etrans; [exact (mount_shows _ (Mount tab width rows (n, View) :: events) tab' (n', View) width' rows' nothing_stored)|].
  change (spec_run (?a :: ?l) ?m) with (spec_run l (spec_step m a)).
  by rewrite (chosen_stays events View _ (view_value (default_view width rows))).
Qed.
(** a narrow window before the systems are there; a wide one with three hundred afterwards *)
Lemma view_decided_once_witness :
  shown (run [Mount 0 800 0 (0%nat, View); Unmount 0 (0%nat, View); Mount 1 1600 300 (0%nat, View)] new_browser) 1%nat (0%nat, View)
    = Some (VText "grid").
Proof. exact (view_decided_once 0 0 800 0 [Unmount 0 (0%nat, View)] ltac:(repeat constructor; by intros H) 1%nat 0%nat 1600 300%nat). Defined.
