(* ===== verification/VirtualRows.v ===== *)
(** * Long lists draw only what is near the screen: [systems-table.tsx], [containers-table.tsx],
    [systemd-table.tsx]

    The three tables give the virtual list a height per row and draw the rows it names, between two
    paddings that stand for the rows above and below.  The virtual list itself is a library: [lawful]
    states what it documents for rows of one height. *)
From Stdlib Require Import ZArith Lia.
From S2P Require Import Prelude.
Open Scope Z_scope.

(** ** The tables *)

Inductive table := Systems | Containers | Services.
(** [estimateSize] and the height of the head *)
Definition estimateSize (t : table) (rows : nat) : Z :=
  match t with Systems => if (10 <? rows)%nat then 56 else 60 | Containers | Services => 54 end.
Definition head_height (t : table) : Z := match t with Systems => 50 | Containers | Services => 48 end.

(** what the virtual list answers *)
Record virtual_item := { vi_index : nat; vi_start : Z; vi_size : Z; vi_end : Z }.
Record virtualizer := { getVirtualItems : list virtual_item; getTotalSize : Z; scrollMargin : Z }.

Definition paddingTop (v : virtualizer) : Z :=
  Z.max 0 (match getVirtualItems v with x :: _ => vi_start x | [] => 0 - scrollMargin v end).
Definition paddingBottom (v : virtualizer) : Z :=
  Z.max 0 (getTotalSize v - match last (getVirtualItems v) with Some x => vi_end x | None => 0 end).
(** the element around the table, whose paddings count as part of its height *)
Definition wrapper_height (t : table) (v : virtualizer) : Z := getTotalSize v + head_height t.
(** what is left of it for the table *)
Definition table_height (t : table) (v : virtualizer) : Z :=
  wrapper_height t v - paddingTop v - paddingBottom v.

Inductive body (A : Type) := Message | Loading | Rows (rows : list (A * Z)).
Arguments Message {A}.
Arguments Loading {A}.
Arguments Rows {A} rows.
(** the rows drawn, each with the height of its cells; [loaded] is false only for containers *)
Definition virtual_rows {A} (rows : list A) (v : virtualizer) : list (A * Z) :=
  omap (λ x, (λ r, (r, vi_size x)) <$> rows !! vi_index x) (getVirtualItems v).
Definition table_body {A} (t : table) (loaded : bool) (rows : list A) (v : virtualizer) : body A :=
  match rows with
  | [] => match t, loaded with Containers, false => Loading | _, _ => Message end
  | _ => Rows (virtual_rows rows v)
  end.
(** [min-h-50] on the scrolling element *)
Definition min_height (rows : nat) : bool := Nat.eqb rows 0 || (2 <? rows)%nat.

(** ** The virtual list *)

Definition item_at (margin size : Z) (i : nat) : virtual_item := {|
  vi_index := i; vi_start := margin + Z.of_nat i * size; vi_size := size;
  vi_end := margin + Z.of_nat i * size + size |}.
(** a run of rows, placed one below the other; the total is that of all rows *)
Definition lawful (size : Z) (count : nat) (v : virtualizer) : Prop :=
  (∃ first n, (first + n ≤ count)%nat ∧ getVirtualItems v = item_at (scrollMargin v) size <$> seq first n)
  ∧ getTotalSize v = Z.of_nat count * size.

(** ** Theorems *)

Lemma estimateSize_pos t n : 0 < estimateSize t n.
Proof. unfold estimateSize. destruct t; [destruct (10 <? n)%nat|..]; lia. Qed.
Lemma virtual_rows_run {A} (rows : list A) size margin first n : (first + n ≤ length rows)%nat →
  omap (λ x, (λ r, (r, vi_size x)) <$> rows !! vi_index x) (item_at margin size <$> seq first n) =
  (λ r, (r, size)) <$> take n (drop first rows).
Proof.
  revert first. induction n as [|n IH]; intros first Hn; [done|]. cbn [seq fmap list_fmap omap list_omap].
  destruct (lookup_lt_is_Some_2 rows first ltac:(lia)) as [r Hr]. cbn. rewrite Hr. cbn.
  rewrite (drop_S _ _ _ Hr). cbn. f_equal. apply IH. lia.
Qed.
Lemma last_item margin size first n :
  last (item_at margin size <$> seq first (S n)) = Some (item_at margin size (first + n)).
Proof. rewrite seq_S, fmap_app. apply last_snoc. Qed.

(** Fact [virtual_rows_fill]: whichever rows the virtual list asks for, the table gets exactly the height of
    its head and of the rows it draws, also before the list knows its place and with no rows at all;
    the rows drawn are a run of the list, in order, and the padding above is the height of the rows
    that were left out above. *)
Theorem virtual_rows_fill {A} t (rows : list A) v :
  scrollMargin v = 0 → lawful (estimateSize t (length rows)) (length rows) v →
  let drawn := virtual_rows rows v in
  table_height t v = head_height t + foldr (λ r h, r.2 + h) 0 drawn
  ∧ ∃ above, drawn.*1 = take (length (getVirtualItems v)) (drop above rows)
      ∧ (length drawn = length (getVirtualItems v))
      ∧ (drawn ≠ [] → paddingTop v = Z.of_nat above * estimateSize t (length rows)).
Proof.
  intros Hm [(first & n & Hn & Hi) Ht]. pose proof (estimateSize_pos t (length rows)) as Hp.
  set (size := estimateSize t (length rows)) in *. cbv zeta.
  assert (virtual_rows rows v = (λ r, (r, size)) <$> take n (drop first rows)) as Hd.
  { unfold virtual_rows. rewrite Hi. by apply virtual_rows_run. }
  assert (length (take n (drop first rows)) = n) as Hl by (rewrite length_take, length_drop; lia).
  assert (∀ l : list A, foldr (λ (r : A * Z) h, r.2 + h) 0 ((λ r, (r, size)) <$> l) = Z.of_nat (length l) * size) as Hs.
  { intros l. induction l as [|x l IH]; [done|]. cbn [fmap list_fmap foldr length snd]. rewrite IH. lia. }
  rewrite Hd, Hs, Hl, Hi, length_fmap, length_seq. split.
  - unfold table_height, wrapper_height, paddingTop, paddingBottom. rewrite Ht, Hi, Hm.
    destruct n as [|n]; [cbn; nia|]. rewrite last_item. cbn [seq fmap list_fmap item_at vi_start vi_end]. nia.
  - exists first. split; [|split].
    + rewrite <-list_fmap_compose. by apply list_fmap_id.
    + by rewrite length_fmap.
    + intros Hne. unfold paddingTop. rewrite Hi, Hm. destruct n as [|n]; [done|]. cbn. lia.
Qed.
Lemma virtual_rows_fill_witness :
  let rows := seq 100 20 in
  let v := {| getVirtualItems := item_at 0 56 <$> seq 4 6; getTotalSize := 20 * 56; scrollMargin := 0 |} in
  table_height Systems v = 50 + 6 * 56 ∧ (virtual_rows rows v).*1 = [104; 105; 106; 107; 108; 109]%nat.
Proof.
  intros rows v. split; [|reflexivity].
  rewrite (proj1 (virtual_rows_fill Systems rows v eq_refl ltac:(by split; [exists 4%nat, 6%nat; split; [cbn; lia|]|]))).
  reflexivity.
Defined.

(** Fact [margin_ignored]: [??] binds weaker than the minus sign, so a margin above the list is taken
    from nothing but the zero of an empty list: once rows are drawn the padding above is too large by the whole margin.
    (The tables set no margin.) *)
Theorem margin_ignored t rows v first n :
  getVirtualItems v = item_at (scrollMargin v) (estimateSize t rows) <$> seq first (S n) →
  0 ≤ scrollMargin v → paddingTop v = scrollMargin v + Z.of_nat first * estimateSize t rows.
Proof. intros Hi Hm. unfold paddingTop. rewrite Hi. cbn. pose proof (estimateSize_pos t rows). nia. Qed.
