(* ===== verification/ContainersUi.v ===== *)
(** * The table of containers as the user meets it: [components/containers-table/]

    [ContainersTable] with its filter, head and the rows the virtual list draws, [ContainerSheet] with
    the logs and details of a container, and the two dialogs that fill the screen.  The lists that are
    fetched, the changes of the systems that make the table fetch again, the answers for the sheet,
    time and scrolling are [outside].  Merging is that of [Containers], the sheet that of
    [ContainerSheet]; the rows carry the identity of their records, by which the sheet knows them. *)
From Stdlib Require Import QArith ZArith Lia.
From S2P Require Import Prelude JsValue JsDate Types Utils SystemsManager Containers ContainerSheet SystemdSheet Dom TableLib VirtualRows.
Open Scope nat_scope.

(** ** The rows of an answer: what is new gets new identities, what stays keeps its own *)

Definition arrive (next : nat) (items : list ContainerRecord) : list row := imap (λ i x, {| ref := next + i; record := x |}) items.
Definition merge_rows (next : nat) (systemId : option string) (items : list ContainerRecord) (cur : option (list row)) : list row :=
  match items with
  | [] =>
      match systemId with
      | Some id => if truthy id then default [] (List.filter (λ r, negb (String.eqb (co_system (record r)) id)) <$> cur) else []
      | None => []
      end
  | first :: _ =>
      let last := lastUpdated first items in
      let kept := List.filter (λ item, Z.abs (last - co_updated item) <? window)%Z items in
      arrive next kept ++ List.filter (λ r, negb (bool_decide (co_id (record r) ∈ co_id <$> kept)) &&
                                            (last - co_updated (record r) <? window)%Z) (default [] cur)
  end.

(** *** Theorems: merging with identities *)

Lemma arrive_records n items : record <$> arrive n items = items.
Proof.
  unfold arrive. apply list_eq. intros i. rewrite list_lookup_fmap, list_lookup_imap. by destruct (items !! i).
Qed.
Lemma arrive_refs n items : ref <$> arrive n items = seq n (length items).
Proof.
  unfold arrive. rewrite fmap_imap. change (imap (λ i _, id (n + i)) items = seq n (length items)).
  rewrite (imap_seq items id n). apply list_fmap_id.
Qed.
Lemma filter_records (f : ContainerRecord → bool) (l : list row) :
  record <$> List.filter (λ r, f (record r)) l = List.filter f (record <$> l).
Proof. induction l as [|r l IH]; [done|]. cbn. rewrite <-IH. by destruct (f (record r)). Qed.
(** without the identities it is the merging of [Containers] *)
Lemma merge_rows_records n systemId items cur :
  record <$> merge_rows n systemId items cur = merge_items systemId items ((λ l : list row, record <$> l) <$> cur).
Proof.
  unfold merge_rows, merge_items. destruct items as [|first rest].
  - destruct systemId as [id|]; [|done]. destruct (truthy id); [|done]. destruct cur as [l|]; [|done]. apply (filter_records (λ c, negb (String.eqb (co_system c) id)) l).
  - cbv zeta. rewrite fmap_app, arrive_records. f_equal.
    etransitivity; [refine (filter_records (λ c, negb (bool_decide (co_id c ∈ _)) && (_ - co_updated c <? window)%Z) _)|]. by destruct cur.
Qed.
(** identities are never given twice *)
Definition fresh (n : nat) (l : list row) : Prop := NoDup (ref <$> l) ∧ Forall (λ r, ref r < n) l.
Lemma fresh_filter n (f : row → bool) l : fresh n l → fresh n (List.filter f l).
Proof.
  intros [Hnd Hl]. split; [by apply NoDup_fmap_filter|]. rewrite Forall_forall in *. intros r [Hr _]%elem_of_filter_bool. by apply Hl.
Qed.
Lemma merge_rows_fresh n systemId items cur : fresh n (default [] cur) → fresh (n + length items) (merge_rows n systemId items cur).
Proof.
  intros Hc. unfold merge_rows. destruct items as [|first rest].
  - rewrite Nat.add_0_r. destruct systemId as [id|]; [|by split; constructor]. destruct (truthy id); [|by split; constructor].
    destruct cur as [l|]; [|by split; constructor]. by apply fresh_filter.
  - cbv zeta. set (kept := List.filter _ (first :: rest)). set (old := List.filter _ (default [] cur)).
    assert (length kept ≤ length (first :: rest)) as Hk by apply filter_length_le.
    assert (fresh n old) as [Hn Hl] by by apply fresh_filter. rewrite Forall_forall in Hl. split.
    + rewrite fmap_app, arrive_refs. apply NoDup_app. split; [apply NoDup_seq|]. split; [|done].
      intros i Hi%elem_of_seq (r & -> & Hr)%list_elem_of_fmap. specialize (Hl r Hr). lia.
    + apply Forall_app. split; apply Forall_forall; intros r Hr.
      * apply (list_elem_of_fmap_2 ref) in Hr. rewrite arrive_refs in Hr. apply elem_of_seq in Hr. lia.
      * specialize (Hl r Hr). lia.
Qed.
Lemma merge_rows_from n systemId items cur r : r ∈ merge_rows n systemId items cur → record r ∈ items ∨ r ∈ default [] cur.
Proof.
  unfold merge_rows. destruct items as [|first rest].
  - destruct systemId as [id|]; [|by intros ?%elem_of_nil]. destruct (truthy id); [|by intros ?%elem_of_nil].
    destruct cur as [l|]; [|by intros ?%elem_of_nil]. intros [Hr _]%elem_of_filter_bool. by right.
  - cbv zeta. intros [Hr|Hr]%elem_of_app.
    + left. apply (list_elem_of_fmap_2 record) in Hr. rewrite arrive_records in Hr. by apply elem_of_filter_bool in Hr as [Hr _].
    + right. by apply elem_of_filter_bool in Hr as [Hr _].
Qed.

(** *** Theorems: the sheet *)

(** what is drawn is the row of the sheet, and an open sheet is drawn *)
Definition in_step (sh : ContainerSheet.sheet) : Prop :=
  ref <$> drawn sh = ref <$> activeContainer sh ∧ (sheetOpen sh = true → is_Some (drawn sh)).
(** the rows it is, was or will be about *)
Definition about_rows (P : row → Prop) (sh : ContainerSheet.sheet) : Prop :=
  (∀ r, activeContainer sh = Some r → P r) ∧ (∀ r, drawn sh = Some r → P r) ∧ ∀ q, q ∈ requests sh → P (about q).
Lemma delete_in {A} (x : A) (i : nat) (l : list A) : x ∈ delete i l → x ∈ l.
Proof. revert i. induction l as [|y l IH]; intros [|i]; cbn; try done; [by right|]. intros [->|Hx]%elem_of_cons; [by left|]. right. by eapply IH. Qed.
Section Sheet.
Context (codeToHtml : string → string → string) (reindent : string → option string).
Abbreviation sheet_step := (ContainerSheet.step codeToHtml reindent).

Lemma render_in_step sh : (sheetOpen sh = true → is_Some (activeContainer sh)) → (activeContainer sh = None → drawn sh = None) →
  in_step (render sh).
Proof.
  intros Ho Hn. unfold render. destruct (activeContainer sh) as [r|] eqn:E.
  - destruct (same_row (drawn sh) r) eqn:Er; [|split; [by cbn|by eexists]].
    unfold in_step. rewrite E. destruct (drawn sh) as [d|]; [|done]. cbn in Er. apply Nat.eqb_eq in Er. cbn. rewrite Er.
    split; [done|by eexists].
  - split; [by rewrite E, Hn|]. intros [? ?]%Ho. done.
Qed.
Lemma step_in_step sh e : in_step sh → (∀ r, e = RowClicked r → sheetOpen sh = false) → in_step (sheet_step sh e).
Proof.
  intros [Hd Ho] He.
  assert (∀ sh', drawn sh' = drawn sh → activeContainer sh' = activeContainer sh →
            (sheetOpen sh' = true → sheetOpen sh = true) → in_step (render sh')) as Hr.
  { intros sh' Ed Ea Es. assert (in_step sh') as Hi.
    { split; [by rewrite Ed, Ea|]. rewrite Ed. intros H. by apply Ho, Es. }
    rewrite (render_same sh'); [done|apply Hi]. }
  destruct e as [r| |i logs info|now|i now logs|now]; cbn [ContainerSheet.step].
  - unfold openSheet. rewrite (He r) by done. by apply render_in_step.
  - destruct (sheetOpen sh) eqn:E; [by apply Hr|by split; rewrite ?E].
  - destruct (requests sh !! i) as [[]|]; [by apply Hr|by split..].
  - destruct (drawn sh) as [d|] eqn:E; [|by split; rewrite ?E]. destruct (_ || _); [by split; rewrite ?E|].
    apply Hr; by rewrite ?E.
  - destruct (requests sh !! i) as [[]|]; [by split|by apply Hr|by split].
  - case_bool_decide; [by apply Hr|by split].
Qed.
Lemma render_rows P sh : about_rows P sh → about_rows P (render sh).
Proof.
  intros (Ha & Hd & Hq). unfold render. destruct (activeContainer sh) as [r|] eqn:E; [|by split_and!; rewrite ?E].
  destruct (same_row _ _); [by split_and!; rewrite ?E|]. split_and!; cbn.
  - intros r' [= <-]. by apply Ha.
  - intros r' [= <-]. by apply Ha.
  - intros q [Hin| ->%list_elem_of_singleton]%elem_of_app; [by apply Hq|by apply Ha].
Qed.
Lemma step_rows P sh e : about_rows P sh → (∀ r, e = RowClicked r → P r) → about_rows P (sheet_step sh e).
Proof.
  intros (Ha & Hd & Hq) He. destruct e as [r| |i logs info|now|i now logs|now]; cbn [ContainerSheet.step].
  - assert (P r) as Hr by by apply He. unfold openSheet.
    destruct (sheetOpen sh); [|apply render_rows]; (split_and!; cbn; [by intros ? [= <-]|done|done]).
  - destruct (sheetOpen sh); [|by split_and!]. apply render_rows. by split_and!.
  - destruct (requests sh !! i) as [[]|]; [|by split_and!..]. apply render_rows. split_and!; cbn; [done|done|].
    intros q ?%delete_in. by apply Hq.
  - destruct (drawn sh) as [d|] eqn:E; [|by split_and!; rewrite ?E]. destruct (_ || _); [by split_and!; rewrite ?E|].
    apply render_rows. split_and!; cbn; rewrite ?E; [done|done|].
    intros q [Hin| ->%list_elem_of_singleton]%elem_of_app; [by apply Hq|by apply Hd].
  - destruct (requests sh !! i) as [[]|]; [by split_and!| |by split_and!]. apply render_rows. split_and!; cbn; [done|done|].
    intros q ?%delete_in. by apply Hq.
  - case_bool_decide; [|by split_and!]. apply render_rows. by split_and!.
Qed.
End Sheet.

Section Page.
(** [loadTime] is when the page was opened; [codeToHtml] and [reindent] are those of the sheet *)
Context `{Intl} {T : jsmap SystemRecord → TableLib row} {TL : ∀ names, TableLibLaws (T names)}
        (codeToHtml : string → string → string) (reindent : string → option string) (hour_text : Z → string)
        (system_url : string → string) (loadTime : Z) (systemId : option string).

(** ** State and handlers *)

Record state := {
  data : option (list row); next : nat; sorting : SortingState; globalFilter : string;
  loads : list (option string);                       (* lists asked for, each with its system *)
  systems : jsmap SystemRecord;                       (* [$allSystemsById], and what was read of it: *)
  filter_names : jsmap SystemRecord; sort_names : jsmap SystemRecord; drawn_names : jsmap SystemRecord;
  the_sheet : ContainerSheet.sheet; logsFullscreenOpen : bool; infoFullscreenOpen : bool;
  virtual : virtualizer; clock : Z }.
Inductive event :=
| SetFilter (text : string) | SortHead (column : string) | OpenRow (r : row) | CloseSheet | RefreshLogs
| OpenLogs | CloseLogs | OpenInfo | CloseInfo.

Definition with_table (so : SortingState) (f : string) (fn : jsmap SystemRecord) (s : state) : state := {|
  data := data s; next := next s; sorting := so; globalFilter := f; loads := loads s; systems := systems s;
  filter_names := fn; sort_names := systems s; drawn_names := systems s; the_sheet := the_sheet s;
  logsFullscreenOpen := logsFullscreenOpen s; infoFullscreenOpen := infoFullscreenOpen s; virtual := virtual s; clock := clock s |}.
Definition with_sheet (sh : ContainerSheet.sheet) (logs info : bool) (s : state) : state := {|
  data := data s; next := next s; sorting := sorting s; globalFilter := globalFilter s; loads := loads s; systems := systems s;
  filter_names := filter_names s; sort_names := sort_names s; drawn_names := systems s; the_sheet := sh;
  logsFullscreenOpen := logs; infoFullscreenOpen := info; virtual := virtual s; clock := clock s |}.
Definition with_loads (d : option (list row)) (n : nat) (l : list (option string)) (s : state) : state := {|
  data := d; next := n; sorting := sorting s; globalFilter := globalFilter s; loads := l; systems := systems s;
  filter_names := systems s; sort_names := systems s; drawn_names := systems s; the_sheet := the_sheet s;
  logsFullscreenOpen := logsFullscreenOpen s; infoFullscreenOpen := infoFullscreenOpen s; virtual := virtual s; clock := clock s |}.
Definition with_world (l : list (option string)) (m : jsmap SystemRecord) (v : virtualizer) (t : Z) (s : state) : state := {|
  data := data s; next := next s; sorting := sorting s; globalFilter := globalFilter s; loads := l; systems := m;
  filter_names := filter_names s; sort_names := sort_names s; drawn_names := drawn_names s; the_sheet := the_sheet s;
  logsFullscreenOpen := logsFullscreenOpen s; infoFullscreenOpen := infoFullscreenOpen s; virtual := v; clock := t |}.
Definition sheet_step (e : ContainerSheet.event) (s : state) : state :=
  with_sheet (ContainerSheet.step codeToHtml reindent (the_sheet s) e) (logsFullscreenOpen s) (infoFullscreenOpen s) s.

Definition step (e : event) (s : state) : state :=
  match e with
  | SetFilter t => with_table (sorting s) t (systems s) s
  | SortHead id =>
      with_table (toggleSorting (TableLib := T (sort_names s)) id
                    (bool_decide (getIsSorted (TableLib := T (sort_names s)) id (sorting s) = Some false)) (sorting s))
        (globalFilter s) (filter_names s) s
  | OpenRow r => sheet_step (RowClicked r) s
  | CloseSheet => sheet_step SheetClosed s
  | RefreshLogs => sheet_step (RefreshClicked (clock s)) s
  | OpenLogs => with_sheet (the_sheet s) true (infoFullscreenOpen s) s
  | CloseLogs => with_sheet (the_sheet s) false (infoFullscreenOpen s) s
  | OpenInfo => with_sheet (the_sheet s) (logsFullscreenOpen s) true s
  | CloseInfo => with_sheet (the_sheet s) (logsFullscreenOpen s) false s
  end.

(** *** The rows *)

Definition system_name (names : jsmap SystemRecord) (c : ContainerRecord) : option string := sys_name <$> jget (co_system c) names.
Definition filtered (s : state) : list row :=
  let l := default [] (data s) in
  if truthy (globalFilter s)
  then List.filter (λ r, globalFilterFn (system_name (filter_names s) (record r)) (record r) (globalFilter s)) l else l.
Definition row_model (s : state) : list row := getSortedRowModel (TableLib := T (sort_names s)) (sorting s) (filtered s).

(** ** What is drawn *)

Definition column_name (id : string) : string :=
  if String.eqb id "name" then "Name" else if String.eqb id "system" then "System" else if String.eqb id "cpu" then "CPU"
  else if String.eqb id "memory" then "Memory" else if String.eqb id "net" then "Net" else if String.eqb id "health" then "Health"
  else if String.eqb id "image" then "Image" else if String.eqb id "status" then "Status" else "Updated".
Definition cell (s : state) (c : ContainerRecord) (id : string) : screen event :=
  let row := co_id c in
  if String.eqb id "name" then [Text row (co_name c)]
  else if String.eqb id "system" then [Text row (default "" (system_name (systems s) c))]
  else if String.eqb id "cpu" then [Text row (cpu_text (co_cpu c))]
  else if String.eqb id "memory" then [Text row (bytes_text (co_memory c) false true)]
  else if String.eqb id "net" then [Text row (bytes_text (co_net c) true false)]
  else if String.eqb id "health" then let '(label, color) := health_cell (co_health c) in [Text row color; Text row label]
  else if String.eqb id "image" then [Text row (co_image c)]
  else if String.eqb id "status" then [Text row (co_status c)]
  else [Text row (hour_text (co_updated c))].
Definition table_row (s : state) (r : row) : screen event :=
  Button (co_id (record r)) "row" true (OpenRow r) :: rows (cell s (record r)) (columns systemId).
Definition all_containers (s : state) : screen event :=
  match table_body Containers (bool_decide (is_Some (data s))) (row_model s) (virtual s) with
  | Rows drawn => rows (λ r, table_row s r.1) drawn
  | Message => [Text "" "No results."]
  | Loading => [Text "" "Loading"]
  end.
Definition table (s : state) : screen event :=
  [Text "" "All Containers"; Text "" "Click on a container to view more information."; Input "Filter..." (globalFilter s) SetFilter]
  ++ when (truthy (globalFilter s)) [Button "" "Clear" true (SetFilter "")]
  ++ rows (λ id, [Button "head" (column_name id) true (SortHead id)]) (columns systemId)
  ++ all_containers s.

(** *** [ContainerSheet] and the dialogs; what is shown belongs to the row of the last drawing *)

Definition sheet_page (s : state) (c : ContainerRecord) : screen event :=
  let sh := the_sheet s in
  [Dialog (co_name c) CloseSheet; Link "" (default "" (system_name (drawn_names s) c)) (system_url (co_system c));
   Text "" (co_status c); Text "" (co_image c); Text "" (co_id c); Text "" (default "" (label_at ContainerHealthLabels (co_health c)));
   Text "" "Logs"; Button "Logs" "Refresh" (negb (isRefreshingLogs sh)) RefreshLogs; Button "Logs" "Maximize" true OpenLogs;
   Text "Logs" (logsDisplay sh); Text "" "Detail"; Button "Detail" "Maximize" true OpenInfo; Text "Detail" (infoDisplay sh)].
Definition logs_dialog (s : state) (c : ContainerRecord) : screen event :=
  [Dialog (co_name c +:+ " logs") CloseLogs; Text "Logs" (logsDisplay (the_sheet s));
   Button "Logs" "Refresh" (negb (isRefreshingLogs (the_sheet s))) RefreshLogs].
Definition info_dialog (s : state) (c : ContainerRecord) : screen event :=
  [Dialog (co_name c +:+ " info") CloseInfo; Text "Detail" (infoDisplay (the_sheet s))].
(** the sheet and its dialogs are not drawn before a row was clicked; what is on top takes the clicks *)
Definition draw (s : state) : screen event :=
  match drawn (the_sheet s) with
  | Some r =>
      if logsFullscreenOpen s then logs_dialog s (record r)
      else if infoFullscreenOpen s then info_dialog s (record r)
      else if sheetOpen (the_sheet s) then sheet_page s (record r) else table s
  | None => table s
  end.

(** ** What comes from outside *)

Definition of_system (asked : option string) (c : ContainerRecord) : Prop :=
  match asked with Some id => truthy id = true → co_system c = id | None => True end.
(** whether a change of one system, or of all, makes the table ask for a list, and of which system; the
    store tells a listener to one key only of changes of that key or of all *)
Definition asks (now : Z) (changed : option string) (told : bool) : list (option string) :=
  match systemId with
  | Some id => if truthy id then when told [systemId] else when (fetch_on_update loadTime now) [changed]
  | None => when (fetch_on_update loadTime now) [changed]
  end.
Definition tells (changed : option string) (told : bool) : Prop :=
  match changed with Some c => told = bool_decide (systemId = Some c) | None => True end.

Inductive outside (s : state) : state → Prop :=
| listed before asked after items : loads s = before ++ asked :: after → NoDup (co_id <$> items) → Forall (of_system asked) items →
    outside s (with_loads (Some (merge_rows (next s) asked items (data s))) (next s + length items) (before ++ after) s)
| load_fails before asked after : loads s = before ++ asked :: after →
    outside s (with_world (before ++ after) (systems s) (virtual s) (clock s) s)
| systems_change m changed told : tells changed told →
    outside s (with_world (loads s ++ asks (clock s) changed told) m (virtual s) (clock s) s)
| loaded i logs info : outside s (sheet_step (LoadAnswered i logs info) s)
| loaded_again i logs : outside s (sheet_step (AgainAnswered i (clock s) logs) s)
| spun : outside s (sheet_step (SpinOver (clock s)) s)
| scroll v : lawful (estimateSize Containers (length (row_model s))) (length (row_model s)) v →
    outside s (with_world (loads s) (systems s) v (clock s) s)
| tick t : (clock s <= t)%Z → outside s (with_world (loads s) (systems s) (virtual s) t s).
Definition no_items : virtualizer := {| getVirtualItems := []; getTotalSize := 0; scrollMargin := 0 |}.
Definition first_state (so : SortingState) (m : jsmap SystemRecord) : state := {|
  data := None; next := 0; sorting := so; globalFilter := ""; loads := [systemId]; systems := m; filter_names := m;
  sort_names := m; drawn_names := m; the_sheet := no_sheet; logsFullscreenOpen := false; infoFullscreenOpen := false;
  virtual := no_items; clock := loadTime |}.
Definition start (s : state) : Prop := ∃ so m, s = first_state so m.
Definition reached : state → Prop := reachable draw step outside start.
(** ** Theorems *)

Definition quiet (s : state) : Prop := sheetOpen (the_sheet s) = false.
Definition no_dialog (s : state) : Prop := logsFullscreenOpen s = false ∧ infoFullscreenOpen s = false.
Definition promised (s : state) (e : event) : Prop :=
  match e with
  | SetFilter _ => quiet s
  | SortHead id => quiet s ∧ id ∈ columns systemId
  | OpenRow r => quiet s ∧ r ∈ row_model s
  | CloseSheet | OpenLogs | OpenInfo => sheetOpen (the_sheet s) = true ∧ no_dialog s
  | RefreshLogs => isRefreshingLogs (the_sheet s) = false
      ∧ ∃ r, drawn (the_sheet s) = Some r
        ∧ requests (the_sheet (step RefreshLogs s)) = requests (the_sheet s) ++ [Again r (clock s)]
  | CloseLogs => logsFullscreenOpen s = true
  | CloseInfo => infoFullscreenOpen s = true
  end.
(** a dialog is over the open sheet, one at a time *)
Definition layers (s : state) : Prop :=
  in_step (the_sheet s)
  ∧ (logsFullscreenOpen s = true → sheetOpen (the_sheet s) = true ∧ infoFullscreenOpen s = false)
  ∧ (infoFullscreenOpen s = true → sheetOpen (the_sheet s) = true ∧ logsFullscreenOpen s = false).
Definition listed_row (r : row) : Prop := of_system systemId (record r).
Definition rows_ok (s : state) : Prop :=
  NoDup (co_id <$> (record <$> default [] (data s))) ∧ fresh (next s) (default [] (data s)) ∧ Forall listed_row (default [] (data s))
  ∧ (truthy systemId = true → Forall (λ asked, asked = systemId) (loads s)).
(** the sheet was made by its own events, and is about rows of the page *)
Definition sheet_ok (s : state) : Prop :=
  about_rows listed_row (the_sheet s) ∧ ∃ es, the_sheet s = run codeToHtml reindent es no_sheet.
Definition inv (s : state) : Prop := layers s ∧ rows_ok s ∧ sheet_ok s.

Lemma refreshed s r : in_step (the_sheet s) → drawn (the_sheet s) = Some r → sheetOpen (the_sheet s) = true →
  isRefreshingLogs (the_sheet s) = false →
  requests (the_sheet (step RefreshLogs s)) = requests (the_sheet s) ++ [Again r (clock s)].
Proof.
  intros Hi Hd Ho Hr. unfold step, sheet_step. cbn [the_sheet with_sheet ContainerSheet.step]. rewrite Hd, Ho, Hr. cbn [negb orb].
  rewrite render_same; [done|]. apply Hi.
Qed.
Lemma co_offered_promised s e : layers s → offered (draw s) e → promised s e.
Proof.
  intros (Hi & Hl & Hn) Ho. unfold draw in Ho.
  assert (offered (table s) e → quiet s → promised s e) as Htable.
  { unfold table, all_containers. rewrite !offered_app, offered_when. intros [Ho'|[[_ Ho']|[Ho'|Ho']]] Hq.
    1-3: by offered_cases Ho' by idtac.
    destruct (table_body _ _ _ _) as [| |drawn] eqn:Hb; [by offered_cases Ho' by idtac..|].
    apply offered_rows in Ho' as ([r h] & Hr & Ho'). apply (offered_app [_]) in Ho' as [Ho'|Ho'].
    - offered_cases Ho' by idtac. split; [done|]. unfold table_body in Hb. destruct (row_model s) as [|x l]; [by destruct (bool_decide _)|].
      injection Hb as <-. unfold virtual_rows in Hr. apply list_elem_of_omap in Hr as (i & _ & Hi').
      apply fmap_Some in Hi' as (x' & Hx & [= -> ->]). by apply list_elem_of_lookup_2 in Hx.
    - apply offered_rows in Ho' as (id & _ & Ho'). unfold cell in Ho'. repeat case_match; by offered_cases Ho' by idtac. }
  destruct (drawn (the_sheet s)) as [r|] eqn:Hd.
  2:{ apply Htable; [done|]. unfold quiet. destruct (sheetOpen _) eqn:E; [|done]. destruct (proj2 Hi E). congruence. }
  destruct (logsFullscreenOpen s) eqn:El; [|destruct (infoFullscreenOpen s) eqn:En].
  - destruct (Hl eq_refl) as [Hs _]. offered_cases Ho by (unfold logs_dialog in Ho).
    assert (isRefreshingLogs (the_sheet s) = false) as Hr by by destruct (isRefreshingLogs _).
    split; [done|]. exists r. split; [done|]. by apply refreshed.
  - offered_cases Ho by (unfold info_dialog in Ho).
  - destruct (sheetOpen (the_sheet s)) eqn:Es; [|by apply Htable].
    offered_cases Ho by (unfold sheet_page in Ho).
    assert (isRefreshingLogs (the_sheet s) = false) as Hr by by destruct (isRefreshingLogs _).
    split; [done|]. exists r. split; [done|]. by apply refreshed.
Qed.
Lemma row_listed s r : r ∈ row_model s → r ∈ default [] (data s).
Proof. unfold row_model, filtered. rewrite sorted_perm. destruct (truthy _); [|done]. by intros [Hr _]%elem_of_filter_bool. Qed.

Lemma sheet_step_ok e s : inv s → (∀ r, e = RowClicked r → quiet s ∧ listed_row r) →
  (sheetOpen (ContainerSheet.step codeToHtml reindent (the_sheet s) e) = false → no_dialog s) → inv (sheet_step e s).
Proof.
  intros ((Hi & Hl & Hn) & Hr & Hs & es & Es) He Hc. split; [|split; [done|split]].
  - split; [|split].
    + apply step_in_step; [done|]. intros r E. by destruct (He r E).
    + cbn. intros E. split; [|by apply Hl]. apply not_false_iff_true. intros F. apply Hc in F as [F _]. congruence.
    + cbn. intros E. split; [|by apply Hn]. apply not_false_iff_true. intros F. apply Hc in F as [_ F]. congruence.
  - apply step_rows; [done|]. intros r E. by destruct (He r E).
  - exists (es ++ [e]). cbn. rewrite Es. unfold run. by rewrite foldl_app.
Qed.
(** what does not touch the sheet *)
Lemma same_sheet s s' : (the_sheet s', logsFullscreenOpen s', infoFullscreenOpen s') = (the_sheet s, logsFullscreenOpen s, infoFullscreenOpen s) →
  rows_ok s' → inv s → inv s'.
Proof.
  intros [= E1 E2 E3] Hr (Hl & _ & Hs). split_and!; [|done|].
  - unfold layers. by rewrite E1, E2, E3.
  - unfold sheet_ok. by rewrite E1.
Qed.
Lemma closed_keeps e sh : (∀ r, e ≠ RowClicked r) → e ≠ SheetClosed →
  sheetOpen (ContainerSheet.step codeToHtml reindent sh e) = sheetOpen sh.
Proof.
  intros H1 H2. assert (∀ sh, sheetOpen (render sh) = sheetOpen sh) as Hr.
  { intros sh'. unfold render. destruct (activeContainer sh'); [|done]. by destruct (same_row _ _). }
  destruct e; cbn [ContainerSheet.step]; try done; repeat case_match; rewrite ?Hr; try done. by destruct (H1 r).
Qed.
Lemma co_inv_user s e : inv s → offered (draw s) e → inv (step e s).
Proof.
  intros Hi Ho. apply co_offered_promised in Ho; [|apply Hi].
  pose proof Hi as ((Hin & Hl & Hn) & Hr & Hs).
  destruct e as [t|id|r| | | | | |]; cbn [step promised] in *.
  - by apply (same_sheet s).
  - by apply (same_sheet s).
  - destruct Ho as [Hq Hrow]. apply sheet_step_ok; [done| |].
    + intros r' [= <-]. split; [done|]. destruct Hr as (_ & _ & Hr & _). rewrite Forall_forall in Hr. by apply Hr, row_listed.
    + intros _. unfold quiet in Hq. split; apply not_true_iff_false; [intros [F _]%Hl|intros [F _]%Hn]; congruence.
  - apply sheet_step_ok; [done|done|]. intros _. apply Ho.
  - apply sheet_step_ok; [done|done|]. rewrite closed_keeps by done. intros F.
    split; apply not_true_iff_false; [intros [F' _]%Hl|intros [F' _]%Hn]; congruence.
  - destruct Ho as (Hs' & Hd1 & Hd2). split; [|by split]. split; [done|]. split; [done|]. cbn. congruence.
  - split; [|by split]. split; [done|]. split; [done|]. cbn. intros E. split; [by apply Hn|done].
  - destruct Ho as (Hs' & Hd1 & Hd2). split; [|by split]. split; [done|]. split; [cbn; congruence|done].
  - split; [|by split]. split; [done|]. split; [|done]. cbn. intros E. split; [by apply Hl|done].
Qed.
Lemma loads_removed s before asked after : loads s = before ++ asked :: after → rows_ok s →
  (truthy systemId = true → asked = systemId ∧ Forall (λ a, a = systemId) (before ++ after)).
Proof.
  intros E (_ & _ & _ & Hl) Ht. specialize (Hl Ht). rewrite E in Hl. apply Forall_app in Hl as [H1 [H2 H3]%Forall_cons].
  split; [done|]. by apply Forall_app.
Qed.
Lemma asks_own now changed told : truthy systemId = true → Forall (λ a, a = systemId) (asks now changed told).
Proof.
  intros Ht. unfold asks. destruct systemId as [id|]; [|done]. change (truthy (Some id)) with (truthy id) in Ht. rewrite Ht.
  destruct told; repeat constructor.
Qed.
Lemma co_inv_outside s s' : inv s → outside s s' → inv s'.
Proof.
  intros Hi Ho. pose proof Hi as ((Hin & Hl & Hn) & Hr & Hs).
  assert (∀ e, (∀ r, e ≠ RowClicked r) → e ≠ SheetClosed → inv (sheet_step e s)) as Hsheet.
  { intros e H1 H2. apply sheet_step_ok; [done| |]. { intros r E. by destruct (H1 r). }
    rewrite closed_keeps by done. intros F. split; apply not_true_iff_false; [intros [F' _]%Hl|intros [F' _]%Hn]; congruence. }
  destruct Ho as [before asked after items E Hnd Hsys|before asked after E|m changed told Ht|i logs info|i logs| |v Hv|t Ht].
  - apply (same_sheet s); [done| |done]. pose proof (loads_removed s _ _ _ E Hr) as Hrem. destruct Hr as (H1 & H2 & H3 & H4).
    split_and!; cbn.
    + rewrite merge_rows_records. apply merge_items_ids; [done|]. by destruct (data s).
    + by apply merge_rows_fresh.
    + apply Forall_forall. intros r [Hr|Hr]%merge_rows_from; [|by rewrite Forall_forall in H3; apply H3].
      unfold listed_row. rewrite Forall_forall in Hsys. specialize (Hsys _ Hr). destruct (truthy systemId) eqn:Et.
      * by destruct (Hrem eq_refl) as [-> _].
      * unfold of_system. destruct systemId as [id|]; [|done]. change (truthy (Some id)) with (truthy id) in Et. congruence.
    + intros Et. by apply Hrem.
  - apply (same_sheet s); [done| |done]. pose proof (loads_removed s _ _ _ E Hr) as Hrem. destruct Hr as (H1 & H2 & H3 & H4).
    split_and!; [done..|]. intros Et. by apply Hrem.
  - apply (same_sheet s); [done| |done]. destruct Hr as (H1 & H2 & H3 & H4). split_and!; [done..|].
    intros Et. cbn. apply Forall_app. split; [by apply H4|by apply asks_own].
  - by apply Hsheet.
  - by apply Hsheet.
  - by apply Hsheet.
  - by apply (same_sheet s).
  - by apply (same_sheet s).
Qed.

(** C39: whatever is clicked and whatever comes from the server meanwhile: the rows are the containers
    that match the filter, each container and each identity once; a system's page shows, and asks for the
    logs of, that system's containers only, and asks for no other list; a click does what it says, a refresh
    sends its request; a dialog is over the open sheet, one at a time; and the spinner of the logs turns
    exactly while a request for them or its timer is there. *)
Theorem containers_page s : reached s →
  row_model s ≡ₚ filtered s
  ∧ NoDup (co_id <$> (record <$> default [] (data s))) ∧ NoDup (ref <$> default [] (data s))
  ∧ (∀ id, systemId = Some id → id ≠ ""%string →
       (∀ r, r ∈ row_model s → co_system (record r) = id) ∧ (∀ asked, asked ∈ loads s → asked = systemId)
       ∧ ∀ q, q ∈ requests (the_sheet s) → co_system (record (about q)) = id)
  ∧ (∀ e, offered (draw s) e → promised s e)
  ∧ layers s
  ∧ spin_count (the_sheet s) = if isRefreshingLogs (the_sheet s) then 1 else 0.
Proof.
  intros Hs. assert (inv s) as (Hl & (Hids & [Hrefs _] & Hsys & Hloads) & (_ & _ & Hq) & es & Es).
  { revert s Hs. apply page_invariant.
    - intros s (so & m & ->). split; [|split].
      + split; [split; [done|by cbn]|by split].
      + split_and!; cbn; [constructor|split; constructor|constructor|by repeat constructor].
      + split; [split_and!; [done|done|by intros q ?%elem_of_nil]|by exists []].
    - apply co_inv_user.
    - apply co_inv_outside. }
  split_and!; [apply sorted_perm|done|done| |intros e; by apply co_offered_promised|done|rewrite Es; apply one_spin].
  intros id E Hid%truthy_nonempty. unfold listed_row, of_system in *. rewrite E in Hsys, Hloads, Hq |- *. rewrite Forall_forall in Hsys.
  split_and!.
  - intros r Hr%row_listed. by apply Hsys.
  - intros asked. specialize (Hloads Hid). rewrite Forall_forall in Hloads. apply Hloads.
  - intros q Hin. by apply Hq.
Qed.
End Page.

(** ** Visits *)

#[local] Existing Instance SystemdSheet.plain.
Definition unsorted : TableLib row := {|
  getSortedRowModel := λ _ rows, rows; getIsSorted := λ id sorting, snd <$> find (λ x, String.eqb x.1 id) sorting;
  toggleSorting := λ id desc _, [(id, desc)] |}.
Lemma co_unsorted_laws : TableLibLaws unsorted.
Proof. split; [done|]. by intros id desc l x ->%list_elem_of_singleton; left. Qed.
Definition library : jsmap SystemRecord → TableLib row := λ _, unsorted.
Definition plain_hour (_ : Z) : string := "10:00:00".
Definition url (id : string) : string := "/system/" +:+ id.
Definition visit (acts : list act) (s : state) : state :=
  default s (play (draw (T := library) plain_hour url (Some "s"%string)) (step (T := library) ex_html ex_reindent) acts s).
Definition empty_page : state := first_state 0 (Some "s"%string) [("name", false)]%string [].
Definition two_containers : list ContainerRecord := [ex_co "a" "s" 1000000; ex_co "b" "s" 1000500].
Definition two_rows : state :=
  with_loads (Some (merge_rows 0 (Some "s"%string) two_containers None)) 2 [] empty_page.
Definition both_drawn : state :=
  with_world [] [] {| getVirtualItems := item_at 0 54 <$> seq 0 2; getTotalSize := 108; scrollMargin := 0 |} 0 two_rows.
Definition read_logs : list act :=
  [Click "b" "row"; Click "Logs" "Maximize"; Click "Logs" "Refresh"; Leave; Click "Detail" "Maximize"]%string.
Definition ex_page : state := visit read_logs both_drawn.
(** a list that could not be fetched is not reported: the table keeps waiting for it *)
Example waits_for_nothing :
  let s := with_world [] [] no_items 0 empty_page in
  loads s = [] ∧ Text "" "Loading" ∈ draw (T := library) plain_hour url (Some "s"%string) s.
Proof. split; [done|]. apply list_elem_of_In. vm_compute. repeat first [left; reflexivity | right]. Qed.

Lemma containers_page_witness :
  layers ex_page ∧ (infoFullscreenOpen ex_page, length (requests (the_sheet ex_page))) = (true, 2).
Proof.
  split; [|vm_compute; reflexivity].
  apply (containers_page (T := library) (TL := λ _, co_unsorted_laws) ex_html ex_reindent plain_hour url 0 (Some "s"%string)).
  apply (play_reachable _ _ _ _ read_logs both_drawn).
  - apply (from_outside _ _ _ _ two_rows).
    + apply (from_outside _ _ _ _ empty_page); [apply at_start; by exists [("name", false)]%string, []|].
      apply (listed _ _ _ _ empty_page [] (Some "s"%string) [] two_containers); [done| |by repeat constructor].
      apply (bool_decide_unpack _). vm_compute. exact I.
    + apply (scroll _ _ _ _ two_rows). split; [|reflexivity]. exists 0, 2. split; [vm_compute; lia|reflexivity].
  - vm_compute. reflexivity.
Defined.
