(* ===== verification/SystemdUi.v ===== *)
(** * The table of services as the user meets it: [components/systemd-table/]

    [SystemdTable] with its filter, head and the rows the virtual list draws, and [SystemdSheet] with the
    details of a service.  The lists that are fetched, the changes of the system and of the page's system,
    the answers for the sheet, time and scrolling are [outside].  Merging is that of [Systemd], the sheet
    that of [Systemd] and [SystemdSheet].  The sheet writes into the record of its service, so the rows are
    references; the table library keeps the value of a cell once it was read, until the data change, and the rows that match the
    filter, until the data or its text change: [filter_read] is what it has read of the records for that. *)
From Stdlib Require Import QArith ZArith Lia.
From S2P Require Import Prelude JsValue JsDate Types Utils Systemd SystemdSheet Dom TableLib VirtualRows.
Open Scope nat_scope.

(** ** The rows of an answer: new records are put behind the old ones, what stays keeps its place *)

Definition records (objects : list SystemdRecord) (refs : list nat) : list SystemdRecord := omap (λ i, objects !! i) refs.
Definition newest_of (first : SystemdRecord) (items : list SystemdRecord) : Z :=
  Z.max (sv_updated first) (match last items with Some x => sv_updated x | None => 0 end).
Definition merge_refs (items objects : list SystemdRecord) (cur : list nat) : list SystemdRecord * list nat :=
  match items with
  | [] => (objects, cur)
  | first :: _ =>
      let newest := newest_of first items in
      let newItems := List.filter (λ item, Z.abs (newest - sv_updated item) <? 70000)%Z items in
      (objects ++ newItems, seq (length objects) (length newItems) ++
        List.filter (λ i, match objects !! i with
                          | Some item => negb (bool_decide (sv_name item ∈ sv_name <$> newItems)) && (newest - sv_updated item <? 70000)%Z
                          | None => false
                          end) cur)
  end.

Section Page.
(** the virtual list: what it draws of so many rows when it is scrolled so far *)
Context `{Intl} {T : TableLib nat} {TL : TableLibLaws T} (toLocaleString hour_text : Z → string)
        (virtual_at : Z → nat → virtualizer).

(** ** State and handlers *)

(** what the sheet has asked for, and the answer once it has come *)
Record sheet_request := { rq_system : string; rq_service : string; rq_answer : option (option more_details + option string) }.
Record state := {
  systemId : string; the_page : Systemd.page; known : option more_details; totals : list Z; lastSeen : Z;
  values : list (nat * Z); sorting : SortingState; globalFilter : string; filter_read : list SystemdRecord;
  loads : list string; asked : list sheet_request; top : Z; clock : Z }.
Inductive event := SetFilter (text : string) | SortHead (column : string) | OpenRow (ref : nat) | CloseSheet.

Definition with_table (so : SortingState) (f : string) (read : list SystemdRecord) (v : list (nat * Z)) (t : Z) (s : state) : state := {|
  systemId := systemId s; the_page := the_page s; known := known s; totals := totals s; lastSeen := lastSeen s; values := v;
  sorting := so; globalFilter := f; filter_read := read; loads := loads s; asked := asked s; top := t; clock := clock s |}.
Definition with_sheet (p : Systemd.page) (k : option more_details) (a : list sheet_request) (s : state) : state := {|
  systemId := systemId s; the_page := p; known := k; totals := totals s; lastSeen := lastSeen s; values := values s;
  sorting := sorting s; globalFilter := globalFilter s; filter_read := filter_read s; loads := loads s; asked := a; top := top s; clock := clock s |}.
Definition with_loads (l : list string) (t : Z) (s : state) : state := {|
  systemId := systemId s; the_page := the_page s; known := known s; totals := totals s; lastSeen := lastSeen s; values := values s;
  sorting := sorting s; globalFilter := globalFilter s; filter_read := filter_read s; loads := l; asked := asked s; top := top s; clock := t |}.
Definition with_refs (objs : list SystemdRecord) (refs : list nat) (p : Systemd.page) : Systemd.page := {|
  objects := objs; Systemd.rows := refs; activeService := activeService p; sheetOpen := sheetOpen p; shown_details := shown_details p;
  error := error p; isLoading := isLoading p; pending := pending p; requests := requests p |}.
(** [setData]: the totals are counted again, and the library makes new rows and filters them *)
Definition with_data (objs : list SystemdRecord) (refs : list nat) (l : list string) (s : state) : state := {|
  systemId := systemId s; the_page := with_refs objs refs (the_page s); known := known s;
  totals := statusTotals (records objs refs); lastSeen := lastSeen s; values := [];
  sorting := sorting s; globalFilter := globalFilter s; filter_read := objs; loads := l; asked := asked s; top := top s; clock := clock s |}.

(** *** The rows *)

Definition record (s : state) (i : nat) : option SystemdRecord := objects (the_page s) !! i.
(** the filter looks at the records as they were when it last ran *)
Definition matches (s : state) (i : nat) : bool :=
  match filter_read s !! i with Some r => service_filter None r (globalFilter s) | None => false end.
Definition filtered (s : state) : list nat :=
  if truthy (globalFilter s) then List.filter (matches s) (Systemd.rows (the_page s)) else Systemd.rows (the_page s).
Definition row_model (s : state) : list nat := getSortedRowModel (sorting s) (filtered s).
Definition virtual (s : state) : virtualizer := virtual_at (top s) (length (row_model s)).
(** without data and without a filter nothing is drawn *)
Definition hidden (s : state) : bool := match Systemd.rows (the_page s) with [] => negb (truthy (globalFilter s)) | _ => false end.

(** what React and the library do after every change: a sheet that is no longer drawn is forgotten, and
    the values of the state column are read for the rows that are drawn for the first time *)
Definition remount (s : state) : state :=
  if hidden s then
    with_sheet {| objects := objects (the_page s); Systemd.rows := Systemd.rows (the_page s); activeService := None; sheetOpen := false;
                  shown_details := None; error := None; isLoading := false; pending := None; requests := requests (the_page s) |}
               None (asked s) s
  else s.
Definition read_value (s : state) (v : list (nat * Z)) (i : nat) : list (nat * Z) :=
  if existsb (λ x : nat * Z, Nat.eqb x.1 i) v then v else match record s i with Some r => v ++ [(i, sv_state r)] | None => v end.
Definition read_rows (l : list nat) (s : state) : state :=
  with_table (sorting s) (globalFilter s) (filter_read s) (foldl (read_value s) (values s) l) (top s) s.
Definition drawn_rows (s : state) : list nat := if hidden s then [] else (virtual_rows (row_model s) (virtual s)).*1.
Definition settle (s : state) : state := let s := remount s in read_rows (drawn_rows s) s.

(** the sheet asks for the details of its service *)
Definition ask (service : string) (s : state) : list sheet_request :=
  asked s ++ [{| rq_system := systemId s; rq_service := service; rq_answer := None |}].
Definition open_row (i : nat) (s : state) : state :=
  match record s i with
  | Some r => with_sheet (openSheet i (the_page s)) None (ask (sv_name r) s) s
  | None => s
  end.
Definition answered (i : nat) (a : option more_details + option string) (s : state) : state :=
  let to_page := match a with inl d => Details (base <$> d) | inr m => Failure m end in
  with_sheet (sheet_answered i to_page (the_page s))
    (if bool_decide (pending (the_page s) = Some i) then match a with inl d => d | inr _ => None end else known s)
    (alter (λ q, {| rq_system := rq_system q; rq_service := rq_service q; rq_answer := Some a |}) i (asked s)) s.
(** the page shows another system: an open sheet asks again, with the name of its service; the list is
    emptied and asked for *)
Definition other_system (id : string) (s : state) : state :=
  let s := {| systemId := id; the_page := the_page s; known := known s; totals := totals s;
              lastSeen := effect_lastUpdated (open_system {| data := records (objects (the_page s)) (Systemd.rows (the_page s)); effect_lastUpdated := 0 |});
              values := values s; sorting := sorting s; globalFilter := globalFilter s; filter_read := filter_read s; loads := loads s; asked := asked s; top := top s; clock := clock s |} in
  let s := match activeService (the_page s) ≫= record s with
           | Some r => if sheetOpen (the_page s) then with_sheet (Systemd.render (sheet_effect (the_page s))) None (ask (sv_name r) s) s else s
           | None => s
           end in
  with_data (objects (the_page s)) [] (loads s ++ [id]) s.
Definition system_updated (s : state) : list string :=
  if fetches (clock s) {| data := []; effect_lastUpdated := lastSeen s |} then loads s ++ [systemId s] else loads s.

Definition handle (e : event) (s : state) : state :=
  match e with
  | SetFilter t => if String.eqb t (globalFilter s) then s else with_table (sorting s) t (objects (the_page s)) (values s) (top s) s
  | SortHead id =>
      with_table (toggleSorting id (bool_decide (getIsSorted id (sorting s) = Some false)) (sorting s)) (globalFilter s) (filter_read s) (values s) (top s) s
  | OpenRow i => open_row i s
  | CloseSheet => with_sheet (closeSheet (the_page s)) (known s) (asked s) s
  end.
Definition step (e : event) (s : state) : state := settle (handle e s).

(** ** What is drawn *)

Definition columns : list string := ["name"; "state"; "sub"; "cpu"; "cpuPeak"; "memory"; "memPeak"; "updated"].
Definition column_name (id : string) : string :=
  if String.eqb id "name" then "Name" else if String.eqb id "state" then "State" else if String.eqb id "sub" then "Sub State"
  else if String.eqb id "cpu" then "CPU (10m)" else if String.eqb id "cpuPeak" then "CPU Peak" else if String.eqb id "memory" then "Memory"
  else if String.eqb id "memPeak" then "Memory Peak" else "Updated".
(** [getValue] of the state column *)
Definition state_value (s : state) (i : nat) (r : SystemdRecord) : Z :=
  match find (λ x : nat * Z, Nat.eqb x.1 i) (values s) with Some x => x.2 | None => sv_state r end.
Definition cell (s : state) (i : nat) (r : SystemdRecord) (id : string) : screen event :=
  let row := sv_name r in
  if String.eqb id "name" then [Text row (sv_name r)]
  else if String.eqb id "state" then [Text row (getStatusColor (state_value s i r)); Text row (state_cell (state_value s i r))]
  else if String.eqb id "sub" then [Text row (getSubStateColor (sv_sub r)); Text row (sub_cell (sv_sub r))]
  else if String.eqb id "cpu" then [Text row (percent_cell (cpu_of r))]
  else if String.eqb id "cpuPeak" then [Text row (percent_cell (cpuPeak_of r))]
  else if String.eqb id "memory" then [Text row (memory_cell (sv_memory r))]
  else if String.eqb id "memPeak" then [Text row (memory_cell (sv_memPeak r))]
  else [Text row (hour_text (sv_updated r))].
Definition table_row (s : state) (i : nat) : screen event :=
  match record s i with
  | Some r => Button (sv_name r) "row" true (OpenRow i) :: rows (cell s i r) columns
  | None => []
  end.
Definition all_services (s : state) : screen event :=
  match table_body Services true (row_model s) (virtual s) with
  | Rows drawn => rows (λ i, table_row s i.1) drawn
  | Message => [Text "" "No results."]
  | Loading => []
  end.
Definition table (s : state) : screen event :=
  [Text "" "Systemd Services"; Text "" ("Total: " +:+ z_str (Z.of_nat (length (Systemd.rows (the_page s)))));
   Text "" ("Failed: " +:+ match totals s !! Z.to_nat (ServiceStatus_num Service_Failed) with Some n => z_str n | None => "" end);
   Text "" "Updated every 10 minutes."; Input "Filter..." (globalFilter s) SetFilter]
  ++ rows (λ id, [Button "head" (column_name id) true (SortHead id)]) columns
  ++ all_services s.
Definition sheet_table (t : string * list SystemdSheet.table_row) : screen event :=
  when (truthy t.1) [Text "" t.1] ++ rows (λ r, [Text (row_key r) (row_label r); Text (row_key r) (row_value r)]) t.2.
Definition sheet_page (s : state) (r : SystemdRecord) : screen event :=
  Dialog "Service Details" CloseSheet
  :: when (isLoading (the_page s)) [Text "" "Loading..."]
  ++ match error (the_page s) with Some m => when (truthy m) [Text "" "Error"; Text "error" m] | None => [] end
  ++ rows sheet_table (sheet_tables toLocaleString (known s) r).
Definition shown_service (s : state) : option SystemdRecord := i ← activeService (the_page s); record s i.
Definition draw (s : state) : screen event :=
  if hidden s then []
  else if sheetOpen (the_page s) then match shown_service s with Some r => sheet_page s r | None => table s end
  else table s.

(** ** What comes from outside *)

(** an answer lists services by distinct names; the request leaves the system of a service out *)
Definition good_list (items : list SystemdRecord) : Prop := NoDup (sv_name <$> items) ∧ Forall (λ r, sv_system r = None) items.
Definition list_answered (items : list SystemdRecord) (l : list string) (s : state) : state :=
  match items with
  | [] => with_loads l (clock s) s
  | _ => let '(objs, refs) := merge_refs items (objects (the_page s)) (Systemd.rows (the_page s)) in with_data objs refs l s
  end.
Inductive outside (s : state) : state → Prop :=
| listed before id after items : loads s = before ++ id :: after → good_list items → outside s (settle (list_answered items (before ++ after) s))
| load_fails before id after : loads s = before ++ id :: after → outside s (with_loads (before ++ after) (clock s) s)
| updated : outside s (with_loads (system_updated s) (clock s) s)
| navigated id : id ≠ systemId s → outside s (settle (other_system id s))
| details_answered i a q : asked s !! i = Some q → rq_answer q = None → outside s (settle (answered i a s))
| scrolled t : outside s (settle (with_table (sorting s) (globalFilter s) (filter_read s) (values s) t s))
(** to sort by a column, or to see whether it can be searched, the library reads rows that are not drawn *)
| library_reads l : outside s (read_rows l s)
| tick t : (clock s <= t)%Z → outside s (with_loads (loads s) t s).
Definition no_page : Systemd.page := {|
  objects := []; Systemd.rows := []; activeService := None; sheetOpen := false; shown_details := None; error := None;
  isLoading := false; pending := None; requests := 0 |}.
Definition first_state (id : string) (so : SortingState) (t : Z) : state := {|
  systemId := id; the_page := no_page; known := None; totals := statusTotals []; lastSeen := 0; values := []; sorting := so;
  globalFilter := ""; filter_read := []; loads := [id]; asked := []; top := 0; clock := t |}.
Definition start (s : state) : Prop := ∃ id so t, s = first_state id so t.
Definition reached : state → Prop := reachable draw step outside start.

(** ** Theorems: the data *)

Definition label_of (r : SystemdRecord) : string * option string := (sv_name r, sv_system r).
Definition labels (objects : list SystemdRecord) : list (string * option string) := label_of <$> objects.
Definition label_names (l : list (string * option string)) (refs : list nat) : list string := omap (λ i, fst <$> l !! i) refs.
(** the rows are records of their own, with names of their own *)
Definition data_ok (l : list (string * option string)) (refs : list nat) : Prop :=
  NoDup refs ∧ Forall (λ i, i < length l) refs ∧ NoDup (label_names l refs) ∧ Forall (λ x, x.2 = None) l.

Lemma names_app_old l k refs : Forall (λ i, i < length l) refs → label_names (l ++ k) refs = label_names l refs.
Proof.
  unfold label_names. induction 1 as [|i refs Hi _ IH]; [done|]. cbn. rewrite lookup_app_l by done. by rewrite IH.
Qed.
Lemma names_seq l k : label_names (l ++ k) (seq (length l) (length k)) = k.*1.
Proof.
  unfold label_names. revert l. induction k as [|x k IH]; intros l; [done|]. cbn [length seq].
  change (omap ?f (?i :: ?r)) with (match f i with Some y => y :: omap f r | None => omap f r end).
  cbv beta. rewrite lookup_app_r, Nat.sub_diag by done. cbn. f_equal.
  specialize (IH (l ++ [x])). rewrite <- app_assoc, length_app in IH. cbn in IH. rewrite Nat.add_1_r in IH. exact IH.
Qed.
Lemma names_filter (f : nat → bool) l refs : NoDup (label_names l refs) → NoDup (label_names l (List.filter f refs)).
Proof.
  assert (∀ x, x ∈ label_names l (List.filter f refs) → x ∈ label_names l refs) as Hin.
  { intros x (i & Hi & E)%list_elem_of_omap. apply list_elem_of_omap. exists i. split; [|done]. by apply elem_of_filter_bool in Hi as [Hi _]. }
  revert Hin. unfold label_names. induction refs as [|i refs IH]; intros Hin Hn; [done|]. cbn [List.filter].
  assert (∀ refs, omap (λ i, fst <$> l !! i) (i :: refs) = match fst <$> l !! i with Some y => y :: omap (λ i, fst <$> l !! i) refs | None => omap (λ i, fst <$> l !! i) refs end) as E by done.
  assert (∀ x, x ∈ omap (λ i, fst <$> l !! i) (List.filter f refs) → x ∈ omap (λ i, fst <$> l !! i) refs) as Hsub.
  { intros x (j & Hj & Ej)%list_elem_of_omap. apply list_elem_of_omap. exists j. split; [|done]. by apply elem_of_filter_bool in Hj as [Hj _]. }
  rewrite E in Hn. destruct (f i); [rewrite E|]; destruct (fst <$> l !! i) as [y|]; try (by apply IH).
  - apply NoDup_cons in Hn as [Hy Hn]. apply NoDup_cons. split; [|by apply IH]. intros Hx. by apply Hy, Hsub.
  - apply NoDup_cons in Hn as [_ Hn]. by apply IH.
Qed.
Lemma merge_ok items objects cur : data_ok (labels objects) cur → good_list items →
  let m := merge_refs items objects cur in data_ok (labels m.1) m.2.
Proof.
  intros (Hnd & Hlt & Hnm & Hsys) [Hi Hs]. destruct items as [|first rest]; [by split_and!|]. cbn zeta. unfold merge_refs.
  set (items := first :: rest) in *. set (new := List.filter _ items). set (keep := λ i : nat, match objects !! i with Some _ => _ | None => _ end).
  assert (NoDup (sv_name <$> new)) as Hn by by apply NoDup_fmap_filter.
  assert (∀ i, keep i = true → ∃ r, objects !! i = Some r ∧ sv_name r ∉ sv_name <$> new) as Hk.
  { intros i. unfold keep. destruct (objects !! i) as [r|]; [|done]. intros [Hr%negb_true_iff%bool_decide_eq_false _]%andb_true_iff. by exists r. }
  assert (Forall (λ i, i < length (labels objects)) (List.filter keep cur)) as Hold.
  { rewrite Forall_forall in *. intros i [Hi' _]%elem_of_filter_bool. by apply Hlt. }
  cbn [fst snd]. unfold labels in *. rewrite fmap_app. split_and!.
  - apply NoDup_app. split; [apply NoDup_seq|]. split; [|by apply NoDup_list_filter].
    intros i Hx%elem_of_seq Hy. rewrite Forall_forall in Hold. specialize (Hold i Hy). rewrite length_fmap in Hold. lia.
  - rewrite length_app, !length_fmap in *. apply Forall_app. split; apply Forall_forall.
    + intros i Hx%elem_of_seq. lia.
    + intros i Hx. rewrite Forall_forall in Hold. specialize (Hold i Hx). lia.
  - unfold label_names. rewrite omap_app. fold (label_names (label_of <$> objects ++ new)).
    change (NoDup (label_names ((label_of <$> objects) ++ (label_of <$> new)) (seq (length objects) (length new)) ++
                   label_names ((label_of <$> objects) ++ (label_of <$> new)) (List.filter keep cur))).
    rewrite (names_app_old _ _ (List.filter keep cur)) by done.
    replace (seq (length objects) (length new)) with (seq (length (label_of <$> objects)) (length (label_of <$> new))) by by rewrite !length_fmap.
    rewrite names_seq. replace ((label_of <$> new).*1) with (sv_name <$> new) by by rewrite <- list_fmap_compose.
    apply NoDup_app. split; [done|]. split; [|by apply names_filter].
    intros x Hx (i & Hf & E)%list_elem_of_omap. apply elem_of_filter_bool in Hf as [_ (r & Hr & Hne)%Hk].
    rewrite list_lookup_fmap, Hr in E. injection E as <-. done.
  - apply Forall_app. split; [done|]. apply Forall_fmap. rewrite Forall_forall in *. intros r [Hr _]%elem_of_filter_bool. by apply Hs.
Qed.

(** the rows of a merged list are those of [Systemd] *)
Lemma records_app_old objs more refs : Forall (λ i, i < length objs) refs → records (objs ++ more) refs = records objs refs.
Proof.
  unfold records. induction 1 as [|i refs Hi _ IH]; [done|]. cbn. rewrite lookup_app_l by done. by rewrite IH.
Qed.
Lemma records_seq objs more : records (objs ++ more) (seq (length objs) (length more)) = more.
Proof.
  unfold records. revert objs. induction more as [|x more IH]; intros objs; [done|]. cbn [length seq].
  change (omap ?f (?i :: ?r)) with (match f i with Some y => y :: omap f r | None => omap f r end).
  cbv beta. rewrite lookup_app_r, Nat.sub_diag by done. cbn. f_equal.
  specialize (IH (objs ++ [x])). rewrite <- app_assoc, length_app in IH. cbn in IH. rewrite Nat.add_1_r in IH. exact IH.
Qed.
Lemma records_app objs a b : records objs (a ++ b) = records objs a ++ records objs b.
Proof. apply omap_app. Qed.
Lemma records_filter (f : SystemdRecord → bool) objs refs : Forall (λ i, i < length objs) refs →
  records objs (List.filter (λ i, match objs !! i with Some r => f r | None => false end) refs) = List.filter f (records objs refs).
Proof.
  unfold records. induction 1 as [|i refs Hi _ IH]; [done|]. cbn. destruct (lookup_lt_is_Some_2 objs i Hi) as [r Hr]. rewrite Hr.
  cbn. destruct (f r); cbn; rewrite ?Hr; by rewrite IH.
Qed.
Lemma merge_refs_records items objs cur : Forall (λ i, i < length objs) cur →
  let m := merge_refs items objs cur in records m.1 m.2 = merge_services items (records objs cur).
Proof.
  intros Hc. destruct items as [|first rest]; [done|]. cbn zeta. unfold merge_refs. cbn [fst snd]. rewrite records_app.
  rewrite records_seq, records_app_old; [|rewrite Forall_forall in *; by intros i [Hi _]%elem_of_filter_bool; apply Hc].
  unfold merge_services. cbv zeta. f_equal. by apply (records_filter (λ item, negb (bool_decide (sv_name item ∈ _)) && (_ - sv_updated item <? 70000)%Z)).
Qed.

(** ** Theorems: the sheet *)

Lemma render_keeps p :
  labels (objects (Systemd.render p)) = labels (objects p) ∧ Systemd.rows (Systemd.render p) = Systemd.rows p
  ∧ isLoading (Systemd.render p) = isLoading p ∧ error (Systemd.render p) = error p.
Proof.
  unfold Systemd.render. destruct (activeService p) as [i|]; [|done]. destruct (state_of_details _) as [n|]; [|done].
  split_and!; try done. cbn. unfold labels. apply list_eq. intros j. rewrite !list_lookup_fmap.
  destruct (decide (j = i)) as [->|Hj]; [|by rewrite list_lookup_alter_ne].
  rewrite list_lookup_alter_eq. by destruct (objects p !! i).
Qed.
(** what an answer makes the sheet show *)
Definition answer_details (a : option more_details + option string) : option more_details := match a with inl d => d | inr _ => None end.
Definition answer_error (a : option more_details + option string) : option string :=
  match a with
  | inl (Some _) => None | inl None => Some "No results found."%string
  | inr m => Some (default "Failed to load service details"%string m)
  end.
Definition sheet_about (s : state) (q : sheet_request) : Prop :=
  match rq_answer q with
  | None => isLoading (the_page s) = true ∧ S (default 0 (pending (the_page s))) = length (asked s) ∧ is_Some (pending (the_page s))
            ∧ known s = None ∧ error (the_page s) = None
  | Some a => isLoading (the_page s) = false ∧ pending (the_page s) = None
              ∧ known s = answer_details a ∧ error (the_page s) = answer_error a
  end.
Definition name_at (s : state) (i : nat) : option string := fst <$> labels (objects (the_page s)) !! i.
(** an open sheet is of one service, and shows what the last request for it has come to *)
Definition sheet_ok (s : state) : Prop :=
  length (asked s) = requests (the_page s) ∧ shown_details (the_page s) = base <$> known s
  ∧ if sheetOpen (the_page s)
    then ∃ i q, activeService (the_page s) = Some i ∧ name_at s i = Some (rq_service q) ∧ last (asked s) = Some q
           ∧ rq_system q = systemId s ∧ sheet_about s q
    else pending (the_page s) = None.
Definition rows_ok (s : state) : Prop := data_ok (labels (objects (the_page s))) (Systemd.rows (the_page s)).
Definition inv (s : state) : Prop := rows_ok s ∧ sheet_ok s.

(** what does not touch the sheet and the data *)
Definition same_page (s s' : state) : Prop :=
  systemId s' = systemId s ∧ the_page s' = the_page s ∧ known s' = known s ∧ asked s' = asked s.
Lemma inv_same s s' : same_page s s' → inv s → inv s'.
Proof. intros (E1 & E2 & E3 & E4). unfold inv, rows_ok, sheet_ok, name_at, sheet_about. by rewrite E1, E2, E3, E4. Qed.
Lemma same_read l s : same_page s (read_rows l s).
Proof. by split_and!. Qed.
Lemma inv_settle s : inv s → inv (settle s).
Proof.
  intros Hi. apply (inv_same (remount s)); [apply same_read|]. unfold remount. destruct (hidden s) eqn:E; [|done].
  destruct Hi as (Hd & Hl & _). split; [done|]. by split_and!.
Qed.
Lemma name_at_record s i r : record s i = Some r → name_at s i = Some (sv_name r).
Proof. unfold name_at, labels, record. intros E. by rewrite list_lookup_fmap, E. Qed.
Lemma sheet_effect_keeps p : labels (objects (sheet_effect p)) = labels (objects p) ∧ Systemd.rows (sheet_effect p) = Systemd.rows p
  ∧ activeService (sheet_effect p) = activeService p ∧ sheetOpen (sheet_effect p) = sheetOpen p.
Proof. unfold sheet_effect. destruct (sheetOpen p) eqn:E; by split_and!. Qed.
(** the effect of an open sheet, with the drawing after it *)
Lemma effect_asks p : sheetOpen p = true →
  let p' := Systemd.render (sheet_effect p) in
  labels (objects p') = labels (objects p) ∧ Systemd.rows p' = Systemd.rows p ∧ activeService p' = activeService p ∧ sheetOpen p' = true
  ∧ shown_details p' = None ∧ pending p' = Some (requests p) ∧ requests p' = S (requests p) ∧ isLoading p' = true ∧ error p' = None.
Proof.
  intros Ho p'. unfold p'. destruct (render_keeps (sheet_effect p)) as (-> & -> & -> & ->).
  destruct (render_rest (sheet_effect p)) as (-> & -> & -> & -> & -> & _). unfold sheet_effect. by rewrite Ho.
Qed.
Lemma open_asks i p :
  let p' := openSheet i p in
  labels (objects p') = labels (objects p) ∧ Systemd.rows p' = Systemd.rows p ∧ activeService p' = Some i ∧ sheetOpen p' = true
  ∧ shown_details p' = None ∧ pending p' = Some (requests p) ∧ requests p' = S (requests p) ∧ isLoading p' = true ∧ error p' = None.
Proof.
  cbn zeta. unfold openSheet. set (p1 := Systemd.render (set_sheet (Some i) true p)).
  destruct (render_keeps (set_sheet (Some i) true p)) as (E1 & E2 & _). destruct (render_rest (set_sheet (Some i) true p)) as (E3 & _ & _ & E4 & E5 & _).
  fold p1 in E1, E2, E3, E4, E5. cbn [set_sheet objects Systemd.rows activeService sheetOpen requests] in *.
  rewrite <- E1, <- E2, <- E3, <- E5. by apply effect_asks.
Qed.
(** a sheet that has just asked *)
Lemma asked_ok s p i name (l := ask name s) :
  length (asked s) = requests (the_page s) → (fst <$> labels (objects p) !! i) = Some name →
  activeService p = Some i → sheetOpen p = true → shown_details p = None → pending p = Some (requests (the_page s)) →
  requests p = S (requests (the_page s)) → isLoading p = true → error p = None →
  sheet_ok (with_sheet p None l s).
Proof.
  intros Hl Hn Ha Ho Hd Hp Hr Hi He. unfold sheet_ok, with_sheet, l, ask. cbn [asked the_page known systemId]. rewrite Ho, Hd, Hr.
  split; [rewrite length_app; cbn; lia|]. split; [done|]. exists i, {| rq_system := systemId s; rq_service := name; rq_answer := None |}. split; [done|]. split; [exact Hn|].
  split; [apply last_snoc|]. split; [done|]. unfold sheet_about. cbn. rewrite Hp, Hi, He, length_app. cbn. split; [done|]. split; [lia|]. by split_and!.
Qed.
Lemma inv_open s i : inv s → inv (open_row i s).
Proof.
  intros Hi. unfold open_row. destruct (record s i) as [r|] eqn:Er; [|done]. destruct Hi as (Hd & Hl & _ & _).
  destruct (open_asks i (the_page s)) as (E1 & E2 & E3 & E4 & E5 & E6 & E7 & E8 & E9). split.
  - unfold rows_ok, with_sheet. cbn [the_page]. by rewrite E1, E2.
  - apply (asked_ok s _ i); try done. rewrite E1. by apply name_at_record in Er.
Qed.
Lemma inv_close s : inv s → inv (with_sheet (closeSheet (the_page s)) (known s) (asked s) s).
Proof.
  intros (Hd & Hl & Hk & _). unfold closeSheet. set (p := set_sheet (activeService (the_page s)) false (the_page s)).
  destruct (render_keeps p) as (E1 & E2 & _). destruct (render_rest p) as (_ & E3 & E4 & E5 & E6 & _). split.
  - unfold rows_ok, with_sheet. cbn [the_page]. by rewrite E1, E2.
  - unfold sheet_ok, with_sheet. cbn [the_page asked known]. rewrite E3, E4, E5, E6. by split_and!.
Qed.
Lemma last_alter {A} (f : A → A) i (l : list A) :
  last (alter f i l) = if Nat.eqb (S i) (length l) then f <$> last l else last l.
Proof.
  rewrite !last_lookup, length_alter. destruct (Nat.eqb_spec (S i) (length l)) as [E|E].
  - rewrite <- E. apply list_lookup_alter_eq.
  - destruct l as [|y l]; [done|]. apply list_lookup_alter_ne. cbn in *. lia.
Qed.
Lemma inv_answered s i a q : inv s → asked s !! i = Some q → rq_answer q = None → inv (answered i a s).
Proof.
  intros (Hd & Hl & Hk & Ho) Hq Hn. unfold answered.
  set (to_page := match a with inl d => Details (base <$> d) | inr m => Failure m end).
  set (told := λ q, {| rq_system := rq_system q; rq_service := rq_service q; rq_answer := Some a |}).
  unfold sheet_answered. case_bool_decide as Hp.
  - match goal with |- context [Systemd.render ?x] => set (p := x) end.
    destruct (render_keeps p) as (E1 & E2 & E7 & E8). destruct (render_rest p) as (E0 & E3 & E4 & E5 & E6 & _). split.
    { unfold rows_ok, with_sheet. cbn [the_page]. by rewrite E1, E2. }
    unfold sheet_ok, with_sheet, name_at, sheet_about. cbn [the_page asked known systemId]. rewrite E0, E1, E3, E4, E5, E6, E7, E8.
    cbn [p objects activeService sheetOpen shown_details error isLoading pending requests].
    rewrite length_alter. split; [done|]. split; [by destruct a|]. destruct (sheetOpen (the_page s)); [|done].
    destruct Ho as (j & q' & Ha & Hname & Hlast & Hsys & Hab). exists j. rewrite last_alter.
    assert (S i = length (asked s)) as Hi.
    { unfold sheet_about in Hab. destruct (rq_answer q') as [b|]; destruct_and! Hab; [congruence|]. by rewrite Hp in *. }
    rewrite (proj2 (Nat.eqb_eq _ _) Hi), Hlast. exists (told q'). split_and!; try done; cbn; try by destruct a.
    unfold sheet_about in Hab. destruct (rq_answer q') as [b|]; destruct_and! Hab; [congruence|].
    split_and!; try done. unfold to_page. by destruct a as [[d|]|m].
  - split; [done|]. unfold sheet_ok, with_sheet. cbn [the_page asked known systemId]. rewrite length_alter. split; [done|]. split; [done|].
    destruct (sheetOpen (the_page s)); [|done]. destruct Ho as (j & q' & Ha & Hname & Hlast & Hsys & Hab).
    exists j, q'. split; [done|]. split; [done|]. rewrite last_alter. destruct (Nat.eqb_spec (S i) (length (asked s))) as [Hi|Hi].
    + assert (q' = q) as ->. { rewrite last_lookup, <- Hi in Hlast. cbn in Hlast. congruence. }
      unfold sheet_about in Hab. rewrite Hn in Hab. destruct Hab as (_ & Hpe & [k Hk'] & _). rewrite Hk' in Hpe. cbn in Hpe.
      rewrite Hk' in Hp. destruct Hp. f_equal. lia.
    + split; [done|]. split; [done|]. unfold sheet_about in *. cbn. rewrite length_alter. done.
Qed.
Lemma inv_emptied s l : inv s → inv (with_data (objects (the_page s)) [] l s).
Proof. intros [(_ & _ & _ & Hs) Hx]. split; [|exact Hx]. split_and!; [constructor|constructor|constructor|exact Hs]. Qed.
Lemma inv_other s id : inv s → inv (other_system id s).
Proof.
  intros (Hd & Hl & Hk & Ho). unfold other_system. cbv zeta.
  set (s1 := {| systemId := id; the_page := the_page s; known := known s; totals := _; lastSeen := _; values := _; sorting := _;
                globalFilter := _; filter_read := _; loads := _; asked := asked s; top := _; clock := _ |}).
  apply inv_emptied. destruct (activeService (the_page s1) ≫= record s1) as [r|] eqn:Er; [destruct (sheetOpen (the_page s1)) eqn:Es|].
  - destruct (effect_asks (the_page s) Es) as (E1 & E2 & E3 & E4 & E5 & E6 & E7 & E8 & E9). split.
    + unfold rows_ok, with_sheet. cbn [the_page]. cbn [the_page s1]. by rewrite E1, E2.
    + destruct (activeService (the_page s1)) as [i|] eqn:Ea; [|done]. cbn in Er.
      apply (asked_ok s1 _ i); try done; [|by etransitivity; [exact E3|]]. cbn [the_page s1]. rewrite E1. by apply (name_at_record s1).
  - split; [done|]. split; [done|]. split; [done|]. rewrite Es. change (sheetOpen (the_page s) = false) in Es. by rewrite Es in Ho.
  - split; [done|]. split; [done|]. split; [done|]. change (the_page s1) with (the_page s). destruct (sheetOpen (the_page s)); [|done].
    destruct Ho as (i & q & Ha & Hn & _). change (the_page s1) with (the_page s) in Er. rewrite Ha in Er. cbn in Er.
    unfold name_at, labels in Hn. rewrite list_lookup_fmap in Hn. unfold record in Er. change (the_page s1) with (the_page s) in Er.
    by rewrite Er in Hn.
Qed.
Lemma labels_objects_prefix s i items cur : i < length (objects (the_page s)) →
  labels (merge_refs items (objects (the_page s)) cur).1 !! i = labels (objects (the_page s)) !! i.
Proof.
  intros Hi. destruct items as [|first rest]; [done|]. cbn [merge_refs fst]. unfold labels. rewrite fmap_app.
  apply lookup_app_l. by rewrite length_fmap.
Qed.
Lemma inv_listed s items l : inv s → good_list items → inv (list_answered items l s).
Proof.
  intros (Hd & Hl & Hk & Ho) Hi. unfold list_answered. destruct items as [|first rest]; [by apply (inv_same s)|].
  set (items := first :: rest) in *. pose proof (merge_ok items (objects (the_page s)) (Systemd.rows (the_page s)) Hd Hi) as Hm.
  pose proof (λ i, labels_objects_prefix s i items (Systemd.rows (the_page s))) as Hp.
  destruct (merge_refs items _ _) as [objs refs]. cbn [fst snd] in *. split; [exact Hm|]. split; [done|]. split; [done|].
  cbn [with_data the_page with_refs sheetOpen]. destruct (sheetOpen (the_page s)); [|done].
  destruct Ho as (i & q & Ha & Hn & Hrest). exists i, q. split; [done|]. split; [|done].
  unfold name_at in *. cbn [with_data the_page with_refs objects]. rewrite Hp; [done|].
  destruct (labels (objects (the_page s)) !! i) as [x|] eqn:E; [|done]. apply lookup_lt_Some in E. unfold labels in E. by rewrite length_fmap in E.
Qed.

(** *** What is offered *)

Definition promised (s : state) (e : event) : Prop :=
  match e with
  | SetFilter _ => sheetOpen (the_page s) = false
  | SortHead id => sheetOpen (the_page s) = false ∧ id ∈ columns
  | OpenRow i => sheetOpen (the_page s) = false ∧ i ∈ row_model s
      ∧ ∃ r, record s i = Some r ∧ sheetOpen (the_page (step e s)) = true
        ∧ asked (step e s) = asked s ++ [{| rq_system := systemId s; rq_service := sv_name r; rq_answer := None |}]
  | CloseSheet => sheetOpen (the_page s) = true
  end.
Lemma in_model s i : i ∈ row_model s → i ∈ Systemd.rows (the_page s) ∧ (truthy (globalFilter s) = true → matches s i = true).
Proof.
  unfold row_model, filtered. rewrite sorted_perm. destruct (truthy (globalFilter s)); [|by split].
  by intros [Hr Hm]%elem_of_filter_bool.
Qed.
Lemma opened_row s i r : i ∈ Systemd.rows (the_page s) → record s i = Some r →
  sheetOpen (the_page (step (OpenRow i) s)) = true
  ∧ asked (step (OpenRow i) s) = asked s ++ [{| rq_system := systemId s; rq_service := sv_name r; rq_answer := None |}].
Proof.
  intros Hi Hr. unfold step, handle, open_row. rewrite Hr. set (s1 := with_sheet _ _ _ s).
  destruct (open_asks i (the_page s)) as (_ & E2 & _ & E4 & _).
  assert (hidden s1 = false) as Hh.
  { unfold hidden, s1, with_sheet. cbn [the_page globalFilter]. rewrite E2. destruct (Systemd.rows (the_page s)); [by apply elem_of_nil in Hi|done]. }
  unfold settle, remount. rewrite Hh. split; [exact E4|done].
Qed.
Lemma sd_cell_offers s i r id e : ¬ offered (cell s i r id) e.
Proof. unfold cell. repeat case_match; intros Ho; by offered_cases Ho by idtac. Qed.
Lemma sheet_table_offers t e : ¬ offered (sheet_table t : screen event) e.
Proof. intros Ho. by offered_cases Ho by (unfold sheet_table in Ho). Qed.
Lemma sd_offered_promised s e : inv s → offered (draw s) e → promised s e.
Proof.
  intros (_ & _ & _ & Hs) Ho. unfold draw in Ho. destruct (hidden s); [by offered_cases Ho by idtac|].
  destruct (sheetOpen (the_page s)) eqn:Hop.
  - destruct Hs as (i & q & Ha & Hn & _). unfold shown_service in Ho. rewrite Ha in Ho. cbn in Ho.
    unfold name_at, labels in Hn. rewrite list_lookup_fmap in Hn. unfold record in Ho. destruct (objects (the_page s) !! i) as [r|]; [|done].
    unfold sheet_page in Ho. apply (offered_app [_]) in Ho as [Ho|Ho]; [by offered_cases Ho by idtac|].
    rewrite !offered_app, offered_rows in Ho. destruct Ho as [Ho|[Ho|(t & _ & Ho)]]; [by offered_cases Ho by idtac| |by apply sheet_table_offers in Ho].
    destruct (error _); by offered_cases Ho by idtac.
  - unfold table in Ho. rewrite !offered_app in Ho. destruct Ho as [Ho|[Ho|Ho]]; [by offered_cases Ho by idtac..|].
    unfold all_services in Ho. destruct (table_body _ _ _ _) as [| |drawn] eqn:Hb; [by offered_cases Ho by idtac..|].
    apply offered_rows in Ho as ([i h] & Hi & Ho). unfold table_row in Ho. cbn [fst] in Ho.
    destruct (record s i) as [r|] eqn:Hr; [|by offered_cases Ho by idtac]. apply (offered_app [_]) in Ho as [Ho|Ho].
    + assert (i ∈ row_model s) as Hrow.
      { unfold table_body in Hb. destruct (row_model s) as [|x l]; [done|]. injection Hb as <-.
        unfold virtual_rows in Hi. apply list_elem_of_omap in Hi as (y & _ & Hi). apply fmap_Some in Hi as (z & Hz & [= -> ->]).
        by apply list_elem_of_lookup_2 in Hz. }
      offered_cases Ho by idtac. split; [done|]. split; [done|]. exists r. split; [done|].
      apply opened_row; [by apply in_model|done].
    + apply offered_rows in Ho as (id & _ & Ho). by apply sd_cell_offers in Ho.
Qed.

Lemma sd_reached_inv s : reached s → inv s.
Proof.
  revert s. apply page_invariant.
  - intros s (id & so & t & ->). split; [split_and!; constructor|by split_and!].
  - intros s e Hi Ho%sd_offered_promised; [|done]. apply inv_settle. destruct e; cbn [handle].
    + destruct (String.eqb _ _); by apply (inv_same s).
    + by apply (inv_same s).
    + by apply inv_open.
    + by apply inv_close.
  - intros s s' Hi Ho. destruct Ho; try (by apply (inv_same s)).
    + apply inv_settle. by apply inv_listed.
    + apply inv_settle. by apply inv_other.
    + apply inv_settle. by eapply inv_answered.
    + apply inv_settle. by apply (inv_same s).
Qed.
Lemma names_records s : label_names (labels (objects (the_page s))) (Systemd.rows (the_page s)) = sv_name <$> records (objects (the_page s)) (Systemd.rows (the_page s)).
Proof.
  unfold label_names, records, labels. induction (Systemd.rows (the_page s)) as [|i l IH]; [done|]. cbn. rewrite list_lookup_fmap.
  destruct (objects (the_page s) !! i); cbn; by rewrite IH.
Qed.

(** *** What the filter has read *)

(** the record is the one that was read but for its state, which a sheet may have written *)
Definition same_but_state (a b : SystemdRecord) : Prop := b = with_state (sv_state b) a.
Definition read_ok (s : state) : Prop := Forall2 same_but_state (filter_read s) (objects (the_page s)).
Lemma same_refl l : Forall2 same_but_state l l.
Proof. apply Reflexive_instance_0. by intros []. Qed.
Lemma same_alter n i l l' : Forall2 same_but_state l l' → Forall2 same_but_state l (alter (with_state n) i l').
Proof. intros Hl. apply Forall2_alter_r; [done|]. intros a b _ _ E. unfold same_but_state in *. by rewrite E. Qed.
Lemma same_render p l : Forall2 same_but_state l (objects p) → Forall2 same_but_state l (objects (Systemd.render p)).
Proof. intros Hl. unfold Systemd.render. destruct (activeService p); [|done]. destruct (state_of_details _); [|done]. by apply same_alter. Qed.
Lemma same_effect p : objects (sheet_effect p) = objects p.
Proof. unfold sheet_effect. by destruct (sheetOpen p). Qed.
Lemma same_open i p l : Forall2 same_but_state l (objects p) → Forall2 same_but_state l (objects (openSheet i p)).
Proof. intros Hl. unfold openSheet. apply same_render. rewrite same_effect. by apply same_render. Qed.
Lemma same_close p l : Forall2 same_but_state l (objects p) → Forall2 same_but_state l (objects (closeSheet p)).
Proof. intros Hl. unfold closeSheet. by apply same_render. Qed.
Lemma same_answered i a p l : Forall2 same_but_state l (objects p) → Forall2 same_but_state l (objects (sheet_answered i a p)).
Proof. intros Hl. unfold sheet_answered. case_bool_decide; [by apply same_render|done]. Qed.
Lemma read_settle s : read_ok s → read_ok (settle s).
Proof. intros Hs. assert (read_ok (remount s)) as Hr; [|exact Hr]. unfold remount. by destruct (hidden s). Qed.
Lemma sd_reached_read s : reached s → read_ok s.
Proof.
  revert s. apply page_invariant.
  - intros s (id & so & t & ->). constructor.
  - intros s e Hs _. apply read_settle. destruct e; cbn [handle].
    + destruct (String.eqb _ _); [done|]. apply same_refl.
    + done.
    + unfold open_row. destruct (record s ref); [|done]. by apply same_open.
    + by apply same_close.
  - intros s s' Hs [before id after items _ _|before id after _| |id _|i a q _ _|t|l|t _]; try done.
    + apply read_settle. unfold list_answered. destruct items; [done|]. destruct (merge_refs _ _ _). apply same_refl.
    + apply read_settle, same_refl.
    + apply read_settle. by apply same_answered.
    + by apply read_settle.
Qed.

(** C37: whatever is clicked and whatever comes from the server meanwhile: the rows are the services that matched the
    filter when its text or the list last changed, each name once, with nothing changed since but the state that a sheet has
    written; a row opens the sheet of its service and asks for its details; and an open sheet is that of
    one service, for which the last request was made with the system of the page: while that is not answered the
    sheet waits and shows neither details nor an error, and afterwards exactly what the answer said, with no
    spinner left turning, in whatever order the answers of other requests came. *)
Theorem services_page s : reached s →
  row_model s ≡ₚ filtered s
  ∧ NoDup (sv_name <$> records (objects (the_page s)) (Systemd.rows (the_page s)))
  ∧ (∀ i, i ∈ row_model s → ∃ r read, record s i = Some r ∧ filter_read s !! i = Some read ∧ same_but_state read r
       ∧ (truthy (globalFilter s) = true → service_filter None read (globalFilter s) = true))
  ∧ (∀ i read, i ∈ Systemd.rows (the_page s) → filter_read s !! i = Some read →
       (truthy (globalFilter s) = true → service_filter None read (globalFilter s) = true) → i ∈ row_model s)
  ∧ (∀ e, offered (draw s) e → promised s e)
  ∧ (sheetOpen (the_page s) = true → ∃ r q, shown_service s = Some r ∧ last (asked s) = Some q
       ∧ rq_system q = systemId s ∧ rq_service q = sv_name r ∧ sheet_about s q).
Proof.
  intros Hr. pose proof (sd_reached_inv s Hr) as Hi. pose proof Hi as ((_ & Hlt & Hnm & _) & _ & _ & Ho).
  split_and!; [apply sorted_perm|by rewrite <- names_records| | |intros e; by apply sd_offered_promised|].
  - intros i [Hin Hm]%in_model. rewrite Forall_forall in Hlt. specialize (Hlt i Hin). unfold labels in Hlt. rewrite length_fmap in Hlt.
    destruct (lookup_lt_is_Some_2 _ _ Hlt) as [r Hrec]. destruct (Forall2_lookup_r _ _ _ _ _ (sd_reached_read s Hr) Hrec) as (read & Hread & Hsame).
    exists r, read. split_and!; [done|done|done|]. intros Ht%Hm. unfold matches in Ht. by rewrite Hread in Ht.
  - intros i read Hin Hread Hm. unfold row_model. rewrite sorted_perm. unfold filtered. destruct (truthy (globalFilter s)); [|done].
    apply elem_of_filter_bool. split; [done|]. unfold matches. rewrite Hread. by apply Hm.
  - intros Hop. rewrite Hop in Ho. destruct Ho as (i & q & Ha & Hn & Hl & Hs & Hab). unfold shown_service, record. rewrite Ha. cbn.
    unfold name_at, labels in Hn. rewrite list_lookup_fmap in Hn. destruct (objects (the_page s) !! i) as [r|]; [|done].
    exists r, q. injection Hn as Hn. by split_and!.
Qed.
End Page.

(** ** Visits *)

#[local] Existing Instance SystemdSheet.plain.
#[local] Instance unsorted_refs : TableLib nat := {|
  getSortedRowModel := λ _ rows, rows; getIsSorted := λ id sorting, snd <$> find (λ x, String.eqb x.1 id) sorting;
  toggleSorting := λ id desc _, [(id, desc)] |}.
#[local] Instance unsorted_refs_laws : TableLibLaws unsorted_refs.
Proof. split; [done|]. by intros id desc l x ->%list_elem_of_singleton; left. Qed.
Definition everything (_ : Z) (n : nat) : virtualizer := {|
  getVirtualItems := item_at 0 54 <$> seq 0 n; getTotalSize := Z.of_nat n * 54; scrollMargin := 0 |}.
Definition sd_hour (_ : Z) : string := "10:00:00".
Local Abbreviation sd_draw := (draw z_str sd_hour everything).
Local Abbreviation sd_step := (step everything).
Local Abbreviation sd_reached := (reached z_str sd_hour everything).
Definition sd_visit (acts : list act) (s : state) : state := default s (play sd_draw sd_step acts s).
Definition more (active : string) : more_details := {|
  base := ex_details active; Description := None; LoadState := None; UnitFileState := None; UnitFilePreset := None;
  FragmentPath := None; Result := None; Documentation := None; Wants := None; Requires := None; RequiredBy := None;
  Conflicts := None; Before := None; After := None; Triggers := None; TriggeredBy := None; ActiveEnterTimestamp := None;
  ActiveExitTimestamp := None; InactiveEnterTimestamp := None; CanStart := true; CanStop := true; CanReload := false |}.
Definition web_first : state := first_state "web" [("name", false)]%string 0.
Definition two_services : list SystemdRecord := [ex_service "nginx" 0 1000000; ex_service "backup" 2 1000000].
Definition web_listed : state := settle everything (list_answered two_services [] web_first).
(** nginx, which is active, is opened and closed, then backup, which has failed *)
Definition nginx_shown : state := settle everything (answered 0 (inl (Some (more "active"))) (sd_visit [Click "nginx" "row"]%string web_listed)).
Definition backup_opened : state := sd_visit [Leave; Click "backup" "row"]%string nginx_shown.
Definition has (s : state) (row text : string) : bool :=
  existsb (λ w : widget event, match w with Text r t => String.eqb r row && String.eqb t text | _ => false end) (sd_draw s).
(** until its details have come, and for good when they do not, the sheet of the failed service says that it is
    active, and a search for the active services finds it; the table and the total still say that it has failed *)
Example failed_is_active :
  has backup_opened "active" "Active (Running)" = true
  ∧ let s := sd_visit [Leave; Type_ "Filter..." "active"]%string (settle everything (answered 1 (inr None) backup_opened)) in
    has s "backup" "Failed" = true ∧ has s "" "Failed: 1" = true.
Proof. vm_compute. by split_and!. Qed.
(** the search for failed services still finds that service, which says so until its own details come, and is active by what
    the sheet has written *)
Example row_stays :
  let s := sd_visit [Leave; Type_ "Filter..." "failed"; Click "backup" "row"; Leave]%string nginx_shown in
  row_model s = [1] ∧ (sv_state <$> record s 1) = Some 0%Z ∧ has s "backup" "Failed" = true
  ∧ option_map (λ r, service_filter None r "failed") (record s 1) = Some false.
Proof. vm_compute. by split_and!. Qed.
(** a list that comes after the page went on to another system is shown as that system's *)
Example services_of_another :
  let s := settle everything (other_system "db" web_first) in
  loads s = ["web"; "db"]%string
  ∧ Systemd.rows (the_page (settle everything (list_answered two_services ["db"%string] s))) = [0; 1]
  ∧ systemId (settle everything (list_answered two_services ["db"%string] s)) = "db"%string.
Proof. vm_compute. by split_and!. Qed.

Lemma services_page_witness : ∃ r q, shown_service backup_opened = Some r ∧ last (asked backup_opened) = Some q
  ∧ rq_system q = systemId backup_opened ∧ rq_service q = sv_name r ∧ sheet_about backup_opened q.
Proof.
  apply (services_page (TL := unsorted_refs_laws) z_str sd_hour everything backup_opened); [|vm_compute; reflexivity].
  apply (play_reachable _ _ _ _ [Leave; Click "backup" "row"]%string nginx_shown); [|vm_compute; reflexivity].
  apply (from_outside _ _ _ _ (sd_visit [Click "nginx" "row"]%string web_listed)).
  - apply (play_reachable _ _ _ _ [Click "nginx" "row"]%string web_listed); [|vm_compute; reflexivity].
    apply (from_outside _ _ _ _ web_first); [apply at_start; by exists "web"%string, [("name", false)]%string, 0%Z|].
    apply (listed _ web_first [] "web"%string [] two_services); [done|]. split; [|by repeat constructor].
    apply (bool_decide_unpack _). vm_compute. exact I.
  - eapply (details_answered _ (sd_visit [Click "nginx" "row"]%string web_listed) 0 _); reflexivity.
Defined.
