(* ===== verification/SystemUi.v ===== *)
(** * The page of a system as the user meets it: [components/routes/system.tsx]

    The bar with the choice of the period, the cards of the charts and what the page does to fill them:
    it follows the record of its system, asks for the details, asks for records whenever the record or the
    period changes, subscribes while the period is the minute, and forgets all that when it goes on to
    another system.  Records, gaps, cache and requests are those of [Charts], the choice of charts is
    [ChartView]'s, the items of the bar are [InfoBar]'s.  The tables at the end, the sheets and the filter
    fields are pages and components of their own.  Key presses are drawn as buttons. *)
From Stdlib Require Import QArith ZArith Lia.
From S2P Require Import Prelude JsValue JsDate Types Utils Api Charts ChartView InfoBar Controls Dom.
Open Scope nat_scope.

Section Page.
Context `{Intl} `{DateParse} `{D3Time} (num_str : Q → string).

(** ** State *)

(** a subscription to measurements; its promise has been kept or not *)
Record subscription := { sb_system : string; sb_ready : bool }.
(** the details, with the system they were asked for *)
Record known_details := { kd_system : string; kd_info : InfoBar.details; kd_podman : option bool }.
Record state := {
  route : string; systems : list SystemRecord;        (* the [id] of the address, the store *)
  the_page : Charts.page; flights : list fetch;       (* records asked for, in order *)
  overtaken : bool;                                   (* whether an answer ever came before an earlier request's *)
  details_asked : list string; known : option known_details;
  live : option subscription; leaked : list string;   (* subscriptions, and those nothing can end any more *)
  version : option string;                            (* of the agent, as the chart data were made with it *)
  maxValues : bool; grid : bool; settings_period : ChartTimes; persistChartTime : bool; clock : Z }.
Inductive event := SetPeriod (value : string) | SetMax (value : string) | ToggleGrid | KeyUp (k : string).

Definition with_page (p : Charts.page) (s : state) : state := {|
  route := route s; systems := systems s; the_page := p; flights := flights s; overtaken := overtaken s;
  details_asked := details_asked s; known := known s; live := live s; leaked := leaked s; version := version s; maxValues := maxValues s;
  grid := grid s; settings_period := settings_period s; persistChartTime := persistChartTime s; clock := clock s |}.
Definition with_flights (l : list fetch) (o : bool) (s : state) : state := {|
  route := route s; systems := systems s; the_page := the_page s; flights := l; overtaken := o;
  details_asked := details_asked s; known := known s; live := live s; leaked := leaked s; version := version s; maxValues := maxValues s;
  grid := grid s; settings_period := settings_period s; persistChartTime := persistChartTime s; clock := clock s |}.
Definition with_details (asked : list string) (k : option known_details) (s : state) : state := {|
  route := route s; systems := systems s; the_page := the_page s; flights := flights s; overtaken := overtaken s;
  details_asked := asked; known := k; live := live s; leaked := leaked s; version := version s; maxValues := maxValues s;
  grid := grid s; settings_period := settings_period s; persistChartTime := persistChartTime s; clock := clock s |}.
Definition with_subs (l : option subscription) (lost : list string) (s : state) : state := {|
  route := route s; systems := systems s; the_page := the_page s; flights := flights s; overtaken := overtaken s;
  details_asked := details_asked s; known := known s; live := l; leaked := lost; version := version s; maxValues := maxValues s;
  grid := grid s; settings_period := settings_period s; persistChartTime := persistChartTime s; clock := clock s |}.
Definition with_view (m g : bool) (c : ChartTimes) (t : Z) (s : state) : state := {|
  route := route s; systems := systems s; the_page := the_page s; flights := flights s; overtaken := overtaken s;
  details_asked := details_asked s; known := known s; live := live s; leaked := leaked s; version := version s; maxValues := m;
  grid := g; settings_period := c; persistChartTime := persistChartTime s; clock := t |}.
Definition with_route (id : string) (l : list SystemRecord) (persist : bool) (s : state) : state := {|
  route := id; systems := l; the_page := the_page s; flights := flights s; overtaken := overtaken s;
  details_asked := details_asked s; known := known s; live := live s; leaked := leaked s; version := version s; maxValues := maxValues s;
  grid := grid s; settings_period := settings_period s; persistChartTime := persist; clock := clock s |}.
Definition with_version (v : option string) (s : state) : state := {|
  route := route s; systems := systems s; the_page := the_page s; flights := flights s; overtaken := overtaken s;
  details_asked := details_asked s; known := known s; live := live s; leaked := leaked s; version := v; maxValues := maxValues s;
  grid := grid s; settings_period := settings_period s; persistChartTime := persistChartTime s; clock := clock s |}.

(** ** Effects *)

Definition set_chartTime (c : ChartTimes) (p : Charts.page) : Charts.page := {|
  cache_system := cache_system p; cache_container := cache_container p; system := system p; chartTime := c;
  systemStats := systemStats p; containerData := containerData p; chartLoading := chartLoading p |}.
Definition setSystem (r : SystemRecord) (p : Charts.page) : Charts.page := {|
  cache_system := cache_system p; cache_container := cache_container p; system := Some r; chartTime := chartTime p;
  systemStats := systemStats p; containerData := containerData p; chartLoading := chartLoading p |}.
Definition page_id (p : Charts.page) : string := match system p with Some r => sys_id r | None => "" end.

(** the details, which old agents do not have *)
Definition ask_details (s : state) : state :=
  match system (the_page s) with
  | Some r => if truthy (sys_id r) && negb (truthy (si_m (sys_info r))) then with_details (details_asked s ++ [sys_id r]) (known s) s else s
  | None => s
  end.
(** the cleanup of the subscription: one whose promise is not kept yet stays *)
Definition unsubscribe (s : state) : state :=
  match live s with
  | Some b => with_subs None (if sb_ready b then leaked s else leaked s ++ [sb_system b]) s
  | None => s
  end.
(** the effect of the subscription, and whether it went back to the period of an hour *)
Definition run_realtime (s : state) : state * bool :=
  let s := unsubscribe s in
  match realtime_effect (the_page s) with
  | NotRealtime => (s, false)
  | BackTo1h => (with_page (set_chartTime T1h (the_page s)) s, true)
  | Subscribe id => (with_subs (Some {| sb_system := id; sb_ready := false |}) (leaked s) s, false)
  end.
Definition fetch_now (s : state) : state :=
  let '(f, p) := start_fetch (clock s) (the_page s) in
  with_flights (flights s ++ match f with Some f => [f] | None => [] end) (overtaken s) (with_page p s).
(** what runs after a drawing: [before] is the page of the drawing before, [told] whether the record is a new one *)
Definition effects (told : bool) (before : Charts.page) (s : state) : state :=
  let new_id := negb (String.eqb (page_id before) (page_id (the_page s))) in
  let new_period := negb (bool_decide (chartTime before = chartTime (the_page s))) in
  let s := if new_id then ask_details s else s in
  let '(s, back) := if new_id || new_period then run_realtime s else (s, false) in
  if told || new_period || back then fetch_now s else s.

(** the chart data are made again when the records have changed *)
Definition read_version (s : state) : state := with_version ((λ r, si_v (sys_info r)) <$> system (the_page s)) s.

(** the record of the address: the name of a system works as well *)
Definition lookup_system (id : string) (l : list SystemRecord) : option SystemRecord :=
  match find (λ r, String.eqb (sys_id r) id) l with Some r => Some r | None => find (λ r, String.eqb (sys_name r) id) l end.
Definition set_system (r : SystemRecord) (s : state) : state := effects true (the_page s) (with_page (setSystem r (the_page s)) s).
(** the address changes while the page stays: the cleanup, then the new system, if the store knows it *)
Definition enter (id : string) (s : state) : state :=
  let before := the_page s in
  let s := with_route id (systems s) false
             (with_details (details_asked s) None (with_page (leave_page (settings_period s) (persistChartTime s) before) s)) in
  match lookup_system id (systems s) with
  | Some r => effects (negb (String.eqb (page_id before) (sys_id r))) before (read_version (with_page (setSystem r (the_page s)) s))
  | None => effects false before (read_version s)
  end.

(** ** Handlers *)

Definition period_named (v : string) : option ChartTimes := find (λ c, String.eqb (ChartTimes_str c) v) all_periods.
Definition set_period (c : ChartTimes) (s : state) : state := effects false (the_page s) (with_page (set_chartTime c (the_page s)) s).
Definition pressed (k : string) : key_event := {| in_field := false; modifier := false; key := k |}.
Definition step (e : event) (s : state) : state :=
  match e with
  | SetPeriod v => match period_named v with Some c => set_period c s | None => s end
  | SetMax v => with_view (String.eqb v "max") (grid s) (settings_period s) (clock s) s
  | ToggleGrid => with_view (maxValues s) (negb (grid s)) (settings_period s) (clock s) s
  | KeyUp k =>
      match handleKeyUp (systems s) (route s) (pressed k) with
      | Some id => let s := with_route (route s) (systems s) true s in if String.eqb id (route s) then s else enter id s
      | None => s
      end
  end.

(** ** What is drawn *)

Definition isLongerChart (c : ChartTimes) : bool := negb (bool_decide (c ∈ [T1m; T1h])).
(** a card: its title, its text, whether the average and the maximum can be chosen, and whether there is room for a legend *)
Record card := { cd_title : string; cd_description : string; cd_max : bool; cd_legend : bool }.
Definition plain_card (t d : string) : card := {| cd_title := t; cd_description := d; cd_max := false; cd_legend := false |}.
Definition max_card (t d : string) : card := {| cd_title := t; cd_description := d; cd_max := true; cd_legend := false |}.
Definition legend_card (t d : string) (l : bool) : card := {| cd_title := t; cd_description := d; cd_max := false; cd_legend := l |}.
Section Cards.
Context (podman : bool) (last : option SystemStats).
Definition cpu_card : card := max_card "CPU Usage" "Average system-wide CPU utilization".
Definition docker_cpu_card : card := plain_card (dockerOrPodman "Docker CPU Usage" podman) "Average CPU utilization of containers".
Definition memory_card : card := max_card "Memory Usage" "Precise utilization at the recorded time".
Definition docker_memory_card : card :=
  plain_card (dockerOrPodman "Docker Memory Usage" podman) (dockerOrPodman "Memory usage of docker containers" podman).
Definition disk_card : card := plain_card "Disk Usage" "Usage of root partition".
Definition disk_io_card : card := max_card "Disk I/O" "Throughput of root filesystem".
Definition bandwidth_card : card := max_card "Bandwidth" "Network traffic of public interfaces".
Definition docker_network_card : card :=
  plain_card (dockerOrPodman "Docker Network I/O" podman) (dockerOrPodman "Network traffic of docker containers" podman).
Definition swap_card : card := plain_card "Swap Usage" "Swap space used by the system".
Definition load_card : card := legend_card "Load Average" "System load averages over time" true.
Definition temperature_card : card :=
  legend_card "Temperature" "Temperatures of system sensors" (length (jkeys (default [] (s ← last; st_t s))) <? 12).
Definition battery_card (label : string) : card := plain_card "Battery" ("Current state: " +:+ label).
Definition gpu_power_card : card := plain_card "GPU Power Draw" "Average power consumption of GPUs".
Definition gpu_engines_card : card := legend_card "GPU Engines" "Average utilization of GPU engines" true.
Definition gpu_name (id : string) : string := match gpu_of id last with Some g => gpu_n g | None => "" end.
Definition gpu_usage_card (id : string) : card := plain_card (gpu_name id +:+ " Usage") ("Average utilization of " +:+ gpu_name id).
Definition gpu_vram_card (id : string) : card := plain_card (gpu_name id +:+ " VRAM") "Precise utilization at the recorded time".
Definition fs_usage_card (name : string) : card := plain_card (name +:+ " Usage") ("Disk usage of " +:+ name).
Definition fs_io_card (name : string) : card := max_card (name +:+ " I/O") ("Throughput of " +:+ name).
(** the card of a chart; the tables have none *)
Definition card_of (c : chart) : option card :=
  match c with
  | CpuChart => Some cpu_card | DockerCpu => Some docker_cpu_card | MemoryChart => Some memory_card
  | DockerMemory => Some docker_memory_card | DiskUsage => Some disk_card | DiskIO => Some disk_io_card
  | Bandwidth => Some bandwidth_card | DockerNetwork => Some docker_network_card | SwapChart => Some swap_card
  | LoadAverageChart => Some load_card | TemperatureChart => Some temperature_card | BatteryChart l => Some (battery_card l)
  | GpuPowerChart => Some gpu_power_card | GpuEnginesChart => Some gpu_engines_card | GpuUsage id => Some (gpu_usage_card id)
  | GpuVram id => Some (gpu_vram_card id) | ExtraFsUsage n => Some (fs_usage_card n) | ExtraFsIO n => Some (fs_io_card n)
  | SmartTable | ContainersTable | SystemdTable | PackageUpdatesTable => None
  end.
End Cards.

(** [SelectAvgMax] *)
Definition select_max (title : string) (m : bool) : widget event :=
  Select (title +:+ ": values") (if m then "max" else "avg") [("avg", "Average"); ("max", "Max 1 min")]%string SetMax.
(** [ChartCard]; the chart itself is drawn by the library *)
Definition chart_card (s : state) (dataEmpty : bool) (c : card) : screen event :=
  [Text (cd_title c) (cd_title c); Text (cd_title c) (cd_description c)]
  ++ when (cd_max c && isLongerChart (chartTime (the_page s))) [select_max (cd_title c) (maxValues s)]
  ++ when dataEmpty [Text (cd_title c) "Waiting for enough records to display"].
Definition agentVersion (s : state) : SemVer := parseSemVer (version s).
Definition period_select (s : state) : widget event :=
  Select "Period" (ChartTimes_str (chartTime (the_page s)))
    ((λ c : ChartTimes * string, (ChartTimes_str c.1, c.2)) <$> availableChartTimes (agentVersion s)) SetPeriod.
Definition info_bar (s : state) (r : SystemRecord) (items : list item) : screen event :=
  [Text "" (sys_name r); Text "" (status_dot (sys_status r)); Text "" (translatedStatus (sys_status r))]
  ++ rows (λ i, [Text (icon i) (default "" (value i))]) items
  ++ [period_select s; Button "" "Toggle grid" true ToggleGrid].
Definition page_details (s : state) : ChartView.details :=
  {| ChartView.dt_os := InfoBar.dt_os ∘ kd_info <$> known s; dt_podman := known s ≫= kd_podman |}.
(** the keys the page listens to once there are systems *)
Definition keys (s : state) : screen event :=
  when (0 <? length (systems s)) (rows (λ k, [Button "key" k true (KeyUp k)]) ["ArrowLeft"; "h"; "ArrowRight"; "l"]%string).
(** the charts go by the version the chart data were made with *)
Definition made_with (v : option string) (i : SystemInfo) : SystemInfo := {|
  si_h := si_h i; si_k := si_k i; si_cpu := si_cpu i; si_t := si_t i; si_c := si_c i; si_m := si_m i; si_l1 := si_l1 i;
  si_l5 := si_l5 i; si_l15 := si_l15 i; si_la := si_la i; si_o := si_o i; si_u := si_u i; si_mp := si_mp i; si_dp := si_dp i;
  si_bat := si_bat i; si_b := si_b i; si_bb := si_bb i; si_v := default "" v; si_p := si_p i; si_g := si_g i; si_dt := si_dt i;
  si_os := si_os i; si_ct := si_ct i; si_efs := si_efs i; si_sv := si_sv i; si_pu := si_pu i; si_pus := si_pus i; si_rb := si_rb i |}.
Definition shown_charts (s : state) (r : SystemRecord) : option (list chart) :=
  charts (systemStats (the_page s)) (0 <? length (containerData (the_page s))) (page_details s) (made_with (version s) (sys_info r)).
Definition draw (s : state) : screen event :=
  keys s ++
  match system (the_page s) with
  | None => []
  | Some r =>
      if negb (truthy (sys_id r)) then [] else
      match shown_charts s r, shown_items num_str r (kd_info <$> known s) with
      | Some l, Some items =>
          let dataEmpty := negb (chartLoading (the_page s)) && (length (systemStats (the_page s)) =? 0) in
          let podman := isPodman (page_details s) (sys_info r) in
          let last := x ← last (systemStats (the_page s)); sr_stats x in
          info_bar s r items ++ rows (λ c, match card_of podman last c with Some c => chart_card s dataEmpty c | None => [] end) l
      | _, _ => []
      end
  end.

(** ** What comes from outside *)

(** the store tells the page of a new record of its system, and of nothing when there is none *)
Definition systems_changed (l : list SystemRecord) (new : bool) (s : state) : state :=
  let s := with_route (route s) l (persistChartTime s) s in
  if new then match lookup_system (route s) l with Some r => set_system r s | None => s end else s.
Definition answered (f : fetch) (l : list fetch) (in_order : bool) (a : option (list SystemStatsRecord))
    (ca : option (list ContainerStatsRecord)) (s : state) : state :=
  read_version (with_flights l (overtaken s || negb in_order) (with_page (finish_fetch f a ca (the_page s)) s)).
Definition measured_now (container : list ContainerStats) (stats : SystemStats) (s : state) : state :=
  read_version (with_page (on_realtime (clock s) container stats (the_page s)) s).

Inductive outside (s : state) : state → Prop :=
| store l new : Forall (λ r, sys_id r ≠ ""%string) l →
    (new = false → ∀ r, lookup_system (route s) l = Some r → lookup_system (route s) (systems s) = Some r) →
    outside s (systems_changed l new s)
| navigated id : id ≠ route s → outside s (enter id s)
| records_answered before f after a ca : flights s = before ++ f :: after →
    outside s (answered f (before ++ after) (bool_decide (before = [])) a ca s)
| details_answered before id after i p : details_asked s = before ++ id :: after →
    outside s (with_details (before ++ after) (Some {| kd_system := id; kd_info := i; kd_podman := p |}) s)
| details_fail before id after : details_asked s = before ++ id :: after → outside s (with_details (before ++ after) (known s) s)
| subscribed b : live s = Some b → outside s (with_subs (Some {| sb_system := sb_system b; sb_ready := true |}) (leaked s) s)
| metrics container stats : is_Some (live s) ∨ leaked s ≠ [] → outside s (measured_now container stats s)
| made_again : outside s (read_version s)
| clock_moves t : (clock s <= t)%Z → outside s (with_view (maxValues s) (grid s) (settings_period s) t s)
| settings_told c : outside s (set_period c (with_view (maxValues s) (grid s) c (clock s) s)).   (* the listener of stores.ts *)
Definition no_records (cs : jsmap (list SystemStatsRecord)) (cc : jsmap (list ContainerStatsRecord)) (c : ChartTimes) : Charts.page := {|
  cache_system := cs; cache_container := cc; system := None; chartTime := c; systemStats := []; containerData := []; chartLoading := true |}.
(** the page is opened_page while the store knows no systems yet; what it knows comes after the first drawing *)
Definition first_state (id : string) (cs : jsmap (list SystemStatsRecord)) (cc : jsmap (list ContainerStatsRecord)) (c d : ChartTimes)
    (m g : bool) (t : Z) : state := {|
  route := id; systems := []; the_page := no_records cs cc c; flights := []; overtaken := false; details_asked := []; known := None;
  live := None; leaked := []; version := None; maxValues := m; grid := g; settings_period := d; persistChartTime := false; clock := t |}.
Definition start (s : state) : Prop := ∃ id cs cc c d m g t, s = first_state id cs cc c d m g t.
Definition reached : state → Prop := reachable draw step outside start.

(** ** Theorems *)

(** the records that are kept for a system and a period *)
Definition kept_stats (p : Charts.page) (id : string) : list SystemStatsRecord :=
  default [] (jget (cache_key id (chartTime p) "system_stats") (cache_system p)).
Definition kept_containers (p : Charts.page) (id : string) : list ContainerStatsRecord :=
  default [] (jget (cache_key id (chartTime p) "container_stats") (cache_container p)).
(** nothing, or exactly what is kept *)
Definition shows_kept (p : Charts.page) (id : string) : Prop :=
  (systemStats p = [] ∧ containerData p = [])
  ∨ (systemStats p = kept_stats p id ∧ containerData p = makeContainerData (kept_containers p id)).
Definition no_minute (p : Charts.page) : Prop := chartTime p ≠ T1m.
Definition named (l : list SystemRecord) : Prop := Forall (λ r, sys_id r ≠ ""%string) l.
Record inv (s : state) : Prop := {
  requests_named : Forall (λ f, fe_chartTime f ≠ T1m ∧ fe_system f ≠ ""%string) (flights s);
  systems_named : named (systems s);
  system_named : ∀ r, system (the_page s) = Some r → sys_id r ≠ ""%string;
  subscribed_ok : match live s with
                  | Some b => chartTime (the_page s) = T1m ∧ (sys_id <$> system (the_page s)) = Some (sb_system b)
                  | None => chartTime (the_page s) = T1m → system (the_page s) = None
                  end;
  loading_ok : no_minute (the_page s) → is_Some (system (the_page s)) → flights s = [] → chartLoading (the_page s) = false;
  records_ok : leaked s = [] → overtaken s = false → no_minute (the_page s) → ∀ r, system (the_page s) = Some r →
    match last (flights s) with
    | Some f => fe_system f = sys_id r ∧ fe_chartTime f = chartTime (the_page s)
    | None => shows_kept (the_page s) (sys_id r)
    end }.

(** *** Parts of the effects *)

Lemma merged_kept {T} `{Timed T} k e (c : jsmap (list T)) a : (merge_stats k e c a).1 = default [] (jget k (merge_stats k e c a).2).
Proof.
  unfold merge_stats. destruct a as [[|x a]|]; [done| |done]. cbv zeta. cbn [fst snd]. by rewrite jget_jset_eq.
Qed.
Lemma finish_shows f a ca p : chartTime p = fe_chartTime f → shows_kept (finish_fetch f a ca p) (fe_system f).
Proof.
  intros E. unfold finish_fetch, shows_kept, kept_stats, kept_containers.
  pose proof (merged_kept (cache_key (fe_system f) (fe_chartTime f) "system_stats") (expectedInterval (chartTimeData (fe_chartTime f))) (cache_system p) a) as M1.
  pose proof (merged_kept (cache_key (fe_system f) (fe_chartTime f) "container_stats") (expectedInterval (chartTimeData (fe_chartTime f))) (cache_container p) ca) as M2.
  destruct (merge_stats _ _ _ a) as [d cs], (merge_stats _ _ _ ca) as [d' cc]. cbn in *. rewrite E. right. by rewrite M1, M2.
Qed.
(** what a request changes of the page *)
Lemma fetch_now_keeps s : let s' := fetch_now s in
  system (the_page s') = system (the_page s) ∧ chartTime (the_page s') = chartTime (the_page s)
  ∧ live s' = live s ∧ leaked s' = leaked s ∧ overtaken s' = overtaken s ∧ systems s' = systems s ∧ route s' = route s.
Proof.
  unfold fetch_now, start_fetch. destruct (system (the_page s)) as [r|] eqn:E; [|by split_and!].
  destruct (truthy (sys_id r) && negb (bool_decide (chartTime (the_page s) = T1m))); by split_and!.
Qed.
Lemma fetch_now_asks s r : system (the_page s) = Some r → sys_id r ≠ ""%string → no_minute (the_page s) →
  ∃ f, flights (fetch_now s) = flights s ++ [f] ∧ fe_system f = sys_id r ∧ fe_chartTime f = chartTime (the_page s).
Proof.
  intros E Hr Hm. unfold fetch_now, start_fetch. rewrite E, (proj2 (truthy_nonempty _)), bool_decide_eq_false_2 by done. cbn.
  eexists. by split_and!.
Qed.
Lemma fetch_now_silent s : (system (the_page s) = None ∨ chartTime (the_page s) = T1m) → flights (fetch_now s) = flights s.
Proof.
  intros Hs. unfold fetch_now, start_fetch. destruct (system (the_page s)) as [r|] eqn:E; [|by rewrite app_nil_r].
  destruct Hs as [Hs|Hs]; [done|]. rewrite (bool_decide_eq_true_2 _ Hs), andb_false_r. by rewrite app_nil_r.
Qed.
Definition base_ok (s : state) : Prop :=
  Forall (λ f, fe_chartTime f ≠ T1m ∧ fe_system f ≠ ""%string) (flights s) ∧ named (systems s)
  ∧ ∀ r, system (the_page s) = Some r → sys_id r ≠ ""%string.
Definition live_ok (s : state) : Prop :=
  match live s with
  | Some b => chartTime (the_page s) = T1m ∧ (sys_id <$> system (the_page s)) = Some (sb_system b)
  | None => chartTime (the_page s) = T1m → system (the_page s) = None
  end.
Lemma inv_fetched s : base_ok s → live_ok s → inv (fetch_now s).
Proof.
  intros (Hf & Hn & Hs) Hl. destruct (fetch_now_keeps s) as (E1 & E2 & E3 & E4 & E5 & E6 & _).
  destruct (decide (chartTime (the_page s) = T1m)) as [Hm|Hm]; [|destruct (system (the_page s)) as [r|] eqn:Er].
  - pose proof (fetch_now_silent s (or_intror Hm)) as Ef.
    split; rewrite ?E1, ?E3, ?E4, ?E5, ?E6, ?Ef; try done; unfold no_minute; rewrite ?E2; try congruence; exact Hl.
  - destruct (fetch_now_asks s r Er) as (f & Ef & Hi & Hc); [by apply Hs|done|].
    split; rewrite ?E1, ?E3, ?E4, ?E5, ?E6, ?Ef, ?Er; try done.
    + apply Forall_app. split; [done|]. constructor; [|done]. rewrite Hi, Hc. split; [done|by apply Hs].
    + unfold live_ok in Hl. rewrite Er in Hl. by rewrite E2.
    + intros _ _ E. by destruct (flights s).
    + intros _ _ _ r' [= <-]. rewrite last_snoc, E2. done.
  - pose proof (fetch_now_silent s (or_introl Er)) as Ef. unfold live_ok in Hl. rewrite Er in Hl.
    split; rewrite ?E1, ?E3, ?E4, ?E5, ?E6, ?Ef, ?Er; try done; try (by rewrite E2); by intros _ [? ?].
Qed.
Lemma run_realtime_spec s s' back : base_ok s → run_realtime s = (s', back) →
  base_ok s' ∧ live_ok s' ∧ (back = false → the_page s' = the_page s).
Proof.
  intros (Hf & Hn & Hs) E. unfold run_realtime in E.
  assert (the_page (unsubscribe s) = the_page s ∧ live (unsubscribe s) = None ∧ flights (unsubscribe s) = flights s
          ∧ systems (unsubscribe s) = systems s) as (Ep & El & Ef & Es) by (unfold unsubscribe; by destruct (live s) eqn:E').
  revert E. generalize dependent (unsubscribe s). intros u Ep El Ef Es. unfold base_ok, live_ok. rewrite <- Ep in Hs. rewrite <- Ef in Hf. rewrite <- Es in Hn.
  unfold realtime_effect. destruct (system (the_page u)) as [r|] eqn:Er.
  - rewrite (proj2 (truthy_nonempty _)) by by apply Hs. cbn [negb orb].
    destruct (decide (chartTime (the_page u) = T1m)) as [Hm|Hm].
    + rewrite bool_decide_eq_true_2 by done. cbn [negb]. destruct (_ || _); intros [= <- <-]; cbn; rewrite ?El, ?Er; cbn; by split_and!.
    + rewrite bool_decide_eq_false_2 by done. cbn [negb]. intros [= <- <-]. rewrite El, Er. by split_and!.
  - intros [= <- <-]. rewrite El, Er. by split_and!.
Qed.
Lemma effects_inv new before s :
  base_ok s → (page_id before = page_id (the_page s) → chartTime before = chartTime (the_page s) → live_ok s) →
  (new = false → page_id before = page_id (the_page s)) →
  (new = false → chartTime before = chartTime (the_page s) → inv s) → inv (effects new before s).
Proof.
  intros Hb Hl Hid Hsame. unfold effects.
  set (s1 := if negb (String.eqb (page_id before) (page_id (the_page s))) then ask_details s else s).
  assert (base_ok s1 ∧ the_page s1 = the_page s ∧ live s1 = live s) as (Hb1 & Ep & El).
  { unfold s1. destruct (negb _); [|done]. unfold ask_details. destruct (system (the_page s)) as [r|] eqn:Er; [|done].
    destruct (_ && _); done. }
  destruct (String.eqb_spec (page_id before) (page_id (the_page s))) as [E|E]; destruct (decide (chartTime before = chartTime (the_page s))) as [C|C];
    rewrite ?(bool_decide_eq_true_2 (chartTime before = _) C), ?(bool_decide_eq_false_2 (chartTime before = _) C); cbn [negb orb].
  - destruct new; cbn [orb]; [|unfold s1; cbn [negb]; by apply Hsame]. unfold s1. cbn [negb]. apply inv_fetched; [done|]. by apply Hl.
  - destruct (run_realtime s1) as [s' back] eqn:Er. destruct (run_realtime_spec s1 s' back Hb1 Er) as (Hb' & Hl' & _).
    rewrite orb_true_r. cbn [orb]. by apply inv_fetched.
  - destruct (run_realtime s1) as [s' back] eqn:Er. destruct (run_realtime_spec s1 s' back Hb1 Er) as (Hb' & Hl' & _).
    destruct new; [|by destruct E; apply Hid]. cbn [orb]. by apply inv_fetched.
  - destruct (run_realtime s1) as [s' back] eqn:Er. destruct (run_realtime_spec s1 s' back Hb1 Er) as (Hb' & Hl' & _).
    rewrite orb_true_r. cbn [orb]. by apply inv_fetched.
Qed.

(** *** The events *)

Lemma inv_base s : inv s → base_ok s.
Proof. by intros []. Qed.
Lemma inv_told r s : sys_id r ≠ ""%string → inv s → inv (set_system r s).
Proof.
  intros Hr Hi. unfold set_system. apply effects_inv; [|intros Hid Hc|done|done].
  - destruct Hi. split_and!; [done|done|]. by intros ? [= <-].
  - destruct Hi as [_ _ Hn Hl _ _]. unfold live_ok, with_page, setSystem in *. cbn [live the_page chartTime system] in *.
    destruct (live s) as [b|].
    + destruct Hl as [Hm Hs]. split; [done|]. cbn. unfold page_id in Hid. cbn in Hid. destruct (system (the_page s)); [|done]. cbn in *. congruence.
    + intros Hm. specialize (Hl Hm). unfold page_id in Hid. cbn in Hid. rewrite Hl in Hid. done.
Qed.
Lemma inv_period c s : inv s → inv (set_period c s).
Proof.
  intros Hi. unfold set_period. apply effects_inv; [|intros _ Hc|done|intros _ Hc].
  - by destruct Hi.
  - destruct Hi as [_ _ _ Hl _ _]. cbn in Hc. unfold live_ok, with_page, set_chartTime. cbn. by rewrite <- Hc.
  - cbn in Hc. subst c. assert (with_page (set_chartTime (chartTime (the_page s)) (the_page s)) s = s) as ->; [|done].
    destruct s as [? ? p]. by destruct p.
Qed.
Lemma lookup_named id l r : named l → lookup_system id l = Some r → sys_id r ≠ ""%string ∧ r ∈ l.
Proof.
  intros Hn. unfold lookup_system. intros E. assert (r ∈ l) as Hin.
  { destruct (find (λ r, String.eqb (sys_id r) id) l) as [x|] eqn:F.
    - injection E as <-. apply find_some in F as [F _]. by apply list_elem_of_In.
    - apply find_some in E as [F' _]. by apply list_elem_of_In. }
  split; [|done]. unfold named in Hn. rewrite Forall_forall in Hn. by apply Hn.
Qed.
(** a page that was left shows nothing *)
Lemma inv_left s p : inv s → systemStats p = [] → containerData p = [] → chartTime p = chartTime (the_page s) →
  (sys_id <$> system p) = (sys_id <$> system (the_page s)) → chartLoading p = chartLoading (the_page s) →
  inv (with_page p s).
Proof.
  intros [I1 I2 I3 I4 I5 I6] Es Ec Et Ei El.
  assert (∀ r, system p = Some r → ∃ r', system (the_page s) = Some r' ∧ sys_id r' = sys_id r) as Hr.
  { intros r E. rewrite E in Ei. cbn in Ei. destruct (system (the_page s)) as [r'|]; [|done]. injection Ei as Ei. by exists r'. }
  split; cbn [with_page flights systems the_page live leaked overtaken]; try done.
  - intros r (r' & E & <-)%Hr. by apply I3.
  - rewrite Et, Ei. destruct (live s); [done|]. intros Hm. specialize (I4 Hm). rewrite I4 in Ei. by destruct (system p).
  - unfold no_minute. rewrite Et, El. intros Hm [r (r' & E & _)%Hr]. apply I5; [done|by exists r'].
  - unfold no_minute. rewrite Et. intros Hl Ho Hm r (r' & E & Eid)%Hr. rewrite <- Eid. specialize (I6 Hl Ho Hm r' E).
    destruct (last (flights s)); [done|]. by left.
Qed.
Lemma inv_same_page s s' : inv s → the_page s' = the_page s → flights s' = flights s → overtaken s' = overtaken s → live s' = live s →
  leaked s' = leaked s → named (systems s') → inv s'.
Proof. intros [] E1 E2 E3 E4 E5 Hn. split; rewrite ?E1, ?E2, ?E3, ?E4, ?E5; done. Qed.
Lemma inv_enter id s : inv s → inv (enter id s).
Proof.
  intros Hi. unfold enter. cbv zeta.
  set (s1 := with_route id (systems s) false (with_details _ _ _)).
  assert (base_ok s1) as Hb by by destruct Hi.
  assert (chartTime (the_page s) = chartTime (the_page s1) → inv s1) as Hs1.
  { intros Hc. apply (inv_same_page (with_page (the_page s1) s)); try done; [|apply Hi].
    by apply inv_left. }
  destruct (lookup_system id (systems s1)) as [r|] eqn:El.
  - destruct (lookup_named id (systems s1) r) as [Hr _]; [by destruct Hb as (_ & ? & _)|done|].
    apply effects_inv.
    + destruct Hb as (B1 & B2 & _). split_and!; [done|done|]. by intros ? [= <-].
    + intros Hid Hc. destruct Hi as [_ _ Hn Hl _ _]. unfold page_id in Hid. cbn in Hid, Hc. unfold live_ok. cbn. rewrite <- Hc.
      destruct (live s) as [b|].
      * destruct Hl as [Hm Hs]. split; [done|]. destruct (system (the_page s)) as [x|]; [|done]. cbn in *. congruence.
      * intros Hm. specialize (Hl Hm). rewrite Hl in Hid. done.
    + intros E%negb_false_iff%String.eqb_eq. done.
    + intros E%negb_false_iff%String.eqb_eq Hc.
      apply (inv_same_page (with_page (setSystem r (the_page s1)) s)); try done; [|apply Hi].
      apply inv_left; try done. cbn. unfold page_id in E. destruct (system (the_page s)) as [x|]; cbn in *; [congruence|]. by rewrite <- E in Hr.
  - apply effects_inv; [done| |done|by intros _ Hc; apply (inv_same_page s1); [apply Hs1| | | | | |apply Hs1]].
    intros _ Hc. specialize (Hs1 Hc). by destruct Hs1.
Qed.

(** *** The handlers and the answers *)

Lemma inv_step s e : inv s → inv (step e s).
Proof.
  intros Hi. destruct e as [v|v| |k]; cbn [step].
  - destruct (period_named v); [by apply inv_period|done].
  - by apply (inv_same_page s); try apply Hi.
  - by apply (inv_same_page s); try apply Hi.
  - destruct (handleKeyUp _ _ _) as [id|]; [|done].
    assert (inv (with_route (route s) (systems s) true s)) as Hi' by (by apply (inv_same_page s); try apply Hi).
    destruct (String.eqb _ _); [done|by apply inv_enter].
Qed.
Lemma finish_keeps f a ca p : system (finish_fetch f a ca p) = system p ∧ chartTime (finish_fetch f a ca p) = chartTime p
  ∧ chartLoading (finish_fetch f a ca p) = false.
Proof. unfold finish_fetch. destruct (merge_stats _ _ _ a), (merge_stats _ _ _ ca). by split_and!. Qed.
Lemma inv_answer s before f after a ca : inv s → flights s = before ++ f :: after →
  inv (answered f (before ++ after) (bool_decide (before = [])) a ca s).
Proof.
  intros [I1 I2 I3 I4 I5 I6] E. destruct (finish_keeps f a ca (the_page s)) as (E1 & E2 & E3).
  rewrite E in I1. apply Forall_app in I1 as [A1 [A2 A3]%Forall_cons].
  split; cbn [answered read_version with_version with_flights with_page flights systems the_page live leaked overtaken].
  - by apply Forall_app.
  - done.
  - by rewrite E1.
  - by rewrite E1, E2.
  - by rewrite E3.
  - intros Hl [Ho Hb%negb_false_iff%bool_decide_eq_true]%orb_false_iff. subst before. unfold no_minute. rewrite E1, E2.
    intros Hm r Er. specialize (I6 Hl Ho Hm r Er). rewrite E in I6. cbn [app] in *. destruct after as [|x after].
    + cbn in *. destruct I6 as [Es Ec]. rewrite <- Es. apply finish_shows. done.
    + rewrite last_cons in I6. destruct (last (x :: after)) as [y|] eqn:El; [done|]. by apply last_None in El.
Qed.
Lemma inv_metrics s c st : inv s → is_Some (live s) ∨ leaked s ≠ [] → inv (measured_now c st s).
Proof.
  intros [I1 I2 I3 I4 I5 I6] Hs. split; try done. intros Hl Ho Hm r Er. cbn in *. destruct Hs as [[b Hs]|Hs]; [|done].
  rewrite Hs in I4. by destruct I4 as [I4 _].
Qed.
Lemma sp_reached_inv s : reached s → inv s.
Proof.
  revert s. apply page_invariant.
  - intros s (id & cs & cc & c & d & m & g & t & ->). split; cbn; try done; try constructor; by intros _ [? ?].
  - intros s e Hi _. by apply inv_step.
  - intros s s' Hi Ho. destruct Ho as [l new Hn _|id _|before f after a ca E|before id after i p E|before id after E|b Hb|c st Hs| |t _|c].
    + unfold systems_changed. set (s1 := with_route (route s) l (persistChartTime s) s).
      assert (inv s1) as Hi1 by by apply (inv_same_page s). destruct new; [|done].
      destruct (lookup_system (route s1) l) as [r|] eqn:El; [|done]. apply lookup_named in El as [Hr _]; [|done]. by apply inv_told.
    + by apply inv_enter.
    + by apply inv_answer.
    + by apply (inv_same_page s); try apply Hi.
    + by apply (inv_same_page s); try apply Hi.
    + destruct Hi as [? ? ? Hl ? ?]. split; try done. rewrite Hb in Hl. exact Hl.
    + by apply inv_metrics.
    + by apply (inv_same_page s); try apply Hi.
    + by apply (inv_same_page s); try apply Hi.
    + apply inv_period. by apply (inv_same_page s); try apply Hi.
Qed.

(** *** What is offered *)

Definition promised (s : state) (e : event) : Prop :=
  match e with
  | SetPeriod v => ∃ c, period_named v = Some c ∧ c ∈ fst <$> availableChartTimes (agentVersion s)
  | SetMax v => isLongerChart (chartTime (the_page s)) = true ∧ v ∈ ["avg"; "max"]%string
  | ToggleGrid => True
  | KeyUp k => ∀ id, handleKeyUp (systems s) (route s) (pressed k) = Some id → ∃ r, r ∈ systems s ∧ sys_id r = id
  end.
Lemma period_named_str c : period_named (ChartTimes_str c) = Some c.
Proof. by destruct c. Qed.
Lemma keyed_system l id k id' : handleKeyUp l id (pressed k) = Some id' → ∃ r, r ∈ l ∧ sys_id r = id'.
Proof.
  unfold handleKeyUp. cbn [in_field modifier pressed orb]. destruct (find_index _ l); [|done]. destruct (_ <=? _)%nat; [done|].
  assert (∀ j, sys_id <$> l !! j = Some id' → ∃ r, r ∈ l ∧ sys_id r = id') as Hj.
  { intros j E. destruct (l !! j) as [r|] eqn:Er; [|done]. injection E as E. exists r. split; [by eapply list_elem_of_lookup_2|done]. }
  destruct (_ || _); [apply Hj|]. destruct (_ || _); [apply Hj|done].
Qed.
Lemma sp_offered_promised s e : offered (draw s) e → promised s e.
Proof.
  unfold draw. rewrite offered_app. intros [Ho|Ho].
  - unfold keys in Ho. apply offered_when in Ho as [_ Ho]. apply offered_rows in Ho as (k & _ & Ho).
    assert (e = KeyUp k) as -> by by offered_cases Ho by idtac. intros id. apply keyed_system.
  - destruct (system (the_page s)) as [r|]; [|by offered_cases Ho by idtac]. destruct (negb _); [by offered_cases Ho by idtac|].
    destruct (shown_charts s r) as [l|]; [|by offered_cases Ho by idtac].
    destruct (shown_items _ r _) as [items|]; [|by offered_cases Ho by idtac].
    apply offered_app in Ho as [Ho|Ho].
    + unfold info_bar in Ho. rewrite !offered_app in Ho. destruct Ho as [Ho|[Ho|Ho]]; [by offered_cases Ho by idtac..|].
      apply (offered_app [_]) in Ho as [Ho|Ho]; [|by offered_cases Ho by idtac].
      assert (∀ v name, (v, name) ∈ (λ c : ChartTimes * string, (ChartTimes_str c.1, c.2)) <$> availableChartTimes (agentVersion s) →
        ∃ c, period_named v = Some c ∧ c ∈ fst <$> availableChartTimes (agentVersion s)) as Hp.
      { intros v name (c & [= -> ->] & Hc)%list_elem_of_fmap. exists c.1. split; [apply period_named_str|]. by apply list_elem_of_fmap_2. }
      destruct Ho as [ ? ? ? Ho | ? ? ? ? Ho | ? ? ? ? ? ? Ho Hv | ? ? ? ? Ho | ? ? ? ? ? ? ? ? ? Ho ? | ? ? ? ? ? ? ? ? ? Ho ? | ? ? Ho ];
        apply list_elem_of_singleton in Ho; try discriminate Ho. unfold period_select in Ho. injection Ho as -> -> -> ->. by eapply Hp.
    + apply offered_rows in Ho as (c & _ & Ho). destruct (card_of _ _ c) as [cd|]; [|by offered_cases Ho by idtac].
      unfold chart_card in Ho. rewrite !offered_app, !offered_when in Ho.
      destruct Ho as [Ho|[[Hl Ho]|[_ Ho]]]; [by offered_cases Ho by idtac| |by offered_cases Ho by idtac].
      apply andb_prop in Hl as [_ Hl]. offered_cases Ho by (unfold select_max in Ho). split; [done|].
      rewrite !elem_of_cons in Hv. destruct Hv as [[= -> ->]|[[= -> ->]|Hv]]; [left|right; left|by apply elem_of_nil in Hv].
Qed.

(** C5: whatever is chosen, navigated, stored and answered, in any order: no records are asked for without a
    system, or for the period of a minute; there is a subscription exactly while the period is the minute and
    the system is known, and it is that system's; the page does not say that it loads when nothing is under way;
    and as long as every answer came before those of later requests and no subscription was lost, a page with
    nothing under way shows nothing or exactly the records kept for its system and period.  The periods offered
    are those the agent supports, the maximum is offered for long periods only, and the keys lead to systems
    the store knows. *)
Theorem system_page s : reached s →
  Forall (λ f, fe_chartTime f ≠ T1m ∧ fe_system f ≠ ""%string) (flights s)
  ∧ (∀ r, system (the_page s) = Some r →
       (chartTime (the_page s) = T1m ↔ sb_system <$> live s = Some (sys_id r))
       ∧ (chartTime (the_page s) ≠ T1m → flights s = [] → live s = None ∧ chartLoading (the_page s) = false
            ∧ (leaked s = [] → overtaken s = false → shows_kept (the_page s) (sys_id r))))
  ∧ ∀ e, offered (draw s) e → promised s e.
Proof.
  intros Hr. destruct (sp_reached_inv s Hr) as [I1 _ I3 I4 I5 I6]. split; [done|]. split; [|intros e; apply sp_offered_promised].
  intros r Er. rewrite Er in *. split; [split|].
  - intros Hm. destruct (live s) as [b|]; [|by specialize (I4 Hm)]. destruct I4 as [_ E]. cbn in *. congruence.
  - destruct (live s) as [b|]; [|done]. by destruct I4.
  - intros Hm Hf. split_and!.
    + destruct (live s); [by destruct I4|done].
    + apply I5; [done|by eexists|done].
    + intros Hl Ho. specialize (I6 Hl Ho Hm r eq_refl). by rewrite Hf in I6.
Qed.
End Page.

(** ** Visits *)

#[local] Existing Instance plain_english.
#[local] Existing Instance pb_dates.
#[local] Existing Instance utc_d3.
Definition sy_num (q : Q) : string := z_str (Qnum q).
Local Abbreviation sy_draw := (draw sy_num).
Local Abbreviation sy_reached := (reached sy_num).
Definition sy_play (acts : list act) (s : state) : state := default s (play sy_draw step acts s).
Definition two_systems : list SystemRecord := [example_system "a1" "web" Status_Up; example_system "b1" "db" Status_Up].
Definition opened_page (c : ChartTimes) : state := first_state "a1" [] [] c T1h false true 1767225600000.
(** the store has come: the page asks for the details and the records of its system *)
Definition web_known (c : ChartTimes) : state := systems_changed two_systems true (opened_page c).
Definition web_request : fetch := default (ex_fetch T1h) (head (flights (web_known T1h))).
Definition web_shown : state := answered web_request [] true (Some ex_answer) (Some []) (web_known T1h).
Lemma opened_reached c : sy_reached (opened_page c).
Proof. apply at_start. by exists "a1"%string, [], [], c, T1h, false, true, 1767225600000%Z. Qed.
Lemma web_known_reached c : sy_reached (web_known c).
Proof.
  apply (from_outside _ _ _ _ (opened_page c)); [apply opened_reached|]. apply store; [by repeat constructor|done].
Qed.
Lemma system_page_witness :
  sb_system <$> live (web_known T1m) = Some "a1"%string
  ∧ live web_shown = None ∧ shows_kept (the_page web_shown) "a1".
Proof.
  split.
  - apply (proj1 (proj2 (system_page sy_num (web_known T1m) (web_known_reached T1m))) (example_system "a1" "web" Status_Up)); reflexivity.
  - assert (sy_reached web_shown) as Hr.
    { apply (from_outside _ _ _ _ (web_known T1h)); [apply web_known_reached|]. by apply (records_answered (web_known T1h) []). }
    destruct (proj1 (proj2 (system_page sy_num web_shown Hr)) (example_system "a1" "web" Status_Up) eq_refl) as [_ H].
    destruct H as (H1 & _ & H2); [by vm_compute|done|]. split; [exact H1|]. by apply H2.
Defined.
(** the key goes on to the next system before the subscription's promise is kept: it is never ended, and what it
    is told is drawn as the next system's *)
Definition went_on : state := sy_play [Click "key" "l"]%string (web_known T1m).
Example measurements_of_another :
  route went_on = "b1"%string ∧ leaked went_on = ["a1"]%string ∧ (sb_system <$> live went_on) = Some "b1"%string
  ∧ length (systemStats (the_page (measured_now [] example_stats went_on))) = 1.
Proof. by vm_compute. Qed.
(** records that come after those of the next system are drawn as its records *)
Example records_of_another :
  let s := sy_play [Click "key" "l"]%string (web_known T1h) in
  (fe_system <$> flights s) = ["a1"; "b1"]%string
  ∧ match flights s with
    | [f; g] => let s' := answered f [] true (Some ex_answer) None (answered g [f] false (Some []) None s) in
                page_id (the_page s') = "b1"%string ∧ times (systemStats (the_page s')) = ex_times
    | _ => False
    end.
Proof. vm_compute. by split_and!. Qed.
(** an agent that supports the minute is offered it only once records have been answered *)
Example minute_offered_late :
  version (web_known T1h) = None ∧ perform (Choose "Period" "1 minute") (sy_draw (web_known T1h)) = None
  ∧ perform (Choose "Period" "1 minute") (sy_draw web_shown) ≠ None.
Proof. vm_compute. by split_and!. Qed.
