(* ===== verification/ChartsUi.v ===== *)
(** * What the charts show: [components/charts/], [components/ui/chart.tsx], the charts of
    [components/routes/system.tsx], [cpu-sheet.tsx] and [network-sheet.tsx]

    Every chart as it is handed to the drawing library: its rows, its series with their keys and colours, its axis and
    what its tooltip is made of; the box of the tooltip over a row; the width of the axis, which is measured after
    the labels are drawn; and the memo that keeps a drawing.  The library is an interface: the items it hands to the
    tooltip, and what an array sorted by an inconsistent comparator looks like.  The data behind the charts
    is that of [Charts], [ChartView] and [ChartParts]. *)
From Stdlib Require Import Ascii QArith Qround Lia ZArith Sorting.Sorted.
From stdpp Require Import sorting.
From S2P Require Import AlertHistory Prelude JsValue JsDate Types Utils Charts ChartView ChartParts.
Open Scope Z_scope.

(** ** Charts *)

Inductive color := Theme (n : Z) | Css (text : string) | Hsl (hue : Q) (rest : string).
(** an area or a line; a key that gives nothing leaves a gap *)
Record series (R : Type) := {
  se_name : string; se_color : color; se_opacity : Q; se_dimmed : bool; se_stack : option string; se_order : nat;
  se_key : R → option jsnum }.
Arguments se_name {R} _. Arguments se_color {R} _. Arguments se_opacity {R} _. Arguments se_dimmed {R} _.
Arguments se_stack {R} _. Arguments se_order {R} _. Arguments se_key {R} _ _.
(** an item of the tooltip *)
Record item (R : Type) := { it_name : string; it_value : jsnum; it_order : nat; it_row : R }.
Arguments it_name {R} _. Arguments it_value {R} _. Arguments it_order {R} _. Arguments it_row {R} _.
Inductive y_domain := ZeroTo (top : jsnum) | ZeroAuto | AutoAuto | Pinned.
Record y_axis := { ya_domain : y_domain; ya_count : option nat; ya_tick : Q → string }.
Inductive sorter := ByValue | ByOrder | Always1.
Record plot (R : Type) := {
  ch_lines : bool; ch_data : list R; ch_reverse : bool; ch_axis : option y_axis; ch_series : list (series R);
  ch_sorter : option sorter; ch_filter : string; ch_total : bool; ch_truncate : bool;
  ch_content : string → jsnum → R → string;    (* by the key of the item, its value and its row *)
  ch_legend : option bool }.                    (* whether it is in the order of the series turned round *)
Arguments ch_lines {R} _. Arguments ch_data {R} _. Arguments ch_reverse {R} _. Arguments ch_axis {R} _. Arguments ch_series {R} _.
Arguments ch_sorter {R} _. Arguments ch_filter {R} _. Arguments ch_total {R} _. Arguments ch_truncate {R} _.
Arguments ch_content {R} _ _ _ _. Arguments ch_legend {R} _.

(** ** The drawing library *)

(** the items of a row: those of the series that have a value there *)
Definition valued_items {R} (l : list (series R)) (r : R) : list (item R) :=
  omap (λ s, (λ v, {| it_name := se_name s; it_value := v; it_order := se_order s; it_row := r |}) <$> se_key s r) l.
Class Engine := {
  tooltip_payload : ∀ {R}, list (series R) → R → list (item R);
  constant_sort : ∀ {A}, Q → list A → list A }.
(** what the charts rely on: missing values are left out, and sorting loses nothing, whatever the comparator says *)
Class EngineLaws `(Engine) : Prop := {
  payload_items {R} (l : list (series R)) r : tooltip_payload l r ≡ₚ valued_items l r;
  constant_sort_perm {A} k (l : list A) : constant_sort k l ≡ₚ l }.
Definition reference_engine : Engine := {| tooltip_payload R l r := valued_items l r; constant_sort A k l := l |}.
#[export] Instance reference_engine_laws : EngineLaws reference_engine.
Proof. by split. Qed.

(** ** The tooltip *)

Section Tooltip.
Context `{Engine} `{ShortDateFormat} `{DateParse}.

Definition finite (v : jsnum) : option Q := match v with Fin q => Some q | _ => None end.
Definition value_lt (a b : jsnum) : bool := match a, b with Fin a, Fin b => Qltb a b | _, _ => false end.
Definition sort_items {R} (k : sorter) (l : list (item R)) : list (item R) :=
  match k with
  | ByValue => js_sort (λ a b, value_lt (it_value a) (it_value b)) l
  | ByOrder => js_sort (λ a b, (it_order b <? it_order a)%nat) l
  | Always1 => constant_sort 1 l
  end.
Definition filter_words (filter : string) : list string :=
  List.filter (λ t, (0 <? String.length t)%nat) (str_split " " (str_lower filter)).
(** whether an item of the name passes the filter *)
Definition passes (filter name : string) : bool :=
  negb (truthy filter) || existsb (str_includes (str_lower name)) (filter_words filter).
(** [formatShortDate] of a row's time: no date throws *)
Definition short_date (c : created) : option string :=
  match c with Time t => Some (format_short t) | Null => Some (format_short 0) | Text s => format_short <$> date_parse s | NotATime => None end.

Record box := { box_label : option string; box_rows : list (string * string); box_total : option string }.
Definition tooltip_items {R} (c : plot R) (r : R) : list (item R) :=
  let items := List.filter (λ i, passes (ch_filter c) (it_name i)) (tooltip_payload (ch_series c) r) in
  match ch_sorter c with Some k => sort_items k items | None => items end.
(** the total of the items, as an item of its own *)
Definition total_text {R} (c : plot R) (items : list (item R)) : option string :=
  match items with
  | first :: _ =>
      let values := omap (finite ∘ it_value) items in
      if ch_total c && (0 <? length values)%nat
      then Some (ch_content c "__total__" (Fin (foldl Qplus 0%Q values)) (it_row first)) else None
  | [] => None
  end.
Definition tooltip_box {R} (time : R → created) (c : plot R) (r : R) : option box :=
  match tooltip_items c r with
  | [] => None
  | (first :: _) as items => Some {|
      box_label := short_date (time (it_row first));
      box_rows := (λ i, (it_name i, ch_content c (it_name i) (it_value i) (it_row i))) <$> items;
      box_total := total_text c items |}
  end.
(** [ChartLegendContent]: the names below the chart *)
Definition legend_names {R} (c : plot R) : list string :=
  match ch_legend c with Some reverse => legend_items reverse (se_name <$> ch_series c) | None => [] end.
End Tooltip.

(** ** Numbers on axes and in tooltips *)

Section Drawing.
Context `{Engine} `{Intl} (num_str : Q → string).

(** the user's settings, what the page has loaded, and whether it shows maxima *)
Record units := { u_net : Unit; u_disk : Unit; u_temp : option Unit }.
Record chart_data := { cd_stats : list SystemStatsRecord; cd_containers : list container_point; cd_agentVersion : SemVer }.
Definition latest (d : chart_data) : option SystemStats := r ← last (cd_stats d); sr_stats r.

(** a number that is none goes through every comparison as larger *)
Definition no_number (v : jsnum) : string := match v with Inf true => "-∞" | Inf false => "∞" | _ => "NaN" end.
Definition largest_unit (perSecond : bool) (unit : Unit) : string :=
  if decide (unit = Unit_Bits) then "Tb" +:+ (if perSecond then "ps" else "") else "TB" +:+ (if perSecond then "/s" else "").
Definition raw_text (v : jsnum) : string := match v with Fin q => num_str q | _ => no_number v end.
Definition decimal (digits : nat) (v : jsnum) : string := match v with Fin q => (decimalString [] q digits).1 | _ => no_number v end.
Definition bytes_content (perSecond : bool) (unit : Unit) (megabytes : bool) (digits : Q → nat) (v : jsnum) : string :=
  match v with
  | Fin q => let '(x, u) := formatBytes q perSecond unit megabytes in (decimalString [] x (digits x)).1 +:+ " " +:+ u
  | _ => no_number v +:+ " " +:+ largest_unit perSecond unit
  end.
Definition fewer_from_100 (x : Q) : nat := if Qle_bool 100 x then 1 else 2.
Definition bytes_tick (perSecond : bool) (unit : Unit) (megabytes : bool) (v : Q) : string :=
  let '(x, u) := tick_bytes v unit perSecond megabytes in num_str x +:+ " " +:+ u.
Definition percent_tick (v : Q) : string := num_str (tick_percent v).1 +:+ (tick_percent v).2.
Definition raw_percent (v : Q) : string := num_str v +:+ "%".
(** the ticks of the memory and swap charts *)
Definition size_tick_text (unit : Unit) (v : Q) : string := num_str (size_tick unit v).1 +:+ (size_tick unit v).2.
Definition size_text (unit : Unit) (v : jsnum) : string :=
  match v with Fin q => size_content unit q | _ => no_number v +:+ " " +:+ largest_unit false unit end.

(** ** [AreaChartDefault] and [LineChartDefault] *)

Section Default.
Context {R : Type}.
(** what the callers of the two vary; nothing is drawn without records *)
Record default_props := {
  p_series : list (series R); p_tick : Q → string; p_content : string → jsnum → R → string;
  p_max : option Q; p_domain : option y_domain; p_legend : bool; p_sorter : option sorter;
  p_total : bool; p_reverse : bool; p_hide_axis : bool }.
Definition default_domain (p : default_props) : y_domain :=
  match p_domain p with Some d => d | None => match p_max p with Some q => ZeroTo (Fin q) | None => ZeroAuto end end.
Definition default_axis (p : default_props) : option y_axis :=
  if p_hide_axis p then None else Some {| ya_domain := default_domain p; ya_count := None; ya_tick := p_tick p |}.
Definition AreaChartDefault (data : list R) (p : default_props) : option (plot R) :=
  match data with
  | [] => None
  | _ => Some {|
      ch_lines := false; ch_data := data; ch_reverse := p_reverse p; ch_axis := default_axis p; ch_series := p_series p;
      ch_sorter := p_sorter p; ch_filter := ""; ch_total := p_total p; ch_truncate := false; ch_content := p_content p;
      ch_legend := if p_legend p then Some (p_reverse p) else None |}
  end.
Definition LineChartDefault (data : list R) (p : default_props) : option (plot R) :=
  match data with
  | [] => None
  | _ => Some {|
      ch_lines := true; ch_data := data; ch_reverse := false;
      ch_axis := Some {| ya_domain := default_domain p; ya_count := None; ya_tick := p_tick p |}; ch_series := p_series p;
      ch_sorter := p_sorter p; ch_filter := ""; ch_total := false; ch_truncate := false; ch_content := p_content p;
      ch_legend := if p_legend p then Some false else None |}
  end.
End Default.
Arguments default_props R : clear implicits.

Abbreviation stats_series := (series SystemStatsRecord).
Definition area (name : string) (c : color) (opacity : Q) (key : option SystemStats → option jsnum) : stats_series := {|
  se_name := name; se_color := c; se_opacity := opacity; se_dimmed := false; se_stack := None; se_order := 0;
  se_key := λ r, key (sr_stats r) |}.
Definition stacked {R} (stack : string) (order : nat) (s : series R) : series R := {|
  se_name := se_name s; se_color := se_color s; se_opacity := se_opacity s; se_dimmed := se_dimmed s; se_stack := Some stack;
  se_order := order; se_key := se_key s |}.
Definition props (l : list stats_series) (tick : Q → string) (content : jsnum → string) : default_props SystemStatsRecord := {|
  p_series := l; p_tick := tick; p_content := λ _ v _, content v; p_max := None; p_domain := None; p_legend := false;
  p_sorter := None; p_total := false; p_reverse := false; p_hide_axis := false |}.
Definition with_domain {R} (d : y_domain) (p : default_props R) : default_props R := {|
  p_series := p_series p; p_tick := p_tick p; p_content := p_content p; p_max := p_max p; p_domain := Some d; p_legend := p_legend p;
  p_sorter := p_sorter p; p_total := p_total p; p_reverse := p_reverse p; p_hide_axis := p_hide_axis p |}.
Definition with_top {R} (q : option Q) (p : default_props R) : default_props R := {|
  p_series := p_series p; p_tick := p_tick p; p_content := p_content p; p_max := q; p_domain := p_domain p; p_legend := p_legend p;
  p_sorter := p_sorter p; p_total := p_total p; p_reverse := p_reverse p; p_hide_axis := p_hide_axis p |}.
Definition with_total {R} (p : default_props R) : default_props R := {|
  p_series := p_series p; p_tick := p_tick p; p_content := p_content p; p_max := p_max p; p_domain := p_domain p; p_legend := p_legend p;
  p_sorter := p_sorter p; p_total := true; p_reverse := p_reverse p; p_hide_axis := p_hide_axis p |}.
Definition with_legend {R} (legend : bool) (k : option sorter) (p : default_props R) : default_props R := {|
  p_series := p_series p; p_tick := p_tick p; p_content := p_content p; p_max := p_max p; p_domain := p_domain p; p_legend := legend;
  p_sorter := k; p_total := p_total p; p_reverse := p_reverse p; p_hide_axis := p_hide_axis p |}.
Definition turned_round {R} (hide : bool) (p : default_props R) : default_props R := {|
  p_series := p_series p; p_tick := p_tick p; p_content := p_content p; p_max := p_max p; p_domain := p_domain p; p_legend := p_legend p;
  p_sorter := p_sorter p; p_total := p_total p; p_reverse := true; p_hide_axis := hide |}.

(** ** The charts of the page of a system *)

Section Page.
Context (d : chart_data) (u : units) (showMax : bool).
Definition cpu_chart : option (plot SystemStatsRecord) :=
  AreaChartDefault (cd_stats d)
    (with_domain Pinned (props [area "CPU Usage" (Theme 1) (4 # 10) (λ s, Fin <$> cpu_key showMax s)] percent_tick
                           (λ v, decimal 2 v +:+ "%"))).
Definition rate_props (unit : Unit) (l : list stats_series) : default_props SystemStatsRecord :=
  props l (bytes_tick true unit false) (bytes_content true unit false fewer_from_100).
Definition disk_io_chart : option (plot SystemStatsRecord) :=
  AreaChartDefault (cd_stats d)
    (with_total (rate_props (u_disk u)
      [area "Write" (Theme 3) (3 # 10) (λ s, Some (Fin (disk_write showMax s)));
       area "Read" (Theme 1) (3 # 10) (λ s, Some (Fin (disk_read showMax s)))])).
(** the smaller of the latest numbers is to come last: the comparator says the same of every pair *)
Definition bandwidth_order : Q := (default 0 (b ← latest d; snd <$> st_b b) - default 0 (b ← latest d; fst <$> st_b b))%Q.
Definition bandwidth_chart : option (plot SystemStatsRecord) :=
  AreaChartDefault (cd_stats d)
    (with_total (rate_props (u_net u)
      (constant_sort bandwidth_order
        [area "Sent" (Theme 5) (2 # 10) (λ s, Some (bandwidth_sent showMax s));
         area "Received" (Theme 2) (2 # 10) (λ s, Some (bandwidth_received showMax s))]))).
Definition battery_chart : option (plot SystemStatsRecord) :=
  AreaChartDefault (cd_stats d)
    (with_domain (ZeroTo (Fin 100)) (props [area "Charge" (Theme 1) (35 # 100) (λ s, Fin ∘ inject_Z <$> battery_key s)] raw_percent
                                       (λ v, raw_text v +:+ "%"))).
Definition gpu_usage_chart (id : string) : option (plot SystemStatsRecord) :=
  AreaChartDefault (cd_stats d)
    (props [area "Usage" (Theme 1) (35 # 100) (λ s, Some (Fin (gpu_usage id s)))] percent_tick (λ v, decimal 2 v +:+ "%")).
Definition gpu_vram_chart (id : string) : option (plot SystemStatsRecord) :=
  AreaChartDefault (cd_stats d)
    (with_top (g ← gpu_of id (latest d); gpu_mt g)
      (props [area "Usage" (Theme 2) (25 # 100) (λ s, Some (Fin (gpu_vram id s)))] (bytes_tick false Unit_Bytes true)
        (bytes_content false Unit_Bytes true (λ _, 2%nat)))).
Definition fs_io_chart (name : string) : option (plot SystemStatsRecord) :=
  AreaChartDefault (cd_stats d)
    (rate_props (u_disk u)
      [area "Write" (Theme 3) (3 # 10) (λ s, Some (Fin (fs_write showMax name s)));
       area "Read" (Theme 1) (3 # 10) (λ s, Some (Fin (fs_read showMax name s)))]).
Definition gpu_engines_chart : option (plot SystemStatsRecord) :=
  match gpu_engines (cd_stats d) with
  | Some (id, engines) => if negb (truthy id) then None else
      LineChartDefault (cd_stats d)
        (with_legend true None
          (props (imap (λ i e, area e (Hsl (140 + hue i (length engines)) "65%, 52%") (35 # 100) (λ s, Some (Fin (gpu_engine id e s)))) engines)
             percent_tick (λ v, decimal 2 v +:+ "%")))
  | None => None
  end.

(** *** [MemChart], [SwapChart], [DiskChart], [LoadAverageChart] *)

Definition plain_chart (lines : bool) (axis : option y_axis) (l : list stats_series) (content : jsnum → string) : plot SystemStatsRecord := {|
  ch_lines := lines; ch_data := cd_stats d; ch_reverse := false; ch_axis := axis; ch_series := l; ch_sorter := None; ch_filter := "";
  ch_total := false; ch_truncate := false; ch_content := λ _ v _, content v; ch_legend := None |}.
Definition some_records {A} (c : A) : option A := match cd_stats d with [] => None | _ => Some c end.
Definition mem_series (name : string) (c : color) (opacity : Q) (order : nat) (i : nat) : stats_series :=
  stacked "1" order (area name c opacity (λ s, x ← mem_areas showMax s !! i; Fin <$> x.2)).
Definition MemChart : option (plot SystemStatsRecord) :=
  some_records {|
    ch_lines := false; ch_data := cd_stats d; ch_reverse := false;
    ch_axis := (λ b : Q * Q, {| ya_domain := ZeroTo (Fin b.2); ya_count := Some 9%nat; ya_tick := size_tick_text Unit_Bytes |})
                 <$> mem_axis (latest d);
    ch_series := [mem_series "Used" (Theme 2) (4 # 10) 3 0;
                  mem_series "ZFS ARC" (Css "hsla(175 60% 45% / 0.8)") (1 # 2) 2 1;
                  mem_series "Cache / Buffers" (Css "hsla(160 60% 45% / 0.5)") (4 # 10) 1 2];
    ch_sorter := Some ByOrder; ch_filter := ""; ch_total := true; ch_truncate := false;
    ch_content := λ _ v _, size_text Unit_Bytes v; ch_legend := None |}.
Definition SwapChart : option (plot SystemStatsRecord) :=
  some_records
    (plain_chart false (Some {| ya_domain := ZeroTo (Fin (swap_top (latest d))); ya_count := None; ya_tick := size_tick_text (u_disk u) |})
      [area "Used" (Theme 2) (4 # 10) (λ s, Fin <$> prop st_su s)] (size_text (u_disk u))).
(** a size that is unknown is no number *)
Definition disk_size_top (size : option Q) : jsnum := match size with Some q => Fin (disk_top q) | None => NaN end.
Definition disk_tick_text (v : Q) : string := num_str (disk_tick v).1 +:+ (disk_tick v).2.
Definition DiskChart (key : option SystemStats → option Q) (size : option Q) : option (plot SystemStatsRecord) :=
  some_records
    (plain_chart false (Some {| ya_domain := ZeroTo (disk_size_top size); ya_count := Some 9%nat; ya_tick := disk_tick_text |})
      [area "Disk Usage" (Theme 4) (4 # 10) (λ s, Fin <$> key s)]
      (λ v, match v with Fin q => bytes_content false Unit_Bytes true (λ _, 2%nat) (Fin (q * 1024)) | _ => bytes_content false Unit_Bytes true (λ _, 2%nat) v end)).
Definition disk_chart : option (plot SystemStatsRecord) := DiskChart (λ s, st_du <$> s) (l ← latest d; st_d l).
Definition fs_usage_chart (name : string) : option (plot SystemStatsRecord) :=
  DiskChart (fs_usage name) (fs_d <$> fs_of name (latest d)).
(** the only chart that is drawn without records *)
Definition load_average_chart : plot SystemStatsRecord :=
  let c := plain_chart true (Some {| ya_domain := ZeroAuto; ya_count := None; ya_tick := λ v, num_str (toFixedFloat v 2) |})
             (imap (λ i l, area l.1 (Css l.2) 1 (λ s, Fin <$> load_key (cd_agentVersion d) i s)) load_lines) (decimal 2) in
  {| ch_lines := ch_lines c; ch_data := ch_data c; ch_reverse := false; ch_axis := ch_axis c; ch_series := ch_series c; ch_sorter := None;
     ch_filter := ""; ch_total := false; ch_truncate := false; ch_content := ch_content c; ch_legend := Some false |}.

(** *** [TemperatureChart] and [GpuPowerChart] draw rows of their own *)

Definition own_series {R} (name : string) (c : color) (dimmed : bool) (key : R → option jsnum) : series R := {|
  se_name := name; se_color := c; se_opacity := 1; se_dimmed := dimmed; se_stack := None; se_order := 0; se_key := key |}.
Definition temperature_chart (filter : string) : option (plot (created * jsmap Q)) :=
  let t := temperatureData (cd_stats d) in
  let dimmed := dimmed_lines filter t in
  some_records {|
    ch_lines := true; ch_data := td_rows t; ch_reverse := false;
    ch_axis := Some {| ya_domain := AutoAuto; ya_count := None;
                       ya_tick := λ v, num_str (temperature_tick (u_temp u) v).1 +:+ (temperature_tick (u_temp u) v).2 |};
    ch_series := (λ c : string * Q, own_series c.1 (Hsl c.2 "60%, 55%") (bool_decide (c.1 ∈ dimmed)) (λ row, Fin <$> jget c.1 row.2)) <$> td_colors t;
    ch_sorter := Some ByValue; ch_filter := filter; ch_total := false; ch_truncate := false;
    ch_content := λ _ v _, match v with
      | Fin q => let '(x, unit) := formatTemperature (u_temp u) q (u_temp u) in (decimalString [] x 2).1 +:+ " " +:+ unit
      | _ => no_number v +:+ " " +:+ (formatTemperature (u_temp u) 0 (u_temp u)).2 end;
    ch_legend := if temperature_legend t then Some false else None |}.
Definition gpu_power_rows : list (created * jsmap GPUData) := (λ r, (sr_created r, gpu_row (gpus_of r))) <$> cd_stats d.
Definition gpu_power_chart : option (plot (created * jsmap GPUData)) :=
  let lines := gpu_lines (cd_stats d) in
  some_records {|
    ch_lines := true; ch_data := gpu_power_rows; ch_reverse := false;
    ch_axis := Some {| ya_domain := ZeroAuto; ya_count := None; ya_tick := λ v, num_str (toFixedFloat v 2) +:+ "W" |};
    ch_series := (λ l : string * Q, own_series l.1 (Hsl l.2 "65%, 52%") false (λ row, Some (Fin (gpu_value l.1 row.2)))) <$> lines;
    ch_sorter := Some ByValue; ch_filter := ""; ch_total := false; ch_truncate := false;
    ch_content := λ _ v _, decimal 2 v +:+ "W"; ch_legend := if (1 <? length lines)%nat then Some false else None |}.

(** *** [ContainerChart] *)

Definition rx_tx (p : Q * Q) : string :=
  bytes_content true (u_net u) false (λ _, 2%nat) (Fin p.1) +:+ " rx " +:+ bytes_content true (u_net u) false (λ _, 2%nat) (Fin p.2) +:+ " tx".
Definition container_content (k : metric) (dimmed : list string) (key : string) (v : jsnum) (p : container_point) : string :=
  match k with
  | Network => rx_tx (network_tooltip dimmed key p)
  | Memory => bytes_content false Unit_Bytes true (λ _, 2%nat) v
  | Cpu => decimal 2 v +:+ "%"
  end.
Definition container_tick (k : metric) (v : Q) : string :=
  match k with
  | Cpu => num_str (toFixedFloat v 2) +:+ "%"
  | Memory => bytes_tick false Unit_Bytes true v
  | Network => bytes_tick true (u_net u) false v
  end.
Definition ContainerChart (k : metric) (filter : string) : option (plot container_point) :=
  let config := chartConfig k (cd_containers d) in
  let dimmed := filteredKeys filter (jkeys config) in
  match cd_containers d with
  | [] => None
  | _ => Some {|
      ch_lines := false; ch_data := cd_containers d; ch_reverse := true;
      ch_axis := Some {| ya_domain := Pinned; ya_count := None; ya_tick := container_tick k |};
      ch_series := (λ c : string * Q, let off := bool_decide (c.1 ∈ dimmed) in {|
          se_name := c.1; se_color := Hsl c.2 "var(--plot-saturation), var(--plot-lightness)";
          se_opacity := if off then 5 # 100 else 4 # 10; se_dimmed := off; se_stack := Some "a"%string; se_order := 0;
          se_key := λ p, Fin <$> container_value k c.1 p |}) <$> config;
      ch_sorter := Some ByValue; ch_filter := filter; ch_total := true; ch_truncate := true;
      ch_content := container_content k dimmed; ch_legend := None |}
  end.

(** *** Every chart of the page *)

Inductive any_chart :=
| Records (c : plot SystemStatsRecord) | Points (c : plot container_point)
| Sensors (c : plot (created * jsmap Q)) | Gpus (c : plot (created * jsmap GPUData)).
(** what a card of [ChartView] holds: nothing while there is nothing to draw; the tables are pages of their own *)
Definition chart_of (containerFilter temperatureFilter : string) (x : ChartView.chart) : option any_chart :=
  match x with
  | ChartView.CpuChart => Records <$> cpu_chart
  | ChartView.DockerCpu => Points <$> ContainerChart Cpu containerFilter
  | ChartView.MemoryChart => Records <$> MemChart
  | ChartView.DockerMemory => Points <$> ContainerChart Memory containerFilter
  | ChartView.DiskUsage => Records <$> disk_chart
  | ChartView.DiskIO => Records <$> disk_io_chart
  | ChartView.Bandwidth => Records <$> bandwidth_chart
  | ChartView.DockerNetwork => Points <$> ContainerChart Network containerFilter
  | ChartView.SwapChart => Records <$> SwapChart
  | ChartView.LoadAverageChart => Some (Records load_average_chart)
  | ChartView.TemperatureChart => Sensors <$> temperature_chart temperatureFilter
  | ChartView.BatteryChart _ => Records <$> battery_chart
  | ChartView.GpuPowerChart => Gpus <$> gpu_power_chart
  | ChartView.GpuEnginesChart => Records <$> gpu_engines_chart
  | ChartView.GpuUsage id => Records <$> gpu_usage_chart id
  | ChartView.GpuVram id => Records <$> gpu_vram_chart id
  | ChartView.ExtraFsUsage name => Records <$> fs_usage_chart name
  | ChartView.ExtraFsIO name => Records <$> fs_io_chart name
  | ChartView.SmartTable | ChartView.ContainersTable | ChartView.SystemdTable | ChartView.PackageUpdatesTable => None
  end.

(** ** The sheets *)

Record sheet_card := { sc_title : string; sc_description : string; sc_legend : bool; sc_chart : option (plot SystemStatsRecord) }.
Definition breakdown_series : list stats_series :=
  stacked "a" 0 <$>
  (zip_with (λ (l : string * nat) n, area l.1 (Theme n) (35 # 100) (λ s, Fin ∘ inject_Z <$> breakdown_key l.2 s)) breakdown_labels [3; 1; 4; 5; 2]
   ++ [area "Other" (Css "hsl(80, 65%, 52%)") (35 # 100) (λ s, Fin ∘ inject_Z <$> other_key s)]).
Definition breakdown_chart : option (plot SystemStatsRecord) :=
  AreaChartDefault (cd_stats d)
    (turned_round false (with_legend true (Some Always1) (with_domain (ZeroTo (Fin 100)) (props breakdown_series percent_tick (λ v, decimal 2 v +:+ "%"))))).
Definition core_color (i numCores : nat) (rest : string) : color := Hsl (core_hue i numCores) rest.
Definition core_name (i : nat) : string := "CPU " +:+ z_str (Z.of_nat i).
Definition all_cores_chart (numCores : nat) : option (plot SystemStatsRecord) :=
  AreaChartDefault (cd_stats d)
    (turned_round true (with_legend (numCores <? 10)%nat (Some Always1)
      (props ((λ i, stacked "a" 0 (area (core_name i) (core_color i numCores "var(--plot-saturation), var(--plot-lightness)") (35 # 100)
                                     (λ s, Some (core_key i s)))) <$> seq 0 numCores)
         raw_percent (λ v, raw_text v +:+ "%")))).
Definition core_chart (i numCores : nat) : option (plot SystemStatsRecord) :=
  AreaChartDefault (cd_stats d)
    (props [area "Usage" (core_color i numCores "65%, 52%") (35 # 100) (λ s, Fin ∘ inject_Z <$> (l ← prop st_cpus s; l !! i))] raw_percent
       (λ v, raw_text v +:+ "%")).
(** [CpuCoresSheet]: no sheet for older agents; its content once it has been opened *)
Definition cpu_cards : option (list sheet_card) :=
  match cpu_sheet (cd_agentVersion d) (latest d) with
  | None => None
  | Some (hasBreakdown, numCores, showLegend) => Some
     (when hasBreakdown [{| sc_title := "CPU Time Breakdown"; sc_description := "Percentage of time spent in each state"; sc_legend := true;
                            sc_chart := breakdown_chart |}]
      ++ when (0 <? numCores)%nat [{| sc_title := "CPU Cores"; sc_description := "Per-core average utilization"; sc_legend := showLegend;
                                      sc_chart := all_cores_chart numCores |}]
      ++ ((λ i, {| sc_title := core_name i; sc_description := "Per-core average utilization"; sc_legend := false; sc_chart := core_chart i numCores |})
            <$> seq 0 numCores))
  end.
Definition interface_series (index : nat) (lines : list (string * Q)) : list stats_series :=
  (λ l : string * Q, area l.1 (Hsl l.2 "70%, 50%") (3 # 10) (λ s, Fin <$> interface_key l.1 index s)) <$> lines.
Definition interface_chart (perSecond : bool) (index : nat) (lines : list (string * Q)) (legend : bool) : option (plot SystemStatsRecord) :=
  AreaChartDefault (cd_stats d)
    (with_legend legend (if perSecond then Some ByValue else None)
      (props (interface_series index lines) (bytes_tick perSecond (u_net u) false) (bytes_content perSecond (u_net u) false fewer_from_100))).
(** [NetworkSheet]: no sheet without interfaces *)
Definition network_cards : option (list sheet_card) :=
  match network_sheet (latest d) with
  | None => None
  | Some (lines, legend) => Some (imap (λ i (t : string * nat), {|
      sc_title := t.1;
      sc_description := match i with
        | 0%nat | 1%nat => "Network traffic of public interfaces" | 2%nat => "Total data received for each interface"
        | _ => "Total data sent for each interface" end;
      sc_legend := legend; sc_chart := interface_chart (i <? 2)%nat t.2 lines legend |}) net_charts)
  end.
End Page.
End Drawing.

(** ** [useYAxisWidth]: the width of the axis *)

(** what a drawing's function for labels knows: the width when it was made, the longest label so far, and the one to measure *)
Record closure := { cl_captured : Z; cl_maxChars : nat; cl_timer : option string }.
Record axis_hook := { yAxisWidth : Z; closures : list closure }.
Definition render_axis (h : axis_hook) : axis_hook := {|
  yAxisWidth := yAxisWidth h; closures := closures h ++ [{| cl_captured := yAxisWidth h; cl_maxChars := 0; cl_timer := None |}] |}.
Definition updateYAxisWidth (str : string) (c : closure) : closure :=
  if (cl_maxChars c <? String.length str)%nat
  then {| cl_captured := cl_captured c; cl_maxChars := String.length str; cl_timer := Some str |} else c.
Definition measured_width (offsetWidth : string → Z) (str : string) (c : closure) (width : Z) : Z :=
  if cl_captured c <? offsetWidth str + 24 then offsetWidth str + 24 else width.
Definition timer_over (c : closure) : closure := {| cl_captured := cl_captured c; cl_maxChars := cl_maxChars c; cl_timer := None |}.
Inductive axis_step (offsetWidth : string → Z) (h : axis_hook) : axis_hook → Prop :=
| rendered : axis_step offsetWidth h (render_axis h)
| label_drawn i c str : closures h !! i = Some c →
    axis_step offsetWidth h {| yAxisWidth := yAxisWidth h; closures := <[i := updateYAxisWidth str c]> (closures h) |}
| measured i c str : closures h !! i = Some c → cl_timer c = Some str →
    axis_step offsetWidth h {| yAxisWidth := measured_width offsetWidth str c (yAxisWidth h); closures := <[i := timer_over c]> (closures h) |}.
Definition new_axis : axis_hook := {| yAxisWidth := 0; closures := [] |}.
(** a chart is transparent until its axis has a width *)
Definition opaque (hideYAxis : bool) (h : axis_hook) : bool := negb (yAxisWidth h =? 0) || hideYAxis.

(** ** The memo of a drawing *)

(** the last record, named by a number, the width, the choice of the maximum and of the total *)
Record memo_deps := { md_last : option nat; md_width : Z; md_maxToggled : bool; md_showTotal : bool }.
#[export] Instance memo_deps_eq : EqDecision memo_deps. Proof. solve_decision. Defined.
Definition memo_drawing {A} (deps : memo_deps) (drawing : A) (kept : option (memo_deps * A)) : A :=
  match kept with Some (old, a) => if decide (old = deps) then a else drawing | None => drawing end.

(** ** Theorems: the tooltip *)

Section TooltipTheorems.
Context {En : Engine} {EL : EngineLaws En} {SD : ShortDateFormat} {DP : DateParse}.

Lemma sort_items_perm {R} k (l : list (item R)) : sort_items k l ≡ₚ l.
Proof. destruct k; cbn; [apply sort_perm|apply sort_perm|apply constant_sort_perm]. Qed.
(** the items the tooltip is about: those of the series with a value, whose name passes the filter *)
Definition wanted {R} (c : plot R) (r : R) : list (item R) :=
  List.filter (λ i, passes (ch_filter c) (it_name i)) (valued_items (ch_series c) r).
Lemma tooltip_items_perm {R} (c : plot R) r : tooltip_items c r ≡ₚ wanted c r.
Proof.
  unfold tooltip_items, wanted. rewrite <-(filter_perm _ _ _ (payload_items (ch_series c) r)).
  destruct (ch_sorter c); [apply sort_items_perm|done].
Qed.
Lemma shown_item {R} (l : list (series R)) r i :
  i ∈ valued_items l r ↔ ∃ s v, s ∈ l ∧ se_key s r = Some v ∧ i = {| it_name := se_name s; it_value := v; it_order := se_order s; it_row := r |}.
Proof.
  unfold valued_items. rewrite list_elem_of_omap. split.
  - intros (s & Hs & (v & Hv & ->)%fmap_Some). by exists s, v.
  - intros (s & v & Hs & Hv & ->). exists s. split; [done|]. by rewrite Hv.
Qed.
Lemma wanted_row {R} (c : plot R) r i : i ∈ wanted c r → it_row i = r.
Proof. unfold wanted. rewrite list_elem_of_In, filter_In, <-list_elem_of_In, shown_item. by intros [(s & v & _ & _ & ->) _]. Qed.
Lemma item_row {R} (c : plot R) r i : i ∈ tooltip_items c r → it_row i = r.
Proof. rewrite (tooltip_items_perm c r). apply wanted_row. Qed.

(** the sum of the finite values *)
Definition qsum (l : list Q) : Q := foldr Qplus 0%Q l.
Lemma foldl_qsum l a : (foldl Qplus a l == a + qsum l)%Q.
Proof. revert a. unfold qsum. induction l as [|x l IH]; intros a; cbn [foldl foldr]; [ring|]. rewrite IH. ring. Qed.
Lemma qsum_perm l m : l ≡ₚ m → (qsum l == qsum m)%Q.
Proof.
  induction 1 as [|x l m _ IH|x y l|l m k _ IH1 _ IH2]; [done|unfold qsum in *; cbn [foldr]; by rewrite IH| |by etransitivity].
  unfold qsum. cbn [foldr]. ring.
Qed.
Definition values {R} (l : list (item R)) : list Q := omap (finite ∘ it_value) l.

(** the box: its rows and its total *)
Lemma tooltip_rows {R} (time : R → created) (c : plot R) r b : tooltip_box time c r = Some b →
  box_rows b ≡ₚ (λ i, (it_name i, ch_content c (it_name i) (it_value i) r)) <$> wanted c r ∧ box_label b = short_date (time r).
Proof.
  unfold tooltip_box. pose proof (item_row c r) as Hr. pose proof (tooltip_items_perm c r) as Hp. revert Hr Hp.
  destruct (tooltip_items c r) as [|first l]; [done|]. intros Hr Hp [= <-]. cbn [box_rows box_label]. rewrite <-Hp. split.
  - apply reflexive_eq. apply (list_fmap_ext (λ i, (it_name i, ch_content c (it_name i) (it_value i) (it_row i)))
      (λ i, (it_name i, ch_content c (it_name i) (it_value i) r)) (first :: l)).
    intros i x Hx. by rewrite (Hr x) by (by apply list_elem_of_lookup_2 in Hx).
  - by rewrite (Hr first) by left.
Qed.
Lemma tooltip_none {R} (time : R → created) (c : plot R) r : tooltip_box time c r = None ↔ wanted c r = [].
Proof.
  unfold tooltip_box. pose proof (tooltip_items_perm c r) as Hp. destruct (tooltip_items c r) as [|first l].
  - apply Permutation_nil_l in Hp. by rewrite Hp.
  - split; [done|]. intros E. rewrite E in Hp. by apply Permutation_nil_r in Hp.
Qed.
Lemma tooltip_total_spec {R} (time : R → created) (c : plot R) r b : tooltip_box time c r = Some b →
  if ch_total c && (0 <? length (values (wanted c r)))%nat
  then ∃ q, (q == qsum (values (wanted c r)))%Q ∧ box_total b = Some (ch_content c "__total__" (Fin q) r)
  else box_total b = None.
Proof.
  unfold tooltip_box. pose proof (item_row c r) as Hr. pose proof (tooltip_items_perm c r) as Hp. revert Hr Hp.
  destruct (tooltip_items c r) as [|first l] eqn:E; [done|]. intros Hr Hp [= <-]. cbn [box_total]. unfold total_text.
  assert (values (first :: l) ≡ₚ values (wanted c r)) as Hv by (unfold values; by rewrite Hp).
  rewrite <-(Permutation_length Hv). fold (values (first :: l)). destruct (ch_total c && _); [|done].
  eexists. split; [|by rewrite (Hr first) by left]. rewrite foldl_qsum, Qplus_0_l. by apply qsum_perm.
Qed.
(** a chart that sorts by value has the largest on top *)
Lemma tooltip_sorted {R} (c : plot R) r : ch_sorter c = Some ByValue →
  (∀ i, i ∈ wanted c r → is_Some (finite (it_value i))) →
  StronglySorted (λ a b, default 0 (finite (it_value b)) <= default 0 (finite (it_value a)))%Q (tooltip_items c r).
Proof.
  intros Hs Hf. unfold tooltip_items. rewrite Hs. cbn [sort_items].
  set (l := List.filter _ _). assert (∀ i, i ∈ l → is_Some (finite (it_value i))) as Hl.
  { intros i Hi. apply Hf. unfold wanted. subst l. by rewrite <-(filter_perm _ _ _ (payload_items (ch_series c) r)). }
  clearbody l. pose proof (js_sort_desc (λ i : item R, default 0%Q (finite (it_value i))) l) as [_ Hd].
  assert (∀ m, (∀ i, i ∈ m → is_Some (finite (it_value i))) →
    js_sort (λ a b : item R, value_lt (it_value a) (it_value b)) m
    = js_sort (λ a b : item R, Qltb (default 0%Q (finite (it_value a))) (default 0%Q (finite (it_value b)))) m) as Hext; [|by rewrite Hext].
  clear l Hl Hd. intros m Hm. induction m as [|x m IH]; [done|]. cbn [js_sort foldr].
  change (foldr (sort_insert ?f) [] m) with (js_sort f m). rewrite IH by (intros i Hi; apply Hm; by right).
  assert (∀ i, i ∈ js_sort (λ a b : item R, Qltb (default 0%Q (finite (it_value a))) (default 0%Q (finite (it_value b)))) m →
          is_Some (finite (it_value i))) as Hin by (intros i; rewrite sort_perm; intros Hi; apply Hm; by right).
  destruct (Hm x) as [qx Hx]; [left|]. generalize dependent (js_sort (λ a b : item R, Qltb (default 0%Q (finite (it_value a))) (default 0%Q (finite (it_value b)))) m).
  intros k _. induction k as [|y k IHk]; [done|]. intros Hin. cbn [sort_insert]. destruct (Hin y) as [qy Hy]; [left|].
  assert (value_lt (it_value x) (it_value y) = Qltb (default 0%Q (finite (it_value x))) (default 0%Q (finite (it_value y)))) as ->
    by (destruct (it_value x), (it_value y); by simplify_eq/=).
  case_match; [|done]. f_equal. apply IHk. intros i Hi. apply Hin. by right.
Qed.
End TooltipTheorems.

(** *** The network traffic of containers, and memory *)

Section Network.
Context {En : Engine} {EL : EngineLaws En} {In : Intl} {SD : ShortDateFormat} {DP : DateParse} (num_str : Q → string).

(** the containers of a point that the tooltip is about *)
Definition wanted_entries (filter : string) (p : container_point) : list (string * ContainerStats) :=
  List.filter (λ e, passes filter e.1) (pt_stats p).
Lemma passes_lit filter keys name : name ∈ keys → passes filter name = negb (bool_decide (name ∈ filteredKeys filter keys)).
Proof.
  intros Hin. unfold passes, filteredKeys. destruct (truthy filter); cbn [negb orb].
  - destruct (existsb _ _) eqn:E; symmetry; [apply negb_true_iff, bool_decide_eq_false_2|apply negb_false_iff, bool_decide_eq_true_2];
      rewrite list_elem_of_In, filter_In; unfold filter_words in E; rewrite E; [by intros [_ ?]|].
    split; [by apply list_elem_of_In|done].
  - symmetry. apply negb_true_iff, bool_decide_eq_false_2, not_elem_of_nil.
Qed.
(** the charts have an area for each of them *)
Lemma config_keys k data p e : p ∈ data → e ∈ pt_stats p → e.1 ∈ jkeys (chartConfig k data).
Proof.
  intros Hp He. apply (proj1 (container_colors k data)). assert (e ∈ entries data) as Hin.
  { unfold entries. apply elem_of_concat. exists (pt_stats p). split; [done|]. by apply list_elem_of_fmap_2. }
  unfold readings. intros E. apply fmap_nil_inv in E. assert (e ∈ List.filter (λ x, String.eqb e.1 x.1) (entries data)) as Hf.
  { rewrite list_elem_of_In, filter_In, <-list_elem_of_In. split; [done|]. by apply String.eqb_refl. }
  rewrite E in Hf. by apply elem_of_nil in Hf.
Qed.
Definition traffic_item (p : container_point) (e : string * ContainerStats) : item container_point := {|
  it_name := e.1; it_value := Fin (sent_bytes e.2 + recv_bytes e.2); it_order := 0; it_row := p |}.
Lemma NoDup_filtered {A} (f : A → bool) (l : list A) : NoDup l → NoDup (List.filter f l).
Proof.
  induction 1 as [|x l Hx Hl IH]; cbn; [constructor|]. destruct (f x); [|done]. constructor; [|done].
  by rewrite list_elem_of_In, filter_In, <-list_elem_of_In; intros [? _].
Qed.
(** series of different names have items of different names *)
Lemma wanted_names {R} (c : plot R) r : NoDup (se_name <$> ch_series c) → NoDup (it_name <$> wanted c r).
Proof.
  unfold wanted. intros Hn. assert (NoDup (it_name <$> valued_items (ch_series c) r)) as Hs.
  { unfold valued_items. induction (ch_series c) as [|s l IH]; [constructor|]. rewrite fmap_cons in Hn. apply NoDup_cons in Hn as [Hs Hl].
    cbn [omap list_omap]. destruct (se_key s r) as [v|]; [|by apply IH]. cbn. constructor; [|by apply IH].
    intros (i & Hi & Hin)%list_elem_of_fmap. apply (shown_item l r) in Hin as (s' & v' & Hs' & _ & ->). apply Hs.
    cbn in Hi. rewrite Hi. by apply list_elem_of_fmap_2. }
  revert Hs. generalize (valued_items (ch_series c) r) as l. induction l as [|x l IH]; [done|].
  rewrite fmap_cons. intros [Hx Hl]%NoDup_cons. cbn. destruct (passes _ _); [|by apply IH]. cbn. constructor; [|by apply IH].
  intros (y & Ey & Hy)%list_elem_of_fmap. apply Hx. rewrite Ey. rewrite list_elem_of_In, filter_In, <-list_elem_of_In in Hy.
  by apply list_elem_of_fmap_2, Hy.
Qed.
Lemma network_wanted d u filter c p : ContainerChart num_str d u Network filter = Some c → p ∈ cd_containers d → jwf (pt_stats p) →
  wanted c p ≡ₚ traffic_item p <$> wanted_entries filter p.
Proof.
  intros Hc Hp Hwf. unfold ContainerChart in Hc. destruct (cd_containers d) as [|x data] eqn:E; [done|]. injection Hc as <-.
  rewrite <-E in *. clear x data E. set (config := chartConfig Network (cd_containers d)).
  assert (NoDup (pt_stats p)) as Hnd by (by apply (NoDup_fmap_1 fst)).
  apply NoDup_Permutation.
  - apply (NoDup_fmap_1 it_name), wanted_names. cbn [ch_series]. rewrite <-list_fmap_compose.
    exact (proj1 (proj2 (container_colors Network (cd_containers d)))).
  - apply (NoDup_fmap_1 it_name). rewrite <-list_fmap_compose. change (NoDup (fst <$> wanted_entries filter p)).
    unfold wanted_entries. clear Hnd. unfold jwf, jkeys in Hwf. revert Hwf. generalize (pt_stats p) as l.
    induction l as [|e l IH]; [done|]. rewrite fmap_cons. intros [He Hl]%NoDup_cons. cbn. destruct (passes _ _); [|by apply IH].
    cbn. constructor; [|by apply IH]. intros (y & Ey & Hy)%list_elem_of_fmap. apply He. rewrite list_elem_of_In, filter_In, <-list_elem_of_In in Hy.
    rewrite Ey. by apply list_elem_of_fmap_2, Hy.
  - intros i. unfold wanted. rewrite list_elem_of_In, filter_In, <-list_elem_of_In, shown_item, list_elem_of_fmap. cbn [ch_series ch_filter]. split.
    + intros [(s & v & (x & -> & Hx)%list_elem_of_fmap & Hv & ->) Hpass]. cbn [se_key se_name se_order it_name] in *.
      unfold container_value in Hv. destruct (jget x.1 (pt_stats p)) as [cs|] eqn:Ecs; [|done]. injection Hv as <-.
      exists (x.1, cs). split; [done|]. unfold wanted_entries. rewrite list_elem_of_In, filter_In, <-list_elem_of_In.
      split; [by apply jget_Some_elem|done].
    + intros (e & -> & He). unfold wanted_entries in He. rewrite list_elem_of_In, filter_In, <-list_elem_of_In in He. destruct He as [He Hpass].
      split; [|done]. pose proof (config_keys Network _ p e Hp He) as Hk. apply list_elem_of_fmap in Hk as (x & Ex & Hx).
      eexists _, (Fin (sent_bytes e.2 + recv_bytes e.2)). split; [by apply list_elem_of_fmap_2|]. cbn [se_key se_name se_order].
      rewrite <-Ex. unfold container_value. destruct e as [k cs]. cbn [fst snd] in *. by rewrite (elem_jget _ _ _ Hwf He).
Qed.
Lemma tooltip_total_sums (dimmed : list string) (l : jsmap ContainerStats) acc :
  let lit := List.filter (λ e, negb (bool_decide (e.1 ∈ dimmed))) l in
  let r := foldl (λ acc entry, if bool_decide (entry.1 ∈ dimmed) then acc
                    else (acc.1 + recv_bytes entry.2, acc.2 + sent_bytes entry.2)%Q) acc l in
  (r.1 == acc.1 + qsum ((λ e, recv_bytes e.2) <$> lit))%Q ∧ (r.2 == acc.2 + qsum ((λ e, sent_bytes e.2) <$> lit))%Q.
Proof.
  revert acc. unfold qsum. induction l as [|[key c] l IH]; intros acc; cbn [List.filter foldl fst snd]; [split; cbn; ring|].
  destruct (bool_decide (key ∈ dimmed)); cbn [negb]; [apply IH|]. destruct (IH (acc.1 + recv_bytes c, acc.2 + sent_bytes c)%Q) as [H1 H2].
  cbn [fst snd] in H1, H2. rewrite H1, H2. cbn. split; ring.
Qed.

(** Fact [network_tooltip_box]: over a point the tooltip of the network chart has a row for every container of the point that passes the
    filter, and for no other, with what it received and sent; and its total is of exactly these. *)
Theorem network_tooltip_box d u filter c p : ContainerChart num_str d u Network filter = Some c → p ∈ cd_containers d →
  jwf (pt_stats p) → "__total__"%string ∉ jkeys (pt_stats p) →
  let shown := wanted_entries filter p in
  match tooltip_box pt_created c p with
  | None => shown = []
  | Some b =>
      box_rows b ≡ₚ (λ e, (e.1, rx_tx u (recv_bytes e.2, sent_bytes e.2))) <$> shown
      ∧ ∃ received sent, box_total b = Some (rx_tx u (received, sent))
          ∧ (received == qsum ((λ e, recv_bytes e.2) <$> shown))%Q ∧ (sent == qsum ((λ e, sent_bytes e.2) <$> shown))%Q
  end.
Proof.
  intros Hc Hp Hwf Ht shown. pose proof (network_wanted _ _ _ _ _ Hc Hp Hwf) as Hw. fold shown in Hw.
  assert (ch_total c = true ∧ ch_content c = container_content u Network (filteredKeys filter (jkeys (chartConfig Network (cd_containers d)))))
    as [Htot Hcon] by (unfold ContainerChart in Hc; destruct (cd_containers d); [done|]; by injection Hc as <-).
  set (dimmed := filteredKeys _ _) in Hcon.
  destruct (tooltip_box pt_created c p) as [b|] eqn:Eb.
  - split.
    + rewrite (proj1 (tooltip_rows _ _ _ _ Eb)), Hw, <-list_fmap_compose. apply reflexive_eq, list_fmap_ext. intros i e He.
      apply list_elem_of_lookup_2 in He. unfold shown, wanted_entries in He. rewrite list_elem_of_In, filter_In, <-list_elem_of_In in He.
      destruct He as [He _]. unfold compose. cbn [it_name it_value traffic_item]. rewrite Hcon. cbn [container_content]. unfold network_tooltip.
      destruct e as [k cs]. cbn [fst snd]. assert (String.eqb k "__total__" = false) as ->.
      { apply String.eqb_neq. intros ->. apply Ht. by apply (list_elem_of_fmap_2 fst _ _ He). }
      cbn [fst snd]. by rewrite (elem_jget _ _ _ Hwf He).
    + pose proof (tooltip_total_spec _ _ _ _ Eb) as Hs. rewrite Htot in Hs.
      assert (wanted c p ≠ []) as Hne by (intros E; apply (tooltip_none pt_created) in E; congruence).
      assert ((0 <? length (values (wanted c p)))%nat = true) as Hlen.
      { apply Nat.ltb_lt. unfold values. rewrite Hw. destruct shown as [|e l]; [by apply Permutation_nil_r in Hw|]. cbn. lia. }
      rewrite Hlen in Hs. destruct Hs as (q & _ & Hb). rewrite Hcon in Hb. cbn [container_content andb] in Hb.
      destruct (tooltip_total_sums dimmed (pt_stats p) (0, 0)%Q) as [H1 H2]. fold (tooltip_total dimmed p) in H1, H2.
      assert (List.filter (λ e : string * ContainerStats, negb (bool_decide (e.1 ∈ dimmed))) (pt_stats p) = shown) as Hl.
      { unfold shown, wanted_entries. apply filter_ext_in. intros e He. symmetry. apply passes_lit.
        apply (config_keys Network _ p); [done|]. by apply list_elem_of_In. }
      rewrite Hl in H1, H2. cbn [fst snd] in H1, H2. rewrite Qplus_0_l in H1, H2.
      exists (tooltip_total dimmed p).1, (tooltip_total dimmed p).2. split; [|done].
      rewrite Hb. unfold network_tooltip. cbn. by destruct (tooltip_total dimmed p).
  - apply tooltip_none in Eb. rewrite Eb in Hw. apply Permutation_nil_l in Hw. symmetry in Hw. by apply fmap_nil_inv in Hw.
Qed.

(** *** Memory *)

Lemma sort_by_order {R} (l : list (item R)) : StronglySorted (λ a b, it_order a ≤ it_order b)%nat (sort_items ByOrder l).
Proof.
  cbn [sort_items]. assert (in_order (λ a b : item R, (it_order b <? it_order a)%nat) (js_sort (λ a b : item R, (it_order b <? it_order a)%nat) l)) as Hs.
  { apply sort_order; intros *; rewrite ?Nat.ltb_lt, ?Nat.ltb_ge; lia. }
  induction Hs as [|x xs Hs IH Hx]; constructor; [done|].
  eapply Forall_impl; [exact Hx|]. intros y Hy. cbn in Hy. by apply Nat.ltb_ge in Hy.
Qed.
(** items whose orders differ have one order only *)
Lemma sorted_items {R} (l m : list (item R)) : NoDup (it_order <$> m) → l ≡ₚ m →
  StronglySorted (λ a b, it_order a ≤ it_order b)%nat m → sort_items ByOrder l = m.
Proof.
  intros Hn Hp Hm. apply (StronglySorted_unique_strong (λ a b, it_order a ≤ it_order b)%nat); [|apply sort_by_order|done|by rewrite sort_items_perm].
  intros x y Hx Hy H1 H2. rewrite (sort_items_perm ByOrder l), Hp in Hx.
  apply list_elem_of_lookup in Hx as [i Hi], Hy as [j Hj]. assert (i = j) as ->; [|congruence].
  apply (NoDup_lookup (it_order <$> m) i j (it_order x)); [done|by rewrite list_lookup_fmap, Hi|].
  rewrite list_lookup_fmap, Hj. cbn. f_equal. lia.
Qed.
Definition memory_item (r : SystemStatsRecord) (name : string) (order : nat) (v : Q) : item SystemStatsRecord := {|
  it_name := name; it_value := Fin v; it_order := order; it_row := r |}.
(** the tooltip of the memory chart reads from the top of the stack to its bottom: caches, the ARC if there is one, and what
    is used, with the total of what is stacked; a maximum stands alone *)
Lemma memory_box d r s : cd_stats d ≠ [] → sr_stats r = Some s →
  let say v := size_text Unit_Bytes (Fin v) in
  (∃ c q, MemChart num_str d false = Some c
    ∧ tooltip_box sr_created c r = Some {|
        box_label := short_date (sr_created r);
        box_rows := ("Cache / Buffers", say (st_mb s)) :: match st_mz s with Some z => [("ZFS ARC", say z)] | None => [] end
                    ++ [("Used", say (st_mu s))];
        box_total := Some (say q) |}%string
    ∧ (q == st_mb s + default 0 (st_mz s) + st_mu s)%Q)
  ∧ (∃ c, MemChart num_str d true = Some c
    ∧ (box_rows <$> tooltip_box sr_created c r) = (λ m, [("Used", say m)]%string) <$> st_mm s).
Proof.
  intros Hne Hs say. unfold MemChart, some_records. destruct (cd_stats d) as [|x l]; [done|]. split.
  - eexists _, (foldl Qplus 0 (st_mb s :: match st_mz s with Some z => [z] | None => [] end ++ [st_mu s]))%Q.
    split; [reflexivity|]. unfold tooltip_box, tooltip_items. cbn [ch_sorter ch_filter ch_series].
    assert (sort_items ByOrder (List.filter (λ i, passes "" (it_name i)) (tooltip_payload
        [mem_series false "Used" (Theme 2) (4 # 10) 3 0; mem_series false "ZFS ARC" (Css "hsla(175 60% 45% / 0.8)") (1 # 2) 2 1;
         mem_series false "Cache / Buffers" (Css "hsla(160 60% 45% / 0.5)") (4 # 10) 1 2] r))
      = memory_item r "Cache / Buffers" 1 (st_mb s) :: match st_mz s with Some z => [memory_item r "ZFS ARC" 2 z] | None => [] end
        ++ [memory_item r "Used" 3 (st_mu s)]) as ->.
    { apply sorted_items.
      - destruct (st_mz s); cbn; apply (bool_decide_unpack _); by vm_compute.
      - rewrite (filter_perm _ _ _ (payload_items _ r)). unfold valued_items. cbn. unfold mem_areas. rewrite Hs. cbn.
        destruct (st_mz s); cbn; [|apply Permutation_swap]. rewrite Permutation_swap. etransitivity; [|apply Permutation_swap].
        rewrite (Permutation_swap (memory_item r "Used" 3 (st_mu s))). done.
      - destruct (st_mz s); cbn; repeat constructor; cbn; lia. }
    split; [destruct (st_mz s); reflexivity|]. destruct (st_mz s); cbn; ring.
  - eexists. split; [reflexivity|]. unfold tooltip_box, tooltip_items. cbn [ch_sorter ch_filter ch_series].
    assert (sort_items ByOrder (List.filter (λ i, passes "" (it_name i)) (tooltip_payload
        [mem_series true "Used" (Theme 2) (4 # 10) 3 0; mem_series true "ZFS ARC" (Css "hsla(175 60% 45% / 0.8)") (1 # 2) 2 1;
         mem_series true "Cache / Buffers" (Css "hsla(160 60% 45% / 0.5)") (4 # 10) 1 2] r))
      = match st_mm s with Some m => [memory_item r "Used" 3 m] | None => [] end) as ->.
    { apply sorted_items.
      - destruct (st_mm s); cbn; apply (bool_decide_unpack _); by vm_compute.
      - rewrite (filter_perm _ _ _ (payload_items _ r)). unfold valued_items. cbn. unfold mem_areas. rewrite Hs. cbn. by destruct (st_mm s).
      - destruct (st_mm s); cbn; repeat constructor. }
    by destruct (st_mm s).
Qed.
End Network.

(** ** Theorems: the axis *)

(** what was measured is a label that was drawn; a closure that has seen a label waits to measure, or has had the axis drawn *)
Definition axis_ok (offsetWidth : string → Z) (h : axis_hook) : Prop :=
  (yAxisWidth h = 0 ∨ ∃ str, str ≠ ""%string ∧ yAxisWidth h = offsetWidth str + 24)
  ∧ (∀ c, c ∈ closures h → 0 ≤ cl_captured c ∧ (0 < cl_captured c → 0 < yAxisWidth h)
       ∧ (∀ str, cl_timer c = Some str → str ≠ ""%string)
       ∧ ((0 < cl_maxChars c)%nat → is_Some (cl_timer c) ∨ 0 < yAxisWidth h)).
Lemma axis_grows offsetWidth h h' : (∀ str, 0 ≤ offsetWidth str) → axis_ok offsetWidth h → axis_step offsetWidth h h' →
  0 < yAxisWidth h → 0 < yAxisWidth h'.
Proof.
  intros Ho [_ Hc] [|i c str Hi|i c str Hi Ht] Hw; [done|done|]. cbn. unfold measured_width.
  pose proof (Ho str). destruct (_ <? _); lia.
Qed.
Lemma elem_of_inserted {A} (l : list A) i x y : y ∈ <[i := x]> l → y = x ∨ y ∈ l.
Proof.
  intros [j Hj]%list_elem_of_lookup. apply list_lookup_insert_Some in Hj as [(_ & -> & _)|[_ Hj]]; [by left|right].
  by apply list_elem_of_lookup_2 in Hj.
Qed.
Lemma axis_ok_step offsetWidth h h' : (∀ str, 0 ≤ offsetWidth str) → axis_ok offsetWidth h → axis_step offsetWidth h h' → axis_ok offsetWidth h'.
Proof.
  intros Ho Hok Hst. pose proof (axis_grows _ _ _ Ho Hok Hst) as Hg. destruct Hok as [Hw Hc].
  assert (0 ≤ yAxisWidth h) as Hnn by (destruct Hw as [->|(str & _ & ->)]; [lia|pose proof (Ho str); lia]).
  destruct Hst as [|i c str Hi|i c str Hi Ht].
  - split; [done|]. cbn. intros c [Hin| ->%list_elem_of_singleton]%elem_of_app; [by apply Hc|]. cbn. split_and!; [done|done|done|lia].
  - assert (c ∈ closures h) as Hin by (by apply list_elem_of_lookup_2 in Hi). split; [done|]. cbn.
    intros c' [->|Hin']%elem_of_inserted; [|by apply Hc]. destruct (Hc c Hin) as (H1 & H2 & H3 & H4). unfold updateYAxisWidth.
    destruct (Nat.ltb_spec (cl_maxChars c) (String.length str)); [|done]. cbn. split_and!; [done|done| |by left; eexists].
    intros s [= <-] ->. cbn in *. lia.
  - assert (c ∈ closures h) as Hin by (by apply list_elem_of_lookup_2 in Hi). destruct (Hc c Hin) as (H1 & H2 & H3 & H4).
    pose proof (Ho str) as Hstr. assert (0 < measured_width offsetWidth str c (yAxisWidth h)) as Hpos.
    { unfold measured_width. destruct (Z.ltb_spec (cl_captured c) (offsetWidth str + 24)); [lia|]. apply H2. lia. }
    split.
    + cbn. unfold measured_width. destruct (_ <? _); [right; exists str; split; [by apply H3|done]|done].
    + cbn. intros c' [->|Hin']%elem_of_inserted.
      * cbn. split_and!; [done|done|done|by right].
      * destruct (Hc c' Hin') as (G1 & G2 & G3 & G4). split_and!; [done|done|done|by right].
Qed.

(** Fact [axis_appears]: the width of the axis is nothing or that of a label that was drawn; it appears once, and does not
    disappear again; and when nothing waits to be measured any more, a chart that has drawn a label is opaque. *)
Theorem axis_appears offsetWidth h : (∀ str, 0 ≤ offsetWidth str) → rtc (axis_step offsetWidth) new_axis h →
  (yAxisWidth h = 0 ∨ ∃ str, str ≠ ""%string ∧ yAxisWidth h = offsetWidth str + 24)
  ∧ (∀ h', axis_step offsetWidth h h' → opaque false h = true → opaque false h' = true)
  ∧ ((∀ c, c ∈ closures h → cl_timer c = None) → (∃ c, c ∈ closures h ∧ (0 < cl_maxChars c)%nat) → opaque false h = true).
Proof.
  intros Ho Hs. assert (axis_ok offsetWidth h) as Hok.
  { assert (axis_ok offsetWidth new_axis) as Hn by (split; [by left|by intros c ?%elem_of_nil]).
    revert Hn. induction Hs as [|a b c' Hab _ IH]; [done|]. intros Ha. by eapply IH, axis_ok_step. }
  assert (∀ k, axis_ok offsetWidth k → opaque false k = true ↔ 0 < yAxisWidth k) as Hop.
  { intros k [Hk _]. unfold opaque. rewrite orb_false_r, negb_true_iff, Z.eqb_neq.
    destruct Hk as [->|(str & _ & ->)]; [lia|]. pose proof (Ho str). lia. }
  split; [apply Hok|]. split.
  - intros h' Hst. rewrite (Hop h Hok), (Hop h') by (by eapply axis_ok_step). by eapply axis_grows.
  - intros Ht (c & Hc & Hm). apply (Hop h Hok). destruct (proj2 Hok c Hc) as (_ & _ & _ & H4).
    destruct (H4 Hm) as [[str E]|]; [|done]. by rewrite Ht in E.
Qed.

(** ** Theorems: names *)

Section Names.
Context {En : Engine} {EL : EngineLaws En} {In : Intl} (num_str : Q → string).
Definition plot_names (c : any_chart) : list string :=
  match c with
  | Records c => se_name <$> ch_series c | Points c => se_name <$> ch_series c
  | Sensors c => se_name <$> ch_series c | Gpus c => se_name <$> ch_series c
  end.
Lemma add_sum_wf sums key v : jwf sums → jwf (add_sum sums key v).
Proof. apply jwf_jset. Qed.
Lemma addedKeys_wf l : jwf (addedKeys l).
Proof.
  unfold addedKeys. assert (jwf (@nil (string * Q))) as Hn by apply jwf_nil. revert Hn. generalize (@nil (string * Q)) as m.
  induction l as [|r l IH]; intros m Hm; [done|]. cbn. apply IH. unfold gpu_sums. revert m Hm. generalize (gpus_of r) as g.
  induction g as [|p g IHg]; intros m Hm; [done|]. cbn. apply IHg. destruct (truthy _); by repeat apply add_sum_wf.
Qed.
(** the engines of a record are an object: no name twice *)
Lemma engines_nodup (records : list SystemStatsRecord) id engines :
  (∀ r p e, r ∈ records → p ∈ gpus_of r → gpu_e p.2 = Some e → jwf e) →
  gpu_engines records = Some (id, engines) → NoDup engines.
Proof.
  intros Hwf. unfold gpu_engines.
  assert (∀ r p e, r ∈ rev records → p ∈ gpus_of r → gpu_e p.2 = Some e → jwf e) as Hr.
  { intros r p e Hin. apply Hwf. by rewrite list_elem_of_In, <-in_rev, <-list_elem_of_In in Hin. }
  clear Hwf. revert Hr. generalize (rev records) as l. induction l as [|r l IH]; [done|]. intros Hr. cbn.
  assert (∀ g, (∀ p e, p ∈ g → gpu_e p.2 = Some e → jwf e) → first_with_engines g = Some (id, engines) → NoDup engines) as Hf.
  { clear. intros g. induction g as [|[k x] g IHg]; [done|]. intros Hg. cbn. destruct (gpu_e x) as [e|] eqn:E.
    - intros [= <- <-]. rewrite sort_perm. apply (Hg (k, x) e); [left|done].
    - apply IHg. intros p e' Hp. apply Hg. by right. }
  assert (∀ r' p e, r' ∈ l → p ∈ gpus_of r' → gpu_e p.2 = Some e → jwf e) as Hl by (intros r' p e Hin; apply Hr; by right).
  destruct (s ← sr_stats r; st_g s) as [g|] eqn:Eg; [|by apply IH]. destruct (first_with_engines g) as [x|] eqn:Ex; [|by apply IH].
  intros [= ->]. apply (Hf g); [|done]. intros p e Hp. apply (Hr r); [left|]. unfold gpus_of. by rewrite Eg.
Qed.
(** Fact [chart_names_unique]: no chart of the page has two series of one name, by which they are told apart when they are drawn again *)
Theorem chart_names_unique d u showMax f1 f2 x c :
  (∀ r p e, r ∈ cd_stats d → p ∈ gpus_of r → gpu_e p.2 = Some e → jwf e) →
  chart_of num_str d u showMax f1 f2 x = Some c → NoDup (plot_names c).
Proof.
  intros Hwf Hc.
  assert (∀ k f, (Points <$> ContainerChart num_str d u k f) = Some c → NoDup (plot_names c)) as Hcont.
  { intros k f (c' & Hc' & ->)%fmap_Some. unfold ContainerChart in Hc'. destruct (cd_containers d) as [|y l] eqn:E; [done|].
    injection Hc' as <-. cbn [plot_names ch_series]. rewrite <-list_fmap_compose. exact (proj1 (proj2 (container_colors k _))). }
  assert (∀ (p : default_props (R := SystemStatsRecord)), (Records <$> AreaChartDefault (cd_stats d) p) = Some c →
            NoDup (se_name <$> p_series p) → NoDup (plot_names c)) as Harea.
  { intros p (c' & Hc' & ->)%fmap_Some. unfold AreaChartDefault in Hc'. destruct (cd_stats d); [done|]. by injection Hc' as <-. }
  assert (∀ c', (Records <$> some_records d c') = Some c → NoDup (se_name <$> ch_series c') → NoDup (plot_names c)) as Hsome.
  { intros c' (k & Hk & ->)%fmap_Some. unfold some_records in Hk. destruct (cd_stats d); [done|]. by injection Hk as <-. }
  destruct x; cbn [chart_of] in Hc; try done; try (by eapply Hcont);
    try (eapply Harea; [exact Hc|]; apply (bool_decide_unpack _); by vm_compute);
    try (eapply Hsome; [exact Hc|]; apply (bool_decide_unpack _); by vm_compute).
  - eapply Harea; [exact Hc|]. cbn [with_total rate_props props p_series]. rewrite constant_sort_perm. apply (bool_decide_unpack _). by vm_compute.
  - injection Hc as <-. apply (bool_decide_unpack _). by vm_compute.
  - apply fmap_Some in Hc as (k & Hk & ->). unfold temperature_chart, some_records in Hk. destruct (cd_stats d) as [|y l] eqn:E; [done|].
    injection Hk as <-. cbn [plot_names ch_series]. rewrite <-list_fmap_compose. rewrite <-E. exact (proj1 (temperature_lines (cd_stats d))).
  - apply fmap_Some in Hc as (k & Hk & ->). unfold gpu_power_chart, some_records in Hk. destruct (cd_stats d) as [|y l] eqn:E; [done|].
    injection Hk as <-. cbn [plot_names ch_series]. rewrite <-list_fmap_compose, <-E. change (NoDup (jkeys (gpu_lines (cd_stats d)))).
    unfold gpu_lines. rewrite (jkeys_imap (λ i _, (226 + hue i (length (by_sum (addedKeys (cd_stats d)))))%Q)).
    rewrite (proj1 (by_sum_spec _)). apply addedKeys_wf.
  - apply fmap_Some in Hc as (k & Hk & ->). unfold gpu_engines_chart in Hk. destruct (gpu_engines (cd_stats d)) as [[id engines]|] eqn:E; [|done].
    destruct (negb _); [done|]. unfold LineChartDefault in Hk. destruct (cd_stats d) as [|y l] eqn:E2; [done|]. injection Hk as <-.
    cbn [plot_names ch_series with_legend props p_series]. rewrite fmap_imap. replace (imap _ engines) with engines; [by eapply engines_nodup|].
    apply list_eq. intros i. rewrite list_lookup_imap. by destruct (engines !! i).
Qed.
End Names.

(** ** The tooltip of every chart *)

(** C23: over a row the tooltip of a chart has one line for every series that has a value there and passes the
    filter, and no other, each with the text the chart gives its value; it is there exactly when there is one; its heading is the
    time of the row; the total, where the chart has one, is the text of the sum of the values that are shown; and
    where the chart sorts by value the largest comes first. *)
Theorem charts_tooltip `{EngineLaws} `{ShortDateFormat} `{DateParse} {R} (time : R → created) (c : plot R) (r : R) :
  (∀ i, i ∈ wanted c r ↔ ∃ s v, s ∈ ch_series c ∧ se_key s r = Some v ∧ passes (ch_filter c) (se_name s) = true
      ∧ i = {| it_name := se_name s; it_value := v; it_order := se_order s; it_row := r |})
  ∧ match tooltip_box time c r with
    | None => wanted c r = []
    | Some b =>
        wanted c r ≠ []
        ∧ box_rows b ≡ₚ (λ i, (it_name i, ch_content c (it_name i) (it_value i) r)) <$> wanted c r
        ∧ box_label b = short_date (time r)
        ∧ (if ch_total c && (0 <? length (values (wanted c r)))%nat
           then ∃ q, (q == qsum (values (wanted c r)))%Q ∧ box_total b = Some (ch_content c "__total__" (Fin q) r)
           else box_total b = None)
        ∧ (ch_sorter c = Some ByValue → (∀ i, i ∈ wanted c r → is_Some (finite (it_value i))) →
           ∃ l, box_rows b = (λ i, (it_name i, ch_content c (it_name i) (it_value i) (it_row i))) <$> l
             ∧ StronglySorted (λ x y, default 0 (finite (it_value y)) <= default 0 (finite (it_value x)))%Q l)
    end.
Proof.
  split.
  - intros i. unfold wanted. rewrite list_elem_of_In, filter_In, <-list_elem_of_In, shown_item. naive_solver.
  - destruct (tooltip_box time c r) as [b|] eqn:E; [|by apply (tooltip_none time)]. destruct (tooltip_rows _ _ _ _ E) as [H1' H2'].
    split_and!; [intros En; apply (tooltip_none time) in En; congruence|done|done|by eapply tooltip_total_spec|].
    intros Hs Hf. exists (tooltip_items c r). split; [|by apply tooltip_sorted]. unfold tooltip_box in E.
    destruct (tooltip_items c r); [done|]. by injection E as <-.
Qed.

(** ** Drawings *)

Definition whole_numbers : Intl := {|
  format_fixed units _ := z_str units; to_locale_string := z_str; plural_category _ := Other |}.
#[local] Existing Instance whole_numbers.
#[local] Existing Instance reference_engine.
#[local] Instance midnight : ShortDateFormat := λ _, "Jan 1"%string.
#[local] Instance no_dates : DateParse := λ _, None.
Definition whole (q : Q) : string := z_str (Qfloor q).
Definition ex_data : chart_data := {|
  cd_stats := [ex_temps 0 40 50]; cd_containers := [ex_traffic]; cd_agentVersion := parseSemVer (Some "0.17.0"%string) |}.
Definition bytes_everywhere : units := {| u_net := Unit_Bytes; u_disk := Unit_Bytes; u_temp := None |}.
Definition bits_everywhere : units := {| u_net := Unit_Bits; u_disk := Unit_Bits; u_temp := None |}.
Definition box_of {R} (time : R → created) (c : option (plot R)) (r : option R) : option box := c ← c; r ← r; tooltip_box time c r.
Definition over_traffic (filter : string) : option box :=
  box_of pt_created (ContainerChart whole ex_data bytes_everywhere Network filter) (Some ex_traffic).
(** the formats of numbers are left out here: 15.00 B is 1500 *)
Example traffic_box :
  over_traffic "" = Some {|
    box_label := Some "Jan 1"; box_rows := [("web", "500 B/s rx 1000 B/s tx"); ("db", "200 B/s rx 100 B/s tx")];
    box_total := Some "700 B/s rx 1100 B/s tx" |}%string
  ∧ over_traffic "D" = Some {|
    box_label := Some "Jan 1"; box_rows := [("db", "200 B/s rx 100 B/s tx")]; box_total := Some "200 B/s rx 100 B/s tx" |}%string.
Proof. by vm_compute. Qed.
(** a filter of blanks dims no line of the temperatures, and still leaves nothing in their tooltip *)
Definition sensor_row : option (created * jsmap Q) := head (td_rows (temperatureData (cd_stats ex_data))).
Example blank_filter :
  (existsb se_dimmed ∘ ch_series <$> temperature_chart whole ex_data bytes_everywhere " ") = Some false
  ∧ (length ∘ box_rows <$> box_of fst (temperature_chart whole ex_data bytes_everywhere "") sensor_row) = Some 2%nat
  ∧ box_of fst (temperature_chart whole ex_data bytes_everywhere " ") sensor_row = None.
Proof. by vm_compute. Qed.
(** settings that come after a chart was drawn do not reach it before the next record *)
Definition ex_deps : memo_deps := {| md_last := Some 1%nat; md_width := 40; md_maxToggled := false; md_showTotal := true |}.
Example units_come_late :
  let drawn := bandwidth_chart whole ex_data bytes_everywhere false in
  let wanted := bandwidth_chart whole ex_data bits_everywhere false in
  let kept := memo_drawing ex_deps wanted (Some (ex_deps, drawn)) in
  (box_rows <$> box_of sr_created kept (head (cd_stats ex_data))) ≠ (box_rows <$> box_of sr_created wanted (head (cd_stats ex_data))).
Proof. by vm_compute. Qed.

Lemma charts_tooltip_witness :
  match ContainerChart whole ex_data bytes_everywhere Network "d" with
  | Some c => wanted c ex_traffic ≠ [] ∧ (∀ i, i ∈ wanted c ex_traffic → it_row i = ex_traffic)
  | None => False
  end.
Proof.
  assert (is_Some (over_traffic "d")) as Hb by (apply (bool_decide_unpack _); by vm_compute). unfold over_traffic, box_of in Hb.
  destruct (ContainerChart whole ex_data bytes_everywhere Network "d") as [c|]; [|by destruct Hb].
  destruct (charts_tooltip pt_created c ex_traffic) as [Hi Ht]. cbn in Hb. destruct (tooltip_box pt_created c ex_traffic) as [b|]; [|by destruct Hb].
  split; [exact (proj1 Ht)|]. by intros i (s & v & _ & _ & _ & ->)%Hi.
Defined.
