(* ===== verification/LoginUi.v ===== *)
(** * Signing in as the user meets it: [components/login/]

    [UserAuthForm], [OtpInputForm], [OtpRequestForm], [ForgotPassword] and the page around them.  What the
    handlers do is [Login]'s; here the requests take time, the forms come and go meanwhile, and what
    the user can do is what is drawn.  A handler that goes on after its form has left the page still signs the
    user in.  The browser's own check of a field of addresses is a parameter, and so are the addresses
    of the router, which stand behind the base path.  The button for the theme is the frame's. *)
From Stdlib Require Import QArith ZArith Lia.
From S2P Require Import Prelude JsValue Nanostores SystemsManager Api Login Dom.
Open Scope nat_scope.

Section Page.
(** [parse_path]: the route of an address; [ios] and [popups] are the browser's: what it is, and whether it opens windows *)
Context {V : Valibot} {L : ValibotLaws V} (parse_path : string → option route) (mail_valid : string → bool)
        (ios popups : bool).

(** ** State *)

(** what waits for an answer *)
Inductive waiting :=
| Submission (t : typed) (first : bool) | Provider (p : provider) | OtpMail (email : string) | ResetMail (email : string)
| Code (otp mfa value : string).
Record state := {
  login : Login.state; fields : typed; flights : list (waiting * bool);   (* whether its form is still there *)
  timers : list (provider * bool);                                          (* automatic sign-ins that are about to start *)
  dialog : bool; session : jsmap string;   (* what the browser keeps for the tab *)
  sent : list request; toasts : list notice }.
Inductive event :=
| SetEmail (t : string) | SetPassword (t : string) | SetConfirm (t : string) | Submit | ChooseProvider (p : provider)
| VisitOtp | VisitForgot | TypeCode (t : string) | TypeOtpMail (t : string) | SubmitOtpMail | TypeResetMail (t : string) | SubmitResetMail
| OpenDialog | CloseDialog.

Definition blank : typed := {| t_email := ""; t_password := ""; t_confirm := ""; t_website := "" |}.
Definition with_fields (t : typed) (s : state) : state := {|
  login := login s; fields := t; flights := flights s; timers := timers s; dialog := dialog s; session := session s; sent := sent s; toasts := toasts s |}.
Definition with_flights (l : list (waiting * bool)) (s : state) : state := {|
  login := login s; fields := fields s; flights := l; timers := timers s; dialog := dialog s; session := session s; sent := sent s; toasts := toasts s |}.
Definition with_timers (l : list (provider * bool)) (s : state) : state := {|
  login := login s; fields := fields s; flights := flights s; timers := l; dialog := dialog s; session := session s; sent := sent s; toasts := toasts s |}.
Definition with_dialog (b : bool) (s : state) : state := {|
  login := login s; fields := fields s; flights := flights s; timers := timers s; dialog := b; session := session s; sent := sent s; toasts := toasts s |}.
Definition with_kept (m : jsmap string) (s : state) : state := {|
  login := login s; fields := fields s; flights := flights s; timers := timers s; dialog := dialog s; session := m; sent := sent s; toasts := toasts s |}.
Definition told (e : effects) (s : state) : state := {|
  login := login s; fields := fields s; flights := flights s; timers := timers s; dialog := dialog s;
  session := session s; sent := sent s ++ requests e; toasts := toasts s ++ notices e |}.

(** the form that is on the page *)
Inductive form_on_page := NoForm | TheForgotForm | TheOtpForm | TheAuthForm.
#[local] Instance form_on_page_eq : EqDecision form_on_page. Proof. solve_decision. Defined.
Definition on_page (l : Login.state) : form_on_page :=
  match view l with
  | LoginPage _ ForgotPassword => TheForgotForm | LoginPage _ (OtpRequestForm _) => TheOtpForm
  | LoginPage _ (UserAuthForm _) => TheAuthForm | _ => NoForm
  end.
Definition orphan {A} (x : A * bool) : A * bool := (x.1, false).
(** an event of [Login]: when another form comes, what waits has lost its own, the fields are empty, and a form to sign
    in with may start by itself *)
Definition happen (e : Login.event) (s : state) : state :=
  let '(l, ef) := Login.step (login s) e in
  let s' := told ef {| login := l; fields := fields s; flights := flights s; timers := timers s; dialog := dialog s;
                       session := session s; sent := sent s; toasts := toasts s |} in
  if decide (on_page (login s) = on_page l) then s'
  else
    with_dialog false (with_timers
      ((orphan <$> timers s) ++
        match on_page l, m ← auth_methods l; auto_login m (session s) with TheAuthForm, Some p => [(p, true)] | _, _ => [] end)
      (with_flights (orphan <$> flights s) (with_fields blank s'))).

(** ** Handlers *)

Definition mounted_submission (x : waiting * bool) : bool := match x with (Submission _ _, m) => m | _ => false end.
Definition mounted_mail (x : waiting * bool) : bool := match x with (OtpMail _, m) | (ResetMail _, m) => m | _ => false end.
Definition loading (s : state) : bool := existsb mounted_submission (flights s).
Definition mail_waits (s : state) : bool := existsb mounted_mail (flights s).
Definition the_form (s : state) : auth_form := form (login s).
(** the inputs are disabled while something waits *)
Definition inputs_enabled (s : state) : bool := negb (loading s || isOauthLoading (the_form s)).
(** the browser sends no form with an empty field that is required; disabled fields are left out *)
Definition filled (s : state) : bool :=
  negb (inputs_enabled s)
  || (truthy (t_email (fields s)) && truthy (t_password (fields s)) && (negb (isFirstRun (the_form s)) || truthy (t_confirm (fields s)))).
(** whether the handler comes to its first request *)
Definition asks (t : typed) (f : auth_form) : bool :=
  match safeParse (schema_of (isFirstRun f)) (form_data t f) with
  | [] => negb (isFirstRun f && negb (bool_decide (jget "password" (form_data t f) = jget "passwordConfirm" (form_data t f))))
  | _ => false
  end.
Definition no_answers : answers := {| create_user := Refused None; with_password := Refused None; otp_requested := None |}.
Definition changed (t : typed) (s : state) : state := happen FormChanged (with_fields t s).
Definition start_provider (p : provider) (forced : bool) (s : state) : state :=
  let s' := happen (ProviderClicked p forced ios popups) s in
  if (forced || ios) && negb popups then s' else with_flights (flights s' ++ [(Provider p, true)]) s'.
Definition step (e : event) (s : state) : state :=
  let t := fields s in
  match e with
  | SetEmail x => changed {| t_email := x; t_password := t_password t; t_confirm := t_confirm t; t_website := t_website t |} s
  | SetPassword x => changed {| t_email := t_email t; t_password := x; t_confirm := t_confirm t; t_website := t_website t |} s
  | SetConfirm x => changed {| t_email := t_email t; t_password := t_password t; t_confirm := x; t_website := t_website t |} s
  | Submit =>
      if negb (filled s) then s
      else if asks t (the_form s) then with_flights (flights s ++ [(Submission t (isFirstRun (the_form s)), true)]) s
      else happen (Submitted t no_answers) s
  | ChooseProvider p => start_provider p false s
  | VisitOtp => happen (Visited (parse_path "/request-otp")) s
  | VisitForgot => happen (Visited (Some ForgotPasswordPage)) s
  | TypeCode x =>
      if 6 <? String.length x then s else
      let s' := happen (CodeTyped x) s in
      match code_input (login s) with
      | Some (otp, mfa) => with_flights (flights s' ++ when (0 <? length (code_typed otp mfa (code (login s)) x)) [(Code otp mfa x, true)]) s'
      | None => s'
      end
  | TypeOtpMail x => happen (OtpEmailTyped x) s
  | SubmitOtpMail =>
      let email := mail_email (otp_form (login s)) in
      if mail_valid email then with_flights (flights s ++ [(OtpMail email, true)]) s else s
  | TypeResetMail x => happen (ForgotEmailTyped x) s
  | SubmitResetMail =>
      let email := mail_email (forgot_form (login s)) in
      if mail_valid email then with_flights (flights s ++ [(ResetMail email, true)]) s else s
  | OpenDialog => with_dialog true s
  | CloseDialog => with_dialog false s
  end.

(** *** Answers: a form that has left the page does not change, the rest of the handler runs *)

Definition signed_in (e : effects) (s : state) : state :=
  match signed e with Some b => happen (AuthStoreChanged b) (told e s) | None => told e s end.
(** the handler goes by whether it was the first run when the form was drawn *)
Definition submission_answered (t : typed) (first mounted : bool) (a : answers) (s : state) : state :=
  if mounted then happen (FirstRunKnown (isFirstRun (the_form s))) (happen (Submitted t a) (happen (FirstRunKnown first) s))
  else signed_in (handleSubmit t a (new_form first)).2 s.
Definition provider_answered (mounted : bool) (valid : option bool) (s : state) : state :=
  if mounted then happen (ProviderAnswered valid) s else signed_in (oauth_answered valid (the_form s)).2 s.
(** a code that is taken leads to the address "/", whatever the base path *)
Definition code_answered (accepted : bool) (message : string) (s : state) : state :=
  let s := happen (CodeAnswered accepted message) s in if accepted then happen (Visited (parse_path "/")) s else s.
Definition otp_answered (email : string) (mounted : bool) (a : string + option string) (s : state) : state :=
  if mounted then happen (OtpRequested a) s else told (request_otp a (mail_typed email new_mail_form)).2 s.
Definition reset_answered (email : string) (mounted accepted : bool) (s : state) : state :=
  if mounted then happen (ResetRequested accepted) s else told (request_reset accepted (mail_typed email new_mail_form)).2 s.
(** the timer of the automatic sign-in is not stopped when its form leaves *)
Definition timer_fired (p : provider) (mounted : bool) (s : state) : state :=
  if mounted then start_provider p true s
  else told (loginWithOauth p true ios popups (new_form false)).2
         (with_flights (flights s ++ when popups [(Provider p, false)]) s).

(** ** What is drawn *)

Definition field_text (s : state) (input : string) : string :=
  if String.eqb input "email" then t_email (fields s) else if String.eqb input "password" then t_password (fields s) else t_confirm (fields s).
Definition field_label (input : string) : string :=
  if String.eqb input "email" then "Email" else if String.eqb input "password" then "Password" else "Confirm password".
Definition set_field (input text : string) : event :=
  if String.eqb input "email" then SetEmail text else if String.eqb input "password" then SetPassword text else SetConfirm text.
(** an input of the form, or its text while it is disabled, with what is wrong with it; the hidden one is for machines *)
Definition input_row (s : state) (input : string) : screen event :=
  when (negb (String.eqb input "website"))
    ((if inputs_enabled s then [Input (field_label input) (field_text s input) (set_field input)] else [Text (field_label input) (field_text s input)])
     ++ match error_below input (the_form s) with Some e => [Text input e] | None => [] end).
Definition password_form (s : state) (inputs : list string) : screen event :=
  rows (input_row s) inputs
  ++ [Button "" (if isFirstRun (the_form s) then "Create account" else "Sign in")%string (negb (loading s)) Submit].
Definition provider_row (s : state) (p : provider) : screen event :=
  [Button "provider" (pr_displayName p) (inputs_enabled s) (ChooseProvider p)].
Definition element_page (s : state) (m : methods) (x : element) : screen event :=
  match x with
  | PasswordForm inputs => password_form s inputs
  | Divider => [Text "" "Or continue with"]
  | OtpLink => [Button "" "One-time password" true VisitOtp]
  | ProviderButtons _ => rows (provider_row s) (authProviders m)
  | GitHubDialog => [Button "" "GitHub" true OpenDialog]
  | ForgotLink => [Button "" "Forgot password?" true VisitForgot]
  end.
Definition github_dialog : screen event :=
  [Dialog "OAuth 2 / OIDC support" CloseDialog; Text "" "Beszel supports OpenID Connect and many OAuth2 authentication providers.";
   Link "" "the documentation" "https://beszel.dev/guide/oauth"].
Definition code_page (s : state) : screen event :=
  [Input "Code" (code (login s)) TypeCode; Text "" "Enter your one-time password."].
Definition auth_page (s : state) (m : methods) (v : form_view) : screen event :=
  match v with
  | CodeInput _ _ => code_page s
  | Elements l => if dialog s then github_dialog else rows (element_page s m) l
  end.
Definition mail_page (s : state) (email button : string) (change : string → event) (submit : event) : screen event :=
  (if mail_waits s then [Text "Email" email] else [Input "Email" email change]) ++ [Button "" button (negb (mail_waits s)) submit].
Definition otp_page (s : state) (v : option (string * string)) : screen event :=
  match v with
  | Some _ => code_page s
  | None => mail_page s (mail_email (otp_form (login s))) "Request OTP" TypeOtpMail SubmitOtpMail
  end.
Definition forgot_dialog : screen event :=
  [Dialog "Command line instructions" CloseDialog;
   Text "" "If you've lost the password to your admin account, you may reset it using the following command.";
   Text "" "Then log into the backend and reset your user account password in the users table.";
   Text "" "./beszel superuser upsert user@example.com password";
   Text "" "docker exec beszel /beszel superuser upsert name@example.com password"].
Definition forgot_page (s : state) : screen event :=
  if dialog s then forgot_dialog
  else mail_page s (mail_email (forgot_form (login s))) "Reset Password" TypeResetMail SubmitResetMail
       ++ [Button "" "Command line instructions" true OpenDialog].
(** the program behind the form is drawn by other components *)
Definition draw (s : state) : screen event :=
  match view (login s), auth_methods (login s) with
  | LoginPage subtitle body, Some m =>
      Text "" subtitle ::
      match body with
      | ForgotPassword => forgot_page s
      | OtpRequestForm v => otp_page s v
      | UserAuthForm v => auth_page s m v
      end
  | _, _ => []
  end.

(** ** What comes from outside *)

(** answers, timers, visits, and what the store of the client is told *)
Inductive news :=
| FirstRun (b : bool) | Methods (m : methods) | SubmissionAnswer (t : typed) (first mounted : bool) (a : answers)
| ProviderAnswer (p : provider) (mounted : bool) (valid : option bool)
| CodeAnswer (otp mfa x : string) (accepted : bool) (message : string)
| OtpAnswer (email : string) (a : string + option string) | ResetAnswer (email : string) (accepted : bool)
| TimerFires (p : provider) | Visit (p : option route) | Refresh (valid : bool) | StoreChange (valid : bool) | LogOut.
Inductive comes (s : state) : news → state → Prop :=
| first_run b : comes s (FirstRun b) (happen (FirstRunKnown b) s)
| methods_listed m : auth_methods (login s) = None → comes s (Methods m) (happen (MethodsListed m) s)
| answer_submission before t first m after a : flights s = before ++ (Submission t first, m) :: after →
    comes s (SubmissionAnswer t first m a) (submission_answered t first m a (with_flights (before ++ after) s))
| answer_provider before p m after v : flights s = before ++ (Provider p, m) :: after →
    comes s (ProviderAnswer p m v) (provider_answered m v (with_flights (before ++ after) s))
| answer_code before otp mfa x m after b message : flights s = before ++ (Code otp mfa x, m) :: after →
    comes s (CodeAnswer otp mfa x b message) (code_answered b message (with_flights (before ++ after) s))
| answer_otp before email m after a : flights s = before ++ (OtpMail email, m) :: after →
    comes s (OtpAnswer email a) (otp_answered email m a (with_flights (before ++ after) s))
| answer_reset before email m after b : flights s = before ++ (ResetMail email, m) :: after →
    comes s (ResetAnswer email b) (reset_answered email m b (with_flights (before ++ after) s))
| fires before p m after : timers s = before ++ (p, m) :: after →
    comes s (TimerFires p) (timer_fired p m (with_timers (before ++ after) s))
| visited p : comes s (Visit p) (happen (Visited p) s)
| refreshed b : comes s (Refresh b) (happen (Refreshed b) s)
| store_changed b : comes s (StoreChange b) (happen (AuthStoreChanged b) s)
| logged_out : comes s LogOut (happen LoggedOut (with_kept (jset "lo" "t" (session s)) s)).
Definition outside (s s' : state) : Prop := ∃ n, comes s n s'.
Definition first_state (p : option route) (valid : bool) (kept : jsmap string) : state := {|
  login := Login.start p valid; fields := blank; flights := []; timers := []; dialog := false; session := kept; sent := []; toasts := [] |}.
Definition start (s : state) : Prop := ∃ p valid kept, s = first_state p valid kept.
Definition reached : state → Prop := reachable draw step outside start.

(** ** Theorems *)

(** every state of the form is one of [Login]'s *)
Definition refines (s : state) : Prop := ∃ p valid es, login s = Login.run es (Login.start p valid).
(** a password that was sent was one the schema takes, with an address *)
Definition proper (r : request) : Prop :=
  match r with
  | CreateUser email password | AuthWithPassword email password => is_email email = true ∧ password_ok password = true
  | _ => True
  end.
(** the forms wait once at most, and nothing of the form waits when it is not there *)
Definition waits_ok (s : state) : Prop :=
  length (List.filter mounted_submission (flights s)) ≤ 1 ∧ length (List.filter mounted_mail (flights s)) ≤ 1
  ∧ (∀ x, x ∈ flights s → mounted_submission x = true → on_page (login s) = TheAuthForm)
  ∧ (∀ x, x ∈ flights s → mounted_mail x = true → on_page (login s) = TheForgotForm ∨ on_page (login s) = TheOtpForm).
Definition inv (s : state) : Prop := refines s ∧ Forall proper (sent s) ∧ waits_ok s ∧ isLoading (the_form s) = false.

(** *** What is sent *)

Lemma submit_proper t a f : isLoading f = false → Forall proper (requests (handleSubmit t a f).2).
Proof.
  intros Hl. destruct (isOauthLoading f) eqn:Ho.
  - unfold handleSubmit. destruct (safeParse _ _) as [|i l] eqn:E; [|constructor]. exfalso.
    assert (jget "email" (form_data t f) = None) as Hn by (unfold form_data; rewrite Hl, Ho; by destruct (isFirstRun f)).
    assert (∃ m, {| issue_key := "email"; issue_message := m |} ∈ safeParse (schema_of (isFirstRun f)) (form_data t f)) as [m Hm].
    { apply issue_iff; [apply schema_nodup|]. exists emailSchema. split; [by destruct (isFirstRun f)|]. by rewrite Hn. }
    unfold schema_of in Hm. rewrite E in Hm. by apply elem_of_nil in Hm.
  - destruct (ready (isFirstRun f) t) eqn:Hr.
    + pose proof (submit_ready_effects t a f Hl Ho Hr) as He. destruct (handleSubmit t a f) as [f' e]. destruct He as (_ & _ & He). cbn [snd]. rewrite He.
      assert (is_email (t_email t) = true ∧ password_ok (t_password t) = true) as Hp.
      { unfold ready, valid_form in Hr. apply andb_prop in Hr as [Hr _]. rewrite forallb_forall in Hr.
        split; [apply (Hr "email"%string)|apply (Hr "password"%string)]; destruct (isFirstRun f); cbn; auto. }
      repeat (apply Forall_app; split); repeat case_match; repeat constructor; apply Hp.
    + destruct (submit_not_ready t a f Hl Ho Hr) as (e & -> & _). constructor.
Qed.
Lemma submit_loading t a f : isLoading (handleSubmit t a f).1 = false.
Proof. unfold handleSubmit. match goal with |- context [let '(f, e) := ?x in _] => destruct x as [f' e'] end. done. Qed.
Lemma signed_form e s : form (apply_signed e s) = form s.
Proof. unfold apply_signed. by destruct (signed e). Qed.
Lemma remount_form (old new : Login.state) : isLoading (form new) = false → isLoading (form (remount old new)) = false.
Proof. intros Hf. unfold remount. destruct (authenticated new); [done|]. repeat case_match; done. Qed.
Lemma step_proper l e : isLoading (form l) = false →
  Forall proper (requests (Login.step l e).2) ∧ isLoading (form (Login.step l e).1) = false.
Proof.
  intros Hf. unfold Login.step.
  assert (Forall proper (requests (handle l e).2) ∧ isLoading (form (handle l e).1) = false) as [Hr Hf'].
  { destruct e; cbn [handle]; try (split; [by constructor|exact Hf]).
    - pose proof (submit_proper t a (form l) Hf). pose proof (submit_loading t a (form l)).
      destruct (handleSubmit t a (form l)) as [f' e']. cbn [fst snd] in *. rewrite signed_form. done.
    - unfold loginWithOauth. destruct (_ && _); repeat constructor; exact Hf.
    - unfold oauth_answered. cbn [fst snd]. rewrite signed_form. split; [by destruct valid; constructor|exact Hf].
    - destruct (code_input l) as [[otp mfa]|]; [|split; [constructor|exact Hf]]. split; [|exact Hf]. cbn.
      unfold code_typed, code_drawn. repeat case_match; repeat constructor.
    - destruct accepted; (split; [constructor|exact Hf]).
    - destruct answered; (split; [by repeat constructor|exact Hf]). }
  destruct (handle l e) as [s' ef]. cbn [fst snd] in *. split; [done|]. by apply remount_form.
Qed.

(** *** The forms and what waits *)

Lemma happen_facts e s :
  login (happen e s) = (Login.step (login s) e).1 ∧ sent (happen e s) = sent s ++ requests (Login.step (login s) e).2
  ∧ ((on_page (login (happen e s)) = on_page (login s) ∧ flights (happen e s) = flights s) ∨ flights (happen e s) = orphan <$> flights s).
Proof. unfold happen. destruct (Login.step (login s) e) as [l ef]. destruct (decide _); cbn; auto. Qed.
Lemma orphan_waits (f : waiting * bool → bool) (l : list (waiting * bool)) : (∀ w, f (w, false) = false) → List.filter f (orphan <$> l) = [].
Proof. intros Hf. induction l as [|[w m] l IH]; [done|]. rewrite fmap_cons. unfold orphan at 1. cbn [List.filter fst]. by rewrite Hf. Qed.
Lemma orphan_none (f : waiting * bool → bool) (l : list (waiting * bool)) x : (∀ w, f (w, false) = false) → x ∈ orphan <$> l → f x = false.
Proof. intros Hf ([w m] & -> & _)%list_elem_of_fmap. apply Hf. Qed.
Lemma submission_mounted w : mounted_submission (w, false) = false. Proof. by destruct w. Qed.
Lemma mail_mounted w : mounted_mail (w, false) = false. Proof. by destruct w. Qed.
Lemma inv_happen e s : inv s → inv (happen e s).
Proof.
  intros ((p & v & es & Er) & Hp & (H1 & H2 & H3 & H4) & Hl). destruct (happen_facts e s) as (E1 & E2 & E3).
  destruct (step_proper (login s) e Hl) as [Hreq Hld]. unfold inv, refines, the_form. rewrite E1, E2. split_and!.
  - exists p, v, (es ++ [e]). unfold Login.run in *. rewrite foldl_app. cbn. by rewrite <- Er.
  - by apply Forall_app.
  - rewrite E1 in E3. unfold waits_ok. rewrite E1. destruct E3 as [[-> ->]| ->]; [by split_and!|].
    rewrite !orphan_waits by (apply submission_mounted || apply mail_mounted). split_and!; [cbn; lia|cbn; lia| |].
    + intros x Hx. by rewrite (orphan_none _ _ _ submission_mounted Hx).
    + intros x Hx. by rewrite (orphan_none _ _ _ mail_mounted Hx).
  - exact Hld.
Qed.
(** changes that leave the form alone *)
Lemma inv_flights l s : inv s → waits_ok (with_flights l s) → inv (with_flights l s).
Proof. intros (H1 & H2 & _ & H4) Hw. by split_and!. Qed.
Lemma waits_removed s before x after : waits_ok s → flights s = before ++ x :: after → waits_ok (with_flights (before ++ after) s).
Proof.
  intros (H1 & H2 & H3 & H4) E. rewrite E in H1, H2, H3, H4. rewrite !List.filter_app, !length_app in H1, H2. cbn [List.filter] in H1, H2.
  split_and!; cbn [with_flights flights login].
  - rewrite List.filter_app, length_app. destruct (mounted_submission x); cbn in H1; lia.
  - rewrite List.filter_app, length_app. destruct (mounted_mail x); cbn in H2; lia.
  - intros y Hy. apply H3. apply elem_of_app in Hy as [Hy|Hy]; apply elem_of_app; [by left|by right; right].
  - intros y Hy. apply H4. apply elem_of_app in Hy as [Hy|Hy]; apply elem_of_app; [by left|by right; right].
Qed.
Lemma waits_other s x : waits_ok s → mounted_submission x = false → mounted_mail x = false → waits_ok (with_flights (flights s ++ [x]) s).
Proof.
  intros (H1 & H2 & H3 & H4) Hs Hm. split_and!; cbn [with_flights flights login]; rewrite ?List.filter_app, ?length_app; cbn [List.filter]; rewrite ?Hs, ?Hm; cbn; try lia.
  - intros y [Hy|Hy]%elem_of_app; [by apply H3|]. apply list_elem_of_singleton in Hy. subst y. congruence.
  - intros y [Hy|Hy]%elem_of_app; [by apply H4|]. apply list_elem_of_singleton in Hy. subst y. congruence.
Qed.
Lemma none_waits (f : waiting * bool → bool) l : existsb f l = false → List.filter f l = [].
Proof. induction l as [|x l IH]; [done|]. cbn. intros [-> Hl]%orb_false_iff. by apply IH. Qed.
Lemma waits_submission s t first : waits_ok s → loading s = false → on_page (login s) = TheAuthForm →
  waits_ok (with_flights (flights s ++ [(Submission t first, true)]) s).
Proof.
  intros (H1 & H2 & H3 & H4) Hl Hp. split_and!; cbn [with_flights flights login]; rewrite ?List.filter_app, ?length_app; cbn [List.filter mounted_submission mounted_mail].
  - unfold loading in Hl. rewrite (none_waits _ _ Hl). done.
  - cbn. lia.
  - done.
  - intros y [Hy|Hy]%elem_of_app; [by apply H4|]. apply list_elem_of_singleton in Hy. by subst y.
Qed.
Lemma waits_mail s w : waits_ok s → mail_waits s = false → (on_page (login s) = TheForgotForm ∨ on_page (login s) = TheOtpForm) →
  mounted_mail (w, true) = true → waits_ok (with_flights (flights s ++ [(w, true)]) s).
Proof.
  intros (H1 & H2 & H3 & H4) Hl Hp Hw. assert (mounted_submission (w, true) = false) as Hn by by destruct w.
  split_and!; cbn [with_flights flights login]; rewrite ?List.filter_app, ?length_app; cbn [List.filter]; rewrite ?Hn, ?Hw.
  - cbn. lia.
  - unfold mail_waits in Hl. rewrite (none_waits _ _ Hl). done.
  - intros y [Hy|Hy]%elem_of_app; [by apply H3|]. apply list_elem_of_singleton in Hy. subst y. congruence.
  - done.
Qed.
(** *** Every step *)

Lemma li_inv_told e s : Forall proper (requests e) → inv s → inv (told e s).
Proof. intros He (H1 & H2 & H3 & H4). split_and!; [done| |done|done]. by apply Forall_app. Qed.
Lemma li_inv_other x s : mounted_submission x = false → mounted_mail x = false → inv s → inv (with_flights (flights s ++ [x]) s).
Proof. intros Hs Hm Hi. apply inv_flights; [done|]. apply waits_other; [apply Hi|done|done]. Qed.
Lemma inv_removed s before x after : inv s → flights s = before ++ x :: after → inv (with_flights (before ++ after) s).
Proof. intros Hi E. apply inv_flights; [done|]. eapply waits_removed; [apply Hi|exact E]. Qed.
Lemma inv_provider p forced s : inv s → inv (start_provider p forced s).
Proof. intros Hi. unfold start_provider. destruct (_ && _); [by apply inv_happen|]. apply li_inv_other; [done|done|]. by apply inv_happen. Qed.
Lemma inv_signed_in e s : Forall proper (requests e) → inv s → inv (signed_in e s).
Proof. intros He Hi. unfold signed_in. destruct (signed e); [apply inv_happen|]; by apply li_inv_told. Qed.

(** what a drawn control is known to be *)
Definition promised (s : state) (e : event) : Prop :=
  match e with
  | SetEmail _ | SetPassword _ | SetConfirm _ => inputs_enabled s = true ∧ on_page (login s) = TheAuthForm
  | Submit => loading s = false ∧ on_page (login s) = TheAuthForm
  | ChooseProvider p => inputs_enabled s = true ∧ ∃ m, auth_methods (login s) = Some m ∧ oauthEnabled m = true ∧ p ∈ authProviders m
  | VisitOtp | VisitForgot => on_page (login s) = TheAuthForm
  | TypeCode _ => is_Some (code_input (login s))
  | TypeOtpMail _ | SubmitOtpMail => mail_waits s = false ∧ on_page (login s) = TheOtpForm
  | TypeResetMail _ | SubmitResetMail => mail_waits s = false ∧ on_page (login s) = TheForgotForm
  | OpenDialog => dialog s = false
  | CloseDialog => dialog s = true
  end.
Lemma provider_buttons m f l names : form_view_of m f = Elements l → ProviderButtons names ∈ l → oauthEnabled m = true.
Proof.
  unfold form_view_of. intros Hl Hin.
  assert (∀ b x, ProviderButtons names ∈ shown_if b x → b = true) as Hs by (intros [] x; [done|]; by intros ?%elem_of_nil).
  destruct (js_or_undef (otpId f)), (js_or_undef (mfaId f)); try discriminate; injection Hl as <-;
    rewrite !elem_of_app in Hin; destruct_or! Hin;
    first [by apply Hs in Hin | exfalso; revert Hin; unfold shown_if; case_match; (intros ?%list_elem_of_singleton || intros ?%elem_of_nil); done].
Qed.
Lemma input_row_promised s input e : on_page (login s) = TheAuthForm → offered (input_row s input) e → promised s e.
Proof.
  intros Hp Ho. offered_cases Ho by (unfold input_row in Ho). unfold set_field.
  destruct (String.eqb input "email"), (String.eqb input "password"); done.
Qed.
Lemma element_promised s m f l x e : on_page (login s) = TheAuthForm → auth_methods (login s) = Some m → dialog s = false →
  form_view_of m f = Elements l → x ∈ l → offered (element_page s m x) e → promised s e.
Proof.
  intros Hp Hm Hd Hl Hx Ho. destruct x as [inputs| | |names| |]; cbn [element_page] in Ho.
  - unfold password_form in Ho. rewrite offered_app, offered_rows in Ho. destruct Ho as [(input & _ & Ho)|Ho].
    + by eapply input_row_promised.
    + offered_cases Ho by idtac. split; [|done]. by apply negb_true_iff.
  - offered_cases Ho by idtac.
  - offered_cases Ho by idtac.
  - rewrite offered_rows in Ho. destruct Ho as (p & Hin & Ho). offered_cases Ho by (unfold provider_row in Ho).
    split; [done|]. exists m. split_and!; [done| |done]. by eapply provider_buttons.
  - offered_cases Ho by idtac.
  - offered_cases Ho by idtac.
Qed.
Lemma li_offered_promised s e : offered (draw s) e → promised s e.
Proof.
  unfold draw. destruct (view (login s)) as [|sub body|] eqn:Ev; [intros Ho; offered_cases Ho by idtac| |intros Ho; offered_cases Ho by idtac].
  destruct (auth_methods (login s)) as [m|] eqn:Em; [|intros Ho; offered_cases Ho by idtac].
  intros [Ho|Ho]%(offered_app [_]); [offered_cases Ho by idtac|].
  destruct body as [|v|v].
  - assert (on_page (login s) = TheForgotForm) as Hp by (unfold on_page; by rewrite Ev).
    offered_cases Ho by (unfold forgot_page, forgot_dialog, mail_page in Ho). split; [by apply negb_true_iff|done].
  - assert (on_page (login s) = TheOtpForm) as Hp by (unfold on_page; by rewrite Ev).
    assert (code_input (login s) = v) as Hc by (unfold code_input; by rewrite Ev).
    destruct v as [c|]; cbn [otp_page] in Ho.
    + offered_cases Ho by (unfold code_page in Ho).
    + offered_cases Ho by (unfold mail_page in Ho). split; [by apply negb_true_iff|done].
  - assert (on_page (login s) = TheAuthForm) as Hp by (unfold on_page; by rewrite Ev).
    destruct v as [otp mfa|l]; cbn [auth_page] in Ho.
    + offered_cases Ho by (unfold code_page in Ho). unfold code_input. rewrite Ev. by eexists.
    + destruct (dialog s) eqn:Hd; [offered_cases Ho by (unfold github_dialog in Ho)|].
      rewrite offered_rows in Ho. destruct Ho as (x & Hx & Ho). eapply element_promised; [done|done|done| |done|done].
      unfold view in Ev. destruct (authenticated (login s)); [done|]. rewrite Em in Ev. injection Ev as _ Ev.
      destruct (page (login s)) as [[]|]; try discriminate Ev; injection Ev as Ev; exact Ev.
Qed.

Lemma li_inv_user s e : inv s → offered (draw s) e → inv (step e s).
Proof.
  intros Hi Ho. pose proof (li_offered_promised s e Ho) as Hp. destruct e; cbn [step promised] in *; try (by apply inv_happen); try exact Hi.
  - destruct (negb (filled s)); [done|]. destruct (asks _ _); [|by apply inv_happen]. apply inv_flights; [done|]. apply waits_submission; [apply Hi|apply Hp..].
  - by apply inv_provider.
  - destruct (6 <? _); [done|]. destruct (code_input (login s)) as [[otp mfa]|]; [|by apply inv_happen].
    destruct (0 <? _); cbn [when]; [by apply li_inv_other, inv_happen|]. apply inv_flights; [by apply inv_happen|].
    rewrite app_nil_r. exact (proj1 (proj2 (proj2 (inv_happen (CodeTyped t) s Hi)))).
  - destruct (mail_valid _); [|done]. apply inv_flights; [done|]. apply waits_mail; [apply Hi|apply Hp|right; apply Hp|done].
  - destruct (mail_valid _); [|done]. apply inv_flights; [done|]. apply waits_mail; [apply Hi|apply Hp|left; apply Hp|done].
Qed.
Lemma li_inv_outside s s' : inv s → outside s s' → inv s'.
Proof.
  intros Hi [n [b|m _|before t first m after a E|before p m after v E|before otp mfa x m after b message E|before email m after a E
            |before email m after b E|before p m after E|p|b|b|]]; try (by apply inv_happen);
    try (pose proof (inv_removed _ _ _ _ Hi E) as Hr).
  - unfold submission_answered. destruct m; [by do 3 apply inv_happen|]. apply inv_signed_in; [by apply submit_proper|done].
  - unfold provider_answered. destruct m; [by apply inv_happen|]. apply inv_signed_in; [by destruct v; constructor|done].
  - unfold code_answered. destruct b; [by do 2 apply inv_happen|by apply inv_happen].
  - unfold otp_answered. destruct m; [by apply inv_happen|]. apply li_inv_told; [by destruct a; repeat constructor|done].
  - unfold reset_answered. destruct m; [by apply inv_happen|]. apply li_inv_told; [by repeat constructor|done].
  - unfold timer_fired. destruct m; [by apply inv_provider|]. apply li_inv_told.
    { unfold loginWithOauth. by destruct (_ && _); repeat constructor. }
    destruct popups; cbn [when]; [by apply (li_inv_other (Provider p, false) (with_timers (before ++ after) s))|]. rewrite app_nil_r. exact Hi.
Qed.

(** *** Who is signed in *)

(** the news with which the server, or the store it filled, says who the user is, and those that overrule it *)
Definition admitted (n : news) : bool :=
  match n with
  | SubmissionAnswer _ first _ a => match refused_with first a with None => true | Some _ => false end
  | ProviderAnswer _ _ (Some true) => true | CodeAnswer _ _ _ true _ => true | Refresh true | StoreChange true => true
  | _ => false
  end.
Definition overruled (n : news) : bool :=
  match n with ProviderAnswer _ _ (Some false) => true | Refresh false | StoreChange false => true | LogOut => true | _ => false end.
Definition of_form (n : news) : bool := match n with SubmissionAnswer _ _ _ _ => true | _ => false end.

Lemma auth_happen e s : authenticated (login (happen e s)) = authenticated (handle (login s) e).1.
Proof.
  destruct (happen_facts e s) as (-> & _ & _). unfold Login.step. destruct (handle (login s) e) as [l ef]. cbn [fst].
  by rewrite remount_authenticated.
Qed.
Lemma submit_signs t a f : signed (handleSubmit t a f).2 = None
  ∨ signed (handleSubmit t a f).2 = Some true ∧ refused_with (isFirstRun f) a = None.
Proof.
  unfold handleSubmit, sign_in, refused_with. destruct (safeParse _ _); [|by left]. destruct (isFirstRun f && _); [by left|].
  destruct (isFirstRun f), (create_user a) as [|m], (with_password a) as [|m']; cbn; auto;
    repeat match goal with |- context [js_or_undef ?m] => destruct (js_or_undef m) end; cbn; auto; destruct (otp_requested a); cbn; auto.
Qed.
Lemma auth_signed ef l : authenticated (apply_signed ef l) = match signed ef with Some b => b | None => authenticated l end.
Proof. unfold apply_signed. by destruct (signed ef). Qed.
Lemma auth_submitted t a s : authenticated (login (happen (Submitted t a) s))
  = match signed (handleSubmit t a (the_form s)).2 with Some b => b | None => authenticated (login s) end.
Proof. rewrite auth_happen. cbn. unfold the_form. destruct (handleSubmit t a (form (login s))) as [f ef]. cbn. by rewrite auth_signed. Qed.
Lemma auth_signed_in ef s : authenticated (login (signed_in ef s)) = match signed ef with Some b => b | None => authenticated (login s) end.
Proof. unfold signed_in. destruct (signed ef); [|done]. by rewrite auth_happen. Qed.
(** the form as it was drawn when it was sent *)
Lemma first_run_form b s : authenticated (login s) = false →
  isFirstRun (the_form (happen (FirstRunKnown b) s)) = b
  ∧ isOauthLoading (the_form (happen (FirstRunKnown b) s)) = isOauthLoading (the_form s)
  ∧ isLoading (the_form (happen (FirstRunKnown b) s)) = isLoading (the_form s).
Proof.
  intros Ha. unfold the_form. destruct (happen_facts (FirstRunKnown b) s) as (-> & _ & _). unfold Login.step, handle, remount. cbn.
  rewrite Ha. unfold form_kind. cbn. rewrite Nat.eqb_refl. by repeat case_match.
Qed.
Lemma auth_first_run b s : authenticated (login (happen (FirstRunKnown b) s)) = authenticated (login s).
Proof. by rewrite auth_happen. Qed.
Lemma auth_answered t first m a s :
  authenticated (login (submission_answered t first m a s))
  = match signed (handleSubmit t a (if m then the_form (happen (FirstRunKnown first) s) else new_form first)).2 with
    | Some b => b | None => authenticated (login s) end.
Proof.
  unfold submission_answered. destruct m; [|apply auth_signed_in].
  by rewrite auth_first_run, auth_submitted, auth_first_run.
Qed.
Lemma auth_provider m v s : authenticated (login (provider_answered m v s)) = match v with Some b => b | None => authenticated (login s) end.
Proof. unfold provider_answered. destruct m; [rewrite auth_happen; cbn; by rewrite auth_signed; destruct v|rewrite auth_signed_in; by destruct v]. Qed.
Lemma auth_code b message s : authenticated (login (code_answered b message s)) = b || authenticated (login s).
Proof. unfold code_answered. destruct b; [rewrite auth_happen; change (authenticated (login (happen (CodeAnswered true message) s)) = true)|]; by rewrite auth_happen. Qed.
Lemma auth_start p forced s : authenticated (login (start_provider p forced s)) = authenticated (login s).
Proof.
  unfold start_provider. assert (authenticated (login (happen (ProviderClicked p forced ios popups) s)) = authenticated (login s)) as E.
  { rewrite auth_happen. cbn. by destruct (loginWithOauth p forced ios popups (form (login s))). }
  by destruct (_ && _).
Qed.
(** what comes without a word about the user changes nothing *)
Lemma auth_silent n s s' : comes s n s' → of_form n = false → admitted n = false → overruled n = false →
  authenticated (login s') = authenticated (login s).
Proof.
  intros Hn. destruct Hn as [b|m _|before t first m after a E|before p m after v E|before otp mfa x m after b message E|before email m after a E
            |before email m after b E|before p m after E|p|b|b|]; cbn [of_form admitted overruled]; intros Hf Ha Ho; try done;
    rewrite ?auth_happen, ?auth_provider, ?auth_code; try done; try (by destruct b).
  - by destruct v as [[]|].
  - unfold otp_answered. destruct m; [|done]. rewrite auth_happen. cbn. by destruct (request_otp _ _).
  - unfold reset_answered. destruct m; [|done]. by rewrite auth_happen.
  - unfold timer_fired. destruct m; [by rewrite auth_start|done].
Qed.
Lemma news_admitted s n s' : comes s n s' →
  authenticated (login s') = true → admitted n = true ∨ authenticated (login s) = true ∧ overruled n = false.
Proof.
  intros Hn Ha. destruct (admitted n) eqn:En; [by left|right]. destruct (of_form n) eqn:Ef.
  - destruct Hn; try done. cbn in En. rewrite auth_answered in Ha. split; [|done].
    destruct (decide (authenticated (login s) = true)) as [|Hs]; [done|]. apply not_true_is_false in Hs.
    destruct (submit_signs t a (if m then the_form (happen (FirstRunKnown first) (with_flights (before ++ after) s)) else new_form first))
      as [Hx|[_ Hx]]; [by rewrite Hx in Ha|].
    destruct m; [rewrite (proj1 (first_run_form first (with_flights (before ++ after) s) Hs)) in Hx|]; cbn in Hx; by rewrite Hx in En.
  - destruct (overruled n) eqn:Eo; [exfalso|split; [by rewrite <- (auth_silent n s s')|done]].
    destruct Hn; try done; rewrite ?auth_happen, ?auth_provider in Ha; try (by destruct b); try done. by destruct v as [[]|].
Qed.
Lemma news_keeps s n s' : comes s n s' → authenticated (login s) = true → overruled n = false → authenticated (login s') = true.
Proof.
  intros Hn Ha Ho. destruct (of_form n) eqn:Ef.
  - destruct Hn; try done. rewrite auth_answered. by edestruct submit_signs as [-> |[-> _]].
  - destruct (admitted n) eqn:En; [|by rewrite (auth_silent n s s')].
    destruct Hn; try done; rewrite ?auth_happen, ?auth_provider, ?auth_code; try (by destruct b). by destruct v as [[]|].
Qed.

(** what waits from a form was complete *)
Definition sent_ready (x : waiting * bool) : Prop := match x.1 with Submission t first => ready first t = true | _ => True end.
Definition all_ready (s : state) : Prop := Forall sent_ready (flights s).
Lemma asks_ready t f : isLoading f = false → asks t f = true → ready (isFirstRun f) t = true.
Proof.
  intros Hl. unfold asks. destruct (isOauthLoading f) eqn:Ho.
  - destruct (safeParse _ _) as [|i l] eqn:E; [|done]. exfalso.
    assert (jget "email" (form_data t f) = None) as Hn by (unfold form_data; rewrite Hl, Ho; by destruct (isFirstRun f)).
    assert (∃ m, {| issue_key := "email"; issue_message := m |} ∈ safeParse (schema_of (isFirstRun f)) (form_data t f)) as [m Hm].
    { apply issue_iff; [apply schema_nodup|]. exists emailSchema. split; [by destruct (isFirstRun f)|]. by rewrite Hn. }
    rewrite E in Hm. by apply elem_of_nil in Hm.
  - destruct (safeParse _ _) as [|i l] eqn:E; [|done]. apply (no_issues f t Hl Ho) in E. unfold ready. rewrite E.
    unfold form_data. rewrite Hl, Ho. destruct (isFirstRun f); [|done]. cbn. rewrite negb_involutive. intros Hb%bool_decide_eq_true.
    apply String.eqb_eq. congruence.
Qed.
Lemma ready_happen e s : all_ready s → all_ready (happen e s).
Proof.
  intros Hr. unfold all_ready. destruct (happen_facts e s) as (_ & _ & [[_ ->]| ->]); [done|]. apply Forall_fmap.
  eapply Forall_impl; [exact Hr|]. by intros [w m].
Qed.
Lemma ready_more l x s : all_ready (with_flights l s) → sent_ready x → all_ready (with_flights (l ++ [x]) s).
Proof. intros Hl Hx. apply Forall_app. split; [exact Hl|]. by apply Forall_singleton. Qed.
Lemma ready_fewer before x after s : all_ready s → flights s = before ++ x :: after → all_ready (with_flights (before ++ after) s).
Proof. unfold all_ready. intros Hr E. rewrite E in Hr. apply Forall_app in Hr as [? [_ ?]%Forall_cons]. by apply Forall_app. Qed.
Lemma ready_provider p forced s : all_ready s → all_ready (start_provider p forced s).
Proof. intros Hr. unfold start_provider. destruct (_ && _); [by apply ready_happen|]. by apply ready_more; [apply ready_happen|]. Qed.
Lemma ready_signed_in ef s : all_ready s → all_ready (signed_in ef s).
Proof. intros Hr. unfold signed_in. by destruct (signed ef); [apply ready_happen|]. Qed.
Lemma ready_user s e : inv s → all_ready s → all_ready (step e s).
Proof.
  intros (_ & _ & _ & Hl) Hr. destruct e; cbn [step]; try (by apply ready_happen); try done.
  - destruct (negb (filled s)); [done|]. destruct (asks _ _) eqn:Ea; [|by apply ready_happen]. apply ready_more; [done|]. by apply asks_ready.
  - by apply ready_provider.
  - destruct (6 <? _); [done|]. destruct (code_input (login s)) as [[otp mfa]|]; [|by apply ready_happen].
    destruct (0 <? _); cbn [when]; [by apply ready_more; [apply ready_happen|]|]. rewrite app_nil_r. exact (ready_happen (CodeTyped t) s Hr).
  - destruct (mail_valid _); [|done]. by apply ready_more.
  - destruct (mail_valid _); [|done]. by apply ready_more.
Qed.
Lemma ready_outside s s' : all_ready s → outside s s' → all_ready s'.
Proof.
  intros Hr [n [b|m _|before t first m after a E|before p m after v E|before otp mfa x m after b message E|before email m after a E
            |before email m after b E|before p m after E|p|b|b|]]; try (by apply ready_happen);
    try (pose proof (ready_fewer _ _ _ _ Hr E) as Hf).
  - unfold submission_answered. destruct m; [by do 3 apply ready_happen|by apply ready_signed_in].
  - unfold provider_answered. destruct m; [by apply ready_happen|by apply ready_signed_in].
  - unfold code_answered. destruct b; [by do 2 apply ready_happen|by apply ready_happen].
  - unfold otp_answered. destruct m; [by apply ready_happen|done].
  - unfold reset_answered. destruct m; [by apply ready_happen|done].
  - unfold timer_fired. destruct m; [by apply ready_provider|]. unfold all_ready in *. cbn. apply Forall_app. split; [done|].
    destruct popups; cbn [when]; [by apply Forall_singleton|constructor].
Qed.
Lemma reached_ready s : reached s → all_ready s.
Proof.
  intros Hs. assert (inv s ∧ all_ready s) as [_ ?]; [|done]. revert s Hs. apply page_invariant.
  - intros s (p & v & kept & ->). split; [|constructor].
    split_and!; [by exists p, v, []|constructor| |done]. split_and!; [cbn; lia|cbn; lia|..]; by intros x []%elem_of_nil.
  - intros s e [Hi Hr] Ho. split; [by apply li_inv_user|by apply ready_user].
  - intros s s' [Hi Hr] Ho. split; [by eapply li_inv_outside|by eapply ready_outside].
Qed.
Lemma news_admits s n s' : inv s → all_ready s → comes s n s' → admitted n = true →
  (of_form n = true → isOauthLoading (the_form s) = false) → authenticated (login s') = true.
Proof.
  intros (_ & _ & _ & Hl) Hr Hn Ha Ho. destruct (authenticated (login s)) eqn:Es.
  { apply (news_keeps s n s' Hn Es). revert Ha. destruct n; cbn; by repeat case_match. }
  destruct Hn as [b|m _|before t first m after a E|before p m after v E|before otp mfa x m after b message E|before email m after a E
            |before email m after b E|before p m after E|p|b|b|]; try done; rewrite ?auth_happen, ?auth_provider, ?auth_code; try (by destruct b).
  - specialize (Ho eq_refl). rewrite auth_answered. cbn in Ha. destruct (refused_with first a) eqn:Er; [done|].
    assert (ready first t = true) as Hrd.
    { unfold all_ready in Hr. rewrite E in Hr. apply Forall_app in Hr as [_ [Hr _]%Forall_cons]. exact Hr. }
    set (s0 := with_flights (before ++ after) s). destruct (first_run_form first s0 Es) as (F1 & F2 & F3).
    set (f := if m then _ else _). assert (isFirstRun f = first ∧ isOauthLoading f = false ∧ isLoading f = false) as (E1 & E2 & E3).
    { unfold f. destruct m; [rewrite F1, F2, F3; by split_and!|done]. }
    pose proof (submit_ready_effects t a f E3 E2) as He. rewrite E1 in He. specialize (He Hrd).
    destruct (handleSubmit t a f) as [f' ef]. destruct He as (_ & He & _). cbn [snd]. by rewrite He, Er.
  - by destruct v as [[]|].
Qed.
Lemma user_signs_nothing s e : offered (draw s) e → authenticated (login s) = false ∧ authenticated (login (step e s)) = false.
Proof.
  intros Ho. assert (authenticated (login s) = false) as Ha.
  { unfold draw, view in Ho. destruct (authenticated (login s)); [offered_cases Ho by idtac|done]. }
  split; [done|].
  destruct e; cbn [step]; try (unfold changed; rewrite auth_happen; exact Ha); try exact Ha.
  - destruct (negb (filled s)); [done|]. destruct (asks _ _); [done|]. rewrite auth_submitted.
    destruct (submit_signs (fields s) no_answers (the_form s)) as [-> |[_ Hx]]; [done|].
    unfold refused_with in Hx. cbn in Hx. by destruct (isFirstRun (the_form s)).
  - by rewrite auth_start.
  - destruct (6 <? _); [done|]. assert (authenticated (login (happen (CodeTyped t) s)) = false) as Hc.
    { rewrite auth_happen. cbn. by destruct (code_input (login s)) as [[]|]. }
    by destruct (code_input (login s)) as [[]|].
  - by destruct (mail_valid _).
  - by destruct (mail_valid _).
Qed.

(** C20: whatever is typed, clicked, answered and visited, in whatever order, the forms go through states of
    [Login] only, and the program behind them is drawn only when the server, or the store it filled,
    has said who the user is and has not been overruled since: nothing the user does on the page signs in by itself, and of what
    comes from outside only an answer that accepts the last call of what was sent, a provider whose store is valid, an accepted
    code, and a refresh or a store that is valid do, each of them does, and nothing signs out but a store or
    refresh that is not valid and a log-out; a password leaves the page only with an address, and when it has 8
    to 72 bytes; at most one form waits to be signed in with, and one for a mail, and only while it is on the page; a control
    is drawn only where its handler may run; and the form with a password can be filled and sent
    whenever it is there and does not wait. *)
Theorem login_page s : reached s →
  (∃ p valid es, login s = Login.run es (Login.start p valid)
     ∧ ∀ body, view (login s) = App body →
         valid = true ∧ Forall (λ e, revokes e = false) es
         ∨ ∃ es1 e es2, es = es1 ++ e :: es2 ∧ admits e = true ∧ Forall (λ e, revokes e = false) es2)
  ∧ (∀ e, offered (draw s) e → authenticated (login s) = false ∧ authenticated (login (step e s)) = false)
  ∧ (∀ n s', comes s n s' →
       (authenticated (login s') = true → admitted n = true ∨ authenticated (login s) = true ∧ overruled n = false)
       ∧ (authenticated (login s) = true → overruled n = false → authenticated (login s') = true)
       ∧ (admitted n = true → (of_form n = true → isOauthLoading (the_form s) = false) → authenticated (login s') = true))
  ∧ Forall proper (sent s)
  ∧ waits_ok s
  ∧ (∀ e, offered (draw s) e → promised s e)
  ∧ (∀ m sub l, auth_methods (login s) = Some m → view (login s) = LoginPage sub (UserAuthForm (Elements l)) →
       password_enabled m = true → dialog s = false → loading s = false →
       offered (draw s) Submit
       ∧ (inputs_enabled s = true → ∀ text, offered (draw s) (SetEmail text) ∧ offered (draw s) (SetPassword text)
            ∧ (isFirstRun (the_form s) = true → offered (draw s) (SetConfirm text)))).
Proof.
  intros Hs. pose proof (reached_ready s Hs) as Hrd. assert (inv s) as Hinv.
  { clear Hrd. revert s Hs. apply page_invariant; [|apply li_inv_user|apply li_inv_outside].
    intros s (p & v & kept & ->). split_and!; [by exists p, v, []|constructor| |done]. split_and!; [cbn; lia|cbn; lia|..]; by intros x []%elem_of_nil. }
  pose proof Hinv as ((p & v & es & Er) & Hp & Hw & _).
  split_and!; [| | |done|apply Hw..|apply li_offered_promised|].
  2: { intros e He. by apply user_signs_nothing. }
  2: { intros n s' Hn. split_and!; [by eapply news_admitted|by eapply news_keeps|]. intros Ha Hf. by eapply (news_admits s n s'). }
  - exists p, v, es. split; [done|]. intros body Hv. rewrite Er in Hv. by apply admission in Hv.
  - intros m sub l Hm Hv He Hd Hl. assert (PasswordForm (form_fields (isFirstRun (the_form s))) ∈ l) as Hin.
    { assert (form_view_of m (the_form s) = Elements l) as Hf.
      { unfold view in Hv. destruct (authenticated (login s)); [done|]. rewrite Hm in Hv. injection Hv as _ Hv.
        destruct (page (login s)) as [[]|]; try discriminate Hv; by injection Hv. }
      unfold form_view_of in Hf. rewrite He in Hf. destruct (js_or_undef (otpId (the_form s))), (js_or_undef (mfaId (the_form s)));
        try discriminate Hf; injection Hf as <-; left. }
    assert (∀ w, w ∈ password_form s (form_fields (isFirstRun (the_form s))) → w ∈ draw s) as Hdraw.
    { intros w Hw'. unfold draw. rewrite Hv, Hm. right. cbn [auth_page]. rewrite Hd. apply elem_of_rows. by eexists. }
    assert (∀ input, input ∈ form_fields (isFirstRun (the_form s)) → String.eqb input "website" = false → inputs_enabled s = true →
            ∀ text, offered (draw s) (set_field input text)) as Hrow.
    { intros input Hi Hn Hen text. eapply by_typing. apply Hdraw. unfold password_form. apply elem_of_app. left. apply elem_of_rows.
      exists input. split; [done|]. unfold input_row. rewrite Hn, Hen. left. }
    split.
    + eapply by_click. apply Hdraw. unfold password_form. rewrite Hl. apply elem_of_app. right. left.
    + intros Hen text. split_and!; [apply (Hrow "email"%string)|apply (Hrow "password"%string)|intros Hf; apply (Hrow "passwordConfirm"%string)]; try done.
      * left. * right. left. * unfold form_fields. rewrite Hf. right. right. left.
Qed.

End Page.

(** ** Visits *)

#[local] Existing Instance reference_valibot.
(** a hub that is served below "/hub": the addresses of the router begin with it *)
Definition below_hub (path : string) : option route :=
  if String.eqb path "/hub/" then Some Home else if String.eqb path "/hub/request-otp" then Some RequestOtpPage else None.
Definition at_root (path : string) : option route :=
  if String.eqb path "/" then Some Home else if String.eqb path "/request-otp" then Some RequestOtpPage else None.
Definition arrived (m : methods) (s : state) : state := happen (MethodsListed m) s.
Definition here : state := arrived ex_methods (first_state (Some Home) false []).
Definition visit (parse_path : string → option route) (acts : list act) (s : state) : state :=
  default s (play draw (step parse_path has_at false true) acts s).
Definition sign_in_acts : list act := [Type_ "Email" "a@b"; Type_ "Password" "12345678"; Click "" "Sign in"]%string.
Definition waiting_page : state := visit at_root sign_in_acts here.
Example password_waits :
  flights waiting_page = [(Submission (ex_typed "12345678" "") false, true)] ∧ loading waiting_page = true
  ∧ toasts (submission_answered (ex_typed "12345678" "") false true (ex_answers (Refused None) None) (with_flights [] waiting_page))
    = [showLoginFaliedToast None].
Proof. by vm_compute. Qed.
(** a password that is too short is not sent, and the form says so *)
Example short_password :
  let s := visit at_root [Type_ "Email" "a@b"; Type_ "Password" "1234567"; Click "" "Sign in"]%string here in
  flights s = [] ∧ sent s = [] ∧ Text "password" "Password must be at least 8 characters." ∈ draw s.
Proof. split; [by vm_compute|]. split; [by vm_compute|]. apply list_elem_of_In. vm_compute. repeat first [left; reflexivity | right]. Qed.

(** the address "/" that an accepted code leads to, and that of the one-time passwords, leave the base path out *)
Definition code_sent : state :=
  let s := happen (OtpRequested (inl "o"%string)) (arrived ex_methods (first_state (Some RequestOtpPage) false [])) in
  visit below_hub [Type_ "Code" "123456"]%string s.
Example code_leads_nowhere :
  flights code_sent = [(Code "o" "" "123456", true)]
  ∧ view (login (code_answered below_hub true "" (with_flights [] code_sent))) = App NotFound
  ∧ view (login (code_answered at_root true "" (with_flights [] code_sent))) = App (AppPage Home).
Proof. by vm_compute. Qed.
Definition otp_methods : methods := {|
  password_enabled := true; otp_enabled := true; mfa_enabled := false; oauth2_enabled := false; providers := None |}.
Example otp_link_leads_nowhere :
  let s := arrived otp_methods (first_state (Some Home) false []) in
  page (login (visit below_hub [Click "" "One-time password"]%string s)) = None
  ∧ page (login (visit at_root [Click "" "One-time password"]%string s)) = Some RequestOtpPage.
Proof. by vm_compute. Qed.

(** the automatic sign-in is not told of a click before it: two windows, two sign-ins *)
Definition the_provider : provider := {| pr_name := "oidc"; pr_displayName := "OIDC" |}.
Definition one_provider : methods := {|
  password_enabled := false; otp_enabled := false; mfa_enabled := false; oauth2_enabled := true; providers := Some [the_provider] |}.
Example two_sign_ins :
  let s := arrived one_provider (first_state (Some Home) false []) in
  let s := visit at_root [Click "provider" "OIDC"]%string s in
  timers s = [(the_provider, true)]
  ∧ sent (timer_fired false true the_provider true (with_timers [] s)) = [AuthWithOAuth2 "oidc" false; AuthWithOAuth2 "oidc" true].
Proof. by vm_compute. Qed.
(** after a log-out nothing starts by itself *)
Example no_sign_in_after_log_out :
  timers (arrived one_provider (first_state (Some Home) false (jset "lo" "t" [])%string)) = [].
Proof. by vm_compute. Qed.

Lemma login_page_witness :
  waits_ok waiting_page
  ∧ offered (draw here) Submit ∧ offered (draw here) (SetEmail "x").
Proof.
  assert (reached at_root has_at false true here) as Hh.
  { apply (from_outside _ _ _ _ (first_state (Some Home) false [])); [apply at_start; by exists (Some Home), false, []|].
    exists (Methods ex_methods). by apply (methods_listed _ _ _ (first_state (Some Home) false []) ex_methods). }
  split.
  - apply (login_page at_root has_at false true waiting_page).
    apply (play_reachable _ _ _ _ sign_in_acts here); [exact Hh|by vm_compute].
  - destruct (login_page at_root has_at false true here Hh) as (_ & _ & _ & _ & _ & _ & H).
    destruct (H ex_methods "Please sign in to your account"%string
      [PasswordForm ["email"; "password"; "website"]%string; ForgotLink] eq_refl eq_refl eq_refl eq_refl eq_refl) as [H1 H2].
    split; [exact H1|]. apply (H2 eq_refl).
Defined.
