(* ===== verification/FleetUi.v ===== *)
(** * Actions on several systems, and two small pages, as the user meets them

    [UpdateAgentsButton] ([components/update-agents-button.tsx]), the badge that reboots a system
    ([components/systems-table/reboot-button.tsx]) and the page of the configuration file
    ([components/routes/settings/config-yaml.tsx]), with their dialogs, requests and answers.  What a request is and what
    is said of its answer is [SystemsTable]'s and [Controls]'. *)
From Stdlib Require Import ZArith Lia.
From S2P Require Import Prelude JsValue Types Settings Controls SystemsTable Dom.
Open Scope nat_scope.

(** ** The menu of the fleet *)

Module Fleet.

Record state := {
  confirm : option FleetAction; running : bool; flights : list FleetAction;
  sent : list FleetAction; reports : list (string * string) }.
Inductive event := Choose (a : FleetAction) | CloseDialog | Continue.
#[export] Instance action_eq : EqDecision FleetAction. Proof. solve_decision. Defined.

Definition with_confirm (c : option FleetAction) (s : state) : state := {|
  confirm := c; running := running s; flights := flights s; sent := sent s; reports := reports s |}.
Definition run (a : FleetAction) (s : state) : state := {|
  confirm := confirm s; running := true; flights := flights s ++ [a]; sent := sent s ++ [a]; reports := reports s |}.
(** the action of the dialog runs, and the dialog closes *)
Definition step (e : event) (s : state) : state :=
  match e with
  | Choose a => with_confirm (Some a) s
  | CloseDialog => with_confirm None s
  | Continue => with_confirm None (match confirm s with Some a => run a s | None => s end)
  end.
(** an answer: the results, or the message of the error *)
Definition answered (a : FleetAction) (rest : list FleetAction) (answer : string + option (jsmap string)) (s : state) : state := {|
  confirm := confirm s; running := false; flights := rest; sent := sent s;
  reports := reports s ++ match SystemsTable.run true a answer with Some r => [r] | None => [] end |}.

Definition item_label (a : FleetAction) : string :=
  match a with Updates => "Apply all updates everywhere" | Security => "Apply security updates everywhere" | Agents => "Update all agents" end.
Definition title (a : FleetAction) : string :=
  match a with
  | Agents => "Update all agents?" | Updates => "Apply ALL package updates on every system?"
  | Security => "Apply security updates on every system?"
  end.
Definition description (a : FleetAction) : string :=
  match a with
  | Agents => "Every online system downloads the hub's current agent build, verifies it, and restarts its agent. Agents that are already current are skipped."
  | Updates => "Every online system with pending updates installs all of them in the background (held packages are skipped). Services on those systems may restart during upgrades."
  | Security => "Every online system with pending security updates installs them in the background (held packages are skipped)."
  end.
Definition menu_order : list FleetAction := [Updates; Security; Agents].
Definition draw (admin : bool) (s : state) : screen event :=
  when admin
    match confirm s with
    | Some a => [Dialog (title a) CloseDialog; Text "" (description a); Button "" "Cancel" true CloseDialog; Button "" "Continue" true Continue]
    | None => rows (λ a, [Button "Fleet" (item_label a) (negb (running s)) (Choose a)]) menu_order
    end.

Inductive outside (s : state) : state → Prop :=
| answers before a after r : flights s = before ++ a :: after → outside s (answered a (before ++ after) r s).
Definition first_state : state := {| confirm := None; running := false; flights := []; sent := []; reports := [] |}.
Definition reached (admin : bool) : state → Prop := reachable (draw admin) step outside (λ s, s = first_state).

(** one request at most is under way, and the menu is disabled exactly meanwhile; every request but the one under way has been
    reported *)
Definition inv (admin : bool) (s : state) : Prop :=
  length (flights s) = (if running s then 1 else 0)
  ∧ length (reports s) + length (flights s) = length (sent s)
  ∧ (is_Some (confirm s) → running s = false ∧ admin = true)
  ∧ (admin = false → s = first_state).
Lemma fl_offered admin s e : offered (draw admin s) e → admin = true ∧
  match e with Choose _ => running s = false ∧ confirm s = None | CloseDialog | Continue => is_Some (confirm s) end.
Proof.
  unfold draw. rewrite offered_when. intros [-> Ho]. split; [done|].
  destruct (confirm s) as [a|] eqn:E.
  - offered_cases Ho by idtac.
  - offered_cases Ho by idtac. by destruct (running s).
Qed.
Lemma inv_user admin s e : inv admin s → offered (draw admin s) e → inv admin (step e s).
Proof.
  intros (Hf & Hr & Hc & Ha) [-> Hp]%fl_offered. destruct e as [a| |]; cbn [step].
  - destruct Hp as [Hp _]. by split_and!.
  - split_and!; try done. by intros [? ?].
  - destruct Hp as [a E]. rewrite E. destruct Hc as [Hn _]; [by rewrite E|]. rewrite Hn in Hf. unfold inv. cbn.
    rewrite !length_app, Hf. cbn. split_and!; first [done|lia|by intros [? ?]].
Qed.
Lemma inv_outside admin s s' : inv admin s → outside s s' → inv admin s'.
Proof.
  intros (Hf & Hr & Hc & Ha) [before a after r E]. rewrite E in Hf, Hr. rewrite !length_app in Hf, Hr. cbn [length] in Hf, Hr.
  assert (running s = true) as Hrun by (destruct (running s); [done|lia]). rewrite Hrun in Hf.
  unfold inv, answered. cbn [flights running sent reports confirm SystemsTable.run]. rewrite !length_app. cbn [length].
  split_and!; [lia|lia|intros [_ ?]%Hc; done|]. intros Hna. specialize (Ha Hna). rewrite Ha in Hrun. done.
Qed.
(** the dialogs can be told apart by their titles, the items of the menu by their labels *)
Lemma titles_differ a b : (title a = title b → a = b) ∧ (item_label a = item_label b → a = b).
Proof. by destruct a, b. Qed.
(** what an event that is offered sends, and why *)
Definition sends (admin : bool) (s : state) (e : event) : Prop :=
  (sent (step e s) = sent s ∧ flights (step e s) = flights s)
  ∨ ∃ a, e = Continue ∧ (∀ a', Dialog (title a') CloseDialog ∈ draw admin s ↔ a' = a)
      ∧ sent (step e s) = sent s ++ [a] ∧ flights (step e s) = flights s ++ [a].

(** C25: whatever is chosen, confirmed and answered, only administrators can start anything on the fleet; a request is
    sent by the button of an open dialog only, and for the action that its title names, and an item of the menu
    opens the dialog of the action of its label; no answer sends anything.  At most one action is under way, no other can be chosen
    meanwhile, and each one that was answered has been reported; and when none is under way each of the three can be
    chosen, or the dialog can be left and followed. *)
Theorem fleet_actions admin s : reached admin s →
  (admin = false → sent s = [] ∧ draw admin s = [])
  ∧ (∀ e, offered (draw admin s) e → sends admin s e)
  ∧ (∀ s', outside s s' → sent s' = sent s)
  ∧ (∀ row label en a, Button row label en (Choose a) ∈ draw admin s → label = item_label a ∧ confirm (step (Choose a) s) = Some a)
  ∧ length (flights s) = (if running s then 1 else 0)
  ∧ length (reports s) + length (flights s) = length (sent s)
  ∧ (∀ a, offered (draw admin s) (Choose a) ↔ admin = true ∧ running s = false ∧ confirm s = None)
  ∧ (offered (draw admin s) Continue ↔ is_Some (confirm s))
  ∧ (offered (draw admin s) CloseDialog ↔ is_Some (confirm s)).
Proof.
  intros Hs. assert (inv admin s) as (Hf & Hr & Hc & Ha).
  { revert s Hs. apply page_invariant; [|apply inv_user|apply inv_outside]. intros s ->. split_and!; try done. by intros [? ?]. }
  split_and!; try done.
  - intros ->. by rewrite (Ha eq_refl).
  - intros e [-> Hp]%fl_offered. destruct e as [a| |]; [by left|by left|right]. destruct Hp as [a E]. exists a. cbn [step].
    rewrite E. split_and!; try done. intros a'. unfold draw. rewrite E. split; [|intros ->; left].
    intros H. drawn H. injection H as H. by apply (proj1 (titles_differ a' a)).
  - by intros s' [].
  - intros row label en a H. unfold draw in H. drawn H; by simplify_eq.
  - intros a. split; [intros [-> ?]%fl_offered; done|]. intros (-> & Hn & Hcn). unfold draw. rewrite Hcn, Hn.
    apply offered_when. split; [done|]. apply offered_rows. exists a. split; [destruct a; apply (bool_decide_unpack _); by vm_compute|].
    eapply by_click. left.
  - split; [by intros [_ ?]%fl_offered|]. intros Hi. destruct (Hc Hi) as [_ ->]. destruct Hi as [a E]. unfold draw. rewrite E.
    eapply (by_click _ "" "Continue"). do 3 right. left.
  - split; [by intros [_ ?]%fl_offered|]. intros Hi. destruct (Hc Hi) as [_ ->]. destruct Hi as [a E]. unfold draw. rewrite E.
    eapply by_leaving. left.
Qed.

Definition visit (acts : list act) (s : state) : state := default s (play (draw true) step acts s).
Definition update_everything : list act := [Click "Fleet" "Apply all updates everywhere"; Click "" "Continue"]%string.
Definition under_way : state := visit update_everything first_state.
Example fleet_reported :
  sent under_way = [Updates] ∧ running under_way = true
  ∧ reports (answered Updates [] (inr (Some [("web", "running"); ("db", "error: no disk"); ("ns", "no updates")]%string)) under_way)
    = [("Package updates started", "Started: web · Nothing to do: 1 · Failed: db (no disk)")]%string.
Proof. by vm_compute. Qed.
Lemma fleet_actions_witness : length (reports under_way) + 1 = length (sent under_way) ∧ length (flights under_way) = 1.
Proof.
  assert (reached true under_way) as Hr by (apply (play_reachable _ _ _ _ update_everything first_state); [by apply at_start|by vm_compute]).
  destruct (fleet_actions true under_way Hr) as (_ & _ & _ & _ & H2 & H3 & _). split; [|exact H2]. by rewrite <- H3, H2.
Defined.
End Fleet.

(** ** The badge of a pending reboot *)

Module Badge.

Record state := { system : SystemRecord; open : bool; waiting : list SystemRecord; reboots : list string; said : list (string * option string) }.
Inductive event := BadgeClicked | CloseDialog | ConfirmReboot.
Definition with_open (b : bool) (s : state) : state := {|
  system := system s; open := b; waiting := waiting s; reboots := reboots s; said := said s |}.
Definition send (s : state) : state := {|
  system := system s; open := open s; waiting := waiting s ++ [system s]; reboots := reboots s ++ [reboot_path (system s)]; said := said s |}.
Definition step (e : event) (s : state) : state :=
  match e with
  | BadgeClicked => with_open true s
  | CloseDialog => with_open false s
  | ConfirmReboot => with_open false (send s)
  end.
Definition draw (isReadOnly : bool) (s : state) : screen event :=
  when (reboot_button (system s) isReadOnly)
    (if open s
     then [Dialog ("Reboot " +:+ sys_name (system s) +:+ "?") CloseDialog;
           Text "" "This system needs a reboot to finish applying updates. It will show as down for a short time while it comes back up.";
           Button "" "Cancel" true CloseDialog; Button "" "Reboot" true ConfirmReboot]
     else [Button "" "Reboot required" true BadgeClicked]).
(** the store tells of a new record of the system; an answer speaks of the record the request was made with *)
Definition told (r : SystemRecord) (s : state) : state := {|
  system := r; open := open s; waiting := waiting s; reboots := reboots s; said := said s |}.
Definition answered (r : SystemRecord) (rest : list SystemRecord) (error : option string) (s : state) : state := {|
  system := system s; open := open s; waiting := rest; reboots := reboots s; said := said s ++ [reboot_toast r error] |}.
Inductive outside (s : state) : state → Prop :=
| update r : sys_id r = sys_id (system s) → outside s (told r s)
| answers before r after error : waiting s = before ++ r :: after → outside s (answered r (before ++ after) error s).
Definition first_state (r : SystemRecord) : state := {| system := r; open := false; waiting := []; reboots := []; said := [] |}.
Definition reached (isReadOnly : bool) (r : SystemRecord) : state → Prop := reachable (draw isReadOnly) step outside (λ s, s = first_state r).

(** Fact [badge_reboots]: the badge reboots no system but its own, and only when the user may and the system asked for it at that
    moment; those who may only read are not shown anything. *)
Theorem badge_reboots isReadOnly r s : reached isReadOnly r s →
  Forall (λ path, path = reboot_path r) (reboots s)
  ∧ (isReadOnly = true → reboots s = [] ∧ draw isReadOnly s = [])
  ∧ (∀ e, offered (draw isReadOnly s) e → default false (si_rb (sys_info (system s))) = true ∧ isReadOnly = false
       ∧ match e with BadgeClicked => open s = false | _ => open s = true end).
Proof.
  intros Hs.
  assert (∀ s e, offered (draw isReadOnly s) e → default false (si_rb (sys_info (system s))) = true ∧ isReadOnly = false
            ∧ match e with BadgeClicked => open s = false | _ => open s = true end) as Ho.
  { clear. intros s e. unfold draw. rewrite offered_when. intros [Hb Ho].
    unfold reboot_button in Hb. apply andb_prop in Hb as [Hrb Hro]. apply negb_true_iff in Hro.
    split; [by destruct (si_rb _) as [[]|]|]. split; [done|].
    destruct (open s) eqn:E; offered_cases Ho by idtac. }
  assert (sys_id (system s) = sys_id r ∧ Forall (λ path, path = reboot_path r) (reboots s) ∧ (isReadOnly = true → reboots s = [])) as (_ & H1 & H2).
  { revert s Hs. apply page_invariant.
    - by intros s ->.
    - intros s e (Hi & Hf & Hr) He. destruct (Ho s e He) as (_ & Hro & _). destruct e; cbn [step]; try done.
      split_and!; [done| |intros ->; done]. apply Forall_app. split; [done|]. constructor; [|done]. unfold reboot_path. by rewrite Hi.
    - intros s s' (Hi & Hf & Hr) [r' E|before r' after error E]; [|done]. split_and!; [cbn; congruence|done|done]. }
  split; [done|]. split; [|apply Ho]. intros ->. split; [by apply H2|]. unfold draw, reboot_button. by rewrite andb_false_r.
Qed.
Definition asking (rb : bool) (r : SystemRecord) : SystemRecord := {|
  sys_id := sys_id r; sys_name := sys_name r; sys_host := sys_host r; sys_status := sys_status r; sys_port := sys_port r;
  sys_info := let i := sys_info r in {|
    si_h := si_h i; si_k := si_k i; si_cpu := si_cpu i; si_t := si_t i; si_c := si_c i; si_m := si_m i; si_l1 := si_l1 i;
    si_l5 := si_l5 i; si_l15 := si_l15 i; si_la := si_la i; si_o := si_o i; si_u := si_u i; si_mp := si_mp i; si_dp := si_dp i;
    si_bat := si_bat i; si_b := si_b i; si_bb := si_bb i; si_v := si_v i; si_p := si_p i; si_g := si_g i; si_dt := si_dt i;
    si_os := si_os i; si_ct := si_ct i; si_efs := si_efs i; si_sv := si_sv i; si_pu := si_pu i; si_pus := si_pus i; si_rb := Some rb |} |}.
Definition web : SystemRecord := asking true (example_system "a" "web" Status_Up).
Definition visit (acts : list act) (s : state) : state := default s (play (draw false) step acts s).
(** a dialog that vanished because the system had been rebooted is there again when the system asks the next time *)
Example dialog_comes_back :
  let opened := visit [Click "" "Reboot required"]%string (first_state web) in
  draw false (told (asking false web) opened) = []
  ∧ Dialog "Reboot web?" CloseDialog ∈ draw false (told web (told (asking false web) opened)).
Proof. split; [by vm_compute|]. left. Qed.
(** nothing keeps a second request from being sent while the first is under way *)
Example rebooted_twice :
  let once := [Click "" "Reboot required"; Click "" "Reboot"]%string in
  length (waiting (visit (once ++ once) (first_state web))) = 2.
Proof. by vm_compute. Qed.
Lemma badge_reboots_witness : offered (draw false (first_state web)) BadgeClicked ∧ Forall (λ path, path = reboot_path web) (reboots (first_state web)).
Proof.
  split; [eapply by_click; left|]. exact (proj1 (badge_reboots false web (first_state web) (at_start _ _ _ _ _ eq_refl))).
Defined.
End Badge.

(** ** The configuration file *)

Module Yaml.

(** the text area keeps the text it was made with, and what the user types, as long as it is there *)
Record state := { page : yaml_page; area : option string; asked : nat; errors : list string }.
Inductive event := Export | Typed (text : string).
Definition draw_area (s : state) : state := {|
  page := page s; area := if truthy (configContent (page s)) then Some (default (configContent (page s)) (area s)) else None;
  asked := asked s; errors := errors s |}.
Definition step (e : event) (s : state) : state :=
  match e with
  | Export => draw_area {| page := yaml_step (page s) ExportClicked; area := area s; asked := S (asked s); errors := errors s |}
  | Typed text => {| page := page s; area := Some text; asked := asked s; errors := errors s |}
  end.
Definition draw (s : state) : screen event :=
  [Text "" "YAML Configuration"; Text "" "Export your current systems configuration.";
   Text "" "Systems may be managed in a config.yml file inside your data directory.";
   Text "" "On each restart, systems in the database will be updated to match the systems defined in the file.";
   Text "" "Caution - potential data loss";
   Text "" "Existing systems not defined in config.yml will be deleted. Please make regular backups."]
  ++ match area s with Some text => [Input "config" text Typed] | None => [] end
  ++ [Button "" "Export configuration" (negb (isLoading (page s))) Export].
Definition answered (a : string + string) (s : state) : state :=
  draw_area {| page := yaml_step (page s) (ConfigAnswered a); area := area s; asked := pred (asked s);
               errors := errors s ++ match a with inr message => [message] | inl _ => [] end |}.
Inductive outside (s : state) : state → Prop :=
| answers a : 0 < asked s → outside s (answered a s).
Definition first_state : state := {| page := {| configContent := ""; isLoading := false; yaml_error := None |}; area := None; asked := 0; errors := [] |}.
Definition reached : state → Prop := reachable draw step outside (λ s, s = first_state).

Lemma area_drawn s : is_Some (area (draw_area s)) ↔ truthy (configContent (page (draw_area s))) = true.
Proof.
  unfold draw_area. cbn [area page]. destruct (truthy (configContent (page s))).
  - split; [done|]. intros _. by eexists.
  - split; [by intros [? ?]|done].
Qed.
(** Fact [export_once]: one export at most is under way, the button is disabled exactly meanwhile, and there is a text exactly when
    an export gave one. *)
Theorem export_once s : reached s →
  asked s = (if isLoading (page s) then 1 else 0)
  ∧ (offered (draw s) Export ↔ isLoading (page s) = false)
  ∧ (is_Some (area s) ↔ truthy (configContent (page s)) = true).
Proof.
  assert (∀ s e, offered (draw s) e → match e with Export => isLoading (page s) = false | Typed _ => is_Some (area s) end) as Hof.
  { clear. intros s e Ho. offered_cases Ho by (unfold draw in Ho). by destruct (isLoading (page s)). }
  assert (∀ s, offered (draw s) Export ↔ isLoading (page s) = false) as Ho.
  { intros s'. split; [apply (Hof s' Export)|]. intros Hl.
    eapply (by_click _ "" "Export configuration"). unfold draw. rewrite Hl, !elem_of_app. right. right. left. }
  assert (∀ s t, offered (draw s) (Typed t) → is_Some (area s)) as Ht by (intros s' t; apply (Hof s' (Typed t))). clear Hof.
  intros Hs. split_and!; [|apply Ho|].
  - revert s Hs. apply page_invariant.
    + by intros s ->.
    + intros s [|t] Hi He; [|exact Hi]. apply Ho in He. cbn. rewrite He. cbn. rewrite He in Hi. by rewrite Hi.
    + intros s s' Hi [a Ha]. destruct a; cbn; destruct (isLoading (page s)); lia.
  - revert s Hs. apply page_invariant.
    + intros s ->. cbn. split; [by intros [? ?]|done].
    + intros s [|t] Hi He; [apply area_drawn|]. cbn. split; [|by eexists]. intros _. apply Hi. by eapply Ht.
    + intros s s' Hi [a Ha]. apply area_drawn.
Qed.
(** a second export is not shown: the text area keeps the first *)
Example second_export_hidden :
  let once text s := answered (inl text) (step Export s) in
  let s := once "systems: [a]"%string (once "systems: []"%string first_state) in
  configContent (page s) = "systems: [a]"%string ∧ area s = Some "systems: []"%string.
Proof. by vm_compute. Qed.
Lemma export_once_witness : asked (step Export first_state) = 1.
Proof.
  assert (reached (step Export first_state)) as Hr.
  { apply by_user; [by apply at_start|]. eapply (by_click _ "" "Export configuration"). do 6 right. left. }
  exact (proj1 (export_once _ Hr)).
Defined.
End Yaml.
