(* ===== verification/HomeUi.v ===== *)
(** * Cards of the active alerts, and the bells, as they are drawn

    [ActiveAlerts] ([components/active-alerts.tsx]), which the pages of systems, containers and
    S.M.A.R.T. devices ([routes/home.tsx], [containers.tsx], [smart.tsx]) put on top, and the bell of a
    system ([components/alerts/alert-button.tsx]) in the rows and in the cards of the list of systems.
    Both keep what they drew until the values change that they name as its dependencies; here is what
    they may show meanwhile.  Which alerts are active, and the key of the cards, is [Alerts]'. *)
From Stdlib Require Import QArith ZArith Lia.
From S2P Require Import Prelude JsValue JsDate Types Live Nanostores Alerts SystemsManager SystemsTable Controls Dom ShellUi.
Open Scope nat_scope.

(** ** The cards *)

Module Cards.
Section Cards.
Context {R : Router} (num_str : Q → string).

Record card := { c_id : string; c_title : string; c_text : option string; c_href : string }.
(** [Plural] in English *)
Definition minutes (n : Z) : string := z_str n +:+ (if Z.eqb n 1 then " minute" else " minutes").
Definition words (t : alert_text) : string :=
  match t with
  | ConnectionDown => "Connection is down"
  | Below v unit min => "Below " +:+ num_str v +:+ unit +:+ " in last " +:+ minutes min
  | Exceeds v unit min => "Exceeds " +:+ num_str v +:+ unit +:+ " in last " +:+ minutes min
  end.
(** one card; of a system that is not in the store there is neither name nor identifier *)
Definition card_of (systems : jsmap SystemRecord) (alert : AlertRecord) : card := {|
  c_id := al_id alert;
  c_title := default "" (sys_name <$> jget (al_system alert) systems)
             +:+ " " +:+ default "" (ai_name <$> jget (al_name alert) alertInfo);
  c_text := words <$> describe alert;
  c_href := getPagePath "system" (sys_id <$> jget (al_system alert) systems) |}.

(** [shown] is what the second [useMemo] was given when its key last changed *)
Record state := {
  alerts : AlertMap; systems : jsmap SystemRecord;
  shown_key : string; shown : list AlertRecord; shown_systems : jsmap SystemRecord }.
Inductive event := AlertsSet (a : AlertMap) | SystemsSet (m : jsmap SystemRecord).
Definition mount (a : AlertMap) (m : jsmap SystemRecord) : state := {|
  alerts := a; systems := m; shown_key := alertsKey num_str a; shown := activeAlerts a; shown_systems := m |}.
(** a store changes and the component is rendered again *)
Definition render (a : AlertMap) (m : jsmap SystemRecord) (s : state) : state :=
  if String.eqb (shown_key s) (alertsKey num_str a)
  then {| alerts := a; systems := m; shown_key := shown_key s; shown := shown s; shown_systems := shown_systems s |}
  else mount a m.
Definition step (s : state) (e : event) : state :=
  match e with AlertsSet a => render a (systems s) s | SystemsSet m => render (alerts s) m s end.
Definition run (es : list event) (s : state) : state := foldl step s es.

Definition cards (s : state) : list card := card_of (shown_systems s) <$> shown s.
Definition draw {E} (s : state) : screen E :=
  when (0 <? length (shown s))
    (Text "" "Active Alerts"
     :: rows (λ c, [Text (c_id c) (c_title c); Text (c_id c) (default "" (c_text c)); Link (c_id c) "View system" (c_href c)]) (cards s)).
(** the cards there ought to be *)
Definition current (s : state) : list card := card_of (systems s) <$> activeAlerts (alerts s).

Lemma mount_current a m : cards (mount a m) = current (mount a m).
Proof. done. Qed.
Lemma run_app es es' s : run (es ++ es') s = run es' (run es s).
Proof. apply foldl_app. Qed.

(** the memo holds the alerts and the systems of a moment since which the key has been the same *)
Lemma run_shown es a m : ∃ es1 es2,
  es = es1 ++ es2
  ∧ cards (run es (mount a m)) = current (run es1 (mount a m))
  ∧ shown (run es (mount a m)) = activeAlerts (alerts (run es1 (mount a m)))
  ∧ shown_key (run es (mount a m)) = alertsKey num_str (alerts (run es1 (mount a m)))
  ∧ alertsKey num_str (alerts (run es (mount a m))) = alertsKey num_str (alerts (run es1 (mount a m))).
Proof.
  induction es as [|e es IH] using rev_ind; [by exists [], []|].
  destruct IH as (es1 & es2 & -> & Hc & Hs & Hk & Ha). set (s := run (es1 ++ es2) (mount a m)) in *.
  assert (∃ a' m', run ((es1 ++ es2) ++ [e]) (mount a m) = render a' m' s) as (a' & m' & E).
  { rewrite run_app. fold s. destruct e; eexists _, _; reflexivity. }
  destruct (String.eqb (shown_key s) (alertsKey num_str a')) eqn:Q.
  - exists es1, (es2 ++ [e]). rewrite E. unfold render. rewrite Q. apply String.eqb_eq in Q.
    split; [by rewrite app_assoc|]. split_and!; [exact Hc|exact Hs|exact Hk|exact (eq_trans (eq_sym Q) Hk)].
  - exists ((es1 ++ es2) ++ [e]), []. rewrite E. unfold render. rewrite Q. split; [by rewrite app_nil_r|done].
Qed.

Lemma key_empty (Hn : ∀ q, num_str q ≠ "") a : alertsKey num_str a = "" ↔ activeAlerts a = [].
Proof.
  unfold alertsKey. destruct (activeAlerts a) as [|x l]; [done|]. split; [|done]. intros H. exfalso. revert H.
  assert (∀ (w : string) (ws : list string), str_join "" (w :: ws) = w +:+ str_join "" ws) as J.
  { intros w ws. destruct ws; cbn; [|done]. induction w as [|c w IH]; cbn; [done|exact (f_equal (String c) IH)]. }
  cbn [fmap list_fmap]. rewrite J. specialize (Hn (al_value x)).
  destruct (al_system x); [|done]. cbn. by destruct (num_str (al_value x)).
Qed.

(** Fact [active_cards]: whatever the stores report, there are cards exactly while an alert is active;
    and they are those of the alerts and the systems of a moment since which the joined key of the
    active alerts has come back to what it was, so that they are right at that moment, and right now
    when nothing was reported since. *)
Theorem active_cards (Hn : ∀ q, num_str q ≠ "") es a m :
  let s := run es (mount a m) in
  (cards s = [] ↔ current s = [])
  ∧ ∃ es1 es2, es = es1 ++ es2 ∧ cards s = current (run es1 (mount a m))
     ∧ alertsKey num_str (alerts s) = alertsKey num_str (alerts (run es1 (mount a m))).
Proof.
  intros s. destruct (run_shown es a m) as (es1 & es2 & He & Hc & Hs & Hk & Ha). fold s in Hc, Hs, Hk, Ha.
  split; [|by exists es1, es2].
  assert (∀ {A B} (f : A → B) l, f <$> l = [] ↔ l = []) as F by (intros A B f []; by split).
  unfold cards, current. rewrite !F, Hs, <- !(key_empty Hn), Ha. done.
Qed.

(** Fact [stale_cards]: a report about the systems alone never changes a card: the system of an active
    alert keeps its old name, and one that was not in the store stays without name and address. *)
Theorem stale_cards m s :
  shown_key s = alertsKey num_str (alerts s) →
  cards (step s (SystemsSet m)) = cards s ∧ current (step s (SystemsSet m)) = card_of m <$> activeAlerts (alerts s).
Proof.
  intros Hk. unfold step, render, current. rewrite (proj2 (String.eqb_eq _ _) Hk). done.
Qed.
End Cards.

(** *** Examples *)

Definition num_text (q : Q) : string := match z_str (Qnum q) with EmptyString => "0" | text => text end.
Definition ex_mounted : state :=
  mount num_text [("a1", [("CPU", {| al_id := "x"; al_system := "a1"; al_name := "CPU"; al_triggered := true; al_value := 80; al_min := 10 |})])]%string
        [("a1", ex_web)]%string.
(** the card names the system as it was called when the alert became active *)
Example renamed_system :
  let s := step num_text ex_mounted (SystemsSet [("a1", ex_web_down)]%string) in
  c_title <$> cards (R := example_router) num_text ex_mounted = ["web CPU Usage"]%string
  ∧ c_text <$> cards (R := example_router) num_text ex_mounted = [Some "Exceeds 80% in last 10 minutes"]%string
  ∧ c_title <$> cards (R := example_router) num_text s = ["web CPU Usage"]%string
  ∧ c_title <$> current (R := example_router) num_text s = ["web2 CPU Usage"]%string.
Proof. vm_compute. done. Qed.
Lemma active_cards_witness :
  let s := run num_text [AlertsSet []] ex_mounted in
  cards (R := example_router) num_text s = [] ↔ current (R := example_router) num_text s = [].
Proof.
  apply (active_cards (R := example_router) num_text). intros q. unfold num_text. by destruct (z_str (Qnum q)).
Defined.
End Cards.

(** ** The bells *)

Module Bells.
Section Bells.
(** what the rows are told apart by: their place in the table, the system in the cards *)
Context {K : Type} `{EqDecision K}.

Definition at_key {A} (k : K) (l : list (K * A)) : option A := snd <$> find (λ p, bool_decide (p.1 = k)) l.
Definition alter_key {A} (f : A → A) (k : K) (l : list (K * A)) : list (K * A) :=
  (λ p, if bool_decide (p.1 = k) then (p.1, f p.2) else p) <$> l.

(** one bell: [opened], and what its [useMemo] holds: whether the bell is filled, and the system that the sheet was given *)
Record bell := { opened : bool; filled : bool; content : option SystemRecord }.
Definition memo (o h : bool) (system : SystemRecord) : bell := {|
  opened := o; filled := h; content := if o then Some system else None |}.
Definition render_bell (alerts : AlertMap) (system : SystemRecord) (b : bell) : bell :=
  let h := hasSystemAlert alerts system in if eqb (filled b) h then b else memo (opened b) h system.
Definition click_bell (system : SystemRecord) (b : bell) : bell := if opened b then b else memo true (filled b) system.

(** [sheet] is the row whose sheet is open *)
Record state := { alerts : AlertMap; rows : list (K * SystemRecord); bells : list (K * bell); sheet : option K }.
(** the bell of a row that stays keeps its state, that of a new row is new *)
Definition arrange (al : AlertMap) (rs : list (K * SystemRecord)) (bs : list (K * bell)) : list (K * bell) :=
  (λ r, (r.1, render_bell al r.2 (default (memo false (hasSystemAlert al r.2) r.2) (at_key r.1 bs)))) <$> rs.
Definition render (al : AlertMap) (rs : list (K * SystemRecord)) (s : state) : state := {|
  alerts := al; rows := rs; bells := arrange al rs (bells s);
  sheet := k ← sheet s; _ ← at_key k rs; Some k |}.
Inductive event := Ring (k : K) | CloseSheet.
Definition step (e : event) (s : state) : state :=
  match e with
  | Ring k =>
      match at_key k (rows s) with
      | Some x => {| alerts := alerts s; rows := rows s; bells := alter_key (click_bell x) k (bells s); sheet := Some k |}
      | None => s
      end
  | CloseSheet => {| alerts := alerts s; rows := rows s; bells := bells s; sheet := None |}
  end.
(** the system whose alerts the sheet shows and changes *)
Definition sheet_system (s : state) : option SystemRecord := k ← sheet s; b ← at_key k (bells s); content b.
Definition draw (s : state) : screen event :=
  match sheet s with
  | Some k => [Dialog "Alerts" CloseSheet; Text "" (default "" (sys_name <$> sheet_system s))]
  | None => Dom.rows (λ r, [Button (sys_id r.2) "Alerts" true (Ring r.1)]) (rows s)
  end.

Lemma at_key_arrange k al rs bs :
  at_key k (arrange al rs bs)
  = (λ x, render_bell al x (default (memo false (hasSystemAlert al x) x) (at_key k bs))) <$> at_key k rs.
Proof.
  unfold at_key, arrange. induction rs as [|[k' x] rs IH]; [done|]. cbn. case_bool_decide as E; [by subst|exact IH].
Qed.
Lemma at_key_alter {A} (f : A → A) k k' (l : list (K * A)) :
  at_key k' (alter_key f k l) = (if bool_decide (k' = k) then f else id) <$> at_key k' l.
Proof.
  unfold at_key, alter_key. induction l as [|[k'' x] l IH]; [done|]. cbn. repeat case_bool_decide; subst; cbn in *; done.
Qed.
Lemma at_key_elem {A} k (l : list (K * A)) x : at_key k l = Some x → (k, x) ∈ l.
Proof.
  unfold at_key. intros ([k' x'] & F & [= <-])%fmap_Some. apply find_some in F as [F E%bool_decide_eq_true].
  cbn in E. subst. by apply list_elem_of_In.
Qed.
Lemma elem_at_key {A} k (l : list (K * A)) x : (k, x) ∈ l → is_Some (at_key k l).
Proof.
  unfold at_key. intros H. destruct (find _ l) as [p|] eqn:F; [by eexists|]. apply list_elem_of_In in H.
  apply (find_none _ _ F) in H. cbn in H. by rewrite bool_decide_true in H.
Qed.

(** the system a row is of; the rows there may be, over time *)
Context (owner : K → string).
Definition owned (rs : list (K * SystemRecord)) : Prop := ∀ k x, (k, x) ∈ rs → sys_id x = owner k.
Inductive outside (s : state) : state → Prop :=
| reports al rs : owned rs → outside s (render al rs s).
Definition first_state (al : AlertMap) (rs : list (K * SystemRecord)) : state := {|
  alerts := al; rows := rs; bells := arrange al rs []; sheet := None |}.
Definition reached : state → Prop := reachable draw step outside (λ s, ∃ al rs, owned rs ∧ s = first_state al rs).

(** what a bell holds is of the system of its row *)
Definition bell_ok (k : K) (b : bell) : Prop :=
  (opened b = true ↔ is_Some (content b)) ∧ ∀ y, content b = Some y → sys_id y = owner k.
Record inv (s : state) : Prop := {
  inv_rows : owned (rows s);
  inv_keys k : is_Some (at_key k (bells s)) ↔ is_Some (at_key k (rows s));
  inv_bells k b : at_key k (bells s) = Some b → bell_ok k b;
  inv_sheet k : sheet s = Some k → ∃ b, at_key k (bells s) = Some b ∧ opened b = true }.

Lemma memo_ok k o h x : sys_id x = owner k → bell_ok k (memo o h x).
Proof. intros Hx. unfold bell_ok, memo. destruct o; cbn.
  - split; [by split; [intros _; eexists|]|by intros y [= <-]].
  - split; [by split; [|intros [? ?]]|done].
Qed.
Lemma render_ok k al x b : sys_id x = owner k → bell_ok k b → bell_ok k (render_bell al x b).
Proof. intros Hx Hb. unfold render_bell. cbv zeta. destruct (eqb _ _); [done|by apply memo_ok]. Qed.
Lemma render_opened al x b : opened (render_bell al x b) = opened b.
Proof. unfold render_bell. cbv zeta. by destruct (eqb _ _). Qed.
Lemma arrange_ok al rs bs k b : owned rs → (∀ b', at_key k bs = Some b' → bell_ok k b') →
  at_key k (arrange al rs bs) = Some b → bell_ok k b.
Proof.
  intros Ho Hb. rewrite at_key_arrange. intros (x & Hx & ->)%fmap_Some. apply at_key_elem, Ho in Hx.
  apply render_ok; [done|]. destruct (at_key k bs); cbn; [by apply Hb|by apply memo_ok].
Qed.

Lemma bells_inv_start al rs : owned rs → inv (first_state al rs).
Proof.
  intros Ho. split; cbn [rows bells sheet first_state]; [done| | |done].
  - intros k. rewrite at_key_arrange. by rewrite fmap_is_Some.
  - intros k b. apply arrange_ok; [done|]. done.
Qed.
Lemma bells_inv_outside s s' : inv s → outside s s' → inv s'.
Proof.
  intros [Hr Hk Hb Hs] [al rs Ho]. split; cbn [rows bells sheet render]; [done| | |].
  - intros k. rewrite at_key_arrange. by rewrite fmap_is_Some.
  - intros k b. apply arrange_ok; [done|]. apply Hb.
  - intros k. destruct (sheet s) as [k0|] eqn:E; [|done]. cbn. destruct (at_key k0 rs) as [x|] eqn:F; [|done]. intros [= <-].
    destruct (Hs _ eq_refl) as (b & Fb & Hop). rewrite at_key_arrange, F. cbn. rewrite Fb. cbn.
    eexists. split; [done|]. by rewrite render_opened.
Qed.
Lemma bells_inv_step s e : inv s → inv (step e s).
Proof.
  intros Hi. pose proof Hi as [Hr Hk Hb Hs]. destruct e as [k|]; cbn [step]; [|by split].
  destruct (at_key k (rows s)) as [x|] eqn:F; [|done].
  assert (∀ b, at_key k (bells s) = Some b → bell_ok k (click_bell x b) ∧ opened (click_bell x b) = true) as Hc.
  { intros b Fb. unfold click_bell. destruct (opened b) eqn:O; [by split; [apply Hb|]|].
    split; [|done]. apply memo_ok. by apply Hr, at_key_elem. }
  split; cbn [rows bells sheet]; [done| | |].
  - intros k'. by rewrite at_key_alter, fmap_is_Some.
  - intros k' b. rewrite at_key_alter. intros (b' & F' & ->)%fmap_Some. case_bool_decide; [subst; by apply Hc|by apply Hb].
  - intros k' [= <-]. rewrite at_key_alter, bool_decide_true by done.
    destruct (proj2 (Hk k)) as [b Fb]; [by rewrite F|]. rewrite Fb. eexists. split; [done|]. by apply Hc.
Qed.
Lemma reached_inv s : reached s → inv s.
Proof.
  revert s. apply page_invariant; [by intros s (al & rs & Ho & ->); apply bells_inv_start|by intros s e Hi _; apply bells_inv_step|apply bells_inv_outside].
Qed.

Lemma bells_offered s e : offered (draw s) e → match e with Ring _ => sheet s = None | CloseSheet => is_Some (sheet s) end.
Proof. unfold draw. intros Ho. destruct (sheet s) eqn:E; offered_cases Ho by idtac; done. Qed.
(** every bell can be rung while no sheet is open, and an open sheet is of the system of its row *)
Lemma sheet_of_row s : reached s →
  (∀ k x, (k, x) ∈ rows s → (offered (draw s) (Ring k) ↔ sheet s = None))
  ∧ (∀ k, sheet s = Some k → ∃ x y, (k, x) ∈ rows s ∧ sheet_system s = Some y ∧ sys_id y = sys_id x).
Proof.
  intros [Hr Hk Hb Hs]%reached_inv. split.
  - intros k x Hx. split; [apply (bells_offered _ (Ring k))|]. intros E. unfold draw. rewrite E. apply offered_rows. exists (k, x). split; [done|]. eapply by_click. left.
  - intros k E. destruct (Hs k E) as (b & Fb & Hop). destruct (proj1 (Hk k)) as [x F]; [by rewrite Fb|].
    destruct (Hb _ _ Fb) as [Hc Hy]. destruct (proj1 Hc Hop) as [y Ey]. apply at_key_elem in F.
    exists x, y. unfold sheet_system. rewrite E. cbn. rewrite Fb. cbn. split_and!; [done|done|]. by rewrite (Hy y Ey), (Hr _ _ F).
Qed.
End Bells.

(** *** Cards and table *)

(** the rows in any order: the library sorts them.  Those of the cards ([key={row.original.id}]), and those of the table
    ([key={row.id}], the place in what the status filter leaves); the text filter hides some *)
Definition card_rows (visible : SystemRecord → bool) (data : list SystemRecord) : list (string * SystemRecord) :=
  (λ x, (sys_id x, x)) <$> List.filter visible data.
Definition table_rows (visible : SystemRecord → bool) (data : list SystemRecord) : list (nat * SystemRecord) :=
  List.filter (λ r, visible r.2) (imap pair data).

Lemma cards_owned visible data : owned (λ k, k) (card_rows visible data).
Proof. intros k x. unfold card_rows. intros (y & [= -> ->] & _)%list_elem_of_fmap. done. Qed.
(** the table's rows are one system's only while the places in the list do not move *)
Lemma table_owned visible data ids : (sys_id <$> data) `prefix_of` ids → owned (λ k, default "" (ids !! k)) (table_rows visible data).
Proof.
  intros [more ->] k x. unfold table_rows. intros H. apply list_elem_of_In, filter_In in H as [H _].
  apply list_elem_of_In, elem_of_lookup_imap in H as (i & y & [= -> ->] & Hy).
  rewrite lookup_app_l by (rewrite length_fmap; by eapply lookup_lt_Some). by rewrite list_lookup_fmap, Hy.
Qed.

(** Fact [card_bells]: in the cards the sheet that a bell opens is of the system of its card, whatever the server reports,
    and whichever filter is chosen, between the clicks. *)
Theorem card_bells s k : reached (λ k, k) s → sheet s = Some k →
  ∃ x y, (k, x) ∈ rows s ∧ sys_id x = k ∧ sheet_system s = Some y ∧ sys_id y = k.
Proof.
  intros Hs E. pose proof (reached_inv _ _ Hs) as [Hr _ _ _]. destruct (proj2 (sheet_of_row _ _ Hs) k E) as (x & y & Hx & Hy & Hid).
  exists x, y. by rewrite Hid, (Hr _ _ Hx).
Qed.
(** Fact [table_bells]: in the table this is so while systems are added at the end only and no other status is chosen. *)
Theorem table_bells (ids : list string) (s : state) (k : nat) : reached (λ k, default "" (ids !! k)) s → sheet s = Some k →
  ∃ x y, (k, x) ∈ rows s ∧ sheet_system s = Some y ∧ sys_id y = sys_id x.
Proof. intros Hs E. by apply (sheet_of_row _ _ Hs). Qed.

(** otherwise the sheet can be that of another system: the bell of the first row is rung once; then only the systems that are
    down are listed, and the bell of the row that is first now opens the sheet of the row that was *)
Definition ex_down : SystemRecord := example_system "b1" "db" Status_Down.
Definition ex_two : SystemsManager.state := on_event (H := reference_store) "create" ex_down ex_state.
Definition ex_list (f : StatusFilter) : list (nat * SystemRecord) := table_rows (λ _, true) (filteredData f ex_two).
Definition ex_bells (acts : list act) (s : state (K := nat)) : option state := play draw step acts s.
Example bell_of_another_system :
  (s ← ex_bells [Click "a1" "Alerts"; Leave] (first_state [] (ex_list All));
   s ← ex_bells [Click "b1" "Alerts"] (render [] (ex_list (OfStatus Status_Down)) s);
   Some (rows s, sys_name <$> sheet_system s)) = Some ([(0, ex_down)], Some "web"%string).
Proof. vm_compute. done. Qed.
(** the same clicks on the cards *)
Definition ex_cards (f : StatusFilter) : list (string * SystemRecord) := card_rows (λ _, true) (filteredData f ex_two).
Example bell_of_its_card :
  (s ← play draw step [Click "a1" "Alerts"; Leave] (first_state [] (ex_cards All));
   s ← play draw step [Click "b1" "Alerts"] (render [] (ex_cards (OfStatus Status_Down)) s);
   Some (sys_name <$> sheet_system s)) = Some (Some "db"%string).
Proof. vm_compute. done. Qed.
Lemma card_bells_witness :
  let s := step (Ring "a1"%string) (first_state [] (ex_cards All)) in
  ∃ x y, ("a1"%string, x) ∈ rows s ∧ sys_id x = "a1"%string ∧ sheet_system s = Some y ∧ sys_id y = "a1"%string.
Proof.
  cbv zeta. apply (card_bells _ "a1"%string); [|reflexivity].
  eapply by_user; [apply at_start; exists [], (ex_cards All); split; [apply cards_owned|done]|].
  apply (perform_offered (Click "a1" "Alerts")). reflexivity.
Defined.
End Bells.

(** ** The dialog with a text that could not be copied *)

Module CopyDialog.
(** [CopyToClipboard], which [Layout] draws while there is such a text *)
Definition draw (c : clipboard) : screen copy_event :=
  match shown c with
  | Some text => [Dialog "Copy text" DialogClosed; Text "" "Automatic copy requires a secure context."; Text "" text]
  | None => []
  end.
Inductive outside (c : clipboard) : clipboard → Prop :=
| copies content allowed : outside c (copy_step c (Copied content allowed)).
Definition reached : clipboard → Prop := reachable draw (λ e c, copy_step c e) outside (λ c, c = no_clipboard).

Lemma dialog_offered c e : offered (draw c) e ↔ e = DialogClosed ∧ is_Some (shown c).
Proof.
  unfold draw. split.
  - intros Ho. destruct (shown c); offered_cases Ho by idtac; by split; [|eexists].
  - intros [-> [text ->]]. eapply by_leaving. left.
Qed.
Lemma reached_run c : reached c → ∃ es, c = copy_run es no_clipboard.
Proof.
  revert c. apply page_invariant.
  - intros c ->. by exists [].
  - intros c e [es ->] _. exists (es ++ [e]). unfold copy_run. by rewrite foldl_app.
  - intros c c' [es ->] [content allowed]. exists (es ++ [Copied content allowed]). unfold copy_run. by rewrite foldl_app.
Qed.
(** Fact [copy_page]: the dialog can be left exactly while a text waits in the store; the page is without it then, and the store
    without the text. *)
Theorem copy_page c : reached c →
  (offered (draw c) DialogClosed ↔ copyContent c ≠ ""%string)
  ∧ (offered (draw c) DialogClosed → copyContent (copy_step c DialogClosed) = ""%string ∧ draw (copy_step c DialogClosed) = []).
Proof.
  intros [es ->]%reached_run. destruct (copy_dialog es) as [E _]. rewrite dialog_offered. split.
  - destruct (copyContent (copy_run es no_clipboard)) eqn:C; rewrite E; cbn.
    + split; [by intros [_ [? ?]]|done].
    + split; [done|]. intros _. by split; [|eexists].
  - intros [_ [text Hs]]. cbn. by rewrite Hs.
Qed.
Example copied_twice :
  let c := copy_step (copy_step no_clipboard (Copied "a" false)) (Copied "b" false) in
  shown c = Some "b"%string ∧ play draw (λ e c, copy_step c e) [Leave] c = Some no_clipboard.
Proof. done. Qed.
End CopyDialog.
