(* ===== verification/SystemsUi.v ===== *)
(** * The table of systems as the user meets it: [components/systems-table/systems-table.tsx] with the
    columns of [components/systems-table/systems-table-columns.tsx]

    The view menu, the filter, the head, the rows and the cards with their cells, over the stores of
    [SystemsManager] and the cells of [SystemsTable].  The rows are the library's: [TableLib] says
    what it does with a sorting.  Which rows of a long table are on the screen is in [VirtualRows],
    the menu of a row in [ActionsUi], its alerts in [AlertsSheet].  The controls of a row keep their state
    while the row stays, and rows are told apart by their place in the list, cards by their system; the
    bell also keeps what it drew ([HomeUi.Bells]). *)
From Stdlib Require Import QArith ZArith.
From S2P Require Import Prelude JsValue JsDate Types Utils Nanostores SystemsManager SystemsTable SystemdSheet Controls Dom TableLib HomeUi.
Open Scope Z_scope.

(** ** The columns *)

Inductive column :=
| System | Cpu | Memory | Disk | Gpu | LoadAverage | Net | Temp | Battery | Services | Updates_ | Uptime | Agent | Actions.
#[export] Instance column_eq_dec : EqDecision column. Proof. solve_decision. Defined.

Definition SystemsTableColumns : list column :=
  [System; Cpu; Memory; Disk; Gpu; LoadAverage; Net; Temp; Battery; Services; Updates_; Uptime; Agent; Actions].
Definition column_id (c : column) : string :=
  match c with
  | System => "system" | Cpu => "cpu" | Memory => "memory" | Disk => "disk" | Gpu => "gpu" | LoadAverage => "loadAverage"
  | Net => "net" | Temp => "temp" | Battery => "battery" | Services => "services" | Updates_ => "updates"
  | Uptime => "uptime" | Agent => "agent" | Actions => "actions"
  end.
Definition column_name (c : column) : string :=
  match c with
  | System => "System" | Cpu => "CPU" | Memory => "Memory" | Disk => "Disk" | Gpu => "GPU" | LoadAverage => "Load Avg"
  | Net => "Net" | Temp => "Temp" | Battery => "Bat" | Services => "Services" | Updates_ => "Updates"
  | Uptime => "Uptime" | Agent => "Agent" | Actions => "Actions"
  end.
(** a column without a value cannot be sorted by, and the names cannot be hidden *)
Definition getCanSort (c : column) : bool := negb (bool_decide (c = Actions)).
Definition getCanHide (c : column) : bool := negb (bool_decide (c = System)).

Section Page.
Context `{Laws : MapStoreLaws} `{Intl} {T : TableLib SystemRecord} {TL : TableLibLaws T}.
(** the settings, the version of the hub, the role, and the address of the page of a system *)
Context (settings : UserSettings) (hub_version : string) (readOnly : bool) (system_url : string → string).

(** ** State and handlers *)

(** by which a row is known: its place in the list, or its system *)
Inductive row_id := AtPlace (i : option nat) | OfSystem (id : string).
#[export] Instance row_id_eq_dec : EqDecision row_id. Proof. solve_decision. Defined.
Record view := {
  store : SystemsManager.state; alerts : AlertMap; filter : string; statusFilter : StatusFilter;
  sorting : SortingState; columnVisibility : jsmap bool; viewMode : ViewMode;
  bells : list (row_id * Bells.bell);          (* the bells that are mounted *)
  opened : option (string * row_id) }.         (* what was opened, in which row: its alerts, its menu, its reboot *)
Inductive event :=
| SetFilter (text : string) | SetView (v : ViewMode) | SetStatus (f : StatusFilter)
| SortBy (column : string) | SortHead (column : string) | SetVisible (column : string) (b : bool)
| Open (part : string) (row : row_id) | Close.

Definition with_store (st : SystemsManager.state) (al : AlertMap) (s : view) : view := {|
  store := st; alerts := al; filter := filter s; statusFilter := statusFilter s; sorting := sorting s;
  columnVisibility := columnVisibility s; viewMode := viewMode s; bells := bells s; opened := opened s |}.
Definition with_filters (t : string) (f : StatusFilter) (s : view) : view := {|
  store := store s; alerts := alerts s; filter := t; statusFilter := f; sorting := sorting s;
  columnVisibility := columnVisibility s; viewMode := viewMode s; bells := bells s; opened := opened s |}.
Definition with_looks (l : SortingState) (c : jsmap bool) (v : ViewMode) (s : view) : view := {|
  store := store s; alerts := alerts s; filter := filter s; statusFilter := statusFilter s; sorting := l;
  columnVisibility := c; viewMode := v; bells := bells s; opened := opened s |}.
Definition with_bells (b : list (row_id * Bells.bell)) (o : option (string * row_id)) (s : view) : view := {|
  store := store s; alerts := alerts s; filter := filter s; statusFilter := statusFilter s; sorting := sorting s;
  columnVisibility := columnVisibility s; viewMode := viewMode s; bells := b; opened := o |}.

(** ** The rows *)

(** the filter of the names, row after row, with its caches *)
Fixpoint kept (input : string) (rows : list SystemRecord) (c : filter_cache) : list SystemRecord :=
  match rows with
  | [] => []
  | r :: rows => let '(b, c) := filterFn input r c in when b [r] ++ kept input rows c
  end.
(** [table.getRowModel().rows]; a column filter with an empty text is taken off *)
Definition row_model (s : view) : list SystemRecord :=
  let data := filteredData (statusFilter s) (store s) in
  getSortedRowModel (sorting s) (if truthy (filter s) then kept (filter s) data empty_cache else data).
Definition getIsVisible (s : view) (c : column) : bool := default true (jget (column_id c) (columnVisibility s)).
Definition visibleColumns (s : view) : list column := List.filter (getIsVisible s) SystemsTableColumns.

(** ** The controls of the rows *)

(** [row.id] in the table, [row.original.id] in the cards *)
Definition row_key (s : view) (r : SystemRecord) : row_id :=
  match viewMode s with
  | Table => AtPlace (fst <$> list_find (λ x, sys_id x = sys_id r) (filteredData (statusFilter s) (store s)))
  | Grid => OfSystem (sys_id r)
  end.
(** the rows that have controls *)
Definition keyed_rows (s : view) : list (row_id * SystemRecord) :=
  when (getIsVisible s Actions) ((λ r, (row_key s r, r)) <$> row_model s).
(** after a change everything is drawn again: controls of rows that are gone go, and with them what they had opened *)
Definition settle (s : view) : view :=
  with_bells (Bells.arrange (alerts s) (keyed_rows s) (bells s))
    (o ← opened s; _ ← Bells.at_key o.2 (keyed_rows s); Some o) s.
(** the system that what is open concerns: the alerts are those of the system the bell has kept *)
Definition opened_system (s : view) : option SystemRecord :=
  o ← opened s;
  if String.eqb o.1 "alerts" then b ← Bells.at_key o.2 (bells s); Bells.content b else Bells.at_key o.2 (keyed_rows s).
Definition open_part (part : string) (k : row_id) (s : view) : view :=
  match Bells.at_key k (keyed_rows s) with
  | Some r => with_bells (if String.eqb part "alerts" then Bells.alter_key (Bells.click_bell r) k (bells s) else bells s) (Some (part, k)) s
  | None => s
  end.
Definition step (e : event) (s : view) : view :=
  match e with
  | SetFilter t => settle (with_filters t (statusFilter s) s)
  | SetStatus f => settle (with_filters (filter s) f s)
  | SetView v => settle (with_looks (sorting s) (columnVisibility s) v s)
  | SortBy id => settle (with_looks [toggle_sort (head (sorting s)) id] (columnVisibility s) (viewMode s) s)
  | SortHead id =>
      settle (with_looks (toggleSorting id (bool_decide (getIsSorted id (sorting s) = Some false)) (sorting s))
                (columnVisibility s) (viewMode s) s)
  | SetVisible id b => settle (with_looks (sorting s) (jset id b (columnVisibility s)) (viewMode s) s)
  | Open p k => open_part p k s
  | Close => with_bells (bells s) None s
  end.

(** ** The cells *)

Definition meter (row : string) (m : string * string * Q) : screen event := let '(t, color, _) := m in [Text row t; Text row color].
Definition disk_texts (row : string) (d : disk_cell) : screen event :=
  match d with
  | OneDisk m => meter row m
  | ManyDisks root dots extra =>
      [Link row "" (system_url row)] ++ meter row root ++ rows (λ dot, [Text row dot]) dots
      ++ [Text row "Root"] ++ meter row root
      ++ rows (λ d : string * Q * string, let '(name, pct, color) := d in
                 [Text row name; Text row (short 10 pct +:+ "%"); Text row color]) extra
  end.
Definition load_color (t : MeterState) (grey : bool) : string :=
  if grey then STATUS_COLORS Status_Paused
  else match t with
       | MeterState_Good => STATUS_COLORS Status_Up | MeterState_Warn => STATUS_COLORS Status_Pending
       | MeterState_Crit => STATUS_COLORS Status_Down end.
Definition optional (row : string) (t : option string) : screen event :=
  match t with Some t => [Text row t] | None => [] end.
(** the controls of a row; in a card the reboot that is needed comes first *)
Definition row_actions (k : row_id) (s : SystemRecord) : screen event :=
  [Button (sys_id s) "Alerts" true (Open "alerts" k); Button (sys_id s) "Open menu" true (Open "menu" k)].
Definition card_actions (k : row_id) (s : SystemRecord) : screen event :=
  when (reboot_button s readOnly) [Button (sys_id s) "Reboot required" true (Open "reboot" k)] ++ row_actions k s.
Definition cell (k : row_id) (c : column) (s : SystemRecord) : screen event :=
  let row := sys_id s in
  let i := sys_info s in
  match c with
  | System => [Text row (IndicatorDot s ""); Link row (sys_name s) (system_url row)]
  | Cpu => meter row (TableCellWithMeter settings (sys_status s) (cpu_value i))
  | Memory => meter row (TableCellWithMeter settings (sys_status s) (memory_value i))
  | Disk => disk_texts row (DiskCellWithMultiple settings s)
  | Gpu => meter row (TableCellWithMeter settings (sys_status s) (gpu_value i))
  | LoadAverage =>
      match loadAverage_cell settings s with
      | Some (t, grey, (a, b, c)) => [Text row (load_color t grey); Text row (short 10 a); Text row (short 10 b); Text row (short 10 c)]
      | None => []
      end
  | Net => optional row (net_cell (default Unit_Bytes (us_unitNet settings)) s)
  | Temp => optional row (temp_cell (us_unitTemp settings) s)
  | Battery =>
      match battery_cell i with
      | Some (_, _, pct) => [Link row (z_str pct +:+ "%") (system_url row)]
      | None => []
      end
  | Services =>
      match services_cell s with
      | Some (total, failed, color) => [Text row color; Text row (z_str total +:+ " (failed: " +:+ z_str failed +:+ ")")]
      | None => []
      end
  | Updates_ =>
      match updates_cell s with
      | Some (count, _, _) => match count with Some (n, color) => [Text row color; Text row (z_str n)] | None => [] end
      | None => []
      end
  | Uptime => optional row (uptime_cell i)
  | Agent =>
      match agent_cell hub_version s with
      | Some (_, _, _) => [Link row (agent_value i) (system_url row)]
      | None => []
      end
  | Actions => row_actions k s
  end.

(** ** What is drawn *)

Definition status_options (s : view) : list (string * string) :=
  let '(up, down, paused) := counts (store s) in
  let count label n := label +:+ " (" +:+ z_str (Z.of_nat n) +:+ ")" in
  [("all", "All Systems"); ("up", count "Up" up); ("down", count "Down" down); ("paused", count "Paused" paused)]%string.
Definition status_value (f : StatusFilter) : string := match f with All => "all" | OfStatus s => SystemStatus_str s end.
Definition status_of_value (v : string) : StatusFilter :=
  if String.eqb v "all" then All else if String.eqb v "up" then OfStatus Status_Up
  else if String.eqb v "down" then OfStatus Status_Down else OfStatus Status_Paused.
Definition sort_mark (s : view) (c : column) : string :=
  match sorting s with
  | (id, desc) :: _ => if String.eqb id (column_id c) then (if desc then "ArrowUp" else "ArrowDown") else ""
  | [] => ""
  end.
Definition view_menu (s : view) : screen event :=
  [Select "Layout" (match viewMode s with Table => "table" | Grid => "grid" end) [("table", "Table"); ("grid", "Grid")]%string
     (λ v, SetView (if String.eqb v "table" then Table else Grid));
   Select "Status" (status_value (statusFilter s)) (status_options s) (λ v, SetStatus (status_of_value v))]
  ++ rows (λ c, when (getCanSort c) [Text (column_id c) (sort_mark s c); Button "Sort By" (column_name c) true (SortBy (column_id c))])
       SystemsTableColumns
  ++ rows (λ c, when (getCanHide c)
                  [Checkbox "Visible Fields" (column_name c) (getIsVisible s c) true (SetVisible (column_id c))])
       SystemsTableColumns.
Definition card_head (s : view) : screen event :=
  [Text "" "All Systems"; Text "" "Click on a system to view more information."; Input "Filter..." (filter s) SetFilter]
  ++ when (truthy (filter s)) [Button "" "Clear" true (SetFilter "")]
  ++ view_menu s.
(** [SystemsTableHead]: only the columns with a value have a head that is a button *)
Definition table_head (s : view) : screen event :=
  rows (λ c, when (getCanSort c) [Button "head" (column_name c) true (SortHead (column_id c))]) (visibleColumns s).
Definition table_row (s : view) (r : SystemRecord) : screen event := rows (λ c, cell (row_key s r) c r) (visibleColumns s).
(** [SystemCard] *)
Definition system_card (s : view) (r : SystemRecord) : screen event :=
  [Text (sys_id r) (IndicatorDot r ""); Text (sys_id r) (sys_name r)]
  ++ when (getIsVisible s Actions) (card_actions (row_key s r) r)
  ++ rows (λ c, if bool_decide (c = System) || bool_decide (c = Actions) then []
                else Text (sys_id r) (column_name c +:+ ":") :: cell (row_key s r) c r) (visibleColumns s)
  ++ [Link (sys_id r) (sys_name r) (system_url (sys_id r))].
Definition body (s : view) : screen event :=
  match viewMode s with
  | Table =>
      table_head s ++ (if (0 <? length (row_model s))%nat then rows (table_row s) (row_model s) else [Text "" "No systems found."])
  | Grid => if (0 <? length (row_model s))%nat then rows (system_card s) (row_model s) else [Text "" "No systems found."]
  end.
Definition draw (s : view) : screen event :=
  match opened s with
  | Some (part, _) => [Dialog (part +:+ " " +:+ default "" (sys_name <$> opened_system s)) Close]
  | None => card_head s ++ body s
  end.

(** ** The page over time *)

(** the server reports systems or alerts; rows that are scrolled out of sight lose their bells *)
Inductive outside (s : view) : view → Prop :=
| reports st al : rtc SystemsManager.step (store s) st → outside s (settle (with_store st al s))
| scrolled (keep : row_id → bool) : (∀ p k, opened s = Some (p, k) → keep k = true) →
    outside s (settle (with_bells (List.filter (λ b, keep b.1) (bells s)) (opened s) s)).
Definition sortable (sorting : SortingState) : Prop :=
  Forall (λ x, ∃ c, column_id c = x.1 ∧ getCanSort c = true) sorting.
(** what the browser has kept was written by this page *)
Definition start (s : view) : Prop :=
  SystemsManager.reachable (store s) ∧ filter s = ""%string ∧ statusFilter s = All ∧ sortable (sorting s)
  ∧ jget "system" (columnVisibility s) = None ∧ opened s = None
  ∧ bells s = Bells.arrange (alerts s) (keyed_rows s) [].
Definition reached : view → Prop := Dom.reachable draw step outside start.

(** ** Theorems *)

Definition has_status (f : StatusFilter) (r : SystemRecord) : bool :=
  match f with All => true | OfStatus st => bool_decide (sys_status r = st) end.
Definition shown (s : view) : list SystemRecord :=
  List.filter (matches (filter s)) (List.filter (has_status (statusFilter s)) (systems (store s))).

Lemma kept_matches input data c : cache_ok c → kept input data c = List.filter (matches input) data.
Proof.
  revert c. induction data as [|r data IH]; intros c Hc; [done|]. cbn.
  destruct (filterFn_ok input r c Hc) as [H1 H2]. destruct (filterFn input r c) as [b c']. cbn in H1, H2. subst b.
  rewrite IH by done. by destruct (matches input r).
Qed.
Lemma matches_empty r : matches "" r = true.
Proof. unfold matches, str_includes. cbn. by destruct (str_lower (sys_name r)). Qed.
Lemma filter_all {A} (f : A → bool) l : (∀ x, f x = true) → List.filter f l = l.
Proof. intros Hf. induction l as [|x l IH]; cbn; [done|]. by rewrite Hf, IH. Qed.
(** the rows are the systems with the chosen status whose name or status matches the text *)
Lemma row_model_shown s : SystemsManager.reachable (store s) → statusFilter s ≠ OfStatus Status_Pending →
  row_model s ≡ₚ shown s.
Proof.
  intros Hr Hp. unfold row_model, shown. rewrite sorted_perm.
  assert (filteredData (statusFilter s) (store s) ≡ₚ List.filter (has_status (statusFilter s)) (systems (store s))) as E.
  { destruct (statusFilter s) as [|st].
    - cbn. by rewrite filter_all.
    - apply filteredData_status; [done|congruence]. }
  destruct (truthy (filter s)) eqn:Ht.
  - rewrite kept_matches by done. by apply filter_perm.
  - apply not_true_iff_false in Ht. rewrite truthy_nonempty in Ht. apply dec_stable in Ht. rewrite Ht, E.
    rewrite (filter_all (matches "")); [done|]. apply matches_empty.
Qed.
Lemma row_system s r : SystemsManager.reachable (store s) → statusFilter s ≠ OfStatus Status_Pending →
  r ∈ row_model s → r ∈ systems (store s).
Proof.
  intros Hr Hp Hin. rewrite row_model_shown in Hin by done.
  apply elem_of_filter_bool in Hin as [Hin _]. by apply elem_of_filter_bool in Hin as [Hin _].
Qed.

(** *** The controls of the rows *)

Lemma row_data s r : r ∈ row_model s → r ∈ filteredData (statusFilter s) (store s).
Proof.
  unfold row_model. rewrite sorted_perm. destruct (truthy (filter s)); [|done]. rewrite kept_matches by done.
  by intros [Hr _]%elem_of_filter_bool.
Qed.
(** a key belongs to one system *)
Lemma same_key s r r' : r ∈ row_model s → r' ∈ row_model s → row_key s r = row_key s r' → sys_id r = sys_id r'.
Proof.
  intros Hr Hr'. unfold row_key. destruct (viewMode s); [|by intros [=]]. intros [= E].
  destruct (list_find (λ x, sys_id x = sys_id r) _) as [[i x]|] eqn:F.
  2:{ apply list_find_None in F. rewrite Forall_forall in F. by destruct (F r (row_data s r Hr)). }
  destruct (list_find (λ x, sys_id x = sys_id r') _) as [[i' x']|] eqn:F'; [|done]. cbn in E. injection E as <-.
  apply list_find_Some in F as (Fi & <- & _). apply list_find_Some in F' as (Fi' & <- & _). congruence.
Qed.
Lemma keyed_elem s k r : (k, r) ∈ keyed_rows s ↔ getIsVisible s Actions = true ∧ k = row_key s r ∧ r ∈ row_model s.
Proof.
  unfold keyed_rows. rewrite elem_of_when, list_elem_of_fmap. split.
  - intros (Hv & x & [= -> ->] & Hx). done.
  - intros (Hv & -> & Hr). split; [done|]. by exists r.
Qed.
(** the row of a control is found by its key *)
Lemma keyed_row s r : getIsVisible s Actions = true → r ∈ row_model s →
  ∃ r', Bells.at_key (row_key s r) (keyed_rows s) = Some r' ∧ r' ∈ row_model s ∧ sys_id r' = sys_id r.
Proof.
  intros Hv Hr. destruct (Bells.elem_at_key (row_key s r) (keyed_rows s) r) as [r' E]; [by apply keyed_elem|].
  exists r'. split; [done|]. apply Bells.at_key_elem, keyed_elem in E as (_ & Hk & Hr'). split; [done|].
  symmetry. by apply (same_key s).
Qed.

Definition promised (s : view) (e : event) : Prop :=
  match e with
  | SetFilter _ | SetView _ => opened s = None
  | SetStatus f => opened s = None ∧ f ≠ OfStatus Status_Pending
  | SortBy id | SortHead id => opened s = None ∧ ∃ c, column_id c = id ∧ getCanSort c = true
  | SetVisible id _ => opened s = None ∧ id ≠ "system"%string
  | Open part k => opened s = None ∧ ∃ r, Bells.at_key k (keyed_rows s) = Some r ∧ (part = "reboot"%string → readOnly = false)
  | Close => is_Some (opened s)
  end.
(** a button that opens a part stands in a row, and its key is that of the row *)
Lemma cell_button k c r row label en part k' : Button row label en (Open part k') ∈ cell k c r →
  c = Actions ∧ row = sys_id r ∧ k' = k ∧ en = true ∧ part ≠ "reboot"%string.
Proof.
  intros Ho. destruct c; cbn in Ho; unfold row_actions, disk_texts, meter, optional in Ho; drawn Ho; by simplify_eq.
Qed.
Lemma card_button s r row label en part k : Button row label en (Open part k) ∈ system_card s r →
  getIsVisible s Actions = true ∧ row = sys_id r ∧ k = row_key s r ∧ en = true ∧ (part = "reboot"%string → readOnly = false).
Proof.
  unfold system_card. rewrite !elem_of_app, elem_of_when, elem_of_rows. intros [Hin|[[Hv Hin]|[(c & _ & Hin)|Hin]]].
  - drawn Hin.
  - unfold card_actions, row_actions, reboot_button in Hin. drawn Hin; simplify_eq; split_and!; try done.
    intros _. by destruct readOnly; rewrite ?andb_false_r in *.
  - destruct (bool_decide _ || _) eqn:E; [by apply elem_of_nil in Hin|]. apply elem_of_cons in Hin as [Hin|Hin]; [done|].
    apply cell_button in Hin as (-> & _). by rewrite bool_decide_true, orb_true_r in E.
  - drawn Hin.
Qed.
Lemma body_button s row label en part k : Button row label en (Open part k) ∈ draw s →
  opened s = None ∧ en = true ∧ (part = "reboot"%string → readOnly = false)
  ∧ ∃ r, Bells.at_key k (keyed_rows s) = Some r ∧ r ∈ row_model s ∧ sys_id r = row.
Proof.
  unfold draw. intros Hin. destruct (opened s) as [[p k0]|] eqn:Hs; [drawn Hin|]. split; [done|].
  apply elem_of_app in Hin as [Hin|Hin]; [by unfold card_head, view_menu in Hin; drawn Hin|].
  assert (∃ r, getIsVisible s Actions = true ∧ r ∈ row_model s ∧ row = sys_id r ∧ k = row_key s r ∧ en = true
    ∧ (part = "reboot"%string → readOnly = false)) as (r & Hv & Hr & -> & -> & -> & Hp).
  { unfold body in Hin. destruct (viewMode s) eqn:Hm.
    - apply elem_of_app in Hin as [Hin|Hin]; [by unfold table_head in Hin; drawn Hin|]. destruct (0 <? length _)%nat; [|drawn Hin].
      apply elem_of_rows in Hin as (r & Hr & (c & Hc & Hin)%elem_of_rows). apply cell_button in Hin as (-> & -> & -> & -> & Hp).
      apply list_elem_of_In, filter_In in Hc as [_ Hc]. exists r. by split_and!.
    - destruct (0 <? length _)%nat; [|drawn Hin]. apply elem_of_rows in Hin as (r & Hr & Hin).
      apply card_button in Hin as (Hv & -> & -> & -> & Hp). exists r. by split_and!. }
  split_and!; [done|done|]. by apply keyed_row.
Qed.
Lemma cell_offers k c r e : offered (cell k c r) e → ∃ part, e = Open part k ∧ c = Actions ∧ part ≠ "reboot"%string.
Proof.
  intros Ho. destruct c; cbn in Ho.
  all: offered_cases Ho by (unfold row_actions, disk_texts, meter, optional in Ho); by eexists.
Qed.
Lemma card_offers s r e : offered (system_card s r) e →
  ∃ part, e = Open part (row_key s r) ∧ getIsVisible s Actions = true ∧ (part = "reboot"%string → readOnly = false).
Proof.
  unfold system_card. rewrite !offered_app, offered_when, offered_rows. intros [Ho|[[Hv Ho]|[(c & _ & Ho)|Ho]]].
  - offered_cases Ho by idtac.
  - offered_cases Ho by (unfold card_actions, row_actions in Ho); eexists; (split; [done|]); try done. split; [done|]. intros _.
    unfold reboot_button in *. by destruct readOnly; rewrite ?andb_false_r in *.
  - destruct (bool_decide _ || _) eqn:E; [offered_cases Ho by idtac|].
    apply (offered_app [_] (cell _ c r)) in Ho as [Ho|Ho]; [offered_cases Ho by idtac|].
    apply cell_offers in Ho as (part & -> & -> & Hp). by rewrite bool_decide_true, orb_true_r in E.
  - offered_cases Ho by idtac.
Qed.
Lemma sy_offered_promised s e : offered (draw s) e → promised s e.
Proof.
  intros Ho. unfold draw in Ho. destruct (opened s) as [[part k]|] eqn:Hs; [offered_cases Ho by idtac; by rewrite Hs|].
  apply offered_app in Ho as [Ho|Ho].
  - offered_cases Ho by (unfold card_head, view_menu in Ho).
    + split; [done|]. eexists. by split.
    + split; [done|]. unfold status_of_value. by repeat case_match.
    + split; [done|]. unfold getCanHide in *. by destruct x.
  - unfold body in Ho. destruct (viewMode s).
    + apply offered_app in Ho as [Ho|Ho].
      * offered_cases Ho by (unfold table_head in Ho). split; [done|]. eexists. by split.
      * destruct (0 <? length _)%nat; [|offered_cases Ho by idtac].
        apply offered_rows in Ho as (r & Hr & (c & Hc & Ho)%offered_rows). apply cell_offers in Ho as (part & -> & -> & Hp).
        apply list_elem_of_In, filter_In in Hc as [_ Hc]. destruct (keyed_row s r Hc Hr) as (r' & E & _). split; [done|]. by exists r'.
    + destruct (0 <? length _)%nat; [|offered_cases Ho by idtac].
      apply offered_rows in Ho as (r & Hr & Ho). apply card_offers in Ho as (part & -> & Hc & Hp).
      destruct (keyed_row s r Hc Hr) as (r' & E & _). split; [done|]. by exists r'.
Qed.

(** *** What the controls have opened *)

(** a bell that was rung has kept a system, in a card that of the card *)
Definition bell_ok (k : row_id) (b : Bells.bell) : Prop :=
  (Bells.opened b = true ↔ is_Some (Bells.content b))
  ∧ ∀ y id, Bells.content b = Some y → k = OfSystem id → sys_id y = id.
(** the bells are those of the rows, and what is open is open in a row that is there *)
Record controls (s : view) : Prop := {
  co_keys k : is_Some (Bells.at_key k (bells s)) ↔ is_Some (Bells.at_key k (keyed_rows s));
  co_bells k b : Bells.at_key k (bells s) = Some b → bell_ok k b;
  co_opened p k : opened s = Some (p, k) → is_Some (Bells.at_key k (keyed_rows s));
  co_alerts k : opened s = Some ("alerts"%string, k) → ∃ b, Bells.at_key k (bells s) = Some b ∧ Bells.opened b = true }.

Lemma keyed_id s k r : Bells.at_key k (keyed_rows s) = Some r → r ∈ row_model s ∧ ∀ id, k = OfSystem id → sys_id r = id.
Proof.
  intros (_ & -> & Hr)%Bells.at_key_elem%keyed_elem. split; [done|]. intros id. unfold row_key. by destruct (viewMode s); intros [= <-].
Qed.
Lemma memo_bell_ok k o h x : (∀ id, k = OfSystem id → sys_id x = id) → bell_ok k (Bells.memo o h x).
Proof.
  intros Hx. unfold bell_ok, Bells.memo. destruct o; cbn.
  - split; [by split; [intros _; eexists|]|]. intros y id [= <-]. apply Hx.
  - split; [by split; [|intros [? ?]]|done].
Qed.
(** drawing everything again keeps this, whatever has changed *)
Lemma settle_controls s :
  (∀ k b, Bells.at_key k (bells s) = Some b → bell_ok k b) →
  (∀ k, opened s = Some ("alerts"%string, k) → ∃ b, Bells.at_key k (bells s) = Some b ∧ Bells.opened b = true) →
  controls (settle s).
Proof.
  intros Hb Ha.
  assert (∀ p k, (o ← opened s; _ ← Bells.at_key o.2 (keyed_rows s); Some o) = Some (p, k) →
    opened s = Some (p, k) ∧ is_Some (Bells.at_key k (keyed_rows s))) as Ho.
  { intros p k. destruct (opened s) as [[p' k']|]; [|done]. cbn. destruct (Bells.at_key k' (keyed_rows s)) eqn:E; [|done].
    intros [= <- <-]. split; [done|]. by rewrite E. }
  split; cbn [bells opened settle with_bells].
  - intros k. change (keyed_rows (settle s)) with (keyed_rows s). rewrite Bells.at_key_arrange. by rewrite fmap_is_Some.
  - intros k b. rewrite Bells.at_key_arrange. intros (x & Hx & ->)%fmap_Some. destruct (keyed_id _ _ _ Hx) as [_ Hid].
    unfold Bells.render_bell. cbv zeta. destruct (eqb _ _); [|by apply memo_bell_ok].
    destruct (Bells.at_key k (bells s)) eqn:E; cbn; [by apply Hb|by apply memo_bell_ok].
  - intros p k Hpk. apply (Ho p k Hpk).
  - intros k [Hk [x Hx]]%Ho. destruct (Ha k Hk) as (b & Eb & Hop). rewrite Bells.at_key_arrange, Hx, Eb. cbn.
    eexists. split; [done|]. by rewrite Bells.render_opened.
Qed.
Lemma open_controls s part k : controls s → controls (open_part part k s).
Proof.
  intros [Hk Hb Ho Ha]. unfold open_part. destruct (Bells.at_key k (keyed_rows s)) as [r|] eqn:Er; [|by split].
  destruct (keyed_id _ _ _ Er) as [_ Hid]. destruct (proj2 (Hk k)) as [b Eb]; [by rewrite Er|].
  destruct (String.eqb_spec part "alerts") as [->|Hp].
  - assert (∀ b', Bells.at_key k (bells s) = Some b' → bell_ok k (Bells.click_bell r b') ∧ Bells.opened (Bells.click_bell r b') = true) as Hc.
    { intros b' E'. unfold Bells.click_bell. destruct (Bells.opened b') eqn:O; [split; [by apply Hb|done]|]. split; [by apply memo_bell_ok|done]. }
    split; cbn [bells opened with_bells].
    + intros k'. rewrite Bells.at_key_alter, fmap_is_Some. apply Hk.
    + intros k' b'. rewrite Bells.at_key_alter. intros (x & Ex & ->)%fmap_Some. case_bool_decide; [subst; by apply Hc|by apply Hb].
    + intros p k' [= <- <-]. change (is_Some (Bells.at_key k (keyed_rows s))). by rewrite Er.
    + intros k' [= <-]. rewrite Bells.at_key_alter, bool_decide_true, Eb by done. eexists. split; [done|]. by apply Hc.
  - split; cbn [bells opened with_bells]; [exact Hk|exact Hb| |].
    + intros p k' [= <- <-]. change (is_Some (Bells.at_key k (keyed_rows s))). by rewrite Er.
    + intros k' [= ->]. done.
Qed.
Definition inv (s : view) : Prop :=
  SystemsManager.reachable (store s) ∧ statusFilter s ≠ OfStatus Status_Pending ∧ sortable (sorting s)
  ∧ getIsVisible s System = true ∧ controls s.
Lemma settled s : controls s → ∀ f : view → view, bells (f s) = bells s → opened (f s) = opened s → controls (settle (f s)).
Proof. intros [_ Hb _ Ha] f E1 E2. apply settle_controls; by rewrite ?E1, ?E2. Qed.
Lemma sy_inv_user s e : inv s → offered (draw s) e → inv (step e s).
Proof.
  intros (Hr & Hp & Hs & Hv & Hc) Ho. apply sy_offered_promised in Ho. destruct e as [t|v|f|id|id|id b|part k|]; cbn [step].
  - split_and!; try done. by apply (settled s Hc (with_filters t (statusFilter s))).
  - split_and!; try done. by apply (settled s Hc (with_looks (sorting s) (columnVisibility s) v)).
  - destruct Ho. split_and!; try done. by apply (settled s Hc (with_filters (filter s) f)).
  - destruct Ho as [_ Hcol]. split_and!; [done|done|by apply Forall_singleton|done|]. by apply (settled s Hc (with_looks _ (columnVisibility s) (viewMode s))).
  - destruct Ho as [_ Hcol]. split_and!; [done|done| |done|].
    + apply Forall_forall. intros x [->|Hx]%toggled; [done|]. unfold sortable in Hs. rewrite Forall_forall in Hs. by apply Hs.
    + by apply (settled s Hc (with_looks _ (columnVisibility s) (viewMode s))).
  - destruct Ho as [_ Hid]. split_and!; [done|done|done| |by apply (settled s Hc (with_looks (sorting s) (jset id b (columnVisibility s)) (viewMode s)))].
    unfold getIsVisible. cbn. rewrite jget_jset. by case_match eqn:E; [apply String.eqb_eq in E|].
  - assert (store (open_part part k s) = store s ∧ statusFilter (open_part part k s) = statusFilter s ∧ sorting (open_part part k s) = sorting s
      ∧ columnVisibility (open_part part k s) = columnVisibility s) as (E1 & E2 & E3 & E4) by (unfold open_part; by destruct (Bells.at_key _ _)).
    unfold inv, getIsVisible. rewrite E1, E2, E3, E4. split_and!; [done..|by apply open_controls].
  - split_and!; try done. destruct Hc as [Hk Hb _ _]. by split.
Qed.
Lemma at_key_filter {A} (keep : row_id → bool) k (l : list (row_id * A)) :
  Bells.at_key k (List.filter (λ b, keep b.1) l) = if keep k then Bells.at_key k l else None.
Proof.
  unfold Bells.at_key. induction l as [|[k' b] l IH]; cbn; [by destruct (keep k)|]. destruct (keep k') eqn:E; cbn; case_bool_decide; subst.
  - by rewrite E.
  - exact IH.
  - rewrite E in IH |- *. exact IH.
  - exact IH.
Qed.
Lemma sy_inv_outside s s' : inv s → outside s s' → inv s'.
Proof.
  intros (Hr & Hp & Hs & Hv & Hc) [st al Hst|keep Hkeep].
  - split_and!; [unfold SystemsManager.reachable in *; by etrans|done..|]. by apply (settled s Hc (with_store st al)).
  - split_and!; [done..|]. destruct Hc as [Hk Hb Ho Ha]. apply settle_controls; cbn [bells opened with_bells].
    + intros k b. rewrite at_key_filter. destruct (keep k); [apply Hb|done].
    + intros k Hk'. rewrite at_key_filter, (Hkeep _ _ Hk'). by apply Ha.
Qed.
Lemma reached_sound_systems s : reached s → inv s.
Proof.
  revert s. apply page_invariant; [|apply sy_inv_user|apply sy_inv_outside].
  intros s (Hr & _ & Ef & Hs & Hv & Ho & Eb). split_and!; [done|by rewrite Ef|done|unfold getIsVisible; cbn; by rewrite Hv|].
  split; rewrite ?Ho; try done.
  - intros k. by rewrite Eb, Bells.at_key_arrange, fmap_is_Some.
  - intros k b. rewrite Eb, Bells.at_key_arrange. intros (x & Hx & ->)%fmap_Some. destruct (keyed_id _ _ _ Hx) as [_ Hid].
    cbn. unfold Bells.render_bell. cbv zeta. destruct (eqb _ _); by apply memo_bell_ok.
Qed.
(** what is open in a row, and the system it concerns *)
Lemma opened_part s part k : controls s → opened s = Some (part, k) → ∃ r x,
  Bells.at_key k (keyed_rows s) = Some r ∧ opened_system s = Some x
  ∧ (part ≠ "alerts"%string → x = r) ∧ (viewMode s = Grid → sys_id x = sys_id r).
Proof.
  intros [Hk Hb Ho Ha] E. destruct (Ho _ _ E) as [r Hr]. unfold opened_system. rewrite E. cbn.
  pose proof (keyed_id _ _ _ Hr) as [_ Hid]. pose proof Hr as (_ & Hkey & _)%Bells.at_key_elem%keyed_elem.
  destruct (String.eqb_spec part "alerts") as [->|Hp].
  - destruct (Ha _ E) as (b & Eb & Hop). destruct (Hb _ _ Eb) as [Hc Hy]. destruct (proj1 Hc Hop) as [y Ey].
    exists r, y. rewrite Eb. cbn. split_and!; [done|done|done|]. intros Hm. unfold row_key in Hkey. rewrite Hm in Hkey. by eapply Hy.
  - exists r, r. by rewrite Hr.
Qed.

End Page.

(** ** A visit: one system that is up, sorted by name and looked for in both layouts *)

#[local] Existing Instance reference_store_laws.
(** a library that sorts by name and takes a sorting as it comes *)
Definition by_name : TableLib SystemRecord := {|
  getSortedRowModel := λ sorting rows,
    match sorting with
    | [("system"%string, desc)] =>
        js_sort (λ a b : SystemRecord, if desc : bool then String.ltb (sys_name a) (sys_name b) else String.ltb (sys_name b) (sys_name a)) rows
    | _ => rows
    end;
  getIsSorted := λ id sorting, snd <$> find (λ x, String.eqb x.1 id) sorting;
  toggleSorting := λ id desc _, [(id, desc)] |}.
#[local] Instance by_name_laws : TableLibLaws by_name.
Proof.
  split; [|by intros id desc l x ->%list_elem_of_singleton; left].
  intros [|[id desc] [|]] rows; cbn; try done; [|by repeat case_match]. repeat case_match; try done; apply sort_perm.
Qed.

Definition first_view (st : SystemsManager.state) : view := {|
  store := st; alerts := []; filter := ""; statusFilter := All; sorting := [("system", false)]%string; columnVisibility := [];
  viewMode := Table; bells := []; opened := None |}.
Definition first_page (st : SystemsManager.state) : view := settle (T := by_name) (first_view st).
Definition url (id : string) : string := "/system/" +:+ id.
Definition visit (acts : list act) (s : view) : view :=
  default s (play (draw (H0 := plain) (T := by_name) no_settings "0.18.0" true url) (step (T := by_name)) acts s).
Definition look_for_it : list act :=
  [Click "head" "System"; Type_ "Filter..." "UP"; Choose "Layout" "Grid"; Choose "Status" "Up (1)"; Click "Sort By" "CPU";
   Tick "Visible Fields" "Memory"]%string.
Definition ex_view : view := visit look_for_it (first_page ex_state).
Example view_kept : (filter ex_view, sorting ex_view, columnVisibility ex_view) = ("UP", [("cpu", false)], [("memory", false)])%string.
Proof. vm_compute. reflexivity. Qed.

(** the bell of the first row is rung once; then only the systems that are down are listed, and the bell of the row that is first now
    opens the alerts of the system that was there before, while its menu is its own *)
Definition ex_both : SystemsManager.state := on_event (H := reference_store) "create" (example_system "b1" "db" Status_Down) ex_state.
Definition ring_twice : list act := [Click "a1" "Alerts"; Leave; Choose "Status" "Down (1)"; Click "b1" "Alerts"]%string.
Example bell_of_the_row_before :
  let s := visit ring_twice (first_page ex_both) in
  (sys_id <$> row_model (T := by_name) s, sys_id <$> opened_system (T := by_name) s) = (["b1"], Some "a1")%string
  ∧ sys_id <$> opened_system (T := by_name) (visit [Leave; Click "b1" "Open menu"]%string s) = Some "b1"%string
  ∧ sys_id <$> opened_system (T := by_name) (visit (Choose "Layout" "Grid" :: ring_twice) (first_page ex_both)) = Some "b1"%string.
Proof. vm_compute. done. Qed.
