(* ===== verification/Account.v ===== *)
(** * The settings of the user from one sign-in to the next, request by request

    [updateUserSettings], [saveQuickLinks], [saveExternalLinks], [logOut] ([lib/api.ts]) and [saveSettings]
    ([components/routes/settings/layout.tsx]), and the key that [App] asks for ([main.tsx]), as the client library sends their requests: a request is sent, served
    by the hub, and its answer delivered to the call that awaits it, which may set the stores and send the next
    one; calls overlap, also over a log-out.  [Api] has what a call does when nothing else is under way.

    What the code relies on in the client library is [Client]: a request that is under way is given up when one to the
    same address is sent (its documentation: it "will auto cancel duplicated pending requests"); the call that awaits it
    gets an error, and the hub may still serve it.  The hub's collection is [Api.SettingsServer], one for each user:
    a record is read and written by its user only. *)
From Stdlib Require Import ZArith Lia.
From stdpp Require Import functions.
From S2P Require Import Prelude JsValue Types Api.
Open Scope nat_scope.

(** ** Requests *)

(** [{ ...req.settings, ...newSettings }]: a key that the new settings lack is kept *)
Definition over {A} (new old : option A) : option A := match new with Some v => Some v | None => old end.
Definition overlay (old : option UserSettings) (new : UserSettings) : UserSettings :=
  let old := default no_settings old in {|
  us_chartTime := over (us_chartTime new) (us_chartTime old); us_emails := over (us_emails new) (us_emails old);
  us_webhooks := over (us_webhooks new) (us_webhooks old); us_unitTemp := over (us_unitTemp new) (us_unitTemp old);
  us_unitNet := over (us_unitNet new) (us_unitNet old); us_unitDisk := over (us_unitDisk new) (us_unitDisk old);
  us_colorWarn := over (us_colorWarn new) (us_colorWarn old); us_colorCrit := over (us_colorCrit new) (us_colorCrit old);
  us_hourFormat := over (us_hourFormat new) (us_hourFormat old); us_layoutWidth := over (us_layoutWidth new) (us_layoutWidth old);
  us_quickLinks := over (us_quickLinks new) (us_quickLinks old); us_externalLinks := over (us_externalLinks new) (us_externalLinks old) |}.

(** [$userSettings] before anything has arrived; [email] is empty when nobody is signed in *)
Definition initial_settings (email : string) : UserSettings := {|
  us_chartTime := Some T1h; us_emails := Some [email]; us_webhooks := None; us_unitTemp := Some Unit_Celsius; us_unitNet := Some Unit_Bytes;
  us_unitDisk := None; us_colorWarn := None; us_colorCrit := None; us_hourFormat := None; us_layoutWidth := None;
  us_quickLinks := None; us_externalLinks := None |}.
(** the calls, with what they keep while they wait *)
Inductive job :=
| Load                                        (* [updateUserSettings] *)
| Migrate (serverLinks : list QuickLink)      (* the same, while it saves the links of the browser *)
| SaveLinks (k : save_kind)
| SaveSettings (new : UserSettings)
| LoadKey.                                    (* the public key of the hub, asked for by [App] *)
Inductive request := RKey | RGet | RPatch (id : string) (settings : UserSettings) | RCreate (user : option string).
Definition address (r : request) : string * string :=
  match r with RKey => ("GET", "/api/beszel/getkey") | RGet => ("GET", "") | RPatch id _ => ("PATCH", id) | RCreate _ => ("POST", "") end.
Inductive answer := Got (id : string) (settings : option UserSettings) | Stored (settings : option UserSettings) | Key (key : string) | Failed.

Class Client := { auto_cancels : request → request → bool }.
(** the later request gives up the earlier one exactly when they are of one method and path *)
Class ClientLaws (C : Client) : Prop :=
  cancels_same later earlier : auto_cancels later earlier = bool_decide (address later = address earlier).

(** a request: who sent it, for which call, whether it was served, given up, and whether its call has gone on *)
Record flight := {
  sender : option string; job_of : job; req : request;
  served : option answer; aborted : bool; delivered : bool }.

Section Account.
Context {S : Type} `{SettingsServer S} {C : Client} (parse_links : string → option (list QuickLink)) (key : string).

(** [whose] is the user whose answer was the last to set the stores, and [told] what [saveSettings] has reported *)
Record state := {
  hub : string → S; token : option string; data : client; flights : list flight;
  whose : option string; told : list bool; publicKey : string }.
Definition with_hub (h : string → S) (s : state) : state := {|
  hub := h; token := token s; data := data s; flights := flights s; whose := whose s; told := told s; publicKey := publicKey s |}.
Definition with_flights (l : list flight) (s : state) : state := {|
  hub := hub s; token := token s; data := data s; flights := l; whose := whose s; told := told s; publicKey := publicKey s |}.
(** an answer to [u] sets the stores *)
Definition with_data (u : option string) (c : client) (s : state) : state := {|
  hub := hub s; token := token s; data := c; flights := flights s; whose := u; told := told s; publicKey := publicKey s |}.
Definition tell (ok : bool) (s : state) : state := {|
  hub := hub s; token := token s; data := data s; flights := flights s; whose := whose s; told := told s ++ [ok]; publicKey := publicKey s |}.

Definition with_key (k : string) (s : state) : state := {|
  hub := hub s; token := token s; data := data s; flights := flights s; whose := whose s; told := told s; publicKey := k |}.

Definition cancelled (r : request) (f : flight) : flight := {|
  sender := sender f; job_of := job_of f; req := req f; served := served f;
  aborted := aborted f || negb (delivered f) && auto_cancels r (req f); delivered := delivered f |}.
(** a request goes out with the token of the moment *)
Definition send (j : job) (r : request) (s : state) : state :=
  with_flights ((cancelled r <$> flights s)
    ++ [{| sender := token s; job_of := j; req := r; served := None; aborted := false; delivered := false |}]) s.

(** ** The hub *)

Definition serve (u : option string) (r : request) (h : string → S) : answer * (string → S) :=
  match u with
  | None => (Failed, h)
  | Some u =>
      match r with
      | RKey => (Key key, h)
      | RGet => (match getFirst (h u) with Some (id, x) => Got id x | None => Failed end, h)
      | RPatch id x => match put (h u) id x with Some s' => (Stored (Some x), <[u := s']> h) | None => (Failed, h) end
      | RCreate user =>
          if bool_decide (user = Some u) then
            match create (h u) user with Some (s', x) => (Stored x, <[u := s']> h) | None => (Failed, h) end
          else (Failed, h)
      end
  end.
Definition set_served (a : answer) (f : flight) : flight := {|
  sender := sender f; job_of := job_of f; req := req f; served := Some a; aborted := aborted f; delivered := delivered f |}.
Definition set_delivered (f : flight) : flight := {|
  sender := sender f; job_of := job_of f; req := req f; served := served f; aborted := aborted f; delivered := true |}.

(** ** The calls *)

Definition shows_quick (l : list QuickLink) (c : client) : client := {|
  userSettings := userSettings c; quickLinks := l; externalLinks := externalLinks c; localStorage := localStorage c |}.
Definition without_local (c : client) : client := {|
  userSettings := userSettings c; quickLinks := quickLinks c; externalLinks := externalLinks c;
  localStorage := jdel quick_links_key (localStorage c) |}.
Definition with_settings (x : option UserSettings) (c : client) : client := {|
  userSettings := x; quickLinks := quickLinks c; externalLinks := externalLinks c; localStorage := localStorage c |}.
Definition received (x : option UserSettings) (c : client) : client := {|
  userSettings := x; quickLinks := quickLinks c; externalLinks := default [] (x ← x; us_externalLinks x); localStorage := localStorage c |}.

(** [updateUserSettings] after its first answer *)
Definition got (u : option string) (id : string) (x : option UserSettings) (s : state) : state :=
  let serverLinks := default [] (x ← x; us_quickLinks x) in
  let c := received x (data s) in
  let keep c := with_data u (shows_quick serverLinks c) s in
  match jget quick_links_key (localStorage c) with
  | Some localRaw =>
      if truthy localRaw then
        match parse_links localRaw with
        | Some localLinks =>
            let newLinks := new_links serverLinks localLinks in
            if (0 <? length localLinks) && (0 <? length newLinks) then
              let merged := serverLinks ++ newLinks in
              send (Migrate serverLinks) (RPatch id (with_quickLinks merged x)) (with_data u (shows_quick merged c) s)
            else keep (without_local c)
        | None => keep (without_local c)
        end
      else keep c
  | None => keep c
  end.
(** the call of a flight goes on *)
Definition continue (f : flight) (a : answer) (s : state) : state :=
  match job_of f, req f, a with
  | Load, RGet, Got id x => got (sender f) id x s
  | Load, RGet, _ => send Load (RCreate (token s)) s
  | Load, _, Stored x =>
      with_data (sender f) {| userSettings := x; quickLinks := []; externalLinks := []; localStorage := localStorage (data s) |} s
  | Load, _, _ => s
  | Migrate serverLinks, _, Stored _ => with_data (whose s) (without_local (data s)) s
  | Migrate serverLinks, _, _ => with_data (sender f) (without_local (shows_quick serverLinks (data s))) s
  | SaveLinks k, RGet, Got id x => send (SaveLinks k) (RPatch id (patch_settings k x)) s
  | SaveLinks _, _, _ => s
  | SaveSettings new, RGet, Got id x => send (SaveSettings new) (RPatch id (overlay x new)) s
  | SaveSettings _, RGet, _ => tell false s
  | SaveSettings _, _, Stored x => tell true (with_data (sender f) (with_settings x (data s)) s)
  | SaveSettings _, _, _ => tell false s
  | LoadKey, _, Key k => with_key k s
  | LoadKey, _, _ => s
  end.

(** ** Events *)

Inductive event :=
| SignIn (u : string)                 (* and the page is put up, which asks for the key and loads *)
| LogOut
| BeginLinks (k : save_kind) | BeginSettings (new : UserSettings)
| Serve (i : nat) | Lose (i : nat)    (* the hub serves a request, or it does not come through *)
| Deliver (i : nat).
Definition set_token (t : option string) (s : state) : state := {|
  hub := hub s; token := t; data := data s; flights := flights s; whose := whose s; told := told s; publicKey := publicKey s |}.
Definition step (s : state) (e : event) : state :=
  match e with
  | SignIn u => send Load RGet (send LoadKey RKey (set_token (Some u) s))
  | LogOut =>
      with_data None {| userSettings := Some no_settings; quickLinks := []; externalLinks := []; localStorage := localStorage (data s) |}
        (set_token None s)
  | BeginLinks k => send (SaveLinks k) RGet (with_data (whose s) (save_begin k (data s)).1 s)
  | BeginSettings new => send (SaveSettings new) RGet s
  | Serve i =>
      match flights s !! i with
      | Some f => match served f with
                  | None => let '(a, h) := serve (sender f) (req f) (hub s) in with_hub h (with_flights (alter (set_served a) i (flights s)) s)
                  | Some _ => s
                  end
      | None => s
      end
  | Lose i =>
      match flights s !! i with
      | Some f => match served f with None => with_flights (alter (set_served Failed) i (flights s)) s | Some _ => s end
      | None => s
      end
  | Deliver i =>
      match flights s !! i with
      | Some f =>
          if delivered f then s
          else match (if aborted f then Some Failed else served f) with
               | Some a => continue f a (with_flights (alter set_delivered i (flights s)) s)
               | None => s
               end
      | None => s
      end
  end.
Definition run (es : list event) (s : state) : state := foldl step s es.
Definition first_state (h : string → S) (email : string) (storage : jsmap string) : state := {|
  hub := h; token := None;
  data := {| userSettings := Some (initial_settings email); quickLinks := []; externalLinks := []; localStorage := storage |};
  flights := []; whose := None; told := []; publicKey := "" |}.

(** nothing is left to be served or delivered *)
Definition settled (f : flight) : bool := delivered f && match served f with Some _ => true | None => false end.
Definition quiet (s : state) : bool := forallb settled (flights s).
(** the request the hub serves next when they come in the order in which they were sent *)
Definition in_turn (i : nat) (l : list flight) : Prop :=
  (∃ f, l !! i = Some f ∧ served f = None) ∧ ∀ j f, j < i → l !! j = Some f → served f ≠ None.
Inductive answering (s : state) : state → Prop :=
| serves i : in_turn i (flights s) → answering s (step s (Serve i))
| delivers i : answering s (step s (Deliver i)).

(** ** Every call ends *)

(** what a request still needs: to be served, to be delivered, and, of a first one, another *)
Definition todo (f : flight) : nat :=
  match served f with Some _ => 0 | None => 1 end
  + (if delivered f then 0 else match req f with RGet => 3 | _ => 1 end).
Arguments todo : simpl never.
Definition left_over (l : list flight) : nat := sum_list_with todo l.

Lemma left_app l l' : left_over (l ++ l') = left_over l + left_over l'.
Proof. apply sum_list_with_app. Qed.
Lemma left_alter (g : flight → flight) i l f :
  l !! i = Some f → left_over (alter g i l) + todo f = left_over l + todo (g f).
Proof.
  unfold left_over. revert i. induction l as [|f' l IH]; intros [|i]; cbn; [done|done|intros [= ->]; lia|].
  intros Hi%IH. lia.
Qed.
Lemma left_cancelled r l : left_over (cancelled r <$> l) = left_over l.
Proof. induction l as [|f l IH]; [done|]. unfold left_over in *. cbn. by rewrite IH. Qed.
Lemma left_send j r s : r ≠ RGet → left_over (flights (send j r s)) = left_over (flights s) + 2.
Proof. intros Hr. cbn. rewrite left_app, left_cancelled. by destruct r. Qed.
Lemma left_got u id x s : left_over (flights (got u id x s)) <= left_over (flights s) + 2.
Proof.
  unfold got. cbv zeta. destruct (jget _ _) as [raw|]; [|cbn [flights with_data]; lia]. destruct (truthy raw); [|cbn [flights with_data]; lia].
  destruct (parse_links raw) as [l|]; [|cbn [flights with_data]; lia]. destruct (_ && _); [|cbn [flights with_data]; lia]. by rewrite left_send.
Qed.
(** a call that goes on sends one request at most, and after its first answer only *)
Lemma left_continue f a s :
  left_over (flights (continue f a s)) <= left_over (flights s) + match req f with RGet => 2 | _ => 0 end.
Proof.
  unfold continue. destruct (job_of f), (req f), a; cbn [flights with_data with_key tell]; try lia;
    try (etrans; [apply left_got|lia]); by rewrite left_send.
Qed.

Lemma first_unserved l : Exists (λ f, served f = None) l → ∃ i, in_turn i l.
Proof.
  induction 1 as [f l Hf|f l _ (i & (g & Hg & Hn) & Hb)].
  - exists 0. split; [by exists f|lia].
  - destruct (served f) eqn:E; [|exists 0; split; [by exists f|lia]].
    exists (Datatypes.S i). split; [by exists g|]. intros [|j] f' Hj; cbn; [intros [= <-]; by rewrite E|intros Hl; eapply Hb; [|done]; lia].
Qed.
Lemma answer_due s : quiet s = false → ∃ s', answering s s' ∧ left_over (flights s') < left_over (flights s).
Proof.
  intros Hq. destruct (decide (Exists (λ f, served f = None) (flights s))) as [He|He].
  - destruct (first_unserved _ He) as [i Hi]. exists (step s (Serve i)). split; [by constructor|].
    destruct Hi as [(f & Hf & Hn) _]. cbn. rewrite Hf, Hn. destruct (serve _ _ _) as [a h].
    cbn [flights with_hub with_flights]. pose proof (left_alter (set_served a) i _ f Hf) as HL.
    unfold todo at 1 2 in HL. cbn in HL. rewrite Hn in HL. lia.
  - assert (∃ i f, flights s !! i = Some f ∧ delivered f = false ∧ is_Some (served f)) as (i & f & Hf & Hd & [a Ha]).
    { unfold quiet in Hq. rewrite <- not_true_iff_false, forallb_forall in Hq.
      destruct (decide (Exists (λ f, delivered f = false) (flights s))) as [Hx|Hx].
      - apply Exists_exists in Hx as (f & [i Hi]%list_elem_of_lookup & Hd). exists i, f. split_and!; [done|done|].
        destruct (served f) eqn:E; [by eexists|]. destruct He. apply Exists_exists. exists f. split; [by eapply list_elem_of_lookup_2|done].
      - destruct Hq. intros f Hf%list_elem_of_In. unfold settled. destruct (delivered f) eqn:D, (served f) eqn:E; try done.
        + destruct He. apply Exists_exists. by exists f.
        + destruct Hx. apply Exists_exists. by exists f.
        + destruct Hx. apply Exists_exists. by exists f. }
    exists (step s (Deliver i)). split; [constructor|]. cbn. rewrite Hf, Hd.
    pose proof (left_alter set_delivered i _ f Hf) as HL. unfold todo at 1 2 in HL. cbn in HL. rewrite Ha, Hd in HL.
    assert (∃ a', (if aborted f then Some Failed else served f) = Some a') as [a' ->] by (rewrite Ha; destruct (aborted f); by eexists).
    pose proof (left_continue f a' (with_flights (alter set_delivered i (flights s)) s)) as HC. cbn [flights with_flights] in HC.
    destruct (req f); lia.
Qed.
Lemma answers_suffice s : ∃ s', rtc answering s s' ∧ quiet s' = true.
Proof.
  induction s as [s IH] using (induction_ltof1 _ (λ s, left_over (flights s))).
  destruct (quiet s) eqn:E; [by exists s|]. destruct (answer_due s E) as (s' & Hs & Hl).
  destruct (IH s' Hl) as (s'' & Hr & Hq). exists s''. split; [by eapply rtc_l|done].
Qed.
End Account.

(** ** Links that are saved one after the other *)

(** one of the two lists of links *)
Definition of_kind (quick : bool) (k : save_kind) : bool := match k with SaveQuick _ => quick | SaveExternal _ => negb quick end.
Definition shown (quick : bool) (c : client) : save_kind := if quick then SaveQuick (quickLinks c) else SaveExternal (externalLinks c).
Lemma patch_again quick k k' x : of_kind quick k = true → of_kind quick k' = true →
  patch_settings k' (Some (patch_settings k x)) = patch_settings k' x.
Proof. by destruct quick, k, k'. Qed.
Lemma shown_save quick k c : of_kind quick k = true → shown quick (save_begin k c).1 = k.
Proof. by destruct quick, k. Qed.

Section Saves.
Context {S : Type} `{SettingsServer S} `{Laws : !SettingsServerLaws S} {C : Client} `{CL : !ClientLaws C}.
Context (parse_links : string → option (list QuickLink)) (key : string).
Abbreviation next := (step parse_links key).
(** the hub takes what a user writes to the record that is there *)
Context (takes_own : ∀ (s : S) id x y, getFirst s = Some (id, x) → is_Some (put s id y)).
Context (quick : bool) (u id : string) (x0 : option UserSettings) (s0 : state (S := S)).
Context (Hquiet : quiet s0 = true) (Htoken : token s0 = Some u) (Hrecord : getFirst (hub s0 u) = Some (id, x0)).

(** lists of one kind are saved, at any time; with [turn] the hub serves the requests in the order they were sent, and
    none is lost *)
Inductive saving (turn : bool) (s : state (S := S)) : state → Prop :=
| begins k : of_kind quick k = true → saving turn s (next s (BeginLinks k))
| serves_one i : (turn = true → in_turn i (flights s)) → saving turn s (next s (Serve i))
| loses_one i : turn = false → saving turn s (next s (Lose i))
| delivers_one i : saving turn s (next s (Deliver i)).

(** the settings the record can have meanwhile *)
Definition like (x : option UserSettings) : Prop := x = x0 ∨ ∃ k, of_kind quick k = true ∧ x = Some (patch_settings k x0).
Lemma patch_like k x : of_kind quick k = true → like x → patch_settings k x = patch_settings k x0.
Proof. intros Hk [->|(k' & Hk' & ->)]; [done|]. by apply (patch_again quick). Qed.
(** a request of a call that saves the list [k] *)
Record saves (k : save_kind) (f : flight) : Prop := {
  sv_kind : of_kind quick k = true;
  sv_sender : sender f = Some u;
  sv_job : job_of f = SaveLinks k;
  sv_req : req f = RGet ∨ req f = RPatch id (patch_settings k x0);
  sv_got a : req f = RGet → served f = Some a → ∃ x, a = Got id x ∧ like x;
  sv_stored a : req f ≠ RGet → served f = Some a → a = Stored (Some (patch_settings k x0)) }.
(** a first request that no call waits for *)
Definition spent (f : flight) : Prop := req f = RGet → delivered f = true ∨ aborted f = true.
Definition past (f : flight) : Prop := settled f = true ∨ ((∃ k, saves k f) ∧ spent f).
(** the hub has served no request before an earlier one *)
Definition ordered (l : list flight) : Prop :=
  ∀ i j f g, i < j → l !! i = Some f → l !! j = Some g → served g ≠ None → served f ≠ None.

(** *** What becomes of a single request *)

Lemma cancelled_settled r f : settled f = true → settled (cancelled r f) = true.
Proof. done. Qed.
Lemma cancelled_saves r k f : saves k f → saves k (cancelled r f).
Proof. intros []. by split. Qed.
Lemma cancelled_past r f : past f → past (cancelled r f).
Proof.
  intros [Hf|[[k Hk] Hs]]; [by left|right]. split; [exists k; by apply cancelled_saves|].
  intros [Hd|Ha]%Hs; [by left|right]. cbn. by rewrite Ha.
Qed.
(** a first request gives up every other that is under way *)
Lemma cancelled_get k f : saves k f → past (cancelled RGet f).
Proof.
  intros Hk. right. split; [exists k; by apply cancelled_saves|]. intros Hr. change (req f = RGet) in Hr. cbn. rewrite Hr, cancels_same, bool_decide_true by done.
  destruct (delivered f); [by left|right]. by rewrite orb_true_r.
Qed.
Lemma delivered_past f : past f → past (set_delivered f).
Proof.
  intros [Hf|[[k Hk] Hs]].
  - left. unfold settled in *. cbn. by apply andb_true_iff in Hf as [_ ->].
  - right. split; [exists k; destruct Hk; by split|]. intros _. by left.
Qed.
Lemma ordered_map (g : flight → flight) l : (∀ f, served (g f) = None ↔ served f = None) → ordered l → ordered (g <$> l).
Proof.
  intros Hg Ho i j f f' Hij. rewrite !list_lookup_fmap. intros (a & Ha & ->)%fmap_Some (b & Hb & ->)%fmap_Some. rewrite !Hg.
  by eapply Ho.
Qed.
Lemma ordered_alter i l : ordered l → ordered (alter set_delivered i l).
Proof.
  intros Ho j j' f f' Hj. rewrite !list_lookup_alter. destruct (decide (i = j)) as [->|].
  1: destruct (decide (j = j')) as [->|]; [lia|].
  2: destruct (decide (i = j')) as [->|]; [|by eapply Ho].
  - intros (a & Ha & ->)%fmap_Some Hb. exact (Ho j j' a f' Hj Ha Hb).
  - intros Ha (b & Hb & ->)%fmap_Some. exact (Ho j j' f b Hj Ha Hb).
Qed.
Lemma ordered_new l f : ordered l → served f = None → ordered (l ++ [f]).
Proof.
  intros Ho Hf i j a b Hij Ha Hb Hn. apply lookup_snoc_Some in Hb as [[Hj Hb]|[_ ->]]; [|done].
  rewrite lookup_app_l in Ha by (apply lookup_lt_Some in Hb; lia). exact (Ho i j a b Hij Ha Hb Hn).
Qed.
Lemma ordered_serve i l a : ordered l → in_turn i l → ordered (alter (set_served a) i l).
Proof.
  intros Ho [_ Hi] j j' f f' Hj. rewrite !list_lookup_alter.
  destruct (decide (i = j)) as [->|]; [|destruct (decide (i = j')) as [->|]].
  - by intros (b & Hb & ->)%fmap_Some.
  - intros Hf _ _. by apply (Hi j f).
  - by eapply Ho.
Qed.

(** *** All requests *)

Abbreviation newest s := (shown quick (data s)).
(** what holds of the hub and of the requests at any time *)
Record sound (s : state (S := S)) : Prop := {
  so_token : token s = Some u;
  so_others v : v ≠ u → hub s v = hub s0 v;
  so_record : ∃ x, getFirst (hub s u) = Some (id, x) ∧ like x;
  so_ordered : ordered (flights s) }.
(** the last request is one of the newest call, and when it is the second one and was served the list is stored *)
Record newest_last (s : state (S := S)) (pre : list flight) (f : flight) : Prop := {
  nl_flights : flights s = pre ++ [f];
  nl_past g : g ∈ pre → past g;
  nl_saves : saves (newest s) f;
  nl_waits : aborted f = false;
  nl_get : req f = RGet → delivered f = false;
  nl_put : req f ≠ RGet → served f ≠ None → getFirst (hub s u) = Some (id, Some (patch_settings (newest s) x0)) }.

Lemma begin_newest s k : of_kind quick k = true → sound s → (∀ f, f ∈ flights s → settled f = true ∨ ∃ k, saves k f) →
  sound (next s (BeginLinks k)) ∧ ∃ pre f, newest_last (next s (BeginLinks k)) pre f.
Proof.
  intros Hk [Ht Ho Hr Hor] Hf. split.
  - split; [done|done|done|]. apply ordered_new; [|done]. by apply ordered_map.
  - eexists _, _. split; [reflexivity| | |done|done|done].
    + intros g (g' & -> & [Hg|[k' Hg]]%Hf)%list_elem_of_fmap; [by left|by eapply cancelled_get].
    + change (newest (next s (BeginLinks k))) with (shown quick (save_begin k (data s)).1). rewrite shown_save by done.
      split; [done|done|done|by left|done|done].
Qed.
Lemma newest_all s pre f : newest_last s pre f → ∀ g, g ∈ flights s → settled g = true ∨ ∃ k, saves k g.
Proof.
  intros [E Hp Hf _ _ _] g. rewrite E. intros [[Hg|[Hg _]]%Hp | ->%list_elem_of_singleton]%elem_of_app; [by left|by right|].
  right. by eexists.
Qed.

(** *** The hub serves a request *)

Lemma serve_saves k f s : saves k f → served f = None → sound s →
  ∃ a h, serve key (sender f) (req f) (hub s) = (a, h) ∧ saves k (set_served a f)
    ∧ (∀ v, v ≠ u → h v = hub s0 v) ∧ (∃ x, getFirst (h u) = Some (id, x) ∧ like x)
    ∧ (req f ≠ RGet → getFirst (h u) = Some (id, Some (patch_settings k x0))).
Proof.
  intros [Hk Hs Hj Hr _ _] Hn [_ Ho (x & Hx & Hl) _]. unfold serve. rewrite Hs. destruct Hr as [Hr|Hr]; rewrite Hr; cbn [serve].
  - rewrite Hx. eexists _, _. split; [done|]. split; [|split_and!; [done|by exists x|done]].
    split; try done; [by left|]. cbn. intros a _ [= <-]. by exists x.
  - destruct (takes_own _ _ _ (patch_settings k x0) Hx) as [s' Hp]. rewrite Hp. eexists _, _. split; [done|].
    assert (getFirst s' = Some (id, Some (patch_settings k x0))) as Hg by (by eapply get_put).
    split_and!.
    + split; try done; [by right|cbn; intros a Hg1; congruence|cbn; by intros a _ [= <-]].
    + intros v Hv. rewrite fn_lookup_insert_ne by done. by apply Ho.
    + rewrite fn_lookup_insert. eexists. split; [done|]. right. by exists k.
    + by rewrite fn_lookup_insert.
Qed.
Lemma serve_newest s pre f i : in_turn i (flights s) → sound s → newest_last s pre f →
  sound (next s (Serve i)) ∧ ∃ pre' f', newest_last (next s (Serve i)) pre' f'.
Proof.
  intros Hi Hs Hn. pose proof Hi as [(g & Hg & Hu) _]. cbn [step]. rewrite Hg, Hu.
  assert (∃ k, saves k g ∧ (i = length pre → k = newest s)) as (k & Hk & Hnew).
  { destruct (newest_all _ _ _ Hn g) as [Hset|[k Hk]]; [by eapply list_elem_of_lookup_2|unfold settled in Hset; rewrite Hu, andb_false_r in Hset; done|].
    destruct (decide (i = length pre)) as [->|]; [|by exists k].
    destruct Hn as [E _ Hf _ _ _]. rewrite E, list_lookup_middle in Hg by done. injection Hg as <-. by exists (newest s). }
  destruct (serve_saves k g s Hk Hu Hs) as (a & h & -> & Hsg & Hh & Hrec & Hput). destruct Hs as [Ht _ _ Hor].
  split; [by split; [| | |apply ordered_serve]|]. destruct Hn as [E Hp Hf Ha Hget Hput0]. cbn [flights with_hub with_flights]. rewrite E in *.
  destruct (decide (i = length pre)) as [->|Hne].
  - rewrite list_lookup_middle in Hg by done. injection Hg as <-. rewrite (Hnew eq_refl) in *.
    exists pre, (set_served a f). split; [|exact Hp|exact Hsg|exact Ha|exact Hget|intros Hr _; exact (Hput Hr)]. by rewrite alter_app_r_alt, Nat.sub_diag by lia.
  - apply lookup_snoc_Some in Hg as [[Hlt Hg]|[-> _]]; [|done].
    exists (alter (set_served a) i pre), f. split; [by apply alter_app_l| |done|done|done|].
    + intros g' [j Hj]%list_elem_of_lookup. rewrite list_lookup_alter in Hj. destruct (decide (i = j)) as [->|];
        [|by eapply Hp, list_elem_of_lookup_2].
      rewrite Hg in Hj. injection Hj as <-. right. split; [by exists k|].
      destruct (Hp g) as [Hset|[_ Hsp]]; [by eapply list_elem_of_lookup_2|unfold settled in Hset; by rewrite Hu, andb_false_r in Hset|exact Hsp].
    + intros _ Hser. destruct (Hor i (length pre) g f Hlt); [by apply lookup_app_l_Some|by apply list_lookup_middle|done|done].
Qed.

(** *** An answer is delivered *)

Lemma past_alter i (l : list flight) : (∀ g, g ∈ l → past g) → ∀ g, g ∈ alter set_delivered i l → past g.
Proof.
  intros Hp g [j Hj]%list_elem_of_lookup. rewrite list_lookup_alter in Hj.
  destruct (decide (i = j)); [|by eapply Hp, list_elem_of_lookup_2].
  apply fmap_Some in Hj as (g' & Hg & ->). by eapply delivered_past, Hp, list_elem_of_lookup_2.
Qed.
(** a call of the past does nothing more *)
Lemma continue_past f a (s : state (S := S)) : past f → delivered f = false → (if aborted f then Some Failed else served f) = Some a →
  continue parse_links f a s = s.
Proof.
  intros [Hset|[[k [_ _ Hj Hr _ _]] Hsp]] Hd Ha; [unfold settled in Hset; by rewrite Hd in Hset|].
  unfold continue. rewrite Hj. destruct Hr as [Hr|Hr]; rewrite Hr; [|by destruct a].
  destruct (Hsp Hr) as [?|Hab]; [congruence|]. rewrite Hab in Ha. by injection Ha as <-.
Qed.
Lemma sound_delivered s i : sound s → sound (with_flights (alter set_delivered i (flights s)) s).
Proof. intros [Ht Ho Hr Hor]. split; [done|done|done|]. by apply ordered_alter. Qed.
Lemma deliver_newest s pre f i : sound s → newest_last s pre f →
  sound (next s (Deliver i)) ∧ ∃ pre' f', newest_last (next s (Deliver i)) pre' f'.
Proof.
  intros Hs Hn. assert (sound s ∧ ∃ pre' f', newest_last s pre' f') as Hsame by (split; [done|by eexists _, _]).
  cbn [step]. destruct (flights s !! i) as [g|] eqn:Hg; [|done]. destruct (delivered g) eqn:Hd; [done|].
  destruct (if aborted g then Some Failed else served g) as [a|] eqn:Ha; [|done]. clear Hsame.
  pose proof (sound_delivered s i Hs) as Hs1. set (s1 := with_flights _ s) in *.
  destruct Hn as [E Hp Hf Hab Hget Hput]. assert (flights s1 = alter set_delivered i (pre ++ [f])) as E1 by (unfold s1; by rewrite <- E).
  rewrite E in Hg. apply lookup_snoc_Some in Hg as [[Hlt Hg]|[Hi Hfg]].
  - rewrite continue_past; [|by eapply Hp, list_elem_of_lookup_2|done|done]. split; [done|].
    exists (alter set_delivered i pre), f. split; [by rewrite E1, alter_app_l|by apply past_alter|done|done|done|done].
  - subst g i. assert (flights s1 = pre ++ [set_delivered f]) as E2 by (rewrite E1, alter_app_r_alt, Nat.sub_diag by lia; done). rewrite Hab in Ha.
    unfold continue. rewrite (sv_job _ _ Hf). destruct (sv_req _ _ Hf) as [Hr|Hr]; rewrite Hr.
    + destruct (sv_got _ _ Hf a Hr Ha) as (x & -> & Hx). rewrite (patch_like _ x) by (done || apply Hf).
      destruct Hs1 as [Ht Ho Hrec Hor]. split.
      * split; [done|done|done|]. apply ordered_new; [|done]. by apply ordered_map.
      * exists (cancelled (RPatch id (patch_settings (newest s) x0)) <$> flights s1). eexists. split; [reflexivity| | |done|done|done].
        -- intros g (g' & -> & Hg)%list_elem_of_fmap. apply cancelled_past. rewrite E2 in Hg.
           apply elem_of_app in Hg as [Hg| ->%list_elem_of_singleton]; [by apply Hp|].
           right. split; [exists (newest s); destruct Hf; by split|]. intros _. by left.
        -- split; [apply Hf|done|done|by right|done|done].
    + destruct a; (split; [done|]; exists pre, (set_delivered f); split; [done|done|destruct Hf; by split|done|cbn; congruence|done]).
Qed.

(** *** The calls together *)

Lemma saving_sound s : rtc (saving true) s0 s → s = s0 ∨ sound s ∧ ∃ pre f, newest_last s pre f.
Proof.
  assert (∀ f, f ∈ flights s0 → settled f = true) as Hset.
  { intros f Hf. unfold quiet in Hquiet. rewrite forallb_forall in Hquiet. by apply Hquiet, list_elem_of_In. }
  assert (∀ i f, flights s0 !! i = Some f → delivered f = true ∧ is_Some (served f)) as Hall.
  { intros i f Hf. apply list_elem_of_lookup_2, Hset in Hf. unfold settled in Hf. apply andb_true_iff in Hf as [? Hf]. split; [done|].
    by destruct (served f). }
  revert s. apply (rtc_ind_r (λ s, s = s0 ∨ sound s ∧ ∃ pre f, newest_last s pre f) s0); [by left|].
  intros s s' _ Hstep IH. destruct IH as [->|[Hs (pre & f & Hn)]].
  - destruct Hstep as [k Hk|i Hi|i ?|i]; [| |done|].
    + right. apply begin_newest; [done| |by intros f Hf%Hset; left]. split; [done|done|by exists x0; split; [|left]|].
      intros i j f g _ Hf _ _. destruct (Hall _ _ Hf) as [_ [? ->]]. done.
    + destruct (Hi eq_refl) as [(f & Hf & Hu) _]. destruct (Hall _ _ Hf) as [_ [? ?]]. congruence.
    + left. cbn [step]. destruct (flights s0 !! i) as [f|] eqn:Hf; [|done]. by destruct (Hall _ _ Hf) as [-> _].
  - right. destruct Hstep as [k Hk|i Hi|i ?|i]; [| |done|].
    + apply begin_newest; [done|done|]. by eapply newest_all.
    + eapply serve_newest; [by apply Hi|done|done].
    + by eapply deliver_newest.
Qed.

(** *** In any order, and with losses *)

Definition jobs (s : state (S := S)) : list job := job_of <$> flights s.
(** the settings are those of before, but for a list that was saved *)
Definition stored (l : list job) (x : option UserSettings) : Prop :=
  x = x0 ∨ ∃ k, of_kind quick k = true ∧ SaveLinks k ∈ l ∧ x = Some (patch_settings k x0).
Lemma stored_like l x : stored l x → like x.
Proof. intros [->|(k & Hk & _ & ->)]; [by left|right; by exists k]. Qed.
Lemma stored_more l l' x : (∀ j, j ∈ l → j ∈ l') → stored l x → stored l' x.
Proof. intros Hl [->|(k & Hk & Hj & ->)]; [by left|right; exists k; auto]. Qed.
(** a request of a call that saves the list [k], which may have failed *)
Record attempt (k : save_kind) (f : flight) : Prop := {
  at_kind : of_kind quick k = true;
  at_sender : sender f = Some u;
  at_job : job_of f = SaveLinks k;
  at_req : req f = RGet ∨ req f = RPatch id (patch_settings k x0);
  at_got i x : req f = RGet → served f = Some (Got i x) → i = id ∧ like x }.
Record kept (s : state (S := S)) : Prop := {
  kp_token : token s = Some u;
  kp_others v : v ≠ u → hub s v = hub s0 v;
  kp_record : ∃ x, getFirst (hub s u) = Some (id, x) ∧ stored (jobs s) x;
  kp_flights f : f ∈ flights s → settled f = true ∨ ∃ k, attempt k f }.

Lemma jobs_send j r s : jobs (send j r s) = jobs s ++ [j].
Proof. unfold jobs. cbn. rewrite fmap_app, <- list_fmap_compose. done. Qed.
Lemma jobs_alter (g : flight → flight) i (l : list flight) : (∀ f, job_of (g f) = job_of f) → job_of <$> alter g i l = job_of <$> l.
Proof. intros Hg. revert i. induction l as [|f l IH]; intros [|i]; cbn; [done..|by rewrite Hg|by rewrite IH]. Qed.
Lemma attempt_other k f (g : flight → flight) : sender (g f) = sender f → job_of (g f) = job_of f → req (g f) = req f →
  (∀ i x, served (g f) = Some (Got i x) → served f = Some (Got i x)) → attempt k f → attempt k (g f).
Proof. intros E1 E2 E3 E4 [Hk Hs Hj Hr Hg]. split; rewrite ?E1, ?E2, ?E3; auto. Qed.
Lemma kept_send k r s : kept s → of_kind quick k = true → (r = RGet ∨ r = RPatch id (patch_settings k x0)) → kept (send (SaveLinks k) r s).
Proof.
  intros [Ht Ho (x & Hx & Hst) Hf] Hk Hr. split; [done|done| |].
  - exists x. split; [done|]. rewrite jobs_send. eapply stored_more; [|done]. intros j Hj. apply elem_of_app. by left.
  - cbn. intros f [(g & -> & [Hg|[k' Hg]]%Hf)%list_elem_of_fmap|Hg%list_elem_of_singleton]%elem_of_app; [by left| |].
    + right. exists k'. by eapply (attempt_other k' g (cancelled r)).
    + subst f. right. exists k. by split.
Qed.
Lemma kept_alter (g : flight → flight) i s : (∀ f, job_of (g f) = job_of f) →
  (∀ f, settled f = true → settled (g f) = true) → (∀ k f, attempt k f → attempt k (g f)) →
  kept s → kept (with_flights (alter g i (flights s)) s).
Proof.
  intros Hj Hs Ha [Ht Ho (x & Hx & Hst) Hf]. split; [done|done| |].
  - exists x. split; [done|]. unfold jobs. cbn. by rewrite jobs_alter.
  - cbn. intros f [j Hl]%list_elem_of_lookup. rewrite list_lookup_alter in Hl. destruct (decide (i = j)).
    + apply fmap_Some in Hl as (f' & Hl & ->). destruct (Hf f') as [?|[k ?]]; [by eapply list_elem_of_lookup_2|left; auto|right; exists k; auto].
    + eapply Hf, list_elem_of_lookup_2, Hl.
Qed.
Lemma delivered_settled f : settled f = true → settled (set_delivered f) = true.
Proof. unfold settled. cbn. by intros [_ ->]%andb_prop. Qed.
Lemma kept_serve i s : kept s → kept (next s (Serve i)).
Proof.
  intros Hs. cbn [step]. destruct (flights s !! i) as [f|] eqn:Ef; [|done]. destruct (served f) eqn:Eu; [done|].
  assert (∃ k, attempt k f) as [k [Hk Hsn Hj Hr _]].
  { destruct (kp_flights _ Hs f) as [Hx|Hx]; [by eapply list_elem_of_lookup_2| |done]. unfold settled in Hx. by rewrite Eu, andb_false_r in Hx. }
  pose proof Hs as [Ht Ho (x & Hx & Hst) Hf]. rewrite Hsn.
  assert (∀ a, (∀ i x, req f = RGet → a = Got i x → i = id ∧ like x) → kept (with_flights (alter (set_served a) i (flights s)) s)) as Hkept.
  { intros a Ha. split; [done|done| |].
    - exists x. split; [done|]. unfold jobs. cbn. by rewrite jobs_alter.
    - cbn. intros f' [j Hl]%list_elem_of_lookup. rewrite list_lookup_alter in Hl. destruct (decide (i = j)) as [<-|]; [|by eapply Hf, list_elem_of_lookup_2].
      rewrite Ef in Hl. injection Hl as <-. right. exists k. split; try done. cbn. intros ? ? Hq [= ->]. by eapply Ha. }
  destruct Hr as [Hr|Hr]; rewrite Hr; cbn [serve].
  - rewrite Hx. apply Hkept. intros ? ? _ [= <- <-]. split; [done|]. by eapply stored_like.
  - destruct (takes_own _ _ _ (patch_settings k x0) Hx) as [s' Hp]. rewrite Hp.
    destruct (Hkept (Stored (Some (patch_settings k x0)))) as [Ht' _ _ Hf']; [done|]. split; [done| | |done].
    + intros v Hv. cbn. rewrite fn_lookup_insert_ne by done. by apply Ho.
    + cbn. rewrite fn_lookup_insert. exists (Some (patch_settings k x0)). split; [by eapply get_put|]. right. exists k. split_and!; [done| |done].
      unfold jobs. cbn. rewrite jobs_alter by done. apply list_elem_of_fmap. exists f. split; [done|by eapply list_elem_of_lookup_2].
Qed.
Lemma kept_lose i s : kept s → kept (next s (Lose i)).
Proof.
  intros Hs. cbn [step]. destruct (flights s !! i) as [f|]; [|done]. destruct (served f); [done|]. apply kept_alter; try done.
  - intros g. unfold settled. cbn. by intros [-> _]%andb_prop.
  - intros k g. by apply attempt_other.
Qed.
Lemma kept_deliver i s : kept s → kept (next s (Deliver i)).
Proof.
  intros Hs. cbn [step]. destruct (flights s !! i) as [f|] eqn:Ef; [|done]. destruct (delivered f) eqn:Ed; [done|].
  destruct (if aborted f then Some Failed else served f) as [a|] eqn:Ea; [|done].
  assert (kept (with_flights (alter set_delivered i (flights s)) s)) as Hs'.
  { apply kept_alter; try done; [apply delivered_settled|]. intros k g. by apply attempt_other. }
  destruct (kp_flights _ Hs f) as [Hx|[k [Hk _ Hj Hr Hg]]]; [by eapply list_elem_of_lookup_2|unfold settled in Hx; by rewrite Ed in Hx|].
  unfold continue. rewrite Hj. destruct Hr as [Hr|Hr]; rewrite Hr; [|by destruct a]. destruct a as [j x| | |]; try done.
  destruct (aborted f); [done|]. destruct (Hg j x Hr Ea) as [-> Hl]. apply kept_send; [done|done|]. right. by rewrite patch_like.
Qed.
Lemma saving_kept turn s : rtc (saving turn) s0 s → kept s.
Proof.
  revert s. apply (rtc_ind_r (λ s, kept s) s0).
  - split; [done|done|exists x0; split; [done|by left]|]. intros f Hf. left. unfold quiet in Hquiet. rewrite forallb_forall in Hquiet.
    by apply Hquiet, list_elem_of_In.
  - intros s s' _ [k Hk|i _|i _|i] IH; [|by apply kept_serve|by apply kept_lose|by apply kept_deliver].
    cbn [step]. apply kept_send; [by destruct IH|done|by left].
Qed.

(** C34: lists of one kind (quick links or external links) that are saved at any time, also while earlier saves are under way:
    what is under way comes to an end; in whatever order the hub serves the requests and whichever are lost, it has
    the settings of before with no other change than one of the lists that were saved, and those of other users are untouched; and
    when the hub serves the requests in the order they were sent and none is lost, it has in the end the list that the page shows, the last
    one. *)
Theorem saves_settle turn s : rtc (saving turn) s0 s →
  (∃ s', rtc (answering parse_links key) s s' ∧ quiet s' = true)
  ∧ (∃ x, getFirst (hub s u) = Some (id, x) ∧ stored (jobs s) x)
  ∧ (∀ v, v ≠ u → hub s v = hub s0 v)
  ∧ (turn = true → quiet s = true → s = s0 ∨ getFirst (hub s u) = Some (id, Some (patch_settings (newest s) x0))).
Proof.
  intros Hr. pose proof (saving_kept turn s Hr) as [_ Ho Hx _]. split_and!; [apply answers_suffice|done|done|].
  intros -> Hq. destruct (saving_sound s Hr) as [->|[Hs (pre & f & [E _ Hf _ Hget Hput])]]; [by left|right].
  assert (settled f = true) as [Hd Hser]%andb_true_iff.
  { unfold quiet in Hq. rewrite forallb_forall in Hq. apply Hq. rewrite E. apply in_or_app. right. by left. }
  apply Hput; [|by destruct (served f)]. intros Hg. rewrite (Hget Hg) in Hd. done.
Qed.
End Saves.

(** ** Whose settings the page shows *)

Section Owner.
Context {S : Type} `{SettingsServer S} {C : Client} (parse_links : string → option (list QuickLink)) (key : string).
Abbreviation next := (step parse_links key).

(** every call has ended before the user logs out; anything else may happen, in any order *)
Inductive patient (s : state (S := S)) : state → Prop :=
| signs_in v : token s = None → patient s (next s (SignIn v))
| logs_out : (∀ f, f ∈ flights s → delivered f = true) → patient s (next s LogOut)
| saves_links k : is_Some (token s) → patient s (next s (BeginLinks k))
| saves_form new : is_Some (token s) → patient s (next s (BeginSettings new))
| is_served i : patient s (next s (Serve i))
| is_lost i : patient s (next s (Lose i))
| is_delivered i : patient s (next s (Deliver i)).

(** what waits is of the user who is signed in *)
Record own (s : state (S := S)) : Prop := {
  own_data : whose s = None ∨ whose s = token s;
  own_flights f : f ∈ flights s → delivered f = false → sender f = token s ∧ is_Some (token s) }.

Lemma own_send j r s : own s → is_Some (token s) → own (send j r s).
Proof.
  intros [Hw Hf] Ht. split; [done|]. cbn. intros f [(g & -> & Hg)%list_elem_of_fmap| ->%list_elem_of_singleton]%elem_of_app Hd; [|done].
  by apply (Hf g).
Qed.
Lemma own_with_data v c s : own s → v = None ∨ v = token s → own (with_data v c s).
Proof. intros [Hw Hf] Hv. by split. Qed.
Lemma own_with_key k s : own s → own (with_key k s).
Proof. intros [Hw Hf]. by split. Qed.
Lemma own_tell ok s : own s → own (tell ok s).
Proof. intros [Hw Hf]. by split. Qed.
Lemma own_alter s i (g : flight → flight) h :
  (∀ f, sender (g f) = sender f) → (∀ f, delivered (g f) = false → delivered f = false) →
  own s → own (with_hub h (with_flights (alter g i (flights s)) s)).
Proof.
  intros Hs Hd [Hw Hf]. split; [done|]. cbn. intros f [j Hj]%list_elem_of_lookup Hu. rewrite list_lookup_alter in Hj.
  destruct (decide (i = j)); [|by eapply Hf; [eapply list_elem_of_lookup_2|]].
  apply fmap_Some in Hj as (f' & Hj & ->). rewrite Hs. by eapply Hf; [eapply list_elem_of_lookup_2|apply Hd].
Qed.
Lemma own_got v id x s : own s → v = token s → is_Some (token s) → own (got parse_links v id x s).
Proof.
  intros Ho -> Ht. unfold got. cbv zeta.
  repeat case_match; try apply own_send; try apply own_with_data; try done; by right.
Qed.
Lemma own_continue f a s : own s → sender f = token s → is_Some (token s) → own (continue parse_links f a s).
Proof.
  intros Ho Hs Ht. unfold continue. rewrite Hs.
  repeat case_match; try apply own_tell; try apply own_with_key; try apply own_got; try apply own_send; try apply own_with_data; try done; try (by right); try (by apply Ho).
Qed.
Lemma own_patient s s' : own s → patient s s' → own s'.
Proof.
  intros Ho [v Ht|Hd|k Ht|new Ht|i|i|i]; cbn [step].
  - do 2 (apply own_send; [|by eexists]). destruct Ho as [Hw Hf]. split; [left; rewrite Ht in Hw; by destruct Hw|].
    intros f Hin Hu. destruct (Hf f Hin Hu) as [_ [? ?]]. cbn in *. congruence.
  - split; [by left|]. intros f Hf%Hd Hu. cbn in *. congruence.
  - apply own_send; [|done]. apply own_with_data; [done|]. by apply Ho.
  - by apply own_send.
  - destruct (flights s !! i) as [f|]; [|done]. destruct (served f); [done|].
    destruct (serve _ _ _) as [a h]. by apply own_alter.
  - destruct (flights s !! i) as [f|]; [|done]. destruct (served f); [done|]. by apply (own_alter s i _ (hub s)).
  - destruct (flights s !! i) as [f|] eqn:Hf; [|done]. destruct (delivered f) eqn:Hd; [done|]. case_match; [|done].
    destruct (own_flights _ Ho f) as [Hs Ht]; [by eapply list_elem_of_lookup_2|done|].
    apply own_continue; [by apply (own_alter s i _ (hub s))|done|done].
Qed.

(** Fact [own_settings]: a user who logs out only when every call has ended leaves nothing behind: at any time what the page shows
    was set by an answer to the user who is signed in, or by nobody. *)
Theorem own_settings h email storage s : rtc patient (first_state h email storage) s → whose s = None ∨ whose s = token s.
Proof.
  intros Hr. cut (own s); [by intros []|]. revert s Hr. apply rtc_ind_r.
  - split; [by left|]. by intros f ?%elem_of_nil.
  - intros s s' _ Hp Ho. by eapply own_patient.
Qed.
End Owner.

(** ** Examples *)

(** the documented cancellation, and a hub where [u] and [v] have a record each *)
#[local] Instance example_client : Client := {| auto_cancels later earlier := bool_decide (address later = address earlier) |}.
#[local] Instance example_client_laws : ClientLaws example_client.
Proof. done. Qed.
#[local] Instance example_hub : SettingsServer (option UserSettings) := one_record true.
#[local] Instance example_hub_laws : SettingsServerLaws (option UserSettings) := one_record_laws true.
Definition ex_run (es : list event) (s : state) : state := run (λ _, None) "key" es s.
Definition ex_external (name : string) : ExternalLink := {| el_id := name; el_url := name; el_label := name; el_icon := "globe"; el_category := None |}.
Definition ex_hub (v : string) : option UserSettings := if bool_decide (v = "u"%string) then Some ex_settings else None.
(** [u] is signed in and the settings have arrived *)
Definition ex_in : state := ex_run [SignIn "u"; Serve 0; Deliver 0; Serve 1; Deliver 1] (first_state ex_hub "" []).
Definition links_at (v : string) (s : state) : option (list QuickLink) * option (list ExternalLink) :=
  (us_quickLinks (default no_settings (hub s v)), us_externalLinks (default no_settings (hub s v))).

(** two lists of quick links: the second save gives up the first, and is stored *)
Definition ex_twice : list event :=
  [BeginLinks (SaveQuick []); Serve 2; BeginLinks (SaveQuick [ex_link "b"]); Deliver 2; Serve 3; Deliver 3; Serve 4; Deliver 4].
Example last_list_stored : let s := ex_run ex_twice ex_in in quiet s = true ∧ links_at "u" s = (Some [ex_link "b"], None).
Proof. vm_compute. done. Qed.
(** a list of the other kind instead: the quick links of the first are on the page and not at the hub *)
Example other_list_lost :
  let s := ex_run [BeginLinks (SaveQuick []); BeginLinks (SaveExternal [ex_external "e"]); Serve 2; Deliver 2; Serve 3; Deliver 3; Serve 4; Deliver 4] ex_in in
  quiet s = true ∧ quickLinks (data s) = [] ∧ links_at "u" s = (Some [ex_link "a"], Some [ex_external "e"]).
Proof. vm_compute. done. Qed.
(** the condition of the last part is needed: a hub that serves the second write before the first ends with the first list *)
Example late_write_wins :
  let s := ex_run [BeginLinks (SaveQuick []); Serve 2; Deliver 2; BeginLinks (SaveQuick [ex_link "b"]); Serve 4; Deliver 4; Serve 5; Deliver 5;
                   Serve 3; Deliver 3] ex_in in
  quiet s = true ∧ quickLinks (data s) = [ex_link "b"] ∧ links_at "u" s = (Some [], None).
Proof. vm_compute. done. Qed.
(** a list that is saved before the settings have arrived gives up loading them: they do not arrive, though nothing failed *)
Example loading_given_up :
  let s := ex_run [SignIn "u"; BeginLinks (SaveExternal []); Serve 0; Deliver 0; Serve 1; Deliver 1; Serve 2; Deliver 2; Serve 3; Deliver 3; Serve 4; Deliver 4] (first_state ex_hub "" []) in
  quiet s = true ∧ quickLinks (data s) = [] ∧ whose s = None ∧ links_at "u" s = (Some [ex_link "a"], Some []).
Proof. vm_compute. done. Qed.
(** settings that arrive after the log-out stay; the next user sees the links, when their own do not arrive, and
    stores them with the next change *)
Example links_of_another_user :
  let s := ex_run [SignIn "u"; Serve 0; Deliver 0; Serve 1; LogOut; Deliver 1; SignIn "v"; Serve 2; Deliver 2; Lose 3; Deliver 3; Serve 4; Deliver 4] (first_state ex_hub "" []) in
  let s' := ex_run [BeginLinks (SaveQuick (quickLinks (data s) ++ [ex_link "new"])); Serve 5; Deliver 5; Serve 6; Deliver 6] s in
  token s = Some "v"%string ∧ whose s = Some "u"%string ∧ quickLinks (data s) = [ex_link "a"]
  ∧ quiet s' = true ∧ links_at "v" s' = (Some [ex_link "a"; ex_link "new"], None).
Proof. vm_compute. done. Qed.
Lemma own_settings_witness :
  rtc (patient (λ _, None) "key") (first_state ex_hub "" []) (step (λ _, None) "key" (first_state ex_hub "" []) (SignIn "u"))
  ∧ (whose (step (λ _, None) "key" (first_state ex_hub "" []) (SignIn "u")) = None ∨ whose (step (λ _, None) "key" (first_state ex_hub "" []) (SignIn "u")) = Some "u"%string).
Proof.
  assert (rtc (patient (λ _, None) "key") (first_state ex_hub "" []) (step (λ _, None) "key" (first_state ex_hub "" []) (SignIn "u"))) as Hr
    by (apply rtc_once; by constructor).
  split; [exact Hr|exact (own_settings _ _ _ _ _ _ Hr)].
Defined.

(** a script of saves that the hub serves in turn *)
Fixpoint in_turnb (i : nat) (l : list flight) {struct l} : bool :=
  match l with
  | [] => false
  | f :: l => match served f, i with None, 0 => true | Some _, Datatypes.S i => in_turnb i l | _, _ => false end
  end.
Lemma in_turnb_spec i l : in_turnb i l = true → in_turn i l.
Proof.
  revert i. induction l as [|f l IH]; intros i; [done|]. cbn. destruct (served f) eqn:E, i as [|i]; try done.
  - intros [(g & Hg & Hn) Hb]%IH. split; [by exists g|]. intros [|j] f' Hj; cbn; [intros [= <-]; by rewrite E|intros Hl; eapply Hb; [|done]; lia].
  - intros _. split; [by exists f|lia].
Qed.
Fixpoint in_turn_script (quick : bool) (es : list event) (s : state (S := option UserSettings)) : bool :=
  match es with
  | [] => true
  | e :: es =>
      match e with BeginLinks k => of_kind quick k | Serve i => in_turnb i (flights s) | Deliver _ => true | _ => false end
      && in_turn_script quick es (step (λ _, None) "key" s e)
  end.
Lemma script_saving quick es s : in_turn_script quick es s = true → rtc (saving (λ _, None) "key" quick true) s (ex_run es s).
Proof.
  revert s. induction es as [|e es IH]; intros s; [done|]. cbn [in_turn_script]. intros [He Hes]%andb_true_iff.
  eapply rtc_l; [|by apply IH]. destruct e; try done.
  - by apply begins.
  - apply serves_one. intros _. by apply in_turnb_spec.
  - apply delivers_one.
Qed.
Lemma saves_settle_witness :
  quiet (ex_run ex_twice ex_in) = true
  ∧ (ex_run ex_twice ex_in = ex_in
     ∨ getFirst (hub (ex_run ex_twice ex_in) "u"%string)
       = Some ("r1"%string, Some (patch_settings (shown true (data (ex_run ex_twice ex_in))) (Some ex_settings)))).
Proof.
  split; [by vm_compute|].
  refine (proj2 (proj2 (proj2 (saves_settle (λ _, None) "key" _ true "u" "r1" (Some ex_settings) ex_in _ _ _ true (ex_run ex_twice ex_in) _))) eq_refl _).
  - intros s id x y _. by eexists.
  - by vm_compute.
  - by vm_compute.
  - by vm_compute.
  - apply script_saving. by vm_compute.
  - by vm_compute.
Defined.
